(* ===== verification/_CoqProject ===== *)
-Q . S2P
Prelude.v
PyValue.v
Sha256.v
CanonicalJson.v
Timestamps.v
Decimals.v
Finalizer.v
Floats.v
ProviderLimiter.v
RefundPolicy.v
ActionSpecs.v
ActionState.v
TurnResults.v
ActionPipeline.v
Obligations.v
PyText.v
Regex.v
PiiRedaction.v
PyRegex.v
Admission.v
Responses.v
Synthesis.v
ProposalAssembly.v
PolicyGate.v
ReadPolicy.v
EvidenceGate.v
Applicability.v
ProposalScenario.v
EffectReconciliation.v
SourceLocators.v
Retrieval.v
Chunking.v
Spans.v
Store.v
EventChain.v
EventStream.v
Lifecycle.v
RuntimeJobs.v
Delivery.v
CallLedger.v
CallHistory.v
CallScenario.v
Approvals.v
Commands.v
Memory.v
Effects.v
Governance.v
Scenario.v
