(* ===== verification/Prelude.v ===== *)
(** * SupportGuard: a verification library for the agent runtime

    SupportGuard (backend/src/supportguard) is a customer-support agent.  A
    customer message opens a turn of a ticket; a worker claims the job of the
    turn, lets a language model read business data through tools, and either
    answers or proposes a business action (a refund, an API-key revocation, an
    entitlement change).  An action is executed only after a human approved it.
    Language model, tools, database and queue are outside; what the program
    itself promises is that evidence is complete before a proposal, that a
    proposal is bound to the facts it was made from, that an approval moves
    along its state machine and its effect happens once, that one worker at a
    time acts on a ticket, and that the history of a ticket is tamper evident.
    These promises are what this library models and proves.

    ** Files

    Foundations.
    - [Prelude]: the error monad [res] for code that raises, boolean tests, the
      tactics [to_prop], [steps_ok], [res_cases], [list_member], stable sorting
      and searches that may raise.
    - [PyValue], [PyText]: Python values, dictionaries in insertion order, [==],
      truthiness, [int], [str], string order, code points, aware and naive
      timestamps, and the text functions of conversation_text.py.
    - [Sha256], [CanonicalJson], [Decimals], [Timestamps], [Floats]: SHA-256
      computed on 32-bit words, contracts/canonical_json.py,
      contracts/timestamps.py, and binary64 addition and division with how near
      they are to the exact value.
    - [Regex], [PyRegex]: leftmost matching with greedy repetition, backtracking
      and look-around, for one-character classes as policies/pii.py needs it,
      and with alternation, groups and anchors as admission and evidence do.
    - [Store]: the rows of db/entities (thirty tables) and the session
      operations on them.  A table is a finite map under its primary key; an
      operation is a function from stores to [res]; an exception keeps the old
      store (rollback).

    From message to proposal.
    - [Commands], [PiiRedaction]: services/commands.py (opening a conversation
      and following up) with policies/pii.py.
    - [Admission]: contracts/action_preconditions.py, which action the customer's
      own words ask for.
    - [Memory]: memory/service.py, what later turns are told of finished
      conversations.
    - [ActionSpecs], [ActionPipeline]: the action registry, the proposal schemas
      and [ActionService] of actions/service.py over the interface
      [ActionPipelineHost].
    - [Obligations], [ReadPolicy]: agent/obligations.py, agent/tool_policy.py,
      agent/freshness.py: which reads are still needed, which are refused,
      which claims remain publishable.
    - [EvidenceGate], [Applicability]: agent/evidence.py with its contracts and
      agent/decision.py: whether the evidence suffices, what an answer must keep
      from it and whether cited rules apply to the customer.
    - [Responses], [Synthesis], [ProposalAssembly], [PolicyGate]: the binding of
      the model's claims to evidence, the assembly and the eligibility of a
      proposal, and the gate of agent/policy.py and policies/gate.py;
      [ProposalScenario] is a complete run of them.
    - [RefundPolicy]: contracts/refund_policy.py and services/refunds.py.
    - [SourceLocators], [Retrieval], [Chunking], [Spans]: rag/chunking.py,
      rag/ranking.py, rag/eligibility.py, rag/evidence.py, rag/temporal.py,
      rag/spans.py.

    From proposal to effect.
    - [EventChain], [EventStream]: agent/persistence.py, the hash-linked events of
      a ticket, and api/sse.py, the stream a customer follows.
    - [Lifecycle]: services/turn_activation.py, services/approval_lifecycle.py,
      services/conversation_activity.py, contracts/public_failures.py.
    - [RuntimeJobs]: services/runtime_jobs.py, leases, fencing and retries.
    - [Delivery]: runtime/delivery.py, contracts/queue.py and the reconciler of
      services/runtime_maintenance.py, from the outbox to a worker and back.
    - [CallLedger], [CallHistory], [CallScenario]: services/attempts.py,
      services/tool_ledger.py, services/capability_ledger.py; the histories of
      their operations; a concrete one.
    - [Approvals]: services/approval_commands.py, services/approval_edits.py,
      services/proposal_withdrawals.py, services/conversation_lifecycle.py and
      the scopes and switches they read.
    - [Effects], [EffectReconciliation]: services/actions.py and
      services/action_effect_reconciliation.py.
    - [Governance], [Scenario]: the transition system of jobs, approvals and
      effects together, its invariants and refinement; a concrete history.
    - [Finalizer]: contracts/finalizer.py, the payload a worker commits.
    - [ActionState], [TurnResults]: services/conversation_action_state.py and
      services/turn_results.py, what the customer is told.
    - [ProviderLimiter]: providers/limiter.py.

    [Governance] composes [Effects], [Approvals], [RuntimeJobs] and [Lifecycle],
    which append through [EventChain]; [Delivery] drives [RuntimeJobs]; all work
    on [Store].  [PolicyGate] uses
    [ProposalAssembly], which uses [Obligations] and [Synthesis], which use
    [ActionSpecs].  Everything that is hashed goes through [CanonicalJson] and
    [Sha256].

    ** Interfaces

    What the source uses and does not contain is a class, and theorems hold for
    all its instances; each has a concrete instance on which the witnesses
    run: [PyRuntime] (Unicode case, free-form ISO text, [str] of containers),
    [UnicodeClasses] and [UnicodeDigits] (categories and digits beyond ASCII),
    [SetIteration] (the order of a set), [EnvelopeCodec], [MessageCodec],
    [MemoryCodec], [PayloadModels], [JsonMode] and [LaxIntegers] (Pydantic's dump
    and validation), [ChangeTracking] (what a flush writes of a JSON column),
    [FloatSum] (summation in rank fusion), [TokenCounter], [SortedSets] and
    [RedisStream] (Redis), [ActionPipelineHost].
    [runtime_provenance], the registry hash and the clock are arguments.

    ** Theorems

    - Effects ([Governance]): in every reachable store a business action belongs
      to an executed approval with one approving decision under the same hash;
      there is one per resource version and one per approval; repeating an
      execution adds none; closed approvals never act; every step of the system
      is a step of the approval automaton and a status changes at most twice.
    - Lanes and leases ([RuntimeJobs]): one leased job per ticket, the oldest;
      superseded leases are rejected for ever; a command is accepted once.
    - Delivery ([Delivery]): with entries duplicated, reordered or forged, a job
      has one current delivery of at most five generations; an entry claims only
      the job it names; the reconciler leaves no due job without a way to a
      worker, except by burying it.
    - Calls ([CallHistory]): budgets hold, observations are final, a capability
      settles once.
    - History ([EventChain], [EventStream]): appending keeps a chain valid, equal
      head hashes mean equal histories, a client that resumes misses nothing.
    - Approvals and turns ([Lifecycle], [Approvals], [Commands]): the transition is
      a compare-and-swap along the state machine; activation is first-in
      first-out; messages are numbered from one to the counter without gaps;
      replays change nothing.
    - Admission ([Admission]): an admitted action was asked for in the customer's
      own words, neither negated nor a question, at the recorded span; older
      turns do not count.
    - Evidence and proposals ([Obligations], [ReadPolicy], [Synthesis],
      [ProposalAssembly], [PolicyGate]): the gate asks a human only for a
      proposal bound to complete, current, in-scope evidence; what is assembled
      is eligible; a binding succeeds exactly on supported claims; settled reads
      are not repeated; published are exactly the claims on fresh facts, with
      the citations they need.
    - The evidence decision ([EvidenceGate], [Applicability]): exactly when the
      evidence is accepted before and after the model answers, and when cited
      rules apply to the customer's region or plan.
    - Memory ([Memory]): history holds only current facts of the customer.
    - Knowledge ([Retrieval], [Chunking], [SourceLocators], [Spans]): selected evidence is
      eligible, most specific and within budget or a single chunk; chunks fit and
      lose only white space; the locators of chunks and of supporting sentences
      resolve to the content they were made from.
    - Customers ([ActionState], [TurnResults], [PiiRedaction]): success is shown
      exactly when it happened; failures are never shown as answers; sensitive
      digit runs are exactly those removed.
    - Contracts ([Finalizer], [RefundPolicy], [ActionSpecs], [CanonicalJson],
      [Timestamps]): round trips (a dumped payload reads back as itself),
      injectivity up to key order, mismatch reports, the refund policy, a
      registry that passes its own validators.
    - Limits ([ProviderLimiter]): concurrency and rate bounds, recovery of lost
      permits, and of three waiters of a millisecond two with equal scores.

    No theorem assumes that SHA-256 has no collisions: where a conclusion
    depends on that, the other disjunct is an explicit [sha256_collision].

    ** Bounds and fuel

    Integers are unbounded, as Python's; timestamps are microseconds since the
    epoch with an optional offset and their year range is checked where the
    code checks it.  Rows hold timestamps as they were written; only where the
    code depends on a timestamp losing its zone (a repeated withdrawal) is that
    part of the statement.  SHA-256 works on 32-bit words written out with
    [Z.land]; doubles have their 53-bit significand.  Fuel: [Sha256.blocks] takes
    the number of words and consumes sixteen a step; the bisection and the
    piece loop of [Chunking] take the length of the text, and that this is
    enough is proved ([Chunking.bounded_pieces_sound]); the matcher of [Regex]
    recurses on the pattern and, while backing off, on the number of repetitions;
    that of [PyRegex] bounds an unbounded repetition by the text that is left,
    which is enough because every repeated part consumes a character.

    ** Findings

    A withdrawal repeated under another key raises when the stored timestamp is
    naive ([Approvals.repeated_withdrawal_needs_aware]).  The mismatch report of
    the finalizer can exceed its bound ([Finalizer.mismatch_report_bounded]).
    Waiters of the same millisecond are not served in order
    ([ProviderLimiter.arrival_order_lost]).  A text that contains the marker of
    the opaque-id protection is changed by redaction ([PiiRedaction]).  A
    concurrency target out of range raises instead of being asked for again
    ([Admission.target_out_of_range_raises] says exactly when), and a clause
    without a request cue of its own can authorise an action, which its
    docstring denies.  An expired observation blocks the evidence decision even
    after the same tool was read again ([EvidenceGate.Demo.reread_still_blocked]).
    Marking remembered facts as superseded is never written back
    ([Memory.superseded_facts_not_stored]), and the audit of the first summary
    records no summary id.

    ** Not modelled

    - PostgreSQL: the branches of the services that call SECURITY DEFINER
      functions, triggers, roles and migrations; the operations here are those of
      the application dialect.  Column lengths and foreign keys.
    - The segments of an approval (services/segment_approval.py and its siblings,
      approvals/): they move LangGraph checkpoints between namespaces and insert
      with PostgreSQL statements; the finalizer payload they commit, the
      approval transitions and the burial of dead jobs they call are modelled.
    - The nodes of the agent graph, the prompts and the model providers; the
      decisions the nodes take from records are in the files above.
    - The retrieval service, the vector store, embeddings and citation
      checking: queries over tables of the index.
    - The process loops around [Delivery], retention, MCP, the HTTP interface,
      metrics and tracing, demo data and the frontend. *)
From stdpp Require Export prelude strings list gmap pretty sorting.
From Stdlib Require Export ZArith Lia.

(** ** Scopes *)
Declare Scope guard_scope.
Delimit Scope guard_scope with guard.

(** ** Python exceptions and the error monad

    A Python function that may raise is a function into [res]; [Err] carries
    the exception class with the message (or stable code) it was raised with. *)
Inductive exn : Type :=
| ValueError (msg : string)
| TypeError (msg : string)
| KeyError (key : string)
| OverflowError (msg : string)
| RuntimeConflict (code : string)
| RuntimeError (msg : string)
| AttributeError (name : string)
| CanonicalJsonError (msg : string)
| ValidationError (msg : string)
| ProjectionError (msg : string)
| PipelineError (code : string) (error_code : option string)
| DomainError (code message : string)
| StopIteration
| DBAPIError (sqlstate : option string)
| HTTPException (status : Z) (detail : string)
| ProviderLimitError (reason : string)
| ActionAssemblyError (code : string)
| SynthesisBindingError (error_paths : list string).

#[export] Instance exn_eq_dec : EqDecision exn.
Proof. solve_decision. Defined.

Inductive res (A : Type) : Type :=
| Ok (a : A)
| Err (e : exn).
Arguments Ok {A} _.
Arguments Err {A} _.

#[export] Instance res_eq_dec {A} `{EqDecision A} : EqDecision (res A).
Proof. solve_decision. Defined.

Definition res_bind {A B} (r : res A) (k : A -> res B) : res B :=
  match r with
  | Ok a => k a
  | Err e => Err e
  end.

Definition is_ok {A} (r : res A) : bool :=
  match r with Ok _ => true | Err _ => false end.

(** [raise_if b e k] is Python's [if b: raise e] followed by [k]. *)
Definition raise_if {A} (b : bool) (e : exn) (k : res A) : res A :=
  if b then Err e else k.

Notation "'let?' x ':=' c 'in' k" := (res_bind c (fun x => k))
  (at level 10, x pattern, c at level 100, k at level 200) : guard_scope.
Notation "'raise' e 'when' b ';;' k" := (raise_if b e k)
  (at level 10, e at level 99, b at level 99, k at level 200) : guard_scope.

Notation "'let!' x ':=' o 'else' e 'in' k" := (match o with Some x => k | None => Err e end)
  (at level 10, x pattern, o at level 100, e at level 99, k at level 200) : guard_scope.

Open Scope guard_scope.

Lemma res_bind_ok {A B} (r : res A) (k : A -> res B) (b : B) :
  res_bind r k = Ok b <-> exists a, r = Ok a /\ k a = Ok b.
Proof. destruct r; simpl; naive_solver. Qed.

Lemma raise_if_ok {A} (b : bool) (e : exn) (k : res A) (a : A) :
  raise_if b e k = Ok a <-> b = false /\ k = Ok a.
Proof. destruct b; simpl; naive_solver. Qed.

Lemma raise_if_true {A} (b : bool) (e : exn) (k : res A) :
  b = true -> raise_if b e k = Err e.
Proof. by intros ->. Qed.

Lemma raise_if_false {A} (b : bool) (e : exn) (k : res A) :
  b = false -> raise_if b e k = k.
Proof. by intros ->. Qed.

(** ** Boolean tests

    Python's [==], [in] on strings and optional values, as booleans. *)
Definition eqb {A} `{EqDecision A} (x y : A) : bool := bool_decide (x = y).
Definition neqb {A} `{EqDecision A} (x y : A) : bool := negb (eqb x y).
Definition mem {A} `{EqDecision A} (x : A) (l : list A) : bool := bool_decide (x ∈ l).
Definition isNone {A} (o : option A) : bool := match o with None => true | Some _ => false end.
Definition isSome {A} (o : option A) : bool := negb (isNone o).
(** [not s] for a Python [str]. *)
Definition is_empty_str (s : string) : bool := match s with EmptyString => true | _ => false end.

(** [not l] for a Python sequence. *)
Definition is_nil {A} (l : list A) : bool := match l with [] => true | _ => false end.

Arguments eqb : simpl never.
Arguments neqb : simpl never.
Arguments mem : simpl never.
Infix "==?" := eqb (at level 70, no associativity) : guard_scope.
Infix "!=?" := neqb (at level 70, no associativity) : guard_scope.
Infix "in?" := mem (at level 70, no associativity) : guard_scope.

Section bool_lemmas.
Context {A : Type} `{EqDecision A}.
Implicit Types x y : A.

Lemma eqb_true x y : eqb x y = true <-> x = y.
Proof. apply bool_decide_eq_true. Qed.
Lemma eqb_false x y : eqb x y = false <-> x <> y.
Proof. apply bool_decide_eq_false. Qed.
Lemma neqb_true x y : neqb x y = true <-> x <> y.
Proof. unfold neqb. by rewrite negb_true_iff, eqb_false. Qed.
Lemma neqb_false x y : neqb x y = false <-> x = y.
Proof. unfold neqb. by rewrite negb_false_iff, eqb_true. Qed.
Lemma mem_true x (l : list A) : mem x l = true <-> x ∈ l.
Proof. apply bool_decide_eq_true. Qed.
Lemma mem_false x (l : list A) : mem x l = false <-> x ∉ l.
Proof. apply bool_decide_eq_false. Qed.
Lemma eqb_refl x : eqb x x = true.
Proof. by apply eqb_true. Qed.
End bool_lemmas.

Lemma isNone_true {A} (o : option A) : isNone o = true <-> o = None.
Proof. destruct o; naive_solver. Qed.
Lemma isNone_false {A} (o : option A) : isNone o = false <-> is_Some o.
Proof. destruct o; simpl; split; [eauto| done | done | by intros [? ?]]. Qed.
Lemma isSome_true {A} (o : option A) : isSome o = true <-> is_Some o.
Proof. unfold isSome. by rewrite negb_true_iff, isNone_false. Qed.
Lemma isSome_false {A} (o : option A) : isSome o = false <-> o = None.
Proof. unfold isSome. by rewrite negb_false_iff, isNone_true. Qed.
Lemma is_nil_true {A} (l : list A) : is_nil l = true <-> l = [].
Proof. destruct l; naive_solver. Qed.
Lemma is_nil_false {A} (l : list A) : is_nil l = false <-> l <> [].
Proof. destruct l; naive_solver. Qed.
Lemma is_empty_str_true s : is_empty_str s = true <-> s = "".
Proof. destruct s; simpl; naive_solver. Qed.
Lemma is_empty_str_false s : is_empty_str s = false <-> s <> "".
Proof. destruct s; simpl; naive_solver. Qed.

(** Truth value of an optional string. *)
Definition truthy_opt (o : option string) : bool :=
  match o with Some s => negb (is_empty_str s) | None => false end.

(** ** Automation

    [to_prop] rewrites every boolean test of the hypotheses and the goal into
    the proposition it decides. *)
Create Rewrite HintDb guard.
#[export] Hint Rewrite @eqb_true @eqb_false @neqb_true @neqb_false @mem_true @mem_false
  @isNone_true @isNone_false @isSome_true @isSome_false
  is_empty_str_true is_empty_str_false @is_nil_true @is_nil_false
  negb_true_iff negb_false_iff andb_true_iff andb_false_iff orb_true_iff orb_false_iff
  Z.eqb_eq Z.eqb_neq Z.leb_le Z.leb_gt Z.ltb_lt Z.ltb_ge
  @raise_if_ok : guard.

Ltac to_prop := autorewrite with guard in *.

(** Inverts one successful monadic step of hypothesis [H]. *)
Ltac step_ok H :=
  match type of H with
  | res_bind _ _ = Ok _ =>
      apply res_bind_ok in H; let a := fresh "a" in let Ha := fresh "Hstep" in
      destruct H as (a & Ha & H); cbv beta in H
  | raise_if _ _ _ = Ok _ =>
      apply raise_if_ok in H; let Hg := fresh "Hguard" in destruct H as [Hg H]
  end.
Ltac steps_ok H := repeat step_ok H.
(** All the successful paths of [H], through binds, guards and branches. *)
Ltac res_cases H :=
  repeat (first [ step_ok H
                | match type of H with (match ?x with _ => _ end) = _ => destruct x eqn:? end ];
          simplify_eq).

(** Closes [x ∈ [...; x; ...]] by syntactic search. *)
Ltac list_member :=
  repeat first [apply elem_of_app; left | apply list_elem_of_here | apply list_elem_of_further].

(** ** Lists *)
Lemma forallb_true_iff {A} (f : A -> bool) (l : list A) :
  forallb f l = true <-> forall x, x ∈ l -> f x = true.
Proof. rewrite forallb_forall. by setoid_rewrite list_elem_of_In. Qed.

Lemma existsb_true_iff {A} (f : A -> bool) (l : list A) :
  existsb f l = true <-> exists x, x ∈ l /\ f x = true.
Proof. rewrite existsb_exists. by setoid_rewrite list_elem_of_In. Qed.

Lemma existsb_false_iff {A} (f : A -> bool) (l : list A) :
  existsb f l = false <-> forall x, x ∈ l -> f x = false.
Proof.
  rewrite <- not_true_iff_false, existsb_true_iff. split.
  - intros H x Hx. apply not_true_iff_false. eauto.
  - intros H (x & Hx & Hf). by rewrite (H x Hx) in Hf.
Qed.

(** [next((x for x in l if f x), None)] *)
Fixpoint find_first {A} (f : A -> bool) (l : list A) : option A :=
  match l with
  | [] => None
  | x :: l => if f x then Some x else find_first f l
  end.

Lemma find_first_some {A} (f : A -> bool) l x :
  find_first f l = Some x -> x ∈ l /\ f x = true.
Proof.
  induction l as [|y l IH]; simpl; [done|].
  destruct (f y) eqn:E; intros [=]; subst; set_solver.
Qed.

Lemma find_first_none {A} (f : A -> bool) l :
  find_first f l = None <-> forall x, x ∈ l -> f x = false.
Proof.
  induction l as [|y l IH]; simpl; [set_solver|].
  destruct (f y) eqn:E; split.
  - done.
  - intros H. specialize (H y). rewrite E in H. set_solver.
  - intros H x Hx. apply elem_of_cons in Hx as [->|Hx]; [done|]. by apply IH.
  - intros H. apply IH. set_solver.
Qed.

(** ** Stable insertion sort

    [sorted(items, key=...)]: equal keys keep their order. *)
Section isort.
Context {A : Type} (leb : A -> A -> bool).

Fixpoint insert_by (x : A) (l : list A) : list A :=
  match l with
  | [] => [x]
  | y :: l' => if leb x y then x :: l else y :: insert_by x l'
  end.
Fixpoint isort (l : list A) : list A :=
  match l with
  | [] => []
  | x :: l => insert_by x (isort l)
  end.

Lemma insert_by_perm x l : insert_by x l ≡ₚ x :: l.
Proof.
  induction l as [|y l IH]; simpl; [done|].
  destruct (leb x y); [done|]. rewrite IH. apply Permutation_swap.
Qed.
Lemma isort_perm l : isort l ≡ₚ l.
Proof. induction l as [|x l IH]; simpl; [done|]. by rewrite insert_by_perm, IH. Qed.
Lemma elem_of_isort x l : x ∈ isort l <-> x ∈ l.
Proof. by rewrite isort_perm. Qed.
Lemma isort_nil_iff l : isort l = [] <-> l = [].
Proof.
  split; [|by intros ->]. intros E. apply Permutation_nil_r. by rewrite <- (isort_perm l), E.
Qed.

Context (leb_total : forall x y, leb x y = false -> leb y x = true).

(** Neighbours are in order as soon as the comparison is total. *)
Lemma insert_by_hd x y l :
  leb y x = true -> HdRel (fun a b => leb a b = true) y l -> HdRel (fun a b => leb a b = true) y (insert_by x l).
Proof. intros Hx Hl. destruct l as [|z l]; cbn; [by constructor|]. destruct (leb x z); constructor; [done|by inversion Hl]. Qed.
Lemma insert_by_neighbours x l :
  Sorted (fun a b => leb a b = true) l -> Sorted (fun a b => leb a b = true) (insert_by x l).
Proof.
  induction 1 as [|y l Hl IH Hy]; cbn; [by repeat constructor|].
  destruct (leb x y) eqn:E; [by repeat constructor|]. constructor; [done|]. apply insert_by_hd; auto.
Qed.
Lemma isort_neighbours l : Sorted (fun a b => leb a b = true) (isort l).
Proof. induction l; cbn; [constructor|]. by apply insert_by_neighbours. Qed.

Context (leb_trans : forall x y z, leb x y = true -> leb y z = true -> leb x z = true).

Lemma insert_by_sorted x l :
  StronglySorted (fun a b => leb a b = true) l ->
  StronglySorted (fun a b => leb a b = true) (insert_by x l).
Proof.
  induction 1 as [|y l Hl IH Hy]; simpl; [by repeat constructor|].
  destruct (leb x y) eqn:E.
  - constructor; [by constructor|]. constructor; [done|].
    eapply Forall_impl; [exact Hy|]. simpl. eauto.
  - constructor; [done|]. rewrite insert_by_perm. constructor; eauto.
Qed.
Lemma isort_sorted l : StronglySorted (fun a b => leb a b = true) (isort l).
Proof. induction l; simpl; [constructor|]. by apply insert_by_sorted. Qed.
End isort.

(** ** Mapping a fallible function over a list *)
Fixpoint map_res {A B} (f : A -> res B) (l : list A) : res (list B) :=
  match l with
  | [] => Ok []
  | x :: l => let? y := f x in let? ys := map_res f l in Ok (y :: ys)
  end.

Lemma map_res_ok {A B} (f : A -> res B) l l' :
  map_res f l = Ok l' <-> Forall2 (fun x y => f x = Ok y) l l'.
Proof.
  revert l'. induction l as [|x l IH]; intros l'; simpl.
  - split; [intros [= <-]; constructor | by inversion 1].
  - rewrite res_bind_ok. split.
    + intros (y & Hy & H). apply res_bind_ok in H as (ys & Hys & [= <-]).
      constructor; [done|]. by apply IH.
    + inversion 1 as [|? y ? ys Hy Hys]; subst. exists y. split; [done|].
      apply res_bind_ok. exists ys. split; [by apply IH | done].
Qed.

Lemma map_res_elem {A B} (f : A -> res B) l l' y :
  map_res f l = Ok l' -> y ∈ l' -> exists x, x ∈ l /\ f x = Ok y.
Proof. intros H%map_res_ok. induction H; set_solver. Qed.

Lemma map_res_length {A B} (f : A -> res B) l l' :
  map_res f l = Ok l' -> length l' = length l.
Proof. intros H%map_res_ok. symmetry. by eapply Forall2_length. Qed.

Lemma Forall2_elem_l {A B} (P : A -> B -> Prop) l k x :
  Forall2 P l k -> x ∈ l -> exists y, y ∈ k /\ P x y.
Proof. induction 1; set_solver. Qed.

(** A key of an association list without repeated keys has one value. *)
Lemma assoc_unique {A B} (l : list (A * B)) k v v' :
  NoDup (map fst l) -> (k, v) ∈ l -> (k, v') ∈ l -> v = v'.
Proof.
  induction l as [|[k0 v0] l IH]; [set_solver|]. simpl. intros [Hk Hnd]%NoDup_cons H H'.
  assert (forall w, (k0, w) ∈ l -> False) as Hno.
  { intros w Hw. apply Hk, list_elem_of_fmap. by exists (k0, w). }
  apply elem_of_cons in H as [E|H]; apply elem_of_cons in H' as [E'|H']; simplify_eq; [done|..].
  - by destruct (Hno _ H').
  - by destruct (Hno _ H).
  - eauto.
Qed.

(** [next((x for x in l if f x), None)] and [any(f x for x in l)] with a test
    that may raise: evaluation stops at the first hit or the first exception. *)
Fixpoint find_res {A} (f : A -> res bool) (l : list A) : res (option A) :=
  match l with
  | [] => Ok None
  | x :: l => let? b := f x in if b then Ok (Some x) else find_res f l
  end.
(** The first non-[None] answer. *)
Fixpoint first_res {A B} (f : A -> res (option B)) (l : list A) : res (option B) :=
  match l with
  | [] => Ok None
  | x :: l => let? r := f x in match r with Some y => Ok (Some y) | None => first_res f l end
  end.
(** [[x for x in l if f x]] *)
Fixpoint filter_res {A} (f : A -> res bool) (l : list A) : res (list A) :=
  match l with
  | [] => Ok []
  | x :: l => let? b := f x in let? r := filter_res f l in Ok (if b then x :: r else r)
  end.

Lemma find_res_some {A} (f : A -> res bool) l x :
  find_res f l = Ok (Some x) -> x ∈ l /\ f x = Ok true.
Proof.
  induction l as [|y l IH]; simpl; [done|]. intros H. steps_ok H. destruct a; simplify_eq; set_solver.
Qed.
Lemma find_res_none {A} (f : A -> res bool) l :
  find_res f l = Ok None <-> forall x, x ∈ l -> f x = Ok false.
Proof.
  induction l as [|y l IH]; simpl; [set_solver|]. rewrite res_bind_ok. split.
  - intros (b & Hb & H). destruct b; [done|]. rewrite IH in H. set_solver.
  - intros H. exists false. split; [apply H; set_solver|]. apply IH. set_solver.
Qed.
Lemma first_res_some {A B} (f : A -> res (option B)) l y :
  first_res f l = Ok (Some y) -> exists x, x ∈ l /\ f x = Ok (Some y).
Proof.
  induction l as [|x l IH]; simpl; [done|]. intros H. steps_ok H. destruct a; simplify_eq; set_solver.
Qed.
Lemma first_res_none {A B} (f : A -> res (option B)) l :
  first_res f l = Ok None <-> forall x, x ∈ l -> f x = Ok None.
Proof.
  induction l as [|y l IH]; simpl; [set_solver|]. rewrite res_bind_ok. split.
  - intros (b & Hb & H). destruct b; [done|]. rewrite IH in H. set_solver.
  - intros H. exists None. split; [apply H; set_solver|]. apply IH. set_solver.
Qed.
Lemma filter_res_elem {A} (f : A -> res bool) l l' x :
  filter_res f l = Ok l' -> x ∈ l' -> x ∈ l /\ f x = Ok true.
Proof.
  revert l'. induction l as [|y l IH]; simpl; intros l' H Hx; [simplify_eq; set_solver|].
  steps_ok H. simplify_eq. destruct a; [apply elem_of_cons in Hx as [->|Hx]|]; naive_solver set_solver.
Qed.

Lemma filter_unique {A} (f : A -> bool) (l : list A) x :
  x ∈ l -> f x = true -> (forall y, y ∈ l -> f y = true -> y = x) -> NoDup l -> List.filter f l = [x].
Proof.
  induction l as [|y l IH]; simpl; [by intros ?%not_elem_of_nil|]. intros Hx Hf Hu [Hy Hnd]%NoDup_cons.
  destruct (f y) eqn:Ey.
  - assert (y = x) as -> by (apply Hu; [by left|done]). f_equal.
    destruct (List.filter f l) as [|z k] eqn:E; [done|].
    assert (z ∈ List.filter f l) as Hz by (rewrite E; by left).
    rewrite list_elem_of_In, filter_In, <- list_elem_of_In in Hz. destruct Hz as [Hz Hfz].
    rewrite (Hu z) in Hz by (by right || done). done.
  - apply elem_of_cons in Hx as [->|Hx]; [congruence|]. apply IH; [done..| |done]. intros z Hz. apply Hu. by right.
Qed.
Lemma nodup_map_inj {A B} (f : A -> B) (l : list A) x y : NoDup (map f l) -> x ∈ l -> y ∈ l -> f x = f y -> x = y.
Proof.
  induction l as [|z l IH]; simpl; [by intros _ ?%not_elem_of_nil|]. intros [Hz Hnd]%NoDup_cons Hx Hy E.
  apply elem_of_cons in Hx as [->|Hx]; apply elem_of_cons in Hy as [->|Hy]; [done| | |by apply IH];
    destruct Hz; apply list_elem_of_fmap; eauto.
Qed.
Lemma Ok_eq {A} (x y : A) : Ok x = Ok y -> x = y.
Proof. congruence. Qed.
Lemma sublist_same_length {A} (l k : list A) : l `sublist_of` k -> length l = length k -> l = k.
Proof.
  induction 1 as [|x l k Hs IH|x l k Hs IH]; simpl; intros E; [done|f_equal; auto|]. apply sublist_length in Hs. lia.
Qed.

(** [dict.fromkeys(items)], as the sequence of its keys: first occurrences, in
    order. *)
Fixpoint fromkeys_from {A} `{EqDecision A} (seen l : list A) : list A :=
  match l with
  | [] => []
  | x :: l => if x in? seen then fromkeys_from seen l else x :: fromkeys_from (x :: seen) l
  end.
Definition fromkeys {A} `{EqDecision A} (l : list A) : list A := fromkeys_from [] l.

Lemma elem_of_fromkeys_from {A} `{EqDecision A} (seen l : list A) x :
  x ∈ fromkeys_from seen l <-> x ∈ l /\ x ∉ seen.
Proof.
  revert seen. induction l as [|y l IH]; intros seen; simpl; [set_solver|].
  destruct (y in? seen) eqn:E; to_prop; [rewrite IH; set_solver|].
  rewrite elem_of_cons, IH. destruct (decide (x = y)); set_solver.
Qed.
Lemma elem_of_fromkeys {A} `{EqDecision A} (l : list A) x : x ∈ fromkeys l <-> x ∈ l.
Proof. unfold fromkeys. rewrite elem_of_fromkeys_from. set_solver. Qed.
Lemma fromkeys_nil {A} `{EqDecision A} (l : list A) : fromkeys l = [] <-> l = [].
Proof.
  split; [|by intros ->]. intros E. destruct l as [|x l]; [done|].
  assert (x ∈ fromkeys (x :: l)) as Hx by (apply elem_of_fromkeys; set_solver). rewrite E in Hx. set_solver.
Qed.

(** A test on the integers below a constant, by evaluation. *)
Lemma below_forall (P : Z -> bool) (k n : Z) :
  forallb P (seqZ 0 k) = true -> (0 <= n < k)%Z -> P n = true.
Proof. rewrite forallb_true_iff. intros H Hn. apply H, elem_of_seqZ. lia. Qed.

(** The standard library's [filter] respects reordering. *)
#[export] Instance filter_perm_proper {A} (f : A -> bool) : Proper (Permutation ==> Permutation) (List.filter f).
Proof.
  intros l l' Hp. induction Hp as [|x l l' _ IH|x y l|l1 l2 l3 _ IH1 _ IH2]; simpl; [done| | |by rewrite IH1].
  - destruct (f x); [by constructor|done].
  - destruct (f x), (f y); try done. apply Permutation_swap.
Qed.
