(* ===== verification/PyValue.v ===== *)
(** * Python values

    The values the agent code passes around: JSON-decoded dictionaries with
    [datetime] objects among the leaves.  A Python [str] is represented by its
    (generalised) UTF-8 byte sequence; a [dict] is an association list in
    insertion order; timestamps count microseconds from the Unix epoch.

    What the source uses of the interpreter and cannot be written out in a few
    lines (Unicode case folding, [datetime.fromisoformat], the [repr] of a
    container) is the class [PyRuntime]; every theorem holds for any instance,
    and [ascii_runtime] is the instance the concrete runs use. *)
From Stdlib Require Import Ascii DecimalString DecimalZ.
From S2P Require Import Prelude.
Local Open Scope string_scope.
Local Open Scope Z_scope.

(** ** Timestamps *)
Record datetime := mk_datetime {
  wall : Z;                (* wall-clock microseconds *)
  utcoffset : option Z;    (* [None]: naive *)
}.

#[export] Instance datetime_eq_dec : EqDecision datetime.
Proof. solve_decision. Defined.

(** The absolute instant, reading a naive value as UTC. *)
Definition instant (d : datetime) : Z := wall d - default 0 (utcoffset d).
Definition is_naive (d : datetime) : bool := isNone (utcoffset d).
Definition utc (t : Z) : datetime := mk_datetime t (Some 0).
Arguments instant : simpl never.
Arguments utc : simpl never.
Lemma instant_utc t : instant (utc t) = t.
Proof. unfold utc, instant. simpl. lia. Qed.
(** [datetime.min.replace(tzinfo=UTC)] *)
Definition datetime_min : Z := -62135596800000000.
Definition second : Z := 1000000.
Definition day : Z := 86400 * second.

(** ** Values *)
Inductive pyval : Type :=
| PyNone
| PyBool (b : bool)
| PyInt (z : Z)
| PyStr (s : string)
| PyTime (t : datetime)
| PyList (l : list pyval)
| PyTuple (l : list pyval)
| PyDict (kvs : list (string * pyval)).

Abbreviation pydict := (list (string * pyval)).

Section pyval_ind.
Variable P : pyval -> Prop.
Hypothesis HNone : P PyNone.
Hypothesis HBool : forall b, P (PyBool b).
Hypothesis HInt : forall z, P (PyInt z).
Hypothesis HStr : forall s, P (PyStr s).
Hypothesis HTime : forall t, P (PyTime t).
Hypothesis HList : forall l, Forall P l -> P (PyList l).
Hypothesis HTuple : forall l, Forall P l -> P (PyTuple l).
Hypothesis HDict : forall kvs, Forall (fun kv => P kv.2) kvs -> P (PyDict kvs).

Fixpoint pyval_ind' (v : pyval) : P v :=
  let fix go (l : list pyval) : Forall P l :=
    match l with
    | [] => Forall_nil_2 P
    | x :: l => Forall_cons_2 P x l (pyval_ind' x) (go l)
    end in
  let fix go_kv (l : pydict) : Forall (fun kv => P kv.2) l :=
    match l with
    | [] => Forall_nil_2 _
    | kv :: l => Forall_cons_2 _ kv l (pyval_ind' kv.2) (go_kv l)
    end in
  match v with
  | PyNone => HNone
  | PyBool b => HBool b
  | PyInt z => HInt z
  | PyStr s => HStr s
  | PyTime t => HTime t
  | PyList l => HList l (go l)
  | PyTuple l => HTuple l (go l)
  | PyDict kvs => HDict kvs (go_kv kvs)
  end.
End pyval_ind.

(** ** Dictionaries *)

(** [key in d] and [d.get(key)]. *)
Fixpoint dget (k : string) (d : pydict) : option pyval :=
  match d with
  | [] => None
  | (k', v) :: d => if decide (k = k') then Some v else dget k d
  end.
Definition dhas (k : string) (d : pydict) : bool := isSome (dget k d).
(** [d.get(key, default)]; [d.get(key)] is [dget_or k PyNone d]. *)
Definition dget_or (k : string) (dflt : pyval) (d : pydict) : pyval := default dflt (dget k d).
Notation "d .[ k ]" := (dget_or k PyNone d) (at level 1, k at level 200, format "d .[ k ]") : guard_scope.

(** [d[key] = value] *)
Fixpoint dset (k : string) (v : pyval) (d : pydict) : pydict :=
  match d with
  | [] => [(k, v)]
  | (k', v') :: d => if decide (k = k') then (k, v) :: d else (k', v') :: dset k v d
  end.
(** [{**d, **e}] *)
Definition dmerge (d e : pydict) : pydict := fold_left (fun acc kv => dset kv.1 kv.2 acc) e d.

(** [extra="forbid"] of a Pydantic model *)
Definition forbid_extra (fields : list string) (d : pydict) : bool :=
  forallb (fun kv => kv.1 in? fields) d.

(** [value if isinstance(value, dict) else {}] *)
Definition as_dict (v : pyval) : pydict := match v with PyDict d => d | _ => [] end.
Definition is_dict (v : pyval) : bool := match v with PyDict _ => true | _ => false end.
Definition is_none (v : pyval) : bool := match v with PyNone => true | _ => false end.
Definition is_true (v : pyval) : bool := match v with PyBool true => true | _ => false end.

Lemma dget_dset k k' v d :
  dget k (dset k' v d) = if decide (k = k') then Some v else dget k d.
Proof.
  induction d as [|[k1 v1] d IH]; simpl; [by repeat case_decide|].
  repeat (case_decide; simplify_eq; simpl); rewrite ?decide_True, ?IH by done; repeat case_decide; congruence.
Qed.

(** ** Truth value and equality *)
Definition truthy (v : pyval) : bool :=
  match v with
  | PyNone => false
  | PyBool b => b
  | PyInt z => negb (z =? 0)
  | PyStr s => negb (is_empty_str s)
  | PyTime _ => true
  | PyList l | PyTuple l => match l with [] => false | _ => true end
  | PyDict d => match d with [] => false | _ => true end
  end.

(** Python's [a or b]. *)
Definition py_or (a b : pyval) : pyval := if truthy a then a else b.

(** [==]: a [bool] is an [int]; two aware timestamps compare by instant, a
    naive and an aware one are different; dictionaries ignore their order. *)
Fixpoint py_eq (a b : pyval) : bool :=
  match a, b with
  | PyNone, PyNone => true
  | PyBool x, PyBool y => Bool.eqb x y
  | PyBool x, PyInt y => Z.b2z x =? y
  | PyInt x, PyBool y => x =? Z.b2z y
  | PyInt x, PyInt y => x =? y
  | PyStr x, PyStr y => x ==? y
  | PyTime x, PyTime y => Bool.eqb (is_naive x) (is_naive y) && (instant x =? instant y)
  | PyList x, PyList y | PyTuple x, PyTuple y =>
      (fix go (x y : list pyval) : bool :=
         match x, y with
         | [], [] => true
         | a :: x, b :: y => py_eq a b && go x y
         | _, _ => false
         end) x y
  | PyDict x, PyDict y =>
      Nat.eqb (length x) (length y) &&
      (fix go (x : pydict) : bool :=
         match x with
         | [] => true
         | (k, v) :: x => match dget k y with Some w => py_eq v w | None => false end && go x
         end) x
  | _, _ => false
  end.

(** No dictionary repeats a key, at any depth: every value Python builds. *)
Fixpoint py_wf (v : pyval) : bool :=
  match v with
  | PyList l | PyTuple l => forallb py_wf l
  | PyDict d => bool_decide (NoDup (map fst d)) && forallb (fun kv => py_wf kv.2) d
  | _ => true
  end.
Lemma dget_elem k v d : NoDup (map fst d) -> (k, v) ∈ d -> dget k d = Some v.
Proof.
  induction d as [|[k' v'] d IH]; [set_solver|]. simpl. intros [Hn Hd]%NoDup_cons Hin.
  apply elem_of_cons in Hin as [E|Hin]; [simplify_eq; by rewrite decide_True|].
  rewrite decide_False; [by apply IH|]. intros ->. apply Hn, list_elem_of_fmap. by exists (k', v).
Qed.
Lemma py_eq_refl v : py_wf v = true -> py_eq v v = true.
Proof.
  induction v as [|b|z|s|t|l IH|l IH|d IH] using pyval_ind'; simpl; intros Hw; try done.
  - apply Bool.eqb_reflx.
  - apply Z.eqb_refl.
  - apply eqb_refl.
  - by rewrite Bool.eqb_reflx, Z.eqb_refl.
  - induction IH as [|x l Hx _ IHl]; simpl in *; [done|]. apply andb_true_iff in Hw as [Hw1 Hw2]. by rewrite Hx, IHl.
  - induction IH as [|x l Hx _ IHl]; simpl in *; [done|]. apply andb_true_iff in Hw as [Hw1 Hw2]. by rewrite Hx, IHl.
  - apply andb_true_iff in Hw as [Hnd Hw]. apply bool_decide_eq_true in Hnd. rewrite Nat.eqb_refl. simpl.
    assert (forall k v, (k, v) ∈ d -> dget k d = Some v) as Hget by eauto using dget_elem.
    revert Hget. clear Hnd. remember d as d0 eqn:E0 in |- * at 2 3. clear E0. revert d0 Hw.
    induction IH as [|[k v] d Hv _ IHd]; intros d0 Hw Hget; [done|].
    simpl in Hw. apply andb_true_iff in Hw as [Hw1 Hw2]. rewrite (Hget k v) by (by left).
    simpl in Hv. rewrite (Hv Hw1). simpl. apply IHd; [done..|]. intros k' v' Hin. apply Hget. by right.
Qed.
Lemma dset_keys k v d : NoDup (map fst d) -> NoDup (map fst (dset k v d)) /\ forall x, x ∈ map fst (dset k v d) -> x = k \/ x ∈ map fst d.
Proof.
  induction d as [|[k' v'] d IH]; simpl; intros Hd; [split; [apply NoDup_singleton|set_solver]|].
  apply NoDup_cons in Hd as [Hn Hd]. destruct (IH Hd) as [Hd' Hk]. case_decide; simpl.
  - subst. split; [by constructor|set_solver].
  - split; [|set_solver]. constructor; [|done]. intros Hin. destruct (Hk _ Hin); [congruence|done].
Qed.
Lemma dset_wf k v d : py_wf (PyDict d) = true -> py_wf v = true -> py_wf (PyDict (dset k v d)) = true.
Proof.
  simpl. rewrite !andb_true_iff, !bool_decide_eq_true. intros [Hd Hv] Hw. split; [by apply dset_keys|].
  rewrite forallb_true_iff in *. clear Hd. induction d as [|[k' v'] d IH]; simpl in *.
  - intros x [->|[]%elem_of_nil]%elem_of_cons. done.
  - case_decide; intros x [->|Hx]%elem_of_cons; simpl; auto; [apply Hv; by right|apply (Hv (k', v')); by left|].
    apply IH; [|done]. intros y Hy. apply Hv. by right.
Qed.

Lemma py_eq_str s v : py_eq v (PyStr s) = true <-> v = PyStr s.
Proof. destruct v; simpl; to_prop; naive_solver. Qed.

(** ** Text *)
Definition is_digit (c : ascii) : bool :=
  let n := nat_of_ascii c in (Nat.leb 48 n && Nat.leb n 57)%nat.
Definition digit_value (c : ascii) : Z := Z.of_nat (nat_of_ascii c) - 48.

(** [str(n)] *)
Definition str_of_Z (z : Z) : string := NilEmpty.string_of_int (Z.to_int z).

Lemma str_of_Z_inj a b : str_of_Z a = str_of_Z b -> a = b.
Proof.
  unfold str_of_Z. intros E. apply DecimalZ.to_int_inj.
  apply (f_equal NilEmpty.int_of_string) in E. rewrite !NilEmpty.isi in E. congruence.
Qed.

(** [text.split(c)] for a one-character separator. *)
Fixpoint split_on (c : ascii) (s : string) : list string :=
  match s with
  | EmptyString => [""]
  | String x s =>
      if decide (x = c) then "" :: split_on c s
      else match split_on c s with
           | [] => [String x ""]
           | p :: ps => String x p :: ps
           end
  end.

(** [text.replace(a, b)] for one-character [a] and [b]. *)
Fixpoint replace_char (a b : ascii) (s : string) : string :=
  match s with
  | EmptyString => ""
  | String x s => String (if decide (x = a) then b else x) (replace_char a b s)
  end.

(** [part in text] *)
Fixpoint str_contains (part s : string) : bool :=
  String.prefix part s ||
  match s with
  | EmptyString => false
  | String _ s => str_contains part s
  end.

(** [re.findall(r"\d+", text)], each group as the integer it denotes (the
    digits of a version string are ASCII). *)
Fixpoint digit_groups (cur : option Z) (s : string) : list Z :=
  match s with
  | EmptyString => match cur with Some n => [n] | None => [] end
  | String c s =>
      if is_digit c then digit_groups (Some (10 * default 0 cur + digit_value c)) s
      else match cur with
           | Some n => n :: digit_groups None s
           | None => digit_groups None s
           end
  end.

(** [int(text)]: optional sign, digits, single underscores between digits,
    surrounding ASCII white space. *)
Definition is_space (c : ascii) : bool :=
  let n := nat_of_ascii c in (Nat.eqb n 32 || (Nat.leb 9 n && Nat.leb n 13))%nat.
Fixpoint lstrip (s : string) : string :=
  match s with
  | String c s' => if is_space c then lstrip s' else s
  | _ => s
  end.
Fixpoint string_rev_app (s acc : string) : string :=
  match s with EmptyString => acc | String c s => string_rev_app s (String c acc) end.
Definition string_rev (s : string) : string := string_rev_app s "".
Definition strip (s : string) : string := string_rev (lstrip (string_rev (lstrip s))).
Fixpoint parse_digits (acc : Z) (need : bool) (s : string) : option Z :=
  match s with
  | EmptyString => if need then None else Some acc
  | String c s =>
      if is_digit c then parse_digits (10 * acc + digit_value c) false s
      else if decide (c = "_"%char) then (if need then None else parse_digits acc true s)
      else None
  end.
Definition parse_int (s : string) : option Z :=
  match strip s with
  | String "-"%char s => Z.opp <$> parse_digits 0 true s
  | String "+"%char s => parse_digits 0 true s
  | s => parse_digits 0 true s
  end.

(** [text.strip()]: the white space of [str.isspace], by its UTF-8 bytes.  An
    encoding never starts inside another one, so the right end is stripped by
    reading the bytes backwards. *)
Definition ws1 (a : ascii) : bool :=
  let n := nat_of_ascii a in ((Nat.leb 9 n && Nat.leb n 13) || (Nat.leb 28 n && Nat.leb n 32))%nat.
Definition ws2 (a b : ascii) : bool :=
  (Nat.eqb (nat_of_ascii a) 194 && (Nat.eqb (nat_of_ascii b) 133 || Nat.eqb (nat_of_ascii b) 160))%nat.
Definition ws3 (a b c : ascii) : bool :=
  let x := nat_of_ascii a in let y := nat_of_ascii b in let z := nat_of_ascii c in
  ((Nat.eqb x 225 && Nat.eqb y 154 && Nat.eqb z 128)
   || (Nat.eqb x 226 && Nat.eqb y 128 && ((Nat.leb 128 z && Nat.leb z 138) || Nat.eqb z 168 || Nat.eqb z 169 || Nat.eqb z 175))
   || (Nat.eqb x 226 && Nat.eqb y 129 && Nat.eqb z 159)
   || (Nat.eqb x 227 && Nat.eqb y 128 && Nat.eqb z 128))%nat.
Section strip.
Variable w2 : ascii -> ascii -> bool.
Variable w3 : ascii -> ascii -> ascii -> bool.
Fixpoint drop_spaces (s : string) : string :=
  match s with
  | EmptyString => s
  | String a s1 =>
      if ws1 a then drop_spaces s1 else
      match s1 with
      | EmptyString => s
      | String b s2 =>
          if w2 a b then drop_spaces s2 else
          match s2 with
          | EmptyString => s
          | String c s3 => if w3 a b c then drop_spaces s3 else s
          end
      end
  end.
Definition starts_space (s : string) : bool :=
  match s with
  | EmptyString => false
  | String a s1 =>
      ws1 a ||
      match s1 with
      | EmptyString => false
      | String b s2 => w2 a b || match s2 with EmptyString => false | String c _ => w3 a b c end
      end
  end.
Lemma drop_spaces_clean s : starts_space (drop_spaces s) = false.
Proof.
  induction s as [s IH] using (induction_ltof1 _ String.length). unfold ltof in IH.
  destruct s as [|a s1]; [done|]. simpl. destruct (ws1 a) eqn:E1; [apply IH; simpl; lia|].
  destruct s1 as [|b s2]; [simpl; by rewrite E1|]. destruct (w2 a b) eqn:E2; [apply IH; simpl; lia|].
  destruct s2 as [|c s3]; [simpl; by rewrite E1, E2|]. destruct (w3 a b c) eqn:E3; [apply IH; simpl; lia|].
  simpl. by rewrite E1, E2, E3.
Qed.
Lemma drop_spaces_id s : starts_space s = false -> drop_spaces s = s.
Proof.
  destruct s as [|a s1]; [done|]. simpl. rewrite orb_false_iff. intros [-> H].
  destruct s1 as [|b s2]; [done|]. rewrite orb_false_iff in H. destruct H as [-> H].
  destruct s2 as [|c s3]; [done|]. by rewrite H.
Qed.
Lemma drop_spaces_suffix s : exists p, s = (p +:+ drop_spaces s)%string.
Proof.
  induction s as [s IH] using (induction_ltof1 _ String.length). unfold ltof in IH.
  destruct s as [|a s1]; [by exists ""|]. simpl. destruct (ws1 a).
  { destruct (IH s1) as [p E]; [simpl; lia|]. exists (String a p). by rewrite E at 1. }
  destruct s1 as [|b s2]; [by exists ""|]. destruct (w2 a b).
  { destruct (IH s2) as [p E]; [simpl; lia|]. exists (String a (String b p)). by rewrite E at 1. }
  destruct s2 as [|c s3]; [by exists ""|]. destruct (w3 a b c).
  { destruct (IH s3) as [p E]; [simpl; lia|]. exists (String a (String b (String c p))). by rewrite E at 1. }
  by exists "".
Qed.
(** Cutting the end off does not create leading white space. *)
Lemma starts_space_prefix s t : starts_space (s +:+ t) = false -> starts_space s = false.
Proof.
  destruct s as [|a [|b [|c s]]]; simpl; rewrite ?orb_false_iff; intuition.
Qed.
End strip.
Definition str_strip (s : string) : string :=
  string_rev (drop_spaces (fun b a => ws2 a b) (fun c b a => ws3 a b c) (string_rev (drop_spaces ws2 ws3 s))).

Lemma append_cons c a b : String c a +:+ b = String c (a +:+ b).
Proof. done. Qed.
Lemma append_assoc a b c : (a +:+ b) +:+ c = a +:+ (b +:+ c).
Proof. induction a as [|x a IH]; [done|]. by rewrite !append_cons, IH. Qed.
Lemma append_nil a : a +:+ "" = a.
Proof. induction a as [|x a IH]; [done|]. by rewrite append_cons, IH. Qed.
Lemma string_rev_app_spec s acc : string_rev_app s acc = string_rev s +:+ acc.
Proof.
  unfold string_rev. revert acc. induction s as [|c s IH]; intros acc; [done|]. cbn [string_rev_app].
  by rewrite (IH (String c acc)), (IH (String c "")), append_assoc.
Qed.
Lemma string_rev_cons c s : string_rev (String c s) = string_rev s +:+ String c "".
Proof. unfold string_rev at 1. cbn [string_rev_app]. apply string_rev_app_spec. Qed.
Lemma string_rev_append a b : string_rev (a +:+ b) = string_rev b +:+ string_rev a.
Proof.
  induction a as [|c a IH]; [by rewrite append_nil|]. by rewrite append_cons, !string_rev_cons, IH, append_assoc.
Qed.
Lemma string_rev_involutive s : string_rev (string_rev s) = s.
Proof. induction s as [|c s IH]; [done|]. by rewrite string_rev_cons, string_rev_append, IH. Qed.

Lemma str_strip_idemp s : str_strip (str_strip s) = str_strip s.
Proof.
  unfold str_strip. set (l := drop_spaces ws2 ws3 s). set (r := drop_spaces _ _ (string_rev l)).
  assert (starts_space ws2 ws3 (string_rev r) = false) as Hl.
  { destruct (drop_spaces_suffix (fun b a => ws2 a b) (fun c b a => ws3 a b c) (string_rev l)) as [p Hp]. fold r in Hp.
    apply (starts_space_prefix _ _ _ (string_rev p)). rewrite <- string_rev_append, <- Hp, string_rev_involutive.
    apply drop_spaces_clean. }
  rewrite (drop_spaces_id _ _ _ Hl), string_rev_involutive. f_equal. apply drop_spaces_id, drop_spaces_clean.
Qed.

(** Lexicographic order on tuples of integers. *)
Fixpoint tuple_ltb (a b : list Z) : bool :=
  match a, b with
  | [], [] => false
  | [], _ :: _ => true
  | _ :: _, [] => false
  | x :: a, y :: b => (x <? y) || ((x =? y) && tuple_ltb a b)
  end.

(** Code-point order on strings: the byte order of their UTF-8 encodings. *)
Fixpoint str_ltb (a b : string) : bool :=
  match a, b with
  | EmptyString, EmptyString => false
  | EmptyString, String _ _ => true
  | String _ _, EmptyString => false
  | String x a, String y b =>
      let m := nat_of_ascii x in let n := nat_of_ascii y in
      Nat.ltb m n || (Nat.eqb m n && str_ltb a b)
  end.
Definition str_leb (a b : string) : bool := negb (str_ltb b a).

Section str_order.
Implicit Types a b c : string.
Lemma str_ltb_irrefl a : str_ltb a a = false.
Proof. induction a as [|x a IH]; simpl; [done|]. by rewrite Nat.ltb_irrefl, IH, andb_false_r. Qed.
Lemma str_ltb_trans a b c : str_ltb a b = true -> str_ltb b c = true -> str_ltb a c = true.
Proof.
  revert b c. induction a as [|x a IH]; intros [|y b] [|z c]; simpl; try done.
  rewrite !orb_true_iff, !andb_true_iff, !Nat.ltb_lt, !Nat.eqb_eq.
  intros [?|[? ?]] [?|[? ?]]; [left; lia | left; lia | left; lia | right; split; [lia|eauto]].
Qed.
Lemma str_ltb_trichotomy a b : str_ltb a b = false -> str_ltb b a = false -> a = b.
Proof.
  revert b. induction a as [|x a IH]; intros [|y b]; simpl; try done.
  rewrite !orb_false_iff, !andb_false_iff, !Nat.ltb_ge, !Nat.eqb_neq.
  intros [? H1] [? H2].
  assert (nat_of_ascii x = nat_of_ascii y) as E by lia.
  apply (f_equal ascii_of_nat) in E. rewrite !ascii_nat_embedding in E. subst y.
  f_equal. apply IH; [destruct H1 | destruct H2]; done || lia.
Qed.
Lemma str_leb_total a b : str_leb a b = false -> str_leb b a = true.
Proof.
  unfold str_leb. rewrite negb_false_iff, negb_true_iff. intros H.
  destruct (str_ltb a b) eqn:E; [|done].
  pose proof (str_ltb_trans _ _ _ H E) as H'. by rewrite str_ltb_irrefl in H'.
Qed.
Lemma str_leb_trans a b c : str_leb a b = true -> str_leb b c = true -> str_leb a c = true.
Proof.
  unfold str_leb. rewrite !negb_true_iff. intros H1 H2.
  destruct (str_ltb c a) eqn:E; [|done].
  destruct (str_ltb a b) eqn:E1.
  - by rewrite (str_ltb_trans _ _ _ E E1) in H2.
  - rewrite (str_ltb_trichotomy _ _ E1 H1) in E. congruence.
Qed.
Lemma str_leb_antisymm a b : str_leb a b = true -> str_leb b a = true -> a = b.
Proof. unfold str_leb. rewrite !negb_true_iff. intros. by apply str_ltb_trichotomy. Qed.
End str_order.

(** [sorted(set(names))] *)
Definition sorted_set (l : list string) : list string := isort str_leb (remove_dups l).
Lemma elem_of_sorted_set x l : x ∈ sorted_set l <-> x ∈ l.
Proof. unfold sorted_set. by rewrite elem_of_isort, elem_of_remove_dups. Qed.

(** [len(text)]: the number of code points, i.e. of non-continuation bytes. *)
Fixpoint py_len (s : string) : Z :=
  match s with
  | EmptyString => 0
  | String c s =>
      let n := nat_of_ascii c in
      (if (Nat.leb 128 n && Nat.leb n 191)%nat then 0 else 1) + py_len s
  end.

(** [text[:n]]: the first [n] code points (a continuation byte belongs to the
    code point before it). *)
Fixpoint py_take (n : nat) (s : string) : string :=
  match s with
  | EmptyString => ""
  | String c s' =>
      let k := nat_of_ascii c in
      if (Nat.leb 128 k && Nat.leb k 191)%nat then String c (py_take n s')
      else match n with O => "" | S n => String c (py_take n s') end
  end.

(** ** The interpreter *)
Class PyRuntime := {
  casefold : string -> string;
  str_lower : string -> string;     (* [text.lower()] *)
  fromisoformat : string -> option datetime;
  str_other : pyval -> string;      (* [str] of a timestamp or a container *)
}.

Section runtime.
Context `{PyRuntime}.

(** [str(value)] *)
Definition py_str (v : pyval) : string :=
  match v with
  | PyNone => "None"
  | PyBool b => if b then "True" else "False"
  | PyInt z => str_of_Z z
  | PyStr s => s
  | _ => str_other v
  end.

(** [int(value)] *)
Definition py_int (v : pyval) : res Z :=
  match v with
  | PyInt z => Ok z
  | PyBool b => Ok (Z.b2z b)
  | PyStr s => match parse_int s with
               | Some z => Ok z
               | None => Err (ValueError "invalid literal for int()")
               end
  | _ => Err (TypeError "int() argument")
  end.
End runtime.

(** ** A concrete interpreter: ASCII case folding, and timestamps written as
    a plain number of microseconds. *)
Definition ascii_lower (c : ascii) : ascii :=
  let n := nat_of_ascii c in
  if (Nat.leb 65 n && Nat.leb n 90)%nat then ascii_of_nat (n + 32)%nat else c.
Fixpoint ascii_casefold (s : string) : string :=
  match s with EmptyString => "" | String c s => String (ascii_lower c) (ascii_casefold s) end.
Definition ascii_runtime : PyRuntime := {|
  casefold := ascii_casefold;
  str_lower := ascii_casefold;
  fromisoformat s := utc <$> parse_int s;
  str_other _ := "<object>";
|}.
