(* ===== verification/Sha256.v ===== *)
(** * SHA-256

    [hashlib.sha256], executable: the digests the program stores in its
    ledgers and compares are computed, not assumed.  Words are integers kept
    below 2^32. *)
From Stdlib Require Import Ascii.
From S2P Require Import Prelude.
Local Open Scope string_scope.
Local Open Scope Z_scope.

Definition w32 (x : Z) : Z := Z.land x 4294967295.
Definition add32 (x y : Z) : Z := w32 (x + y).
Definition rotr (n x : Z) : Z := Z.lor (Z.shiftr x n) (w32 (Z.shiftl x (32 - n))).

Definition sha_k : list Z := [
  1116352408; 1899447441; 3049323471; 3921009573; 961987163; 1508970993;
  2453635748; 2870763221; 3624381080; 310598401; 607225278; 1426881987;
  1925078388; 2162078206; 2614888103; 3248222580; 3835390401; 4022224774;
  264347078; 604807628; 770255983; 1249150122; 1555081692; 1996064986;
  2554220882; 2821834349; 2952996808; 3210313671; 3336571891; 3584528711;
  113926993; 338241895; 666307205; 773529912; 1294757372; 1396182291;
  1695183700; 1986661051; 2177026350; 2456956037; 2730485921; 2820302411;
  3259730800; 3345764771; 3516065817; 3600352804; 4094571909; 275423344;
  430227734; 506948616; 659060556; 883997877; 958139571; 1322822218;
  1537002063; 1747873779; 1955562222; 2024104815; 2227730452; 2361852424;
  2428436474; 2756734187; 3204031479; 3329325298].

Definition sha_h0 : list Z := [1779033703; 3144134277; 1013904242; 2773480762; 1359893119; 2600822924; 528734635; 1541459225].

Definition small_sigma0 x := Z.lxor (rotr 7 x) (Z.lxor (rotr 18 x) (Z.shiftr x 3)).
Definition small_sigma1 x := Z.lxor (rotr 17 x) (Z.lxor (rotr 19 x) (Z.shiftr x 10)).
Definition big_sigma0 x := Z.lxor (rotr 2 x) (Z.lxor (rotr 13 x) (rotr 22 x)).
Definition big_sigma1 x := Z.lxor (rotr 6 x) (Z.lxor (rotr 11 x) (rotr 25 x)).
Definition sha_ch x y z := Z.lxor (Z.land x y) (Z.land (Z.lxor x 4294967295) z).
Definition sha_maj x y z := Z.lxor (Z.land x y) (Z.lxor (Z.land x z) (Z.land y z)).

(** The message schedule, newest word first. *)
Fixpoint extend (n : nat) (w : list Z) : list Z :=
  match n with
  | O => w
  | S n =>
      let at_ i := nth i w 0 in
      extend n (add32 (add32 (small_sigma1 (at_ 1%nat)) (at_ 6%nat))
                      (add32 (small_sigma0 (at_ 14%nat)) (at_ 15%nat)) :: w)
  end.

Definition sha_round (s : list Z) (kw : Z * Z) : list Z :=
  match s with
  | [a; b; c; d; e; f; g; h] =>
      let t1 := add32 (add32 h (big_sigma1 e)) (add32 (sha_ch e f g) (add32 kw.1 kw.2)) in
      let t2 := add32 (big_sigma0 a) (sha_maj a b c) in
      [add32 t1 t2; a; b; c; add32 d t1; e; f; g]
  | _ => s
  end.

Definition compress (s : list Z) (block : list Z) : list Z :=
  let w := rev (extend 48 (rev block)) in
  zip_with add32 s (fold_left sha_round (zip sha_k w) s).

Fixpoint words (bytes : list Z) : list Z :=
  match bytes with
  | a :: b :: c :: d :: rest =>
      (Z.shiftl a 24 + Z.shiftl b 16 + Z.shiftl c 8 + d) :: words rest
  | _ => []
  end.

Definition be64 (n : Z) : list Z :=
  map (fun i => Z.land (Z.shiftr n (8 * i)) 255) [7; 6; 5; 4; 3; 2; 1; 0].

Definition pad (msg : list Z) : list Z :=
  let l := Z.of_nat (length msg) in
  let zeros := (55 - l) mod 64 in
  msg ++ [128] ++ replicate (Z.to_nat zeros) 0 ++ be64 (8 * l).

Fixpoint blocks (fuel : nat) (ws : list Z) : list (list Z) :=
  match fuel, ws with
  | S fuel, _ :: _ => take 16 ws :: blocks fuel (drop 16 ws)
  | _, _ => []
  end.

Definition bytes_of (s : string) : list Z :=
  map (fun c => Z.of_nat (nat_of_ascii c)) (String.list_ascii_of_string s).

Definition hex_digit (n : Z) : ascii :=
  ascii_of_nat (Z.to_nat (if n <? 10 then 48 + n else 87 + n)).
Definition hex32 (x : Z) : list ascii :=
  map (fun i => hex_digit (Z.land (Z.shiftr x (4 * i)) 15)) [7; 6; 5; 4; 3; 2; 1; 0].

(** [hashlib.sha256(text.encode()).hexdigest()] *)
Definition sha256_hex (s : string) : string :=
  let ws := words (pad (bytes_of s)) in
  String.string_of_list_ascii (concat (map hex32 (fold_left compress (blocks (length ws) ws) sha_h0))).

Example sha256_abc :
  sha256_hex "abc" = "ba7816bf8f01cfea414140de5dae2223b00361a396177a9cb410ff61f20015ad".
Proof. vm_compute. reflexivity. Qed.

Example sha256_two_blocks :
  sha256_hex "abcdbcdecdefdefgefghfghighijhijkijkljklmklmnlmnomnopnopq" =
  "248d6a61d20638b8e5c026930c3e6039a33ce45964ff2167f6ecedd419db06c1".
Proof. vm_compute. reflexivity. Qed.

(** Two different texts with the same digest. *)
Definition sha256_collision (a b : string) : Prop := a <> b /\ sha256_hex a = sha256_hex b.

Lemma sha256_eq_or_collision a b :
  sha256_hex a = sha256_hex b -> a = b \/ sha256_collision a b.
Proof. intros E. destruct (decide (a = b)); [by left | by right]. Qed.

(** ** The shape of a digest: sixty-four lowercase hexadecimal digits *)
Definition is_hex (c : ascii) : bool :=
  let n := nat_of_ascii c in
  ((Nat.leb 48 n && Nat.leb n 57) || (Nat.leb 97 n && Nat.leb n 102))%nat.
(** The pattern [^[0-9a-f]{64}$]. *)
Definition is_sha256_hex (s : string) : bool :=
  let l := String.list_ascii_of_string s in Nat.eqb (length l) 64 && forallb is_hex l.

Lemma sha_round_length s kw : length (sha_round s kw) = length s.
Proof. unfold sha_round. repeat (case_match; try done). Qed.
Lemma sha_rounds_length l s : length (fold_left sha_round l s) = length s.
Proof. revert s. induction l as [|x l IH]; intros s; [done|]. simpl. by rewrite IH, sha_round_length. Qed.
Lemma compress_length l s : length (fold_left compress l s) = length s.
Proof.
  revert s. induction l as [|x l IH]; intros s; [done|]. simpl. rewrite IH. unfold compress.
  rewrite length_zip_with, sha_rounds_length. lia.
Qed.
Lemma hex_digit_hex n : 0 <= n < 16 -> is_hex (hex_digit n) = true.
Proof. by apply (below_forall (fun n => is_hex (hex_digit n)) 16). Qed.
Lemma hex32_shape x : length (hex32 x) = 8%nat /\ forallb is_hex (hex32 x) = true.
Proof.
  split; [done|]. unfold hex32. apply forallb_true_iff. intros c (i & -> & _)%list_elem_of_fmap.
  apply hex_digit_hex. change 15 with (Z.ones 4). rewrite Z.land_ones by lia. by apply Z.mod_pos_bound.
Qed.

Lemma sha256_hex_shape s : is_sha256_hex (sha256_hex s) = true.
Proof.
  unfold is_sha256_hex, sha256_hex. rewrite String.list_ascii_of_string_of_list_ascii.
  set (h := fold_left compress _ _). assert (length h = 8%nat) as Hl by apply compress_length.
  clearbody h. do 9 (destruct h as [|? h]; [try done|]; try done).
  cbn [map concat]. rewrite !length_app, !(fun x => proj1 (hex32_shape x)). cbn [length Nat.add Nat.eqb andb].
  by rewrite !forallb_app, !(fun x => proj2 (hex32_shape x)).
Qed.
