(* ===== verification/CanonicalJson.v ===== *)
(** * Canonical JSON (contracts/canonical_json.py)

    [_project] accepts an arbitrary Python object and keeps only what the
    frozen canonical-json.v1 contract can represent; [canonical_json_bytes]
    writes it with sorted keys and no white space; [canonical_json_hash] is the
    SHA-256 digest that binds proposals, approvals and effects.

    Main results: the bytes determine the value up to the order of its keys
    (and nothing less), so an equal digest is an equal value or an explicit
    SHA-256 collision; the insertion order of a mapping does not matter; and
    the projection succeeds on exactly the JSON-shaped objects. *)
From Stdlib Require Import Ascii DecimalString.
From S2P Require Import Prelude PyValue Sha256.
Local Open Scope string_scope.
Local Open Scope list_scope.
Local Open Scope Z_scope.

(** ** Data *)

(** A mapping key: a [str], or another hashable of the named class. *)
Inductive okey : Type :=
| KeyStr (s : string)
| KeyOther (class : string).

#[export] Instance okey_eq_dec : EqDecision okey.
Proof. solve_decision. Defined.

(** A Python object as [_project] distinguishes them. *)
Inductive pyobject : Type :=
| ONone
| OBool (b : bool)
| OInt (z : Z)
| OStr (s : string)
| OMapping (items : list (okey * pyobject))
| OList (l : list pyobject)
| OSequence (class : string)        (* tuple, deque, range, ... *)
| OUnsupported (class : string).    (* float, Decimal, datetime, bytes, ... *)

(** A value of the agent code as [_project] sees it. *)
Fixpoint to_object (v : pyval) : pyobject :=
  match v with
  | PyNone => ONone
  | PyBool b => OBool b
  | PyInt z => OInt z
  | PyStr s => OStr s
  | PyTime _ => OUnsupported "datetime"
  | PyList l => OList (map to_object l)
  | PyTuple _ => OSequence "tuple"
  | PyDict d => OMapping (map (fun kv => (KeyStr kv.1, to_object kv.2)) d)
  end.

Inductive CanonicalValue : Type :=
| CNull
| CBool (b : bool)
| CInt (z : Z)
| CStr (s : string)
| CList (l : list CanonicalValue)
| CObj (items : list (string * CanonicalValue)).

Section CanonicalValue_ind.
Variable P : CanonicalValue -> Prop.
Hypothesis HNull : P CNull.
Hypothesis HBool : forall b, P (CBool b).
Hypothesis HInt : forall z, P (CInt z).
Hypothesis HStr : forall s, P (CStr s).
Hypothesis HList : forall l, Forall P l -> P (CList l).
Hypothesis HObj : forall items, Forall (fun kv => P kv.2) items -> P (CObj items).

Fixpoint CanonicalValue_ind' (v : CanonicalValue) : P v :=
  let fix go (l : list CanonicalValue) : Forall P l :=
    match l with
    | [] => Forall_nil_2 P
    | x :: l => Forall_cons_2 P x l (CanonicalValue_ind' x) (go l)
    end in
  let fix go_kv (l : list (string * CanonicalValue)) : Forall (fun kv => P kv.2) l :=
    match l with
    | [] => Forall_nil_2 _
    | kv :: l => Forall_cons_2 _ kv l (CanonicalValue_ind' kv.2) (go_kv l)
    end in
  match v with
  | CNull => HNull
  | CBool b => HBool b
  | CInt z => HInt z
  | CStr s => HStr s
  | CList l => HList l (go l)
  | CObj items => HObj items (go_kv items)
  end.
End CanonicalValue_ind.

(** ** Projection *)

(** [value.encode("utf-8")] succeeds: the generalised UTF-8 text has no lone
    surrogate (a three-byte form ED A0..BF xx). *)
Fixpoint encodes_utf8 (s : string) : bool :=
  match s with
  | EmptyString => true
  | String c s' =>
      negb (Nat.eqb (nat_of_ascii c) 237 &&
            match s' with
            | String d _ => Nat.leb 160 (nat_of_ascii d) && Nat.leb (nat_of_ascii d) 191
            | EmptyString => false
            end) && encodes_utf8 s'
  end.

Fixpoint project (path : string) (value : pyobject) : res CanonicalValue :=
  match value with
  | ONone => Ok CNull
  | OBool b => Ok (CBool b)
  | OStr s =>
      raise CanonicalJsonError ("invalid Unicode scalar at " +:+ path) when negb (encodes_utf8 s) ;;
      Ok (CStr s)
  | OInt z => Ok (CInt z)
  | OMapping items =>
      let? projected :=
        (fix go (items : list (okey * pyobject)) : res (list (string * CanonicalValue)) :=
           match items with
           | [] => Ok []
           | (KeyOther _, _) :: _ =>
               Err (CanonicalJsonError ("object key at " +:+ path +:+ " must be a string"))
           | (KeyStr key, item) :: items =>
               raise CanonicalJsonError ("invalid Unicode object key at " +:+ path)
                 when negb (encodes_utf8 key) ;;
               let? v := project (path +:+ "." +:+ key) item in
               let? rest := go items in
               Ok ((key, v) :: rest)
           end) items in
      Ok (CObj projected)
  | OList l =>
      let? projected :=
        (fix go (index : Z) (l : list pyobject) : res (list CanonicalValue) :=
           match l with
           | [] => Ok []
           | item :: l =>
               let? v := project (path +:+ "[" +:+ str_of_Z index +:+ "]") item in
               let? rest := go (index + 1) l in
               Ok (v :: rest)
           end) 0 l in
      Ok (CList projected)
  | OSequence class =>
      Err (CanonicalJsonError ("non-JSON sequence at " +:+ path +:+ ": " +:+ class))
  | OUnsupported class =>
      Err (CanonicalJsonError ("unsupported canonical value at " +:+ path +:+ ": " +:+ class))
  end.

(** ** Serialisation: [json.dumps(..., sort_keys=True, separators=(",", ":"),
    ensure_ascii=False)] *)
Definition quote_char : ascii := "034"%char.
Definition backslash : ascii := "092"%char.

(** The escapes of [json.encoder.ESCAPE]. *)
Definition escape_char (c : ascii) : list ascii :=
  if decide (c = quote_char) then [backslash; quote_char]
  else if decide (c = backslash) then [backslash; backslash]
  else if decide (c = "010"%char) then [backslash; "n"%char]
  else if decide (c = "013"%char) then [backslash; "r"%char]
  else if decide (c = "009"%char) then [backslash; "t"%char]
  else if decide (c = "012"%char) then [backslash; "f"%char]
  else if decide (c = "008"%char) then [backslash; "b"%char]
  else
    let n := Z.of_nat (nat_of_ascii c) in
    if n <? 32 then
      [backslash; "u"%char; "0"%char; "0"%char; hex_digit (Z.shiftr n 4); hex_digit (Z.land n 15)]
    else [c].

Fixpoint escape (s : string) : list ascii :=
  match s with
  | EmptyString => []
  | String c s => escape_char c ++ escape s
  end.
Definition write_str (s : string) : list ascii := quote_char :: escape s ++ [quote_char].
Arguments write_str : simpl never.
Definition chars (s : string) : list ascii := String.list_ascii_of_string s.

Definition key_leb {A} (x y : string * A) : bool := str_leb x.1 y.1.

(** One object body: the members in order, already serialised. *)
Fixpoint write_members (first : bool) (items : list (string * list ascii)) : list ascii :=
  match items with
  | [] => ["}"%char]
  | (k, v) :: items =>
      (if first then [] else [","%char]) ++ write_str k ++ [":"%char] ++ v ++ write_members false items
  end.
Fixpoint write_elements (first : bool) (items : list (list ascii)) : list ascii :=
  match items with
  | [] => ["]"%char]
  | v :: items => (if first then [] else [","%char]) ++ v ++ write_elements false items
  end.

Fixpoint dumps (v : CanonicalValue) : list ascii :=
  match v with
  | CNull => chars "null"
  | CBool true => chars "true"
  | CBool false => chars "false"
  | CInt z => chars (str_of_Z z)
  | CStr s => write_str s
  | CList l => "["%char :: write_elements true (map dumps l)
  | CObj items =>
      "{"%char :: write_members true
        (isort key_leb (map (fun kv => (kv.1, dumps kv.2)) items))
  end.

Definition canonical_json_bytes (value : pyobject) : res string :=
  let? projected := project "$" value in
  Ok (String.string_of_list_ascii (dumps projected)).

Definition canonical_json_hash (value : pyobject) : res string :=
  let? bytes := canonical_json_bytes value in
  Ok (sha256_hex bytes).
(** contracts/finalizer.py [canonical_hash] and services/business.py
    [action_hash]. *)
Definition canonical_hash (value : pydict) : res string := canonical_json_hash (to_object (PyDict value)).
Definition action_hash (payload : pydict) : res string := canonical_json_hash (to_object (PyDict payload)).


(** ** The order-free content of a value *)
Fixpoint norm (v : CanonicalValue) : CanonicalValue :=
  match v with
  | CList l => CList (map norm l)
  | CObj items => CObj (isort key_leb (map (fun kv => (kv.1, norm kv.2)) items))
  | _ => v
  end.

(** The writer without the sort. *)
Fixpoint write (v : CanonicalValue) : list ascii :=
  match v with
  | CNull => chars "null"
  | CBool true => chars "true"
  | CBool false => chars "false"
  | CInt z => chars (str_of_Z z)
  | CStr s => write_str s
  | CList l => "["%char :: write_elements true (map write l)
  | CObj items => "{"%char :: write_members true (map (fun kv => (kv.1, write kv.2)) items)
  end.

Lemma isort_map {A B} (leA : A -> A -> bool) (leB : B -> B -> bool) (f : A -> B) l :
  (forall x y, leB (f x) (f y) = leA x y) -> isort leB (map f l) = map f (isort leA l).
Proof.
  intros Hf. induction l as [|x l IH]; simpl; [done|]. rewrite IH. clear IH.
  induction (isort leA l) as [|y l' IH]; simpl; [done|].
  rewrite Hf. destruct (leA x y); simpl; [done|]. by rewrite IH.
Qed.

Lemma dumps_write v : dumps v = write (norm v).
Proof.
  induction v as [| | | |l IH|items IH] using CanonicalValue_ind'; simpl; try done.
  - do 2 f_equal. rewrite map_map. induction IH as [|x l Hx _ IHl]; simpl; [done|]. by rewrite Hx, IHl.
  - f_equal. f_equal.
    rewrite <- (isort_map key_leb key_leb (fun kv => (kv.1, write kv.2))) by done.
    rewrite map_map. f_equal. induction IH as [|x l Hx _ IHl]; simpl; [done|]. by rewrite Hx, IHl.
Qed.

(** *** Unique readability *)

(** Reads back one (possibly escaped) character. *)
Definition hex_value (c : ascii) : Z :=
  let n := Z.of_nat (nat_of_ascii c) in if n <? 58 then n - 48 else n - 87.
Definition unescape (l : list ascii) : option (ascii * list ascii) :=
  match l with
  | [] => None
  | c :: l =>
      if decide (c = backslash) then
        match l with
        | "n"%char :: l => Some ("010"%char, l)
        | "r"%char :: l => Some ("013"%char, l)
        | "t"%char :: l => Some ("009"%char, l)
        | "f"%char :: l => Some ("012"%char, l)
        | "b"%char :: l => Some ("008"%char, l)
        | "u"%char :: _ :: _ :: h1 :: h2 :: l =>
            Some (ascii_of_nat (Z.to_nat (16 * hex_value h1 + hex_value h2)), l)
        | c :: l => Some (c, l)
        | [] => None
        end
      else Some (c, l)
  end.

Lemma unescape_escape c r : unescape (escape_char c ++ r) = Some (c, r).
Proof. destruct c as [[] [] [] [] [] [] [] []]; vm_compute; reflexivity. Qed.

Lemma escape_char_head c : exists d l, escape_char c = d :: l /\ d <> quote_char.
Proof. destruct c as [[] [] [] [] [] [] [] []]; (do 2 eexists; split; [reflexivity | discriminate]). Qed.

Lemma escape_inj s s' r r' :
  escape s ++ quote_char :: r = escape s' ++ quote_char :: r' -> s = s' /\ r = r'.
Proof.
  revert s'. induction s as [|c s IH]; intros [|c' s'] E; simpl in E.
  - by simplify_eq.
  - destruct (escape_char_head c') as (d & l & Hd & ?). rewrite Hd in E. simpl in E. congruence.
  - destruct (escape_char_head c) as (d & l & Hd & ?). rewrite Hd in E. simpl in E. congruence.
  - rewrite <- !app_assoc in E. apply (f_equal unescape) in E.
    rewrite !unescape_escape in E. injection E as -> E. by apply IH in E as [-> ->].
Qed.

Lemma write_str_inj s s' r r' :
  write_str s ++ r = write_str s' ++ r' -> s = s' /\ r = r'.
Proof. unfold write_str. simpl. rewrite <- !app_assoc. intros E. injection E as E. by apply escape_inj in E. Qed.

(** What may follow a value. *)
Definition delim (c : ascii) : bool := mem c [","%char; "]"%char; "}"%char].
Definition ends (l : list ascii) : Prop := forall c l', l = c :: l' -> delim c = true.

Lemma ends_nil : ends [].
Proof. by intros ? ?. Qed.
Lemma ends_elements l r : ends (write_elements false l ++ r).
Proof. destruct l; intros ? ? [= <- <-]; done. Qed.
Lemma ends_members l r : ends (write_members false l ++ r).
Proof. destruct l as [|[??]]; intros ? ? [= <- <-]; done. Qed.
Lemma span_inj (a a' r r' : list ascii) :
  Forall (fun c => delim c = false) a -> Forall (fun c => delim c = false) a' ->
  ends r -> ends r' -> a ++ r = a' ++ r' -> a = a' /\ r = r'.
Proof.
  intros Ha. revert a'. induction Ha as [|c a Hc Ha IH]; intros a' Ha' Hr Hr' E.
  - destruct Ha' as [|c' a' Hc' _]; [done|]. simpl in E. apply Hr in E. congruence.
  - destruct Ha' as [|c' a' Hc' Ha']; simpl in E.
    + symmetry in E. apply Hr' in E. congruence.
    + injection E as -> E. by destruct (IH _ Ha' Hr Hr' E) as [-> ->].
Qed.

Lemma uint_chars d : Forall (fun c => is_digit c = true) (chars (NilEmpty.string_of_uint d)).
Proof. induction d; simpl; constructor; done. Qed.

Definition int_char (c : ascii) : bool := is_digit c || eqb c "-"%char.
Lemma int_chars z : Forall (fun c => int_char c = true) (chars (str_of_Z z)).
Proof.
  unfold str_of_Z. destruct (Z.to_int z) as [d|d]; simpl; [|constructor; [done|]];
    (eapply Forall_impl; [apply uint_chars|]); intros c Hc; unfold int_char; by rewrite Hc.
Qed.
Lemma int_nonnil z : chars (str_of_Z z) <> [].
Proof.
  unfold str_of_Z. intros E. assert (NilEmpty.string_of_int (Z.to_int z) = "") as E'.
  { destruct (NilEmpty.string_of_int _); done. }
  apply (f_equal NilEmpty.int_of_string) in E'. rewrite NilEmpty.isi in E'. injection E' as E'.
  destruct z as [|p|p]; simpl in E'; try done; injection E' as E';
    by apply DecimalPos.Unsigned.to_uint_nonnil in E'.
Qed.
Lemma int_char_not_delim c : int_char c = true -> delim c = false.
Proof. destruct c as [[] [] [] [] [] [] [] []]; vm_compute; done. Qed.
Lemma int_not_delim z : Forall (fun c => delim c = false) (chars (str_of_Z z)).
Proof. eapply Forall_impl; [apply int_chars | apply int_char_not_delim]. Qed.

(** The first character tells the constructors apart. *)
Definition head_class (v : CanonicalValue) : ascii -> bool :=
  match v with
  | CNull => eqb "n"%char
  | CBool true => eqb "t"%char
  | CBool false => eqb "f"%char
  | CInt _ => int_char
  | CStr _ => eqb quote_char
  | CList _ => eqb "["%char
  | CObj _ => eqb "{"%char
  end.

Lemma write_head v r : exists c l, write v ++ r = c :: l /\ head_class v c = true.
Proof.
  destruct v as [|[]|z|s|l|items]; simpl; eauto.
  pose proof (int_nonnil z) as Hz. pose proof (int_chars z) as Hc.
  destruct (chars (str_of_Z z)); [done|]. inversion Hc; subst. simpl. eauto.
Qed.

Lemma head_class_not_delim v c : head_class v c = true -> delim c = false.
Proof.
  destruct v as [|[]|z|s|l|items]; simpl; try (intros <-%eqb_true; reflexivity).
  apply int_char_not_delim.
Qed.

Lemma head_class_disjoint v w c :
  head_class v c = true -> head_class w c = true ->
  match v, w with
  | CNull, CNull | CInt _, CInt _ | CStr _, CStr _ | CList _, CList _ | CObj _, CObj _ => True
  | CBool a, CBool b => a = b
  | _, _ => False
  end.
Proof.
  destruct v as [|[]|?|?|?|?], w as [|[]|?|?|?|?]; simpl; try done;
    intros H1 H2; first [rewrite eqb_true in H1; subst c | rewrite eqb_true in H2; subst c]; by vm_compute in *.
Qed.

Lemma write_not_delim v r c l : delim c = true -> write v ++ r = c :: l -> False.
Proof.
  intros Hc E. destruct (write_head v r) as (c' & l' & E' & Hh). rewrite E in E'. injection E' as <- _.
  apply head_class_not_delim in Hh. congruence.
Qed.

Definition readable (v : CanonicalValue) : Prop :=
  forall w r r', ends r -> ends r' -> write v ++ r = write w ++ r' -> v = w /\ r = r'.

Lemma write_elements_inj b l :
  Forall readable l -> forall l' r r',
  write_elements b (map write l) ++ r = write_elements b (map write l') ++ r' ->
  l = l' /\ r = r'.
Proof.
  intros Hl. revert b. induction Hl as [|v l Hv Hl IH]; intros b [|v' l'] r r' E; simpl in E.
  - by simplify_eq.
  - destruct b; simpl in E; [|done]. rewrite <- app_assoc in E. symmetry in E.
    by apply write_not_delim in E.
  - destruct b; simpl in E; [|done]. rewrite <- app_assoc in E. by apply write_not_delim in E.
  - assert (write v ++ write_elements false (map write l) ++ r =
            write v' ++ write_elements false (map write l') ++ r') as E'.
    { destruct b; simpl in E; rewrite <- !app_assoc in E; [done | by injection E]. }
    apply Hv in E' as [-> E']; [|apply ends_elements..].
    by apply IH in E' as [-> ->].
Qed.

Lemma write_members_inj b (l : list (string * CanonicalValue)) :
  Forall (fun kv => readable kv.2) l -> forall l' r r',
  write_members b (map (fun kv => (kv.1, write kv.2)) l) ++ r =
  write_members b (map (fun kv => (kv.1, write kv.2)) l') ++ r' ->
  l = l' /\ r = r'.
Proof.
  intros Hl. revert b. induction Hl as [|[k v] l Hv Hl IH]; intros b [|[k' v'] l'] r r' E; simpl in E.
  - by simplify_eq.
  - by destruct b.
  - by destruct b.
  - assert (write_str k ++ ":"%char :: write v ++ write_members false (map (fun kv => (kv.1, write kv.2)) l) ++ r =
            write_str k' ++ ":"%char :: write v' ++ write_members false (map (fun kv => (kv.1, write kv.2)) l') ++ r') as E'.
    { destruct b; simpl in E; [|injection E as E];
        repeat (rewrite <- app_assoc in E; simpl in E);
        unfold write_str; simpl; rewrite <- !app_assoc; first [exact E | f_equal; exact E]. }
    apply write_str_inj in E' as [-> E']. injection E' as E'.
    apply Hv in E' as [E1 E']; [|apply ends_members..]. simpl in E1. subst v'.
    by apply IH in E' as [-> ->].
Qed.

Lemma write_readable v : readable v.
Proof.
  induction v as [|b|z|s|l IH|items IH] using CanonicalValue_ind';
    intros w r r' Hr Hr' E;
    destruct (write_head w r') as (c & l1 & E1 & H1); rewrite E1 in E;
    lazymatch type of E with write ?v ++ _ = _ =>
      destruct (write_head v r) as (c' & l2 & E2 & H2); rewrite E2 in E; injection E as -> ->;
      pose proof (head_class_disjoint _ _ _ H2 H1) as Hd; destruct w; try done; clear H1 H2;
      rewrite <- E2 in E1; clear E2; simpl in E1
    end.
  - by simplify_eq.
  - subst. by apply app_inv_head in E1 as ->.
  - destruct (span_inj _ _ _ _ (int_not_delim _) (int_not_delim _) Hr' Hr E1) as [E1' ->].
    clear E1; rename E1' into E1. apply (f_equal String.string_of_list_ascii) in E1.
    unfold chars in E1. rewrite !String.string_of_list_ascii_of_string in E1.
    by apply str_of_Z_inj in E1 as ->.
  - by apply write_str_inj in E1 as [-> ->].
  - injection E1 as E1. symmetry in E1. by apply write_elements_inj in E1 as [-> ->].
  - injection E1 as E1. symmetry in E1. by apply write_members_inj in E1 as [-> ->].
Qed.

Lemma dumps_inj c c' : dumps c = dumps c' <-> norm c = norm c'.
Proof.
  rewrite !dumps_write. split; [|by intros ->]. intros E.
  destruct (write_readable (norm c) (norm c') [] []) as [? _]; [apply ends_nil.. | | done].
  by rewrite !app_nil_r.
Qed.

(** ** Projection *)

(** The objects canonical-json.v1 can represent. *)
Fixpoint json_shaped (value : pyobject) : bool :=
  match value with
  | ONone | OBool _ | OInt _ => true
  | OStr s => encodes_utf8 s
  | OMapping items =>
      forallb (fun kv => match kv.1 with KeyStr k => encodes_utf8 k | KeyOther _ => false end
                         && json_shaped kv.2) items
  | OList l => forallb json_shaped l
  | OSequence _ | OUnsupported _ => false
  end.

Section pyobject_ind.
Variable P : pyobject -> Prop.
Hypothesis HAtom : forall v, match v with OMapping _ | OList _ => False | _ => True end -> P v.
Hypothesis HMapping : forall items, Forall (fun kv => P kv.2) items -> P (OMapping items).
Hypothesis HList : forall l, Forall P l -> P (OList l).

Fixpoint pyobject_ind' (v : pyobject) : P v :=
  let fix go (l : list pyobject) : Forall P l :=
    match l with
    | [] => Forall_nil_2 P
    | x :: l => Forall_cons_2 P x l (pyobject_ind' x) (go l)
    end in
  let fix go_kv (l : list (okey * pyobject)) : Forall (fun kv => P kv.2) l :=
    match l with
    | [] => Forall_nil_2 _
    | kv :: l => Forall_cons_2 _ kv l (pyobject_ind' kv.2) (go_kv l)
    end in
  match v with
  | OMapping items => HMapping items (go_kv items)
  | OList l => HList l (go l)
  | v => HAtom v I
  end.
End pyobject_ind.

Definition member_projects (path : string) (it : okey * pyobject) (kv : string * CanonicalValue) : Prop :=
  it.1 = KeyStr kv.1 /\ encodes_utf8 kv.1 = true /\ project (path +:+ "." +:+ kv.1) it.2 = Ok kv.2.

Lemma project_mapping path items c :
  project path (OMapping items) = Ok c <->
  exists l, c = CObj l /\ Forall2 (member_projects path) items l.
Proof.
  simpl. rewrite res_bind_ok. split.
  - intros (l & Hl & [= <-]). exists l. split; [done|]. revert l Hl.
    induction items as [|[[k|?] v] items IH]; intros l Hl; [by simplify_eq; constructor| | done].
    steps_ok Hl. simplify_eq. constructor; [|eauto]. unfold member_projects. simpl. to_prop. done.
  - intros (l & -> & Hl). exists l. split; [|done].
    induction Hl as [|[k v] [k' v'] items l (Hk & Hu & Hv) Hl IH]; [done|].
    simpl in *. subst k. rewrite Hu, Hv. simpl. by rewrite IH.
Qed.

Lemma project_is_ok path v : is_ok (project path v) = json_shaped v.
Proof.
  revert path. induction v as [v Hv|items IH|l IH] using pyobject_ind'; intros path.
  - destruct v; try done; simpl. by destruct (encodes_utf8 s).
  - simpl. match goal with |- is_ok (res_bind (?go items) _) = _ => set (f := go) end.
    transitivity (is_ok (f items)); [by destruct (f items)|].
    induction IH as [|[[k|] v] items Hv _ IHi]; simpl; [done| |done].
    simpl in Hv. destruct (encodes_utf8 k); simpl; [|done]. rewrite <- (Hv (path +:+ "." +:+ k)).
    destruct (project _ v); simpl; [|done]. rewrite <- IHi. by destruct (f items).
  - simpl. match goal with |- is_ok (res_bind (?go 0 l) _) = _ => set (f := go) end.
    transitivity (is_ok (f 0 l)); [by destruct (f 0 l)|].
    generalize 0. induction IH as [|v l Hv _ IHl]; intros i; simpl; [done|].
    rewrite <- (Hv (path +:+ "[" +:+ str_of_Z i +:+ "]")).
    destruct (project _ v); simpl; [|done]. rewrite <- (IHl (i + 1)). by destruct (f (i + 1) l).
Qed.

Lemma project_error path v e : project path v = Err e -> exists msg, e = CanonicalJsonError msg.
Proof.
  revert path e. induction v as [v Hv|items IH|l IH] using pyobject_ind'; intros path e.
  - destruct v; simpl; try done; try (intros [= <-]; eauto).
    destruct (encodes_utf8 s); simpl; [done|]. intros [= <-]; eauto.
  - simpl. match goal with |- res_bind (?go items) _ = _ -> _ => set (f := go) end.
    intros E. assert (f items = Err e) as E' by (destruct (f items); simpl in *; congruence).
    clear E. revert e E'. induction IH as [|[[k|] v] items Hv _ IHi]; intros e; simpl; [done| |intros [= <-]; eauto].
    destruct (encodes_utf8 k); simpl; [|intros [= <-]; eauto].
    destruct (project _ v) eqn:Ev; simpl; [|intros [= <-]; eauto].
    destruct (f items); simpl; [done|]. eauto.
  - simpl. match goal with |- res_bind (?go 0 l) _ = _ -> _ => set (f := go) end.
    intros E. assert (f 0 l = Err e) as E' by (destruct (f 0 l); simpl in *; congruence).
    clear E. revert e E'. generalize 0.
    induction IH as [|v l Hv _ IHl]; intros i e; simpl; [done|].
    destruct (project _ v) eqn:Ev; simpl; [|intros [= <-]; eauto].
    destruct (f (i + 1) l) eqn:Ef; simpl; [done|]. intros [= <-]. eauto.
Qed.

Lemma isort_keys_perm {A} (l l' : list (string * A)) :
  NoDup (map fst l) -> l ≡ₚ l' -> isort key_leb l = isort key_leb l'.
Proof.
  intros Hnd Hp. apply (StronglySorted_unique_strong (fun a b => key_leb a b = true)).
  - intros [k v] [k' v'] H1 H2 L1 L2. rewrite elem_of_isort in H1, H2. rewrite <- Hp in H2.
    assert (k = k') as <- by (by apply str_leb_antisymm).
    f_equal. by eapply assoc_unique.
  - apply isort_sorted; unfold key_leb; eauto using str_leb_total, str_leb_trans.
  - apply isort_sorted; unfold key_leb; eauto using str_leb_total, str_leb_trans.
  - by rewrite !isort_perm.
Qed.

(** Members with the same key of two objects with equal content. *)
Lemma norm_member (l l' : list (string * CanonicalValue)) k w w' :
  NoDup (map fst l') -> norm (CObj l) = norm (CObj l') -> (k, w) ∈ l -> (k, w') ∈ l' -> norm w = norm w'.
Proof.
  intros Hnd Hn Hw Hw'. simpl in Hn. injection Hn as E.
  assert (map (fun kv => (kv.1, norm kv.2)) l ≡ₚ map (fun kv => (kv.1, norm kv.2)) l') as Hp.
  { by rewrite <- (isort_perm key_leb), E, isort_perm. }
  assert ((k, norm w) ∈ map (fun kv => (kv.1, norm kv.2)) l') as Hm.
  { rewrite <- Hp. apply list_elem_of_fmap. by exists (k, w). }
  apply list_elem_of_fmap in Hm as ([k3 w3] & E3 & Hm). injection E3 as -> ->. f_equal.
  by eapply assoc_unique.
Qed.

(** Members with the same key of two mappings with equal content have equal content. *)
Section equal_content.
Context (path path' : string) (items items' : list (okey * pyobject)) (c c' : CanonicalValue).
Hypothesis Hproj : project path (OMapping items) = Ok c.
Hypothesis Hproj' : project path' (OMapping items') = Ok c'.
Hypothesis Hnorm : norm c = norm c'.

Lemma equal_content_member k v v' :
  NoDup (map fst items') -> (KeyStr k, v) ∈ items -> (KeyStr k, v') ∈ items' ->
  exists q q' w w', project q v = Ok w /\ project q' v' = Ok w' /\ norm w = norm w'.
Proof.
  intros Hnd Hin Hin'. apply project_mapping in Hproj as (l & -> & Hl).
  apply project_mapping in Hproj' as (l' & -> & Hl').
  destruct (Forall2_elem_l _ _ _ _ Hl Hin) as ([k1 w] & Hw & Hk1 & _ & Pw). simpl in *. simplify_eq.
  destruct (Forall2_elem_l _ _ _ _ Hl' Hin') as ([k2 w'] & Hw' & Hk2 & _ & Pw'). simpl in *. simplify_eq.
  exists (path +:+ "." +:+ k2), (path' +:+ "." +:+ k2), w, w'. split; [done|]. split; [done|].
  eapply (norm_member l l'); [|simpl; by rewrite Hnorm|exact Hw|exact Hw'].
  assert (map fst items' = map KeyStr (map fst l')) as Ek.
  { clear -Hl'. induction Hl' as [|?? ?? [E _]]; simpl; congruence. }
  rewrite Ek in Hnd. by apply NoDup_fmap_1 in Hnd.
Qed.

Lemma equal_content_str k s s' :
  NoDup (map fst items') -> (KeyStr k, OStr s) ∈ items -> (KeyStr k, OStr s') ∈ items' -> s = s'.
Proof.
  intros Hnd H H'. destruct (equal_content_member _ _ _ Hnd H H') as (q & q' & w & w' & Hw & Hw' & E).
  simpl in Hw, Hw'. steps_ok Hw. steps_ok Hw'. by simplify_eq.
Qed.
Lemma equal_content_int k z z' :
  NoDup (map fst items') -> (KeyStr k, OInt z) ∈ items -> (KeyStr k, OInt z') ∈ items' -> z = z'.
Proof.
  intros Hnd H H'. destruct (equal_content_member _ _ _ Hnd H H') as (q & q' & w & w' & Hw & Hw' & E).
  simpl in Hw, Hw'. by simplify_eq.
Qed.
End equal_content.

Lemma hash_binds_bytes v w h :
  canonical_json_hash v = Ok h -> canonical_json_hash w = Ok h ->
  (exists c c', project "$" v = Ok c /\ project "$" w = Ok c' /\ norm c = norm c') \/
  (exists a b, canonical_json_bytes v = Ok a /\ canonical_json_bytes w = Ok b /\ sha256_collision a b).
Proof.
  unfold canonical_json_hash. intros Hv Hw. steps_ok Hv. steps_ok Hw. simplify_eq.
  match goal with E : sha256_hex _ = sha256_hex _ |- _ =>
    destruct (sha256_eq_or_collision _ _ E) as [<-|Hc] end.
  - left. unfold canonical_json_bytes in *. steps_ok Hstep. steps_ok Hstep0. simplify_eq.
    eexists _, _. split; [done|]. split; [done|].
    apply dumps_inj. match goal with E : String.string_of_list_ascii _ = _ |- _ =>
      apply (f_equal String.list_ascii_of_string) in E;
      rewrite !String.list_ascii_of_string_of_list_ascii in E end. done.
  - right. eauto 10.
Qed.

Lemma canonical_json_hash_shape v h : canonical_json_hash v = Ok h -> is_sha256_hex h = true.
Proof. unfold canonical_json_hash. intros H. steps_ok H. simplify_eq. apply sha256_hex_shape. Qed.
Lemma canonical_json_hash_nonempty v h : canonical_json_hash v = Ok h -> h <> "".
Proof. intros H%canonical_json_hash_shape ->. done. Qed.

(** ** Properties *)

(** An equal [canonical_json_hash] means equal content: the two projected
    values coincide up to the order of object keys, or the two byte strings
    are an explicit SHA-256 collision.  Nothing else (types, nesting, string
    escapes, adjacent numbers) can be confused by the encoding. *)
Theorem canonical_json_hash_binds v w h :
  canonical_json_hash v = Ok h -> canonical_json_hash w = Ok h ->
  (exists c c', project "$" v = Ok c /\ project "$" w = Ok c' /\ norm c = norm c') \/
  (exists a b, canonical_json_bytes v = Ok a /\ canonical_json_bytes w = Ok b /\ sha256_collision a b).
Proof. apply hash_binds_bytes. Qed.

Definition demo_object : pyobject :=
  OMapping [(KeyStr "b", OList [OInt 1; ONone]); (KeyStr "a", OStr "x")].
Definition demo_object' : pyobject :=
  OMapping [(KeyStr "a", OStr "x"); (KeyStr "b", OList [OInt 1; ONone])].
Lemma canonical_json_hash_binds_witness :
  (exists c c', project "$" demo_object = Ok c /\ project "$" demo_object' = Ok c' /\ norm c = norm c') \/
  (exists a b, canonical_json_bytes demo_object = Ok a /\ canonical_json_bytes demo_object' = Ok b /\
               sha256_collision a b).
Proof.
  apply (canonical_json_hash_binds demo_object demo_object'
           "a8d71f64d3dc772b9eb4e657b383397a3aadf01d32947e3bc05925eaf48e41bf");
    vm_compute; reflexivity.
Defined.

(** The insertion order of a mapping is invisible: any reordering of its
    items encodes to the same bytes (hence to the same digest). *)
Theorem canonical_json_bytes_order items items' b :
  NoDup (map fst items) -> items ≡ₚ items' ->
  canonical_json_bytes (OMapping items) = Ok b ->
  canonical_json_bytes (OMapping items') = Ok b.
Proof.
  unfold canonical_json_bytes. intros Hnd Hp Hb. steps_ok Hb. simplify_eq.
  apply project_mapping in Hstep as (l & -> & Hl).
  destruct (Permutation_Forall2 Hp Hl) as (l' & Hp' & Hl').
  apply res_bind_ok. exists (CObj l'). split; [apply project_mapping; eauto|].
  do 2 f_equal. apply dumps_inj. simpl. f_equal. symmetry. apply isort_keys_perm.
  - rewrite map_map. simpl. assert (map fst items = map KeyStr (map fst l)) as E.
    { clear -Hl. induction Hl as [|?? ?? [E _]]; simpl; congruence. }
    rewrite E in Hnd. by apply NoDup_fmap_1 in Hnd.
  - by apply Permutation_map.
Qed.

Lemma canonical_json_bytes_order_witness :
  let b := String.string_of_list_ascii (dumps (CObj [("b", CList [CInt 1; CNull]); ("a", CStr "x")])) in
  canonical_json_bytes demo_object = Ok b /\ canonical_json_bytes demo_object' = Ok b.
Proof.
  split; [vm_compute; reflexivity|].
  apply (canonical_json_bytes_order [(KeyStr "b", OList [OInt 1; ONone]); (KeyStr "a", OStr "x")]).
  - apply (bool_decide_unpack _). vm_compute. exact I.
  - apply Permutation_swap.
  - vm_compute. reflexivity.
Defined.

(** [canonical_json_hash] returns a digest for exactly the objects
    canonical-json.v1 admits: every string and key encodes to UTF-8, every key
    is a string, every leaf is None, bool, int or str, every sequence a list;
    anything else raises [CanonicalJsonError]. *)
Theorem canonical_json_hash_total v :
  if json_shaped v then exists h, canonical_json_hash v = Ok h
  else exists msg, canonical_json_hash v = Err (CanonicalJsonError msg).
Proof.
  rewrite <- (project_is_ok "$" v). unfold canonical_json_hash, canonical_json_bytes.
  destruct (project "$" v) as [c|e] eqn:E; simpl; [eauto|].
  destruct (project_error _ _ _ E) as [msg ->]. eauto.
Qed.
