(* ===== verification/Timestamps.v ===== *)
(** * Canonical timestamps (contracts/timestamps.py)

    The proleptic Gregorian calendar of [datetime], the six-digit UTC text
    form every ledger stores, and its strict parser. *)
From Stdlib Require Import Ascii.
From S2P Require Import Prelude PyValue.
Local Open Scope string_scope.
Local Open Scope list_scope.
Local Open Scope Z_scope.

(** ** The calendar *)

(** A [datetime.date]. *)
Record date := mk_date { year : Z; month : Z; dom : Z }.
#[export] Instance date_eq_dec : EqDecision date.
Proof. solve_decision. Defined.

Definition date_ltb (a b : date) : bool :=
  tuple_ltb [year a; month a; dom a] [year b; month b; dom b].

(** Day number (0 is 1970-01-01) to and from a date; years begin in March. *)
Definition days_from_civil (c : date) : Z :=
  let y := if month c <=? 2 then year c - 1 else year c in
  let era := y / 400 in
  let yoe := y mod 400 in
  let mp := (month c + 9) mod 12 in
  let doy := (153 * mp + 2) / 5 + dom c - 1 in
  era * 146097 + (yoe * 365 + yoe / 4 - yoe / 100 + doy) - 719468.

Definition year_of_era (doe : Z) : Z :=
  (doe - doe / 1460 + doe / 36524 - doe / 146096) / 365.
Definition day_of_year (doe : Z) : Z :=
  let yoe := year_of_era doe in doe - (365 * yoe + yoe / 4 - yoe / 100).

Definition civil_from_days (z : Z) : date :=
  let z := z + 719468 in
  let era := z / 146097 in
  let doe := z mod 146097 in
  let doy := day_of_year doe in
  let mp := (5 * doy + 2) / 153 in
  let m := if mp <? 10 then mp + 3 else mp - 9 in
  mk_date (year_of_era doe + era * 400 + (if m <=? 2 then 1 else 0)) m (doy - (153 * mp + 2) / 5 + 1).

Definition is_leap (y : Z) : bool :=
  (y mod 4 =? 0) && (negb (y mod 100 =? 0) || (y mod 400 =? 0)).
Definition days_in_month (y m : Z) : Z :=
  if m =? 2 then (if is_leap y then 29 else 28)
  else if m in? [4; 6; 9; 11] then 30 else 31.

(** ** Text *)
Definition digit (n : Z) : ascii := ascii_of_nat (Z.to_nat (48 + n)).
Definition pad2 (n : Z) : list ascii := [digit (n / 10 mod 10); digit (n mod 10)].
Definition pad4 (n : Z) : list ascii := pad2 (n / 100) ++ pad2 n.
Definition pad6 (n : Z) : list ascii := pad2 (n / 10000) ++ pad4 n.

Definition isoformat_date (c : date) : list ascii :=
  pad4 (year c) ++ ["-"%char] ++ pad2 (month c) ++ ["-"%char] ++ pad2 (dom c).

Definition isoformat_time (us : Z) : list ascii :=
  let s := us / second in
  pad2 (s / 3600) ++ [":"%char] ++ pad2 (s / 60 mod 60) ++ [":"%char] ++ pad2 (s mod 60)
  ++ ["."%char] ++ pad6 (us mod second).

(** [date.isoformat()] *)
Definition date_isoformat (c : date) : string := String.string_of_list_ascii (isoformat_date c).

(** The instants a [datetime] can hold: years 1 to 9999. *)
Definition datetime_max : Z := 253402300799999999.
Definition in_range (t : Z) : bool := (datetime_min <=? t) && (t <=? datetime_max).

(** [value.astimezone(UTC).isoformat(timespec="microseconds")] *)
Definition isoformat_utc (t : Z) : string :=
  String.string_of_list_ascii
    (isoformat_date (civil_from_days (t / day)) ++ ["T"%char] ++ isoformat_time (t mod day)
     ++ String.list_ascii_of_string "+00:00").

Definition format_canonical_utc_timestamp (value : datetime) : res string :=
  raise ValueError "canonical_timestamp_requires_aware_datetime" when is_naive value ;;
  raise OverflowError "date value out of range" when negb (in_range (instant value)) ;;
  Ok (isoformat_utc (instant value)).

Definition num (l : list ascii) : Z := fold_left (fun acc c => 10 * acc + digit_value c) l 0.

(** The date and the microsecond of the day of a text that matches
    [CANONICAL_UTC_TIMESTAMP_PATTERN], when [datetime.fromisoformat] takes it. *)
Definition read_canonical (s : string) : option datetime :=
  match String.list_ascii_of_string s with
  | [y1; y2; y3; y4; "-"; m1; m2; "-"; d1; d2; "T"; h1; h2; ":"; n1; n2; ":"; s1; s2; ".";
     u1; u2; u3; u4; u5; u6; "+"; "0"; "0"; ":"; "0"; "0"]%char =>
      if forallb is_digit [y1; y2; y3; y4; m1; m2; d1; d2; h1; h2; n1; n2; s1; s2; u1; u2; u3; u4; u5; u6]
      then
        let c := mk_date (num [y1; y2; y3; y4]) (num [m1; m2]) (num [d1; d2]) in
        let hh := num [h1; h2] in let mm := num [n1; n2] in let ss := num [s1; s2] in
        if (1 <=? year c) && (1 <=? month c) && (month c <=? 12) && (1 <=? dom c)
           && (dom c <=? days_in_month (year c) (month c)) && (hh <? 24) && (mm <? 60) && (ss <? 60)
        then Some (utc (days_from_civil c * day
                        + (hh * 3600 + mm * 60 + ss) * second + num [u1; u2; u3; u4; u5; u6]))
        else None
      else None
  | _ => None
  end.

(** The argument is a [str] or another object. *)
Definition parse_canonical_utc_timestamp (value : pyval) : res datetime :=
  match value with
  | PyStr text =>
      match read_canonical text with
      | None => Err (ValueError "canonical_timestamp_invalid")
      | Some parsed =>
          let? again := format_canonical_utc_timestamp parsed in
          raise ValueError "canonical_timestamp_invalid" when again !=? text ;;
          Ok parsed
      end
  | _ => Err (ValueError "canonical_timestamp_invalid")
  end.

Definition validate_canonical_utc_timestamp_text (value : pyval) : res string :=
  let? _ := parse_canonical_utc_timestamp value in
  match value with PyStr text => Ok text | _ => Err (ValueError "canonical_timestamp_invalid") end.

(** PostgreSQL's JSON timestamps, which drop trailing fractional zeros. *)
Definition parse_database_utc_timestamp `{PyRuntime} (value : pyval) : res datetime :=
  match value with
  | PyStr text =>
      match fromisoformat text with
      | None => Err (ValueError "database_timestamp_invalid")
      | Some parsed =>
          raise ValueError "database_timestamp_invalid" when utcoffset parsed !=? Some 0 ;;
          Ok (utc (instant parsed))
      end
  | _ => Err (ValueError "database_timestamp_invalid")
  end.

Example format_example :
  isoformat_utc 1784073600000000 = "2026-07-15T00:00:00.000000+00:00".
Proof. vm_compute. reflexivity. Qed.
Example min_example : isoformat_utc datetime_min = "0001-01-01T00:00:00.000000+00:00".
Proof. vm_compute. reflexivity. Qed.
Example max_example : isoformat_utc datetime_max = "9999-12-31T23:59:59.999999+00:00".
Proof. vm_compute. reflexivity. Qed.

(** ** Calendar lemmas *)
Lemma year_of_era_range doe : 0 <= doe < 146097 -> 0 <= year_of_era doe <= 399.
Proof. unfold year_of_era. intros. Z.to_euclidean_division_equations. lia. Qed.

Lemma day_of_year_range doe : 0 <= doe < 146097 -> 0 <= day_of_year doe <= 365.
Proof. intros H. unfold day_of_year, year_of_era. Z.to_euclidean_division_equations. lia. Qed.

Lemma day_of_year_common doe :
  0 <= doe < 146097 -> is_leap (year_of_era doe + 1) = false -> day_of_year doe <= 364.
Proof.
  intros H. unfold day_of_year. pose proof (year_of_era_range doe H) as Hy.
  unfold is_leap, year_of_era in *.
  rewrite andb_false_iff, orb_false_iff, negb_false_iff, !Z.eqb_eq, !Z.eqb_neq.
  Z.to_euclidean_division_equations. lia.
Qed.

Lemma is_leap_era y era : is_leap (y + era * 400) = is_leap y.
Proof.
  unfold is_leap. replace ((y + era * 400) mod 4) with (y mod 4); [|Z.to_euclidean_division_equations; lia].
  replace ((y + era * 400) mod 100) with (y mod 100); [|Z.to_euclidean_division_equations; lia].
  by rewrite Z.mod_add by lia.
Qed.

(** Every day number is the day number of its date. *)
Lemma days_civil_id z : days_from_civil (civil_from_days z) = z.
Proof.
  unfold civil_from_days, days_from_civil. simpl.
  set (z' := z + 719468). pose proof (Z.mod_pos_bound z' 146097 ltac:(lia)) as Hd.
  pose proof (Z.div_mod z' 146097 ltac:(lia)) as Hz.
  set (doe := z' mod 146097) in *. set (era := z' / 146097) in *.
  pose proof (year_of_era_range doe Hd) as Hy. pose proof (day_of_year_range doe Hd) as Hdoy.
  assert (day_of_year doe = doe - (365 * year_of_era doe + year_of_era doe / 4 - year_of_era doe / 100))
    as Hdef by done.
  set (yoe := year_of_era doe) in *. set (doy := day_of_year doe) in *.
  assert (0 <= (5 * doy + 2) / 153 <= 11) as Hmp by (Z.to_euclidean_division_equations; lia).
  set (mp := (5 * doy + 2) / 153) in *.
  set (m := if mp <? 10 then mp + 3 else mp - 9).
  assert (m = 3 + mp \/ m = mp - 9 /\ 10 <= mp) as Hm by (unfold m; destruct (Z.ltb_spec mp 10); lia).
  replace (if m <=? 2 then yoe + era * 400 + (if m <=? 2 then 1 else 0) - 1
           else yoe + era * 400 + (if m <=? 2 then 1 else 0))
    with (yoe + era * 400) by (destruct (m <=? 2); lia).
  rewrite Z.div_add, Z.mod_add, (Z.div_small yoe), (Z.mod_small yoe) by lia.
  replace ((m + 9) mod 12) with mp by (Z.to_euclidean_division_equations; lia).
  lia.
Qed.

Definition valid_date (c : date) : Prop :=
  1 <= month c <= 12 /\ 1 <= dom c <= days_in_month (year c) (month c).

Lemma civil_valid z : valid_date (civil_from_days z).
Proof.
  unfold civil_from_days, valid_date. simpl.
  pose proof (Z.mod_pos_bound (z + 719468) 146097 ltac:(lia)) as Hd.
  set (doe := (z + 719468) mod 146097) in *. set (era := (z + 719468) / 146097) in *.
  pose proof (year_of_era_range doe Hd) as Hy. pose proof (day_of_year_range doe Hd) as Hdoy.
  pose proof (day_of_year_common doe Hd) as Hleap.
  set (yoe := year_of_era doe) in *. set (doy := day_of_year doe) in *.
  assert (0 <= (5 * doy + 2) / 153 <= 11) as Hmp by (Z.to_euclidean_division_equations; lia).
  assert (0 <= 5 * doy + 2 - 153 * ((5 * doy + 2) / 153) < 153) as Hrem by (Z.to_euclidean_division_equations; lia).
  set (mp := (5 * doy + 2) / 153) in *.
  replace (yoe + era * 400 + (if (if mp <? 10 then mp + 3 else mp - 9) <=? 2 then 1 else 0))
    with (yoe + (if (if mp <? 10 then mp + 3 else mp - 9) <=? 2 then 1 else 0) + era * 400) by lia.
  unfold days_in_month. rewrite is_leap_era.
  assert (mp = 0 \/ mp = 1 \/ mp = 2 \/ mp = 3 \/ mp = 4 \/ mp = 5 \/ mp = 6 \/ mp = 7 \/ mp = 8 \/ mp = 9
          \/ mp = 10 \/ mp = 11) as Hcases by lia.
  clearbody mp. destruct_or! Hcases; subst mp; simpl;
    try (Z.to_euclidean_division_equations; lia).
  change ((153 * 11 + 2) / 5) with 337.
  destruct (is_leap (yoe + 1)) eqn:E; [lia|]. specialize (Hleap eq_refl). lia.
Qed.

Lemma civil_year_range t :
  in_range t = true -> 1 <= year (civil_from_days (t / day)) <= 9999.
Proof.
  unfold in_range, datetime_min, datetime_max. to_prop. intros H.
  assert (-719162 <= t / day <= 2932896) as Hz by (unfold day, second; Z.to_euclidean_division_equations; lia).
  revert Hz. generalize (t / day) as z. clear. intros z Hz. unfold civil_from_days. simpl.
  pose proof (Z.mod_pos_bound (z + 719468) 146097 ltac:(lia)) as Hd.
  pose proof (Z.div_mod (z + 719468) 146097 ltac:(lia)) as Hq.
  set (doe := (z + 719468) mod 146097) in *. set (era := (z + 719468) / 146097) in *.
  pose proof (year_of_era_range doe Hd) as Hy. pose proof (day_of_year_range doe Hd) as Hdoy.
  pose proof (day_of_year_common doe Hd) as Hleap.
  assert (day_of_year doe = doe - (365 * year_of_era doe + year_of_era doe / 4 - year_of_era doe / 100))
    as Hdef by done.
  set (yoe := year_of_era doe) in *. set (doy := day_of_year doe) in *.
  assert (0 <= era <= 24) as He by lia.
  assert ((if (if (5 * doy + 2) / 153 <? 10 then (5 * doy + 2) / 153 + 3 else (5 * doy + 2) / 153 - 9) <=? 2 then 1 else 0)
          = if 306 <=? doy then 1 else 0) as ->.
  { destruct (Z.ltb_spec ((5 * doy + 2) / 153) 10), (Z.leb_spec 306 doy);
      try (Z.to_euclidean_division_equations; lia);
      destruct (Z.leb_spec ((5 * doy + 2) / 153 + 3) 2), (Z.leb_spec ((5 * doy + 2) / 153 - 9) 2);
      Z.to_euclidean_division_equations; lia. }
  clearbody doy yoe doe era. clear Hleap. 
  destruct (Z.leb_spec 306 doy); Z.to_euclidean_division_equations; lia.
Qed.

(** ** Digits *)
Lemma digit_spec n : 0 <= n < 10 -> is_digit (digit n) = true /\ digit_value (digit n) = n.
Proof.
  intros Hn. rewrite <- Z.eqb_eq, <- andb_true_iff.
  by apply (below_forall (fun n => is_digit (digit n) && (digit_value (digit n) =? n)) 10).
Qed.
Lemma digit_mod_is n : is_digit (digit (n mod 10)) = true.
Proof. apply digit_spec. by apply Z.mod_pos_bound. Qed.
Lemma digit_mod_value n : digit_value (digit (n mod 10)) = n mod 10.
Proof. apply digit_spec. by apply Z.mod_pos_bound. Qed.

Lemma num_pad2 n : 0 <= n < 100 -> num (pad2 n) = n.
Proof. intros. unfold num, pad2. simpl fold_left. rewrite !digit_mod_value. Z.to_euclidean_division_equations. lia. Qed.
Lemma num_pad4 n : 0 <= n < 10000 -> num (pad4 n) = n.
Proof. intros. unfold num, pad4, pad2. simpl fold_left. rewrite !digit_mod_value. Z.to_euclidean_division_equations. lia. Qed.
Lemma num_pad6 n : 0 <= n < 1000000 -> num (pad6 n) = n.
Proof.
  intros. unfold num, pad6, pad4, pad2. simpl fold_left. rewrite !digit_mod_value.
  Z.to_euclidean_division_equations. lia.
Qed.

Lemma list_ascii_string_of l : String.list_ascii_of_string (String.string_of_list_ascii l) = l.
Proof. apply String.list_ascii_of_string_of_list_ascii. Qed.

Lemma time_of_day t :
  let us := t mod day in let s := us / second in
  0 <= s / 3600 < 24 /\ 0 <= s / 60 mod 60 < 60 /\ 0 <= s mod 60 < 60 /\ 0 <= us mod second < 1000000 /\
  t = t / day * day + (s / 3600 * 3600 + s / 60 mod 60 * 60 + s mod 60) * second + us mod second.
Proof. unfold day, second. simpl. repeat split; Z.to_euclidean_division_equations; lia. Qed.

Lemma days_in_month_le y m : days_in_month y m <= 31.
Proof. unfold days_in_month. repeat case_match; lia. Qed.

(** The text of an instant reads back as that instant. *)
Lemma read_isoformat t : in_range t = true -> read_canonical (isoformat_utc t) = Some (utc t).
Proof.
  intros Ht. pose proof (civil_year_range t Ht) as Hy. pose proof (civil_valid (t / day)) as [Hm Hd].
  pose proof (days_in_month_le (year (civil_from_days (t / day))) (month (civil_from_days (t / day)))) as H31.
  pose proof (days_civil_id (t / day)) as Hid. pose proof (time_of_day t) as (Hh & Hmi & Hs & Hu & Heq).
  unfold read_canonical, isoformat_utc. rewrite list_ascii_string_of.
  unfold isoformat_date, isoformat_time.
  set (c := civil_from_days (t / day)) in *.
  set (hh := t mod day / second / 3600) in *. set (mi := t mod day / second / 60 mod 60) in *.
  set (ss := t mod day / second mod 60) in *. set (us := t mod day mod second) in *.
  pose proof (num_pad4 (year c) ltac:(lia)) as Ny. pose proof (num_pad2 (month c) ltac:(lia)) as Nm.
  pose proof (num_pad2 (dom c) ltac:(lia)) as Nd. pose proof (num_pad2 hh ltac:(lia)) as Nh.
  pose proof (num_pad2 mi ltac:(lia)) as Nmi. pose proof (num_pad2 ss ltac:(lia)) as Ns.
  pose proof (num_pad6 us ltac:(lia)) as Nu.
  unfold pad6, pad4, pad2 in *. cbn [app String.list_ascii_of_string] in *.
  unfold forallb. rewrite !digit_mod_is. cbn [andb].
  rewrite Ny, Nm, Nd, Nh, Nmi, Ns, Nu. cbn [year month dom].
  destruct c as [y m d]. cbn [year month dom] in *.
  repeat match goal with
  | |- context [?a <=? ?b] => rewrite (proj2 (Z.leb_le a b)) by lia
  | |- context [?a <? ?b] => rewrite (proj2 (Z.ltb_lt a b)) by lia
  end. cbn [andb]. do 2 f_equal. rewrite Hid. lia.
Qed.

Lemma isoformat_utc_inj t t' :
  in_range t = true -> in_range t' = true -> isoformat_utc t = isoformat_utc t' -> t = t'.
Proof.
  intros H H' E. pose proof (read_isoformat t H) as R. rewrite E, read_isoformat in R by done. by simplify_eq.
Qed.

Lemma format_instant d s :
  format_canonical_utc_timestamp d = Ok s -> in_range (instant d) = true /\ s = isoformat_utc (instant d).
Proof. unfold format_canonical_utc_timestamp. intros H. steps_ok H. to_prop. by simplify_eq. Qed.

(** Formatting an aware timestamp and parsing the text gives the same
    instant, in UTC; the year range of [datetime] is the only condition. *)
Theorem format_parse_roundtrip (d : datetime) :
  is_naive d = false -> in_range (instant d) = true ->
  exists s, format_canonical_utc_timestamp d = Ok s /\
            parse_canonical_utc_timestamp (PyStr s) = Ok (utc (instant d)).
Proof.
  intros Hn Hr. exists (isoformat_utc (instant d)).
  unfold format_canonical_utc_timestamp at 1, parse_canonical_utc_timestamp.
  rewrite Hn, Hr, read_isoformat by done. split; [done|].
  unfold format_canonical_utc_timestamp. cbn [utc is_naive isNone utcoffset].
  replace (instant (utc (instant d))) with (instant d) by (unfold utc, instant; simpl; lia).
  rewrite Hr. change (is_naive (utc (instant d))) with false. cbn [raise_if negb res_bind].
  unfold neqb. by rewrite eqb_refl.
Qed.
Lemma format_parse_roundtrip_witness :
  let d := mk_datetime 1784102400000007 (Some (8 * 3600 * second)) in
  is_naive d = false /\ in_range (instant d) = true /\
  exists s, format_canonical_utc_timestamp d = Ok s /\
            parse_canonical_utc_timestamp (PyStr s) = Ok (utc (instant d)).
Proof. split; [done|]. split; [done|]. apply format_parse_roundtrip; reflexivity. Defined.

(** A text the parser takes is the canonical text of the instant it
    returns, so two accepted texts of one instant are the same text and the
    result is always in UTC. *)
Theorem parse_canonical_exact (v : pyval) (d : datetime) :
  parse_canonical_utc_timestamp v = Ok d ->
  exists s, v = PyStr s /\ format_canonical_utc_timestamp d = Ok s /\ d = utc (instant d) /\
            validate_canonical_utc_timestamp_text v = Ok s.
Proof.
  intros H. pose proof H as H0. destruct v as [| | |s| | | |]; try done. simpl in H.
  destruct (read_canonical s) as [p|] eqn:E; [|done]. steps_ok H. injection H as <-. to_prop. subst a.
  exists s. repeat split; [done| |].
  - unfold read_canonical in E. repeat (case_match; try done). injection E as <-.
    unfold utc, instant. simpl. by rewrite Z.sub_0_r.
  - unfold validate_canonical_utc_timestamp_text. by rewrite H0.
Qed.
Lemma parse_canonical_exact_witness :
  let v := PyStr "2026-02-28T23:59:59.000001+00:00" in
  let d := utc 1772323199000001 in
  parse_canonical_utc_timestamp v = Ok d /\
  exists s, v = PyStr s /\ format_canonical_utc_timestamp d = Ok s /\ d = utc (instant d) /\
            validate_canonical_utc_timestamp_text v = Ok s.
Proof. split; [vm_compute; reflexivity|]. apply parse_canonical_exact. vm_compute. reflexivity. Defined.
