(* ===== verification/Decimals.v ===== *)
(** * Decimal amounts (contracts/canonical_json.py, [canonical_decimal_string])

    [decimal.Decimal] values as sign, coefficient and exponent, Python's [==]
    on them, and the plain (never scientific) text the digests use.  The text
    determines the number. *)
From Stdlib Require Import Ascii DecimalString DecimalZ DecimalPos.
From S2P Require Import Prelude PyValue CanonicalJson Timestamps.
Local Open Scope string_scope.
Local Open Scope list_scope.
Local Open Scope Z_scope.

(** A finite [Decimal] is (-1)^negative * coefficient * 10^exponent; the text
    of the coefficient has no leading zero. *)
Record finite_decimal := mk_decimal { negative : bool; coefficient : N; exponent : Z }.
Inductive special := Infinity | NegInfinity | NaN.
Inductive Decimal : Type :=
| Finite (d : finite_decimal)
| NonFinite (s : special).

#[export] Instance finite_decimal_eq_dec : EqDecision finite_decimal.
Proof. solve_decision. Defined.

(** The argument of [canonical_decimal_string]: a [Decimal], or a [float],
    which stands for [Decimal(str(value))] when it is finite. *)
Inductive decimal_arg : Type :=
| ADecimal (d : Decimal)
| AFloat (projected : option finite_decimal).

Definition signed (d : finite_decimal) : Z :=
  if negative d then - Z.of_N (coefficient d) else Z.of_N (coefficient d).

(** [a == b]: equality of the numbers, whatever their exponents. *)
Definition dec_eqb (a b : finite_decimal) : bool :=
  let e := Z.min (exponent a) (exponent b) in
  signed a * 10 ^ (exponent a - e) =? signed b * 10 ^ (exponent b - e).

Definition decimal_eqb (a b : Decimal) : bool :=
  match a, b with
  | Finite a, Finite b => dec_eqb a b
  | NonFinite Infinity, NonFinite Infinity | NonFinite NegInfinity, NonFinite NegInfinity => true
  | _, _ => false
  end.

Definition zeros (n : nat) : list ascii := replicate n "0"%char.

(** The digits before and after the point of [format(value, "f")]. *)
Definition split_digits (d : finite_decimal) : list ascii * list ascii :=
  let digits := chars (str_of_Z (Z.of_N (coefficient d))) in
  let dotplace := exponent d + Z.of_nat (length digits) in
  if dotplace <? 0 then (["0"%char], zeros (Z.to_nat (- dotplace)) ++ digits)
  else if Z.of_nat (length digits) <? dotplace
       then (digits ++ zeros (Z.to_nat (dotplace - Z.of_nat (length digits))), [])
       else (match take (Z.to_nat dotplace) digits with [] => ["0"%char] | l => l end,
             drop (Z.to_nat dotplace) digits).

Definition format_f (d : finite_decimal) : list ascii :=
  let '(intpart, fracpart) := split_digits d in
  (if negative d then ["-"%char] else []) ++ intpart
  ++ (match fracpart with [] => [] | _ => "."%char :: fracpart end).

(** [str(value)]: plain digits when the exponent is not positive and the number
    is not tiny, otherwise scientific notation. *)
Definition sci_exponent (n : Z) : string :=
  if n =? 0 then "" else "E" +:+ (if n <? 0 then "" else "+") +:+ str_of_Z n.
Definition finite_str (d : finite_decimal) : string :=
  let digits := String.list_ascii_of_string (str_of_Z (Z.of_N (coefficient d))) in
  let len := Z.of_nat (length digits) in
  let leftdigits := exponent d + len in
  let dotplace := if (exponent d <=? 0) && (-6 <? leftdigits) then leftdigits else 1 in
  let body :=
    if dotplace <=? 0 then ["0"%char; "."%char] ++ zeros (Z.to_nat (- dotplace)) ++ digits
    else if len <=? dotplace then digits ++ zeros (Z.to_nat (dotplace - len))
    else take (Z.to_nat dotplace) digits ++ ["."%char] ++ drop (Z.to_nat dotplace) digits in
  (if negative d then "-" else "") +:+ String.string_of_list_ascii body +:+ sci_exponent (leftdigits - dotplace).
Definition decimal_str (d : Decimal) : string :=
  match d with
  | Finite d => finite_str d
  | NonFinite Infinity => "Infinity"
  | NonFinite NegInfinity => "-Infinity"
  | NonFinite NaN => "NaN"
  end.
Example decimal_str_examples :
  map decimal_str [Finite (mk_decimal false 1250 (-2)); Finite (mk_decimal true 5 (-3)); Finite (mk_decimal false 5 (-7));
                   Finite (mk_decimal false 12 3); Finite (mk_decimal false 0 0)]
  = ["12.50"; "-0.005"; "5E-7"; "1.2E+4"; "0"].
Proof. vm_compute. reflexivity. Qed.

Definition project_finite (d : finite_decimal) : string :=
  if N.eqb (coefficient d) 0 then "0" else String.string_of_list_ascii (format_f d).

Definition canonical_decimal_string (value : decimal_arg) : res string :=
  match value with
  | AFloat None | ADecimal (NonFinite _) => Err (CanonicalJsonError "non-finite decimal projection")
  | AFloat (Some d) | ADecimal (Finite d) => Ok (project_finite d)
  end.

Example decimal_text_1 : project_finite (mk_decimal false 1250 (-2)) = "12.50".
Proof. reflexivity. Qed.
Example decimal_text_2 : project_finite (mk_decimal true 7 (-4)) = "-0.0007".
Proof. reflexivity. Qed.
Example decimal_text_3 : project_finite (mk_decimal false 3 2) = "300".
Proof. reflexivity. Qed.

(** ** Reading the text back *)
Lemma num_app l l' : num (l ++ l') = num l * 10 ^ Z.of_nat (length l') + num l'.
Proof.
  assert (forall (l : list ascii) acc, fold_left (fun acc c => 10 * acc + digit_value c) l acc
            = acc * 10 ^ Z.of_nat (length l) + num l) as Hacc.
  { induction l0 as [|c l0 IH]; intros acc; [unfold num; simpl; lia|].
    unfold num. cbn [fold_left length]. rewrite IH, (IH (10 * 0 + _)), Nat2Z.inj_succ, Z.pow_succ_r by lia. lia. }
  unfold num at 1. by rewrite fold_left_app, Hacc.
Qed.
Lemma num_zeros n : num (zeros n) = 0.
Proof.
  induction n as [|n IH]; [done|]. change (zeros (S n)) with (["0"%char] ++ zeros n).
  rewrite num_app, IH. change (num ["0"%char]) with 0. lia.
Qed.

Lemma num_uint_acc d p :
  fold_left (fun acc c => 10 * acc + digit_value c) (chars (NilEmpty.string_of_uint d)) (Z.pos p)
  = Z.pos (Pos.of_uint_acc d p).
Proof.
  revert p. induction d as [|d IH|d IH|d IH|d IH|d IH|d IH|d IH|d IH|d IH|d IH]; intros p; [done|..];
    cbn [NilEmpty.string_of_uint chars String.list_ascii_of_string fold_left Pos.of_uint_acc];
    change (String.list_ascii_of_string (NilEmpty.string_of_uint d)) with (chars (NilEmpty.string_of_uint d));
    rewrite <- IH; f_equal;
    match goal with |- context [digit_value ?c] =>
      let v := eval vm_compute in (digit_value c) in change (digit_value c) with v end; lia.
Qed.
Lemma num_uint d : num (chars (NilEmpty.string_of_uint d)) = Z.of_N (Pos.of_uint d).
Proof.
  induction d as [|d IH|d IH|d IH|d IH|d IH|d IH|d IH|d IH|d IH|d IH]; [done|exact IH|..];
    cbn [Pos.of_uint Z.of_N]; rewrite <- num_uint_acc; reflexivity.
Qed.
Lemma num_str_of_Z n : num (chars (str_of_Z (Z.of_N n))) = Z.of_N n.
Proof.
  destruct n as [|p]; [done|]. unfold str_of_Z. simpl. rewrite num_uint.
  by rewrite Unsigned.of_to.
Qed.

(** The text without its sign: the digits, and how many follow the point. *)
Definition magnitude (l : list ascii) : list ascii :=
  match l with "-"%char :: l => l | _ => l end.
Fixpoint point_split (l : list ascii) : list ascii * option (list ascii) :=
  match l with
  | [] => ([], None)
  | c :: l => if decide (c = "."%char) then ([], Some l)
              else let '(a, b) := point_split l in (c :: a, b)
  end.

Lemma point_split_digits l r :
  Forall (fun c => is_digit c = true) l ->
  point_split (l ++ "."%char :: r) = (l, Some r) /\ point_split l = (l, None).
Proof.
  induction 1 as [|c l Hc Hl [IH1 IH2]]; [done|]. simpl.
  destruct (decide (c = "."%char)) as [->|]; [done|]. by rewrite IH1, IH2.
Qed.

Definition scaled (d : finite_decimal) : Z := Z.of_N (coefficient d) * 10 ^ Z.max 0 (exponent d).
Definition frac_length (d : finite_decimal) : Z := Z.max 0 (- exponent d).

Lemma split_digits_spec d a b :
  split_digits d = (a, b) ->
  Forall (fun c => is_digit c = true) a /\ Forall (fun c => is_digit c = true) b /\ a <> [] /\
  num (a ++ b) = scaled d /\ Z.of_nat (length b) = frac_length d.
Proof.
  unfold split_digits, scaled, frac_length.
  assert (Forall (fun c => is_digit c = true) (chars (str_of_Z (Z.of_N (coefficient d))))) as HD.
  { unfold str_of_Z. destruct (coefficient d); apply uint_chars. }
  assert (forall n, Forall (fun c => is_digit c = true) (zeros n)) as HZ.
  { intros n. apply Forall_replicate. done. }
  pose proof (num_str_of_Z (coefficient d)) as HN. pose proof (int_nonnil (Z.of_N (coefficient d))) as Hne.
  set (D := chars _) in *. set (e := exponent d) in *.
  destruct (Z.ltb_spec (e + Z.of_nat (length D)) 0) as [Hlt|Hge];
    [|destruct (Z.ltb_spec (Z.of_nat (length D)) (e + Z.of_nat (length D))) as [Hgt|Hle]]; intros [= <- <-].
  - split_and!; [by repeat constructor | by apply Forall_app | done | |].
    + rewrite app_assoc, num_app, num_app, num_zeros, HN, (Z.max_l 0 e) by lia.
      change (num ["0"%char]) with 0. lia.
    + unfold zeros. rewrite length_app, length_replicate. lia.
  - split_and!; [by apply Forall_app | done | by destruct D | |simpl; lia].
    rewrite app_nil_r, num_app, num_zeros, HN. unfold zeros. rewrite length_replicate.
    replace (Z.of_nat (Z.to_nat (e + Z.of_nat (length D) - Z.of_nat (length D)))) with (Z.max 0 e) by lia. lia.
  - split_and!.
    + pose proof (Forall_take _ (Z.to_nat (e + Z.of_nat (length D))) _ HD) as Ht.
      destruct (take _ D); [by repeat constructor | done].
    + by apply Forall_drop.
    + by destruct (take _ D).
    + rewrite (Z.max_l 0 e), Z.mul_1_r, <- HN by lia.
      transitivity (num (take (Z.to_nat (e + Z.of_nat (length D))) D ++ drop (Z.to_nat (e + Z.of_nat (length D))) D));
        [|by rewrite take_drop].
      rewrite !num_app. by destruct (take _ D).
    + rewrite length_drop. lia.
Qed.

Lemma digit_not_sign a : Forall (fun c => is_digit c = true) a -> a <> [] ->
  exists c l, a = c :: l /\ is_digit c = true /\ c <> "-"%char.
Proof. intros Ha Hne. destruct Ha as [|c l Hc Hl]; [done|]. exists c, l. split_and!; [done..|]. by intros ->. Qed.

(** The text gives back the sign, the scaled coefficient and the scale. *)
Lemma format_f_reads d d' :
  format_f d = format_f d' ->
  negative d = negative d' /\ scaled d = scaled d' /\ frac_length d = frac_length d'.
Proof.
  unfold format_f. destruct (split_digits d) as [a b] eqn:E, (split_digits d') as [a' b'] eqn:E'.
  apply split_digits_spec in E as (Ha & Hb & Hne & Hs & Hl), E' as (Ha' & Hb' & Hne' & Hs' & Hl').
  intros Heq. assert (negative d = negative d') as Hneg.
  { destruct (digit_not_sign a Ha Hne) as (c & l & -> & _ & Hc).
    destruct (digit_not_sign a' Ha' Hne') as (c' & l' & -> & _ & Hc').
    destruct (negative d), (negative d'); simpl in Heq; naive_solver. }
  rewrite Hneg in Heq. apply app_inv_head in Heq.
  assert (a = a' /\ b = b') as [-> ->]; [|split_and!; lia || congruence].
  apply (f_equal point_split) in Heq.
  pose proof (point_split_digits a b Ha) as [P1 P2]. pose proof (point_split_digits a' b' Ha') as [P1' P2'].
  destruct b as [|x b], b' as [|x' b']; rewrite ?app_nil_r, ?P1, ?P2, ?P1', ?P2' in Heq; naive_solver.
Qed.

Lemma dec_eqb_scaled d d' :
  negative d = negative d' -> scaled d = scaled d' -> frac_length d = frac_length d' -> dec_eqb d d' = true.
Proof.
  unfold scaled, frac_length, dec_eqb, signed. intros -> Hs Hf. apply Z.eqb_eq.
  assert (Z.of_N (coefficient d) * 10 ^ (exponent d - Z.min (exponent d) (exponent d'))
          = Z.of_N (coefficient d') * 10 ^ (exponent d' - Z.min (exponent d) (exponent d'))) as E.
  { destruct (Z.le_gt_cases 0 (exponent d)), (Z.le_gt_cases 0 (exponent d')).
    - rewrite (Z.max_r 0 (exponent d)), (Z.max_r 0 (exponent d')) in Hs by lia.
      assert (0 < 10 ^ Z.min (exponent d) (exponent d')) as Hp by (apply Z.pow_pos_nonneg; lia).
      apply (Z.mul_reg_r _ _ (10 ^ Z.min (exponent d) (exponent d'))); [lia|].
      rewrite <- !Z.mul_assoc, <- !Z.pow_add_r by lia.
      by replace (exponent d - _ + _) with (exponent d) by lia;
         replace (exponent d' - _ + _) with (exponent d') by lia.
    - assert (exponent d = 0 \/ 0 < - exponent d') as [] by lia; lia.
    - lia.
    - assert (exponent d = exponent d') as He by lia. rewrite He in *. rewrite Z.min_id.
      rewrite !(Z.max_l 0 (exponent d')) in Hs by lia. lia. }
  destruct (negative d'); lia.
Qed.

Lemma format_f_nonzero d : coefficient d <> 0%N -> project_finite d <> "0".
Proof.
  intros Hz. unfold project_finite. destruct (N.eqb_spec (coefficient d) 0); [done|].
  intros E. apply (f_equal String.list_ascii_of_string) in E. rewrite list_ascii_string_of in E.
  apply (format_f_reads d (mk_decimal false 0 0)) in E as (_ & Hs & _). unfold scaled in Hs. simpl in Hs.
  assert (0 < 10 ^ Z.max 0 (exponent d)) by (apply Z.pow_pos_nonneg; lia). nia.
Qed.

(** The canonical text of an amount determines the amount. *)
Lemma project_finite_inj d d' : project_finite d = project_finite d' -> dec_eqb d d' = true.
Proof.
  intros E. pose proof (format_f_nonzero d) as Hd. pose proof (format_f_nonzero d') as Hd'.
  unfold project_finite in *.
  destruct (N.eqb_spec (coefficient d) 0) as [Hz|Hz], (N.eqb_spec (coefficient d') 0) as [Hz'|Hz'].
  - unfold dec_eqb, signed. rewrite Hz, Hz'. by destruct (negative d), (negative d').
  - by destruct (Hd' Hz').
  - by destruct (Hd Hz).
  - apply (f_equal String.list_ascii_of_string) in E. rewrite !list_ascii_string_of in E.
    apply format_f_reads in E as (? & ? & ?). by apply dec_eqb_scaled.
Qed.
