(* ===== verification/Finalizer.v ===== *)
(** * Finalizer payloads (contracts/finalizer.py)

    A worker that ends a segment writes one immutable payload: the identity of
    the segment, the heads of every ledger it expects to find, the state of the
    run and the domain outcome, each bound by a digest of its canonical JSON.
    Recovery reads the payload back, verifies the digests, rebuilds it from the
    durable rows and reports the paths at which the two differ.

    [model_dump(mode="json")] of the free-form state is pydantic's: it is the
    class [JsonMode], with the documented facts that it maps dictionaries key by
    key, leaves strings alone and dumps what it dumped to itself. *)
From Stdlib Require Import Ascii.
From S2P Require Import Prelude PyValue Sha256 CanonicalJson.
Local Open Scope string_scope.
Local Open Scope list_scope.
Local Open Scope Z_scope.

Class JsonMode := {
  json_mode : pyval -> pyval;
  json_mode_dict : forall d, json_mode (PyDict d) = PyDict (map (fun kv => (kv.1, json_mode kv.2)) d);
  json_mode_str : forall s, json_mode (PyStr s) = PyStr s;
  json_mode_idem : forall v, json_mode (json_mode v) = json_mode v;
  json_mode_wf : forall v, py_wf v = true -> py_wf (json_mode v) = true;
}.

(** ** Data *)
Definition FINALIZER_TERMINAL_STATES : list string :=
  ["resolved"; "failed"; "rejected"; "needs_clarification"; "verification_pending"; "manual_takeover"].

Record FinalizerHeadsV2 := mk_heads {
  expected_ticket_head_event_id : option string; expected_ticket_sequence : Z;
  expected_ticket_event_hash : option string; expected_run_status : string; expected_run_status_version : Z;
  parent_checkpoint_id : option string; parent_checkpoint_hash : option string; parent_checkpoint_version : Z;
  final_checkpoint_id : string; final_checkpoint_hash : string; final_checkpoint_version : Z;
  expected_marker_status : string; expected_marker_status_version : Z;
  expected_tool_ledger_head : string; expected_capability_ledger_head : string;
  expected_proposal_ledger_head : string; expected_budget_ledger_head : string;
  expected_context_snapshot_hash : string; expected_context_ledger_hash : string;
  expected_domain_resource_versions : list (string * Z);
}.

Inductive DomainDeltaV2 : Type :=
| AgentCompleteDelta
| HitlInterruptDelta (proposal_id proposal_hash approval_snapshot_hash observation_binding_hash : string)
| ActionfulApprovalResumeDelta
    (approval_id human_decision_id decision action_hash business_action_id effect_hash : string)
| ActionIntentApprovalResumeDelta
    (approval_id human_decision_id decision action_hash expected_approval_status : string)
| NoActionApprovalResumeDelta (approval_id human_decision_id decision no_action_reason : string)
| FailClosedApprovalResumeDelta
    (approval_id human_decision_id decision domain_outcome_reason validation_result : string)
    (reconciliation_event_id reconciliation_event_hash : option string).

Record FinalizerPayloadV2 := mk_payload {
  fp_tenant_id : string; fp_ticket_id : string; fp_run_id : string; fp_job_id : string; fp_segment_id : string;
  fp_delivery_generation : Z; fp_fencing_token : Z; fp_parent_segment_id : option string; fp_marker_id : string;
  fp_segment_kind : string; fp_prepared_payload_hash : string; fp_expected_heads : FinalizerHeadsV2;
  fp_state : pydict; fp_state_delta_ref : string; fp_state_delta_hash : string;
  fp_domain_delta : DomainDeltaV2; fp_domain_delta_ref : string; fp_domain_delta_hash : string;
  fp_payload_hash : string;
}.

(** ** Validation *)

(** [StateDelta.validate_embedded_final_terminal] *)
Definition validate_embedded_final_terminal (state : pydict) : res unit :=
  match dget "final" state with
  | None => Ok tt
  | Some (PyDict final) =>
      match final.["terminal_state"] with
      | PyStr terminal =>
          raise ValidationError "finalizer terminal state is missing or unsupported"
            when negb (terminal in? FINALIZER_TERMINAL_STATES) ;; Ok tt
      | _ => Err (ValidationError "finalizer terminal state is missing or unsupported")
      end
  | Some _ => Err (ValidationError "finalizer final state must be an object")
  end.
(** The field constraints of [FinalizerHeadsV2]. *)
Definition heads_valid (h : FinalizerHeadsV2) : bool :=
  (0 <=? expected_ticket_sequence h) && (1 <=? expected_run_status_version h) && (0 <=? parent_checkpoint_version h)
  && (1 <=? final_checkpoint_version h) && (expected_marker_status h ==? "checkpoint_written")
  && (2 <=? expected_marker_status_version h).
Definition approving (decision : string) : bool := decision in? ["approve"; "edit_and_approve"].
(** The literal types of the variants and [reconciliation_is_all_or_nothing]. *)
Definition domain_valid (d : DomainDeltaV2) : bool :=
  match d with
  | AgentCompleteDelta | HitlInterruptDelta _ _ _ _ => true
  | ActionfulApprovalResumeDelta _ _ decision _ _ _ => approving decision
  | ActionIntentApprovalResumeDelta _ _ decision _ status => approving decision && (status in? ["approved"; "executed"])
  | NoActionApprovalResumeDelta _ _ decision _ => decision in? ["reject"; "manual_takeover"]
  | FailClosedApprovalResumeDelta _ _ decision reason _ event_id event_hash =>
      approving decision && (reason in? ["binding_stale"; "logical_degradation"])
      && Bool.eqb (isNone event_id) (isNone event_hash)
  end.
(** [FinalizerPayloadV2.model_validate] on values of the declared types. *)
Definition model_validate (p : FinalizerPayloadV2) : res FinalizerPayloadV2 :=
  raise ValidationError "delivery_generation" when negb ((1 <=? fp_delivery_generation p) && (fp_delivery_generation p <=? 5)) ;;
  raise ValidationError "fencing_token" when fp_fencing_token p <? 1 ;;
  raise ValidationError "segment_kind" when negb (fp_segment_kind p in? ["agent_start"; "approval_resume"]) ;;
  raise ValidationError "expected_heads" when negb (heads_valid (fp_expected_heads p)) ;;
  let? _ := validate_embedded_final_terminal (fp_state p) in
  raise ValidationError "domain_delta" when negb (domain_valid (fp_domain_delta p)) ;;
  Ok p.

(** ** JSON form *)
Definition opt_value (o : option string) : pyval := match o with Some s => PyStr s | None => PyNone end.
Definition heads_dump (h : FinalizerHeadsV2) : pydict :=
  [("expected_ticket_head_event_id", opt_value (expected_ticket_head_event_id h));
   ("expected_ticket_sequence", PyInt (expected_ticket_sequence h));
   ("expected_ticket_event_hash", opt_value (expected_ticket_event_hash h));
   ("expected_run_status", PyStr (expected_run_status h));
   ("expected_run_status_version", PyInt (expected_run_status_version h));
   ("parent_checkpoint_id", opt_value (parent_checkpoint_id h));
   ("parent_checkpoint_hash", opt_value (parent_checkpoint_hash h));
   ("parent_checkpoint_version", PyInt (parent_checkpoint_version h));
   ("final_checkpoint_id", PyStr (final_checkpoint_id h));
   ("final_checkpoint_hash", PyStr (final_checkpoint_hash h));
   ("final_checkpoint_version", PyInt (final_checkpoint_version h));
   ("expected_marker_status", PyStr (expected_marker_status h));
   ("expected_marker_status_version", PyInt (expected_marker_status_version h));
   ("expected_tool_ledger_head", PyStr (expected_tool_ledger_head h));
   ("expected_capability_ledger_head", PyStr (expected_capability_ledger_head h));
   ("expected_proposal_ledger_head", PyStr (expected_proposal_ledger_head h));
   ("expected_budget_ledger_head", PyStr (expected_budget_ledger_head h));
   ("expected_context_snapshot_hash", PyStr (expected_context_snapshot_hash h));
   ("expected_context_ledger_hash", PyStr (expected_context_ledger_hash h));
   ("expected_domain_resource_versions",
    PyDict (map (fun kv => (kv.1, PyInt kv.2)) (expected_domain_resource_versions h)))].
Definition strs (l : list (string * string)) : pydict := map (fun kv => (kv.1, PyStr kv.2)) l.
Definition approval_strs (variant approval_id human_decision_id decision : string) (rest : list (string * string)) : pydict :=
  strs ([("variant", variant); ("outcome", "completed"); ("approval_id", approval_id);
         ("human_decision_id", human_decision_id); ("decision", decision)] ++ rest).
Definition domain_dump (d : DomainDeltaV2) : pydict :=
  match d with
  | AgentCompleteDelta => strs [("variant", "agent_complete"); ("outcome", "completed")]
  | HitlInterruptDelta proposal_id proposal_hash snapshot_hash observation_hash =>
      strs [("variant", "hitl_interrupt"); ("outcome", "interrupted"); ("proposal_id", proposal_id);
            ("proposal_hash", proposal_hash); ("approval_snapshot_hash", snapshot_hash);
            ("observation_binding_hash", observation_hash)]
  | ActionfulApprovalResumeDelta a h decision action_hash business_action_id effect_hash =>
      approval_strs "approval_actionful" a h decision
        [("action_hash", action_hash); ("business_action_id", business_action_id); ("effect_hash", effect_hash)]
  | ActionIntentApprovalResumeDelta a h decision action_hash status =>
      approval_strs "approval_action_intent" a h decision
        [("action_hash", action_hash); ("execution_intent", "execute_runtime_action"); ("expected_approval_status", status)]
  | NoActionApprovalResumeDelta a h decision reason =>
      approval_strs "approval_no_action" a h decision [("no_action_reason", reason)]
  | FailClosedApprovalResumeDelta a h decision reason result event_id event_hash =>
      approval_strs "approval_fail_closed" a h decision [("domain_outcome_reason", reason); ("validation_result", result)]
      ++ [("reconciliation_event_id", opt_value event_id); ("reconciliation_event_hash", opt_value event_hash)]
  end.

(** ** Reading a dictionary back

    [model_validate] of a dictionary: unknown keys are forbidden, a field without
    a default must be there, texts and dictionaries are taken as they are.
    Which values besides integers an integer field accepts is pydantic's. *)
Class LaxIntegers := {
  lax_int : pyval -> res Z;
  lax_int_exact : forall z, lax_int (PyInt z) = Ok z;
}.
Section reading.
Context `{LaxIntegers}.

Definition required (key : string) (d : pydict) : res pyval := let! v := dget key d else ValidationError key in Ok v.
Definition read_str (key : string) (d : pydict) : res string :=
  let? v := required key d in match v with PyStr s => Ok s | _ => Err (ValidationError key) end.
Definition read_optional (key : string) (v : pyval) : res (option string) :=
  match v with PyNone => Ok None | PyStr s => Ok (Some s) | _ => Err (ValidationError key) end.
Definition read_opt (key : string) (d : pydict) : res (option string) := let? v := required key d in read_optional key v.
Definition read_int (key : string) (d : pydict) : res Z := let? v := required key d in lax_int v.
Definition read_dict (key : string) (d : pydict) : res pydict :=
  let? v := required key d in match v with PyDict e => Ok e | _ => Err (ValidationError key) end.
(** A literal with a default. *)
Definition read_literal (key value : string) (d : pydict) : res unit :=
  raise ValidationError key when negb (py_eq (dget_or key (PyStr value) d) (PyStr value)) ;; Ok tt.
Definition no_extra (fields : list string) (d : pydict) : res unit :=
  raise ValidationError "extra field" when negb (forbid_extra fields d) ;; Ok tt.

Definition heads_fields : list string :=
  ["expected_ticket_head_event_id"; "expected_ticket_sequence"; "expected_ticket_event_hash"; "expected_run_status";
   "expected_run_status_version"; "parent_checkpoint_id"; "parent_checkpoint_hash"; "parent_checkpoint_version";
   "final_checkpoint_id"; "final_checkpoint_hash"; "final_checkpoint_version"; "expected_marker_status";
   "expected_marker_status_version"; "expected_tool_ledger_head"; "expected_capability_ledger_head";
   "expected_proposal_ledger_head"; "expected_budget_ledger_head"; "expected_context_snapshot_hash";
   "expected_context_ledger_hash"; "expected_domain_resource_versions"].
Definition read_heads (d : pydict) : res FinalizerHeadsV2 :=
  let? _ := no_extra heads_fields d in
  let? head_event := read_opt "expected_ticket_head_event_id" d in
  let? ticket_sequence := read_int "expected_ticket_sequence" d in
  let? event_hash := read_opt "expected_ticket_event_hash" d in
  let? run_status := read_str "expected_run_status" d in
  let? run_version := read_int "expected_run_status_version" d in
  let? parent_id := read_opt "parent_checkpoint_id" d in
  let? parent_hash := read_opt "parent_checkpoint_hash" d in
  let? parent_version := read_int "parent_checkpoint_version" d in
  let? final_id := read_str "final_checkpoint_id" d in
  let? final_hash := read_str "final_checkpoint_hash" d in
  let? final_version := read_int "final_checkpoint_version" d in
  let? _ := read_literal "expected_marker_status" "checkpoint_written" d in
  let? marker_version := read_int "expected_marker_status_version" d in
  let? tool_head := read_str "expected_tool_ledger_head" d in
  let? capability_head := read_str "expected_capability_ledger_head" d in
  let? proposal_head := read_str "expected_proposal_ledger_head" d in
  let? budget_head := read_str "expected_budget_ledger_head" d in
  let? snapshot_hash := read_str "expected_context_snapshot_hash" d in
  let? context_hash := read_str "expected_context_ledger_hash" d in
  let? versions := read_dict "expected_domain_resource_versions" d in
  let? versions := map_res (fun kv => let? z := lax_int kv.2 in Ok (kv.1, z)) versions in
  Ok (mk_heads head_event ticket_sequence event_hash run_status run_version parent_id parent_hash parent_version final_id
        final_hash final_version "checkpoint_written" marker_version tool_head capability_head proposal_head budget_head
        snapshot_hash context_hash versions).
(** The union is discriminated by [variant]. *)
Definition approval_fields (rest : list string) : list string :=
  ["variant"; "outcome"; "approval_id"; "human_decision_id"; "decision"] ++ rest.
Definition read_approval (rest : list string) (d : pydict) : res (string * string * string) :=
  let? _ := no_extra (approval_fields rest) d in
  let? _ := read_literal "outcome" "completed" d in
  let? approval_id := read_str "approval_id" d in
  let? human_decision_id := read_str "human_decision_id" d in
  let? decision := read_str "decision" d in
  Ok (approval_id, human_decision_id, decision).
Definition read_domain (d : pydict) : res DomainDeltaV2 :=
  let? variant := read_str "variant" d in
  if variant ==? "agent_complete" then
    let? _ := no_extra ["variant"; "outcome"] d in let? _ := read_literal "outcome" "completed" d in Ok AgentCompleteDelta
  else if variant ==? "hitl_interrupt" then
    let? _ := no_extra ["variant"; "outcome"; "proposal_id"; "proposal_hash"; "approval_snapshot_hash"; "observation_binding_hash"] d in
    let? _ := read_literal "outcome" "interrupted" d in
    let? proposal_id := read_str "proposal_id" d in
    let? proposal_hash := read_str "proposal_hash" d in
    let? snapshot_hash := read_str "approval_snapshot_hash" d in
    let? observation_hash := read_str "observation_binding_hash" d in
    Ok (HitlInterruptDelta proposal_id proposal_hash snapshot_hash observation_hash)
  else if variant ==? "approval_actionful" then
    let? a := read_approval ["action_hash"; "business_action_id"; "effect_hash"] d in
    let? action_hash := read_str "action_hash" d in
    let? business_action_id := read_str "business_action_id" d in
    let? effect_hash := read_str "effect_hash" d in
    Ok (ActionfulApprovalResumeDelta a.1.1 a.1.2 a.2 action_hash business_action_id effect_hash)
  else if variant ==? "approval_action_intent" then
    let? a := read_approval ["action_hash"; "execution_intent"; "expected_approval_status"] d in
    let? action_hash := read_str "action_hash" d in
    let? _ := read_literal "execution_intent" "execute_runtime_action" d in
    let? status := read_str "expected_approval_status" d in
    Ok (ActionIntentApprovalResumeDelta a.1.1 a.1.2 a.2 action_hash status)
  else if variant ==? "approval_no_action" then
    let? a := read_approval ["no_action_reason"] d in
    let? reason := read_str "no_action_reason" d in
    Ok (NoActionApprovalResumeDelta a.1.1 a.1.2 a.2 reason)
  else if variant ==? "approval_fail_closed" then
    let? a := read_approval ["domain_outcome_reason"; "validation_result"; "reconciliation_event_id"; "reconciliation_event_hash"] d in
    let? reason := read_str "domain_outcome_reason" d in
    let? result := read_str "validation_result" d in
    let? event_id := read_optional "reconciliation_event_id" (d.["reconciliation_event_id"]) in
    let? event_hash := read_optional "reconciliation_event_hash" (d.["reconciliation_event_hash"]) in
    Ok (FailClosedApprovalResumeDelta a.1.1 a.1.2 a.2 reason result event_id event_hash)
  else Err (ValidationError "variant").
(** [StateDelta] *)
Definition read_state (d : pydict) : res pydict :=
  let? _ := no_extra ["state"] d in
  match dget "state" d with None => Ok [] | Some _ => read_dict "state" d end.
Definition payload_fields : list string :=
  ["schema_version"; "canonicalization_version"; "tenant_id"; "ticket_id"; "run_id"; "job_id"; "segment_id"; "delivery_generation";
   "fencing_token"; "parent_segment_id"; "marker_id"; "segment_kind"; "prepared_payload_hash"; "expected_heads"; "state_delta";
   "state_delta_ref"; "state_delta_hash"; "domain_delta"; "domain_delta_ref"; "domain_delta_hash"; "payload_hash"].
(** [FinalizerPayloadV2.model_validate] of a dictionary. *)
Definition read_payload (d : pydict) : res FinalizerPayloadV2 :=
  let? _ := no_extra payload_fields d in
  let? _ := read_literal "schema_version" "finalizer.v2" d in
  let? _ := read_literal "canonicalization_version" "canonical-json.v1" d in
  let? tenant_id := read_str "tenant_id" d in
  let? ticket_id := read_str "ticket_id" d in
  let? run_id := read_str "run_id" d in
  let? job_id := read_str "job_id" d in
  let? segment_id := read_str "segment_id" d in
  let? generation := read_int "delivery_generation" d in
  let? token := read_int "fencing_token" d in
  let? parent := read_opt "parent_segment_id" d in
  let? marker_id := read_str "marker_id" d in
  let? kind := read_str "segment_kind" d in
  let? prepared := read_str "prepared_payload_hash" d in
  let? heads := read_dict "expected_heads" d in
  let? heads := read_heads heads in
  let? delta := read_dict "state_delta" d in
  let? state := read_state delta in
  let? state_ref := read_str "state_delta_ref" d in
  let? state_hash := read_str "state_delta_hash" d in
  let? domain := read_dict "domain_delta" d in
  let? domain := read_domain domain in
  let? domain_ref := read_str "domain_delta_ref" d in
  let? domain_hash := read_str "domain_delta_hash" d in
  let? payload_hash := read_str "payload_hash" d in
  model_validate (mk_payload tenant_id ticket_id run_id job_id segment_id generation token parent marker_id kind prepared heads
                    state state_ref state_hash domain domain_ref domain_hash payload_hash).

(** *** What was written is read *)
Section then_continue.
Context {A : Type} (key : string) (d : pydict).
Lemma read_str_then s (k : string -> res A) r : dget key d = Some (PyStr s) -> k s = r -> res_bind (read_str key d) k = r.
Proof. unfold read_str, required. by intros -> <-. Qed.
Lemma read_opt_then o (k : option string -> res A) r : dget key d = Some (opt_value o) -> k o = r -> res_bind (read_opt key d) k = r.
Proof. unfold read_opt, required. intros -> <-. by destruct o. Qed.
Lemma read_int_then z (k : Z -> res A) r : dget key d = Some (PyInt z) -> k z = r -> res_bind (read_int key d) k = r.
Proof. unfold read_int, required. intros -> <-. cbn [res_bind]. by rewrite lax_int_exact. Qed.
Lemma read_dict_then e (k : pydict -> res A) r : dget key d = Some (PyDict e) -> k e = r -> res_bind (read_dict key d) k = r.
Proof. unfold read_dict, required. by intros -> <-. Qed.
Lemma read_literal_then value (k : unit -> res A) r : dget key d = Some (PyStr value) -> k tt = r -> res_bind (read_literal key value d) k = r.
Proof. unfold read_literal, dget_or. intros -> <-. cbn [default]. unfold id, py_eq. by rewrite eqb_refl. Qed.
Lemma no_extra_then fields (k : unit -> res A) r : forbid_extra fields d = true -> k tt = r -> res_bind (no_extra fields d) k = r.
Proof. unfold no_extra. by intros -> <-. Qed.
End then_continue.
Lemma read_then {A B} (x : res A) y (k : A -> res B) r : x = Ok y -> k y = r -> res_bind x k = r.
Proof. by intros -> <-. Qed.
End reading.
Ltac read_part e := eapply (read_dict_then _ _ e); [vm_compute; reflexivity|]; cbv beta.
Ltac read_field :=
  first [ eapply read_str_then | eapply read_int_then | eapply read_opt_then | eapply read_literal_then
        | eapply no_extra_then ]; [vm_compute; reflexivity|]; cbv beta.
Section read_back.
Context `{LaxIntegers}.
Lemma read_versions (l : list (string * Z)) :
  map_res (fun kv => let? z := lax_int kv.2 in Ok (kv.1, z)) (map (fun kv => (kv.1, PyInt kv.2)) l) = Ok l.
Proof. induction l as [|[k z] l IH]; [done|]. cbn [map map_res fst snd]. rewrite lax_int_exact. cbn [res_bind]. by rewrite IH. Qed.
Lemma heads_roundtrip h : expected_marker_status h = "checkpoint_written" -> read_heads (heads_dump h) = Ok h.
Proof.
  destruct h. cbn [expected_marker_status]. intros ->. unfold read_heads. set (D := heads_dump _). repeat read_field.
  read_part (map (fun kv => (kv.1, PyInt kv.2)) expected_domain_resource_versions0 : pydict). eapply read_then; [apply read_versions|]. done.
Qed.
Lemma domain_roundtrip d : read_domain (domain_dump d) = Ok d.
Proof.
  destruct d as [| | | | |a h decision reason result event_id event_hash]; [reflexivity..|].
  destruct event_id, event_hash; reflexivity.
Qed.
End read_back.

Section payloads.
Context `{JsonMode}.

(** [state_delta.model_dump(mode="json")] *)
Definition state_json (state : pydict) : pydict := [("state", json_mode (PyDict state))].
(** [self.model_dump(mode="json", exclude={"payload_hash"})] *)
Definition body (p : FinalizerPayloadV2) : pydict :=
  [("schema_version", PyStr "finalizer.v2"); ("canonicalization_version", PyStr "canonical-json.v1");
   ("tenant_id", PyStr (fp_tenant_id p)); ("ticket_id", PyStr (fp_ticket_id p)); ("run_id", PyStr (fp_run_id p));
   ("job_id", PyStr (fp_job_id p)); ("segment_id", PyStr (fp_segment_id p));
   ("delivery_generation", PyInt (fp_delivery_generation p)); ("fencing_token", PyInt (fp_fencing_token p));
   ("parent_segment_id", opt_value (fp_parent_segment_id p)); ("marker_id", PyStr (fp_marker_id p));
   ("segment_kind", PyStr (fp_segment_kind p)); ("prepared_payload_hash", PyStr (fp_prepared_payload_hash p));
   ("expected_heads", PyDict (heads_dump (fp_expected_heads p))); ("state_delta", PyDict (state_json (fp_state p)));
   ("state_delta_ref", PyStr (fp_state_delta_ref p)); ("state_delta_hash", PyStr (fp_state_delta_hash p));
   ("domain_delta", PyDict (domain_dump (fp_domain_delta p))); ("domain_delta_ref", PyStr (fp_domain_delta_ref p));
   ("domain_delta_hash", PyStr (fp_domain_delta_hash p))].

(** [model_dump(mode="json")], the dictionary that is stored *)
Definition payload_dump (p : FinalizerPayloadV2) : pydict := body p ++ [("payload_hash", PyStr (fp_payload_hash p))].

(** [FinalizerPayloadV2.build] *)
Definition build_payload (tenant_id ticket_id run_id job_id segment_id : string) (delivery_generation fencing_token : Z)
    (parent_segment_id : option string) (marker_id segment_kind prepared_payload_hash : string)
    (expected_heads : FinalizerHeadsV2) (state : pydict) (domain_delta : DomainDeltaV2) : res FinalizerPayloadV2 :=
  let? _ := validate_embedded_final_terminal state in
  let? state_delta_hash := canonical_hash (state_json state) in
  let? domain_delta_hash := canonical_hash (domain_dump domain_delta) in
  let draft payload_hash :=
    mk_payload tenant_id ticket_id run_id job_id segment_id delivery_generation fencing_token parent_segment_id marker_id
      segment_kind prepared_payload_hash expected_heads (as_dict (json_mode (PyDict state)))
      ("segment:" +:+ segment_id +:+ ":state") state_delta_hash domain_delta
      ("segment:" +:+ segment_id +:+ ":domain") domain_delta_hash payload_hash in
  let? payload_hash := canonical_hash (body (draft "")) in
  model_validate (draft payload_hash).

(** [verify] *)
Definition verify (p : FinalizerPayloadV2) : res unit :=
  let? state_hash := canonical_hash (state_json (fp_state p)) in
  raise ValueError "finalizer state delta hash mismatch" when state_hash !=? fp_state_delta_hash p ;;
  let? domain_hash := canonical_hash (domain_dump (fp_domain_delta p)) in
  raise ValueError "finalizer domain delta hash mismatch" when domain_hash !=? fp_domain_delta_hash p ;;
  let? payload_hash := canonical_hash (body p) in
  raise ValueError "finalizer payload hash mismatch" when payload_hash !=? fp_payload_hash p ;;
  Ok tt.
End payloads.

(** ** The paths at which two payloads differ *)
Definition max_paths : nat := 32.
Arguments max_paths : simpl never.
Definition full (mismatches : list string) : bool := Nat.leb max_paths (length mismatches).
(** [type(left) is not type(right) or left != right] *)
Definition leaf_differs (left right : pyval) : bool :=
  match left, right with
  | PyNone, PyNone | PyBool _, PyBool _ | PyInt _, PyInt _ | PyStr _, PyStr _ | PyTime _, PyTime _ | PyTuple _, PyTuple _ =>
      negb (py_eq left right)
  | _, _ => true
  end.
Definition or_root (path : string) : string := if is_empty_str path then "$" else path.

(** A comparison of one left value: against a right value, under a path,
    extending the mismatches found so far. *)
Abbreviation comparison := (pyval -> string -> list string -> list string).
Fixpoint lookup_key (key : string) (fs : list (string * comparison)) : option comparison :=
  match fs with
  | [] => None
  | (k, f) :: fs => if decide (key = k) then Some f else lookup_key key fs
  end.
Fixpoint compare_keys (fs : list (string * comparison)) (right : pydict) (path : string) (keys : list string)
    (mismatches : list string) : list string :=
  match keys with
  | [] => mismatches
  | key :: keys =>
      let child_path := if is_empty_str path then key else path +:+ "." +:+ key in
      match lookup_key key fs, dget key right with
      | Some f, Some r => compare_keys fs right path keys (f r child_path mismatches)
      | _, _ =>
          let mismatches := mismatches ++ [child_path] in
          if full mismatches then mismatches else compare_keys fs right path keys mismatches
      end
  end.
Fixpoint compare_items (fs : list comparison) (right : list pyval) (path : string) (index : Z)
    (mismatches : list string) : list string :=
  match fs, right with
  | f :: fs, r :: rest =>
      let mismatches := f r (path +:+ "[" +:+ str_of_Z index +:+ "]") mismatches in
      if full mismatches then mismatches else compare_items fs rest path (index + 1) mismatches
  | _, _ => mismatches
  end.
Fixpoint compare (left right : pyval) (path : string) (mismatches : list string) {struct left} : list string :=
  if full mismatches then mismatches else
  match left, right with
  | PyDict l, PyDict r =>
      compare_keys (map (fun kv => (kv.1, compare kv.2)) l) r path (sorted_set (map fst l ++ map fst r)) mismatches
  | PyList l, PyList r =>
      let mismatches := if Nat.eqb (length l) (length r) then mismatches else mismatches ++ [path +:+ ".length"] in
      if full mismatches then mismatches else compare_items (map compare l) r path 0 mismatches
  | _, _ => if leaf_differs left right then mismatches ++ [or_root path] else mismatches
  end.

(** [finalizer_payload_mismatch_paths] *)
Definition finalizer_payload_mismatch_paths `{JsonMode} (persisted rebuilt : FinalizerPayloadV2) : list string :=
  compare (PyDict (body persisted)) (PyDict (body rebuilt)) "" [].

(** ** Lemmas *)

(** *** Every comparison only appends *)
Definition extends (f : comparison) : Prop := forall r path acc, acc `prefix_of` f r path acc.
Lemma lookup_key_elem key fs f : lookup_key key fs = Some f -> (key, f) ∈ fs.
Proof.
  induction fs as [|[k g] fs IH]; simpl; [done|]. case_decide; [intros [= ->]; subst; by left|]. intros Hk. right. auto.
Qed.
Lemma compare_keys_extends fs r path keys acc :
  Forall (fun kf => extends kf.2) fs -> acc `prefix_of` compare_keys fs r path keys acc.
Proof.
  intros Hfs. revert acc. induction keys as [|key keys IH]; intros acc; simpl; [done|].
  assert (forall x : list string, x `prefix_of` (if full x then x else compare_keys fs r path keys x)) as Hx
    by (intros x; by destruct (full x)).
  destruct (lookup_key key fs) as [f|] eqn:Ef; [destruct (dget key r) as [w|]|]; [|etrans; [|apply Hx]; by apply prefix_app_r..].
  etrans; [|apply IH]. apply lookup_key_elem in Ef. rewrite Forall_forall in Hfs. by apply (Hfs _ Ef).
Qed.
Lemma compare_items_extends fs r path index acc : Forall extends fs -> acc `prefix_of` compare_items fs r path index acc.
Proof.
  intros Hfs. revert r index acc. induction Hfs as [|f fs Hf _ IH]; intros r index acc; simpl; [done|].
  destruct r as [|w r]; [done|]. destruct (full _); [apply Hf|]. etrans; [apply Hf|apply IH].
Qed.
Lemma compare_extends l : extends (compare l).
Proof.
  induction l as [| | | | |l IH|l IH|l IH] using pyval_ind'; intros r path acc; cbn [compare];
    (destruct (full acc); [done|]); try (destruct (leaf_differs _ _); [by apply prefix_app_r|done]).
  - destruct r; try (destruct (leaf_differs _ _); [by apply prefix_app_r|done]).
    set (acc' := if Nat.eqb _ _ then _ else _). trans acc'; [by unfold acc'; destruct (Nat.eqb _ _); [|apply prefix_app_r]|].
    destruct (full acc'); [done|]. apply compare_items_extends. rewrite Forall_map. exact IH.
  - destruct r; try (destruct (leaf_differs _ _); [by apply prefix_app_r|done]).
    apply compare_keys_extends. rewrite Forall_map. exact IH.
Qed.

(** *** The size of the report *)
Fixpoint dict_depth (v : pyval) : nat :=
  match v with
  | PyList l => list_max (map dict_depth l)
  | PyDict d => S (list_max (map (fun kv => dict_depth kv.2) d))
  | _ => O
  end.
Definition bounded (n : nat) (f : comparison) : Prop :=
  forall r path acc, (length (f r path acc) <= Nat.max (length acc) (max_paths + n))%nat.
Lemma full_false acc : full acc = false <-> (length acc < max_paths)%nat.
Proof. unfold full. rewrite Nat.leb_gt. done. Qed.
Lemma compare_keys_bounded n fs r path keys acc :
  Forall (fun kf => bounded n kf.2) fs -> (length acc <= max_paths + n)%nat ->
  (length (compare_keys fs r path keys acc) <= max_paths + S n)%nat.
Proof.
  intros Hfs. rewrite Forall_forall in Hfs. revert acc. induction keys as [|key keys IH]; intros acc Ha; cbn [compare_keys]; [lia|].
  assert (forall x, (length (if full (acc ++ [x]) then acc ++ [x] else compare_keys fs r path keys (acc ++ [x])) <= max_paths + S n)%nat) as Hx.
  { intros x. destruct (full _) eqn:Ef; [rewrite length_app; cbn [length]; lia|]. apply full_false in Ef. apply IH. lia. }
  destruct (lookup_key key fs) as [f|] eqn:Ef; [destruct (dget key r) as [w|]|]; [|apply Hx..].
  apply lookup_key_elem in Ef. apply IH. pose proof (Hfs _ Ef w (if is_empty_str path then key else path +:+ "." +:+ key) acc) as Hb.
  cbn [snd] in Hb. lia.
Qed.
Lemma compare_items_bounded n fs r path index acc :
  Forall (bounded n) fs -> (length acc <= max_paths + n)%nat ->
  (length (compare_items fs r path index acc) <= max_paths + n)%nat.
Proof.
  intros Hfs. revert r index acc. induction Hfs as [|f fs Hf _ IH]; intros r index acc Ha; cbn [compare_items]; [lia|].
  destruct r as [|w r]; [lia|]. pose proof (Hf w (path +:+ "[" +:+ str_of_Z index +:+ "]") acc) as Hb.
  destruct (full _); [lia|]. apply IH. lia.
Qed.
Lemma bounded_le n m f : (n <= m)%nat -> bounded n f -> bounded m f.
Proof. intros Hn Hf r path acc. specialize (Hf r path acc). lia. Qed.
Lemma bounded_children {A} (f : A -> comparison) (d : A -> nat) l :
  Forall (fun x => bounded (d x) (f x)) l -> Forall (fun x => bounded (list_max (map d l)) (f x)) l.
Proof.
  rewrite !Forall_forall. intros Hl x Hx. apply (bounded_le (d x)); [|by apply Hl].
  assert (Forall (fun k => (k <= list_max (map d l))%nat) (map d l)) as Hm by by apply list_max_le.
  rewrite Forall_forall in Hm. apply Hm, list_elem_of_In, in_map, list_elem_of_In, Hx.
Qed.
Lemma compare_bounded l : bounded (dict_depth l) (compare l).
Proof.
  assert (forall (b : bool) (acc : list string) x n, full acc = false -> (length (if b then acc ++ [x] else acc) <= Nat.max (length acc) (max_paths + n))%nat) as Hleaf.
  { intros b acc x n Hf. apply full_false in Hf. destruct b; [rewrite length_app; cbn [length]|]; lia. }
  induction l as [| | | | |l IH|l IH|l IH] using pyval_ind'; intros r path acc; cbn [compare];
    (destruct (full acc) eqn:Ea; [lia|]); try by apply Hleaf.
  - destruct r; try by apply Hleaf. pose proof Ea as Ha%full_false. set (acc' := if Nat.eqb _ _ then _ else _).
    assert (length acc' <= S (length acc))%nat by (unfold acc'; destruct (Nat.eqb _ _); [lia|]; rewrite length_app; cbn [length]; lia).
    destruct (full acc') eqn:Ef.
    + lia.
    + pose proof Ef as Hf%full_false. etrans; [apply (compare_items_bounded (dict_depth (PyList l)))|]; [|lia..].
      rewrite Forall_map. by apply bounded_children.
  - destruct r; try by apply Hleaf. pose proof Ea as Ha%full_false. cbn [dict_depth].
    etrans; [apply (compare_keys_bounded (list_max (map (fun kv => dict_depth kv.2) l)))|]; [|lia..].
    rewrite Forall_map. apply (bounded_children (fun kv : string * pyval => compare kv.2)). exact IH.
Qed.

(** *** No mismatch is equal content *)
Definition projects (v : pyval) (c : CanonicalValue) : Prop := exists q, project q (to_object v) = Ok c.
Definition member_of (kv : string * pyval) (kw : string * CanonicalValue) : Prop := kv.1 = kw.1 /\ projects kv.2 kw.2.
Lemma projects_shape v c :
  projects v c ->
  match v with
  | PyNone => c = CNull
  | PyBool b => c = CBool b
  | PyInt z => c = CInt z
  | PyStr s => c = CStr s
  | PyList l => exists cl, c = CList cl /\ Forall2 projects l cl
  | PyDict d => exists cl, c = CObj cl /\ Forall2 member_of d cl
  | PyTime _ | PyTuple _ => False
  end.
Proof.
  intros [q Hq]. destruct v as [|b|z|s|t|l|l|d]; cbn [to_object] in Hq; try (by injection Hq as <-); try done.
  - cbn [project] in Hq. steps_ok Hq. by injection Hq as <-.
  - cbn [project] in Hq. apply res_bind_ok in Hq as (cl & Hl & E). injection E as <-. exists cl. split; [done|].
    revert Hl. generalize 0. revert cl. induction l as [|v l IH]; intros cl i Hl; cbn [map] in Hl; [by injection Hl as <-|].
    apply res_bind_ok in Hl as (w & Hw & Hl). apply res_bind_ok in Hl as (rest & Hr & E). injection E as <-.
    constructor; [by eexists|]. by eapply IH.
  - apply project_mapping in Hq as (cl & -> & Hl). exists cl. split; [done|]. rewrite Forall2_fmap_l in Hl.
    eapply Forall2_impl; [exact Hl|]. intros [k v] [k' w] (Hk & _ & Hv). cbn in *. injection Hk as ->. split; [done|]. by eexists.
Qed.

(** Objects with distinct keys have equal content when they have the same keys
    with values of equal content. *)
Lemma norm_obj_iff (cl cr : list (string * CanonicalValue)) :
  NoDup (map fst cl) -> NoDup (map fst cr) ->
  norm (CObj cl) = norm (CObj cr) <->
  (forall k, k ∈ map fst cl <-> k ∈ map fst cr) /\ (forall k w w', (k, w) ∈ cl -> (k, w') ∈ cr -> norm w = norm w').
Proof.
  intros Hcl Hcr. set (f := fun kv : string * CanonicalValue => (kv.1, norm kv.2)).
  assert (forall l, map fst (map f l) = map fst l) as Hf by (intros l; by rewrite map_map).
  split.
  - intros Hn. split; [|by intros k w w'; apply norm_member]. intros k. cbn [norm] in Hn. injection Hn as E.
    rewrite <- !(Hf cl), <- !(Hf cr). fold f in E. by rewrite <- (isort_perm key_leb (map f cl)), E, isort_perm.
  - intros [Hk Hv]. cbn [norm]. fold f. f_equal. apply isort_keys_perm; [by rewrite Hf|].
    assert (forall l, NoDup (map fst l) -> NoDup (map f l)) as Hnd by (intros l Hl; apply (NoDup_fmap_1 fst); by rewrite <- Hf in Hl).
    apply NoDup_Permutation; [by apply Hnd..|]. intros [k w]. split; intros Hin.
    + apply list_elem_of_fmap in Hin as ([k1 w1] & E & Hin). injection E as -> ->.
      assert (k1 ∈ map fst cr) as Hc by (apply Hk, list_elem_of_fmap; by exists (k1, w1)).
      apply list_elem_of_fmap in Hc as ([k2 w2] & E & Hc). cbn in E. subst k2.
      apply list_elem_of_fmap. exists (k1, w2). split; [|done]. unfold f. cbn. by rewrite (Hv _ _ _ Hin Hc).
    + apply list_elem_of_fmap in Hin as ([k1 w1] & E & Hin). injection E as -> ->.
      assert (k1 ∈ map fst cl) as Hc by (apply Hk, list_elem_of_fmap; by exists (k1, w1)).
      apply list_elem_of_fmap in Hc as ([k2 w2] & E & Hc). cbn in E. subst k2.
      apply list_elem_of_fmap. exists (k1, w2). split; [|done]. unfold f. cbn. by rewrite (Hv _ _ _ Hc Hin).
Qed.

Definition faithful (l : pyval) : Prop :=
  forall r c c' path acc, py_wf l = true -> py_wf r = true -> projects l c -> projects r c' -> full acc = false ->
  compare l r path acc = acc <-> norm c = norm c'.
Lemma append_one_neq (acc : list string) x : acc ++ [x] = acc <-> False.
Proof. split; [|done]. intros E%(f_equal length). rewrite length_app in E. cbn in E. lia. Qed.
Lemma squeeze (a b c : list string) : a `prefix_of` b -> b `prefix_of` c -> c = a -> b = a.
Proof. intros H1 H2 ->. by apply (anti_symm prefix). Qed.
Lemma compare_items_same path l :
  Forall faithful l -> forall r cl cr index acc,
  forallb py_wf l = true -> forallb py_wf r = true -> Forall2 projects l cl -> Forall2 projects r cr ->
  length l = length r -> full acc = false ->
  compare_items (map compare l) r path index acc = acc <-> map norm cl = map norm cr.
Proof.
  induction 1 as [|x l Hx Hl IH]; intros r cl cr index acc Wl Wr Pl Pr Hlen Ha; destruct r as [|w r]; try done.
  - apply Forall2_nil_inv_l in Pl as ->, Pr as ->. done.
  - apply Forall2_cons_inv_l in Pl as (cx & cl' & Px & Pl & ->). apply Forall2_cons_inv_l in Pr as (cw & cr' & Pw & Pr & ->).
    cbn [forallb] in Wl, Wr. apply andb_true_iff in Wl as [Wx Wl], Wr as [Ww Wr]. cbn [map compare_items].
    set (p := (path +:+ _)%string). set (acc1 := compare x w p acc).
    pose proof (Hx w cx cw p acc Wx Ww Px Pw Ha) as Hstep. fold acc1 in Hstep.
    assert (acc `prefix_of` acc1) as Hpre by apply compare_extends.
    destruct (decide (acc1 = acc)) as [E|E].
    + rewrite E, Ha. rewrite (IH r cl' cr' (index + 1) acc) by (done || by injection Hlen). apply Hstep in E.
      rewrite E. split; [congruence|by intros [= ?]].
    + split; [|intros [= E' _]; by apply Hstep in E']. intros Hres. exfalso. apply E. destruct (full acc1); [done|].
      eapply squeeze; [exact Hpre| |exact Hres]. apply compare_items_extends. rewrite Forall_map. apply Forall_true. apply compare_extends.
Qed.
Lemma lookup_key_map key (l : pydict) :
  lookup_key key (map (fun kv => (kv.1, compare kv.2)) l) = compare <$> dget key l.
Proof. induction l as [|[k v] l IH]; simpl; [done|]. by case_decide. Qed.
Lemma compare_keys_same (l r : pydict) path keys acc :
  compare_keys (map (fun kv => (kv.1, compare kv.2)) l) r path keys acc = acc <->
  Forall (fun key => exists v w, dget key l = Some v /\ dget key r = Some w /\
            compare v w (if is_empty_str path then key else path +:+ "." +:+ key) acc = acc) keys.
Proof.
  assert (forall ks a, a `prefix_of` compare_keys (map (fun kv => (kv.1, compare kv.2)) l) r path ks a) as Hext.
  { intros ks a. apply compare_keys_extends. rewrite Forall_map. apply Forall_true. intros kv. apply compare_extends. }
  induction keys as [|key keys IH]; cbn [compare_keys]; [split; [by constructor|done]|].
  rewrite lookup_key_map, Forall_cons. set (p := if is_empty_str path then _ else _).
  assert (forall x : list string, x `prefix_of` (if full x then x else compare_keys (map (fun kv => (kv.1, compare kv.2)) l) r path keys x)) as Hx
    by (intros x; by destruct (full x)).
  assert ((let m := acc ++ [p] in if full m then m else compare_keys (map (fun kv => (kv.1, compare kv.2)) l) r path keys m) = acc -> False) as Hno.
  { cbn zeta. intros E. eapply append_one_neq, squeeze; [|apply Hx|exact E]. by apply prefix_app_r. }
  destruct (dget key l) as [v|] eqn:El; [|split; [intros E; by destruct (Hno E)|by intros [(? & ? & ? & _) _]]].
  destruct (dget key r) as [w|] eqn:Er; [|split; [intros E; by destruct (Hno E)|by intros [(? & ? & _ & ? & _) _]]].
  cbn [fmap option_fmap option_map]. pose proof (compare_extends v w p acc) as Hpre. split.
  - intros E. assert (compare v w p acc = acc) as E1 by (eapply squeeze; [exact Hpre|apply Hext|exact E]).
    split; [by exists v, w|]. apply IH. by rewrite E1 in E.
  - intros [(v' & w' & [= <-] & [= <-] & E1) Hk]. rewrite E1. by apply IH.
Qed.
Lemma dget_some_elem k (d : pydict) v : dget k d = Some v -> (k, v) ∈ d.
Proof. induction d as [|[k' v'] d IH]; simpl; [done|]. case_decide; [intros [= ->]; subst; by left|]. intros Hk. right. auto. Qed.
Lemma member_of_keys (d : pydict) cl : Forall2 member_of d cl -> map fst d = map fst cl.
Proof. induction 1 as [|kv kw d cl [E _] _ IH]; [done|]. cbn. congruence. Qed.
Lemma dict_faithful (l : pydict) : Forall (fun kv => faithful kv.2) l -> faithful (PyDict l).
Proof.
  intros IH r c c' path acc Wl Wr Pl Pr Ha. cbn [compare]. rewrite Ha.
  apply projects_shape in Pl as (cl & -> & Ml). destruct r as [| | | | |r|r|r]; apply projects_shape in Pr;
    try (cbn [leaf_differs]; rewrite append_one_neq; split; [done|]; subst; by cbn [norm]); try done.
  { destruct Pr as (cr & -> & _). cbn [leaf_differs]. by rewrite append_one_neq. }
  destruct Pr as (cr & -> & Mr). rewrite compare_keys_same, Forall_forall.
  cbn [py_wf] in Wl, Wr. apply andb_true_iff in Wl as [Nl%bool_decide_eq_true Wl], Wr as [Nr%bool_decide_eq_true Wr].
  rewrite forallb_true_iff in Wl, Wr. rewrite Forall_forall in IH.
  pose proof (member_of_keys _ _ Ml) as Kl. pose proof (member_of_keys _ _ Mr) as Kr.
  rewrite norm_obj_iff by by rewrite <- ?Kl, <- ?Kr. rewrite <- Kl, <- Kr.
  assert (forall k, k ∈ map fst l -> exists v, dget k l = Some v) as Gl.
  { intros k ([k1 v] & -> & Hin)%list_elem_of_fmap. exists v. by apply dget_elem. }
  assert (forall k, k ∈ map fst r -> exists v, dget k r = Some v) as Gr.
  { intros k ([k1 v] & -> & Hin)%list_elem_of_fmap. exists v. by apply dget_elem. }
  assert (forall k v w cv cw p, dget k l = Some v -> dget k r = Some w -> (k, cv) ∈ cl -> (k, cw) ∈ cr ->
            compare v w p acc = acc <-> norm cv = norm cw) as Hone.
  { intros k v w cv cw p Hv Hw Hcv Hcw. apply dget_some_elem in Hv, Hw.
    destruct (Forall2_elem_l _ _ _ _ Ml Hv) as ([k1 cv1] & Hcv1 & Ek1 & Pv). cbn in Ek1. subst k1.
    destruct (Forall2_elem_l _ _ _ _ Mr Hw) as ([k2 cw1] & Hcw1 & Ek2 & Pw). cbn in Ek2. subst k2.
    assert (cv1 = cv) as -> by (eapply assoc_unique; [|exact Hcv1|exact Hcv]; by rewrite <- Kl).
    assert (cw1 = cw) as -> by (eapply assoc_unique; [|exact Hcw1|exact Hcw]; by rewrite <- Kr).
    apply (IH _ Hv); [exact (Wl _ Hv)|exact (Wr _ Hw)|done..]. }
  split.
  - intros Hall. split.
    + intros k. split; intros Hk.
      * destruct (Hall k) as (v & w & _ & Hw & _); [apply elem_of_sorted_set, elem_of_app; by left|].
        apply list_elem_of_fmap. exists (k, w). split; [done|]. by apply dget_some_elem.
      * destruct (Hall k) as (v & w & Hv & _); [apply elem_of_sorted_set, elem_of_app; by right|].
        apply list_elem_of_fmap. exists (k, v). split; [done|]. by apply dget_some_elem.
    + intros k cv cw Hcv Hcw. destruct (Hall k) as (v & w & Hv & Hw & E).
      { apply elem_of_sorted_set, elem_of_app. left. rewrite Kl. apply list_elem_of_fmap. by exists (k, cv). }
      by eapply Hone.
  - intros [Hk Hv] k [Hin|Hin]%elem_of_sorted_set%elem_of_app.
    all: destruct (Gl k) as [v Gv]; [first [done|by apply Hk]|]; destruct (Gr k) as [w Gw]; [first [done|by apply Hk]|].
    all: exists v, w; split_and!; [done|done|].
    all: destruct (Forall2_elem_l _ _ _ _ Ml (dget_some_elem _ _ _ Gv)) as ([k1 cv] & Hcv & Ek1 & _); cbn in Ek1; subst k1.
    all: destruct (Forall2_elem_l _ _ _ _ Mr (dget_some_elem _ _ _ Gw)) as ([k2 cw] & Hcw & Ek2 & _); cbn in Ek2; subst k2.
    all: eapply Hone; eauto.
Qed.
Lemma leaf_faithful l :
  match l with PyList _ | PyDict _ => False | _ => True end -> faithful l.
Proof.
  intros Hl r c c' path acc _ _ Pl Pr Ha.
  assert (compare l r path acc = if leaf_differs l r then acc ++ [or_root path] else acc) as ->.
  { destruct l; try done; cbn [compare]; by rewrite Ha. }
  assert (leaf_differs l r = false <-> norm c = norm c') as <-.
  { destruct l, r; try done; apply projects_shape in Pl, Pr; subst; try done; cbn;
      rewrite ?negb_false_iff, ?Z.eqb_eq, ?eqb_true, ?Bool.eqb_true_iff; try (split; congruence);
      destruct_and?; try destruct Pr as (? & -> & _); done. }
  destruct (leaf_differs l r); [rewrite append_one_neq|]; done.
Qed.
Lemma compare_faithful l : faithful l.
Proof.
  induction l as [| | | | |l IH|l IH|l IH] using pyval_ind'; try by apply leaf_faithful.
  - intros r c c' path acc Wl Wr Pl Pr Ha. cbn [compare]. rewrite Ha.
    apply projects_shape in Pl as (cl & -> & Ml). destruct r as [| | | | |r|r|r]; apply projects_shape in Pr;
      try (cbn [leaf_differs]; rewrite append_one_neq; split; [done|]; subst; by cbn [norm]); try done.
    2:{ destruct Pr as (cr & -> & _). cbn [leaf_differs]. by rewrite append_one_neq. }
    destruct Pr as (cr & -> & Mr). cbn [norm]. pose proof (Forall2_length _ _ _ Ml) as El. pose proof (Forall2_length _ _ _ Mr) as Er.
    destruct (Nat.eqb_spec (length l) (length r)) as [E|E].
    + rewrite Ha, (compare_items_same path l IH r cl cr 0 acc Wl Wr Ml Mr E Ha). split; [by intros ->|by intros [= ?]].
    + split; [|intros [= Hn]; exfalso; apply E; apply (f_equal length) in Hn; rewrite !length_map in Hn; congruence].
      intros Hres. exfalso. apply (append_one_neq acc (path +:+ ".length")). eapply squeeze; [by apply prefix_app_r| |exact Hres].
      destruct (full (acc ++ [path +:+ ".length"])); [done|]. apply compare_items_extends. rewrite Forall_map.
      apply Forall_true. apply compare_extends.
  - by apply dict_faithful.
Qed.

(** *** Payloads *)
Section verified.
Context `{JsonMode}.

(** The two dictionaries of a payload have distinct keys, as every Python
    dictionary has. *)
Definition payload_wf (p : FinalizerPayloadV2) : Prop :=
  py_wf (PyDict (fp_state p)) = true /\ NoDup (map fst (expected_domain_resource_versions (fp_expected_heads p))).
Lemma nodup_concrete (l : list string) : bool_decide (NoDup l) = true -> NoDup l.
Proof. apply bool_decide_eq_true. Qed.
Lemma dict_wf (d : pydict) : NoDup (map fst d) -> Forall (fun kv => py_wf kv.2 = true) d -> py_wf (PyDict d) = true.
Proof. intros Hd Hv. cbn [py_wf]. rewrite bool_decide_eq_true_2 by done. cbn. by apply forallb_true_iff, Forall_forall. Qed.
Lemma opt_value_wf o : py_wf (opt_value o) = true.
Proof. by destruct o. Qed.
Lemma domain_dump_wf d : py_wf (PyDict (domain_dump d)) = true.
Proof.
  apply dict_wf; [apply nodup_concrete; by destruct d|].
  destruct d; cbn; repeat (apply Forall_cons; split; [first [done|apply opt_value_wf]|]); constructor.
Qed.
Lemma body_wf p : payload_wf p -> py_wf (PyDict (body p)) = true.
Proof.
  intros [Hs Hv]. apply dict_wf; [by apply nodup_concrete|]. unfold body.
  repeat (apply Forall_cons; split; [cbn [snd]; first [done|apply opt_value_wf|apply domain_dump_wf|idtac]|]); [| |constructor].
  - apply dict_wf; [by apply nodup_concrete|]. unfold heads_dump.
    repeat (apply Forall_cons; split; [cbn [snd]; first [done|apply opt_value_wf|idtac]|]); [|constructor].
    apply dict_wf; [by rewrite map_map|]. rewrite Forall_map. by apply Forall_true.
  - apply dict_wf; [by apply nodup_concrete|]. constructor; [|constructor]. by apply json_mode_wf.
Qed.
Lemma canonical_hash_ok d h :
  canonical_hash d = Ok h ->
  exists c, project "$" (to_object (PyDict d)) = Ok c /\
    canonical_json_bytes (to_object (PyDict d)) = Ok (String.string_of_list_ascii (dumps c)) /\
    h = sha256_hex (String.string_of_list_ascii (dumps c)).
Proof.
  unfold canonical_hash, canonical_json_hash, canonical_json_bytes. intros Hh.
  apply res_bind_ok in Hh as (b & Hb & E). injection E as <-. apply res_bind_ok in Hb as (c & Hc & E). injection E as <-.
  exists c. by rewrite Hc.
Qed.
Lemma verify_ok p :
  verify p = Ok tt ->
  canonical_hash (state_json (fp_state p)) = Ok (fp_state_delta_hash p) /\
  canonical_hash (domain_dump (fp_domain_delta p)) = Ok (fp_domain_delta_hash p) /\
  canonical_hash (body p) = Ok (fp_payload_hash p).
Proof.
  unfold verify. intros Hv. apply res_bind_ok in Hv as (h1 & H1 & Hv). apply raise_if_ok in Hv as [G1 Hv].
  apply res_bind_ok in Hv as (h2 & H2 & Hv). apply raise_if_ok in Hv as [G2 Hv].
  apply res_bind_ok in Hv as (h3 & H3 & Hv). apply raise_if_ok in Hv as [G3 Hv].
  rewrite neqb_false in G1, G2, G3. split_and!; congruence.
Qed.
(** No mismatch means the same canonical content. *)
Lemma mismatch_content p q c c' :
  payload_wf p -> payload_wf q -> project "$" (to_object (PyDict (body p))) = Ok c ->
  project "$" (to_object (PyDict (body q))) = Ok c' ->
  finalizer_payload_mismatch_paths p q = [] <-> norm c = norm c'.
Proof.
  intros Hp Hq Hc Hc'. apply (compare_faithful (PyDict (body p)) (PyDict (body q)) c c' "" []);
    [by apply body_wf..|by eexists|by eexists|done].
Qed.

(** A payload whose state is in JSON form is read back from its dump. *)
Lemma payload_roundtrip `{LaxIntegers} p :
  model_validate p = Ok p -> json_mode (PyDict (fp_state p)) = PyDict (fp_state p) -> read_payload (payload_dump p) = Ok p.
Proof.
  intros Hv Hs. assert (expected_marker_status (fp_expected_heads p) = "checkpoint_written") as Hm.
  { unfold model_validate in Hv. do 3 (apply raise_if_ok in Hv as [_ Hv]). apply raise_if_ok in Hv as [Hh _].
    apply negb_false_iff in Hh. unfold heads_valid in Hh. rewrite !andb_true_iff, eqb_true in Hh. tauto. }
  destruct p as [tenant ticket run job segment generation token parent marker kind prepared heads st st_ref st_hash domain d_ref d_hash h].
  cbn [fp_expected_heads fp_state] in *. unfold read_payload. set (D := payload_dump _). repeat read_field.
  read_part (heads_dump heads). eapply read_then; [by apply heads_roundtrip|]. cbv beta.
  read_part (state_json st). eapply (read_then _ st); [unfold state_json; by rewrite Hs|]. cbv beta. repeat read_field.
  read_part (domain_dump domain). eapply read_then; [apply domain_roundtrip|]. cbv beta. repeat read_field. exact Hv.
Qed.

(** C37: whatever segment a worker finalizes, the payload it builds verifies:
    the three digests match, the constraints of the contract hold (so the
    terminal state is one the finalizer knows, the generation is between one
    and five and the fencing token positive), every field is the one it was
    given, with the state in its JSON form, and recovery, which validates the
    stored dictionary, reads exactly this payload back. *)
Theorem built_payload_verifies `{LaxIntegers} tenant_id ticket_id run_id job_id segment_id generation token parent marker kind prepared
    heads state domain p :
  build_payload tenant_id ticket_id run_id job_id segment_id generation token parent marker kind prepared heads state domain = Ok p ->
  verify p = Ok tt /\ model_validate p = Ok p /\ 1 <= fp_delivery_generation p <= 5 /\ 1 <= fp_fencing_token p /\
  (fp_tenant_id p, fp_ticket_id p, fp_run_id p, fp_job_id p, fp_segment_id p) = (tenant_id, ticket_id, run_id, job_id, segment_id) /\
  (fp_delivery_generation p, fp_fencing_token p, fp_segment_kind p) = (generation, token, kind) /\
  (fp_parent_segment_id p, fp_marker_id p, fp_prepared_payload_hash p) = (parent, marker, prepared) /\
  (fp_expected_heads p, fp_domain_delta p) = (heads, domain) /\
  (fp_state_delta_ref p, fp_domain_delta_ref p) = ("segment:" +:+ segment_id +:+ ":state", "segment:" +:+ segment_id +:+ ":domain") /\
  PyDict (fp_state p) = json_mode (PyDict state) /\ read_payload (payload_dump p) = Ok p.
Proof.
  unfold build_payload. intros Hb. apply res_bind_ok in Hb as (u & _ & Hb). apply res_bind_ok in Hb as (h1 & H1 & Hb).
  apply res_bind_ok in Hb as (h2 & H2 & Hb). apply res_bind_ok in Hb as (h3 & H3 & Hb).
  assert (PyDict (as_dict (json_mode (PyDict state))) = json_mode (PyDict state)) as Es by by rewrite json_mode_dict.
  pose proof Hb as Hval. unfold model_validate in Hb. steps_ok Hb. injection Hb as <-. cbn [fp_delivery_generation fp_fencing_token] in *.
  apply negb_false_iff, andb_true_iff in Hguard as [G1%Z.leb_le G2%Z.leb_le]. apply Z.ltb_ge in Hguard0.
  split_and!; try done.
  - unfold verify. cbn [fp_state fp_state_delta_hash fp_domain_delta fp_domain_delta_hash fp_payload_hash].
    unfold state_json at 1. rewrite Es, json_mode_idem. fold (state_json state). rewrite H1. cbn [res_bind].
    rewrite raise_if_false by by rewrite neqb_false. rewrite H2. cbn [res_bind]. rewrite raise_if_false by by rewrite neqb_false.
    match goal with |- res_bind (canonical_hash (body ?x)) _ = _ => change (body x) with (body (mk_payload tenant_id ticket_id run_id job_id
      segment_id generation token parent marker kind prepared heads (as_dict (json_mode (PyDict state))) (fp_state_delta_ref x) h1 domain (fp_domain_delta_ref x) h2 "")) end.
    cbn [fp_state_delta_ref fp_domain_delta_ref]. rewrite H3. cbn [res_bind]. by rewrite raise_if_false by by rewrite neqb_false.
  - apply payload_roundtrip; [done|]. cbn [fp_state]. by rewrite Es, json_mode_idem.
Qed.

(** C38: recovery tells two finalizer payloads apart by their content and by
    nothing else.  For two verified payloads the report of differing paths is
    empty exactly when the payloads have the same canonical content; then they
    have the same payload hash; and two verified payloads with the same hash
    give an empty report, agree on segment, run, job, generation and fencing
    token, and on the digests of state and outcome, unless their canonical
    bytes are an explicit SHA-256 collision. *)
Theorem mismatch_detects p q :
  payload_wf p -> payload_wf q -> verify p = Ok tt -> verify q = Ok tt ->
  (finalizer_payload_mismatch_paths p q = [] -> fp_payload_hash p = fp_payload_hash q) /\
  (fp_payload_hash p = fp_payload_hash q ->
     (finalizer_payload_mismatch_paths p q = [] /\
      (fp_tenant_id p, fp_run_id p, fp_job_id p, fp_segment_id p) = (fp_tenant_id q, fp_run_id q, fp_job_id q, fp_segment_id q) /\
      (fp_delivery_generation p, fp_fencing_token p) = (fp_delivery_generation q, fp_fencing_token q) /\
      (fp_state_delta_hash p, fp_domain_delta_hash p) = (fp_state_delta_hash q, fp_domain_delta_hash q)) \/
     (exists a b, canonical_json_bytes (to_object (PyDict (body p))) = Ok a /\
                  canonical_json_bytes (to_object (PyDict (body q))) = Ok b /\ sha256_collision a b)).
Proof.
  intros Wp Wq (_ & _ & Vp)%verify_ok (_ & _ & Vq)%verify_ok. split.
  - intros Hm. destruct (canonical_hash_ok _ _ Vp) as (c & Hc & _ & ->). destruct (canonical_hash_ok _ _ Vq) as (c' & Hc' & _ & ->).
    apply (mismatch_content p q c c' Wp Wq Hc Hc') in Hm. apply dumps_inj in Hm. by rewrite Hm.
  - intros E. rewrite <- E in Vq. destruct (hash_binds_bytes _ _ _ Vp Vq) as [(c & c' & Hc & Hc' & Hn)|Hcol]; [left|by right].
    split; [by apply (mismatch_content p q c c' Wp Wq Hc Hc')|]. cbn [to_object] in Hc, Hc'.
    assert (NoDup (map fst (map (fun kv : string * pyval => (KeyStr kv.1, to_object kv.2)) (body q)))) as Hnd.
    { change (NoDup (KeyStr <$> map fst (body q))). apply NoDup_fmap_2; [intros ?? [= ->]; done|by apply nodup_concrete]. }
    assert (forall k s s', (k, PyStr s) ∈ body p -> (k, PyStr s') ∈ body q -> s = s') as Hstr.
    { intros k s s' H1 H2. eapply (equal_content_str _ _ _ _ _ _ Hc Hc' Hn k); [done|..]; apply list_elem_of_fmap; [by exists (k, PyStr s)|by exists (k, PyStr s')]. }
    assert (forall k s s', (k, PyInt s) ∈ body p -> (k, PyInt s') ∈ body q -> s = s') as Hint.
    { intros k s s' H1 H2. eapply (equal_content_int _ _ _ _ _ _ Hc Hc' Hn k); [done|..]; apply list_elem_of_fmap; [by exists (k, PyInt s)|by exists (k, PyInt s')]. }
    rewrite (Hstr "tenant_id" (fp_tenant_id p) (fp_tenant_id q)), (Hstr "run_id" (fp_run_id p) (fp_run_id q)), (Hstr "job_id" (fp_job_id p) (fp_job_id q)),
      (Hstr "segment_id" (fp_segment_id p) (fp_segment_id q)), (Hint "delivery_generation" (fp_delivery_generation p) (fp_delivery_generation q)),
      (Hint "fencing_token" (fp_fencing_token p) (fp_fencing_token q)), (Hstr "state_delta_hash" (fp_state_delta_hash p) (fp_state_delta_hash q)),
      (Hstr "domain_delta_hash" (fp_domain_delta_hash p) (fp_domain_delta_hash q)) by (unfold body; by list_member).
    done.
Qed.
End verified.

(** ** Concrete payloads *)

(** A dump of values without timestamps: tuples become lists. *)
Fixpoint plain (v : pyval) : pyval :=
  match v with
  | PyTime t => PyStr (str_of_Z (instant t))
  | PyList l | PyTuple l => PyList (map plain l)
  | PyDict d => PyDict (map (fun kv => (kv.1, plain kv.2)) d)
  | _ => v
  end.
Lemma plain_idem v : plain (plain v) = plain v.
Proof.
  induction v as [| | | | |l IH|l IH|d IH] using pyval_ind'; simpl; try done; f_equal; rewrite map_map.
  - induction IH as [|x l Hx _ IHl]; simpl; [done|]. by rewrite Hx, IHl.
  - induction IH as [|x l Hx _ IHl]; simpl; [done|]. by rewrite Hx, IHl.
  - induction IH as [|x l Hx _ IHl]; simpl; [done|]. f_equal; [by rewrite Hx|exact IHl].
Qed.
Lemma plain_wf v : py_wf v = true -> py_wf (plain v) = true.
Proof.
  induction v as [| | | | |l IH|l IH|d IH] using pyval_ind'; simpl; try done.
  - intros Hw. induction IH as [|x l Hx _ IHl]; simpl in *; [done|]. apply andb_true_iff in Hw as [? ?]. by rewrite Hx, IHl.
  - intros Hw. induction IH as [|x l Hx _ IHl]; simpl in *; [done|]. apply andb_true_iff in Hw as [? ?]. by rewrite Hx, IHl.
  - intros [Hn%bool_decide_eq_true Hw]%andb_true_iff. apply (dict_wf (map (fun kv => (kv.1, plain kv.2)) d)); [by rewrite map_map|].
    rewrite Forall_map. rewrite forallb_true_iff in Hw. rewrite Forall_forall in *. intros x Hx. by apply IH, Hw.
Qed.
Definition plain_json : JsonMode :=
  {| json_mode := plain; json_mode_dict := fun _ => eq_refl; json_mode_str := fun _ => eq_refl;
     json_mode_idem := plain_idem; json_mode_wf := plain_wf |}.

Definition demo_heads : FinalizerHeadsV2 :=
  mk_heads (Some "e9") 9 (Some "h9") "running" 3 None None 0 "cp1" "ch1" 1 "checkpoint_written" 2 "tl" "cl" "pl" "bl" "cs" "cx"
    [("billing:b1", 4)].
Definition demo_payload (state : pydict) : res FinalizerPayloadV2 :=
  @build_payload plain_json "t1" "T1" "R1" "J1" "S1" 1 7 None "M1" "agent_start" "pp" demo_heads state AgentCompleteDelta.
Definition demo_state : pydict := [("final", PyDict [("terminal_state", PyStr "resolved"); ("answer", PyStr "done")])].
Definition got_payload (r : res FinalizerPayloadV2) : FinalizerPayloadV2 :=
  match r with Ok p => p | Err _ => mk_payload "" "" "" "" "" 0 0 None "" "" "" demo_heads [] "" "" AgentCompleteDelta "" "" "" end.

(** Integers only. *)
Definition strict_integers : LaxIntegers.
Proof.
  refine {| lax_int v := match v with PyInt z => Ok z | _ => Err (ValidationError "integer type") end |}. done.
Defined.
Lemma built_payload_verifies_witness :
  exists p, demo_payload demo_state = Ok p /\ @verify plain_json p = Ok tt /\
    @read_payload strict_integers (@payload_dump plain_json p) = Ok p.
Proof.
  destruct (demo_payload demo_state) as [p|e] eqn:E; [|exfalso; vm_compute in E; discriminate].
  exists p. split; [reflexivity|].
  destruct (@built_payload_verifies plain_json strict_integers "t1" "T1" "R1" "J1" "S1" 1 7 None "M1" "agent_start" "pp" demo_heads demo_state
              AgentCompleteDelta p E) as (H & _ & _ & _ & _ & _ & _ & _ & _ & _ & Hr). split; [exact H|exact Hr].
Defined.
Lemma mismatch_detects_witness :
  let p := got_payload (demo_payload demo_state) in
  let q := got_payload (demo_payload []) in
  @finalizer_payload_mismatch_paths plain_json p q <> [] /\ @finalizer_payload_mismatch_paths plain_json p p = [] /\
  fp_payload_hash p = fp_payload_hash p.
Proof.
  assert (@payload_wf (got_payload (demo_payload demo_state))) as Wp.
  { vm_compute. split; [reflexivity|]. by apply nodup_concrete. }
  assert (@verify plain_json (got_payload (demo_payload demo_state)) = Ok tt) as Vp by (vm_compute; reflexivity).
  assert (@finalizer_payload_mismatch_paths plain_json (got_payload (demo_payload demo_state)) (got_payload (demo_payload demo_state)) = [])
    as E by (vm_compute; reflexivity).
  cbn zeta. split; [vm_compute; discriminate|]. split; [exact E|].
  exact (proj1 (@mismatch_detects plain_json _ _ Wp Wp Vp Vp) E).
Defined.

(** Thirty-two differing values beside a key one side lacks. *)
Definition wide_state (n : Z) (rest : pydict) : pydict :=
  ("a", PyDict (map (fun i => ("k" +:+ str_of_Z (Z.of_nat i), PyInt n)) (seq 0 32))) :: rest.

(** C39: the report of differing paths is bounded by the limit of thirty-two
    plus the depth to which dictionaries are nested, and not by the limit
    itself: a key missing on one side is reported before the limit is checked,
    so two verified payloads can give a longer report. *)
Theorem mismatch_report_bounded :
  (forall (m : JsonMode) p q,
     (length (finalizer_payload_mismatch_paths p q) <= max_paths + dict_depth (PyDict (body p)))%nat) /\
  (exists p q, @verify plain_json p = Ok tt /\ @verify plain_json q = Ok tt /\
     (max_paths < length (@finalizer_payload_mismatch_paths plain_json p q))%nat).
Proof.
  split.
  - intros m p q. etrans; [apply compare_bounded|]. cbn [length]. lia.
  - exists (got_payload (demo_payload (wide_state 1 [("b", PyInt 1)]))), (got_payload (demo_payload (wide_state 2 []))).
    split_and!; [vm_compute; reflexivity|vm_compute; reflexivity|]. apply Nat.ltb_lt. vm_compute. reflexivity.
Qed.
