(* ===== verification/Floats.v ===== *)
(** * Floating-point numbers

    Python floats and Lua numbers are IEEE binary64 numbers, computed with the
    [SpecFloat] specification of the Standard Library: fifty-three bits of
    precision, rounding to nearest even.  Integers below 2^53 are exact.  The lemmas
    say how near a quotient and a sum are to the exact value. *)
From Stdlib Require Import SpecFloat ZArith.
From S2P Require Import Prelude.
Local Open Scope Z_scope.

Definition float : Type := spec_float.
Definition fadd : float -> float -> float := SFadd 53 1024.
Definition fmul : float -> float -> float := SFmul 53 1024.
Definition signed (z : Z) : float :=
  match z with Z0 => S754_zero false | Zpos p => S754_finite false p 0 | Zneg p => S754_finite true p 0 end.
(** [n / d] of integers: correctly rounded. *)
Definition truediv (n d : Z) : float := SFdiv 53 1024 (signed n) (signed d).
Definition fopp : float -> float := SFopp.
Definition flt : float -> float -> bool := SFltb.
Definition feq : float -> float -> bool := SFeqb.
Definition fle : float -> float -> bool := SFleb.
(** Decimal literals. *)
Definition f0 : float := S754_zero false.
Definition dec (n d : Z) : float := truediv n d.

(** The multiple of 2^-1074 a finite number is: numbers compare as their
    multiples do. *)
Definition units (f : float) : Z :=
  match f with
  | S754_finite s m e => (if s then Z.neg m else Z.pos m) * 2 ^ (e + 1074)
  | _ => 0
  end.

(** ** Rounding to nearest

    [represents x num den]: the mantissa, round and sticky bit of [x] describe
    the fraction [num / den] exactly enough to round it. *)
Definition represents (x : shr_record) (num den : Z) : Prop :=
  let rest := num - shr_m x * den in
  0 <= shr_m x /\
  match shr_r x, shr_s x with
  | false, false => rest = 0
  | false, true => 0 < 2 * rest < den
  | true, false => 2 * rest = den
  | true, true => den < 2 * rest < 2 * den
  end.
Lemma represents_shr_1 x num den : 0 < den -> represents x num den -> represents (shr_1 x) num (2 * den).
Proof.
  intros Hd. destruct x as [m r s]. unfold represents. cbn [shr_m shr_r shr_s]. intros [Hm Hr].
  destruct m as [|[p|p|]|p]; cbn [shr_1 shr_m shr_r shr_s]; [| | | |lia]; destruct r, s; cbn [orb]; lia.
Qed.
Lemma represents_iter p x num den :
  0 < den -> represents x num den -> represents (SpecFloat.iter_pos shr_1 p x) num (2 ^ Zpos p * den).
Proof.
  revert x den. induction p as [p IH|p IH|]; intros x den Hd Hx; cbn [SpecFloat.iter_pos].
  - replace (2 ^ Z.pos p~1 * den) with (2 ^ Z.pos p * (2 ^ Z.pos p * (2 * den)))
      by (replace (Z.pos p~1) with (Z.pos p + Z.pos p + 1) by lia; rewrite !Z.pow_add_r by lia; ring).
    apply IH; [lia|]. apply IH; [lia|]. by apply represents_shr_1.
  - replace (2 ^ Z.pos p~0 * den) with (2 ^ Z.pos p * (2 ^ Z.pos p * den))
      by (replace (Z.pos p~0) with (Z.pos p + Z.pos p) by lia; rewrite !Z.pow_add_r by lia; ring).
    apply IH; [lia|]. by apply IH.
  - rewrite Z.pow_1_r. by apply represents_shr_1.
Qed.
Lemma represents_floor x num den : 0 < den -> represents x num den -> shr_m x * den <= num < (shr_m x + 1) * den.
Proof. intros Hd [Hm Hr]. destruct (shr_r x), (shr_s x); lia. Qed.
Lemma represents_nearest x num den :
  0 < den -> represents x num den ->
  let c := round_nearest_even (shr_m x) (loc_of_shr_record x) in Z.abs (2 * (c * den - num)) <= den /\ shr_m x <= c <= shr_m x + 1.
Proof.
  intros Hd [Hm Hr]. destruct x as [m r s]. cbn [shr_m shr_r shr_s] in *. destruct r, s; cbn [loc_of_shr_record round_nearest_even]; try lia.
  destruct (Z.even m); lia.
Qed.
Lemma represents_quotient num den q r :
  0 < den -> Z.even den = true -> Z.div_eucl num den = (q, r) -> 0 <= num -> represents (shr_record_of_loc q (new_location den r)) num den.
Proof.
  intros Hd He Hq Hn. pose proof (Z_div_mod num den ltac:(lia)) as Hdm. rewrite Hq in Hdm. destruct Hdm as [Hnum Hr].
  unfold represents, new_location. rewrite He. unfold new_location_even. assert (0 <= q) by nia.
  destruct (Z.eqb_spec r 0) as [->|Hne]; [cbn; lia|].
  destruct (Z.compare_spec (2 * r) den); cbn; lia.
Qed.

(** The number of binary digits. *)
Lemma digits_bounds p : 2 ^ (Zpos (digits2_pos p) - 1) <= Zpos p < 2 ^ Zpos (digits2_pos p).
Proof.
  induction p as [p IH|p IH|]; cbn [digits2_pos]; [| |cbn; lia];
    rewrite Pos2Z.inj_succ, Z.pow_succ_r by lia; unfold Z.succ; rewrite Z.add_simpl_r;
    replace (2 ^ Z.pos (digits2_pos p)) with (2 * 2 ^ (Z.pos (digits2_pos p) - 1)) in * by (rewrite <- Z.pow_succ_r by lia; f_equal; lia); lia.
Qed.
Lemma digits_unique p d : 2 ^ (d - 1) <= Zpos p < 2 ^ d -> Zpos (digits2_pos p) = d.
Proof.
  intros [H1 H2]. destruct (digits_bounds p) as [H3 H4].
  assert (0 <= d) by (destruct (Z.lt_ge_cases d 0); [rewrite (Z.pow_neg_r 2 d) in H2 by done; lia|done]).
  assert (d - 1 < Zpos (digits2_pos p)) by (destruct (Z.eq_dec d 0); [lia|apply (Z.pow_lt_mono_r_iff 2); lia]).
  assert (Zpos (digits2_pos p) - 1 < d) by (apply (Z.pow_lt_mono_r_iff 2); lia). lia.
Qed.

Lemma shr_represents x e n num den :
  0 < den -> 0 <= n -> represents x num den -> exists x', shr x e n = (x', e + n) /\ represents x' num (2 ^ n * den).
Proof.
  intros Hd Hn Hx. destruct n as [|p|p]; [|cbn [shr]; eexists; split; [done|by apply represents_iter]|lia].
  exists x. cbn [shr]. rewrite Z.add_0_r. split; [done|]. by rewrite Z.pow_0_r, Z.mul_1_l.
Qed.
(** A mantissa of at least fifty-three digits is rounded to fifty-three. *)
Lemma round_aux_nearest M e l num den :
  0 < den -> represents (shr_record_of_loc (Zpos M) l) num den -> let k := Zpos (digits2_pos M) - 53 in
  0 <= k -> -1074 <= e + k <= 900 ->
  exists c m e2, binary_round_aux 53 1024 false (Zpos M) e l = S754_finite false m e2 /\
    (e2 = e + k /\ c = Zpos m \/ e2 = e + k + 1 /\ c = 2 * Zpos m) /\ 2 ^ 52 <= Zpos m /\
    Z.abs (2 * (c * (2 ^ k * den) - num)) <= 2 ^ k * den.
Proof.
  intros Hd Hrep k Hk He. unfold binary_round_aux, shr_fexp. cbn [Zdigits2].
  assert (fexp 53 1024 (Z.pos (digits2_pos M) + e) - e = k) as -> by (unfold fexp, emin; lia).
  destruct (shr_represents (shr_record_of_loc (Z.pos M) l) e k num den) as (x & -> & Hx); [done..|].
  pose proof (Z.pow_pos_nonneg 2 k ltac:(lia) Hk) as H2k.
  destruct (represents_nearest x num (2 ^ k * den)) as [Hc Hcm]; [lia|done|]. cbv zeta in Hc, Hcm.
  set (c := round_nearest_even _ _) in *.
  assert (2 ^ 52 <= shr_m x < 2 ^ 53) as Hm.
  { pose proof (represents_floor x num (2 ^ k * den) ltac:(lia) Hx) as Hf.
    assert (Zpos M * den <= num < (Zpos M + 1) * den) as Hn.
    { pose proof (represents_floor _ num den Hd Hrep) as Hn. destruct l as [|[| |]]; exact Hn. }
    destruct (digits_bounds M) as [Hlo Hhi]. replace (Z.pos (digits2_pos M)) with (53 + k) in Hlo, Hhi by lia.
    replace (53 + k - 1) with (52 + k) in Hlo by lia. rewrite Z.pow_add_r in Hlo, Hhi by lia.
    assert (shr_m x * 2 ^ k < Z.pos M + 1) by nia. assert (Z.pos M < (shr_m x + 1) * 2 ^ k) by nia. nia. }
  assert (2 ^ 52 <= c <= 2 ^ 53) as Hcb by lia. clearbody c. clear Hcm Hm.
  destruct (Z.eq_dec c (2 ^ 53)) as [->|Hne].
  - replace (fexp 53 1024 (Zdigits2 (2 ^ 53) + (e + k)) - (e + k)) with 1 by (vm_compute Zdigits2; unfold fexp, emin; lia).
    change (2 ^ 53) with 9007199254740992 in *. cbn. change (1024 - 53) with 971. destruct (Z.leb_spec (e + k + 1) 971); [|lia]. exists 9007199254740992, 4503599627370496%positive, (e + k + 1). split_and!; [done|right; lia|lia|done].
  - destruct c as [|m|m]; [lia| |lia].
    assert (Z.pos (digits2_pos m) = 53) as Hdig by (apply digits_unique; lia).
    cbn [Zdigits2]. rewrite Hdig. replace (fexp 53 1024 (53 + (e + k)) - (e + k)) with 0 by (unfold fexp, emin; lia).
    cbn. change (1024 - 53) with 971. destruct (Z.leb_spec (e + k) 971); [|lia]. exists (Z.pos m), m, (e + k). split_and!; [done|left; lia|lia|done].
Qed.

(** Division of a ticket number by a million. *)
Lemma div_million_nearest n :
  1 <= n <= 1000000 -> exists m e, truediv n 1000000 = S754_finite false m e /\ -100 <= e <= -51 /\
    Z.abs (2 * (Zpos m * 1000000 - n * 2 ^ (- e))) <= 1000000.
Proof.
  intros Hn. destruct n as [|p|p]; [lia| |lia]. unfold truediv, signed, SFdiv, SFdiv_core_binary.
  destruct (digits_bounds p) as [Hlo Hhi]. cbn [Zdigits2]. set (d := Z.pos (digits2_pos p)) in *.
  change (Z.pos (digits2_pos 1000000)) with 20.
  assert (1 <= d <= 20) as Hd.
  { split; [unfold d; lia|]. destruct (Z.le_gt_cases d 20); [done|]. assert (2 ^ 20 <= 2 ^ (d - 1)) by (apply Z.pow_le_mono_r; lia).
    change (2 ^ 20) with 1048576 in *. lia. }
  replace (Z.min (fexp 53 1024 (d + 0 - (20 + 0))) (0 - 0)) with (d - 73) by (unfold fexp, emin; lia).
  replace (0 - 0 - (d - 73)) with (73 - d) by lia. destruct (73 - d) as [|s|s] eqn:Es; [lia| |lia].
  rewrite Z.shiftl_mul_pow2 by lia. rewrite <- Es. clear s Es. set (num := Z.pos p * 2 ^ (73 - d)).
  destruct (Z.div_eucl num 1000000) as [q r] eqn:Eq.
  assert (2 ^ 72 <= num < 2 ^ 73) as Hnum.
  { unfold num. assert (2 ^ (d - 1) * 2 ^ (73 - d) = 2 ^ 72) as E1 by (rewrite <- Z.pow_add_r by lia; f_equal; lia).
    assert (2 ^ d * 2 ^ (73 - d) = 2 ^ 73) as E2 by (rewrite <- Z.pow_add_r by lia; f_equal; lia).
    pose proof (Z.pow_pos_nonneg 2 (73 - d) ltac:(lia) ltac:(lia)). nia. }
  pose proof (Z_div_mod num 1000000 ltac:(lia)) as Hdm. rewrite Eq in Hdm. destruct Hdm as [Hq Hr].
  pose proof (represents_quotient num 1000000 q r ltac:(lia) eq_refl Eq ltac:(lia)) as Hrep.
  assert (2 ^ 52 <= q < 2 ^ 54) as Hqb by (change (2 ^ 72) with 4722366482869645213696 in Hnum; change (2 ^ 73) with 9444732965739290427392 in Hnum; lia).
  destruct q as [|q|q]; [lia| |lia]. destruct (digits_bounds q) as [Hqlo Hqhi].
  assert (53 <= Z.pos (digits2_pos q) <= 54) as Hdig.
  { split.
    - destruct (Z.le_gt_cases 53 (Z.pos (digits2_pos q))); [done|]. assert (2 ^ Z.pos (digits2_pos q) <= 2 ^ 52) by (apply Z.pow_le_mono_r; lia). lia.
    - destruct (Z.le_gt_cases (Z.pos (digits2_pos q)) 54); [done|]. assert (2 ^ 54 <= 2 ^ (Z.pos (digits2_pos q) - 1)) by (apply Z.pow_le_mono_r; lia). lia. }
  destruct (round_aux_nearest q (d - 73) (new_location 1000000 r) num 1000000) as (c & m & e & Er & He & _ & Hc); [lia|done|lia|lia|].
  set (k := Z.pos (digits2_pos q) - 53) in *. exists m, e. split; [exact Er|]. split; [lia|].
  pose proof (Z.pow_pos_nonneg 2 k ltac:(lia) ltac:(lia)) as H2k.
  destruct He as [[-> ->]|[-> ->]].
  - assert (num = Z.pos p * 2 ^ (- (d - 73 + k)) * 2 ^ k) as En.
    { unfold num. rewrite <- Z.mul_assoc, <- Z.pow_add_r by lia. do 2 f_equal. lia. }
    set (P := 2 ^ (- (d - 73 + k))) in *. rewrite En in Hc. clearbody P. clear - Hc H2k. nia.
  - assert (num = Z.pos p * 2 ^ (- (d - 73 + k + 1)) * 2 * 2 ^ k) as En.
    { unfold num. rewrite <- !Z.mul_assoc. f_equal. rewrite <- Z.pow_succ_r, <- Z.pow_add_r by lia. f_equal. lia. }
    set (P := 2 ^ (- (d - 73 + k + 1))) in *. rewrite En in Hc. clearbody P. clear - Hc H2k. nia.
Qed.

Lemma iter_xO m d : Zpos (Pos.iter xO m d) = Zpos m * 2 ^ Zpos d.
Proof.
  revert m. induction d as [|d IH] using Pos.peano_ind; intros m; [rewrite Z.pow_1_r; cbn; lia|].
  rewrite Pos.iter_succ, Pos2Z.inj_succ, Z.pow_succ_r by lia. specialize (IH m). lia.
Qed.
(** A millisecond count of today's size plus something below one: a multiple of
    a 4096th, the nearest one. *)
Lemma fadd_nearest now m e :
  2 ^ 40 <= now -> e <= -12 -> -1000 <= e -> now * 2 ^ (- e) + Zpos m < 2 ^ 41 * 2 ^ (- e) ->
  exists c, units (fadd (signed now) (S754_finite false m e)) = c * 2 ^ 1062 /\
    Z.abs (2 * (c * 2 ^ (- 12 - e) - (now * 2 ^ (- e) + Zpos m))) <= 2 ^ (- 12 - e).
Proof.
  intros Hnow He Hmin Hsum. destruct now as [|p|p]; [lia| |lia]. unfold fadd, signed, SFadd.
  replace (Z.min 0 e) with e by lia. unfold shl_align. rewrite Z.sub_diag.
  destruct e as [|e0|e0] eqn:Ee; [lia|lia|]. replace (Z.neg e0 - 0) with (Z.neg e0) by lia. cbn [fst cond_Zopp]. rewrite iter_xO.
  change (Z.pos e0) with (- Z.neg e0). rewrite <- Ee in *. clear e0 Ee. set (M := Z.pos p * 2 ^ (- e) + Z.pos m) in *.
  pose proof (Z.pow_pos_nonneg 2 (- e) ltac:(lia) ltac:(lia)) as HP.
  assert (0 < M) as HM by (unfold M; nia).
  assert (2 ^ 40 * 2 ^ (- e) <= M) as HM' by (unfold M; nia). clearbody M. destruct M as [|M|M]; [lia| |lia].
  cbn [binary_normalize]. unfold binary_round.
  assert (Z.pos (digits2_pos M) = 41 - e) as Hdig.
  { apply digits_unique. replace (41 - e - 1) with (40 + - e) by lia. replace (41 - e) with (41 + - e) by lia.
    rewrite !Z.pow_add_r by lia. lia. }
  unfold shl_align. rewrite Hdig. replace (fexp 53 1024 (41 - e + e) - e) with (- 12 - e) by (unfold fexp, emin; lia).
  assert (forall A (f : positive -> A) (a : A), match - 12 - e with Z.neg d => f d | _ => a end = a) as Hno.
  { intros A f a. destruct (- 12 - e) eqn:E; [done|done|lia]. }
  rewrite (Hno _ (fun d => (Pos.iter xO M d, fexp 53 1024 (41 - e + e)))).
  destruct (round_aux_nearest M e loc_Exact (Z.pos M) 1) as (c & m2 & e2 & -> & He2 & _ & Hc); [lia|unfold represents; cbn; lia|lia|lia|].
  rewrite Hdig in *. replace (41 - e - 53) with (- 12 - e) in * by lia. exists c. split.
  - cbn [units]. destruct He2 as [[-> ->]|[-> ->]].
    + do 2 f_equal. lia.
    + replace (e + (- 12 - e) + 1 + 1074) with (1 + 1062) by lia. rewrite Z.pow_add_r by lia. change (2 ^ 1) with 2. ring.
  - rewrite Z.mul_1_r in Hc. exact Hc.
Qed.
