(* ===== verification/ProviderLimiter.v ===== *)
(** * The provider limiter (providers/limiter.py)

    Every call of a model provider takes a permit from a limiter all workers
    share: at most [max_inflight] calls at a time, at most [rpm_capacity]
    grants in any minute, waiters served from the head of a queue.  The state
    is four Redis keys, and an attempt is one atomic script.

    Redis is a service: its sorted sets are the class [SortedSets], an
    interface with the documented laws of the commands the scripts use, and
    [map_sets] is an instance.  A key with an expiry is gone from that moment
    on, and an emptied sorted set is deleted together with its expiry.  Scores
    are binary64 numbers; lease ends and grant times are integral milliseconds
    and exact, the score of a waiter is computed with the floats of [Floats].

    Main results, for any interleaving of attempts, releases, cancellations and
    lost workers: the permits in use never exceed [max_inflight], no minute
    sees more than [rpm_capacity] grants, a lost permit blocks nobody longer
    than its lease, and of any three workers that start to wait in the same
    millisecond two get equal scores, so that their random names and not their
    arrival decide. *)
From S2P Require Import Prelude PyValue Floats.
Local Open Scope string_scope.
Local Open Scope list_scope.
Local Open Scope Z_scope.

(** ** Redis *)
Class SortedSets := {
  zset : Type;
  zempty : zset;
  zscore : zset -> string -> option Z;
  zadd : zset -> Z -> string -> zset;
  zrem : zset -> string -> zset;
  zremrangebyscore : zset -> Z -> zset;     (* from -inf to the bound, inclusive *)
  zcard : zset -> Z;
  zhead : zset -> option string;            (* ZRANGE key 0 0 *)
  zscore_empty : forall o, zscore zempty o = None;
  zscore_add : forall z x o o', zscore (zadd z x o) o' = if decide (o = o') then Some x else zscore z o';
  zscore_rem : forall z o o', zscore (zrem z o) o' = if decide (o = o') then None else zscore z o';
  zscore_range : forall z b o,
    zscore (zremrangebyscore z b) o = match zscore z o with Some x => if x <=? b then None else Some x | None => None end;
  zcard_members : forall z, exists l, NoDup l /\ zcard z = Z.of_nat (length l) /\ forall o, o ∈ l <-> is_Some (zscore z o);
  zhead_none : forall z, zhead z = None <-> forall o, zscore z o = None;
  zhead_least : forall z o, zhead z = Some o ->
    exists x, zscore z o = Some x /\
      forall o' x', zscore z o' = Some x' -> x < x' \/ (x = x' /\ str_leb o o' = true);
}.

Section limiter.
Context `{SortedSets}.

(** A sorted set under a key with its expiry. *)
Record key := mk_key { members : zset; expires : option Z }.
Definition no_key : key := mk_key zempty None.
(** Writing a key: an empty set is deleted. *)
Definition store_key (z : zset) (e : option Z) : key := if zcard z =? 0 then no_key else mk_key z e.
Definition due (now : Z) (e : option Z) : bool := match e with Some t => t <=? now | None => false end.
Definition key_at (now : Z) (k : key) : key := if due now (expires k) then no_key else k.
Definition update (f : zset -> zset) (k : key) : key := store_key (f (members k)) (expires k).
(** [PEXPIRE] *)
Definition pexpire (at_ms : Z) (k : key) : key := if zcard (members k) =? 0 then k else mk_key (members k) (Some at_ms).

Record limiter_keys := mk_limiter {
  inflight : key; rpm : key; waiters : key;
  sequence : Z; sequence_expires : option Z;
}.
Definition keys_at (now : Z) (s : limiter_keys) : limiter_keys :=
  mk_limiter (key_at now (inflight s)) (key_at now (rpm s)) (key_at now (waiters s))
    (if due now (sequence_expires s) then 0 else sequence s)
    (if due now (sequence_expires s) then None else sequence_expires s).

(** ** Scripts *)
Record limiter_config := mk_limiter_config {
  max_inflight : Z; rpm_capacity : Z; rpm_window : Z; lease_ms : Z; waiter_ttl_ms : Z;
}.
(** [RedisProviderLimiter.__init__] and the constants of [acquire], with the
    timeout in milliseconds. *)
Definition limiter_of (max_inflight rpm_capacity lease_ms acquire_timeout_ms : Z) : limiter_config :=
  mk_limiter_config max_inflight rpm_capacity 60000 lease_ms (acquire_timeout_ms + 1000).

(** [now + (ordinal / 1000000)] *)
Definition waiter_score (now ordinal : Z) : Z := units (fadd (signed now) (truediv ordinal 1000000)).
Definition whole (n : Z) : Z := units (signed n).

(** [_ACQUIRE]: the reply is granted or the reason, and the time. *)
Definition enqueue (now : Z) (owner : string) (s : limiter_keys) : limiter_keys :=
  match zscore (members (waiters s)) owner with
  | Some _ => s
  | None =>
      let ordinal := sequence s + 1 in
      mk_limiter (inflight s) (rpm s) (update (fun z => zadd z (waiter_score now ordinal) owner) (waiters s)) ordinal (sequence_expires s)
  end.
Definition cleaned (cfg : limiter_config) (now : Z) (s : limiter_keys) : limiter_keys :=
  let s := keys_at now s in
  mk_limiter (update (fun z => zremrangebyscore z now) (inflight s))
    (update (fun z => zremrangebyscore z (now - rpm_window cfg)) (rpm s))
    (update (fun z => zremrangebyscore z (whole (now - waiter_ttl_ms cfg))) (waiters s))
    (sequence s) (sequence_expires s).
Definition grant (cfg : limiter_config) (now : Z) (owner : string) (s : limiter_keys) : limiter_keys :=
  let lease_until := now + lease_ms cfg in
  mk_limiter (pexpire (now + (lease_until - now + 1000)) (update (fun z => zadd z lease_until owner) (inflight s)))
    (pexpire (now + (rpm_window cfg + 1000)) (update (fun z => zadd z now owner) (rpm s)))
    (pexpire (now + (waiter_ttl_ms cfg + 1000)) (update (fun z => zrem z owner) (waiters s)))
    (sequence s) (Some (now + (waiter_ttl_ms cfg + 1000))).
Inductive verdict : Type := Granted | Refused (reason : Z).
Definition acquire_script (cfg : limiter_config) (owner : string) (now : Z) (s : limiter_keys) : verdict * limiter_keys :=
  let s := enqueue now owner (cleaned cfg now s) in
  if negb (bool_decide (zhead (members (waiters s)) = Some owner)) then (Refused 3, s) else
  if max_inflight cfg <=? zcard (members (inflight s)) then (Refused 1, s) else
  if rpm_capacity cfg <=? zcard (members (rpm s)) then (Refused 2, s) else
  (Granted, grant cfg now owner s).
(** [_RELEASE] and [_CANCEL_WAITER] *)
Definition release_script (owner : string) (now : Z) (s : limiter_keys) : limiter_keys :=
  let s := keys_at now s in
  mk_limiter (update (fun z => zrem z owner) (inflight s)) (rpm s) (waiters s) (sequence s) (sequence_expires s).
Definition cancel_script (owner : string) (now : Z) (s : limiter_keys) : limiter_keys :=
  let s := keys_at now s in
  mk_limiter (inflight s) (rpm s) (update (fun z => zrem z owner) (waiters s)) (sequence s) (sequence_expires s).

(** ** Workers *)
Record ProviderPermit := mk_permit { owner : string; acquired_at_ms : Z }.
Inductive reply : Type := Replied (v : verdict) (now : Z) | Unreachable.
(** [acquire]: the replies of successive attempts with the monotonic clock
    after each; [None] while still waiting.  The flag says that the waiter was
    cancelled. *)
Fixpoint acquire (me : string) (deadline : Z) (replies : list (reply * Z)) : option (res ProviderPermit * bool) :=
  match replies with
  | [] => None
  | (Unreachable, _) :: _ => Some (Err (ProviderLimitError "provider_limiter_unavailable"), true)
  | (Replied Granted now, _) :: _ => Some (Ok (mk_permit me now), false)
  | (Replied (Refused reason) _, clock) :: replies =>
      if deadline <=? clock
      then Some (Err (ProviderLimitError (if reason =? 2 then "provider_rpm_exhausted" else "provider_busy")), true)
      else acquire me deadline replies
  end.
(** [release]: a failure leaves the permit to its lease. *)
Definition release (permit : ProviderPermit) (reached : bool) (now : Z) (s : limiter_keys) : res limiter_keys :=
  if reached then Ok (release_script (owner permit) now s) else Err (ProviderLimitError "provider_limiter_release_unknown").

(** *** Lemmas on keys *)
Lemma zcard_nonneg z : 0 <= zcard z.
Proof. destruct (zcard_members z) as (l & _ & -> & _). lia. Qed.
Lemma zcard_zero z : zcard z = 0 <-> forall o, zscore z o = None.
Proof.
  destruct (zcard_members z) as (l & _ & -> & Hl). split.
  - intros E o. destruct l as [|x l]; [|cbn in E; lia]. apply eq_None_not_Some. intros Hs%Hl. by apply not_elem_of_nil in Hs.
  - intros Hn. destruct l as [|x l]; [done|]. assert (is_Some (zscore z x)) as [y Hy] by (apply Hl; by left). by rewrite Hn in Hy.
Qed.
Lemma zcard_empty : zcard zempty = 0.
Proof. apply zcard_zero, zscore_empty. Qed.
Lemma zcard_le z z' : (forall o, is_Some (zscore z o) -> is_Some (zscore z' o)) -> zcard z <= zcard z'.
Proof.
  intros Hs. destruct (zcard_members z) as (l & Hn & -> & Hl), (zcard_members z') as (l' & _ & -> & Hl').
  enough (length l <= length l')%nat by lia. apply submseteq_length, NoDup_submseteq; [done|]. intros o Ho. by apply Hl', Hs, Hl.
Qed.
Lemma zcard_add z x o : zcard (zadd z x o) <= zcard z + 1.
Proof.
  destruct (zcard_members (zadd z x o)) as (l & Hn & -> & Hl), (zcard_members z) as (l' & _ & -> & Hl').
  enough (length l <= length (o :: l'))%nat by (cbn in *; lia). apply submseteq_length, NoDup_submseteq; [done|].
  intros o' Ho%Hl. rewrite zscore_add in Ho. case_decide; [subst; by left|right; by apply Hl'].
Qed.
(** Owners with a score are at most as many as the set has members. *)
Lemma zcard_owners z (l : list string) : NoDup l -> (forall o, o ∈ l -> is_Some (zscore z o)) -> Z.of_nat (length l) <= zcard z.
Proof.
  intros Hn Hl. destruct (zcard_members z) as (l' & _ & -> & Hl').
  enough (length l <= length l')%nat by lia. apply submseteq_length, NoDup_submseteq; [done|]. intros o Ho. by apply Hl', Hl.
Qed.
Lemma store_key_score z e o : zscore (members (store_key z e)) o = zscore z o.
Proof.
  unfold store_key. destruct (Z.eqb_spec (zcard z) 0) as [E|]; [|done]. cbn. rewrite zscore_empty. symmetry. by apply zcard_zero.
Qed.
Lemma store_key_card z e : zcard (members (store_key z e)) = zcard z.
Proof. unfold store_key. destruct (Z.eqb_spec (zcard z) 0) as [E|]; [|done]. cbn. by rewrite zcard_empty. Qed.
Lemma update_score f k o : zscore (members (update f k)) o = zscore (f (members k)) o.
Proof. apply store_key_score. Qed.
Lemma update_card f k : zcard (members (update f k)) = zcard (f (members k)).
Proof. apply store_key_card. Qed.
Lemma update_expires f k t : expires (update f k) = Some t -> expires k = Some t.
Proof. unfold update, store_key. by destruct (_ =? 0). Qed.
Lemma pexpire_score t k o : zscore (members (pexpire t k)) o = zscore (members k) o.
Proof. unfold pexpire. by destruct (_ =? 0). Qed.
Lemma pexpire_card t k : zcard (members (pexpire t k)) = zcard (members k).
Proof. unfold pexpire. by destruct (_ =? 0). Qed.
Lemma pexpire_expires t k e : zcard (members k) <> 0 -> expires (pexpire t k) = Some e -> e = t.
Proof. unfold pexpire. intros Hk. rewrite (proj2 (Z.eqb_neq _ _) Hk). cbn. congruence. Qed.
Lemma zadd_nonempty z x o : zcard (zadd z x o) <> 0.
Proof. intros E. rewrite zcard_zero in E. specialize (E o). rewrite zscore_add, decide_True in E by done. done. Qed.
Lemma key_at_score now k o x : zscore (members (key_at now k)) o = Some x -> zscore (members k) o = Some x.
Proof. unfold key_at. destruct (due _ _); [|done]. cbn. by rewrite zscore_empty. Qed.
Lemma key_at_card now k : zcard (members (key_at now k)) <= zcard (members k).
Proof. apply zcard_le. intros o [x Hx]. exists x. by eapply key_at_score. Qed.
Lemma key_at_expires now k e : expires (key_at now k) = Some e -> expires k = Some e.
Proof. unfold key_at. by destruct (due _ _). Qed.

(** *** Entries that are still due to stand

    [kept d k now l]: the key [k] still holds every entry of [l] that lives
    longer than [now], where an entry lives until its score plus [d], and the
    key itself outlives all entries of [l]. *)
Definition kept (d : Z) (k : key) (now : Z) (l : list (string * Z)) : Prop :=
  (forall o x, (o, x) ∈ l -> now < x + d -> zscore (members k) o = Some x) /\
  (forall e, expires k = Some e -> forall o x, (o, x) ∈ l -> x + d < e).
Lemma kept_at d k c now l : kept d k c l -> c <= now -> kept d (key_at now k) now l.
Proof.
  intros [Hs He] Hc. split.
  - intros o x Hin Hx. unfold key_at. destruct (due now (expires k)) eqn:Ed; [|apply Hs; [done|lia]].
    unfold due in Ed. destruct (expires k) as [e|]; [|done]. apply Z.leb_le in Ed. specialize (He e eq_refl o x Hin). lia.
  - intros e Hk%key_at_expires. by apply He.
Qed.
Lemma kept_clean d k now l b : kept d k now l -> b = now - d -> kept d (update (fun z => zremrangebyscore z b) k) now l.
Proof.
  intros [Hs He] ->. split.
  - intros o x Hin Hx. rewrite update_score, zscore_range, (Hs o x) by done.
    by rewrite (proj2 (Z.leb_gt _ _)) by lia.
  - intros e Hk%update_expires. by apply He.
Qed.
Lemma kept_rem d k now l o : kept d k now l -> kept d (update (fun z => zrem z o) k) now (List.filter (fun e => negb (bool_decide (e.1 = o))) l).
Proof.
  intros [Hs He]. split.
  - intros o' x Hin Hx. apply list_elem_of_In, filter_In in Hin as [Hin Hne]. cbn in Hne. apply negb_true_iff, bool_decide_eq_false in Hne.
    rewrite update_score, zscore_rem, decide_False by done. apply Hs; [by apply list_elem_of_In|done].
  - intros e Hk%update_expires o' x Hin. apply list_elem_of_In, filter_In in Hin as [Hin _]. apply (He e Hk o' x). by apply list_elem_of_In.
Qed.
Lemma kept_add d k now l o x t :
  kept d k now l -> o ∉ map fst l -> x + d < t -> (forall o' x', (o', x') ∈ l -> x' <= x) ->
  kept d (pexpire t (update (fun z => zadd z x o) k)) now ((o, x) :: l).
Proof.
  intros [Hs He] Ho Ht Hl. split.
  - intros o' x' Hin Hx. rewrite pexpire_score, update_score, zscore_add. apply elem_of_cons in Hin as [[= -> ->]|Hin].
    + by rewrite decide_True.
    + rewrite decide_False; [by apply Hs|]. intros <-. apply Ho, list_elem_of_fmap. by exists (o, x').
  - intros e Hk o' x' Hin. apply pexpire_expires in Hk; [|rewrite update_card; apply zadd_nonempty]. subst e.
    apply elem_of_cons in Hin as [[= -> ->]|Hin]; [done|]. apply Hl in Hin. lia.
Qed.

(** ** The system: Redis, its clock and the permits *)
Record system := mk_system {
  redis : limiter_keys; clock_ms : Z;
  held : list (string * Z);       (* owner and end of lease of every permit not given back *)
  granted : list (string * Z);    (* owner and time of every grant *)
}.
Definition start : system := mk_system (mk_limiter no_key no_key no_key 0 None) 0 [] [].
Section steps.
Context (cfg : limiter_config).

(** One attempt, release or cancellation; a worker that dies does nothing. *)
Inductive limiter_step (x : system) : system -> Prop :=
| attempt_granted me now s' :
    clock_ms x <= now -> me ∉ map fst (granted x) -> acquire_script cfg me now (redis x) = (Granted, s') ->
    limiter_step x (mk_system s' now ((me, now + lease_ms cfg) :: held x) ((me, now) :: granted x))
| attempt_refused me now reason s' :
    clock_ms x <= now -> acquire_script cfg me now (redis x) = (Refused reason, s') ->
    limiter_step x (mk_system s' now (held x) (granted x))
| permit_released o now :
    clock_ms x <= now ->
    limiter_step x (mk_system (release_script o now (redis x)) now
                      (List.filter (fun e => negb (bool_decide (e.1 = o))) (held x)) (granted x))
| waiter_cancelled o now :
    clock_ms x <= now -> limiter_step x (mk_system (cancel_script o now (redis x)) now (held x) (granted x)).

(** The permits in use at [now]. *)
Definition in_use (now : Z) (x : system) : list (string * Z) := List.filter (fun e => now <? e.2) (held x).
(** The grants of the minute that ends at [t]. *)
Definition minute (t : Z) (x : system) : list (string * Z) :=
  List.filter (fun e => (t - rpm_window cfg <? e.2) && (e.2 <=? t)) (granted x).

Record limiter_ok (x : system) : Prop := {
  lo_card : zcard (members (inflight (redis x))) <= max_inflight cfg;
  lo_held : kept 0 (inflight (redis x)) (clock_ms x) (held x);
  lo_rpm : kept (rpm_window cfg) (rpm (redis x)) (clock_ms x) (granted x);
  lo_ends : forall o u, (o, u) ∈ held x -> u <= clock_ms x + lease_ms cfg;
  lo_scores : forall o u, zscore (members (inflight (redis x))) o = Some u -> u <= clock_ms x + lease_ms cfg;
  lo_times : forall o t, (o, t) ∈ granted x -> t <= clock_ms x;
  lo_rpm_times : forall o t, zscore (members (rpm (redis x))) o = Some t -> t <= clock_ms x;
  lo_held_nodup : NoDup (map fst (held x));
  lo_granted_nodup : NoDup (map fst (granted x));
  lo_sub : forall o, o ∈ map fst (held x) -> o ∈ map fst (granted x);
  lo_minute : forall t, Z.of_nat (length (minute t x)) <= rpm_capacity cfg;
}.
Lemma start_ok : 0 <= max_inflight cfg -> 0 <= rpm_capacity cfg -> limiter_ok start.
Proof.
  intros Hm Hr. split; cbn; try done; try (by intros ?? ?%not_elem_of_nil).
  - by rewrite zcard_empty.
  - split; [by intros ?? ?%not_elem_of_nil|done].
  - split; [by intros ?? ?%not_elem_of_nil|done].
  - intros o u. by rewrite zscore_empty.
  - intros o u. by rewrite zscore_empty.
  - constructor.
  - constructor.
Qed.
Lemma filter_keys_nodup {A} (f : string * A -> bool) l : NoDup (map fst l) -> NoDup (map fst (List.filter f l)).
Proof.
  induction l as [|[o x] l IH]; cbn; [done|]. intros [Ho Hl]%NoDup_cons. destruct (f (o, x)); [|auto]. cbn. constructor; [|auto].
  intros Hin. apply Ho. apply list_elem_of_fmap in Hin as ([o' x'] & -> & Hin). apply list_elem_of_In, filter_In in Hin as [Hin _].
  apply list_elem_of_fmap. exists (o', x'). split; [done|]. by apply list_elem_of_In.
Qed.
(** Time passes and entries disappear. *)
Lemma ok_shrink x now s' held' :
  limiter_ok x -> clock_ms x <= now ->
  (forall o u, zscore (members (inflight s')) o = Some u -> zscore (members (inflight (redis x))) o = Some u) ->
  (forall o u, zscore (members (rpm s')) o = Some u -> zscore (members (rpm (redis x))) o = Some u) ->
  kept 0 (inflight s') now held' -> kept (rpm_window cfg) (rpm s') now (granted x) ->
  NoDup (map fst held') -> (forall e, e ∈ held' -> e ∈ held x) ->
  limiter_ok (mk_system s' now held' (granted x)).
Proof.
  intros Hx Hnow Hi Hr Kh Kr Hnd Hsub. split; cbn; try done.
  - etrans; [|apply (lo_card _ Hx)]. apply zcard_le. intros o [u Hu]. exists u. by apply Hi.
  - intros o u Hin%Hsub%(lo_ends _ Hx). lia.
  - intros o u Hu%Hi%(lo_scores _ Hx). lia.
  - intros o t Hin%(lo_times _ Hx). lia.
  - intros o t Ht%Hr%(lo_rpm_times _ Hx). lia.
  - apply (lo_granted_nodup _ Hx).
  - intros o Ho. apply (lo_sub _ Hx). apply list_elem_of_fmap in Ho as (e & -> & He). apply list_elem_of_fmap. eauto.
  - apply (lo_minute _ Hx).
Qed.
Lemma update_range_score b k o u : zscore (members (update (fun z => zremrangebyscore z b) k)) o = Some u -> zscore (members k) o = Some u.
Proof. rewrite update_score, zscore_range. destruct (zscore _ _) as [y|]; [|done]. by destruct (y <=? b). Qed.
Lemma update_rem_score o' k o u : zscore (members (update (fun z => zrem z o') k)) o = Some u -> zscore (members k) o = Some u.
Proof. rewrite update_score, zscore_rem. by case_decide. Qed.
Lemma enqueue_inflight now me s : inflight (enqueue now me s) = inflight s.
Proof. unfold enqueue. by destruct (zscore _ _). Qed.
Lemma enqueue_rpm now me s : rpm (enqueue now me s) = rpm s.
Proof. unfold enqueue. by destruct (zscore _ _). Qed.
Lemma ok_attempt x me now :
  limiter_ok x -> clock_ms x <= now ->
  limiter_ok (mk_system (enqueue now me (cleaned cfg now (redis x))) now (held x) (granted x)).
Proof.
  intros Hx Hnow. apply ok_shrink; rewrite ?enqueue_inflight, ?enqueue_rpm; cbn; try done.
  - intros o u Hu. by eapply key_at_score, update_range_score.
  - intros o u Hu. by eapply key_at_score, update_range_score.
  - apply kept_clean; [|lia]. by eapply kept_at; [apply (lo_held _ Hx)|].
  - apply kept_clean; [|lia]. by eapply kept_at; [apply (lo_rpm _ Hx)|].
  - apply (lo_held_nodup _ Hx).
Qed.
Lemma ok_grant x me :
  0 <= rpm_window cfg -> limiter_ok x -> me ∉ map fst (granted x) ->
  zcard (members (inflight (redis x))) < max_inflight cfg -> zcard (members (rpm (redis x))) < rpm_capacity cfg ->
  limiter_ok (mk_system (grant cfg (clock_ms x) me (redis x)) (clock_ms x)
                ((me, clock_ms x + lease_ms cfg) :: held x) ((me, clock_ms x) :: granted x)).
Proof.
  intros Hw Hx Hme Hi Hr. set (now := clock_ms x) in *. split; cbn.
  - rewrite pexpire_card, update_card. pose proof (zcard_add (members (inflight (redis x))) (now + lease_ms cfg) me). lia.
  - apply kept_add; [apply (lo_held _ Hx)| |lia|apply (lo_ends _ Hx)]. intros Hin. by apply Hme, (lo_sub _ Hx).
  - apply kept_add; [apply (lo_rpm _ Hx)|done|lia|apply (lo_times _ Hx)].
  - intros o u [[= -> ->]|Hin%(lo_ends _ Hx)]%elem_of_cons; lia.
  - intros o u. rewrite pexpire_score, update_score, zscore_add. case_decide; [intros [= <-]; lia|apply (lo_scores _ Hx)].
  - intros o t [[= -> ->]|Hin%(lo_times _ Hx)]%elem_of_cons; lia.
  - intros o t. rewrite pexpire_score, update_score, zscore_add. case_decide; [intros [= <-]; lia|apply (lo_rpm_times _ Hx)].
  - constructor; [|apply (lo_held_nodup _ Hx)]. intros Hin. by apply Hme, (lo_sub _ Hx).
  - constructor; [done|apply (lo_granted_nodup _ Hx)].
  - intros o [->|Ho]%elem_of_cons; [by left|]. right. by apply (lo_sub _ Hx).
  - intros t. unfold minute. cbn [granted List.filter]. destruct (_ && _) eqn:E; [|apply (lo_minute _ Hx)]. cbn [snd] in E.
    apply andb_true_iff in E as [E1%Z.ltb_lt E2%Z.leb_le]. cbn [length].
    assert (Z.of_nat (length (map fst (minute t x))) <= zcard (members (rpm (redis x)))) as Hc.
    { apply zcard_owners; [by apply filter_keys_nodup, lo_granted_nodup|]. intros o Ho.
      apply list_elem_of_fmap in Ho as ([o' t'] & -> & Ho). apply list_elem_of_In, filter_In in Ho as [Ho Hb]. cbn [snd] in Hb.
      apply andb_true_iff in Hb as [Hb%Z.ltb_lt _]. exists t'. apply (proj1 (lo_rpm _ Hx)); [by apply list_elem_of_In|]. fold now. lia. }
    rewrite length_map in Hc. unfold minute in Hc. lia.
Qed.
Lemma step_ok' x y : 0 <= rpm_window cfg -> limiter_step x y -> limiter_ok x -> limiter_ok y.
Proof.
  intros Hw Hs Hx. destruct Hs as [me now s' Hnow Hme Ha|me now reason s' Hnow Ha|o now Hnow|o now Hnow].
  - pose proof (ok_attempt x me now Hx Hnow) as Hy. unfold acquire_script in Ha. cbn zeta in Ha.
    destruct (negb _); [done|]. destruct (Z.leb_spec (max_inflight cfg) (zcard (members (inflight (enqueue now me (cleaned cfg now (redis x))))))); [done|].
    destruct (Z.leb_spec (rpm_capacity cfg) (zcard (members (rpm (enqueue now me (cleaned cfg now (redis x))))))); [done|].
    injection Ha as <-. exact (ok_grant _ me Hw Hy Hme ltac:(done) ltac:(done)).
  - pose proof (ok_attempt x me now Hx Hnow) as Hy. unfold acquire_script in Ha. cbn zeta in Ha.
    destruct (negb _); [by injection Ha as _ <-|]. destruct (_ <=? _); [by injection Ha as _ <-|]. destruct (_ <=? _); [by injection Ha as _ <-|done].
  - apply ok_shrink; cbn; try done.
    + intros o' u Hu. by eapply key_at_score, update_rem_score.
    + intros o' u Hu. by eapply key_at_score.
    + apply kept_rem. by eapply kept_at; [apply (lo_held _ Hx)|].
    + by eapply kept_at; [apply (lo_rpm _ Hx)|].
    + apply filter_keys_nodup, (lo_held_nodup _ Hx).
    + intros e He. apply list_elem_of_In, filter_In in He as [He _]. by apply list_elem_of_In.
  - apply ok_shrink; cbn; try done.
    + intros o' u Hu. by eapply key_at_score.
    + intros o' u Hu. by eapply key_at_score.
    + by eapply kept_at; [apply (lo_held _ Hx)|].
    + by eapply kept_at; [apply (lo_rpm _ Hx)|].
    + apply (lo_held_nodup _ Hx).
Qed.
Lemma limiter_reachable_ok x :
  0 <= max_inflight cfg -> 0 <= rpm_capacity cfg -> 0 <= rpm_window cfg -> rtc limiter_step start x -> limiter_ok x.
Proof.
  intros Hm Hr Hw Hx. pose proof (start_ok Hm Hr) as Hs. revert Hs.
  induction Hx as [x|x y z Hxy _ IH]; intros Hs; [done|]. apply IH. by eapply step_ok'.
Qed.

(** C18: the limiter keeps both limits whatever the workers do.  In every state
    reachable by any interleaving of attempts, releases (of any owner),
    cancellations and workers that simply stop, at any later moment the
    permits whose lease has not ended and which were not given back are at
    most [max_inflight], with different owners, and the grants of any minute,
    wherever it starts, are at most [rpm_capacity]. *)
Theorem limits_hold x now :
  0 <= max_inflight cfg -> 0 <= rpm_capacity cfg -> 0 <= rpm_window cfg -> rtc limiter_step start x -> clock_ms x <= now ->
  Z.of_nat (length (in_use now x)) <= max_inflight cfg /\ NoDup (map fst (in_use now x)) /\
  forall t, Z.of_nat (length (minute t x)) <= rpm_capacity cfg.
Proof.
  intros Hm Hr Hw Hx Hnow. apply limiter_reachable_ok in Hx as Hok; [|done..]. split_and!.
  - etrans; [|apply (lo_card _ Hok)]. rewrite <- (length_map fst).
    apply zcard_owners; [by apply filter_keys_nodup, lo_held_nodup|]. intros o Ho.
    apply list_elem_of_fmap in Ho as ([o' u] & -> & Ho). apply list_elem_of_In, filter_In in Ho as [Ho Hu]. cbn [snd] in Hu. apply Z.ltb_lt in Hu.
    exists u. apply (proj1 (lo_held _ Hok)); [by apply list_elem_of_In|lia].
  - by apply filter_keys_nodup, lo_held_nodup.
  - apply (lo_minute _ Hok).
Qed.

(** A permit that is never given back blocks nobody for longer than its
    lease.  From any reachable state, an attempt of the head of the queue made
    after the lease time and the minute have passed is granted, even if every
    worker has died holding its permit. *)
Theorem lost_permits_expire x me now :
  0 < max_inflight cfg -> 0 < rpm_capacity cfg -> 0 <= rpm_window cfg -> rtc limiter_step start x ->
  clock_ms x + lease_ms cfg <= now -> clock_ms x + rpm_window cfg <= now ->
  zhead (members (waiters (enqueue now me (cleaned cfg now (redis x))))) = Some me ->
  exists s', acquire_script cfg me now (redis x) = (Granted, s').
Proof.
  intros Hm Hr Hw Hx Hl Hwin Hhead. apply limiter_reachable_ok in Hx as Hok; [|lia..].
  assert (zcard (members (inflight (cleaned cfg now (redis x)))) = 0) as Ei.
  { apply zcard_zero. intros o. cbn. rewrite update_score, zscore_range.
    destruct (zscore (members (key_at now (inflight (redis x)))) o) as [u|] eqn:E; [|done].
    apply key_at_score, (lo_scores _ Hok) in E. by rewrite (proj2 (Z.leb_le _ _)) by lia. }
  assert (zcard (members (rpm (cleaned cfg now (redis x)))) = 0) as Er.
  { apply zcard_zero. intros o. cbn. rewrite update_score, zscore_range.
    destruct (zscore (members (key_at now (rpm (redis x)))) o) as [u|] eqn:E; [|done].
    apply key_at_score, (lo_rpm_times _ Hok) in E. by rewrite (proj2 (Z.leb_le _ _)) by lia. }
  unfold acquire_script. cbn zeta. rewrite bool_decide_eq_true_2 by done. cbn [negb].
  rewrite enqueue_inflight, enqueue_rpm, Ei, Er, !(proj2 (Z.leb_gt _ _)) by lia. by eexists.
Qed.
End steps.
End limiter.

(** ** Places in the queue *)

(** A score is a multiple of a 4096th of a millisecond, within half of one of
    the exact value (and a little more, since the quotient is rounded too). *)
Lemma score_nearest now n :
  2 ^ 40 <= now -> now + 2 <= 2 ^ 41 -> 1 <= n <= 1000000 ->
  exists c, waiter_score now n = c * 2 ^ 1062 /\ Z.abs (c * 1000000 - 4096 * (1000000 * now + n)) <= 500001.
Proof.
  intros Hlo Hhi Hn. destruct (div_million_nearest n Hn) as (m & e & Ed & He & Hm). unfold waiter_score. rewrite Ed.
  set (Q := 2 ^ (- 12 - e)). assert (2 ^ (- e) = 4096 * Q) as EP.
  { unfold Q. change 4096 with (2 ^ 12). rewrite <- Z.pow_add_r by lia. f_equal. lia. }
  assert (2 ^ 39 <= Q) as HQ by (apply Z.pow_le_mono_r; lia). change (2 ^ 39) with 549755813888 in HQ.
  rewrite EP in Hm. assert (Z.pos m * 1000000 <= n * (4096 * Q) + 500000) as Hm1 by lia.
  assert (Z.pos m <= 4096 * Q + 1) as Hm2 by nia.
  destruct (fadd_nearest now m e) as (c & -> & Hc); [done|lia|lia|rewrite EP; change (2 ^ 41) with 2199023255552 in *; nia|].
  exists c. split; [done|]. fold Q in Hc. rewrite EP in Hc. clearbody Q. clear EP Ed.
  assert (Z.abs ((c * 1000000 - 4096 * (1000000 * now + n)) * Q) <= 500001 * Q) as Hfin by lia.
  rewrite Z.abs_mul, (Z.abs_eq Q) in Hfin by lia. by apply Z.mul_le_mono_pos_r in Hfin; [|lia].
Qed.
(** Among any three numbers within 244 of each other two share a place. *)
Lemma scores_collide now a b c :
  2 ^ 40 <= now -> now + 2 <= 2 ^ 41 -> 1 <= a -> a <= b -> b <= c -> c <= 1000000 -> c - a <= 244 ->
  waiter_score now a = waiter_score now b \/ waiter_score now a = waiter_score now c \/ waiter_score now b = waiter_score now c.
Proof.
  intros Hlo Hhi Ha Hab Hbc Hc Hd.
  destruct (score_nearest now a) as (x & -> & Hx); [lia..|]. destruct (score_nearest now b) as (y & -> & Hy); [lia..|].
  destruct (score_nearest now c) as (z & -> & Hz); [lia..|].
  assert (x = y \/ x = z \/ y = z) as [->|[->| ->]] by lia; auto.
Qed.

Section places.
Context `{SortedSets}.

Lemma enqueue_new now o s :
  zscore (members (waiters s)) o = None ->
  sequence (enqueue now o s) = sequence s + 1 /\
  forall o', zscore (members (waiters (enqueue now o s))) o' =
    if decide (o = o') then Some (waiter_score now (sequence s + 1)) else zscore (members (waiters s)) o'.
Proof.
  intros Hn. unfold enqueue. rewrite Hn. split; [done|]. intros o'. cbn. by rewrite update_score, zscore_add.
Qed.
(** Of two waiters with the same score the one with the greater name is not the head. *)
Lemma tied_not_head z o o' x :
  zscore z o = Some x -> zscore z o' = Some x -> str_ltb o' o = true -> zhead z <> Some o.
Proof.
  intros Ho Ho' Hlt Hh. destruct (zhead_least z o Hh) as (y & Hy & Hleast). rewrite Ho in Hy. injection Hy as <-.
  destruct (Hleast o' x Ho') as [?|[_ Hle]]; [lia|]. unfold str_leb in Hle. by rewrite Hlt in Hle.
Qed.

(** C19: the arrival order of a millisecond is not kept.  Whenever, between
    November 2004 and September 2039, three workers start to wait in the same
    millisecond, one after the other (the ticket numbers below a million), two
    of them get the same score, the earlier one of these and the later one; and
    as long as both wait, if the later one has the smaller random name, every
    attempt of the earlier one is refused because it is not the head. *)
Theorem arrival_order_lost cfg now (s : limiter_keys) (first second third : string) :
  2 ^ 40 <= now -> now + 2 <= 2 ^ 41 -> 0 <= sequence s -> sequence s + 3 <= 1000000 -> NoDup [first; second; third] ->
  (forall o, o ∈ [first; second; third] -> zscore (members (waiters s)) o = None) ->
  let queue := members (waiters (enqueue now third (enqueue now second (enqueue now first s)))) in
  exists earlier later score,
    (earlier, later) ∈ [(first, second); (first, third); (second, third)] /\
    zscore queue earlier = Some score /\ zscore queue later = Some score /\
    forall t u, zscore (members (waiters (cleaned cfg t u))) earlier = Some score ->
      zscore (members (waiters (cleaned cfg t u))) later = Some score ->
      str_ltb later earlier = true -> (acquire_script cfg earlier t u).1 = Refused 3.
Proof.
  intros Hlo Hhi H0 H1 Hnd Hnew queue.
  apply NoDup_cons in Hnd as [Hf Hnd]. apply NoDup_cons in Hnd as [Hs _].
  assert (first <> second /\ first <> third /\ second <> third) as (N1 & N2 & N3) by (split_and!; intros ->; set_solver).
  destruct (enqueue_new now first s) as [E1 S1]; [apply Hnew; by left|].
  destruct (enqueue_new now second (enqueue now first s)) as [E2 S2]; [rewrite S1, decide_False by congruence; apply Hnew; set_solver|].
  destruct (enqueue_new now third (enqueue now second (enqueue now first s))) as [_ S3].
  { rewrite S2, S1, !decide_False by congruence. apply Hnew. set_solver. }
  rewrite E1 in S2. rewrite E2, E1 in S3.
  assert (zscore queue first = Some (waiter_score now (sequence s + 1))) as Q1.
  { unfold queue. rewrite S3, S2, S1, decide_False, decide_False, decide_True by congruence. done. }
  assert (zscore queue second = Some (waiter_score now (sequence s + 1 + 1))) as Q2.
  { unfold queue. rewrite S3, S2, decide_False, decide_True by congruence. done. }
  assert (zscore queue third = Some (waiter_score now (sequence s + 1 + 1 + 1))) as Q3.
  { unfold queue. by rewrite S3, decide_True by done. }
  assert (exists earlier later score, (earlier, later) ∈ [(first, second); (first, third); (second, third)] /\
    zscore queue earlier = Some score /\ zscore queue later = Some score) as (e & l & x & Hin & He & Hl).
  { destruct (scores_collide now (sequence s + 1) (sequence s + 1 + 1) (sequence s + 1 + 1 + 1)) as [E|[E|E]]; [lia..| | |].
    - exists first, second, (waiter_score now (sequence s + 1 + 1)). rewrite Q1, Q2, E. split; [list_member|done].
    - exists first, third, (waiter_score now (sequence s + 1 + 1 + 1)). rewrite Q1, Q3, E. split; [list_member|done].
    - exists second, third, (waiter_score now (sequence s + 1 + 1 + 1)). rewrite Q2, Q3, E. split; [list_member|done]. }
  exists e, l, x. split; [done|]. split; [done|]. split; [done|]. intros t u Ce Cl Hlt. unfold acquire_script, enqueue. cbv zeta. rewrite Ce.
  rewrite bool_decide_eq_false_2 by (by eapply tied_not_head). done.
Qed.
End places.

(** ** An instance of the interface: finite maps *)
Definition entry_leb (a b : string * Z) : bool := (a.2 <? b.2) || ((a.2 =? b.2) && str_leb a.1 b.1).
Lemma entry_leb_total a b : entry_leb a b = false -> entry_leb b a = true.
Proof.
  unfold entry_leb. destruct a as [o x], b as [o' y]. cbn. intros [H1 H2]%orb_false_iff. apply orb_true_iff.
  apply Z.ltb_ge in H1. destruct (Z.eqb_spec x y) as [->|Hne]; [|left; apply Z.ltb_lt; lia].
  right. rewrite Z.eqb_refl. cbn in *. by apply str_leb_total.
Qed.
Lemma entry_leb_trans a b c : entry_leb a b = true -> entry_leb b c = true -> entry_leb a c = true.
Proof.
  unfold entry_leb. destruct a as [o x], b as [o' y], c as [o'' z]. cbn.
  rewrite !orb_true_iff, !andb_true_iff, !Z.ltb_lt, !Z.eqb_eq. intros [?|[? ?]] [?|[? ?]]; [left; lia..|].
  right. split; [lia|]. by eapply str_leb_trans.
Qed.
Definition map_head (m : gmap string Z) : option string := fst <$> head (isort entry_leb (map_to_list m)).
Lemma map_head_spec (m : gmap string Z) o :
  map_head m = Some o ->
  exists x, m !! o = Some x /\ forall o' x', m !! o' = Some x' -> x < x' \/ (x = x' /\ str_leb o o' = true).
Proof.
  unfold map_head. intros E. destruct (isort entry_leb (map_to_list m)) as [|[k x] l] eqn:Ei; [done|]. cbn in E. injection E as ->.
  pose proof (isort_sorted entry_leb entry_leb_total entry_leb_trans (map_to_list m)) as Hs.
  pose proof (isort_perm entry_leb (map_to_list m)) as Hp. rewrite Ei in Hs, Hp.
  exists x. split; [apply elem_of_map_to_list; rewrite <- Hp; by left|]. intros o' x' Hm%elem_of_map_to_list. rewrite <- Hp in Hm.
  apply elem_of_cons in Hm as [[= -> ->]|Hm].
  { right. split; [done|]. destruct (str_leb o o) eqn:E; [done|]. by rewrite (str_leb_total _ _ E) in E. }
  apply StronglySorted_cons in Hs as [Hx _]. rewrite Forall_forall in Hx. specialize (Hx _ Hm). unfold entry_leb in Hx. cbn in Hx.
  rewrite orb_true_iff, andb_true_iff, Z.ltb_lt, Z.eqb_eq in Hx. done.
Qed.
Lemma map_head_none (m : gmap string Z) : map_head m = None <-> forall o, m !! o = None.
Proof.
  unfold map_head. pose proof (isort_perm entry_leb (map_to_list m)) as Hp. split.
  - destruct (isort entry_leb (map_to_list m)) as [|e l]; [|done]. intros _ o. apply Permutation_nil_l in Hp. symmetry in Hp.
    apply map_to_list_empty_iff in Hp as ->. apply lookup_empty.
  - intros Hm. assert (m = ∅) as -> by by apply map_empty. done.
Qed.
Definition map_sets : SortedSets.
Proof.
  refine {| zset := gmap string Z; zempty := ∅; zscore := fun m o => m !! o; zadd := fun m x o => <[o := x]> m;
            zrem := fun m o => delete o m; zremrangebyscore := fun m b => filter (fun kv => b < kv.2) m;
            zcard := fun m => Z.of_nat (size m); zhead := map_head |}.
  - intros o. apply lookup_empty.
  - intros z x o o'. case_decide as E; [subst; apply lookup_insert_eq|by apply lookup_insert_ne].
  - intros z o o'. case_decide as E; [subst; apply lookup_delete_eq|by apply lookup_delete_ne].
  - intros z b o. rewrite map_lookup_filter. destruct (z !! o) as [x|]; [|done]. cbn. destruct (Z.leb_spec x b).
    + rewrite option_guard_False by (cbn; lia). done.
    + rewrite option_guard_True by (cbn; lia). done.
  - intros z. exists (map fst (map_to_list z)). split_and!; [apply NoDup_fst_map_to_list| |].
    + by rewrite length_map, length_map_to_list.
    + intros o. rewrite list_elem_of_fmap. split.
      * intros ([o' x] & -> & Hin%elem_of_map_to_list). by exists x.
      * intros [x Hx]. exists (o, x). split; [done|]. by apply elem_of_map_to_list.
  - apply map_head_none.
  - apply map_head_spec.
Defined.

(** ** Concrete limiters *)
Definition epoch_ms : Z := 1784073600000.
Definition narrow : limiter_config := limiter_of 1 60 40000 5000.
Abbreviation attempt := (@acquire_script map_sets narrow).
Definition one_permit : @limiter_keys map_sets := (attempt "permit:c" epoch_ms (@redis map_sets start)).2.
Definition b_waits : verdict * @limiter_keys map_sets := attempt "permit:b" (epoch_ms + 1) one_permit.
Definition a_waits : verdict * @limiter_keys map_sets := attempt "permit:a" (epoch_ms + 1) b_waits.2.
Definition c_returns : @limiter_keys map_sets := @release_script map_sets "permit:c" (epoch_ms + 2) a_waits.2.
Definition after_grant : system :=
  mk_system one_permit epoch_ms [("permit:c", epoch_ms + 40000)] [("permit:c", epoch_ms)].
Lemma after_grant_reached : rtc (@limiter_step map_sets narrow) (@start map_sets) after_grant.
Proof.
  apply rtc_once. apply (@attempt_granted map_sets narrow start "permit:c" epoch_ms one_permit).
  - vm_compute. discriminate.
  - by apply not_elem_of_nil.
  - destruct (attempt "permit:c" epoch_ms (@redis map_sets start)) as [v s'] eqn:E. unfold one_permit. rewrite E. cbn [snd]. f_equal.
    apply (f_equal fst) in E. cbn [fst] in E. rewrite <- E. vm_compute. reflexivity.
Qed.
Lemma limits_hold_witness :
  length (@in_use map_sets epoch_ms after_grant) = 1%nat /\ Z.of_nat (length (@in_use map_sets epoch_ms after_grant)) <= 1.
Proof.
  split; [vm_compute; reflexivity|].
  refine (proj1 (@limits_hold map_sets narrow after_grant epoch_ms _ _ _ after_grant_reached _)); vm_compute; discriminate.
Defined.
Lemma lost_permits_expire_witness :
  exists s', attempt "permit:b" (epoch_ms + 60000) one_permit = (Granted, s').
Proof.
  apply (@lost_permits_expire map_sets narrow after_grant "permit:b" (epoch_ms + 60000)).
  - reflexivity.
  - reflexivity.
  - discriminate.
  - exact after_grant_reached.
  - vm_compute. discriminate.
  - vm_compute. discriminate.
  - vm_compute. reflexivity.
Defined.

#[local] Existing Instance map_sets.
Definition queued : @limiter_keys map_sets := mk_limiter no_key no_key no_key 500000 None.
Lemma arrival_order_lost_witness :
  let queue := members (waiters (enqueue epoch_ms "permit:a" (enqueue epoch_ms "permit:b" (enqueue epoch_ms "permit:c" queued)))) in
  exists earlier later score,
    (earlier, later) ∈ [("permit:c", "permit:b"); ("permit:c", "permit:a"); ("permit:b", "permit:a")] /\
    zscore queue earlier = Some score /\ zscore queue later = Some score /\
    forall t u, zscore (members (waiters (cleaned narrow t u))) earlier = Some score ->
      zscore (members (waiters (cleaned narrow t u))) later = Some score ->
      str_ltb later earlier = true -> (acquire_script narrow earlier t u).1 = Refused 3.
Proof.
  apply (@arrival_order_lost map_sets narrow epoch_ms queued "permit:c" "permit:b" "permit:a");
    [vm_compute; discriminate..| |reflexivity].
  apply (bool_decide_unpack _). vm_compute. exact I.
Defined.
(** A run: while the only permit is out, [b] asks and then [a]; when the permit is
    back, [b] is refused as not being the head and [a] is served.  The first
    hundred and twenty ticket numbers even leave no trace in the score. *)
Example overtaken :
  (forall n, 0 <= n < 121 -> waiter_score epoch_ms n = whole epoch_ms) /\
  fst b_waits = Refused 1 /\ fst a_waits = Refused 1 /\
  fst (attempt "permit:b" (epoch_ms + 3) c_returns) = Refused 3 /\
  fst (attempt "permit:a" (epoch_ms + 3) c_returns) = Granted.
Proof.
  split_and!; [|vm_compute; reflexivity..]. intros n Hn. apply Z.eqb_eq.
  apply (below_forall (fun n => waiter_score epoch_ms n =? whole epoch_ms) 121); [vm_compute; reflexivity|done].
Qed.
