(* ===== verification/RefundPolicy.v ===== *)
(** * Duplicate-charge refunds (contracts/refund_policy.py, services/refunds.py)

    The side-effect-free refund policy, the canonical snapshot of a charge
    pair that proposals, approvals and effects are bound to, and the
    repository functions that load, lock, bind and re-check a pair.

    Main results: a pair is eligible exactly under the documented conditions;
    an equal pair hash means the same material facts on both sides (or an
    explicit SHA-256 collision); the locked re-read evaluates what it locked. *)
From Stdlib Require Import Ascii.
From S2P Require Import Prelude PyValue Sha256 CanonicalJson Timestamps Decimals.
Local Open Scope string_scope.
Local Open Scope list_scope.
Local Open Scope Z_scope.

Definition REFUND_APPLICATION_WINDOW_DAYS : Z := 30.

Record RefundChargeFacts := mk_charge {
  billing_record_id : string;
  tenant_id : string;
  customer_id : string;
  amount : Decimal;
  currency : string;
  status : string;
  charged_at : datetime;
  service_period_start : date;
  service_period_end : date;
  version : Z;
  duplicate_of : option string;
}.

Record RefundPairChecks := mk_checks {
  same_scope : bool;
  explicit_relation : bool;
  both_charged : bool;
  same_amount : bool;
  same_currency : bool;
  same_service_period : bool;
  within_application_window : bool;
}.

(** [RefundPairChecks.eligible] *)
Definition checks_eligible (c : RefundPairChecks) : bool :=
  forallb id [same_scope c; explicit_relation c; both_charged c; same_amount c; same_currency c;
              same_service_period c; within_application_window c].

(** [RefundPairChecks.failed] *)
Definition failed (c : RefundPairChecks) : list string :=
  let values := [("same_scope", same_scope c); ("explicit_relation", explicit_relation c);
                 ("both_charged", both_charged c); ("same_amount", same_amount c);
                 ("same_currency", same_currency c); ("same_service_period", same_service_period c);
                 ("within_application_window", within_application_window c)] in
  map fst (List.filter (fun v => negb v.2) values).

Record RefundPairEvaluation := mk_evaluation {
  target : RefundChargeFacts;
  original : option RefundChargeFacts;
  checks : RefundPairChecks;
  pair_hash : option string;
}.

(** [RefundPairEvaluation.eligible] *)
Definition eligible (e : RefundPairEvaluation) : bool :=
  checks_eligible (checks e) && isSome (pair_hash e).

Definition _aware_utc (value : datetime) : res datetime :=
  if is_naive value then Ok (mk_datetime (wall value) (Some 0))
  else raise OverflowError "date value out of range" when negb (in_range (instant value)) ;;
       Ok (utc (instant value)).

(** One side of [refund_pair_payload]. *)
Definition charge (value : RefundChargeFacts) : res (list (okey * pyobject)) :=
  let? amount_text := canonical_decimal_string (ADecimal (amount value)) in
  let? charged := _aware_utc (charged_at value) in
  let? charged_text := format_canonical_utc_timestamp charged in
  Ok [(KeyStr "amount", OStr amount_text);
      (KeyStr "billing_record_id", OStr (billing_record_id value));
      (KeyStr "charged_at", OStr charged_text);
      (KeyStr "currency", OStr (currency value));
      (KeyStr "customer_id", OStr (customer_id value));
      (KeyStr "service_period_end", OStr (date_isoformat (service_period_end value)));
      (KeyStr "service_period_start", OStr (date_isoformat (service_period_start value)));
      (KeyStr "status", OStr (status value));
      (KeyStr "tenant_id", OStr (tenant_id value));
      (KeyStr "version", OInt (version value))].

Definition refund_pair_payload (target original : RefundChargeFacts) : res pyobject :=
  let? original_charge := charge original in
  let? target_charge := charge target in
  Ok (OMapping
        [(KeyStr "original", OMapping original_charge);
         (KeyStr "policy_version", OStr "refund-pair.v1");
         (KeyStr "target", OMapping (target_charge ++
            [(KeyStr "duplicate_of",
              match duplicate_of target with Some d => OStr d | None => ONone end)]));
         (KeyStr "window_days", OInt REFUND_APPLICATION_WINDOW_DAYS)]).

Definition refund_pair_checks_payload (c : RefundPairChecks) : list (string * bool) :=
  [("same_scope", same_scope c); ("explicit_relation", explicit_relation c);
   ("both_charged", both_charged c); ("same_amount", same_amount c);
   ("same_currency", same_currency c); ("same_service_period", same_service_period c);
   ("within_application_window", within_application_window c)].

(** The seven checks, on instants that are already in UTC. *)
Definition pair_checks (t : RefundChargeFacts) (original : option RefundChargeFacts)
    (current target_charged_at : Z) (original_charged_at : option Z) : RefundPairChecks :=
  match original, original_charged_at with
  | Some o, Some o_charged_at => {|
      same_scope := (tenant_id t ==? tenant_id o) && (customer_id t ==? customer_id o);
      explicit_relation := (billing_record_id t !=? billing_record_id o)
                           && (duplicate_of t ==? Some (billing_record_id o));
      both_charged := (status t ==? "charged") && (status o ==? "charged");
      same_amount := decimal_eqb (amount t) (amount o);
      same_currency := currency t ==? currency o;
      same_service_period := (service_period_start t ==? service_period_start o)
                             && (service_period_end t ==? service_period_end o)
                             && date_ltb (service_period_start t) (service_period_end t);
      within_application_window :=
        (o_charged_at <=? current) && (target_charged_at <=? current)
        && (current - target_charged_at <=? REFUND_APPLICATION_WINDOW_DAYS * day) |}
  | _, _ => mk_checks false false false false false false false
  end.

Definition evaluate_refund_pair (target : RefundChargeFacts) (original : option RefundChargeFacts)
    (now : datetime) : res RefundPairEvaluation :=
  let? current := _aware_utc now in
  let? target_charged_at := _aware_utc (charged_at target) in
  let? original_charged_at :=
    match original with
    | Some o => let? t := _aware_utc (charged_at o) in Ok (Some (instant t))
    | None => Ok None
    end in
  let checks := pair_checks target original (instant current) (instant target_charged_at) original_charged_at in
  let? pair_hash :=
    match original with
    | Some o => let? payload := refund_pair_payload target o in
                let? h := canonical_json_hash payload in Ok (Some h)
    | None => Ok None
    end in
  Ok (mk_evaluation target original checks pair_hash).

(** ** Repository functions (services/refunds.py) *)

(** The columns of [BillingRecord] the policy reads, under their primary key. *)
Abbreviation BillingRecord := RefundChargeFacts.
Abbreviation billing_table := (gmap string BillingRecord).

(** The ORM row and the policy's input have the same fields. *)
Definition refund_charge_facts (billing : BillingRecord) : RefundChargeFacts :=
  mk_charge (billing_record_id billing) (tenant_id billing) (customer_id billing) (amount billing)
    (currency billing) (status billing) (charged_at billing) (service_period_start billing)
    (service_period_end billing) (version billing) (duplicate_of billing).

(** [select(BillingRecord).where(id == i, tenant_id == t, customer_id == c)] *)
Definition select_billing (db : billing_table) (id tenant customer : string) : option BillingRecord :=
  match db !! id with
  | Some r => if (tenant_id r ==? tenant) && (customer_id r ==? customer) then Some r else None
  | None => None
  end.

Definition evaluate_billing_refund_pair (db : billing_table) (billing : BillingRecord) (now : datetime)
    : res RefundPairEvaluation :=
  let original :=
    match duplicate_of billing with
    | Some d => if is_empty_str d then None
                else select_billing db d (tenant_id billing) (customer_id billing)
    | None => None
    end in
  evaluate_refund_pair (refund_charge_facts billing) (refund_charge_facts <$> original) now.

(** The probe and the locking read are two statements: [probe_db] is what the
    first sees, [db] what the second sees and locks. *)
Definition lock_and_evaluate_billing_refund_pair (probe_db db : billing_table)
    (tenant customer billing_id : string) (now : datetime)
    : res (option BillingRecord * option RefundPairEvaluation) :=
  match select_billing probe_db billing_id tenant customer with
  | None => Ok (None, None)
  | Some probe =>
      let related := match duplicate_of probe with
                     | Some d => if is_empty_str d then [] else [d]
                     | None => []
                     end in
      let identities := sorted_set (billing_id :: related) in
      let rows := omap (fun i => select_billing db i tenant customer) identities in
      let by_id i := find_first (fun r => billing_record_id r ==? i) rows in
      match by_id billing_id with
      | None => Ok (None, None)
      | Some target =>
          let original := by_id (default "" (duplicate_of target)) in
          let? e := evaluate_refund_pair (refund_charge_facts target) (refund_charge_facts <$> original) now in
          Ok (Some target, Some e)
      end
  end.

(** The proposal columns that hold the pair identity. *)
Record RefundBinding := mk_binding {
  refund_original_resource_id : option string;
  refund_original_version : option Z;
  refund_pair_hash : option string;
}.

Definition binding_eqb (a b : RefundBinding) : bool :=
  (refund_original_resource_id a ==? refund_original_resource_id b)
  && (refund_original_version a ==? refund_original_version b) && (refund_pair_hash a ==? refund_pair_hash b).

Definition bind_refund_pair_to_proposal (e : RefundPairEvaluation) : res RefundBinding :=
  match original e, pair_hash e with
  | Some o, Some h =>
      raise ValueError "refund_pair_is_not_eligible" when negb (eligible e) || is_empty_str h ;;
      Ok (mk_binding (Some (billing_record_id o)) (Some (version o)) (Some h))
  | _, _ => Err (ValueError "refund_pair_is_not_eligible")
  end.

Definition refund_pair_matches_proposal (e : RefundPairEvaluation) (p : RefundBinding) : bool :=
  match original e, pair_hash e with
  | Some o, Some h =>
      eligible e && negb (is_empty_str h)
      && (refund_original_resource_id p ==? Some (billing_record_id o))
      && (refund_original_version p ==? Some (version o))
      && (refund_pair_hash p ==? Some h)
  | _, _ => false
  end.

(** ** Lemmas *)
Lemma aware_utc_ok d u : _aware_utc d = Ok u -> u = utc (instant d).
Proof.
  unfold _aware_utc, is_naive. destruct (isNone (utcoffset d)) eqn:E.
  - intros [= <-]. unfold utc, instant. apply isNone_true in E. rewrite E. simpl. f_equal. lia.
  - intros H. steps_ok H. by simplify_eq.
Qed.

Lemma checks_eligible_true c :
  checks_eligible c = true <->
  same_scope c = true /\ explicit_relation c = true /\ both_charged c = true /\ same_amount c = true /\
  same_currency c = true /\ same_service_period c = true /\ within_application_window c = true.
Proof. unfold checks_eligible, forallb, id. rewrite !andb_true_iff. intuition. Qed.

Lemma evaluate_checks t o now e :
  evaluate_refund_pair t o now = Ok e ->
  target e = t /\ original e = o /\
  checks e = pair_checks t o (instant now) (instant (charged_at t))
               ((fun o => instant (charged_at o)) <$> o) /\
  (pair_hash e = None <-> o = None).
Proof.
  unfold evaluate_refund_pair. intros H. step_ok H. step_ok H.
  apply aware_utc_ok in Hstep as ->, Hstep0 as ->.
  destruct o as [o|].
  - steps_ok H. simplify_eq. steps_ok Hstep. apply aware_utc_ok in Hstep1 as ->. simplify_eq.
    steps_ok Hstep0. simplify_eq. rewrite ?instant_utc. by simpl.
  - simpl in H. simplify_eq. rewrite ?instant_utc. by simpl.
Qed.

(** A [datetime.date] object: a real calendar day of the years 1 to 9999. *)
Definition py_date (c : date) : Prop := valid_date c /\ 1 <= year c <= 9999.

Lemma date_isoformat_inj c c' : py_date c -> py_date c' -> date_isoformat c = date_isoformat c' -> c = c'.
Proof.
  intros [[Hm Hd] Hy] [[Hm' Hd'] Hy'] E. apply (f_equal String.list_ascii_of_string) in E.
  unfold date_isoformat in E. rewrite !list_ascii_string_of in E. unfold isoformat_date in E.
  pose proof (days_in_month_le (year c) (month c)). pose proof (days_in_month_le (year c') (month c')).
  apply app_inj_1 in E as [Ey E]; [|done]. apply app_inv_head in E. apply app_inj_1 in E as [Em E]; [|done].
  apply app_inv_head in E. apply (f_equal num) in Ey, Em, E.
  rewrite !num_pad4 in Ey by lia. rewrite !num_pad2 in Em, E by lia.
  destruct c, c'; simpl in *; congruence.
Qed.

(** The facts the snapshot of one charge records: every field, the charge
    time as an instant and the amount as a number. *)
Definition same_charge (a b : RefundChargeFacts) : Prop :=
  billing_record_id a = billing_record_id b /\ tenant_id a = tenant_id b /\ customer_id a = customer_id b /\
  decimal_eqb (amount a) (amount b) = true /\ currency a = currency b /\ status a = status b /\
  instant (charged_at a) = instant (charged_at b) /\ service_period_start a = service_period_start b /\
  service_period_end a = service_period_end b /\ version a = version b.

Definition facts_wf (a : RefundChargeFacts) : Prop :=
  py_date (service_period_start a) /\ py_date (service_period_end a).

Lemma charge_shape a l :
  charge a = Ok l ->
  exists d, amount a = Finite d /\ in_range (instant (charged_at a)) = true /\
  l = [(KeyStr "amount", OStr (project_finite d));
      (KeyStr "billing_record_id", OStr (billing_record_id a));
      (KeyStr "charged_at", OStr (isoformat_utc (instant (charged_at a))));
      (KeyStr "currency", OStr (currency a));
      (KeyStr "customer_id", OStr (customer_id a));
      (KeyStr "service_period_end", OStr (date_isoformat (service_period_end a)));
      (KeyStr "service_period_start", OStr (date_isoformat (service_period_start a)));
      (KeyStr "status", OStr (status a));
      (KeyStr "tenant_id", OStr (tenant_id a));
      (KeyStr "version", OInt (version a))].
Proof.
  unfold charge. intros H. steps_ok H. simplify_eq.
  apply aware_utc_ok in Hstep0 as ->. apply format_instant in Hstep1 as [Hr ->]. rewrite instant_utc in *.
  unfold canonical_decimal_string in Hstep. destruct (amount a) as [d|]; [|done]. simplify_eq. eauto.
Qed.

(** Two charge snapshots with equal content record the same facts. *)
Lemma charge_binds a b la lb extra extra' q q' c c' :
  charge a = Ok la -> charge b = Ok lb -> facts_wf a -> facts_wf b ->
  NoDup (map fst (lb ++ extra')) ->
  project q (OMapping (la ++ extra)) = Ok c -> project q' (OMapping (lb ++ extra')) = Ok c' -> norm c = norm c' ->
  same_charge a b.
Proof.
  intros Ha Hb [Wa1 Wa2] [Wb1 Wb2] Hnd Hp Hp' Hn.
  apply charge_shape in Ha as (da & Ea & Ra & ->), Hb as (db & Eb & Rb & ->).
  pose proof (fun k s s' => equal_content_str _ _ _ _ _ _ Hp Hp' Hn k s s' Hnd) as HS.
  pose proof (fun k z z' => equal_content_int _ _ _ _ _ _ Hp Hp' Hn k z z' Hnd) as HI.
  unfold same_charge. rewrite Ea, Eb. split_and!.
  - apply (HS "billing_record_id"); list_member.
  - apply (HS "tenant_id"); list_member.
  - apply (HS "customer_id"); list_member.
  - apply project_finite_inj, (HS "amount"); list_member.
  - apply (HS "currency"); list_member.
  - apply (HS "status"); list_member.
  - apply isoformat_utc_inj; [done..|]. apply (HS "charged_at"); list_member.
  - apply date_isoformat_inj; [done..|]. apply (HS "service_period_start"); list_member.
  - apply date_isoformat_inj; [done..|]. apply (HS "service_period_end"); list_member.
  - apply (HI "version"); list_member.
Qed.

Lemma eligible_conditions t o now e :
  evaluate_refund_pair t o now = Ok e ->
  eligible e = true <->
  exists orig, o = Some orig /\
    tenant_id t = tenant_id orig /\ customer_id t = customer_id orig /\
    billing_record_id t <> billing_record_id orig /\ duplicate_of t = Some (billing_record_id orig) /\
    status t = "charged" /\ status orig = "charged" /\
    decimal_eqb (amount t) (amount orig) = true /\ currency t = currency orig /\
    service_period_start t = service_period_start orig /\ service_period_end t = service_period_end orig /\
    date_ltb (service_period_start t) (service_period_end t) = true /\
    instant (charged_at orig) <= instant now /\ instant (charged_at t) <= instant now /\
    instant now - instant (charged_at t) <= 30 * day.
Proof.
  intros H. destruct (evaluate_checks _ _ _ _ H) as (_ & _ & Hc & Hh). unfold eligible. rewrite Hc.
  destruct o as [o|]; simpl.
  - assert (isSome (pair_hash e) = true) as ->
      by (apply isSome_true, not_eq_None_Some; intros E; by apply Hh in E).
    rewrite andb_true_r, checks_eligible_true. simpl. unfold REFUND_APPLICATION_WINDOW_DAYS. to_prop.
    split; [intros; exists o; intuition | intros (? & [= <-] & ?); intuition].
  - split; [done|]. by intros (? & ? & _).
Qed.

(** ** Properties *)

(** The policy decision.  An evaluation that returns is eligible exactly
    when an original charge exists and all documented conditions hold: same
    tenant and customer, an explicit link to a different record, both charged,
    numerically equal amounts, same currency, the same non-empty service
    period, both charges in the past and the target at most thirty days old. *)
Theorem eligible_iff_policy t o now e :
  evaluate_refund_pair t o now = Ok e ->
  eligible e = true <->
  exists orig, o = Some orig /\
    tenant_id t = tenant_id orig /\ customer_id t = customer_id orig /\
    billing_record_id t <> billing_record_id orig /\ duplicate_of t = Some (billing_record_id orig) /\
    status t = "charged" /\ status orig = "charged" /\
    decimal_eqb (amount t) (amount orig) = true /\ currency t = currency orig /\
    service_period_start t = service_period_start orig /\ service_period_end t = service_period_end orig /\
    date_ltb (service_period_start t) (service_period_end t) = true /\
    instant (charged_at orig) <= instant now /\ instant (charged_at t) <= instant now /\
    instant now - instant (charged_at t) <= 30 * day.
Proof. apply eligible_conditions. Qed.

Definition demo_charge (id : string) (dup : option string) (at_ : Z) : RefundChargeFacts :=
  mk_charge id "t1" "c1" (Finite (mk_decimal false 4900 (-2))) "USD" "charged" (utc at_)
    (mk_date 2026 7 1) (mk_date 2026 8 1) 1 dup.

Definition demo_evaluation : RefundPairEvaluation :=
  mk_evaluation (demo_charge "b2" (Some "b1") day) (Some (demo_charge "b1" None 0))
    (mk_checks true true true true true true true)
    (Some "2379519cbb206aeb6b5f503b6d2f08b6c90b7647cf9e734628952c0672ee73ba").

Lemma demo_evaluates :
  evaluate_refund_pair (demo_charge "b2" (Some "b1") day) (Some (demo_charge "b1" None 0)) (utc (31 * day))
  = Ok demo_evaluation.
Proof. vm_compute. reflexivity. Qed.

Lemma eligible_iff_policy_witness :
  eligible demo_evaluation = true <->
  exists orig, Some (demo_charge "b1" None 0) = Some orig /\
    tenant_id (target demo_evaluation) = tenant_id orig /\
    customer_id (target demo_evaluation) = customer_id orig /\
    billing_record_id (target demo_evaluation) <> billing_record_id orig /\
    duplicate_of (target demo_evaluation) = Some (billing_record_id orig) /\
    status (target demo_evaluation) = "charged" /\ status orig = "charged" /\
    decimal_eqb (amount (target demo_evaluation)) (amount orig) = true /\
    currency (target demo_evaluation) = currency orig /\
    service_period_start (target demo_evaluation) = service_period_start orig /\
    service_period_end (target demo_evaluation) = service_period_end orig /\
    date_ltb (service_period_start (target demo_evaluation)) (service_period_end (target demo_evaluation)) = true /\
    instant (charged_at orig) <= instant (utc (31 * day)) /\
    instant (charged_at (target demo_evaluation)) <= instant (utc (31 * day)) /\
    instant (utc (31 * day)) - instant (charged_at (target demo_evaluation)) <= 30 * day.
Proof. exact (eligible_iff_policy _ _ _ _ demo_evaluates). Defined.

Lemma failed_nil c : failed c = [] <-> checks_eligible c = true.
Proof. destruct c as [[] [] [] [] [] [] []]; split; done. Qed.

(** [failed] lists exactly the checks that are false, under the names
    [refund_pair_checks_payload] publishes them with, in the same order; it is
    empty exactly on an eligible set of checks. *)
Theorem failed_reports_checks (c : RefundPairChecks) :
  (forall name, name ∈ failed c <-> (name, false) ∈ refund_pair_checks_payload c) /\
  failed c `sublist_of` map fst (refund_pair_checks_payload c) /\
  (failed c = [] <-> checks_eligible c = true).
Proof.
  split; [|split].
  - intros name. unfold failed. fold (refund_pair_checks_payload c).
    generalize (refund_pair_checks_payload c). intros l. rewrite list_elem_of_fmap. split.
    + intros ([n b] & -> & Hin). apply list_elem_of_In, filter_In in Hin as [Hin Hb].
      apply list_elem_of_In. by destruct b.
    + intros Hin. exists (name, false). split; [done|]. apply list_elem_of_In, filter_In.
      by rewrite <- list_elem_of_In.
  - unfold failed. fold (refund_pair_checks_payload c). generalize (refund_pair_checks_payload c).
    induction l as [|[n []] l IH]; simpl; by constructor.
  - apply failed_nil.
Qed.

Lemma payload_binds t o t' o' p p' q q' c c' :
  facts_wf t -> facts_wf o -> facts_wf t' -> facts_wf o' ->
  refund_pair_payload t o = Ok p -> refund_pair_payload t' o' = Ok p' ->
  project q p = Ok c -> project q' p' = Ok c' -> norm c = norm c' ->
  same_charge t t' /\ same_charge o o' /\ duplicate_of t = duplicate_of t'.
Proof.
  intros Wt Wo Wt' Wo' Hp Hp' Hc Hc' Hn. unfold refund_pair_payload in *. steps_ok Hp. steps_ok Hp'. simplify_eq.
  pose proof (charge_shape _ _ Hstep1) as (d1 & _ & _ & E1). pose proof (charge_shape _ _ Hstep2) as (d2 & _ & _ & E2).
  pose proof (equal_content_member _ _ _ _ _ _ Hc Hc' Hn) as HM.
  destruct (HM "original" (OMapping a) (OMapping a1)) as (? & ? & ? & ? & P1 & P2 & N1);
    [apply (bool_decide_unpack _); reflexivity | list_member | list_member |].
  destruct (HM "target" _ _ ltac:(apply (bool_decide_unpack _); reflexivity)
              ltac:(do 2 apply list_elem_of_further; apply list_elem_of_here)
              ltac:(do 2 apply list_elem_of_further; apply list_elem_of_here))
    as (? & ? & ? & ? & P3 & P4 & N2).
  split_and!.
  - eapply charge_binds; try done. rewrite E2. apply (bool_decide_unpack _). reflexivity.
  - rewrite <- (app_nil_r a) in P1. rewrite <- (app_nil_r a1) in P2. eapply charge_binds; try done.
    rewrite E1. apply (bool_decide_unpack _). reflexivity.
  - destruct (equal_content_member _ _ _ _ _ _ P3 P4 N2 "duplicate_of"
       (match duplicate_of t with Some d => OStr d | None => ONone end)
       (match duplicate_of t' with Some d => OStr d | None => ONone end)) as (? & ? & ? & ? & P5 & P6 & N3).
    + rewrite E2. apply (bool_decide_unpack _). reflexivity.
    + apply elem_of_app. right. list_member.
    + apply elem_of_app. right. list_member.
    + destruct (duplicate_of t), (duplicate_of t'); simpl in P5, P6; steps_ok P5; steps_ok P6; by simplify_eq.
Qed.

Lemma evaluate_hash t o now e :
  evaluate_refund_pair t (Some o) now = Ok e ->
  exists p h, refund_pair_payload t o = Ok p /\ canonical_json_hash p = Ok h /\ pair_hash e = Some h.
Proof. unfold evaluate_refund_pair. intros H. steps_ok H. steps_ok Hstep2. simplify_eq. simpl. eauto. Qed.

Lemma hash_binds p p' h :
  canonical_json_hash p = Ok h -> canonical_json_hash p' = Ok h ->
  (exists c c', project "$" p = Ok c /\ project "$" p' = Ok c' /\ norm c = norm c') \/
  (exists a b, sha256_collision a b).
Proof. intros H H'. destruct (hash_binds_bytes p p' h H H') as [?|(? & ? & ? & ? & ?)]; eauto. Qed.

Lemma bind_ok e p :
  bind_refund_pair_to_proposal e = Ok p <->
  exists o h, original e = Some o /\ pair_hash e = Some h /\ eligible e = true /\ h <> "" /\
              p = mk_binding (Some (billing_record_id o)) (Some (version o)) (Some h).
Proof.
  unfold bind_refund_pair_to_proposal. destruct (original e) as [o|], (pair_hash e) as [h|]; try naive_solver.
  rewrite raise_if_ok. to_prop. naive_solver.
Qed.

Lemma matches_true e p :
  refund_pair_matches_proposal e p = true <->
  exists o h, original e = Some o /\ pair_hash e = Some h /\ eligible e = true /\ h <> "" /\
              p = mk_binding (Some (billing_record_id o)) (Some (version o)) (Some h).
Proof.
  unfold refund_pair_matches_proposal. destruct p as [i v k].
  destruct (original e) as [o|], (pair_hash e) as [h|]; try naive_solver.
  to_prop. simpl. naive_solver.
Qed.

(** The durable binding.  A proposal bound from one evaluation is matched
    by a later evaluation only if that one is eligible too and records the
    same facts for both charges: every field, the charge instants and the
    amounts; the alternative is an explicit SHA-256 collision. *)
Theorem binding_pins_facts t o now e p t' o' now' e' :
  facts_wf t -> facts_wf t' -> (forall x, o = Some x -> facts_wf x) -> (forall x, o' = Some x -> facts_wf x) ->
  evaluate_refund_pair t o now = Ok e -> bind_refund_pair_to_proposal e = Ok p ->
  evaluate_refund_pair t' o' now' = Ok e' -> refund_pair_matches_proposal e' p = true ->
  eligible e' = true /\
  ((exists x x', o = Some x /\ o' = Some x' /\ same_charge t t' /\ same_charge x x' /\
                 duplicate_of t = duplicate_of t') \/
   (exists a b, sha256_collision a b)).
Proof.
  intros Wt Wt' Wo Wo' He Hb He' Hm.
  apply bind_ok in Hb as (x & h & Ho & Hh & El & _ & ->). apply matches_true in Hm as (x' & h' & Ho' & Hh' & El' & _ & E).
  injection E as E1 E2 <-. split; [done|].
  pose proof (evaluate_checks _ _ _ _ He) as (_ & Eo & _). pose proof (evaluate_checks _ _ _ _ He') as (_ & Eo' & _).
  rewrite Ho in Eo. rewrite Ho' in Eo'. subst o o'.
  apply evaluate_hash in He as (pl & k & Hp & Hk & ?), He' as (pl' & k' & Hp' & Hk' & ?). simplify_eq.
  destruct (hash_binds _ _ _ Hk Hk') as [(c & c' & Hc & Hc' & Hn)|]; [left|by right].
  destruct (payload_binds _ _ _ _ _ _ _ _ _ _ Wt (Wo _ eq_refl) Wt' (Wo' _ eq_refl) Hp Hp' Hc Hc' Hn)
    as (? & ? & ?). eauto 10.
Qed.

Definition demo_binding : RefundBinding :=
  mk_binding (Some "b1") (Some 1) (pair_hash demo_evaluation).

Lemma demo_wf id dup at_ : facts_wf (demo_charge id dup at_).
Proof. unfold facts_wf, py_date, valid_date. simpl. repeat split; vm_compute; congruence. Qed.

Lemma binding_pins_facts_witness :
  let t := demo_charge "b2" (Some "b1") day in let o := Some (demo_charge "b1" None 0) in
  eligible demo_evaluation = true /\
  ((exists x x', o = Some x /\ o = Some x' /\ same_charge t t /\ same_charge x x' /\
                 duplicate_of t = duplicate_of t) \/
   (exists a b, sha256_collision a b)).
Proof.
  apply (binding_pins_facts _ _ (utc (31 * day)) demo_evaluation demo_binding _ _ (utc (31 * day)));
    try apply demo_wf; try apply demo_evaluates; try reflexivity; intros x [= <-]; apply demo_wf.
Defined.

(** Binding is the inverse of matching: an eligible evaluation can always
    be bound, and the bound proposal matches it; an ineligible one can be
    neither bound nor matched by any proposal. *)
Theorem bind_then_matches t o now e :
  evaluate_refund_pair t o now = Ok e ->
  if eligible e
  then exists p, bind_refund_pair_to_proposal e = Ok p /\ refund_pair_matches_proposal e p = true
  else bind_refund_pair_to_proposal e = Err (ValueError "refund_pair_is_not_eligible") /\
       forall p, refund_pair_matches_proposal e p = false.
Proof.
  intros He. destruct (eligible e) eqn:El.
  - destruct (proj1 (eligible_conditions _ _ _ _ He) El) as (x & -> & _).
    pose proof (evaluate_checks _ _ _ _ He) as (_ & Eo & _).
    apply evaluate_hash in He as (pl & h & Hp & Hh & Hk).
    exists (mk_binding (Some (billing_record_id x)) (Some (version x)) (Some h)).
    assert (h <> "") by (eapply canonical_json_hash_nonempty; done).
    split; [apply bind_ok|apply matches_true]; eauto 10.
  - unfold bind_refund_pair_to_proposal, refund_pair_matches_proposal. rewrite El.
    destruct (original e), (pair_hash e); done.
Qed.
Lemma bind_then_matches_witness :
  exists p, bind_refund_pair_to_proposal demo_evaluation = Ok p /\
            refund_pair_matches_proposal demo_evaluation p = true.
Proof. exact (bind_then_matches _ _ _ _ demo_evaluates). Defined.

(** ** The locked re-read *)
Definition table_wf (db : billing_table) : Prop := forall i r, db !! i = Some r -> billing_record_id r = i.

Lemma select_billing_some db i tn c r :
  select_billing db i tn c = Some r <-> db !! i = Some r /\ tenant_id r = tn /\ customer_id r = c.
Proof.
  unfold select_billing. destruct (db !! i) as [r'|]; [|naive_solver].
  destruct ((_ ==? _) && (_ ==? _)) eqn:E; to_prop; naive_solver.
Qed.

(** Indexing the locked rows by id is a lookup in the locked snapshot. *)
Lemma by_id_lookup db ids tn c i :
  table_wf db ->
  find_first (fun r => billing_record_id r ==? i) (omap (fun j => select_billing db j tn c) ids)
  = if i in? ids then select_billing db i tn c else None.
Proof.
  intros Hwf. destruct (i in? ids) eqn:Hi; to_prop.
  - destruct (select_billing db i tn c) as [r|] eqn:E.
    + destruct (find_first _ _) as [r'|] eqn:F.
      * apply find_first_some in F as [Hr Hid]. to_prop.
        apply list_elem_of_omap in Hr as (j & _ & Hj). apply select_billing_some in Hj as (Hj & _), E as (E & _).
        apply Hwf in Hj as Hj'. congruence.
      * rewrite find_first_none in F. specialize (F r). apply select_billing_some in E as E'.
        rewrite (proj2 (eqb_true _ _) (Hwf _ _ (proj1 E'))) in F. discriminate F.
        apply list_elem_of_omap. eauto.
    + apply find_first_none. intros r (j & _ & Hj)%list_elem_of_omap. apply eqb_false. intros <-.
      apply select_billing_some in Hj as Hj'. rewrite <- (Hwf _ _ (proj1 Hj')) in Hj. congruence.
  - apply find_first_none. intros r (j & Hj & Hs)%list_elem_of_omap. apply eqb_false. intros <-.
    apply select_billing_some in Hs as [Hs _]. apply Hwf in Hs. congruence.
Qed.

(** The returned row is the locked row. *)
Lemma lock_target probe_db db tn c i now r e :
  table_wf db -> lock_and_evaluate_billing_refund_pair probe_db db tn c i now = Ok (Some r, e) ->
  select_billing db i tn c = Some r.
Proof.
  intros Hwf H. unfold lock_and_evaluate_billing_refund_pair in H. destruct (select_billing probe_db i tn c); [|done].
  rewrite by_id_lookup in H by done. destruct (i in? _); [|done]. destruct (select_billing db i tn c); [|done].
  steps_ok H. by simplify_eq.
Qed.

(** The locking re-read evaluates exactly what it locked.  Whatever other
    transactions wrote between the probe and the lock, the returned target is
    the current row of the requested tenant and customer, the evaluation is
    of that row, and an eligible evaluation is the one
    [evaluate_billing_refund_pair] computes from the locked snapshot. *)
Theorem lock_and_evaluate_sound probe_db db tn c i now r e :
  table_wf db ->
  lock_and_evaluate_billing_refund_pair probe_db db tn c i now = Ok (Some r, Some e) ->
  select_billing db i tn c = Some r /\ target e = r /\
  (forall o, original e = Some o -> select_billing db (billing_record_id o) tn c = Some o) /\
  (eligible e = true -> evaluate_billing_refund_pair db r now = Ok e).
Proof.
  intros Hwf H. unfold lock_and_evaluate_billing_refund_pair in H.
  destruct (select_billing probe_db i tn c) as [probe|]; [|done].
  set (ids := sorted_set _) in H. rewrite by_id_lookup in H by done.
  destruct (i in? ids); [|done]. destruct (select_billing db i tn c) as [t|] eqn:Et; [|done].
  rewrite by_id_lookup in H by done. steps_ok H. simplify_eq.
  assert (forall x, refund_charge_facts x = x) as Hid by (by intros []).
  rewrite Hid in Hstep. set (k := default "" (duplicate_of r)) in *.
  pose proof (evaluate_checks _ _ _ _ Hstep) as (Ht & Ho & _).
  assert (forall o, original e = Some o ->
            k ∈ ids /\ select_billing db k tn c = Some o /\ billing_record_id o = k) as Hor.
  { intros o E. rewrite E in Ho. destruct (k in? ids) eqn:Hk; [|done]. to_prop.
    destruct (select_billing db k tn c) as [o'|] eqn:Es; [|done]. simpl in Ho. rewrite Hid in Ho.
    simplify_eq. split_and!; [done..|]. apply select_billing_some in Es as [Es _]. by apply Hwf. }
  split_and!; [done | done | intros o E; destruct (Hor o E) as (_ & ? & ->); done |].
  intros El. destruct (proj1 (eligible_conditions _ _ _ _ Hstep) El) as (x & Ex & Etn & Ec & Hne & Ed & _).
  rewrite Ex in Hstep, Ho. destruct (Hor x Ho) as (Hk & Hs & Hb).
  apply select_billing_some in Et as (Et & E1 & E2). apply Hwf in Et.
  assert (billing_record_id x <> "") as Hnz.
  { intros E. rewrite Hb in E. unfold ids in Hk. rewrite elem_of_sorted_set, E in Hk.
    apply elem_of_cons in Hk as [<-|Hk]; [congruence|].
    destruct (duplicate_of probe) as [[]|]; simpl in Hk; set_solver. }
  unfold evaluate_billing_refund_pair. rewrite Ed, Hid.
  rewrite (proj2 (is_empty_str_false _) Hnz), E1, E2, Hb, Hs. simpl. by rewrite Hid.
Qed.

Definition demo_table : billing_table :=
  <["b1" := demo_charge "b1" None 0]> (<["b2" := demo_charge "b2" (Some "b1") day]> ∅).
Lemma demo_table_wf : table_wf demo_table.
Proof.
  intros i r. unfold demo_table. rewrite !lookup_insert_Some, lookup_empty.
  intros [[<- <-]|[_ [[<- <-]|[_ ?]]]]; done.
Qed.
Lemma lock_and_evaluate_sound_witness :
  let r := demo_charge "b2" (Some "b1") day in
  select_billing demo_table "b2" "t1" "c1" = Some r /\ target demo_evaluation = r /\
  (forall o, original demo_evaluation = Some o ->
     select_billing demo_table (billing_record_id o) "t1" "c1" = Some o) /\
  (eligible demo_evaluation = true ->
   evaluate_billing_refund_pair demo_table r (utc (31 * day)) = Ok demo_evaluation).
Proof.
  apply (lock_and_evaluate_sound demo_table _ _ _ _ (utc (31 * day))); [apply demo_table_wf|].
  vm_compute. reflexivity.
Defined.
