(* ===== verification/ActionSpecs.v ===== *)
(** * Action specifications (actions/service.py, contracts/action_preconditions.py)

    The declarative contract of every state-changing action: the evidence a
    proposal needs, how its arguments are bound, which business states end it,
    and the capabilities it maps to.  Pydantic's model validators are functions
    into [res]; the registry is the source's, and passes all of them. *)
From S2P Require Import Prelude PyValue.
Local Open Scope string_scope.
Local Open Scope list_scope.
Local Open Scope Z_scope.

(** ** Enumerations *)
Inductive ActionType := Refund | ApiKeyRevocation | EntitlementChange.
Inductive ObligationKind := Resource | Knowledge | Usage.
Inductive ProposalFieldSource := FromAdmission | FromObservation | FromRequestReason.
Inductive TerminalOutcomeClass := ActionIneligible | ResourceNotAvailable.
Inductive TerminalOutcomePredicate :=
| ObservationStatusIn
| ResourceStatusNotAllowed
| ObservationFieldFalsy
| AdmissionNotInObservation
| AdmissionEqualsObservation.
(** The Pydantic model a [proposal_schema] names. *)
Inductive ProposalSchema :=
| RefundProposalArguments
| ApiKeyRevocationProposalArguments
| EntitlementChangeProposalArguments.

#[export] Instance ActionType_eq_dec : EqDecision ActionType.
Proof. solve_decision. Defined.
#[export] Instance ObligationKind_eq_dec : EqDecision ObligationKind.
Proof. solve_decision. Defined.
#[export] Instance ProposalFieldSource_eq_dec : EqDecision ProposalFieldSource.
Proof. solve_decision. Defined.
#[export] Instance TerminalOutcomeClass_eq_dec : EqDecision TerminalOutcomeClass.
Proof. solve_decision. Defined.
#[export] Instance TerminalOutcomePredicate_eq_dec : EqDecision TerminalOutcomePredicate.
Proof. solve_decision. Defined.
#[export] Instance ProposalSchema_eq_dec : EqDecision ProposalSchema.
Proof. solve_decision. Defined.

Definition action_type_str (a : ActionType) : string :=
  match a with
  | Refund => "refund"
  | ApiKeyRevocation => "api_key_revocation"
  | EntitlementChange => "entitlement_change"
  end.
Lemma action_type_str_inj a b : action_type_str a = action_type_str b -> a = b.
Proof. by destruct a, b. Qed.

(** ** Proposal argument schemas *)

(** [x: str = Field(min_length=lo, max_length=hi)] *)
Definition str_field (lo hi : Z) (v : option pyval) : res string :=
  match v with
  | Some (PyStr s) =>
      raise ValidationError "string length" when (py_len s <? lo) || (hi <? py_len s) ;; Ok s
  | Some _ => Err (ValidationError "string type")
  | None => Err (ValidationError "field required")
  end.

(** [x: int | None = Field(default=None, strict=True, ge=lo, le=hi)] *)
Definition strict_int_field (lo hi : Z) (v : option pyval) : res (option Z) :=
  match v with
  | None | Some PyNone => Ok None
  | Some (PyInt z) => raise ValidationError "integer bound" when (z <? lo) || (hi <? z) ;; Ok (Some z)
  | Some _ => Err (ValidationError "integer type")
  end.

(** [QuotaChangeTarget], dumped with [exclude_none]. *)
Definition QuotaChangeTarget (d : pydict) : res pydict :=
  raise ValidationError "extra field" when negb (forbid_extra ["rpm_limit"; "concurrency_limit"] d) ;;
  let? rpm := strict_int_field 1 10000000 (dget "rpm_limit" d) in
  let? concurrency := strict_int_field 1 100000 (dget "concurrency_limit" d) in
  match rpm, concurrency with
  | Some z, None => Ok [("rpm_limit", PyInt z)]
  | None, Some z => Ok [("concurrency_limit", PyInt z)]
  | _, _ => Err (ValidationError "quota_change requires exactly one non-null target")
  end.

Definition PlanChangeTarget (d : pydict) : res pydict :=
  raise ValidationError "extra field" when negb (forbid_extra ["plan"] d) ;;
  let? plan := str_field 1 64 (dget "plan" d) in
  Ok [("plan", PyStr plan)].

Definition validate_entitlement_target (change_type : string) (target : pyval) : res pydict :=
  match target with
  | PyDict d => if change_type ==? "quota_change" then QuotaChangeTarget d else PlanChangeTarget d
  | _ => Err (ValidationError "target type")
  end.

(** [RefundProposalArguments] *)
Definition refund_arguments (d : pydict) : res pydict :=
  raise ValidationError "extra field" when negb (forbid_extra ["billing_record_id"; "refund_reason"] d) ;;
  let? id := str_field 1 64 (dget "billing_record_id" d) in
  let? reason := str_field 5 2000 (dget "refund_reason" d) in
  Ok [("billing_record_id", PyStr id); ("refund_reason", PyStr reason)].

(** [ApiKeyRevocationProposalArguments] *)
Definition api_key_arguments (d : pydict) : res pydict :=
  raise ValidationError "extra field" when negb (forbid_extra ["api_key_id"; "reason"] d) ;;
  let? id := str_field 1 128 (dget "api_key_id" d) in
  let? reason := str_field 5 2000 (dget "reason" d) in
  Ok [("api_key_id", PyStr id); ("reason", PyStr reason)].

(** [EntitlementChangeProposalArguments] *)
Definition entitlement_arguments (d : pydict) : res pydict :=
  raise ValidationError "extra field"
    when negb (forbid_extra ["subscription_id"; "change_type"; "target"; "reason"] d) ;;
  let? id := str_field 1 128 (dget "subscription_id" d) in
  match dget "change_type" d with
  | Some (PyStr change_type) =>
      raise ValidationError "literal" when negb (change_type in? ["quota_change"; "plan_change"]) ;;
      match dget "target" d with
      | Some (PyDict target) =>
          raise ValidationError "dictionary length" when is_nil target ;;
          let? reason := str_field 5 2000 (dget "reason" d) in
          let? target := validate_entitlement_target change_type (PyDict target) in
          Ok [("subscription_id", PyStr id); ("change_type", PyStr change_type);
              ("target", PyDict target); ("reason", PyStr reason)]
      | _ => Err (ValidationError "dictionary type")
      end
  | _ => Err (ValidationError "literal")
  end.

(** [spec.proposal_schema.model_validate(arguments)] *)
Definition model_validate (schema : ProposalSchema) (arguments : pydict) : res pydict :=
  match schema with
  | RefundProposalArguments => refund_arguments arguments
  | ApiKeyRevocationProposalArguments => api_key_arguments arguments
  | EntitlementChangeProposalArguments => entitlement_arguments arguments
  end.

(** ** Specification records *)
Record EvidenceObligationSpec := {
  obligation_id : string;
  kind : ObligationKind;
  capabilities : list string;
  required_data_fields : list string;
  required_truthy_data_fields : list string;
  resource_ref_argument : option string;
  observed_resource_field : option string;
  allowed_resource_statuses : list string;
  require_freshness : bool;
  policy_family : option string;
  topic : option string;
  allowed_document_keys : list string;
  allowed_document_types : list string;
  allowed_section_terms : list string;
  minimum_version : option string;
}.

Definition validate_kind_contract (o : EvidenceObligationSpec) : res unit :=
  raise ValueError "truthy resource fields must also be required"
    when existsb (fun f => negb (f in? required_data_fields o)) (required_truthy_data_fields o) ;;
  let constraints := [truthy_opt (policy_family o); truthy_opt (topic o);
                      negb (is_nil (allowed_document_keys o)); negb (is_nil (allowed_document_types o));
                      negb (is_nil (allowed_section_terms o)); truthy_opt (minimum_version o)] in
  if kind o ==? Knowledge then
    raise ValueError "knowledge obligation requires a frozen retrieval contract"
      when negb (forallb id constraints) || (capabilities o !=? ["search_knowledge"]) ;;
    Ok tt
  else
    raise ValueError "only knowledge obligations accept retrieval constraints"
      when existsb id constraints ;;
    Ok tt.

(** The [Field] bounds together with the validator. *)
Definition validate_obligation (o : EvidenceObligationSpec) : res unit :=
  raise ValidationError "obligation_id"
    when (py_len (obligation_id o) <? 1) || (64 <? py_len (obligation_id o)) ;;
  raise ValidationError "capabilities" when is_nil (capabilities o) ;;
  validate_kind_contract o.

Record ActionErrorCodes := { missing : string; stale : string; conflict : string; terminal : string }.

Record ProposalFieldBinding := mk_field {
  target_field : string;
  source : ProposalFieldSource;
  source_path : string;
  binding_obligation_id : option string;
}.

Definition validate_observation_binding (b : ProposalFieldBinding) : res unit :=
  raise ValueError "observation proposal fields require one obligation"
    when negb (Bool.eqb (source b ==? FromObservation) (isSome (binding_obligation_id b))) ;;
  Ok tt.

Record TerminalOutcomeRule := {
  outcome_code : string;
  terminal_class : TerminalOutcomeClass;
  rule_obligation_id : string;
  predicate : TerminalOutcomePredicate;
  observation_field : option string;
  admission_path : option string;
  match_values : list string;
  public_observation_fields : list string;
  public_admission_paths : list string;
  customer_message_key : string;
  recommended_next_step : string;
  require_business_source : bool;
}.

Definition terminal_outcome_message_keys : list string :=
  ["refund_resource_not_available"; "refund_status_not_actionable"; "refund_duplicate_relation_unconfirmed";
   "api_key_resource_not_available"; "api_key_status_not_actionable"; "subscription_resource_not_available";
   "subscription_status_not_actionable"; "entitlement_target_unsupported"; "entitlement_target_noop"].

Definition validate_predicate_shape (r : TerminalOutcomeRule) : res unit :=
  let? _ :=
    match predicate r with
    | ObservationStatusIn =>
        raise ValueError "observation-status rule requires only match_values"
          when is_nil (match_values r) || truthy_opt (observation_field r) || truthy_opt (admission_path r) ;;
        Ok tt
    | ResourceStatusNotAllowed =>
        raise ValueError "resource-status rule requires the status field"
          when (observation_field r !=? Some "status") || truthy_opt (admission_path r) ;;
        Ok tt
    | ObservationFieldFalsy =>
        raise ValueError "field-falsy rule requires one observation field"
          when negb (truthy_opt (observation_field r)) || truthy_opt (admission_path r) ;;
        Ok tt
    | AdmissionNotInObservation | AdmissionEqualsObservation =>
        raise ValueError "admission comparison requires both field paths"
          when negb (truthy_opt (observation_field r)) || negb (truthy_opt (admission_path r)) ;;
        Ok tt
    end in
  raise ValueError "resource-not-available must not invent a business source"
    when (terminal_class r ==? ResourceNotAvailable) && require_business_source r ;;
  Ok tt.

Definition len_between (lo hi : Z) (s : string) : bool := (lo <=? py_len s) && (py_len s <=? hi).

Definition validate_rule (r : TerminalOutcomeRule) : res unit :=
  raise ValidationError "terminal outcome field"
    when negb (len_between 1 100 (outcome_code r) && len_between 1 64 (rule_obligation_id r)
               && len_between 1 100 (recommended_next_step r)
               && (customer_message_key r in? terminal_outcome_message_keys)) ;;
  validate_predicate_shape r.

Record ActionSpec := {
  action_type : ActionType;
  issue_type : string;
  admission_required_fields : list string;
  obligations : list EvidenceObligationSpec;
  proposal_action : string;
  proposal_schema_name : string;
  proposal_schema : ProposalSchema;
  policy_capability : string;
  runtime_effect_capability : string;
  proposal_fields : list ProposalFieldBinding;
  terminal_outcomes : list TerminalOutcomeRule;
  clarification_fields : list string;
  error_codes : ActionErrorCodes;
}.

(** The members of [spec.obligations] that observe a business resource. *)
Definition resource_obligations (spec : ActionSpec) : list EvidenceObligationSpec :=
  List.filter (fun o => (kind o ==? Resource) && isSome (observed_resource_field o)) (obligations spec).

Definition has_dups (l : list string) : bool := negb (bool_decide (NoDup l)).

Definition validate_unique_obligations (spec : ActionSpec) : res unit :=
  let obligation_ids := map obligation_id (obligations spec) in
  raise ValueError "ActionSpec obligation IDs must be unique" when has_dups obligation_ids ;;
  raise ValueError "ActionSpec proposal target fields must be unique"
    when has_dups (map target_field (proposal_fields spec)) ;;
  raise ValueError "proposal field references an unknown obligation"
    when existsb (fun b => match binding_obligation_id b with
                           | Some i => negb (i in? obligation_ids)
                           | None => false
                           end) (proposal_fields spec) ;;
  raise ValueError "terminal outcome references an unknown obligation"
    when existsb (fun r => negb (rule_obligation_id r in? obligation_ids)) (terminal_outcomes spec) ;;
  raise ValueError "terminal outcome codes must be unique"
    when has_dups (map outcome_code (terminal_outcomes spec)) ;;
  raise ValueError "proposal schema identity must match the proposal action"
    when proposal_schema_name spec !=? proposal_action spec ;;
  match resource_obligations spec with
  | [resource] =>
      raise ValueError "resource obligation requires exactly one read capability"
        when negb (Nat.eqb (length (capabilities resource)) 1) ;;
      raise ValueError "resource obligation must bind the proposal resource field"
        when negb (existsb (fun b =>
               (source b ==? FromObservation)
               && (binding_obligation_id b ==? Some (obligation_id resource))
               && (Some (target_field b) ==? observed_resource_field resource)
               && (Some (source_path b) ==? observed_resource_field resource)) (proposal_fields spec)) ;;
      Ok tt
  | _ => Err (ValueError "ActionSpec requires exactly one resource obligation")
  end.

Definition action_issue_types : list string := ["billing_refund"; "credential_security"; "entitlement_change"].
Definition proposal_actions : list string :=
  ["refund_proposal"; "api_key_revocation_proposal"; "entitlement_change_proposal"].
Definition policy_capabilities : list string :=
  ["propose_refund"; "propose_api_key_revocation"; "propose_entitlement_change"].
Definition runtime_effect_capabilities : list string :=
  ["execute_refund"; "execute_api_key_revocation"; "execute_entitlement_change"].

(** Constructing an [ActionSpec]: its members' validators, the field types and
    bounds, then its own validator. *)
Definition validate_action_spec (spec : ActionSpec) : res unit :=
  let? _ := map_res validate_obligation (obligations spec) in
  let? _ := map_res validate_observation_binding (proposal_fields spec) in
  let? _ := map_res validate_rule (terminal_outcomes spec) in
  raise ValidationError "action spec field"
    when is_nil (admission_required_fields spec) || is_nil (obligations spec)
         || is_nil (proposal_fields spec) || is_nil (terminal_outcomes spec)
         || is_nil (clarification_fields spec)
         || negb (issue_type spec in? action_issue_types)
         || negb (proposal_action spec in? proposal_actions)
         || negb (proposal_schema_name spec in? proposal_actions)
         || negb (policy_capability spec in? policy_capabilities)
         || negb (runtime_effect_capability spec in? runtime_effect_capabilities) ;;
  validate_unique_obligations spec.

(** [ActionSpec.resource_obligation]: [next] over the generator raises
    [StopIteration] when there is none. *)
Definition resource_obligation (spec : ActionSpec) : res EvidenceObligationSpec :=
  match find_first (fun o => (kind o ==? Resource) && isSome (observed_resource_field o)) (obligations spec) with
  | Some o => Ok o
  | None => Err (RuntimeError "StopIteration")
  end.

Definition resource_field (spec : ActionSpec) : res string :=
  let? o := resource_obligation spec in
  match observed_resource_field o with
  | Some f => Ok f
  | None => Err (ValueError "resource obligation is missing its observed field")
  end.

Definition primary_read_capability (spec : ActionSpec) : res string :=
  let? o := resource_obligation spec in
  match capabilities o with
  | c :: _ => Ok c
  | [] => Err (RuntimeError "IndexError")
  end.

(** ** The registry *)
Definition _COMMON_ERROR_CODES : ActionErrorCodes := {|
  missing := "action_evidence_missing";
  stale := "action_evidence_stale";
  conflict := "action_evidence_conflict";
  terminal := "action_evidence_invalid";
|}.

Definition billing_record_current : EvidenceObligationSpec := {|
  obligation_id := "billing_record_current";
  kind := Resource;
  capabilities := ["query_billing_record"];
  required_data_fields := ["billing_record_id"; "amount"; "currency"; "status"; "charged_at";
    "service_period_start"; "service_period_end"; "duplicate_of"; "version";
    "original_billing_record_id"; "original_amount"; "original_currency"; "original_status";
    "original_charged_at"; "original_service_period_start"; "original_service_period_end";
    "original_version"; "duplicate_pair_eligible"; "refund_pair_hash"];
  required_truthy_data_fields := ["duplicate_of"; "original_billing_record_id";
    "duplicate_pair_eligible"; "refund_pair_hash"];
  resource_ref_argument := Some "billing_record_id";
  observed_resource_field := Some "billing_record_id";
  allowed_resource_statuses := ["charged"];
  require_freshness := true;
  policy_family := None;
  topic := None;
  allowed_document_keys := [];
  allowed_document_types := [];
  allowed_section_terms := [];
  minimum_version := None;
|}.

Definition refund_policy_current : EvidenceObligationSpec := {|
  obligation_id := "refund_policy_current";
  kind := Knowledge;
  capabilities := ["search_knowledge"];
  required_data_fields := ["evidence"; "index_version"];
  required_truthy_data_fields := [];
  resource_ref_argument := None;
  observed_resource_field := None;
  allowed_resource_statuses := [];
  require_freshness := false;
  policy_family := Some "billing-refunds";
  topic := Some "duplicate-charge-refund";
  allowed_document_keys := ["billing-refunds-v3"];
  allowed_document_types := ["official_policy"];
  allowed_section_terms := ["退款"; "重复扣费"; "审批"];
  minimum_version := Some "3.1";
|}.

Definition refund_spec : ActionSpec := {|
  action_type := Refund;
  issue_type := "billing_refund";
  admission_required_fields := ["billing_record_id"];
  obligations := [billing_record_current; refund_policy_current];
  proposal_action := "refund_proposal";
  proposal_schema_name := "refund_proposal";
  proposal_schema := RefundProposalArguments;
  policy_capability := "propose_refund";
  runtime_effect_capability := "execute_refund";
  proposal_fields := [
    mk_field "billing_record_id" FromObservation "billing_record_id" (Some "billing_record_current");
    mk_field "refund_reason" FromRequestReason "request_reason" None];
  terminal_outcomes := [
    {|
      outcome_code := "refund_resource_not_available";
      terminal_class := ResourceNotAvailable;
      rule_obligation_id := "billing_record_current";
      predicate := ObservationStatusIn;
      observation_field := None;
      admission_path := None;
      match_values := ["not_found"];
      public_observation_fields := [];
      public_admission_paths := [];
      customer_message_key := "refund_resource_not_available";
      recommended_next_step := "verify_billing_reference";
      require_business_source := false |};
    {|
      outcome_code := "refund_status_not_actionable";
      terminal_class := ActionIneligible;
      rule_obligation_id := "billing_record_current";
      predicate := ResourceStatusNotAllowed;
      observation_field := Some "status";
      admission_path := None;
      match_values := [];
      public_observation_fields := ["billing_record_id"; "status"];
      public_admission_paths := [];
      customer_message_key := "refund_status_not_actionable";
      recommended_next_step := "review_existing_refund";
      require_business_source := true |};
    {|
      outcome_code := "refund_duplicate_relation_unconfirmed";
      terminal_class := ActionIneligible;
      rule_obligation_id := "billing_record_current";
      predicate := ObservationFieldFalsy;
      observation_field := Some "duplicate_pair_eligible";
      admission_path := None;
      match_values := [];
      public_observation_fields := ["billing_record_id"; "status"; "duplicate_of";
        "duplicate_pair_eligible"];
      public_admission_paths := [];
      customer_message_key := "refund_duplicate_relation_unconfirmed";
      recommended_next_step := "verify_duplicate_billing_reference";
      require_business_source := true |}];
  clarification_fields := ["billing_record_id"];
  error_codes := _COMMON_ERROR_CODES;
|}.

Definition api_key_metadata_current : EvidenceObligationSpec := {|
  obligation_id := "api_key_metadata_current";
  kind := Resource;
  capabilities := ["query_api_key_metadata"];
  required_data_fields := ["api_key_id"; "fingerprint"; "status"; "version"; "last_used_summary"];
  required_truthy_data_fields := [];
  resource_ref_argument := Some "api_key_ref";
  observed_resource_field := Some "api_key_id";
  allowed_resource_statuses := ["active"];
  require_freshness := true;
  policy_family := None;
  topic := None;
  allowed_document_keys := [];
  allowed_document_types := [];
  allowed_section_terms := [];
  minimum_version := None;
|}.

Definition api_key_revocation_policy_current : EvidenceObligationSpec := {|
  obligation_id := "api_key_revocation_policy_current";
  kind := Knowledge;
  capabilities := ["search_knowledge"];
  required_data_fields := ["evidence"; "index_version"];
  required_truthy_data_fields := [];
  resource_ref_argument := None;
  observed_resource_field := None;
  allowed_resource_statuses := [];
  require_freshness := false;
  policy_family := Some "api-key-security";
  topic := Some "api-key-revocation";
  allowed_document_keys := ["api-key-incident-v1"; "authentication-security-v3"];
  allowed_document_types := ["security_policy"];
  allowed_section_terms := ["撤销"; "密钥"; "Secret"; "轮换"];
  minimum_version := Some "1.0";
|}.

Definition api_key_revocation_spec : ActionSpec := {|
  action_type := ApiKeyRevocation;
  issue_type := "credential_security";
  admission_required_fields := ["api_key_ref"];
  obligations := [api_key_metadata_current; api_key_revocation_policy_current];
  proposal_action := "api_key_revocation_proposal";
  proposal_schema_name := "api_key_revocation_proposal";
  proposal_schema := ApiKeyRevocationProposalArguments;
  policy_capability := "propose_api_key_revocation";
  runtime_effect_capability := "execute_api_key_revocation";
  proposal_fields := [
    mk_field "api_key_id" FromObservation "api_key_id" (Some "api_key_metadata_current");
    mk_field "reason" FromRequestReason "request_reason" None];
  terminal_outcomes := [
    {|
      outcome_code := "api_key_resource_not_available";
      terminal_class := ResourceNotAvailable;
      rule_obligation_id := "api_key_metadata_current";
      predicate := ObservationStatusIn;
      observation_field := None;
      admission_path := None;
      match_values := ["not_found"];
      public_observation_fields := [];
      public_admission_paths := [];
      customer_message_key := "api_key_resource_not_available";
      recommended_next_step := "verify_key_reference";
      require_business_source := false |};
    {|
      outcome_code := "api_key_status_not_actionable";
      terminal_class := ActionIneligible;
      rule_obligation_id := "api_key_metadata_current";
      predicate := ResourceStatusNotAllowed;
      observation_field := Some "status";
      admission_path := None;
      match_values := [];
      public_observation_fields := ["api_key_id"; "status"];
      public_admission_paths := [];
      customer_message_key := "api_key_status_not_actionable";
      recommended_next_step := "review_key_status";
      require_business_source := true |}];
  clarification_fields := ["api_key_ref"];
  error_codes := _COMMON_ERROR_CODES;
|}.

Definition subscription_current : EvidenceObligationSpec := {|
  obligation_id := "subscription_current";
  kind := Resource;
  capabilities := ["query_subscription"];
  required_data_fields := ["subscription_id"; "plan"; "status"; "rpm_limit"; "concurrency_limit";
    "catalog_eligibility"; "version"];
  required_truthy_data_fields := [];
  resource_ref_argument := None;
  observed_resource_field := Some "subscription_id";
  allowed_resource_statuses := ["active"];
  require_freshness := true;
  policy_family := None;
  topic := None;
  allowed_document_keys := [];
  allowed_document_types := [];
  allowed_section_terms := [];
  minimum_version := None;
|}.

Definition entitlement_policy_current : EvidenceObligationSpec := {|
  obligation_id := "entitlement_policy_current";
  kind := Knowledge;
  capabilities := ["search_knowledge"];
  required_data_fields := ["evidence"; "index_version"];
  required_truthy_data_fields := [];
  resource_ref_argument := None;
  observed_resource_field := None;
  allowed_resource_statuses := [];
  require_freshness := false;
  policy_family := Some "entitlement-changes";
  topic := Some "quota-and-plan-change";
  allowed_document_keys := ["entitlement-changes-v1"];
  allowed_document_types := ["official_policy"];
  allowed_section_terms := ["配额"; "套餐"; "目标"; "审批"];
  minimum_version := Some "1.0";
|}.

Definition entitlement_change_spec : ActionSpec := {|
  action_type := EntitlementChange;
  issue_type := "entitlement_change";
  admission_required_fields := ["target"];
  obligations := [subscription_current; entitlement_policy_current];
  proposal_action := "entitlement_change_proposal";
  proposal_schema_name := "entitlement_change_proposal";
  proposal_schema := EntitlementChangeProposalArguments;
  policy_capability := "propose_entitlement_change";
  runtime_effect_capability := "execute_entitlement_change";
  proposal_fields := [
    mk_field "subscription_id" FromObservation "subscription_id" (Some "subscription_current");
    mk_field "change_type" FromAdmission "change_type" None;
    mk_field "target" FromAdmission "target" None;
    mk_field "reason" FromRequestReason "request_reason" None];
  terminal_outcomes := [
    {|
      outcome_code := "subscription_resource_not_available";
      terminal_class := ResourceNotAvailable;
      rule_obligation_id := "subscription_current";
      predicate := ObservationStatusIn;
      observation_field := None;
      admission_path := None;
      match_values := ["not_found"];
      public_observation_fields := [];
      public_admission_paths := [];
      customer_message_key := "subscription_resource_not_available";
      recommended_next_step := "verify_subscription";
      require_business_source := false |};
    {|
      outcome_code := "subscription_status_not_actionable";
      terminal_class := ActionIneligible;
      rule_obligation_id := "subscription_current";
      predicate := ResourceStatusNotAllowed;
      observation_field := Some "status";
      admission_path := None;
      match_values := [];
      public_observation_fields := ["subscription_id"; "status"];
      public_admission_paths := [];
      customer_message_key := "subscription_status_not_actionable";
      recommended_next_step := "restore_or_review_subscription";
      require_business_source := true |};
    {|
      outcome_code := "entitlement_target_unsupported";
      terminal_class := ActionIneligible;
      rule_obligation_id := "subscription_current";
      predicate := AdmissionNotInObservation;
      observation_field := Some "catalog_eligibility";
      admission_path := Some "change_type";
      match_values := [];
      public_observation_fields := ["subscription_id"; "catalog_eligibility"];
      public_admission_paths := ["change_type"];
      customer_message_key := "entitlement_target_unsupported";
      recommended_next_step := "choose_supported_change_type";
      require_business_source := true |};
    {|
      outcome_code := "entitlement_plan_target_noop";
      terminal_class := ActionIneligible;
      rule_obligation_id := "subscription_current";
      predicate := AdmissionEqualsObservation;
      observation_field := Some "plan";
      admission_path := Some "target.plan";
      match_values := [];
      public_observation_fields := ["subscription_id"; "plan"];
      public_admission_paths := ["change_type"; "target.plan"];
      customer_message_key := "entitlement_target_noop";
      recommended_next_step := "choose_different_target";
      require_business_source := true |};
    {|
      outcome_code := "entitlement_rpm_target_noop";
      terminal_class := ActionIneligible;
      rule_obligation_id := "subscription_current";
      predicate := AdmissionEqualsObservation;
      observation_field := Some "rpm_limit";
      admission_path := Some "target.rpm_limit";
      match_values := [];
      public_observation_fields := ["subscription_id"; "rpm_limit"];
      public_admission_paths := ["change_type"; "target.rpm_limit"];
      customer_message_key := "entitlement_target_noop";
      recommended_next_step := "choose_different_target";
      require_business_source := true |};
    {|
      outcome_code := "entitlement_concurrency_target_noop";
      terminal_class := ActionIneligible;
      rule_obligation_id := "subscription_current";
      predicate := AdmissionEqualsObservation;
      observation_field := Some "concurrency_limit";
      admission_path := Some "target.concurrency_limit";
      match_values := [];
      public_observation_fields := ["subscription_id"; "concurrency_limit"];
      public_admission_paths := ["change_type"; "target.concurrency_limit"];
      customer_message_key := "entitlement_target_noop";
      recommended_next_step := "choose_different_target";
      require_business_source := true |}];
  clarification_fields := ["target"];
  error_codes := _COMMON_ERROR_CODES;
|}.

Definition ACTION_SPECS : list (ActionType * ActionSpec) :=
  [(Refund, refund_spec); (ApiKeyRevocation, api_key_revocation_spec); (EntitlementChange,
    entitlement_change_spec)].

(** [{str(key(item)): item for item in ACTION_SPECS.values()}.get(name)]: the
    last entry with the key wins. *)
Definition index_get (key : ActionSpec -> string) (name : string) : option ActionSpec :=
  find_first (fun s => key s ==? name) (rev (map snd ACTION_SPECS)).

Definition get_action_spec (a : ActionType) : res ActionSpec :=
  match find_first (fun kv => kv.1 ==? a) ACTION_SPECS with
  | Some kv => Ok kv.2
  | None => Err (KeyError (action_type_str a))
  end.
Definition get_action_spec_or_none (name : string) : option ActionSpec :=
  index_get (fun s => action_type_str (action_type s)) name.
Definition get_action_spec_by_proposal (name : string) : option ActionSpec := index_get proposal_action name.
Definition get_action_spec_by_policy_capability (name : string) : option ActionSpec :=
  index_get policy_capability name.
Definition get_action_spec_by_runtime_effect_capability (name : string) : option ActionSpec :=
  index_get runtime_effect_capability name.

(** The uniqueness checks the module runs when it is loaded. *)
Definition registry_unique : bool :=
  let unique key := negb (has_dups (map (fun kv : ActionType * ActionSpec => key kv.2) ACTION_SPECS)) in
  unique (fun s => action_type_str (action_type s)) && unique proposal_action && unique policy_capability
  && unique runtime_effect_capability.

(** ** Lemmas *)
Lemma str_field_ok lo hi v s :
  str_field lo hi v = Ok s <-> v = Some (PyStr s) /\ len_between lo hi s = true.
Proof.
  unfold str_field, len_between. split.
  - destruct v as [[| | |s'| | | |]|]; try done. intros H. steps_ok H. to_prop. simplify_eq. by split; [|lia].
  - intros [-> H]. to_prop. split; [lia|done].
Qed.

Lemma strict_int_field_ok lo hi v o :
  strict_int_field lo hi v = Ok o ->
  strict_int_field lo hi (PyInt <$> o) = Ok o.
Proof.
  unfold strict_int_field. destruct v as [[| |z| | | | |]|]; try (intros; simplify_eq; done).
  intros H. steps_ok H. simplify_eq. simpl. by rewrite Hguard.
Qed.

Lemma quota_target_ok d e :
  QuotaChangeTarget d = Ok e ->
  (exists z, e = [("rpm_limit", PyInt z)] /\ 1 <= z <= 10000000) \/
  (exists z, e = [("concurrency_limit", PyInt z)] /\ 1 <= z <= 100000).
Proof.
  unfold QuotaChangeTarget. intros H. steps_ok H. apply strict_int_field_ok in Hstep, Hstep0.
  destruct a as [z|], a0 as [z'|]; simplify_eq; simpl in *.
  - left. exists z. split; [done|]. steps_ok Hstep. to_prop. lia.
  - right. exists z'. split; [done|]. steps_ok Hstep0. to_prop. lia.
Qed.
Lemma plan_target_ok d e :
  PlanChangeTarget d = Ok e -> exists p, e = [("plan", PyStr p)] /\ len_between 1 64 p = true.
Proof. unfold PlanChangeTarget. intros H. steps_ok H. apply str_field_ok in Hstep as [_ Hl]. simplify_eq. eauto. Qed.

Lemma bounded_int_field lo hi z : lo <= z <= hi -> strict_int_field lo hi (Some (PyInt z)) = Ok (Some z).
Proof. intros. unfold strict_int_field. apply raise_if_false. to_prop. lia. Qed.

Lemma entitlement_target_idempotent ct t e :
  validate_entitlement_target ct t = Ok e -> validate_entitlement_target ct (PyDict e) = Ok e /\ e <> [].
Proof.
  unfold validate_entitlement_target. destruct t as [| | | | | | |d]; try done.
  destruct (ct ==? "quota_change"); intros H.
  - apply quota_target_ok in H as [(z & -> & Hz)|(z & -> & Hz)]; (split; [|done]);
      unfold QuotaChangeTarget; rewrite raise_if_false by reflexivity; simpl dget;
      [rewrite bounded_int_field by done; done|].
    change (strict_int_field 1 10000000 None) with (Ok (A := option Z) None). cbn [res_bind].
    by rewrite bounded_int_field.
  - apply plan_target_ok in H as (p & -> & Hp). split; [|done]. unfold PlanChangeTarget.
    rewrite raise_if_false by reflexivity. simpl dget.
    by rewrite (proj2 (str_field_ok 1 64 _ p)).
Qed.

Lemma resource_obligation_filter spec o :
  resource_obligations spec = [o] ->
  resource_obligation spec = Ok o /\ kind o = Resource /\ is_Some (observed_resource_field o) /\ o ∈ obligations spec.
Proof.
  unfold resource_obligations, resource_obligation. intros H.
  assert (o ∈ List.filter (fun o => (kind o ==? Resource) && isSome (observed_resource_field o)) (obligations spec))
    as Hin by (rewrite H; set_solver).
  apply list_elem_of_In, filter_In in Hin as [Hin Ho]. apply list_elem_of_In in Hin. to_prop. destruct Ho as [Hk Hs].
  split_and!; [|done..]. clear Hin Hk Hs. revert H. induction (obligations spec) as [|x l IH]; [done|]. simpl.
  destruct (_ && _); [by intros [= -> _]|]. exact IH.
Qed.

Lemma index_get_spec key name s :
  index_get key name = Some s -> (exists a, (a, s) ∈ ACTION_SPECS) /\ key s = name.
Proof.
  unfold index_get. intros H. apply find_first_some in H as [Hin Hk]. to_prop. split; [|done].
  apply list_elem_of_In, in_rev, list_elem_of_In, list_elem_of_fmap in Hin as ([a s'] & -> & Hin). eauto.
Qed.

(** Under a unique key, the index finds every entry. *)
Lemma index_get_unique key a s :
  NoDup (map (fun kv : ActionType * ActionSpec => key kv.2) ACTION_SPECS) ->
  (a, s) ∈ ACTION_SPECS -> index_get key (key s) = Some s.
Proof.
  intros Hnd Hin. destruct (index_get key (key s)) as [s'|] eqn:E.
  - apply index_get_spec in E as [[a' Hin'] Hk]. f_equal. clear -Hnd Hin Hin' Hk.
    induction ACTION_SPECS as [|[b r] l IH]; [set_solver|]. simpl in Hnd. apply NoDup_cons in Hnd as [Hno Hnd].
    assert (forall a s, (a, s) ∈ l -> key s = key r -> False) as Hx.
    { intros c x Hc Ek. apply Hno, list_elem_of_fmap. exists (c, x). done. }
    apply elem_of_cons in Hin as [E|Hin]; apply elem_of_cons in Hin' as [E'|Hin']; simplify_eq; [done|..].
    + by destruct (Hx a' s').
    + by destruct (Hx a s).
    + eauto.
  - unfold index_get in E. rewrite find_first_none in E. specialize (E s). cbv beta in E.
    rewrite eqb_refl in E. discriminate E. apply list_elem_of_In. rewrite <- in_rev.
    apply list_elem_of_In, list_elem_of_fmap. by exists (a, s).
Qed.

Lemma registry_entry a : exists s, (a, s) ∈ ACTION_SPECS /\ get_action_spec a = Ok s /\ action_type s = a.
Proof. destruct a; eexists; (split; [unfold ACTION_SPECS; list_member|]); split; reflexivity. Qed.

(** ** Properties *)

(** C40: every spec whose construction succeeds names exactly one business
    resource: one of its obligations, and no other, is a resource obligation with
    an observed field; [resource_obligation], [resource_field] and
    [primary_read_capability] never raise and speak of that one, its read
    capability is unique, and some proposal field copies the observed resource
    identity, under the same name, from it; every obligation a proposal field
    or a terminal outcome refers to is one of the spec. *)
Theorem validated_spec_resource (spec : ActionSpec) :
  validate_action_spec spec = Ok tt ->
  exists o f c b,
    resource_obligation spec = Ok o /\ o ∈ obligations spec /\ kind o = Resource /\
    (forall o', o' ∈ obligations spec -> kind o' = Resource -> is_Some (observed_resource_field o') -> o' = o) /\
    (forall b' i, b' ∈ proposal_fields spec -> binding_obligation_id b' = Some i -> i ∈ map obligation_id (obligations spec)) /\
    (forall r, r ∈ terminal_outcomes spec -> rule_obligation_id r ∈ map obligation_id (obligations spec)) /\
    resource_field spec = Ok f /\ observed_resource_field o = Some f /\
    capabilities o = [c] /\ primary_read_capability spec = Ok c /\
    b ∈ proposal_fields spec /\ source b = FromObservation /\ target_field b = f /\ source_path b = f /\
    binding_obligation_id b = Some (obligation_id o) /\
    NoDup (map obligation_id (obligations spec)) /\ NoDup (map target_field (proposal_fields spec)) /\
    NoDup (map outcome_code (terminal_outcomes spec)).
Proof.
  unfold validate_action_spec, validate_unique_obligations, has_dups. intros H. steps_ok H.
  destruct (resource_obligations spec) as [|o [|]] eqn:Er; try done. steps_ok H. to_prop.
  rewrite bool_decide_eq_true in *.
  assert (forall o', o' ∈ obligations spec -> kind o' = Resource -> is_Some (observed_resource_field o') -> o' = o) as Hone.
  { intros o' Ho' Hk' Hf'. apply list_elem_of_singleton. rewrite <- Er. unfold resource_obligations.
    apply list_elem_of_In, filter_In. split; [by apply list_elem_of_In|]. rewrite andb_true_iff, eqb_true, isSome_true. done. }
  pose proof (proj1 (existsb_false_iff _ _) Hguard2) as Hfields. pose proof (proj1 (existsb_false_iff _ _) Hguard3) as Houtcomes.
  assert (forall b' i, b' ∈ proposal_fields spec -> binding_obligation_id b' = Some i -> i ∈ map obligation_id (obligations spec)) as Hbound.
  { intros b' i Hb' Ei. specialize (Hfields b' Hb'). cbv beta in Hfields. rewrite Ei in Hfields. by apply negb_false_iff, mem_true in Hfields. }
  assert (forall r, r ∈ terminal_outcomes spec -> rule_obligation_id r ∈ map obligation_id (obligations spec)) as Hruled.
  { intros r Hr'. specialize (Houtcomes r Hr'). by apply negb_false_iff, mem_true in Houtcomes. }
  apply resource_obligation_filter in Er as (Hr & Hk & [f Hf] & Hin).
  apply Nat.eqb_eq in Hguard6. destruct (capabilities o) as [|c [|]] eqn:Ec; try done.
  apply existsb_true_iff in Hguard7 as (b & Hb & Hbp). to_prop. rewrite Hf in Hbp. destruct_and! Hbp. simplify_eq.
  exists o, (source_path b), c, b. unfold resource_field, primary_read_capability. rewrite Hr. simpl. rewrite Hf, Ec.
  split_and!; congruence || done.
Qed.
Lemma validated_spec_resource_witness :
  exists o f c b,
    resource_obligation refund_spec = Ok o /\ o ∈ obligations refund_spec /\ kind o = Resource /\
    (forall o', o' ∈ obligations refund_spec -> kind o' = Resource -> is_Some (observed_resource_field o') -> o' = o) /\
    (forall b' i, b' ∈ proposal_fields refund_spec -> binding_obligation_id b' = Some i -> i ∈ map obligation_id (obligations refund_spec)) /\
    (forall r, r ∈ terminal_outcomes refund_spec -> rule_obligation_id r ∈ map obligation_id (obligations refund_spec)) /\
    resource_field refund_spec = Ok f /\ observed_resource_field o = Some f /\
    capabilities o = [c] /\ primary_read_capability refund_spec = Ok c /\
    b ∈ proposal_fields refund_spec /\ source b = FromObservation /\ target_field b = f /\ source_path b = f /\
    binding_obligation_id b = Some (obligation_id o) /\
    NoDup (map obligation_id (obligations refund_spec)) /\ NoDup (map target_field (proposal_fields refund_spec)) /\
    NoDup (map outcome_code (terminal_outcomes refund_spec)).
Proof. apply validated_spec_resource. vm_compute. reflexivity. Defined.

(** The registry is sound.  Every entry passes all validators and sits
    under its own action type; the four keys are unique; [get_action_spec]
    is total, and each of the four indexes returns exactly the registry entry
    with the requested key, and nothing for any other name. *)
Theorem registry_sound :
  (forall a s, (a, s) ∈ ACTION_SPECS -> validate_action_spec s = Ok tt /\ action_type s = a) /\
  (forall a, exists s, get_action_spec a = Ok s /\ get_action_spec_or_none (action_type_str a) = Some s) /\
  (forall key, key ∈ [fun s => action_type_str (action_type s); proposal_action; policy_capability;
                      runtime_effect_capability] ->
   forall name s, index_get key name = Some s <-> (exists a, (a, s) ∈ ACTION_SPECS) /\ key s = name).
Proof.
  assert (forall key, key ∈ [fun s => action_type_str (action_type s); proposal_action; policy_capability;
                             runtime_effect_capability] ->
    NoDup (map (fun kv : ActionType * ActionSpec => key kv.2) ACTION_SPECS)) as Hnd.
  { intros key Hk. apply (bool_decide_unpack _). rewrite !elem_of_cons in Hk.
    destruct_or! Hk; [subst; vm_compute; exact I..|by apply elem_of_nil in Hk]. }
  split; [|split].
  - intros a s Hin. unfold ACTION_SPECS in Hin. rewrite !elem_of_cons in Hin.
    destruct_or! Hin; [simplify_eq; vm_compute; done..|by apply elem_of_nil in Hin].
  - intros a. destruct (registry_entry a) as (s & Hin & Hg & Ha). exists s. split; [done|].
    unfold get_action_spec_or_none. rewrite <- Ha.
    apply (index_get_unique (fun s => action_type_str (action_type s)) a); [|done].
    apply (Hnd (fun s => action_type_str (action_type s))). list_member.
  - intros key Hk name s. split; [apply index_get_spec|]. intros [[a Ha] <-].
    eapply index_get_unique; eauto.
Qed.

(** Validation is a normal form.  Arguments a proposal schema accepts are
    stored in a form the same schema accepts again, unchanged; an entitlement
    target has exactly one field: one quota within its bounds or a plan name. *)
Theorem model_validate_idempotent schema args out :
  model_validate schema args = Ok out -> model_validate schema out = Ok out.
Proof.
  destruct schema; simpl.
  - unfold refund_arguments. intros H. steps_ok H. simplify_eq.
    apply str_field_ok in Hstep as [_ H1], Hstep0 as [_ H2].
    rewrite raise_if_false by reflexivity. simpl dget.
    rewrite (proj2 (str_field_ok 1 64 _ a)) by done. cbn [res_bind].
    by rewrite (proj2 (str_field_ok 5 2000 _ a0)).
  - unfold api_key_arguments. intros H. steps_ok H. simplify_eq.
    apply str_field_ok in Hstep as [_ H1], Hstep0 as [_ H2].
    rewrite raise_if_false by reflexivity. simpl dget.
    rewrite (proj2 (str_field_ok 1 128 _ a)) by done. cbn [res_bind].
    by rewrite (proj2 (str_field_ok 5 2000 _ a0)).
  - unfold entitlement_arguments. intros H. steps_ok H.
    destruct (dget "change_type" args) as [[| | |ct| | | |]|]; try done. steps_ok H.
    destruct (dget "target" args) as [[| | | | | | |t]|]; try done. steps_ok H. simplify_eq.
    apply str_field_ok in Hstep as [_ H1], Hstep0 as [_ H2].
    apply entitlement_target_idempotent in Hstep1 as [H3 H4].
    rewrite raise_if_false by reflexivity. simpl dget.
    rewrite (proj2 (str_field_ok 1 128 _ a)) by done. cbn [res_bind].
    rewrite Hguard0. cbn [raise_if]. rewrite (proj2 (is_nil_false a1) H4). cbn [raise_if].
    rewrite (proj2 (str_field_ok 5 2000 _ a0)) by done. cbn [res_bind]. by rewrite H3.
Qed.
Definition demo_entitlement : pydict :=
  [("reason", PyStr "need more quota"); ("target", PyDict [("concurrency_limit", PyNone); ("rpm_limit", PyInt 600)]);
   ("change_type", PyStr "quota_change"); ("subscription_id", PyStr "sub-1")].
Lemma model_validate_idempotent_witness :
  let out := [("subscription_id", PyStr "sub-1"); ("change_type", PyStr "quota_change");
              ("target", PyDict [("rpm_limit", PyInt 600)]); ("reason", PyStr "need more quota")] in
  model_validate EntitlementChangeProposalArguments demo_entitlement = Ok out /\
  model_validate EntitlementChangeProposalArguments out = Ok out.
Proof.
  split; [vm_compute; reflexivity|].
  apply (model_validate_idempotent _ demo_entitlement). vm_compute. reflexivity.
Defined.
