(* ===== verification/ActionState.v ===== *)
(** * The action state shown to the customer (services/conversation_action_state.py)

    A proposed action leaves rows in several tables: the approval, the proposal,
    a human decision, the business action, a withdrawal, the job that resumes
    the run, and an event of the transition.  The projection reads one bundle of
    them and either returns what the customer may be told or refuses to
    represent an inconsistent bundle.

    The source facts are those of the module; [conversation_action_sources_from_orm]
    copies columns into them and is not repeated.  Timestamps are aware or
    naive as they come.

    Main results: the customer is told that an action succeeded exactly when a
    succeeded business action of that approval exists, with its human decision;
    a state that says nothing was executed excludes any unresolved effect; only
    a pending request can be withdrawn; and every bundle that passes the
    validation has a state. *)
From S2P Require Import Prelude PyValue Sha256 ActionSpecs.
Local Open Scope string_scope.
Local Open Scope list_scope.
Local Open Scope Z_scope.

(** ** Source facts *)
Record ApprovalActionSourceFact := mk_approval_fact {
  af_id : string; af_tenant_id : string; af_ticket_id : string; af_customer_id : string; af_proposal_id : option string;
  af_run_id : option string; af_action_type : string; af_resource_type : string; af_resource_id : string;
  af_origin_turn_id : string; af_business_version : Z; af_status : string; af_status_version : Z;
  af_expected_ticket_head_event_id : option string; af_expected_ticket_event_hash : option string;
  af_transition_event_id : option string; af_transition_event_hash : option string;
  af_transition_event_type : option string; af_created_at : datetime; af_updated_at : datetime;
}.
Record ProposalActionSourceFact := mk_proposal_fact {
  pf_id : string; pf_tenant_id : string; pf_run_id : string; pf_action_type : string; pf_resource_id : string;
  pf_resource_version : Z; pf_status : string; pf_created_at : datetime; pf_updated_at : datetime;
}.
Record HumanDecisionActionSourceFact := mk_decision_fact {
  df_id : string; df_tenant_id : string; df_approval_id : string; df_decision : string;
  df_canonical_event_id : option string; df_canonical_event_hash : option string;
  df_created_at : datetime; df_updated_at : datetime;
}.
Record BusinessActionSourceFact := mk_action_fact {
  bf_id : string; bf_tenant_id : string; bf_ticket_id : string; bf_customer_id : string; bf_approval_id : option string;
  bf_action_type : string; bf_resource_id : option string; bf_resource_version : option Z; bf_status : string;
  bf_canonical_event_id : option string; bf_canonical_event_hash : option string;
  bf_created_at : datetime; bf_updated_at : datetime;
}.
Record ProposalWithdrawalActionSourceFact := mk_withdrawal_fact {
  wf_id : string; wf_tenant_id : string; wf_ticket_id : string; wf_customer_id : string; wf_approval_id : string;
  wf_proposal_id : string; wf_created_at : datetime; wf_updated_at : datetime;
}.
Record ApprovalRuntimeJobSourceFact := mk_job_fact {
  jf_id : string; jf_tenant_id : string; jf_ticket_id : string; jf_run_id : string; jf_approval_id : option string;
  jf_kind : string; jf_status : string; jf_outcome : option string; jf_delivery_hold_reason : option string;
  jf_created_at : datetime; jf_updated_at : datetime;
}.
Record ConversationActionSources := mk_sources {
  s_approval : ApprovalActionSourceFact; s_proposal : option ProposalActionSourceFact;
  s_decision : option HumanDecisionActionSourceFact; s_business_action : option BusinessActionSourceFact;
  s_withdrawal : option ProposalWithdrawalActionSourceFact; s_runtime_job : option ApprovalRuntimeJobSourceFact;
}.

(** The validators of the facts: event identities are complete or absent, and
    transition events have one of the four types and a digest. *)
Definition together {A B} (a : option A) (b : option B) : bool := Bool.eqb (isNone a) (isNone b).
Definition hex_or_none (o : option string) : bool := match o with Some h => is_sha256_hex h | None => true end.
Definition transition_event_identity_is_complete (a : ApprovalActionSourceFact) : bool :=
  together (af_transition_event_id a) (af_transition_event_hash a)
  && together (af_transition_event_id a) (af_transition_event_type a)
  && hex_or_none (af_transition_event_hash a)
  && match af_transition_event_type a with
     | Some t => t in? ["proposal_withdrawn"; "runtime_action_reconciliation"; "runtime_failed"; "approval_staled_duplicate_identity"]
     | None => true
     end
  && together (af_expected_ticket_head_event_id a) (af_expected_ticket_event_hash a).
Definition canonical_event_identity_is_complete (d : HumanDecisionActionSourceFact) : bool :=
  together (df_canonical_event_id d) (df_canonical_event_hash d).
Definition action_event_identity_is_complete (b : BusinessActionSourceFact) : bool :=
  together (bf_canonical_event_id b) (bf_canonical_event_hash b).
Definition sources_valid (s : ConversationActionSources) : bool :=
  transition_event_identity_is_complete (s_approval s)
  && match s_decision s with Some d => canonical_event_identity_is_complete d | None => true end
  && match s_business_action s with Some b => action_event_identity_is_complete b | None => true end.

(** ** The projected state *)
Record ConversationActionStateV1 := mk_action_state {
  as_approval_id : string; as_origin_run_id : option string; as_origin_turn_id : string; as_action_type : string;
  as_resource_type : string; as_resource_id : string; as_resource_version : Z; as_approval_status : string;
  as_projection_status : string; as_status_version : Z; as_actionable : bool; as_allowed_customer_actions : list string;
  as_decision_class : string; as_customer_safe_reason_code : string; as_execution_state : string;
  as_business_action_id : option string; as_created_at : datetime; as_updated_at : datetime;
  as_source_event_id : option string; as_source_event_hash : option string; as_grants_action_authority : bool;
}.

Definition _APPROVAL_STATUSES : list string :=
  ["pending"; "approved"; "executed"; "rejected"; "stale"; "withdrawn"; "failed"; "manual_takeover"].
Definition _TERMINAL_WITHOUT_EFFECT : list string := ["rejected"; "stale"; "withdrawn"; "failed"; "manual_takeover"].
Definition _CUSTOMER_SAFE_REASON_CODES : list (string * string) :=
  [("pending", "approval_pending"); ("approved", "approval_approved_awaiting_execution");
   ("executing", "action_execution_in_progress"); ("verification_pending", "action_execution_verification_pending");
   ("executed", "action_execution_confirmed"); ("rejected", "approval_rejected_no_effect");
   ("stale", "action_requires_fresh_verification"); ("withdrawn", "approval_withdrawn_no_effect");
   ("failed", "action_failed_confirmed_no_effect"); ("manual_takeover_legacy", "legacy_manual_takeover_no_operator")].
(** [table[key]] *)
Fixpoint table_get {A} (k : string) (l : list (string * A)) : option A :=
  match l with [] => None | (k', v) :: l => if decide (k = k') then Some v else table_get k l end.
Definition reason_code (projection_status : string) : string := default "" (table_get projection_status _CUSTOMER_SAFE_REASON_CODES).

(** [validate_safe_shape] and the field constraints. *)
Definition validate_safe_shape (st : ConversationActionStateV1) : res ConversationActionStateV1 :=
  raise ValidationError "resource_version" when as_resource_version st <? 1 ;;
  raise ValidationError "status_version" when as_status_version st <? 1 ;;
  raise ValidationError "source_event_hash" when negb (hex_or_none (as_source_event_hash st)) ;;
  raise ValidationError "origin_run_id" when isNone (as_origin_run_id st) ;;
  raise ValidationError "source event identity must be complete or absent"
    when negb (together (as_source_event_id st) (as_source_event_hash st)) ;;
  raise ValidationError "actionable must match allowed customer actions"
    when negb (Bool.eqb (as_actionable st) (negb (is_nil (as_allowed_customer_actions st)))) ;;
  raise ValidationError "unsupported customer action" when negb (as_allowed_customer_actions st in? [[]; ["withdraw"]]) ;;
  raise ValidationError "only a pending approval may be withdrawn"
    when negb (is_nil (as_allowed_customer_actions st)) && (as_projection_status st !=? "pending") ;;
  raise ValidationError "customer-safe reason does not match projection status"
    when as_customer_safe_reason_code st !=? reason_code (as_projection_status st) ;;
  Ok st.

(** ** The evidence each status requires *)
Record _LifecycleEvidenceContract := mk_contract {
  required_sources : list string; forbidden_sources : list string; allowed_decisions : list string;
  allowed_transition_events : list string;
}.
Definition _LIFECYCLE_EVIDENCE : list (string * _LifecycleEvidenceContract) :=
  [("pending", mk_contract ["proposal"] ["decision"; "business_action"; "withdrawal"; "runtime_job"; "transition_event"] [] []);
   ("approved", mk_contract ["proposal"; "decision"; "runtime_job"] ["withdrawal"; "transition_event"] ["approve"; "edit_and_approve"] []);
   ("executed", mk_contract ["proposal"; "decision"; "business_action"] ["withdrawal"; "transition_event"]
                  ["approve"; "edit_and_approve"] []);
   ("rejected", mk_contract ["proposal"; "decision"] ["business_action"; "withdrawal"; "runtime_job"; "transition_event"] ["reject"] []);
   ("withdrawn", mk_contract ["proposal"; "withdrawal"; "transition_event"] ["decision"; "business_action"; "runtime_job"] []
                   ["proposal_withdrawn"]);
   ("stale", mk_contract ["proposal"; "transition_event"] ["withdrawal"] ["approve"; "edit_and_approve"]
               ["runtime_action_reconciliation"; "approval_staled_duplicate_identity"]);
   ("failed", mk_contract ["proposal"; "runtime_job"; "transition_event"] ["withdrawal"] ["approve"; "edit_and_approve"] ["runtime_failed"]);
   ("manual_takeover", mk_contract ["proposal"] ["business_action"; "withdrawal"; "runtime_job"] ["manual_takeover"] [])].
(** [ACTION_RESOURCE_TYPES.get(action_type)] *)
Definition action_resource_type (action_type : string) : option string :=
  match get_action_spec_or_none action_type with
  | Some spec => match resource_field spec with Ok t => Some t | Err _ => None end
  | None => None
  end.

Section projection.
Context (s : ConversationActionSources).
Let approval := s_approval s.

Definition present_sources : list string :=
  omap (fun np : string * bool => if np.2 then Some np.1 else None)
    [("proposal", isSome (s_proposal s)); ("decision", isSome (s_decision s)); ("business_action", isSome (s_business_action s));
     ("withdrawal", isSome (s_withdrawal s)); ("runtime_job", isSome (s_runtime_job s));
     ("transition_event", isSome (af_transition_event_type approval))].
Definition unresolved_statuses : list string := ["unknown"; "verification_pending"; "pending"; "running"; "executing"].
Definition action_status_in (l : list string) : bool :=
  match s_business_action s with Some a => bf_status a in? l | None => false end.

(** The last part of [_validate_lifecycle_evidence], by status. *)
Definition validate_status_evidence : res unit :=
  let job := s_runtime_job s in
  if af_status approval ==? "approved" then
    match job with
    | None => Err (ProjectionError "approved approval lacks authoritative runtime evidence")
    | Some job =>
        raise ProjectionError "successful business action requires an executed approval" when action_status_in ["succeeded"] ;;
        raise ProjectionError "dead approval job has not converged the approval" when jf_status job ==? "dead" ;;
        raise ProjectionError "completed approval job has not converged the approval"
          when (jf_status job ==? "succeeded") && (jf_outcome job !=? Some "verification_pending")
               && (jf_delivery_hold_reason job !=? Some "state_unknown") ;;
        Ok tt
    end
  else if af_status approval ==? "executed" then
    match s_business_action s with
    | None => Err (ProjectionError "executed approval lacks authoritative effect evidence")
    | Some action =>
        raise ProjectionError "executed approval lacks authoritative effect evidence"
          when (bf_status action !=? "succeeded") || isNone (bf_canonical_event_id action) ;;
        Ok tt
    end
  else if af_status approval ==? "stale" then
    raise ProjectionError "stale approval conflicts with successful business action" when action_status_in ["succeeded"] ;; Ok tt
  else if af_status approval ==? "failed" then
    match job with
    | None => Err (ProjectionError "failed approval lacks confirmed-zero-effect runtime evidence")
    | Some job =>
        raise ProjectionError "failed approval lacks confirmed-zero-effect runtime evidence"
          when negb ((jf_status job ==? "dead")
                     || (jf_outcome job in? [Some "failed"; Some "infrastructure_exhausted"; Some "verified_zero_effect"])) ;;
        raise ProjectionError "failed approval conflicts with unresolved or successful business action"
          when action_status_in ("succeeded" :: unresolved_statuses) ;;
        Ok tt
    end
  else
    raise ProjectionError "legacy manual takeover conflicts with business action evidence"
      when (af_status approval ==? "manual_takeover") && isSome (s_business_action s) ;;
    Ok tt.
(** [_validate_lifecycle_evidence] *)
Definition _validate_lifecycle_evidence : res unit :=
  let! contract := table_get (af_status approval) _LIFECYCLE_EVIDENCE else KeyError (af_status approval) in
  raise ProjectionError "approval lifecycle evidence is incomplete or contradictory"
    when existsb (fun n => negb (n in? present_sources)) (required_sources contract)
         || existsb (fun n => n in? present_sources) (forbidden_sources contract) ;;
  raise ProjectionError "human decision conflicts with approval lifecycle"
    when match s_decision s with
         | Some d => is_nil (allowed_decisions contract) || negb (df_decision d in? allowed_decisions contract)
                     || isNone (df_canonical_event_id d)
         | None => false
         end ;;
  raise ProjectionError "transition event conflicts with approval lifecycle"
    when match af_transition_event_type approval with
         | Some t => negb (t in? allowed_transition_events contract)
         | None => false
         end ;;
  validate_status_evidence.

Definition transition_types (status : string) : list string :=
  default [] (table_get status [("withdrawn", ["proposal_withdrawn"]);
                                ("stale", ["runtime_action_reconciliation"; "approval_staled_duplicate_identity"]);
                                ("failed", ["runtime_failed"])]).
(** [_validate_sources] *)
Definition _validate_sources : res unit :=
  raise ProjectionError "approval canonical action identity is invalid"
    when negb (af_status approval in? _APPROVAL_STATUSES) || isNone (af_run_id approval)
         || (action_resource_type (af_action_type approval) !=? Some (af_resource_type approval))
         || is_empty_str (af_resource_id approval) || (af_business_version approval <? 1)
         || (af_status_version approval <? 1) || is_empty_str (af_origin_turn_id approval) ;;
  raise ProjectionError "transition event conflicts with approval status"
    when match af_transition_event_type approval with
         | Some t => negb (t in? transition_types (af_status approval))
         | None => false
         end ;;
  raise ProjectionError "proposal canonical action identity is missing or conflicts with approval"
    when match s_proposal s with
         | None => true
         | Some p => (af_proposal_id approval !=? Some (pf_id p)) || (af_tenant_id approval !=? pf_tenant_id p)
                     || (af_run_id approval !=? Some (pf_run_id p)) || (af_action_type approval !=? pf_action_type p)
                     || (af_resource_id approval !=? pf_resource_id p) || (af_business_version approval !=? pf_resource_version p)
         end ;;
  raise ProjectionError "proposal lifecycle conflicts with approval"
    when match s_proposal s with
         | Some p => negb (pf_status p in? (if af_status approval in? ["pending"; "approved"] then ["bound"]
                                             else if af_status approval !=? "manual_takeover" then ["stale"] else ["bound"; "stale"]))
         | None => false
         end ;;
  raise ProjectionError "human decision identity conflicts with approval"
    when match s_decision s with
         | Some d => (df_tenant_id d !=? af_tenant_id approval) || (df_approval_id d !=? af_id approval)
         | None => false
         end ;;
  raise ProjectionError "business action identity conflicts with approval"
    when match s_business_action s with
         | Some b => (bf_tenant_id b !=? af_tenant_id approval) || (bf_ticket_id b !=? af_ticket_id approval)
                     || (bf_customer_id b !=? af_customer_id approval) || (bf_approval_id b !=? Some (af_id approval))
                     || (bf_action_type b !=? af_action_type approval) || (bf_resource_id b !=? Some (af_resource_id approval))
                     || (bf_resource_version b !=? Some (af_business_version approval))
         | None => false
         end ;;
  raise ProjectionError "withdrawal identity conflicts with approval"
    when match s_withdrawal s with
         | Some w => (wf_tenant_id w !=? af_tenant_id approval) || (wf_ticket_id w !=? af_ticket_id approval)
                     || (wf_customer_id w !=? af_customer_id approval) || (wf_approval_id w !=? af_id approval)
                     || (Some (wf_proposal_id w) !=? af_proposal_id approval)
         | None => false
         end ;;
  raise ProjectionError "withdrawal conflicts with successful business action"
    when isSome (s_withdrawal s) && action_status_in ["succeeded"] ;;
  raise ProjectionError "withdrawal conflicts with approval status"
    when isSome (s_withdrawal s) && (af_status approval !=? "withdrawn") ;;
  raise ProjectionError "unresolved business action conflicts with no-effect approval terminal state"
    when (af_status approval in? _TERMINAL_WITHOUT_EFFECT) && action_status_in unresolved_statuses ;;
  raise ProjectionError "approval runtime job identity conflicts with approval"
    when match s_runtime_job s with
         | Some j => (jf_kind j !=? "approval_resume") || (jf_tenant_id j !=? af_tenant_id approval)
                     || (jf_ticket_id j !=? af_ticket_id approval) || (Some (jf_run_id j) !=? af_run_id approval)
                     || (jf_approval_id j !=? Some (af_id approval))
         | None => false
         end ;;
  raise ProjectionError "dead approval job has not converged the approval"
    when match s_runtime_job s with
         | Some j => (jf_status j ==? "dead") && (af_status approval !=? "failed")
         | None => false
         end ;;
  _validate_lifecycle_evidence.

(** ** The projection *)
Definition job_is (f : ApprovalRuntimeJobSourceFact -> bool) : bool :=
  match s_runtime_job s with Some j => f j | None => false end.
(** [_projection_status] *)
Definition _projection_status : string :=
  if af_status approval ==? "manual_takeover" then "manual_takeover_legacy" else
  if isSome (s_withdrawal s) || (af_status approval ==? "withdrawn") then "withdrawn" else
  if af_status approval ==? "executed" then "executed" else
  if af_status approval in? ["rejected"; "stale"; "failed"] then af_status approval else
  if af_status approval ==? "approved" then
    if job_is (fun j => jf_outcome j ==? Some "verification_pending")
       || job_is (fun j => jf_delivery_hold_reason j ==? Some "state_unknown")
       || action_status_in ["unknown"; "verification_pending"] then "verification_pending" else
    if job_is (fun j => jf_status j ==? "leased") || action_status_in ["pending"; "running"; "executing"] then "executing"
    else "approved"
  else "pending".
(** [_decision_class] *)
Definition _decision_class (projection_status : string) : string :=
  let decision := df_decision <$> s_decision s in
  if (projection_status ==? "manual_takeover_legacy") || (decision ==? Some "manual_takeover") then "legacy_manual_takeover" else
  if isSome (s_withdrawal s) || (projection_status ==? "withdrawn") then "customer_withdrawal" else
  if decision in? [Some "approve"; Some "edit_and_approve"; Some "reject"] then default "" decision else
  if projection_status in? ["executed"; "rejected"; "stale"; "failed"] then "system_transition" else "none".
(** [_source_event] *)
Definition _source_event : option string * option string :=
  let status := af_status approval in
  let of_approval := (af_expected_ticket_head_event_id approval, af_expected_ticket_event_hash approval) in
  let of_decision d := (df_canonical_event_id d, df_canonical_event_hash d) in
  if status in? ["withdrawn"; "stale"; "failed"] then (af_transition_event_id approval, af_transition_event_hash approval) else
  match s_business_action s, status ==? "executed" with
  | Some b, true => (bf_canonical_event_id b, bf_canonical_event_hash b)
  | _, _ =>
      match s_decision s with
      | Some d => if (status in? ["approved"; "rejected"]) || ((status ==? "manual_takeover") && (df_decision d ==? "manual_takeover"))
                  then of_decision d else of_approval
      | None => of_approval
      end
  end.
(** [_latest_update]: the first of the latest instants. *)
Definition update_stamps : list datetime :=
  af_updated_at approval ::
  omap (fun o => o) [pf_updated_at <$> s_proposal s; df_updated_at <$> s_decision s; bf_updated_at <$> s_business_action s;
                     wf_updated_at <$> s_withdrawal s; jf_updated_at <$> s_runtime_job s].
Definition later (a b : datetime) : datetime := if instant a <? instant b then b else a.
Definition _latest_update : datetime := fold_left later (tail update_stamps) (af_updated_at approval).
End projection.

(** [_execution_state] *)
Definition _execution_state (projection_status : string) : string :=
  if projection_status ==? "pending" then "not_started" else
  if projection_status ==? "approved" then "queued" else
  if projection_status ==? "executing" then "in_progress" else
  if projection_status ==? "verification_pending" then "verification_pending" else
  if projection_status ==? "executed" then "succeeded" else
  if projection_status in? ["rejected"; "stale"; "withdrawn"] then "not_executed" else
  if projection_status ==? "failed" then "failed" else "legacy_stopped".

(** [project_conversation_action_state] *)
Definition project_conversation_action_state (s : ConversationActionSources) : res ConversationActionStateV1 :=
  let? _ := _validate_sources s in
  let approval := s_approval s in
  let projection_status := _projection_status s in
  let event := _source_event s in
  let allowed := if projection_status ==? "pending" then ["withdraw"] else [] in
  validate_safe_shape
    (mk_action_state (af_id approval) (af_run_id approval) (af_origin_turn_id approval) (af_action_type approval)
       (af_resource_type approval) (af_resource_id approval) (af_business_version approval) (af_status approval) projection_status
       (af_status_version approval) (negb (is_nil allowed)) allowed (_decision_class s projection_status) (reason_code projection_status)
       (_execution_state projection_status) (bf_id <$> s_business_action s) (af_created_at approval) (_latest_update s)
       event.1 event.2 false).

(** ** Lemmas *)
Lemma present_sources_iff s n :
  n ∈ present_sources s <->
  (n = "proposal" /\ is_Some (s_proposal s)) \/ (n = "decision" /\ is_Some (s_decision s)) \/
  (n = "business_action" /\ is_Some (s_business_action s)) \/ (n = "withdrawal" /\ is_Some (s_withdrawal s)) \/
  (n = "runtime_job" /\ is_Some (s_runtime_job s)) \/
  (n = "transition_event" /\ is_Some (af_transition_event_type (s_approval s))).
Proof.
  unfold present_sources. rewrite list_elem_of_omap. split.
  - intros ([m b] & Hin & E). cbn in E. destruct b; [|done]. injection E as ->.
    repeat (apply elem_of_cons in Hin as [[= -> Hb]|Hin]; [symmetry in Hb; apply isSome_true in Hb; tauto|]).
    by apply not_elem_of_nil in Hin.
  - intros Hn. repeat destruct Hn as [[-> Hn]|Hn]; try (destruct Hn as [-> Hn]); apply isSome_true in Hn.
    all: match goal with |- exists x, _ /\ _ = Some ?n => exists (n, true) end; split; [rewrite Hn; list_member|done].
Qed.
Record validated (s : ConversationActionSources) : Prop := {
  va_status : af_status (s_approval s) ∈ _APPROVAL_STATUSES;
  va_run : is_Some (af_run_id (s_approval s));
  va_versions : 1 <= af_business_version (s_approval s) /\ 1 <= af_status_version (s_approval s);
  va_withdrawal : is_Some (s_withdrawal s) -> af_status (s_approval s) = "withdrawn";
  va_resolved : af_status (s_approval s) ∈ _TERMINAL_WITHOUT_EFFECT -> action_status_in s unresolved_statuses = false;
  va_action : forall b, s_business_action s = Some b ->
    bf_approval_id b = Some (af_id (s_approval s)) /\ bf_tenant_id b = af_tenant_id (s_approval s) /\
    bf_customer_id b = af_customer_id (s_approval s) /\ bf_action_type b = af_action_type (s_approval s) /\
    bf_resource_id b = Some (af_resource_id (s_approval s)) /\ bf_resource_version b = Some (af_business_version (s_approval s));
  va_evidence : _validate_lifecycle_evidence s = Ok tt;
}.
Lemma validate_sources_ok s : _validate_sources s = Ok tt -> validated s.
Proof.
  unfold _validate_sources. intros Hv.
  apply raise_if_ok in Hv as [G1 Hv]. apply raise_if_ok in Hv as [_ Hv]. apply raise_if_ok in Hv as [_ Hv].
  apply raise_if_ok in Hv as [_ Hv]. apply raise_if_ok in Hv as [_ Hv]. apply raise_if_ok in Hv as [G2 Hv].
  apply raise_if_ok in Hv as [_ Hv]. apply raise_if_ok in Hv as [_ Hv]. apply raise_if_ok in Hv as [G3 Hv].
  apply raise_if_ok in Hv as [G4 Hv]. apply raise_if_ok in Hv as [_ Hv]. apply raise_if_ok in Hv as [_ Hv].
  rewrite !orb_false_iff in G1. destruct G1 as [[[[[[A1 A2] A3] A4] A5] A6] A7]. split; [..|done].
  - apply negb_false_iff in A1. by rewrite mem_true in A1.
  - by apply isNone_false.
  - rewrite Z.ltb_ge in A5, A6. done.
  - intros Hw. apply isSome_true in Hw. rewrite Hw in G3. cbn in G3. by rewrite neqb_false in G3.
  - intros Ht. rewrite (proj2 (mem_true _ _) Ht) in G4. exact G4.
  - intros b Hb. rewrite Hb in G2. rewrite !orb_false_iff, !neqb_false in G2. destruct_and?. split_and!; done.
Qed.
Record evidenced (s : ConversationActionSources) (c : _LifecycleEvidenceContract) : Prop := {
  ev_required : forall n, n ∈ required_sources c -> n ∈ present_sources s;
  ev_forbidden : forall n, n ∈ forbidden_sources c -> n ∉ present_sources s;
  ev_decision : forall d, s_decision s = Some d -> df_decision d ∈ allowed_decisions c /\ is_Some (df_canonical_event_id d);
  ev_status : validate_status_evidence s = Ok tt;
}.
Lemma evidence_ok s :
  validated s -> exists c, table_get (af_status (s_approval s)) _LIFECYCLE_EVIDENCE = Some c /\ evidenced s c.
Proof.
  intros [_ _ _ _ _ _ He]. unfold _validate_lifecycle_evidence in He.
  destruct (table_get (af_status (s_approval s)) _LIFECYCLE_EVIDENCE) as [c|]; [|done]. exists c. split; [done|].
  apply raise_if_ok in He as [G1 He]. apply raise_if_ok in He as [G2 He]. apply raise_if_ok in He as [_ He].
  apply orb_false_iff in G1 as [G0 G1]. split.
  - intros n Hn. rewrite existsb_false_iff in G0. specialize (G0 n Hn). cbn in G0. apply negb_false_iff in G0. by rewrite mem_true in G0.
  - intros n Hn. rewrite existsb_false_iff in G1. specialize (G1 n Hn). cbn in G1. by rewrite mem_false in G1.
  - intros d Hd. rewrite Hd in G2. rewrite !orb_false_iff in G2. destruct G2 as [[_ G2] G3]. apply negb_false_iff in G2.
    rewrite mem_true in G2. split; [done|]. by apply isNone_false.
  - done.
Qed.

Lemma no_action s c : evidenced s c -> "business_action" ∈ forbidden_sources c -> s_business_action s = None.
Proof.
  intros He Hf. destruct (s_business_action s) as [b|] eqn:Eb; [|done]. exfalso. apply (ev_forbidden _ _ He _ Hf), present_sources_iff.
  do 2 right. left. split; [done|]. rewrite Eb. by eexists.
Qed.
Lemma has_decision s c : evidenced s c -> "decision" ∈ required_sources c -> is_Some (s_decision s).
Proof.
  intros He Hr. apply (ev_required _ _ He), present_sources_iff in Hr. destruct Hr as [[? _]|[[_ ?]|[[? _]|[[? _]|[[? _]|[? _]]]]]]; done.
Qed.
Lemma action_status_in_cons s x l : action_status_in s (x :: l) = action_status_in s [x] || action_status_in s l.
Proof.
  unfold action_status_in. destruct (s_business_action s) as [b|]; [|done]. apply eq_iff_eq_true. rewrite orb_true_iff, !mem_true.
  rewrite elem_of_cons, list_elem_of_singleton. done.
Qed.
(** A finished effect exists exactly under an executed approval. *)
Lemma effect_of_status s :
  validated s ->
  (af_status (s_approval s) = "executed" -> exists b d, s_business_action s = Some b /\ bf_status b = "succeeded" /\
     is_Some (bf_canonical_event_id b) /\ s_decision s = Some d /\ df_decision d ∈ ["approve"; "edit_and_approve"]) /\
  (af_status (s_approval s) <> "executed" -> action_status_in s ["succeeded"] = false) /\
  (af_status (s_approval s) ∈ "pending" :: _TERMINAL_WITHOUT_EFFECT -> action_status_in s ("succeeded" :: unresolved_statuses) = false).
Proof.
  intros Hv. destruct (evidence_ok s Hv) as (c & Hc & He). pose proof (va_status _ Hv) as Hst. pose proof (va_resolved _ Hv) as Hres.
  assert (s_business_action s = None -> forall l, action_status_in s l = false) as Hnone by (intros E l; unfold action_status_in; by rewrite E).
  pose proof (ev_status _ _ He) as Hs. unfold validate_status_evidence in Hs.
  repeat (apply elem_of_cons in Hst as [Hst|Hst]); [..|by apply not_elem_of_nil in Hst]; rewrite Hst in Hc, Hs, Hres;
    vm_compute in Hc; injection Hc as <-.
  - assert (s_business_action s = None) as En by (eapply no_action; [exact He|list_member]). rewrite Hst. split_and!; [done|auto|auto].
  - destruct (s_runtime_job s); [|done]. apply raise_if_ok in Hs as [Hs _]. rewrite Hst. split_and!; [done|done|].
    intros Hin. exfalso. rewrite <- mem_true in Hin. vm_compute in Hin. discriminate.
  - destruct (s_business_action s) as [b|] eqn:Eb; [|done]. apply raise_if_ok in Hs as [Hs _]. apply orb_false_iff in Hs as [Hs1 Hs2].
    rewrite neqb_false in Hs1. destruct (has_decision _ _ He) as [d Hd]; [list_member|]. rewrite Hst. split_and!; [|done|].
    + intros _. exists b, d. split_and!; [done|done|by apply isNone_false|done|]. by apply (ev_decision _ _ He).
    + intros Hin. exfalso. rewrite <- mem_true in Hin. vm_compute in Hin. discriminate.
  - assert (s_business_action s = None) as En by (eapply no_action; [exact He|list_member]). rewrite Hst. split_and!; [done|auto|auto].
  - apply raise_if_ok in Hs as [Hs _]. rewrite Hst. split_and!; [done|done|]. intros _. rewrite action_status_in_cons, Hs. cbn [orb].
    apply Hres. unfold _TERMINAL_WITHOUT_EFFECT. list_member.
  - assert (s_business_action s = None) as En by (eapply no_action; [exact He|list_member]). rewrite Hst. split_and!; [done|auto|auto].
  - destruct (s_runtime_job s); [|done]. apply raise_if_ok in Hs as [_ Hs]. apply raise_if_ok in Hs as [Hs _]. rewrite Hst.
    split_and!; [done| |done]. intros _. rewrite action_status_in_cons in Hs. by apply orb_false_iff in Hs as [Hs _].
  - assert (s_business_action s = None) as En by (eapply no_action; [exact He|list_member]). rewrite Hst. split_and!; [done|auto|auto].
Qed.

Definition settled_states : list string := ["not_started"; "not_executed"; "failed"; "legacy_stopped"].
Definition describes (status projection : string) : bool :=
  if status ==? "approved" then projection in? ["approved"; "executing"; "verification_pending"]
  else if status ==? "manual_takeover" then projection ==? "manual_takeover_legacy"
  else projection ==? status.
Lemma projection_describes s : validated s -> describes (af_status (s_approval s)) (_projection_status s) = true.
Proof.
  intros Hv. pose proof (va_status _ Hv) as Hst. pose proof (va_withdrawal _ Hv) as Hw. unfold _projection_status.
  assert (af_status (s_approval s) <> "withdrawn" -> isSome (s_withdrawal s) = false) as Hnw.
  { intros Hne. apply isSome_false. destruct (s_withdrawal s); [|done]. exfalso. apply Hne, Hw. by eexists. }
  repeat (apply elem_of_cons in Hst as [Hst|Hst]); [..|by apply not_elem_of_nil in Hst]; rewrite Hst in *.
  all: try (rewrite Hnw by done; reflexivity).
  - rewrite Hnw by done. cbn [orb].
    destruct (job_is s (fun j => jf_outcome j ==? Some "verification_pending")
              || job_is s (fun j => jf_delivery_hold_reason j ==? Some "state_unknown") || action_status_in s ["unknown"; "verification_pending"]); [reflexivity|].
    destruct (job_is s (fun j => jf_status j ==? "leased") || action_status_in s ["pending"; "running"; "executing"]); reflexivity.
  - rewrite orb_true_r. reflexivity.
Qed.
(** The ten pairs of approval status and projected status. *)
Definition described_pairs : list (string * string) :=
  [("pending", "pending"); ("approved", "approved"); ("approved", "executing"); ("approved", "verification_pending");
   ("executed", "executed"); ("rejected", "rejected"); ("stale", "stale"); ("withdrawn", "withdrawn"); ("failed", "failed");
   ("manual_takeover", "manual_takeover_legacy")].
Lemma projection_pair s : validated s -> (af_status (s_approval s), _projection_status s) ∈ described_pairs.
Proof.
  intros Hv. pose proof (projection_describes s Hv) as Hd. pose proof (va_status _ Hv) as Hst. unfold described_pairs.
  repeat (apply elem_of_cons in Hst as [Hst|Hst]); [..|by apply not_elem_of_nil in Hst]; rewrite Hst in *; unfold describes in Hd.
  all: repeat match type of Hd with context [if ?b then _ else _] => let v := eval vm_compute in b in change b with v in Hd; cbn iota in Hd end.
  all: try (rewrite eqb_true in Hd; rewrite Hd; list_member).
  rewrite mem_true in Hd. repeat (apply elem_of_cons in Hd as [->|Hd]; [list_member|]). by apply not_elem_of_nil in Hd.
Qed.
Lemma pairs_test (f : string -> string -> bool) s :
  validated s -> forallb (fun x => f x.1 x.2) described_pairs = true -> f (af_status (s_approval s)) (_projection_status s) = true.
Proof. intros Hv Hf. rewrite forallb_true_iff in Hf. apply (Hf (_, _)), projection_pair, Hv. Qed.

Lemma project_ok s st :
  project_conversation_action_state s = Ok st ->
  validated s /\ as_approval_id st = af_id (s_approval s) /\ as_approval_status st = af_status (s_approval s) /\
  as_projection_status st = _projection_status s /\ as_execution_state st = _execution_state (_projection_status s) /\
  as_allowed_customer_actions st = (if _projection_status s ==? "pending" then ["withdraw"] else []) /\
  (as_source_event_id st, as_source_event_hash st) = _source_event s /\ as_grants_action_authority st = false /\
  (as_action_type st, as_resource_id st, as_resource_version st) =
  (af_action_type (s_approval s), af_resource_id (s_approval s), af_business_version (s_approval s)).
Proof.
  unfold project_conversation_action_state. intros Hp. apply res_bind_ok in Hp as ([] & Hv & Hp).
  apply validate_sources_ok in Hv. unfold validate_safe_shape in Hp. steps_ok Hp. injection Hp as <-. cbn.
  split_and!; try done. by destruct (_source_event s).
Qed.

(** C33: what the customer is told about an action is what happened.  A state
    says "succeeded" exactly when a succeeded business action of this approval
    exists; that action then has the type, resource and version shown, was
    approved by a human decision and its event is the source of the state.  A
    state that says the action has not started, was not executed, failed or
    was stopped excludes a succeeded and an unresolved business action.  A
    withdrawal is offered exactly while the approval is pending, and no state
    grants authority to act. *)
Theorem projection_truthful s st :
  project_conversation_action_state s = Ok st ->
  (as_execution_state st = "succeeded" <-> exists b, s_business_action s = Some b /\ bf_status b = "succeeded") /\
  (as_execution_state st = "succeeded" -> exists b d,
     s_business_action s = Some b /\ s_decision s = Some d /\ df_decision d ∈ ["approve"; "edit_and_approve"] /\
     bf_approval_id b = Some (as_approval_id st) /\ bf_action_type b = as_action_type st /\
     bf_resource_id b = Some (as_resource_id st) /\ bf_resource_version b = Some (as_resource_version st) /\
     is_Some (as_source_event_id st) /\ as_source_event_id st = bf_canonical_event_id b) /\
  (as_execution_state st ∈ settled_states ->
     forall b, s_business_action s = Some b -> bf_status b ∉ "succeeded" :: unresolved_statuses) /\
  (as_allowed_customer_actions st = ["withdraw"] <-> af_status (s_approval s) = "pending") /\
  as_grants_action_authority st = false.
Proof.
  intros Hp. destruct (project_ok s st Hp) as (Hv & Ei & _ & _ & Ex & Ea & Es & Eg & Ef). injection Ef as Ef1 Ef2 Ef3.
  destruct (effect_of_status s Hv) as (Hexe & Hnot & Hterm).
  assert (_execution_state (_projection_status s) = "succeeded" <-> af_status (s_approval s) = "executed") as Hsucc.
  { rewrite <- (eqb_true (_execution_state (_projection_status s)) "succeeded"), <- (eqb_true (af_status (s_approval s)) "executed").
    apply eq_iff_eq_true, Bool.eqb_prop.
    exact (pairs_test (fun a b => Bool.eqb (_execution_state b ==? "succeeded") (a ==? "executed")) s Hv eq_refl). }
  rewrite Ex. split_and!.
  - rewrite Hsucc. split.
    + intros (b & d & Hb & Hs & _)%Hexe. by exists b.
    + intros (b & Hb & Hs). destruct (decide (af_status (s_approval s) = "executed")) as [|Hne]; [done|].
      specialize (Hnot Hne). unfold action_status_in in Hnot. rewrite Hb, Hs in Hnot. by vm_compute in Hnot.
  - intros Hst%Hsucc. destruct (Hexe Hst) as (b & d & Hb & Hs & He & Hd & Hin). exists b, d.
    destruct (va_action _ Hv b Hb) as (I1 & _ & _ & I2 & I3 & I4).
    unfold _source_event in Es. rewrite Hst, Hb in Es. cbn in Es. injection Es as Es1 Es2. rewrite Es1, Ei, Ef1, Ef2, Ef3. split_and!; done.
  - intros Hset b Hb Hin.
    assert (af_status (s_approval s) ∈ "pending" :: _TERMINAL_WITHOUT_EFFECT) as Hst.
    { rewrite <- mem_true in Hset |- *.
      pose proof (pairs_test (fun a b => implb (_execution_state b in? settled_states) (a in? "pending" :: _TERMINAL_WITHOUT_EFFECT)) s Hv eq_refl) as Hi.
      cbn beta in Hi. rewrite Hset in Hi. exact Hi. }
    specialize (Hterm Hst). unfold action_status_in in Hterm. rewrite Hb in Hterm. rewrite mem_false in Hterm. done.
  - rewrite Ea. assert (_projection_status s ==? "pending" = (af_status (s_approval s) ==? "pending")) as ->.
    { apply Bool.eqb_prop. exact (pairs_test (fun a b => Bool.eqb (b ==? "pending") (a ==? "pending")) s Hv eq_refl). }
    destruct (af_status (s_approval s) ==? "pending") eqn:E; [rewrite eqb_true in E|rewrite eqb_false in E]; by split.
  - done.
Qed.

(** Every consistent aggregate has a state.  When the facts satisfy their
    own validators, the event digests are digests and the validation of the
    aggregate passes, the projection returns a state: its own shape check can
    never fail, so the only refusals are the named inconsistencies. *)
Theorem consistent_sources_project s :
  sources_valid s = true -> hex_or_none (af_expected_ticket_event_hash (s_approval s)) = true ->
  (forall d, s_decision s = Some d -> hex_or_none (df_canonical_event_hash d) = true) ->
  (forall b, s_business_action s = Some b -> hex_or_none (bf_canonical_event_hash b) = true) ->
  _validate_sources s = Ok tt ->
  exists st, project_conversation_action_state s = Ok st.
Proof.
  intros Hsv Hh Hhd Hhb Hval. unfold project_conversation_action_state. rewrite Hval. cbn [res_bind].
  apply validate_sources_ok in Hval as Hv. destruct (va_versions _ Hv) as [V1 V2].
  unfold sources_valid, transition_event_identity_is_complete in Hsv. rewrite !andb_true_iff in Hsv.
  destruct Hsv as [[[[[[T1 T2] T3] T4] T5] D] B].
  assert (hex_or_none (_source_event s).2 = true /\ together (_source_event s).1 (_source_event s).2 = true) as [He Ht].
  { unfold _source_event. destruct (_ in? ["withdrawn"; "stale"; "failed"]); [done|].
    assert (forall x : option string * option string, x = (match s_decision s with
              | Some d => if (af_status (s_approval s) in? ["approved"; "rejected"]) || ((af_status (s_approval s) ==? "manual_takeover") && (df_decision d ==? "manual_takeover"))
                          then (df_canonical_event_id d, df_canonical_event_hash d)
                          else (af_expected_ticket_head_event_id (s_approval s), af_expected_ticket_event_hash (s_approval s))
              | None => (af_expected_ticket_head_event_id (s_approval s), af_expected_ticket_event_hash (s_approval s)) end) ->
            hex_or_none x.2 = true /\ together x.1 x.2 = true) as Hdec.
    { intros x ->. destruct (s_decision s) as [d|] eqn:Ed; [|done]. destruct (_ || _); [|done]. cbn. split; [by apply Hhd|done]. }
    destruct (s_business_action s) as [b|] eqn:Eb; [|by apply Hdec].
    destruct (af_status (s_approval s) ==? "executed"); [|by apply Hdec]. cbn. split; [by apply Hhb|done]. }
  unfold validate_safe_shape. cbn [as_resource_version as_status_version as_source_event_hash as_origin_run_id as_source_event_id
    as_actionable as_allowed_customer_actions as_projection_status as_customer_safe_reason_code].
  destruct (va_run _ Hv) as [run ->].
  rewrite raise_if_false by by apply Z.ltb_ge. rewrite raise_if_false by by apply Z.ltb_ge.
  rewrite raise_if_false by by rewrite He. rewrite raise_if_false by done. rewrite raise_if_false by by rewrite Ht.
  rewrite raise_if_false by by rewrite eqb_reflx.
  destruct (_projection_status s ==? "pending") eqn:Ep.
  - rewrite eqb_true in Ep. rewrite Ep. do 3 rewrite raise_if_false by reflexivity. by eexists.
  - do 2 rewrite raise_if_false by reflexivity. rewrite raise_if_false by by rewrite neqb_false. by eexists.
Qed.

(** ** A concrete aggregate *)
Definition stamp (t : Z) : datetime := utc t.
Definition some_hash : string := sha256_hex "event".
Definition refund_approval (status : string) : ApprovalActionSourceFact :=
  mk_approval_fact "A1" "t1" "T1" "c1" (Some "P1") (Some "R1") "refund" "billing_record_id" "bill1" "U1" 3 status 2
    (Some "E0") (Some some_hash) None None None (stamp 1) (stamp 2).
Definition refund_proposal (status : string) : ProposalActionSourceFact :=
  mk_proposal_fact "P1" "t1" "R1" "refund" "bill1" 3 status (stamp 1) (stamp 3).
Definition approve_decision : HumanDecisionActionSourceFact :=
  mk_decision_fact "D1" "t1" "A1" "approve" (Some "E5") (Some some_hash) (stamp 4) (stamp 4).
Definition refund_action : BusinessActionSourceFact :=
  mk_action_fact "B1" "t1" "T1" "c1" (Some "A1") "refund" (Some "bill1") (Some 3) "succeeded" (Some "E6") (Some some_hash) (stamp 5) (stamp 5).
Definition executed_sources : ConversationActionSources :=
  mk_sources (refund_approval "executed") (Some (refund_proposal "stale")) (Some approve_decision) (Some refund_action) None None.
Definition pending_sources : ConversationActionSources :=
  mk_sources (refund_approval "pending") (Some (refund_proposal "bound")) None None None None.
Lemma projection_truthful_witness :
  exists st, project_conversation_action_state executed_sources = Ok st /\ as_execution_state st = "succeeded" /\
    exists b, s_business_action executed_sources = Some b /\ bf_status b = "succeeded".
Proof.
  destruct (project_conversation_action_state executed_sources) as [st|e] eqn:E; [|exfalso; vm_compute in E; discriminate].
  exists st. split; [reflexivity|]. destruct (projection_truthful executed_sources st E) as [H _].
  assert (exists b, s_business_action executed_sources = Some b /\ bf_status b = "succeeded") as Hb by (exists refund_action; split; reflexivity).
  split; [exact (proj2 H Hb)|exact Hb].
Defined.
Lemma consistent_sources_project_witness : exists st, project_conversation_action_state pending_sources = Ok st.
Proof.
  apply (consistent_sources_project pending_sources).
  - vm_compute. reflexivity.
  - vm_compute. reflexivity.
  - intros d Hd. discriminate Hd.
  - intros b Hb. discriminate Hb.
  - vm_compute. reflexivity.
Defined.
