(* ===== verification/TurnResults.v ===== *)
(** * The result of a turn as the customer sees it (services/turn_results.py)

    A finished run carries a reason and a terminal state; the result shown is
    derived from both, and the list of conversations shows one label per
    conversation.

    Main results: a run that failed is never shown as answered, work is shown
    as waiting for a person only when the conversation is in that mode, every
    result has a label of its own class, and activity in progress hides the
    last result. *)
From S2P Require Import Prelude.
Local Open Scope string_scope.
Local Open Scope list_scope.

Definition TURN_RESULTS : list string :=
  ["answered"; "answered_limited"; "needs_clarification"; "refused"; "proposal_created"; "human_queue"; "failed"; "stale";
   "rejected"; "withdrawn"].
Definition FAILURE_REASONS : list string :=
  ["provider_failed"; "provider_decision_invalid"; "provider_terminal_schema_invalid"; "tool_failed"; "policy_failed";
   "proposal_eligibility_failed"; "proposal_not_durable"; "citation_binding_incomplete"; "insufficient_evidence"; "no_progress";
   "budget_exhausted"; "tool_round_budget_exhausted"; "tool_attempt_budget_exhausted"; "llm_call_budget_exhausted";
   "context_budget_exhausted"; "time_budget_exhausted"; "logical_degradation"; "binding_stale"].
Definition CUSTOMER_RESOLVED_STOP_REASONS : list string := ["obligation_conflict"; "terminal_business_outcome"].
Definition LIMITED_REASONS : list string :=
  ["evidence_freshness_insufficient"; "applicability_condition_unresolved"; "mixed_account_applicability_incomplete";
   "explicit_current_fact_incomplete"].

Definition safe_stop_terminal_state (finish_reason : string) : string :=
  if finish_reason in? CUSTOMER_RESOLVED_STOP_REASONS then "resolved" else "failed".

(** [value in {...}] for an optional value. *)
Definition opt_in (o : option string) (l : list string) : bool := match o with Some s => s in? l | None => false end.

Definition turn_result_for (finish_reason terminal_state : option string) (automation_mode : string) : string :=
  if (finish_reason ==? Some "needs_clarification") || (terminal_state ==? Some "needs_clarification") then "needs_clarification" else
  if opt_in finish_reason LIMITED_REASONS then "answered_limited" else
  if (finish_reason ==? Some "rejected") && (terminal_state ==? Some "rejected") then "rejected" else
  if finish_reason ==? Some "rejected" then "refused" else
  if (finish_reason ==? Some "withdrawn") || (terminal_state ==? Some "withdrawn") then "withdrawn" else
  if (finish_reason ==? Some "stale") || (terminal_state ==? Some "stale") then "stale" else
  if opt_in finish_reason ["refused"; "out_of_scope"] then "refused" else
  if opt_in finish_reason ["proposed"; "proposal_created"] || (terminal_state ==? Some "awaiting_approval") then "proposal_created" else
  if (finish_reason ==? Some "manual_takeover") && (automation_mode ==? "human_queue") then "human_queue" else
  if (finish_reason ==? Some "manual_takeover") || opt_in finish_reason FAILURE_REASONS
     || opt_in terminal_state ["failed"; "manual_takeover"] then "failed"
  else "answered".

Definition labels : list (string * string) :=
  [("answered", "已回答"); ("answered_limited", "已给出有限结论"); ("needs_clarification", "需要补充信息"); ("refused", "请求未执行");
   ("proposal_created", "等待审批"); ("human_queue", "自动处理已停止"); ("failed", "本轮未完成"); ("stale", "业务事实已变化");
   ("rejected", "审批者已拒绝"); ("withdrawn", "申请已撤回")].
Record activity := mk_activity {
  has_running : bool; has_queued : bool; has_pending_action : bool; has_executing_action : bool; has_completed_action : bool;
}.
Definition activity_label (lifecycle automation_mode : string) (latest_result : option string) (a : activity) : string :=
  if has_executing_action a then "正在执行已批准操作" else
  if has_pending_action a then "等待审批" else
  if has_completed_action a then "操作已完成" else
  if has_running a then "正在处理" else
  if has_queued a then "排队中" else
  if automation_mode ==? "human_queue" then "自动处理已停止" else
  match (latest_result ≫= fun r => find_first (fun kv => kv.1 ==? r) labels) with
  | Some kv => kv.2
  | None => if lifecycle ==? "archived" then "已归档" else "等待处理"
  end.

(** ** Lemmas *)
(** Splits the tests of a result, keeping what each decides. *)
Ltac split_tests :=
  repeat match goal with
         | H : context [if ?b then _ else _] |- _ => destruct b eqn:?
         | |- context [if ?b then _ else _] => destruct b eqn:?
         end.
Lemma opt_in_true o l : opt_in o l = true <-> exists s, o = Some s /\ s ∈ l.
Proof. destruct o as [s|]; simpl; [rewrite mem_true|]; naive_solver. Qed.

Lemma result_listed reason state mode : turn_result_for reason state mode ∈ TURN_RESULTS.
Proof. unfold turn_result_for, TURN_RESULTS. split_tests; list_member. Qed.

Lemma label_of r : r ∈ TURN_RESULTS -> exists label, find_first (fun kv => kv.1 ==? r) labels = Some (r, label) /\ (r, label) ∈ labels.
Proof.
  intros Hr. unfold TURN_RESULTS in Hr.
  repeat (apply elem_of_cons in Hr as [->|Hr]; [eexists; split; [reflexivity|list_member]|]). by apply not_elem_of_nil in Hr.
Qed.

(** ** Properties *)
(** A result is one of the ten, has a label, and says that a person takes over
    exactly when the run asked for it, nothing else explains its end, and the
    conversation is in that mode. *)
Theorem human_queue_honest reason state mode :
  turn_result_for reason state mode = "human_queue" <->
  reason = Some "manual_takeover" /\ mode = "human_queue" /\
  opt_in state ["needs_clarification"; "withdrawn"; "stale"; "awaiting_approval"] = false.
Proof.
  unfold turn_result_for. split.
  - intros E. split_tests; try discriminate. to_prop. destruct_and?. simplify_eq.
    split_and!; [done..|]. destruct state as [s|]; [|done]. simpl. apply mem_false.
    repeat match goal with H : _ || _ = false |- _ => apply orb_false_iff in H as [? ?] end. to_prop. set_solver.
  - intros (-> & -> & Hs). destruct state as [s|]; [|done]. simpl in Hs. rewrite mem_false in Hs.
    assert (s <> "needs_clarification" /\ s <> "withdrawn" /\ s <> "stale" /\ s <> "awaiting_approval") as (H1 & H2 & H3 & H4) by set_solver.
    rewrite (proj2 (eqb_false (Some s) (Some "needs_clarification"))), (proj2 (eqb_false (Some s) (Some "withdrawn"))),
      (proj2 (eqb_false (Some s) (Some "stale"))), (proj2 (eqb_false (Some s) (Some "awaiting_approval"))) by congruence. done.
Qed.

(** A run that stopped for a failure reason, or ended in the failed state
    without a reason of its own, is never shown as answered. *)
Theorem failure_never_answered reason state mode :
  opt_in reason FAILURE_REASONS || (reason ==? Some "manual_takeover") || opt_in state ["failed"; "manual_takeover"] = true ->
  turn_result_for reason state mode <> "answered".
Proof. intros Hf E. unfold turn_result_for in E. split_tests; try discriminate. by destruct (opt_in _ _), (_ ==? _), (opt_in state _). Qed.
Lemma failure_never_answered_witness :
  turn_result_for (Some "no_progress") (Some "failed") "agent" = "failed" /\
  turn_result_for (Some "no_progress") (Some "failed") "agent" <> "answered".
Proof. split; [reflexivity|]. apply (failure_never_answered (Some "no_progress") (Some "failed") "agent"). reflexivity. Defined.

(** A conversation with nothing in progress shows the label of its last
    result; the labels of different results differ, except that a waiting
    proposal reads as a pending action does. *)
Theorem idle_label lifecycle reason state mode :
  mode <> "human_queue" ->
  exists label, (turn_result_for reason state mode, label) ∈ labels /\
    activity_label lifecycle mode (Some (turn_result_for reason state mode)) (mk_activity false false false false false) = label /\
    forall r, (r, label) ∈ labels -> r = turn_result_for reason state mode.
Proof.
  intros Hm. destruct (label_of _ (result_listed reason state mode)) as (label & Hl & Hin).
  exists label. split; [done|]. split.
  - unfold activity_label. cbn -[eqb labels turn_result_for]. rewrite (proj2 (eqb_false mode "human_queue") Hm). by rewrite Hl.
  - intros r Hr. assert ((r, label) = (turn_result_for reason state mode, label)) as [= ->]; [|done].
    eapply (nodup_map_inj snd labels); [|done..]. apply (bool_decide_unpack _). vm_compute. exact I.
Qed.
Lemma idle_label_witness :
  activity_label "active" "agent" (Some "failed") (mk_activity false false false false false) = "本轮未完成" /\
  exists label, (turn_result_for (Some "tool_failed") None "agent", label) ∈ labels /\
    activity_label "active" "agent" (Some (turn_result_for (Some "tool_failed") None "agent")) (mk_activity false false false false false) = label /\
    forall r, (r, label) ∈ labels -> r = turn_result_for (Some "tool_failed") None "agent".
Proof. split; [reflexivity|]. apply (idle_label "active" (Some "tool_failed") None "agent"). discriminate. Defined.
