(* ===== verification/ActionPipeline.v ===== *)
(** * The proposal, approval and effect pipeline (actions/service.py)

    The typed values that cross the pipeline (candidate, decision, effect) and
    [ActionService], which reserves a capability, calls the action tool,
    settles the capability and only then accepts a durable proposal.

    The host, the gateway and the decision handler are the pipeline's
    interfaces: [ActionPipelineHost] and [ActionDecisionHandler] are records of
    what one run of them answers, and the run returns the calls made with the
    outcome, so ordering and counts are part of the statements. *)
From S2P Require Import Prelude PyValue ActionSpecs.
Local Open Scope string_scope.
Local Open Scope list_scope.
Local Open Scope Z_scope.

(** ** Action candidates *)
Record ActionCandidate := mk_candidate {
  cand_action_type : ActionType;
  cand_proposal_action : string;
  cand_policy_capability : string;
  cand_runtime_effect_capability : string;
  resource_type : string;
  resource_id : string;
  resource_version : Z;
  trusted_arguments : pydict;
  observation_binding : list pydict;
  citation_binding_ids : list string;
}.

(** [ActionCandidate.validate_action_contract] *)
Definition validate_action_contract (c : ActionCandidate) : res unit :=
  match get_action_spec_by_proposal (cand_proposal_action c) with
  | None => Err (ValueError "action candidate does not match the ActionSpec")
  | Some spec =>
      raise ValueError "action candidate does not match the ActionSpec"
        when (action_type spec !=? cand_action_type c)
             || (policy_capability spec !=? cand_policy_capability c)
             || (runtime_effect_capability spec !=? cand_runtime_effect_capability c) ;;
      let? field := resource_field spec in
      raise ValueError "action candidate does not match the ActionSpec" when field !=? resource_type c ;;
      let? _ := model_validate (proposal_schema spec) (trusted_arguments c) in
      Ok tt
  end.

(** Constructing an [ActionCandidate]: field bounds, then the validator. *)
Definition validate_candidate (c : ActionCandidate) : res ActionCandidate :=
  raise ValidationError "action candidate field"
    when negb (len_between 1 128 (resource_type c) && len_between 1 128 (resource_id c)
               && (0 <=? resource_version c) && negb (is_nil (observation_binding c))) ;;
  let? _ := validate_action_contract c in
  Ok c.

Definition build_action_candidate (proposal_action_ action_type_ : string)
    (resource_type_ resource_id_ : option string) (resource_version_ : option Z)
    (trusted_arguments_ : pydict) (observation_binding_ : list pydict)
    (citation_binding_ids_ : list string) : res ActionCandidate :=
  match get_action_spec_by_proposal proposal_action_ with
  | None => Err (ValueError "action candidate identity is unsupported")
  | Some spec =>
      raise ValueError "action candidate identity is unsupported"
        when action_type_str (action_type spec) !=? action_type_ ;;
      let? rtype := match resource_type_ with
                    | Some t => if is_empty_str t then resource_field spec else Ok t
                    | None => resource_field spec
                    end in
      validate_candidate {|
        cand_action_type := action_type spec;
        cand_proposal_action := proposal_action spec;
        cand_policy_capability := policy_capability spec;
        cand_runtime_effect_capability := runtime_effect_capability spec;
        resource_type := rtype;
        resource_id := default "" resource_id_;
        resource_version := default (-1) resource_version_;
        trusted_arguments := trusted_arguments_;
        observation_binding := observation_binding_;
        citation_binding_ids := citation_binding_ids_ |}
  end.

(** ** Approval decisions and runtime effects *)
Definition approval_decision_actions : list string := ["approve"; "edit_and_approve"; "reject"; "manual_takeover"].
Definition runtime_effect_statuses : list string :=
  ["succeeded"; "stale"; "execution_pending"; "execution_precondition_failed"; "approved"; "rejected";
   "manual_takeover"].

Record ApprovalDecision := mk_decision {
  dec_approval_id : string;
  dec_idempotency_key : string;
  dec_action : string;
  dec_command : pydict;
}.

Record RuntimeEffectResult := mk_effect {
  eff_approval_id : string;
  eff_action_type : ActionType;
  eff_resource_id : string;
  eff_status : string;
  business_action_id : option string;
  reused : option bool;
  reason : option string;
  eff_payload : pydict;
}.

Section decisions.
Context `{PyRuntime}.

(** [ApprovalDecision(...)] with [validate_command_identity]. *)
Definition validate_command_identity (d : ApprovalDecision) : res ApprovalDecision :=
  raise ValidationError "approval decision field"
    when negb (len_between 1 128 (dec_approval_id d) && len_between 1 256 (dec_idempotency_key d)
               && (dec_action d in? approval_decision_actions)) ;;
  raise ValueError "approval decision action changed during normalization"
    when py_str (dget_or "action" (PyStr "") (dec_command d)) !=? dec_action d ;;
  let command_approval_id := py_str (dget_or "approval_id" (PyStr "") (dec_command d)) in
  raise ValueError "approval decision identity changed during normalization"
    when negb (is_empty_str command_approval_id) && (command_approval_id !=? dec_approval_id d) ;;
  let command_idempotency_key := py_str (dget_or "idempotency_key" (PyStr "") (dec_command d)) in
  raise ValueError "approval idempotency identity changed during normalization"
    when negb (is_empty_str command_idempotency_key) && (command_idempotency_key !=? dec_idempotency_key d) ;;
  Ok d.

Definition build_approval_decision (command proposal_result : pydict) : res ApprovalDecision :=
  let command_approval_id := py_str (py_or (command.["approval_id"]) (PyStr "")) in
  let proposal_approval_id := py_str (py_or (proposal_result.["approval_id"]) (PyStr "")) in
  raise ValueError "approval decision identity changed during normalization"
    when negb (is_empty_str command_approval_id) && negb (is_empty_str proposal_approval_id)
         && (command_approval_id !=? proposal_approval_id) ;;
  let approval_id := py_str (py_or (command.["approval_id"])
                               (py_or (proposal_result.["approval_id"]) (PyStr ""))) in
  let idempotency_key :=
    py_str (py_or (command.["idempotency_key"])
              (py_or (proposal_result.["idempotency_key"])
                 (PyStr (if is_empty_str approval_id then "" else "approval:" +:+ approval_id)))) in
  validate_command_identity {|
    dec_approval_id := approval_id;
    dec_idempotency_key := idempotency_key;
    dec_action := py_str (dget_or "action" (PyStr "") command);
    dec_command := command |}.

Definition expected_identity (r : RuntimeEffectResult) : list (string * string) :=
  [("approval_id", eff_approval_id r); ("action_type", action_type_str (eff_action_type r));
   ("resource_id", eff_resource_id r); ("status", eff_status r)].

(** [RuntimeEffectResult(...)] with [validate_effect_identity]. *)
Definition validate_effect_identity (r : RuntimeEffectResult) : res RuntimeEffectResult :=
  raise ValidationError "runtime effect field"
    when negb (len_between 1 128 (eff_approval_id r) && len_between 1 128 (eff_resource_id r)
               && (eff_status r in? runtime_effect_statuses)) ;;
  raise ValueError "runtime effect identity changed during projection"
    when existsb (fun kv => match dget kv.1 (eff_payload r) with
                            | Some v => py_str v !=? kv.2
                            | None => false
                            end) (expected_identity r) ;;
  Ok r.

Definition build_runtime_effect_result (candidate : ActionCandidate) (decision : ApprovalDecision)
    (payload : pydict) : res RuntimeEffectResult :=
  let optional key :=
    if truthy (payload.[key]) then Some (py_str (payload.[key])) else None in
  validate_effect_identity {|
    eff_approval_id := dec_approval_id decision;
    eff_action_type := cand_action_type candidate;
    eff_resource_id := resource_id candidate;
    eff_status := py_str (dget_or "status" (PyStr "") payload);
    business_action_id := optional "business_action_id";
    reused := truthy <$> dget "reused" payload;
    reason := optional "reason";
    eff_payload := payload |}.
End decisions.

(** ** The service *)

(** [except (TypeError, ValueError)], with the subclasses of [ValueError]. *)
Definition type_or_value_error (e : exn) : bool :=
  match e with
  | ValueError _ | TypeError _ | CanonicalJsonError _ | ValidationError _ => true
  | _ => false
  end.
(** [type(exc).__name__] of those. *)
Definition exn_name (e : exn) : string :=
  match e with
  | ValueError _ => "ValueError"
  | TypeError _ => "TypeError"
  | CanonicalJsonError _ => "CanonicalJsonError"
  | ValidationError _ => "ValidationError"
  | _ => "Exception"
  end.

Record settlement := mk_settlement { set_status : string; set_payload : pydict }.
Record ActionProposalResult := mk_proposal_result { res_candidate : ActionCandidate; proposal : pydict }.
Record ActionExecutionResult := mk_execution { exe_decision : ApprovalDecision; effect : RuntimeEffectResult;
                                               exe_payload : pydict }.

(** The calls [propose] makes, in order. *)
Inductive event :=
| EReserve (capability : string)
| ECall (capability : string) (reserved : bool)
| EFinish (reserved : bool) (status : string) (error_code : option string) (payload : option pydict)
| EVerify (proposal : pydict).

Section service.
(** A reservation (lease and capability), and what the action tool returns. *)
Context {Reservation ToolResult : Type}.

(** The answers of one run of the host, the gateway and [verify_durable]. *)
Record ActionPipelineHost := {
  reserve_action_capability : res (option Reservation);
  call_action : option Reservation -> res ToolResult;
  (* [Some (status, error_code)] when the result is an [ObservationEnvelope] *)
  as_envelope : ToolResult -> option (string * option string);
  finish_action_capability :
    option Reservation -> string -> option string -> option pydict -> res (option settlement);
  action_capability_payload : ToolResult -> pydict;
  action_result_payload : ToolResult -> pydict;
  verify_durable : pydict -> res bool;
}.
Variable host : ActionPipelineHost.

(** How the capability of a returned result is settled. *)
Definition settle_as (result : ToolResult) : string * option string * pydict :=
  let envelope := as_envelope host result in
  let status :=
    match envelope with
    | Some (s, _) => if s in? ["timeout"; "unavailable"] then "unknown"
                     else if s ==? "ok" then "succeeded" else "failed"
    | None => "succeeded"
    end in
  let error := match envelope with Some (_, e) => e | None => None end in
  let payload := action_capability_payload host result in
  if (status ==? "succeeded") && negb (truthy (payload.["proposal_id"]))
  then ("failed", Some "proposal_not_durable", [])
  else (status, error, payload).

Definition not_durable : exn := PipelineError "proposal_not_durable" (Some "proposal_not_durable").

(** The durability check that ends [propose]. *)
Definition check_durable (candidate : ActionCandidate) (p : pydict)
    : list event * res ActionProposalResult :=
  if negb (truthy (p.["proposal_id"])) then ([], Err not_durable)
  else ([EVerify p],
        let? durable := verify_durable host p in
        raise not_durable when negb durable ;;
        Ok (mk_proposal_result candidate p)).

(** The part of [propose] after the [try] block. *)
Definition settle (candidate : ActionCandidate) (reserved : option Reservation) (result : ToolResult)
    : list event * res ActionProposalResult :=
  let '(status, error, payload) := settle_as result in
  let stored := if is_nil payload then None else Some payload in
  let finish := EFinish (isSome reserved) status error stored in
  match finish_action_capability host reserved status error stored with
  | Err e => ([finish], Err e)
  | Ok settled =>
      let prop := match settled with
                  | Some s => if set_status s ==? "succeeded" then set_payload s
                              else action_result_payload host result
                  | None => action_result_payload host result
                  end in
      match as_envelope host result with
      | Some (st, code) =>
          if st !=? "ok" then ([finish], Err (PipelineError "tool_failed" code))
          else let '(evs, r) := check_durable candidate prop in (finish :: evs, r)
      | None => let '(evs, r) := check_durable candidate prop in (finish :: evs, r)
      end
  end.

(** The [except (TypeError, ValueError)] clause: a reservation that was
    obtained is settled as failed before the error is replaced. *)
Definition recover (reserved : option Reservation) (e : exn) : list event * res ActionProposalResult :=
  if type_or_value_error e then
    match reserved with
    | Some r =>
        ([EFinish true "failed" (Some (exn_name e)) None],
         let? _ := finish_action_capability host reserved "failed" (Some (exn_name e)) None in
         Err (PipelineError "tool_failed" None))
    | None => ([], Err (PipelineError "tool_failed" None))
    end
  else ([], Err e).

(** [ActionService.propose]; building the tool context is part of [call_action]. *)
Definition propose (candidate : ActionCandidate) : list event * res ActionProposalResult :=
  let name := cand_policy_capability candidate in
  match reserve_action_capability host with
  | Err e => let '(evs, r) := recover None e in (EReserve name :: evs, r)
  | Ok reserved =>
      let '(evs, r) :=
        match call_action host reserved with
        | Err e => recover reserved e
        | Ok result => settle candidate reserved result
        end in
      (EReserve name :: ECall name (isSome reserved) :: evs, r)
  end.

(** [ActionService.execute], with the handler's answer. *)
Definition execute `{PyRuntime} (handler : ApprovalDecision -> res pydict)
    (candidate : ActionCandidate) (decision : ApprovalDecision) : res ActionExecutionResult :=
  let? payload := handler decision in
  let? eff := build_runtime_effect_result candidate decision payload in
  Ok (mk_execution decision eff payload).
End service.
Arguments ActionPipelineHost : clear implicits.

(** ** Lemmas *)
Definition is_finish (e : event) : bool := match e with EFinish _ _ _ _ => true | _ => false end.
Definition count_finish (l : list event) : nat := length (List.filter is_finish l).

Section lemmas.
Context {Reservation ToolResult : Type} (host : ActionPipelineHost Reservation ToolResult).

Lemma check_durable_spec c p :
  check_durable host c p =
    if truthy (p.["proposal_id"])
    then ([EVerify p],
          let? durable := verify_durable host p in
          raise not_durable when negb durable ;; Ok (mk_proposal_result c p))
    else ([], Err not_durable).
Proof. unfold check_durable. by destruct (truthy _). Qed.

Lemma settle_once c reserved result : count_finish (settle host c reserved result).1 = 1%nat.
Proof.
  unfold settle. destruct (settle_as host result) as [[st err] pl].
  destruct (finish_action_capability _ _ _ _ _) as [s|]; [|done]. rewrite !check_durable_spec.
  destruct (as_envelope host result) as [[? ?]|]; [destruct (_ !=? _); [done|]|]; by destruct (truthy _).
Qed.

Lemma settle_success c reserved result evs r :
  settle host c reserved result = (evs, Ok r) ->
  exists st err stored,
    evs = [EFinish (isSome reserved) st err stored; EVerify (proposal r)] /\
    (st = "succeeded" \/ st = "failed" /\ err = Some "proposal_not_durable") /\
    (forall s code, as_envelope host result = Some (s, code) -> s = "ok") /\
    truthy ((proposal r).["proposal_id"]) = true /\ verify_durable host (proposal r) = Ok true /\
    res_candidate r = c.
Proof.
  unfold settle. destruct (settle_as host result) as [[st err] pl] eqn:Es.
  destruct (finish_action_capability _ _ _ _ _) as [s|]; [|done]. rewrite !check_durable_spec.
  set (prop := match s with Some _ => _ | None => _ end). clearbody prop.
  intros H. assert ((forall s code, as_envelope host result = Some (s, code) -> s = "ok") /\
    truthy (prop.["proposal_id"]) = true /\
    (evs, Ok r) = ([EFinish (isSome reserved) st err (if is_nil pl then None else Some pl); EVerify prop],
       let? durable := verify_durable host prop in
       raise not_durable when negb durable ;; Ok (mk_proposal_result c prop))) as (Henv & Ht & Hr).
  { destruct (as_envelope host result) as [[es ec]|]; [destruct (es !=? "ok") eqn:Eo; [done|]; to_prop|];
      destruct (truthy (prop.["proposal_id"])); try done; (split; [|split; [done|by symmetry]]); naive_solver. }
  injection Hr as -> Hr. symmetry in Hr. apply res_bind_ok in Hr as (durable & Hv & Hr). apply raise_if_ok in Hr as [Hd Hr].
  destruct durable; [|done]. simplify_eq. simpl.
  exists st, err, (if is_nil pl then None else Some pl). split_and!; try done.
  unfold settle_as in Es. destruct (as_envelope host result) as [[es ec]|] eqn:Ee.
  - rewrite (Henv es ec eq_refl) in Es. destruct (_ && _); simplify_eq; eauto.
  - destruct (_ && _); simplify_eq; eauto.
Qed.
End lemmas.

Section decision_lemmas.
Context `{PyRuntime}.

Lemma validate_command_identity_ok d d' :
  validate_command_identity d = Ok d' ->
  d' = d /\ dec_approval_id d <> "" /\ dec_idempotency_key d <> "" /\ dec_action d ∈ approval_decision_actions.
Proof.
  unfold validate_command_identity, len_between. intros Hv. steps_ok Hv. simplify_eq. to_prop.
  destruct Hguard as [[[? ?] [? ?]] ?]. split_and!; [done| | |done]; intros E; rewrite E in *; simpl in *; lia.
Qed.

Lemma validate_effect_identity_ok r r' :
  validate_effect_identity r = Ok r' ->
  r' = r /\ eff_status r ∈ runtime_effect_statuses /\ eff_approval_id r <> "" /\ eff_resource_id r <> "" /\
  forall k v w, dget k (eff_payload r) = Some v -> (k, w) ∈ expected_identity r -> py_str v = w.
Proof.
  unfold validate_effect_identity, len_between. intros Hv. steps_ok Hv. simplify_eq. to_prop.
  destruct Hguard as [[[? ?] [? ?]] ?]. rewrite existsb_false_iff in Hguard0.
  split_and!; [done|done|intros E; rewrite E in *; simpl in *; lia..|].
  intros k v w Hk Hin. specialize (Hguard0 (k, w) Hin). simpl in Hguard0. rewrite Hk in Hguard0. by to_prop.
Qed.
End decision_lemmas.

(** ** Properties *)

(** [propose] returns a proposal only after the whole protocol: the
    capability was reserved, the tool called once, the capability settled
    once, and the proposal the caller receives carries an identity that
    [verify_durable] confirmed; the tool's envelope, if any, said ok. *)
Theorem propose_success {R T} (host : ActionPipelineHost R T) c evs r :
  propose host c = (evs, Ok r) ->
  exists reserved result status error stored,
    reserve_action_capability host = Ok reserved /\ call_action host reserved = Ok result /\
    evs = [EReserve (cand_policy_capability c); ECall (cand_policy_capability c) (isSome reserved);
           EFinish (isSome reserved) status error stored; EVerify (proposal r)] /\
    (status = "succeeded" \/ status = "failed" /\ error = Some "proposal_not_durable") /\
    (forall s code, as_envelope host result = Some (s, code) -> s = "ok") /\
    truthy ((proposal r).["proposal_id"]) = true /\ verify_durable host (proposal r) = Ok true /\
    res_candidate r = c.
Proof.
  unfold propose, recover. intros H.
  destruct (reserve_action_capability host) as [reserved|e]; [|destruct (type_or_value_error e); done].
  destruct (call_action host reserved) as [result|e] eqn:Ec.
  - destruct (settle host c reserved result) as [evs' r'] eqn:Es. simplify_eq.
    apply settle_success in Es as (st & err & stored & -> & ? & ? & ? & ? & ?).
    exists reserved, result, st, err, stored. split_and!; done.
  - destruct (type_or_value_error e); [|done]. destruct reserved; [|done].
    destruct (finish_action_capability _ _ _ _ _); done.
Qed.

Definition demo_host : ActionPipelineHost unit pydict := {|
  reserve_action_capability := Ok (Some tt);
  call_action _ := Ok [("proposal_id", PyStr "p-1")];
  as_envelope _ := None;
  finish_action_capability _ s _ p := Ok (Some (mk_settlement s (default [] p)));
  action_capability_payload d := d;
  action_result_payload d := d;
  verify_durable _ := Ok true;
|}.
Definition demo_arguments : pydict :=
  [("billing_record_id", PyStr "bill-7"); ("refund_reason", PyStr "charged twice")].
Definition demo_candidate : ActionCandidate :=
  mk_candidate Refund "refund_proposal" "propose_refund" "execute_refund" "billing_record_id" "bill-7" 3
    demo_arguments [[("obligation_id", PyStr "billing_record_current")]] [].
Definition demo_result : ActionProposalResult :=
  mk_proposal_result demo_candidate [("proposal_id", PyStr "p-1")].

Lemma propose_success_witness :
  exists reserved result status error stored,
    reserve_action_capability demo_host = Ok reserved /\ call_action demo_host reserved = Ok result /\
    (propose demo_host demo_candidate).1 =
      [EReserve "propose_refund"; ECall "propose_refund" (isSome reserved);
       EFinish (isSome reserved) status error stored; EVerify (proposal demo_result)] /\
    (status = "succeeded" \/ status = "failed" /\ error = Some "proposal_not_durable") /\
    (forall s code, as_envelope demo_host result = Some (s, code) -> s = "ok") /\
    truthy ((proposal demo_result).["proposal_id"]) = true /\
    verify_durable demo_host (proposal demo_result) = Ok true /\ res_candidate demo_result = demo_candidate.
Proof. apply (propose_success demo_host demo_candidate _ demo_result). vm_compute. reflexivity. Defined.

(** No reservation is settled twice, and none that the pipeline still
    owns is left open: [finish_action_capability] is called exactly once when
    the tool returned, and exactly once when a reservation was obtained and
    the tool call raised [TypeError] or [ValueError]; never otherwise (any
    other exception leaves the capability to reconciliation). *)
Theorem propose_settles_once {R T} (host : ActionPipelineHost R T) c :
  count_finish (propose host c).1 =
    match reserve_action_capability host with
    | Err _ => 0%nat
    | Ok reserved =>
        match call_action host reserved with
        | Ok _ => 1%nat
        | Err e => if isSome reserved && type_or_value_error e then 1%nat else 0%nat
        end
    end.
Proof.
  unfold propose, recover. destruct (reserve_action_capability host) as [reserved|e].
  - destruct (call_action host reserved) as [result|e].
    + pose proof (settle_once host c reserved result) as H. by destruct (settle host c reserved result).
    + by destruct (type_or_value_error e), reserved.
  - by destruct (type_or_value_error e).
Qed.

(** A candidate that is built speaks for one registry entry: proposal,
    action type, policy and effect capability and resource field all belong to
    the spec of its proposal action, the identity and version are present, and
    its arguments satisfy that spec's schema. *)
Theorem candidate_bound_to_spec pa at_ rt ri rv args obs cites c :
  build_action_candidate pa at_ rt ri rv args obs cites = Ok c ->
  exists spec,
    get_action_spec_by_proposal pa = Some spec /\ action_type_str (action_type spec) = at_ /\
    cand_action_type c = action_type spec /\ cand_proposal_action c = proposal_action spec /\
    cand_policy_capability c = policy_capability spec /\
    cand_runtime_effect_capability c = runtime_effect_capability spec /\
    resource_field spec = Ok (resource_type c) /\ ri = Some (resource_id c) /\ resource_id c <> "" /\
    rv = Some (resource_version c) /\ 0 <= resource_version c /\
    is_ok (model_validate (proposal_schema spec) args) = true /\
    trusted_arguments c = args /\ observation_binding c = obs /\ obs <> [].
Proof.
  unfold build_action_candidate, validate_candidate, validate_action_contract. intros H.
  destruct (get_action_spec_by_proposal pa) as [spec|] eqn:Ep; [|done]. steps_ok H. simplify_eq. simpl in *.
  apply index_get_spec in Ep as Ep'. destruct Ep' as [_ Epa].
  unfold get_action_spec_by_proposal in Hstep0 at 1. rewrite Epa in Hstep0.
  fold (get_action_spec_by_proposal pa) in Hstep0. rewrite Ep in Hstep0. steps_ok Hstep0.
  unfold len_between in *. to_prop. exists spec. destruct_and! Hguard0. subst.
  assert (ri = Some (default "" ri) /\ default "" ri <> "") as [? ?].
  { destruct ri as [s|]; simpl in *; [split; [done|intros ->; simpl in *; lia]|lia]. }
  assert (rv = Some (default (-1) rv)) by (destruct rv; simpl in *; [done|lia]).
  split_and!; try done. by rewrite Hstep2.
Qed.
Lemma candidate_bound_to_spec_witness :
  exists spec,
    get_action_spec_by_proposal "refund_proposal" = Some spec /\ action_type_str (action_type spec) = "refund" /\
    cand_action_type demo_candidate = action_type spec /\ cand_proposal_action demo_candidate = proposal_action spec /\
    cand_policy_capability demo_candidate = policy_capability spec /\
    cand_runtime_effect_capability demo_candidate = runtime_effect_capability spec /\
    resource_field spec = Ok (resource_type demo_candidate) /\
    Some "bill-7" = Some (resource_id demo_candidate) /\ resource_id demo_candidate <> "" /\
    Some 3 = Some (resource_version demo_candidate) /\ 0 <= resource_version demo_candidate /\
    is_ok (model_validate (proposal_schema spec) demo_arguments) = true /\
    trusted_arguments demo_candidate = demo_arguments /\
    observation_binding demo_candidate = [[("obligation_id", PyStr "billing_record_current")]] /\
    [[("obligation_id", PyStr "billing_record_current")]] <> [].
Proof.
  apply (candidate_bound_to_spec _ _ None _ _ _ _ []). vm_compute. reflexivity.
Defined.

(** Approval identity survives normalisation.  A decision that is built
    refers to the approval the human command names and, when the proposal
    result names one too, to the same one; its action is one of the four
    decisions, spelled as in the command, and its idempotency key is present. *)
Theorem approval_decision_identity `{PyRuntime} command result d :
  build_approval_decision command result = Ok d ->
  let named m := py_str (py_or (m.["approval_id"]) (PyStr "")) in
  (named command <> "" -> dec_approval_id d = named command) /\
  (named result <> "" -> dec_approval_id d = named result) /\
  (named command <> "" \/ named result <> "") /\
  dec_action d ∈ approval_decision_actions /\
  dec_action d = py_str (dget_or "action" (PyStr "") command) /\
  dec_idempotency_key d <> "" /\ dec_command d = command.
Proof.
  unfold build_approval_decision. intros Hb. step_ok Hb.
  apply validate_command_identity_ok in Hb as (-> & Ha & Hk & Hin). simpl in *. unfold py_or in *.
  destruct (truthy (command.["approval_id"])) eqn:Ec; simpl in *.
  - split_and!; try done; [|by left]. intros Hr. to_prop. naive_solver.
  - split_and!; try done. by right.
Qed.
Definition demo_command : pydict := [("action", PyStr "approve"); ("approval_id", PyStr "ap-1")].
Definition demo_decision : ApprovalDecision :=
  mk_decision "ap-1" "approval:ap-1" "approve" demo_command.
Lemma approval_decision_identity_witness :
  let named m := @py_str ascii_runtime (py_or (dget_or "approval_id" PyNone m) (PyStr "")) in
  (named demo_command <> "" -> dec_approval_id demo_decision = named demo_command) /\
  (named [] <> "" -> dec_approval_id demo_decision = named []) /\
  (named demo_command <> "" \/ named [] <> "") /\
  dec_action demo_decision ∈ approval_decision_actions /\
  dec_action demo_decision = @py_str ascii_runtime (dget_or "action" (PyStr "") demo_command) /\
  dec_idempotency_key demo_decision <> "" /\ dec_command demo_decision = demo_command.
Proof. apply (@approval_decision_identity ascii_runtime). vm_compute. reflexivity. Defined.

(** The effect the graph sees is the effect of this decision.  A result of
    [execute] carries the decision's approval and the candidate's action and
    resource, a status of the runtime's vocabulary, and the handler's payload
    unchanged; a payload that names any other approval, action, resource or
    status is refused. *)
Theorem execute_effect_identity `{PyRuntime} handler c d r :
  execute handler c d = Ok r ->
  handler d = Ok (exe_payload r) /\ exe_decision r = d /\ eff_payload (effect r) = exe_payload r /\
  eff_approval_id (effect r) = dec_approval_id d /\ eff_action_type (effect r) = cand_action_type c /\
  eff_resource_id (effect r) = resource_id c /\ eff_status (effect r) ∈ runtime_effect_statuses /\
  forall k v w, dget k (exe_payload r) = Some v -> (k, w) ∈ expected_identity (effect r) -> py_str v = w.
Proof.
  unfold execute, build_runtime_effect_result. intros He. steps_ok He. simplify_eq. simpl.
  apply validate_effect_identity_ok in Hstep0 as (-> & ? & _ & _ & Hid). simpl in *. split_and!; done.
Qed.
Definition demo_payload : pydict :=
  [("status", PyStr "succeeded"); ("business_action_id", PyStr "ba-1"); ("approval_id", PyStr "ap-1")].
Definition demo_execution : ActionExecutionResult :=
  mk_execution demo_decision
    (mk_effect "ap-1" Refund "bill-7" "succeeded" (Some "ba-1") None None demo_payload) demo_payload.
Lemma execute_effect_identity_witness :
  let handler := fun _ : ApprovalDecision => Ok demo_payload in let r := demo_execution in
  handler demo_decision = Ok (exe_payload r) /\ exe_decision r = demo_decision /\
  eff_payload (effect r) = exe_payload r /\
  eff_approval_id (effect r) = dec_approval_id demo_decision /\
  eff_action_type (effect r) = cand_action_type demo_candidate /\
  eff_resource_id (effect r) = resource_id demo_candidate /\ eff_status (effect r) ∈ runtime_effect_statuses /\
  forall k v w, dget k (exe_payload r) = Some v -> (k, w) ∈ expected_identity (effect r) ->
    @py_str ascii_runtime v = w.
Proof. apply (@execute_effect_identity ascii_runtime). vm_compute. reflexivity. Defined.
