(* ===== verification/Obligations.v ===== *)
(** * The evidence-obligation ledger (agent/obligations.py)

    Before a proposal is assembled the runtime rebuilds, from the
    observations of the current run, which evidence obligations of the action
    are met.  This file models the whole module: scopes, freshness,
    hard failures, terminal business outcomes, resource and knowledge
    obligations, and the decision [evaluate_action_obligations] takes.

    An observation is a Python dictionary; every access that may raise in the
    source ([int], a missing key, [.get] on a value that is no dictionary, an
    unhashable set member, a Pydantic pattern) raises here. *)
From Stdlib Require Import Ascii.
From S2P Require Import Prelude PyValue Sha256 CanonicalJson ActionSpecs.
Local Open Scope string_scope.
Local Open Scope list_scope.
Local Open Scope Z_scope.

(** ** Data *)
Inductive ObligationStatus :=
| Pending | ReadQualified | Satisfied | Stale | Conflicted | Failed | Terminal.
Inductive LedgerNextState :=
| CollectReads | Synthesize | AssembleCandidate | Clarify | SafeStop | ExplainTerminal.

#[export] Instance ObligationStatus_eq_dec : EqDecision ObligationStatus.
Proof. solve_decision. Defined.
#[export] Instance LedgerNextState_eq_dec : EqDecision LedgerNextState.
Proof. solve_decision. Defined.

(** contracts/action_preconditions.py: [ActionAdmissionV2], the fields the
    ledger, the assembler and the validator read. *)
Inductive AdmissionStatus := AdmNone | AdmMissing | AdmAdmitted | AdmMismatch.
#[export] Instance AdmissionStatus_eq_dec : EqDecision AdmissionStatus.
Proof. solve_decision. Defined.

Record ActionAdmissionV2 := mk_admission {
  adm_status : AdmissionStatus;
  adm_action_type : option ActionType;
  missing_fields : list string;
  extracted_arguments : pydict;
  request_reason : option string;
  adm_tenant_id : string;
  adm_customer_id : string;
  adm_scope_hash : string;
  clarification_question : option string;
}.

(** [ActionAdmissionV2.validate_status_shape], after the [scope_hash] pattern. *)
Definition validate_status_shape (a : ActionAdmissionV2) : res ActionAdmissionV2 :=
  raise ValidationError "scope_hash" when negb (is_sha256_hex (adm_scope_hash a)) ;;
  match adm_status a with
  | AdmNone =>
      raise ValueError "none admission forbids action fields"
        when isSome (adm_action_type a) || negb (is_nil (missing_fields a)) ;; Ok a
  | AdmMissing =>
      raise ValueError "missing admission requires action and missing fields"
        when isNone (adm_action_type a) || is_nil (missing_fields a) ;; Ok a
  | AdmAdmitted =>
      raise ValueError "admitted admission requires complete action fields"
        when isNone (adm_action_type a) || negb (is_nil (missing_fields a)) ;; Ok a
  | AdmMismatch =>
      raise ValueError "mismatch admission requires a safe clarification"
        when isNone (clarification_question a) ;; Ok a
  end.

Record ContextCitationBinding := mk_citation {
  citation_binding_id : string;
  provider_attempt_id : string;
  cit_evidence_id : string;
  cit_document_id : string;
  cit_chunk_id : string;
  cit_content_hash : string;
  cit_locator_hash : string;
}.

Record ObligationBinding := mk_binding {
  tool_name : string;
  invocation_id : string;
  observation_id : string;
  observation_content_hash : string;
  bind_resource_id : option string;
  bind_resource_version : option string;
  bind_tenant_id : string;
  bind_customer_id : string;
  bind_scope_hash : string;
  freshness_status : string;
  fresh_until : option datetime;
  source_ids : list string;
  evidence_ids : list string;
  citation_binding_ids : list string;
}.

Record TerminalBusinessOutcome := mk_outcome {
  out_action_type : ActionType;
  out_terminal_class : TerminalOutcomeClass;
  out_outcome_code : string;
  out_obligation_id : string;
  out_resource_ref : option string;
  observed_facts : pydict;
  out_binding : ObligationBinding;
  out_message_key : string;
  out_next_step : string;
  outcome_hash : string;
}.

Record ObligationEntry := mk_entry {
  ent_obligation_id : string;
  ent_kind : ObligationKind;
  ent_status : ObligationStatus;
  ent_capabilities : list string;
  ent_binding : option ObligationBinding;
  ent_terminal_outcome : option TerminalBusinessOutcome;
  ent_reason_code : string;
}.

Record ActionObligationLedger := mk_ledger {
  led_action_type : ActionType;
  led_run_id : string;
  led_tenant_id : string;
  led_customer_id : string;
  led_scope_hash : string;
  led_obligations : list ObligationEntry;
  unsatisfied_capabilities : list string;
  next_state : LedgerNextState;
  led_reason_code : string;
  led_terminal_outcome : option TerminalBusinessOutcome;
}.

Definition all_reads_qualified (l : ActionObligationLedger) : bool :=
  forallb (fun e => ent_status e in? [Satisfied; ReadQualified]) (led_obligations l).
Definition all_obligations_satisfied (l : ActionObligationLedger) : bool :=
  forallb (fun e => ent_status e ==? Satisfied) (led_obligations l).

Definition qualified_knowledge_evidence_ids (l : ActionObligationLedger) : list string :=
  sorted_set (concat (map (fun e =>
    if (ent_kind e ==? Knowledge) && (ent_status e in? [ReadQualified; Satisfied])
    then match ent_binding e with Some b => evidence_ids b | None => [] end
    else []) (led_obligations l))).

(** An entry without binding. *)
Definition plain_entry (o : EvidenceObligationSpec) (k : ObligationKind) (s : ObligationStatus) (reason : string)
    : ObligationEntry :=
  mk_entry (obligation_id o) k s (capabilities o) None None reason.

(** ** Helpers *)
(** [text.replace(c, by)] for a one-character [c]. *)
Fixpoint replace_by (a : ascii) (by_ s : string) : string :=
  match s with
  | EmptyString => ""
  | String x s => (if decide (x = a) then by_ else String x "") +:+ replace_by a by_ s
  end.

Section obligations.
Context `{PyRuntime}.

(** [json.dumps(payload, sort_keys=True, separators=(",", ":"),
    ensure_ascii=False, default=str)]: tuples are arrays, timestamps their
    [str]. *)
Fixpoint json_default_str (v : pyval) : CanonicalValue :=
  match v with
  | PyNone => CNull
  | PyBool b => CBool b
  | PyInt z => CInt z
  | PyStr s => CStr s
  | PyTime _ => CStr (py_str v)
  | PyList l | PyTuple l => CList (map json_default_str l)
  | PyDict d => CObj (map (fun kv => (kv.1, json_default_str kv.2)) d)
  end.

Definition _canonical_hash (payload : pydict) : res string :=
  let text := String.string_of_list_ascii (dumps (json_default_str (PyDict payload))) in
  raise ValueError "surrogates not allowed" when negb (encodes_utf8 text) ;;
  Ok (sha256_hex text).

Fixpoint nested (current : pyval) (path : list string) : option pyval :=
  match path with
  | [] => Some current
  | part :: path =>
      match current with
      | PyDict d => match dget part d with Some v => nested v path | None => None end
      | _ => None
      end
  end.
(** [None] is the source's [(False, None)]. *)
Definition _nested_value (payload : pydict) (path : string) : option pyval :=
  nested (PyDict payload) (split_on "."%char path).

(** A naive value becomes UTC; only the instant matters to the callers. *)
Definition _parse_time (v : pyval) : option datetime :=
  let aware d := if is_naive d then mk_datetime (wall d) (Some 0) else d in
  match v with
  | PyTime t => Some (aware t)
  | PyStr s => aware <$> fromisoformat (replace_by "Z"%char "+00:00" s)
  | _ => None
  end.

Definition _version_key (v : pyval) : list Z :=
  match digit_groups None (py_str v) with [] => [0] | l => l end.

Definition _observation_scope (observation : pydict) : res (string * string * string) :=
  let scope := match observation.["trusted_scope"] with PyDict d => d | _ => observation end in
  let tenant := py_str (dget_or "tenant_id" (PyStr "") scope) in
  let customer := py_str (dget_or "customer_id" (PyStr "") scope) in
  let scope_hash := py_str (dget_or "scope_hash" (PyStr "") scope) in
  if is_empty_str scope_hash && negb (is_empty_str tenant) && negb (is_empty_str customer) then
    let? h := _canonical_hash [("customer_id", PyStr customer); ("tenant_id", PyStr tenant)] in
    Ok (tenant, customer, h)
  else Ok (tenant, customer, scope_hash).

(** The observation has the scope of the admission. *)
Definition same_scope (a : ActionAdmissionV2) (s : string * string * string) : bool :=
  let '(tenant, customer, scope_hash) := s in
  (tenant ==? adm_tenant_id a) && (customer ==? adm_customer_id a) && (scope_hash ==? adm_scope_hash a).

Definition _source_ids (observation : pydict) : list string :=
  match dget_or "source_refs" (PyList []) observation with
  | PyList refs =>
      omap (fun item => match item with
                        | PyDict d => if truthy (d.["source_id"]) then Some (py_str (d.["source_id"])) else None
                        | _ => None
                        end) refs
  | _ => []
  end.

(** [observation.get("data", {}).get(key)] *)
Definition data_get (observation : pydict) (key : string) : res pyval :=
  match dget_or "data" (PyDict []) observation with
  | PyDict d => Ok (d.[key])
  | _ => Err (AttributeError "get")
  end.

(** The conditional expression for [resource_version]. *)
Definition observed_version (observation : pydict) : res (option string) :=
  let own := observation.["resource_version"] in
  let text :=
    if truthy own then Ok (Some (py_str own))
    else let? v := data_get observation "version" in
         if truthy v then Ok (Some (py_str v))
         else let? w := data_get observation "resource_version" in Ok (Some (py_str w)) in
  if negb (is_none own) then text
  else let? v := data_get observation "version" in
       if negb (is_none v) then text
       else let? w := data_get observation "resource_version" in
            if negb (is_none w) then text else Ok None.

Definition _base_binding (observation : pydict) (tenant customer scope_hash : string)
    (resource_id : option string) (evidence citations : list string) : res ObligationBinding :=
  let? content_hash :=
    let named := py_or (observation.["observation_content_hash"]) (observation.["content_hash"]) in
    if truthy named then Ok (py_str named) else _canonical_hash observation in
  let? version := observed_version observation in
  raise ValidationError "hash pattern" when negb (is_sha256_hex content_hash && is_sha256_hex scope_hash) ;;
  Ok {| tool_name := py_str (dget_or "tool_name" (PyStr "") observation);
        invocation_id := py_str (py_or (observation.["invocation_id"])
                                   (py_or (observation.["logical_invocation_id"])
                                      (dget_or "tool_call_id" (PyStr "") observation)));
        observation_id := py_str (py_or (observation.["observation_id"])
                                    (py_or (observation.["id"])
                                       (dget_or "tool_call_id" (PyStr "") observation)));
        observation_content_hash := content_hash;
        bind_resource_id := resource_id;
        bind_resource_version := version;
        bind_tenant_id := tenant;
        bind_customer_id := customer;
        bind_scope_hash := scope_hash;
        freshness_status := py_str (dget_or "freshness_status" (PyStr "unknown") observation);
        fresh_until := _parse_time (observation.["fresh_until"]);
        source_ids := _source_ids observation;
        evidence_ids := evidence;
        citation_binding_ids := citations |}.

Definition _freshness_reason (observation : pydict) (now : Z) : option string :=
  if negb (py_eq (observation.["freshness_status"]) (PyStr "fresh")) then Some "observation_freshness_not_fresh"
  else match _parse_time (observation.["fresh_until"]) with
       | Some t => if instant t <? now then Some "observation_expired" else None
       | None => Some "observation_expired"
       end.

(** The sort key (observed_at, attempt_index, id). *)
Definition observation_key (item : pydict) : res (Z * Z * string) :=
  let at_ := match _parse_time (item.["observed_at"]) with Some t => instant t | None => datetime_min end in
  let? attempt := py_int (dget_or "attempt_index" (PyInt 0) item) in
  Ok (at_, attempt, py_str (py_or (item.["observation_id"]) (py_or (item.["id"]) (PyStr "")))).

Definition key_ltb (a b : Z * Z * string) : bool :=
  let '(t, i, s) := a in let '(t', i', s') := b in
  (t <? t') || ((t =? t') && ((i <? i') || ((i =? i') && str_ltb s s'))).

Definition is_current (run_id capability : string) (item : pydict) : bool :=
  py_eq (item.["run_id"]) (PyStr run_id) && py_eq (item.["tool_name"]) (PyStr capability).

(** Newest first; [sorted(reverse=True)] keeps the order of equal keys. *)
Definition _relevant_observations (observations : list pydict) (run_id capability : string)
    : res (list pydict) :=
  let current := List.filter (is_current run_id capability) observations in
  let? keyed := map_res (fun item => let? k := observation_key item in Ok (k, item)) current in
  Ok (map snd (isort (fun a b => negb (key_ltb a.1 b.1)) keyed)).

Definition _failure_entry (o : EvidenceObligationSpec) (observation : pydict) : ObligationEntry :=
  let status := py_str (dget_or "status" (PyStr "invalid_result") observation) in
  let reason dflt := py_str (py_or (observation.["error_code"]) (PyStr dflt)) in
  if status ==? "conflict" then plain_entry o (kind o) Conflicted (reason "observation_conflicted")
  else if status in? ["timeout"; "unavailable"; "invalid_result"; "invalid_input"; "forbidden_tool"]
  then plain_entry o (kind o) Failed (reason "read_capability_failed")
  else plain_entry o (kind o) Pending (reason "read_result_not_qualifying").

Definition scope_error_codes : list string :=
  ["billing_scope_violation"; "ticket_scope_violation"; "cross_tenant_argument"; "cross_tenant_observation";
   "observation_scope_mismatch"; "knowledge_scope_mismatch"].
Definition forbidden_error_codes : list string :=
  ["forbidden_surface"; "forbidden_tool"; "forbidden_tool_surface"].

(** The body of the loop for one observation. *)
Definition hard_terminal_one (o : EvidenceObligationSpec) (a : ActionAdmissionV2) (observation : pydict)
    : res (option ObligationEntry) :=
  let? scope := _observation_scope observation in
  let '(tenant, customer, scope_hash) := scope in
  let has_scope := negb (is_empty_str tenant && is_empty_str customer && is_empty_str scope_hash) in
  if has_scope && negb (same_scope a scope)
  then Ok (Some (plain_entry o (kind o) Failed "observation_scope_mismatch"))
  else
    let status := py_str (dget_or "status" (PyStr "invalid_result") observation) in
    let error_code := py_str (py_or (observation.["error_code"]) (PyStr "")) in
    if (status in? ["timeout"; "unavailable"; "forbidden_tool"]) || (error_code in? scope_error_codes)
       || (error_code in? forbidden_error_codes) || str_contains "retry_exhausted" error_code
    then
      let failed := _failure_entry o observation in
      if ent_status failed ==? Failed then Ok (Some failed)
      else Ok (Some (plain_entry o (kind o) Failed
                       (if is_empty_str error_code then "hard_terminal_read_failure" else error_code)))
    else Ok None.
Definition _hard_terminal_entry (o : EvidenceObligationSpec) (a : ActionAdmissionV2) (obs : list pydict)
    : res (option ObligationEntry) := first_res (hard_terminal_one o a) obs.

(** A value that can be a member of a [set]. *)
Fixpoint hashable (v : pyval) : bool :=
  match v with
  | PyList _ | PyDict _ => false
  | PyTuple l => forallb hashable l
  | _ => true
  end.

Definition _terminal_rule_matches (rule : TerminalOutcomeRule) (observation : pydict)
    (o : EvidenceObligationSpec) (a : ActionAdmissionV2) : res bool :=
  let status := py_str (dget_or "status" (PyStr "invalid_result") observation) in
  let data := as_dict (observation.["data"]) in
  match predicate rule with
  | ObservationStatusIn => Ok (status in? match_values rule)
  | p =>
    if status !=? "ok" then Ok false else
    match p with
    | ResourceStatusNotAllowed =>
        let field := match observation_field rule with
                     | Some f => if is_empty_str f then "status" else f
                     | None => "status"
                     end in
        let observed := py_str (dget_or field (PyStr "") data) in
        Ok (negb (is_empty_str observed) && negb (is_nil (allowed_resource_statuses o))
            && negb (observed in? allowed_resource_statuses o))
    | ObservationFieldFalsy =>
        Ok (match observation_field rule with
            | Some f => dhas f data && negb (truthy (data.[f]))
            | None => false
            end)
    | _ =>
        match admission_path rule, observation_field rule with
        | Some path, Some field =>
            match _nested_value (extracted_arguments a) path, dget field data with
            | Some admission_value, Some observed =>
                match p with
                | AdmissionNotInObservation =>
                    match observed with
                    | PyList l | PyTuple l =>
                        raise TypeError "unhashable type" when negb (hashable admission_value) ;;
                        Ok (negb (existsb (fun item => py_eq admission_value (PyStr (py_str item))) l))
                    | _ => Ok false
                    end
                | _ => Ok (py_eq admission_value observed)
                end
            | _, _ => Ok false
            end
        | _, _ => Ok false
        end
    end
  end.

(** [str(admission.extracted_arguments.get(argument, ""))] *)
Definition admitted_ref (a : ActionAdmissionV2) (argument : string) : string :=
  py_str (dget_or argument (PyStr "") (extracted_arguments a)).

(** The admitted reference is the observed resource or its fingerprint. *)
Definition ref_matches (o : EvidenceObligationSpec) (a : ActionAdmissionV2) (data : pydict) : bool :=
  match resource_ref_argument o with
  | None => true
  | Some argument =>
      let ref := admitted_ref a argument in
      let equivalent := [py_str (dget_or (default "" (observed_resource_field o)) (PyStr "") data);
                         py_str (dget_or "fingerprint" (PyStr "") data)] in
      negb (is_empty_str ref)
      && existsb (fun item => negb (is_empty_str item) && (casefold item ==? casefold ref)) equivalent
  end.

(** [observation.get("request_binding")] names the admitted reference. *)
Definition request_matches (o : EvidenceObligationSpec) (a : ActionAdmissionV2) (observation : pydict) : bool :=
  match resource_ref_argument o with
  | None => true
  | Some argument =>
      let ref := admitted_ref a argument in
      match observation.["request_binding"] with
      | PyDict binding =>
          negb (is_empty_str ref)
          && (casefold (py_str (dget_or "resource_ref" (PyStr "") binding)) ==? casefold ref)
      | _ => false
      end
  end.

(** The resource identity is observed, when the obligation has one. *)
Definition identity_present (o : EvidenceObligationSpec) (data : pydict) : bool :=
  match observed_resource_field o with
  | Some f => truthy (data.[f])
  | None => true
  end.

(** The guards of [_terminal_outcome_entry] that precede the rules. *)
Definition terminal_admissible (o : EvidenceObligationSpec) (a : ActionAdmissionV2) (observation : pydict)
    (scope : string * string * string) (now : Z) : bool :=
  let status := py_str (dget_or "status" (PyStr "invalid_result") observation) in
  let data := as_dict (observation.["data"]) in
  same_scope a scope &&
  (if status ==? "ok"
   then negb (require_freshness o && isSome (_freshness_reason observation now))
        && identity_present o data && ref_matches o a data
   else request_matches o a observation).

Definition non_empty (s : string) : option string := if is_empty_str s then None else Some s.

(** The facts a rule publishes. *)
Definition public_facts (rule : TerminalOutcomeRule) (a : ActionAdmissionV2) (data : pydict) : pydict :=
  let from_observation :=
    fold_left (fun acc f => match dget f data with Some v => dset f v acc | None => acc end)
      (public_observation_fields rule) [] in
  fold_left (fun acc path =>
      match _nested_value (extracted_arguments a) path with
      | Some v => dset ("requested_" +:+ replace_char "."%char "_"%char path) v acc
      | None => acc
      end) (public_admission_paths rule) from_observation.

Definition outcome_resource_ref (o : EvidenceObligationSpec) (a : ActionAdmissionV2) (data : pydict)
    : option string :=
  let from_admission := match resource_ref_argument o with
                        | Some argument => non_empty (admitted_ref a argument)
                        | None => None
                        end in
  match from_admission, observed_resource_field o with
  | None, Some f => non_empty (py_str (py_or (data.[f]) (PyStr "")))
  | r, _ => r
  end.

(** The entry of the first matching rule. *)
Definition terminal_entry_of (spec : ActionSpec) (o : EvidenceObligationSpec) (a : ActionAdmissionV2)
    (observation : pydict) (scope : string * string * string) (rule : TerminalOutcomeRule)
    : res (option ObligationEntry) :=
  let data := as_dict (observation.["data"]) in
  if require_business_source rule && is_nil (_source_ids observation) then Ok None else
  let facts := public_facts rule a data in
  let resource_ref := outcome_resource_ref o a data in
  let '(tenant, customer, scope_hash) := scope in
  let? binding := _base_binding observation tenant customer scope_hash resource_ref [] [] in
  let? h := _canonical_hash
    [("action_type", PyStr (action_type_str (action_type spec)));
     ("binding_hash", PyStr (observation_content_hash binding));
     ("observed_facts", PyDict facts);
     ("obligation_id", PyStr (obligation_id o));
     ("outcome_code", PyStr (outcome_code rule));
     ("resource_ref", match resource_ref with Some r => PyStr r | None => PyNone end);
     ("scope_hash", PyStr (adm_scope_hash a))] in
  let outcome := {|
    out_action_type := action_type spec;
    out_terminal_class := terminal_class rule;
    out_outcome_code := outcome_code rule;
    out_obligation_id := obligation_id o;
    out_resource_ref := resource_ref;
    observed_facts := facts;
    out_binding := binding;
    out_message_key := customer_message_key rule;
    out_next_step := recommended_next_step rule;
    outcome_hash := h |} in
  Ok (Some (mk_entry (obligation_id o) (kind o) Terminal (capabilities o) (Some binding) (Some outcome)
              (outcome_code rule))).

Definition _terminal_outcome_entry (spec : ActionSpec) (o : EvidenceObligationSpec) (a : ActionAdmissionV2)
    (now : Z) (observation : pydict) : res (option ObligationEntry) :=
  let? scope := _observation_scope observation in
  if negb (terminal_admissible o a observation scope now) then Ok None else
  let? hit := find_res (fun rule =>
                if rule_obligation_id rule !=? obligation_id o then Ok false
                else _terminal_rule_matches rule observation o a) (terminal_outcomes spec) in
  match hit with
  | Some rule => terminal_entry_of spec o a observation scope rule
  | None => Ok None
  end.

(** The data of an observation meets the obligation's field contract. *)
Definition fields_present (o : EvidenceObligationSpec) (data : pydict) : bool :=
  negb (existsb (fun f => is_none (data.[f])) (required_data_fields o)).
Definition fields_truthy (o : EvidenceObligationSpec) (data : pydict) : bool :=
  negb (existsb (fun f => negb (truthy (data.[f]))) (required_truthy_data_fields o)).
Definition status_allowed (o : EvidenceObligationSpec) (data : pydict) : bool :=
  is_nil (allowed_resource_statuses o) || (py_str (data.["status"]) in? allowed_resource_statuses o).
Definition is_stale (o : EvidenceObligationSpec) (observation : pydict) (now : Z) : bool :=
  require_freshness o && isSome (_freshness_reason observation now).

Definition _resource_observation_qualifies (o : EvidenceObligationSpec) (a : ActionAdmissionV2) (now : Z)
    (observation : pydict) : res bool :=
  if negb (py_eq (observation.["status"]) (PyStr "ok")) then Ok false else
  let? scope := _observation_scope observation in
  Ok (same_scope a scope && negb (is_stale o observation now)
      && match observation.["data"] with
         | PyDict data =>
             fields_present o data && fields_truthy o data && status_allowed o data && identity_present o data
             && ref_matches o a data && negb (is_nil (_source_ids observation))
         | _ => false
         end).

(** The part of [_resource_entry] that judges the selected observation. *)
Definition judge_resource (o : EvidenceObligationSpec) (a : ActionAdmissionV2) (now : Z) (observation : pydict)
    : res ObligationEntry :=
  let entry s reason := Ok (plain_entry o (kind o) s reason) in
  if negb (py_eq (observation.["status"]) (PyStr "ok")) then Ok (_failure_entry o observation) else
  let? scope := _observation_scope observation in
  if negb (same_scope a scope) then entry Failed "observation_scope_mismatch" else
  match (if require_freshness o then _freshness_reason observation now else None) with
  | Some reason => entry Stale reason
  | None =>
      let data := as_dict (observation.["data"]) in
      if negb (fields_present o data) then entry Pending "required_resource_fields_missing"
      else if negb (fields_truthy o data) then entry Pending "required_resource_value_missing"
      else if negb (status_allowed o data) then entry Conflicted "resource_status_conflict"
      else
        let resource_id := match observed_resource_field o with
                           | Some f => Some (py_str (py_or (data.[f]) (PyStr "")))
                           | None => None
                           end in
        if match resource_id with Some r => is_empty_str r | None => false end
        then entry Pending "resource_identity_missing"
        else if negb (ref_matches o a data) then entry Pending "resource_identity_mismatch"
        else if is_nil (_source_ids observation) then entry Failed "resource_source_binding_missing"
        else
          let '(tenant, customer, scope_hash) := scope in
          let? binding := _base_binding observation tenant customer scope_hash resource_id [] [] in
          Ok (mk_entry (obligation_id o) (kind o) Satisfied (capabilities o) (Some binding) None
                "resource_obligation_satisfied")
  end.

Definition _resource_entry (spec : ActionSpec) (o : EvidenceObligationSpec) (a : ActionAdmissionV2)
    (observations : list pydict) (run_id : string) (now : Z) : res ObligationEntry :=
  let? groups := map_res (_relevant_observations observations run_id) (capabilities o) in
  let candidates := concat groups in
  match candidates with
  | [] => Ok (plain_entry o (kind o) Pending "required_read_missing")
  | first :: _ =>
      let? hard := _hard_terminal_entry o a candidates in
      match hard with
      | Some e => Ok e
      | None =>
          let? terminal := first_res (_terminal_outcome_entry spec o a now) candidates in
          match terminal with
          | Some e => Ok e
          | None =>
              let? best := find_res (_resource_observation_qualifies o a now) candidates in
              judge_resource o a now (default first best)
          end
      end
  end.

Definition _knowledge_evidence_qualifies (o : EvidenceObligationSpec) (index_version : string) (now : Z)
    (evidence : pydict) : bool :=
  let span := py_str (dget_or "supporting_span" (PyStr "") evidence) in
  let section := py_str (dget_or "section_path" (PyStr "") evidence) in
  let surface := casefold (section +:+ String "010"%char span) in
  (py_str (dget_or "document_id" (PyStr "") evidence) in? allowed_document_keys o)
  && (py_str (dget_or "document_type" (PyStr "") evidence) in? allowed_document_types o)
  && negb (tuple_ltb (_version_key (evidence.["version"]))
             (_version_key (match minimum_version o with Some v => PyStr v | None => PyNone end)))
  && is_true (evidence.["supporting_span_eligible"])
  && negb (is_empty_str span) && truthy (evidence.["content_hash"])
  && existsb (fun term => str_contains (casefold term) surface) (allowed_section_terms o)
  && match evidence.["source_locator"], evidence.["eligibility_envelope"] with
     | PyDict locator, PyDict eligibility =>
         truthy (locator.["locator_hash"])
         && py_eq (eligibility.["status"]) (PyStr "active")
         && py_eq (eligibility.["outcome"]) (PyStr "eligible")
         && py_eq (eligibility.["index_version"]) (PyStr index_version)
         && match _parse_time (eligibility.["effective_from"]) with
            | Some from => instant from <=? now
            | None => false
            end
         && match _parse_time (eligibility.["effective_until"]) with
            | Some until => now <? instant until
            | None => true
            end
         && (is_none (locator.["index_version"]) || py_eq (locator.["index_version"]) (PyStr index_version))
     | _, _ => false
     end.

(** [data] offers usable evidence items under an index version. *)
Definition evidence_of (data : pydict) : option (list pyval * string) :=
  let index_version := py_str (py_or (data.["index_version"]) (PyStr "")) in
  match data.["evidence"] with
  | PyList items =>
      if truthy (data.["refusal_reason"]) || is_nil items || is_empty_str index_version then None
      else Some (items, index_version)
  | _ => None
  end.
Definition qualified_evidence (o : EvidenceObligationSpec) (now : Z) (items : list pyval) (index_version : string)
    : list pydict :=
  omap (fun item => match item with
                    | PyDict d => if _knowledge_evidence_qualifies o index_version now d then Some d else None
                    | _ => None
                    end) items.
(** A source of the observation is one of the qualified chunks. *)
Definition sources_bound (observation : pydict) (qualified : list pydict) : bool :=
  existsb (fun e => py_str (py_or (e.["chunk_id"]) (e.["evidence_id"])) in? _source_ids observation) qualified.

Definition _knowledge_observation_qualifies (o : EvidenceObligationSpec) (a : ActionAdmissionV2) (now : Z)
    (observation : pydict) : res bool :=
  if negb (py_eq (observation.["status"]) (PyStr "ok")) then Ok false else
  let? scope := _observation_scope observation in
  Ok (same_scope a scope
      && match observation.["data"] with
         | PyDict data =>
             negb (is_true (data.["conflict"]))
             && match evidence_of data with
                | Some (items, index_version) =>
                    let qualified := qualified_evidence o now items index_version in
                    negb (is_nil qualified) && sources_bound observation qualified
                | None => false
                end
         | _ => false
         end).

(** One citation binding names one qualified evidence item. *)
Definition cites (c : ContextCitationBinding) (evidence : pydict) : bool :=
  let locator := as_dict (evidence.["source_locator"]) in
  py_eq (evidence.["evidence_id"]) (PyStr (cit_evidence_id c))
  && py_eq (evidence.["document_id"]) (PyStr (cit_document_id c))
  && py_eq (evidence.["chunk_id"]) (PyStr (cit_chunk_id c))
  && py_eq (evidence.["content_hash"]) (PyStr (cit_content_hash c))
  && py_eq (locator.["locator_hash"]) (PyStr (cit_locator_hash c)).
Definition matched_citations (bindings : list ContextCitationBinding) (attempt : option string)
    (qualified : list pydict) : list string :=
  match attempt with
  | None => []
  | Some attempt =>
      omap (fun c => if (provider_attempt_id c ==? attempt) && existsb (cites c) qualified
                     then Some (citation_binding_id c) else None) bindings
  end.

(** [str(item["evidence_id"])] *)
Definition evidence_id_of (e : pydict) : res string :=
  match dget "evidence_id" e with
  | Some v => Ok (py_str v)
  | None => Err (KeyError "evidence_id")
  end.

(** The part of [_knowledge_entry] that judges the selected observation. *)
Definition judge_knowledge (o : EvidenceObligationSpec) (a : ActionAdmissionV2) (now : Z)
    (bindings : list ContextCitationBinding) (attempt : option string) (observation : pydict)
    : res ObligationEntry :=
  let entry s reason := Ok (plain_entry o Knowledge s reason) in
  if negb (py_eq (observation.["status"]) (PyStr "ok")) then Ok (_failure_entry o observation) else
  let? scope := _observation_scope observation in
  if negb (same_scope a scope) then entry Failed "knowledge_scope_mismatch" else
  let data := as_dict (observation.["data"]) in
  if is_true (data.["conflict"]) then entry Conflicted "knowledge_policy_conflict" else
  match evidence_of data with
  | None => entry Pending "knowledge_evidence_empty"
  | Some (items, index_version) =>
      let qualified := qualified_evidence o now items index_version in
      if is_nil qualified then entry Pending "knowledge_evidence_not_qualified" else
      let? evidence_ids := map_res evidence_id_of qualified in
      if negb (sources_bound observation qualified) then entry Failed "knowledge_source_binding_missing" else
      let matched := matched_citations bindings attempt qualified in
      let satisfied := negb (is_nil matched) in
      let '(tenant, customer, scope_hash) := scope in
      let? binding := _base_binding observation tenant customer scope_hash None evidence_ids (sorted_set matched) in
      Ok (mk_entry (obligation_id o) Knowledge (if satisfied then Satisfied else ReadQualified) (capabilities o)
            (Some binding) None
            (if satisfied then "knowledge_obligation_satisfied" else "knowledge_read_qualified"))
  end.

Definition _knowledge_entry (o : EvidenceObligationSpec) (a : ActionAdmissionV2) (observations : list pydict)
    (run_id : string) (now : Z) (bindings : list ContextCitationBinding) (attempt : option string)
    : res ObligationEntry :=
  let? candidates := _relevant_observations observations run_id "search_knowledge" in
  match candidates with
  | [] => Ok (plain_entry o Knowledge Pending "knowledge_read_missing")
  | first :: _ =>
      let? hard := _hard_terminal_entry o a candidates in
      match hard with
      | Some e => Ok e
      | None =>
          let? best := find_res (_knowledge_observation_qualifies o a now) candidates in
          judge_knowledge o a now bindings attempt (default first best)
      end
  end.

Definition obligation_entry (spec : ActionSpec) (a : ActionAdmissionV2) (observations : list pydict)
    (run_id : string) (now : Z) (bindings : list ContextCitationBinding) (attempt : option string)
    (o : EvidenceObligationSpec) : res ObligationEntry :=
  if kind o ==? Knowledge then _knowledge_entry o a observations run_id now bindings attempt
  else _resource_entry spec o a observations run_id now.

(** The decision over the entries: next state and reason. *)
Definition decide_next (entries : list ObligationEntry) : LedgerNextState * string :=
  let statuses := map ent_status entries in
  let outcomes := omap ent_terminal_outcome entries in
  if Failed in? statuses then
    (SafeStop,
     match find_first (fun e => (ent_status e ==? Failed) && negb (is_empty_str (ent_reason_code e))) entries with
     | Some e => ent_reason_code e
     | None => "obligation_hard_failure"
     end)
  else match outcomes with
       | outcome :: _ => (ExplainTerminal, out_outcome_code outcome)
       | [] =>
           if negb (is_nil statuses) && forallb (fun s => s ==? Satisfied) statuses
           then (AssembleCandidate, "all_obligations_satisfied")
           else if forallb (fun s => s in? [Satisfied; ReadQualified]) statuses
           then (Synthesize, "all_reads_qualified")
           else if Conflicted in? statuses then (SafeStop, "obligation_conflict")
           else (CollectReads, "obligations_pending")
       end.

Definition unsatisfied (entries : list ObligationEntry) : list string :=
  match omap ent_terminal_outcome entries with
  | _ :: _ => []
  | [] => sorted_set (concat (map (fun e => if ent_status e in? [Pending; Stale] then ent_capabilities e else [])
                                entries))
  end.

(** [clock] is [datetime.now(UTC)], read when [now] is [None]. *)
Definition evaluate_action_obligations (spec : ActionSpec) (a : ActionAdmissionV2) (observations : list pydict)
    (run_id : string) (bindings : list ContextCitationBinding) (attempt : option string)
    (now : option datetime) (clock : Z) : res ActionObligationLedger :=
  raise ValueError "obligation ledger requires matching admitted action"
    when (adm_status a !=? AdmAdmitted) || (adm_action_type a !=? Some (action_type spec)) ;;
  let current_time := match now with Some d => instant d | None => clock end in
  let? entries := map_res (obligation_entry spec a observations run_id current_time bindings attempt)
                    (obligations spec) in
  let '(next, reason) := decide_next entries in
  raise ValidationError "scope_hash" when negb (is_sha256_hex (adm_scope_hash a)) ;;
  Ok {| led_action_type := action_type spec;
        led_run_id := run_id;
        led_tenant_id := adm_tenant_id a;
        led_customer_id := adm_customer_id a;
        led_scope_hash := adm_scope_hash a;
        led_obligations := entries;
        unsatisfied_capabilities := unsatisfied entries;
        next_state := next;
        led_reason_code := reason;
        led_terminal_outcome := head (omap ent_terminal_outcome entries) |}.
End obligations.

(** ** What an entry promises *)
Section promises.
Context `{PyRuntime}.

Definition in_scope (a : ActionAdmissionV2) (obs : pydict) : Prop :=
  _observation_scope obs = Ok (adm_tenant_id a, adm_customer_id a, adm_scope_hash a).

Definition fresh (obs : pydict) (now : Z) : Prop :=
  obs.["freshness_status"] = PyStr "fresh" /\
  exists t, _parse_time (obs.["fresh_until"]) = Some t /\ now <= instant t.

(** A current, in-scope, successful read of one of the capabilities. *)
Definition current_read (run_id : string) (caps : list string) (a : ActionAdmissionV2) (obs : pydict) : Prop :=
  obs.["run_id"] = PyStr run_id /\ (exists c, c ∈ caps /\ obs.["tool_name"] = PyStr c) /\
  obs.["status"] = PyStr "ok" /\ in_scope a obs.

Definition resource_evidence (o : EvidenceObligationSpec) (a : ActionAdmissionV2) (now : Z) (obs : pydict) : Prop :=
  let data := as_dict (obs.["data"]) in
  (require_freshness o = true -> fresh obs now) /\
  (forall f, f ∈ required_data_fields o -> data.[f] <> PyNone) /\
  (forall f, f ∈ required_truthy_data_fields o -> truthy (data.[f]) = true) /\
  (allowed_resource_statuses o = [] \/ py_str (data.["status"]) ∈ allowed_resource_statuses o) /\
  ref_matches o a data = true.

Definition knowledge_evidence (o : EvidenceObligationSpec) (now : Z) (bindings : list ContextCitationBinding)
    (attempt : option string) (obs : pydict) : Prop :=
  exists items index_version e c at_,
    evidence_of (as_dict (obs.["data"])) = Some (items, index_version) /\
    PyDict e ∈ items /\ _knowledge_evidence_qualifies o index_version now e = true /\
    attempt = Some at_ /\ c ∈ bindings /\ provider_attempt_id c = at_ /\ cites c e = true.

(** The capabilities whose reads an obligation considers. *)
Definition considered (o : EvidenceObligationSpec) : list string :=
  if kind o ==? Knowledge then ["search_knowledge"] else capabilities o.

(** ** Lemmas *)
Lemma same_scope_true a s : same_scope a s = true <-> s = (adm_tenant_id a, adm_customer_id a, adm_scope_hash a).
Proof. unfold same_scope. destruct s as [[t c] h]. to_prop. naive_solver. Qed.

Lemma freshness_none obs now : _freshness_reason obs now = None <-> fresh obs now.
Proof.
  unfold _freshness_reason, fresh. destruct (py_eq _ _) eqn:E; simpl.
  - apply py_eq_str in E. destruct (_parse_time _) as [t|]; [|naive_solver].
    destruct (Z.ltb_spec (instant t) now); naive_solver lia.
  - split; [done|]. intros [F _]. apply py_eq_str in F. congruence.
Qed.

Lemma relevant_elem obs run cap l x :
  _relevant_observations obs run cap = Ok l ->
  x ∈ l <-> x ∈ obs /\ x.["run_id"] = PyStr run /\ x.["tool_name"] = PyStr cap.
Proof.
  unfold _relevant_observations. intros Hr. steps_ok Hr. simplify_eq.
  assert (map snd (isort (fun a b => negb (key_ltb a.1 b.1)) a) ≡ₚ List.filter (is_current run cap) obs) as ->.
  { rewrite isort_perm. apply reflexive_eq. apply map_res_ok in Hstep.
    induction Hstep as [|y [k z] ys zs Hy _ IH]; [done|]. simpl. steps_ok Hy. simplify_eq. by f_equal. }
  rewrite list_elem_of_In, filter_In, <- list_elem_of_In. unfold is_current.
  by rewrite andb_true_iff, !py_eq_str.
Qed.

Lemma groups_elem obs run caps gs x :
  map_res (_relevant_observations obs run) caps = Ok gs ->
  x ∈ concat gs <-> x ∈ obs /\ x.["run_id"] = PyStr run /\ exists c, c ∈ caps /\ x.["tool_name"] = PyStr c.
Proof.
  intros Hg. apply map_res_ok in Hg. induction Hg as [|c g caps gs Hc _ IH]; simpl; [set_solver|].
  rewrite elem_of_app, IH, (relevant_elem _ _ _ _ _ Hc). set_solver.
Qed.

Lemma failure_entry_status o obs : ent_status (_failure_entry o obs) ∈ [Conflicted; Failed; Pending].
Proof. unfold _failure_entry. repeat case_match; simpl; set_solver. Qed.
Lemma failure_entry_shape o obs :
  ent_obligation_id (_failure_entry o obs) = obligation_id o /\
  ent_capabilities (_failure_entry o obs) = capabilities o /\
  ent_terminal_outcome (_failure_entry o obs) = None.
Proof. unfold _failure_entry. repeat case_match; done. Qed.

(** A hard-terminal entry is a failure of the obligation. *)
Lemma hard_terminal_failed o a obs e :
  _hard_terminal_entry o a obs = Ok (Some e) ->
  ent_status e = Failed /\ ent_obligation_id e = obligation_id o /\ ent_capabilities e = capabilities o /\
  ent_terminal_outcome e = None.
Proof.
  intros (x & _ & Hx)%first_res_some. unfold hard_terminal_one in Hx. steps_ok Hx. destruct a0 as [[t c] h].
  pose proof (failure_entry_shape o x) as (? & ? & ?).
  repeat (case_match; simplify_eq; try done). to_prop. done.
Qed.

Lemma hard_terminal_foreign o a obs x s r :
  x ∈ obs -> _observation_scope x = Ok s -> s <> ("", "", "") -> same_scope a s = false ->
  _hard_terminal_entry o a obs = Ok r -> r <> None.
Proof.
  intros Hin Hs Hne Hf Hr ->. unfold _hard_terminal_entry in Hr. rewrite first_res_none in Hr.
  specialize (Hr x Hin). unfold hard_terminal_one in Hr. rewrite Hs in Hr. simpl in Hr.
  destruct s as [[t c] h]. rewrite Hf in Hr.
  destruct t, c, h; simpl in Hr; congruence.
Qed.

Lemma base_binding_fields obs t c h r ev ci b :
  _base_binding obs t c h r ev ci = Ok b ->
  bind_tenant_id b = t /\ bind_customer_id b = c /\ bind_scope_hash b = h /\ source_ids b = _source_ids obs /\
  evidence_ids b = ev /\ citation_binding_ids b = ci /\ bind_resource_id b = r.
Proof. unfold _base_binding. intros Hb. steps_ok Hb. by simplify_eq. Qed.

Lemma fields_present_true o data :
  fields_present o data = true -> forall f, f ∈ required_data_fields o -> data.[f] <> PyNone.
Proof.
  unfold fields_present. rewrite negb_true_iff, existsb_false_iff. intros Hf f Hin E.
  specialize (Hf f Hin). by rewrite E in Hf.
Qed.
Lemma fields_truthy_true o data :
  fields_truthy o data = true -> forall f, f ∈ required_truthy_data_fields o -> truthy (data.[f]) = true.
Proof.
  unfold fields_truthy. rewrite negb_true_iff, existsb_false_iff. intros Hf f Hin.
  specialize (Hf f Hin). by apply negb_false_iff in Hf.
Qed.
Lemma status_allowed_true o data :
  status_allowed o data = true ->
  allowed_resource_statuses o = [] \/ py_str (data.["status"]) ∈ allowed_resource_statuses o.
Proof. unfold status_allowed. to_prop. done. Qed.
Lemma status_ok obs : negb (py_eq (obs.["status"]) (PyStr "ok")) = false -> obs.["status"] = PyStr "ok".
Proof. rewrite negb_false_iff. apply py_eq_str. Qed.

(** What is true of an entry built from one selected observation. *)
Definition backed_by (o : EvidenceObligationSpec) (a : ActionAdmissionV2) (obs : pydict) (e : ObligationEntry) : Prop :=
  exists b, ent_binding e = Some b /\ bind_tenant_id b = adm_tenant_id a /\
    bind_customer_id b = adm_customer_id a /\ bind_scope_hash b = adm_scope_hash a /\
    source_ids b = _source_ids obs /\ _source_ids obs <> [].

Lemma judge_resource_satisfied o a now obs e :
  judge_resource o a now obs = Ok e -> ent_status e = Satisfied ->
  obs.["status"] = PyStr "ok" /\ in_scope a obs /\ resource_evidence o a now obs /\ backed_by o a obs e.
Proof.
  unfold judge_resource. intros He Hs.
  destruct (negb (py_eq _ _)) eqn:Eok; [|apply status_ok in Eok].
  { simplify_eq. pose proof (failure_entry_status o obs). rewrite Hs in *. set_solver. }
  steps_ok He. destruct (negb (same_scope a a0)) eqn:Esc; [by simplify_eq|].
  apply negb_false_iff, same_scope_true in Esc as ->.
  destruct (if require_freshness o then _ else _) eqn:Efr; [by simplify_eq|].
  destruct (negb (fields_present _ _)) eqn:E1; [by simplify_eq|].
  destruct (negb (fields_truthy _ _)) eqn:E2; [by simplify_eq|].
  destruct (negb (status_allowed _ _)) eqn:E3; [by simplify_eq|].
  destruct (match _ with Some _ => _ | None => false end) eqn:E4; [by simplify_eq|].
  destruct (negb (ref_matches _ _ _)) eqn:E5; [by simplify_eq|].
  destruct (is_nil _) eqn:E6; [by simplify_eq|]. steps_ok He. simplify_eq.
  rewrite negb_false_iff in E1, E2, E3, E5. apply is_nil_false in E6.
  apply base_binding_fields in Hstep0 as (? & ? & ? & ? & ? & ? & ?).
  split_and!; [done|done| |exists a0; by split_and!].
  unfold resource_evidence. split_and!; [|by apply fields_present_true|by apply fields_truthy_true|
    by apply status_allowed_true|done].
  intros Hfr. rewrite Hfr in Efr. by apply freshness_none.
Qed.

Lemma matched_citations_elem bindings attempt qualified x :
  x ∈ matched_citations bindings attempt qualified ->
  exists at_ c e, attempt = Some at_ /\ c ∈ bindings /\ provider_attempt_id c = at_ /\ e ∈ qualified /\
                  cites c e = true /\ citation_binding_id c = x.
Proof.
  unfold matched_citations. destruct attempt as [at_|]; [|set_solver].
  intros (c & Hc & Hx)%list_elem_of_omap. destruct (_ && _) eqn:E; [|done]. simplify_eq. to_prop.
  destruct E as [<- (e & He & Hce)%existsb_true_iff]. eauto 10.
Qed.

Lemma qualified_evidence_elem o now items idx e :
  e ∈ qualified_evidence o now items idx <->
  PyDict e ∈ items /\ _knowledge_evidence_qualifies o idx now e = true.
Proof.
  unfold qualified_evidence. rewrite list_elem_of_omap. split.
  - intros (v & Hv & Hx). destruct v; try done. destruct (_knowledge_evidence_qualifies _ _ _ _) eqn:E; naive_solver.
  - intros [Hin Hq]. exists (PyDict e). by rewrite Hq.
Qed.

Lemma sources_bound_nonempty obs q : sources_bound obs q = true -> _source_ids obs <> [].
Proof.
  unfold sources_bound. rewrite existsb_true_iff. intros (e & _ & Hm) E. rewrite E in Hm. to_prop. set_solver.
Qed.

Lemma judge_knowledge_satisfied o a now bindings attempt obs e :
  judge_knowledge o a now bindings attempt obs = Ok e -> ent_status e = Satisfied ->
  obs.["status"] = PyStr "ok" /\ in_scope a obs /\ knowledge_evidence o now bindings attempt obs /\
  backed_by o a obs e.
Proof.
  unfold judge_knowledge. intros He Hs.
  destruct (negb (py_eq _ _)) eqn:Eok; [|apply status_ok in Eok].
  { simplify_eq. pose proof (failure_entry_status o obs). rewrite Hs in *. set_solver. }
  steps_ok He. destruct (negb (same_scope a a0)) eqn:Esc; [by simplify_eq|].
  apply negb_false_iff, same_scope_true in Esc as ->.
  destruct (is_true _); [by simplify_eq|].
  destruct (evidence_of _) as [[items idx]|] eqn:Eev; [|by simplify_eq].
  destruct (is_nil (qualified_evidence _ _ _ _)); [by simplify_eq|]. steps_ok He.
  destruct (negb (sources_bound _ _)) eqn:Eb; [by simplify_eq|]. apply negb_false_iff in Eb.
  steps_ok He. simplify_eq. simpl in Hs.
  destruct (matched_citations _ _ _) as [|x m] eqn:Em; [done|].
  destruct (matched_citations_elem bindings attempt (qualified_evidence o now items idx) x)
    as (at_ & c & ev & Hat & Hc & Hp & Hev & Hce & _); [rewrite Em; set_solver|].
  apply qualified_evidence_elem in Hev as [Hin Hq].
  apply base_binding_fields in Hstep1 as (? & ? & ? & ? & ? & ? & ?).
  split_and!; [done|done| |exists a1; split_and!; try done; by eapply sources_bound_nonempty].
  exists items, idx, ev, c, at_. by split_and!.
Qed.

(** Every entry: identity, capabilities, and the shape of terminal ones. *)
Definition entry_shape (o : EvidenceObligationSpec) (e : ObligationEntry) : Prop :=
  ent_obligation_id e = obligation_id o /\ ent_capabilities e = capabilities o /\
  (ent_status e = Terminal <-> is_Some (ent_terminal_outcome e)).

Lemma plain_entry_shape o k s r : s <> Terminal -> entry_shape o (plain_entry o k s r).
Proof. intros Hs. unfold entry_shape, plain_entry. simpl. split_and!; [done..|]. split; [done|by intros []]. Qed.
Lemma failure_entry_shape' o obs : entry_shape o (_failure_entry o obs).
Proof. unfold _failure_entry. repeat case_match; by apply plain_entry_shape. Qed.
Lemma hard_terminal_shape o a obs e : _hard_terminal_entry o a obs = Ok (Some e) -> entry_shape o e.
Proof.
  intros (Hs & Ho & Hc & Ht)%hard_terminal_failed. unfold entry_shape. rewrite Hs, Ht.
  split_and!; [done..|]. split; [done|by intros []].
Qed.

Lemma judge_resource_shape o a now obs e : judge_resource o a now obs = Ok e -> entry_shape o e.
Proof.
  unfold judge_resource. intros He. res_cases He;
    auto using failure_entry_shape'; try (apply plain_entry_shape; done).
  unfold entry_shape. simpl. split_and!; [done..|]. split; [done|by intros []].
Qed.
Lemma judge_knowledge_shape o a now bs at_ obs e : judge_knowledge o a now bs at_ obs = Ok e -> entry_shape o e.
Proof.
  unfold judge_knowledge. intros He. res_cases He;
    auto using failure_entry_shape'; try (apply plain_entry_shape; done).
  unfold entry_shape. simpl. split_and!; [done..|]. split; [by case_match|by intros []].
Qed.
Lemma terminal_entry_shape spec o a obs s rule e :
  terminal_entry_of spec o a obs s rule = Ok (Some e) ->
  entry_shape o e /\ ent_status e = Terminal /\ ent_reason_code e = outcome_code rule.
Proof.
  unfold terminal_entry_of. intros He. res_cases He. unfold entry_shape. simpl. by split_and!.
Qed.
Lemma terminal_outcome_shape spec o a now obs e :
  _terminal_outcome_entry spec o a now obs = Ok (Some e) -> entry_shape o e /\ ent_status e = Terminal.
Proof.
  unfold _terminal_outcome_entry. intros He. res_cases He.
  apply terminal_entry_shape in He as (? & ? & ?). done.
Qed.

(** ** Selection *)
Lemma selected_elem {A} (f : A -> res bool) first rest best :
  find_res f (first :: rest) = Ok best -> default first best ∈ first :: rest.
Proof. intros Hb. destruct best as [x|]; [by apply find_res_some in Hb as [? _]|simpl; set_solver]. Qed.

(** The three ways a resource entry arises. *)
Lemma resource_entry_cases spec o a observations run now e :
  _resource_entry spec o a observations run now = Ok e ->
  entry_shape o e /\
  (ent_status e = Satisfied ->
   exists obs, obs ∈ observations /\ obs.["run_id"] = PyStr run /\
     (exists c, c ∈ capabilities o /\ obs.["tool_name"] = PyStr c) /\ judge_resource o a now obs = Ok e) /\
  (ent_status e = Terminal ->
   exists obs, obs ∈ observations /\ obs.["run_id"] = PyStr run /\
     (exists c, c ∈ capabilities o /\ obs.["tool_name"] = PyStr c) /\
     _terminal_outcome_entry spec o a now obs = Ok (Some e)).
Proof.
  unfold _resource_entry. intros He. step_ok He. pose proof (fun x => groups_elem _ _ _ _ x Hstep) as Hg.
  destruct (concat a0) as [|first rest] eqn:Ec.
  { simplify_eq. split; [by apply plain_entry_shape|by split]. }
  step_ok He. destruct a1 as [h|].
  { simplify_eq. split; [by eapply hard_terminal_shape|].
    apply hard_terminal_failed in Hstep0 as (Hf & _). rewrite Hf. done. }
  step_ok He. destruct a1 as [t|].
  { simplify_eq. apply first_res_some in Hstep1 as (obs & Hin & Ht). apply Hg in Hin as (? & ? & ?).
    pose proof (terminal_outcome_shape _ _ _ _ _ _ Ht) as [? Hst]. rewrite Hst. split_and!; [done|done|eauto]. }
  step_ok He. apply selected_elem, Hg in Hstep2 as (? & ? & ?).
  pose proof (judge_resource_shape _ _ _ _ _ He) as Hsh. split_and!; [done|eauto|].
  intros Ht. exfalso. unfold judge_resource in He. pose proof (failure_entry_status o (default first a1)) as Hfs.
  res_cases He; simpl in Ht; try done. rewrite Ht in Hfs. set_solver.
Qed.

Lemma knowledge_entry_cases o a observations run now bs at_ e :
  _knowledge_entry o a observations run now bs at_ = Ok e ->
  entry_shape o e /\ ent_status e <> Terminal /\
  (ent_status e = Satisfied ->
   exists obs, obs ∈ observations /\ obs.["run_id"] = PyStr run /\
     obs.["tool_name"] = PyStr "search_knowledge" /\ judge_knowledge o a now bs at_ obs = Ok e).
Proof.
  unfold _knowledge_entry. intros He. step_ok He.
  pose proof (fun x => relevant_elem _ _ _ _ x Hstep) as Hg.
  destruct a0 as [|first rest].
  { simplify_eq. split; [by apply plain_entry_shape|by split]. }
  step_ok He. destruct a0 as [h|].
  { simplify_eq. split; [by eapply hard_terminal_shape|].
    apply hard_terminal_failed in Hstep0 as (Hf & _). rewrite Hf. done. }
  step_ok He. apply selected_elem, Hg in Hstep1 as (? & ? & ?).
  pose proof (judge_knowledge_shape _ _ _ _ _ _ _ He) as Hsh. split_and!; [done| |eauto].
  intros Ht. unfold judge_knowledge in He. pose proof (failure_entry_status o (default first a0)) as Hfs.
  res_cases He; simpl in Ht; try done; [rewrite Ht in Hfs; set_solver|by case_match].
Qed.

(** ** The ledger *)
Lemma evaluate_ok spec a observations run bs at_ now clock led :
  evaluate_action_obligations spec a observations run bs at_ now clock = Ok led ->
  let t := match now with Some d => instant d | None => clock end in
  adm_status a = AdmAdmitted /\ adm_action_type a = Some (action_type spec) /\
  Forall2 (fun o e => obligation_entry spec a observations run t bs at_ o = Ok e)
    (obligations spec) (led_obligations led) /\
  (next_state led, led_reason_code led) = decide_next (led_obligations led) /\
  unsatisfied_capabilities led = unsatisfied (led_obligations led) /\
  led_terminal_outcome led = head (omap ent_terminal_outcome (led_obligations led)).
Proof.
  unfold evaluate_action_obligations. intros He. steps_ok He. to_prop.
  destruct (decide_next a0) as [next reason] eqn:Ed. steps_ok He. simplify_eq. simpl.
  apply map_res_ok in Hstep. destruct Hguard. by split_and!.
Qed.

Lemma obligation_entry_shape spec a observations run t bs at_ o e :
  obligation_entry spec a observations run t bs at_ o = Ok e -> entry_shape o e.
Proof.
  unfold obligation_entry. destruct (_ ==? _).
  - intros He. by apply knowledge_entry_cases in He as (? & ? & ?).
  - intros He. by apply resource_entry_cases in He as (? & ? & ?).
Qed.

(** What is left to read, when no outcome is terminal. *)
Lemma unsatisfied_elem entries c :
  omap ent_terminal_outcome entries = [] ->
  c ∈ unsatisfied entries <-> exists e, e ∈ entries /\ ent_status e ∈ [Pending; Stale] /\ c ∈ ent_capabilities e.
Proof.
  intros Hom. unfold unsatisfied. rewrite Hom, elem_of_sorted_set, list_elem_of_In, in_concat. split.
  - intros (l & Hl & Hin). apply in_map_iff in Hl as (e & <- & He). apply list_elem_of_In in He.
    destruct (_ in? _) eqn:E; [|done]. to_prop. exists e. split_and!; [done..|by apply list_elem_of_In].
  - intros (e & He & Hs & Hin). exists (ent_capabilities e). split; [|by apply list_elem_of_In].
    apply in_map_iff. exists e. rewrite <- list_elem_of_In. by rewrite (proj2 (mem_true _ _) Hs).
Qed.
(** The entries of an evaluated ledger are those of the obligations. *)
Lemma ledger_entries spec a observations run bs at_ now clock led :
  evaluate_action_obligations spec a observations run bs at_ now clock = Ok led ->
  forall e, e ∈ led_obligations led -> exists o, o ∈ obligations spec /\ entry_shape o e.
Proof.
  intros (_ & _ & Hf & _)%evaluate_ok e He. apply Forall2_flip in Hf. destruct (Forall2_elem_l _ _ _ _ Hf He) as (o & Ho & Hoe).
  exists o. split; [done|]. by eapply obligation_entry_shape.
Qed.

(** The evidence behind a satisfied obligation. *)
Lemma satisfied_evidence spec a observations run t bs at_ o e :
  obligation_entry spec a observations run t bs at_ o = Ok e -> ent_status e = Satisfied ->
  exists obs, obs ∈ observations /\ current_read run (considered o) a obs /\ backed_by o a obs e /\
    (if kind o ==? Knowledge then knowledge_evidence o t bs at_ obs else resource_evidence o a t obs).
Proof.
  unfold obligation_entry, considered, current_read. destruct (kind o ==? Knowledge); intros He Hs.
  - apply knowledge_entry_cases in He as (_ & _ & He). destruct (He Hs) as (obs & Hin & Hr & Ht & Hj).
    destruct (judge_knowledge_satisfied _ _ _ _ _ _ _ Hj Hs) as (? & ? & ? & ?).
    exists obs. split_and!; try done. exists "search_knowledge". set_solver.
  - apply resource_entry_cases in He as (_ & He & _). destruct (He Hs) as (obs & Hin & Hr & Ht & Hj).
    destruct (judge_resource_satisfied _ _ _ _ _ Hj Hs) as (? & ? & ? & ?).
    exists obs. by split_and!.
Qed.

Lemma decide_assemble entries r :
  (AssembleCandidate, r) = decide_next entries ->
  entries <> [] /\ omap ent_terminal_outcome entries = [] /\ forall e, e ∈ entries -> ent_status e = Satisfied.
Proof.
  unfold decide_next. intros Hd. symmetry in Hd. res_cases Hd. to_prop. destruct Heqb0 as [Hne Hall].
  rewrite forallb_true_iff in Hall. split_and!; [by intros ->|done|].
  intros e Hin. apply eqb_true, Hall, list_elem_of_fmap. eauto.
Qed.

Lemma decide_failed entries e :
  e ∈ entries -> ent_status e = Failed -> (decide_next entries).1 = SafeStop.
Proof.
  intros Hin Hs. unfold decide_next.
  assert ((Failed in? map ent_status entries) = true) as ->; [|done].
  apply mem_true, list_elem_of_fmap. eauto.
Qed.

(** Asking for more reads means some entry is pending or stale. *)
Lemma decide_collect entries r :
  (forall e, e ∈ entries -> ent_status e = Terminal <-> is_Some (ent_terminal_outcome e)) ->
  (CollectReads, r) = decide_next entries ->
  omap ent_terminal_outcome entries = [] /\ exists e, e ∈ entries /\ ent_status e ∈ [Pending; Stale].
Proof.
  intros Hterm. unfold decide_next. intros Hd. symmetry in Hd. res_cases Hd. split; [done|].
  assert (exists e, e ∈ entries /\ (ent_status e in? [Satisfied; ReadQualified]) = false) as (e & Hin & He).
  { clear -Heqb1. induction entries as [|e l IH]; [done|]. simpl in Heqb1. apply andb_false_iff in Heqb1 as [E|E].
    - exists e. set_solver.
    - destruct (IH E) as (e' & ? & ?). exists e'. set_solver. }
  exists e. split; [done|]. to_prop.
  assert (ent_status e ∈ map ent_status entries) as Hst by (apply list_elem_of_fmap; eauto).
  destruct (ent_status e) eqn:Es; try done;
    [list_member | destruct He; list_member | destruct He; list_member | list_member |].
  destruct (proj1 (Hterm e Hin) Es) as [x Hx]. exfalso.
  assert (x ∈ omap ent_terminal_outcome entries) as Hm by (apply list_elem_of_omap; eauto).
  rewrite Heql in Hm. set_solver.
Qed.
End promises.

(** ** A concrete run: a refund with a current billing read and a cited policy *)
Module Demo.
Definition scope : string := "e3b0c44298fc1c149afbf4c8996fb92427ae41e4649b934ca495991b7852b855".
Definition admission : ActionAdmissionV2 :=
  mk_admission AdmAdmitted (Some Refund) [] [("billing_record_id", PyStr "bill-7")] (Some "charged twice") "t1" "c1" scope None.
Definition now : datetime := utc 1784073600000000.
Definition later : pyval := PyTime (utc 1784073660000000).
Definition scoped (tool run : string) (status : string) (fields : pydict) : pydict :=
  [("tool_name", PyStr tool); ("run_id", PyStr run); ("status", PyStr status); ("tenant_id", PyStr "t1");
   ("customer_id", PyStr "c1"); ("scope_hash", PyStr scope); ("tool_call_id", PyStr "call-1");
   ("observed_at", PyTime now); ("attempt_index", PyInt 1); ("content_hash", PyStr scope)] ++ fields.
Definition billing_data (status : string) (pair_ok : bool) : pydict :=
  [("billing_record_id", PyStr "bill-7"); ("amount", PyStr "49.00"); ("currency", PyStr "USD");
   ("status", PyStr status); ("charged_at", PyStr "x"); ("service_period_start", PyStr "x");
   ("service_period_end", PyStr "x"); ("duplicate_of", PyStr "bill-6"); ("version", PyInt 3);
   ("original_billing_record_id", PyStr "bill-6"); ("original_amount", PyStr "49.00");
   ("original_currency", PyStr "USD"); ("original_status", PyStr "charged"); ("original_charged_at", PyStr "x");
   ("original_service_period_start", PyStr "x"); ("original_service_period_end", PyStr "x");
   ("original_version", PyInt 1); ("duplicate_pair_eligible", PyBool pair_ok); ("refund_pair_hash", PyStr scope)].
Definition billing (run status : string) (pair_ok : bool) : pydict :=
  scoped "query_billing_record" run "ok"
    [("freshness_status", PyStr "fresh"); ("fresh_until", later);
     ("source_refs", PyList [PyDict [("source_id", PyStr "bill-7")]]);
     ("data", PyDict (billing_data status pair_ok))].
Definition evidence : pydict :=
  [("evidence_id", PyStr "ev-1"); ("document_id", PyStr "billing-refunds-v3"); ("chunk_id", PyStr "chunk-1");
   ("document_type", PyStr "official_policy"); ("version", PyStr "3.1"); ("supporting_span_eligible", PyBool true);
   ("supporting_span", PyStr "重复扣费"); ("section_path", PyStr "1"); ("content_hash", PyStr "h");
   ("source_locator", PyDict [("locator_hash", PyStr "lh")]);
   ("eligibility_envelope", PyDict [("status", PyStr "active"); ("outcome", PyStr "eligible");
      ("index_version", PyStr "ix-1"); ("effective_from", PyTime (utc 0)); ("effective_until", PyNone)])].
Definition policy (run : string) : pydict :=
  scoped "search_knowledge" run "ok"
    [("source_refs", PyList [PyDict [("source_id", PyStr "chunk-1")]]);
     ("data", PyDict [("evidence", PyList [PyDict evidence]); ("index_version", PyStr "ix-1")])].
Definition citation : ContextCitationBinding :=
  mk_citation "cb-1" "attempt-1" "ev-1" "billing-refunds-v3" "chunk-1" "h" "lh".
(** The observation of another customer. *)
Definition foreign : pydict :=
  [("tool_name", PyStr "query_billing_record"); ("run_id", PyStr "r1"); ("status", PyStr "ok");
   ("tenant_id", PyStr "t1"); ("customer_id", PyStr "c2"); ("scope_hash", PyStr scope);
   ("observed_at", PyTime (utc 0)); ("attempt_index", PyInt 1)].

Definition run (observations : list pydict) : res ActionObligationLedger :=
  @evaluate_action_obligations ascii_runtime refund_spec admission observations "r1" [citation]
    (Some "attempt-1") (Some now) 0.
Definition ledger (observations : list pydict) : ActionObligationLedger :=
  match run observations with
  | Ok l => l
  | Err _ => mk_ledger Refund "" "" "" "" [] [] Clarify "" None
  end.
Definition summary (observations : list pydict) :=
  match run observations with
  | Ok l => Ok (next_state l, led_reason_code l, unsatisfied_capabilities l, map ent_status (led_obligations l))
  | Err e => Err e
  end.

Example assembles :
  summary [billing "r1" "charged" true; policy "r1"] =
  Ok (AssembleCandidate, "all_obligations_satisfied", [], [Satisfied; Satisfied]).
Proof. vm_compute. reflexivity. Qed.
Example refunded_is_terminal :
  summary [billing "r1" "refunded" true; policy "r1"] =
  Ok (ExplainTerminal, "refund_status_not_actionable", [], [Terminal; Satisfied]).
Proof. vm_compute. reflexivity. Qed.
Example other_run_is_ignored :
  summary [billing "r0" "charged" true; policy "r1"] =
  Ok (CollectReads, "obligations_pending", ["query_billing_record"], [Pending; Satisfied]).
Proof. vm_compute. reflexivity. Qed.
Example other_customer_stops :
  summary [billing "r1" "charged" true; policy "r1"; foreign] =
  Ok (SafeStop, "observation_scope_mismatch", [], [Failed; Satisfied]).
Proof. vm_compute. reflexivity. Qed.
End Demo.

(** ** Properties *)
Section properties.
Context `{PyRuntime}.

(** No proposal without evidence.  The ledger lets a candidate be
    assembled only if the action has obligations and every one of them is
    backed by an observation of this run, of one of its capabilities, with
    status ok and exactly the admission's tenant, customer and scope hash,
    with sources; a resource observation is moreover fresh, complete and in
    an allowed status for the admitted reference, and a knowledge one
    contains qualified evidence that the current provider attempt cites. *)
Theorem assemble_requires_evidence spec a observations run bs at_ now clock led :
  evaluate_action_obligations spec a observations run bs at_ now clock = Ok led ->
  next_state led = AssembleCandidate ->
  let t := match now with Some d => instant d | None => clock end in
  obligations spec <> [] /\ led_terminal_outcome led = None /\
  forall o, o ∈ obligations spec ->
    exists e obs, e ∈ led_obligations led /\ ent_obligation_id e = obligation_id o /\
      obs ∈ observations /\ current_read run (considered o) a obs /\ backed_by o a obs e /\
      (if kind o ==? Knowledge then knowledge_evidence o t bs at_ obs else resource_evidence o a t obs).
Proof.
  intros (_ & _ & Hf & Hd & _ & Ht)%evaluate_ok Hn. rewrite Hn in Hd.
  apply decide_assemble in Hd as (Hne & Hom & Hall). split_and!.
  - intros E. rewrite E in Hf. inversion Hf. congruence.
  - by rewrite Ht, Hom.
  - intros o Ho. destruct (Forall2_elem_l _ _ _ _ Hf Ho) as (e & He & Hoe).
    destruct (satisfied_evidence _ _ _ _ _ _ _ _ _ Hoe (Hall e He)) as (obs & ? & ? & ? & ?).
    destruct (obligation_entry_shape _ _ _ _ _ _ _ _ _ Hoe) as (Hid & _).
    exists e, obs. by split_and!.
Qed.

(** Scope isolation.  If a considered observation of this run carries a
    scope other than the admission's, the ledger stops safely, whatever the
    other observations say. *)
Theorem foreign_scope_stops spec a observations run bs at_ now clock led o obs s :
  evaluate_action_obligations spec a observations run bs at_ now clock = Ok led ->
  o ∈ obligations spec -> obs ∈ observations ->
  obs.["run_id"] = PyStr run -> (exists c, c ∈ considered o /\ obs.["tool_name"] = PyStr c) ->
  _observation_scope obs = Ok s -> s <> ("", "", "") -> same_scope a s = false ->
  next_state led = SafeStop.
Proof.
  intros (_ & _ & Hf & Hd & _)%evaluate_ok Ho Hin Hr Hc Hs Hne Hsc.
  destruct (Forall2_elem_l _ _ _ _ Hf Ho) as (e & He & Hoe).
  assert (ent_status e = Failed) as Hst.
  { unfold obligation_entry, considered in *. destruct (kind o ==? Knowledge).
    - unfold _knowledge_entry in Hoe. step_ok Hoe. pose proof (fun x => relevant_elem _ _ _ _ x Hstep) as Hg.
      assert (obs ∈ a0) as Hobs by (apply Hg; set_solver).
      destruct a0 as [|first rest]; [set_solver|]. step_ok Hoe.
      pose proof (hard_terminal_foreign _ _ _ _ _ _ Hobs Hs Hne Hsc Hstep0). destruct a0; [|done].
      simplify_eq. by apply hard_terminal_failed in Hstep0 as (? & _).
    - unfold _resource_entry in Hoe. step_ok Hoe. pose proof (fun x => groups_elem _ _ _ _ x Hstep) as Hg.
      assert (obs ∈ concat a0) as Hobs by (apply Hg; set_solver).
      destruct (concat a0) as [|first rest]; [set_solver|]. step_ok Hoe.
      pose proof (hard_terminal_foreign _ _ _ _ _ _ Hobs Hs Hne Hsc Hstep0). destruct a1; [|done].
      simplify_eq. by apply hard_terminal_failed in Hstep0 as (? & _). }
  pose proof (decide_failed _ _ He Hst) as Hx. rewrite <- Hd in Hx. done.
Qed.

Lemma relevant_current_run observations run cap :
  _relevant_observations (List.filter (fun x => py_eq (x.["run_id"]) (PyStr run)) observations) run cap
  = _relevant_observations observations run cap.
Proof.
  unfold _relevant_observations. do 2 f_equal. unfold is_current.
  induction observations as [|x l IH]; [done|]. simpl.
  destruct (py_eq (x.["run_id"]) (PyStr run)) eqn:E; simpl; rewrite ?E; simpl; [by rewrite IH|done].
Qed.

(** Run isolation.  The ledger is a function of the observations of its
    own run: dropping those of every other run changes nothing, neither the
    result nor an exception. *)
Theorem ledger_ignores_other_runs spec a observations run bs at_ now clock :
  evaluate_action_obligations spec a (List.filter (fun x => py_eq (x.["run_id"]) (PyStr run)) observations)
    run bs at_ now clock
  = evaluate_action_obligations spec a observations run bs at_ now clock.
Proof.
  unfold evaluate_action_obligations. f_equal. f_equal.
  assert (forall t l,
    map_res (obligation_entry spec a (List.filter (fun x => py_eq (x.["run_id"]) (PyStr run)) observations)
               run t bs at_) l
    = map_res (obligation_entry spec a observations run t bs at_) l) as ->; [|done].
  intros t l. induction l as [|o l IH]; [done|]. simpl. rewrite IH. f_equal.
  unfold obligation_entry, _knowledge_entry, _resource_entry. rewrite relevant_current_run.
  assert (map_res (_relevant_observations (List.filter (fun x => py_eq (x.["run_id"]) (PyStr run)) observations) run)
            (capabilities o) = map_res (_relevant_observations observations run) (capabilities o)) as ->; [|done].
  induction (capabilities o) as [|c cs IHc]; [done|]. simpl. by rewrite relevant_current_run, IHc.
Qed.

(** Progress.  For a spec that passes validation, a ledger that asks for
    more reads names at least one capability to read, and each named
    capability belongs to an obligation that is pending or stale. *)
Theorem collect_reads_makes_progress spec a observations run bs at_ now clock led :
  validate_action_spec spec = Ok tt ->
  evaluate_action_obligations spec a observations run bs at_ now clock = Ok led ->
  next_state led = CollectReads ->
  unsatisfied_capabilities led <> [] /\
  forall c, c ∈ unsatisfied_capabilities led ->
    exists o e, o ∈ obligations spec /\ c ∈ capabilities o /\ e ∈ led_obligations led /\
                ent_obligation_id e = obligation_id o /\ ent_status e ∈ [Pending; Stale].
Proof.
  intros Hv He Hn. pose proof (ledger_entries _ _ _ _ _ _ _ _ _ He) as Hsh.
  apply evaluate_ok in He as (_ & _ & Hf & Hd & Hu & _). rewrite Hn in Hd.
  apply decide_collect in Hd as (Hom & e & He & Hes);
    [|intros e He; destruct (Hsh e He) as (o & _ & _ & _ & ?); done].
  assert (forall c, c ∈ unsatisfied_capabilities led <->
            exists e, e ∈ led_obligations led /\ ent_status e ∈ [Pending; Stale] /\ c ∈ ent_capabilities e) as Hc.
  { intros c. rewrite Hu. by apply unsatisfied_elem. }
  destruct (Hsh e He) as (o & Ho & _ & Hcap & _). split.
  - unfold validate_action_spec in Hv. steps_ok Hv. apply map_res_ok in Hstep.
    destruct (Forall2_elem_l _ _ _ _ Hstep Ho) as (u & _ & Hvo). unfold validate_obligation in Hvo. steps_ok Hvo.
    to_prop. destruct (capabilities o) as [|c l]; [done|]. intros E.
    assert (c ∈ unsatisfied_capabilities led) as Hin; [|rewrite E in Hin; by apply elem_of_nil in Hin].
    apply Hc. exists e. rewrite Hcap. split_and!; [done|done|list_member].
  - intros c (e' & He' & Hs' & Hin)%Hc. destruct (Hsh e' He') as (o' & Ho' & Hid & Hcap' & _).
    exists o', e'. rewrite <- Hcap'. by split_and!.
Qed.

(** Terminal outcomes are facts of this run.  A ledger that explains a
    terminal outcome offers no capability to retry, and the outcome comes
    from a registered rule of the obligation, matched by an observation of
    this run in the admission's scope, to which it is bound. *)
Theorem terminal_outcome_is_bound spec a observations run bs at_ now clock led :
  evaluate_action_obligations spec a observations run bs at_ now clock = Ok led ->
  next_state led = ExplainTerminal ->
  unsatisfied_capabilities led = [] /\
  exists outcome rule o obs,
    led_terminal_outcome led = Some outcome /\ o ∈ obligations spec /\ rule ∈ terminal_outcomes spec /\
    rule_obligation_id rule = obligation_id o /\ out_obligation_id outcome = obligation_id o /\
    out_outcome_code outcome = outcome_code rule /\ led_reason_code led = outcome_code rule /\
    obs ∈ observations /\ obs.["run_id"] = PyStr run /\ in_scope a obs /\
    _terminal_rule_matches rule obs o a = Ok true /\
    bind_scope_hash (out_binding outcome) = adm_scope_hash a /\
    source_ids (out_binding outcome) = _source_ids obs.
Proof.
  intros (_ & _ & Hf & Hd & Hu & Ht)%evaluate_ok Hn. rewrite Hn in Hd. symmetry in Hd.
  unfold decide_next in Hd. res_cases Hd. rewrite Hu, Ht. unfold unsatisfied. rewrite Heql. split; [done|].
  assert (t ∈ omap ent_terminal_outcome (led_obligations led)) as Hin by (rewrite Heql; set_solver).
  apply list_elem_of_omap in Hin as (e & He & Het). apply Forall2_flip in Hf.
  destruct (Forall2_elem_l _ _ _ _ Hf He) as (o & Ho & Hoe).
  assert (ent_status e = Terminal) as Hst
    by (by apply (obligation_entry_shape _ _ _ _ _ _ _ _ _ Hoe); rewrite Het).
  unfold flip, obligation_entry in Hoe. destruct (kind o ==? Knowledge).
  { by apply knowledge_entry_cases in Hoe as (_ & ? & _). }
  apply resource_entry_cases in Hoe as (_ & _ & Hoe). destruct (Hoe Hst) as (obs & Hobs & Hr & _ & Hto).
  unfold _terminal_outcome_entry in Hto. steps_ok Hto. destruct (negb _) eqn:Eadm; [done|].
  apply negb_false_iff in Eadm. unfold terminal_admissible in Eadm. apply andb_true_iff in Eadm as [Esc _].
  apply same_scope_true in Esc as ->. steps_ok Hto. destruct a0 as [rule|]; [|done].
  apply find_res_some in Hstep0 as [Hrule Hm]. destruct (_ !=? _) eqn:Eid in Hm; [done|]. to_prop.
  unfold terminal_entry_of in Hto. res_cases Hto. simpl in Het. simplify_eq. simpl in *.
  apply base_binding_fields in Hstep0 as (? & ? & ? & ? & _).
  eexists _, rule, o, obs. split_and!; simpl; try done.
Qed.
End properties.

(** ** Witnesses *)
Module Witnesses.
Import Demo.
#[local] Existing Instance ascii_runtime.
Definition complete : list pydict := [billing "r1" "charged" true; policy "r1"].
Definition crossed : list pydict := complete ++ [foreign].
Definition partial : list pydict := [policy "r1"].
Definition refunded : list pydict := [billing "r1" "refunded" true; policy "r1"].

Lemma assemble_requires_evidence_witness :
  next_state (ledger complete) = AssembleCandidate /\
  obligations refund_spec <> [] /\ led_terminal_outcome (ledger complete) = None /\
  forall o, o ∈ obligations refund_spec ->
    exists e obs, e ∈ led_obligations (ledger complete) /\ ent_obligation_id e = obligation_id o /\
      obs ∈ complete /\ current_read "r1" (considered o) admission obs /\ backed_by o admission obs e /\
      (if kind o ==? Knowledge then knowledge_evidence o (instant now) [citation] (Some "attempt-1") obs
       else resource_evidence o admission (instant now) obs).
Proof.
  split; [vm_compute; reflexivity|].
  apply (assemble_requires_evidence refund_spec admission complete "r1" [citation] (Some "attempt-1")
           (Some now) 0 (ledger complete)); vm_compute; reflexivity.
Defined.

Lemma foreign_scope_stops_witness : next_state (ledger crossed) = SafeStop.
Proof.
  apply (foreign_scope_stops refund_spec admission crossed "r1" [citation] (Some "attempt-1") (Some now) 0
           (ledger crossed) billing_record_current foreign ("t1", "c2", scope));
    try (vm_compute; reflexivity).
  - apply list_elem_of_here.
  - unfold crossed. apply elem_of_app. right. apply list_elem_of_here.
  - exists "query_billing_record". split; [apply list_elem_of_here|reflexivity].
  - intros E. discriminate E.
Defined.

Lemma collect_reads_makes_progress_witness :
  unsatisfied_capabilities (ledger partial) <> [] /\
  forall c, c ∈ unsatisfied_capabilities (ledger partial) ->
    exists o e, o ∈ obligations refund_spec /\ c ∈ capabilities o /\ e ∈ led_obligations (ledger partial) /\
                ent_obligation_id e = obligation_id o /\ ent_status e ∈ [Pending; Stale].
Proof.
  apply (collect_reads_makes_progress refund_spec admission partial "r1" [citation] (Some "attempt-1")
           (Some now) 0); vm_compute; reflexivity.
Defined.

Lemma terminal_outcome_is_bound_witness :
  unsatisfied_capabilities (ledger refunded) = [] /\
  exists outcome rule o obs,
    led_terminal_outcome (ledger refunded) = Some outcome /\ o ∈ obligations refund_spec /\
    rule ∈ terminal_outcomes refund_spec /\
    rule_obligation_id rule = obligation_id o /\ out_obligation_id outcome = obligation_id o /\
    out_outcome_code outcome = outcome_code rule /\ led_reason_code (ledger refunded) = outcome_code rule /\
    obs ∈ refunded /\ obs.["run_id"] = PyStr "r1" /\ in_scope admission obs /\
    _terminal_rule_matches rule obs o admission = Ok true /\
    bind_scope_hash (out_binding outcome) = adm_scope_hash admission /\
    source_ids (out_binding outcome) = _source_ids obs.
Proof.
  apply (terminal_outcome_is_bound refund_spec admission refunded "r1" [citation] (Some "attempt-1")
           (Some now) 0); vm_compute; reflexivity.
Defined.
End Witnesses.
