(* ===== verification/PyText.v ===== *)
(** * Text helpers

    What the source uses of [str.split], code points and simple patterns: the
    words of a text, its code points, stripping a class of characters from both
    ends, and the bounded identifiers of public texts (conversation_text.py and
    the patterns of agent/responses.py). *)
From Stdlib Require Import Ascii.
From S2P Require Import Prelude PyValue CanonicalJson.
Local Open Scope string_scope.
Local Open Scope list_scope.
Local Open Scope Z_scope.

(** ** Words: [text.split()] *)
Definition flush (cur : string) : list string := if is_empty_str cur then [] else [cur].
Definition snoc (cur : string) (a : ascii) : string := cur +:+ String a "".
(** [cur] is the word being read; white space is recognised by its UTF-8 bytes,
    as in [str_strip]. *)
Fixpoint words_from (cur s : string) : list string :=
  match s with
  | EmptyString => flush cur
  | String a s1 =>
      if ws1 a then flush cur ++ words_from "" s1 else
      match s1 with
      | EmptyString => flush (snoc cur a)
      | String b s2 =>
          if ws2 a b then flush cur ++ words_from "" s2 else
          match s2 with
          | EmptyString => words_from (snoc cur a) s1
          | String c s3 => if ws3 a b c then flush cur ++ words_from "" s3 else words_from (snoc cur a) s1
          end
      end
  end.
Definition words (s : string) : list string := words_from "" s.

(** ** Code points *)
Definition continuation (c : ascii) : bool := let n := nat_of_ascii c in (Nat.leb 128 n && Nat.leb n 191)%nat.
Fixpoint code_points (s : string) : list string :=
  match s with
  | EmptyString => []
  | String c s =>
      match code_points s with
      | String d p :: ps => if continuation d then String c (String d p) :: ps else String c "" :: String d p :: ps
      | ps => String c "" :: ps
      end
  end.
Fixpoint drop_while {A} (f : A -> bool) (l : list A) : list A :=
  match l with
  | [] => []
  | x :: l' => if f x then drop_while f l' else l
  end.
Definition concat_points (l : list string) : string := String.concat "" l.
(** [re.sub("^[class]+|[class]+$", "", text)] *)
Definition strip_class (f : string -> bool) (s : string) : string :=
  concat_points (reverse (drop_while f (reverse (drop_while f (code_points s))))).

(** ** conversation_text.py *)
Definition surrounding_punctuation (p : string) : bool :=
  starts_space ws2 ws3 p
  || (p in? [","; "."; "!"; "?"; ";"; ":"; "'"; String "034"%char ""; "，"; "。"; "！"; "？"; "；"; "："; "、"; "~"; "～"; "·"]).
Definition _STANDALONE_GREETINGS : list string :=
  ["hello"; "hello there"; "hi"; "hey"; "good morning"; "good afternoon"; "good evening"; "你好"; "您好"; "嗨"; "哈喽";
   "早上好"; "下午好"; "晚上好"].

Definition normalized_conversation_text (message : string) : string := String.concat " " (words message).
Definition conversation_title (message : string) : string :=
  let normalized := normalized_conversation_text message in
  if is_empty_str normalized then "未命名对话" else py_take 80 normalized.
Section greeting.
Context `{PyRuntime}.
Definition is_standalone_greeting (message : string) : bool :=
  let normalized := strip_class surrounding_punctuation (casefold (normalized_conversation_text message)) in
  (py_len normalized <=? 32) && (normalized in? _STANDALONE_GREETINGS).
End greeting.

Example greeting_yes : @is_standalone_greeting ascii_runtime " Hello,   there!! " = false
  /\ @is_standalone_greeting ascii_runtime "  Good   morning。！" = true.
Proof. split; vm_compute; reflexivity. Qed.

(** ** Patterns of public texts *)
Definition alnum (c : ascii) : bool :=
  let n := nat_of_ascii c in (is_digit c || (Nat.leb 65 n && Nat.leb n 90) || (Nat.leb 97 n && Nat.leb n 122))%nat.
(** [^[A-Za-z0-9][A-Za-z0-9_.:-]{0,127}$] *)
Definition _SAFE_RESOURCE_REF (s : string) : bool :=
  match s with
  | EmptyString => false
  | String c r =>
      alnum c && (py_len r <=? 127)
      && forallb (fun c => alnum c || (c in? ["_"%char; "."%char; ":"%char; "-"%char])) (chars r)
  end.
(** [^[A-Z]{3}$] *)
Definition _SAFE_CURRENCY (s : string) : bool :=
  (py_len s =? 3) && forallb (fun c => let n := nat_of_ascii c in (Nat.leb 65 n && Nat.leb n 90)%nat) (chars s).
(** [^\d{1,12}(?:\.\d{1,2})?$]; amounts are canonical decimals, in ASCII. *)
Definition digits_between (lo hi : Z) (s : string) : bool :=
  (lo <=? py_len s) && (py_len s <=? hi) && forallb is_digit (chars s).
Definition _SAFE_AMOUNT (s : string) : bool :=
  match split_on "."%char s with
  | [whole] => digits_between 1 12 whole
  | [whole; cents] => digits_between 1 12 whole && digits_between 1 2 cents
  | _ => false
  end.

(** ** Lemmas *)
Lemma words_from_cons cur a s1 :
  words_from cur (String a s1) =
  if ws1 a then flush cur ++ words_from "" s1 else
  match s1 with
  | EmptyString => flush (snoc cur a)
  | String b s2 =>
      if ws2 a b then flush cur ++ words_from "" s2 else
      match s2 with
      | EmptyString => words_from (snoc cur a) s1
      | String c s3 => if ws3 a b c then flush cur ++ words_from "" s3 else words_from (snoc cur a) s1
      end
  end.
Proof. reflexivity. Qed.
Lemma flush_nonempty c w : w ∈ flush c -> w <> "".
Proof.
  unfold flush. destruct (is_empty_str c) eqn:E; [by intros ?%elem_of_nil|].
  apply is_empty_str_false in E. by intros ->%list_elem_of_singleton.
Qed.
Lemma words_from_nonempty cur s w : w ∈ words_from cur s -> w <> "".
Proof.
  revert cur. induction s as [s IH] using (induction_ltof1 _ String.length). unfold ltof in IH. intros cur Hw.
  destruct s as [|a s1]; [by eapply flush_nonempty|]. rewrite words_from_cons in Hw.
  repeat case_match; rewrite ?elem_of_app in Hw; destruct_or?; eauto using flush_nonempty;
    (eapply IH; [|eassumption]; subst; simpl; lia).
Qed.

(** [part in text] holds of a text with the part anywhere. *)
Lemma prefix_append p s : String.prefix p (p +:+ s) = true.
Proof. induction p as [|c p IH]; [by destruct s|]. rewrite append_cons. simpl. by destruct (ascii_dec c c). Qed.
Lemma prefix_trans_append p s t : String.prefix p s = true -> String.prefix p (s +:+ t) = true.
Proof.
  revert s. induction p as [|c p IH]; intros s Hp; [by destruct (s +:+ t)|].
  destruct s as [|d s]; [done|]. rewrite append_cons. simpl in *. destruct (ascii_dec c d); [auto|done].
Qed.
Lemma str_contains_here p s : String.prefix p s = true -> str_contains p s = true.
Proof. intros Hp. destruct s; cbn [str_contains]; by rewrite Hp. Qed.
Lemma str_contains_left p s t : str_contains p s = true -> str_contains p (s +:+ t) = true.
Proof.
  induction s as [|c s IH]; intros Hc.
  - cbn [str_contains] in Hc. rewrite orb_false_r in Hc. apply str_contains_here. by apply (prefix_trans_append _ "").
  - rewrite append_cons. cbn [str_contains] in Hc |- *. apply orb_true_iff in Hc as [Hc|Hc]; apply orb_true_iff; [left|right; auto].
    by apply (prefix_trans_append _ (String c s)).
Qed.
Lemma str_contains_right p s t : str_contains p t = true -> str_contains p (s +:+ t) = true.
Proof. intros Hc. induction s as [|c s IH]; [done|]. rewrite append_cons. cbn [str_contains]. apply orb_true_iff. by right. Qed.
