(* ===== verification/Regex.v ===== *)
(** * A fragment of Python's regular expressions

    What the source's patterns use of [re]: classes of one character, greedy
    bounded repetition of a class, word boundaries and one-character
    look-around, matched by backtracking over code points, and the leftmost
    scan behind [re.sub], [re.split] and [re.findall]. *)
From Stdlib Require Import Ascii.
From S2P Require Import Prelude PyValue PyText.
Local Open Scope string_scope.
Local Open Scope list_scope.

(** ** Characters *)

(** A code point is the string of its UTF-8 bytes. *)
Local Notation cp := string.

Definition ascii_between (lo hi : nat) (c : cp) : bool :=
  match c with
  | String a "" => Nat.leb lo (nat_of_ascii a) && Nat.leb (nat_of_ascii a) hi
  | _ => false
  end.
Definition is_ascii (c : cp) : bool := ascii_between 0 127 c.
Definition digit09 : cp -> bool := ascii_between 48 57.
Definition upper : cp -> bool := ascii_between 65 90.
Definition lower : cp -> bool := ascii_between 97 122.

(** What the interpreter's Unicode tables say of a code point outside ASCII:
    [\w] and [\d]. *)
Class UnicodeClasses := {
  unicode_word : cp -> bool;
  unicode_decimal : cp -> bool;
}.

Definition ascii_unicode : UnicodeClasses :=
  {| unicode_word := fun _ => false; unicode_decimal := fun _ => false |}.

Section engine.
Context `{UnicodeClasses}.

Definition re_d (c : cp) : bool := digit09 c || (negb (is_ascii c) && unicode_decimal c).
Definition re_w (c : cp) : bool :=
  digit09 c || upper c || lower c || (c ==? "_") || (negb (is_ascii c) && unicode_word c).

(** ** Patterns *)
Inductive item : Type :=
| One (f : cp -> bool)
| Rep (f : cp -> bool) (lo : nat) (hi : option nat)
| WordBoundary
| NotBehind (f : cp -> bool)
| NotAhead (f : cp -> bool).

(** How many characters a greedy repetition takes at first. *)
Fixpoint run_length (f : cp -> bool) (hi : option nat) (s : list cp) : nat :=
  match hi, s with
  | Some O, _ => O
  | _, [] => O
  | _, c :: s' => if f c then S (run_length f (pred <$> hi) s') else O
  end.
Definition satisfies (f : cp -> bool) (o : option cp) : bool := match o with Some c => f c | None => false end.
Definition last_or (prev : option cp) (l : list cp) : option cp :=
  match last l with Some c => Some c | None => prev end.

(** Giving characters back one by one, down to [lo]. *)
Fixpoint back_off (lo : nat) (attempt : nat -> option nat) (k : nat) : option nat :=
  if Nat.ltb k lo then None else
  match attempt k with
  | Some n => Some n
  | None => match k with O => None | S k' => back_off lo attempt k' end
  end.

(** The length of the match at this place; [prev] is the character before it.
    A repetition gives characters back until the rest matches. *)
Fixpoint match_items (its : list item) (prev : option cp) (s : list cp) : option nat :=
  match its with
  | [] => Some O
  | One f :: its' =>
      match s with
      | c :: s' => if f c then S <$> match_items its' (Some c) s' else None
      | [] => None
      end
  | Rep f lo hi :: its' =>
      back_off lo (fun k => Nat.add k <$> match_items its' (last_or prev (take k s)) (drop k s)) (run_length f hi s)
  | WordBoundary :: its' =>
      if xorb (satisfies re_w prev) (satisfies re_w (head s)) then match_items its' prev s else None
  | NotBehind f :: its' => if satisfies f prev then None else match_items its' prev s
  | NotAhead f :: its' => if satisfies f (head s) then None else match_items its' prev s
  end.

(** A pattern is the list of its alternatives. *)
Definition pattern : Type := list (list item).
Fixpoint match_here (p : pattern) (prev : option cp) (s : list cp) : option nat :=
  match p with
  | [] => None
  | its :: p' => match match_items its prev s with Some n => Some n | None => match_here p' prev s end
  end.

(** ** Substitution *)
Inductive segment : Type := Lit (c : cp) | Hit (m : list cp).

(** The scan of [re.sub]: leftmost matches that do not overlap; [skip] counts
    the characters of the last match that are still to be passed.  No pattern
    here matches the empty text. *)
Fixpoint segments (p : pattern) (skip : nat) (prev : option cp) (s : list cp) : list segment :=
  match s with
  | [] => []
  | c :: s' =>
      match skip with
      | S k => segments p k (Some c) s'
      | O =>
          match match_here p prev s with
          | Some (S k) => Hit (take (S k) s) :: segments p k (Some c) s'
          | _ => Lit c :: segments p O (Some c) s'
          end
      end
  end.
Fixpoint render (repl : nat -> list cp -> list cp) (i : nat) (l : list segment) : list cp :=
  match l with
  | [] => []
  | Lit c :: l' => c :: render repl i l'
  | Hit m :: l' => repl i m ++ render repl (S i) l'
  end.
Definition hits (l : list segment) : list (list cp) := omap (fun x => match x with Hit m => Some m | Lit _ => None end) l.

(** ** Lemmas *)
Lemma last_or_app prev r c : last_or prev (r ++ [c]) = Some c.
Proof. unfold last_or. by rewrite last_snoc. Qed.
Lemma last_or_cons prev c r : last_or prev (c :: r) = last_or (Some c) r.
Proof. unfold last_or. rewrite last_cons. by destruct (last r). Qed.
Lemma segments_skip p m prev s : segments p (length m) prev (m ++ s) = segments p O (last_or prev m) s.
Proof.
  revert prev. induction m as [|c m IH]; intros prev; [done|]. cbn [length app segments]. by rewrite IH, last_or_cons.
Qed.
Lemma segments_hit p prev m s :
  m <> [] -> match_here p prev (m ++ s) = Some (length m) ->
  segments p O prev (m ++ s) = Hit m :: segments p O (last_or prev m) s.
Proof.
  intros Hm E. destruct m as [|c m]; [done|]. cbn [app segments]. cbn [app length] in E. rewrite E.
  cbn [take]. rewrite take_app_length, segments_skip. by rewrite last_or_cons.
Qed.
Lemma segments_miss p prev c s :
  match_here p prev (c :: s) = None -> segments p O prev (c :: s) = Lit c :: segments p O (Some c) s.
Proof. intros E. cbn [segments]. by rewrite E. Qed.

Lemma render_lits f i l segs : render f i (map Lit l ++ segs) = l ++ render f i segs.
Proof. induction l as [|c l IH]; [done|]. cbn. by rewrite IH. Qed.
Lemma render_const repl i l : render (fun _ _ => repl) i l = render (fun _ _ => repl) O l.
Proof.
  revert i. enough (forall i k, render (fun _ _ => repl) i l = render (fun _ _ => repl) k l) by eauto.
  induction l as [|[c|m] l IH]; intros i k; cbn; [done|by rewrite (IH i k)|by rewrite (IH (S i) (S k))].
Qed.

Lemma run_length_le f n s : (run_length f (Some n) s <= n)%nat.
Proof. revert n. induction s as [|c s IH]; intros [|n]; cbn; [lia..|]. destruct (f c); [|lia]. specialize (IH n). lia. Qed.
Lemma rep_exact f n its prev s :
  match_items (Rep f n (Some n) :: its) prev s =
  if Nat.leb n (run_length f (Some n) s)
  then Nat.add n <$> match_items its (last_or prev (take n s)) (drop n s) else None.
Proof.
  cbn [match_items]. pose proof (run_length_le f n s) as Hle. destruct (Nat.leb_spec n (run_length f (Some n) s)).
  - assert (run_length f (Some n) s = n) as -> by lia.
    destruct n as [|n]; cbn [back_off].
    + cbn. by destruct (match_items its _ _).
    + rewrite (proj2 (Nat.ltb_ge (S n) (S n))) by lia. destruct (match_items its _ _); [done|].
      cbn [fmap option_fmap option_map]. destruct n; cbn [back_off]; by rewrite (proj2 (Nat.ltb_lt _ _)) by lia.
  - destruct (run_length f (Some n) s); cbn [back_off]; by rewrite (proj2 (Nat.ltb_lt _ _)) by lia.
Qed.

(** *** The scan reads the whole text *)
Lemma back_off_le lo attempt n k r :
  (forall i m, (i <= k)%nat -> attempt i = Some m -> (m <= n)%nat) -> back_off lo attempt k = Some r -> (r <= n)%nat.
Proof.
  induction k as [|k IH]; intros Ha; cbn [back_off]; destruct (Nat.ltb _ _); try done.
  - destruct (attempt O) eqn:E; [|done]. intros Hr. injection Hr as <-. eapply Ha; [|exact E]. lia.
  - destruct (attempt (S k)) eqn:E.
    + intros Hr. injection Hr as <-. eapply Ha; [|exact E]. lia.
    + apply IH. intros i m Hi. apply Ha. lia.
Qed.
Lemma run_length_bound f hi s : (run_length f hi s <= length s)%nat.
Proof.
  revert hi. induction s as [|c s IH]; intros [[|n]|]; cbn; [lia..| |]; destruct (f c); try lia;
    [specialize (IH (Some n))|specialize (IH None)]; lia.
Qed.
Lemma match_items_le its prev s n : match_items its prev s = Some n -> (n <= length s)%nat.
Proof.
  revert prev s n. induction its as [|[f|f lo hi| |f|f] its IH]; intros prev s n; cbn [match_items].
  - intros E. injection E as <-. lia.
  - destruct s as [|c s]; [done|]. destruct (f c); [|done]. intros (m & Hm & ->)%fmap_Some_1. apply IH in Hm. cbn. lia.
  - apply back_off_le. intros i m Hi (k & Hk & ->)%fmap_Some_1. apply IH in Hk. rewrite length_drop in Hk.
    pose proof (run_length_bound f hi s). lia.
  - destruct (xorb _ _); [apply IH|done].
  - destruct (satisfies f prev); [done|apply IH].
  - destruct (satisfies f (head s)); [done|apply IH].
Qed.
Lemma match_here_le p prev s n : match_here p prev s = Some n -> (n <= length s)%nat.
Proof.
  induction p as [|its p IH]; cbn; [done|]. destruct (match_items its prev s) eqn:E; [|done].
  intros Hn. injection Hn as <-. by eapply match_items_le.
Qed.
(** Putting the segments back together gives the text. *)
Lemma segments_lossless p prev s : render (fun _ m => m) O (segments p O prev s) = s.
Proof.
  assert (forall l i k, render (fun _ m => m) i l = render (fun _ m => m) k l) as Hi.
  { induction l as [|[c|m] l IH]; intros i k; cbn; [done|by rewrite (IH i k)|by rewrite (IH (S i) (S k))]. }
  enough (forall s skip prev, (skip <= length s)%nat -> render (fun _ m => m) O (segments p skip prev s) = drop skip s) as He
    by (by rewrite He by lia).
  clear prev s. induction s as [|c s IH]; intros skip prev Hs; cbn [segments]; [by destruct skip|].
  destruct skip as [|skip]; [|apply IH; cbn in Hs; lia]. cbn [drop].
  destruct (match_here p prev (c :: s)) as [[|n]|] eqn:E; [cbn [render]; by rewrite IH by lia| |cbn [render]; by rewrite IH by lia].
  apply match_here_le in E. cbn [length] in E. cbn [render]. rewrite (Hi _ 1%nat O), IH by lia. cbn [take app].
  by rewrite take_drop.
Qed.
End engine.
