(* ===== verification/PiiRedaction.v ===== *)
(** * Redaction of personal data

    policies/pii.py: a text is rewritten pass by pass with six regular
    expressions, in the fragment of [Regex].

    The theorem that matters is about the numbers of a text, its maximal runs
    of digits: the three numeric passes together delete exactly the runs that
    look like an identity, telephone or payment number and keep every other. *)
From Stdlib Require Import Ascii.
From S2P Require Import Prelude PyValue Sha256 CanonicalJson PyText Regex.
Local Open Scope string_scope.
Local Open Scope list_scope.
Local Notation cp := string.

(** ** Case-insensitive letters *)

(** The four letters outside ASCII that [[A-Z]] matches under [re.IGNORECASE]
    (U+0130, U+0131, U+017F and U+212A). *)
Definition kelvin_sign : cp := String "226" (String "132" (String "170" "")).
Definition folded_letters : list cp := ["İ"; "ı"; "ſ"; kelvin_sign].
Definition letter_ic (c : cp) : bool := upper c || lower c || (c in? folded_letters).
(** A lower-case ASCII letter of a pattern under [re.IGNORECASE]. *)
Definition other_case (a : ascii) : ascii := ascii_of_nat (nat_of_ascii a - 32).
Definition char_ic (a : ascii) (c : cp) : bool :=
  (c ==? String a "") || (lower (String a "") && (c ==? String (other_case a) ""))
  || ((a ==? "i"%char) && (c in? ["İ"; "ı"])) || ((a ==? "s"%char) && (c ==? "ſ")) || ((a ==? "k"%char) && (c ==? kelvin_sign)).

Section redaction.
Context `{UnicodeClasses}.

(** [pattern.subn(text, s)] *)
Definition subn (p : pattern) (text : string) (s : list cp) : list cp * nat :=
  let l := segments p O None s in (render (fun _ _ => code_points text) O l, length (hits l)).

(** ** The six patterns *)
Definition lit (s : string) : list item := map (fun a => One (fun c => c ==? String a "")) (String.list_ascii_of_string s).
Definition lit_ic (s : string) : list item := map (fun a => One (char_ic a)) (String.list_ascii_of_string s).
Definition any_of (f : cp -> bool) (extra : list cp) (c : cp) : bool := f c || (c in? extra).
Definition letter_or_digit_ic (c : cp) : bool := letter_ic c || digit09 c.

Definition _EMAIL : pattern :=
  [[WordBoundary; Rep (any_of letter_or_digit_ic ["."; "_"; "%"; "+"; "-"]) 1 None; One (fun c => c ==? "@");
    Rep (any_of letter_or_digit_ic ["."; "-"]) 1 None; One (fun c => c ==? "."); Rep letter_ic 2 None; WordBoundary]].
Definition _SECRET : pattern :=
  let tail := [Rep (any_of (fun c => upper c || lower c || digit09 c) ["_"; "-"]) 12 None; WordBoundary] in
  [WordBoundary :: lit "sk-" ++ tail; WordBoundary :: lit "ak-" ++ tail].
Definition _CN_ID : pattern := [[NotBehind re_d; Rep re_d 17 (Some 17%nat); One (any_of digit09 ["X"; "x"]); NotAhead re_d]].
Definition _CN_PHONE : pattern :=
  [[NotBehind re_d; One (fun c => c ==? "1"); One (ascii_between 51 57); Rep re_d 9 (Some 9%nat); NotAhead re_d]].
Definition _PAYMENT_NUMBER : pattern := [[NotBehind re_d; Rep re_d 13 (Some 19%nat); NotAhead re_d]].
(** The class [[0-9a-f]] gains only the upper-case letters under [re.IGNORECASE]. *)
Definition hex_ic (c : cp) : bool := digit09 c || ascii_between 97 102 c || ascii_between 65 70 c.
Definition _SCOPED_OPAQUE_RESOURCE : pattern :=
  map (fun kind => WordBoundary :: lit_ic (kind +:+ "_") ++ [Rep hex_ic 32 (Some 32%nat); WordBoundary]) ["bill"; "key"; "sub"].

(** ** redact_pii *)
Record RedactionResult := mk_redaction {
  rd_text : string; redaction_count : Z; secret_fingerprints : list string; applied_rule_ids : list string;
}.

Definition fingerprint (m : list cp) : string := String.substring 0 16 (sha256_hex (concat_points m)).
(** The private-use characters U+E000 and U+E001 around the marker. *)
Definition private_use (last : ascii) : cp := String "238" (String "128" (String last "")).
Definition opaque_marker (i : nat) : list cp :=
  private_use "128" :: code_points ("SUPPORTGUARD_OPAQUE_" +:+ str_of_Z (Z.of_nat i)) ++ [private_use "129"].
(** [text.replace(marker, resource)] *)
Definition replace (old new s : list cp) : list cp :=
  render (fun _ _ => new) O (segments [map (fun x => One (fun c => c ==? x)) old] O None s).
Fixpoint restore (i : nat) (resources : list (list cp)) (s : list cp) : list cp :=
  match resources with
  | [] => s
  | r :: rs => restore (S i) rs (replace (opaque_marker i) r s)
  end.
(** The three numeric rules, in their order. *)
Definition numeric_rules : list (pattern * string) :=
  [(_CN_ID, "[REDACTED_ID]"); (_CN_PHONE, "[REDACTED_PHONE]"); (_PAYMENT_NUMBER, "[REDACTED_PAYMENT_NUMBER]")].
Fixpoint passes (rules : list (pattern * string)) (s : list cp) : list cp * list nat :=
  match rules with
  | [] => (s, [])
  | (p, text) :: rules' => let '(s', n) := subn p text s in let '(out, ns) := passes rules' s' in (out, n :: ns)
  end.

Definition redact_pii (text : string) : RedactionResult :=
  let '(redacted, emails) := subn _EMAIL "[REDACTED_EMAIL]" (code_points text) in
  let secret_segments := segments _SECRET O None redacted in
  let fingerprints := map fingerprint (hits secret_segments) in
  let redacted := render (fun _ _ => code_points "[REDACTED_API_KEY]") O secret_segments in
  let scoped := segments _SCOPED_OPAQUE_RESOURCE O None redacted in
  let opaque_resources := hits scoped in
  let redacted := render (fun i _ => opaque_marker i) O scoped in
  let '(redacted, numbers) := passes numeric_rules redacted in
  let redacted := restore O opaque_resources redacted in
  let counts := emails :: length (hits secret_segments) :: numbers in
  let rule_counts := zip ["pii.email.v1"; "secret.api_key.v1"; "pii.cn_id.v1"; "pii.cn_phone.v1"; "payment.number.v1"] counts in
  mk_redaction (concat_points redacted) (Z.of_nat (sum_list counts)) fingerprints
    (map fst (List.filter (fun rc => negb (Nat.eqb rc.2 0)) rule_counts)).
End redaction.
Arguments redact_pii : simpl never.

(** ** The numbers of a text *)
Section numbers.
Context `{UnicodeClasses}.

Definition boundary (s : list cp) : Prop := satisfies re_d (head s) = false.
Definition digits (r : list cp) : Prop := Forall (fun c => re_d c = true) r.
Definition no_digits (r : list cp) : Prop := Forall (fun c => re_d c = false) r.

(** The maximal runs of digits, each with the text behind it; [cur] is the run
    being read. *)
Fixpoint runs_from (cur : list cp) (s : list cp) : list (list cp * list cp) :=
  let closed := if is_nil cur then [] else [(cur, s)] in
  match s with
  | [] => closed
  | c :: s' => if re_d c then runs_from (cur ++ [c]) s' else closed ++ runs_from [] s'
  end.
Definition runs (s : list cp) : list (list cp * list cp) := runs_from [] s.
Definition digit_runs (s : list cp) : list (list cp) := (runs s).*1.

(** What the numeric rules are meant to catch. *)
Definition phone_shaped (r : list cp) : bool :=
  match r with
  | a :: b :: r' => (a ==? "1") && ascii_between 51 57 b && Nat.eqb (length r') 9
  | _ => false
  end.
Definition payment_sized (r : list cp) : bool := Nat.leb 13 (length r) && Nat.leb (length r) 19.
Definition sensitive (r : list cp) : bool := phone_shaped r || payment_sized r.
(** An identity number: 17 digits and an ASCII digit, or 17 digits and an [X]
    that no digit follows. *)
Definition id_shaped (x : list cp * list cp) : bool :=
  match x.2 with
  | c :: s' => Nat.eqb (length x.1) 17 && (c in? ["X"; "x"]) && negb (satisfies re_d (head s'))
  | [] => false
  end || (Nat.eqb (length x.1) 18 && satisfies digit09 (last x.1)).
Definition numeric_pass (s : list cp) : list cp := (passes numeric_rules s).1.

(** *** Runs *)
Lemma runs_nondigit c s : re_d c = false -> runs (c :: s) = runs s.
Proof. intros E. unfold runs. cbn. by rewrite E. Qed.
Lemma runs_nondigits x s : no_digits x -> runs (x ++ s) = runs s.
Proof. induction 1 as [|c x E _ IH]; [done|]. cbn [app]. by rewrite runs_nondigit. Qed.
Lemma runs_from_run cur r s : digits r -> runs_from cur (r ++ s) = runs_from (cur ++ r) s.
Proof.
  intros Hr. revert cur. induction Hr as [|c r E _ IH]; intros cur; [by rewrite app_nil_r|].
  cbn [app runs_from]. rewrite E, IH. by rewrite <- app_assoc.
Qed.
Lemma runs_from_boundary cur s : cur <> [] -> boundary s -> runs_from cur s = (cur, s) :: runs s.
Proof.
  intros Hc Hb. unfold boundary in Hb. destruct cur as [|a cur]; [done|]. destruct s as [|c s]; [done|].
  cbn in Hb. cbn. by rewrite Hb.
Qed.
Lemma runs_run r s : digits r -> r <> [] -> boundary s -> runs (r ++ s) = (r, s) :: runs s.
Proof. intros Hr Hn Hb. unfold runs. rewrite runs_from_run by done. by apply runs_from_boundary. Qed.

(** Reading a text by its maximal runs. *)
Lemma take_run s : exists r s', s = r ++ s' /\ digits r /\ boundary s'.
Proof.
  induction s as [|c s IH]; [exists [], []; split_and!; [done|by apply Forall_nil|done]|].
  destruct (re_d c) eqn:E.
  - destruct IH as (r & s' & -> & Hr & Hb). exists (c :: r), s'. split_and!; [done|by apply Forall_cons|done].
  - exists [], (c :: s). split_and!; [done|by apply Forall_nil|exact E].
Qed.
Lemma text_ind (P : list cp -> Prop) :
  P [] -> (forall c s, re_d c = false -> P s -> P (c :: s)) ->
  (forall r s, digits r -> r <> [] -> boundary s -> P s -> P (r ++ s)) -> forall s, P s.
Proof.
  intros Hnil Hc Hr s. remember (length s) as n eqn:En. revert s En.
  induction n as [n IH] using lt_wf_ind. intros s ->.
  destruct (take_run s) as (r & s' & -> & Hd & Hb). destruct r as [|a r].
  - destruct s' as [|c s']; [done|]. cbn in *. apply Hc; [exact Hb|]. eapply IH; [|done]. cbn. lia.
  - apply Hr; [done..|]. eapply IH; [|done]. rewrite length_app. cbn. lia.
Qed.

(** *** Patterns over runs *)

(** A pattern whose matches are maximal runs, with a digit-free tail [ext]. *)
Record run_pattern (p : pattern) (hit : list cp * list cp -> bool) := {
  rp_start : forall prev c s, re_d c = false -> match_here p prev (c :: s) = None;
  rp_behind : forall c s, re_d c = true -> match_here p (Some c) s = None;
  rp_miss : forall prev r s, satisfies re_d prev = false -> digits r -> r <> [] -> boundary s ->
    hit (r, s) = false -> match_here p prev (r ++ s) = None;
  rp_hit : forall prev r s, satisfies re_d prev = false -> digits r -> r <> [] -> boundary s ->
    hit (r, s) = true -> exists x s', s = x ++ s' /\ no_digits x /\ boundary s' /\
      match_here p prev (r ++ s) = Some (length (r ++ x));
}.

Section pass.
Context (p : pattern) (hit : list cp * list cp -> bool) (Hp : run_pattern p hit).

Lemma segments_inside c r s :
  digits (c :: r) -> segments p O (Some c) (r ++ s) = map Lit r ++ segments p O (last_or (Some c) r) s.
Proof.
  revert c. induction r as [|b r IH]; intros c Hd; [done|]. inversion_clear Hd as [|? ? Hc Hr]. cbn [app map].
  rewrite segments_miss by by apply (rp_behind _ _ Hp). rewrite IH by done. by rewrite last_or_cons.
Qed.
Lemma segments_run_miss prev r s :
  satisfies re_d prev = false -> digits r -> r <> [] -> boundary s -> hit (r, s) = false ->
  segments p O prev (r ++ s) = map Lit r ++ segments p O (last_or prev r) s.
Proof.
  intros Hprev Hd Hn Hb Hh. pose proof (rp_miss _ _ Hp prev r s Hprev Hd Hn Hb Hh) as E.
  destruct r as [|c r]; [done|]. cbn [app map] in *. rewrite segments_miss by done.
  rewrite segments_inside by done. by rewrite last_or_cons.
Qed.
End pass.

(** *** One pass *)
Section one_pass.
Context (p : pattern) (hit : list cp * list cp -> bool) (Hp : run_pattern p hit) (R : list cp) (HR : no_digits R).

Lemma segments_nondigits prev x s :
  no_digits x -> segments p O prev (x ++ s) = map Lit x ++ segments p O (last_or prev x) s.
Proof.
  intros Hx. revert prev. induction Hx as [|c x E _ IH]; intros prev; [done|]. cbn [app map].
  rewrite segments_miss by by apply (rp_start _ _ Hp). by rewrite IH, last_or_cons.
Qed.
Lemma boundary_render prev s : boundary s -> boundary (render (fun _ _ => R) O (segments p O prev s)).
Proof.
  intros Hb. destruct s as [|c s]; [done|]. rewrite segments_miss by by apply (rp_start _ _ Hp). exact Hb.
Qed.

(** A pass with a digit-free replacement deletes the runs it hits. *)
Lemma pass_runs s prev :
  satisfies re_d prev = false \/ boundary s ->
  digit_runs (render (fun _ _ => R) O (segments p O prev s)) = (List.filter (fun x => negb (hit x)) (runs s)).*1.
Proof.
  revert prev. induction s as [|c s E IH|r s Hd Hn Hb IH] using text_ind; intros prev Hprev; [done| |].
  - rewrite segments_miss by by apply (rp_start _ _ Hp). rewrite runs_nondigit by done.
    unfold digit_runs. cbn [render]. rewrite runs_nondigit by done. apply IH. by left.
  - assert (satisfies re_d prev = false) as Hpd.
    { destruct Hprev as [Hprev|Hbad]; [done|]. destruct r as [|c r]; [done|]. unfold boundary in Hbad. cbn in Hbad.
      inversion_clear Hd. congruence. }
    rewrite runs_run by done. cbn [List.filter]. destruct (hit (r, s)) eqn:Eh; cbn [negb].
    + destruct (rp_hit _ _ Hp prev r s Hpd Hd Hn Hb Eh) as (x & s' & -> & Hx & Hb' & Em).
      rewrite app_assoc in Em |- *. rewrite segments_hit; [|by destruct r|done]. cbn [render].
      unfold digit_runs. rewrite runs_nondigits by done. rewrite render_const.
      specialize (IH (last_or prev r) (or_intror Hb)). rewrite segments_nondigits, render_lits in IH by done.
      unfold digit_runs in IH. rewrite runs_nondigits in IH by done.
      assert (last_or prev (r ++ x) = last_or (last_or prev r) x) as ->; [|exact IH].
      unfold last_or. rewrite last_app. by destruct (last x).
    + rewrite (segments_run_miss p hit Hp) by done. rewrite render_lits. unfold digit_runs.
      rewrite runs_run; [|done..|by apply boundary_render]. cbn [fmap list_fmap fst]. f_equal. apply IH. by right.
Qed.
End one_pass.

(** *** The numeric patterns are run patterns *)
Lemma run_length_run n r s : digits r -> boundary s -> run_length re_d (Some n) (r ++ s) = Nat.min n (length r).
Proof.
  intros Hd Hb. revert n. induction Hd as [|c r E _ IH]; intros n; cbn.
  - rewrite Nat.min_0_r. destruct s as [|c s], n; try done. unfold boundary in Hb. cbn in *. by rewrite Hb.
  - destruct n as [|n]; [done|]. rewrite E. cbn. by rewrite IH.
Qed.
Lemma boundary_drop r s k : digits r -> boundary s -> (k < length r)%nat -> satisfies re_d (head (drop k (r ++ s))) = true.
Proof.
  intros Hd Hb Hk. rewrite drop_app_le by lia. destruct (lookup_lt_is_Some_2 r k Hk) as [c Hc].
  rewrite (drop_S r c k Hc). cbn. by apply (Forall_lookup_1 _ _ _ _ Hd Hc).
Qed.
(** Giving characters back never helps when no digit may follow. *)
Lemma back_to_boundary prev r s lo k :
  digits r -> boundary s -> (k <= length r)%nat ->
  back_off lo (fun k => Nat.add k <$> match_items [NotAhead re_d] (last_or prev (take k (r ++ s))) (drop k (r ++ s))) k
  = if Nat.eqb k (length r) && Nat.leb lo k then Some k else None.
Proof.
  intros Hd Hb. cbn [match_items].
  assert (forall k, (k <= length r)%nat -> satisfies re_d (head (drop k (r ++ s))) = negb (Nat.eqb k (length r))) as Hs.
  { intros i Hi. destruct (Nat.eqb_spec i (length r)) as [->|]; [by rewrite drop_app_length|].
    apply boundary_drop; (done || lia). }
  induction k as [|k IH]; intros Hk; cbn [back_off]; rewrite (Hs _ Hk);
    (destruct (Nat.ltb_spec (S k) lo) || destruct (Nat.ltb_spec 0 lo)).
  1,3: rewrite (proj2 (Nat.leb_gt _ _)) by lia; by rewrite andb_false_r.
  - rewrite (proj2 (Nat.leb_le lo 0)) by lia. by destruct (Nat.eqb 0 (length r)).
  - rewrite (proj2 (Nat.leb_le lo (S k))) by lia. destruct (Nat.eqb_spec (S k) (length r)); cbn [negb andb fmap option_fmap option_map].
    + f_equal. lia.
    + rewrite IH by lia. by rewrite (proj2 (Nat.eqb_neq k (length r))) by lia.
Qed.

Lemma payment_match prev r s :
  satisfies re_d prev = false -> digits r -> boundary s ->
  match_here _PAYMENT_NUMBER prev (r ++ s) = if payment_sized r then Some (length r) else None.
Proof.
  intros Hp Hd Hb. unfold _PAYMENT_NUMBER. cbn [match_here].
  assert (match_items [NotBehind re_d; Rep re_d 13 (Some 19%nat); NotAhead re_d] prev (r ++ s)
          = if payment_sized r then Some (length r) else None) as ->; [|by destruct (payment_sized r)].
  change (match_items [NotBehind re_d; Rep re_d 13 (Some 19%nat); NotAhead re_d] prev (r ++ s))
    with (if satisfies re_d prev then None else
          back_off 13 (fun k => Nat.add k <$> match_items [NotAhead re_d] (last_or prev (take k (r ++ s))) (drop k (r ++ s)))
            (run_length re_d (Some 19%nat) (r ++ s))).
  rewrite Hp, run_length_run, back_to_boundary by (done || lia). unfold payment_sized.
  destruct (Nat.eqb_spec (Nat.min 19 (length r)) (length r)) as [E|E].
  - rewrite E. rewrite (proj2 (Nat.leb_le (length r) 19)) by lia. by rewrite andb_true_r.
  - rewrite (proj2 (Nat.leb_gt (length r) 19)) by lia. by rewrite andb_false_r.
Qed.
Lemma payment_runs : run_pattern _PAYMENT_NUMBER (fun x => payment_sized x.1).
Proof.
  split.
  - intros prev c s E. unfold _PAYMENT_NUMBER. cbn. destruct (satisfies re_d prev); [done|]. by rewrite E.
  - intros c s E. unfold _PAYMENT_NUMBER. cbn. by rewrite E.
  - intros prev r s Hp Hd _ Hb Hh. cbn in Hh. rewrite payment_match by done. by rewrite Hh.
  - intros prev r s Hp Hd _ Hb Hh. cbn in Hh. exists [], s. split_and!; [done|by apply Forall_nil|done|].
    rewrite payment_match by done. by rewrite Hh, app_nil_r.
Qed.

Lemma digit_re_d c : digit09 c = true -> re_d c = true.
Proof. intros E. unfold re_d. by rewrite E. Qed.
Lemma phone_digit_re_d c : ascii_between 51 57 c = true -> re_d c = true.
Proof.
  intros E. apply digit_re_d. unfold digit09, ascii_between in *. destruct c as [|a [|b c]]; try done.
  apply andb_true_iff in E as [E1 E2]. apply Nat.leb_le in E1, E2. apply andb_true_iff. split; apply Nat.leb_le; lia.
Qed.

Lemma phone_match prev r s :
  satisfies re_d prev = false -> digits r -> r <> [] -> boundary s ->
  match_here _CN_PHONE prev (r ++ s) = if phone_shaped r then Some (length r) else None.
Proof.
  intros Hp Hd Hn Hb. unfold _CN_PHONE. cbn [match_here].
  assert (match_items [NotBehind re_d; One (fun c => c ==? "1"); One (ascii_between 51 57); Rep re_d 9 (Some 9%nat); NotAhead re_d]
            prev (r ++ s) = if phone_shaped r then Some (length r) else None) as ->; [|by destruct (phone_shaped r)].
  remember [Rep re_d 9 (Some 9%nat); NotAhead re_d] as tl eqn:Etl. cbn [match_items]. rewrite Hp.
  destruct r as [|a [|b r]]; [done| |]; cbn [app phone_shaped].
  - destruct (a ==? "1"); [|done]. destruct s as [|c s]; [done|]. destruct (ascii_between 51 57 c) eqn:E; [|done].
    apply phone_digit_re_d in E. unfold boundary in Hb. cbn in Hb. congruence.
  - destruct (a ==? "1"); [|done]. destruct (ascii_between 51 57 b); [|done]. cbn [andb]. subst tl.
    inversion_clear Hd as [|? ? _ Hd']. inversion_clear Hd' as [|? ? _ Hr].
    rewrite rep_exact, run_length_run by done. destruct (Nat.eqb_spec (length r) 9) as [E|E].
    + rewrite E. cbn [Nat.min Nat.leb]. rewrite <- E, drop_app_length. cbn [match_items].
      unfold boundary in Hb. rewrite Hb. cbn. f_equal. lia.
    + destruct (Nat.leb_spec 9 (Nat.min 9 (length r))); [|done]. cbn [match_items].
      by rewrite boundary_drop by (done || lia).
Qed.
Lemma phone_runs : run_pattern _CN_PHONE (fun x => phone_shaped x.1).
Proof.
  split.
  - intros prev c s E. unfold _CN_PHONE. cbn. destruct (satisfies re_d prev); [done|].
    destruct (c ==? "1") eqn:E1; [|done]. rewrite eqb_true in E1. subst c. done.
  - intros c s E. unfold _CN_PHONE. cbn. by rewrite E.
  - intros prev r s Hp Hd Hn Hb Hh. cbn in Hh. rewrite phone_match by done. by rewrite Hh.
  - intros prev r s Hp Hd Hn Hb Hh. cbn in Hh. exists [], s. split_and!; [done|by apply Forall_nil|done|].
    rewrite phone_match by done. by rewrite Hh, app_nil_r.
Qed.

Lemma id_match prev r s :
  satisfies re_d prev = false -> digits r -> boundary s ->
  match_here _CN_ID prev (r ++ s) = if id_shaped (r, s) then Some 18%nat else None.
Proof.
  intros Hp Hd Hb. unfold _CN_ID. cbn [match_here].
  assert (match_items [NotBehind re_d; Rep re_d 17 (Some 17%nat); One (any_of digit09 ["X"; "x"]); NotAhead re_d]
            prev (r ++ s) = if id_shaped (r, s) then Some 18%nat else None) as ->; [|by destruct (id_shaped (r, s))].
  transitivity (match_items [Rep re_d 17 (Some 17%nat); One (any_of digit09 ["X"; "x"]); NotAhead re_d] prev (r ++ s));
    [cbn [match_items]; by rewrite Hp|]. rewrite rep_exact, run_length_run by done. unfold id_shaped. cbn [fst snd].
  destruct (Nat.leb_spec 17 (Nat.min 17 (length r))) as [L|L].
  2:{ rewrite (proj2 (Nat.eqb_neq _ 17)), (proj2 (Nat.eqb_neq _ 18)) by lia. by destruct s. }
  destruct (Nat.eqb_spec (length r) 17) as [E|E].
  - replace (drop 17 (r ++ s)) with s by (by rewrite <- E, drop_app_length). rewrite E. cbn [Nat.eqb andb orb]. rewrite orb_false_r.
    destruct s as [|c s]; [done|]. cbn [match_items]. unfold boundary in Hb. cbn in Hb.
    assert (digit09 c = false) as Hc by (destruct (digit09 c) eqn:Ec; [apply digit_re_d in Ec; congruence|done]).
    unfold any_of. rewrite Hc. cbn [orb]. destruct (c in? ["X"; "x"]); [|done]. by destruct (satisfies re_d (head s)).
  - assert (exists a b, r = a ++ b /\ length a = 17%nat) as (a & b & -> & La).
    { exists (take 17 r), (drop 17 r). rewrite take_drop. split; [done|]. rewrite length_take. lia. }
    rewrite <- app_assoc. replace (drop 17 (a ++ b ++ s)) with (b ++ s) by (by rewrite <- La, drop_app_length). rewrite length_app in *. rewrite La in *.
    destruct b as [|c b]; [cbn in E; lia|]. apply Forall_app in Hd as [_ Hd]. inversion_clear Hd as [|? ? Hc Hb'].
    assert (forall x, (match s with c0 :: s' => false && x c0 s' | [] => false end) = false) as Hs by (by destruct s).
    replace (match s with c0 :: s' => false && (c0 in? ["X"; "x"]) && negb (satisfies re_d (head s')) | [] => false end)
      with false by by destruct s.
    cbn [orb app match_items length]. destruct b as [|c' b].
    + rewrite last_snoc. cbn. destruct (digit09 c) eqn:Ec; unfold any_of; rewrite Ec; cbn [orb].
      * unfold boundary in Hb. by rewrite Hb.
      * destruct (c in? ["X"; "x"]) eqn:Ex; [|done]. exfalso. apply mem_true in Ex.
        apply elem_of_cons in Ex as [->|Ex%list_elem_of_singleton]; [|subst c]; discriminate Hc.
    + inversion_clear Hb' as [|? ? Hc' _]. cbn [head satisfies app]. rewrite Hc'.
      rewrite (proj2 (Nat.eqb_neq _ 18)) by (cbn; lia). by destruct (any_of _ _ c).
Qed.
Lemma id_runs : run_pattern _CN_ID id_shaped.
Proof.
  split.
  - intros prev c s E. unfold _CN_ID. cbn. destruct (satisfies re_d prev); [done|]. by rewrite E.
  - intros c s E. unfold _CN_ID. cbn. by rewrite E.
  - intros prev r s Hp Hd _ Hb Hh. rewrite id_match by done. by rewrite Hh.
  - intros prev r s Hp Hd _ Hb Hh. rewrite id_match by done. rewrite Hh.
    unfold id_shaped in Hh. cbn [fst snd] in Hh. apply orb_true_iff in Hh as [Hh|Hh].
    + destruct s as [|c s]; [done|]. rewrite !andb_true_iff, Nat.eqb_eq, negb_true_iff in Hh. destruct Hh as [[L _] Hs].
      exists [c], s. split_and!; [done| |exact Hs|rewrite length_app, L; done].
      apply Forall_cons. split; [exact Hb|by apply Forall_nil].
    + apply andb_true_iff in Hh as [L%Nat.eqb_eq _]. exists [], s. split_and!; [done|by apply Forall_nil|done|].
      by rewrite app_nil_r, L.
Qed.
(** Every identity number is also of a payment number's size. *)
Lemma id_is_payment_sized x : id_shaped x = true -> payment_sized x.1 = true.
Proof.
  unfold id_shaped, payment_sized. intros [Hh|Hh]%orb_true_iff.
  - destruct (x.2); [done|]. apply andb_true_iff in Hh as [[L%Nat.eqb_eq _]%andb_true_iff _]. by rewrite L.
  - apply andb_true_iff in Hh as [L%Nat.eqb_eq _]. by rewrite L.
Qed.

Lemma subn_runs p hit text s :
  run_pattern p hit -> no_digits (code_points text) ->
  digit_runs (subn p text s).1 = (List.filter (fun x => negb (hit x)) (runs s)).*1.
Proof. intros Hp Ht. unfold subn. cbn [fst]. apply (pass_runs p hit Hp); [done|by left]. Qed.
Lemma filter_fst (f : list cp -> bool) (l : list (list cp * list cp)) :
  (List.filter (fun x => f x.1) l).*1 = List.filter f l.*1.
Proof. induction l as [|x l IH]; [done|]. cbn. destruct (f x.1); cbn; by rewrite IH. Qed.
Lemma no_digits_redacted text :
  text ∈ ["[REDACTED_ID]"; "[REDACTED_PHONE]"; "[REDACTED_PAYMENT_NUMBER]"] -> no_digits (code_points text).
Proof.
  intros Ht. rewrite !elem_of_cons, elem_of_nil in Ht. destruct Ht as [->|[->|[->|[]]]];
    repeat (apply Forall_cons; split; [reflexivity|]); by apply Forall_nil.
Qed.

(** C32: the numeric rules delete exactly the sensitive numbers.  Of the maximal
    digit runs of any text, the three passes together leave, in order and
    unchanged, precisely those that are neither shaped like a mobile number nor
    13 to 19 digits long: none of the sensitive ones survives, and no order
    number, amount or date of another length is touched. *)
Theorem numeric_rules_exact (s : list cp) :
  digit_runs (numeric_pass s) = List.filter (fun r => negb (sensitive r)) (digit_runs s).
Proof.
  unfold numeric_pass, numeric_rules. cbn [passes].
  destruct (subn _CN_ID _ s) as [s1 n1] eqn:E1. destruct (subn _CN_PHONE _ s1) as [s2 n2] eqn:E2.
  destruct (subn _PAYMENT_NUMBER _ s2) as [s3 n3] eqn:E3. cbn [fst].
  pose proof (subn_runs _ _ "[REDACTED_ID]" s id_runs) as H1. rewrite E1 in H1. cbn [fst] in H1.
  pose proof (subn_runs _ _ "[REDACTED_PHONE]" s1 phone_runs) as H2. rewrite E2, (filter_fst (fun r => negb (phone_shaped r))) in H2.
  pose proof (subn_runs _ _ "[REDACTED_PAYMENT_NUMBER]" s2 payment_runs) as H3.
  rewrite E3, (filter_fst (fun r => negb (payment_sized r))) in H3. cbn [fst] in H2, H3.
  rewrite H3 by (apply no_digits_redacted; list_member). fold (digit_runs s2).
  rewrite H2 by (apply no_digits_redacted; list_member). fold (digit_runs s1).
  rewrite H1 by (apply no_digits_redacted; list_member). unfold digit_runs.
  clear. generalize (runs s) as l. intros l. induction l as [|x l IH]; [done|].
  cbn [List.filter fmap list_fmap]. unfold sensitive at 1. destruct (id_shaped x) eqn:Ei; cbn [negb].
  - rewrite (id_is_payment_sized x Ei), orb_true_r. exact IH.
  - cbn [fmap list_fmap List.filter]. destruct (phone_shaped x.1); cbn [negb orb]; [exact IH|].
    cbn [List.filter]. destruct (payment_sized x.1); cbn [negb]; [exact IH|]. by f_equal.
Qed.
End numbers.

Example redaction_run :
  let r := @redact_pii ascii_unicode
    "mail a.b@x.co, key sk-ABCDEFGHIJKLM, tel 13812345678, card 4111111111111111, order 123456789012, bill_00000000000000000000000000000000" in
  rd_text r = "mail [REDACTED_EMAIL], key [REDACTED_API_KEY], tel [REDACTED_PHONE], card [REDACTED_PAYMENT_NUMBER], order 123456789012, bill_00000000000000000000000000000000"
  /\ redaction_count r = 4%Z
  /\ applied_rule_ids r = ["pii.email.v1"; "secret.api_key.v1"; "pii.cn_phone.v1"; "payment.number.v1"].
Proof. split_and!; vm_compute; reflexivity. Qed.
