(* ===== verification/PyRegex.v ===== *)
(** * Python's regular expressions with alternation, groups and anchors

    [Regex] has the fragment of one-character classes; the patterns of
    contracts/action_preconditions.py and agent/evidence.py also nest alternatives and repetitions,
    capture groups and anchor at the ends of a text.  [run_node] is the
    backtracking matcher in continuation-passing style: the first way to match
    the node after which the rest succeeds, as [re] explores them; [search],
    [finditer] and [split] are built on it.

    Texts are lists of code points, and positions count code points.  Every
    repeated part of the patterns consumes at least one character, so an
    unbounded repetition is bounded by the text that is left. *)
From Stdlib Require Import Ascii.
From S2P Require Import Prelude PyValue CanonicalJson PyText Regex PiiRedaction.
Local Open Scope string_scope.
Local Open Scope list_scope.
Local Notation cp := string.

Inductive node : Type :=
| Chr (f : cp -> bool)
| Eps
| Cat (a b : node)
| Alt (a b : node)
| Star (a : node) (lo : nat) (hi : option nat)
| Group (i : nat) (a : node)
| TextStart
| TextEnd
| Boundary
| Unless (f : cp -> bool)
| UnlessAfter (f : cp -> bool)
| Ahead (a : node).

(** A place in the text: the character before it, what is left, the position,
    and the spans captured so far, the latest first. *)
Record place := mk_place { p_prev : option cp; p_rest : list cp; p_pos : nat; p_groups : list (nat * (nat * nat)) }.
Definition capture (i start : nat) (p : place) : place :=
  mk_place (p_prev p) (p_rest p) (p_pos p) ((i, (start, p_pos p)) :: p_groups p).

Section engine.
Context `{UnicodeClasses}.

Fixpoint run_node (n : node) (p : place) (k : place -> option place) {struct n} : option place :=
  match n with
  | Chr f =>
      match p_rest p with
      | c :: rest => if f c then k (mk_place (Some c) rest (S (p_pos p)) (p_groups p)) else None
      | [] => None
      end
  | Eps => k p
  | Cat a b => run_node a p (fun p' => run_node b p' k)
  | Alt a b => match run_node a p k with Some r => Some r | None => run_node b p k end
  | Star a lo hi =>
      (fix loop (lo hi : nat) (p : place) {struct hi} : option place :=
         match hi with
         | O => if Nat.eqb lo 0 then k p else None
         | S hi => match run_node a p (fun p' => loop (pred lo) hi p') with
                   | Some r => Some r
                   | None => if Nat.eqb lo 0 then k p else None
                   end
         end) lo (default (length (p_rest p)) hi) p
  | Group i a => run_node a p (fun p' => k (capture i (p_pos p) p'))
  | TextStart => if Nat.eqb (p_pos p) 0 then k p else None
  | TextEnd => match p_rest p with [] => k p | [c] => if c ==? String "010" "" then k p else None | _ => None end
  | Boundary => if xorb (satisfies re_w (p_prev p)) (satisfies re_w (head (p_rest p))) then k p else None
  | Unless f => if satisfies f (head (p_rest p)) then None else k p
  | UnlessAfter f => if satisfies f (p_prev p) then None else k p
  | Ahead a => if isSome (run_node a p Some) then k p else None
  end.

(** A match: its span and the spans of its groups. *)
Record hit := mk_hit { h_start : nat; h_end : nat; h_groups : list (nat * (nat * nat)) }.
Definition match_at (n : node) (prev : option cp) (pos : nat) (s : list cp) : option hit :=
  (fun r => mk_hit pos (p_pos r) (p_groups r)) <$> run_node n (mk_place prev s pos []) Some.
(** [match.span(i)], where group 0 is the whole match. *)
Definition span_of (h : hit) (i : nat) : option (nat * nat) :=
  if Nat.eqb i 0 then Some (h_start h, h_end h) else snd <$> List.find (fun g => Nat.eqb g.1 i) (h_groups h).

(** The scans; no pattern matches the empty text. *)
Fixpoint search_from (n : node) (prev : option cp) (pos : nat) (s : list cp) : option hit :=
  match s with
  | [] => None
  | c :: s' => match match_at n prev pos s with Some h => Some h | None => search_from n (Some c) (S pos) s' end
  end.
Fixpoint hits_from (n : node) (skip : nat) (prev : option cp) (pos : nat) (s : list cp) : list hit :=
  match s with
  | [] => []
  | c :: s' =>
      match skip with
      | S k => hits_from n k (Some c) (S pos) s'
      | O =>
          match match_at n prev pos s with
          | Some h => h :: hits_from n (h_end h - pos - 1) (Some c) (S pos) s'
          | None => hits_from n O (Some c) (S pos) s'
          end
      end
  end.
Definition search (n : node) (text : string) : bool := isSome (search_from n None 0 (code_points text)).
Definition slice (s : list cp) (start stop : nat) : list cp := take (stop - start) (drop start s).
(** [pattern.finditer(text, start, stop)]: the text ends at [stop], and the
    character before [start] is seen by [\b]. *)
Definition finditer (n : node) (s : list cp) (start stop : nat) : list hit :=
  hits_from n O (last (take start s)) start (slice s start stop).
(** The pieces between the matches: [pattern.split(text)]. *)
Fixpoint between (s : list cp) (start : nat) (l : list hit) : list (nat * nat) :=
  match l with
  | [] => [(start, length s)]
  | h :: l => (start, h_start h) :: between s (h_end h) l
  end.
Definition text_of (s : list cp) (span : nat * nat) : string := concat_points (slice s span.1 span.2).
Definition split (n : node) (text : string) : list string :=
  let s := code_points text in map (text_of s) (between s 0 (finditer n s 0 (length s))).

(** ** Writing patterns *)
Fixpoint cat (l : list node) : node := match l with [] => Eps | [a] => a | a :: l => Cat a (cat l) end.
Fixpoint alt (l : list node) : node := match l with [] => Eps | [a] => a | a :: l => Alt a (alt l) end.
(** A literal of a pattern compiled with [re.I]: its letters are lower case. *)
Definition chr_ic (c : cp) : node := match c with String a "" => Chr (char_ic a) | _ => Chr (fun d => d ==? c) end.
Definition txt (s : string) : node := cat (map chr_ic (code_points s)).
Definition any (l : list string) : node := alt (map txt l).
Definition opt (a : node) : node := Star a 0 (Some 1%nat).
Definition dot : node := Chr (fun c => negb (c ==? String "010" "")).
Definition upto (n : nat) : node := Star dot 0 (Some n).        (* [.{0,n}] *)
Definition space (c : cp) : bool := starts_space ws2 ws3 c.
Definition spaces : node := Star (Chr space) 0 None.            (* [\s*] *)
Definition spaces1 : node := Star (Chr space) 1 None.           (* [\s+] *)
Definition digits_upto (n : nat) : node := Star (Chr re_d) 1 (Some n).
Definition class (l : list string) : node := Chr (fun c => c in? l).

(** ** What a match is *)

(** Nodes that always read a character, whose groups all do, and that always
    capture one of some groups. *)
Fixpoint consumes (n : node) : bool :=
  match n with
  | Chr _ => true
  | Cat a b => consumes a || consumes b
  | Alt a b => consumes a && consumes b
  | Star a lo _ => Nat.ltb 0 lo && consumes a
  | Group _ a => consumes a
  | _ => false
  end.
Fixpoint solid (n : node) : bool :=
  match n with
  | Cat a b | Alt a b => solid a && solid b
  | Star a _ _ => solid a
  | Group _ a => consumes a && solid a
  | _ => true
  end.
Fixpoint captures (js : list nat) (n : node) : bool :=
  match n with
  | Cat a b => captures js a || captures js b
  | Alt a b => captures js a && captures js b
  | Star a lo _ => Nat.ltb 0 lo && captures js a
  | Group i a => (i in? js) || captures js a
  | _ => false
  end.

(** [q] is reached from [p] by reading text and capturing [gs], which lie in
    between. *)
Record reads (p : place) (gs : list (nat * (nat * nat))) (q : place) : Prop := {
  rd_rest : exists x, p_rest p = x ++ p_rest q /\ p_pos q = (p_pos p + length x)%nat;
  rd_groups : p_groups q = gs ++ p_groups p;
  rd_between : Forall (fun g => (p_pos p <= g.2.1 /\ g.2.1 <= g.2.2 /\ g.2.2 <= p_pos q)%nat) gs;
}.
(** What running [n] from [p] has done at [q]. *)
Record runs_to (n : node) (p q : place) (gs : list (nat * (nat * nat))) : Prop := {
  rt_reads : reads p gs q;
  rt_consumes : consumes n = true -> (p_pos p < p_pos q)%nat;
  rt_solid : solid n = true -> Forall (fun g => (g.2.1 < g.2.2)%nat) gs;
  rt_captures : forall js, captures js n = true -> exists g, g ∈ gs /\ g.1 ∈ js;
}.
Lemma reads_refl p : reads p [] p.
Proof. split; [exists []; cbn; split; [done|lia]|done|done]. Qed.
Lemma reads_le p gs q : reads p gs q -> (p_pos p <= p_pos q)%nat.
Proof. intros [(x & _ & ->) _ _]. lia. Qed.
Lemma reads_trans p q r gs gs' : reads p gs q -> reads q gs' r -> reads p (gs' ++ gs) r.
Proof.
  intros R1 R2. pose proof (reads_le _ _ _ R1). pose proof (reads_le _ _ _ R2).
  destruct R1 as [(x & E1 & P1) G1 F1], R2 as [(y & E2 & P2) G2 F2]. split.
  - exists (x ++ y). rewrite E1, E2, app_assoc, length_app. split; [done|lia].
  - by rewrite G2, G1, app_assoc.
  - apply Forall_app. split; (eapply Forall_impl; [eassumption|]; intros [i [a b]]; cbn; lia).
Qed.
Lemma runs_to_stay n p : consumes n = false -> (forall js, captures js n = false) -> runs_to n p p [].
Proof. intros Hc Hg. split; [apply reads_refl|congruence|done|intros js E; by rewrite Hg in E]. Qed.
(** Two nodes in a row. *)
Lemma runs_to_cat a b p q r gs gs' : runs_to a p q gs -> runs_to b q r gs' -> runs_to (Cat a b) p r (gs' ++ gs).
Proof.
  intros [R1 C1 S1 G1] [R2 C2 S2 G2]. pose proof (reads_le _ _ _ R1). pose proof (reads_le _ _ _ R2). split; cbn.
  - by eapply reads_trans.
  - intros [Hc|Hc]%orb_true_iff; [specialize (C1 Hc)|specialize (C2 Hc)]; lia.
  - intros [Ha Hb]%andb_true_iff. apply Forall_app. auto.
  - intros js [Hc|Hc]%orb_true_iff; [apply G1 in Hc as (g & Hg & Hj)|apply G2 in Hc as (g & Hg & Hj)]; exists g; (split; [|done]); apply elem_of_app; auto.
Qed.
Lemma runs_to_weaken n n' p q gs :
  (consumes n' = true -> consumes n = true) -> (solid n' = true -> solid n = true) ->
  (forall js, captures js n' = true -> captures js n = true) -> runs_to n p q gs -> runs_to n' p q gs.
Proof. intros Hc Hs Hg [R C S G]. split; auto. Qed.
(** The loop of a repetition, with [lo] and [m] iterations to go. *)
Lemma loop_reads a lo m p k r :
  (forall p k r, run_node a p k = Some r -> exists q gs, runs_to a p q gs /\ k q = Some r) ->
  (fix loop (lo hi : nat) (p : place) {struct hi} : option place :=
     match hi with
     | O => if Nat.eqb lo 0 then k p else None
     | S hi => match run_node a p (fun p' => loop (pred lo) hi p') with
               | Some r => Some r
               | None => if Nat.eqb lo 0 then k p else None
               end
     end) lo m p = Some r ->
  exists q gs, runs_to (Star a lo None) p q gs /\ k q = Some r.
Proof.
  intros IHa. revert lo p.
  assert (forall lo p, (if Nat.eqb lo 0 then k p else None) = Some r -> exists q gs, runs_to (Star a lo None) p q gs /\ k q = Some r) as Hstop.
  { intros lo p. destruct (Nat.eqb_spec lo 0) as [->|]; [|done]. intros Hk. exists p, []. split; [by apply runs_to_stay|done]. }
  induction m as [|m IH]; intros lo p; [apply Hstop|].
  match goal with |- context [run_node a p ?k'] => destruct (run_node a p k') as [x|] eqn:Ea end; [|apply Hstop].
  intros [= <-]. apply IHa in Ea as (q & gs & R1 & Hq). apply IH in Hq as (q' & gs' & R2 & Hk). exists q', (gs' ++ gs). split; [|done].
  eapply runs_to_weaken; [| | |eapply runs_to_cat; [exact R1|exact R2]]; cbn.
  - intros [_ ->]%andb_true_iff. done.
  - intros ->. done.
  - intros js [_ ->]%andb_true_iff. done.
Qed.
Lemma run_node_reads n p k r : run_node n p k = Some r -> exists q gs, runs_to n p q gs /\ k q = Some r.
Proof.
  revert p k r. induction n as [f| |a IHa b IHb|a IHa b IHb|a IHa lo hi|i a IHa| | | |f|f|a IHa]; intros p k r; cbn [run_node].
  - destruct (p_rest p) as [|c rest] eqn:E; [done|]. destruct (f c); [|done]. intros Hk. eexists _, []. split; [|exact Hk].
    split; cbn; [split; [exists [c]; split; [by rewrite E|cbn; lia]|done|done]|lia|done|done].
  - intros Hk. exists p, []. split; [by apply runs_to_stay|done].
  - intros (q & gs & R1 & Hq)%IHa. apply IHb in Hq as (q' & gs' & R2 & Hk). exists q', (gs' ++ gs). split; [by eapply runs_to_cat|done].
  - destruct (run_node a p k) as [x|] eqn:Ea.
    + intros [= <-]. apply IHa in Ea as (q & gs & R & Hk). exists q, gs. split; [|done].
      eapply runs_to_weaken; [| | |exact R]; cbn; intros *; rewrite ?andb_true_iff; tauto.
    + intros (q & gs & R & Hk)%IHb. exists q, gs. split; [|done].
      eapply runs_to_weaken; [| | |exact R]; cbn; intros *; rewrite ?andb_true_iff; tauto.
  - intros Hr. apply loop_reads in Hr; [|exact IHa]. destruct Hr as (q & gs & R & Hk). exists q, gs. split; [|done].
    by eapply runs_to_weaken; [| | |exact R].
  - intros (q & gs & [R C S G] & Hk)%IHa. pose proof (reads_le _ _ _ R). destruct R as [Hx Hg F].
    exists (capture i (p_pos p) q), ((i, (p_pos p, p_pos q)) :: gs). split; [|exact Hk]. split; cbn.
    + split; cbn; [exact Hx|by rewrite Hg|]. constructor; [cbn; lia|exact F].
    + exact C.
    + intros [Hc Hs]%andb_true_iff. constructor; [by apply C|by apply S].
    + intros js [Hi|Hc]%orb_true_iff; [exists (i, (p_pos p, p_pos q)); split; [by left|by apply mem_true]|].
      destruct (G js Hc) as (g & Hgs & Hj). exists g. split; [by right|done].
  - destruct (Nat.eqb (p_pos p) 0); [|done]. intros Hk. exists p, []. split; [by apply runs_to_stay|done].
  - intros Hk. exists p, []. split; [by apply runs_to_stay|]. destruct (p_rest p) as [|c [|d l]]; [done| |done]. by destruct (c ==? _).
  - destruct (xorb _ _); [|done]. intros Hk. exists p, []. split; [by apply runs_to_stay|done].
  - destruct (satisfies f _); [done|]. intros Hk. exists p, []. split; [by apply runs_to_stay|done].
  - destruct (satisfies f _); [done|]. intros Hk. exists p, []. split; [by apply runs_to_stay|done].
  - destruct (isSome _); [|done]. intros Hk. exists p, []. split; [by apply runs_to_stay|done].
Qed.

(** A pattern whose matches and groups are not empty, and that always captures
    one of [groups]; group 0 is the match. *)
Definition well_grouped (groups : list nat) (n : node) : bool :=
  consumes n && solid n && ((O in? groups) || captures groups n).
(** A hit of [n] inside [start, stop). *)
Record hit_in (n : node) (start stop : nat) (h : hit) : Prop := {
  hi_spans : forall i a b, span_of h i = Some (a, b) -> (start <= a /\ b <= stop)%nat /\ (consumes n && solid n = true -> (a < b)%nat);
  hi_captured : forall groups, well_grouped groups n = true -> omap (span_of h) groups <> [];
}.
Lemma match_at_hit n prev pos s h : match_at n prev pos s = Some h -> hit_in n pos (pos + length s) h.
Proof.
  unfold match_at. intros (r & Hr & ->)%fmap_Some_1. apply run_node_reads in Hr as (q & gs & [R C S G] & [= ->]). cbn in C.
  pose proof (reads_le _ _ _ R) as Hle. destruct R as [(x & E & P) Hg F]. cbn in *. rewrite app_nil_r in Hg. subst gs.
  assert (length s = length x + length (p_rest r))%nat as El by (by rewrite E, length_app). split.
  - intros i a b. unfold span_of. cbn. destruct (Nat.eqb i 0).
    + intros [= <- <-]. split; [lia|]. intros [Hc _]%andb_true_iff. by apply C.
    + intros ([j [a' b']] & Hf & [= -> ->])%fmap_Some_1. apply find_some in Hf as [Hin _]. apply list_elem_of_In in Hin.
      rewrite Forall_forall in F. specialize (F _ Hin). cbn in F. split; [lia|]. intros [_ Hs]%andb_true_iff. specialize (S Hs).
      rewrite Forall_forall in S. exact (S _ Hin).
  - intros groups Hw. unfold well_grouped in Hw. rewrite !andb_true_iff, orb_true_iff in Hw. destruct Hw as [_ [H0|Hc]] .
    + apply mem_true in H0. intros Hn. assert ((pos, p_pos r) ∈ omap (span_of (mk_hit pos (p_pos r) (p_groups r))) groups) as Hin
        by (apply list_elem_of_omap; exists O; by split). rewrite Hn in Hin. by apply not_elem_of_nil in Hin.
    + destruct (G groups Hc) as ([i sp] & Hin & Hi). cbn in Hi. intros Hn.
      assert (exists y, span_of (mk_hit pos (p_pos r) (p_groups r)) i = Some y) as (y & Hy).
      { unfold span_of. cbn. destruct (Nat.eqb i 0); [eauto|]. destruct (List.find _ _) as [g|] eqn:Ef; [eauto|].
        pose proof (find_none _ _ Ef (i, sp) (proj1 (list_elem_of_In _ _) Hin)) as Hx. cbn in Hx. by rewrite Nat.eqb_refl in Hx. }
      assert (y ∈ omap (span_of (mk_hit pos (p_pos r) (p_groups r))) groups) as Hin' by (apply list_elem_of_omap; eauto).
      rewrite Hn in Hin'. by apply not_elem_of_nil in Hin'.
Qed.
Lemma hit_in_weaken n a b a' b' h : (a' <= a)%nat -> (b <= b')%nat -> hit_in n a b h -> hit_in n a' b' h.
Proof. intros Ha Hb [S C]. split; [|done]. intros i x y Hs. destruct (S i x y Hs) as [? ?]. split; [lia|done]. Qed.
Lemma hits_from_in n skip prev pos s h : h ∈ hits_from n skip prev pos s -> hit_in n pos (pos + length s) h.
Proof.
  revert skip prev pos. induction s as [|c s IH]; intros skip prev pos; cbn [hits_from]; [by intros ?%elem_of_nil|].
  assert (forall k, h ∈ hits_from n k (Some c) (S pos) s -> hit_in n pos (pos + length (c :: s)) h) as Hrest.
  { intros k Hin. eapply hit_in_weaken; [| |by eapply IH]; cbn; lia. }
  destruct skip as [|skip]; [|apply Hrest]. destruct (match_at n prev pos (c :: s)) as [h'|] eqn:E; [|apply Hrest].
  rewrite elem_of_cons. intros [->|Hin]; [by apply match_at_hit in E|by eapply Hrest].
Qed.
(** The matches of [finditer] lie between its bounds and inside the text. *)
Lemma finditer_in n s start stop h : (start <= stop)%nat -> h ∈ finditer n s start stop -> hit_in n start (Nat.max start (Nat.min stop (length s))) h.
Proof.
  unfold finditer. intros Hle Hh%hits_from_in. eapply hit_in_weaken; [apply Nat.le_refl| |exact Hh]. unfold slice. rewrite length_take, length_drop. lia.
Qed.
End engine.

(** ** Texts and their code points *)
Lemma concat_code_points s : concat_points (code_points s) = s.
Proof.
  assert (forall x l, concat_points (x :: l) = x +:+ concat_points l) as Hc.
  { intros x l. unfold concat_points. destruct l; cbn; [by rewrite append_nil|done]. }
  induction s as [|c s IH]; [done|]. cbn [code_points]. destruct (code_points s) as [|[|d p] ps] eqn:E.
  - rewrite Hc, IH. done.
  - rewrite Hc, IH. done.
  - rewrite Hc in IH. destruct (continuation d); rewrite !Hc, <- IH; done.
Qed.
Lemma whole_text s : text_of (code_points s) (O, length (code_points s)) = s.
Proof. unfold text_of, slice. cbn [fst snd]. rewrite drop_0, Nat.sub_0_r, firstn_all. apply concat_code_points. Qed.
