(* ===== verification/Admission.v ===== *)
(** * Admission of high-risk actions (contracts/action_preconditions.py)

    Before any action workflow starts, the typed plan of the model is
    cross-checked against what the customer wrote: regular expressions read the
    accepted messages clause by clause, and the result is an
    [ActionAdmissionV2] with the arguments found and, for each, the message and
    the span it was read from.

    The patterns are transcribed for [PyRegex] in the order of the source; a
    set of actions is the list of its members in a fixed order.

    Main results: an admitted action was asked for in a clause of the
    customer's own that is neither negated nor a question about consequences,
    and no other action was; its argument is quoted from an accepted message at
    the recorded span; turns before the last two cannot influence it unless the
    runtime continues the same action; and the resolution never fails. *)
From Stdlib Require Import Ascii.
From S2P Require Import Prelude PyValue Sha256 CanonicalJson PyText Regex PiiRedaction PyRegex ActionSpecs Obligations.
Local Open Scope string_scope.
Local Open Scope list_scope.
Local Notation cp := string.

(** The value of a decimal digit outside ASCII, as [int] reads it. *)
Class UnicodeDigits := { decimal_value : cp -> Z }.

Section patterns.
Context `{UnicodeClasses}.

Definition ident : cp -> bool := any_of letter_or_digit_ic ["."; "_"; ":"; "-"].       (* [[a-z0-9._:-]] *)
Definition hyphen : node := class ["-"; "_"].
Definition _BILLING_ID : node :=
  cat [Boundary; txt "bill"; hyphen; Chr letter_or_digit_ic;
       opt (cat [Star (Chr ident) 0 (Some 61%nat); Chr letter_or_digit_ic]); Unless (any_of letter_or_digit_ic ["_"; "-"])].
Definition _API_KEY_REF : node :=
  cat [Boundary; txt "key"; hyphen; Chr letter_or_digit_ic; Star (Chr ident) 1 (Some 126%nat); Boundary].
Definition refund_zh : node := any ["退款"; "退费"].
Definition refund_en : node := any ["refund"; "reimburse"].
Definition _REFUND_ACTION : node :=
  alt [cat [any ["帮我"; "请"; "我要"; "我想"; "申请"; "发起"; "给我"; "处理"]; upto 12; refund_zh];
       cat [refund_zh; alt [txt "吧"; txt "。"; txt "！"; txt "!"; TextEnd]];
       cat [opt (cat [txt "please"; spaces1]); refund_en;
            alt [cat [spaces1; txt "me"]; cat [spaces1; txt "this"];
                 cat [spaces1; txt "the"; opt (cat [spaces1; Star (Chr (any_of letter_or_digit_ic ["_"; "-"])) 1 None])];
                 cat [spaces1; txt "bill"; hyphen; Star (Chr ident) 1 None];
                 cat [opt (class ["."; "!"]); TextEnd]]]].
Definition opening : node :=
  alt [TextStart; Chr (fun c => space c || (c in? ["，"; ","; "。"; "；"; ";"; "！"; "!"]))].
Definition _ACTION_REQUEST_CUE : node :=
  alt [txt "帮我"; txt "麻烦"; txt "我要"; txt "我想"; txt "我需要"; txt "我希望";
       cat [opening; txt "把"]; cat [opening; txt "请"; Unless (fun c => c ==? "问")];
       txt "立即"; cat [txt "继续"; opt (txt "处理")]; cat [txt "按"; upto 12; any ["政策"; "流程"; "规则"]];
       txt "please"; cat [Boundary; txt "i"; spaces1; any ["want"; "need"]; Boundary]].
Definition _KEY_DOMAIN : node :=
  alt [cat [txt "api"; spaces; txt "key"]; cat [txt "key"; spaces; txt "reference"]; txt "密钥"; txt "凭证"; _API_KEY_REF].
Definition revoke_words : list string := ["撤销"; "禁用"; "作废"; "吊销"; "revoke"; "disable"; "invalidate"].
Definition _KEY_REVOCATION : node := any revoke_words.
Definition refusal_zh : node := any ["不要"; "无需"; "不需要"; "不想"; "不希望"; "不必"; "禁止"; "别"; "先别"; "先不"; "暂不"; "拒绝"].
Definition dont : node := cat [txt "don"; opt (class ["'"; "’"]); txt "t"].
Definition phrase (l : list string) : node :=
  cat (match l with [] => [] | w :: l => txt w :: concat (map (fun w => [spaces1; txt w]) l) end).
Definition refusal_en : node :=
  alt [phrase ["do"; "not"]; dont; phrase ["no"; "need"; "to"]; phrase ["must"; "not"]; phrase ["should"; "not"]; txt "never";
       phrase ["refuse"; "to"]].
Definition _KEY_REVOCATION_NEGATED : node :=
  alt [cat [refusal_zh; upto 16; any revoke_words]; cat [refusal_en; upto 24; any ["revoke"; "disable"; "invalidate"]]].
Definition _ENTITLEMENT_DOMAIN : node :=
  any ["并发"; "配额"; "额度"; "上限"; "套餐"; "订阅"; "concurrency"; "quota"; "limit"; "plan"; "subscription"].
Definition change_zh : list string := ["提高"; "提升"; "调整"; "修改"; "改为"; "改成"; "设置"; "增加"; "扩容"].
Definition change_en : list string := ["raise"; "increase"; "change"; "set"; "adjust"; "upgrade"].
Definition _ENTITLEMENT_CHANGE : node := any (change_zh ++ change_en).
Definition _ENTITLEMENT_CHANGE_NEGATED : node :=
  alt [cat [refusal_zh; upto 16; any (change_zh ++ change_en)]; cat [refusal_en; upto 24; any change_en]].
Definition set_to : list string := ["调整到"; "调整为"; "提升到"; "提高到"; "增加到"; "改为"; "改成"; "设置为"].
Definition colon : node := cat [spaces; opt (class [":"; "："]); spaces].             (* [\s*[:：]?\s*] *)
Definition _CONCURRENCY_TARGET : node :=
  cat [alt [alt [any (set_to ++ ["上限为"]); cat [txt "target"; opt (cat [spaces1; txt "is"])]; cat [Boundary; txt "to"]];
            cat [opt (cat [txt "目标"; spaces]); any ["并发"; "concurrency"]; opt (cat [spaces; any ["上限"; "limit"]]); spaces;
                 any ["是"; "为"]]];
       colon; Group 1 (digits_upto 6); Boundary].
Definition _RPM_TARGET : node :=
  alt [cat [alt [txt "rpm"; cat [txt "每分钟请求"; opt (any ["数"; "上限"])]]; upto 12; any (set_to ++ ["上限为"; "to"]); colon;
            Group 1 (digits_upto 7); Boundary];
       cat [any set_to; colon; Group 2 (digits_upto 7); spaces; any ["rpm"; "每分钟请求"]]].
Definition plan_name : node := cat [Chr letter_ic; Star (Chr (any_of letter_or_digit_ic ["_"; "-"])) 1 (Some 31%nat)].
Definition plan_to : node :=
  alt [txt "改为"; txt "改成"; txt "升级到"; txt "切换到"; phrase ["change"; "to"]; phrase ["upgrade"; "to"]].
Definition _PLAN_TARGET : node :=
  alt [cat [any ["套餐"; "plan"]; upto 12; plan_to; colon; Group 1 plan_name];
       cat [plan_to; colon; Group 2 plan_name; spaces; any ["套餐"; "plan"]]].
Definition duplicate_charge : list node := [txt "重复扣费"; txt "重复收费"; phrase ["duplicate"; "charge"]].
Definition _DUPLICATE_CHARGE_ACTION : node :=
  cat [alt duplicate_charge; upto 24; alt [cat [txt "按"; upto 6; txt "政策处理"]; txt "处理"; txt "退款"; txt "refund"]].
(** The named groups [duplicate] and [original] are 1 and 2. *)
Definition _DUPLICATE_BILLING_RELATION_ZH : node :=
  cat [Group 1 _BILLING_ID; spaces; any ["是"; "为"]; spaces; Group 2 _BILLING_ID; spaces; txt "的"; opt (any ["一笔"; "一条"]);
       any ["重复扣费"; "重复收费"]].
Definition _DUPLICATE_BILLING_RELATION_EN : node :=
  cat [Group 1 _BILLING_ID; spaces1; txt "is"; spaces1; opt (cat [txt "a"; spaces1]); txt "duplicate"; opt (cat [spaces1; txt "charge"]);
       spaces1; txt "of"; spaces1; Group 2 _BILLING_ID].
Definition this_charge (w : string) : node := cat [Boundary; txt w; spaces1; any ["charge"; "bill"]; Boundary].
Definition _REFUND_CONTEXT_CONTINUATION : node :=
  alt [txt "如果"; txt "若"; cat [txt "确认"; opt (any ["是"; "为"])]; txt "这笔"; txt "该笔"; txt "这条"; txt "该条"; txt "它"; txt "就按";
       cat [Boundary; txt "if"; Boundary]; cat [Boundary; phrase ["if"; "confirmed"]; Boundary]; this_charge "this"; this_charge "that"].
Definition newline : cp := String "010" "".
Definition _ACTION_CLAUSE_BOUNDARY : node :=
  alt [Star (class ["，"; ","; "。"; "；"; ";"; "！"; "!"; "？"; "?"; newline]) 1 None;
       any ["但是"; "不过"; "然而"; "而是"; "随后"; "然后"]; cat [Boundary; any ["but"; "however"; "instead"; "then"]; Boundary]].
Definition _ACTION_COORDINATED_CONTINUATION : node :=
  alt [cat [TextStart; any ["同时"; "并且"; "以及"; "还要"; "也要"]]; cat [TextStart; any ["and"; "also"]; Boundary]].
Definition will_have : node :=
  alt [cat [txt "会"; opt (txt "有"); txt "什么"]; txt "有何"; txt "是否会"; txt "会不会"; txt "可能有"].
Definition impact_zh : node := any ["影响"; "后果"; "风险"].
Definition act_en : node := any (["revoke"; "disable"; "invalidate"] ++ change_en).
Definition _ACTION_INFORMATIONAL : node :=
  alt [cat [opt (any ["我想"; "想"; "希望"; "需要"]); any ["知道"; "了解"; "询问"; "确认"]; upto 20; will_have; upto 12; impact_zh];
       cat [any (["撤销"; "禁用"; "作废"; "吊销"] ++ change_zh); upto 24; will_have; upto 12; impact_zh];
       cat [any ["what"; "which"]; upto 16; any ["impact"; "effect"; "risk"; "consequence"]];
       cat [alt [cat [txt "what"; spaces1; alt [txt "happens"; phrase ["would"; "happen"]]]; phrase ["how"; "would"]]; upto 40; act_en];
       cat [act_en; upto 32;
            alt [cat [txt "what"; spaces1; any ["impact"; "effect"]]; phrase ["how"; "would"];
                 cat [txt "would"; spaces1; Star dot 0 None; any ["affect"; "impact"]]]]].
Definition _REFUND_ACTION_NEGATED : node :=
  alt [cat [any ["不要"; "不用"; "无需"; "不需要"; "不想"; "不希望"; "不必"; "禁止"; "别"; "暂不"; "先不"; "拒绝"]; upto 24; refund_zh];
       cat [alt [phrase ["do"; "not"]; dont; phrase ["no"; "need"; "to"]; phrase ["must"; "not"]; phrase ["should"; "not"]]; upto 32; refund_en];
       cat [Boundary; txt "no"; spaces1; any ["refund"; "reimbursement"]; Boundary]].
Definition refund_topic_zh : node := any ["退款"; "退费"; "重复扣费"; "重复收费"].
Definition refund_topic_en : node := alt [txt "refund"; txt "reimburse"; phrase ["duplicate"; "charge"]].
Definition _REFUND_INFORMATIONAL : node :=
  alt [cat [any ["只"; "仅"]; opt (any ["想"; "需要"; "需"]); any ["说明"; "解释"; "介绍"; "了解"; "查询"; "查看"; "咨询"; "知道"]];
       cat [any ["请问"; "想了解"; "想知道"; "说明"; "解释"; "介绍"; "查询"; "查看"; "咨询"]; upto 28; refund_topic_zh];
       cat [any ["如何"; "怎么"; "怎样"; "为什么"; "什么是"]; upto 24; refund_topic_zh];
       cat [refund_topic_zh; upto 32;
            any ["是什么"; "有哪些"; "如何"; "怎么"; "怎样"; "为什么"; "需要什么"; "什么条件"; "什么流程"; "吗"; "呢"]];
       cat [any ["only"; "just"]; spaces1; any ["explain"; "describe"; "show"; "tell"; "check"; "review"; "understand"]];
       cat [alt [txt "explain"; txt "describe"; txt "what"; txt "why"; txt "how"; txt "whether"; phrase ["can"; "i"]; phrase ["could"; "i"]];
            upto 48; refund_topic_en];
       cat [refund_topic_en; upto 48;
            alt [txt "policy"; txt "process"; cat [txt "rule"; opt (txt "s")]; txt "criteria"; txt "eligibility";
                 cat [txt "step"; opt (txt "s")]; txt "status"]; upto 24;
            any ["what"; "why"; "how"; "which"; "can"; "could"; "?"]]].
End patterns.

(** ** Data *)
Record AdmissionFieldSource := mk_source {
  fs_field_name : string; fs_message_id : string; fs_content_hash : string; fs_span_start : nat; fs_span_end : nat;
}.
Definition new_source (s : AdmissionFieldSource) : res AdmissionFieldSource :=
  raise ValidationError "content_hash" when negb (is_sha256_hex (fs_content_hash s)) ;;
  raise ValidationError "span_end" when Nat.eqb (fs_span_end s) 0 ;; Ok s.
Definition set_field_name (name : string) (s : AdmissionFieldSource) : AdmissionFieldSource :=
  mk_source name (fs_message_id s) (fs_content_hash s) (fs_span_start s) (fs_span_end s).

(** The remaining fields of [ActionAdmissionV2] around those of [Obligations]. *)
Record AdmissionDecision := mk_decision_v2 {
  av_admission : ActionAdmissionV2; planned_action : option ActionType; av_issue_type : option string;
  field_sources : list AdmissionFieldSource; source_message_ids : list string; classification_version : string;
  current_message_id : string; turn_group_id : string; av_reason_code : string;
}.
Record ActionAdmission := mk_admission_v1 {
  v1_action_type : ActionType; v1_issue_type : string; v1_missing_fields : list string; v1_extracted_arguments : pydict;
  v1_clarification_question : string;
}.
Definition _ACTION_ISSUE_TYPE (a : ActionType) : string :=
  match a with Refund => "billing_refund" | ApiKeyRevocation => "credential_security" | EntitlementChange => "entitlement_change" end.
Definition _MISSING_QUESTION (a : ActionType) : string :=
  match a with
  | Refund => "请提供需要退款的账单 ID（Billing ID / 账单编号，例如 bill_...）。"
  | ApiKeyRevocation => "请提供要撤销的 API Key 引用（Key Reference，例如 key_...）；不要发送完整密钥。"
  | EntitlementChange => "请提供具体并发上限目标值、RPM 上限或目标套餐；系统不会猜测目标值。"
  end.
Record _AcceptedMessage := mk_accepted { am_message_id : string; am_content : string; am_content_hash : string }.

(** ** Digests *)
(** [json.dumps(..., separators=(",", ":"))] with its default
    [ensure_ascii=True]: a character outside ASCII is one or two [\uXXXX]. *)
Local Open Scope Z_scope.
Fixpoint low_bits (acc : Z) (l : list ascii) : Z :=
  match l with [] => acc | a :: l => low_bits (acc * 64 + Z.land (Z.of_nat (nat_of_ascii a)) 63) l end.
Definition point_value (c : cp) : Z :=
  match String.list_ascii_of_string c with
  | [] => 0
  | [a] => Z.of_nat (nat_of_ascii a)
  | [a; b] => low_bits (Z.land (Z.of_nat (nat_of_ascii a)) 31) [b]
  | [a; b; c] => low_bits (Z.land (Z.of_nat (nat_of_ascii a)) 15) [b; c]
  | a :: l => low_bits (Z.land (Z.of_nat (nat_of_ascii a)) 7) l
  end.
Definition u_escape (n : Z) : list ascii :=
  [backslash; "u"%char; hex_digit (Z.shiftr n 12); hex_digit (Z.land (Z.shiftr n 8) 15); hex_digit (Z.land (Z.shiftr n 4) 15);
   hex_digit (Z.land n 15)].
Definition escape_point (c : cp) : list ascii :=
  match c with
  | String a "" => if Nat.ltb (nat_of_ascii a) 127 then escape_char a else u_escape (point_value c)
  | _ =>
      let n := point_value c in
      if n <? 65536 then u_escape n
      else u_escape (55296 + Z.shiftr (n - 65536) 10) ++ u_escape (56320 + Z.land (n - 65536) 1023)
  end.
Definition json_str (s : string) : string :=
  String.string_of_list_ascii (quote_char :: concat (map escape_point (code_points s)) ++ [quote_char]).
Definition _content_hash (content : string) : string := sha256_hex content.
Definition _scope_hash (tenant_id customer_id : string) : string :=
  sha256_hex ("{" +:+ json_str "customer_id" +:+ ":" +:+ json_str customer_id +:+ "," +:+ json_str "tenant_id" +:+ ":" +:+ json_str tenant_id +:+ "}").

Section admission.
Context `{PyRuntime} `{UnicodeClasses} `{UnicodeDigits}.

(** ** Accepted messages *)
Fixpoint hashable (v : pyval) : bool :=
  match v with PyList _ | PyDict _ => false | PyTuple l => forallb hashable l | _ => true end.
(** [value in {"customer", "user"}] *)
Definition customer_role (v : pyval) : res bool :=
  raise TypeError "unhashable type" when negb (hashable v) ;;
  Ok (match v with PyStr s => s in? ["customer"; "user"] | _ => false end).
Definition accepted_message (message_id content : string) : _AcceptedMessage := mk_accepted message_id content (_content_hash content).
Fixpoint accepted_from (index : nat) (current_message_id : string) (conversation : list pydict) : res (list _AcceptedMessage) :=
  match conversation with
  | [] => Ok []
  | item :: conversation =>
      let? customer := customer_role (item.["role"]) in
      let? rest := accepted_from (S index) current_message_id conversation in
      let content := str_strip (py_str (dget_or "content" (PyStr "") item)) in
      let message_id := py_str (py_or (py_or (item.["message_id"]) (item.["id"])) (PyStr ("accepted-message-" +:+ str_of_Z (Z.of_nat index)))) in
      Ok (if negb customer || is_empty_str content || (message_id ==? current_message_id) then rest
          else accepted_message message_id content :: rest)
  end.
Definition last_n {A} (n : nat) (l : list A) : list A := drop (length l - n) l.
Definition _accepted_messages (current_turn current_message_id : string) (conversation : list pydict) : res (list _AcceptedMessage) :=
  let? accepted := accepted_from 0 current_message_id conversation in
  Ok (last_n 6 (accepted ++ [accepted_message current_message_id (str_strip current_turn)])).

(** ** Clauses *)
Definition clauses (content : string) : list string := List.filter (fun c => negb (is_empty_str (str_strip c))) (split _ACTION_CLAUSE_BOUNDARY content).

Fixpoint refund_clauses (disqualified : bool) (l : list string) : bool * bool :=
  match l with
  | [] => (false, disqualified)
  | raw :: l =>
      let clause := str_strip raw in
      if search _REFUND_ACTION_NEGATED clause then refund_clauses true l else
      if search _REFUND_INFORMATIONAL clause then refund_clauses true l else
      if search _REFUND_ACTION clause then (true, disqualified) else
      if search _DUPLICATE_CHARGE_ACTION clause && search _ACTION_REQUEST_CUE clause then (true, disqualified) else
      refund_clauses disqualified l
  end.
Definition _refund_action_requested (content : string) : bool :=
  let normalized := normalized_conversation_text content in
  if is_empty_str normalized then false else
  let '(requested, disqualified_shorthand) := refund_clauses false (clauses normalized) in
  requested
  || (negb disqualified_shorthand && search _DUPLICATE_CHARGE_ACTION normalized && search _ACTION_REQUEST_CUE normalized).
(** The source searches the clauses as they were split. *)
Definition _refund_continuation_blocked (content : string) : bool :=
  let normalized := normalized_conversation_text content in
  negb (is_empty_str normalized)
  && existsb (fun c => search _REFUND_ACTION_NEGATED c || search _REFUND_INFORMATIONAL c) (clauses normalized).

Definition _clause_spans (content : string) : list (nat * nat) :=
  let s := code_points content in
  List.filter (fun sp => Nat.ltb sp.1 sp.2) (between s 0 (finditer _ACTION_CLAUSE_BOUNDARY s 0 (length s))).
(** An action the customer can ask for outside refunds: its patterns. *)
Record vocabulary := mk_vocabulary { v_domain : node; v_action : node; v_negated : node }.
Definition key_vocabulary : vocabulary := mk_vocabulary _KEY_DOMAIN _KEY_REVOCATION _KEY_REVOCATION_NEGATED.
Definition entitlement_vocabulary : vocabulary := mk_vocabulary _ENTITLEMENT_DOMAIN _ENTITLEMENT_CHANGE _ENTITLEMENT_CHANGE_NEGATED.

Fixpoint positive_clauses (v : vocabulary) (s : list cp) (prior_request_cue : bool) (spans : list (nat * nat)) : list (nat * nat) :=
  match spans with
  | [] => []
  | sp :: spans =>
      let clause := str_strip (text_of s sp) in
      let here f := negb (is_empty_str clause) && f clause in
      let own_request_cue := here (search _ACTION_REQUEST_CUE) in
      let coordinated_request := here (fun c => prior_request_cue && search _ACTION_COORDINATED_CONTINUATION c) in
      let rest := positive_clauses v s (prior_request_cue || own_request_cue) spans in
      if here (fun c => negb (search (v_negated v) c) && negb (search _ACTION_INFORMATIONAL c) && search (v_action v) c)
         && (own_request_cue || coordinated_request)
      then sp :: rest else rest
  end.
Definition _positive_action_clause_spans (v : vocabulary) (content : string) (domain_context : bool) : list (nat * nat) :=
  let normalized := normalized_conversation_text content in
  if is_empty_str normalized || (negb domain_context && negb (search (v_domain v) normalized)) then []
  else positive_clauses v (code_points content) false (_clause_spans content).
Definition _explicit_action_requested (v : vocabulary) (content : string) (domain_context : bool) : bool :=
  negb (is_nil (_positive_action_clause_spans v content domain_context)).
Definition _key_action_requested : string -> bool -> bool := _explicit_action_requested key_vocabulary.
Definition _entitlement_action_requested : string -> bool -> bool := _explicit_action_requested entitlement_vocabulary.

(** ** Intents *)
Definition action_types : list ActionType := [Refund; ApiKeyRevocation; EntitlementChange].
Definition requests (a : ActionType) (content : string) : bool :=
  match a with
  | Refund => _refund_action_requested content
  | ApiKeyRevocation => _key_action_requested content false
  | EntitlementChange => _entitlement_action_requested content false
  end.
(** An action continued in the domain of an earlier text. *)
Definition continues (a : ActionType) (current context : string) : bool :=
  match a with
  | Refund => false
  | ApiKeyRevocation => search _KEY_DOMAIN context && _key_action_requested current true
  | EntitlementChange => search _ENTITLEMENT_DOMAIN context && _entitlement_action_requested current true
  end.
Definition _action_intents (messages : list _AcceptedMessage) (continuation_action : option ActionType) (continuation_context : string)
  : list ActionType :=
  List.filter (fun a =>
      existsb (fun m => requests a (am_content m)) messages
      || match last messages with
         | Some current => (continuation_action ==? Some a) && continues a (am_content current) continuation_context
         | None => false
         end) action_types.
Definition single {A} (l : list A) : option A := match l with [a] => Some a | _ => None end.
Definition explicit_current_turn_action (current_turn : string) : option ActionType :=
  let content := str_strip current_turn in
  if is_empty_str content then None else single (_action_intents [accepted_message "current-turn" content] None "").
Definition _safe_immediate_domain_continuation (requested_action : option ActionType) (current previous : string) : option ActionType :=
  match requested_action with
  | Some a => if continues a current previous then Some a else None
  | None => None
  end.
(** The last customer text of a conversation, read from its end. *)
Fixpoint previous_text (reversed : list pydict) : res string :=
  match reversed with
  | [] => Ok ""
  | item :: reversed =>
      let? customer := customer_role (item.["role"]) in
      let content := str_strip (py_str (dget_or "content" (PyStr "") item)) in
      if customer && negb (is_empty_str content) then Ok content else previous_text reversed
  end.
Definition explicit_action_with_immediate_domain (current_turn : string) (conversation : list pydict) : res (option ActionType) :=
  match explicit_current_turn_action current_turn with
  | Some a => Ok (Some a)
  | None =>
      let? previous := previous_text (reverse conversation) in
      Ok (if is_empty_str previous then None else
          single (List.filter (fun a => isSome (_safe_immediate_domain_continuation (Some a) current_turn previous))
                    [ApiKeyRevocation; EntitlementChange]))
  end.

(** ** Fields *)
Definition spans_of_message (v : vocabulary) (domain_context : bool) (m : _AcceptedMessage) : list (nat * nat) :=
  let s := code_points (am_content m) in
  if negb (is_nil (_positive_action_clause_spans v (am_content m) domain_context)) then
    List.filter (fun sp => negb (search (v_negated v) (text_of s sp)) && negb (search _ACTION_INFORMATIONAL (text_of s sp))) (_clause_spans (am_content m))
  else if search (v_negated v) (am_content m) || search _ACTION_INFORMATIONAL (am_content m) then []
  else [(O, length s)].
(** Keyed by the message; a later message of the same id replaces an earlier. *)
Definition _action_field_spans (v : vocabulary) (messages : list _AcceptedMessage) (domain_context : bool) : gmap string (list (nat * nat)) :=
  fold_left (fun allowed m => <[am_message_id m := spans_of_message v domain_context m]> allowed) messages ∅.

Definition field_match : Type := string * AdmissionFieldSource.
(** [match.group(index)] of the first group that took part; a group that did
    not has the span (-1, -1), which the source model rejects. *)
Definition match_of (groups : list nat) (m : _AcceptedMessage) (h : hit) : res field_match :=
  match omap (span_of h) groups with
  | (start, stop) :: _ =>
      let? source := new_source (mk_source "" (am_message_id m) (am_content_hash m) start stop) in
      Ok (text_of (code_points (am_content m)) (start, stop), source)
  | [] => Err (ValidationError "span_start")
  end.
Definition matches_in (pattern : node) (groups : list nat) (m : _AcceptedMessage) (spans : list (nat * nat)) : res (list field_match) :=
  map_res (match_of groups m) (concat (map (fun sp => finditer pattern (code_points (am_content m)) sp.1 sp.2) spans)).
Definition _matches (pattern : node) (messages : list _AcceptedMessage) (groups : list nat) (allowed : option (gmap string (list (nat * nat))))
  : res (list field_match) :=
  let? l := map_res (fun m =>
      matches_in pattern groups m
        (match allowed with Some a => default [] (a !! am_message_id m) | None => [(O, length (code_points (am_content m)))] end)) messages in
  Ok (concat l).
(** [unique.setdefault(key, ...)]: the first match of each key stays. *)
Fixpoint unique_by {A} (key : A -> string) (seen : list string) (l : list A) : list A :=
  match l with
  | [] => []
  | x :: l => if key x in? seen then unique_by key seen l else x :: unique_by key (key x :: seen) l
  end.
Definition _unique_matches (l : list field_match) (field_name : string) (normalize : bool) : list field_match :=
  map (fun x => (x.1, set_field_name field_name x.2)) (unique_by (fun x => if normalize then casefold x.1 else x.1) [] l).
Definition billing_refs (messages : list _AcceptedMessage) : res (list field_match) :=
  let? l := _matches _BILLING_ID messages [O] None in Ok (_unique_matches l "billing_record_id" true).

(** A duplicate charge and its original, with the source of the duplicate. *)
Definition relation_of (m : _AcceptedMessage) (h : hit) : res (string * string * AdmissionFieldSource) :=
  let text sp := text_of (code_points (am_content m)) sp in
  match span_of h 1, span_of h 2 with
  | Some d, Some o =>
      let? source := new_source (mk_source "billing_record_id" (am_message_id m) (am_content_hash m) d.1 d.2) in
      Ok (text d, text o, source)
  | _, _ => Err (ValidationError "span_start")
  end.
Definition relations (m : _AcceptedMessage) : list hit :=
  let s := code_points (am_content m) in
  finditer _DUPLICATE_BILLING_RELATION_ZH s 0 (length s) ++ finditer _DUPLICATE_BILLING_RELATION_EN s 0 (length s).
Definition _duplicate_relation_refund_target (messages : list _AcceptedMessage) : res (option field_match) :=
  let? all_refs := billing_refs messages in
  let? l := map_res (fun m => map_res (relation_of m) (relations m)) messages in
  match concat l with
  | [(duplicate, original, source)] =>
      let referenced := map (fun x => casefold x.1) all_refs in
      let named := [casefold duplicate; casefold original] in
      Ok (if forallb (fun x => x in? named) referenced && forallb (fun x => x in? referenced) named then Some (duplicate, source) else None)
  | _ => Ok None
  end.

(** ** Resolution *)
Record admission_request := mk_request {
  rq_current_turn : string; rq_conversation : list pydict; rq_requested_action : option ActionType; rq_issue_type : option string;
  rq_tenant_id : string; rq_customer_id : string; rq_current_message_id : string; rq_turn_group_id : string;
  rq_classification_version : string; rq_requested_concurrency_limit : option Z; rq_continuation_action : option ActionType;
}.
Section request.
Context (rq : admission_request).
Definition decision (messages : list _AcceptedMessage) (status : AdmissionStatus) (action : option ActionType) (missing : list string)
    (arguments : pydict) (sources : list AdmissionFieldSource) (reason_code : string) (question : option string) : res AdmissionDecision :=
  let reason := match last messages with Some m => am_content m | None => "" end in
  let? admission := validate_status_shape
    (mk_admission status action missing arguments (if is_empty_str reason then None else Some reason) (rq_tenant_id rq) (rq_customer_id rq)
       (_scope_hash (rq_tenant_id rq) (rq_customer_id rq)) question) in
  Ok (mk_decision_v2 admission (rq_requested_action rq) (rq_issue_type rq) sources (map am_message_id messages) (rq_classification_version rq)
        (rq_current_message_id rq) (rq_turn_group_id rq) reason_code).
Definition _mismatch (messages : list _AcceptedMessage) (action : option ActionType) (reason_code question : string) : res AdmissionDecision :=
  decision messages AdmMismatch action [] [] [] reason_code (Some question).
(** The last return: a resolved field, or the question for the missing one. *)
Definition resolved (messages : list _AcceptedMessage) (action : ActionType) (field : string) (found : option (pydict * AdmissionFieldSource))
  : res AdmissionDecision :=
  match found with
  | Some (arguments, source) => decision messages AdmAdmitted (Some action) [] arguments [source] "action_request_admitted" None
  | None =>
      decision messages AdmMissing (Some action) [field] [] [] "required_action_fields_missing" (Some (_MISSING_QUESTION action))
  end.

Definition resolve_refund (messages : list _AcceptedMessage) : res AdmissionDecision :=
  let refund_of found := resolved messages Refund "billing_record_id" ((fun x => ([("billing_record_id", PyStr x.1)], x.2)) <$> found) in
  let? refs := billing_refs messages in
  match refs with
  | [] => refund_of None
  | [ref] => refund_of (Some ref)
  | _ =>
      let? relation_target := _duplicate_relation_refund_target messages in
      match relation_target with
      | None => _mismatch messages (Some Refund) "resource_ref_ambiguous" "检测到多个账单 ID，请明确本次只处理哪一个账单。"
      | Some target => refund_of (Some target)
      end
  end.
Definition resolve_key (messages : list _AcceptedMessage) (domain_context : bool) : res AdmissionDecision :=
  let spans := _action_field_spans key_vocabulary messages domain_context in
  let? l := _matches _API_KEY_REF messages [O] (Some spans) in
  match _unique_matches l "api_key_ref" true with
  | [] => resolved messages ApiKeyRevocation "api_key_ref" None
  | [ref] => resolved messages ApiKeyRevocation "api_key_ref" (Some ([("api_key_ref", PyStr ref.1)], ref.2))
  | _ => _mismatch messages (Some ApiKeyRevocation) "resource_ref_ambiguous" "检测到多个 API Key 引用，请明确本次只撤销哪一个引用。"
  end.

(** [int(value)] of a run of decimal digits. *)
Definition digit_of (c : cp) : Z := match c with String a "" => Z.of_nat (nat_of_ascii a) - 48 | _ => decimal_value c end.
Definition int_of_digits (value : string) : Z := fold_left (fun n c => 10 * n + digit_of c) (code_points value) 0.
Inductive target_value := ConcurrencyLimit (z : Z) | RpmLimit (z : Z) | PlanTarget (plan : string).
Definition target_dict (t : target_value) : pydict :=
  match t with
  | ConcurrencyLimit z => [("concurrency_limit", PyInt z)]
  | RpmLimit z => [("rpm_limit", PyInt z)]
  | PlanTarget plan => [("plan", PyStr plan)]
  end.
(** [json.dumps(target, sort_keys=True, separators=(",", ":"))] *)
Definition target_identity (t : target_value) : string :=
  match t with
  | ConcurrencyLimit z => "{" +:+ json_str "concurrency_limit" +:+ ":" +:+ str_of_Z z +:+ "}"
  | RpmLimit z => "{" +:+ json_str "rpm_limit" +:+ ":" +:+ str_of_Z z +:+ "}"
  | PlanTarget plan => "{" +:+ json_str "plan" +:+ ":" +:+ json_str plan +:+ "}"
  end.
Definition entitlement_targets (messages : list _AcceptedMessage) (spans : gmap string (list (nat * nat)))
  : res (list (target_value * AdmissionFieldSource)) :=
  let? concurrency := _matches _CONCURRENCY_TARGET messages [1%nat] (Some spans) in
  let? rpm := _matches _RPM_TARGET messages [1%nat; 2%nat] (Some spans) in
  let? plans := _matches _PLAN_TARGET messages [1%nat; 2%nat] (Some spans) in
  Ok (map (fun x => (ConcurrencyLimit (int_of_digits x.1), x.2)) (_unique_matches concurrency "target.concurrency_limit" false)
      ++ map (fun x => (RpmLimit (int_of_digits x.1), x.2)) (_unique_matches rpm "target.rpm_limit" false)
      ++ map (fun x => (PlanTarget x.1, x.2)) (_unique_matches plans "target.plan" true)).
Definition change_arguments (t : target_value) : pydict :=
  [("change_type", PyStr match t with PlanTarget _ => "plan_change" | _ => "quota_change" end); ("target", PyDict (target_dict t))].
Definition resolve_entitlement (messages : list _AcceptedMessage) (domain_context : bool) : res AdmissionDecision :=
  let spans := _action_field_spans entitlement_vocabulary messages domain_context in
  let? targets := entitlement_targets messages spans in
  match unique_by (fun x => target_identity x.1) [] targets with
  | [] => resolved messages EntitlementChange "target" None
  | [(target, source)] =>
      if match rq_requested_concurrency_limit rq with
         | Some limit => match target with ConcurrencyLimit z => negb (z =? limit) | _ => true end
         | None => false
         end
      then _mismatch messages (Some EntitlementChange) "planned_target_mismatch" "客户给出的并发目标与当前计划不一致，请重新确认目标值。"
      else resolved messages EntitlementChange "target" (Some (change_arguments target, source))
  | _ => _mismatch messages (Some EntitlementChange) "target_ambiguous" "检测到多个不同目标值，请明确本次只采用一个配额或套餐目标。"
  end.

(** Which action may be continued, and which messages are read. *)
Definition continuation_context (accepted : list _AcceptedMessage) : string :=
  match reverse accepted with _ :: previous :: _ => am_content previous | _ => "" end.
(** [continuation_action == requested_action], where no action is requested as
    the text none. *)
Definition continued : bool :=
  match rq_continuation_action rq, rq_requested_action rq with Some a, Some b => a ==? b | _, _ => false end.
Definition trusted_continuation (accepted : list _AcceptedMessage) (current : _AcceptedMessage) : option ActionType :=
  let context := continuation_context accepted in
  let trusted := if continued then rq_continuation_action rq else None in
  if isNone trusted && negb (is_empty_str context)
  then _safe_immediate_domain_continuation (rq_requested_action rq) (am_content current) context else trusted.
Definition contextual_refund (accepted : list _AcceptedMessage) (current : _AcceptedMessage) (current_intents : list ActionType) : res bool :=
  if (rq_requested_action rq ==? Some Refund) && (current_intents ==? [Refund]) && negb (search _BILLING_ID (am_content current))
     && search _REFUND_CONTEXT_CONTINUATION (am_content current) && Nat.ltb 1 (length accepted)
  then let? l := _matches _BILLING_ID (take 1 (last_n 2 accepted)) [O] None in Ok (Nat.eqb (length (_unique_matches l "x" true)) 1)
  else Ok false.
Definition read_messages (accepted : list _AcceptedMessage) (current : _AcceptedMessage) : res (list _AcceptedMessage) :=
  let current_intents := _action_intents [current] (trusted_continuation accepted current) (continuation_context accepted) in
  let blocked := (rq_requested_action rq ==? Some Refund) && _refund_continuation_blocked (am_content current) in
  let? contextual := contextual_refund accepted current current_intents in
  Ok (if contextual then last_n 2 accepted
      else if negb (is_nil current_intents) || negb continued || blocked then [current]
      else accepted).
(** The checks of the plan against the intents found, then the fields. *)
Definition resolve_intents (messages : list _AcceptedMessage) (trusted : option ActionType) (context : string) : res AdmissionDecision :=
  match _action_intents messages trusted context, rq_requested_action rq with
  | _ :: _ :: _, _ => _mismatch messages None "action_intent_ambiguous" "当前消息同时包含多种高风险操作，请一次只确认一种操作。"
  | [], None => decision messages AdmNone None [] [] [] "no_high_risk_action" None
  | [parsed], None => _mismatch messages (Some parsed) "plan_omits_explicit_action" "我识别到高风险操作意图，但当前计划不一致；请明确要执行的操作。"
  | [], Some requested =>
      _mismatch messages (Some requested) "plan_without_customer_action" "当前计划包含高风险操作，但客户消息未明确授权该操作；请明确确认。"
  | [parsed], Some requested =>
      if parsed !=? requested then
        _mismatch messages (Some parsed) "planned_action_mismatch" "客户请求与当前操作计划不一致，请重新确认要执行的操作。" else
      if rq_issue_type rq !=? Some (_ACTION_ISSUE_TYPE parsed) then
        _mismatch messages (Some parsed) "issue_type_mismatch" "请求类型与操作类型不一致，请补充说明要处理的问题。" else
      match parsed with
      | Refund => resolve_refund messages
      | ApiKeyRevocation => resolve_key messages ((trusted ==? Some ApiKeyRevocation) && search _KEY_DOMAIN context)
      | EntitlementChange => resolve_entitlement messages ((trusted ==? Some EntitlementChange) && search _ENTITLEMENT_DOMAIN context)
      end
  end.
Definition resolve_action_admission_v2 : res AdmissionDecision :=
  let? accepted := _accepted_messages (rq_current_turn rq) (rq_current_message_id rq) (rq_conversation rq) in
  let current := default (mk_accepted "" "" "") (last accepted) in      (* never empty *)
  let? messages := read_messages accepted current in
  resolve_intents messages (trusted_continuation accepted current) (continuation_context accepted).
End request.

(** ** The first version ([resolve_missing_action_preconditions]) *)
Fixpoint history_texts (conversation : list pydict) : res (list string) :=
  match conversation with
  | [] => Ok []
  | item :: conversation =>
      let? customer := customer_role (item.["role"]) in
      let? rest := history_texts conversation in
      Ok (if customer && truthy (item.["content"]) then py_str (dget_or "content" (PyStr "") item) :: rest else rest)
  end.
Definition _customer_history (conversation : list pydict) : res string :=
  let? texts := history_texts (last_n 6 conversation) in Ok (String.concat newline texts).
Definition first_group (pattern : node) (text : string) (i : nat) : option string :=
  let s := code_points text in
  match search_from pattern None 0 s with Some h => text_of s <$> span_of h i | None => None end.
Definition precondition_missing (a : ActionType) (field question : string) : ActionAdmission :=
  mk_admission_v1 a (_ACTION_ISSUE_TYPE a) [field] [] question.
Definition continuation_surface (history current : string) : string := str_strip (history +:+ newline +:+ current).
Definition refund_intent (history current : string) : bool :=
  _refund_action_requested current
  || (negb (_refund_continuation_blocked current) && _refund_action_requested history && search _BILLING_ID current).
Definition key_intent (history current : string) : bool :=
  _key_action_requested current false || (_key_action_requested history false && search _API_KEY_REF current).
Definition entitlement_intent (history current : string) : bool :=
  _entitlement_action_requested current false || (_entitlement_action_requested history false && search _CONCURRENCY_TARGET current).
Definition resolve_missing_action_preconditions (current_turn : string) (conversation : list pydict) : res (option ActionAdmission) :=
  let current := str_strip current_turn in
  let? history := _customer_history conversation in
  let surface := continuation_surface history current in
  if refund_intent history current && negb (search _BILLING_ID surface)
  then Ok (Some (precondition_missing Refund "billing_record_id" (_MISSING_QUESTION Refund))) else
  if key_intent history current && negb (search _API_KEY_REF surface)
  then Ok (Some (precondition_missing ApiKeyRevocation "api_key_ref" (_MISSING_QUESTION ApiKeyRevocation))) else
  if entitlement_intent history current then
    match first_group _CONCURRENCY_TARGET surface 1 with
    | None => Ok (Some (precondition_missing EntitlementChange "target.concurrency_limit" "请提供希望调整到的具体并发上限目标值（例如 40）。"))
    | Some value =>
        let? target := validate_entitlement_target "quota_change" (PyDict [("concurrency_limit", PyInt (int_of_digits value))]) in
        raise ValueError "validated entitlement target cannot be empty" when is_nil target ;; Ok None
    end
  else Ok None.
End admission.

Definition ascii_digits : UnicodeDigits := {| decimal_value _ := 0 |}.

(** ** The patterns are well formed *)
Section proofs.
Context `{PyRuntime} `{UnicodeClasses} `{UnicodeDigits}.

Lemma billing_grouped : well_grouped [O] _BILLING_ID = true.
Proof. reflexivity. Qed.
Lemma key_grouped : well_grouped [O] _API_KEY_REF = true.
Proof. reflexivity. Qed.
Lemma concurrency_grouped : well_grouped [1%nat] _CONCURRENCY_TARGET = true.
Proof. reflexivity. Qed.
Lemma rpm_grouped : well_grouped [1%nat; 2%nat] _RPM_TARGET = true.
Proof. reflexivity. Qed.
Lemma plan_grouped : well_grouped [1%nat; 2%nat] _PLAN_TARGET = true.
Proof. reflexivity. Qed.
Lemma relation_zh_grouped i : i ∈ [1%nat; 2%nat] -> well_grouped [i] _DUPLICATE_BILLING_RELATION_ZH = true.
Proof. rewrite !elem_of_cons, elem_of_nil. by intros [->|[->|[]]]. Qed.
Lemma relation_en_grouped i : i ∈ [1%nat; 2%nat] -> well_grouped [i] _DUPLICATE_BILLING_RELATION_EN = true.
Proof. rewrite !elem_of_cons, elem_of_nil. by intros [->|[->|[]]]. Qed.

(** ** Quotations *)

(** The value is the text of the message at the recorded span. *)
Record quoted (m : _AcceptedMessage) (x : field_match) : Prop := {
  qt_message : fs_message_id x.2 = am_message_id m;
  qt_hash : fs_content_hash x.2 = am_content_hash m;
  qt_text : x.1 = text_of (code_points (am_content m)) (fs_span_start x.2, fs_span_end x.2);
  qt_span : (fs_span_start x.2 < fs_span_end x.2 <= length (code_points (am_content m)))%nat;
}.
Definition inside (x : field_match) (sp : nat * nat) : Prop := (sp.1 <= fs_span_start x.2 /\ fs_span_end x.2 <= sp.2)%nat.
Lemma quoted_rename m x name : quoted m x -> quoted m (x.1, set_field_name name x.2).
Proof. by intros [? ? ? ?]. Qed.

(** Accepted messages carry the digest of their text. *)
Definition hashed (m : _AcceptedMessage) : Prop := am_content_hash m = sha256_hex (am_content m).
Lemma match_of_ok groups pattern m sp h :
  hashed m -> (sp.1 <= sp.2)%nat -> well_grouped groups pattern = true -> h ∈ finditer pattern (code_points (am_content m)) sp.1 sp.2 ->
  exists x, match_of groups m h = Ok x /\ quoted m x /\ inside x sp.
Proof.
  intros Hm Hsp Hw Hh. apply finditer_in in Hh as [S C]; [|done]. unfold match_of. specialize (C groups Hw).
  destruct (omap (span_of h) groups) as [|[a b] l] eqn:E; [done|].
  assert ((a, b) ∈ omap (span_of h) groups) as Hin by (rewrite E; by left). apply list_elem_of_omap in Hin as (i & _ & Hi).
  destruct (S i a b Hi) as [Hb Hlt]. specialize (Hlt (proj1 (proj1 (andb_true_iff _ _) Hw))).
  unfold new_source. cbn [fs_content_hash fs_span_end]. rewrite Hm, sha256_hex_shape. cbn [negb]. rewrite raise_if_false by done.
  rewrite raise_if_false by (apply Nat.eqb_neq; lia). cbn [res_bind]. eexists. split; [done|]. split; [split; cbn; [done|by rewrite Hm|done|lia]|].
  unfold inside. cbn. lia.
Qed.
Lemma map_res_all {A B} (f : A -> res B) (P : A -> B -> Prop) l :
  (forall x, x ∈ l -> exists y, f x = Ok y /\ P x y) -> exists l', map_res f l = Ok l' /\ Forall2 P l l'.
Proof.
  induction l as [|x l IH]; intros Hl; [exists []; by split|]. destruct (Hl x) as (y & Hy & Py); [by left|].
  destruct IH as (l' & Hl' & Pl); [intros z Hz; apply Hl; by right|]. exists (y :: l'). cbn. rewrite Hy. cbn. rewrite Hl'. by split; [|constructor].
Qed.
(** What [_matches] finds in one message, and in all. *)
Definition spans_ok (spans : list (nat * nat)) : Prop := Forall (fun sp => (sp.1 <= sp.2)%nat) spans.
Definition allowed_in (allowed : option (gmap string (list (nat * nat)))) (m : _AcceptedMessage) : list (nat * nat) :=
  match allowed with Some a => default [] (a !! am_message_id m) | None => [(O, length (code_points (am_content m)))] end.
Lemma matches_in_ok pattern groups m spans :
  hashed m -> well_grouped groups pattern = true -> spans_ok spans ->
  exists l, matches_in pattern groups m spans = Ok l /\ Forall (fun x => quoted m x /\ exists sp, sp ∈ spans /\ inside x sp) l.
Proof.
  intros Hm Hw Hs. unfold matches_in.
  destruct (map_res_all (match_of groups m) (fun _ x => quoted m x /\ exists sp, sp ∈ spans /\ inside x sp)
              (concat (map (fun sp => finditer pattern (code_points (am_content m)) sp.1 sp.2) spans))) as (l & Hl & Fl).
  - intros h Hh. apply list_elem_of_In, in_concat in Hh as (hs & Hin & Hh). apply in_map_iff in Hin as (sp & <- & Hsp).
    apply list_elem_of_In in Hh, Hsp. unfold spans_ok in Hs. rewrite Forall_forall in Hs.
    destruct (match_of_ok groups pattern m sp h Hm (Hs _ Hsp) Hw Hh) as (x & Hx & Q & I). exists x. eauto.
  - exists l. split; [done|]. rewrite Forall_forall. intros x Hx. apply list_elem_of_lookup in Hx as (i & Hi).
    destruct (Forall2_lookup_r _ _ _ _ _ Fl Hi) as (h & _ & Hp). exact Hp.
Qed.
Lemma matches_ok pattern messages groups allowed :
  Forall hashed messages -> well_grouped groups pattern = true -> (forall m, m ∈ messages -> spans_ok (allowed_in allowed m)) ->
  exists l, _matches pattern messages groups allowed = Ok l /\
    forall x, x ∈ l -> exists m, m ∈ messages /\ quoted m x /\ exists sp, sp ∈ allowed_in allowed m /\ inside x sp.
Proof.
  intros Hh Hw Hs. rewrite Forall_forall in Hh.
  destruct (map_res_all (fun m => matches_in pattern groups m (allowed_in allowed m))
              (fun m l => Forall (fun x => quoted m x /\ exists sp, sp ∈ allowed_in allowed m /\ inside x sp) l) messages) as (l & Hl & Fl).
  { intros m Hm. apply matches_in_ok; auto. }
  unfold _matches. exists (concat l). split; [by setoid_rewrite Hl|]. intros x Hx.
  apply list_elem_of_In, in_concat in Hx as (l1 & Hin & Hx). apply list_elem_of_In in Hin, Hx.
  apply list_elem_of_lookup in Hin as (i & Hi). destruct (Forall2_lookup_r _ _ _ _ _ Fl Hi) as (m & Hm & Hp).
  rewrite Forall_forall in Hp. exists m. split; [by eapply list_elem_of_lookup_2|by apply Hp].
Qed.
Lemma unique_by_elem {A} (key : A -> string) seen l x : x ∈ unique_by key seen l -> x ∈ l.
Proof.
  revert seen. induction l as [|y l IH]; intros seen; cbn; [done|]. destruct (key y in? seen); [intros Hx; right; by eapply IH|].
  rewrite elem_of_cons. intros [->|Hx]; [by left|right; by eapply IH].
Qed.
Lemma unique_matches_elem l name norm x :
  x ∈ _unique_matches l name norm -> exists y, y ∈ l /\ x = (y.1, set_field_name name y.2).
Proof. unfold _unique_matches. intros (y & -> & Hy)%list_elem_of_fmap. exists y. split; [by eapply unique_by_elem|done]. Qed.
Definition quoted_in (messages : list _AcceptedMessage) (x : field_match) : Prop := exists m, m ∈ messages /\ quoted m x.
Lemma unique_quoted messages l name norm x :
  (forall y, y ∈ l -> quoted_in messages y) -> x ∈ _unique_matches l name norm -> quoted_in messages x.
Proof. intros Hl (y & Hy & ->)%unique_matches_elem. destruct (Hl y Hy) as (m & Hm & Q). exists m. split; [done|by apply quoted_rename]. Qed.
Lemma whole_spans m : spans_ok (allowed_in None m).
Proof. constructor; [cbn; lia|done]. Qed.
Lemma billing_refs_ok messages :
  Forall hashed messages -> exists l, billing_refs messages = Ok l /\ forall x, x ∈ l -> quoted_in messages x.
Proof.
  intros Hh. destruct (matches_ok _BILLING_ID messages [O] None Hh billing_grouped) as (l & Hl & Q); [intros; apply whole_spans|].
  unfold billing_refs. rewrite Hl. cbn. eexists. split; [done|]. intros x. apply unique_quoted. intros y Hy. destruct (Q y Hy) as (m & Hm & Qm & _).
  by exists m.
Qed.

(** ** Clauses a field may come from *)
(** A text that neither refuses the action nor asks about its consequences. *)
Definition clean (v : vocabulary) (text : string) : Prop := search (v_negated v) text = false /\ search _ACTION_INFORMATIONAL text = false.
Lemma spans_of_message_clean v ctx m sp :
  sp ∈ spans_of_message v ctx m -> (sp.1 <= sp.2)%nat /\ clean v (text_of (code_points (am_content m)) sp).
Proof.
  unfold spans_of_message. destruct (negb (is_nil _)).
  - rewrite list_elem_of_In, filter_In, andb_true_iff, !negb_true_iff. intros [Hin [Hn Hi]]. split; [|by split].
    unfold _clause_spans in Hin. apply filter_In in Hin as [_ Hlt]. apply Nat.ltb_lt in Hlt. lia.
  - destruct (_ || _) eqn:E; [by intros ?%elem_of_nil|]. apply orb_false_iff in E as [E1 E2].
    intros ->%list_elem_of_singleton. split; [cbn; lia|]. unfold clean. by rewrite whole_text.
Qed.
Lemma field_spans_lookup v messages ctx id spans :
  _action_field_spans v messages ctx !! id = Some spans -> exists m, m ∈ messages /\ am_message_id m = id /\ spans = spans_of_message v ctx m.
Proof.
  unfold _action_field_spans.
  assert (forall acc : gmap string (list (nat * nat)), (forall id spans, acc !! id = Some spans -> exists m, m ∈ messages /\ am_message_id m = id /\ spans = spans_of_message v ctx m) ->
    forall l, (forall m, m ∈ l -> m ∈ messages) ->
    fold_left (fun allowed m => <[am_message_id m := spans_of_message v ctx m]> allowed) l acc !! id = Some spans ->
    exists m, m ∈ messages /\ am_message_id m = id /\ spans = spans_of_message v ctx m) as Hg.
  { intros acc Hacc l. revert acc Hacc. induction l as [|m l IH]; intros acc Hacc Hsub; cbn; [apply Hacc|].
    apply IH; [|intros; apply Hsub; by right]. intros k sp. rewrite lookup_insert_Some. intros [[<- <-]|[_ Hk]]; [|by apply Hacc].
    exists m. split; [apply Hsub; by left|done]. }
  apply Hg; [|done]. intros k sp. by rewrite lookup_empty.
Qed.
Lemma field_spans_own v messages ctx m :
  NoDup (map am_message_id messages) -> m ∈ messages ->
  allowed_in (Some (_action_field_spans v messages ctx)) m = [] \/ allowed_in (Some (_action_field_spans v messages ctx)) m = spans_of_message v ctx m.
Proof.
  intros Hnd Hm. unfold allowed_in. destruct (_ !! am_message_id m) as [spans|] eqn:E; [right|by left].
  apply field_spans_lookup in E as (m' & Hm' & Eid & ->). cbn. f_equal.
  apply list_elem_of_lookup in Hm as (i & Hi), Hm' as (k & Hk).
  assert (i = k) as -> by (eapply (NoDup_lookup _ i k (am_message_id m)); [exact Hnd|by rewrite list_lookup_fmap, Hi|rewrite list_lookup_fmap, Hk; cbn; congruence]).
  congruence.
Qed.
Lemma field_spans_ok v messages ctx m : spans_ok (allowed_in (Some (_action_field_spans v messages ctx)) m).
Proof.
  unfold allowed_in. destruct (_ !! am_message_id m) as [spans|] eqn:E; [|constructor].
  apply field_spans_lookup in E as (m' & _ & _ & ->). apply Forall_forall. intros sp Hsp. by eapply spans_of_message_clean.
Qed.

(** ** What an admitted field is *)
Inductive argument_of : ActionType -> string -> pydict -> Prop :=
| arg_refund v : argument_of Refund v [("billing_record_id", PyStr v)]
| arg_key v : argument_of ApiKeyRevocation v [("api_key_ref", PyStr v)]
| arg_concurrency v : argument_of EntitlementChange v (change_arguments (ConcurrencyLimit (int_of_digits v)))
| arg_rpm v : argument_of EntitlementChange v (change_arguments (RpmLimit (int_of_digits v)))
| arg_plan v : argument_of EntitlementChange v (change_arguments (PlanTarget v)).
Definition vocabulary_of (a : ActionType) : option vocabulary :=
  match a with Refund => None | ApiKeyRevocation => Some key_vocabulary | EntitlementChange => Some entitlement_vocabulary end.
(** The field [x] for action [a]: quoted from a message, and for a key or an
    entitlement from a clean part of it. *)
Definition evidenced (a : ActionType) (messages : list _AcceptedMessage) (x : field_match) : Prop :=
  exists m, m ∈ messages /\ quoted m x /\
    forall v, vocabulary_of a = Some v -> NoDup (map am_message_id messages) ->
      exists sp, inside x sp /\ clean v (text_of (code_points (am_content m)) sp).
Lemma evidenced_unique a messages l name norm x :
  (forall y, y ∈ l -> evidenced a messages y) -> x ∈ _unique_matches l name norm -> evidenced a messages x.
Proof.
  intros Hl (y & Hy & ->)%unique_matches_elem. destruct (Hl y Hy) as (m & Hm & Q & Hc). exists m. split_and!; [done|by apply quoted_rename|done].
Qed.
Lemma field_matches_ok a v pattern messages groups ctx :
  vocabulary_of a = Some v -> Forall hashed messages -> well_grouped groups pattern = true ->
  exists l, _matches pattern messages groups (Some (_action_field_spans v messages ctx)) = Ok l /\ forall x, x ∈ l -> evidenced a messages x.
Proof.
  intros Hv Hh Hw. destruct (matches_ok pattern messages groups (Some (_action_field_spans v messages ctx)) Hh Hw) as (l & Hl & Q);
    [intros; apply field_spans_ok|]. exists l. split; [done|]. intros x Hx. destruct (Q x Hx) as (m & Hm & Qm & sp & Hsp & Hi).
  exists m. split_and!; [done..|]. intros v' Hv' Hnd. assert (v' = v) as -> by congruence. exists sp. split; [done|].
  destruct (field_spans_own v messages ctx m Hnd Hm) as [E|E]; rewrite E in Hsp; [by apply not_elem_of_nil in Hsp|].
  by eapply spans_of_message_clean.
Qed.

(** ** The resolution answers *)
Lemma relation_of_ok m h :
  hashed m -> h ∈ relations m -> exists d o src, relation_of m h = Ok (d, o, src) /\ quoted m (d, src).
Proof.
  intros Hm Hh. set (s := code_points (am_content m)).
  assert (exists p, h ∈ finditer p s 0 (length s) /\ forall i, i ∈ [1%nat; 2%nat] -> well_grouped [i] p = true) as (p & Hp & Hw).
  { unfold relations in Hh. fold s in Hh. apply elem_of_app in Hh as [Hh|Hh]; [exists _DUPLICATE_BILLING_RELATION_ZH|exists _DUPLICATE_BILLING_RELATION_EN];
      (split; [done|]); intros i Hi; [by apply relation_zh_grouped|by apply relation_en_grouped]. }
  apply finditer_in in Hp as [S C]; [|lia].
  assert (forall i, i ∈ [1%nat; 2%nat] -> exists sp, span_of h i = Some sp) as Hsp.
  { intros i Hi. specialize (C [i] (Hw i Hi)). cbn in C. destruct (span_of h i); [eauto|done]. }
  destruct (Hsp 1%nat) as ([a b] & E1); [by left|]. destruct (Hsp 2%nat) as (o & E2); [by right; left|].
  destruct (S _ _ _ E1) as [Hb Hlt]. assert (well_grouped [1%nat] p = true) as Hw1 by (apply Hw; by left).
  specialize (Hlt (proj1 (proj1 (andb_true_iff _ _) Hw1))).
  unfold relation_of. rewrite E1, E2. unfold new_source. cbn [fs_content_hash fs_span_end fst snd]. rewrite Hm, sha256_hex_shape. cbn [negb].
  rewrite raise_if_false by done. rewrite raise_if_false by (apply Nat.eqb_neq; lia). cbn [res_bind]. do 3 eexists. split; [done|].
  subst s. split; cbn; [done|by rewrite Hm|done|lia].
Qed.
Lemma relation_target_ok messages :
  Forall hashed messages ->
  exists t, _duplicate_relation_refund_target messages = Ok t /\ forall x, t = Some x -> quoted_in messages x.
Proof.
  intros Hh. destruct (billing_refs_ok messages Hh) as (refs & Hr & _). unfold _duplicate_relation_refund_target. rewrite Hr. cbn [res_bind].
  destruct (map_res_all (fun m => map_res (relation_of m) (relations m))
              (fun m l => Forall (fun x => quoted m (x.1.1, x.2)) l) messages) as (l & Hl & Fl).
  { intros m Hm. rewrite Forall_forall in Hh. specialize (Hh m Hm).
    destruct (map_res_all (relation_of m) (fun _ x => quoted m (x.1.1, x.2)) (relations m)) as (l & Hl & Fl).
    - intros h Hin. destruct (relation_of_ok m h Hh Hin) as (d & o & src & E & Q). by exists (d, o, src).
    - exists l. split; [done|]. apply Forall_forall. intros x Hx. apply list_elem_of_lookup in Hx as (i & Hi).
      by destruct (Forall2_lookup_r _ _ _ _ _ Fl Hi) as (h & _ & Hp). }
  rewrite Hl. cbn [res_bind]. destruct (concat l) as [|[[d o] src] [|y l']] eqn:El; [by eexists| |by eexists].
  eexists. split; [done|]. intros x Hx. destruct (_ && _); [|done]. injection Hx as <-.
  assert ((d, o, src) ∈ concat l) as Hin by (rewrite El; by left). apply list_elem_of_In, in_concat in Hin as (l1 & H1' & H2').
  apply list_elem_of_In in H1', H2'. apply list_elem_of_lookup in H1' as (i & Hi). destruct (Forall2_lookup_r _ _ _ _ _ Fl Hi) as (m & Hm & Hp).
  rewrite Forall_forall in Hp. exists m. split; [by eapply list_elem_of_lookup_2|exact (Hp _ H2')].
Qed.

Section answers.
Context (rq : admission_request) (messages : list _AcceptedMessage) (Hh : Forall hashed messages).

(** A decision about action [a]. *)
Record answers (a : option ActionType) (d : AdmissionDecision) : Prop := {
  an_action : adm_action_type (av_admission d) = a;
  an_planned : planned_action d = rq_requested_action rq;
  an_messages : source_message_ids d = map am_message_id messages;
  an_valid : validate_status_shape (av_admission d) = Ok (av_admission d);
  an_admitted : adm_status (av_admission d) = AdmAdmitted -> exists act x, a = Some act /\ evidenced act messages x /\
    field_sources d = [x.2] /\ argument_of act x.1 (extracted_arguments (av_admission d));
}.
Lemma decision_ok status action missing arguments sources code question :
  match status with
  | AdmNone => action = None /\ missing = []
  | AdmMissing => action <> None /\ missing <> []
  | AdmAdmitted => missing = [] /\ exists act x, action = Some act /\ evidenced act messages x /\ sources = [x.2] /\ argument_of act x.1 arguments
  | AdmMismatch => question <> None
  end ->
  exists d, decision rq messages status action missing arguments sources code question = Ok d /\ answers action d.
Proof.
  intros Hs. unfold decision. set (adm := mk_admission _ _ _ _ _ _ _ _ _).
  assert (validate_status_shape adm = Ok adm) as Hv.
  { unfold validate_status_shape. cbn [adm_scope_hash adm]. unfold _scope_hash. rewrite sha256_hex_shape. cbn [negb]. rewrite raise_if_false by done.
    subst adm. cbn [adm_status]. destruct status; cbn [adm_action_type missing_fields clarification_question].
    - destruct Hs as [-> ->]. done.
    - destruct Hs as [Ha Hm]. destruct action, missing; done.
    - destruct Hs as [-> (act & x & -> & _)]. done.
    - destruct question; done. }
  rewrite Hv. cbn [res_bind]. eexists. split; [done|]. split; cbn; [done..|exact Hv|]. intros ->. destruct Hs as [_ Hx]. exact Hx.
Qed.
Lemma mismatch_ok action code question : exists d, _mismatch rq messages action code question = Ok d /\ answers action d.
Proof. by apply decision_ok. Qed.
Lemma resolved_ok a field found :
  (forall args src, found = Some (args, src) -> exists x, evidenced a messages x /\ src = x.2 /\ argument_of a x.1 args) ->
  exists d, resolved rq messages a field found = Ok d /\ answers (Some a) d.
Proof.
  intros Hf. destruct found as [[args src]|]; apply decision_ok; [|done]. destruct (Hf args src eq_refl) as (x & He & -> & Ha).
  split; [done|]. exists a, x. done.
Qed.
Lemma resolve_refund_ok : exists d, resolve_refund rq messages = Ok d /\ answers (Some Refund) d.
Proof.
  unfold resolve_refund. destruct (billing_refs_ok messages Hh) as (refs & -> & Q). cbn [res_bind].
  assert (forall found : option field_match, (forall x, found = Some x -> quoted_in messages x) ->
    exists d, resolved rq messages Refund "billing_record_id" ((fun x : field_match => ([("billing_record_id", PyStr x.1)], x.2)) <$> found) = Ok d
              /\ answers (Some Refund) d) as Hadmit.
  { intros found Hf. apply resolved_ok. intros args src. destruct found as [x|]; [|done]. intros [= <- <-]. exists x.
    destruct (Hf x eq_refl) as (m & Hm & Qm). split_and!; [exists m; by split_and!|done|constructor]. }
  destruct refs as [|r [|r' l]]; [by apply Hadmit|apply Hadmit; intros x [= <-]; apply Q; by left|].
  destruct (relation_target_ok messages Hh) as (t & -> & Ht). cbn [res_bind]. destruct t as [x|]; [by apply Hadmit|apply mismatch_ok].
Qed.
Lemma resolve_key_ok ctx : exists d, resolve_key rq messages ctx = Ok d /\ answers (Some ApiKeyRevocation) d.
Proof.
  unfold resolve_key. destruct (field_matches_ok ApiKeyRevocation key_vocabulary _API_KEY_REF messages [O] ctx eq_refl Hh key_grouped) as (l & -> & Q).
  cbn [res_bind]. destruct (_unique_matches l "api_key_ref" true) as [|r [|r' l']] eqn:E; [by apply resolved_ok| |apply mismatch_ok].
  apply resolved_ok. intros args src [= <- <-]. exists r. split_and!; [|done|constructor].
  apply (evidenced_unique _ _ l "api_key_ref" true); [exact Q|]. rewrite E. by left.
Qed.
Lemma entitlement_targets_ok ctx :
  exists l, entitlement_targets messages (_action_field_spans entitlement_vocabulary messages ctx) = Ok l /\
    forall t src, (t, src) ∈ l -> exists x, evidenced EntitlementChange messages x /\ src = x.2 /\ argument_of EntitlementChange x.1 (change_arguments t).
Proof.
  unfold entitlement_targets.
  destruct (field_matches_ok EntitlementChange entitlement_vocabulary _CONCURRENCY_TARGET messages [1%nat] ctx eq_refl Hh concurrency_grouped) as (l1 & -> & Q1).
  destruct (field_matches_ok EntitlementChange entitlement_vocabulary _RPM_TARGET messages [1%nat; 2%nat] ctx eq_refl Hh rpm_grouped) as (l2 & -> & Q2).
  destruct (field_matches_ok EntitlementChange entitlement_vocabulary _PLAN_TARGET messages [1%nat; 2%nat] ctx eq_refl Hh plan_grouped) as (l3 & -> & Q3).
  cbn [res_bind]. eexists. split; [done|]. intros t src. rewrite !elem_of_app.
  intros [Hx|[Hx|Hx]]; apply list_elem_of_fmap in Hx as (x & [= -> ->] & Hx); exists x;
    (split_and!; [eapply evidenced_unique; [|exact Hx]; assumption|done|constructor]).
Qed.
Lemma resolve_entitlement_ok ctx : exists d, resolve_entitlement rq messages ctx = Ok d /\ answers (Some EntitlementChange) d.
Proof.
  unfold resolve_entitlement. destruct (entitlement_targets_ok ctx) as (l & -> & Q). cbn [res_bind].
  destruct (unique_by _ [] l) as [|[t src] [|y l']] eqn:E; [by apply resolved_ok| |apply mismatch_ok].
  destruct (match rq_requested_concurrency_limit rq with Some _ => _ | None => _ end); [apply mismatch_ok|].
  apply resolved_ok. intros args s [= <- <-]. apply Q. eapply unique_by_elem. rewrite E. by left.
Qed.
(** The plan is admitted only for the one action the messages ask for. *)
Lemma resolve_intents_ok trusted context :
  exists d act, resolve_intents rq messages trusted context = Ok d /\ answers act d /\
    (adm_status (av_admission d) = AdmAdmitted -> exists a, act = Some a /\ rq_requested_action rq = Some a /\
       rq_issue_type rq = Some (_ACTION_ISSUE_TYPE a) /\ _action_intents messages trusted context = [a]).
Proof.
  assert (forall action code question, exists d act, _mismatch rq messages action code question = Ok d /\ answers act d /\
    (adm_status (av_admission d) = AdmAdmitted -> exists a, act = Some a /\ rq_requested_action rq = Some a /\
       rq_issue_type rq = Some (_ACTION_ISSUE_TYPE a) /\ _action_intents messages trusted context = [a])) as Hmis.
  { intros action code question. destruct (mismatch_ok action code question) as (d & E & A). exists d, action. split_and!; [done..|].
    intros Hs. unfold _mismatch, decision in E. apply res_bind_ok in E as (x & Hv & [= <-]). cbn in Hs.
    unfold validate_status_shape in Hv. apply raise_if_ok in Hv as [_ Hv]. cbn [adm_status] in Hv. apply raise_if_ok in Hv as [_ [= <-]]. done. }
  unfold resolve_intents. destruct (_action_intents messages trusted context) as [|a [|b l]], (rq_requested_action rq) as [r|] eqn:Er; try apply Hmis.
  - destruct (decision_ok AdmNone None [] [] [] "no_high_risk_action" None) as (d & E & A); [done|]. exists d, None. split_and!; [done..|].
    intros Hs. destruct (an_admitted _ _ A Hs) as (? & ? & ? & _). done.
  - destruct (a !=? r) eqn:E1; [apply Hmis|]. destruct (rq_issue_type rq !=? _) eqn:E2; [apply Hmis|]. unfold neqb in E1, E2. to_prop. subst r.
    destruct a; [destruct resolve_refund_ok as (d & E & A)|edestruct resolve_key_ok as (d & E & A)|edestruct resolve_entitlement_ok as (d & E & A)];
      rewrite E; eexists d, _; (split_and!; [done|exact A|]); intros _; eexists; split_and!; done.
Qed.
End answers.

(** ** What asking for an action is *)

(** A clause that asks for a refund by itself. *)
Definition refund_clause (clause : string) : Prop :=
  search _REFUND_ACTION_NEGATED clause = false /\ search _REFUND_INFORMATIONAL clause = false /\
  (search _REFUND_ACTION clause = true \/ (search _DUPLICATE_CHARGE_ACTION clause = true /\ search _ACTION_REQUEST_CUE clause = true)).
Definition clause_at (content : string) (sp : nat * nat) : string := str_strip (text_of (code_points content) sp).
(** A clause that asks for the action of a vocabulary: clean, with the verb,
    and with a request of its own or, when it coordinates, that of another. *)
Record asking_clause (v : vocabulary) (content : string) (sp : nat * nat) : Prop := {
  ac_clause : sp ∈ _clause_spans content;
  ac_clean : clean v (clause_at content sp);
  ac_action : search (v_action v) (clause_at content sp) = true;
  ac_cue : search _ACTION_REQUEST_CUE (clause_at content sp) = true \/
    (search _ACTION_COORDINATED_CONTINUATION (clause_at content sp) = true /\
     exists sp', sp' ∈ _clause_spans content /\ search _ACTION_REQUEST_CUE (clause_at content sp') = true);
}.
Inductive asks (a : ActionType) (content : string) : Prop :=
| asks_refund_clause clause :
    a = Refund -> clause ∈ clauses (normalized_conversation_text content) -> refund_clause (str_strip clause) -> asks a content
| asks_refund_shorthand :
    a = Refund ->
    (forall clause, clause ∈ clauses (normalized_conversation_text content) ->
       search _REFUND_ACTION_NEGATED (str_strip clause) = false /\ search _REFUND_INFORMATIONAL (str_strip clause) = false) ->
    search _DUPLICATE_CHARGE_ACTION (normalized_conversation_text content) = true ->
    search _ACTION_REQUEST_CUE (normalized_conversation_text content) = true -> asks a content
| asks_clause v sp : vocabulary_of a = Some v -> asking_clause v content sp -> asks a content.

Lemma refund_clauses_spec dis l :
  match refund_clauses dis l with
  | (true, _) => exists c, c ∈ l /\ refund_clause (str_strip c)
  | (false, dis') => dis' = false -> forall c, c ∈ l ->
      search _REFUND_ACTION_NEGATED (str_strip c) = false /\ search _REFUND_INFORMATIONAL (str_strip c) = false
  end.
Proof.
  assert (forall l, refund_clauses true l = (false, false) -> False) as Hdis.
  { intros l0. induction l0 as [|c l' IH]; cbn [refund_clauses]; [by intros [=]|].
    destruct (search _REFUND_ACTION_NEGATED _); [apply IH|]. destruct (search _REFUND_INFORMATIONAL _); [apply IH|].
    destruct (search _REFUND_ACTION _); [by intros [=]|]. destruct (_ && _); [by intros [=]|apply IH]. }
  revert dis. induction l as [|c l' IH]; intros dis; cbn [refund_clauses]; [by intros _ c ?%elem_of_nil|].
  destruct (search _REFUND_ACTION_NEGATED (str_strip c)) eqn:En; [|destruct (search _REFUND_INFORMATIONAL (str_strip c)) eqn:Ei].
  1,2: specialize (IH true); destruct (refund_clauses true l') as [[|] dis'] eqn:E;
    [destruct IH as (x & Hx & Hr); exists x; split; [by right|done]|intros ->; by destruct (Hdis l')].
  destruct (search _REFUND_ACTION (str_strip c)) eqn:Ea; [exists c; split; [by left|]; split_and!; [done..|by left]|].
  destruct (search _DUPLICATE_CHARGE_ACTION (str_strip c) && search _ACTION_REQUEST_CUE (str_strip c)) eqn:Ed.
  { exists c. split; [by left|]. apply andb_true_iff in Ed. split_and!; [done..|by right]. }
  specialize (IH dis). destruct (refund_clauses dis l') as [[|] dis'].
  - destruct IH as (x & Hx & Hr). exists x. split; [by right|done].
  - intros Hd x. rewrite elem_of_cons. intros [->|Hx]; [done|by apply IH].
Qed.
Lemma refund_asks content : _refund_action_requested content = true -> asks Refund content.
Proof.
  unfold _refund_action_requested. destruct (is_empty_str _); [done|]. set (n := normalized_conversation_text content).
  pose proof (refund_clauses_spec false (clauses n)) as Hs. destruct (refund_clauses false (clauses n)) as [[|] dis].
  - intros _. destruct Hs as (c & Hc & Hr). by apply (asks_refund_clause _ _ c).
  - cbn. rewrite !andb_true_iff, negb_true_iff. intros [[-> Hd] Hcue]. apply asks_refund_shorthand; [done|by apply Hs|done|done].
Qed.
Lemma positive_clauses_spec v content prior spans sp :
  (forall x, x ∈ spans -> x ∈ _clause_spans content) ->
  (prior = true -> exists sp', sp' ∈ _clause_spans content /\ search _ACTION_REQUEST_CUE (clause_at content sp') = true) ->
  sp ∈ positive_clauses v (code_points content) prior spans -> asking_clause v content sp.
Proof.
  revert prior. induction spans as [|x spans IH]; intros prior Hsub Hprior; cbn [positive_clauses]; [by intros ?%elem_of_nil|].
  fold (clause_at content x). set (clause := clause_at content x).
  assert (x ∈ _clause_spans content) as Hx by (apply Hsub; by left).
  assert (forall y, y ∈ spans -> y ∈ _clause_spans content) as Hsub' by (intros; apply Hsub; by right).
  set (own := negb (is_empty_str clause) && search _ACTION_REQUEST_CUE clause).
  assert (own = true -> search _ACTION_REQUEST_CUE clause = true) as Hown by (by intros [_ Hc]%andb_true_iff).
  specialize (IH (prior || own) Hsub'). assert (prior || own = true -> exists sp', sp' ∈ _clause_spans content /\
    search _ACTION_REQUEST_CUE (clause_at content sp') = true) as Hprior'.
  { intros [Hp|Ho]%orb_true_iff; [by apply Hprior|]. exists x. split; [done|by apply Hown]. }
  specialize (IH Hprior'). destruct (_ && _ && (own || _)) eqn:E; [|exact IH]. rewrite elem_of_cons. intros [->|Hin]; [|by apply IH].
  rewrite !andb_true_iff, orb_true_iff, !negb_true_iff in E. destruct E as [(_ & (Hn & Hi) & Ha) Hcue].
  split; [done|by split|done|]. destruct Hcue as [Ho|Hc]; [left; by apply Hown|right].
  rewrite !andb_true_iff in Hc. destruct Hc as (_ & Hp & Hc). split; [done|by apply Hprior].
Qed.
Lemma explicit_asks a v content ctx :
  vocabulary_of a = Some v -> _explicit_action_requested v content ctx = true -> asks a content.
Proof.
  intros Hv. unfold _explicit_action_requested. rewrite negb_true_iff, is_nil_false. intros Hne.
  destruct (_positive_action_clause_spans v content ctx) as [|sp l] eqn:E; [done|]. apply (asks_clause _ _ v sp Hv).
  unfold _positive_action_clause_spans in E. destruct (_ || _); [done|].
  apply (positive_clauses_spec v content false (_clause_spans content)); [done|done|]. rewrite E. by left.
Qed.
Lemma requests_asks a content : requests a content = true -> asks a content.
Proof. destruct a; cbn; [apply refund_asks|by apply explicit_asks|by apply explicit_asks]. Qed.
Lemma continues_asks a current context : continues a current context = true -> asks a current.
Proof. destruct a; cbn; [done|..]; intros [_ Hr]%andb_true_iff; by eapply explicit_asks. Qed.
(** A single intent: some message asks for it, and none for another. *)
Lemma intents_ask messages trusted context a :
  _action_intents messages trusted context = [a] ->
  (exists m, m ∈ messages /\ asks a (am_content m)) /\
  forall b m, b <> a -> m ∈ messages -> requests b (am_content m) = false.
Proof.
  intros E. unfold _action_intents in E. set (f := fun b : ActionType => _) in E.
  assert (forall b, f b = true <-> b = a) as Hf.
  { intros b. assert (b ∈ action_types) as Hb by (destruct b; set_solver). split.
    - intros Hfb. assert (b ∈ List.filter f action_types) as Hin by (apply list_elem_of_In, filter_In; split; [by apply list_elem_of_In|done]).
      rewrite E in Hin. by apply list_elem_of_singleton in Hin.
    - intros ->. assert (a ∈ List.filter f action_types) as Hin by (rewrite E; by left). by apply list_elem_of_In, filter_In in Hin as [_ ?]. }
  split.
  - pose proof (proj2 (Hf a) eq_refl) as Ha. unfold f in Ha. apply orb_true_iff in Ha as [Hr|Hc].
    + apply existsb_exists in Hr as (m & Hm & Hr). exists m. split; [by apply list_elem_of_In|by apply requests_asks].
    + destruct (last messages) as [m|] eqn:El; [|done]. apply andb_true_iff in Hc as [_ Hc]. exists m.
      split; [|by eapply continues_asks]. apply last_Some in El as (l & ->). apply elem_of_app. right. by left.
  - intros b m Hne Hm. destruct (requests b (am_content m)) eqn:Er; [|done]. exfalso. apply Hne, Hf. unfold f. apply orb_true_iff. left.
    apply existsb_exists. exists m. split; [by apply list_elem_of_In|done].
Qed.

(** ** Reading the conversation *)
Definition hashable_roles (conversation : list pydict) : Prop := Forall (fun item => hashable (item.["role"]) = true) conversation.
Lemma accepted_from_ok i id conversation :
  hashable_roles conversation -> exists l, accepted_from i id conversation = Ok l /\ Forall hashed l.
Proof.
  intros Hc. revert i. induction Hc as [|item conversation Hr _ IH]; intros i; cbn [accepted_from]; [exists []; by split|].
  unfold customer_role. rewrite Hr. cbn [negb]. rewrite raise_if_false by done. cbn [res_bind]. destruct (IH (S i)) as (l & -> & Hl).
  cbn [res_bind]. eexists. split; [done|]. destruct (_ || _); [done|]. constructor; done.
Qed.
Lemma last_n_elem {A} n (l : list A) x : x ∈ last_n n l -> x ∈ l.
Proof. unfold last_n. intros Hx. eapply list_elem_of_In. rewrite <- (take_drop (length l - n) l). apply list_elem_of_In, elem_of_app. by right. Qed.
Lemma Forall_last_n {A} (P : A -> Prop) n l : Forall P l -> Forall P (last_n n l).
Proof. rewrite !Forall_forall. intros Hl x Hx. by apply Hl, (last_n_elem n). Qed.
Lemma last_last_n {A} n (l : list A) x : last (last_n (S n) (l ++ [x])) = Some x.
Proof.
  unfold last_n. rewrite length_app. cbn [length]. replace (length l + 1 - S n)%nat with (length l - n)%nat by lia.
  rewrite drop_app_le by lia. apply last_snoc.
Qed.
Lemma accepted_ok rq :
  hashable_roles (rq_conversation rq) ->
  exists accepted, _accepted_messages (rq_current_turn rq) (rq_current_message_id rq) (rq_conversation rq) = Ok accepted /\
    Forall hashed accepted /\ last accepted = Some (accepted_message (rq_current_message_id rq) (str_strip (rq_current_turn rq))).
Proof.
  intros Hc. destruct (accepted_from_ok 0 (rq_current_message_id rq) _ Hc) as (l & E & Hl). unfold _accepted_messages. rewrite E. cbn [res_bind].
  eexists. split; [done|]. split; [|apply last_last_n]. apply Forall_last_n, Forall_app. split; [done|]. by constructor.
Qed.
Lemma read_messages_ok rq accepted current :
  Forall hashed accepted -> last accepted = Some current ->
  exists messages, read_messages rq accepted current = Ok messages /\ forall m, m ∈ messages -> m ∈ accepted.
Proof.
  intros Hh Hl. unfold read_messages. assert (exists b, contextual_refund rq accepted current
    (_action_intents [current] (trusted_continuation rq accepted current) (continuation_context accepted)) = Ok b) as (b & ->).
  { unfold contextual_refund. destruct (_ && _); [|eauto].
    destruct (matches_ok _BILLING_ID (take 1 (last_n 2 accepted)) [O] None) as (l & -> & _); [|apply billing_grouped|intros; apply whole_spans|by eexists].
    apply Forall_take. by apply Forall_last_n. }
  cbn [res_bind]. eexists. split; [done|]. intros m. destruct b; [apply last_n_elem|]. destruct (_ || _); [|done].
  intros ->%list_elem_of_singleton. apply last_Some in Hl as (l & ->). apply elem_of_app. right. by left.
Qed.

Lemma accepted_from_hashed i id conversation l : accepted_from i id conversation = Ok l -> Forall hashed l.
Proof.
  revert i l. induction conversation as [|item conversation IH]; intros i l; cbn [accepted_from]; [by intros [= <-]|].
  intros Hr. apply res_bind_ok in Hr as (c & _ & Hr). apply res_bind_ok in Hr as (rest & E & [= <-]). apply IH in E.
  destruct (_ || _); [done|]. by constructor.
Qed.
Lemma accepted_hashed turn id conversation l :
  _accepted_messages turn id conversation = Ok l -> Forall hashed l /\ last l = Some (accepted_message id (str_strip turn)).
Proof.
  unfold _accepted_messages. intros Hr. apply res_bind_ok in Hr as (l0 & E%accepted_from_hashed & [= <-]). split; [|apply last_last_n].
  apply Forall_last_n, Forall_app. split; [done|]. by constructor.
Qed.
(** The resolution, once the conversation has been read. *)
Lemma resolution_ok rq accepted :
  _accepted_messages (rq_current_turn rq) (rq_current_message_id rq) (rq_conversation rq) = Ok accepted ->
  exists d act messages trusted context, resolve_action_admission_v2 rq = Ok d /\ (forall m, m ∈ messages -> m ∈ accepted) /\
    answers rq messages act d /\
    (adm_status (av_admission d) = AdmAdmitted -> exists a, act = Some a /\ rq_requested_action rq = Some a /\
       rq_issue_type rq = Some (_ACTION_ISSUE_TYPE a) /\ _action_intents messages trusted context = [a]).
Proof.
  intros Ha. destruct (accepted_hashed _ _ _ _ Ha) as [Hh Hl]. unfold resolve_action_admission_v2. rewrite Ha. cbn [res_bind]. rewrite Hl. cbn [from_option id].
  destruct (read_messages_ok rq accepted _ Hh Hl) as (messages & E & Hsub). rewrite E. cbn [res_bind].
  assert (Forall hashed messages) as Hhm by (rewrite Forall_forall in *; auto).
  destruct (resolve_intents_ok rq messages Hhm (trusted_continuation rq accepted (accepted_message (rq_current_message_id rq) (str_strip (rq_current_turn rq))))
              (continuation_context accepted)) as (d & act & E' & A & Hadm).
  exists d, act, messages. eexists _, _. split_and!; [exact E'|exact Hsub|exact A|exact Hadm].
Qed.

(** C23: an admitted action is the plan's, of the issue type that belongs to it;
    some accepted customer message asks for it in a clause that neither refuses
    nor only asks about it, and no message that was read asks for another
    action; its one argument is the text of an accepted message at the recorded
    span, with the digest of that message, and the key or target it names
    stands in a part of the message that is not negated. *)
Theorem admitted_action_authorised rq d accepted :
  _accepted_messages (rq_current_turn rq) (rq_current_message_id rq) (rq_conversation rq) = Ok accepted ->
  resolve_action_admission_v2 rq = Ok d -> adm_status (av_admission d) = AdmAdmitted ->
  exists a messages x,
    rq_requested_action rq = Some a /\ adm_action_type (av_admission d) = Some a /\ rq_issue_type rq = Some (_ACTION_ISSUE_TYPE a) /\
    source_message_ids d = map am_message_id messages /\ (forall m, m ∈ messages -> m ∈ accepted /\ am_content_hash m = sha256_hex (am_content m)) /\
    (exists m, m ∈ messages /\ asks a (am_content m)) /\
    (forall b m, b <> a -> m ∈ messages -> requests b (am_content m) = false) /\
    evidenced a messages x /\ field_sources d = [x.2] /\ argument_of a x.1 (extracted_arguments (av_admission d)).
Proof.
  intros Ha Hr Hs. destruct (resolution_ok rq accepted Ha) as (d' & act & messages & trusted & context & E & Hsub & A & Hadm).
  assert (d' = d) as -> by congruence. destruct (Hadm Hs) as (a & -> & Hreq & Hissue & Hint). destruct (an_admitted _ _ _ _ A Hs) as (a' & x & [= <-] & Hx & Hf & Harg).
  destruct (intents_ask _ _ _ _ Hint) as [Hask Hother]. destruct (accepted_hashed _ _ _ _ Ha) as [Hh _]. rewrite Forall_forall in Hh.
  exists a, messages, x. split_and!; [done|apply A|done|apply A| |done|done|done|done|done].
  intros m Hm. split; [by apply Hsub|by apply Hh, Hsub].
Qed.

(** The cross-check always comes to a decision, whatever the plan and the
    texts are: it raises only for a role that cannot be hashed, and its result
    has the shape its status demands. *)
Theorem resolution_total rq :
  hashable_roles (rq_conversation rq) ->
  exists d, resolve_action_admission_v2 rq = Ok d /\ validate_status_shape (av_admission d) = Ok (av_admission d) /\
    planned_action d = rq_requested_action rq.
Proof.
  intros Hc. destruct (accepted_ok rq Hc) as (accepted & Ha & _). destruct (resolution_ok rq accepted Ha) as (d & act & messages & t & c & E & _ & A & _).
  exists d. split_and!; [done|apply A|apply A].
Qed.

(** *** Old turns *)
Definition with_conversation (conversation : list pydict) (rq : admission_request) : admission_request :=
  mk_request (rq_current_turn rq) conversation (rq_requested_action rq) (rq_issue_type rq) (rq_tenant_id rq) (rq_customer_id rq)
    (rq_current_message_id rq) (rq_turn_group_id rq) (rq_classification_version rq) (rq_requested_concurrency_limit rq) (rq_continuation_action rq).
Lemma last_n_idem {A} n (l : list A) : last_n n (last_n n l) = last_n n l.
Proof. unfold last_n. rewrite drop_drop, length_drop. f_equal. lia. Qed.
Lemma context_recent accepted : continuation_context accepted = continuation_context (last_n 2 accepted).
Proof.
  unfold continuation_context, last_n. destruct accepted as [|x l _] using rev_ind; [done|]. destruct l as [|y l _] using rev_ind; [done|].
  replace (length ((l ++ [y]) ++ [x]) - 2)%nat with (length l) by (rewrite !length_app; cbn; lia).
  rewrite <- app_assoc, drop_app_length. rewrite reverse_app. done.
Qed.
Lemma last_recent {A} (l : list A) : last l = last (last_n 2 l).
Proof.
  destruct l as [|x l _] using rev_ind; [done|]. by rewrite last_last_n, last_snoc.
Qed.
Lemma several_recent {A} (l : list A) : Nat.ltb 1 (length l) = Nat.ltb 1 (length (last_n 2 l)).
Proof. unfold last_n. rewrite length_drop. destruct (length l) as [|[|n]]; [done..|]. cbn [Nat.sub]. rewrite Nat.sub_0_r. symmetry. apply Nat.ltb_lt. lia. Qed.
Lemma read_recent rq accepted current :
  continued rq = false -> read_messages rq accepted current = read_messages rq (last_n 2 accepted) current.
Proof.
  intros Hc. unfold read_messages, trusted_continuation, contextual_refund.
  rewrite last_n_idem, <- (context_recent accepted), <- (several_recent accepted), Hc. by rewrite orb_true_r.
Qed.
(** C24: unless the runtime continues the action the plan asks for, turns before
    the last two accepted ones are without influence: conversations that agree
    on those get the same decision. *)
Theorem stale_turns_ignored rq conversation accepted accepted' :
  _accepted_messages (rq_current_turn rq) (rq_current_message_id rq) (rq_conversation rq) = Ok accepted ->
  _accepted_messages (rq_current_turn rq) (rq_current_message_id rq) conversation = Ok accepted' ->
  continued rq = false -> last_n 2 accepted = last_n 2 accepted' ->
  resolve_action_admission_v2 (with_conversation conversation rq) = resolve_action_admission_v2 rq.
Proof.
  intros Ha Ha' Hc Hlast. unfold resolve_action_admission_v2. cbn [with_conversation rq_current_turn rq_current_message_id rq_conversation].
  rewrite Ha, Ha'. cbn [res_bind]. rewrite (last_recent accepted), (last_recent accepted'), Hlast.
  set (current := default _ _).
  change (read_messages (with_conversation conversation rq)) with (read_messages rq).
  change (resolve_intents (with_conversation conversation rq)) with (resolve_intents rq).
  change (trusted_continuation (with_conversation conversation rq)) with (trusted_continuation rq).
  rewrite (read_recent rq accepted current Hc), (read_recent rq accepted' current Hc).
  unfold trusted_continuation. by rewrite (context_recent accepted), (context_recent accepted'), Hlast.
Qed.

Lemma quota_change_validated n :
  validate_entitlement_target "quota_change" (PyDict [("concurrency_limit", PyInt n)]) =
  if bool_decide (1 <= n <= 100000) then Ok [("concurrency_limit", PyInt n)] else Err (ValidationError "integer bound").
Proof.
  unfold validate_entitlement_target. replace ("quota_change" ==? "quota_change") with true by reflexivity.
  unfold QuotaChangeTarget. rewrite raise_if_false by reflexivity. cbn [dget]. rewrite decide_False by done. cbn [strict_int_field res_bind].
  rewrite decide_True by done. cbn [strict_int_field]. case_bool_decide as E.
  - rewrite raise_if_false by (apply orb_false_iff; rewrite !Z.ltb_ge; lia). reflexivity.
  - rewrite raise_if_true; [done|]. apply orb_true_iff. rewrite !Z.ltb_lt. lia.
Qed.

(** The fields a refund or a key revocation needs are there, if one is asked for. *)
Definition earlier_fields_present (history current : string) : Prop :=
  (refund_intent history current = true -> search _BILLING_ID (continuation_surface history current) = true) /\
  (key_intent history current = true -> search _API_KEY_REF (continuation_surface history current) = true).

(** The check for missing fields raises exactly when it comes to an
    entitlement request (asked for now, or earlier with a number now; a refund
    or key request in the same texts has its identifier) and the first
    concurrency target in the customer's recent messages and this turn,
    oldest first, is outside 1 to 100000.  Otherwise it returns.  Nothing
    between the check and the intake node of the agent graph catches the error. *)
Theorem target_out_of_range_raises current conversation history :
  _customer_history conversation = Ok history ->
  let turn := str_strip current in
  let raises := earlier_fields_present history turn /\ entitlement_intent history turn = true /\
    exists value, first_group _CONCURRENCY_TARGET (continuation_surface history turn) 1 = Some value /\ ~ (1 <= int_of_digits value <= 100000) in
  (resolve_missing_action_preconditions current conversation = Err (ValidationError "integer bound") <-> raises) /\
  ((exists r, resolve_missing_action_preconditions current conversation = Ok r) <-> ~ raises).
Proof.
  intros Hh turn raises. unfold resolve_missing_action_preconditions. rewrite Hh. cbn [res_bind]. fold turn.
  match goal with |- (?x = _ <-> _) /\ _ => set (r := x) end.
  assert ((raises /\ r = Err (ValidationError "integer bound")) \/ (~ raises /\ exists o, r = Ok o)) as Hcase.
  2: { clearbody r. destruct Hcase as [[Hr ->]|[Hr [o ->]]]; (split; split); intros Hx; try done; try (by destruct Hx); eauto. }
  unfold r, raises, earlier_fields_present. clear r raises.
  destruct (refund_intent history turn && _) eqn:E1.
  { right. to_prop. split; [|eauto]. intros [[Hb _] _]. destruct E1 as [E1 E1']. specialize (Hb E1). congruence. }
  destruct (key_intent history turn && _) eqn:E2.
  { right. to_prop. split; [|eauto]. intros [[_ Hk] _]. destruct E2 as [E2 E2']. specialize (Hk E2). congruence. }
  destruct (entitlement_intent history turn); [|right; split; [intros (_ & ? & _); done|eauto]].
  destruct (first_group _ _ _) as [value|]; [|right; split; [intros (_ & _ & v & ? & _); done|eauto]].
  rewrite quota_change_validated. case_bool_decide as Hv; cbn [res_bind].
  - right. split; [|rewrite raise_if_false by done; eauto]. intros (_ & _ & v & [= <-] & Hn). done.
  - left. split; [|done]. split; [|eauto]. apply andb_false_iff in E1, E2. rewrite !negb_false_iff in *.
    split; intros Hi; [destruct E1|destruct E2]; congruence.
Qed.
End proofs.

(** ** Witnesses *)
Definition said (id text : string) : pydict := [("role", PyStr "customer"); ("id", PyStr id); ("content", PyStr text)].
Definition demo_turn : string := "please do not revoke key_old1, please revoke key_new1".
Definition demo_request : admission_request :=
  mk_request demo_turn [said "m0" "i want a refund of bill_z9"; said "m1" "hello"] (Some ApiKeyRevocation) (Some "credential_security")
    "t1" "c1" "m2" "g1" "classification.v1" None None.
#[local] Existing Instances ascii_runtime ascii_unicode ascii_digits.
Definition demo_messages : list _AcceptedMessage :=
  match _accepted_messages demo_turn "m2" (rq_conversation demo_request) with Ok l => l | Err _ => [] end.
Definition demo_admission : AdmissionDecision :=
  match resolve_action_admission_v2 demo_request with
  | Ok d => d
  | Err _ => mk_decision_v2 (mk_admission AdmNone None [] [] None "" "" "" None) None None [] [] "" "" "" ""
  end.
Lemma admitted_action_authorised_witness :
  exists messages x, (exists m, m ∈ messages /\ asks ApiKeyRevocation (am_content m)) /\ evidenced ApiKeyRevocation messages x /\
    argument_of ApiKeyRevocation x.1 [("api_key_ref", PyStr "key_new1")].
Proof.
  destruct (admitted_action_authorised demo_request demo_admission demo_messages) as (a & messages & x & Hr & _ & _ & _ & _ & Hm & _ & He & _ & Harg).
  - vm_compute. reflexivity.
  - vm_compute. reflexivity.
  - vm_compute. reflexivity.
  - injection Hr as <-. exists messages, x. split; [exact Hm|]. split; [exact He|].
    assert (extracted_arguments (av_admission demo_admission) = [("api_key_ref", PyStr "key_new1")]) as E by (vm_compute; reflexivity).
    rewrite <- E. exact Harg.
Defined.
Lemma resolution_total_witness : exists d, resolve_action_admission_v2 demo_request = Ok d /\ planned_action d = Some ApiKeyRevocation.
Proof.
  destruct (resolution_total demo_request) as (d & E & _ & Hp); [repeat (apply Forall_cons; split; [reflexivity|]); apply Forall_nil; exact I|].
  exists d. split; [exact E|exact Hp].
Defined.
Lemma stale_turns_ignored_witness :
  resolve_action_admission_v2 (with_conversation [said "m1" "hello"] demo_request) = resolve_action_admission_v2 demo_request.
Proof.
  apply (stale_turns_ignored demo_request [said "m1" "hello"] demo_messages
           (match _accepted_messages demo_turn "m2" [said "m1" "hello"] with Ok l => l | Err _ => [] end)); vm_compute; reflexivity.
Defined.
Definition too_low : string := "please set the concurrency limit to 0".
Lemma target_out_of_range_raises_witness :
  resolve_missing_action_preconditions too_low [] = Err (ValidationError "integer bound") /\
  exists r, resolve_missing_action_preconditions too_low [said "m0" "please set the concurrency limit to 40"] = Ok r.
Proof.
  split.
  - apply (target_out_of_range_raises too_low [] ""); [vm_compute; reflexivity|]. split; [split; vm_compute; discriminate|].
    split; [vm_compute; reflexivity|]. exists "0". split; [vm_compute; reflexivity|]. vm_compute. intros [Hx _]. exact (Hx eq_refl).
  - apply (target_out_of_range_raises too_low [said "m0" "please set the concurrency limit to 40"] "please set the concurrency limit to 40");
      [vm_compute; reflexivity|]. intros (_ & _ & value & E & Hn). vm_compute in E. injection E as <-. apply Hn. vm_compute. split; discriminate.
Defined.
(** A coordinating clause inherits the request of an earlier one: the second
    clause has no request of its own, yet authorises the revocation. *)
Example coordinated_clause :
  _positive_action_clause_spans key_vocabulary "please keep my api key, and revoke key_ab12" false = [(23, 43)]%nat /\
  search _ACTION_REQUEST_CUE "and revoke key_ab12" = false.
Proof. split; vm_compute; reflexivity. Qed.
