(* ===== verification/Responses.v ===== *)
(** * Customer-visible answers (agent/responses.py)

    The texts the runtime publishes itself: the confirmation of a pending or an
    executed action, the explanation of a terminal business outcome, and the safe
    answers of a run that could not be completed.  None of them contains text of
    the language model. *)
From Stdlib Require Import Ascii.
From S2P Require Import Prelude PyValue CanonicalJson ActionSpecs Obligations PyText.
Local Open Scope string_scope.
Local Open Scope list_scope.
Local Open Scope Z_scope.

Record TerminalOutcomeRendering := mk_rendering { rendered_answer : string; rendered_claim : option string }.

Definition safe_resource (resource_id : string) : string :=
  if _SAFE_RESOURCE_REF resource_id then resource_id else "当前资源".

Definition render_pending_action_confirmation (action_type resource_id : string) : string :=
  let safe := safe_resource resource_id in
  if action_type ==? "refund" then
    "账单 " +:+ safe +:+ " 已核验为重复扣费，退款申请已提交独立人工审批；审批完成前不会执行退款，你仍可继续提问。"
  else if action_type ==? "api_key_revocation" then
    "API Key " +:+ safe +:+ " 的撤销申请已提交独立人工审批；审批完成前不会执行撤销，你仍可继续提问。"
  else if action_type ==? "entitlement_change" then
    "订阅 " +:+ safe +:+ " 的变更申请已提交独立人工审批；审批完成前不会执行变更，你仍可继续提问。"
  else "高风险操作已提交独立人工审批；审批完成前不会执行任何变更。".

(** A limit that may be shown: an [int], no [bool], at most a million. *)
Definition shown_limit (v : pyval) : option Z :=
  match v with
  | PyInt z => if (0 <=? z) && (z <=? 1000000) then Some z else None
  | _ => None
  end.
Definition shown_name (v : pyval) : option string :=
  match v with
  | PyStr s => if _SAFE_RESOURCE_REF s then Some s else None
  | _ => None
  end.
(** The loop over the two limits: the first one that can be shown. *)
Fixpoint limit_update (safe : string) (before after : pydict) (fields : list (string * string)) : option string :=
  match fields with
  | [] => None
  | (field, label) :: fields =>
      match shown_limit (after.[field]) with
      | Some proposed =>
          Some (match shown_limit (before.[field]) with
                | Some current =>
                    "订阅 " +:+ safe +:+ " 的" +:+ label +:+ "已经安全地从 " +:+ str_of_Z current +:+ " 调整为 " +:+ str_of_Z proposed +:+ "。"
                | None => "订阅 " +:+ safe +:+ " 的" +:+ label +:+ "已经安全地调整为 " +:+ str_of_Z proposed +:+ "。"
                end)
      | None => limit_update safe before after fields
      end
  end.
Definition entitlement_update (safe : string) (before after : pydict) : option string :=
  match limit_update safe before after [("concurrency_limit", "并发上限"); ("rpm_limit", "RPM 上限")] with
  | Some text => Some text
  | None =>
      match shown_name (after.["plan"]) with
      | Some plan =>
          Some (match shown_name (before.["plan"]) with
                | Some current => "订阅 " +:+ safe +:+ " 的套餐已经安全地从 " +:+ current +:+ " 调整为 " +:+ plan +:+ "。"
                | None => "订阅 " +:+ safe +:+ " 的套餐已经安全地调整为 " +:+ plan +:+ "。"
                end)
      | None => None
      end
  end.
Definition render_executed_action_update (action_type resource_id : string) (result : pydict) : string :=
  let safe := safe_resource resource_id in
  if action_type ==? "refund" then
    match result.["amount"], result.["currency"] with
    | PyStr amount, PyStr currency =>
        if _SAFE_AMOUNT amount && _SAFE_CURRENCY currency then
          "账单 " +:+ safe +:+ " 的退款已经安全执行完成，退款金额为 " +:+ amount +:+ " " +:+ currency +:+ "，账单状态已更新。"
        else "账单 " +:+ safe +:+ " 的退款已经安全执行完成，账单状态已更新。"
    | _, _ => "账单 " +:+ safe +:+ " 的退款已经安全执行完成，账单状态已更新。"
    end
  else if action_type ==? "api_key_revocation" then "API Key " +:+ safe +:+ " 已安全吊销，旧密钥不再可用。"
  else if action_type ==? "entitlement_change" then
    let generic := "订阅 " +:+ safe +:+ " 的套餐或配额变更已经安全执行完成。" in
    match result.["after"] with
    | PyDict after => default generic (entitlement_update safe (as_dict (result.["before"])) after)
    | _ => generic
    end
  else "操作已经安全执行完成。".

Section responses.
Context `{PyRuntime}.

Definition _public_value (value : pyval) (fallback : string) : string :=
  let normalized := py_take 128 (String.concat " " (words (py_str value))) in
  if is_empty_str normalized then fallback else normalized.

Definition unchanged : string := "本次没有创建审批，也没有执行任何变更。".

(** The explanation of a terminal outcome, by its registered message key. *)
Definition render_terminal_business_outcome (outcome : TerminalBusinessOutcome) : res TerminalOutcomeRendering :=
  let facts := observed_facts outcome in
  let ref := _public_value
    (py_or (match out_resource_ref outcome with Some r => PyStr r | None => PyNone end)
       (py_or (facts.["billing_record_id"]) (py_or (facts.["api_key_id"]) (facts.["subscription_id"])))) "当前资源" in
  let status := _public_value (facts.["status"]) "不可操作" in
  let key := out_message_key outcome in
  let plain answer := Ok (mk_rendering answer None) in
  let claimed claim rest := Ok (mk_rendering (claim +:+ rest) (Some claim)) in
  if key ==? "refund_resource_not_available" then
    plain ("我在当前账户范围内无法定位账单 " +:+ ref +:+ "。请核对 Billing ID 后重试；" +:+ unchanged)
  else if key ==? "refund_status_not_actionable" then
    claimed ("账单 " +:+ ref +:+ " " +:+ (if status ==? "refunded" then "已经退款" else "当前状态为 " +:+ status) +:+ "。")
      ("因此不会再次创建退款申请。如果你要查询退款到账进度，可以继续提供支付渠道或退款时间；" +:+ unchanged)
  else if key ==? "refund_duplicate_relation_unconfirmed" then
    claimed ("账单 " +:+ ref +:+ " 的当前记录未显示可用于自动退款的重复扣费关系。")
      ("请核对原始账单和疑似重复账单的 Billing ID 后继续；" +:+ unchanged)
  else if key ==? "api_key_resource_not_available" then
    plain ("我在当前账户范围内无法定位 API Key 引用 " +:+ ref +:+ "。请只核对 Key Reference，不要发送完整密钥；" +:+ unchanged)
  else if key ==? "api_key_status_not_actionable" then
    claimed ("API Key " +:+ ref +:+ " "
             +:+ (if status in? ["revoked"; "disabled"; "inactive"] then "已经撤销" else "当前状态为 " +:+ status) +:+ "。")
      ("因此不会创建重复撤销申请。如需恢复调用，请创建并安全分发新的 Key；" +:+ unchanged)
  else if key ==? "subscription_resource_not_available" then
    plain ("我在当前账户范围内无法定位可变更的订阅。请先核对账户与订阅状态；" +:+ unchanged)
  else if key ==? "subscription_status_not_actionable" then
    claimed ("订阅 " +:+ ref +:+ " 当前状态为 " +:+ status +:+ "。")
      ("该状态暂不允许提交配额或套餐变更。请先恢复或核对订阅状态；" +:+ unchanged)
  else if key ==? "entitlement_target_unsupported" then
    claimed ("订阅 " +:+ ref +:+ " 当前未发布 " +:+ _public_value (facts.["requested_change_type"]) "未知" +:+ " 这一变更能力。")
      ("请改为账户已发布的配额或套餐变更类型；" +:+ unchanged)
  else if key ==? "entitlement_target_noop" then
    let requested := match find_first (fun kv => String.prefix "requested_target_" kv.1) facts with
                     | Some kv => _public_value kv.2 "未知"
                     | None => "当前值"
                     end in
    claimed ("订阅 " +:+ ref +:+ " 的当前配置已经是请求值 " +:+ requested +:+ "。")
      ("无需创建重复变更申请。如需调整，请提供不同的目标值；" +:+ unchanged)
  else Err (ValueError "unknown terminal business outcome message key").
End responses.

(** ** Safe answers *)
Definition safe_failure_answer (reason : string) (missing_groups : list string) (failure_domain : option string) : string :=
  let missing := String.concat "、" missing_groups in
  if (match failure_domain with Some d => d ==? "knowledge" | None => false end && ((reason in? ["tool_failed"; "tool_timeout"; "tool_unavailable"; "obligation_hard_failure"; "mcp_rehandshake_failed"; "read_capability_failed"; "tool_transport_budget_exhausted"]) || (str_contains "retry_exhausted" reason))) then
    "产品知识查询暂时不可用，因此我现在不能可靠回答这项产品能力、限制或文档事实。本次没有创建审批，也没有执行任何变更。请稍后重试，或查阅对应产品的正式文档；如果仍无法确认，请联系产品支持。"
  else if (reason ==? "human_handoff_unavailable") then
    "我已检查当前请求，但 SupportGuard 目前没有可接收并回复消息的人工坐席闭环，因此不会把这次请求标记为“有人正在处理”。本次没有创建人工队列或操作审批，也没有执行任何变更。请继续说明具体产品、资源引用或错误现象，我会在当前自动支持范围内继续核验。"
  else if (reason ==? "evidence_conflict") then
    "我已检查当前可用资料，但发现支持结论的已发布证据存在冲突，因此现在不能安全给出确定结论。本次没有创建人工队列或操作审批，也没有执行任何变更。请补充你使用的产品版本和发生时间，或在资料更新后重新查询。"
  else if (reason ==? "comparison_evidence_incomplete") then
    "我已检查当前版本与历史版本资料，但没有同时获得两组可追溯的已发布证据，因此现在不能可靠说明版本差异。本次没有创建审批，也没有执行任何变更。请明确产品名称和要比较的两个版本后重试；如果版本号未知，可以说明大致时间。"
  else if (reason in? ["comparison_citation_incomplete"; "comparison_transition_incomplete"]) then
    "我已取得当前版本与历史版本资料，但本次答复没有完整覆盖两组来源及其中的关键变化，因此不会把不完整的版本对比直接提供给你。本次没有创建审批，也没有执行任何变更。请保留当前问题后重试，我会重新核验并给出包含版本差异和对应依据的答复。"
  else if (reason ==? "action_state_unavailable") then
    "我已收到这条消息，但暂时无法从当前记录中确认相关申请的状态，因此不会猜测它是否已批准或执行。本次没有创建新的人工队列或操作审批，也没有执行任何变更。请稍后刷新后重试，或在下一条消息中附上对应资源引用。"
  else if (reason ==? "needs_clarification") then
    "我还缺少能唯一定位当前问题的信息。请补充你正在使用的产品或版本、要核验的资源引用，或完整错误现象；只有在问题确实来自某次 API 请求时，Request ID 和发生时间才有帮助。在确认前不会创建审批或执行任何变更。"
  else if (reason in? ["provider_decision_invalid"; "provider_terminal_schema_invalid"]) then
    "本次分析结果不完整，暂时不能据此给出可靠结论。本次没有创建审批，也没有执行任何变更。请稍后重试；如果问题持续出现，请保留当前问题和资源引用后重新发送。"
  else if (reason ==? "provider_failed") then
    "本次分析服务暂时不可用，尚未执行任何操作，也没有创建审批。请稍后重试；你已经提供的产品和资源信息会保留在当前对话中。"
  else if (reason ==? "credential_redaction_guidance") then
    "出于安全考虑，我已隐藏你提交的完整密钥，也不会要求你再次发送。请立即在提供商控制台禁用或撤销该密钥并完成轮换，从代码、日志和共享记录中移除旧值，同时检查近期调用记录。如需继续核验，请只提供不含密钥内容的 Key Reference。"
  else if (reason ==? "tool_failed") then
    "我已尝试核验与你的问题相关的当前业务状态，但读取服务暂时没有返回可验证结果。因此现在不能确认实时状态；本次没有创建审批，也没有执行任何变更。请稍后重试；如果你在查询某个账单、Key 或订阅，请核对对应资源引用。"
  else if (reason ==? "tool_timeout") then
    "我已尝试查询与你的问题相关的当前业务状态，但查询在限定时间内没有完成，因此现在不能确认实时状态。本次没有创建审批，也没有执行任何变更。请稍后使用同一资源引用重试；若问题来自一次 API 请求，再补充 Request ID 和发生时间。"
  else if (reason ==? "tool_unavailable") then
    "我已尝试查询与你的问题相关的当前业务状态，但查询服务目前不可用，因此现在不能确认实时状态。本次没有创建审批，也没有执行任何变更。请稍后重试，并保留当前账单、Key 或订阅的完整资源引用。"
  else if (reason ==? "tool_output_schema_invalid") then
    "我已收到业务状态查询结果，但它没有通过完整性校验，因此不能把其中内容当作可靠业务信息。本次没有创建审批，也没有执行任何变更。请稍后使用同一资源引用重试；系统会重新读取，而不会沿用这次无效结果。"
  else if (reason ==? "obligation_hard_failure") then
    "我已检查本轮自动处理所需的只读事实，但其中至少一项没有通过可靠性校验，因此当前无法确认结论。本次没有创建审批，也没有执行任何变更。请核对资源引用后重试；如果问题持续出现，请保留当前资源引用和发生时间。"
  else if ((reason in? ["mcp_rehandshake_failed"; "read_capability_failed"; "tool_transport_budget_exhausted"]) || (str_contains "retry_exhausted" reason)) then
    "我已尝试读取与你的问题相关的当前业务事实，但该读取能力在有限重试后仍不可用。目前无法确认实时状态；本次没有创建审批，也没有执行任何变更。请稍后重试。只有当问题确实来自一次 API 请求时，再补充 Request ID、发生时间和区域。"
  else if (reason ==? "billing_scope_violation") then
    "我已核对当前登录账户，但在当前账户中找不到或无法访问这条账单记录。为保护账户隔离，这不代表该资源在其他账户中存在；本次已停止读取，没有创建审批，也没有执行变更。请检查账单编号，并确认当前登录账户是否正确；如仍需访问，请通过正式管理员授权流程处理。"
  else if (reason in? ["ticket_scope_violation"; "cross_tenant_argument"; "cross_tenant_observation"; "observation_scope_mismatch"; "forbidden_surface"; "forbidden_tool_surface"]) then
    "我已核对当前登录账户的访问范围，但无法在该范围内安全验证你提到的资源。这不代表该资源在其他账户中存在；本次已停止读取，没有创建审批，也没有执行变更。请确认当前账户和资源引用，或通过正式管理员授权流程处理访问范围。"
  else if (reason in? ["semantic_no_progress"; "tool_not_allowlisted"]) then
    "我已检查当前可用的知识和业务来源，但没有获得能继续推进的新增事实。因此不会猜测结论；本次没有创建审批，也没有执行任何变更。请明确你要确认的结论，并补充相关产品版本或资源引用；若是一次 API 请求失败，再补充 Request ID 和发生时间。"
  else if (reason ==? "proposal_not_durable") then
    "本次未能形成可验证的操作申请，因此没有进入审批，也没有执行任何变更。请稍后重试；系统只会在申请记录完整保存后显示待审批状态。"
  else if (reason ==? "citation_binding_incomplete") then
    "我已检查当前证据，但结论与可追溯来源的绑定没有通过完整校验，因此不会发布未经支持的回答。本次没有创建人工队列或操作审批，也没有执行任何变更。请缩小到一个具体问题后重试，或补充产品版本、资源引用和发生时间。"
  else if (reason ==? "mixed_account_applicability_incomplete") then
    "我已查到相关产品要求，但本次答复没有同时完成当前账户事实的可追溯核验，因此现在不能判断你的账户是否满足这些要求。本次没有创建审批，也没有执行任何变更。请稍后在当前对话中重试，我会重新核对产品资料与账户状态。"
  else if (reason ==? "explicit_current_fact_incomplete") then
    "我已读取当前账户的相关业务状态，但本次答复没有把你明确询问的每一项当前值都与对应来源完整绑定，因此不会用缺项或历史信息补齐结论。本次没有创建审批，也没有执行任何变更。请稍后在当前对话中重试，系统会重新核对这些实时字段。"
  else if (reason ==? "proposal_eligibility_failed") then
    "相关事实已完成部分核验，但操作申请所需的证据或资源绑定没有通过校验。本次没有创建审批，也没有执行变更；请核对资源信息后重试。"
  else if (reason in? ["insufficient_evidence"; "no_progress"]) then
    (if is_empty_str missing then "当前事实还不足以支持确定结论。" else "目前还缺少：" +:+ missing +:+ "。")
    +:+ "本次没有创建审批，也没有执行任何操作。请补充与当前问题直接相关的产品版本、资源引用或期望结论后继续。"
  else if (reason ==? "context_budget_exhausted") then
    "我已收到并保留这条消息，但当前问题与必须保留的最近上下文合在一起过长，本轮无法在不丢失关键含义的情况下可靠处理。本次没有创建人工队列或操作审批，也没有执行任何变更。请把问题拆成一个目标，并保留相关产品名或资源引用后重试。"
  else if (str_contains "budget" reason) then
    "我已完成本轮可用范围内的检查，但仍无法安全确认结论。本次没有创建审批，也没有执行任何操作；请把问题拆成一个明确目标后继续，或稍后重试。"
  else if (reason ==? "out_of_scope") then
    "我无法提供天气、新闻等外部通用信息，因为这个请求不在 SupportGuard 的产品支持范围内；因此没有调用业务工具或执行任何操作。你可以继续询问产品能力、请求诊断、计费、API Key 或配额问题。"
  else if (reason ==? "prohibited") then
    "为保护账户与租户数据，我不能访问、导出或操作其他客户的资源，也不能根据对话中的权限声明绕过现行安全策略或独立审批。本次请求已安全拒绝，没有调用业务工具、创建操作提案或执行变更。你可以继续询问当前账户下的资源，或通过正式的管理员授权流程处理权限问题。"
  else if (reason ==? "rejected") then
    "本轮没有形成可验证的支持结论，也没有调用写入能力或执行任何变更。你可以换一种方式描述当前问题，或补充相关产品、错误码和资源引用后继续。"
  else if (reason ==? "requested_action_unresolved") then
    "我已识别到你的操作请求，但当前证据尚未形成可安全提交的操作申请。本次没有创建审批，也没有执行任何变更；请核对资源引用后继续。"
  else if (reason in? ["binding_stale"; "logical_degradation"]) then
    "审批后的资源状态已经变化，系统已停止执行以避免使用过期信息。没有重复执行操作；请重新核验后创建新的申请。"
  else "本轮未能完成可靠核验，且没有执行任何操作。请稍后重试，或补充与当前问题直接相关的产品版本、资源引用或错误现象后继续。".

Definition safe_clarification_answer (question : option string) : string :=
  let normalized := String.concat " " (words (default "" question)) in
  if is_empty_str normalized || (500 <? py_len normalized) then safe_failure_answer "needs_clarification" [] None
  else normalized +:+ String "010"%char "在你补充这些信息前，我不会创建审批，也不会执行任何变更。".

Definition safe_applicability_condition_answer (conditions : list string) : string :=
  "关于 " +:+ String.concat "、" (fromkeys conditions) +:+
  " 的上下文限制或能力适用性，当前可用证据没有形成可直接确认该条件的完整结论，因此我不能断言它与其他区域或套餐完全相同。请核对该区域或套餐对应的正式兼容性资料后重试；本次没有创建审批，也没有执行任何变更。".

(** ** Properties *)
Section properties.
Context `{PyRuntime}.

Lemma contains_self p : str_contains p p = true.
Proof. apply str_contains_here. pose proof (prefix_append p "") as Hp. by rewrite append_nil in Hp. Qed.

(** A key the registry allows is rendered, with the statement that nothing was
    created or changed; a claim opens the answer. *)
Lemma outcome_rendered outcome :
  out_message_key outcome ∈ terminal_outcome_message_keys ->
  exists r, render_terminal_business_outcome outcome = Ok r /\ str_contains unchanged (rendered_answer r) = true /\
    forall claim, rendered_claim r = Some claim -> exists rest, rendered_answer r = claim +:+ rest.
Proof.
  intros Hk. unfold render_terminal_business_outcome.
  repeat match goal with
  | |- exists r, (if ?b then _ else _) = _ /\ _ => let E := fresh in destruct b eqn:E
  end.
  all: try (eexists; split; [reflexivity|]; cbn [rendered_answer rendered_claim]; split;
            [repeat (apply contains_self || apply str_contains_right)|intros claim Hc; (discriminate Hc || (injection Hc as <-; eauto))]).
  exfalso. unfold terminal_outcome_message_keys in Hk. rewrite !eqb_false in *. set_solver by congruence.
Qed.

Lemma ledger_outcome_key spec a obs run bs at_ now clock l outcome :
  evaluate_action_obligations spec a obs run bs at_ now clock = Ok l -> led_terminal_outcome l = Some outcome ->
  exists rule, rule ∈ terminal_outcomes spec /\ out_message_key outcome = customer_message_key rule.
Proof.
  intros (_ & _ & Hf & _ & _ & Ht)%evaluate_ok Ho. rewrite Ht in Ho.
  destruct (omap ent_terminal_outcome (led_obligations l)) as [|out rest] eqn:Eo; [done|]. simpl in Ho. injection Ho as ->.
  assert (outcome ∈ omap ent_terminal_outcome (led_obligations l)) as Hin by (rewrite Eo; by left).
  apply list_elem_of_omap in Hin as (e & He & Hout).
  apply Forall2_flip in Hf. destruct (Forall2_elem_l _ _ _ _ Hf He) as (o & _ & Hoe). unfold flip in Hoe.
  assert (ent_status e = Terminal) as Hs.
  { apply obligation_entry_shape in Hoe as (_ & _ & Hsh). apply Hsh. eauto. }
  unfold obligation_entry in Hoe. destruct (kind o ==? Knowledge).
  { apply knowledge_entry_cases in Hoe as (_ & Hn & _). done. }
  apply resource_entry_cases in Hoe as (_ & _ & Hterm). destruct (Hterm Hs) as (x & _ & _ & _ & Hx).
  unfold _terminal_outcome_entry in Hx. apply res_bind_ok in Hx as (sc & _ & Hx). destruct (negb _); [done|].
  apply res_bind_ok in Hx as ([rule|] & Hr & Hx); [|done]. apply find_res_some in Hr as [Hr _]. exists rule. split; [done|].
  unfold terminal_entry_of in Hx. destruct (_ && _); [done|]. destruct sc as [[t c] h]. steps_ok Hx.
  injection Hx as <-. simpl in Hout. by injection Hout as <-.
Qed.

(** Every terminal outcome can be explained.  Whatever terminal outcome the
    obligation ledger of a registered action reports, its rendering exists; the
    published answer says that no approval was created and nothing was changed,
    and the claim it makes, if any, opens the answer. *)
Theorem ledger_outcome_explained name spec a obs run bs at_ now clock l outcome :
  get_action_spec_or_none name = Some spec ->
  evaluate_action_obligations spec a obs run bs at_ now clock = Ok l -> led_terminal_outcome l = Some outcome ->
  exists r, render_terminal_business_outcome outcome = Ok r /\ str_contains unchanged (rendered_answer r) = true /\
    forall claim, rendered_claim r = Some claim -> exists rest, rendered_answer r = claim +:+ rest.
Proof.
  intros Hs Hl Ho. apply outcome_rendered. destruct (ledger_outcome_key _ _ _ _ _ _ _ _ _ _ Hl Ho) as (rule & Hr & ->).
  unfold get_action_spec_or_none in Hs. apply index_get_spec in Hs as [[ty Hin] _].
  assert (forallb (fun r => customer_message_key r in? terminal_outcome_message_keys) (terminal_outcomes spec) = true) as Hall.
  { unfold ACTION_SPECS in Hin. repeat (apply elem_of_cons in Hin as [E|Hin]; [injection E as -> ->; vm_compute; reflexivity|]).
    by apply elem_of_nil in Hin. }
  rewrite forallb_true_iff in Hall. by apply mem_true, Hall.
Qed.
End properties.

(** Every safe answer but the advice on a leaked credential says that nothing was
    executed. *)
Definition disclaimers : list string := ["没有执行"; "尚未执行"; "不会创建审批"; "没有重复执行"; "没有调用"].
Definition disclaims (text : string) : bool := existsb (fun d => str_contains d text) disclaimers.
Lemma disclaims_right s t : disclaims t = true -> disclaims (s +:+ t) = true.
Proof. unfold disclaims. rewrite !existsb_true_iff. intros (d & Hd & Hc). eauto using str_contains_right. Qed.

(** A safe answer never suggests an effect: for every reason, missing group and
    failure domain it says that nothing was executed, except for the advice to
    revoke a leaked credential. *)
Theorem safe_failure_answer_disclaims reason missing domain :
  reason <> "credential_redaction_guidance" -> disclaims (safe_failure_answer reason missing domain) = true.
Proof.
  intros Hr. unfold safe_failure_answer.
  repeat match goal with |- disclaims (if ?b then _ else _) = _ => let E := fresh "E" in destruct b eqn:E end.
  all: try (vm_compute; reflexivity).
  - by rewrite eqb_true in *.
  - apply disclaims_right. vm_compute. reflexivity.
Qed.
