(* ===== verification/Synthesis.v ===== *)
(** * Provider synthesis and its binding to the current context
      (agent/schemas.py, agent/proposal_assembler.py)

    The language model explains a decision as a list of claims, each with the
    citations and business sources it relies on.  The runtime accepts a claim
    only when those references were in the context it had sent: this file models
    the schemas of the claims, the check that lists every reference error, the
    binder that replaces references by canonical identities, the pruning of
    claims without any reference, the reference contract sent with a repair
    request, and the choice of a grounded repair.

    Evidence items and observations are Python dictionaries; a Python set whose
    order is never observed is the list of its members, and [sorted(set)] is
    [sorted_set]. *)
From Stdlib Require Import Ascii.
From S2P Require Import Prelude PyValue CanonicalJson Decimals ActionSpecs.
Local Open Scope string_scope.
Local Open Scope list_scope.
Local Open Scope Z_scope.

(** ** Schemas *)
Record CandidateCitation := mk_candidate_citation { cc_citation_binding_id : string }.
Record ProviderMaterialClaim := mk_provider_claim {
  pc_text : string;
  pc_citation_binding_ids : list string;
  pc_observation_source_ids : list string;
}.
Record ProviderBoundEvidenceSynthesis := mk_provider_synthesis {
  ps_answer : string;
  ps_material_claims : list ProviderMaterialClaim;
}.
Record MaterialClaim := mk_material_claim {
  mc_text : string;
  mc_citation_binding_ids : list string;
  mc_knowledge_locator_hashes : list string;
  mc_observation_source_ids : list string;
}.
Record BoundEvidenceSynthesis := mk_bound_synthesis {
  bs_answer : string;
  bs_knowledge_chunk_ids : list string;
  bs_knowledge_citations : list CandidateCitation;
  bs_business_source_ids : list string;
  bs_material_claims : list MaterialClaim;
}.

(** The field constraints Pydantic checks when a model is built. *)
Definition new_candidate_citation (binding_id : string) : res CandidateCitation :=
  raise ValidationError "citation_binding_id" when negb (len_between 1 64 binding_id) ;;
  Ok (mk_candidate_citation binding_id).
Definition new_material_claim (c : MaterialClaim) : res MaterialClaim :=
  raise ValidationError "text" when negb (len_between 1 1000 (mc_text c)) ;; Ok c.
Definition new_provider_synthesis (s : ProviderBoundEvidenceSynthesis) : res ProviderBoundEvidenceSynthesis :=
  raise ValidationError "answer" when negb (len_between 1 4000 (ps_answer s)) ;;
  raise ValidationError "material_claims" when is_nil (ps_material_claims s) ;; Ok s.
Definition new_bound_synthesis (s : BoundEvidenceSynthesis) : res BoundEvidenceSynthesis :=
  raise ValidationError "answer" when negb (len_between 1 4000 (bs_answer s)) ;;
  raise ValidationError "material_claims" when is_nil (bs_material_claims s) ;; Ok s.

(** ** Context membership *)
Record Membership := mk_membership { m_chunk_id : string; m_locator_hash : string; m_evidence_group : string }.

Section synthesis.
Context `{PyRuntime}.

Definition citable (item : pydict) : bool :=
  truthy (item.["citation_binding_id"]) && is_true (item.["supporting_span_eligible"]).
Definition binding_id_of (item : pydict) : string := py_str (item.["citation_binding_id"]).
Definition group_of (item : pydict) : string := py_str (py_or (item.["evidence_group"]) (PyStr "current")).
Definition membership_of (item : pydict) : Membership := {|
  m_chunk_id := py_str (py_or (item.["chunk_id"]) (PyStr ""));
  m_locator_hash := py_str (py_or (item.["source_locator_hash"]) (PyStr ""));
  m_evidence_group := group_of item;
|}.
(** The dictionary comprehension over the evidence: a repeated key keeps the
    last item. *)
Definition citation_membership (evidence : list pydict) : gmap string Membership :=
  fold_left (fun m item => if citable item then <[binding_id_of item := membership_of item]> m else m) evidence ∅.

(** The dictionaries among the items of an iterated value: the characters of a
    string and the keys of a dictionary are none. *)
Definition dict_items (v : pyval) : res (list pydict) :=
  match v with
  | PyList l | PyTuple l => Ok (omap (fun x => match x with PyDict d => Some d | _ => None end) l)
  | PyStr _ | PyDict _ => Ok []
  | _ => Err (TypeError "object is not iterable")
  end.
Definition business_observation (observation : pydict) : bool :=
  py_eq (observation.["status"]) (PyStr "ok") && negb (py_eq (observation.["tool_name"]) (PyStr "search_knowledge")).
Definition observation_sources (observation : pydict) : res (list string) :=
  let? refs := dict_items (dget_or "source_refs" (PyList []) observation) in
  Ok (omap (fun d => if truthy (d.["source_id"]) then Some (py_str (d.["source_id"])) else None) refs).
(** The set of business sources of the successful observations. *)
Definition allowed_business_sources (observations : list pydict) : res (list string) :=
  let? groups := map_res observation_sources (List.filter business_observation observations) in
  Ok (concat groups).

(** ** Reference errors *)
(** The optional arguments of the checks. *)
Record requirements := mk_requirements {
  require_knowledge_source : bool;
  require_business_source : bool;
  required_knowledge_groups : list string;
  required_answer_markers : list string;
}.
Definition default_requirements : requirements := mk_requirements true true [] [].

Definition only_when (b : bool) (text : string) : list string := if b then [text] else [].
Definition claim_path (index : nat) : string := "material_claims." +:+ str_of_Z (Z.of_nat index).
Definition support_suffix : string := ":support_reference_required".

Definition claim_errors (membership : gmap string Membership) (allowed : list string) (index : nat)
    (claim : ProviderMaterialClaim) : list string :=
  only_when (existsb (fun c => isNone (membership !! c)) (pc_citation_binding_ids claim))
    (claim_path index +:+ ".citation_binding_ids:unknown_context_citation")
  ++ only_when (existsb (fun s => negb (s in? allowed)) (pc_observation_source_ids claim))
       (claim_path index +:+ ".observation_source_ids:unknown_business_source")
  ++ only_when (is_nil (pc_citation_binding_ids claim) && is_nil (pc_observation_source_ids claim))
       (claim_path index +:+ support_suffix).

(** The references of the claims that are in the context. *)
Definition used_citations (membership : gmap string Membership) (claims : list ProviderMaterialClaim) : list string :=
  List.filter (fun c => isSome (membership !! c)) (concat (map pc_citation_binding_ids claims)).
Definition used_sources (allowed : list string) (claims : list ProviderMaterialClaim) : list string :=
  List.filter (fun s => s in? allowed) (concat (map pc_observation_source_ids claims)).

Definition newline : string := String "010"%char "".
Definition public_claim_text (s : ProviderBoundEvidenceSynthesis) : string :=
  let text := String.concat newline
                (List.filter (fun t => negb (is_empty_str t)) (map (fun c => str_strip (pc_text c)) (ps_material_claims s))) in
  casefold (if is_empty_str text then ps_answer s else text).

(** [dict.fromkeys(str(item) for item in names if str(item))] *)
Definition distinct_names (names : list string) : list string :=
  fromkeys (List.filter (fun n => negb (is_empty_str n)) names).

Definition group_required (group : string) : string := "material_claims:citation_group_required:" +:+ group.
Definition marker_missing (marker : string) : string := "material_claims:required_marker_missing:" +:+ marker.

Definition provider_synthesis_binding_error_paths (s : ProviderBoundEvidenceSynthesis)
    (evidence observations : list pydict) (q : requirements) : res (list string) :=
  let membership := citation_membership evidence in
  let? allowed := allowed_business_sources observations in
  let claims := ps_material_claims s in
  let citations := used_citations membership claims in
  let groups := omap (fun c => m_evidence_group <$> (membership !! c)) citations in
  Ok (fromkeys (
    concat (imap (claim_errors membership allowed) claims)
    ++ only_when (require_knowledge_source q && is_nil citations) "material_claims:citation_binding_required"
    ++ only_when (require_business_source q && is_nil (used_sources allowed claims))
         "material_claims:business_source_required"
    ++ concat (map (fun group => only_when (negb (group in? groups)) (group_required group))
                 (distinct_names (required_knowledge_groups q)))
    ++ concat (map (fun marker => only_when (negb (str_contains (casefold marker) (public_claim_text s))) (marker_missing marker))
                 (distinct_names (required_answer_markers q))))).

(** ** Binding *)
Definition looked_up (membership : gmap string Membership) (field : Membership -> string) (ids : list string) : list string :=
  sorted_set (List.filter (fun x => negb (is_empty_str x)) (omap (fun c => field <$> (membership !! c)) ids)).

Definition bind_claim (membership : gmap string Membership) (claim : ProviderMaterialClaim) : res MaterialClaim :=
  let citations := sorted_set (pc_citation_binding_ids claim) in
  new_material_claim {|
    mc_text := pc_text claim;
    mc_citation_binding_ids := citations;
    mc_knowledge_locator_hashes := looked_up membership m_locator_hash citations;
    mc_observation_source_ids := sorted_set (pc_observation_source_ids claim);
  |}.

Definition bind_provider_synthesis (s : ProviderBoundEvidenceSynthesis) (evidence observations : list pydict)
    (q : requirements) : res BoundEvidenceSynthesis :=
  let? errors := provider_synthesis_binding_error_paths s evidence observations q in
  raise SynthesisBindingError errors when negb (is_nil errors) ;;
  let membership := citation_membership evidence in
  let? claims := map_res (bind_claim membership) (ps_material_claims s) in
  let citations := sorted_set (concat (map pc_citation_binding_ids (ps_material_claims s))) in
  let? cited := map_res new_candidate_citation citations in
  new_bound_synthesis {|
    bs_answer := ps_answer s;
    bs_knowledge_chunk_ids := looked_up membership m_chunk_id citations;
    bs_knowledge_citations := cited;
    bs_business_source_ids := sorted_set (concat (map pc_observation_source_ids (ps_material_claims s)));
    bs_material_claims := claims;
  |}.

(** ** Pruning *)
(** [text[len(prefix):]] when [text.startswith(prefix)] *)
Fixpoint strip_prefix (prefix text : string) : option string :=
  match prefix, text with
  | EmptyString, _ => Some text
  | String a prefix, String b text => if decide (a = b) then strip_prefix prefix text else None
  | _, _ => None
  end.
(** [text[:-len(suffix)]] when [text.endswith(suffix)] *)
Definition strip_suffix (suffix text : string) : option string :=
  string_rev <$> strip_prefix (string_rev suffix) (string_rev text).
(** [text.isdigit()]; error paths are ASCII. *)
Definition is_digits (text : string) : bool :=
  negb (is_empty_str text) && forallb is_digit (String.list_ascii_of_string text).

(** The index an error names; every error must name a claim without references. *)
Definition prunable (claims : list ProviderMaterialClaim) (indices : list nat) (error : string) : option nat :=
  raw ← strip_prefix "material_claims." error ≫= strip_suffix support_suffix;
  guard (is_digits raw);;
  index ← Z.to_nat <$> parse_int raw;
  guard (index ∉ indices);;
  claim ← claims !! index;
  guard (pc_citation_binding_ids claim = [] /\ pc_observation_source_ids claim = []);;
  Some index.
Fixpoint prunable_indices (claims : list ProviderMaterialClaim) (indices : list nat) (errors : list string)
    : option (list nat) :=
  match errors with
  | [] => Some indices
  | error :: errors => index ← prunable claims indices error; prunable_indices claims (indices ++ [index]) errors
  end.

(** [except (SynthesisBindingError, TypeError, ValueError)] *)
Definition rebind_failure (e : exn) : bool :=
  match e with
  | SynthesisBindingError _ | TypeError _ | ValueError _ | ValidationError _ => true
  | _ => false
  end.
Definition retained (indices : list nat) (claims : list ProviderMaterialClaim) : list ProviderMaterialClaim :=
  omap (fun ic => if ic.1 in? indices then None else Some ic.2) (imap pair claims).

Definition canonicalize_unreferenced_provider_claims (s : ProviderBoundEvidenceSynthesis)
    (evidence observations : list pydict) (q : requirements)
    : res (option (ProviderBoundEvidenceSynthesis * BoundEvidenceSynthesis * list nat)) :=
  let? errors := provider_synthesis_binding_error_paths s evidence observations q in
  if is_nil errors then Ok None else
  match prunable_indices (ps_material_claims s) [] errors with
  | None => Ok None
  | Some indices =>
      let claims := retained indices (ps_material_claims s) in
      if is_nil claims then Ok None else
      match (let? canonical := new_provider_synthesis {| ps_answer := String.concat newline (map pc_text claims);
                                                         ps_material_claims := claims |} in
             let? bound := bind_provider_synthesis canonical evidence observations q in
             Ok (canonical, bound, isort Nat.leb indices)) with
      | Ok r => Ok (Some r)
      | Err e => if rebind_failure e then Ok None else Err e
      end
  end.

(** ** The reference contract of a repair request *)
Definition str_list (l : list string) : pyval := PyList (map PyStr l).
Definition citable_items (evidence : list pydict) : list pydict := List.filter citable evidence.
Definition group_bindings (evidence : list pydict) (group : string) : list string :=
  sorted_set (map binding_id_of (List.filter (fun item => group_of item ==? group) (citable_items evidence))).

Definition contract_instruction : string :=
  "Satisfy every global_rule using only the exact allowed IDs. " +:+
  "When required_knowledge_groups is non-empty, cite at least one ID " +:+
  "from each matching group. When required_answer_markers is non-empty, " +:+
  "include every marker directly in the public material claim text.".
Definition per_claim_rule : string :=
  "each material claim must contain at least one exact allowed " +:+
  "citation_binding_id or observation_source_id; otherwise omit the claim".
Definition global_rules (q : requirements) : list string :=
  only_when (require_knowledge_source q) "at least one material claim must use an allowed citation_binding_id"
  ++ only_when (require_business_source q) "at least one material claim must use an allowed observation_source_id"
  ++ map (fun group => "material claims must cite at least one allowed citation_binding_id from evidence_group=" +:+ group)
       (distinct_names (required_knowledge_groups q))
  ++ only_when (negb (is_nil (distinct_names (required_answer_markers q))))
       "the public material claim text must directly include every required_answer_marker".

Definition provider_synthesis_reference_contract (evidence observations : list pydict) (q : requirements) : res pydict :=
  let? allowed := allowed_business_sources observations in
  Ok [("allowed_citation_binding_ids", str_list (sorted_set (map binding_id_of (citable_items evidence))));
      ("allowed_observation_source_ids", str_list (sorted_set allowed));
      ("allowed_citation_binding_ids_by_group",
       PyDict (map (fun group => (group, str_list (group_bindings evidence group)))
                 (sorted_set (map group_of (citable_items evidence)))));
      ("required_knowledge_groups", str_list (distinct_names (required_knowledge_groups q)));
      ("required_answer_markers", str_list (distinct_names (required_answer_markers q)));
      ("contract_instruction", PyStr contract_instruction);
      ("per_claim_rule", PyStr per_claim_rule);
      ("global_rules", str_list (global_rules q))].

(** ** The choice of a grounded repair *)
Record GroundedRepairEligibility := mk_grounded {
  gr_selected : bool;
  gr_reason_code : string;
  gr_require_knowledge_source : bool;
  gr_require_business_source : bool;
  gr_context_evidence_count : Z;
  gr_eligible_knowledge_count : Z;
  gr_group_counts : list (string * Z);
  gr_knowledge_observations : Z;
  gr_business_observations : Z;
  gr_unique_business_sources : Z;
  gr_comparison_complete : bool;
}.
Definition reason_codes : list string :=
  ["selected"; "obligation_synthesis_active"; "action_admission_schema_invalid"; "action_admission_active";
   "eligible_authority_missing"].
Definition sum_counts (l : list (string * Z)) : Z := fold_right (fun gc n => gc.2 + n) 0 l.

(** The constraints of the fields and [validate_selection_contract]. *)
Definition validate_grounded (g : GroundedRepairEligibility) : res GroundedRepairEligibility :=
  raise ValidationError "reason_code" when negb (gr_reason_code g in? reason_codes) ;;
  raise ValidationError "counts" when
    existsb (fun n => n <? 0) [gr_context_evidence_count g; gr_eligible_knowledge_count g; gr_knowledge_observations g;
                               gr_business_observations g; gr_unique_business_sources g] ;;
  raise ValueError "selected must exactly match the admitted authority namespaces" when
    gr_selected g !=? (gr_require_knowledge_source g || gr_require_business_source g) ;;
  raise ValueError "selected eligibility requires the selected reason code" when
    gr_selected g !=? (gr_reason_code g ==? "selected") ;;
  raise ValueError "knowledge group counts must cover every eligible item" when
    sum_counts (gr_group_counts g) !=? gr_eligible_knowledge_count g ;;
  raise ValueError "knowledge group counts must be nonnegative" when
    existsb (fun gc => gc.2 <? 0) (gr_group_counts g) ;;
  Ok g.

Definition count {A} (l : list A) : Z := Z.of_nat (length l).
Definition knowledge_observation (observation : pydict) : bool :=
  py_eq (observation.["status"]) (PyStr "ok") && py_eq (observation.["tool_name"]) (PyStr "search_knowledge").
Definition group_counts (items : list pydict) : list (string * Z) :=
  map (fun g => (g, count (List.filter (fun item => group_of item ==? g) items))) (sorted_set (map group_of items)).
Definition grounded_reason (obligation_synthesis_mode : bool) (admission : pydict) (no_authority : bool) : string :=
  if obligation_synthesis_mode then "obligation_synthesis_active"
  else if negb (py_eq (admission.["schema_version"]) (PyStr "action-admission.v2")) then "action_admission_schema_invalid"
  else if negb (py_eq (admission.["status"]) (PyStr "none")) || negb (py_eq (admission.["planned_action"]) (PyStr "none"))
  then "action_admission_active"
  else if no_authority then "eligible_authority_missing"
  else "selected".

Definition evaluate_grounded_repair_eligibility (obligation_synthesis_mode : bool) (admission_payload : pyval)
    (evidence observations : list pydict) (knowledge_comparison_complete : bool) : res GroundedRepairEligibility :=
  let eligible := citable_items evidence in
  let? sources := allowed_business_sources observations in
  let reason := grounded_reason obligation_synthesis_mode (as_dict admission_payload) (is_nil eligible && is_nil sources) in
  let selected := reason ==? "selected" in
  validate_grounded {|
    gr_selected := selected;
    gr_reason_code := reason;
    gr_require_knowledge_source := selected && negb (is_nil eligible);
    gr_require_business_source := selected && negb (is_nil sources);
    gr_context_evidence_count := count evidence;
    gr_eligible_knowledge_count := count eligible;
    gr_group_counts := group_counts eligible;
    gr_knowledge_observations := count (List.filter knowledge_observation observations);
    gr_business_observations := count (List.filter business_observation observations);
    gr_unique_business_sources := count (remove_dups sources);
    gr_comparison_complete := knowledge_comparison_complete;
  |}.

(** ** Membership lemmas *)
Lemma membership_lookup evidence c m :
  citation_membership evidence !! c = Some m ->
  exists item, item ∈ evidence /\ citable item = true /\ binding_id_of item = c /\ m = membership_of item.
Proof.
  unfold citation_membership. induction evidence as [|item ev IH] using rev_ind; simpl; [by rewrite lookup_empty|].
  rewrite fold_left_app. simpl. destruct (citable item) eqn:E.
  - rewrite lookup_insert_Some. intros [[<- <-]|[_ Hm]]; [exists item; rewrite elem_of_app, list_elem_of_singleton; by auto|].
    destruct (IH Hm) as (x & Hx & ?). exists x. rewrite elem_of_app. by auto.
  - intros Hm. destruct (IH Hm) as (x & Hx & ?). exists x. rewrite elem_of_app. by auto.
Qed.
Lemma membership_is_some evidence c :
  is_Some (citation_membership evidence !! c) <-> exists item, item ∈ evidence /\ citable item = true /\ binding_id_of item = c.
Proof.
  split; [intros [m Hm]; destruct (membership_lookup _ _ _ Hm) as (x & ? & ? & ? & ?); eauto|].
  unfold citation_membership. induction evidence as [|item ev IH] using rev_ind; simpl; [set_solver|].
  intros (x & Hx & Hc & Hb). apply elem_of_app in Hx. rewrite list_elem_of_singleton in Hx.
  rewrite fold_left_app. simpl. destruct (citable item) eqn:E.
  - destruct (decide (binding_id_of item = c)) as [->|Hne]; [rewrite lookup_insert_eq; eauto|].
    rewrite lookup_insert_ne by done. apply IH. destruct Hx as [Hx| ->]; [eauto|done].
  - apply IH. destruct Hx as [Hx| ->]; [eauto|congruence].
Qed.

Lemma only_when_nil b t : only_when b t = [] <-> b = false.
Proof. by destruct b. Qed.
Lemma elem_of_only_when b t x : x ∈ only_when b t <-> b = true /\ x = t.
Proof. destruct b; set_solver. Qed.
Lemma concat_nil {A} (l : list (list A)) : concat l = [] <-> forall x, x ∈ l -> x = [].
Proof.
  induction l as [|x l IH]; simpl; [set_solver|]. rewrite app_nil, IH. set_solver.
Qed.
Lemma elem_of_concat {A} (l : list (list A)) x : x ∈ concat l <-> exists y, y ∈ l /\ x ∈ y.
Proof. induction l as [|z l IH]; simpl; [set_solver|]. rewrite elem_of_app, IH. set_solver. Qed.
Lemma filter_true_nil {A} (f : A -> bool) l : List.filter f l = [] <-> forall x, x ∈ l -> f x = false.
Proof.
  induction l as [|y l IH]; simpl; [set_solver|]. destruct (f y) eqn:E; [|rewrite IH; set_solver].
  split; [done|]. intros Hx. rewrite (Hx y) in E by set_solver. done.
Qed.
Lemma elem_of_lfilter {A} (f : A -> bool) l x : x ∈ List.filter f l <-> x ∈ l /\ f x = true.
Proof. by rewrite !list_elem_of_In, filter_In. Qed.
Lemma elem_of_distinct_names x l : x ∈ distinct_names l <-> x ∈ l /\ x <> "".
Proof. unfold distinct_names. rewrite elem_of_fromkeys, elem_of_lfilter. to_prop. done. Qed.

(** ** When a synthesis binds

    The specification: every claim has a reference, all references are in the
    context, and the requirements are met. *)
Definition in_context (evidence : list pydict) (c : string) : Prop :=
  exists item, item ∈ evidence /\ citable item = true /\ binding_id_of item = c.
Definition cites_group (evidence : list pydict) (group c : string) : Prop :=
  exists m, citation_membership evidence !! c = Some m /\ m_evidence_group m = group.
Record well_bound (s : ProviderBoundEvidenceSynthesis) (evidence : list pydict) (allowed : list string) (q : requirements)
    : Prop := {
  wb_supported : forall c, c ∈ ps_material_claims s -> pc_citation_binding_ids c <> [] \/ pc_observation_source_ids c <> [];
  wb_citations : forall c x, c ∈ ps_material_claims s -> x ∈ pc_citation_binding_ids c -> in_context evidence x;
  wb_sources : forall c x, c ∈ ps_material_claims s -> x ∈ pc_observation_source_ids c -> x ∈ allowed;
  wb_knowledge : require_knowledge_source q = true -> exists c, c ∈ ps_material_claims s /\ pc_citation_binding_ids c <> [];
  wb_business : require_business_source q = true -> exists c, c ∈ ps_material_claims s /\ pc_observation_source_ids c <> [];
  wb_groups : forall g, g ∈ required_knowledge_groups q -> g <> "" ->
    exists c x, c ∈ ps_material_claims s /\ x ∈ pc_citation_binding_ids c /\ cites_group evidence g x;
  wb_markers : forall m, m ∈ required_answer_markers q -> m <> "" ->
    str_contains (casefold m) (public_claim_text s) = true;
}.

Lemma claim_errors_nil m allowed i c :
  claim_errors m allowed i c = [] <->
  (forall x, x ∈ pc_citation_binding_ids c -> is_Some (m !! x)) /\
  (forall x, x ∈ pc_observation_source_ids c -> x ∈ allowed) /\
  (pc_citation_binding_ids c <> [] \/ pc_observation_source_ids c <> []).
Proof.
  unfold claim_errors. rewrite !app_nil, !only_when_nil, !existsb_false_iff, andb_false_iff, !is_nil_false.
  split; intros (H1 & H2 & H3); split_and!; try done; intros x Hx; specialize (H1 x); specialize (H2 x); to_prop; auto.
Qed.

Lemma used_citations_elem m claims x :
  x ∈ used_citations m claims <-> (exists c, c ∈ claims /\ x ∈ pc_citation_binding_ids c) /\ is_Some (m !! x).
Proof.
  unfold used_citations. rewrite elem_of_lfilter, elem_of_concat, isSome_true.
  apply and_iff_compat_r. setoid_rewrite list_elem_of_fmap. naive_solver.
Qed.
Lemma used_sources_elem allowed claims x :
  x ∈ used_sources allowed claims <-> (exists c, c ∈ claims /\ x ∈ pc_observation_source_ids c) /\ x ∈ allowed.
Proof.
  unfold used_sources. rewrite elem_of_lfilter, elem_of_concat, mem_true.
  apply and_iff_compat_r. setoid_rewrite list_elem_of_fmap. naive_solver.
Qed.
Lemma not_nil_elem {A} (l : list A) : l <> [] <-> exists x, x ∈ l.
Proof. split; [destruct l; [done|]; intros _; eexists; by left|]. intros [x Hx] ->. by apply elem_of_nil in Hx. Qed.

(** The check finds nothing exactly when the synthesis is well bound. *)
Lemma error_paths_spec s evidence observations q :
  provider_synthesis_binding_error_paths s evidence observations q = Ok [] <->
  exists allowed, allowed_business_sources observations = Ok allowed /\ well_bound s evidence allowed q.
Proof.
  unfold provider_synthesis_binding_error_paths. rewrite res_bind_ok. apply exist_proper. intros allowed.
  apply and_iff_compat_l. set (m := citation_membership evidence).
  match goal with |- Ok ?l = Ok [] <-> _ => transitivity (l = []); [split; congruence|] end.
  rewrite fromkeys_nil, !app_nil, !only_when_nil, !concat_nil, !andb_false_iff, !is_nil_false.
  rewrite !not_nil_elem. split.
  - intros (Hc & Hk & Hb & Hg & Hm).
    assert (forall c, c ∈ ps_material_claims s -> exists i, claim_errors m allowed i c = []) as He.
    { intros c [i Hi]%list_elem_of_lookup_1. exists i. by apply Hc, elem_of_lookup_imap_2. }
    constructor.
    + intros c Hin. destruct (He c Hin) as [i Hi]. apply claim_errors_nil in Hi as (_ & _ & Hi). done.
    + intros c x Hin Hx. destruct (He c Hin) as [i Hi]. apply claim_errors_nil in Hi as (Hcs & _). by apply membership_is_some, Hcs.
    + intros c x Hin Hx. destruct (He c Hin) as [i Hi]. apply claim_errors_nil in Hi as (_ & Hss & _). auto.
    + intros E. destruct Hk as [Hk|[x Hx]]; [congruence|]. apply used_citations_elem in Hx as [(c & Hin & Hx) _].
      exists c. split; [done|]. apply not_nil_elem. eauto.
    + intros E. destruct Hb as [Hb|[x Hx]]; [congruence|]. apply used_sources_elem in Hx as [(c & Hin & Hx) _].
      exists c. split; [done|]. apply not_nil_elem. eauto.
    + intros g Hin Hne. assert (only_when (negb (g in? omap (fun c => m_evidence_group <$> m !! c) (used_citations m (ps_material_claims s)))) (group_required g) = []) as E.
      { apply Hg, list_elem_of_fmap. exists g. split; [done|]. by apply elem_of_distinct_names. }
      apply only_when_nil in E. to_prop. apply list_elem_of_omap in E as (x & Hx & Hg').
      apply used_citations_elem in Hx as [(c & Hc' & Hx) _]. apply fmap_Some in Hg' as (mm & Hmm & ->). exists c, x. split_and!; try done. by exists mm.
    + intros mk Hin Hne. assert (only_when (negb (str_contains (casefold mk) (public_claim_text s))) (marker_missing mk) = []) as E.
      { apply Hm, list_elem_of_fmap. exists mk. split; [done|]. by apply elem_of_distinct_names. }
      apply only_when_nil in E. by to_prop.
  - intros [Hs Hc Hss Hk Hb Hg Hm]. split_and!.
    + intros e (i & c & -> & Hi)%elem_of_lookup_imap. apply claim_errors_nil.
      apply list_elem_of_lookup_2 in Hi. split_and!; eauto. intros x Hx. apply membership_is_some. by eapply Hc.
    + destruct (require_knowledge_source q); [right|by left]. destruct Hk as (c & Hin & [x Hx]%not_nil_elem); [done|].
      exists x. apply used_citations_elem. split; [eauto|]. apply membership_is_some. by eapply Hc.
    + destruct (require_business_source q); [right|by left]. destruct Hb as (c & Hin & [x Hx]%not_nil_elem); [done|].
      exists x. apply used_sources_elem. eauto.
    + intros e (g & -> & Hin)%list_elem_of_fmap. apply elem_of_distinct_names in Hin as [Hin Hne].
      destruct (Hg g Hin Hne) as (c & x & Hc' & Hx & mm & Hmm & <-). apply only_when_nil. to_prop.
      apply list_elem_of_omap. exists x. split; [|by fold m in Hmm; rewrite Hmm]. apply used_citations_elem. fold m in Hmm. eauto.
    + intros e (mk & -> & Hin)%list_elem_of_fmap. apply elem_of_distinct_names in Hin as [Hin Hne].
      apply only_when_nil. rewrite (Hm mk Hin Hne). done.
Qed.

(** The lengths the schemas allow. *)
Record sized (s : ProviderBoundEvidenceSynthesis) : Prop := {
  sz_answer : len_between 1 4000 (ps_answer s) = true;
  sz_claims : ps_material_claims s <> [];
  sz_text : forall c, c ∈ ps_material_claims s -> len_between 1 1000 (pc_text c) = true;
  sz_ids : forall c x, c ∈ ps_material_claims s -> x ∈ pc_citation_binding_ids c -> len_between 1 64 x = true;
}.

Lemma map_res_total {A B} (f : A -> res B) l :
  (exists k, map_res f l = Ok k) <-> forall x, x ∈ l -> exists y, f x = Ok y.
Proof.
  split.
  - intros [k Hk%map_res_ok] x Hx. destruct (Forall2_elem_l _ _ _ _ Hk Hx) as (y & _ & Hy). eauto.
  - intros Hl. induction l as [|x l IH]; [by exists []|].
    destruct (Hl x) as [y Hy]; [by left|]. destruct IH as [k Hk]; [intros z Hz; apply Hl; by right|].
    exists (y :: k). simpl. by rewrite Hy, Hk.
Qed.
Lemma raise_if_total {A} b e (a : A) : (exists y, raise_if b e (Ok a) = Ok y) <-> b = false.
Proof. destruct b; simpl; split; [by intros []|done|done|eauto]. Qed.

Lemma elem_of_concat_map {A B} (f : A -> list B) l x : x ∈ concat (map f l) <-> exists c, c ∈ l /\ x ∈ f c.
Proof.
  rewrite elem_of_concat. setoid_rewrite list_elem_of_fmap. split.
  - intros (y & (c & -> & Hc) & Hx). eauto.
  - intros (c & Hc & Hx). eauto.
Qed.

(** C31: a synthesis is bound exactly when it is well bound.  The binder returns a
    result if and only if the sources of the observations can be listed, every
    claim has a reference, every reference is in the current context, the
    requirements (knowledge, business, groups, markers) are met and the texts
    and identifiers have the lengths of the schemas. *)
Theorem binds_iff_well_bound s evidence observations q :
  (exists b, bind_provider_synthesis s evidence observations q = Ok b) <->
  exists allowed, allowed_business_sources observations = Ok allowed /\ well_bound s evidence allowed q /\ sized s.
Proof.
  unfold bind_provider_synthesis. split.
  - intros [b Hb]. steps_ok Hb. apply negb_false_iff, is_nil_true in Hguard as ->.
    apply error_paths_spec in Hstep as (allowed & Ha & Hw). exists allowed. split_and!; [done..|].
    unfold new_bound_synthesis in Hb. steps_ok Hb. simpl in *. apply negb_false_iff in Hguard. apply is_nil_false in Hguard0.
    constructor; [done| |..].
    + intros E. rewrite E in Hstep0. simpl in Hstep0. congruence.
    + intros c Hc. destruct (proj1 (map_res_total _ _) (ex_intro _ _ Hstep0) c Hc) as [y Hy].
      unfold bind_claim, new_material_claim in Hy. steps_ok Hy. by apply negb_false_iff in Hguard1.
    + intros c x Hc Hx. destruct (proj1 (map_res_total _ _) (ex_intro _ _ Hstep1) x) as [y Hy].
      { apply elem_of_sorted_set, elem_of_concat_map. eauto. }
      unfold new_candidate_citation in Hy. steps_ok Hy. by apply negb_false_iff in Hguard1.
  - intros (allowed & Ha & Hw & [Sa Sc St Si]).
    rewrite (proj2 (error_paths_spec s evidence observations q)) by eauto. simpl.
    destruct (proj2 (map_res_total (bind_claim (citation_membership evidence)) (ps_material_claims s))) as [cs Hcs].
    { intros c Hc. unfold bind_claim, new_material_claim. simpl. rewrite (St c Hc). eauto. }
    destruct (proj2 (map_res_total new_candidate_citation (sorted_set (concat (map pc_citation_binding_ids (ps_material_claims s))))))
      as [ci Hci].
    { intros x Hx. rewrite elem_of_sorted_set, elem_of_concat_map in Hx; destruct Hx as (c & Hc & Hx).
      unfold new_candidate_citation. rewrite (Si c x Hc Hx). eauto. }
    rewrite Hcs. simpl. rewrite Hci. simpl. unfold new_bound_synthesis. simpl. rewrite Sa. simpl.
    destruct cs; [|eauto]. apply map_res_length in Hcs. destruct (ps_material_claims s); done.
Qed.

Lemma looked_up_elem m f ids x :
  x ∈ looked_up m f ids <-> x <> "" /\ exists c mm, c ∈ ids /\ m !! c = Some mm /\ f mm = x.
Proof.
  unfold looked_up. rewrite elem_of_sorted_set, elem_of_lfilter, list_elem_of_omap. setoid_rewrite fmap_Some.
  rewrite negb_true_iff, is_empty_str_false. split.
  - intros [(c & Hc & mm & Hm & ->) Hx]. split; eauto.
  - intros (Hx & c & mm & Hc & Hm & <-). split; eauto.
Qed.

(** What the binder makes of a claim. *)
Definition claim_bound (evidence : list pydict) (c : ProviderMaterialClaim) (b : MaterialClaim) : Prop :=
  mc_text b = pc_text c /\
  mc_citation_binding_ids b = sorted_set (pc_citation_binding_ids c) /\
  mc_observation_source_ids b = sorted_set (pc_observation_source_ids c) /\
  forall h, h ∈ mc_knowledge_locator_hashes b ->
    exists item, item ∈ evidence /\ citable item = true /\ binding_id_of item ∈ pc_citation_binding_ids c /\
      h = m_locator_hash (membership_of item).

Lemma bind_claim_bound evidence c b : bind_claim (citation_membership evidence) c = Ok b -> claim_bound evidence c b.
Proof.
  unfold bind_claim, new_material_claim, claim_bound. intros Hb. steps_ok Hb. injection Hb as <-. split_and!; [done..|]. simpl.
  intros h (_ & x & mm & Hx & Hm & <-)%looked_up_elem. rewrite elem_of_sorted_set in Hx.
  destruct (membership_lookup _ _ _ Hm) as (item & Hi & Hc & <- & ->). by exists item.
Qed.

Lemma cited_ids ids cited : map_res new_candidate_citation ids = Ok cited -> map cc_citation_binding_id cited = ids.
Proof.
  intros Hc%map_res_ok. induction Hc as [|x y l k Hx _ IH]; [done|]. simpl. rewrite IH. f_equal.
  unfold new_candidate_citation in Hx. steps_ok Hx. by injection Hx as <-.
Qed.

(** The model cannot create authority.  A bound synthesis has the answer and,
    claim by claim, the texts and references of the model's output; its locator
    hashes and chunk identifiers are those of citable evidence items of the
    context that some claim cites, and its citations and business sources are
    the cited ones, in order and without repetition. *)
Theorem bound_identities_from_context s evidence observations q b :
  bind_provider_synthesis s evidence observations q = Ok b ->
  bs_answer b = ps_answer s /\
  Forall2 (claim_bound evidence) (ps_material_claims s) (bs_material_claims b) /\
  map cc_citation_binding_id (bs_knowledge_citations b) = sorted_set (concat (map pc_citation_binding_ids (ps_material_claims s))) /\
  bs_business_source_ids b = sorted_set (concat (map pc_observation_source_ids (ps_material_claims s))) /\
  forall k, k ∈ bs_knowledge_chunk_ids b ->
    exists item c, item ∈ evidence /\ citable item = true /\ c ∈ ps_material_claims s /\
      binding_id_of item ∈ pc_citation_binding_ids c /\ k = m_chunk_id (membership_of item).
Proof.
  unfold bind_provider_synthesis. intros Hb. steps_ok Hb. unfold new_bound_synthesis in Hb. steps_ok Hb. injection Hb as <-.
  simpl. split_and!; [done| | |done|].
  - apply map_res_ok in Hstep0. eapply Forall2_impl; [exact Hstep0|]. intros c m. apply bind_claim_bound.
  - by apply cited_ids.
  - intros k (_ & x & mm & Hx & Hm & <-)%looked_up_elem. rewrite elem_of_sorted_set, elem_of_concat_map in Hx; destruct Hx as (c & Hc & Hx).
    destruct (membership_lookup _ _ _ Hm) as (item & Hi & Hci & <- & ->). exists item, c. by split_and!.
Qed.

(** ** Pruning: reading an index back from an error path *)
Lemma strip_prefix_app p t : strip_prefix p (p +:+ t) = Some t.
Proof. induction p as [|c p IH]; [by destruct t|]. rewrite append_cons. simpl. by rewrite decide_True. Qed.
Lemma strip_suffix_app t u : strip_suffix u (t +:+ u) = Some t.
Proof. unfold strip_suffix. rewrite string_rev_append, strip_prefix_app. simpl. by rewrite string_rev_involutive. Qed.

Lemma chars_append a b : chars (a +:+ b) = chars a ++ chars b.
Proof. unfold chars. induction a as [|c a IH]; [done|]. rewrite append_cons. simpl. by rewrite IH. Qed.
Lemma digits_lstrip s : Forall (fun c => is_digit c = true) (chars s) -> lstrip s = s.
Proof.
  destruct s as [|c s]; [done|]. intros Hd. apply Forall_cons in Hd as [Hc _]. simpl.
  assert (is_space c = false) as ->; [|done]. revert Hc. destruct c as [[] [] [] [] [] [] [] []]; vm_compute; done.
Qed.
Lemma chars_string_rev s : chars (string_rev s) = reverse (chars s).
Proof.
  induction s as [|c s IH]; [done|]. rewrite string_rev_cons, chars_append, IH. symmetry. apply (reverse_cons (chars s) c).
Qed.
Lemma digits_strip s : Forall (fun c => is_digit c = true) (chars s) -> strip s = s.
Proof.
  intros Hd. unfold strip. rewrite (digits_lstrip s) by done.
  rewrite digits_lstrip; [apply string_rev_involutive|]. rewrite chars_string_rev. by apply Forall_reverse.
Qed.
Lemma parse_digits_num s acc :
  Forall (fun c => is_digit c = true) (chars s) ->
  parse_digits acc false s = Some (fold_left (fun acc c => 10 * acc + digit_value c) (chars s) acc).
Proof.
  revert acc. induction s as [|c s IH]; intros acc Hd; [done|].
  apply Forall_cons in Hd as [Hc Hd]. cbn [parse_digits chars String.list_ascii_of_string fold_left]. rewrite Hc. by apply IH.
Qed.
Lemma str_of_nat_digits n : Forall (fun c => is_digit c = true) (chars (str_of_Z (Z.of_nat n))).
Proof. destruct n as [|n]; [by repeat constructor|]. unfold str_of_Z. simpl. apply uint_chars. Qed.
Lemma parse_int_nat n : parse_int (str_of_Z (Z.of_nat n)) = Some (Z.of_nat n).
Proof.
  pose proof (str_of_nat_digits n) as Hd. unfold parse_int. rewrite digits_strip by done.
  pose proof (num_str_of_Z (N.of_nat n)) as Hn. rewrite nat_N_Z in Hn.
  destruct (str_of_Z (Z.of_nat n)) as [|c s] eqn:E.
  { pose proof (int_nonnil (Z.of_nat n)) as Hne. by rewrite E in Hne. }
  pose proof Hd as Hd'. apply Forall_cons in Hd' as [Hc Hd'].
  assert (parse_digits 0 true (String c s) = Some (Z.of_nat n)) as Hp.
  { cbn [parse_digits]. rewrite Hc, parse_digits_num by done. f_equal. rewrite <- Hn. done. }
  rewrite <- Hp. clear -Hc. destruct c as [[] [] [] [] [] [] [] []]; try reflexivity; vm_compute in Hc; discriminate Hc.
Qed.

Definition supported (c : ProviderMaterialClaim) : bool :=
  negb (is_nil (pc_citation_binding_ids c) && is_nil (pc_observation_source_ids c)).
Lemma supported_false c : supported c = false <-> pc_citation_binding_ids c = [] /\ pc_observation_source_ids c = [].
Proof. unfold supported. by rewrite negb_false_iff, andb_true_iff, !is_nil_true. Qed.

Lemma prunable_some claims idx e i :
  prunable claims idx e = Some i -> i ∉ idx /\ exists c, claims !! i = Some c /\ supported c = false.
Proof.
  unfold prunable. intros Hp. apply bind_Some in Hp as (raw & _ & Hp). apply bind_Some in Hp as (_ & _ & Hp).
  apply bind_Some in Hp as (k & _ & Hp). apply bind_Some in Hp as (Hn & _ & Hp). apply bind_Some in Hp as (c & Hc & Hp).
  apply bind_Some in Hp as (He & _ & Hp). injection Hp as <-. split; [done|]. exists c. by rewrite supported_false.
Qed.
Lemma prunable_own claims idx i j : prunable claims idx (claim_path i +:+ support_suffix) = Some j -> j = i.
Proof.
  unfold prunable, claim_path. rewrite append_assoc, strip_prefix_app. cbn [mbind option_bind]. rewrite strip_suffix_app.
  cbn [mbind option_bind]. rewrite parse_int_nat. intros Hp. apply bind_Some in Hp as (_ & _ & Hp). cbn [fmap option_fmap option_map mbind option_bind] in Hp.
  rewrite Nat2Z.id in Hp. repeat (apply bind_Some in Hp as (? & ? & Hp)). congruence.
Qed.
Lemma prunable_indices_spec claims idx0 errors idx :
  prunable_indices claims idx0 errors = Some idx ->
  (forall i, i ∈ idx -> i ∈ idx0 \/ exists c, claims !! i = Some c /\ supported c = false) /\
  (forall i, i ∈ idx0 \/ claim_path i +:+ support_suffix ∈ errors -> i ∈ idx).
Proof.
  revert idx0. induction errors as [|e errors IH]; intros idx0 Hp; simpl in Hp.
  { injection Hp as <-. split; [auto|]. intros i [Hi|[]%elem_of_nil]. done. }
  apply bind_Some in Hp as (j & Hj & Hp). destruct (IH _ Hp) as [H1 H2]. split.
  - intros i Hi. destruct (H1 i Hi) as [Hin|]; [|auto]. apply elem_of_app in Hin as [Hin|Hin]; [auto|].
    apply list_elem_of_singleton in Hin as ->. right. by apply prunable_some in Hj as [_ ?].
  - intros i [Hi|Hi].
    + apply H2. left. apply elem_of_app. auto.
    + apply elem_of_cons in Hi as [<-|Hi]; [|apply H2; auto]. apply H2. left. apply elem_of_app. right.
      apply prunable_own in Hj as ->. apply list_elem_of_singleton. done.
Qed.
Lemma retained_filter f claims idx :
  (forall i c, claims !! i = Some c -> (i ∈ idx <-> f c = false)) -> retained idx claims = List.filter f claims.
Proof.
  unfold retained. induction claims as [|c l IH] using rev_ind; intros Hf; [done|].
  rewrite imap_app, omap_app, List.filter_app. f_equal.
  - apply IH. intros i x Hi. apply Hf. by apply lookup_app_l_Some.
  - simpl. rewrite Nat.add_0_r. specialize (Hf (length l) c). rewrite lookup_app_r, Nat.sub_diag in Hf by lia.
    specialize (Hf eq_refl). destruct (length l in? idx) eqn:E; to_prop; destruct (f c) eqn:Ec; try done; naive_solver.
Qed.

(** Pruning removes exactly the unsupported claims.  When the second output of
    the model is canonicalised, the kept claims are those with a reference, in
    order; the reported indices are those of the claims without any; the answer
    is derived from the kept texts alone, and the result passes the complete
    binding check. *)
Theorem pruning_removes_unsupported s evidence observations q c b idx :
  canonicalize_unreferenced_provider_claims s evidence observations q = Ok (Some (c, b, idx)) ->
  ps_material_claims c = List.filter supported (ps_material_claims s) /\
  (forall i, i ∈ idx <-> exists cl, ps_material_claims s !! i = Some cl /\ supported cl = false) /\
  ps_answer c = String.concat newline (map pc_text (ps_material_claims c)) /\
  bind_provider_synthesis c evidence observations q = Ok b.
Proof.
  unfold canonicalize_unreferenced_provider_claims. intros Hc. apply res_bind_ok in Hc as (errors & He & Hc).
  destruct (is_nil errors); [done|]. destruct (prunable_indices _ _ _) as [raw|] eqn:Hp; [|done].
  destruct (is_nil (retained _ _)); [done|].
  apply prunable_indices_spec in Hp as [H1 H2].
  assert (forall i, i ∈ raw <-> exists cl, ps_material_claims s !! i = Some cl /\ supported cl = false) as Hraw.
  { intros i. split; [intros Hi; by destruct (H1 i Hi) as [[]%elem_of_nil|]|].
    intros (cl & Hcl & Hs%supported_false). apply H2. right. unfold provider_synthesis_binding_error_paths in He.
    apply res_bind_ok in He as (allowed & _ & He). injection He as <-. apply elem_of_fromkeys, elem_of_app. left.
    apply elem_of_concat. eexists. split; [by apply elem_of_lookup_imap_2|].
    unfold claim_errors. destruct Hs as [-> ->]. simpl. by left. }
  assert (retained raw (ps_material_claims s) = List.filter supported (ps_material_claims s)) as Er.
  { apply retained_filter. intros i x Hi. rewrite Hraw, Hi. split; [by intros (? & [= <-] & ?)|eauto]. }
  rewrite Er in Hc. destruct (res_bind _ _) as [r|e] eqn:Hr; [|by destruct (rebind_failure e)].
  injection Hc as ->. apply res_bind_ok in Hr as (c' & Hn & Hr). apply res_bind_ok in Hr as (b' & Hb & [= <- <- <-]).
  unfold new_provider_synthesis in Hn. steps_ok Hn. injection Hn as <-. simpl. split_and!; [done| |done|done].
  intros i. rewrite elem_of_isort. apply Hraw.
Qed.

(** ** The reference contract *)
(** A synthesis that follows the instructions of a contract. *)
Record follows (s : ProviderBoundEvidenceSynthesis) (q : requirements) (ids sources : list string)
    (by_group : list (string * list string)) : Prop := {
  fo_claim : forall c, c ∈ ps_material_claims s -> pc_citation_binding_ids c <> [] \/ pc_observation_source_ids c <> [];
  fo_ids : forall c x, c ∈ ps_material_claims s -> x ∈ pc_citation_binding_ids c -> x ∈ ids;
  fo_sources : forall c x, c ∈ ps_material_claims s -> x ∈ pc_observation_source_ids c -> x ∈ sources;
  fo_knowledge : require_knowledge_source q = true -> exists c, c ∈ ps_material_claims s /\ pc_citation_binding_ids c <> [];
  fo_business : require_business_source q = true -> exists c, c ∈ ps_material_claims s /\ pc_observation_source_ids c <> [];
  fo_groups : forall g, g ∈ distinct_names (required_knowledge_groups q) ->
    exists c x l, c ∈ ps_material_claims s /\ x ∈ pc_citation_binding_ids c /\ (g, l) ∈ by_group /\ x ∈ l;
  fo_markers : forall m, m ∈ distinct_names (required_answer_markers q) ->
    str_contains (casefold m) (public_claim_text s) = true;
}.

(** The reference contract is sufficient.  The contract sent with a repair
    request lists identifiers and groups such that every output that uses only
    the listed ones, supports each claim and meets the stated rules passes the
    binding check, provided no citation identifier occurs in two groups of the
    context. *)
Theorem reference_contract_suffices evidence observations q d :
  provider_synthesis_reference_contract evidence observations q = Ok d ->
  (forall x y, x ∈ evidence -> y ∈ evidence -> citable x = true -> citable y = true ->
     binding_id_of x = binding_id_of y -> group_of x = group_of y) ->
  exists ids sources by_group,
    d.["allowed_citation_binding_ids"] = str_list ids /\
    d.["allowed_observation_source_ids"] = str_list sources /\
    d.["allowed_citation_binding_ids_by_group"] = PyDict (map (fun gl => (gl.1, str_list gl.2)) by_group) /\
    forall s, follows s q ids sources by_group ->
      provider_synthesis_binding_error_paths s evidence observations q = Ok [].
Proof.
  unfold provider_synthesis_reference_contract. intros Hd Hu. apply res_bind_ok in Hd as (allowed & Ha & [= <-]).
  exists (sorted_set (map binding_id_of (citable_items evidence))), (sorted_set allowed),
    (map (fun g => (g, group_bindings evidence g)) (sorted_set (map group_of (citable_items evidence)))).
  split_and!; [done..|by rewrite map_map|].
  assert (forall x, x ∈ sorted_set (map binding_id_of (citable_items evidence)) -> in_context evidence x) as Hids.
  { intros x. rewrite elem_of_sorted_set, list_elem_of_fmap. intros (item & -> & Hi).
    apply elem_of_lfilter in Hi as [Hi Hc]. by exists item. }
  intros s [F1 F2 F3 F4 F5 F6 F7]. apply error_paths_spec. exists allowed. split; [done|]. constructor; auto.
  - intros c x Hc Hx. apply Hids. eauto.
  - intros c x Hc Hx. rewrite <- elem_of_sorted_set. eauto.
  - intros g Hg Hne. destruct (F6 g) as (c & x & l & Hc & Hx & Hl & Hxl); [by apply elem_of_distinct_names|].
    exists c, x. split_and!; [done..|]. apply list_elem_of_fmap in Hl as (g' & [= -> ->] & _). unfold group_bindings in Hxl.
    rewrite elem_of_sorted_set, list_elem_of_fmap in Hxl. destruct Hxl as (item & -> & Hi).
    apply elem_of_lfilter in Hi as [Hi Hg']. apply elem_of_lfilter in Hi as [Hi Hci]. rewrite eqb_true in Hg'.
    destruct (proj2 (membership_is_some evidence (binding_id_of item))) as [mm Hmm]; [by exists item|]. exists mm. split; [done|].
    destruct (membership_lookup _ _ _ Hmm) as (y & Hy & Hcy & Ey & ->). simpl. rewrite <- Hg'. by apply Hu.
  - intros m Hm Hne. apply F7. by apply elem_of_distinct_names.
Qed.

(** ** Grounded repair *)
Lemma sum_counts_indicator (g : string) L :
  NoDup L -> sum_counts (map (fun x => (x, if g ==? x then 1 else 0)) L) = if g in? L then 1 else 0.
Proof.
  induction 1 as [|x L Hx HL IH]; simpl; [done|]. rewrite IH. destruct (g ==? x) eqn:E; to_prop.
  - subst. rewrite (proj2 (mem_false x L)), (proj2 (mem_true x (x :: L))) by (done || by left). lia.
  - destruct (g in? L) eqn:EL; to_prop.
    + rewrite (proj2 (mem_true g (x :: L))) by (by right). lia.
    + rewrite (proj2 (mem_false g (x :: L))); [lia|]. by intros [?|?]%elem_of_cons.
Qed.
Lemma sum_counts_plus {A} (f h : A -> Z) (k : A -> string) L :
  sum_counts (map (fun x => (k x, f x + h x)) L) = sum_counts (map (fun x => (k x, f x)) L) + sum_counts (map (fun x => (k x, h x)) L).
Proof. unfold sum_counts. induction L as [|x L IH]; simpl; [done|]. rewrite IH. lia. Qed.
Lemma sum_counts_ext (f h : string -> Z) L :
  (forall x, f x = h x) -> sum_counts (map (fun x => (x, f x)) L) = sum_counts (map (fun x => (x, h x)) L).
Proof. intros E. f_equal. apply map_ext. intros x. by rewrite E. Qed.
(** Counting by group loses nothing. *)
Lemma partition_counts items L :
  NoDup L -> (forall x, x ∈ items -> group_of x ∈ L) ->
  sum_counts (map (fun g => (g, count (List.filter (fun item => group_of item ==? g) items))) L) = count items.
Proof.
  intros HL. induction items as [|x items IH]; intros Hin.
  - unfold sum_counts. clear HL Hin. induction L as [|g L IH]; [done|]. simpl in IH |- *. by rewrite IH.
  - transitivity (sum_counts (map (fun g => (g, (if group_of x ==? g then 1 else 0) + count (List.filter (fun item => group_of item ==? g) items))) L)).
    { apply sum_counts_ext. intros g. simpl. destruct (group_of x ==? g); unfold count; simpl length; lia. }
    rewrite (sum_counts_plus (fun g => if group_of x ==? g then 1 else 0) _ (fun g => g)), sum_counts_indicator by done.
    rewrite IH by (intros y Hy; apply Hin; by right).
    rewrite (proj2 (mem_true (group_of x) L)) by (apply Hin; by left). unfold count. simpl length. lia.
Qed.

Lemma sorted_set_nodup l : NoDup (sorted_set l).
Proof. unfold sorted_set. rewrite isort_perm. apply NoDup_remove_dups. Qed.

(** The choice of a grounded repair is total and exact.  Whenever the sources
    of the observations can be listed the evaluation succeeds (its own validator
    never rejects it), and it selects the repair exactly when no obligation
    synthesis is active, the admission is a current one without an action, and
    the context holds citable knowledge or a business source; it then requires
    exactly the namespaces that have something to cite. *)
Theorem grounded_repair_exact mode payload evidence observations complete sources :
  allowed_business_sources observations = Ok sources ->
  exists g, evaluate_grounded_repair_eligibility mode payload evidence observations complete = Ok g /\
    (gr_selected g = true <->
       mode = false /\ (as_dict payload).["schema_version"] = PyStr "action-admission.v2" /\
       (as_dict payload).["status"] = PyStr "none" /\ (as_dict payload).["planned_action"] = PyStr "none" /\
       (citable_items evidence <> [] \/ sources <> [])) /\
    (gr_selected g = true -> gr_require_knowledge_source g = negb (is_nil (citable_items evidence)) /\
                             gr_require_business_source g = negb (is_nil sources)).
Proof.
  intros Hs. unfold evaluate_grounded_repair_eligibility. rewrite Hs. cbn [res_bind].
  set (r := grounded_reason _ _ _).
  assert (r ∈ reason_codes /\ (r = "selected" <->
       mode = false /\ (as_dict payload).["schema_version"] = PyStr "action-admission.v2" /\
       (as_dict payload).["status"] = PyStr "none" /\ (as_dict payload).["planned_action"] = PyStr "none" /\
       (citable_items evidence <> [] \/ sources <> []))) as [Hr Hsel].
  { unfold r, grounded_reason. rewrite <- !py_eq_str, <- !is_nil_false. unfold reason_codes.
    destruct mode, (py_eq _ _), (py_eq _ _), (py_eq _ _), (is_nil (citable_items evidence)), (is_nil sources);
      simpl; (split; [list_member|split; [intros; try discriminate; split_and!; auto|intuition discriminate]]). }
  match goal with |- exists g, validate_grounded ?x = _ /\ _ => exists x end.
  split; [|simpl; rewrite eqb_true; split; [exact Hsel|by intros ->]].
  unfold validate_grounded. cbn [gr_selected gr_reason_code gr_require_knowledge_source gr_require_business_source
    gr_context_evidence_count gr_eligible_knowledge_count gr_group_counts gr_knowledge_observations
    gr_business_observations gr_unique_business_sources gr_comparison_complete].
  rewrite (raise_if_false (negb (r in? reason_codes))) by (by rewrite (proj2 (mem_true r reason_codes))).
  rewrite raise_if_false by (apply existsb_false_iff; intros n Hn; apply Z.ltb_ge; unfold count in *;
    repeat (apply elem_of_cons in Hn as [->|Hn]; [lia|]); by apply elem_of_nil in Hn).
  rewrite raise_if_false.
  2:{ rewrite neqb_false. destruct (r ==? "selected") eqn:E; [|done]. to_prop. apply Hsel in E as (_ & _ & _ & _ & E).
      rewrite <- !is_nil_false in E. simpl. destruct E as [-> | ->]; simpl; [done|by rewrite orb_true_r]. }
  rewrite raise_if_false by (by rewrite neqb_false).
  rewrite raise_if_false.
  2:{ rewrite neqb_false. apply partition_counts; [apply sorted_set_nodup|]. intros x Hx.
      apply elem_of_sorted_set, list_elem_of_fmap. eauto. }
  rewrite raise_if_false; [done|]. apply existsb_false_iff. intros gc (g & -> & _)%list_elem_of_fmap.
  apply Z.ltb_ge. simpl. unfold count. lia.
Qed.
End synthesis.
