(* ===== verification/ProposalAssembly.v ===== *)
(** * Proposal assembly and eligibility (agent/proposal_assembler.py,
      agent/schemas.py)

    When the ledger says that all obligations are met, the runtime assembles a
    proposal: its arguments are read from the admission and from the bound
    observations, never from the model's text.  Before the proposal is routed to
    a human the policy gate evaluates it again from the stored payloads.  This
    file models both and proves that the gate accepts only proposals whose every
    part is bound to current, in-scope observations, and that it accepts what
    the assembler built.

    The stored payloads are read back by Pydantic; [PayloadModels] stands for
    that reading, and a failed validation is [None].  [_canonical_hash],
    [_parse_time], [_observation_scope] and [_source_ids] of the module are word
    for word those of agent/obligations.py and are taken from [Obligations].
    [now] is an aware timestamp, given by its instant. *)
From Stdlib Require Import Ascii.
From S2P Require Import Prelude PyValue Sha256 CanonicalJson ActionSpecs Obligations Synthesis.
Local Open Scope string_scope.
Local Open Scope list_scope.
Local Open Scope Z_scope.

(** ** Candidates *)
Record CandidateResponse := mk_candidate {
  cand_answer : string;
  cand_action : string;
  cand_knowledge_chunk_ids : list string;
  cand_knowledge_citations : list CandidateCitation;
  cand_business_source_ids : list string;
  cand_material_claims : list MaterialClaim;
  proposed_arguments : pydict;
}.
Definition candidate_actions : list string :=
  ["answer"; "escalate"; "refund_proposal"; "api_key_revocation_proposal"; "entitlement_change_proposal"; "reject";
   "manual_takeover"].

Definition EscalationDraft (arguments : pydict) : res pydict :=
  raise ValidationError "extra field" when negb (forbid_extra ["reason"] arguments) ;;
  let? reason := str_field 5 2000 (dget "reason" arguments) in
  Ok [("reason", PyStr reason)].

(** [validate_typed_action_draft]: the arguments, parsed by the schema of the
    action. *)
Definition validate_typed_action_draft (action : string) (arguments : pydict) : res pydict :=
  if action ==? "escalate" then EscalationDraft arguments else
  match get_action_spec_by_proposal action with
  | Some spec => model_validate (proposal_schema spec) arguments
  | None =>
      raise ValueError (action +:+ " does not accept proposed_arguments") when negb (is_nil arguments) ;; Ok []
  end.

(** [CandidateResponse.model_validate] on well-typed parts. *)
Definition new_candidate_response (c : CandidateResponse) : res CandidateResponse :=
  let? arguments := validate_typed_action_draft (cand_action c) (proposed_arguments c) in
  raise ValidationError "action" when negb (cand_action c in? candidate_actions) ;;
  let? citations := map_res (fun x => new_candidate_citation (cc_citation_binding_id x)) (cand_knowledge_citations c) in
  let? claims := map_res new_material_claim (cand_material_claims c) in
  Ok {| cand_answer := cand_answer c; cand_action := cand_action c;
        cand_knowledge_chunk_ids := cand_knowledge_chunk_ids c;
        cand_knowledge_citations := citations;
        cand_business_source_ids := cand_business_source_ids c;
        cand_material_claims := claims;
        proposed_arguments := arguments |}.

Record ProposalEligibility := mk_eligibility {
  pe_eligible : bool;
  pe_action_type : option ActionType;
  pe_resource_type : option string;
  pe_resource_id : option string;
  pe_resource_version : option Z;
  pe_trusted_arguments : pydict;
  pe_observation_binding : list pydict;
  pe_citation_binding_ids : list string;
  pe_error_code : option string;
}.

(** Reading the stored payloads. *)
Class PayloadModels := {
  parse_admission : pydict -> option ActionAdmissionV2;
  parse_ledger : pydict -> option ActionObligationLedger;
}.

Section assembly.
Context `{PyRuntime} `{PayloadModels}.

Definition _denied_eligibility (spec : option ActionSpec) (error_code : string) : ProposalEligibility :=
  mk_eligibility false (action_type <$> spec) None None None [] [] [] (Some error_code).

Definition _proposal_action_spec (candidate : CandidateResponse) : option ActionSpec :=
  get_action_spec_by_proposal (cand_action candidate).

(** The observation of the run with this identity. *)
Definition names_observation (run_id observation_id : string) (item : pydict) : bool :=
  py_eq (item.["run_id"]) (PyStr run_id)
  && (py_eq (item.["observation_id"]) (PyStr observation_id)
      || (negb (truthy (item.["observation_id"])) && py_eq (item.["tool_call_id"]) (PyStr observation_id))).

Definition _bound_observation (ledger : ActionObligationLedger) (observation_id tool_name : string)
    (observations : list pydict) : option pydict :=
  match List.filter (fun item => names_observation (led_run_id ledger) observation_id item
                                 && py_eq (item.["tool_name"]) (PyStr tool_name)) observations with
  | [item] => Some item
  | _ => None
  end.

(** The citations and business sources the ledger binds. *)
Definition knowledge_bindings (ledger : ActionObligationLedger) : list string :=
  concat (map (fun e => match ent_binding e with
                        | Some b => if ent_kind e ==? Knowledge then citation_binding_ids b else []
                        | None => []
                        end) (led_obligations ledger)).
Definition business_sources (ledger : ActionObligationLedger) : list string :=
  concat (map (fun e => match ent_binding e with
                        | Some b => if ent_kind e ==? Knowledge then [] else source_ids b
                        | None => []
                        end) (led_obligations ledger)).
(** The citations and sources the claims use. *)
Definition claim_citations (claims : list MaterialClaim) : list string := concat (map mc_citation_binding_ids claims).
Definition claim_sources (claims : list MaterialClaim) : list string := concat (map mc_observation_source_ids claims).
(** [xs <= ys] on sets *)
Definition subset_of (xs ys : list string) : bool := forallb (fun x => x in? ys) xs.

(** ** Evaluation *)
Record _EligibilityContext := mk_context {
  ctx_action_spec : ActionSpec;
  ctx_admission : ActionAdmissionV2;
  ctx_ledger : ActionObligationLedger;
  ctx_effective_now : Z;
  ctx_claim_citations : list string;
}.

Definition _validate_candidate_context (candidate : CandidateResponse) (admission_payload ledger_payload : option pydict)
    (now : Z) : _EligibilityContext + ProposalEligibility :=
  match _proposal_action_spec candidate with
  | None => inr (_denied_eligibility None "not_proposal")
  | Some spec =>
      let denied code := inr (_denied_eligibility (Some spec) code) in
      match parse_admission (default [] admission_payload) with
      | None => denied "proposal_action_admission_missing"
      | Some admission =>
      match parse_ledger (default [] ledger_payload) with
      | None => denied "proposal_obligation_ledger_missing"
      | Some ledger =>
          if (adm_status admission !=? AdmAdmitted) || (adm_action_type admission !=? Some (action_type spec))
             || (led_action_type ledger !=? action_type spec) || is_empty_str (led_run_id ledger)
          then denied "proposal_action_binding_mismatch"
          else if negb (all_obligations_satisfied ledger) then
            denied (if existsb (fun e => ent_status e ==? Stale) (led_obligations ledger)
                    then "proposal_resource_observation_stale" else "proposal_obligation_not_satisfied")
          else
            let arguments := proposed_arguments candidate in
            let expected := map target_field (proposal_fields spec) in
            if negb (subset_of (map fst arguments) expected && subset_of expected (map fst arguments))
            then denied "proposal_argument_contract_mismatch"
            else match model_validate (proposal_schema spec) arguments with
            | Err _ => denied "proposal_argument_schema_invalid"
            | Ok validated =>
                if negb (py_eq (PyDict validated) (PyDict arguments)) then denied "proposal_argument_not_canonical"
                else
                  let citations := claim_citations (cand_material_claims candidate) in
                  let sources := claim_sources (cand_material_claims candidate) in
                  if is_nil (knowledge_bindings ledger) then denied "proposal_knowledge_evidence_missing"
                  else if is_nil citations || negb (subset_of citations (knowledge_bindings ledger))
                  then denied "proposal_claim_citation_missing"
                  else if is_nil sources || negb (subset_of sources (business_sources ledger))
                  then denied "proposal_business_source_binding_missing"
                  else inl (mk_context spec admission ledger now citations)
            end
      end
      end
  end.

(** The dictionary the gate publishes for one bound observation. *)
Definition projected_binding (binding : ObligationBinding) (observation : pydict) : pydict :=
  [("tool_name", PyStr (tool_name binding));
   ("tool_call_id", observation.["tool_call_id"]);
   ("invocation_id", PyStr (invocation_id binding));
   ("observation_id", PyStr (observation_id binding));
   ("observation_content_hash", PyStr (observation_content_hash binding));
   ("turn_group_id", observation.["turn_group_id"]);
   ("status", PyStr "ok");
   ("observed_at", observation.["observed_at"]);
   ("source_refs", dget_or "source_refs" (PyList []) observation)].

Definition entry_of (ledger : ActionObligationLedger) (id : string) : option ObligationEntry :=
  find_first (fun e => ent_obligation_id e ==? id) (led_obligations ledger).

Definition fresh_until_passed (until : option datetime) (now : Z) : bool :=
  match until with None => true | Some t => instant t <? now end.

(** What one obligation contributes: its projected binding and, for a resource,
    the identity (field, id, version). *)
Definition checked : Type := pydict * option (string * string * Z).

(** The checks of one obligation, in the order of the source: the first failed
    one gives the error code. *)
Definition _observed_hash (observation : pydict) : res string :=
  let named := py_or (observation.["observation_content_hash"]) (observation.["content_hash"]) in
  if truthy named then Ok (py_str named) else _canonical_hash observation.

Definition check_obligation (context : _EligibilityContext) (observations : list pydict) (o : EvidenceObligationSpec)
    : res (checked + string) :=
  let admission := ctx_admission context in
  let now := ctx_effective_now context in
  match entry_of (ctx_ledger context) (obligation_id o) ≫= ent_binding with
  | None => Ok (inr "proposal_observation_binding_missing")
  | Some binding =>
  match _bound_observation (ctx_ledger context) (observation_id binding) (tool_name binding) observations with
  | None => Ok (inr "proposal_resource_observation_mismatch")
  | Some observation =>
  match observation.["data"] with
  | PyDict data =>
      let? scope := _observation_scope observation in
      if negb (py_eq (observation.["status"]) (PyStr "ok")) || negb (same_scope admission scope)
         || negb (same_scope admission (bind_tenant_id binding, bind_customer_id binding, bind_scope_hash binding))
      then Ok (inr "proposal_observation_scope_mismatch") else
      let? observed_hash := _observed_hash observation in
      if observed_hash !=? observation_content_hash binding then Ok (inr "proposal_observation_content_mismatch")
      else if is_nil (source_ids binding) || negb (subset_of (source_ids binding) (_source_ids observation))
      then Ok (inr "proposal_observation_source_mismatch")
      else if negb (fields_present o data) || negb (fields_truthy o data)
      then Ok (inr "proposal_observation_data_incomplete")
      else if negb (status_allowed o data) then Ok (inr "proposal_resource_status_conflict")
      else if require_freshness o
              && (negb (py_eq (observation.["freshness_status"]) (PyStr "fresh"))
                  || (freshness_status binding !=? "fresh")
                  || fresh_until_passed (_parse_time (observation.["fresh_until"])) now
                  || fresh_until_passed (fresh_until binding) now)
      then Ok (inr "proposal_resource_observation_stale")
      else if negb (ref_matches o admission data) then Ok (inr "proposal_resource_observation_mismatch")
      else
        let projected := projected_binding binding observation in
        if kind o ==? Knowledge then
          Ok (inl (projected ++ [("index_version", data.["index_version"]);
                                 ("citation_binding_ids", str_list (sorted_set (ctx_claim_citations context)))], None))
        else match observed_resource_field o with
        | None => Ok (inl (projected, None))
        | Some field =>
            let resource_id := py_str (py_or (data.[field]) (PyStr "")) in
            match parse_int (default "" (bind_resource_version binding)) with
            | None => Ok (inr "proposal_resource_version_missing")
            | Some version =>
                Ok (inl (projected ++ [("resource_field", PyStr field); ("resource_id", PyStr resource_id);
                                       ("resource_version", PyInt version)],
                         Some (field, resource_id, version)))
            end
        end
  | _ => Ok (inr "proposal_observation_data_missing")
  end
  end
  end.

(** The loop over the obligations; the first resource is the primary one. *)
Fixpoint check_obligations (context : _EligibilityContext) (observations : list pydict) (values : list pydict)
    (primary : option (string * string * Z)) (os : list EvidenceObligationSpec)
    : res ((list pydict * option (string * string * Z)) + string) :=
  match os with
  | [] => Ok (inl (values, primary))
  | o :: os =>
      let? r := check_obligation context observations o in
      match r with
      | inr code => Ok (inr code)
      | inl (projected, resource) =>
          check_obligations context observations (values ++ [projected])
            (match primary with None => resource | _ => primary end) os
      end
  end.

Record _ValidatedObservationBindings := mk_bindings {
  vb_values : list pydict;
  vb_resource_type : string;
  vb_resource_id : string;
  vb_resource_version : Z;
}.
Definition _validate_observation_bindings (context : _EligibilityContext) (observations : list pydict)
    : res (_ValidatedObservationBindings + string) :=
  let? r := check_obligations context observations [] None (obligations (ctx_action_spec context)) in
  Ok match r with
     | inr code => inr code
     | inl (values, Some (field, id, version)) =>
         if is_empty_str id then inr "proposal_resource_identity_missing"
         else inl (mk_bindings values field id version)
     | inl (_, None) => inr "proposal_resource_identity_missing"
     end.

(** The value a field of the proposal must have. *)
Definition expected_value (context : _EligibilityContext) (observations : list pydict) (field : ProposalFieldBinding)
    : res (pyval + string) :=
  match source field with
  | FromAdmission => Ok (inl ((extracted_arguments (ctx_admission context)).[source_path field]))
  | FromRequestReason =>
      Ok (inl (match request_reason (ctx_admission context) with Some r => PyStr r | None => PyNone end))
  | FromObservation =>
      let! entry := find_first (fun e => Some (ent_obligation_id e) ==? binding_obligation_id field)
                      (led_obligations (ctx_ledger context)) else StopIteration in
      match ent_binding entry with
      | None => Ok (inr "proposal_observation_binding_missing")
      | Some b =>
          match _bound_observation (ctx_ledger context) (observation_id b) (tool_name b) observations with
          | Some observation => let? v := data_get observation (source_path field) in Ok (inl v)
          | None => Ok (inl PyNone)
          end
      end
  end.
Definition field_mismatch (field : ProposalFieldBinding) : string :=
  "proposal_field_binding_mismatch:" +:+ target_field field.
Fixpoint field_binding_error (candidate : CandidateResponse) (context : _EligibilityContext) (observations : list pydict)
    (fields : list ProposalFieldBinding) : res (option string) :=
  match fields with
  | [] => Ok None
  | field :: fields =>
      let? expected := expected_value context observations field in
      match expected with
      | inr code => Ok (Some code)
      | inl v =>
          if negb (py_eq ((proposed_arguments candidate).[target_field field]) v) then Ok (Some (field_mismatch field))
          else field_binding_error candidate context observations fields
      end
  end.
Definition _proposal_field_binding_error (candidate : CandidateResponse) (context : _EligibilityContext)
    (observations : list pydict) : res (option string) :=
  field_binding_error candidate context observations (proposal_fields (ctx_action_spec context)).

Definition evaluate_action_candidate_eligibility (candidate : CandidateResponse)
    (admission_payload ledger_payload : option pydict) (observations : list pydict) (now : Z) : res ProposalEligibility :=
  match _validate_candidate_context candidate admission_payload ledger_payload now with
  | inr denied => Ok denied
  | inl context =>
      let spec := ctx_action_spec context in
      let? bindings := _validate_observation_bindings context observations in
      match bindings with
      | inr code => Ok (_denied_eligibility (Some spec) code)
      | inl b =>
          let? error := _proposal_field_binding_error candidate context observations in
          match error with
          | Some code => Ok (_denied_eligibility (Some spec) code)
          | None =>
              Ok {| pe_eligible := true;
                    pe_action_type := Some (action_type spec);
                    pe_resource_type := Some (vb_resource_type b);
                    pe_resource_id := Some (vb_resource_id b);
                    pe_resource_version := Some (vb_resource_version b);
                    pe_trusted_arguments := proposed_arguments candidate;
                    pe_observation_binding := vb_values b;
                    pe_citation_binding_ids := sorted_set (ctx_claim_citations context);
                    pe_error_code := None |}
          end
      end
  end.

(** ** Assembly *)
Definition _observation_by_binding (field : ProposalFieldBinding) (ledger : ActionObligationLedger)
    (observations : list pydict) : res pydict :=
  let unsatisfied := ActionAssemblyError "proposal_obligation_not_satisfied" in
  let! entry := find_first (fun e => Some (ent_obligation_id e) ==? binding_obligation_id field) (led_obligations ledger)
    else unsatisfied in
  let! b := ent_binding entry else unsatisfied in
  raise unsatisfied when ent_status entry !=? Satisfied ;;
  match List.filter (names_observation (led_run_id ledger) (observation_id b)) observations with
  | [item] =>
      match item.["data"] with
      | PyDict data => Ok data
      | _ => Err (ActionAssemblyError "proposal_observation_data_missing")
      end
  | _ => Err (ActionAssemblyError "proposal_observation_binding_ambiguous")
  end.

Definition _proposal_value (field : ProposalFieldBinding) (admission : ActionAdmissionV2) (ledger : ActionObligationLedger)
    (observations : list pydict) : res pyval :=
  let? value :=
    match source field with
    | FromRequestReason => Ok (match request_reason admission with Some r => PyStr r | None => PyNone end)
    | FromAdmission => Ok ((extracted_arguments admission).[source_path field])
    | FromObservation =>
        let? data := _observation_by_binding field ledger observations in Ok (data.[source_path field])
    end in
  raise ActionAssemblyError ("proposal_field_missing:" +:+ target_field field) when
    is_none value || py_eq value (PyStr "") ;;
  Ok value.

Definition assemble_action_candidate (spec : ActionSpec) (admission : ActionAdmissionV2) (ledger : ActionObligationLedger)
    (observations : list pydict) (synthesis : BoundEvidenceSynthesis) : res CandidateResponse :=
  raise ActionAssemblyError "proposal_preconditions_not_satisfied" when
    (adm_status admission !=? AdmAdmitted) || (adm_action_type admission !=? Some (action_type spec))
    || (led_action_type ledger !=? action_type spec) || negb (all_obligations_satisfied ledger) ;;
  let claims := bs_material_claims synthesis in
  raise ActionAssemblyError "proposal_claim_binding_incomplete" when
    is_nil (knowledge_bindings ledger) || is_nil (business_sources ledger) || is_nil claims ;;
  raise ActionAssemblyError "proposal_citation_binding_invalid" when
    is_nil (claim_citations claims) || negb (subset_of (claim_citations claims) (knowledge_bindings ledger)) ;;
  raise ActionAssemblyError "proposal_business_binding_invalid" when
    is_nil (claim_sources claims) || negb (subset_of (claim_sources claims) (business_sources ledger)) ;;
  let? values := map_res (fun field => let? v := _proposal_value field admission ledger observations in
                                       Ok (target_field field, v)) (proposal_fields spec) in
  let? citations := map_res new_candidate_citation (sorted_set (claim_citations claims)) in
  new_candidate_response {|
    cand_answer := bs_answer synthesis;
    cand_action := proposal_action spec;
    cand_knowledge_chunk_ids := bs_knowledge_chunk_ids synthesis;
    cand_knowledge_citations := citations;
    cand_business_source_ids := sorted_set (claim_sources claims);
    cand_material_claims := claims;
    proposed_arguments := dmerge [] values;
  |}.
End assembly.

(** ** What eligibility means *)
Section eligibility.
Context `{PyRuntime} `{PayloadModels}.

Lemma bound_observation_spec l id tool obs x :
  _bound_observation l id tool obs = Some x ->
  x ∈ obs /\ x.["run_id"] = PyStr (led_run_id l) /\ x.["tool_name"] = PyStr tool /\
  names_observation (led_run_id l) id x = true /\
  forall y, y ∈ obs -> names_observation (led_run_id l) id y = true -> y.["tool_name"] = PyStr tool -> y = x.
Proof.
  unfold _bound_observation. set (f := fun item => _ && _). intros Hb.
  destruct (List.filter f obs) as [|z [|]] eqn:E; try done. injection Hb as ->.
  assert (forall y, y ∈ obs /\ f y = true <-> y = x) as Hf.
  { intros y. rewrite <- elem_of_lfilter, E. by rewrite list_elem_of_singleton. }
  destruct (proj2 (Hf x) eq_refl) as [Hin Hx]. unfold f in Hx. apply andb_true_iff in Hx as [Hn Ht].
  split_and!; [done| |by apply py_eq_str|done|].
  - unfold names_observation in Hn. apply andb_true_iff in Hn as [Hr _]. by apply py_eq_str.
  - intros y Hy Hn' Ht'. apply Hf. split; [done|]. unfold f. rewrite Hn', Ht'. simpl. apply eqb_refl.
Qed.
Lemma subset_of_true xs ys : subset_of xs ys = true <-> forall x, x ∈ xs -> x ∈ ys.
Proof. unfold subset_of. rewrite forallb_true_iff. by setoid_rewrite mem_true. Qed.

(** An obligation is bound: its entry names one observation of the run, of the
    admitted scope, with the recorded content, current at [now]. *)
Record obligation_bound (a : ActionAdmissionV2) (l : ActionObligationLedger) (obs : list pydict) (now : Z)
    (o : EvidenceObligationSpec) (b : ObligationBinding) (x data : pydict) : Prop := {
  ob_entry : exists e, entry_of l (obligation_id o) = Some e /\ ent_binding e = Some b;
  ob_observation : _bound_observation l (observation_id b) (tool_name b) obs = Some x;
  ob_data : x.["data"] = PyDict data;
  ob_status_ok : x.["status"] = PyStr "ok";
  ob_in_scope : in_scope a x;
  ob_binding_scope : bind_tenant_id b = adm_tenant_id a /\ bind_customer_id b = adm_customer_id a /\ bind_scope_hash b = adm_scope_hash a;
  ob_content : _observed_hash x = Ok (observation_content_hash b);
  ob_sources : source_ids b <> [] /\ forall s, s ∈ source_ids b -> s ∈ _source_ids x;
  ob_evidence : resource_evidence o a now x;
  ob_binding_fresh : require_freshness o = true ->
    freshness_status b = "fresh" /\ exists t, fresh_until b = Some t /\ now <= instant t;
}.

Lemma fresh_until_passed_false u now : fresh_until_passed u now = false <-> exists t, u = Some t /\ now <= instant t.
Proof.
  destruct u as [t|]; simpl; [|split; [done|by intros (? & ? & _)]]. rewrite Z.ltb_ge. split; [eauto|by intros (? & [= ->] & ?)].
Qed.

Lemma check_obligation_inl c obs o p r :
  check_obligation c obs o = Ok (inl (p, r)) ->
  exists b x data, obligation_bound (ctx_admission c) (ctx_ledger c) obs (ctx_effective_now c) o b x data /\
    forall field id version, r = Some (field, id, version) ->
      observed_resource_field o = Some field /\ id = py_str (py_or (data.[field]) (PyStr "")) /\
      parse_int (default "" (bind_resource_version b)) = Some version.
Proof.
  unfold check_obligation. intros Hc.
  destruct (entry_of _ _ ≫= ent_binding) as [b|] eqn:Eb; [|done]. apply bind_Some in Eb as (e & He & Eb).
  destruct (_bound_observation _ _ _ _) as [x|] eqn:Ex; [|done].
  destruct (x.["data"]) as [| | | | | | |data] eqn:Ed; try done.
  apply res_bind_ok in Hc as (scope & Hs & Hc).
  destruct (negb (py_eq _ _) || _ || _) eqn:E1; [done|]. rewrite !orb_false_iff, !negb_false_iff in E1.
  destruct E1 as [[Eok%py_eq_str Esc] Esb]. rewrite same_scope_true in Esc. apply same_scope_true in Esb. subst scope. injection Esb as B1 B2 B3.
  apply res_bind_ok in Hc as (h & Hh & Hc). destruct (h !=? _) eqn:E2; [done|]. rewrite neqb_false in E2. subst h.
  destruct (is_nil (source_ids b) || _) eqn:E3; [done|]. rewrite orb_false_iff, is_nil_false, negb_false_iff, subset_of_true in E3.
  destruct (negb (fields_present _ _) || _) eqn:E4; [done|]. rewrite orb_false_iff, !negb_false_iff in E4. destruct E4 as [E4 E5].
  destruct (negb (status_allowed _ _)) eqn:E6; [done|]. rewrite negb_false_iff in E6.
  destruct (require_freshness o && _) eqn:E7; [done|].
  destruct (negb (ref_matches _ _ _)) eqn:E8; [done|]. rewrite negb_false_iff in E8.
  assert (require_freshness o = true -> fresh x (ctx_effective_now c) /\ freshness_status b = "fresh" /\
            exists t, fresh_until b = Some t /\ ctx_effective_now c <= instant t) as Hfr.
  { intros Er. rewrite Er in E7. simpl in E7. rewrite !orb_false_iff, negb_false_iff, neqb_false, !fresh_until_passed_false in E7.
    destruct E7 as [[[F1%py_eq_str F2] F3] F4]. by split_and!. }
  exists b, x, data. split.
  - constructor; try done; [by exists e|..].
    + unfold resource_evidence. rewrite Ed. simpl. split_and!; [by apply Hfr|by apply fields_present_true|by apply fields_truthy_true|
        by apply status_allowed_true|done].
    + intros Er. by apply Hfr.
  - intros field id version ->. destruct (kind o ==? Knowledge); [done|]. destruct (observed_resource_field o) as [g|]; [|done].
    destruct (parse_int _) as [v|] eqn:Ev; [|done]. injection Hc as _ <- <- <-. done.
Qed.

Lemma check_obligations_inl c obs vs pr os vs' pr' :
  check_obligations c obs vs pr os = Ok (inl (vs', pr')) ->
  (forall o, o ∈ os -> exists p r, check_obligation c obs o = Ok (inl (p, r))) /\
  (pr' = pr \/ (pr = None /\ exists o p, o ∈ os /\ check_obligation c obs o = Ok (inl (p, pr')))).
Proof.
  revert vs pr. induction os as [|o os IH]; intros vs pr Hc; simpl in Hc.
  { injection Hc as <- <-. split; [by intros o []%elem_of_nil|by left]. }
  apply res_bind_ok in Hc as ([[p r]|code] & Ho & Hc); [|done]. destruct (IH _ _ Hc) as [Hall Hp]. split.
  - intros o' [->|Hin]%elem_of_cons; eauto.
  - destruct pr as [pr|].
    + left. by destruct Hp as [->|[? _]].
    + right. split; [done|]. destruct Hp as [->|(-> & o' & p' & Hin & Ho')].
      * exists o, p. split; [by left|done].
      * exists o', p'. split; [by right|done].
Qed.

(** The fields of a registered action that copy an observation name one of its
    obligations; a resource identity comes from a business obligation. *)
Lemma registered_fields spec name f :
  get_action_spec_by_proposal name = Some spec -> f ∈ proposal_fields spec -> source f = FromObservation ->
  exists o, o ∈ obligations spec /\ binding_obligation_id f = Some (obligation_id o).
Proof.
  unfold get_action_spec_by_proposal. intros [[a Ha] _]%index_get_spec Hf Hs.
  assert (forallb (fun f => match source f with
                            | FromObservation => existsb (fun o => binding_obligation_id f ==? Some (obligation_id o)) (obligations spec)
                            | _ => true end) (proposal_fields spec) = true) as Hb.
  { unfold ACTION_SPECS in Ha. repeat (apply elem_of_cons in Ha as [E|Ha]; [injection E as -> ->; vm_compute; reflexivity|]).
    by apply elem_of_nil in Ha. }
  rewrite forallb_true_iff in Hb. specialize (Hb f Hf). rewrite Hs, existsb_true_iff in Hb. destruct Hb as (o & Ho & E).
  rewrite eqb_true in E. eauto.
Qed.
Lemma entry_of_field l f o :
  binding_obligation_id f = Some (obligation_id o) ->
  find_first (fun e => Some (ent_obligation_id e) ==? binding_obligation_id f) (led_obligations l) = entry_of l (obligation_id o).
Proof.
  intros ->. unfold entry_of. induction (led_obligations l) as [|e es IH]; [done|]. simpl. rewrite IH.
  destruct (decide (ent_obligation_id e = obligation_id o)) as [E|E].
  - rewrite (proj2 (eqb_true (Some _) _)) by congruence. by rewrite (proj2 (eqb_true (ent_obligation_id e) _)).
  - rewrite (proj2 (eqb_false (Some _) _)) by congruence. by rewrite (proj2 (eqb_false (ent_obligation_id e) _)).
Qed.

(** Where the value of a field comes from. *)
Definition provided (a : ActionAdmissionV2) (l : ActionObligationLedger) (obs : list pydict) (now : Z) (spec : ActionSpec)
    (f : ProposalFieldBinding) (v : pyval) : Prop :=
  match source f with
  | FromAdmission => v = (extracted_arguments a).[source_path f]
  | FromRequestReason => v = match request_reason a with Some r => PyStr r | None => PyNone end
  | FromObservation => exists o b x data, o ∈ obligations spec /\ obligation_bound a l obs now o b x data /\ v = data.[source_path f]
  end.

Lemma field_binding_none cand c obs fields :
  field_binding_error cand c obs fields = Ok None ->
  forall f, f ∈ fields -> exists v, expected_value c obs f = Ok (inl v) /\ py_eq ((proposed_arguments cand).[target_field f]) v = true.
Proof.
  induction fields as [|f fields IH]; intros He g Hg; [by apply elem_of_nil in Hg|]. simpl in He.
  apply res_bind_ok in He as ([v|code] & Hv & He); [|done]. destruct (negb _) eqn:E; [done|]. rewrite negb_false_iff in E.
  apply elem_of_cons in Hg as [->|Hg]; eauto.
Qed.

Lemma context_inl cand ap lp now c :
  _validate_candidate_context cand ap lp now = inl c ->
  get_action_spec_by_proposal (cand_action cand) = Some (ctx_action_spec c) /\
  parse_admission (default [] ap) = Some (ctx_admission c) /\ parse_ledger (default [] lp) = Some (ctx_ledger c) /\
  ctx_effective_now c = now /\ ctx_claim_citations c = claim_citations (cand_material_claims cand) /\
  adm_status (ctx_admission c) = AdmAdmitted /\ adm_action_type (ctx_admission c) = Some (action_type (ctx_action_spec c)) /\
  led_action_type (ctx_ledger c) = action_type (ctx_action_spec c) /\ all_obligations_satisfied (ctx_ledger c) = true /\
  (forall k, k ∈ map fst (proposed_arguments cand) <-> k ∈ map target_field (proposal_fields (ctx_action_spec c))) /\
  (exists d, model_validate (proposal_schema (ctx_action_spec c)) (proposed_arguments cand) = Ok d) /\
  claim_citations (cand_material_claims cand) <> [] /\
  (forall x, x ∈ claim_citations (cand_material_claims cand) -> x ∈ knowledge_bindings (ctx_ledger c)) /\
  claim_sources (cand_material_claims cand) <> [] /\
  (forall x, x ∈ claim_sources (cand_material_claims cand) -> x ∈ business_sources (ctx_ledger c)).
Proof.
  unfold _validate_candidate_context, _proposal_action_spec. intros Hc.
  destruct (get_action_spec_by_proposal _) as [spec|] eqn:Es; [|done].
  destruct (parse_admission _) as [a|] eqn:Ea; [|done]. destruct (parse_ledger _) as [l|] eqn:El; [|done].
  destruct (_ || is_empty_str _) eqn:E1; [done|]. rewrite !orb_false_iff, !neqb_false in E1.
  destruct (negb (all_obligations_satisfied _)) eqn:E2; [done|]. rewrite negb_false_iff in E2.
  destruct (negb (_ && _)) eqn:E3; [done|]. rewrite negb_false_iff, andb_true_iff, !subset_of_true in E3.
  destruct (model_validate _ _) as [d|] eqn:Em; [|done]. destruct (negb (py_eq _ _)); [done|].
  destruct (is_nil (knowledge_bindings l)); [done|].
  destruct (is_nil (claim_citations _) || _) eqn:E4; [done|]. rewrite orb_false_iff, is_nil_false, negb_false_iff, subset_of_true in E4.
  destruct (is_nil (claim_sources _) || _) eqn:E5; [done|]. rewrite orb_false_iff, is_nil_false, negb_false_iff, subset_of_true in E5.
  injection Hc as <-. simpl. destruct E1 as [[[? ?] ?] ?], E3, E4, E5. split_and!; try done; [|eauto].
  intros k. split; auto.
Qed.

(** Only fully bound proposals are eligible.  When the gate finds a candidate
    eligible, its action is registered and admitted, every obligation of the
    action is met by exactly one observation of this run (of the admitted scope,
    successful, with the recorded content, complete and still fresh), the
    arguments are exactly the fields of the action and each has the value of its
    source (never one of the model's), every cited passage and business source
    is one the ledger bound, and the published resource is the one observed. *)
Theorem eligible_proposal_is_bound cand ap lp obs now e :
  evaluate_action_candidate_eligibility cand ap lp obs now = Ok e -> pe_eligible e = true ->
  exists spec a l,
    get_action_spec_by_proposal (cand_action cand) = Some spec /\
    parse_admission (default [] ap) = Some a /\ parse_ledger (default [] lp) = Some l /\
    adm_status a = AdmAdmitted /\ adm_action_type a = Some (action_type spec) /\ led_action_type l = action_type spec /\
    (forall o, o ∈ obligations spec -> exists b x data, obligation_bound a l obs now o b x data) /\
    (forall k, k ∈ map fst (proposed_arguments cand) <-> k ∈ map target_field (proposal_fields spec)) /\
    (forall f, f ∈ proposal_fields spec ->
       exists v, provided a l obs now spec f v /\ py_eq ((proposed_arguments cand).[target_field f]) v = true) /\
    (claim_citations (cand_material_claims cand) <> [] /\
     forall x, x ∈ claim_citations (cand_material_claims cand) -> x ∈ knowledge_bindings l) /\
    (claim_sources (cand_material_claims cand) <> [] /\
     forall x, x ∈ claim_sources (cand_material_claims cand) -> x ∈ business_sources l) /\
    pe_trusted_arguments e = proposed_arguments cand /\
    exists o b x data field version, o ∈ obligations spec /\ obligation_bound a l obs now o b x data /\
      observed_resource_field o = Some field /\ pe_resource_type e = Some field /\
      pe_resource_id e = Some (py_str (data.[field])) /\ pe_resource_version e = Some version /\
      parse_int (default "" (bind_resource_version b)) = Some version.
Proof.
  unfold evaluate_action_candidate_eligibility. intros He Hel.
  destruct (_validate_candidate_context _ _ _ _) as [c|d] eqn:Ec.
  2:{ injection He as <-. unfold _validate_candidate_context in Ec. repeat (case_match; simplify_eq; try done). }
  apply context_inl in Ec as (Es & Ea & El & En & Ecc & H1 & H2 & H3 & H4 & H5 & _ & H6 & H7 & H8 & H9).
  apply res_bind_ok in He as ([b|code] & Hb & He); [|by injection He as <-].
  apply res_bind_ok in He as ([code|] & Hf & He); [by injection He as <-|]. injection He as <-.
  unfold _validate_observation_bindings in Hb. apply res_bind_ok in Hb as ([[vs pr]|code] & Hcs & Hb); [|done].
  destruct (check_obligations_inl _ _ _ _ _ _ _ Hcs) as [Hall Hpr].
  assert (forall o, o ∈ obligations (ctx_action_spec c) ->
            exists b x data, obligation_bound (ctx_admission c) (ctx_ledger c) obs now o b x data) as Hobl.
  { intros o Ho. destruct (Hall o Ho) as (p & r & Hr). destruct (check_obligation_inl _ _ _ _ _ Hr) as (bb & x & data & Hob & _).
    rewrite <- En. eauto. }
  exists (ctx_action_spec c), (ctx_admission c), (ctx_ledger c). split_and!; try done.
  2:{ destruct pr as [[[field id] version]|]; [|done]. destruct (is_empty_str id) eqn:Eid; [done|]. injection Hb as <-. simpl.
      destruct Hpr as [?|(_ & o & p & Ho & Hr)]; [done|].
      destruct (check_obligation_inl _ _ _ _ _ Hr) as (bb & x & data & Hob & Hres). rewrite En in Hob.
      destruct (Hres _ _ _ eq_refl) as (Ef & -> & Ev). exists o, bb, x, data, field, version. split_and!; try done. do 2 f_equal.
      unfold py_or in *. destruct (truthy _); [done|]. by simpl in Eid. }
  intros f Hin. destruct (field_binding_none _ _ _ _ Hf f Hin) as (v & Hv & Hpe). exists v. split; [|done].
  unfold expected_value, provided in *. destruct (source f) eqn:Esrc; [by injection Hv as <-| |by injection Hv as <-].
  destruct (registered_fields _ _ _ Es Hin Esrc) as (o & Ho & Eo). rewrite (entry_of_field _ _ _ Eo) in Hv.
  destruct (Hobl o Ho) as (bb & x & data & Hob). pose proof Hob as [(en & Hen & Hbb) Hx Hd _ _ _ _ _ _ _].
  rewrite Hen, Hbb, Hx in Hv. apply res_bind_ok in Hv as (w & Hw & [= ->]). unfold data_get, dget_or in Hw.
  unfold dget_or in Hd. destruct (dget "data" x) as [dv|]; [|done]. simpl in Hd, Hw. subst dv. injection Hw as <-. eauto 10.
Qed.

(** ** Assembled candidates are eligible *)

(** Every observation of the run has an identity of its own. *)
Definition identified (obs : list pydict) (run : string) : Prop :=
  forall x, x ∈ obs -> x.["run_id"] = PyStr run ->
    exists id, id <> "" /\ x.["observation_id"] = PyStr id /\ List.filter (names_observation run id) obs = [x].

Lemma filter_andb {A} (f g : A -> bool) l : List.filter (fun x => f x && g x) l = List.filter g (List.filter f l).
Proof. induction l as [|x l IH]; simpl; [done|]. destruct (f x); simpl; [destruct (g x)|]; by rewrite IH. Qed.
Lemma identified_bound l id tool obs x :
  List.filter (names_observation (led_run_id l) id) obs = [x] -> x.["tool_name"] = PyStr tool ->
  _bound_observation l id tool obs = Some x.
Proof. intros Hf Ht. unfold _bound_observation. rewrite filter_andb, Hf. simpl. by rewrite Ht, (proj2 (py_eq_str _ _)). Qed.

(** The observation a satisfied entry was built from, with its binding. *)
Record built_from (o : EvidenceObligationSpec) (a : ActionAdmissionV2) (obs : list pydict) (run : string) (t : Z)
    (e : ObligationEntry) (x : pydict) (b : ObligationBinding) : Prop := {
  bf_in : x ∈ obs;
  bf_run : x.["run_id"] = PyStr run;
  bf_tool : exists c, x.["tool_name"] = PyStr c;
  bf_ok : x.["status"] = PyStr "ok";
  bf_scope : in_scope a x;
  bf_kind : ent_kind e = kind o;
  bf_entry : ent_binding e = Some b;
  bf_binding : exists rid ev ci, _base_binding x (adm_tenant_id a) (adm_customer_id a) (adm_scope_hash a) rid ev ci = Ok b;
  bf_sources : _source_ids x <> [];
  bf_evidence : if kind o ==? Knowledge then is_Some (evidence_of (as_dict (x.["data"])))
                else resource_evidence o a t x /\
                     forall f, observed_resource_field o = Some f -> py_str (py_or ((as_dict (x.["data"])).[f]) (PyStr "")) <> "";
}.

Lemma judge_resource_built o a t obs run e x :
  judge_resource o a t x = Ok e -> ent_status e = Satisfied -> x ∈ obs -> x.["run_id"] = PyStr run ->
  (exists c, x.["tool_name"] = PyStr c) -> kind o <> Knowledge -> exists b, built_from o a obs run t e x b.
Proof.
  intros Hj Hs Hin Hr Ht Hk. destruct (judge_resource_satisfied _ _ _ _ _ Hj Hs) as (Hok & Hsc & Hev & b & Hb & _ & _ & _ & Hsrc & Hne).
  unfold judge_resource in Hj. rewrite Hok, Hsc in Hj. cbn [res_bind] in Hj.
  change (negb (py_eq (PyStr "ok") (PyStr "ok"))) with false in Hj. rewrite (proj2 (same_scope_true a _) eq_refl) in Hj. cbn [negb] in Hj.
  destruct (if require_freshness o then _ else _); [by simplify_eq|].
  repeat (case_match; [by simplify_eq|]). apply res_bind_ok in Hj as (b' & Hb' & [= <-]). simpl in Hb. injection Hb as ->.
  exists b. constructor; try done; [eauto|].
  destruct (kind o ==? Knowledge) eqn:Ek; [by rewrite eqb_true in Ek|]. split; [done|]. intros f Ef.
  match goal with HH : match match observed_resource_field o with _ => _ end with _ => _ end = false |- _ =>
    rewrite Ef in HH; by apply is_empty_str_false in HH end.
Qed.
Lemma judge_knowledge_built o a t bs at_ obs run e x :
  judge_knowledge o a t bs at_ x = Ok e -> ent_status e = Satisfied -> x ∈ obs -> x.["run_id"] = PyStr run ->
  (exists c, x.["tool_name"] = PyStr c) -> kind o = Knowledge -> exists b, built_from o a obs run t e x b.
Proof.
  intros Hj Hs Hin Hr Ht Hk.
  destruct (judge_knowledge_satisfied _ _ _ _ _ _ _ Hj Hs) as (Hok & Hsc & (items & idx & _ & _ & _ & Hev & _) & b & Hb & _ & _ & _ & Hsrc & Hne).
  unfold judge_knowledge in Hj. rewrite Hok, Hsc in Hj. cbn [res_bind] in Hj.
  change (negb (py_eq (PyStr "ok") (PyStr "ok"))) with false in Hj. rewrite (proj2 (same_scope_true a _) eq_refl) in Hj. cbn [negb] in Hj.
  case_match; [by simplify_eq|]. rewrite Hev in Hj. case_match; [by simplify_eq|]. apply res_bind_ok in Hj as (ids & Hids & Hj).
  case_match; [by simplify_eq|]. apply res_bind_ok in Hj as (b' & Hb' & [= <-]). simpl in Hb. injection Hb as ->.
  exists b. constructor; try done; [eauto|]. rewrite Hk. by eexists.
Qed.
Lemma satisfied_built spec a obs run t bs at_ o e :
  obligation_entry spec a obs run t bs at_ o = Ok e -> ent_status e = Satisfied -> exists x b, built_from o a obs run t e x b.
Proof.
  unfold obligation_entry. destruct (kind o ==? Knowledge) eqn:Ek; intros He Hs.
  - rewrite eqb_true in Ek. apply knowledge_entry_cases in He as (_ & _ & He). destruct (He Hs) as (x & Hin & Hr & Ht & Hj).
    exists x. eapply judge_knowledge_built; eauto.
  - rewrite eqb_false in Ek. apply resource_entry_cases in He as (_ & He & _). destruct (He Hs) as (x & Hin & Hr & (c & _ & Ht) & Hj).
    exists x. eapply judge_resource_built; eauto.
Qed.

Lemma base_binding_identity x t c h rid ev ci b id tool :
  _base_binding x t c h rid ev ci = Ok b -> x.["observation_id"] = PyStr id -> id <> "" -> x.["tool_name"] = PyStr tool ->
  observation_id b = id /\ tool_name b = tool /\ _observed_hash x = Ok (observation_content_hash b) /\
  fresh_until b = _parse_time (x.["fresh_until"]) /\
  (x.["freshness_status"] = PyStr "fresh" -> freshness_status b = "fresh").
Proof.
  unfold _base_binding. intros Hb Hid Hne Ht. apply res_bind_ok in Hb as (hash & Hh & Hb). apply res_bind_ok in Hb as (v & _ & Hb).
  apply raise_if_ok in Hb as [_ [= <-]]. cbn [observation_id tool_name observation_content_hash fresh_until freshness_status].
  split_and!.
  - rewrite Hid. unfold py_or at 1. simpl. by rewrite (proj2 (is_empty_str_false id)).
  - unfold dget_or in *. destruct (dget "tool_name" x); simpl in *; [by subst|done].
  - exact Hh.
  - done.
  - intros Hf. unfold dget_or in *. destruct (dget "freshness_status" x); simpl in *; [by subst|done].
Qed.

(** The shape of a registered knowledge obligation. *)
Definition plain_knowledge (o : EvidenceObligationSpec) : bool :=
  subset_of (required_data_fields o) ["evidence"; "index_version"] && is_nil (required_truthy_data_fields o)
  && is_nil (allowed_resource_statuses o) && negb (require_freshness o) && isNone (resource_ref_argument o).
Definition checkable (o : EvidenceObligationSpec) : bool :=
  if kind o ==? Knowledge then plain_knowledge o else isSome (observed_resource_field o).

Lemma evidence_of_fields o data : plain_knowledge o = true -> is_Some (evidence_of data) -> fields_present o data = true.
Proof.
  unfold plain_knowledge. rewrite !andb_true_iff, subset_of_true. intros ((((Hf & _) & _) & _) & _) [[items idx] He].
  unfold evidence_of in He. destruct (data.["evidence"]) as [| | | | |l| |] eqn:Ee; try done.
  destruct (_ || _ || _) eqn:E; [done|]. rewrite !orb_false_iff, is_empty_str_false in E. destruct E as [_ E].
  unfold fields_present. rewrite negb_true_iff, existsb_false_iff. intros f Hin. apply Hf in Hin.
  apply elem_of_cons in Hin as [->|Hin]; [by rewrite Ee|]. apply list_elem_of_singleton in Hin as ->.
  destruct (data.["index_version"]); try done.
Qed.

Lemma built_checks c obs t o e x b :
  built_from o (ctx_admission c) obs (led_run_id (ctx_ledger c)) t e x b -> identified obs (led_run_id (ctx_ledger c)) ->
  entry_of (ctx_ledger c) (obligation_id o) = Some e -> checkable o = true ->
  (require_freshness o = true -> forall u, fresh_until b = Some u -> ctx_effective_now c <= instant u) ->
  (kind o <> Knowledge -> is_Some (parse_int (default "" (bind_resource_version b)))) ->
  exists p r, check_obligation c obs o = Ok (inl (p, r)) /\
    (kind o <> Knowledge -> exists f i v, r = Some (f, i, v) /\ i <> "") /\ (kind o = Knowledge -> r = None).
Proof.
  intros [Hin Hr [tool Ht] Hok Hsc Hk Hb (rid & ev & ci & Hbb) Hsrc Hev] Hid He Hck Hfr Hver.
  destruct (Hid x Hin Hr) as (id & Hne & Hxid & Hf).
  destruct (base_binding_identity _ _ _ _ _ _ _ _ _ _ Hbb Hxid Hne Ht) as (Ei & Et & Eh & Eu & Es).
  apply base_binding_fields in Hbb as (S1 & S2 & S3 & S4 & _ & _ & _).
  unfold check_obligation. rewrite He. cbn [mbind option_bind]. rewrite Hb, Ei, Et, (identified_bound _ _ _ _ _ Hf Ht).
  assert (exists data, x.["data"] = PyDict data) as [data Hd].
  { unfold checkable in Hck. destruct (kind o ==? Knowledge).
    - destruct Hev as [[items idx] Hev]. destruct (x.["data"]); try done. eauto.
    - apply isSome_true in Hck as [f Ef]. destruct Hev as [_ Hev]. specialize (Hev f Ef). destruct (x.["data"]); try done. eauto. }
  rewrite Hd. rewrite Hd in Hev. cbn [as_dict] in Hev. rewrite Hsc. cbn [res_bind]. rewrite Hok.
  rewrite S1, S2, S3, (proj2 (same_scope_true (ctx_admission c) _) eq_refl).
  change (py_eq (PyStr "ok") (PyStr "ok")) with true. cbn [negb orb]. rewrite Eh. cbn [res_bind].
  rewrite (proj2 (neqb_false _ _) eq_refl), S4, (proj2 (is_nil_false _) Hsrc). cbn [orb].
  rewrite (proj2 (subset_of_true _ _)) by done. cbn [negb].
  assert (fields_present o data = true /\ fields_truthy o data = true /\ status_allowed o data = true /\
          ref_matches o (ctx_admission c) data = true /\ (require_freshness o = true -> fresh x t)) as (F1 & F2 & F3 & F4 & F5).
  { unfold checkable in Hck. destruct (kind o ==? Knowledge).
    - pose proof (evidence_of_fields _ _ Hck Hev). unfold plain_knowledge in Hck.
      rewrite !andb_true_iff, !is_nil_true, negb_true_iff, isNone_true in Hck. destruct Hck as ((((_ & H2) & H3) & H4) & H5).
      unfold fields_truthy, status_allowed, ref_matches. rewrite H2, H3, H5, H4. by split_and!.
    - destruct Hev as [(E1 & E2 & E3 & E4 & E5) _]. rewrite Hd in E2, E3, E4, E5. simpl in E2, E3, E4, E5. split_and!; try done.
      + unfold fields_present. rewrite negb_true_iff, existsb_false_iff. intros f Hf'. specialize (E2 f Hf'). by destruct (data.[f]).
      + unfold fields_truthy. rewrite negb_true_iff, existsb_false_iff. intros f Hf'. by rewrite (E3 f Hf').
      + unfold status_allowed. rewrite orb_true_iff, is_nil_true, mem_true. done. }
  rewrite F1, F2, F3, F4. cbn [negb orb].
  assert (require_freshness o && (negb (py_eq (x.["freshness_status"]) (PyStr "fresh")) || (freshness_status b !=? "fresh")
            || fresh_until_passed (_parse_time (x.["fresh_until"])) (ctx_effective_now c)
            || fresh_until_passed (fresh_until b) (ctx_effective_now c)) = false) as ->.
  { destruct (require_freshness o); [|done]. simpl. destruct (F5 eq_refl) as (G1 & u & G2 & _).
    rewrite Eu in Hfr. specialize (Hfr eq_refl u G2). rewrite !orb_false_iff, G1, (Es G1), Eu, fresh_until_passed_false, G2.
    split_and!; [done|by rewrite neqb_false|eauto|eauto]. }
  destruct (kind o ==? Knowledge) eqn:Ek.
  - rewrite eqb_true in Ek. eexists _, None. by split_and!.
  - rewrite eqb_false in Ek. unfold checkable in Hck. rewrite (proj2 (eqb_false _ _) Ek), isSome_true in Hck. destruct Hck as [f Ef].
    rewrite Ef. destruct (Hver Ek) as [v Hv]. rewrite Hv. destruct Hev as [_ Hev].
    eexists _, (Some _). split_and!; [done| |done]. intros _. eexists f, _, v. split; [done|]. by apply Hev.
Qed.

Definition good (r : option (string * string * Z)) : Prop := exists f i v, r = Some (f, i, v) /\ i <> "".
Lemma check_obligations_total c obs vs pr os :
  (forall o, o ∈ os -> exists p r, check_obligation c obs o = Ok (inl (p, r)) /\ (r = None \/ good r)) ->
  (good pr \/ (pr = None /\ exists o p r, o ∈ os /\ check_obligation c obs o = Ok (inl (p, r)) /\ good r)) ->
  exists vs' r, check_obligations c obs vs pr os = Ok (inl (vs', r)) /\ good r.
Proof.
  revert vs pr. induction os as [|o os IH]; intros vs pr Hall Hpr; simpl.
  { destruct Hpr as [Hg|(_ & o & _ & _ & []%elem_of_nil & _)]. by exists vs, pr. }
  destruct (Hall o) as (p & r & Hc & Hr); [by left|]. rewrite Hc. cbn [res_bind].
  apply IH; [intros o' Ho'; apply Hall; by right|].
  destruct Hpr as [Hg|(-> & o' & p' & r' & Ho' & Hc' & Hg)].
  - destruct Hg as (f & i & v & -> & Hi). left. by exists f, i, v.
  - apply elem_of_cons in Ho' as [->|Ho'].
    + rewrite Hc in Hc'. injection Hc' as <- <-. by left.
    + destruct Hr as [->|Hr]; [right; eauto 10|by left].
Qed.

Lemma entry_of_forall2 (P : EvidenceObligationSpec -> ObligationEntry -> Prop) l os o :
  Forall2 P os (led_obligations l) -> (forall o e, P o e -> ent_obligation_id e = obligation_id o) ->
  NoDup (map obligation_id os) -> o ∈ os -> exists e, entry_of l (obligation_id o) = Some e /\ P o e /\ e ∈ led_obligations l.
Proof.
  unfold entry_of. intros Hf Hid. induction Hf as [|o' e os es Hp Hf IH]; intros Hnd Ho; [by apply elem_of_nil in Ho|].
  simpl in *. apply NoDup_cons in Hnd as [Hn Hnd]. rewrite (Hid _ _ Hp). apply elem_of_cons in Ho as [->|Ho].
  - rewrite eqb_refl. exists e. split_and!; [done..|by left].
  - rewrite (proj2 (eqb_false _ _)); [|intros E; apply Hn; rewrite E; apply list_elem_of_fmap; eauto].
    destruct (IH Hnd Ho) as (e' & ? & ? & ?). exists e'. split_and!; [done..|by right].
Qed.

(** Facts of the three registered actions, by evaluation. *)
Definition registered (spec : ActionSpec) : Prop := exists a, (a, spec) ∈ ACTION_SPECS.
Lemma registered_cases spec :
  registered spec -> spec = refund_spec \/ spec = api_key_revocation_spec \/ spec = entitlement_change_spec.
Proof.
  intros [a Ha]. unfold ACTION_SPECS in Ha.
  repeat (apply elem_of_cons in Ha as [E|Ha]; [injection E as _ ->; auto|]). by apply elem_of_nil in Ha.
Qed.
Lemma registered_shape spec : registered spec ->
  forallb checkable (obligations spec) = true /\ existsb (fun o => kind o !=? Knowledge) (obligations spec) = true /\
  NoDup (map obligation_id (obligations spec)) /\ get_action_spec_by_proposal (proposal_action spec) = Some spec /\
  (proposal_action spec ==? "escalate") = false.
Proof.
  intros [->|[->| ->]]%registered_cases; (split_and!; [vm_compute; reflexivity..| |vm_compute; reflexivity|vm_compute; reflexivity]);
    apply (bool_decide_unpack _); vm_compute; exact I.
Qed.

(** The target of an entitlement change is stored in the form its own schema
    gives it, as the admission parser stores it. *)
Definition canonical_target (a : ActionAdmissionV2) : Prop :=
  forall ct t, (extracted_arguments a).["change_type"] = PyStr ct -> (extracted_arguments a).["target"] = PyDict t ->
    validate_entitlement_target ct (PyDict t) = Ok t.

Lemma target_wf ct t t' : validate_entitlement_target ct t = Ok t' -> py_wf (PyDict t') = true.
Proof.
  unfold validate_entitlement_target, QuotaChangeTarget, PlanChangeTarget. intros Hv. res_cases Hv; reflexivity.
Qed.

(** The values of the fields, as the assembler reads them. *)
Definition assembled (spec : ActionSpec) (a : ActionAdmissionV2) (l : ActionObligationLedger) (obs : list pydict) : list (string * pyval) -> Prop :=
  Forall2 (fun f p => p.1 = target_field f /\ _proposal_value f a l obs = Ok p.2) (proposal_fields spec).

(** The value of each listed field is the one the assembler read. *)
Ltac same_values :=
  let f := fresh "f" in let v := fresh "v" in let Hf := fresh "Hf" in let Hv := fresh "Hv" in
  intros f v Hf Hv;
  repeat (apply elem_of_cons in Hf as [->|Hf];
          [match goal with E : _proposal_value ?g ?a ?l ?o = Ok ?w |- _ =>
             match type of Hv with _proposal_value g a l o = _ => rewrite E in Hv; injection Hv as <-; cbn [target_field] end end|]);
  try (by apply elem_of_nil in Hf).

Lemma schema_keeps spec a l obs vals out :
  registered spec -> canonical_target a -> assembled spec a l obs vals ->
  model_validate (proposal_schema spec) (dmerge [] vals) = Ok out ->
  py_wf (PyDict out) = true /\ map fst out = map target_field (proposal_fields spec) /\
  forall f v, f ∈ proposal_fields spec -> _proposal_value f a l obs = Ok v -> py_eq (out.[target_field f]) v = true.
Proof.
  intros [->|[->| ->]]%registered_cases Hct Hv Hm; unfold assembled in Hv; simpl in Hv;
    repeat (apply Forall2_cons_inv_l in Hv as ([? ?] & ? & [? ?] & Hv & ->); simpl in *; subst);
    apply Forall2_nil_inv_l in Hv as ->.
  all: cbn [dmerge fold_left dset fst snd] in Hm; repeat rewrite decide_False in Hm by done; cbn [model_validate proposal_schema] in Hm.
  - unfold refund_arguments in Hm. steps_ok Hm. injection Hm as <-.
    apply str_field_ok in Hstep as [[= ->] _], Hstep0 as [[= ->] _].
    split_and!; [vm_compute; reflexivity..|]. same_values; simpl; apply eqb_refl.
  - unfold api_key_arguments in Hm. steps_ok Hm. injection Hm as <-.
    apply str_field_ok in Hstep as [[= ->] _], Hstep0 as [[= ->] _].
    split_and!; [vm_compute; reflexivity..|]. same_values; simpl; apply eqb_refl.
  - unfold entitlement_arguments in Hm. steps_ok Hm. change (dget "change_type" _) with (Some p0) in Hm. change (dget "target" _) with (Some p1) in Hm.
    change (dget "reason" _) with (Some p2) in Hm. destruct p0 as [| | |ct| | | |]; try done. steps_ok Hm.
    destruct p1 as [| | | | | | |t]; try done. steps_ok Hm. injection Hm as <-.
    apply str_field_ok in Hstep as [[= ->] _], Hstep0 as [[= ->] _].
    assert (validate_entitlement_target ct (PyDict t) = Ok t) as Ht.
    { apply Hct;
        [match goal with E : _ = Ok (PyStr ct) |- _ => revert E end|match goal with E : _ = Ok (PyDict t) |- _ => revert E end];
        unfold _proposal_value; cbn [source source_path res_bind]; intros E; by apply raise_if_ok in E as [_ [= E]]. }
    rewrite Ht in Hstep1. injection Hstep1 as <-. pose proof (target_wf _ _ _ Ht) as Hwf.
    split_and!; [|vm_compute; reflexivity|].
    + cbn [py_wf] in Hwf |- *. cbn [forallb snd]. cbn [py_wf]. rewrite Hwf. vm_compute. reflexivity.
    + same_values; [simpl; apply eqb_refl..| |simpl; apply eqb_refl]. by apply (py_eq_refl (PyDict t)).
Qed.

Lemma new_candidate_response_ok c c' :
  new_candidate_response c = Ok c' ->
  cand_action c' = cand_action c /\ cand_material_claims c' = cand_material_claims c /\
  validate_typed_action_draft (cand_action c) (proposed_arguments c) = Ok (proposed_arguments c').
Proof.
  unfold new_candidate_response. intros Hn. steps_ok Hn. injection Hn as <-. simpl. split_and!; try done.
  apply map_res_ok in Hstep1. induction Hstep1 as [|x y ? ? Hx _ IH]; [done|]. unfold new_material_claim in Hx. steps_ok Hx.
  injection Hx as <-. by rewrite IH.
Qed.

Lemma field_binding_total cand c obs fields :
  (forall f, f ∈ fields -> exists v, expected_value c obs f = Ok (inl v) /\ py_eq ((proposed_arguments cand).[target_field f]) v = true) ->
  field_binding_error cand c obs fields = Ok None.
Proof.
  induction fields as [|f fields IH]; intros Hall; [done|]. simpl. destruct (Hall f) as (v & -> & Hv); [by left|]. simpl. rewrite Hv.
  simpl. apply IH. intros g Hg. apply Hall. by right.
Qed.

(** The gate expects what the assembler read. *)
Lemma value_expected c obs spec f v :
  registered spec -> f ∈ proposal_fields spec -> _proposal_value f (ctx_admission c) (ctx_ledger c) obs = Ok v ->
  identified obs (led_run_id (ctx_ledger c)) ->
  (forall o, o ∈ obligations spec -> exists t e x b, entry_of (ctx_ledger c) (obligation_id o) = Some e /\
     built_from o (ctx_admission c) obs (led_run_id (ctx_ledger c)) t e x b) ->
  expected_value c obs f = Ok (inl v).
Proof.
  intros Hreg Hf Hv Hid Hb. unfold _proposal_value, expected_value in *.
  apply res_bind_ok in Hv as (w & Hw & Hv). apply raise_if_ok in Hv as [_ [= ->]].
  destruct (source f) eqn:Es; [by injection Hw as ->| |by injection Hw as ->].
  destruct (registered_fields spec (proposal_action spec) f) as (o & Ho & Eo); [by apply registered_shape|done|done|].
  apply res_bind_ok in Hw as (data & Hd & [= <-]). unfold _observation_by_binding in Hd. rewrite (entry_of_field _ _ _ Eo) in *.
  destruct (Hb o Ho) as (t & e & x & b & He & [Hin Hr [tool Ht] _ _ _ Hbe (rid & ev & ci & Hbb) _ _]). rewrite He, Hbe in *.
  apply raise_if_ok in Hd as [_ Hd]. destruct (Hid x Hin Hr) as (id & Hne & Hxid & Hfl).
  destruct (base_binding_identity _ _ _ _ _ _ _ _ _ _ Hbb Hxid Hne Ht) as (Ei & Et & _). rewrite Ei, Et in *.
  rewrite Hfl in Hd. rewrite (identified_bound _ _ _ _ _ Hfl Ht). unfold data_get.
  unfold dget_or in Hd |- *. destruct (dget "data" x) as [dv|]; simpl in *; [|done]. destruct dv; try done. by injection Hd as ->.
Qed.

(** What the assembler has checked and read. *)
Lemma assemble_ok spec a l obs syn cand :
  registered spec -> canonical_target a -> assemble_action_candidate spec a l obs syn = Ok cand ->
  adm_status a = AdmAdmitted /\ adm_action_type a = Some (action_type spec) /\ led_action_type l = action_type spec /\
  all_obligations_satisfied l = true /\ is_nil (knowledge_bindings l) = false /\
  cand_action cand = proposal_action spec /\ cand_material_claims cand = bs_material_claims syn /\
  is_nil (claim_citations (bs_material_claims syn)) || negb (subset_of (claim_citations (bs_material_claims syn)) (knowledge_bindings l)) = false /\
  is_nil (claim_sources (bs_material_claims syn)) || negb (subset_of (claim_sources (bs_material_claims syn)) (business_sources l)) = false /\
  model_validate (proposal_schema spec) (proposed_arguments cand) = Ok (proposed_arguments cand) /\
  py_wf (PyDict (proposed_arguments cand)) = true /\ map fst (proposed_arguments cand) = map target_field (proposal_fields spec) /\
  forall f, f ∈ proposal_fields spec -> exists v, _proposal_value f a l obs = Ok v /\
    py_eq ((proposed_arguments cand).[target_field f]) v = true.
Proof.
  intros Hreg Hct Has. destruct (registered_shape _ Hreg) as (_ & _ & _ & Hprop & Hesc).
  unfold assemble_action_candidate in Has. apply raise_if_ok in Has as [G1 Has]. apply raise_if_ok in Has as [G2 Has].
  apply raise_if_ok in Has as [G3 Has]. apply raise_if_ok in Has as [G4 Has]. apply res_bind_ok in Has as (vals & Hvals & Has).
  apply res_bind_ok in Has as (cits & _ & Has). apply new_candidate_response_ok in Has as (Eact & Ecl & Earg). simpl in Eact, Ecl, Earg.
  unfold validate_typed_action_draft in Earg. rewrite Hesc, Hprop in Earg.
  assert (assembled spec a l obs vals) as Hasm.
  { apply map_res_ok in Hvals. eapply Forall2_impl; [exact Hvals|]. intros f p Hp. apply res_bind_ok in Hp as (v & Hv & [= <-]). done. }
  destruct (schema_keeps _ _ _ _ _ _ Hreg Hct Hasm Earg) as (Hwf & Hkeys & Hsame).
  rewrite !orb_false_iff, !neqb_false, negb_false_iff in G1. rewrite !orb_false_iff in G2. destruct G1 as [[[? ?] ?] ?], G2 as [[? _] _].
  split_and!; try done; [by eapply model_validate_idempotent|].
  intros f Hf. destruct (Forall2_elem_l _ _ _ _ Hasm Hf) as ([k w] & _ & _ & Hw). eauto.
Qed.

(** A satisfied ledger of a registered action passes the checks of the gate. *)
Lemma satisfied_ledger_checks spec a obs run bs at_ t c :
  registered spec -> ctx_action_spec c = spec -> ctx_admission c = a -> led_run_id (ctx_ledger c) = run ->
  Forall2 (fun o e => obligation_entry spec a obs run t bs at_ o = Ok e) (obligations spec) (led_obligations (ctx_ledger c)) ->
  all_obligations_satisfied (ctx_ledger c) = true -> identified obs run ->
  (forall e b u, e ∈ led_obligations (ctx_ledger c) -> ent_binding e = Some b -> fresh_until b = Some u -> ctx_effective_now c <= instant u) ->
  (forall e b, e ∈ led_obligations (ctx_ledger c) -> ent_kind e <> Knowledge -> ent_binding e = Some b ->
     is_Some (parse_int (default "" (bind_resource_version b)))) ->
  (exists b, _validate_observation_bindings c obs = Ok (inl b)) /\
  (forall o, o ∈ obligations spec -> exists t e x b, entry_of (ctx_ledger c) (obligation_id o) = Some e /\
     built_from o (ctx_admission c) obs (led_run_id (ctx_ledger c)) t e x b).
Proof.
  intros Hreg Es Ea Elr Hf2 Hsat Hid Hfresh Hver. destruct (registered_shape _ Hreg) as (Hck & Hres & Hnd & _).
  rewrite forallb_true_iff in Hck. unfold all_obligations_satisfied in Hsat. rewrite forallb_true_iff in Hsat.
  assert (forall o, o ∈ obligations spec -> exists e x b, entry_of (ctx_ledger c) (obligation_id o) = Some e /\
            e ∈ led_obligations (ctx_ledger c) /\ built_from o a obs run t e x b) as Hbuilt.
  { intros o Ho. assert (forall o e, obligation_entry spec a obs run t bs at_ o = Ok e -> ent_obligation_id e = obligation_id o) as Hsh.
    { intros o' e' Hoe'. by destruct (obligation_entry_shape _ _ _ _ _ _ _ _ _ Hoe') as (? & _). }
    destruct (entry_of_forall2 _ _ _ o Hf2 Hsh Hnd Ho) as (e & He & Hoe & Hin).
    destruct (satisfied_built _ _ _ _ _ _ _ _ _ Hoe) as (x & b & Hb); [by apply eqb_true, Hsat|]. by exists e, x, b. }
  split; [|intros o Ho; destruct (Hbuilt o Ho) as (e & x & b & He & _ & Hb); rewrite Ea, Elr; eauto 10].
  assert (forall o, o ∈ obligations spec -> exists p r, check_obligation c obs o = Ok (inl (p, r)) /\
            (kind o <> Knowledge -> good r) /\ (kind o = Knowledge -> r = None)) as Hchk.
  { intros o Ho. destruct (Hbuilt o Ho) as (e & x & b & He & Hin & Hb).
    eapply (built_checks c obs t o e x b); [by rewrite Ea, Elr|by rewrite Elr|done|by apply Hck| |].
    - intros _ u Hu. by eapply Hfresh; [|apply Hb|].
    - intros Hk. eapply Hver; [done| |apply Hb]. by rewrite (bf_kind _ _ _ _ _ _ _ _ Hb). }
  destruct (check_obligations_total c obs [] None (obligations spec)) as (vs & r & Hr & f & i & v & -> & Hi).
  { intros o Ho. destruct (Hchk o Ho) as (p & r & Hc & Hg & Hn). exists p, r. split; [done|].
    destruct (decide (kind o = Knowledge)); [left|right]; auto. }
  { right. split; [done|]. apply existsb_true_iff in Hres as (o & Ho & Hk). rewrite neqb_true in Hk.
    destruct (Hchk o Ho) as (p & r & Hc & Hg & _). exists o, p, r. auto. }
  unfold _validate_observation_bindings. rewrite Es, Hr. cbn [res_bind]. rewrite (proj2 (is_empty_str_false i) Hi). eauto.
Qed.

(** C30: the gate accepts what the assembler built.  If a registered action was
    admitted, the ledger was evaluated on the observations of the run and the
    assembler returned a candidate, then the evaluation of that candidate from
    payloads that read back as this admission and this ledger finds it eligible,
    as long as the bound observations have not expired; observations of the run
    must have distinct identities, resource versions must be numbers, and an
    entitlement target must be in canonical form. *)
Theorem assembled_candidate_is_eligible spec a obs run bs at_ now clock l syn cand ap lp t' :
  registered spec -> evaluate_action_obligations spec a obs run bs at_ now clock = Ok l ->
  assemble_action_candidate spec a l obs syn = Ok cand ->
  parse_admission (default [] ap) = Some a -> parse_ledger (default [] lp) = Some l ->
  run <> "" -> identified obs run -> canonical_target a ->
  (forall e b u, e ∈ led_obligations l -> ent_binding e = Some b -> fresh_until b = Some u -> t' <= instant u) ->
  (forall e b, e ∈ led_obligations l -> ent_kind e <> Knowledge -> ent_binding e = Some b ->
     is_Some (parse_int (default "" (bind_resource_version b)))) ->
  exists e, evaluate_action_candidate_eligibility cand ap lp obs t' = Ok e /\ pe_eligible e = true.
Proof.
  intros Hreg Hev Has Hpa Hpl Hrun Hid Hct Hfresh Hver.
  assert (led_run_id l = run) as Elr.
  { unfold evaluate_action_obligations in Hev. steps_ok Hev. destruct (decide_next _). steps_ok Hev. by injection Hev as <-. }
  apply evaluate_ok in Hev as (_ & _ & Hf2 & _).
  destruct (assemble_ok _ _ _ _ _ _ Hreg Hct Has) as (A1 & A2 & A3 & A4 & A5 & A6 & A7 & A8 & A9 & A10 & A11 & A12 & A13).
  set (c := mk_context spec a l t' (claim_citations (bs_material_claims syn))).
  destruct (satisfied_ledger_checks spec a obs run bs at_ _ c Hreg eq_refl eq_refl Elr Hf2 A4 Hid Hfresh Hver) as [[b Hb] Hbuilt].
  unfold evaluate_action_candidate_eligibility.
  assert (_validate_candidate_context cand ap lp t' = inl c) as ->.
  { unfold _validate_candidate_context, _proposal_action_spec. destruct (registered_shape _ Hreg) as (_ & _ & _ & Hprop & _).
    rewrite A6, Hprop, Hpa, Hpl, A1, A2, A3, A4, Elr. rewrite !(proj2 (neqb_false _ _)) by done.
    rewrite (proj2 (is_empty_str_false run)) by done. cbn [orb negb].
    rewrite A12, (proj2 (subset_of_true _ _)) by done. cbn [andb negb]. rewrite A10, py_eq_refl by done. cbn [negb].
    by rewrite A7, A5, A8, A9. }
  rewrite Hb. cbn [res_bind]. unfold _proposal_field_binding_error. rewrite field_binding_total; [simpl; eauto|].
  intros f Hf. destruct (A13 f Hf) as (v & Hv & Hpy). exists v. split; [|done].
  apply (value_expected c obs spec); try done. cbn [ctx_ledger c]. by rewrite Elr.
Qed.
End eligibility.
