(* ===== verification/PolicyGate.v ===== *)
(** * The policy gate (agent/policy.py, policies/gate.py)

    The last decision of a run: whether a candidate is published as an answer,
    routed to a human for approval, or rejected.  The module is pure; what it
    knows of the run is the record [PolicyInput].  A publication decision carries
    the canonical text of its candidate and its digest, and never grants a
    mutation. *)
From Stdlib Require Import Ascii.
From S2P Require Import Prelude PyValue Sha256 CanonicalJson ActionSpecs Obligations.
From S2P Require Import PyText Responses Synthesis ProposalAssembly.
Local Open Scope string_scope.
Local Open Scope list_scope.
Local Open Scope Z_scope.

Inductive PolicyRoute := ANSWER | AWAIT_APPROVAL | REJECT.
#[export] Instance PolicyRoute_eq_dec : EqDecision PolicyRoute.
Proof. solve_decision. Defined.
Definition route_value (r : PolicyRoute) : string :=
  match r with ANSWER => "answer" | AWAIT_APPROVAL => "await_human_approval" | REJECT => "reject" end.
Inductive AssessmentResult := Accept | Replan | TerminalAssessment.
#[export] Instance AssessmentResult_eq_dec : EqDecision AssessmentResult.
Proof. solve_decision. Defined.

Record PolicyInput := mk_policy_input {
  pi_candidate : CandidateResponse;
  pi_evidence_conflict : bool;
  pi_citation_integrity : bool;
  pi_proposal_eligible : option bool;
  pi_finish_reason : option string;
  pi_safe_stop_reason : option string;
  pi_requested_action_unresolved : bool;
  pi_assessment_result : AssessmentResult;
  pi_assessment_error_code : option string;
  pi_has_secret_redaction : bool;
  pi_policy_boundary : string;
  pi_comparison_requested : bool;
  pi_comparison_complete : bool;
  pi_explainable_comparison : bool;
  pi_comparison_citations_complete : bool;
  pi_missing_transition_markers : list string;
  pi_grounded_conflict_clarification : bool;
  pi_requested_current_fact_missing : bool;
  pi_mixed_account_applicability_missing : bool;
}.

Record PublicationDecision := mk_publication {
  pub_candidate : CandidateResponse;
  pub_candidate_json : string;
  pub_candidate_sha256 : string;
  pub_route : PolicyRoute;
  pub_finish_reason : option string;
  pub_unsafe_terminal_reason : option string;
}.

Definition proposal_action_names : list string :=
  ["refund_proposal"; "api_key_revocation_proposal"; "entitlement_change_proposal"].

Definition decide_policy (candidate : CandidateResponse) (evidence_conflict citation_integrity : bool)
    (proposal_eligible : option bool) : PolicyRoute :=
  if negb citation_integrity then ANSWER
  else if cand_action candidate in? proposal_action_names then
    (if proposal_eligible ==? Some true then AWAIT_APPROVAL else ANSWER)
  else if cand_action candidate ==? "escalate" then ANSWER
  else if cand_action candidate ==? "reject" then REJECT
  else if evidence_conflict || (cand_action candidate ==? "manual_takeover") then ANSWER
  else ANSWER.

(** The first block: the policy route, unless the run stopped, an action is
    unresolved or the evidence is terminally incomplete. *)
Definition stopped_route (p : PolicyInput) : PolicyRoute * option string :=
  let route := decide_policy (pi_candidate p) (pi_evidence_conflict p) (pi_citation_integrity p) (pi_proposal_eligible p) in
  if truthy_opt (pi_safe_stop_reason p) then (ANSWER, pi_safe_stop_reason p)
  else if pi_requested_action_unresolved p then (ANSWER, Some "requested_action_unresolved")
  else if pi_assessment_result p ==? TerminalAssessment then
    (ANSWER, Some (match pi_assessment_error_code p with
                   | Some code => if is_empty_str code then "evidence_group_incomplete" else code
                   | None => "evidence_group_incomplete"
                   end))
  else (route, pi_finish_reason p).

(** The second block: redaction, boundary, clarification, eligibility. *)
Definition bounded_route (p : PolicyInput) (r : PolicyRoute * option string) : PolicyRoute * option string :=
  let '(route, finish_reason) := r in
  if pi_has_secret_redaction p then (ANSWER, Some "credential_redaction_guidance")
  else if pi_policy_boundary p in? ["out_of_scope"; "prohibited"] then (REJECT, Some "rejected")
  else if finish_reason ==? Some "needs_clarification" then (ANSWER, finish_reason)
  else if pi_proposal_eligible p ==? Some false then (ANSWER, Some "proposal_eligibility_failed")
  else if route ==? AWAIT_APPROVAL then (route, Some "proposal_policy_approved")
  else if route ==? REJECT then (route, Some "rejected")
  else (route, finish_reason).

Definition citation_exempt_reasons : list string :=
  ["needs_clarification"; "proposal_eligibility_failed"; "requested_action_unresolved"; "credential_redaction_guidance"].
(** The third block: why the candidate must not be published. *)
Definition unsafe_reason (p : PolicyInput) (finish_reason : option string) : option string :=
  if cand_action (pi_candidate p) in? ["escalate"; "manual_takeover"] then Some "human_handoff_unavailable"
  else if pi_comparison_requested p && negb (pi_comparison_complete p) then Some "comparison_evidence_incomplete"
  else if pi_comparison_complete p && negb (pi_explainable_comparison p) then
    Some (if pi_comparison_citations_complete p && negb (is_nil (pi_missing_transition_markers p))
          then "comparison_transition_incomplete" else "comparison_citation_incomplete")
  else if pi_evidence_conflict p
          && negb ((pi_grounded_conflict_clarification p && pi_citation_integrity p) || pi_explainable_comparison p)
  then Some "evidence_conflict"
  else if negb (pi_citation_integrity p) && negb (truthy_opt (pi_safe_stop_reason p))
          && negb (match finish_reason with Some f => f in? citation_exempt_reasons | None => false end)
  then Some "citation_binding_incomplete"
  else if pi_requested_current_fact_missing p then Some "explicit_current_fact_incomplete"
  else if pi_mixed_account_applicability_missing p then Some "mixed_account_applicability_incomplete"
  else None.

(** [candidate.model_dump(mode="json")] *)
Definition claim_dump (c : MaterialClaim) : pyval :=
  PyDict [("text", PyStr (mc_text c)); ("citation_binding_ids", str_list (mc_citation_binding_ids c));
          ("knowledge_locator_hashes", str_list (mc_knowledge_locator_hashes c));
          ("observation_source_ids", str_list (mc_observation_source_ids c))].
Definition candidate_dump (c : CandidateResponse) : pydict :=
  [("answer", PyStr (cand_answer c)); ("action", PyStr (cand_action c));
   ("knowledge_chunk_ids", str_list (cand_knowledge_chunk_ids c));
   ("knowledge_citations", PyList (map (fun x => PyDict [("citation_binding_id", PyStr (cc_citation_binding_id x))])
                                     (cand_knowledge_citations c)));
   ("business_source_ids", str_list (cand_business_source_ids c));
   ("material_claims", PyList (map claim_dump (cand_material_claims c)));
   ("proposed_arguments", PyDict (proposed_arguments c))].

(** The answer that replaces an unsafe candidate. *)
Definition safe_candidate (reason : string) : CandidateResponse :=
  mk_candidate (safe_failure_answer reason [] None) "answer" [] [] [] [] [].

Section policy.
Context `{PyRuntime}.

Definition candidate_text (c : CandidateResponse) : string :=
  String.string_of_list_ascii (dumps (json_default_str (PyDict (candidate_dump c)))).

(** [PublicationDecision.__post_init__]: the candidate is validated again and its
    canonical text hashed. *)
Definition new_publication (candidate : CandidateResponse) (route : PolicyRoute) (finish_reason unsafe : option string)
    : res PublicationDecision :=
  let? c := new_candidate_response candidate in
  let text := candidate_text c in
  raise ValueError "surrogates not allowed" when negb (encodes_utf8 text) ;;
  Ok (mk_publication c text (sha256_hex text) route finish_reason unsafe).

Definition evaluate_policy (p : PolicyInput) : res PublicationDecision :=
  let '(route, finish_reason) := bounded_route p (stopped_route p) in
  match unsafe_reason p finish_reason with
  | Some reason =>
      let? safe := new_candidate_response (safe_candidate reason) in
      new_publication safe ANSWER (Some reason) (Some reason)
  | None => new_publication (pi_candidate p) route finish_reason None
  end.
End policy.

(** ** policies/gate.py: the routes of older checkpoints *)
Inductive LegacyPolicyRoute := L_ANSWER | L_SAFE_ACTION | L_AWAIT_APPROVAL | L_REJECT | L_MANUAL_TAKEOVER.
Definition legacy_value (r : LegacyPolicyRoute) : string :=
  match r with
  | L_ANSWER => "answer" | L_SAFE_ACTION => "safe_action" | L_AWAIT_APPROVAL => "await_human_approval"
  | L_REJECT => "reject" | L_MANUAL_TAKEOVER => "manual_takeover"
  end.
(** [PolicyRoute(value)] *)
Definition legacy_route (value : string) : res LegacyPolicyRoute :=
  match find_first (fun r => legacy_value r ==? value) [L_ANSWER; L_SAFE_ACTION; L_AWAIT_APPROVAL; L_REJECT; L_MANUAL_TAKEOVER] with
  | Some r => Ok r
  | None => Err (ValueError "is not a valid PolicyRoute")
  end.
Definition legacy_decide_policy (candidate : CandidateResponse) (evidence_conflict citation_integrity : bool)
    (proposal_eligible : option bool) : res LegacyPolicyRoute :=
  legacy_route (route_value (decide_policy candidate evidence_conflict citation_integrity proposal_eligible)).

(** ** What the gate promises *)
Section promises.
Context `{PyRuntime} `{PayloadModels}.

Lemma new_publication_ok c route fin unsafe d :
  new_publication c route fin unsafe = Ok d ->
  pub_route d = route /\ pub_finish_reason d = fin /\ pub_unsafe_terminal_reason d = unsafe /\
  new_candidate_response c = Ok (pub_candidate d) /\ pub_candidate_sha256 d = sha256_hex (candidate_text (pub_candidate d)).
Proof. unfold new_publication. intros Hd. apply res_bind_ok in Hd as (c' & Hc & Hd). apply raise_if_ok in Hd as [_ [= <-]]. done. Qed.

Lemma decide_approval c conflict integrity eligible :
  decide_policy c conflict integrity eligible = AWAIT_APPROVAL ->
  integrity = true /\ cand_action c ∈ proposal_action_names /\ eligible = Some true.
Proof.
  unfold decide_policy. intros Hd. destruct integrity; [|done]. simpl in Hd.
  destruct (cand_action c in? proposal_action_names) eqn:E.
  - rewrite mem_true in E. destruct (eligible ==? Some true) eqn:E'; [|done]. rewrite eqb_true in E'. done.
  - repeat case_match; done.
Qed.

Lemma stopped_approval p fin :
  stopped_route p = (AWAIT_APPROVAL, fin) ->
  truthy_opt (pi_safe_stop_reason p) = false /\ pi_requested_action_unresolved p = false /\
  pi_assessment_result p <> TerminalAssessment /\ fin = pi_finish_reason p /\
  decide_policy (pi_candidate p) (pi_evidence_conflict p) (pi_citation_integrity p) (pi_proposal_eligible p) = AWAIT_APPROVAL.
Proof.
  unfold stopped_route. intros Hr. destruct (truthy_opt _); [done|]. destruct (pi_requested_action_unresolved p); [done|].
  destruct (_ ==? TerminalAssessment) eqn:E; [done|]. rewrite eqb_false in E. by injection Hr as -> ->.
Qed.

(** What holds of a run whose candidate is sent to a human. *)
Record approvable (p : PolicyInput) : Prop := {
  ap_action : cand_action (pi_candidate p) ∈ proposal_action_names;
  ap_eligible : pi_proposal_eligible p = Some true;
  ap_integrity : pi_citation_integrity p = true;
  ap_running : truthy_opt (pi_safe_stop_reason p) = false /\ pi_requested_action_unresolved p = false /\
               pi_assessment_result p <> TerminalAssessment /\ pi_finish_reason p <> Some "needs_clarification";
  ap_clean : pi_has_secret_redaction p = false /\ pi_policy_boundary p ∉ ["out_of_scope"; "prohibited"];
  ap_facts : pi_requested_current_fact_missing p = false /\ pi_mixed_account_applicability_missing p = false;
  ap_conflict : pi_evidence_conflict p = true -> pi_grounded_conflict_clarification p = true \/ pi_explainable_comparison p = true;
  ap_comparison : (pi_comparison_requested p = true -> pi_comparison_complete p = true) /\
                  (pi_comparison_complete p = true -> pi_explainable_comparison p = true);
}.

Lemma bounded_approval p r fin :
  bounded_route p r = (AWAIT_APPROVAL, fin) ->
  r.1 = AWAIT_APPROVAL /\ fin = Some "proposal_policy_approved" /\ pi_has_secret_redaction p = false /\
  pi_policy_boundary p ∉ ["out_of_scope"; "prohibited"] /\ r.2 <> Some "needs_clarification" /\ pi_proposal_eligible p <> Some false.
Proof.
  destruct r as [route f]. unfold bounded_route. intros Hb. destruct (pi_has_secret_redaction p); [done|].
  destruct (pi_policy_boundary p in? _) eqn:E1; [done|]. rewrite mem_false in E1. destruct (f ==? _) eqn:E2; [done|]. rewrite eqb_false in E2.
  destruct (pi_proposal_eligible p ==? _) eqn:E3; [done|]. rewrite eqb_false in E3. destruct (route ==? AWAIT_APPROVAL) eqn:E4.
  - rewrite eqb_true in E4. injection Hb as -> <-. done.
  - rewrite eqb_false in E4. destruct (route ==? REJECT); by injection Hb as -> <-.
Qed.

Lemma approval_route p d :
  evaluate_policy p = Ok d -> pub_route d = AWAIT_APPROVAL ->
  approvable p /\ pub_finish_reason d = Some "proposal_policy_approved" /\
  new_candidate_response (pi_candidate p) = Ok (pub_candidate d).
Proof.
  unfold evaluate_policy. intros Hd Hr. destruct (bounded_route p _) as [route fin] eqn:Eb.
  destruct (unsafe_reason p fin) as [u|] eqn:Eu.
  { apply res_bind_ok in Hd as (s & _ & Hd). apply new_publication_ok in Hd as (Er & _). congruence. }
  apply new_publication_ok in Hd as (Er & Ef & _ & Hc & _). rewrite Hr in Er. subst route.
  apply bounded_approval in Eb as (Es & -> & B1 & B2 & B3 & B4). destruct (stopped_route p) as [r0 f0] eqn:Est. simpl in Es, B3. subst r0.
  apply stopped_approval in Est as (S1 & S2 & S3 & -> & S5). apply decide_approval in S5 as (D1 & D2 & D3).
  split; [|done]. unfold unsafe_reason in Eu. rewrite D1, S1 in Eu.
  destruct (cand_action (pi_candidate p) in? _) eqn:E1; [done|]. destruct (_ && negb (pi_comparison_complete p)) eqn:E2; [done|].
  destruct (pi_comparison_complete p && _) eqn:E3; [done|]. destruct (pi_evidence_conflict p && _) eqn:E4; [done|].
  destruct (negb true && _ && _) eqn:E5; [done|]. destruct (pi_requested_current_fact_missing p) eqn:E6; [done|].
  destruct (pi_mixed_account_applicability_missing p) eqn:E7; [done|].
  constructor; try done.
  - intros Hcf. rewrite Hcf in E4. simpl in E4. rewrite negb_false_iff, orb_true_iff, andb_true_r in E4. done.
  - split; intros Hq; rewrite Hq in *; simpl in *; [by destruct (pi_comparison_complete p)|by destruct (pi_explainable_comparison p)].
Qed.

(** C29: a candidate reaches a human only as a bound proposal.  When the gate routes
    a run to approval, with the eligibility it computed from the stored payloads
    and the observations, then the run has not stopped, nothing was redacted, the
    request is in scope, no conflict or missing fact is open, and the proposal is
    bound: its action is registered and admitted, every obligation is met by one
    current, in-scope, fresh observation of the run, every argument has the value
    of its source and all claims cite bound evidence. *)
Theorem approval_requires_bound_proposal p ap lp obs now e d :
  evaluate_action_candidate_eligibility (pi_candidate p) ap lp obs now = Ok e ->
  pi_proposal_eligible p = (if isSome (pe_action_type e) then Some (pe_eligible e) else None) ->
  evaluate_policy p = Ok d -> pub_route d = AWAIT_APPROVAL ->
  approvable p /\ pub_unsafe_terminal_reason d = None /\
  exists spec a l,
    get_action_spec_by_proposal (cand_action (pi_candidate p)) = Some spec /\
    parse_admission (default [] ap) = Some a /\ parse_ledger (default [] lp) = Some l /\
    adm_status a = AdmAdmitted /\ adm_action_type a = Some (action_type spec) /\
    (forall o, o ∈ obligations spec -> exists b x data, obligation_bound a l obs now o b x data) /\
    (forall f, f ∈ proposal_fields spec ->
       exists v, provided a l obs now spec f v /\ py_eq ((proposed_arguments (pi_candidate p)).[target_field f]) v = true) /\
    (forall x, x ∈ claim_citations (cand_material_claims (pi_candidate p)) -> x ∈ knowledge_bindings l) /\
    (forall x, x ∈ claim_sources (cand_material_claims (pi_candidate p)) -> x ∈ business_sources l).
Proof.
  intros He Hel Hd Hr. destruct (approval_route p d Hd Hr) as (Hap & _ & _). split; [done|]. split.
  { unfold evaluate_policy in Hd. destruct (bounded_route p _) as [route fin]. destruct (unsafe_reason p fin) as [u|].
    - apply res_bind_ok in Hd as (s & _ & Hd). apply new_publication_ok in Hd as (Er & _). congruence.
    - by apply new_publication_ok in Hd as (_ & _ & ? & _). }
  rewrite (ap_eligible _ Hap) in Hel. destruct (isSome _); [|done]. injection Hel as Hel.
  destruct (eligible_proposal_is_bound _ _ _ _ _ _ He (eq_sym Hel)) as (spec & a & l & H1 & H2 & H3 & H4 & H5 & _ & H6 & _ & H7 & [_ H8] & [_ H9] & _).
  exists spec, a, l. by split_and!.
Qed.

(** The reasons the gate itself gives. *)
Definition unsafe_reasons : list string :=
  ["human_handoff_unavailable"; "comparison_evidence_incomplete"; "comparison_transition_incomplete";
   "comparison_citation_incomplete"; "evidence_conflict"; "citation_binding_incomplete"; "explicit_current_fact_incomplete";
   "mixed_account_applicability_incomplete"].
Lemma unsafe_reason_listed p fin r : unsafe_reason p fin = Some r -> r ∈ unsafe_reasons.
Proof. unfold unsafe_reason. intros Hu. repeat (case_match; try done); injection Hu as <-; unfold unsafe_reasons; list_member. Qed.
Lemma safe_candidate_published r :
  r ∈ unsafe_reasons -> new_candidate_response (safe_candidate r) = Ok (safe_candidate r) /\
    encodes_utf8 (candidate_text (safe_candidate r)) = true /\ disclaims (cand_answer (safe_candidate r)) = true.
Proof.
  intros Hr. unfold unsafe_reasons in Hr.
  repeat (apply elem_of_cons in Hr as [->|Hr]; [split_and!; vm_compute; reflexivity|]). by apply elem_of_nil in Hr.
Qed.

(** An unsafe candidate is replaced, never published.  Whenever the gate finds
    a reason not to publish, it returns a decision; the published candidate is
    the safe answer for that reason, with no claim, citation, source or argument
    of the original, it says that nothing was executed, and the route is an
    answer.  A candidate is published unchanged only when there is no such
    reason. *)
Theorem unsafe_candidate_replaced p :
  let '(route, finish) := bounded_route p (stopped_route p) in
  match unsafe_reason p finish with
  | Some reason =>
      exists d, evaluate_policy p = Ok d /\ pub_route d = ANSWER /\ pub_finish_reason d = Some reason /\
        pub_unsafe_terminal_reason d = Some reason /\ pub_candidate d = safe_candidate reason /\
        disclaims (cand_answer (pub_candidate d)) = true /\ cand_material_claims (pub_candidate d) = [] /\
        proposed_arguments (pub_candidate d) = []
  | None =>
      forall d, evaluate_policy p = Ok d -> pub_route d = route /\ pub_finish_reason d = finish /\
        pub_unsafe_terminal_reason d = None /\ new_candidate_response (pi_candidate p) = Ok (pub_candidate d)
  end.
Proof.
  unfold evaluate_policy. destruct (bounded_route p _) as [route fin]. destruct (unsafe_reason p fin) as [r|] eqn:Eu.
  - apply unsafe_reason_listed in Eu. destruct (safe_candidate_published r Eu) as (Hc & Hu & Hdis).
    rewrite Hc. cbn [res_bind]. unfold new_publication. rewrite Hc. cbn [res_bind]. rewrite Hu. cbn [negb raise_if].
    eexists. split; [reflexivity|]. by split_and!.
  - intros d Hd. by apply new_publication_ok in Hd as (? & ? & ? & ? & _).
Qed.

(** The older routes are those of the current gate. *)
Lemma legacy_route_agrees c conflict integrity eligible :
  exists r, legacy_decide_policy c conflict integrity eligible = Ok r /\
    legacy_value r = route_value (decide_policy c conflict integrity eligible).
Proof. unfold legacy_decide_policy. destruct (decide_policy _ _ _ _); eexists; (split; [vm_compute; reflexivity|done]). Qed.
End promises.
