(* ===== verification/ReadPolicy.v ===== *)
(** * Which reads run, and which claims stay publishable
      (agent/tool_policy.py, agent/freshness.py, contracts/freshness.py)

    Before a batch of reads starts, the calls whose obligation needs no further
    read are refused, and every call gets a key that identifies what it is for:
    the obligation and the admitted resource, not the wording of the query.
    Before an answer is published, the claims that rest on business
    observations that are no longer fresh are taken out of it.

    Main results: a batch refuses exactly the reads of obligations that are not
    pending or stale; equal keys mean the same obligation, scope and resource,
    up to a SHA-256 collision; and what remains of an answer rests only on
    observations that are fresh, keeps every such claim, and cites nothing
    else. *)
From Stdlib Require Import Ascii.
From S2P Require Import Prelude PyValue Sha256 CanonicalJson ActionSpecs Obligations Synthesis ProposalAssembly.
Local Open Scope string_scope.
Local Open Scope list_scope.
Local Open Scope Z_scope.

(** ** contracts/freshness.py *)
Record ReadFreshnessContract := mk_freshness_contract { fc_policy : string; freshness_class : string; lifetime : Z }.
Definition microseconds_per_minute : Z := 60 * 1000000.
Definition ACCOUNT_SUBSCRIPTION_FRESHNESS : ReadFreshnessContract :=
  mk_freshness_contract "account_subscription_15m" "transactional" (15 * microseconds_per_minute).
Definition CURRENT_FACT_FRESHNESS : list (string * ReadFreshnessContract) :=
  [("query_account", ACCOUNT_SUBSCRIPTION_FRESHNESS); ("query_subscription", ACCOUNT_SUBSCRIPTION_FRESHNESS)].
Definition current_fact_freshness_contract (tool_name : string) : option ReadFreshnessContract :=
  snd <$> find_first (fun kv => kv.1 ==? tool_name) CURRENT_FACT_FRESHNESS.

(** ** Reads *)
(** tools/gateway.py: [ReadToolCall]; the arguments are a validated model. *)
Record ReadToolCall := mk_call { call_name : string; call_arguments : pydict }.

Definition obligation_for_capability (spec : ActionSpec) (capability : string) : res (option string) :=
  let matches := map obligation_id (List.filter (fun o => capability in? capabilities o) (obligations spec)) in
  raise ValueError "one capability cannot own multiple action obligations" when Nat.ltb 1 (length matches) ;;
  Ok (head matches).

Section keys.
Context `{PyRuntime}.

(** [json.dumps] without [default] refuses a timestamp. *)
Fixpoint serialisable (v : pyval) : bool :=
  match v with
  | PyTime _ => false
  | PyList l | PyTuple l => forallb serialisable l
  | PyDict d => forallb (fun kv => serialisable kv.2) d
  | _ => true
  end.
Definition opt_str (o : option string) : pyval := match o with Some s => PyStr s | None => PyNone end.
(** [obligation.resource_ref_argument] looked up in the admission. *)
Definition admitted_resource_ref (a : ActionAdmissionV2) (o : option EvidenceObligationSpec) : pyval :=
  match o with
  | Some o => match resource_ref_argument o with Some argument => (extracted_arguments a).[argument] | None => PyNone end
  | None => PyNone
  end.
Definition resolved_resource_id (e : option ObligationEntry) : option string :=
  match e with
  | Some e => match ent_binding e with Some b => bind_resource_id b | None => None end
  | None => None
  end.
Definition semantic_payload (spec : ActionSpec) (a : ActionAdmissionV2) (ledger : ActionObligationLedger) (call : ReadToolCall)
    (index_snapshot : option string) (obligation : option string) : pydict :=
  let o := find_first (fun o => Some (obligation_id o) ==? obligation) (obligations spec) in
  let entry := find_first (fun e => Some (ent_obligation_id e) ==? obligation) (led_obligations ledger) in
  [("schema_version", PyStr "semantic-invocation.v1");
   ("action_spec_version", PyStr "action-spec.v2");
   ("action_type", PyStr (action_type_str (action_type spec)));
   ("obligation_id", opt_str obligation);
   ("capability", PyStr (call_name call));
   ("tenant_id", PyStr (adm_tenant_id a));
   ("customer_id", PyStr (adm_customer_id a));
   ("scope_hash", PyStr (adm_scope_hash a));
   ("admitted_resource_ref", admitted_resource_ref a o);
   ("resolved_resource_id", opt_str (resolved_resource_id entry));
   ("policy_family", opt_str (match o with Some o => policy_family o | None => None end));
   ("evidence_purpose", opt_str (match o with Some o => topic o | None => None end));
   ("index_snapshot", opt_str (if call_name call ==? "search_knowledge" then index_snapshot else None))].
Definition semantic_invocation_key (spec : ActionSpec) (a : ActionAdmissionV2) (ledger : ActionObligationLedger)
    (call : ReadToolCall) (index_snapshot : option string) : res string :=
  let? obligation := obligation_for_capability spec (call_name call) in
  let payload := semantic_payload spec a ledger call index_snapshot obligation in
  raise TypeError "Object of type datetime is not JSON serializable" when negb (serialisable (PyDict payload)) ;;
  _canonical_hash payload.
End keys.

(** The rejected positions with their reason, from position [index]. *)
Fixpoint batch_rejections (spec : ActionSpec) (pending : list string) (index : nat) (calls : list ReadToolCall)
  : res (list (nat * string)) :=
  match calls with
  | [] => Ok []
  | call :: calls =>
      let? obligation := obligation_for_capability spec (call_name call) in
      let? rejected := batch_rejections spec pending (S index) calls in
      Ok (if isSome obligation && negb (call_name call in? pending)
          then (index, "obligation_already_qualified") :: rejected else rejected)
  end.
Definition semantic_batch_rejections (spec : ActionSpec) (ledger : ActionObligationLedger) (calls : list ReadToolCall)
  : res (list (nat * string)) :=
  batch_rejections spec (unsatisfied_capabilities ledger) 0 calls.

(** ** Stale claims *)
Section freshness.
Context `{PyRuntime}.

(** agent/evidence.py: [_evidence_time] reads a value as [_parse_time] does. *)
Definition _evidence_time (v : pyval) : option datetime :=
  let aware d := if is_naive d then mk_datetime (wall d) (Some 0) else d in
  match v with
  | PyTime t => Some (aware t)
  | PyStr s => aware <$> fromisoformat (replace_by "Z"%char "+00:00" s)
  | _ => None
  end.
Definition observation_is_fresh (observation : pydict) (now : Z) : bool :=
  py_eq (observation.["freshness_status"]) (PyStr "fresh")
  && match _evidence_time (observation.["fresh_until"]) with Some t => now <=? instant t | None => false end.

(** [source_to_observation]: a later observation replaces an earlier one. *)
Fixpoint source_to_observation (m : gmap string pydict) (observations : list pydict) : res (gmap string pydict) :=
  match observations with
  | [] => Ok m
  | observation :: rest =>
      if business_observation observation then
        let? sources := observation_sources observation in
        source_to_observation (fold_left (fun m s => <[s := observation]> m) sources m) rest
      else source_to_observation m rest
  end.

Definition stale_text : string := "用于判断当前状态的实时数据已过期，无法确认此刻的状态。".
(** [clock s] is the time read when source [s] is tested. *)
Definition publishable (m : gmap string pydict) (clock : string -> Z) (s : string) : bool :=
  match m !! s with Some observation => observation_is_fresh observation (clock s) | None => false end.
Definition kept_claims (m : gmap string pydict) (clock : string -> Z) (claims : list MaterialClaim) : list MaterialClaim :=
  List.filter (fun c => forallb (publishable m clock) (mc_observation_source_ids c)) claims.
Definition kept_chunk_ids (bindings : gmap string pydict) (kept : list string) : list string :=
  omap (fun b => match bindings !! b with
                 | Some d => if truthy (d.["chunk_id"]) then Some (py_str (d.["chunk_id"])) else None
                 | None => None
                 end) kept.
Definition kept_answer (claims : list MaterialClaim) : string :=
  String.concat newline (fromkeys (List.filter (fun t => negb (is_empty_str t)) (map (fun c => strip (mc_text c)) claims))).
Definition without_stale (c : CandidateResponse) (claims : list MaterialClaim) (bindings : gmap string pydict) : CandidateResponse :=
  let kept_bindings := claim_citations claims in
  let answer := kept_answer claims in
  {| cand_answer := if is_empty_str answer then stale_text else answer;
     cand_action := cand_action c;
     cand_knowledge_chunk_ids := List.filter (fun i => i in? kept_chunk_ids bindings kept_bindings) (cand_knowledge_chunk_ids c);
     cand_knowledge_citations := List.filter (fun x => cc_citation_binding_id x in? kept_bindings) (cand_knowledge_citations c);
     cand_business_source_ids := List.filter (fun s => s in? claim_sources claims) (cand_business_source_ids c);
     cand_material_claims := claims;
     proposed_arguments := proposed_arguments c |}.
Definition prune_stale_business_claims (c : CandidateResponse) (observations : list pydict) (bindings : gmap string pydict)
    (clock : string -> Z) : res (CandidateResponse * Z) :=
  let? m := source_to_observation ∅ observations in
  let kept := kept_claims m clock (cand_material_claims c) in
  let removed_count := count (cand_material_claims c) - count kept in
  if removed_count =? 0 then Ok (c, 0) else Ok (without_stale c kept bindings, removed_count).
End freshness.

(** ** Lemmas: reads *)
(** No capability serves two obligations. *)
Definition disjoint_capabilities (spec : ActionSpec) : Prop :=
  NoDup (map obligation_id (obligations spec)) /\
  forall o o' c, o ∈ obligations spec -> o' ∈ obligations spec -> c ∈ capabilities o -> c ∈ capabilities o' -> o = o'.
Definition disjoint_check (spec : ActionSpec) : bool :=
  forallb (fun o => forallb (fun o' => (obligation_id o ==? obligation_id o')
                                       || negb (existsb (fun c => c in? capabilities o') (capabilities o)))
                      (obligations spec)) (obligations spec).
Lemma registered_disjoint spec : registered spec -> disjoint_capabilities spec.
Proof.
  intros Hr. pose proof (registered_shape _ Hr) as (_ & _ & Hnd & _). split; [done|].
  assert (disjoint_check spec = true) as Hc.
  { destruct (registered_cases _ Hr) as [->|[->| ->]]; vm_compute; reflexivity. }
  intros o o' c Ho Ho' Hin Hin'. unfold disjoint_check in Hc. rewrite forallb_true_iff in Hc.
  specialize (Hc o Ho). cbn in Hc. rewrite forallb_true_iff in Hc. specialize (Hc o' Ho'). cbn in Hc.
  apply orb_true_iff in Hc as [E|E]; [to_prop; by eapply nodup_map_inj|].
  apply negb_true_iff in E. rewrite existsb_false_iff in E. specialize (E c Hin). cbn in E. by rewrite mem_false in E.
Qed.
Lemma obligation_for_capability_some spec o c :
  disjoint_capabilities spec -> o ∈ obligations spec -> c ∈ capabilities o ->
  obligation_for_capability spec c = Ok (Some (obligation_id o)).
Proof.
  intros [Hnd Hd] Ho Hc. unfold obligation_for_capability.
  rewrite (filter_unique (fun o => c in? capabilities o) _ o); [done|done|by apply mem_true| |by apply NoDup_fmap_1 in Hnd].
  intros o' Ho' Hc'. rewrite mem_true in Hc'. by eapply Hd.
Qed.
Lemma obligation_for_capability_none spec c :
  (forall o, o ∈ obligations spec -> c ∉ capabilities o) -> obligation_for_capability spec c = Ok None.
Proof.
  intros Hn. unfold obligation_for_capability.
  assert (List.filter (fun o => c in? capabilities o) (obligations spec) = []) as ->; [|done].
  destruct (List.filter _ _) as [|o l] eqn:E; [done|].
  assert (o ∈ o :: l) as Ho by (by left). rewrite <- E, list_elem_of_In, filter_In, <- list_elem_of_In, mem_true in Ho.
  destruct Ho as [Ho Hc]. by destruct (Hn o Ho).
Qed.
Lemma obligation_for_capability_cases spec c :
  disjoint_capabilities spec ->
  (exists o, o ∈ obligations spec /\ c ∈ capabilities o /\ obligation_for_capability spec c = Ok (Some (obligation_id o))) \/
  ((forall o, o ∈ obligations spec -> c ∉ capabilities o) /\ obligation_for_capability spec c = Ok None).
Proof.
  intros Hd. destruct (existsb (fun o => c in? capabilities o) (obligations spec)) eqn:E.
  - left. rewrite existsb_true_iff in E. destruct E as (o & Ho & Hc). rewrite mem_true in Hc. exists o.
    eauto using obligation_for_capability_some.
  - right. rewrite existsb_false_iff in E. assert (forall o, o ∈ obligations spec -> c ∉ capabilities o) as Hn.
    { intros o Ho. specialize (E o Ho). cbn in E. by rewrite mem_false in E. }
    eauto using obligation_for_capability_none.
Qed.

(** A position is rejected exactly when its call serves an obligation and is
    not among the pending capabilities. *)
Lemma batch_rejections_spec spec pending calls index :
  disjoint_capabilities spec ->
  exists rejected, batch_rejections spec pending index calls = Ok rejected /\
    forall i r, (i, r) ∈ rejected <->
      r = "obligation_already_qualified" /\
      exists j call, (i = index + j)%nat /\ calls !! j = Some call /\ call_name call ∉ pending /\
                     exists o, o ∈ obligations spec /\ call_name call ∈ capabilities o.
Proof.
  intros Hd. revert index. induction calls as [|call calls IH]; intros index; simpl.
  { exists []. split; [done|]. intros i r. split; [by intros ?%not_elem_of_nil|]. intros (_ & j & c & _ & E & _). done. }
  destruct (IH (S index)) as (rej & -> & Hrej).
  assert (forall i r, (i, r) ∈ rej <-> r = "obligation_already_qualified" /\
      exists j c, (i = index + S j)%nat /\ calls !! j = Some c /\ call_name c ∉ pending /\
                  exists o, o ∈ obligations spec /\ call_name c ∈ capabilities o) as Hrej'.
  { intros i r. rewrite Hrej. do 2 (apply and_iff_compat_l || f_equiv). split; intros (c & E & Hc); exists c; (split; [lia|done]). }
  clear Hrej. destruct (obligation_for_capability_cases spec (call_name call) Hd) as [(o & Ho & Hc & ->)|[Hn ->]]; cbn.
  - destruct (call_name call in? pending) eqn:Ep; cbn.
    + rewrite mem_true in Ep. eexists. split; [done|]. intros i r. rewrite Hrej'. split.
      * intros (Hr & j & c & Ei & Hj & Hx). split; [done|]. by exists (S j), c.
      * intros (Hr & [|j] & c & Ei & Hj & Hx); [simplify_eq/=; tauto|]. split; [done|]. by exists j, c.
    + rewrite mem_false in Ep. eexists. split; [done|]. intros i r. rewrite elem_of_cons, Hrej'. split.
      * intros [[= -> ->]|(Hr & j & c & Ei & Hj & Hx)]; (split; [done|]).
        -- exists 0%nat, call. split; [lia|]. split; [done|]. eauto.
        -- by exists (S j), c.
      * intros (Hr & [|j] & c & Ei & Hj & Hx); [left; f_equal; [lia|done]|]. right. split; [done|]. by exists j, c.
  - eexists. split; [done|]. intros i r. rewrite Hrej'. split.
    + intros (Hr & j & c & Ei & Hj & Hx). split; [done|]. by exists (S j), c.
    + intros (Hr & [|j] & c & Ei & Hj & Hp & o & Ho & Hc); [simplify_eq/=; by destruct (Hn o Ho)|].
      split; [done|]. exists j, c. eauto 10.
Qed.

(** ** Lemmas: keys *)
Lemma canonical_hash_binds `{PyRuntime} p p' h k v v' :
  _canonical_hash p = Ok h -> _canonical_hash p' = Ok h -> NoDup (map fst p') -> (k, v) ∈ p -> (k, v') ∈ p' ->
  norm (json_default_str v) = norm (json_default_str v') \/ exists a b, sha256_collision a b.
Proof.
  unfold _canonical_hash. cbv zeta. intros H1 H2 Hnd Hv Hv'. apply raise_if_ok in H1 as [_ H1].
  apply raise_if_ok in H2 as [_ H2]. rewrite <- H2 in H1. apply Ok_eq in H1. destruct (sha256_eq_or_collision _ _ H1) as [E'|Hc]; [left|right; eauto].
  apply (f_equal String.list_ascii_of_string) in E'. rewrite !String.list_ascii_of_string_of_list_ascii in E'.
  apply dumps_inj in E'. cbn [json_default_str] in E'.
  eapply (norm_member (map (fun kv => (kv.1, json_default_str kv.2)) p) (map (fun kv => (kv.1, json_default_str kv.2)) p') k).
  - by rewrite map_map.
  - done.
  - apply list_elem_of_fmap. by exists (k, v).
  - apply list_elem_of_fmap. by exists (k, v').
Qed.
Lemma opt_str_norm `{PyRuntime} o o' : norm (json_default_str (opt_str o)) = norm (json_default_str (opt_str o')) -> o = o'.
Proof. destruct o, o'; simpl; congruence. Qed.
Lemma str_norm `{PyRuntime} s s' : norm (json_default_str (PyStr s)) = norm (json_default_str (PyStr s')) -> s = s'.
Proof. simpl. congruence. Qed.
Lemma semantic_payload_nodup spec a led call snap o : NoDup (map fst (semantic_payload spec a led call snap o)).
Proof. apply (bool_decide_unpack _). vm_compute. exact I. Qed.
Lemma semantic_key_ok `{PyRuntime} spec a led call snap h :
  semantic_invocation_key spec a led call snap = Ok h ->
  exists o, obligation_for_capability spec (call_name call) = Ok o /\
            _canonical_hash (semantic_payload spec a led call snap o) = Ok h.
Proof. unfold semantic_invocation_key. intros Hk. steps_ok Hk. eauto. Qed.

(** ** Lemmas: stale claims *)
Section stale.
Context `{PyRuntime}.

Lemma evidence_time_parse v : _evidence_time v = _parse_time v.
Proof. done. Qed.
(** The publication check and the ledger agree on what is fresh. *)
Lemma observation_is_fresh_iff obs now : observation_is_fresh obs now = true <-> fresh obs now.
Proof.
  unfold observation_is_fresh, fresh. rewrite andb_true_iff, py_eq_str, evidence_time_parse.
  destruct (_parse_time _) as [t|]; [rewrite Z.leb_le|]; naive_solver.
Qed.

(** A successful business observation that names the source. *)
Definition names_source (obs : pydict) (s : string) : Prop :=
  business_observation obs = true /\ exists l, observation_sources obs = Ok l /\ s ∈ l.
(** The last observation that names the source. *)
Definition latest_naming (observations : list pydict) (s : string) (obs : pydict) : Prop :=
  exists before after, observations = before ++ obs :: after /\ names_source obs s /\
                       forall o, o ∈ after -> ~ names_source o s.
(** The source is backed by an observation that is fresh when it is tested. *)
Definition freshly_backed (observations : list pydict) (clock : string -> Z) (s : string) : Prop :=
  exists obs, latest_naming observations s obs /\ fresh obs (clock s).

Lemma insert_sources_lookup (m : gmap string pydict) obs l s :
  fold_left (fun m s => <[s := obs]> m) l m !! s = if s in? l then Some obs else m !! s.
Proof.
  revert m. induction l as [|x l IH]; intros m; simpl; [done|]. rewrite IH.
  destruct (s in? l) eqn:E; [rewrite mem_true in E; by rewrite (proj2 (mem_true s (x :: l))) by (by right)|].
  rewrite mem_false in E. destruct (decide (s = x)) as [->|Hn].
  - rewrite lookup_insert_eq. by rewrite (proj2 (mem_true x (x :: l))) by (by left).
  - rewrite lookup_insert_ne by done. by rewrite (proj2 (mem_false s (x :: l))) by set_solver.
Qed.
Lemma latest_naming_cons o observations s obs :
  latest_naming (o :: observations) s obs <->
  latest_naming observations s obs \/ (obs = o /\ names_source o s /\ forall o', o' ∈ observations -> ~ names_source o' s).
Proof.
  split.
  - intros (before & after & E & Hn & Ha). destruct before as [|x before]; simplify_eq/=; [by right|].
    left. by exists before, after.
  - intros [(before & after & -> & Hn & Ha)|(-> & Hn & Ha)]; [by exists (o :: before), after|by exists [], observations].
Qed.
Lemma source_map_lookup observations m m' s obs :
  source_to_observation m observations = Ok m' ->
  m' !! s = Some obs <->
  latest_naming observations s obs \/ (m !! s = Some obs /\ forall o, o ∈ observations -> ~ names_source o s).
Proof.
  revert m. induction observations as [|o observations IH]; intros m; simpl.
  { intros [= <-]. split; [intros E; right; split; [done|by intros ? ?%not_elem_of_nil]|].
    intros [(b & a & E & _)|[E _]]; [by destruct b|done]. }
  rewrite latest_naming_cons. destruct (business_observation o) eqn:Eb.
  - destruct (observation_sources o) as [l|] eqn:El; [|done]. intros Hm. cbn in Hm. rewrite (IH _ Hm), insert_sources_lookup.
    assert (names_source o s <-> s ∈ l) as Hns by (unfold names_source; rewrite Eb, El; naive_solver).
    destruct (s in? l) eqn:E; [rewrite mem_true in E|rewrite mem_false in E].
    + split; [intros [?|[[= <-] Ha]]; [by left; left|left; right; tauto]|].
      intros [[?|(-> & _ & Ha)]|[_ Ha]]; [by left|by right|]. destruct (Ha o); [by left|tauto].
    + split; [intros [?|[Em Ha]]; [by left; left|right; split; [done|]]; intros o' [->|Ho']%elem_of_cons; [tauto|by apply Ha]|].
      intros [[?|(-> & Hn & Ha)]|[Em Ha]]; [by left|tauto|right; split; [done|]]. intros o' Ho'. apply Ha. by right.
  - intros Hm. rewrite (IH _ Hm). assert (~ names_source o s) as Hns by (intros [Hn _]; congruence).
    split; [intros [?|[Em Ha]]; [by left; left|right; split; [done|]]; intros o' [->|Ho']%elem_of_cons; [done|by apply Ha]|].
    intros [[?|(-> & Hn & Ha)]|[Em Ha]]; [by left|done|right; split; [done|]]. intros o' Ho'. apply Ha. by right.
Qed.
Lemma publishable_iff observations m clock s :
  source_to_observation ∅ observations = Ok m -> publishable m clock s = true <-> freshly_backed observations clock s.
Proof.
  intros Hm. unfold publishable, freshly_backed.
  assert (forall obs, m !! s = Some obs <-> latest_naming observations s obs) as Hl.
  { intros obs. rewrite (source_map_lookup _ _ _ _ _ Hm). rewrite lookup_empty. naive_solver. }
  destruct (m !! s) as [obs|] eqn:E.
  - rewrite observation_is_fresh_iff. split; [intros Hf; exists obs; split; [by apply Hl|done]|].
    intros (obs' & Ho & Hf). apply Hl in Ho as [= <-]. done.
  - split; [done|]. intros (obs' & Ho & Hf). by apply Hl in Ho.
Qed.
Lemma kept_claims_elem observations m clock claims c :
  source_to_observation ∅ observations = Ok m ->
  c ∈ kept_claims m clock claims <-> c ∈ claims /\ forall s, s ∈ mc_observation_source_ids c -> freshly_backed observations clock s.
Proof.
  intros Hm. unfold kept_claims. rewrite list_elem_of_In, filter_In, <- list_elem_of_In, forallb_true_iff.
  apply and_iff_compat_l. split; intros Hs s Hin; [rewrite <- publishable_iff by done|rewrite publishable_iff by done]; by apply Hs.
Qed.
Lemma kept_claims_sublist m clock claims : kept_claims m clock claims `sublist_of` claims.
Proof.
  unfold kept_claims. induction claims as [|c l IH]; simpl; [done|]. destruct (forallb _ _); [by constructor|by constructor].
Qed.
Lemma kept_claims_again m clock claims : kept_claims m clock (kept_claims m clock claims) = kept_claims m clock claims.
Proof.
  unfold kept_claims. induction claims as [|c l IH]; simpl; [done|]. destruct (forallb _ _) eqn:E; simpl; [rewrite E; by f_equal|done].
Qed.
End stale.

(** ** Properties *)
Section properties.
Context `{PyRuntime}.

(** The entry of an obligation in an evaluated ledger. *)
Lemma entry_of_obligation spec a observations run bs at_ now clock led o :
  evaluate_action_obligations spec a observations run bs at_ now clock = Ok led -> o ∈ obligations spec ->
  exists e, e ∈ led_obligations led /\ entry_shape o e.
Proof.
  intros (_ & _ & Hf & _)%evaluate_ok Ho. destruct (Forall2_elem_l _ _ _ _ Hf Ho) as (e & He & Hoe).
  exists e. split; [done|]. by eapply obligation_entry_shape.
Qed.
Lemma ledger_ids spec a observations run bs at_ now clock led :
  evaluate_action_obligations spec a observations run bs at_ now clock = Ok led ->
  map ent_obligation_id (led_obligations led) = map obligation_id (obligations spec).
Proof.
  intros (_ & _ & Hf & _)%evaluate_ok. induction Hf as [|o e l k Hoe _ IH]; simpl; [done|].
  apply obligation_entry_shape in Hoe as (-> & _). by f_equal.
Qed.
Lemma unread_capability spec a observations run bs at_ now clock led o e c :
  registered spec -> evaluate_action_obligations spec a observations run bs at_ now clock = Ok led ->
  o ∈ obligations spec -> c ∈ capabilities o -> e ∈ led_obligations led -> ent_obligation_id e = obligation_id o ->
  c ∈ unsatisfied_capabilities led <-> led_terminal_outcome led = None /\ ent_status e ∈ [Pending; Stale].
Proof.
  intros Hr He Ho Hc Hin Hid. pose proof (registered_disjoint _ Hr) as [Hnd Hd].
  pose proof (ledger_entries _ _ _ _ _ _ _ _ _ He) as Hsh. pose proof (ledger_ids _ _ _ _ _ _ _ _ _ He) as Hids.
  apply evaluate_ok in He as (_ & _ & _ & _ & Hu & Ht). rewrite Hu, Ht.
  destruct (omap ent_terminal_outcome (led_obligations led)) as [|t l] eqn:Eo; simpl.
  - rewrite (unsatisfied_elem _ _ Eo). split.
    + intros (e' & He' & Hs & Hce). destruct (Hsh e' He') as (o' & Ho' & Hid' & Hcap & _). rewrite Hcap in Hce.
      assert (o' = o) as -> by (by eapply Hd). split; [done|].
      assert (e' = e) as <-; [|done]. eapply (nodup_map_inj ent_obligation_id); [by rewrite Hids|done..|congruence].
    + intros [_ Hs]. exists e. split; [done|]. split; [done|]. destruct (Hsh e Hin) as (o' & Ho' & Hid' & Hcap & _).
      assert (o' = o) as -> by (eapply (nodup_map_inj obligation_id); [done..|congruence]). by rewrite Hcap.
  - unfold unsatisfied. rewrite Eo. split; [by intros ?%not_elem_of_nil|by intros [? _]].
Qed.

(** A batch of reads is never blocked wrongly and never repeats a settled
    read.  For a registered action and an evaluated ledger the check returns;
    it refuses exactly the calls that serve an obligation whose entry is not
    pending or stale, or any obligation once the ledger has a terminal
    outcome; calls that serve no obligation are let through. *)
Theorem batch_rejects_settled spec a observations run bs at_ now clock led calls :
  registered spec -> evaluate_action_obligations spec a observations run bs at_ now clock = Ok led ->
  exists rejected, semantic_batch_rejections spec led calls = Ok rejected /\
    forall i, (exists r, (i, r) ∈ rejected) <->
      exists call o e, calls !! i = Some call /\ o ∈ obligations spec /\ call_name call ∈ capabilities o /\
        e ∈ led_obligations led /\ ent_obligation_id e = obligation_id o /\
        (ent_status e ∉ [Pending; Stale] \/ led_terminal_outcome led <> None).
Proof.
  intros Hr He. destruct (batch_rejections_spec spec (unsatisfied_capabilities led) calls 0 (registered_disjoint _ Hr))
    as (rej & Hrej & Hiff). exists rej. split; [done|]. intros i. split.
  - intros (r & (_ & j & call & -> & Hj & Hp & o & Ho & Hc)%Hiff).
    destruct (entry_of_obligation _ _ _ _ _ _ _ _ _ _ He Ho) as (e & Hin & Hid & _).
    exists call, o, e. split_and!; [done..|]. rewrite (unread_capability _ _ _ _ _ _ _ _ _ _ _ _ Hr He Ho Hc Hin Hid) in Hp.
    destruct (led_terminal_outcome led); [by right|]. left. tauto.
  - intros (call & o & e & Hi & Ho & Hc & Hin & Hid & Hs). exists "obligation_already_qualified". apply Hiff. split; [done|].
    exists i, call. split_and!; [done..| |by eauto].
    rewrite (unread_capability _ _ _ _ _ _ _ _ _ _ _ _ Hr He Ho Hc Hin Hid). naive_solver.
Qed.

(** The two keys are about the same read. *)
Definition same_purpose (spec spec' : ActionSpec) (a a' : ActionAdmissionV2) (led led' : ActionObligationLedger)
    (call call' : ReadToolCall) (snap snap' : option string) : Prop :=
  exists o, obligation_for_capability spec (call_name call) = Ok o /\
    obligation_for_capability spec' (call_name call') = Ok o /\ call_name call = call_name call' /\
    action_type spec = action_type spec' /\ adm_tenant_id a = adm_tenant_id a' /\ adm_customer_id a = adm_customer_id a' /\
    adm_scope_hash a = adm_scope_hash a' /\
    (call_name call = "search_knowledge" -> snap = snap') /\
    resolved_resource_id (find_first (fun e => Some (ent_obligation_id e) ==? o) (led_obligations led)) =
      resolved_resource_id (find_first (fun e => Some (ent_obligation_id e) ==? o) (led_obligations led')) /\
    norm (json_default_str (admitted_resource_ref a (find_first (fun x => Some (obligation_id x) ==? o) (obligations spec)))) =
      norm (json_default_str (admitted_resource_ref a' (find_first (fun x => Some (obligation_id x) ==? o) (obligations spec')))).

(** A semantic key identifies what a read is for.  Two calls with the same
    key have the same capability, action, obligation, customer and scope, the
    same admitted and resolved resource and, for a knowledge search, the same
    index, or exhibit a SHA-256 collision; and the arguments the model chose
    for a call do not change its key. *)
Theorem semantic_key_identifies spec spec' a a' led led' call call' snap snap' h :
  semantic_invocation_key spec a led call snap = Ok h ->
  (forall arguments, semantic_invocation_key spec a led (mk_call (call_name call) arguments) snap = Ok h) /\
  (semantic_invocation_key spec' a' led' call' snap' = Ok h ->
   same_purpose spec spec' a a' led led' call call' snap snap' \/ exists x y, sha256_collision x y).
Proof.
  intros Hk. split; [done|]. apply semantic_key_ok in Hk as (o & Ho & Hh). intros (o' & Ho' & Hh')%semantic_key_ok.
  pose proof (fun k v v' => canonical_hash_binds _ _ h k v v' Hh Hh' (semantic_payload_nodup _ _ _ _ _ _)) as Hb.
  destruct (Hb "obligation_id" (opt_str o) (opt_str o')) as [E|?]; [list_member..| |by right]. apply opt_str_norm in E as <-.
  destruct (Hb "capability" (PyStr (call_name call)) (PyStr (call_name call'))) as [E1%str_norm|?]; [list_member..| |by right].
  destruct (Hb "action_type" (PyStr (action_type_str (action_type spec))) (PyStr (action_type_str (action_type spec'))))
    as [E2%str_norm%action_type_str_inj|?]; [list_member..| |by right].
  destruct (Hb "tenant_id" (PyStr (adm_tenant_id a)) (PyStr (adm_tenant_id a'))) as [E3%str_norm|?]; [list_member..| |by right].
  destruct (Hb "customer_id" (PyStr (adm_customer_id a)) (PyStr (adm_customer_id a'))) as [E4%str_norm|?]; [list_member..| |by right].
  destruct (Hb "scope_hash" (PyStr (adm_scope_hash a)) (PyStr (adm_scope_hash a'))) as [E5%str_norm|?]; [list_member..| |by right].
  destruct (Hb "index_snapshot" _ _ ltac:(list_member) ltac:(list_member)) as [E6%opt_str_norm|?]; [|by right].
  destruct (Hb "resolved_resource_id" _ _ ltac:(list_member) ltac:(list_member)) as [E7%opt_str_norm|?]; [|by right].
  destruct (Hb "admitted_resource_ref" _ _ ltac:(list_member) ltac:(list_member)) as [E8|?]; [|by right].
  left. exists o. split_and!; try done. intros Es. rewrite <- E1, Es in E6. exact E6.
Qed.

(** The source references of the successful business observations are lists. *)
Definition well_formed_sources (observations : list pydict) : bool :=
  forallb (fun o => negb (business_observation o) || is_ok (observation_sources o)) observations.
Lemma source_map_total observations m : is_ok (source_to_observation m observations) = well_formed_sources observations.
Proof.
  revert m. induction observations as [|o l IH]; intros m; simpl; [done|]. destruct (business_observation o); simpl; [|apply IH].
  destruct (observation_sources o); simpl; [apply IH|done].
Qed.
Lemma prune_ok c observations bindings clock c' n :
  prune_stale_business_claims c observations bindings clock = Ok (c', n) ->
  exists m, source_to_observation ∅ observations = Ok m /\
    cand_material_claims c' = kept_claims m clock (cand_material_claims c) /\
    n = count (cand_material_claims c) - count (cand_material_claims c') /\
    (n = 0 /\ c' = c \/ n <> 0 /\ c' = without_stale c (cand_material_claims c') bindings).
Proof.
  unfold prune_stale_business_claims. destruct (source_to_observation ∅ observations) as [m|] eqn:Em; [|done]. cbn.
  set (kept := kept_claims m clock (cand_material_claims c)). intros Hp. exists m. split; [done|].
  destruct (Z.eqb_spec (count (cand_material_claims c) - count kept) 0) as [E|E]; simplify_eq; cbn.
  - assert (kept = cand_material_claims c') as Ek.
    { apply sublist_same_length; [apply kept_claims_sublist|]. unfold count in E. lia. }
    fold kept. rewrite Ek. split_and!; [done|lia|by left].
  - split_and!; [done..|by right].
Qed.
Lemma prune_again c observations bindings clock c' n :
  prune_stale_business_claims c observations bindings clock = Ok (c', n) ->
  prune_stale_business_claims c' observations bindings clock = Ok (c', 0).
Proof.
  intros (m & Hm & Hk & _)%prune_ok. unfold prune_stale_business_claims. rewrite Hm. cbn.
  rewrite Hk at 2. rewrite Hk at 1. rewrite kept_claims_again, Z.sub_diag. done.
Qed.

(** The elements with a property, in their order and as often as they occur. *)
Definition selects {A} (P : A -> Prop) (l' l : list A) : Prop :=
  exists f : A -> bool, (forall x, f x = true <-> P x) /\ l' = List.filter f l.
Lemma selects_filter {A} (f : A -> bool) (P : A -> Prop) l : (forall x, f x = true <-> P x) -> selects P (List.filter f l) l.
Proof. intros Hf. by exists f. Qed.
Lemma selects_elem {A} (P : A -> Prop) l' l x : selects P l' l -> x ∈ l' <-> x ∈ l /\ P x.
Proof. intros (f & Hf & ->). rewrite list_elem_of_In, filter_In, <- list_elem_of_In. by rewrite Hf. Qed.
(** What a claim rests on. *)
Definition backs_source (claims : list MaterialClaim) (s : string) : Prop := exists x, x ∈ claims /\ s ∈ mc_observation_source_ids x.
Definition backs_binding (claims : list MaterialClaim) (b : string) : Prop := exists x, x ∈ claims /\ b ∈ mc_citation_binding_ids x.
Definition backs_chunk (bindings : gmap string pydict) (claims : list MaterialClaim) (k : string) : Prop :=
  exists b d, backs_binding claims b /\ bindings !! b = Some d /\ truthy (d.["chunk_id"]) = true /\ k = py_str (d.["chunk_id"]).
Lemma in_concat_map {A B} (f : A -> list B) l y : y ∈ concat (map f l) <-> exists x, x ∈ l /\ y ∈ f x.
Proof.
  rewrite list_elem_of_In, in_concat. split.
  - intros (r & (x & <- & Hx)%in_map_iff & Hy). exists x. by rewrite !list_elem_of_In.
  - intros (x & Hx & Hy). rewrite !list_elem_of_In in *. exists (f x). split; [by apply in_map|done].
Qed.
Lemma claim_sources_backs claims s : (s in? claim_sources claims) = true <-> backs_source claims s.
Proof. rewrite mem_true. apply in_concat_map. Qed.
Lemma claim_citations_backs claims b : (b in? claim_citations claims) = true <-> backs_binding claims b.
Proof. rewrite mem_true. apply in_concat_map. Qed.
Lemma kept_chunks_backs bindings claims k : (k in? kept_chunk_ids bindings (claim_citations claims)) = true <-> backs_chunk bindings claims k.
Proof.
  rewrite mem_true. unfold kept_chunk_ids, backs_chunk. rewrite list_elem_of_omap. split.
  - intros (b & Hb & E). destruct (bindings !! b) as [d|] eqn:Ed; [|done]. destruct (truthy _) eqn:Et; [|done]. injection E as <-.
    exists b, d. rewrite <- claim_citations_backs, mem_true. done.
  - intros (b & d & Hb & Ed & Et & ->). exists b. rewrite Ed, Et. split; [|done]. by apply mem_true, claim_citations_backs.
Qed.

(** C34: an answer publishes only fresh business facts.  Pruning returns for
    every well-formed list of observations.  The claims that remain are exactly
    those each of whose business sources is named by an observation of which the
    last one that names it is fresh when it is tested.  If any claim goes, the
    business sources, citations and knowledge chunks that remain are exactly
    those the remaining claims rest on, each in its order, and the answer is made
    of their texts or says that nothing can be confirmed; an answer without
    stale claims is not touched, and pruning again changes nothing. *)
Theorem only_fresh_claims_published c observations bindings clock :
  well_formed_sources observations = true ->
  exists c' n, prune_stale_business_claims c observations bindings clock = Ok (c', n) /\
    let claims := cand_material_claims c' in
    selects (fun x => forall s, s ∈ mc_observation_source_ids x -> freshly_backed observations clock s) claims (cand_material_claims c) /\
    n = count (cand_material_claims c) - count claims /\ (n = 0 -> c' = c) /\
    (n <> 0 -> cand_action c' = cand_action c /\ proposed_arguments c' = proposed_arguments c /\
       selects (backs_source claims) (cand_business_source_ids c') (cand_business_source_ids c) /\
       (forall s, s ∈ cand_business_source_ids c' -> freshly_backed observations clock s) /\
       selects (fun q => backs_binding claims (cc_citation_binding_id q)) (cand_knowledge_citations c') (cand_knowledge_citations c) /\
       selects (backs_chunk bindings claims) (cand_knowledge_chunk_ids c') (cand_knowledge_chunk_ids c) /\
       cand_answer c' = (if is_empty_str (kept_answer claims) then stale_text else kept_answer claims)) /\
    prune_stale_business_claims c' observations bindings clock = Ok (c', 0).
Proof.
  intros Hw. rewrite <- (source_map_total _ ∅) in Hw.
  destruct (prune_stale_business_claims c observations bindings clock) as [[c' n]|e] eqn:Hp;
    [|unfold prune_stale_business_claims in Hp; destruct (source_to_observation _ _); [cbn in Hp; by destruct (_ =? _)|done]].
  exists c', n. split; [done|]. cbv zeta. pose proof (prune_again _ _ _ _ _ _ Hp) as Hagain.
  apply prune_ok in Hp as (m & Hm & Hk & Hn & Hc).
  assert (selects (fun x => forall s, s ∈ mc_observation_source_ids x -> freshly_backed observations clock s)
            (cand_material_claims c') (cand_material_claims c)) as Hsel.
  { rewrite Hk. apply selects_filter. intros x. rewrite forallb_true_iff. split; intros Hs s Hin; apply (publishable_iff observations m clock s Hm); auto. }
  split; [done|]. split; [done|]. split; [by destruct Hc as [[? ?]|[? ?]]|]. split; [|done].
  intros Hne. destruct Hc as [[? ?]|[_ Hc]]; [done|].
  assert (selects (backs_source (cand_material_claims c')) (cand_business_source_ids c') (cand_business_source_ids c)) as Hbus.
  { rewrite (f_equal cand_business_source_ids Hc). apply selects_filter, claim_sources_backs. }
  split; [exact (f_equal cand_action Hc)|]. split; [exact (f_equal proposed_arguments Hc)|]. split; [done|].
  split; [|split; [|split]].
  - intros s (_ & x & Hx & Hs)%(selects_elem _ _ _ _ Hbus). apply (selects_elem _ _ _ _ Hsel) in Hx as [_ Hf]. by apply Hf.
  - rewrite (f_equal cand_knowledge_citations Hc). apply selects_filter. intros q. apply claim_citations_backs.
  - rewrite (f_equal cand_knowledge_chunk_ids Hc). apply selects_filter. intros k. apply kept_chunks_backs.
  - exact (f_equal cand_answer Hc).
Qed.
End properties.

(** ** Concrete reads and answers *)
Module Reads.
#[local] Existing Instance ascii_runtime.
Definition calls : list ReadToolCall :=
  [mk_call "search_knowledge" [("query", PyStr "refund")]; mk_call "query_billing_record" [("billing_record_id", PyStr "bill-7")];
   mk_call "query_account" []].
Definition reads : list pydict := [Demo.policy "r1"].
Definition led : ActionObligationLedger := Demo.ledger reads.
Lemma refund_registered : registered refund_spec.
Proof. exists Refund. apply list_elem_of_here. Defined.
(** The policy is read, the billing record is not: only the first call is refused. *)
Lemma batch_rejects_settled_witness :
  semantic_batch_rejections refund_spec led calls = Ok [(0%nat, "obligation_already_qualified")] /\
  exists rejected, semantic_batch_rejections refund_spec led calls = Ok rejected /\
    forall i, (exists r, (i, r) ∈ rejected) <->
      exists call o e, calls !! i = Some call /\ o ∈ obligations refund_spec /\ call_name call ∈ capabilities o /\
        e ∈ led_obligations led /\ ent_obligation_id e = obligation_id o /\
        (ent_status e ∉ [Pending; Stale] \/ led_terminal_outcome led <> None).
Proof.
  split; [vm_compute; reflexivity|].
  apply (batch_rejects_settled refund_spec Demo.admission reads "r1" [Demo.citation] (Some "attempt-1") (Some Demo.now) 0 led calls);
    [exact refund_registered|vm_compute; reflexivity].
Defined.

Definition call : ReadToolCall := mk_call "query_billing_record" [("billing_record_id", PyStr "bill-7")].
Definition key : string := match semantic_invocation_key refund_spec Demo.admission led call None with Ok h => h | Err _ => "" end.
Lemma semantic_key_identifies_witness :
  semantic_invocation_key refund_spec Demo.admission led call None = Ok key /\
  semantic_invocation_key refund_spec Demo.admission led (mk_call "query_billing_record" []) None = Ok key.
Proof.
  assert (semantic_invocation_key refund_spec Demo.admission led call None = Ok key) as Hk by (vm_compute; reflexivity).
  split; [exact Hk|].
  exact (proj1 (semantic_key_identifies refund_spec refund_spec Demo.admission Demo.admission led led call call None None key Hk) []).
Defined.

(** One claim rests on the billing record, one on a source nobody observed. *)
Definition answer : CandidateResponse :=
  mk_candidate "The charge is a duplicate. The quota is 5." "answer" ["chunk-1"] [mk_candidate_citation "cb-1"] ["bill-7"; "quota-1"]
    [mk_material_claim "The charge is a duplicate." ["cb-1"] ["lh"] ["bill-7"]; mk_material_claim "The quota is 5." [] [] ["quota-1"]] [].
Definition observed : list pydict := [Demo.billing "r1" "charged" true; Demo.policy "r1"].
Definition bindings : gmap string pydict := {["cb-1" := [("chunk_id", PyStr "chunk-1")]]}.
Definition pruned_at (t : Z) : res (string * list string * Z) :=
  let? p := prune_stale_business_claims answer observed bindings (fun _ => t) in
  Ok (cand_answer p.1, cand_business_source_ids p.1, p.2).
Example in_time : pruned_at 1784073660000000 = Ok ("The charge is a duplicate.", ["bill-7"], 1).
Proof. vm_compute. reflexivity. Qed.
Example too_late : pruned_at 1784073660000001 = Ok (stale_text, [], 2).
Proof. vm_compute. reflexivity. Qed.
Lemma only_fresh_claims_published_witness :
  exists c' n, prune_stale_business_claims answer observed bindings (fun _ => 1784073660000000) = Ok (c', n) /\
    prune_stale_business_claims c' observed bindings (fun _ => 1784073660000000) = Ok (c', 0).
Proof.
  destruct (only_fresh_claims_published answer observed bindings (fun _ => 1784073660000000) ltac:(vm_compute; reflexivity))
    as (c' & n & Hp & _ & _ & _ & _ & Ha).
  exists c', n. split; [exact Hp|exact Ha].
Defined.
End Reads.
