(* ===== verification/EvidenceGate.v ===== *)
(** * The evidence decision before a model is asked for an answer
      (agent/evidence.py, agent/evidence_contracts.py, agent/decision.py)

    Before the provider is called, the runtime decides from its own records
    whether the evidence suffices: which observations of this run are fresh
    and in the scope of the customer, which citations belong to the provider
    attempt, which required groups are satisfied, missing or stale, and whether
    published knowledge conflicts.  After the call, [assess_terminal_evidence]
    checks the candidate against the observations once more.

    Main results: the decision is always produced and satisfies the validators
    of its own model; it accepts exactly when every record at hand is usable
    and unambiguous, no conflict is unexplained, and every required group has
    a fresh observation; a candidate is accepted exactly when its required
    groups were read and the sources of its claims are fresh. *)
From Stdlib Require Import Ascii.
From S2P Require Import Prelude PyValue Sha256 CanonicalJson ActionSpecs Obligations Synthesis ProposalAssembly ReadPolicy Admission.
Local Open Scope string_scope.
Local Open Scope list_scope.
Local Open Scope Z_scope.

(** ** agent/evidence_contracts.py *)
Inductive EvidenceGroup :=
| knowledge | request_trace | billing_record | api_key_metadata | subscription | account | api_usage.
#[export] Instance EvidenceGroup_eq_dec : EqDecision EvidenceGroup.
Proof. solve_decision. Defined.
Definition group_name (g : EvidenceGroup) : string :=
  match g with
  | knowledge => "knowledge" | request_trace => "request_trace" | billing_record => "billing_record"
  | api_key_metadata => "api_key_metadata" | subscription => "subscription" | account => "account"
  | api_usage => "api_usage"
  end.
(** [len(items) == len(set(items))] *)
Definition all_distinct {A} `{EqDecision A} (l : list A) : bool := Nat.eqb (length l) (length (remove_dups l)).

Record EvidenceRequirements := mk_evidence_requirements { required_groups : list EvidenceGroup }.
Definition validate_unique_groups (r : EvidenceRequirements) : res EvidenceRequirements :=
  raise ValidationError "evidence requirement groups must be unique" when negb (all_distinct (required_groups r)) ;; Ok r.

Record EligibleCitation := mk_eligible_citation {
  ec_citation_binding_id : string; ec_provider_attempt_id : string; ec_evidence_id : string; ec_document_id : string;
  ec_chunk_id : string; ec_content_hash : string; ec_locator_hash : string }.
Definition new_eligible_citation (c : EligibleCitation) : res EligibleCitation :=
  raise ValidationError "EligibleCitation" when negb (
    len_between 1 128 (ec_citation_binding_id c) && len_between 1 128 (ec_provider_attempt_id c)
    && len_between 1 256 (ec_evidence_id c) && len_between 1 256 (ec_document_id c) && len_between 1 256 (ec_chunk_id c)
    && is_sha256_hex (ec_content_hash c) && is_sha256_hex (ec_locator_hash c)) ;; Ok c.

Record FreshScopedObservation := mk_fresh_observation {
  fo_observation_id : string; fo_tool_call_id : string; fo_tool_name : string; fo_run_id : string; fo_tenant_id : string;
  fo_customer_id : string; fo_scope_hash : string; fo_observed_at : datetime; fo_fresh_until : datetime;
  fo_source_ids : list string; fo_evidence_ids : list string; fo_resource_version : option string }.
Definition new_fresh_observation (o : FreshScopedObservation) : res FreshScopedObservation :=
  raise ValidationError "FreshScopedObservation" when negb (
    len_between 1 128 (fo_observation_id o) && len_between 1 128 (fo_tool_call_id o) && len_between 1 128 (fo_tool_name o)
    && len_between 1 128 (fo_run_id o) && len_between 1 128 (fo_tenant_id o) && len_between 1 128 (fo_customer_id o)
    && is_sha256_hex (fo_scope_hash o)) ;; Ok o.

Inductive EvidenceResult := accept | replan | terminal.
#[export] Instance EvidenceResult_eq_dec : EqDecision EvidenceResult.
Proof. solve_decision. Defined.
Record EvidenceDecision := mk_evidence_decision {
  ed_run_id : string; ed_tenant_id : string; ed_customer_id : string; ed_provider_attempt_id : string;
  ed_requirements : EvidenceRequirements; ed_sufficient : bool; ed_result : EvidenceResult;
  ed_eligible_citations : list EligibleCitation; ed_fresh_scoped_observations : list FreshScopedObservation;
  ed_satisfied_groups : list EvidenceGroup; ed_missing_groups : list EvidenceGroup; ed_stale_groups : list EvidenceGroup;
  ed_conflict_reasons : list string; ed_insufficient_reasons : list string; ed_error_code : option string }.

(** [set(a) == set(b)] and [set(a) & set(b)] *)
Definition same_set {A} `{EqDecision A} (a b : list A) : bool :=
  forallb (fun x => x in? b) a && forallb (fun x => x in? a) b.
Definition overlap {A} `{EqDecision A} (a b : list A) : bool := existsb (fun x => x in? b) a.
Definition validate_decision_contract (d : EvidenceDecision) : res EvidenceDecision :=
  raise ValidationError "EvidenceDecision" when negb (
    len_between 1 128 (ed_run_id d) && len_between 1 128 (ed_tenant_id d) && len_between 1 128 (ed_customer_id d)
    && len_between 1 128 (ed_provider_attempt_id d)) ;;
  raise ValidationError "only an accepted EvidenceDecision can be sufficient"
    when ed_sufficient d !=? (ed_result d ==? accept) ;;
  raise ValidationError "an accepted EvidenceDecision cannot carry insufficiency"
    when ed_sufficient d && (negb (is_nil (ed_insufficient_reasons d)) || isSome (ed_error_code d)) ;;
  raise ValidationError "a failed EvidenceDecision requires a stable reason"
    when negb (ed_sufficient d) && is_nil (ed_insufficient_reasons d) ;;
  raise ValidationError "fresh observations must match the decision scope"
    when existsb (fun o => (fo_run_id o !=? ed_run_id d) || (fo_tenant_id o !=? ed_tenant_id d)
                           || (fo_customer_id o !=? ed_customer_id d)) (ed_fresh_scoped_observations d) ;;
  raise ValidationError "eligible citation identities must be unique"
    when negb (all_distinct (map ec_citation_binding_id (ed_eligible_citations d))) ;;
  raise ValidationError "fresh observation identities must be unique"
    when negb (all_distinct (map fo_observation_id (ed_fresh_scoped_observations d))) ;;
  raise ValidationError "eligible citations must match the decision Provider attempt"
    when existsb (fun c => ec_provider_attempt_id c !=? ed_provider_attempt_id d) (ed_eligible_citations d) ;;
  raise ValidationError "every required evidence group needs exactly one disposition"
    when negb (same_set (ed_satisfied_groups d ++ ed_missing_groups d ++ ed_stale_groups d) (required_groups (ed_requirements d))) ;;
  raise ValidationError "each evidence group disposition must be unique"
    when existsb (fun l => negb (all_distinct l)) [ed_satisfied_groups d; ed_missing_groups d; ed_stale_groups d] ;;
  raise ValidationError "evidence group dispositions cannot overlap"
    when overlap (ed_satisfied_groups d) (ed_missing_groups d) || overlap (ed_satisfied_groups d) (ed_stale_groups d)
         || overlap (ed_missing_groups d) (ed_stale_groups d) ;;
  Ok d.

(** ** Dictionaries of lists: [d.setdefault(key(x), []).append(x)] over a sequence *)
Fixpoint setdefault_append {A} (k : string) (x : A) (d : list (string * list A)) : list (string * list A) :=
  match d with
  | [] => [(k, [x])]
  | (k', xs) :: d => if decide (k = k') then (k', xs ++ [x]) :: d else (k', xs) :: setdefault_append k x d
  end.
Definition group_by {A} (key : A -> string) (l : list A) : list (string * list A) :=
  fold_left (fun d x => setdefault_append (key x) x d) l [].

(** What a decision is about: [run_id], [tenant_id], [customer_id]. *)
Record evidence_scope := mk_scope { sc_run_id : string; sc_tenant_id : string; sc_customer_id : string }.

(** The order in which a Python set of strings is iterated is not specified. *)
Class SetIteration := {
  iterate : gset string -> list string;
  iterate_elements : forall X, iterate X ≡ₚ elements X;
}.
Definition sorted_iteration : SetIteration := {| iterate := elements; iterate_elements X := Permutation_refl (elements X) |}.

Section decision.
Context `{PyRuntime}.

(** [str(value or "")] *)
Definition str_or_empty (v : pyval) : string := py_str (py_or v (PyStr "")).
Definition is_str (v : pyval) (s : string) : bool := py_eq v (PyStr s).

Definition _canonical_scope_hash (tenant_id customer_id : string) : string :=
  sha256_hex ("{" +:+ json_str "customer_id" +:+ ":" +:+ json_str customer_id +:+ "," +:+ json_str "tenant_id" +:+ ":" +:+ json_str tenant_id +:+ "}").
Definition _observation_scope_matches (o : pydict) (s : evidence_scope) : bool :=
  match o.["trusted_scope"] with
  | PyDict trusted_scope =>
      let expected := _canonical_scope_hash (sc_tenant_id s) (sc_customer_id s) in
      is_str (o.["run_id"]) (sc_run_id s) && is_str (o.["tenant_id"]) (sc_tenant_id s)
      && is_str (o.["customer_id"]) (sc_customer_id s) && is_str (o.["scope_hash"]) expected
      && is_str (trusted_scope.["tenant_id"]) (sc_tenant_id s) && is_str (trusted_scope.["customer_id"]) (sc_customer_id s)
      && is_str (trusted_scope.["scope_hash"]) expected
  | _ => false
  end.

(** The dictionaries of a value that is a list; anything else has none. *)
Definition listed_dicts (v : pyval) : list pydict :=
  match v with PyList l => omap (fun x => match x with PyDict d => Some d | _ => None end) l | _ => [] end.
Definition source_ids_of (o : pydict) : list string :=
  omap (fun d => if truthy (d.["source_id"]) then Some (py_str (d.["source_id"])) else None) (listed_dicts (o.["source_refs"])).
Definition evidence_items (o : pydict) : pyval :=
  match o.["data"] with PyDict data => dget_or "evidence" (PyList []) data | _ => PyList [] end.
Definition evidence_ids_of (o : pydict) : list string :=
  omap (fun d => if truthy (d.["evidence_id"]) && is_true (d.["supporting_span_eligible"]) then Some (py_str (d.["evidence_id"])) else None)
    (listed_dicts (evidence_items o)).
Definition resource_version_of (o : pydict) : option string :=
  let version :=
    match o.["resource_version"], o.["data"] with
    | PyNone, PyDict data => py_or (data.["resource_version"]) (data.["version"])
    | v, _ => v
    end in
  if is_none version then None else Some (py_str version).

(** A projection, or the reason there is none. *)
Definition _fresh_scoped_observation (o : pydict) (s : evidence_scope) (now : Z) : string + FreshScopedObservation :=
  if negb (_observation_scope_matches o s) then inl "observation_not_current_scope"
  else if negb (is_str (o.["status"]) "ok") then inl "observation_not_successful"
  else if negb (is_str (o.["freshness_status"]) "fresh") then inl "observation_not_fresh_at_decision_time"
  else
    let tool_call_id := str_or_empty (o.["tool_call_id"]) in
    let observation_id := py_str (py_or (o.["observation_id"]) (PyStr tool_call_id)) in
    let tool_name := str_or_empty (o.["tool_name"]) in
    match _evidence_time (o.["observed_at"]), _evidence_time (o.["fresh_until"]) with
    | Some observed_at, Some fresh_until =>
        if is_empty_str tool_call_id || is_empty_str observation_id || is_empty_str tool_name
        then inl "observation_identity_incomplete"
        else if negb ((instant observed_at <=? now) && (now <=? instant fresh_until))
        then inl "observation_not_fresh_at_decision_time"
        else if negb (all_distinct (source_ids_of o)) then inl "observation_source_identity_duplicate"
        else if negb (all_distinct (evidence_ids_of o)) then inl "observation_evidence_identity_duplicate"
        else
          match new_fresh_observation (mk_fresh_observation observation_id tool_call_id tool_name (sc_run_id s) (sc_tenant_id s)
                  (sc_customer_id s) (_canonical_scope_hash (sc_tenant_id s) (sc_customer_id s)) observed_at fresh_until
                  (source_ids_of o) (evidence_ids_of o) (resource_version_of o)) with
          | Ok f => inr f
          | Err _ => inl "observation_projection_invalid"
          end
    | _, _ => inl "observation_identity_incomplete"
    end.

(** ** Citations *)
Definition binding_identity (raw : pydict) : string := str_or_empty (raw.["citation_binding_id"]).
Definition citation_of (binding_id : string) (raw : pydict) : res EligibleCitation :=
  new_eligible_citation (mk_eligible_citation binding_id (str_or_empty (raw.["provider_attempt_id"]))
    (str_or_empty (raw.["evidence_id"])) (str_or_empty (raw.["document_id"])) (str_or_empty (raw.["chunk_id"]))
    (str_or_empty (raw.["content_hash"])) (str_or_empty (raw.["locator_hash"]))).
Definition citation_of_rows (provider_attempt_id : string) (entry : string * list pydict) : string + EligibleCitation :=
  match entry.2 with
  | [raw] =>
      if negb (is_str (raw.["provider_attempt_id"]) provider_attempt_id) then inl ("citation_binding_not_current:" +:+ entry.1)
      else match citation_of entry.1 raw with Ok c => inr c | Err _ => inl ("citation_binding_invalid:" +:+ entry.1) end
  | _ => inl ("citation_binding_not_unique:" +:+ entry.1)
  end.
Definition lefts {A B} (l : list (A + B)) : list A := omap (fun x => match x with inl a => Some a | inr _ => None end) l.
Definition rights {A B} (l : list (A + B)) : list B := omap (fun x => match x with inr b => Some b | inl _ => None end) l.

Definition _eligible_citations (citation_bindings : list pydict) (provider_attempt_id : string) (eligible_evidence_ids : list string)
  : list EligibleCitation * list string :=
  let anonymous := List.filter (fun raw => is_empty_str (binding_identity raw)) citation_bindings in
  let raw_by_id := group_by binding_identity (List.filter (fun raw => negb (is_empty_str (binding_identity raw))) citation_bindings) in
  let outcomes := map (citation_of_rows provider_attempt_id) raw_by_id in
  let read := rights outcomes in
  let eligible := List.filter (fun c => ec_evidence_id c in? eligible_evidence_ids) read in
  let accepted_by_identity := group_by ec_evidence_id eligible in
  let ambiguous_ids := concat (map (fun e => if Nat.ltb 1 (length e.2) then map ec_citation_binding_id e.2 else []) accepted_by_identity) in
  (List.filter (fun c => negb (ec_citation_binding_id c in? ambiguous_ids)) eligible,
   map (fun _ => "citation_binding_identity_missing") anonymous
   ++ lefts outcomes
   ++ map (fun c => "citation_evidence_not_eligible:" +:+ ec_citation_binding_id c)
        (List.filter (fun c => negb (ec_evidence_id c in? eligible_evidence_ids)) read)
   ++ map (fun b => "citation_evidence_identity_ambiguous:" +:+ b) (sorted_set ambiguous_ids)).

(** ** Requirements *)
Definition knowledge_issues : list string :=
  ["api_diagnostics"; "billing_refund"; "credential_security"; "incident_support"; "product_knowledge"; "entitlement_change"].
Definition derive_evidence_requirements (issue_type requested_action : string) (specified_request : bool)
    (additional_groups : list EvidenceGroup) : res EvidenceRequirements :=
  let groups :=
    (if issue_type in? knowledge_issues then [knowledge] else [])
    ++ (if (issue_type in? ["api_diagnostics"; "incident_support"]) && specified_request then [request_trace] else [])
    ++ (if requested_action ==? "refund" then [billing_record]
        else if requested_action ==? "api_key_revocation" then [api_key_metadata]
        else if requested_action ==? "entitlement_change" then [subscription] else [])
    ++ additional_groups in
  validate_unique_groups (mk_evidence_requirements (fromkeys groups)).

Definition tool_group (tool_name : string) : option EvidenceGroup :=
  snd <$> find_first (fun kv => kv.1 ==? tool_name)
    [("search_knowledge", knowledge); ("query_request_trace", request_trace); ("query_billing_record", billing_record);
     ("query_api_key_metadata", api_key_metadata); ("query_subscription", subscription); ("query_account", account);
     ("query_api_usage", api_usage)].
Definition _evidence_group (f : FreshScopedObservation) : option EvidenceGroup :=
  match tool_group (fo_tool_name f) with
  | Some knowledge => if is_nil (fo_evidence_ids f) then None else Some knowledge
  | group => group
  end.
(** The group an observation leaves stale, if its own test says so. *)
Definition stale_group (required : list EvidenceGroup) (s : evidence_scope) (now : Z) (o : pydict) : option EvidenceGroup :=
  match tool_group (str_or_empty (o.["tool_name"])) with
  | None => None
  | Some group =>
      if negb (group in? required) || negb (is_str (o.["status"]) "ok") || negb (_observation_scope_matches o s) then None
      else
        let current :=
          is_str (o.["freshness_status"]) "fresh"
          && match _evidence_time (o.["observed_at"]), _evidence_time (o.["fresh_until"]) with
             | Some observed_at, Some fresh_until => (instant observed_at <=? now) && (now <=? instant fresh_until)
             | _, _ => false
             end in
        if current then None else Some group
  end.
Definition _stale_required_groups (observations : list pydict) (r : EvidenceRequirements) (s : evidence_scope) (now : Z)
  : list EvidenceGroup :=
  omap (stale_group (required_groups r) s now) observations.

Definition conflict_of (o : pydict) : option string :=
  match o.["data"] with
  | PyDict data =>
      if truthy (data.["refusal_reason"]) then Some (py_str (data.["refusal_reason"]))
      else if is_true (data.["conflict"]) then Some "knowledge_conflict" else None
  | _ => None
  end.
Definition _conflict_reasons (observations : list pydict) (evidence_conflict : bool) : list string :=
  let reasons := omap conflict_of observations in
  fromkeys (if evidence_conflict && is_nil reasons then ["evidence_conflict"] else reasons).

(** ** decide_evidence *)
Record evidence_inputs := mk_inputs {
  in_requirements : EvidenceRequirements; in_observations : list pydict; in_citation_bindings : list pydict;
  in_scope : evidence_scope; in_provider_attempt_id : string; in_evidence_conflict : bool; in_can_replan : bool;
  in_explainable_comparison : bool; in_now : Z }.

Definition observation_pair : Type := pydict * FreshScopedObservation.
Definition projected_pairs (i : evidence_inputs) : list observation_pair :=
  omap (fun o => match _fresh_scoped_observation o (in_scope i) (in_now i) with inr f => Some (o, f) | inl _ => None end) (in_observations i).
Definition projection_reasons (i : evidence_inputs) : list string :=
  List.filter (fun r => negb (r in? ["observation_not_current_scope"; "observation_not_successful"]))
    (lefts (map (fun o => _fresh_scoped_observation o (in_scope i) (in_now i)) (in_observations i))).
Definition pairs_by_id (i : evidence_inputs) : list (string * list observation_pair) :=
  group_by (fun p => fo_observation_id p.2) (projected_pairs i).
Definition fresh_pairs (i : evidence_inputs) : list observation_pair :=
  omap (fun e => match e.2 with [p] => Some p | _ => None end) (pairs_by_id i).
Definition fresh_observations (i : evidence_inputs) : list FreshScopedObservation := map snd (fresh_pairs i).
Definition ambiguity_reasons (i : evidence_inputs) : list string :=
  omap (fun e => match e.2 with [_] => None | _ => Some ("observation_identity_ambiguous:" +:+ e.1) end) (pairs_by_id i).
Definition typed_sources (o : pydict) : list (string * string) :=
  omap (fun d => if truthy (d.["source_id"]) then Some (py_str (d.["source_id"]), str_or_empty (d.["source_type"])) else None)
    (listed_dicts (o.["source_refs"])).
Definition source_types (i : evidence_inputs) : list (string * list (string * string)) :=
  group_by fst (concat (map (fun p => typed_sources p.1) (fresh_pairs i))).
Definition source_reasons (i : evidence_inputs) : list string :=
  map (fun e => "observation_source_identity_conflict:" +:+ e.1)
    (List.filter (fun e => Nat.ltb 1 (length (remove_dups (map snd e.2)))) (source_types i)).
Definition eligible_evidence_ids (i : evidence_inputs) : list string := concat (map fo_evidence_ids (fresh_observations i)).
Definition citations (i : evidence_inputs) : list EligibleCitation * list string :=
  _eligible_citations (in_citation_bindings i) (in_provider_attempt_id i) (eligible_evidence_ids i).
Definition conflicts (i : evidence_inputs) : list string := _conflict_reasons (map fst (fresh_pairs i)) (in_evidence_conflict i).
Definition version_conflict : string := "unresolved_published_version_conflict".
Definition explainable_conflict (i : evidence_inputs) : bool :=
  negb (is_nil (conflicts i)) && forallb (fun r => r ==? version_conflict) (conflicts i).
Definition conflict_insufficiency (i : evidence_inputs) : list string :=
  if negb (is_nil (conflicts i)) && negb (in_explainable_comparison i && explainable_conflict i)
  then map (fun r => "conflict:" +:+ r) (conflicts i) else [].
Definition observed_groups (i : evidence_inputs) : list EvidenceGroup := omap _evidence_group (fresh_observations i).
Definition uncited (i : evidence_inputs) : bool := (knowledge in? observed_groups i) && is_nil (citations i).1.
Definition satisfied (i : evidence_inputs) : list EvidenceGroup :=
  if uncited i then List.filter (fun g => g !=? knowledge) (observed_groups i) else observed_groups i.
Definition stale (i : evidence_inputs) : list EvidenceGroup :=
  List.filter (fun g => negb (g in? satisfied i)) (_stale_required_groups (in_observations i) (in_requirements i) (in_scope i) (in_now i)).
Definition missing (i : evidence_inputs) : list EvidenceGroup :=
  List.filter (fun g => negb (g in? satisfied i) && negb (g in? stale i)) (required_groups (in_requirements i)).
Definition reasons (i : evidence_inputs) : list string :=
  fromkeys (projection_reasons i ++ ambiguity_reasons i ++ source_reasons i
            ++ (citations i).2 ++ conflict_insufficiency i
            ++ (if uncited i then ["eligible_knowledge_citation_missing"] else [])
            ++ map (fun g => "missing_evidence_group:" +:+ g) (sorted_set (map group_name (missing i)))
            ++ map (fun g => "stale_evidence_group:" +:+ g) (sorted_set (map group_name (stale i)))).
Definition sufficient (i : evidence_inputs) : bool := is_nil (reasons i) && is_nil (missing i) && is_nil (stale i).
Definition error_code (i : evidence_inputs) : option string :=
  if sufficient i then None
  else if existsb (String.prefix "conflict:") (reasons i) then Some "evidence_conflict"
  else if existsb (fun r => str_contains "observation" r || str_contains "source" r) (reasons i) then Some "evidence_freshness_insufficient"
  else if existsb (fun r => str_contains "citation" r || str_contains "locator" r) (reasons i) then Some "citation_binding_incomplete"
  else Some "evidence_group_incomplete".

Definition decide_evidence (i : evidence_inputs) : res EvidenceDecision :=
  let required := required_groups (in_requirements i) in
  validate_decision_contract {|
    ed_run_id := sc_run_id (in_scope i);
    ed_tenant_id := sc_tenant_id (in_scope i);
    ed_customer_id := sc_customer_id (in_scope i);
    ed_provider_attempt_id := in_provider_attempt_id i;
    ed_requirements := in_requirements i;
    ed_sufficient := sufficient i;
    ed_result := if sufficient i then accept else if in_can_replan i then replan else terminal;
    ed_eligible_citations := (citations i).1;
    ed_fresh_scoped_observations := fresh_observations i;
    ed_satisfied_groups := List.filter (fun g => g in? satisfied i) required;
    ed_missing_groups := List.filter (fun g => g in? missing i) required;
    ed_stale_groups := List.filter (fun g => g in? stale i) required;
    ed_conflict_reasons := conflicts i;
    ed_insufficient_reasons := reasons i;
    ed_error_code := error_code i |}.

(** ** assess_terminal_evidence *)
Record EvidenceAssessment := mk_assessment {
  ea_sufficient : bool; ea_required_groups : list string; ea_satisfied_groups : list string; ea_missing_groups : list string;
  ea_stale_groups : list string; ea_result : EvidenceResult; ea_error_code : option string }.
Record assessment_inputs := mk_assessment_inputs {
  as_issue_type : string; as_candidate : CandidateResponse; as_observations : list pydict; as_evidence_conflict : bool;
  as_specified_request : bool; as_can_replan : bool; as_explainable_comparison : bool;
  as_clock : string -> Z (* the time read when the freshness of a source is tested *) }.

Definition assessed_groups (i : assessment_inputs) : list string :=
  let action := cand_action (as_candidate i) in
  fromkeys (
    (if as_issue_type i in? knowledge_issues then ["knowledge"] else [])
    ++ (if (as_issue_type i in? ["api_diagnostics"; "incident_support"]) && as_specified_request i then ["request_trace"] else [])
    ++ (if action ==? "refund_proposal" then ["billing_record"]
        else if action ==? "api_key_revocation_proposal" then ["api_key_metadata"]
        else if action ==? "entitlement_change_proposal" then ["subscription"] else [])).
Definition successful (o : pydict) : bool := is_str (o.["status"]) "ok".
Definition reads_tool (tool : string) (o : pydict) : bool := is_str (o.["tool_name"]) tool.
(** A search that found evidence and was not refused. *)
Definition knowledge_read (explainable_comparison : bool) (o : pydict) : res bool :=
  if reads_tool "search_knowledge" o then
    match dget_or "data" (PyDict []) o with
    | PyDict data =>
        Ok (truthy (data.["evidence"])
            && (negb (truthy (data.["refusal_reason"]))
                || explainable_comparison && is_str (data.["refusal_reason"]) version_conflict))
    | _ => Err (AttributeError "get")
    end
  else Ok false.
Definition group_tool (group : string) : string :=
  if group ==? "request_trace" then "query_request_trace"
  else if group ==? "billing_record" then "query_billing_record"
  else if group ==? "api_key_metadata" then "query_api_key_metadata"
  else "query_subscription".
Definition assessed_satisfied (i : assessment_inputs) (knowledge_reads : list pydict) : list string :=
  let current := List.filter successful (as_observations i) in
  List.filter (fun g => if g ==? "knowledge" then negb (is_nil knowledge_reads)
                        else existsb (reads_tool (group_tool g)) current) (assessed_groups i).

(** [for source in item.get("source_refs", []): source.get(...)] *)
Definition iterated_sources (o : pydict) : res (list pydict) :=
  let as_source v := match v with PyDict d => Ok d | _ => Err (AttributeError "get") end in
  match dget_or "source_refs" (PyList []) o with
  | PyList l | PyTuple l => map_res as_source l
  | PyStr s => if is_empty_str s then Ok [] else Err (AttributeError "get")
  | PyDict d => if is_nil d then Ok [] else Err (AttributeError "get")
  | _ => Err (TypeError "object is not iterable")
  end.
Definition named_source (d : pydict) : option string :=
  if truthy (d.["source_id"]) then Some (py_str (d.["source_id"])) else None.
Fixpoint sources_by_id (m : gmap string pydict) (current : list pydict) : res (gmap string pydict) :=
  match current with
  | [] => Ok m
  | o :: rest =>
      if reads_tool "search_knowledge" o then sources_by_id m rest
      else let? sources := iterated_sources o in
           sources_by_id (fold_left (fun m s => <[s := o]> m) (omap named_source sources) m) rest
  end.
Definition claimed_sources (c : CandidateResponse) : gset string :=
  list_to_set (concat (map mc_observation_source_ids (cand_material_claims c))).

Section assessment.
Context `{SetIteration}.
Definition unobserved (m : gmap string pydict) (i : assessment_inputs) : list string :=
  map (fun _ => "business_observation") (List.filter (fun s => isNone (m !! s)) (iterate (claimed_sources (as_candidate i)))).
Definition no_longer_fresh (m : gmap string pydict) (i : assessment_inputs) : list string :=
  omap (fun s => match m !! s with
                 | Some o => if observation_is_fresh o (as_clock i s) then None
                             else Some (py_str (py_or (o.["tool_name"]) (PyStr "business_observation")))
                 | None => None
                 end) (iterate (claimed_sources (as_candidate i))).
Definition assess_terminal_evidence (i : assessment_inputs) : res EvidenceAssessment :=
  if cand_action (as_candidate i) in? ["reject"; "manual_takeover"] then Ok (mk_assessment true [] [] [] [] accept None)
  else
    let current := List.filter successful (as_observations i) in
    let? knowledge_reads := filter_res (knowledge_read (as_explainable_comparison i)) current in
    let satisfied := assessed_satisfied i knowledge_reads in
    let? m := sources_by_id ∅ current in
    let missing :=
      fromkeys (List.filter (fun g => negb (g in? satisfied)) (assessed_groups i) ++ unobserved m i)
      ++ (if as_evidence_conflict i && negb (as_explainable_comparison i) then ["non_conflicting_knowledge"] else []) in
    let stale := fromkeys (no_longer_fresh m i) in
    if is_nil missing && is_nil stale then Ok (mk_assessment true (assessed_groups i) satisfied [] [] accept None)
    else Ok (mk_assessment false (assessed_groups i) satisfied missing stale (if as_can_replan i then replan else terminal)
               (Some (if is_nil stale then "evidence_group_incomplete" else "evidence_freshness_insufficient"))).
End assessment.

(** ** agent/decision.py: the decision before the provider is called *)
Definition _current_fact_evidence_groups (fact_tools diagnostic_tools : list string) (referential_billing_resolved : bool)
  : list EvidenceGroup :=
  fromkeys (omap tool_group fact_tools ++ omap tool_group diagnostic_tools
            ++ (if referential_billing_resolved then [billing_record] else [])).
Definition _project_evidence_citation_bindings (evidence : list pydict) (provider_attempt_id : string) : list pydict :=
  map (fun item =>
    [("citation_binding_id", PyStr (str_or_empty (item.["citation_binding_id"])));
     ("provider_attempt_id", PyStr provider_attempt_id);
     ("evidence_id", PyStr (str_or_empty (item.["evidence_id"])));
     ("document_id", PyStr (str_or_empty (item.["document_id"])));
     ("chunk_id", PyStr (str_or_empty (item.["chunk_id"])));
     ("content_hash", PyStr (str_or_empty (item.["content_hash"])));
     ("locator_hash", PyStr (str_or_empty (item.["source_locator_hash"])))])
    (List.filter (fun item => truthy (item.["citation_binding_id"])) evidence).
(** The fields of [AgentState] the decision reads, and what the modules beside
    it say of the message. *)
Record decision_state := mk_decision_state {
  ds_classification : pydict; ds_scope : evidence_scope; ds_evidence_replan_count : Z; ds_tool_rounds : Z; ds_tool_attempts : Z;
  ds_llm_calls : Z; ds_evidence_conflict : bool; ds_knowledge_comparison_complete : bool;
  ds_specified_request : bool; ds_fact_tools : list string; ds_diagnostic_tools : list string; ds_referential_billing : bool }.
Definition MAX_TOOL_ROUNDS : Z := 2.
Definition MAX_TOOL_ATTEMPTS : Z := 6.
Definition MAX_LLM_CALLS : Z := 6.
Definition can_replan (st : decision_state) : bool :=
  (ds_evidence_replan_count st <? 1) && (ds_tool_rounds st <? MAX_TOOL_ROUNDS) && (ds_tool_attempts st <? MAX_TOOL_ATTEMPTS)
  && (ds_llm_calls st <? MAX_LLM_CALLS).
Definition _decide_pre_candidate_evidence (st : decision_state) (evidence observations : list pydict) (provider_attempt_id : string)
    (now : Z) : res EvidenceDecision :=
  let? requirements := derive_evidence_requirements
    (py_str (dget_or "issue_type" (PyStr "unknown") (ds_classification st)))
    (py_str (dget_or "requested_action" (PyStr "none") (ds_classification st)))
    (ds_specified_request st)
    (_current_fact_evidence_groups (ds_fact_tools st) (ds_diagnostic_tools st) (ds_referential_billing st)) in
  decide_evidence (mk_inputs requirements observations (_project_evidence_citation_bindings evidence provider_attempt_id)
    (ds_scope st) provider_attempt_id (ds_evidence_conflict st) (can_replan st) (ds_knowledge_comparison_complete st) now).

(** ** agent/nodes/action_flow.py: the snapshot at the policy gate
    [payload] is [None] when the state holds no decision, and otherwise the
    outcome of [EvidenceDecision.model_validate]. *)
Definition _current_evidence_decision_assessment (payload : option (res EvidenceDecision)) (state : pydict) : option EvidenceAssessment :=
  match payload with
  | None => None
  | Some (Err _) => Some (mk_assessment false [] [] ["valid_evidence_decision"] [] terminal (Some "evidence_decision_invalid"))
  | Some (Ok d) =>
      let names := map group_name in
      if negb (is_str (state.["run_id"]) (ed_run_id d) && is_str (state.["tenant_id"]) (ed_tenant_id d)
               && is_str (state.["customer_id"]) (ed_customer_id d))
      then Some (mk_assessment false (names (required_groups (ed_requirements d))) [] ["current_evidence_decision"] [] terminal
                   (Some "evidence_decision_identity_mismatch"))
      else if negb (is_str (state.["latest_provider_attempt_id"]) (ed_provider_attempt_id d)) then None
      else Some (mk_assessment (ed_sufficient d) (names (required_groups (ed_requirements d))) (names (ed_satisfied_groups d))
                   (names (ed_missing_groups d)) (names (ed_stale_groups d)) (ed_result d) (ed_error_code d))
  end.
End decision.

(** ** Lists and groups *)
Lemma all_distinct_true {A} `{EqDecision A} (l : list A) : all_distinct l = true <-> NoDup l.
Proof.
  unfold all_distinct. rewrite Nat.eqb_eq. split.
  - induction l as [|x l IH]; simpl; [constructor|].
    assert (length (remove_dups l) <= length l)%nat as Hle.
    { clear. induction l as [|x l IH]; simpl; [lia|]. destruct (decide_rel _ x l); simpl; lia. }
    destruct (decide_rel _ x l); simpl; [lia|]. intros E. constructor; [done|]. apply IH. lia.
  - induction 1 as [|x l Hx _ IH]; simpl; [done|]. destruct (decide_rel _ x l); [done|]. simpl. lia.
Qed.
Lemma nodup_fromkeys_from {A} `{EqDecision A} (seen l : list A) : NoDup (fromkeys_from seen l).
Proof.
  revert seen. induction l as [|x l IH]; intros seen; simpl; [constructor|]. destruct (x in? seen); [done|].
  constructor; [|done]. rewrite elem_of_fromkeys_from. set_solver.
Qed.
Lemma nodup_fromkeys {A} `{EqDecision A} (l : list A) : NoDup (fromkeys l).
Proof. apply nodup_fromkeys_from. Qed.
Lemma fromkeys_from_snoc {A} `{EqDecision A} (seen l : list A) x :
  fromkeys_from seen (l ++ [x]) = fromkeys_from seen l ++ (if x in? seen ++ l then [] else [x]).
Proof.
  revert seen. induction l as [|y l IH]; intros seen; simpl.
  - rewrite app_nil_r. by destruct (x in? seen).
  - destruct (y in? seen) eqn:E.
    + rewrite IH. f_equal. to_prop. assert ((x in? seen ++ l) = (x in? seen ++ y :: l)) as ->; [|done].
      unfold mem. apply bool_decide_ext. set_solver.
    + rewrite IH. simpl. do 2 f_equal. assert ((x in? y :: seen ++ l) = (x in? seen ++ y :: l)) as ->; [|done].
      unfold mem. apply bool_decide_ext. set_solver.
Qed.
Lemma fromkeys_snoc {A} `{EqDecision A} (l : list A) x : fromkeys (l ++ [x]) = fromkeys l ++ (if x in? l then [] else [x]).
Proof. apply (fromkeys_from_snoc []). Qed.
Lemma fromkeys_nodup {A} `{EqDecision A} (l : list A) : NoDup l -> fromkeys l = l.
Proof.
  induction l as [|x l IH] using rev_ind; [done|]. rewrite fromkeys_snoc. intros Hnd.
  apply NoDup_app in Hnd as (Hl & Hx & _). rewrite IH by done. destruct (x in? l) eqn:E; [|done]. to_prop. set_solver.
Qed.

Lemma nil_iff {A} (l : list A) : l = [] <-> forall x, x ∉ l.
Proof. split; [intros ->; set_solver|]. destruct l as [|x l]; [done|]. intros Hx. destruct (Hx x). by left. Qed.

Section grouping.
Context {A : Type} (key : A -> string).
Implicit Types l : list A.

Definition rows_of (k : string) (l : list A) : list A := List.filter (fun x => key x ==? k) l.
Lemma setdefault_append_map k x (f : string -> list A) ks :
  NoDup ks ->
  setdefault_append k x (map (fun k' => (k', f k')) ks) =
  map (fun k' => (k', if decide (k = k') then f k' ++ [x] else f k')) ks ++ (if k in? ks then [] else [(k, [x])]).
Proof.
  induction 1 as [|k' ks Hk' Hnd IH]; simpl; [done|]. case_decide as E.
  - subst k'. f_equal. assert ((k in? k :: ks) = true) as -> by (to_prop; by left). rewrite app_nil_r.
    apply map_ext_in. intros k' Hk. case_decide; [|done]. subst. apply list_elem_of_In in Hk. done.
  - rewrite IH. simpl. do 2 f_equal. assert ((k in? k' :: ks) = (k in? ks)) as ->; [|done].
    unfold mem. apply bool_decide_ext. set_solver.
Qed.
(** A dictionary of lists holds the rows of each key, keys in order of first
    appearance. *)
Lemma group_by_rows l : group_by key l = map (fun k => (k, rows_of k l)) (fromkeys (map key l)).
Proof.
  unfold group_by. induction l as [|x l IH] using rev_ind; [done|].
  rewrite fold_left_app. simpl. rewrite IH, map_app. simpl. rewrite fromkeys_snoc.
  rewrite setdefault_append_map by apply nodup_fromkeys. rewrite map_app. f_equal.
  - apply map_ext. intros k. unfold rows_of. rewrite List.filter_app. simpl. f_equal. case_decide as E.
    + by rewrite (proj2 (eqb_true _ _) E).
    + rewrite (proj2 (eqb_false _ _) E). by rewrite app_nil_r.
  - destruct (key x in? map key l) eqn:E; to_prop.
    + assert ((key x in? fromkeys (map key l)) = true) as -> by (to_prop; by rewrite elem_of_fromkeys). done.
    + assert ((key x in? fromkeys (map key l)) = false) as -> by (to_prop; by rewrite elem_of_fromkeys). simpl. do 2 f_equal.
      unfold rows_of. rewrite List.filter_app. simpl. rewrite eqb_refl.
      assert (List.filter (fun y => key y ==? key x) l = []) as ->; [|done].
      apply filter_true_nil. intros y Hy. to_prop. intros E'. apply E. rewrite <- E'. apply list_elem_of_fmap. eauto.
Qed.

Lemma elem_of_rows_of k l x : x ∈ rows_of k l <-> x ∈ l /\ key x = k.
Proof. unfold rows_of. rewrite list_elem_of_In, filter_In, <- list_elem_of_In, eqb_true. done. Qed.
Lemma elem_of_group_by l e : e ∈ group_by key l <-> e.2 = rows_of e.1 l /\ exists x, x ∈ l /\ key x = e.1.
Proof.
  rewrite group_by_rows. destruct e as [k xs]. rewrite list_elem_of_fmap. simpl. split.
  - intros (k' & E & Hk). simplify_eq. rewrite elem_of_fromkeys, list_elem_of_fmap in Hk. destruct Hk as (x & -> & Hx). eauto.
  - intros [-> (x & Hx & <-)]. exists (key x). split; [done|]. rewrite elem_of_fromkeys, list_elem_of_fmap. eauto.
Qed.
Lemma rows_single l x : NoDup (map key l) -> x ∈ l -> rows_of (key x) l = [x].
Proof.
  intros Hnd Hx. apply filter_unique; [done|apply eqb_refl| |by apply NoDup_fmap_1 in Hnd].
  intros y Hy E. to_prop. by apply (nodup_map_inj key l).
Qed.

(** The rows whose key no other row has. *)
Definition singletons (d : list (string * list A)) : list A := omap (fun e => match e.2 with [x] => Some x | _ => None end) d.
Lemma elem_of_singletons l x : x ∈ singletons (group_by key l) <-> rows_of (key x) l = [x].
Proof.
  unfold singletons. rewrite list_elem_of_omap. split.
  - intros (e & (He & _)%elem_of_group_by & Ex). destruct (e.2) as [|y [|]] eqn:E2; try done. simplify_eq.
    assert (x ∈ rows_of e.1 l) as [_ Ek]%elem_of_rows_of by (rewrite <- He; by left). by rewrite Ek, <- He.
  - intros E. assert (x ∈ l) as Hx by (apply (elem_of_rows_of (key x)); rewrite E; by left).
    exists (key x, [x]). split; [|done]. apply elem_of_group_by. simpl. eauto.
Qed.
Lemma singletons_in l x : x ∈ singletons (group_by key l) -> x ∈ l.
Proof. intros E%elem_of_singletons. apply (elem_of_rows_of (key x)). rewrite E. by left. Qed.
Lemma omap_keys_nodup {B} (g : string * list A -> option B) (key' : B -> string) d :
  NoDup (map fst d) -> (forall e y, e ∈ d -> g e = Some y -> key' y = e.1) -> NoDup (map key' (omap g d)).
Proof.
  induction d as [|e d IH]; simpl; [constructor|]. intros [He Hnd]%NoDup_cons Hk.
  assert (NoDup (map key' (omap g d))) as Hd by (apply IH; [done|]; intros e' y He'; apply Hk; by right).
  destruct (g e) as [y|] eqn:E; [|done]. simpl. constructor; [|done]. rewrite (Hk e y) by (by left || done).
  intros (y' & E' & Hy')%list_elem_of_fmap. apply list_elem_of_omap in Hy' as (e' & He' & Eg). apply He.
  rewrite E', (Hk e' y') by (by right || done). apply list_elem_of_fmap. eauto.
Qed.
Lemma group_by_keys l : map fst (group_by key l) = fromkeys (map key l).
Proof. rewrite group_by_rows, map_map. simpl. apply map_id. Qed.
Lemma group_by_keys_nodup l : NoDup (map fst (group_by key l)).
Proof. rewrite group_by_keys. apply nodup_fromkeys. Qed.
Lemma singletons_nodup l : NoDup (map key (singletons (group_by key l))).
Proof.
  apply omap_keys_nodup; [apply group_by_keys_nodup|]. intros [k xs] y He E. simpl in *. apply elem_of_group_by in He as [He _]. simpl in He.
  destruct xs as [|z [|]]; simplify_eq. eapply elem_of_rows_of. rewrite <- He. by left.
Qed.
(** Every group has one row exactly when the keys are distinct. *)
Lemma all_single_iff l : (forall e, e ∈ group_by key l -> exists x, e.2 = [x]) <-> NoDup (map key l).
Proof.
  split.
  - intros Hs. assert (forall x, x ∈ l -> rows_of (key x) l = [x]) as Hr.
    { intros x Hx. destruct (Hs (key x, rows_of (key x) l)) as [y Ey]; [apply elem_of_group_by; simpl; eauto|]. simpl in Ey.
      assert (x ∈ rows_of (key x) l) as Hin by by apply elem_of_rows_of. rewrite Ey in Hin |- *. by apply list_elem_of_singleton in Hin as ->. }
    clear Hs. induction l as [|x l IH]; simpl; [constructor|]. constructor.
    + intros (y & E & Hy)%list_elem_of_fmap. specialize (Hr x (list_elem_of_here _ _)). unfold rows_of in Hr. simpl in Hr.
      rewrite eqb_refl in Hr. injection Hr as Hr. assert (y ∈ rows_of (key x) l) as Hin by by apply elem_of_rows_of.
      unfold rows_of in Hin. rewrite Hr in Hin. set_solver.
    + apply IH. intros y Hy. specialize (Hr y (list_elem_of_further _ _ _ Hy)). unfold rows_of in *. simpl in Hr.
      destruct (key x ==? key y) eqn:E; [|done]. injection Hr as -> Hr.
      assert (y ∈ rows_of (key y) l) as Hin by by apply elem_of_rows_of. unfold rows_of in Hin. rewrite Hr in Hin. set_solver.
  - intros Hnd [k xs] [-> (x & Hx & <-)]%elem_of_group_by. simpl. exists x. by apply rows_single.
Qed.
Lemma singletons_elem l x : NoDup (map key l) -> x ∈ singletons (group_by key l) <-> x ∈ l.
Proof. intros Hnd. split; [apply singletons_in|]. intros Hx. by apply elem_of_singletons, rows_single. Qed.
End grouping.

Lemma group_by_nodup {A} (key : A -> string) (l : list A) : NoDup (map key l) -> group_by key l = map (fun x => (key x, [x])) l.
Proof.
  intros Hnd. rewrite group_by_rows, fromkeys_nodup, map_map by done. apply map_ext_in. intros x Hx%list_elem_of_In.
  f_equal. by apply rows_single.
Qed.
Lemma repeated_iff {A} (key name : A -> string) (l : list A) :
  concat (map (fun e => if Nat.ltb 1 (length e.2) then map name e.2 else []) (group_by key l)) = [] <-> NoDup (map key l).
Proof.
  rewrite <- all_single_iff. split.
  - intros Hn [k rows] He. simpl. destruct rows as [|x [|y xs]]; [|by eauto|].
    + apply elem_of_group_by in He as [He (x & Hx & Ek)]. simpl in He. symmetry in He. rewrite nil_iff in He. destruct (He x). by apply elem_of_rows_of.
    + exfalso. rewrite nil_iff in Hn. apply (Hn (name x)). apply elem_of_concat. exists (map name (x :: y :: xs)).
      split; [|by left]. apply list_elem_of_fmap. by exists (k, x :: y :: xs).
  - intros Hs. rewrite nil_iff. intros n (l' & (e & -> & He)%list_elem_of_fmap & Hn)%elem_of_concat.
    destruct (Hs e He) as [x Ex]. rewrite Ex in Hn. simpl in Hn. set_solver.
Qed.
Lemma distinct_at_most_one (l : list string) :
  Nat.ltb 1 (length (remove_dups l)) = false <-> (forall x y, x ∈ l -> y ∈ l -> x = y).
Proof.
  rewrite Nat.ltb_ge. split.
  - intros Hl x y. rewrite <- !(elem_of_remove_dups l). intros Hx Hy. destruct (remove_dups l) as [|a [|b k]]; simpl in *; [|..|lia].
    + by apply not_elem_of_nil in Hx.
    + apply list_elem_of_singleton in Hx, Hy. congruence.
  - intros Heq. assert (forall x y, x ∈ remove_dups l -> y ∈ remove_dups l -> x = y) as Hr.
    { intros x y. rewrite !elem_of_remove_dups. apply Heq. }
    pose proof (NoDup_remove_dups l) as Hnd. destruct (remove_dups l) as [|a [|b k]]; simpl; [lia..|].
    assert (a = b) as -> by (apply Hr; [by left|by right; left]). apply NoDup_cons in Hnd as [Hb _]. destruct Hb. by left.
Qed.
Lemma elem_of_lefts {A B} (l : list (A + B)) a : a ∈ lefts l <-> inl a ∈ l.
Proof. unfold lefts. rewrite list_elem_of_omap. split; [intros ([] & Hx & E); by simplify_eq|eauto]. Qed.
Lemma elem_of_rights {A B} (l : list (A + B)) b : b ∈ rights l <-> inr b ∈ l.
Proof. unfold rights. rewrite list_elem_of_omap. split; [intros ([] & Hx & E); by simplify_eq|eauto]. Qed.
Lemma nodup_map_filter {A B} (g : A -> B) (f : A -> bool) (l : list A) : NoDup (map g l) -> NoDup (map g (List.filter f l)).
Proof.
  induction l as [|x l IH]; simpl; [done|]. intros [Hx Hnd]%NoDup_cons. destruct (f x); [|by apply IH].
  simpl. constructor; [|by apply IH]. intros (y & E & (Hy & _)%elem_of_lfilter)%list_elem_of_fmap. apply Hx, list_elem_of_fmap. eauto.
Qed.
Lemma lefts_nil {A B} (l : list (A + B)) : lefts l = [] <-> l = map inr (rights l).
Proof.
  split.
  - induction l as [|[a|b] l IH]; simpl; [done..|]. intros E. f_equal. by apply IH.
  - intros ->. by induction (rights l).
Qed.
Lemma rights_map {A B C} (g : C -> A + B) (l : list C) :
  rights (map g l) = omap (fun x => match g x with inr b => Some b | inl _ => None end) l.
Proof. induction l as [|x l IH]; simpl; [done|]. unfold rights in *. simpl. destruct (g x); by rewrite IH. Qed.

(** ** The decision *)
Section decision_lemmas.
Context `{PyRuntime}.
Implicit Types (i : evidence_inputs) (o raw : pydict) (f : FreshScopedObservation) (c : EligibleCitation).

Lemma is_str_true v s : is_str v s = true <-> v = PyStr s.
Proof. apply py_eq_str. Qed.

(** [o] is an observation at hand and [f] its projection. *)
Definition projected i o f : Prop := o ∈ in_observations i /\ _fresh_scoped_observation o (in_scope i) (in_now i) = inr f.
Lemma elem_of_projected i o f : (o, f) ∈ projected_pairs i <-> projected i o f.
Proof.
  unfold projected_pairs, projected. rewrite list_elem_of_omap. split.
  - intros (o' & Ho & E). destruct (_fresh_scoped_observation o' _ _) eqn:Ef; simplify_eq. done.
  - intros [Ho E]. exists o. by rewrite E.
Qed.

(** An observation of the run, tenant and customer, also by its trusted scope. *)
Record owned_by (s : evidence_scope) (o : pydict) : Prop := {
  ob_run : o.["run_id"] = PyStr (sc_run_id s);
  ob_tenant : o.["tenant_id"] = PyStr (sc_tenant_id s);
  ob_customer : o.["customer_id"] = PyStr (sc_customer_id s);
  ob_hash : o.["scope_hash"] = PyStr (_canonical_scope_hash (sc_tenant_id s) (sc_customer_id s));
  ob_trusted : exists trusted, o.["trusted_scope"] = PyDict trusted /\ trusted.["tenant_id"] = PyStr (sc_tenant_id s) /\
    trusted.["customer_id"] = PyStr (sc_customer_id s) /\
    trusted.["scope_hash"] = PyStr (_canonical_scope_hash (sc_tenant_id s) (sc_customer_id s));
}.
Lemma scope_matches_owned s o : _observation_scope_matches o s = true -> owned_by s o.
Proof.
  unfold _observation_scope_matches. destruct (o.["trusted_scope"]) as [| | | | | | |trusted] eqn:Et; try done.
  cbv zeta. rewrite !andb_true_iff, !is_str_true. intros [[[[[[? ?] ?] ?] ?] ?] ?]. split; [done..|]. eauto.
Qed.

(** What a projection was made from. *)
Record fresh_record (s : evidence_scope) (now : Z) (o : pydict) (f : FreshScopedObservation) : Prop := {
  fr_scope : owned_by s o;
  fr_status : o.["status"] = PyStr "ok";
  fr_marked : o.["freshness_status"] = PyStr "fresh";
  fr_observed : _evidence_time (o.["observed_at"]) = Some (fo_observed_at f) /\ instant (fo_observed_at f) <= now;
  fr_until : _evidence_time (o.["fresh_until"]) = Some (fo_fresh_until f) /\ now <= instant (fo_fresh_until f);
  fr_tool : fo_tool_name f = str_or_empty (o.["tool_name"]);
  fr_owner : fo_run_id f = sc_run_id s /\ fo_tenant_id f = sc_tenant_id s /\ fo_customer_id f = sc_customer_id s;
  fr_evidence : fo_evidence_ids f = evidence_ids_of o;
  fr_sources : fo_source_ids f = source_ids_of o /\ NoDup (fo_source_ids f);
}.
Lemma projection_fresh s now o f : _fresh_scoped_observation o s now = inr f -> fresh_record s now o f.
Proof.
  unfold _fresh_scoped_observation. intros E.
  destruct (_observation_scope_matches o s) eqn:Es; [cbn [negb] in E|done].
  destruct (is_str (o.["status"]) "ok") eqn:Eo; [cbn [negb] in E|done].
  destruct (is_str (o.["freshness_status"]) "fresh") eqn:Ef; [cbn [negb] in E|done].
  rewrite is_str_true in Eo, Ef. cbv zeta in E.
  destruct (_evidence_time (o.["observed_at"])) as [a|] eqn:Ea; [|done].
  destruct (_evidence_time (o.["fresh_until"])) as [b|] eqn:Eb; [|done].
  destruct (is_empty_str _ || _ || _); [done|].
  destruct ((instant a <=? now) && (now <=? instant b)) eqn:Ew; [cbn [negb] in E|done].
  destruct (all_distinct (source_ids_of o)) eqn:Ed; [cbn [negb] in E|done].
  destruct (all_distinct (evidence_ids_of o)); [cbn [negb] in E|done].
  destruct (new_fresh_observation _) as [f'|] eqn:Ev in E; [|done]. simplify_eq. unfold new_fresh_observation in Ev. steps_ok Ev. simplify_eq.
  rewrite all_distinct_true in Ed. to_prop. constructor; simpl; try done; try (split; [done|lia]); by apply scope_matches_owned.
Qed.
(** Only an observation of another scope or of a failed read is passed over in
    silence. *)
Lemma silent_reason s now o r :
  _fresh_scoped_observation o s now = inl r ->
  r ∈ ["observation_not_current_scope"; "observation_not_successful"] <->
  _observation_scope_matches o s = false \/ successful o = false.
Proof.
  unfold _fresh_scoped_observation, successful. intros E.
  destruct (_observation_scope_matches o s); [cbn [negb] in E|simplify_eq; set_solver].
  destruct (is_str (o.["status"]) "ok"); [cbn [negb] in E|simplify_eq; set_solver].
  assert (r ∉ ["observation_not_current_scope"; "observation_not_successful"]) as Hr; [|naive_solver].
  cbv zeta in E. repeat (case_match; try done); simplify_eq; set_solver.
Qed.

Lemma projection_reasons_nil i :
  projection_reasons i = [] <->
  forall o, o ∈ in_observations i -> _observation_scope_matches o (in_scope i) = true -> successful o = true ->
            exists f, projected i o f.
Proof.
  unfold projection_reasons. rewrite filter_true_nil. split.
  - intros Hn o Ho Hs Hok. destruct (_fresh_scoped_observation o (in_scope i) (in_now i)) as [r|f] eqn:E; [|by exists f].
    exfalso. assert (r ∈ ["observation_not_current_scope"; "observation_not_successful"]) as Hr.
    { apply mem_true, negb_false_iff, Hn, elem_of_lefts. apply list_elem_of_fmap. eauto. }
    rewrite silent_reason in Hr by exact E. destruct Hr; congruence.
  - intros Hf r (o & E & Ho)%elem_of_lefts%list_elem_of_fmap. apply negb_false_iff, mem_true, (silent_reason _ _ _ _ (eq_sym E)).
    destruct (_observation_scope_matches o (in_scope i)) eqn:Es; [|by left]. destruct (successful o) eqn:Eo; [|by right].
    destruct (Hf o) as (f & _ & Ef); [done..|]. congruence.
Qed.

Lemma ambiguity_reasons_nil i : ambiguity_reasons i = [] <-> NoDup (map (fun p => fo_observation_id p.2) (projected_pairs i)).
Proof.
  rewrite <- all_single_iff. fold (pairs_by_id i). unfold ambiguity_reasons. rewrite nil_iff. split.
  - intros Hn [k xs] He. simpl. destruct xs as [|x [|y l]]; [|by eauto|];
      (destruct (Hn ("observation_identity_ambiguous:" +:+ k)); apply list_elem_of_omap; by eexists (k, _)).
  - intros Hs r ([k xs] & He & E)%list_elem_of_omap. destruct (Hs _ He) as [x Ex]. simpl in *. by rewrite Ex in E.
Qed.
Lemma fresh_pairs_projected i p : p ∈ fresh_pairs i -> projected i p.1 p.2.
Proof. intros Hp%singletons_in. destruct p. by apply elem_of_projected. Qed.
Lemma fresh_pairs_elem i :
  NoDup (map (fun p => fo_observation_id p.2) (projected_pairs i)) ->
  forall o f, (o, f) ∈ fresh_pairs i <-> projected i o f.
Proof. intros Hnd o f. rewrite <- elem_of_projected. by apply singletons_elem. Qed.
Lemma fresh_identities_nodup i : NoDup (map fo_observation_id (fresh_observations i)).
Proof.
  unfold fresh_observations. rewrite map_map. apply (singletons_nodup (fun p : observation_pair => fo_observation_id p.2)).
Qed.

Lemma source_reasons_nil i :
  source_reasons i = [] <->
  forall p p' id t t', p ∈ fresh_pairs i -> p' ∈ fresh_pairs i -> (id, t) ∈ typed_sources p.1 -> (id, t') ∈ typed_sources p'.1 -> t = t'.
Proof.
  assert (forall x, x ∈ concat (map (fun p : observation_pair => typed_sources p.1) (fresh_pairs i)) <->
                    exists p, p ∈ fresh_pairs i /\ x ∈ typed_sources p.1) as Hx.
  { intros x. rewrite elem_of_concat. setoid_rewrite list_elem_of_fmap. naive_solver. }
  unfold source_reasons. rewrite nil_iff. setoid_rewrite list_elem_of_fmap. setoid_rewrite elem_of_lfilter. split.
  - intros Hn p p' id t t' Hp Hp' Ht Ht'. apply dec_stable. intros Hne.
    set (e := (id, rows_of fst id (concat (map (fun p : observation_pair => typed_sources p.1) (fresh_pairs i))))).
    apply (Hn ("observation_source_identity_conflict:" +:+ id)). exists e. split; [done|]. split.
    + apply elem_of_group_by. split; [done|]. exists (id, t). rewrite Hx. eauto.
    + apply not_false_iff_true. rewrite distinct_at_most_one. intros Heq. apply Hne.
      apply Heq; apply list_elem_of_fmap; [exists (id, t)|exists (id, t')]; (split; [done|]; apply elem_of_rows_of; rewrite Hx; eauto).
  - intros Hu r ([id rows] & -> & He & E). apply not_false_iff_true in E. apply E, distinct_at_most_one.
    apply elem_of_group_by in He as [He _]. simpl in He. subst rows. intros t t' Ht Ht'. simpl in *.
    apply list_elem_of_fmap in Ht as ([a b] & -> & (Ha & <-)%elem_of_rows_of). apply list_elem_of_fmap in Ht' as ([a' b'] & -> & (Ha' & Ei)%elem_of_rows_of).
    simpl in Ei. subst a'. apply Hx in Ha as (p & Hp & Ha), Ha' as (p' & Hp' & Ha'). by apply (Hu p p' a b b').
Qed.

(** *** Citations *)
Definition evidence_named raw : string := str_or_empty (raw.["evidence_id"]).
Record good_binding (attempt : string) (evidence : list string) (raw : pydict) : Prop := {
  gb_named : binding_identity raw <> "";
  gb_current : raw.["provider_attempt_id"] = PyStr attempt;
  gb_valid : exists c, citation_of (binding_identity raw) raw = Ok c;
  gb_evidence : evidence_named raw ∈ evidence;
}.
Lemma citation_of_fields b raw c :
  citation_of b raw = Ok c -> ec_citation_binding_id c = b /\ ec_evidence_id c = evidence_named raw /\
                              ec_provider_attempt_id c = str_or_empty (raw.["provider_attempt_id"]).
Proof. unfold citation_of, new_eligible_citation. intros E. steps_ok E. by simplify_eq. Qed.
Lemma rows_citation attempt e c :
  citation_of_rows attempt e = inr c <->
  exists raw, e.2 = [raw] /\ raw.["provider_attempt_id"] = PyStr attempt /\ citation_of e.1 raw = Ok c.
Proof.
  unfold citation_of_rows. destruct (e.2) as [|raw [|raw' rest]]; [by split; [|intros (? & ? & _)]| |by split; [|intros (? & ? & _)]].
  destruct (is_str (raw.["provider_attempt_id"]) attempt) eqn:E; cbn [negb].
  - rewrite is_str_true in E. split.
    + destruct (citation_of e.1 raw) eqn:Ec; [|done]. intros [= <-]. eauto.
    + intros (raw' & [= <-] & _ & ->). done.
  - split; [done|]. intros (raw' & [= <-] & Ep & _). rewrite (proj2 (is_str_true _ _) Ep) in E. done.
Qed.
Lemma rows_fields attempt e c :
  citation_of_rows attempt e = inr c -> ec_citation_binding_id c = e.1 /\ ec_provider_attempt_id c = attempt.
Proof.
  intros (raw & _ & Ha & (? & _ & Hp)%citation_of_fields)%rows_citation. split; [done|]. rewrite Hp, Ha. unfold str_or_empty, py_or.
  by destruct attempt.
Qed.
Lemma eligible_current bindings attempt evidence :
  NoDup (map ec_citation_binding_id (_eligible_citations bindings attempt evidence).1) /\
  forall c, c ∈ (_eligible_citations bindings attempt evidence).1 -> ec_provider_attempt_id c = attempt.
Proof.
  cbn [fst _eligible_citations]. set (groups := group_by binding_identity _). set (ambiguous := concat _). split.
  - apply nodup_map_filter, nodup_map_filter. rewrite rights_map. apply omap_keys_nodup; [apply group_by_keys_nodup|].
    intros e c He E. destruct (citation_of_rows attempt e) eqn:Er; [done|]. simplify_eq. by apply rows_fields in Er as [? _].
  - intros c. rewrite !elem_of_lfilter, elem_of_rights, list_elem_of_fmap. intros [[(e & E & _) _] _]. by apply symmetry, rows_fields in E as [_ ?].
Qed.

(** With distinct identities the loop over the dictionary is a loop over the
    bindings. *)
Lemma outcomes_valid attempt bindings :
  NoDup (map binding_identity bindings) ->
  lefts (map (citation_of_rows attempt) (group_by binding_identity bindings)) = [] ->
  exists cs, map (citation_of_rows attempt) (group_by binding_identity bindings) = map inr cs /\
             Forall2 (fun raw c => raw.["provider_attempt_id"] = PyStr attempt /\ citation_of (binding_identity raw) raw = Ok c) bindings cs.
Proof.
  intros Hnd. rewrite group_by_nodup, map_map by done. intros El. apply lefts_nil in El. eexists. split; [exact El|].
  revert El. generalize (rights (map (fun x => citation_of_rows attempt (binding_identity x, [x])) bindings)). clear Hnd.
  induction bindings as [|raw bindings IH]; intros [|c cs] E; simpl in E; try discriminate E; [constructor|].
  injection E as E Er. constructor; [|by apply IH]. apply rows_citation in E as (raw' & [= <-] & ? & ?). done.
Qed.
Lemma named_evidence attempt bindings cs :
  Forall2 (fun raw c => raw.["provider_attempt_id"] = PyStr attempt /\ citation_of (binding_identity raw) raw = Ok c) bindings cs ->
  map ec_evidence_id cs = map evidence_named bindings.
Proof. induction 1 as [|raw c bindings cs [_ (_ & E & _)%citation_of_fields] _ IH]; simpl; congruence. Qed.

(** The bindings are accepted without complaint exactly when each is named,
    current, valid and of eligible evidence, and no identity repeats. *)
Record good_bindings (attempt : string) (evidence : list string) (bindings : list pydict) : Prop := {
  gbs_each : forall raw, raw ∈ bindings -> good_binding attempt evidence raw;
  gbs_identities : NoDup (map binding_identity bindings);
  gbs_evidence : NoDup (map evidence_named bindings);
}.
Lemma all_named (bindings : list pydict) :
  (forall raw, raw ∈ bindings -> binding_identity raw <> "") <->
  List.filter (fun raw => is_empty_str (binding_identity raw)) bindings = [].
Proof. rewrite filter_true_nil. by setoid_rewrite is_empty_str_false. Qed.
Lemma keep_all {A} (g : A -> bool) (l : list A) : (forall x, x ∈ l -> g x = true) -> List.filter g l = l.
Proof.
  induction l as [|x l IH]; simpl; [done|]. intros Hg. rewrite (Hg x) by (by left). f_equal. apply IH. intros y Hy. apply Hg. by right.
Qed.
Lemma keep_named (bindings : list pydict) :
  (forall raw, raw ∈ bindings -> binding_identity raw <> "") ->
  List.filter (fun raw => negb (is_empty_str (binding_identity raw))) bindings = bindings.
Proof. intros Hn. apply keep_all. intros raw Hr. by apply negb_true_iff, is_empty_str_false, Hn. Qed.
Lemma citations_read attempt bindings evidence cs :
  (forall raw, raw ∈ bindings -> binding_identity raw <> "") ->
  map (citation_of_rows attempt) (group_by binding_identity bindings) = map inr cs ->
  (forall c, c ∈ cs -> ec_evidence_id c ∈ evidence) ->
  let ambiguous := concat (map (fun e => if Nat.ltb 1 (length e.2) then map ec_citation_binding_id e.2 else []) (group_by ec_evidence_id cs)) in
  _eligible_citations bindings attempt evidence =
  (List.filter (fun c => negb (ec_citation_binding_id c in? ambiguous)) cs,
   map (fun b => "citation_evidence_identity_ambiguous:" +:+ b) (sorted_set ambiguous)).
Proof.
  intros Hn Ho He. unfold _eligible_citations. rewrite keep_named, Ho, (proj1 (all_named bindings)) by done.
  assert (rights (map inr cs) = cs :> list EligibleCitation) as -> by (clear; induction cs; simpl; unfold rights in *; simpl; congruence).
  assert (lefts (map inr cs) = [] :> list string) as -> by (clear; by induction cs).
  assert (List.filter (fun c => ec_evidence_id c in? evidence) cs = cs) as -> by (apply keep_all; intros c Hc; by apply mem_true, He).
  assert (List.filter (fun c => negb (ec_evidence_id c in? evidence)) cs = []) as ->; [|done].
  apply filter_true_nil. intros c Hc. by apply negb_false_iff, mem_true, He.
Qed.
Lemma good_read bindings attempt evidence :
  good_bindings attempt evidence bindings ->
  exists cs, _eligible_citations bindings attempt evidence = (cs, []) /\ length cs = length bindings.
Proof.
  intros Hg.
  assert (lefts (map (citation_of_rows attempt) (group_by binding_identity bindings)) = []) as El.
  { rewrite group_by_nodup, map_map by apply Hg. apply nil_iff. intros r Hr. rewrite elem_of_lefts in Hr.
    apply list_elem_of_fmap in Hr as (raw & E & Hr). destruct (gbs_each _ _ _ Hg raw Hr) as [_ Ha (c & Ec) _].
    assert (citation_of_rows attempt (binding_identity raw, [raw]) = inr c) as E' by (apply rows_citation; eauto). congruence. }
  destruct (outcomes_valid attempt bindings) as (cs & Ecs & Hcs); [apply Hg|done|].
  exists cs. split; [|symmetry; by eapply Forall2_length].
  rewrite (citations_read _ _ _ cs); [|intros raw Hr; apply (gbs_each _ _ _ Hg raw Hr)|done|].
  - rewrite (proj2 (repeated_iff _ _ cs)) by (rewrite (named_evidence attempt bindings) by done; apply Hg).
    cbn [map sorted_set]. f_equal. by apply keep_all.
  - intros c Hc. assert (ec_evidence_id c ∈ map ec_evidence_id cs) as Hin by (apply list_elem_of_fmap; eauto).
    rewrite (named_evidence attempt bindings) in Hin by done. apply list_elem_of_fmap in Hin as (raw & -> & Hr). apply (gbs_each _ _ _ Hg raw Hr).
Qed.
Lemma citation_reasons_nil bindings attempt evidence :
  (_eligible_citations bindings attempt evidence).2 = [] <-> good_bindings attempt evidence bindings.
Proof.
  split.
  - intros E. pose proof E as E'. cbn [snd _eligible_citations] in E'. rewrite !app_nil in E'. destruct E' as (Ea & El & En & _).
    apply fmap_nil_inv in Ea. pose proof (proj2 (all_named _) Ea) as Hn. rewrite keep_named in El, En by done.
    assert (NoDup (map binding_identity bindings)) as Hnd.
    { apply all_single_iff. intros e He. apply lefts_nil in El.
      destruct (citation_of_rows attempt e) as [r|c] eqn:Er; [|apply rows_citation in Er as (raw & ? & _); eauto].
      assert (inl r ∈ map (citation_of_rows attempt) (group_by binding_identity bindings)) as Hr by (apply list_elem_of_fmap; eauto).
      rewrite El in Hr. by apply list_elem_of_fmap in Hr as (? & ? & _). }
    destruct (outcomes_valid attempt bindings) as (cs & Ecs & Hcs); [done..|].
    assert (forall c, c ∈ cs -> ec_evidence_id c ∈ evidence) as He.
    { intros c Hc. rewrite Ecs in En. apply fmap_nil_inv in En. rewrite filter_true_nil in En.
      apply mem_true, negb_false_iff, En, elem_of_rights, list_elem_of_fmap. eauto. }
    rewrite (citations_read _ _ _ cs) in E by done. apply fmap_nil_inv in E. rewrite nil_iff in E. setoid_rewrite elem_of_sorted_set in E.
    rewrite <- nil_iff, repeated_iff, (named_evidence attempt bindings) in E by done. constructor; [|done..].
    intros raw Hr. destruct (Forall2_elem_l _ _ _ _ Hcs Hr) as (c & Hc & Ha & Ec). constructor; [by apply Hn|done|eauto|].
    apply citation_of_fields in Ec as (_ & <- & _). by apply He.
  - intros (cs & -> & _)%good_read. done.
Qed.
Lemma good_citations_nil bindings attempt evidence :
  good_bindings attempt evidence bindings -> (_eligible_citations bindings attempt evidence).1 = [] <-> bindings = [].
Proof. intros (cs & -> & E)%good_read. simpl. destruct cs, bindings; simpl in E; done || lia. Qed.

(** *** Conflicts and groups *)
Lemma conflict_insufficiency_nil i :
  conflict_insufficiency i = [] <-> conflicts i = [] \/ in_explainable_comparison i = true /\ explainable_conflict i = true.
Proof.
  unfold conflict_insufficiency. destruct (conflicts i) as [|r l] eqn:E; cbn [is_nil negb andb]; [split; [by left|done]|].
  destruct (in_explainable_comparison i), (explainable_conflict i); cbn; split; (by right) || naive_solver.
Qed.
(** What the conflicts reported by the observations amount to. *)
Inductive conflict_free i : Prop :=
| no_conflict : in_evidence_conflict i = false -> (forall p, p ∈ fresh_pairs i -> conflict_of p.1 = None) -> conflict_free i
| explained p0 r0 :
    in_explainable_comparison i = true -> p0 ∈ fresh_pairs i -> conflict_of p0.1 = Some r0 ->
    (forall p r, p ∈ fresh_pairs i -> conflict_of p.1 = Some r -> r = version_conflict) -> conflict_free i.
Lemma conflict_free_iff i : conflict_insufficiency i = [] <-> conflict_free i.
Proof.
  rewrite conflict_insufficiency_nil. unfold explainable_conflict, conflicts, _conflict_reasons.
  assert (forall r, r ∈ omap conflict_of (map fst (fresh_pairs i)) <-> exists p, p ∈ fresh_pairs i /\ conflict_of p.1 = Some r) as Hr.
  { intros r. rewrite list_elem_of_omap. setoid_rewrite list_elem_of_fmap. naive_solver. }
  destruct (omap conflict_of (map fst (fresh_pairs i))) as [|r l] eqn:E; cbn [is_nil]; rewrite ?andb_true_r, ?andb_false_r.
  - assert (forall p, p ∈ fresh_pairs i -> conflict_of p.1 = None) as Hno.
    { intros p Hp. destruct (conflict_of p.1) as [r|] eqn:Ep; [|done]. assert (r ∈ []) as Hn by (apply Hr; eauto). set_solver. }
    split.
    + destruct (in_evidence_conflict i) eqn:Ee; [|intros; by constructor]. intros [[=]|[_ [=]]].
    + intros [He _|p0 r0 _ Hp0 E0 _]; [rewrite He; by left|]. specialize (Hno _ Hp0). congruence.
  - rewrite fromkeys_nil. split.
    + intros [[=]|[He Hall]]. rewrite andb_true_iff, forallb_true_iff in Hall. destruct Hall as [_ Hall].
      destruct (proj1 (Hr r) (list_elem_of_here _ _)) as (p0 & Hp0 & E0). apply (explained i p0 r); [done..|].
      intros p r' Hp E'. apply eqb_true, Hall, elem_of_fromkeys, Hr. eauto.
    + intros [_ Hno|p0 r0 He Hp0 E0 Hall].
      * destruct (proj1 (Hr r) (list_elem_of_here _ _)) as (p & Hp & Ep). rewrite Hno in Ep; done.
      * right. split; [done|]. rewrite andb_true_iff, forallb_true_iff. split.
        { destruct (fromkeys (r :: l)) eqn:Ef; [|done]. by rewrite fromkeys_nil in Ef. }
        intros r' Hr'. rewrite elem_of_fromkeys, Hr in Hr'. destruct Hr' as (p & Hp & Ep). apply eqb_true. eauto.
Qed.

Lemma elem_of_observed i g : g ∈ observed_groups i <-> exists p, p ∈ fresh_pairs i /\ _evidence_group p.2 = Some g.
Proof.
  unfold observed_groups, fresh_observations. rewrite list_elem_of_omap. setoid_rewrite list_elem_of_fmap. naive_solver.
Qed.
Lemma stale_not_satisfied i g : g ∈ stale i -> g ∉ satisfied i /\ g ∈ required_groups (in_requirements i).
Proof.
  unfold stale, _stale_required_groups. rewrite elem_of_lfilter, negb_true_iff, mem_false, list_elem_of_omap.
  intros [(o & _ & E) Hs]. split; [done|]. unfold stale_group in E. destruct (tool_group _) as [g'|]; [|done].
  destruct (g' in? required_groups (in_requirements i)) eqn:Er; [|done]. to_prop. cbn [negb orb] in E. by repeat (case_match; simplify_eq).
Qed.
Lemma groups_settled i :
  missing i = [] /\ stale i = [] <-> forall g, g ∈ required_groups (in_requirements i) -> g ∈ satisfied i.
Proof.
  split.
  - intros [Em Es] g Hg. unfold missing in Em. rewrite filter_true_nil in Em. specialize (Em g Hg). rewrite Es in Em.
    rewrite andb_false_iff, !negb_false_iff, !mem_true in Em. set_solver.
  - intros Hall. split.
    + apply filter_true_nil. intros g Hg. apply Hall, mem_true in Hg. by rewrite Hg.
    + apply nil_iff. intros g [Hn Hr]%stale_not_satisfied. by apply Hn, Hall.
Qed.
Lemma named_groups_nil (prefix : string) (l : list EvidenceGroup) :
  map (fun g => prefix +:+ g) (sorted_set (map group_name l)) = [] <-> l = [].
Proof.
  split; [|by intros ->]. intros E%fmap_nil_inv. destruct l as [|g l]; [done|]. rewrite nil_iff in E.
  destruct (E (group_name g)). rewrite elem_of_sorted_set. by left.
Qed.

(** What an accepting decision rests on. *)
Record acceptable i : Prop := {
  ac_fresh : forall o, o ∈ in_observations i -> _observation_scope_matches o (in_scope i) = true -> successful o = true ->
             exists f, projected i o f;
  ac_identities : NoDup (map (fun p => fo_observation_id p.2) (projected_pairs i));
  ac_sources : forall o o' f f' id t t', projected i o f -> projected i o' f' ->
               (id, t) ∈ typed_sources o -> (id, t') ∈ typed_sources o' -> t = t';
  ac_bindings : good_bindings (in_provider_attempt_id i) (eligible_evidence_ids i) (in_citation_bindings i);
  ac_conflicts : conflict_free i;
  ac_groups : forall g, g ∈ required_groups (in_requirements i) -> exists o f, projected i o f /\ _evidence_group f = Some g;
  ac_cited : forall o f, projected i o f -> _evidence_group f = Some knowledge -> in_citation_bindings i <> [];
}.
Lemma sufficient_parts i :
  sufficient i = true <->
  projection_reasons i = [] /\ ambiguity_reasons i = [] /\ source_reasons i = [] /\ (citations i).2 = [] /\
  conflict_insufficiency i = [] /\ uncited i = false /\ missing i = [] /\ stale i = [].
Proof.
  unfold sufficient, reasons. rewrite !andb_true_iff, !is_nil_true, fromkeys_nil, !app_nil, !named_groups_nil.
  assert ((if uncited i then ["eligible_knowledge_citation_missing"] else []) = [] <-> uncited i = false) as -> by by destruct (uncited i).
  naive_solver.
Qed.
Lemma sufficient_iff i : sufficient i = true <-> acceptable i.
Proof.
  rewrite sufficient_parts, projection_reasons_nil, ambiguity_reasons_nil, source_reasons_nil, conflict_free_iff, groups_settled.
  unfold citations. rewrite citation_reasons_nil. unfold uncited. split.
  - intros (Hf & Hid & Hsrc & Hb & Hc & Hu & Hg). pose proof (fresh_pairs_elem i Hid) as Hp.
    assert (satisfied i = observed_groups i) as Es by (unfold satisfied, uncited; by rewrite Hu).
    constructor; try done.
    + intros o o' f f' id t t' Ho Ho'. apply (Hsrc (o, f) (o', f')); by apply Hp.
    + intros g Hin. apply Hg in Hin. rewrite Es, elem_of_observed in Hin. destruct Hin as ([o f] & Hin & E). apply Hp in Hin. eauto.
    + intros o f Ho E Hnil. apply (good_citations_nil _ _ _ Hb) in Hnil. unfold citations in Hu. rewrite Hnil in Hu. cbn [is_nil] in Hu.
      rewrite andb_true_r, mem_false in Hu. apply Hu, elem_of_observed. exists (o, f). split; [by apply Hp|done].
  - intros [Hf Hid Hsrc Hb Hc Hg Hk]. pose proof (fresh_pairs_elem i Hid) as Hp.
    assert (uncited i = false) as Hu.
    { unfold uncited. destruct (knowledge in? observed_groups i) eqn:Ek; [|done]. rewrite mem_true in Ek. apply elem_of_observed in Ek as ([o f] & Hin & E).
      cbn [andb]. unfold citations. apply is_nil_false. rewrite good_citations_nil by done. apply (Hk o f); [by apply Hp|done]. }
    split_and!; try done.
    + intros [o f] [o' f'] id t t' Ho Ho'. rewrite Hp in Ho, Ho'. by apply (Hsrc o o' f f').
    + intros g Hin. unfold satisfied. rewrite Hu. apply elem_of_observed. destruct (Hg g Hin) as (o & f & Ho & E). exists (o, f). split; [by apply Hp|done].
Qed.

(** *** The validators of the decision *)
Lemma same_set_true {A} `{EqDecision A} (a b : list A) : same_set a b = true <-> forall x, x ∈ a <-> x ∈ b.
Proof. unfold same_set. rewrite andb_true_iff, !forallb_true_iff. setoid_rewrite mem_true. naive_solver. Qed.
Lemma overlap_false {A} `{EqDecision A} (a b : list A) : overlap a b = false <-> forall x, x ∈ a -> x ∉ b.
Proof. unfold overlap. rewrite existsb_false_iff. by setoid_rewrite mem_false. Qed.
Lemma dispositions i g : g ∈ required_groups (in_requirements i) -> g ∈ satisfied i \/ g ∈ missing i \/ g ∈ stale i.
Proof.
  intros Hg. destruct (decide (g ∈ satisfied i)); [by left|]. destruct (decide (g ∈ stale i)); [by right; right|]. right. left.
  apply elem_of_lfilter. split; [done|]. by rewrite andb_true_iff, !negb_true_iff, !mem_false.
Qed.
Lemma missing_open i g : g ∈ missing i -> g ∉ satisfied i /\ g ∉ stale i.
Proof. intros [_ Hm]%elem_of_lfilter. by rewrite andb_true_iff, !negb_true_iff, !mem_false in Hm. Qed.
Lemma dispositions_exclusive i (l : list EvidenceGroup) :
  let part := fun groups => List.filter (fun g => g in? groups) l in
  overlap (part (satisfied i)) (part (missing i)) = false /\ overlap (part (satisfied i)) (part (stale i)) = false /\
  overlap (part (missing i)) (part (stale i)) = false.
Proof.
  cbv zeta. rewrite !overlap_false. setoid_rewrite elem_of_lfilter. setoid_rewrite mem_true.
  split_and!; intros g [_ Hg] [_ Hg']; [apply missing_open in Hg'|apply stale_not_satisfied in Hg'|apply missing_open in Hg]; naive_solver.
Qed.
Lemma reasons_nil i : reasons i = [] <-> sufficient i = true.
Proof.
  split; [|unfold sufficient; rewrite !andb_true_iff, is_nil_true; naive_solver].
  intros E. unfold sufficient. rewrite !andb_true_iff, !is_nil_true. split_and!; [done|..];
    unfold reasons in E; rewrite fromkeys_nil, !app_nil, !named_groups_nil in E; naive_solver.
Qed.
Definition scope_lengths i : bool :=
  len_between 1 128 (sc_run_id (in_scope i)) && len_between 1 128 (sc_tenant_id (in_scope i))
  && len_between 1 128 (sc_customer_id (in_scope i)) && len_between 1 128 (in_provider_attempt_id i).
Lemma filter_distinct (g : EvidenceGroup -> bool) l : NoDup l -> all_distinct (List.filter g l) = true.
Proof. intros Hl. apply all_distinct_true. rewrite <- (map_id (List.filter g l)). apply nodup_map_filter. by rewrite map_id. Qed.
Lemma fresh_owned i f : f ∈ fresh_observations i ->
  fo_run_id f = sc_run_id (in_scope i) /\ fo_tenant_id f = sc_tenant_id (in_scope i) /\ fo_customer_id f = sc_customer_id (in_scope i).
Proof. intros (p & -> & [_ Hf%projection_fresh]%fresh_pairs_projected)%list_elem_of_fmap. apply Hf. Qed.
Ltac validated := rewrite raise_if_false; [|cbn [ed_run_id ed_tenant_id ed_customer_id ed_provider_attempt_id ed_requirements ed_sufficient
  ed_result ed_eligible_citations ed_fresh_scoped_observations ed_satisfied_groups ed_missing_groups ed_stale_groups ed_insufficient_reasons ed_error_code]].
Lemma decision_valid i :
  scope_lengths i = true -> NoDup (required_groups (in_requirements i)) ->
  exists d, decide_evidence i = Ok d /\ ed_sufficient d = sufficient i /\ ed_insufficient_reasons d = reasons i /\
    ed_result d = (if sufficient i then accept else if in_can_replan i then replan else terminal) /\
    (ed_error_code d = None <-> sufficient i = true) /\
    ed_eligible_citations d = (citations i).1 /\ ed_fresh_scoped_observations d = fresh_observations i.
Proof.
  intros Hl Hr. unfold decide_evidence. cbv zeta. eexists. split.
  - unfold validate_decision_contract. destruct (dispositions_exclusive i (required_groups (in_requirements i))) as (H1 & H2 & H3).
    destruct (eligible_current (in_citation_bindings i) (in_provider_attempt_id i) (eligible_evidence_ids i)) as [Hc1 Hc2].
    repeat validated; [reflexivity|..].
    + by rewrite H1, H2, H3.
    + cbn [existsb]. by rewrite !filter_distinct.
    + apply negb_false_iff, same_set_true. intros g. rewrite !elem_of_app, !elem_of_lfilter, !mem_true. pose proof (dispositions i g). naive_solver.
    + apply existsb_false_iff. intros c Hc. apply neqb_false. by apply Hc2.
    + by apply negb_false_iff, all_distinct_true, fresh_identities_nodup.
    + by apply negb_false_iff, all_distinct_true.
    + apply existsb_false_iff. intros f (-> & -> & ->)%fresh_owned. unfold neqb. by rewrite !eqb_refl.
    + destruct (sufficient i) eqn:E; [done|]. cbn [negb andb]. apply is_nil_false. rewrite reasons_nil. congruence.
    + unfold error_code. destruct (sufficient i) eqn:E; [|done]. by rewrite (proj2 (reasons_nil i) E).
    + destruct (sufficient i); [done|]. by destruct (in_can_replan i).
    + by apply negb_false_iff.
  - cbn. split_and!; try done. unfold error_code. destruct (sufficient i); [done|]. by repeat case_match.
Qed.

(** ** The assessment of a candidate *)
Definition names o (s : string) : Prop := exists sources d, iterated_sources o = Ok sources /\ d ∈ sources /\ named_source d = Some s.
(** [o] is the last of the business observations that names [s]. *)
Inductive last_naming (s : string) (o : pydict) : list pydict -> Prop :=
| last_here rest : reads_tool "search_knowledge" o = false -> names o s -> (forall o', o' ∈ rest -> reads_tool "search_knowledge" o' = false -> ~ names o' s) ->
    last_naming s o (o :: rest)
| last_later o' rest : last_naming s o rest -> last_naming s o (o' :: rest).
Lemma fold_insert (l : list string) o (m : gmap string pydict) s :
  fold_left (fun m s => <[s := o]> m) l m !! s = if s in? l then Some o else m !! s.
Proof.
  revert m. induction l as [|x l IH]; intros m; [done|]. cbn [fold_left]. rewrite IH.
  destruct (s in? l) eqn:E; to_prop; [by rewrite (proj2 (mem_true _ (x :: l))) by (by right)|].
  destruct (decide (s = x)) as [->|Hne].
  - by rewrite lookup_insert_eq, (proj2 (mem_true _ (x :: l))) by (by left).
  - rewrite lookup_insert_ne by done. by rewrite (proj2 (mem_false _ (x :: l))) by set_solver.
Qed.
Lemma names_iff o sources s : iterated_sources o = Ok sources -> names o s <-> s ∈ omap named_source sources.
Proof.
  intros E. unfold names. rewrite list_elem_of_omap. split; [|intros (d & Hd & Ed); by exists sources, d].
  intros (sources' & d & E' & Hd & Ed). rewrite E in E'. simplify_eq. eauto.
Qed.
Lemma sources_by_id_spec l m m' s o :
  sources_by_id m l = Ok m' ->
  m' !! s = Some o <-> last_naming s o l \/
    (forall o', o' ∈ l -> reads_tool "search_knowledge" o' = false -> ~ names o' s) /\ m !! s = Some o.
Proof.
  revert m. induction l as [|o1 l IH]; intros m E; cbn [sources_by_id] in E.
  - simplify_eq. split; [intros; right; set_solver|]. intros [Hl|[_ ?]]; [inversion Hl|done].
  - destruct (reads_tool "search_knowledge" o1) eqn:Ek.
    + rewrite (IH _ E). split.
      * intros [Hl|[Hn Hm]]; [by left; apply last_later|right]. split; [|done]. intros o' [->|Ho]%elem_of_cons; [congruence|by apply Hn].
      * intros [Hl|[Hn Hm]]; [inversion Hl; simplify_eq; [congruence|by left]|right; split; [|done]; intros o' Ho; apply Hn; by right].
    + apply res_bind_ok in E as (sources & Ei & E). rewrite (IH _ E), fold_insert. pose proof (names_iff o1 sources s Ei) as Hn1.
      destruct (s in? omap named_source sources) eqn:Es; rewrite ?mem_true, ?mem_false, <- Hn1 in Es.
      * split.
        -- intros [Hl|[Hn [= ->]]]; left; [by apply last_later|by apply last_here].
        -- intros [Hl|[Hn _]]; [inversion Hl; simplify_eq; [by right|by left]|]. by destruct (Hn o1 (list_elem_of_here _ _) Ek).
      * split.
        -- intros [Hl|[Hn Hm]]; [by left; apply last_later|right]. split; [|done]. intros o' [->|Ho]%elem_of_cons; [done|by apply Hn].
        -- intros [Hl|[Hn Hm]]; [inversion Hl; simplify_eq; by left|right]. split; [|done]. intros o' Ho. apply Hn. by right.
Qed.

(** A group of the candidate was read. *)
Definition group_read (i : assessment_inputs) (g : string) : Prop :=
  exists o, o ∈ as_observations i /\ successful o = true /\
    if decide (g = "knowledge") then knowledge_read (as_explainable_comparison i) o = Ok true else reads_tool (group_tool g) o = true.
(** The observations have the shapes the code indexes into. *)
Definition readable (explainable : bool) (o : pydict) : bool :=
  if reads_tool "search_knowledge" o then match knowledge_read explainable o with Ok _ => true | Err _ => false end
  else match iterated_sources o with Ok _ => true | Err _ => false end.
Definition assessable (i : assessment_inputs) : bool :=
  forallb (readable (as_explainable_comparison i)) (List.filter successful (as_observations i)).
Lemma sources_total explainable l m : (forall o, o ∈ l -> readable explainable o = true) -> exists m', sources_by_id m l = Ok m'.
Proof.
  revert m. induction l as [|o l IH]; intros m Hr; cbn [sources_by_id]; [eauto|].
  assert (forall m, exists m', sources_by_id m l = Ok m') as Hl by (intros; apply IH; intros o' Ho; apply Hr; by right).
  specialize (Hr o (list_elem_of_here _ _)). unfold readable in Hr. destruct (reads_tool "search_knowledge" o); [apply Hl|].
  destruct (iterated_sources o); [apply Hl|done].
Qed.
Lemma knowledge_total explainable l :
  (forall o, o ∈ l -> readable explainable o = true) -> exists l', filter_res (knowledge_read explainable) l = Ok l'.
Proof.
  induction l as [|o l IH]; intros Hr; cbn [filter_res]; [eauto|].
  destruct IH as [l' El]; [intros o' Ho; apply Hr; by right|]. specialize (Hr o (list_elem_of_here _ _)). unfold readable in Hr.
  assert (exists b, knowledge_read explainable o = Ok b) as [b Eb].
  { unfold knowledge_read in *. destruct (reads_tool "search_knowledge" o); [|eauto]. by destruct (dget_or _ _ o); eauto. }
  rewrite Eb. cbn [res_bind]. rewrite El. cbn. eauto.
Qed.
Lemma filter_res_in {A} (g : A -> res bool) l l' x : filter_res g l = Ok l' -> x ∈ l -> g x = Ok true -> x ∈ l'.
Proof.
  revert l'. induction l as [|y l IH]; cbn [filter_res]; intros l' E Hx Hg; [set_solver|].
  apply res_bind_ok in E as (b & Eb & E). apply res_bind_ok in E as (k & Ek & E). simplify_eq.
  apply elem_of_cons in Hx as [->|Hx]; [rewrite Hg in Eb; simplify_eq; by left|]. specialize (IH k Ek Hx Hg). destruct b; [by right|done].
Qed.
Lemma satisfied_read (i : assessment_inputs) l' g :
  filter_res (knowledge_read (as_explainable_comparison i)) (List.filter successful (as_observations i)) = Ok l' ->
  g ∈ assessed_groups i -> g ∈ assessed_satisfied i l' <-> group_read i g.
Proof.
  intros El Hg. unfold assessed_satisfied. rewrite elem_of_lfilter. unfold group_read. case_decide as E.
  - subst g. rewrite eqb_refl, negb_true_iff, is_nil_false. split.
    + intros [_ Hne]. destruct l' as [|o l'']; [done|]. pose proof (list_elem_of_here o l'') as Ho.
      apply (filter_res_elem _ _ _ _ El) in Ho as [(? & ?)%elem_of_lfilter ?]. eauto.
    + intros (o & Ho & Hs & Hk). split; [done|]. intros ->. assert (o ∈ []) as Hn; [|set_solver].
      by apply (filter_res_in _ _ _ _ El); [apply elem_of_lfilter|].
  - rewrite (proj2 (eqb_false _ _) E), existsb_true_iff. setoid_rewrite elem_of_lfilter. naive_solver.
Qed.

Section assessed.
Context `{SetIteration} (i : assessment_inputs).
Let current : list pydict := List.filter successful (as_observations i).

Lemma unobserved_nil m : unobserved m i = [] <-> forall s, s ∈ claimed_sources (as_candidate i) -> is_Some (m !! s).
Proof.
  unfold unobserved. rewrite nil_iff. setoid_rewrite list_elem_of_fmap. setoid_rewrite elem_of_lfilter.
  setoid_rewrite iterate_elements. setoid_rewrite elem_of_elements. split.
  - intros Hn s Hs. apply isNone_false, not_true_iff_false. intros E. apply (Hn "business_observation"). eauto.
  - intros Hs x (s & _ & Hin & E). apply Hs, isNone_false in Hin. congruence.
Qed.
Lemma no_longer_fresh_nil m :
  no_longer_fresh m i = [] <->
  forall s o, s ∈ claimed_sources (as_candidate i) -> m !! s = Some o -> observation_is_fresh o (as_clock i s) = true.
Proof.
  unfold no_longer_fresh. rewrite nil_iff. setoid_rewrite list_elem_of_omap. setoid_rewrite iterate_elements. setoid_rewrite elem_of_elements. split.
  - intros Hn s o Hs Em. destruct (observation_is_fresh o (as_clock i s)) eqn:E; [done|]. exfalso. eapply Hn. exists s. split; [done|]. by rewrite Em, E.
  - intros Hf x (s & Hs & E). destruct (m !! s) as [o|] eqn:Em; [|done]. by rewrite (Hf s o Hs Em) in E.
Qed.

(** The sources of the claims were observed, and are still fresh. *)
Definition claims_fresh : Prop :=
  forall s, s ∈ claimed_sources (as_candidate i) -> exists o, last_naming s o current /\ observation_is_fresh o (as_clock i s) = true.
Record supported_candidate : Prop := {
  su_groups : forall g, g ∈ assessed_groups i -> group_read i g;
  su_claims : claims_fresh;
  su_conflict : as_evidence_conflict i = true -> as_explainable_comparison i = true;
}.
Lemma claims_fresh_iff m :
  sources_by_id ∅ current = Ok m -> unobserved m i = [] /\ no_longer_fresh m i = [] <-> claims_fresh.
Proof.
  intros Em. rewrite unobserved_nil, no_longer_fresh_nil. unfold claims_fresh.
  assert (forall s o, m !! s = Some o <-> last_naming s o current) as Hm.
  { intros s o. rewrite (sources_by_id_spec _ _ _ _ _ Em). rewrite lookup_empty. naive_solver. }
  split.
  - intros [Hs Hf] s Hin. destruct (Hs s Hin) as [o Eo]. exists o. rewrite <- Hm. eauto.
  - intros Hc. split.
    + intros s Hin. destruct (Hc s Hin) as (o & Ho & _). exists o. by apply Hm.
    + intros s o Hin Eo. destruct (Hc s Hin) as (o' & Ho' & Hf). rewrite <- Hm, Eo in Ho'. by simplify_eq.
Qed.
End assessed.
End decision_lemmas.

(** A snapshot accepted at the gate is an accepting decision of this run and
    of the latest provider attempt. *)
Lemma adopted_snapshot `{PyRuntime} payload state a :
  _current_evidence_decision_assessment payload state = Some a -> ea_result a = accept ->
  exists d, payload = Some (Ok d) /\ ed_result d = accept /\ state.["run_id"] = PyStr (ed_run_id d) /\
    state.["tenant_id"] = PyStr (ed_tenant_id d) /\ state.["customer_id"] = PyStr (ed_customer_id d) /\
    state.["latest_provider_attempt_id"] = PyStr (ed_provider_attempt_id d).
Proof.
  unfold _current_evidence_decision_assessment. cbv zeta. destruct payload as [[d|e]|]; [|by intros [= <-]|done].
  destruct (is_str (state.["run_id"]) _ && _ && _) eqn:Es; cbn [negb]; [|by intros [= <-]].
  destruct (is_str (state.["latest_provider_attempt_id"]) _) eqn:Ep; cbn [negb]; [|done]. intros [= <-] Hr.
  rewrite !andb_true_iff, !is_str_true in Es. rewrite is_str_true in Ep. exists d. naive_solver.
Qed.

(** ** Theorems *)
Section theorems.
Context `{PyRuntime}.

(** C25: [decide_evidence] always produces a decision that passes the validators
    of [EvidenceDecision], and the decision accepts exactly when
    every successful observation in scope is fresh, identities, sources and
    citations are unambiguous and current, no conflict is unexplained, every
    required group was observed and observed knowledge is cited; otherwise it
    asks for another round exactly when one is left, and names a reason. *)
Theorem evidence_decision_exact (i : evidence_inputs) :
  scope_lengths i = true -> NoDup (required_groups (in_requirements i)) ->
  exists d, decide_evidence i = Ok d /\ (ed_result d = accept <-> acceptable i) /\
    (ed_result d = replan <-> ~ acceptable i /\ in_can_replan i = true) /\
    (ed_insufficient_reasons d = [] <-> acceptable i) /\ (ed_error_code d = None <-> acceptable i).
Proof.
  intros Hl Hr. destruct (decision_valid i Hl Hr) as (d & Ed & _ & Ereasons & Eresult & Ecode & _). exists d.
  rewrite Eresult, Ereasons, Ecode, reasons_nil, <- sufficient_iff. split; [done|].
  destruct (sufficient i), (in_can_replan i); naive_solver.
Qed.

Lemma decision_fields i d : decide_evidence i = Ok d -> ed_result d = accept -> acceptable i.
Proof.
  unfold decide_evidence, validate_decision_contract. cbv zeta. intros E Hres. steps_ok E. simplify_eq. cbn [ed_result] in Hres.
  apply sufficient_iff. destruct (sufficient i); [done|]. by destruct (in_can_replan i).
Qed.
Lemma group_tool_name f g : _evidence_group f = Some g -> tool_group (fo_tool_name f) = Some g.
Proof. unfold _evidence_group. destruct (tool_group (fo_tool_name f)) as [[]|]; try done. by destruct (is_nil _). Qed.

(** C26: what an accepted decision rests on: for every required group there is a
    successful read of that group in the scope of the run, marked fresh and
    inside its window at the time of the decision; for knowledge there is also
    a citation made for the current provider attempt, whose evidence is among
    the evidence identifiers of some successful fresh observation in scope (of
    any tool: the code collects the identifiers of all of them). *)
Theorem accepted_groups_backed (i : evidence_inputs) (d : EvidenceDecision) (g : EvidenceGroup) :
  decide_evidence i = Ok d -> ed_result d = accept -> g ∈ required_groups (in_requirements i) ->
  exists o f, o ∈ in_observations i /\ fresh_record (in_scope i) (in_now i) o f /\ tool_group (fo_tool_name f) = Some g /\
    (g = knowledge -> exists raw o' f', raw ∈ in_citation_bindings i /\
       raw.["provider_attempt_id"] = PyStr (in_provider_attempt_id i) /\ o' ∈ in_observations i /\
       fresh_record (in_scope i) (in_now i) o' f' /\ evidence_named raw ∈ evidence_ids_of o').
Proof.
  intros Ed Hres Hg. pose proof (decision_fields i d Ed Hres) as Ha. destruct (ac_groups _ Ha g Hg) as (o & f & Hp & Eg).
  exists o, f. pose proof Hp as [Ho Hf%projection_fresh]. split_and!; [done|done|by apply group_tool_name|]. intros ->.
  pose proof (ac_cited _ Ha o f Hp Eg) as Hne. pose proof (ac_bindings _ Ha) as Hb. destruct (in_citation_bindings i) as [|raw rest]; [done|].
  destruct (gbs_each _ _ _ Hb raw (list_elem_of_here _ _)) as [_ Hc _ He]. exists raw.
  unfold eligible_evidence_ids, fresh_observations in He. rewrite elem_of_concat in He. destruct He as (ids & Hids & He).
  apply list_elem_of_fmap in Hids as (f' & -> & Hf'). apply list_elem_of_fmap in Hf' as (p & -> & Hp').
  apply fresh_pairs_projected in Hp' as [Ho' Hf'%projection_fresh]. exists p.1, p.2. split_and!; [by left|done..|].
  by rewrite <- (fr_evidence _ _ _ _ Hf').
Qed.

(** C27: on observations of the expected shapes [assess_terminal_evidence] returns,
    and accepts a candidate that answers or proposes exactly when every
    required group was read, every business source its claims name was
    observed and its last observation is fresh, and a conflict of evidence is
    present only in an explained comparison. *)
Theorem candidate_assessment_exact `{SetIteration} (i : assessment_inputs) :
  cand_action (as_candidate i) ∉ ["reject"; "manual_takeover"] -> assessable i = true ->
  exists a, assess_terminal_evidence i = Ok a /\ (ea_sufficient a = true <-> supported_candidate i) /\
    (ea_result a = accept <-> supported_candidate i) /\ (ea_error_code a = None <-> supported_candidate i).
Proof.
  intros Hact Ha. unfold assessable in Ha. rewrite forallb_true_iff in Ha. destruct (knowledge_total _ _ Ha) as [l' El]. destruct (sources_total _ _ ∅ Ha) as [m Em].
  unfold assess_terminal_evidence. rewrite (proj2 (mem_false _ _) Hact). cbv zeta. rewrite El. cbn [res_bind]. rewrite Em. cbn [res_bind].
  set (missing := _ ++ _) at 1. set (stale := fromkeys _) at 1.
  assert (is_nil missing && is_nil stale = true <-> supported_candidate i) as Hiff.
  { rewrite andb_true_iff, !is_nil_true. unfold missing, stale. rewrite app_nil, !fromkeys_nil, app_nil, filter_true_nil.
    pose proof (claims_fresh_iff i m Em) as Hc.
    assert ((forall g, g ∈ assessed_groups i -> negb (g in? assessed_satisfied i l') = false) <-> (forall g, g ∈ assessed_groups i -> group_read i g)) as ->.
    { split; intros Hg g Hin; [apply (satisfied_read i l' g El Hin), mem_true, negb_false_iff, Hg, Hin|].
      apply negb_false_iff, mem_true, (satisfied_read i l' g El Hin), Hg, Hin. }
    split.
    - intros [[[Hg Hu] Hf] Hs]. constructor; [done|by apply Hc|]. intros E. rewrite E in Hf. by destruct (as_explainable_comparison i).
    - intros [Hg Hcl Hf]. apply Hc in Hcl as [Hu Hs]. split_and!; [done..| |done].
      destruct (as_evidence_conflict i); [|done]. by rewrite Hf. }
  destruct (is_nil missing && is_nil stale) eqn:E; eexists; (split; [reflexivity|]); cbn; rewrite <- Hiff; [done|].
  by destruct (as_can_replan i).
Qed.
End theorems.

(** ** A concrete decision *)
Module Demo.
#[local] Existing Instance ascii_runtime.
#[local] Existing Instance sorted_iteration.
Definition now : Z := 1000.
Definition scope : evidence_scope := mk_scope "run-1" "tenant-1" "customer-1".
Definition hash : string := Eval vm_compute in _canonical_scope_hash "tenant-1" "customer-1".
Definition observed (suffix tool : string) (sources : list string) (data : pydict) (until : Z) : pydict :=
  [("observation_id", PyStr ("observation-" +:+ suffix)); ("tool_call_id", PyStr ("call-" +:+ suffix)); ("tool_name", PyStr tool);
   ("run_id", PyStr "run-1"); ("tenant_id", PyStr "tenant-1"); ("customer_id", PyStr "customer-1"); ("scope_hash", PyStr hash);
   ("status", PyStr "ok"); ("freshness_status", PyStr "fresh"); ("observed_at", PyTime (utc 900)); ("fresh_until", PyTime (utc until));
   ("source_refs", PyList (map (fun s => PyDict [("source_type", PyStr "business_record"); ("source_id", PyStr s)]) sources));
   ("trusted_scope", PyDict [("tenant_id", PyStr "tenant-1"); ("customer_id", PyStr "customer-1"); ("scope_hash", PyStr hash)]);
   ("data", PyDict data)].
Definition search : pydict :=
  observed "knowledge" "search_knowledge" ["knowledge:c1"]
    [("evidence", PyList [PyDict [("evidence_id", PyStr "policy:c1"); ("supporting_span_eligible", PyBool true)]])] 2000.
Definition account_read (suffix : string) (until : Z) : pydict := observed suffix "query_account" ["account:1"] [("status", PyStr "active")] until.
Definition digest : string := hash.
Definition binding (attempt : string) : pydict :=
  [("citation_binding_id", PyStr "citation-1"); ("provider_attempt_id", PyStr attempt); ("evidence_id", PyStr "policy:c1");
   ("document_id", PyStr "api-errors"); ("chunk_id", PyStr "c1"); ("content_hash", PyStr digest); ("locator_hash", PyStr digest)].
Definition decided (observations : list pydict) (bindings : list pydict) : evidence_inputs :=
  mk_inputs (mk_evidence_requirements [knowledge; account]) observations bindings scope "attempt-1" false true false now.
Definition outcome (i : evidence_inputs) : option (EvidenceResult * list string * list EvidenceGroup) :=
  match decide_evidence i with Ok d => Some (ed_result d, ed_insufficient_reasons d, ed_stale_groups d) | Err _ => None end.
Definition complete : evidence_inputs := decided [search; account_read "a" 2000] [binding "attempt-1"].

Example complete_accepted : outcome complete = Some (accept, [], []).
Proof. vm_compute. reflexivity. Qed.
Example old_attempt : outcome (decided [search; account_read "a" 2000] [binding "attempt-0"]) =
  Some (replan, ["citation_binding_not_current:citation-1"; "eligible_knowledge_citation_missing"; "missing_evidence_group:knowledge"], []).
Proof. vm_compute. reflexivity. Qed.
Example repeated_identity : outcome (decided [search; account_read "a" 2000; account_read "a" 2000] [binding "attempt-1"]) =
  Some (replan, ["observation_identity_ambiguous:observation-a"; "missing_evidence_group:account"], []).
Proof. vm_compute. reflexivity. Qed.
(** An expired read still blocks after the same tool was read again: the group
    is satisfied and not stale, but the reason of the old observation stays. *)
Example reread_still_blocked : outcome (decided [search; account_read "a" 950; account_read "b" 2000] [binding "attempt-1"]) =
  Some (replan, ["observation_not_fresh_at_decision_time"], []).
Proof. vm_compute. reflexivity. Qed.

Lemma evidence_decision_exact_witness :
  exists d, decide_evidence complete = Ok d /\ (ed_result d = accept <-> acceptable complete) /\
    (ed_result d = replan <-> ~ acceptable complete /\ in_can_replan complete = true) /\
    (ed_insufficient_reasons d = [] <-> acceptable complete) /\ (ed_error_code d = None <-> acceptable complete).
Proof.
  apply (evidence_decision_exact complete); [vm_compute; reflexivity|].
  apply all_distinct_true. vm_compute. reflexivity.
Defined.
Definition complete_decision : EvidenceDecision :=
  match decide_evidence complete with
  | Ok d => d
  | Err _ => mk_evidence_decision "" "" "" "" (mk_evidence_requirements []) false terminal [] [] [] [] [] [] [] None
  end.
Lemma accepted_groups_backed_witness :
  decide_evidence complete = Ok complete_decision /\ ed_result complete_decision = accept /\
  exists o f, o ∈ in_observations complete /\ fresh_record (in_scope complete) (in_now complete) o f /\
    tool_group (fo_tool_name f) = Some knowledge /\
    (knowledge = knowledge -> exists raw o' f', raw ∈ in_citation_bindings complete /\
       raw.["provider_attempt_id"] = PyStr (in_provider_attempt_id complete) /\ o' ∈ in_observations complete /\
       fresh_record (in_scope complete) (in_now complete) o' f' /\ evidence_named raw ∈ evidence_ids_of o').
Proof.
  assert (decide_evidence complete = Ok complete_decision) as Ed by (vm_compute; reflexivity).
  assert (ed_result complete_decision = accept) as Er by (vm_compute; reflexivity).
  split; [exact Ed|]. split; [exact Er|]. apply (accepted_groups_backed complete complete_decision knowledge Ed Er).
  apply mem_true. vm_compute. reflexivity.
Defined.

Definition candidate : CandidateResponse :=
  mk_candidate "The account is active." "answer" [] [] ["account:1"]
    [mk_material_claim "The account is active." [] [] ["account:1"]] [].
Definition assessed (until : Z) : assessment_inputs :=
  mk_assessment_inputs "product_knowledge" candidate [search; account_read "a" until] false false true false (fun _ => now).
Example assessed_results :
  (match assess_terminal_evidence (assessed 2000) with Ok a => Some (ea_result a, ea_stale_groups a) | Err _ => None end,
   match assess_terminal_evidence (assessed 950) with Ok a => Some (ea_result a, ea_stale_groups a) | Err _ => None end) =
  (Some (accept, []), Some (replan, ["query_account"])).
Proof. vm_compute. reflexivity. Qed.
Lemma candidate_assessment_exact_witness :
  exists a, assess_terminal_evidence (assessed 2000) = Ok a /\ (ea_sufficient a = true <-> supported_candidate (assessed 2000)) /\
    (ea_result a = accept <-> supported_candidate (assessed 2000)) /\ (ea_error_code a = None <-> supported_candidate (assessed 2000)).
Proof.
  apply (candidate_assessment_exact (assessed 2000)); [apply mem_false|]; vm_compute; reflexivity.
Defined.
End Demo.
