(* ===== verification/Applicability.v ===== *)
(** * What an answer must keep from its evidence (agent/evidence.py)

    Before an answer is published, three things are derived from the selected
    evidence and not from the model: the quantified values of a version
    comparison, the topic a follow-up question refers to, and whether the
    cited rules apply in the region or plan the customer named.  The previous
    answer and the customer's text only suggest; eligible spans decide.

    Main results: a scope claim is published exactly when every cited item is
    eligible and its metadata is a wildcard or the customer's own condition;
    the topic contract holds only markers and facets found in both the
    previous answer and the eligible evidence, at most sixteen of them; the
    markers of a comparison are read from eligible spans. *)
From Stdlib Require Import Ascii.
From S2P Require Import Prelude PyValue CanonicalJson PyText Regex PiiRedaction PyRegex ActionSpecs Obligations Synthesis ProposalAssembly Admission.
Local Open Scope string_scope.
Local Open Scope list_scope.
Local Notation cp := string.

Section patterns.
Context `{UnicodeClasses}.

Definition alnum_ic : cp -> bool := letter_or_digit_ic.                               (* [[A-Za-z0-9]] *)
Definition word (l : list string) : node := cat [Boundary; any l; Boundary].
Definition digits1 : node := Star (Chr re_d) 1 None.
(** [[\u4e00-\u9fff]] *)
Definition cjk (c : cp) : bool := (19968 <=? point_value c)%Z && (point_value c <=? 40959)%Z.
Definition lf : cp := String "010" "".

Definition _COMPARISON_QUANTIFIED_MARKER : node :=
  cat [UnlessAfter alnum_ic; digits1; opt (cat [txt "."; digits1]); spaces;
       alt [cat [txt "token"; opt (txt "s")]; any ["tok"; "kb"; "mb"; "gb"; "tb"; "ms"; "qps"; "rps"; "k"; "m"; "b"; "%"; "％"; "万"; "亿"]];
       Unless alnum_ic].
Definition _APPLICABILITY_QUESTION : node :=
  alt [any ["适用"; "是否支持"; "支持吗"; "能否"; "可以吗"; "是否可用"; "以哪个为准"; "一样吗"; "相同吗"; "有区别吗"; "区域"; "套餐"; "模型"];
       word ["apply"; "applicable"; "supported"; "available"; "same"; "different"; "which version"]].
Definition _CLOUD_REGION_SLUG : node :=
  cat [Boundary; any ["af"; "ap"; "ca"; "eu"; "me"; "sa"; "us"]; txt "-";
       any ["central"; "east"; "north"; "northeast"; "northwest"; "south"; "southeast"; "southwest"; "west"];
       opt (cat [txt "-"; digits1]); Boundary].
Definition _NAMED_REGION : node :=
  cat [any ["部署区域"; "区域"; "region"]; spaces; opt (any ["是"; "为"; "="; ":"; "："; "in"]); spaces;
       Group 1 (alt [cat [Chr letter_ic; Star (Chr (any_of letter_or_digit_ic ["-"])) 1 (Some 63%nat)];
                     cat [Star (Chr cjk) 1 (Some 12%nat); txt "区"]])].
Definition _CHINESE_REGION : node :=
  cat [any ["在"; "于"]; spaces; Group 1 (cat [Star (Chr cjk) 1 (Some 8%nat); txt "区"]);
       Ahead (cat [spaces; any ["也"; "是否"; "能否"; "可以"; "适用"; "支持"]])].
Definition _PLAN_QUALIFIER : node :=
  cat [Boundary; Group 1 (any ["free"; "starter"; "pro"; "enterprise"]); Boundary; opt (cat [spaces; any ["plan"; "tier"; "套餐"]])].
Definition english_requirement (topic : list string) : node :=
  cat [Boundary; any topic; spaces1; any ["requirement"; "restriction"; "availability"; "support"]; Boundary].
Definition _GENERIC_REGION_REQUIREMENT : node :=
  alt [cat [any ["区域"; "地区"]; upto 8; any ["要求"; "限制"; "适用"; "支持"; "可用"]];
       cat [any ["要求"; "限制"; "适用"]; upto 8; any ["区域"; "地区"]]; english_requirement ["region"; "regional"]].
Definition _GENERIC_PLAN_REQUIREMENT : node :=
  alt [cat [txt "套餐"; upto 8; any ["要求"; "限制"; "适用"; "支持"; "可用"]];
       cat [any ["要求"; "限制"; "适用"]; upto 8; txt "套餐"]; english_requirement ["plan"; "tier"]].
Definition conclusion (zh en : list string) : node :=
  alt [cat [any ["没有"; "无"; "不受"; "不限"]; upto 8; any zh];
       cat [any zh; upto 10; any ["没有"; "无"; "不限"; "仅限"; "适用于"; "覆盖"; "支持"]];
       cat [Boundary; any ["no"; "without"; "all"; "any"; "supported"]; spaces1; any en]].
Definition _REGION_CONCLUSION : node := conclusion ["区域"; "地区"] ["region"; "regional"].
Definition _PLAN_CONCLUSION : node := conclusion ["套餐"] ["plan"; "tier"].
Definition _REFERENTIAL_COMPARISON_SCOPE : node :=
  alt [cat [alt [txt "刚才"; txt "此前"; txt "之前"; cat [txt "前"; any ["面"; "文"]]; cat [txt "上"; any ["面"; "述"]]]; upto 16;
            opt (any ["提到"; "说到"; "讨论"; "说明"]); upto 8; any ["限制"; "上限"; "差异"; "区别"; "变化"; "变更"; "版本"]];
       cat [any ["这"; "那"]; opt (any ["两个"; "些"]); any ["版本"; "限制"; "上限"; "差异"; "区别"; "变化"; "变更"]];
       cat [Boundary; any ["previously mentioned"; "discussed earlier"; "above"; "earlier"]; upto 32;
            any ["limit"; "difference"; "change"; "version"]; Boundary]].
Definition _REFERENCE_SENTENCE_BOUNDARY : node := Star (class ["。"; "！"; "？"; "!"; "?"; "；"; ";"; lf]) 1 None.
Definition _REFERENCE_TECHNICAL_ANCHOR : node :=
  cat [UnlessAfter alnum_ic;
       alt [cat [Chr letter_ic; Star (Chr alnum_ic) 0 None;
                 Star (cat [class ["_"; "."; "/"; "-"]; Star (Chr (any_of alnum_ic ["$"])) 1 None]) 1 None];
            txt "$ref"; cat [any ["19"; "20"]; Chr re_d; Chr re_d]];
       Unless alnum_ic].
Definition _REFERENCE_FACETS : list (string * list string) :=
  [("context", ["上下文"; "context"]); ("limit", ["上限"; "限制"; "limit"]); ("version", ["版本"; "版"; "version"; "revision"]);
   ("json", ["json"]); ("schema", ["schema"; "结构"])].
Definition _COMPARISON_CURRENT_CUE : node := alt [any ["当前"; "新版"; "现行"; "最新"]; word ["current"; "new"; "latest"]].
Definition _COMPARISON_HISTORICAL_CUE : node :=
  alt [any ["旧"; "历史"; "此前"; "原来"]; word ["old"; "legacy"; "historical"; "previous"]].
(** The lazy [.+?] of the source matches wherever the greedy one does; the
    pattern is only searched for. *)
Definition something : node := Star dot 1 None.
Definition _COMPARISON_TRANSITION_CUE : node :=
  alt [cat [txt "从"; something; any ["到"; "至"]]; any ["提升至"; "提高到"; "降低至"; "变更为"];
       cat [Boundary; any ["from"; "changed"; "increased"; "decreased"]; something; Boundary; txt "to"; Boundary]].
Definition _FACET_PUBLIC_LABELS : list (string * string) :=
  [("context", "上下文"); ("limit", "限制"); ("version", "版本差异"); ("json", "JSON 输出"); ("schema", "Schema 限制")].
(** The separator of clauses in both pair extractions. *)
Definition clause_separator : node :=
  alt [Star (class ["。"; "！"; "？"; "!"; "?"; "；"; ";"; "，"; ","; lf]) 1 None; word ["while"; "whereas"]; any ["而"; "但"]].
End patterns.

Section markers.
Context `{PyRuntime} `{UnicodeClasses}.

(** [re.sub(r"\s+", "", text).casefold()] *)
Definition compact (text : string) : string :=
  casefold (concat_points (List.filter (fun c => negb (space c)) (code_points text))).
(** [pattern.finditer(text)] and the texts of the matches. *)
Definition hits (n : node) (text : string) : list hit := let s := code_points text in finditer n s 0 (length s).
Definition hit_text (text : string) (h : hit) : string := text_of (code_points text) (h_start h, h_end h).
Definition nonempty (l : list string) : list string := List.filter (fun x => negb (is_empty_str x)) l.
Definition stripped (l : list string) : list string := nonempty (map str_strip l).
Definition compact_hits (n : node) (text : string) : list string := map (fun h => compact (hit_text text h)) (hits n text).

(** ** Comparison of versions *)
Definition span_of_item (item : pydict) : string := py_str (py_or (item.["supporting_span"]) (PyStr "")).
Definition eligible_item (item : pydict) : bool := is_true (item.["supporting_span_eligible"]).
Definition distance (a b : nat) : nat := ((a - b) + (b - a))%nat.
Definition nearest (pos : nat) (cues : list hit) : option nat :=
  match map (fun h => distance pos (h_start h)) cues with [] => None | d :: l => Some (fold_left Nat.min l d) end.
Inductive role := historical_role | current_role.
#[local] Instance role_eq_dec : EqDecision role.
Proof. solve_decision. Defined.
(** The role a marker of a clause takes: the nearest cue decides, and the
    current one on a tie. *)
Definition marker_role (clause : string) (h : hit) : option role :=
  let historical_distance := nearest (h_start h) (hits _COMPARISON_HISTORICAL_CUE clause) in
  let current_distance := nearest (h_start h) (hits _COMPARISON_CURRENT_CUE clause) in
  match historical_distance, current_distance with
  | Some _, None => Some historical_role
  | Some hd, Some cd => if Nat.ltb hd cd then Some historical_role else Some current_role
  | None, Some _ => Some current_role
  | None, None => None
  end.
Definition clauses_of (span : string) : list string := stripped (split clause_separator span).
Definition markers_of_role (r : role) (clauses : list string) : list string :=
  fromkeys (concat (map (fun clause =>
    map (fun h => compact (hit_text clause h))
      (List.filter (fun h => bool_decide (marker_role clause h = Some r)) (hits _COMPARISON_QUANTIFIED_MARKER clause))) clauses)).
Definition _comparison_explicit_role_pair (span : string) : option (string * string) :=
  let historical := markers_of_role historical_role (clauses_of span) in
  let current := markers_of_role current_role (clauses_of span) in
  head (concat (map (fun h => map (fun c => (h, c)) (List.filter (fun c => h !=? c) current)) historical)).
Definition _comparison_marker_pair (span : string) : option (string * string) :=
  match _comparison_explicit_role_pair span with
  | Some explicit_pair => Some explicit_pair
  | None =>
      let all_markers := fromkeys (concat (map (fun clause => nonempty (compact_hits _COMPARISON_QUANTIFIED_MARKER clause)) (clauses_of span))) in
      if search _COMPARISON_TRANSITION_CUE span && Nat.leb 2 (length all_markers)
      then match head all_markers, last all_markers with Some a, Some b => Some (a, b) | _, _ => None end
      else None
  end.

(** The lane of an eligible item; an unhashable [evidence_group] raises. *)
Definition lane (item : pydict) : res (option string) :=
  if negb (eligible_item item) then Ok None
  else raise TypeError "unhashable type" when negb (hashable (item.["evidence_group"])) ;;
       Ok (match item.["evidence_group"] with PyStr g => if g in? ["current"; "historical"] then Some g else None | _ => None end).
Definition in_lane (group : string) (item : pydict) : bool :=
  match lane item with Ok (Some g) => g ==? group | _ => false end.
Definition lane_markers (group : string) (evidence : list pydict) : list string :=
  fromkeys (concat (map (fun item => nonempty (compact_hits _COMPARISON_QUANTIFIED_MARKER (span_of_item item))) (List.filter (in_lane group) evidence))).
Definition comparison_transition_markers (evidence : list pydict) : res (list string) :=
  let? lanes := map_res lane evidence in
  let items := omap (fun x => match x with (item, Some _) => Some item | _ => None end) (combine evidence lanes) in
  let explicit_pairs := omap (fun item => _comparison_marker_pair (span_of_item item)) items in
  let historical := lane_markers "historical" evidence in
  let shared := List.filter (fun m => m in? historical) (lane_markers "current" evidence) in
  if Nat.leb 2 (length shared) then Ok (take 4 shared)
  else Ok (match explicit_pairs with (a, b) :: _ => [a; b] | [] => [] end).
Definition comparison_transition_claim (evidence : list pydict) : option string :=
  (fun found => "关键版本变化是：旧版本为 " +:+ found.1 +:+ "，当前版本为 " +:+ found.2 +:+ "。") <$>
  head (omap (fun item => _comparison_marker_pair (span_of_item item)) (List.filter eligible_item evidence)).

Definition candidate_public_claim_text (c : CandidateResponse) : string :=
  let claims := stripped (map mc_text (cand_material_claims c)) in
  if is_nil claims then cand_answer c else String.concat lf claims.
Definition comparison_transition_roles_explicit (c : CandidateResponse) (required_markers : list string) : bool :=
  if is_nil required_markers then true
  else match _comparison_explicit_role_pair (candidate_public_claim_text c) with
       | None => false
       | Some (a, b) => forallb (fun m => m in? [a; b]) required_markers
       end.
Definition missing_comparison_transition_markers (c : CandidateResponse) (required_markers : list string) : list string :=
  let public_claims := compact (candidate_public_claim_text c) in
  List.filter (fun m => negb (str_contains m public_claims)) required_markers.

(** ** The topic a question refers to *)
Record ReferentialApplicabilityContract := mk_contract { marker_hints : list string; required_facets : list string }.
Definition eligible_text (evidence : list pydict) : string :=
  String.concat lf (map span_of_item (List.filter eligible_item evidence)).
Definition confirmed_anchors (compact_evidence sentence : string) : list string :=
  List.filter (fun m => negb (is_empty_str m) && str_contains m compact_evidence)
    (fromkeys (compact_hits _COMPARISON_QUANTIFIED_MARKER sentence ++ compact_hits _REFERENCE_TECHNICAL_ANCHOR sentence)).
Definition confirmed_facets (compact_evidence sentence : string) : list string :=
  omap (fun f => if existsb (fun a => str_contains (casefold a) (compact sentence) && str_contains (casefold a) compact_evidence) f.2
                 then Some f.1 else None) _REFERENCE_FACETS.
Definition referential_applicability_contract (previous_assistant_answer : option string) (evidence : list pydict)
  : ReferentialApplicabilityContract :=
  let answer := default "" previous_assistant_answer in
  if is_empty_str answer || is_empty_str (eligible_text evidence) then mk_contract [] []
  else
    let compact_evidence := compact (eligible_text evidence) in
    let sentences := stripped (split _REFERENCE_SENTENCE_BOUNDARY answer) in
    let anchored := List.filter (fun s => negb (is_nil (confirmed_anchors compact_evidence s))) sentences in
    let facets := take 6 (fromkeys (concat (map (confirmed_facets compact_evidence) anchored))) in
    let markers := take (16 - length facets)%nat (fromkeys (concat (map (confirmed_anchors compact_evidence) anchored))) in
    mk_contract markers facets.
Definition facet_alternatives (facet : string) : option (list string) :=
  snd <$> find_first (fun kv => kv.1 ==? facet) _REFERENCE_FACETS.
Definition missing_referential_applicability_requirements (c : CandidateResponse) (required : list string) : list string :=
  let answer := compact (candidate_public_claim_text c) in
  omap (fun facet =>
    match facet_alternatives facet with
    | Some alternatives => if existsb (fun a => str_contains (casefold a) answer) alternatives then None else Some ("topic_facet:" +:+ facet)
    | None => None
    end) required.
Definition refers_to_prior_comparison_scope (message : string) : bool :=
  negb (is_empty_str message) && search _REFERENTIAL_COMPARISON_SCOPE message.
Definition supported_referential_facets (evidence : list pydict) (requested_facets : list pyval) : list string :=
  let text := compact (eligible_text evidence) in
  if is_empty_str text then []
  else List.filter (fun facet => match facet_alternatives facet with
                                 | Some alternatives => existsb (fun a => str_contains (casefold a) text) alternatives
                                 | None => false
                                 end) (fromkeys (map py_str requested_facets)).

(** ** Regions and plans *)
Definition group_texts (n : node) (i : nat) (text : string) : list string :=
  omap (fun h => text_of (code_points text) <$> span_of h i) (hits n text).
Definition explicit_applicability_conditions (message issue_type policy_boundary requested_action : string) : list string :=
  if is_empty_str message || (issue_type !=? "product_knowledge") || (policy_boundary !=? "allowed") || (requested_action !=? "none")
     || negb (search _APPLICABILITY_QUESTION message)
  then []
  else fromkeys (stripped (group_texts _CLOUD_REGION_SLUG 0 message ++ group_texts _NAMED_REGION 1 message
                           ++ group_texts _CHINESE_REGION 1 message ++ group_texts _PLAN_QUALIFIER 1 message)).
Inductive dimension := region | plan.
#[local] Instance dimension_eq_dec : EqDecision dimension.
Proof. solve_decision. Defined.
Definition plan_names : list string := ["free"; "starter"; "pro"; "enterprise"].
Definition requested_generic_applicability_dimensions (message issue_type policy_boundary requested_action : string) : list dimension :=
  if is_empty_str message || (issue_type !=? "product_knowledge") || (policy_boundary !=? "allowed") || (requested_action !=? "none")
  then []
  else
    let explicit_dimensions :=
      map (fun c => if casefold c in? plan_names then plan else region)
        (explicit_applicability_conditions message issue_type policy_boundary requested_action) in
    (if search _GENERIC_REGION_REQUIREMENT message && negb (region in? explicit_dimensions) then [region] else [])
    ++ (if search _GENERIC_PLAN_REQUIREMENT message && negb (plan in? explicit_dimensions) then [plan] else []).
Definition applicability_dimension_answered (text : string) (d : dimension) : bool :=
  search (match d with region => _REGION_CONCLUSION | plan => _PLAN_CONCLUSION end) text.

Definition field_of (d : dimension) : string := match d with region => "applicable_region" | plan => "applicable_plan" end.
Definition label_of (d : dimension) : string := match d with region => "区域" | plan => "套餐" end.
(** The scope an eligible item states for a dimension, [None] for every one;
    an item that is not eligible or says nothing has none. *)
Definition stated_scope (d : dimension) (item : pydict) : option (option string) :=
  if negb (eligible_item item) then None
  else match item.["eligibility_envelope"] with
       | PyDict envelope =>
           match dget (field_of d) envelope with
           | None => None
           | Some PyNone => Some None
           | Some raw => Some (Some (str_strip (py_str raw)))
           end
       | _ => None
       end.
(** The scopes of all items, if each states one. *)
Fixpoint stated_scopes (d : dimension) (evidence : list pydict) : option (list (option string)) :=
  match evidence with
  | [] => Some []
  | item :: rest => match stated_scope d item, stated_scopes d rest with Some s, Some l => Some (s :: l) | _, _ => None end
  end.
Definition generic_applicability_dimension_claim (d : dimension) (evidence : list pydict) : option string :=
  match stated_scopes d evidence with
  | None | Some [] => None
  | Some (first :: rest) =>
      if forallb (fun s => bool_decide (s = first)) rest then
        match first with
        | None => Some ("当前引用资料未设置" +:+ label_of d +:+ "限定，因此上述规则没有额外" +:+ label_of d +:+ "要求。")
        | Some scope => Some ("当前引用资料将上述规则限定在 " +:+ scope +:+ " " +:+ label_of d +:+ "。")
        end
      else None
  end.

(** [pattern.fullmatch(text)] *)
Definition fullmatch (n : node) (text : string) : bool :=
  isSome (run_node n (mk_place None (code_points text) 0 []) (fun q => if is_nil (p_rest q) then Some q else None)).
Definition ends_with (suffix text : string) : bool := String.prefix (string_rev suffix) (string_rev text).
Definition condition_dimension (condition : string) : option dimension :=
  if casefold (str_strip condition) in? plan_names then Some plan
  else if fullmatch _CLOUD_REGION_SLUG (str_strip condition) || ends_with "区" (str_strip condition) then Some region
  else None.
Fixpoint covering_scopes (d : dimension) (normalized : string) (evidence : list pydict) : option (list (option string)) :=
  match evidence with
  | [] => Some []
  | item :: rest =>
      match stated_scope d item with
      | None => None
      | Some scope =>
          if match scope with Some s => casefold s !=? normalized | None => false end then None
          else cons scope <$> covering_scopes d normalized rest
      end
  end.
Definition facet_label (facet : string) : option string := snd <$> find_first (fun kv => kv.1 ==? facet) _FACET_PUBLIC_LABELS.
Definition topic_subject (topic_facets : list pyval) : string :=
  let facets := List.filter (fun f => isSome (facet_label f)) (fromkeys (map py_str topic_facets)) in
  let both := ("context" in? facets) && ("limit" in? facets) in
  let labels := (if both then ["上下文上限"] else [])
                ++ omap facet_label (if both then List.filter (fun f => negb (f in? ["context"; "limit"])) facets else facets) in
  if is_nil labels then "其中所述规则" else "其中关于" +:+ String.concat "、" labels +:+ "的规则".
Definition applicability_scope_claim (condition : string) (evidence : list pydict) (topic_facets : list pyval) : option string :=
  let normalized := casefold (str_strip condition) in
  if is_empty_str normalized then None
  else match condition_dimension condition with
       | None => None
       | Some d =>
           match covering_scopes d normalized evidence with
           | None | Some [] => None
           | Some scopes =>
               let subject := topic_subject topic_facets in
               if forallb isNone scopes
               then Some ("当前引用资料没有" +:+ label_of d +:+ "限定，因此" +:+ subject +:+ "适用于 " +:+ condition +:+ "。")
               else Some ("当前引用资料的适用" +:+ label_of d +:+ "覆盖 " +:+ condition +:+ "，因此" +:+ subject +:+ "适用于 " +:+ condition +:+ "。")
           end
       end.
End markers.

Section lemmas.
Context `{PyRuntime} `{UnicodeClasses}.

Lemma nodup_keys_from {A} `{EqDecision A} (seen l : list A) : NoDup (fromkeys_from seen l).
Proof.
  revert seen. induction l as [|x l IH]; intros seen; simpl; [constructor|]. destruct (x in? seen); [done|].
  constructor; [|done]. rewrite elem_of_fromkeys_from. set_solver.
Qed.
Lemma nodup_take {A} (n : nat) (l : list A) : NoDup l -> NoDup (take n l).
Proof. rewrite <- (take_drop n l) at 1. by intros [? _]%NoDup_app. Qed.
Lemma take_elem {A} (n : nat) (l : list A) x : x ∈ take n l -> x ∈ l.
Proof. intros Hx. rewrite <- (take_drop n l). apply elem_of_app. by left. Qed.
Lemma head_elem {A} (l : list A) x : head l = Some x -> x ∈ l.
Proof. destruct l; simpl; intros; simplify_eq. by left. Qed.

(** *** Scopes *)
(** The metadata of an item covers a condition. *)
Record covers (d : dimension) (normalized : string) (item : pydict) : Prop := {
  cv_eligible : eligible_item item = true;
  cv_scope : exists envelope v, item.["eligibility_envelope"] = PyDict envelope /\ dget (field_of d) envelope = Some v /\
             (v = PyNone \/ v <> PyNone /\ casefold (str_strip (py_str v)) = normalized);
}.
Lemma stated_covers d normalized item :
  covers d normalized item <-> exists scope, stated_scope d item = Some scope /\ (forall s, scope = Some s -> casefold s = normalized).
Proof.
  unfold stated_scope. split.
  - intros [He (envelope & v & Ee & Ev & Hv)]. rewrite He, Ee, Ev. cbn [negb]. destruct Hv as [->|[Hne Hv]]; [by exists None|].
    exists (Some (str_strip (py_str v))). split; [by destruct v|]. by intros s [= <-].
  - intros (scope & E & Hs). destruct (eligible_item item) eqn:He; [cbn [negb] in E|done].
    destruct (item.["eligibility_envelope"]) as [| | | | | | |envelope] eqn:Ee; try done.
    destruct (dget (field_of d) envelope) as [v|] eqn:Ev; [|done]. split; [done|]. exists envelope, v. split_and!; [done..|].
    destruct v; [by left|..]; (right; split; [done|]; apply Hs; congruence).
Qed.
Lemma covering_scopes_some d normalized evidence :
  is_Some (covering_scopes d normalized evidence) <-> forall item, item ∈ evidence -> covers d normalized item.
Proof.
  induction evidence as [|item evidence IH]; cbn [covering_scopes].
  - split; [set_solver|by eauto].
  - split.
    + destruct (stated_scope d item) as [scope|] eqn:Es; [|by intros []]. destruct (match scope with Some _ => _ | None => _ end) eqn:Em; [by intros []|].
      rewrite fmap_is_Some, IH. intros Hall x [->|Hx]%elem_of_cons; [|by apply Hall].
      apply stated_covers. exists scope. split; [done|]. intros s ->. by rewrite neqb_false in Em.
    + intros Hall. destruct (proj1 (stated_covers d normalized item) (Hall item (list_elem_of_here _ _))) as (scope & -> & Hs).
      assert (match scope with Some s => casefold s !=? normalized | None => false end = false) as ->.
      { destruct scope as [s|]; [|done]. by apply neqb_false, Hs. }
      rewrite fmap_is_Some. apply IH. intros x Hx. apply Hall. by right.
Qed.
Lemma covering_scopes_length d normalized evidence scopes :
  covering_scopes d normalized evidence = Some scopes -> length scopes = length evidence.
Proof.
  revert scopes. induction evidence as [|item evidence IH]; cbn [covering_scopes]; intros scopes E; [by simplify_eq|].
  destruct (stated_scope d item); [|done]. destruct (match o with Some _ => _ | None => _ end); [done|].
  apply fmap_Some in E as (l & El & ->). simpl. f_equal. by apply IH.
Qed.

(** C28: the claim that the cited rules apply to a region or plan is
    published exactly when the customer's condition is of a known shape, some
    evidence is cited, and each cited item is eligible and carries metadata for
    that dimension which is either the wildcard or the condition itself. *)
Theorem scope_claim_exact (condition : string) (evidence : list pydict) (topic_facets : list pyval) :
  is_Some (applicability_scope_claim condition evidence topic_facets) <->
  casefold (str_strip condition) <> "" /\ evidence <> [] /\
  exists d, condition_dimension condition = Some d /\ forall item, item ∈ evidence -> covers d (casefold (str_strip condition)) item.
Proof.
  unfold applicability_scope_claim. destruct (is_empty_str _) eqn:En; to_prop; [split; [by intros []|by intros [? _]]|].
  destruct (condition_dimension condition) as [d|]; [|split; [by intros []|by intros (_ & _ & ? & ? & _)]].
  rewrite (iff_sym (and_comm _ _)). setoid_rewrite <- covering_scopes_some.
  destruct (covering_scopes d _ evidence) as [scopes|] eqn:Es.
  - pose proof (covering_scopes_length _ _ _ _ Es) as El. destruct scopes as [|s scopes], evidence as [|item evidence]; simpl in El; try lia.
    + split; [by intros []|]. naive_solver.
    + split; [intros _|by destruct (forallb _ _); eauto]. split; [|done]. split; [done|]. exists d. rewrite Es. eauto.
  - split; [by intros []|]. intros [(_ & d' & [= <-] & Hs) _]. rewrite Es in Hs. by destruct Hs.
Qed.

(** *** The topic contract *)
Lemma anchor_confirmed evidence sentence m :
  m ∈ confirmed_anchors evidence sentence ->
  m <> "" /\ str_contains m evidence = true /\
  (m ∈ compact_hits _COMPARISON_QUANTIFIED_MARKER sentence \/ m ∈ compact_hits _REFERENCE_TECHNICAL_ANCHOR sentence).
Proof.
  unfold confirmed_anchors. rewrite elem_of_lfilter, elem_of_fromkeys, elem_of_app, andb_true_iff, negb_true_iff, is_empty_str_false. naive_solver.
Qed.
Lemma facet_confirmed evidence sentence f :
  f ∈ confirmed_facets evidence sentence ->
  exists alternatives a, (f, alternatives) ∈ _REFERENCE_FACETS /\ a ∈ alternatives /\
    str_contains (casefold a) (compact sentence) = true /\ str_contains (casefold a) evidence = true.
Proof.
  unfold confirmed_facets. rewrite list_elem_of_omap. intros ([f' alternatives] & Hin & E).
  destruct (existsb _ _) eqn:Ex; [|done]. cbn [fst snd] in *. simplify_eq. rewrite existsb_true_iff in Ex.
  destruct Ex as (a & Ha & [? ?]%andb_true_iff). eauto 10.
Qed.
(** A sentence of the previous answer. *)
Definition sentence_of (answer sentence : string) : Prop := sentence ∈ stripped (split _REFERENCE_SENTENCE_BOUNDARY answer).
Record confirmed_contract (answer : string) (evidence : list pydict) (c : ReferentialApplicabilityContract) : Prop := {
  cc_bound : (length (marker_hints c) + length (required_facets c) <= 16)%nat;
  cc_distinct : NoDup (marker_hints c) /\ NoDup (required_facets c);
  cc_markers : forall m, m ∈ marker_hints c -> m <> "" /\ str_contains m (compact (eligible_text evidence)) = true /\
    exists sentence, sentence_of answer sentence /\
      (m ∈ compact_hits _COMPARISON_QUANTIFIED_MARKER sentence \/ m ∈ compact_hits _REFERENCE_TECHNICAL_ANCHOR sentence);
  cc_facets : forall f, f ∈ required_facets c -> exists alternatives a sentence,
    (f, alternatives) ∈ _REFERENCE_FACETS /\ a ∈ alternatives /\ sentence_of answer sentence /\
    str_contains (casefold a) (compact sentence) = true /\ str_contains (casefold a) (compact (eligible_text evidence)) = true;
}.

(** The topic contract of a follow-up question holds only what both sides
    say: each marker is quoted in a sentence of the previous answer and occurs
    in the text of the eligible spans, each facet is named in both, nothing
    repeats, and there are at most sixteen requirements. *)
Theorem topic_contract_confirmed (previous : option string) (evidence : list pydict) :
  confirmed_contract (default "" previous) evidence (referential_applicability_contract previous evidence).
Proof.
  unfold referential_applicability_contract. set (answer := default "" previous).
  destruct (is_empty_str answer || is_empty_str (eligible_text evidence)).
  { split; cbn; [lia|split; constructor|set_solver|set_solver]. }
  set (anchored := List.filter _ _). cbv zeta. set (facets := take 6 _).
  assert (forall s, s ∈ anchored -> sentence_of answer s) as Hs by (intros s [Hs _]%elem_of_lfilter; exact Hs).
  split; cbn [marker_hints required_facets].
  - rewrite length_take. assert (length facets <= 6)%nat by (unfold facets; rewrite length_take; lia). lia.
  - split; apply nodup_take, nodup_keys_from.
  - intros m Hm%take_elem. rewrite elem_of_fromkeys, elem_of_concat in Hm. destruct Hm as (l & Hl & Hm).
    apply list_elem_of_fmap in Hl as (s & -> & Hin). apply anchor_confirmed in Hm as (? & ? & ?). eauto 10.
  - intros f Hf%take_elem. rewrite elem_of_fromkeys, elem_of_concat in Hf. destruct Hf as (l & Hl & Hf).
    apply list_elem_of_fmap in Hl as (s & -> & Hin). apply facet_confirmed in Hf as (alternatives & a & ? & ? & ? & ?). eauto 15.
Qed.

(** *** Markers of a comparison *)
(** [m] is a quantified value written in [text]. *)
Definition quantified_in (text m : string) : Prop := m ∈ compact_hits _COMPARISON_QUANTIFIED_MARKER text.
Lemma role_markers r clauses m : m ∈ markers_of_role r clauses -> exists clause, clause ∈ clauses /\ quantified_in clause m.
Proof.
  unfold markers_of_role. rewrite elem_of_fromkeys, elem_of_concat. intros (l & Hl & Hm).
  apply list_elem_of_fmap in Hl as (clause & -> & Hc). exists clause. split; [done|].
  apply list_elem_of_fmap in Hm as (h & -> & [Hh _]%elem_of_lfilter). apply list_elem_of_fmap. eauto.
Qed.
Lemma explicit_pair_quoted span a b :
  _comparison_explicit_role_pair span = Some (a, b) ->
  a <> b /\ forall m, m ∈ [a; b] -> exists clause, clause ∈ clauses_of span /\ quantified_in clause m.
Proof.
  unfold _comparison_explicit_role_pair. intros E%head_elem. rewrite elem_of_concat in E. destruct E as (l & Hl & Hp).
  apply list_elem_of_fmap in Hl as (h & -> & Hh). apply list_elem_of_fmap in Hp as (c & E & Hc). simplify_eq.
  apply elem_of_lfilter in Hc as [Hc Hne]. rewrite neqb_true in Hne. split; [done|].
  intros m [->|[->|Hm]%elem_of_cons]%elem_of_cons; [by eapply role_markers|by eapply role_markers|set_solver].
Qed.
Lemma pair_quoted span a b :
  _comparison_marker_pair span = Some (a, b) ->
  forall m, m ∈ [a; b] -> exists clause, clause ∈ clauses_of span /\ quantified_in clause m.
Proof.
  unfold _comparison_marker_pair. destruct (_comparison_explicit_role_pair span) as [p|] eqn:Ep.
  - intros [= ->]. by apply explicit_pair_quoted.
  - set (all := fromkeys _). destruct (search _ span && _); [|done].
    assert (forall m, m ∈ all -> exists clause, clause ∈ clauses_of span /\ quantified_in clause m) as Hall.
    { intros m. unfold all. rewrite elem_of_fromkeys, elem_of_concat. intros (l & Hl & Hm).
      apply list_elem_of_fmap in Hl as (clause & -> & Hc). apply elem_of_lfilter in Hm as [Hm _]. eauto. }
    destruct (head all) as [x|] eqn:Eh; [|done]. destruct (last all) as [y|] eqn:El; [|done]. intros [= -> ->] m.
    apply head_elem in Eh. apply last_Some_elem_of in El. intros [->|[->|Hm]%elem_of_cons]%elem_of_cons; [by apply Hall..|set_solver].
Qed.
Lemma lane_marker group evidence m :
  m ∈ lane_markers group evidence -> exists item, item ∈ evidence /\ eligible_item item = true /\ quantified_in (span_of_item item) m.
Proof.
  unfold lane_markers. rewrite elem_of_fromkeys, elem_of_concat. intros (l & Hl & Hm). apply list_elem_of_fmap in Hl as (item & -> & Hi).
  apply elem_of_lfilter in Hi as [Hi Hlane]. apply elem_of_lfilter in Hm as [Hm _]. exists item. split_and!; [done| |done].
  unfold in_lane, lane in Hlane. by destruct (eligible_item item).
Qed.
(** [m] is written in an eligible span, or in a clause of one. *)
Definition attributable (evidence : list pydict) (m : string) : Prop :=
  exists item text, item ∈ evidence /\ eligible_item item = true /\
    (text = span_of_item item \/ text ∈ clauses_of (span_of_item item)) /\ quantified_in text m.

(** The values a comparison has to repeat are at most four, never a single
    one, and each is a quantified value written in the span of an eligible
    item of the evidence. *)
Theorem comparison_markers_attributable (evidence : list pydict) (markers : list string) :
  comparison_transition_markers evidence = Ok markers ->
  (length markers <= 4)%nat /\ length markers <> 1%nat /\ forall m, m ∈ markers -> attributable evidence m.
Proof.
  unfold comparison_transition_markers. intros E. apply res_bind_ok in E as (lanes & El & E). cbv zeta in E.
  set (shared := List.filter _ _) in E. destruct (Nat.leb 2 (length shared)) eqn:E2.
  - injection E as <-. apply Nat.leb_le in E2. rewrite length_take. split_and!; [lia..|]. intros m Hm%take_elem.
    apply elem_of_lfilter in Hm as [Hm _]. apply lane_marker in Hm as (item & ? & ? & ?). exists item, (span_of_item item). eauto.
  - set (items := omap _ (combine evidence lanes)) in E.
    assert (forall item, item ∈ items -> item ∈ evidence /\ eligible_item item = true) as Hitems.
    { intros item ([item' l] & Hin & Ei)%list_elem_of_omap. destruct l as [g|]; simplify_eq. split.
      - apply list_elem_of_In. apply list_elem_of_In in Hin. by eapply in_combine_l.
      - revert El Hin. clear. revert lanes. induction evidence as [|x evidence IH]; intros [|y lanes]; cbn [map_res combine]; try (by intros _ ?%not_elem_of_nil).
        intros E. apply res_bind_ok in E as (y' & Ey & E). apply res_bind_ok in E as (l & El & E). injection E as -> ->.
        intros [[= <- <-]|Hin]%elem_of_cons; [|by eapply IH]. unfold lane in Ey. by destruct (eligible_item item). }
    destruct (omap _ items) as [|[a b] rest] eqn:Ep; injection E as <-; [cbn; split_and!; [lia..|set_solver]|].
    cbn. split_and!; [lia..|]. intros m Hm.
    assert ((a, b) ∈ omap (fun item => _comparison_marker_pair (span_of_item item)) items) as Hp by (rewrite Ep; by left).
    apply list_elem_of_omap in Hp as (item & Hin & Epair). apply Hitems in Hin as [? ?].
    destruct (pair_quoted _ _ _ Epair m Hm) as (clause & ? & ?). exists item, clause. eauto.
Qed.
End lemmas.

(** ** Concrete messages and spans *)
Module Demo.
#[local] Existing Instance ascii_runtime.
Definition classes : UnicodeClasses := {| unicode_word := cjk; unicode_decimal _ := false |}.
#[local] Existing Instance classes.
Definition conditions (message : string) : list string := explicit_applicability_conditions message "product_knowledge" "allowed" "none".
Definition dimensions (message : string) : list dimension := requested_generic_applicability_dimensions message "product_knowledge" "allowed" "none".
Definition scoped (plan_scope region_scope : pyval) : pydict :=
  [("supporting_span_eligible", PyBool true);
   ("eligibility_envelope", PyDict [("applicable_plan", plan_scope); ("applicable_region", region_scope)])].
Definition spanned (group text : string) : pydict :=
  [("supporting_span_eligible", PyBool true); ("evidence_group", PyStr group); ("supporting_span", PyStr text)].
Definition comparison : list pydict :=
  [spanned "current" "当前上下文上限为 128k；旧兼容表记录为 64k。"; spanned "historical" "2026-03 发布了兼容性修订。"].
Definition said (text : string) : CandidateResponse := mk_candidate text "answer" [] [] [] [mk_material_claim text [] [] []] [].

Example conditions_found :
  map conditions ["它在 eu-central-1 也一样吗？"; "Free 套餐也支持吗？"; "它在欧洲区也一样吗？"; "atlas-chat 当前支持什么？"] =
  [["eu-central-1"]; ["Free"]; ["欧洲区"]; []].
Proof. vm_compute. reflexivity. Qed.
Example dimensions_found :
  map dimensions ["请说明 JSON 输出的区域要求和套餐限制。"; "eu-west 区域是否支持 JSON 输出？"; "eu-west 的区域支持和套餐要求是什么？"] =
  [[region; plan]; []; [plan]].
Proof. vm_compute. reflexivity. Qed.
Example scope_claims :
  (applicability_scope_claim "eu-west" [scoped PyNone PyNone] [], applicability_scope_claim "eu-west" [scoped PyNone (PyStr "us-east")] [],
   generic_applicability_dimension_claim plan [scoped PyNone PyNone; scoped (PyStr "Pro") PyNone]) =
  (Some "当前引用资料没有区域限定，因此其中所述规则适用于 eu-west。", None, None).
Proof. vm_compute. reflexivity. Qed.
Example comparison_read :
  (comparison_transition_markers comparison, comparison_transition_claim comparison) =
  (Ok ["64k"; "128k"], Some "关键版本变化是：旧版本为 64k，当前版本为 128k。").
Proof. vm_compute. reflexivity. Qed.
Example roles_read :
  map (fun text => comparison_transition_roles_explicit (said text) ["64k"; "128k"])
    ["旧版本为 64k，当前版本为 128k。"; "The old limit was 64k while the current limit is 128k."; "上下文上限从 64k 提升到 128k。";
     "新请求使用 v5，旧请求按 64k 解释。"; "上下文值包括 64k 和 128k。"] = [true; true; false; false; false].
Proof. vm_compute. reflexivity. Qed.
Example topic_read :
  referential_applicability_contract
    (Some "当前上下文上限为 128k tokens；旧版本为 64k。调用方设置 response_format=json_object。未经证实的 feature_flag_x 已启用。")
    [spanned "current" "当前上下文上限为 128k tokens；旧版本为 64k。调用方设置 response_format=json_object。"] =
  mk_contract ["128k"; "64k"; "response_format"; "json_object"] ["context"; "limit"; "version"; "json"].
Proof. vm_compute. reflexivity. Qed.

Lemma comparison_markers_attributable_witness :
  comparison_transition_markers comparison = Ok ["64k"; "128k"] /\
  (length ["64k"; "128k"] <= 4)%nat /\ length ["64k"; "128k"] <> 1%nat /\ forall m, m ∈ ["64k"; "128k"] -> attributable comparison m.
Proof.
  assert (comparison_transition_markers comparison = Ok ["64k"; "128k"]) as E by (vm_compute; reflexivity).
  split; [exact E|]. exact (comparison_markers_attributable comparison ["64k"; "128k"] E).
Defined.
End Demo.
