(* ===== verification/ProposalScenario.v ===== *)
(** * A proposal, from the model's claims to the approval route

    One concrete run: a refund with a current billing read and a cited policy,
    the model's synthesis of it, the assembled proposal and the decision of the
    gate.  The run is evaluated, and it instantiates the theorems of [Synthesis],
    [ProposalAssembly], [Responses] and [PolicyGate]. *)
From Stdlib Require Import Ascii.
From S2P Require Import Prelude PyValue Sha256 CanonicalJson ActionSpecs Obligations.
From S2P Require Import PyText Responses Synthesis ProposalAssembly PolicyGate.
Local Open Scope string_scope.
Local Open Scope list_scope.
Local Open Scope Z_scope.
#[local] Existing Instance ascii_runtime.

(** ** Data *)
Definition read_billing : pydict := Demo.billing "r1" "charged" true ++ [("observation_id", PyStr "obs-1")].
Definition read_policy : pydict := Demo.policy "r1" ++ [("observation_id", PyStr "obs-2")].
Definition reads : list pydict := [read_billing; read_policy].
Definition ledger_result : res ActionObligationLedger :=
  evaluate_action_obligations refund_spec Demo.admission reads "r1" [Demo.citation] (Some "attempt-1") (Some Demo.now) 0.
Definition ledger : ActionObligationLedger :=
  match ledger_result with Ok l => l | Err _ => mk_ledger Refund "" "" "" "" [] [] Clarify "" None end.

(** The evidence item of the context, as the model saw it. *)
Definition context_item : pydict :=
  [("citation_binding_id", PyStr "cb-1"); ("supporting_span_eligible", PyBool true); ("chunk_id", PyStr "chunk-1");
   ("source_locator_hash", PyStr "lh"); ("evidence_group", PyStr "current")].
Definition model_output : ProviderBoundEvidenceSynthesis :=
  mk_provider_synthesis "Charged twice."
    [mk_provider_claim "The charge is a duplicate." ["cb-1"] ["bill-7"]; mk_provider_claim "Trust me." [] []].
Definition supported_output : ProviderBoundEvidenceSynthesis :=
  mk_provider_synthesis "The charge is a duplicate." [mk_provider_claim "The charge is a duplicate." ["cb-1"] ["bill-7"]].
Definition synthesis : BoundEvidenceSynthesis :=
  match bind_provider_synthesis supported_output [context_item] reads default_requirements with
  | Ok b => b
  | Err _ => mk_bound_synthesis "" [] [] [] []
  end.
Definition candidate : CandidateResponse :=
  match assemble_action_candidate refund_spec Demo.admission ledger reads synthesis with
  | Ok c => c
  | Err _ => mk_candidate "" "" [] [] [] [] []
  end.

(** Stored payloads are told apart by their schema version. *)
#[local] Instance scenario_models : PayloadModels := {
  parse_admission d := if py_eq (d.["schema_version"]) (PyStr "action-admission.v2") then Some Demo.admission else None;
  parse_ledger d := if py_eq (d.["schema_version"]) (PyStr "action-obligation-ledger.v2") then Some ledger else None;
}.
Definition admission_payload : option pydict := Some [("schema_version", PyStr "action-admission.v2")].
Definition ledger_payload : option pydict := Some [("schema_version", PyStr "action-obligation-ledger.v2")].
Definition at_now : Z := instant Demo.now.
Definition eligibility : ProposalEligibility :=
  match evaluate_action_candidate_eligibility candidate admission_payload ledger_payload reads at_now with
  | Ok e => e
  | Err _ => _denied_eligibility None ""
  end.
Definition input : PolicyInput :=
  mk_policy_input candidate false true (Some true) (Some "action_candidate_assembled") None false Accept None false "allowed"
    false false false false [] false false false.
Definition decision : PublicationDecision :=
  match evaluate_policy input with
  | Ok d => d
  | Err _ => mk_publication candidate "" "" REJECT None None
  end.

Example proposed :
  (cand_action candidate, proposed_arguments candidate, pe_resource_id eligibility, pe_resource_version eligibility) =
  ("refund_proposal", [("billing_record_id", PyStr "bill-7"); ("refund_reason", PyStr "charged twice")], Some "bill-7", Some 3).
Proof. vm_compute. reflexivity. Qed.
Example routed : (pub_route decision, pub_finish_reason decision) = (AWAIT_APPROVAL, Some "proposal_policy_approved").
Proof. vm_compute. reflexivity. Qed.
(** The unsupported claim is pruned, the other one is kept. *)
Example pruned :
  match canonicalize_unreferenced_provider_claims model_output [context_item] reads default_requirements with
  | Ok (Some (c, _, idx)) => (ps_answer c, length (ps_material_claims c), idx)
  | _ => ("", O, [])
  end = ("The charge is a duplicate.", 1%nat, [1%nat]).
Proof. vm_compute. reflexivity. Qed.
(** A reference the context does not hold is an error. *)
Example unknown_reference :
  bind_provider_synthesis (mk_provider_synthesis "x" [mk_provider_claim "x" ["cb-9"] ["bill-7"]]) [context_item] reads default_requirements
  = Err (SynthesisBindingError ["material_claims.0.citation_binding_ids:unknown_context_citation"; "material_claims:citation_binding_required"]).
Proof. vm_compute. reflexivity. Qed.

(** ** Witnesses *)
Lemma bound_identities_from_context_witness :
  bind_provider_synthesis supported_output [context_item] reads default_requirements = Ok synthesis /\
  bs_answer synthesis = ps_answer supported_output.
Proof.
  assert (bind_provider_synthesis supported_output [context_item] reads default_requirements = Ok synthesis) as Hb
    by (vm_compute; reflexivity).
  split; [exact Hb|]. exact (proj1 (bound_identities_from_context _ _ _ _ _ Hb)).
Defined.

Lemma pruning_removes_unsupported_witness :
  ps_material_claims supported_output = List.filter supported (ps_material_claims model_output).
Proof.
  assert (canonicalize_unreferenced_provider_claims model_output [context_item] reads default_requirements
          = Ok (Some (supported_output, synthesis, [1%nat]))) as Hc by (vm_compute; reflexivity).
  exact (proj1 (pruning_removes_unsupported _ _ _ _ _ _ _ Hc)).
Defined.

Lemma grounded_repair_exact_witness :
  exists g, evaluate_grounded_repair_eligibility false
    (PyDict [("schema_version", PyStr "action-admission.v2"); ("status", PyStr "none"); ("planned_action", PyStr "none")])
    [context_item] reads false = Ok g /\ gr_selected g = true.
Proof.
  destruct (grounded_repair_exact false
    (PyDict [("schema_version", PyStr "action-admission.v2"); ("status", PyStr "none"); ("planned_action", PyStr "none")])
    [context_item] reads false ["bill-7"]) as (g & Hg & Hs & _); [vm_compute; reflexivity|].
  exists g. split; [exact Hg|]. apply Hs. split_and!; [reflexivity..|]. left. vm_compute. discriminate.
Defined.

Lemma reference_contract_suffices_witness :
  provider_synthesis_binding_error_paths supported_output [context_item] reads default_requirements = Ok [].
Proof.
  destruct (provider_synthesis_reference_contract [context_item] reads default_requirements) as [d|e] eqn:Hd;
    [|vm_compute in Hd; discriminate Hd].
  destruct (reference_contract_suffices [context_item] reads default_requirements d Hd) as (ids & sources & groups & Hi & Hs & Hg & Hf).
  { intros x y Hx Hy _ _ _. apply list_elem_of_singleton in Hx as ->. apply list_elem_of_singleton in Hy as ->. reflexivity. }
  apply Hf. vm_compute in Hd. injection Hd as <-. vm_compute in Hi, Hs.
  assert (ids = ["cb-1"]) as -> by (destruct ids as [|? [|]]; simpl in Hi; congruence).
  assert (sources = ["bill-7"]) as -> by (destruct sources as [|? [|]]; simpl in Hs; congruence).
  constructor; simpl.
  - intros c ->%list_elem_of_singleton. by left.
  - by intros c x ->%list_elem_of_singleton Hx.
  - by intros c x ->%list_elem_of_singleton Hx.
  - intros _. eexists. split; [by left|done].
  - intros _. eexists. split; [by left|done].
  - by intros g []%elem_of_nil.
  - by intros m []%elem_of_nil.
Defined.

Lemma assembled_candidate_is_eligible_witness :
  exists e, evaluate_action_candidate_eligibility candidate admission_payload ledger_payload reads at_now = Ok e /\ pe_eligible e = true.
Proof.
  apply (assembled_candidate_is_eligible refund_spec Demo.admission reads "r1" [Demo.citation] (Some "attempt-1") (Some Demo.now) 0
           ledger synthesis candidate admission_payload ledger_payload at_now).
  - exists Refund. unfold ACTION_SPECS. list_member.
  - vm_compute. reflexivity.
  - vm_compute. reflexivity.
  - vm_compute. reflexivity.
  - vm_compute. reflexivity.
  - discriminate.
  - intros x Hx _. apply elem_of_cons in Hx as [->|Hx]; [exists "obs-1"; split_and!; [discriminate|vm_compute; reflexivity..]|].
    apply list_elem_of_singleton in Hx as ->. exists "obs-2"; split_and!; [discriminate|vm_compute; reflexivity..].
  - intros ct t Hct. vm_compute in Hct. discriminate Hct.
  - assert (forallb (fun e => match ent_binding e with
                              | Some b => match fresh_until b with Some u => at_now <=? instant u | None => true end
                              | None => true end) (led_obligations ledger) = true) as Hall by (vm_compute; reflexivity).
    rewrite forallb_true_iff in Hall. intros e b u He Hb Hu. specialize (Hall e He). rewrite Hb, Hu in Hall. by apply Z.leb_le.
  - assert (forallb (fun e => match ent_binding e with
                              | Some b => (ent_kind e ==? Knowledge) || isSome (parse_int (default "" (bind_resource_version b)))
                              | None => true end) (led_obligations ledger) = true) as Hall by (vm_compute; reflexivity).
    rewrite forallb_true_iff in Hall. intros e b He Hk Hb. specialize (Hall e He). rewrite Hb in Hall.
    apply orb_true_iff in Hall as [Hall|Hall]; [by rewrite eqb_true in Hall|by apply isSome_true].
Defined.

Lemma ledger_outcome_explained_witness :
  exists outcome r, led_terminal_outcome (Demo.ledger [Demo.billing "r1" "refunded" true; Demo.policy "r1"]) = Some outcome /\
    render_terminal_business_outcome outcome = Ok r /\ str_contains unchanged (rendered_answer r) = true.
Proof.
  destruct (led_terminal_outcome (Demo.ledger [Demo.billing "r1" "refunded" true; Demo.policy "r1"])) as [o|] eqn:Ho;
    [|vm_compute in Ho; discriminate Ho].
  destruct (ledger_outcome_explained "refund" refund_spec Demo.admission [Demo.billing "r1" "refunded" true; Demo.policy "r1"] "r1"
              [Demo.citation] (Some "attempt-1") (Some Demo.now) 0 (Demo.ledger [Demo.billing "r1" "refunded" true; Demo.policy "r1"]) o)
    as (r & Hr & Hc & _); [vm_compute; reflexivity|vm_compute; reflexivity|exact Ho|]. by exists o, r.
Defined.

Lemma approval_requires_bound_proposal_witness :
  evaluate_policy input = Ok decision /\ pub_route decision = AWAIT_APPROVAL /\ approvable input.
Proof.
  assert (evaluate_policy input = Ok decision) as Hd by (vm_compute; reflexivity).
  assert (pub_route decision = AWAIT_APPROVAL) as Hr by (vm_compute; reflexivity).
  assert (evaluate_action_candidate_eligibility (pi_candidate input) admission_payload ledger_payload reads at_now = Ok eligibility) as He
    by (vm_compute; reflexivity).
  assert (pi_proposal_eligible input = (if isSome (pe_action_type eligibility) then Some (pe_eligible eligibility) else None)) as Hp
    by (vm_compute; reflexivity).
  split; [exact Hd|]. split; [exact Hr|]. exact (proj1 (approval_requires_bound_proposal _ _ _ _ _ _ _ He Hp Hd Hr)).
Defined.
