(* ===== verification/EffectReconciliation.v ===== *)
(** * Reconciliation of unknown action effects

    services/action_effect_reconciliation.py: after a crash an action may have
    been executed without its outcome being recorded.  The runner asks the
    database, candidate by candidate, to compare the approval, the action and
    the business resource and to record what happened; it never executes an
    action itself.

    The capability is a SECURITY DEFINER function of the database.  It is a
    parameter here: [prepare w job version] is its answer in the world [w], with
    the world after its own transaction.  What ran before an exception stays
    committed, so operations return the world beside their result. *)
From S2P Require Import Prelude PyValue.
Local Open Scope string_scope.
Local Open Scope list_scope.
Local Open Scope Z_scope.

Definition MAX_ACTION_EFFECT_BATCH : Z := 500.
Definition MAX_ACTION_EFFECT_ATTEMPTS : Z := 3.

Record ActionEffectReconciliationReport := mk_report {
  candidate_count : Z; attempted : Z; resolved_executed : Z; resolved_zero_effect : Z; rp_pending : Z; rp_stale : Z;
  not_applicable : Z; transient_retries : Z; handled_job_ids : list string;
}.
(** [ActionEffectReconciliationReport.resolved] *)
Definition resolved (r : ActionEffectReconciliationReport) : Z := resolved_executed r + resolved_zero_effect r.

(** What one call of the capability brings back. *)
Inductive reply : Type :=
| Returned (v : pyval)
| Aborted (sqlstate : option string).

Definition retryable (sqlstate : option string) : bool := sqlstate in? [Some "40001"; Some "40P01"].
(** [repr] of a value in the messages below. *)
Definition invalid (what : string) : exn := RuntimeError ("action effect reconciliation " +:+ what).
(** [isinstance(value, int)], booleans included. *)
Definition py_int_of (v : pyval) : option Z :=
  match v with PyInt z => Some z | PyBool b => Some (Z.b2z b) | _ => None end.

Section runner.
Context {W : Type} (prepare : W -> string -> Z -> reply * W).

(** [__init__] *)
Definition make_runner (max_attempts : Z) : res Z :=
  raise ValueError "action effect reconciliation attempts outside bound"
    when (max_attempts <? 1) || (MAX_ACTION_EFFECT_ATTEMPTS <? max_attempts) ;;
  Ok max_attempts.

(** [_reconcile_candidate]: [left] attempts are left, [retries] were repeated. *)
Fixpoint reconcile_attempts (left : nat) (retries : Z) (w : W) (job_id : string) (status_version : Z)
    : res (pydict * Z) * W :=
  match left with
  | O => (Err (invalid "retry bound invariant"), w)
  | S left' =>
      match prepare w job_id status_version with
      | (Returned (PyDict result), w') => (Ok (result, retries), w')
      | (Returned _, w') => (Err (invalid "capability returned an invalid result"), w')
      | (Aborted sqlstate, w') =>
          if negb (retryable sqlstate) || Nat.eqb left' 0 then (Err (DBAPIError sqlstate), w')
          else reconcile_attempts left' (retries + 1) w' job_id status_version
      end
  end.
Definition _reconcile_candidate (max_attempts : Z) : W -> string -> Z -> res (pydict * Z) * W :=
  reconcile_attempts (Z.to_nat max_attempts) 0.

(** The effect of one disposition on the report. *)
Definition disposition (r : ActionEffectReconciliationReport) (job_id : string) (result : pydict)
    : res ActionEffectReconciliationReport :=
  let d := result.["result"] in
  if py_eq d (PyStr "not_action_effect")
  then Ok (mk_report (candidate_count r) (attempted r) (resolved_executed r) (resolved_zero_effect r) (rp_pending r)
             (rp_stale r) (not_applicable r + 1) (transient_retries r) (handled_job_ids r)) else
  raise TypeError "unhashable type" when match d with PyList _ | PyDict _ => true | _ => false end ;;
  raise invalid "capability returned a mismatched job"
    when (py_eq d (PyStr "verification_pending") || py_eq d (PyStr "terminal_reconciled"))
         && negb (py_eq (result.["job_id"]) (PyStr job_id)) ;;
  let counted executed zero pending stale :=
    Ok (mk_report (candidate_count r) (attempted r) (resolved_executed r + executed) (resolved_zero_effect r + zero)
          (rp_pending r + pending) (rp_stale r + stale) (not_applicable r) (transient_retries r)
          (handled_job_ids r ++ [job_id])) in
  if py_eq d (PyStr "verification_pending") then counted 0 0 1 0 else
  if py_eq d (PyStr "stale") then counted 0 0 0 1 else
  raise invalid "disposition invalid" when negb (py_eq d (PyStr "terminal_reconciled")) ;;
  let resolution := result.["resolution"] in
  if py_eq resolution (PyStr "executed") then counted 1 0 0 0 else
  if py_eq resolution (PyStr "confirmed_zero_effect") then counted 0 1 0 0 else
  Err (invalid "resolution invalid").

(** The loop of [reconcile_candidates]. *)
Fixpoint reconcile_loop (max_attempts : Z) (r : ActionEffectReconciliationReport) (w : W) (candidates : list pydict)
    : res ActionEffectReconciliationReport * W :=
  match candidates with
  | [] => (Ok r, w)
  | candidate :: rest =>
      if negb (py_eq (candidate.["job_status"]) (PyStr "succeeded"))
      then reconcile_loop max_attempts
             (mk_report (candidate_count r) (attempted r) (resolved_executed r) (resolved_zero_effect r) (rp_pending r)
                (rp_stale r) (not_applicable r + 1) (transient_retries r) (handled_job_ids r)) w rest
      else
        match candidate.["job_id"], py_int_of (candidate.["status_version"]) with
        | PyStr job_id, Some status_version =>
            match _reconcile_candidate max_attempts w job_id status_version with
            | (Err e, w') => (Err e, w')
            | (Ok (result, retry_count), w') =>
                let r := mk_report (candidate_count r) (attempted r + 1) (resolved_executed r) (resolved_zero_effect r)
                           (rp_pending r) (rp_stale r) (not_applicable r) (transient_retries r + retry_count)
                           (handled_job_ids r) in
                match disposition r job_id result with
                | Err e => (Err e, w')
                | Ok r' => reconcile_loop max_attempts r' w' rest
                end
            end
        | _, _ => (Err (invalid "candidate identity invalid"), w)
        end
  end.
Definition reconcile_candidates (max_attempts : Z) (w : W) (candidates : list pydict)
    : res ActionEffectReconciliationReport * W :=
  if MAX_ACTION_EFFECT_BATCH <? Z.of_nat (length candidates)
  then (Err (ValueError "action effect reconciliation candidates outside bound"), w)
  else reconcile_loop max_attempts (mk_report (Z.of_nat (length candidates)) 0 0 0 0 0 0 0 []) w candidates.

(** [reconcile_once]; [select w n] is the snapshot of candidates. *)
Definition reconcile_once (select : W -> Z -> list pydict) (max_attempts : Z) (w : W) (batch_size : Z)
    : res ActionEffectReconciliationReport * W :=
  if (batch_size <? 1) || (MAX_ACTION_EFFECT_BATCH <? batch_size)
  then (Err (ValueError "action effect reconciliation batch outside bound"), w)
  else reconcile_candidates max_attempts w (select w batch_size).

(** ** Retries *)
Lemma attempts_bound left retries w job v result n w' :
  reconcile_attempts left retries w job v = (Ok (result, n), w') -> retries <= n /\ n - retries < Z.of_nat left.
Proof.
  revert retries w. induction left as [|left IH]; intros retries w; cbn [reconcile_attempts]; [done|].
  destruct (prepare w job v) as [[x|st] w1]; [destruct x; try done; intros E; injection E as _ <- _; lia|].
  destruct (negb _ || _); [done|]. intros E. apply IH in E. lia.
Qed.

(** ** Accounting *)

(** The jobs of a batch the runner may ask about. *)
Definition succeeded_ids (candidates : list pydict) : list string :=
  omap (fun c => if py_eq (c.["job_status"]) (PyStr "succeeded")
                 then match c.["job_id"] with PyStr j => Some j | _ => None end else None) candidates.

(** Where the counters stand when [seen] candidates are done. *)
Record accounted (max_attempts : Z) (seen : list pydict) (r : ActionEffectReconciliationReport) : Prop := {
  ac_total : Z.of_nat (length (handled_job_ids r)) + not_applicable r = Z.of_nat (length seen);
  ac_outcomes : resolved r + rp_pending r + rp_stale r = Z.of_nat (length (handled_job_ids r));
  ac_handled : handled_job_ids r `sublist_of` succeeded_ids seen;
  ac_attempted : attempted r = Z.of_nat (length (succeeded_ids seen));
  ac_retries : 0 <= transient_retries r <= (max_attempts - 1) * attempted r;
}.

Lemma succeeded_ids_app a b : succeeded_ids (a ++ b) = succeeded_ids a ++ succeeded_ids b.
Proof. apply omap_app. Qed.
Lemma succeeded_skip c : py_eq (c.["job_status"]) (PyStr "succeeded") = false -> succeeded_ids [c] = [].
Proof. intros E. unfold succeeded_ids. cbn. by rewrite E. Qed.
Lemma succeeded_one c j :
  py_eq (c.["job_status"]) (PyStr "succeeded") = true -> c.["job_id"] = PyStr j -> succeeded_ids [c] = [j].
Proof. intros E Ej. unfold succeeded_ids. cbn. by rewrite E, Ej. Qed.

Lemma accounted_disposition max_attempts seen c r job result n r' :
  accounted max_attempts seen r -> succeeded_ids [c] = [job] -> 0 <= n < max_attempts ->
  disposition (mk_report (candidate_count r) (attempted r + 1) (resolved_executed r) (resolved_zero_effect r)
                 (rp_pending r) (rp_stale r) (not_applicable r) (transient_retries r + n) (handled_job_ids r)) job result = Ok r' ->
  accounted max_attempts (seen ++ [c]) r' /\ candidate_count r' = candidate_count r.
Proof.
  intros [T O H A R] Hc Hn Hd. unfold disposition in Hd. cbv zeta in Hd.
  assert (forall e z p st, (e + z + p + st = 1) ->
    r' = mk_report (candidate_count r) (attempted r + 1) (resolved_executed r + e) (resolved_zero_effect r + z) (rp_pending r + p)
           (rp_stale r + st) (not_applicable r) (transient_retries r + n) (handled_job_ids r ++ [job]) ->
    accounted max_attempts (seen ++ [c]) r' /\ candidate_count r' = candidate_count r) as Hk.
  { intros e z p st E ->. split; [|done]. unfold resolved in *. split; unfold resolved; cbn; rewrite ?length_app, ?succeeded_ids_app, ?Hc; cbn;
      rewrite ?length_app; cbn; [lia..|by apply sublist_app|lia|nia]. }
  destruct (py_eq _ (PyStr "not_action_effect")).
  - injection Hd as <-. split; [|done]. unfold resolved in *. split; unfold resolved; cbn; rewrite ?length_app, ?succeeded_ids_app, ?Hc; cbn;
      rewrite ?length_app; cbn; [lia..|by apply sublist_inserts_r|lia|nia].
  - steps_ok Hd. cbn [candidate_count attempted resolved_executed resolved_zero_effect rp_pending rp_stale not_applicable
                     transient_retries handled_job_ids] in Hd.
    repeat match type of Hd with
      | (if ?b then _ else _) = _ => destruct b; [injection Hd as <-; by (eapply Hk; [|reflexivity])|]
      | raise_if _ _ _ = _ => apply raise_if_ok in Hd as [_ Hd]
      end. done.
Qed.
Lemma accounted_skip max_attempts seen c r :
  accounted max_attempts seen r -> succeeded_ids [c] = [] ->
  accounted max_attempts (seen ++ [c])
    (mk_report (candidate_count r) (attempted r) (resolved_executed r) (resolved_zero_effect r) (rp_pending r)
       (rp_stale r) (not_applicable r + 1) (transient_retries r) (handled_job_ids r)).
Proof.
  intros [T O H A R] Hc. unfold resolved in *. split; unfold resolved; cbn; rewrite ?length_app, ?succeeded_ids_app, ?Hc; cbn;
    rewrite ?app_nil_r; [lia..|done|lia|nia].
Qed.

Lemma loop_accounted max_attempts rest seen r w r' w' :
  1 <= max_attempts -> accounted max_attempts seen r -> reconcile_loop max_attempts r w rest = (Ok r', w') ->
  accounted max_attempts (seen ++ rest) r' /\ candidate_count r' = candidate_count r.
Proof.
  intros Hm. revert seen r w. induction rest as [|c rest IH]; intros seen r w Ha; cbn [reconcile_loop].
  - intros E. injection E as <- <-. by rewrite app_nil_r.
  - destruct (py_eq (c.["job_status"]) (PyStr "succeeded")) eqn:Es; cbn [negb].
    2:{ intros E. apply (IH (seen ++ [c])) in E; [by rewrite <- app_assoc in E|].
      apply accounted_skip; [done|by apply succeeded_skip]. }
    destruct (c.["job_id"]) as [| | |job| | | |] eqn:Ej; try done. destruct (py_int_of _) as [v|]; [|done].
      unfold _reconcile_candidate. destruct (reconcile_attempts _ _ _ _ _) as [[[result n]|e] w1] eqn:Er; [|done].
      apply attempts_bound in Er. destruct (disposition _ _ _) as [r1|e] eqn:Ed; [|done].
      apply (accounted_disposition max_attempts seen c) in Ed as [Ha1 Ec]; [|done|by apply succeeded_one|lia].
      intros E. apply (IH (seen ++ [c])) in E as [Hr Hcc]; [|done]. rewrite <- app_assoc in Hr. split; [done|congruence].
Qed.

(** A reconciliation pass accounts for every candidate.  When it returns a
    report, each candidate was either counted as not applicable or handled; the
    handled jobs are, in order, succeeded candidates, each with exactly one
    outcome (executed, confirmed without effect, pending or stale); and the
    database was asked at most the configured number of times per candidate. *)
Theorem reconciliation_accounts (max_attempts : Z) (w w' : W) (candidates : list pydict) r :
  make_runner max_attempts = Ok max_attempts -> reconcile_candidates max_attempts w candidates = (Ok r, w') ->
  candidate_count r = Z.of_nat (length candidates) /\ candidate_count r <= MAX_ACTION_EFFECT_BATCH /\
  candidate_count r = Z.of_nat (length (handled_job_ids r)) + not_applicable r /\
  resolved r + rp_pending r + rp_stale r = Z.of_nat (length (handled_job_ids r)) /\
  handled_job_ids r `sublist_of` succeeded_ids candidates /\
  transient_retries r <= 2 * attempted r.
Proof.
  intros Hm Hr. unfold make_runner in Hm. steps_ok Hm. apply orb_false_iff in Hguard as [H1%Z.ltb_ge H2%Z.ltb_ge].
  unfold reconcile_candidates in Hr. destruct (Z.ltb_spec MAX_ACTION_EFFECT_BATCH (Z.of_nat (length candidates))); [done|].
  apply (loop_accounted max_attempts candidates []) in Hr as [[T O Hs A R] Hc]; [|lia|split; cbn; (done || lia)].
  unfold MAX_ACTION_EFFECT_ATTEMPTS in H2. cbn [candidate_count app] in Hc, T. split_and!; [done|lia|lia|done|done|nia].
Qed.

(** Jobs that did not succeed are none of the runner's business: a batch
    without succeeded jobs never reaches the database. *)
Theorem foreign_jobs_untouched (max_attempts : Z) (w : W) (candidates : list pydict) :
  Z.of_nat (length candidates) <= MAX_ACTION_EFFECT_BATCH ->
  (forall c, c ∈ candidates -> c.["job_status"] <> PyStr "succeeded") ->
  reconcile_candidates max_attempts w candidates
  = (Ok (mk_report (Z.of_nat (length candidates)) 0 0 0 0 0 (Z.of_nat (length candidates)) 0 []), w).
Proof.
  intros Hb Hc. unfold reconcile_candidates. rewrite (proj2 (Z.ltb_ge _ _)) by done.
  assert (forall total na l, (forall c, c ∈ l -> c.["job_status"] <> PyStr "succeeded") ->
    reconcile_loop max_attempts (mk_report total 0 0 0 0 0 na 0 []) w l
    = (Ok (mk_report total 0 0 0 0 0 (na + Z.of_nat (length l)) 0 []), w)) as Hl.
  { intros total na l. revert na. induction l as [|c l IH]; intros na Hin; cbn [reconcile_loop].
    - cbn. by rewrite Z.add_0_r.
    - destruct (py_eq (c.["job_status"]) (PyStr "succeeded")) eqn:E; [rewrite py_eq_str in E; apply Hin in E; [done|left]|].
      cbn [negb]. rewrite IH by (intros x Hx; apply Hin; by right).
      cbn [candidate_count attempted resolved_executed resolved_zero_effect rp_pending rp_stale not_applicable
        transient_retries handled_job_ids length]. do 3 f_equal. lia. }
  by rewrite Hl.
Qed.
End runner.

(** ** A concrete pass: a serialisation failure, then two answers *)
Definition demo_prepare (w : nat) (job_id : string) (_ : Z) : reply * nat :=
  (match w with
   | O => Aborted (Some "40001")
   | _ => if job_id ==? "J1"
          then Returned (PyDict [("result", PyStr "terminal_reconciled"); ("job_id", PyStr "J1"); ("resolution", PyStr "executed")])
          else Returned (PyDict [("result", PyStr "stale")])
   end, S w).
Definition demo_candidates : list pydict :=
  [[("job_id", PyStr "J1"); ("job_status", PyStr "succeeded"); ("status_version", PyInt 3)];
   [("job_id", PyStr "J2"); ("job_status", PyStr "leased"); ("status_version", PyInt 2)];
   [("job_id", PyStr "J3"); ("job_status", PyStr "succeeded"); ("status_version", PyInt 4)]].
Lemma reconciliation_accounts_witness :
  reconcile_candidates demo_prepare 3 O demo_candidates = (Ok (mk_report 3 2 1 0 0 1 1 1 ["J1"; "J3"]), 3%nat) /\
  ["J1"; "J3"] `sublist_of` succeeded_ids demo_candidates.
Proof.
  assert (reconcile_candidates demo_prepare 3 O demo_candidates = (Ok (mk_report 3 2 1 0 0 1 1 1 ["J1"; "J3"]), 3%nat)) as E
    by (vm_compute; reflexivity).
  split; [exact E|].
  destruct (reconciliation_accounts demo_prepare 3 O 3%nat demo_candidates _ eq_refl E) as (_ & _ & _ & _ & Hs & _). exact Hs.
Defined.
