(* ===== verification/SourceLocators.v ===== *)
(** * Source locators

    rag/types.py: a locator names a half-open byte range of a published
    document together with the digests of the document, of the range and of the
    locator itself.  Citations carry locators, so what a customer is shown can
    be checked against the document byte by byte.

    Both versions of the schema share the range arithmetic and the digests; they
    differ in the fields that enter the locator digest.  The range is modelled
    once, over the other identity fields. *)
From Stdlib Require Import Ascii.
From S2P Require Import Prelude PyValue Sha256 CanonicalJson PyText.
Local Open Scope string_scope.
Local Open Scope list_scope.
Local Open Scope Z_scope.

(** ** JSON in ASCII

    [json.dumps(..., sort_keys=True, separators=(",", ":"))]: as [dumps], with
    every code point outside ASCII written in [\uXXXX] escapes. *)
Definition byte_at (n : nat) (p : string) : Z :=
  match String.get n p with Some a => Z.of_nat (nat_of_ascii a) | None => 0 end.
(** The value of a UTF-8 sequence. *)
Definition point_value (p : string) : Z :=
  let tail k := Z.land (byte_at k p) 63 in
  match String.length p with
  | 1%nat => byte_at 0 p
  | 2%nat => Z.land (byte_at 0 p) 31 * 64 + tail 1%nat
  | 3%nat => (Z.land (byte_at 0 p) 15 * 64 + tail 1%nat) * 64 + tail 2%nat
  | _ => ((Z.land (byte_at 0 p) 7 * 64 + tail 1%nat) * 64 + tail 2%nat) * 64 + tail 3%nat
  end.
Definition hex4 (n : Z) : string :=
  String.string_of_list_ascii
    [backslash; "u"%char; hex_digit (Z.land (Z.shiftr n 12) 15); hex_digit (Z.land (Z.shiftr n 8) 15);
     hex_digit (Z.land (Z.shiftr n 4) 15); hex_digit (Z.land n 15)].
Definition ascii_point (p : string) : string :=
  let n := point_value p in
  if n <? 128 then p
  else if n <? 65536 then hex4 n
  else let v := n - 65536 in hex4 (Z.lor 55296 (Z.land (Z.shiftr v 10) 1023)) +:+ hex4 (Z.lor 56320 (Z.land v 1023)).
Definition ascii_json (v : CanonicalValue) : string :=
  concat_points (map ascii_point (code_points (String.string_of_list_ascii (dumps v)))).
Definition json_hash (v : CanonicalValue) : string := sha256_hex (ascii_json v).

(** ** Byte ranges *)

(** [source[a:b]] for 0 <= a *)
Definition slice (source : string) (a b : Z) : string :=
  String.string_of_list_ascii (take (Z.to_nat (b - a)) (drop (Z.to_nat a) (chars source))).
Definition byte_length (s : string) : Z := Z.of_nat (String.length s).

Record span := mk_span {
  source_hash : string; byte_start : Z; byte_end : Z; span_hash : string; locator_hash : string;
}.

Section locator.
(** The class and schema names, the identity fields beside the range, and
    whether those fields satisfy their declared patterns. *)
Context (cls schema : string) (fields : list (string * CanonicalValue)) (valid : bool).

Definition identity (source_hash : string) (byte_start byte_end : Z) (span_hash : string) : CanonicalValue :=
  CObj (("locator_schema", CStr schema) :: fields
        ++ [("source_hash", CStr source_hash); ("byte_start", CInt byte_start); ("byte_end", CInt byte_end);
            ("span_hash", CStr span_hash)]).
Definition make_span (source_hash : string) (byte_start byte_end : Z) (span_hash : string) : res span :=
  raise ValidationError "fields" when negb valid ;;
  raise ValidationError "byte_start" when byte_start <? 0 ;;
  raise ValidationError "byte_end" when byte_end <=? 0 ;;
  Ok (mk_span source_hash byte_start byte_end span_hash (json_hash (identity source_hash byte_start byte_end span_hash))).

(** [build] *)
Definition build (source_bytes : string) (byte_start byte_end : Z) : res span :=
  raise ValueError (cls +:+ " requires a valid half-open byte range")
    when (byte_end <=? byte_start) || (byte_length source_bytes <? byte_end) ;;
  make_span (sha256_hex source_bytes) byte_start byte_end (sha256_hex (slice source_bytes byte_start byte_end)).

(** [resolve] *)
Definition resolve (l : span) (source_bytes : string) : res string :=
  raise ValueError "source_hash_mismatch" when sha256_hex source_bytes !=? source_hash l ;;
  let found := slice source_bytes (byte_start l) (byte_end l) in
  raise ValueError "span_hash_mismatch" when sha256_hex found !=? span_hash l ;;
  let? expected := build source_bytes (byte_start l) (byte_end l) in
  raise ValueError "locator_hash_mismatch" when locator_hash expected !=? locator_hash l ;;
  Ok found.

(** [subspan] *)
Definition subspan (l : span) (parent_span : string) (relative_start relative_end : Z) : res span :=
  raise ValueError "parent_span_hash_mismatch" when sha256_hex parent_span !=? span_hash l ;;
  raise ValueError "invalid_relative_span"
    when (relative_start <? 0) || (relative_end <=? relative_start) || (byte_length parent_span <? relative_end) ;;
  make_span (source_hash l) (byte_start l + relative_start) (byte_start l + relative_end)
    (sha256_hex (slice parent_span relative_start relative_end)).

(** ** Lemmas *)
Lemma length_chars s : length (chars s) = String.length s.
Proof. induction s as [|a s IH]; [done|]. unfold chars in *. cbn. by rewrite IH. Qed.
Lemma chars_slice source a b : chars (slice source a b) = take (Z.to_nat (b - a)) (drop (Z.to_nat a) (chars source)).
Proof. apply String.list_ascii_of_string_of_list_ascii. Qed.
Lemma slice_length source a b :
  0 <= a -> a <= b -> b <= byte_length source -> byte_length (slice source a b) = b - a.
Proof.
  intros Ha Hab Hb. unfold byte_length in *. rewrite <- length_chars in *. rewrite chars_slice, length_take, length_drop. lia.
Qed.
(** A range of a range is a range of the source. *)
Lemma slice_slice source a b r1 r2 :
  0 <= a -> 0 <= r1 -> r1 <= r2 -> r2 <= b - a ->
  slice (slice source a b) r1 r2 = slice source (a + r1) (a + r2).
Proof.
  intros Ha Hr1 Hr Hr2. unfold slice at 1 3. rewrite chars_slice. f_equal.
  rewrite skipn_firstn_comm, take_take, drop_drop. f_equal; [lia|]. f_equal. lia.
Qed.

Lemma build_ok source a b l :
  build source a b = Ok l ->
  l = mk_span (sha256_hex source) a b (sha256_hex (slice source a b))
        (json_hash (identity (sha256_hex source) a b (sha256_hex (slice source a b)))) /\
  0 <= a /\ a < b /\ b <= byte_length source /\ valid = true.
Proof.
  unfold build, make_span. intros Hb. steps_ok Hb. injection Hb as <-. apply orb_false_iff in Hguard as [G1 G2].
  rewrite Z.leb_gt in *. rewrite Z.ltb_ge in *. by destruct valid; split_and!.
Qed.
Lemma resolve_ok l source found :
  resolve l source = Ok found ->
  sha256_hex source = source_hash l /\ found = slice source (byte_start l) (byte_end l) /\
  build source (byte_start l) (byte_end l) = Ok l.
Proof.
  unfold resolve. intros Hr. steps_ok Hr. injection Hr as <-. rewrite neqb_false in *.
  split_and!; [done|done|]. pose proof Hstep as (-> & _)%build_ok. rewrite Hstep. f_equal.
  destruct l as [sh a b ph lh]. cbn in *. congruence.
Qed.
Lemma resolve_build l source :
  build source (byte_start l) (byte_end l) = Ok l -> resolve l source = Ok (slice source (byte_start l) (byte_end l)).
Proof.
  intros Hb. pose proof Hb as (El & _)%build_ok. unfold resolve. rewrite Hb.
  rewrite raise_if_false by (rewrite neqb_false, El; done). rewrite raise_if_false by (rewrite neqb_false, El; done).
  cbn [res_bind]. by rewrite raise_if_false by by rewrite neqb_false.
Qed.
Lemma subspan_build l source r1 r2 l' :
  build source (byte_start l) (byte_end l) = Ok l ->
  subspan l (slice source (byte_start l) (byte_end l)) r1 r2 = Ok l' ->
  byte_start l' = byte_start l + r1 /\ byte_end l' = byte_start l + r2 /\ build source (byte_start l') (byte_end l') = Ok l' /\
  0 <= r1 /\ r1 < r2 /\ r2 <= byte_end l - byte_start l.
Proof.
  intros Hb Hs. pose proof Hb as (El & Ha & Hab & Hle & Hv)%build_ok. unfold subspan in Hs. steps_ok Hs.
  apply orb_false_iff in Hguard0 as [[G1 G2]%orb_false_iff G3]. rewrite Z.ltb_ge in G1, G3. rewrite Z.leb_gt in G2.
  rewrite slice_length in G3 by lia. unfold make_span in Hs. steps_ok Hs. injection Hs as <-. cbn.
  rewrite slice_slice by lia. split_and!; [done|done| |lia..]. unfold build.
  rewrite raise_if_false by (apply orb_false_iff; rewrite Z.leb_gt, Z.ltb_ge; lia).
  unfold make_span. rewrite raise_if_false by by rewrite Hv. rewrite raise_if_false, raise_if_false by (rewrite ?Z.ltb_ge, ?Z.leb_gt; lia).
  by rewrite El.
Qed.

(** A locator resolves against one document only. *)
Lemma resolve_binds l source source' x x' :
  resolve l source = Ok x -> resolve l source' = Ok x' -> (source = source' /\ x = x') \/ sha256_collision source source'.
Proof.
  intros (H1 & -> & _)%resolve_ok (H2 & -> & _)%resolve_ok. rewrite <- H2 in H1.
  destruct (sha256_eq_or_collision _ _ H1) as [->|Hc]; [by left|by right].
Qed.
End locator.

(** ** The two schemas *)
Record SourceLocatorV1 := mk_locator_v1 { l1_document_id : string; l1_version : string; l1_span : span }.
Record SourceLocatorV2 := mk_locator_v2 {
  l2_document_key : string; l2_document_internal_id : string; l2_document_version : string; l2_corpus_snapshot_id : string;
  l2_index_version : string; l2_canonicalization_version : string; l2_section_path : string; l2_chunker_fingerprint : string;
  l2_embedding_fingerprint : string; l2_span : span;
}.
Definition v1_fields (l : SourceLocatorV1) : list (string * CanonicalValue) :=
  [("document_id", CStr (l1_document_id l)); ("version", CStr (l1_version l))].
Definition v2_fields (l : SourceLocatorV2) : list (string * CanonicalValue) :=
  [("document_key", CStr (l2_document_key l)); ("document_internal_id", CStr (l2_document_internal_id l));
   ("document_version", CStr (l2_document_version l)); ("corpus_snapshot_id", CStr (l2_corpus_snapshot_id l));
   ("index_version", CStr (l2_index_version l)); ("canonicalization_version", CStr (l2_canonicalization_version l));
   ("section_path", CStr (l2_section_path l)); ("chunker_fingerprint", CStr (l2_chunker_fingerprint l));
   ("embedding_fingerprint", CStr (l2_embedding_fingerprint l))].
Definition with_span_v1 (l : SourceLocatorV1) (s : span) : SourceLocatorV1 := mk_locator_v1 (l1_document_id l) (l1_version l) s.
Definition with_span_v2 (l : SourceLocatorV2) (s : span) : SourceLocatorV2 :=
  mk_locator_v2 (l2_document_key l) (l2_document_internal_id l) (l2_document_version l) (l2_corpus_snapshot_id l)
    (l2_index_version l) (l2_canonicalization_version l) (l2_section_path l) (l2_chunker_fingerprint l)
    (l2_embedding_fingerprint l) s.

(** [SourceLocatorV1 | SourceLocatorV2] and its three operations. *)
Inductive SourceLocator := V1 (l : SourceLocatorV1) | V2 (l : SourceLocatorV2).
Definition locator_span (l : SourceLocator) : span := match l with V1 l => l1_span l | V2 l => l2_span l end.
Definition locator_class (l : SourceLocator) : string := match l with V1 _ => "SourceLocatorV1" | V2 _ => "SourceLocatorV2" end.
Definition locator_schema (l : SourceLocator) : string := match l with V1 _ => "source-locator.v1" | V2 _ => "source-locator.v2" end.
Definition locator_fields (l : SourceLocator) : list (string * CanonicalValue) :=
  match l with V1 l => v1_fields l | V2 l => v2_fields l end.
(** The two fingerprints of the second schema match [^[0-9a-f]{64}$]. *)
Definition fields_valid (l : SourceLocator) : bool :=
  match l with V1 _ => true | V2 l => is_sha256_hex (l2_chunker_fingerprint l) && is_sha256_hex (l2_embedding_fingerprint l) end.
Definition with_span (l : SourceLocator) (s : span) : SourceLocator :=
  match l with V1 l => V1 (with_span_v1 l s) | V2 l => V2 (with_span_v2 l s) end.
Definition build_locator (template : SourceLocator) (source_bytes : string) (byte_start byte_end : Z) : res SourceLocator :=
  let? s := build (locator_class template) (locator_schema template) (locator_fields template) (fields_valid template) source_bytes byte_start byte_end in
  Ok (with_span template s).
Definition resolve_locator (l : SourceLocator) (source_bytes : string) : res string :=
  resolve (locator_class l) (locator_schema l) (locator_fields l) (fields_valid l) (locator_span l) source_bytes.
Definition subspan_locator (l : SourceLocator) (parent_span : string) (relative_start relative_end : Z) : res SourceLocator :=
  let? s := subspan (locator_schema l) (locator_fields l) (fields_valid l) (locator_span l) parent_span relative_start relative_end in
  Ok (with_span l s).

Lemma with_span_fields l s :
  locator_fields (with_span l s) = locator_fields l /\ locator_schema (with_span l s) = locator_schema l /\
  locator_span (with_span l s) = s /\ locator_class (with_span l s) = locator_class l /\ fields_valid (with_span l s) = fields_valid l.
Proof. by destruct l. Qed.

(** A locator always leads back to its bytes.  Whatever range of a
    document a locator is built for, resolving it against the document returns
    exactly those bytes, in both schemas; a part cut out of the located bytes
    resolves to that part of the document; and the same locator resolves
    against no other document, unless the two documents are a SHA-256
    collision. *)
Theorem locator_resolves (template l : SourceLocator) (source : string) (a b : Z) :
  build_locator template source a b = Ok l ->
  resolve_locator l source = Ok (slice source a b) /\
  (forall r1 r2 l', subspan_locator l (slice source a b) r1 r2 = Ok l' ->
     resolve_locator l' source = Ok (slice source (a + r1) (a + r2)) /\ a <= a + r1 /\ a + r1 < a + r2 /\ a + r2 <= b) /\
  (forall source' x, resolve_locator l source' = Ok x -> source' = source \/ sha256_collision source source').
Proof.
  unfold build_locator, resolve_locator, subspan_locator. intros Hb. apply res_bind_ok in Hb as (s & Hb & Hl). injection Hl as <-.
  destruct (with_span_fields template s) as (-> & -> & -> & -> & ->). pose proof Hb as (Es & _)%build_ok.
  assert (byte_start s = a /\ byte_end s = b) as [Ea Eb] by by rewrite Es. rewrite <- Ea, <- Eb in Hb.
  pose proof (resolve_build _ _ _ _ _ _ Hb) as Hr. rewrite Ea, Eb in Hr. split_and!; [done| |].
  - intros r1 r2 l' Hs. apply res_bind_ok in Hs as (s' & Hs & Hl'). injection Hl' as <-.
    rewrite <- Ea, <- Eb in Hs. destruct (subspan_build _ _ _ _ _ _ _ _ _ Hb Hs) as (E1 & E2 & Hb' & ? & ? & ?).
    destruct (with_span_fields (with_span template s) s') as (-> & -> & -> & -> & ->).
    destruct (with_span_fields template s) as (-> & -> & _ & -> & ->).
    apply resolve_build in Hb'. rewrite Hb', E1, E2, Ea in *. split; [done|lia].
  - intros source' x Hx. destruct (resolve_binds _ _ _ _ _ _ _ _ _ Hr Hx) as [[-> _]|Hc]; [by left|by right].
Qed.
Definition demo_template : SourceLocator := V1 (mk_locator_v1 "doc" "1.0" (mk_span "" 0 0 "" "")).
Definition demo_source : string := "退款 within 30 days".
Lemma locator_resolves_witness :
  exists l, build_locator demo_template demo_source 7 13 = Ok l /\ resolve_locator l demo_source = Ok "within".
Proof.
  destruct (build_locator demo_template demo_source 7 13) as [l|e] eqn:E; [|exfalso; vm_compute in E; discriminate].
  exists l. split; [reflexivity|]. destruct (locator_resolves demo_template l demo_source 7 13 E) as [H _]. exact H.
Defined.
Example escaped_json :
  let q := String quote_char "" in
  ascii_json (CList [CInt 1; CStr "退😀"]) = "[1," +:+ q +:+ "\u9000\ud83d\ude00" +:+ q +:+ "]".
Proof. vm_compute. reflexivity. Qed.
