(* ===== verification/Retrieval.v ===== *)
(** * Retrieval: fusion, eligibility, temporal selection and evidence

    The deterministic part of the retrieval pipeline: rag/ranking.py fuses the
    two result lists, rag/eligibility.py decides what a chunk may support,
    rag/temporal.py fixes the time a question is asked about and
    rag/evidence.py selects the evidence.

    Python floats are IEEE binary64 numbers, computed with the [SpecFloat]
    specification.  [sum] of floats depends on the interpreter (3.12 added a
    compensation), so it is a parameter.  Timestamps are aware, in microseconds
    since the epoch. *)
From Stdlib Require Import Ascii SpecFloat.
From S2P Require Import Prelude PyValue Sha256 CanonicalJson Timestamps PyText Floats SourceLocators.
Local Open Scope string_scope.
Local Open Scope list_scope.
Local Open Scope Z_scope.

Class FloatSum := { fsum : list float -> float }.

(** ** Chunks *)
Record ParsedChunk := mk_chunk {
  chunk_id : string; document_id : string; document_type : string; ch_title : string; section_path : string; sequence : Z;
  ch_content : string; token_count : Z;
  content_hash : string; ch_version : string; ch_status : string; effective_at : Z; effective_until : option Z;
  document_family_key : string; ch_scope_hash : string; authority_level : Z; applicable_plan : option string; applicable_region : option string;
  source_locator : option SourceLocator; ch_vector_similarity : option float; ch_keyword_score : option float;
  exact_token_match : bool;
}.
Definition set_exact_token_match (v : bool) (c : ParsedChunk) : ParsedChunk :=
  mk_chunk (chunk_id c) (document_id c) (document_type c) (ch_title c) (section_path c) (sequence c) (ch_content c)
    (token_count c) (content_hash c) (ch_version c) (ch_status c) (effective_at c) (effective_until c)
    (document_family_key c) (ch_scope_hash c) (authority_level c)
    (applicable_plan c) (applicable_region c) (source_locator c) (ch_vector_similarity c) (ch_keyword_score c) v.
Record RankedChunk := mk_ranked {
  rk_chunk : ParsedChunk; vector_rank : option Z; keyword_rank : option Z; rrf_score : float; rerank_score : option float;
  rk_vector_similarity : option float; rk_keyword_score : option float; vector_contribution : float;
  keyword_contribution : float;
}.
Definition new_ranked (c : ParsedChunk) : RankedChunk := mk_ranked c None None f0 None None None f0 f0.
Definition ranked_id (r : RankedChunk) : string := chunk_id (rk_chunk r).
Definition set_rrf (v : float) (r : RankedChunk) : RankedChunk :=
  mk_ranked (rk_chunk r) (vector_rank r) (keyword_rank r) v (rerank_score r) (rk_vector_similarity r) (rk_keyword_score r)
    (vector_contribution r) (keyword_contribution r).

(** ** rag/ranking.py *)

(** [merged.setdefault(chunk.chunk_id, RankedChunk(chunk=chunk))], then the
    update of the item. *)
Fixpoint merge_item (update : RankedChunk -> RankedChunk) (c : ParsedChunk) (merged : list RankedChunk) : list RankedChunk :=
  match merged with
  | [] => [update (new_ranked c)]
  | r :: rest => if ranked_id r ==? chunk_id c then update r :: rest else r :: merge_item update c rest
  end.
Definition vector_update (k rank : Z) (c : ParsedChunk) (r : RankedChunk) : RankedChunk :=
  let contribution := truediv 1 (k + rank) in
  mk_ranked (rk_chunk r) (Some rank) (keyword_rank r) (fadd (rrf_score r) contribution) (rerank_score r)
    (ch_vector_similarity c) (rk_keyword_score r) contribution (keyword_contribution r).
Definition keyword_update (k rank : Z) (c : ParsedChunk) (r : RankedChunk) : RankedChunk :=
  let contribution := truediv 1 (k + rank) in
  let chunk := if negb (exact_token_match (rk_chunk r)) && exact_token_match c
               then set_exact_token_match (exact_token_match c) (rk_chunk r) else rk_chunk r in
  mk_ranked chunk (vector_rank r) (Some rank) (fadd (rrf_score r) contribution) (rerank_score r)
    (rk_vector_similarity r) (ch_keyword_score c) (vector_contribution r) contribution.
(** [for rank, chunk in enumerate(channel, 1)] *)
Fixpoint merge_channel (update : Z -> ParsedChunk -> RankedChunk -> RankedChunk) (rank : Z) (channel : list ParsedChunk)
    (merged : list RankedChunk) : list RankedChunk :=
  match channel with
  | [] => merged
  | c :: rest => merge_channel update (rank + 1) rest (merge_item (update rank c) c merged)
  end.

Section ranking.
Context `{FloatSum}.

(** [sum(sorted(scores, reverse=True)[:3])]: a reversed stable sort. *)
Definition coherence (merged : list RankedChunk) (document : string) : float :=
  let scores := map rrf_score (List.filter (fun r => document_id (rk_chunk r) ==? document) merged) in
  fsum (take 3 (isort (fun a b => negb (flt a b)) scores)).
(** [(-item.rrf_score, item.chunk.chunk_id)] by [<=]. *)
Definition key_lt (a b : RankedChunk) : bool :=
  if feq (fopp (rrf_score a)) (fopp (rrf_score b)) then str_ltb (ranked_id a) (ranked_id b)
  else flt (fopp (rrf_score a)) (fopp (rrf_score b)).
Definition ranked_leb (a b : RankedChunk) : bool := negb (key_lt b a).

(** The fused list before the channel heads are moved to the front. *)
Definition fused (vector keyword : list ParsedChunk) (k : Z) (weight : float) : list RankedChunk :=
  let merged := merge_channel (keyword_update k) 1 keyword (merge_channel (vector_update k) 1 vector []) in
  isort ranked_leb
    (map (fun r => set_rrf (fadd (rrf_score r) (fmul weight (coherence merged (document_id (rk_chunk r))))) r) merged).
Definition channel_heads (vector keyword : list ParsedChunk) : list string :=
  map chunk_id (take 1 vector ++ take 1 keyword).
(** [reciprocal_rank_fusion]; no caller passes a negative [k]. *)
Definition reciprocal_rank_fusion (vector keyword : list ParsedChunk) (k : Z) (document_coherence_weight : float)
    : list RankedChunk :=
  let heads := channel_heads vector keyword in
  let items := fused vector keyword k document_coherence_weight in
  List.filter (fun r => ranked_id r in? heads) items ++ List.filter (fun r => negb (ranked_id r in? heads)) items.

(** *** Lemmas *)
Lemma merge_item_ids update c m :
  (forall r, ranked_id (update r) = ranked_id r) ->
  map ranked_id (merge_item update c m) = if chunk_id c in? map ranked_id m then map ranked_id m else map ranked_id m ++ [chunk_id c].
Proof.
  intros Hu. induction m as [|r m IH]; cbn [merge_item map]; [cbn; by rewrite Hu|].
  destruct (ranked_id r ==? chunk_id c) eqn:E.
  - rewrite eqb_true in E. cbn [map]. rewrite Hu. rewrite (proj2 (mem_true _ _)) by (rewrite E; left). done.
  - rewrite eqb_false in E. cbn [map]. rewrite IH. destruct (chunk_id c in? map ranked_id m) eqn:Em.
    + rewrite mem_true in Em. by rewrite (proj2 (mem_true _ _)) by by right.
    + rewrite mem_false in Em. rewrite (proj2 (mem_false _ _)); [done|]. rewrite elem_of_cons. intros [?|?]; congruence.
Qed.
Lemma merge_channel_ids update channel rank m :
  (forall n c r, ranked_id (update n c r) = ranked_id r) -> NoDup (map ranked_id m) ->
  NoDup (map ranked_id (merge_channel update rank channel m)) /\
  forall x, x ∈ map ranked_id (merge_channel update rank channel m) <-> x ∈ map ranked_id m \/ x ∈ map chunk_id channel.
Proof.
  intros Hu. revert rank m. induction channel as [|c rest IH]; intros rank m Hn; cbn [merge_channel map].
  - split; [done|]. intros x. rewrite elem_of_nil. tauto.
  - destruct (IH (rank + 1) (merge_item (update rank c) c m)) as [IH1 IH2].
    { rewrite merge_item_ids by auto. destruct (chunk_id c in? map ranked_id m) eqn:E; [done|]. rewrite mem_false in E.
      apply NoDup_app. split_and!; [done| |apply NoDup_singleton]. intros x Hx ->%list_elem_of_singleton. done. }
    split; [done|]. intros x. rewrite IH2, merge_item_ids by auto. rewrite elem_of_cons.
    destruct (chunk_id c in? map ranked_id m) eqn:E; [rewrite mem_true in E|rewrite elem_of_app, list_elem_of_singleton];
      [|tauto]. split; [tauto|]. intros [?|[->|?]]; tauto.
Qed.
Lemma vector_update_id k rank c r : ranked_id (vector_update k rank c r) = ranked_id r.
Proof. done. Qed.
Lemma keyword_update_id k rank c r : ranked_id (keyword_update k rank c r) = ranked_id r.
Proof. unfold keyword_update, ranked_id. cbn. by case_match. Qed.

Lemma fused_ids vector keyword k weight :
  NoDup (map ranked_id (fused vector keyword k weight)) /\
  forall x, x ∈ map ranked_id (fused vector keyword k weight) <-> x ∈ map chunk_id (vector ++ keyword).
Proof.
  unfold fused. set (merged := merge_channel _ 1 keyword _).
  destruct (merge_channel_ids (vector_update k) vector 1 []) as [N1 E1]; [apply vector_update_id|constructor|].
  destruct (merge_channel_ids (keyword_update k) keyword 1 _ (keyword_update_id k) N1) as [N2 E2]. fold merged in N2, E2.
  set (bumped := map _ merged). assert (map ranked_id bumped = map ranked_id merged) as Eb
    by (unfold bumped; rewrite map_map; by apply map_ext).
  assert (map ranked_id (isort ranked_leb bumped) ≡ₚ map ranked_id merged) as Hp
    by (rewrite <- Eb; apply Permutation_map, isort_perm).
  split; [by rewrite Hp|]. intros x. rewrite Hp, E2, E1, map_app, elem_of_app. cbn. rewrite elem_of_nil. tauto.
Qed.

Lemma SFcompare_antisym a b : SFcompare a b = CompOpp <$> SFcompare b a.
Proof.
  destruct a as [sa|sa| |sa ma ea], b as [sb|sb| |sb mb eb]; cbn; try done; try (by destruct sa); try (by destruct sb);
    try (by destruct sa, sb).
  destruct sa, sb; cbn; try done; rewrite (Z.compare_antisym ea eb); destruct (Z.compare ea eb); cbn; try done;
    change (Pos.compare_cont Eq ?x ?y) with (Pos.compare x y); rewrite (Pos.compare_antisym ma mb);
    by destruct (Pos.compare ma mb).
Qed.
Lemma flt_asym a b : flt a b = true -> flt b a = false.
Proof. unfold flt, SFltb. rewrite (SFcompare_antisym a b). destruct (SFcompare b a) as [[]|]; done. Qed.
Lemma feq_sym a b : feq a b = feq b a.
Proof. unfold feq, SFeqb. rewrite (SFcompare_antisym a b). destruct (SFcompare b a) as [[]|]; done. Qed.
Lemma ranked_leb_total a b : ranked_leb a b = false -> ranked_leb b a = true.
Proof.
  unfold ranked_leb. rewrite negb_false_iff, negb_true_iff. unfold key_lt. rewrite (feq_sym (fopp (rrf_score a))).
  destruct (feq _ _).
  - intros E. destruct (str_ltb (ranked_id a) (ranked_id b)) eqn:E'; [|done].
    pose proof (str_ltb_trans _ _ _ E E') as Hbad. by rewrite str_ltb_irrefl in Hbad.
  - apply flt_asym.
Qed.

(** Fusion loses nothing, invents nothing and keeps the best of both
    channels in front.  The chunks of the result are exactly those of the two
    channels, each once; no neighbour pair of the fused order is out of order by
    score and identifier; and the result is that order with the first chunk of
    each channel, at most two, moved to the front. *)
Theorem fusion_exact (vector keyword : list ParsedChunk) (k : Z) (weight : float) :
  let result := reciprocal_rank_fusion vector keyword k weight in
  let order := fused vector keyword k weight in
  NoDup (map ranked_id result) /\
  (forall x, x ∈ map ranked_id result <-> x ∈ map chunk_id (vector ++ keyword)) /\
  Sorted (fun a b => ranked_leb a b = true) order /\
  exists heads rest, result = heads ++ rest /\ heads ++ rest ≡ₚ order /\ heads `sublist_of` order /\ rest `sublist_of` order /\
    (length heads <= 2)%nat /\
    (forall r, r ∈ result -> r ∈ heads <-> ranked_id r ∈ channel_heads vector keyword).
Proof.
  intros result order. destruct (fused_ids vector keyword k weight) as [N E]. fold order in N, E.
  set (front := List.filter (fun r => ranked_id r in? channel_heads vector keyword) order).
  set (back := List.filter (fun r => negb (ranked_id r in? channel_heads vector keyword)) order).
  assert (result = front ++ back) as -> by done.
  assert (forall f (l : list RankedChunk), List.filter f l ++ List.filter (fun r => negb (f r)) l ≡ₚ l) as Hsplit.
  { intros f l. induction l as [|x l IH]; [done|]. cbn. destruct (f x); cbn [negb app]; [by rewrite IH|].
    by rewrite <- Permutation_middle, IH. }
  assert (front ++ back ≡ₚ order) as Hp by apply Hsplit.
  assert (forall f (l : list RankedChunk), List.filter f l `sublist_of` l) as Hsub.
  { intros f l. induction l as [|x l IH]; [constructor|]. cbn. destruct (f x); by constructor. }
  assert (map ranked_id (front ++ back) ≡ₚ map ranked_id order) as Hpi by by apply Permutation_map.
  split_and!; [by rewrite Hpi|intros x; by rewrite Hpi|apply isort_neighbours, ranked_leb_total|].
  exists front, back. split_and!; [done|done|apply Hsub|apply Hsub| |].
  - assert (NoDup (map ranked_id front)) as Nf.
    { eapply sublist_NoDup; [exact N|]. apply fmap_sublist. apply Hsub. }
    rewrite <- (length_map ranked_id front).
    transitivity (length (channel_heads vector keyword)).
    + apply submseteq_length, NoDup_submseteq; [done|]. intros x (r & -> & Hr)%list_elem_of_fmap.
      apply list_elem_of_In, filter_In in Hr as [_ Hr]. by apply mem_true.
    + unfold channel_heads. rewrite length_map, length_app, !length_take. lia.
  - intros r Hr. split.
    + intros [_ Hin]%list_elem_of_In%filter_In. by apply mem_true.
    + intros Hin. apply list_elem_of_In, filter_In. split; [|by apply mem_true]. apply list_elem_of_In. by rewrite <- Hp.
Qed.
End ranking.

(** ** rag/eligibility.py *)
Record EvidenceEligibilityConfig := mk_eligibility_config {
  minimum_authority : Z; cross_channel_vector_floor : float; vector_only_floor : float;
}.
Definition FROZEN_ELIGIBILITY_CONFIG : EvidenceEligibilityConfig := mk_eligibility_config 50 (dec 55 100) (dec 72 100).
Record EvidenceEligibilityInput := mk_eligibility_input {
  retrieval_intent : string; el_status : string; el_authority : Z; scope_match : bool; time_match : bool;
  unresolved_conflict : bool; missing_required_scope : bool; el_exact_token_match : bool; structured_field_match : bool;
  el_vector_similarity : float; keyword_channel_match : bool;
}.
Record EvidenceEligibilityDecision := mk_eligibility { el_outcome : string; el_reason_code : string }.

Definition absolute_support (item : EvidenceEligibilityInput) (config : EvidenceEligibilityConfig) : bool :=
  let cross_channel := keyword_channel_match item && fle (cross_channel_vector_floor config) (el_vector_similarity item) in
  el_exact_token_match item || structured_field_match item || cross_channel
  || fle (vector_only_floor config) (el_vector_similarity item).
(** [decide_evidence_eligibility] *)
Definition decide_evidence_eligibility (item : EvidenceEligibilityInput) (config : EvidenceEligibilityConfig)
    : EvidenceEligibilityDecision :=
  if missing_required_scope item then mk_eligibility "clarify" "missing_scope" else
  if negb (scope_match item) then mk_eligibility "abstain" "scope_mismatch" else
  if negb (time_match item) then mk_eligibility "abstain" "time_mismatch" else
  if el_authority item <? minimum_authority config then mk_eligibility "background_only" "low_authority" else
  if unresolved_conflict item then mk_eligibility "clarify" "unresolved_conflict" else
  if (retrieval_intent item ==? "current") && (el_status item !=? "active") then mk_eligibility "abstain" "not_current" else
  if negb (absolute_support item config) then mk_eligibility "abstain" "insufficient_relevance" else
  mk_eligibility "eligible" "supported".

(** A chunk is eligible exactly when nothing speaks against it. *)
Theorem eligible_iff item config :
  el_outcome (decide_evidence_eligibility item config) = "eligible" <->
  missing_required_scope item = false /\ scope_match item = true /\ time_match item = true /\
  minimum_authority config <= el_authority item /\ unresolved_conflict item = false /\
  (retrieval_intent item = "current" -> el_status item = "active") /\ absolute_support item config = true.
Proof.
  unfold decide_evidence_eligibility. split.
  - destruct (missing_required_scope item); [done|]. destruct (scope_match item); [|done]. destruct (time_match item); [|done].
    cbn [negb]. destruct (Z.ltb_spec (el_authority item) (minimum_authority config)); [done|].
    destruct (unresolved_conflict item); [done|].
    destruct (retrieval_intent item ==? "current") eqn:E1; cbn [andb].
    + destruct (el_status item !=? "active") eqn:E2; [done|]. rewrite neqb_false in E2.
      destruct (absolute_support item config); [|done]. by intros _.
    + rewrite eqb_false in E1. destruct (absolute_support item config); [|done]. by intros _.
  - intros (-> & -> & -> & Ha & -> & Hs & ->). cbn [negb]. rewrite (proj2 (Z.ltb_ge _ _)) by done.
    destruct (retrieval_intent item ==? "current") eqn:E1; [|done]. rewrite eqb_true in E1.
    rewrite (Hs E1). done.
Qed.

(** ** rag/evidence.py *)
Record KnowledgeCitation := mk_citation {
  kc_document_id : string; kc_chunk_id : string; kc_title : string; kc_section_path : string; kc_version : string;
  kc_effective_at : Z; kc_excerpt : string; kc_content_hash : string; kc_source_locator : option SourceLocator;
}.
Record EvidenceSet := mk_evidence {
  es_chunks : list RankedChunk; es_citations : list KnowledgeCitation; es_conflict : bool; es_refusal_reason : option string;
}.
Record selection := mk_selection {
  sl_plan : option string; sl_region : option string; sl_token_budget : Z; sl_max_items : Z; sl_now : Z;
  sl_historical : bool; sl_version_scoped : bool;
}.

(** The candidates are objects the caller keeps; what the selection writes into
    them, [omission_reason], is a log over their positions. *)
Definition positioned : Type := nat * RankedChunk.
Definition omission : Type := nat * string.
Definition chunk_of (x : positioned) : ParsedChunk := rk_chunk x.2.

Definition applies (applicable wanted : option string) : bool := applicable in? [None; wanted].
Definition eligible_chunk (q : selection) (c : ParsedChunk) : bool :=
  isSome (source_locator c)
  && ((ch_status c ==? "active") || (sl_historical q && (ch_status c ==? "deprecated")))
  && (sl_version_scoped q
      || ((effective_at c <=? sl_now q) && match effective_until c with None => true | Some u => sl_now q <? u end))
  && applies (applicable_plan c) (sl_plan q) && applies (applicable_region c) (sl_region q).

(** The scope of a chunk and how specific it is. *)
Definition scope_of (c : ParsedChunk) : option string * option string := (applicable_plan c, applicable_region c).
Definition specificity (c : ParsedChunk) : Z := Z.b2z (isSome (applicable_plan c)) + Z.b2z (isSome (applicable_region c)).
Definition highest (items : list positioned) : Z := fold_right Z.max 0 (map (fun x => specificity (chunk_of x)) items).
Definition winning_scopes (items : list positioned) : list (option string * option string) :=
  fromkeys (map (fun x => scope_of (chunk_of x)) (List.filter (fun x => specificity (chunk_of x) =? highest items) items)).

(** One family after the other; [None] when a family's scope is ambiguous. *)
Fixpoint scope_families (families : list string) (eligible scoped : list positioned) (log : list omission)
    : option (list positioned) * list omission :=
  match families with
  | [] => (Some scoped, log)
  | family :: rest =>
      let items := List.filter (fun x => document_family_key (chunk_of x) ==? family) eligible in
      match winning_scopes items with
      | [winning_scope] =>
          scope_families rest eligible
            (scoped ++ List.filter (fun x => scope_of (chunk_of x) ==? winning_scope) items)
            (log ++ map (fun x => (x.1, "less_specific_scope"))
                      (List.filter (fun x => negb (scope_of (chunk_of x) ==? winning_scope)) items))
      | _ => (None, log ++ map (fun x => (x.1, "scope_specificity_ambiguous")) items)
      end
  end.

(** The sort key, compared as Python compares tuples. *)
Definition evidence_score (r : RankedChunk) : float := fopp (default (rrf_score r) (rerank_score r)).
Definition evidence_lt (a b : positioned) : bool :=
  let ta := truediv (effective_at (chunk_of a)) 1000000 in
  let tb := truediv (effective_at (chunk_of b)) 1000000 in
  if negb (feq (evidence_score a.2) (evidence_score b.2)) then flt (evidence_score a.2) (evidence_score b.2)
  else if negb (authority_level (chunk_of a) =? authority_level (chunk_of b))
  then - authority_level (chunk_of a) <? - authority_level (chunk_of b)
  else flt (fopp ta) (fopp tb).
Definition sort_evidence (l : list positioned) : list positioned := isort (fun a b => negb (evidence_lt b a)) l.

(** Versions that disagree within one section. *)
Definition section_conflict (items : list positioned) : bool :=
  existsb (fun x => existsb (fun y =>
    (document_id (chunk_of x) ==? document_id (chunk_of y)) && (section_path (chunk_of x) ==? section_path (chunk_of y))
    && (ch_version (chunk_of x) !=? ch_version (chunk_of y))) items) items.

(** The greedy choice under the limits. *)
Fixpoint choose (q : selection) (items selected : list positioned) (used : Z) (log : list omission)
    : list positioned * list omission :=
  match items with
  | [] => (selected, log)
  | x :: rest =>
      if content_hash (chunk_of x) in? map (fun y => content_hash (chunk_of y)) selected
      then choose q rest selected used (log ++ [(x.1, "duplicate_content_hash")])
      else if negb (is_nil selected) && (sl_token_budget q <? used + token_count (chunk_of x))
      then choose q rest selected used (log ++ [(x.1, "evidence_token_budget_exceeded")])
      else if sl_max_items q <=? Z.of_nat (length selected)
      then choose q rest selected used (log ++ [(x.1, "evidence_item_limit_reached")])
      else choose q rest (selected ++ [x]) (used + token_count (chunk_of x)) log
  end.

Definition cite (r : RankedChunk) : KnowledgeCitation :=
  let c := rk_chunk r in
  mk_citation (document_id c) (chunk_id c) (ch_title c) (section_path c) (ch_version c) (effective_at c)
    (py_take 240 (ch_content c)) (content_hash c) (source_locator c).

(** [select_evidence] *)
Definition select_evidence (q : selection) (candidates : list RankedChunk) : EvidenceSet * list omission :=
  let eligible := List.filter (fun x => eligible_chunk q (chunk_of x)) (imap pair candidates) in
  let families := fromkeys (map (fun x => document_family_key (chunk_of x)) eligible) in
  match scope_families families eligible [] [] with
  | (None, log) => (mk_evidence [] [] true (Some "historical_interval_ambiguous"), log)
  | (Some scoped, log) =>
      let sorted := sort_evidence scoped in
      let conflict := section_conflict sorted in
      let '(selected, log) := choose q sorted [] 0 log in
      if is_nil selected then (mk_evidence [] [] false (Some "insufficient_current_evidence"), log)
      else (mk_evidence (map snd selected) (map (fun x => cite x.2) selected) conflict
              (if conflict then Some "conflicting_current_evidence" else None), log)
  end.

(** *** Lemmas *)
Definition total_tokens (l : list positioned) : Z := fold_right Z.add 0 (map (fun x => token_count (chunk_of x)) l).
Lemma total_tokens_snoc l x : total_tokens (l ++ [x]) = total_tokens l + token_count (chunk_of x).
Proof. unfold total_tokens. induction l as [|y l IH]; cbn in *; lia. Qed.

(** What the greedy choice maintains. *)
Record chosen (q : selection) (selected : list positioned) (used : Z) : Prop := {
  cn_used : used = total_tokens selected;
  cn_limit : Z.of_nat (length selected) <= Z.max 0 (sl_max_items q);
  cn_hashes : NoDup (map (fun x => content_hash (chunk_of x)) selected);
  cn_budget : (length selected <= 1)%nat \/ used <= sl_token_budget q;
}.
Lemma choose_ok q items selected used log out log' :
  chosen q selected used -> choose q items selected used log = (out, log') ->
  chosen q out (total_tokens out) /\ forall x, x ∈ out -> x ∈ selected \/ x ∈ items.
Proof.
  revert selected used log. induction items as [|x rest IH]; intros selected used log Hc; cbn [choose].
  - intros E. injection E as <- <-. destruct Hc as [-> ? ? ?]. split; [done|]. by left.
  - assert (forall y, y ∈ selected \/ y ∈ rest -> y ∈ selected \/ y ∈ x :: rest) as Hw
      by (intros y [?|?]; [by left|by right; right]).
    destruct (content_hash (chunk_of x) in? _) eqn:Eh; [intros E; apply IH in E as [? Hin]; [|done]; split; [done|by intros y ?%Hin%Hw]|].
    destruct (negb (is_nil selected) && _) eqn:Eb; [intros E; apply IH in E as [? Hin]; [|done]; split; [done|by intros y ?%Hin%Hw]|].
    destruct (Z.leb_spec (sl_max_items q) (Z.of_nat (length selected)));
      [intros E; apply IH in E as [? Hin]; [|done]; split; [done|by intros y ?%Hin%Hw]|].
    intros E. apply IH in E as [? Hin].
    + split; [done|]. intros y Hy. destruct (Hin y Hy) as [[Hs| ->%list_elem_of_singleton]%elem_of_app|Hr]; [by left|right; left|right; by right].
    + rewrite mem_false in Eh. destruct Hc as [-> Hl Hn Hb]. split.
      * by rewrite total_tokens_snoc.
      * rewrite length_app. cbn. lia.
      * rewrite map_app. apply NoDup_app. split_and!; [done| |apply NoDup_singleton].
        intros h Hh ->%list_elem_of_singleton. done.
      * destruct selected as [|y selected]; [left; cbn; lia|right]. cbn [is_nil negb andb] in Eb. by apply Z.ltb_ge in Eb.
Qed.

(** [x] holds the winning scope of its family. *)
Definition wins (eligible : list positioned) (x : positioned) : Prop :=
  forall y, y ∈ eligible -> document_family_key (chunk_of y) = document_family_key (chunk_of x) ->
    specificity (chunk_of y) <= specificity (chunk_of x) /\
    (specificity (chunk_of y) = specificity (chunk_of x) -> scope_of (chunk_of y) = scope_of (chunk_of x)).
Lemma specificity_le_highest items x : x ∈ items -> specificity (chunk_of x) <= highest items.
Proof.
  unfold highest. induction items as [|y items IH]; [by intros ?%elem_of_nil|].
  intros [->|Hx]%elem_of_cons; cbn; [lia|]. specialize (IH Hx). lia.
Qed.
Lemma specificity_scope c d : scope_of c = scope_of d -> specificity c = specificity d.
Proof. unfold scope_of, specificity. intros E. by injection E as -> ->. Qed.
Lemma winner_wins eligible family w x :
  let items := List.filter (fun y => document_family_key (chunk_of y) ==? family) eligible in
  winning_scopes items = [w] -> x ∈ items -> scope_of (chunk_of x) = w -> x ∈ eligible /\ wins eligible x.
Proof.
  intros items Hw Hx Es. assert (forall y, y ∈ items <-> y ∈ eligible /\ document_family_key (chunk_of y) = family) as Hi.
  { intros y. unfold items. rewrite list_elem_of_In, filter_In, <- list_elem_of_In, eqb_true. done. }
  pose proof Hx as [Hel Hf]%Hi. split; [done|].
  assert (forall sc, sc ∈ winning_scopes items <-> sc = w) as Hws by (intros sc; rewrite Hw, list_elem_of_singleton; done).
  assert (specificity (chunk_of x) = highest items) as Hmax.
  { assert (w ∈ winning_scopes items) as Hin by by apply Hws. unfold winning_scopes in Hin.
    rewrite elem_of_fromkeys, list_elem_of_fmap in Hin. destruct Hin as (z & Ez & Hz).
    apply list_elem_of_In, filter_In in Hz as [_ Hz%Z.eqb_eq]. rewrite <- Hz. apply specificity_scope. congruence. }
  intros y Hy Efam. assert (y ∈ items) as Hyi by (apply Hi; split; [done|congruence]). split.
  - rewrite Hmax. by apply specificity_le_highest.
  - intros E. rewrite Es. apply Hws. unfold winning_scopes. rewrite elem_of_fromkeys, list_elem_of_fmap. exists y.
    split; [done|]. apply list_elem_of_In, filter_In. split; [by apply list_elem_of_In|]. apply Z.eqb_eq. congruence.
Qed.
Lemma scope_families_ok families eligible scoped log out log' :
  (forall x, x ∈ scoped -> x ∈ eligible /\ wins eligible x) ->
  scope_families families eligible scoped log = (Some out, log') ->
  forall x, x ∈ out -> x ∈ eligible /\ wins eligible x.
Proof.
  revert scoped log. induction families as [|family rest IH]; intros scoped log Hs; cbn [scope_families].
  - intros E. by injection E as <- <-.
  - set (items := List.filter _ eligible). destruct (winning_scopes items) as [|w [|w' ws]] eqn:Ew; try done.
    intros E. eapply IH; [|exact E]. intros x [Hx|Hx]%elem_of_app; [by apply Hs|].
    apply list_elem_of_In, filter_In in Hx as [Hx%list_elem_of_In Hw]. rewrite eqb_true in Hw.
    by apply (winner_wins eligible family w).
Qed.

(** C35: the evidence a model is given is sound.  Every selected chunk is one
    of the candidates, is published with a source locator, is in force at the
    time asked about (unless a version was named) and applies to the customer's
    plan and region; within its document family it has the single most specific
    applicable scope; contents are distinct and their number respects the
    limit; their tokens respect the budget, except that a single chunk is
    returned even if it exceeds the budget alone; and each chunk is cited, in
    order, with its locator. *)
Theorem evidence_sound (q : selection) (candidates : list RankedChunk) es log :
  select_evidence q candidates = (es, log) ->
  Z.of_nat (length (es_chunks es)) <= Z.max 0 (sl_max_items q) /\
  NoDup (map (fun r => content_hash (rk_chunk r)) (es_chunks es)) /\
  ((length (es_chunks es) <= 1)%nat \/
   fold_right Z.add 0 (map (fun r => token_count (rk_chunk r)) (es_chunks es)) <= sl_token_budget q) /\
  es_citations es = map cite (es_chunks es) /\
  forall r, r ∈ es_chunks es ->
    r ∈ candidates /\ eligible_chunk q (rk_chunk r) = true /\
    forall r', r' ∈ candidates -> eligible_chunk q (rk_chunk r') = true ->
      document_family_key (rk_chunk r') = document_family_key (rk_chunk r) ->
      specificity (rk_chunk r') <= specificity (rk_chunk r) /\
      (specificity (rk_chunk r') = specificity (rk_chunk r) -> scope_of (rk_chunk r') = scope_of (rk_chunk r)).
Proof.
  unfold select_evidence. set (eligible := List.filter (fun x => eligible_chunk q (chunk_of x)) (imap pair candidates)).
  assert (forall x, x ∈ eligible <-> x ∈ imap pair candidates /\ eligible_chunk q (chunk_of x) = true) as Hel
    by (intros x; unfold eligible; rewrite list_elem_of_In, filter_In, <- list_elem_of_In; done).
  assert (forall c r reason, mk_evidence [] [] c reason = r -> Z.of_nat (length (es_chunks r)) <= Z.max 0 (sl_max_items q) /\
    NoDup (map (fun r => content_hash (rk_chunk r)) (es_chunks r)) /\
    ((length (es_chunks r) <= 1)%nat \/ fold_right Z.add 0 (map (fun r => token_count (rk_chunk r)) (es_chunks r)) <= sl_token_budget q) /\
    es_citations r = map cite (es_chunks r) /\ es_chunks r = []) as Hempty.
  { intros c r reason <-. cbn. split_and!; [lia|constructor|left; lia|done|done]. }
  destruct (scope_families _ eligible [] []) as [[scoped|] log0] eqn:Es.
  2:{ intros E. injection E as E _. destruct (Hempty _ _ _ E) as (? & ? & ? & ? & Hnil). split_and!; [done..|].
      rewrite Hnil. by intros r ?%elem_of_nil. }
  destruct (choose q (sort_evidence scoped) [] 0 log0) as [selected log1] eqn:Ec.
  destruct (is_nil selected).
  { intros E. injection E as E _. destruct (Hempty _ _ _ E) as (? & ? & ? & ? & Hnil). split_and!; [done..|].
      rewrite Hnil. by intros r ?%elem_of_nil. }
  intros E. injection E as <- _. cbn [es_chunks es_citations].
  apply choose_ok in Ec as [[_ Hl Hn Hb] Hin]; [|split; cbn; [done|lia|constructor|left; lia]].
  rewrite !map_map, length_map. split_and!; [done|done|done|done|].
  intros r (x & -> & Hx)%list_elem_of_fmap. apply Hin in Hx as [Hx%elem_of_nil|Hx]; [done|].
  unfold sort_evidence in Hx. rewrite elem_of_isort in Hx.
  destruct (scope_families_ok _ _ _ _ _ _ ltac:(by intros y ?%elem_of_nil) Es x Hx) as [Hx1 Hw].
  pose proof Hx1 as [Hi He]%Hel. split_and!; [|exact He|].
  - apply elem_of_lookup_imap_1 in Hi as (i & y & -> & Hy). cbn. by apply list_elem_of_lookup_2 in Hy.
  - intros r' (i & Hr')%list_elem_of_lookup_1 He' Ef. apply (Hw (i, r')); [|exact Ef]. apply Hel. split; [|exact He'].
    by apply elem_of_lookup_imap_2.
Qed.

(** ** rag/temporal.py *)

(** [_utc] *)
Definition _utc (value : datetime) : res datetime :=
  raise ValueError "temporal timestamps must include a timezone" when is_naive value ;;
  raise OverflowError "date value out of range" when negb (in_range (instant value)) ;;
  Ok (utc (instant value)).
(** [applicability_scope_hash] *)
Definition scope_text (o : option string) : CanonicalValue := match o with Some s => CStr s | None => CNull end.
Definition applicability_scope_hash (plan region : option string) : string :=
  json_hash (CObj [("schema_version", CStr "applicability-scope.v1"); ("plan", scope_text plan); ("region", scope_text region)]).

Inductive TemporalSelector : Type :=
| CurrentSelector (claim_effective_time : datetime)
| AsOfSelector (explicit_as_of claim_effective_time : datetime)
| VersionSelector (historical_version : string)
| VersionAsOfSelector (historical_version : string) (explicit_as_of claim_effective_time : datetime).
(** The validators of the four models. *)
Definition exact_claim_time (explicit_as_of claim_effective_time : datetime) : res unit :=
  let? a := _utc explicit_as_of in
  let? b := _utc claim_effective_time in
  raise ValueError "as_of claim time must equal explicit_as_of" when negb (instant a =? instant b) ;;
  Ok tt.
Definition validate_selector (s : TemporalSelector) : res TemporalSelector :=
  match s with
  | CurrentSelector _ => Ok s
  | AsOfSelector e c => let? _ := exact_claim_time e c in Ok s
  | VersionSelector v => raise ValidationError "historical_version" when is_empty_str v ;; Ok s
  | VersionAsOfSelector v e c =>
      raise ValidationError "historical_version" when is_empty_str v ;;
      let? _ := exact_claim_time e c in Ok s
  end.
(** [text.removeprefix("v")] *)
Definition remove_v (s : string) : string := match s with String "v" rest => rest | _ => s end.
(** [build_temporal_selector] *)
Definition build_temporal_selector (trace_logical_time : datetime) (historical_version : option string)
    (explicit_as_of : option datetime) : res TemporalSelector :=
  let? logical_time := _utc trace_logical_time in
  let version := if truthy_opt historical_version then Some (remove_v (default "" historical_version)) else None in
  let? as_of := match explicit_as_of with Some d => let? u := _utc d in Ok (Some u) | None => Ok None end in
  match as_of with
  | Some u =>
      if truthy_opt version then validate_selector (VersionAsOfSelector (default "" version) u u)
      else validate_selector (AsOfSelector u u)
  | None =>
      if truthy_opt version then validate_selector (VersionSelector (default "" version))
      else validate_selector (CurrentSelector logical_time)
  end.

(** The time a selector's claims are about: the explicit time whenever one was
    given, otherwise the logical time of the trace, unless a version is named. *)
Definition claim_effective_time (s : TemporalSelector) : option datetime :=
  match s with
  | CurrentSelector c | AsOfSelector _ c | VersionAsOfSelector _ _ c => Some c
  | VersionSelector _ => None
  end.

Record TemporalBackfillEntry := mk_backfill {
  bf_document_id : string; bf_document_family_key : string; bf_effective_from : datetime; bf_effective_until : option datetime;
  bf_applicable_plan : option string; bf_applicable_region : option string;
}.
(** [valid_interval] *)
Definition valid_interval (e : TemporalBackfillEntry) : res unit :=
  let? start := _utc (bf_effective_from e) in
  match bf_effective_until e with
  | None => Ok tt
  | Some u =>
      let? until := _utc u in
      raise ValueError "effective interval must be non-empty and half-open" when instant until <=? instant start ;;
      Ok tt
  end.
(** [scope_hash] *)
Definition scope_hash (e : TemporalBackfillEntry) : string := applicability_scope_hash (bf_applicable_plan e) (bf_applicable_region e).
(** [unique_documents] *)
Definition unique_documents (entries : list TemporalBackfillEntry) : res unit :=
  let keys := map bf_document_id entries in
  raise ValueError "temporal backfill contains duplicate document_id"
    when negb (Nat.eqb (length keys) (length (fromkeys keys))) ;;
  Ok tt.
(** [by_document_id]: a later entry of the same document replaces an earlier. *)
Definition by_document_id (entries : list TemporalBackfillEntry) (id : string) : option TemporalBackfillEntry :=
  last (List.filter (fun e => bf_document_id e ==? id) entries).

Lemma utc_ok d u : _utc d = Ok u -> u = utc (instant d) /\ is_naive d = false /\ in_range (instant d) = true.
Proof. unfold _utc. intros E. steps_ok E. injection E as <-. rewrite negb_false_iff in Hguard0. done. Qed.
Lemma utc_twice d u : _utc d = Ok u -> _utc u = Ok u /\ instant u = instant d.
Proof. intros (-> & _ & Hr)%utc_ok. unfold _utc. rewrite instant_utc, Hr. done. Qed.
Lemma exact_claim_refl d u : _utc d = Ok u -> exact_claim_time u u = Ok tt.
Proof. intros [E _]%utc_twice. unfold exact_claim_time. rewrite E. cbn [res_bind]. by rewrite Z.eqb_refl. Qed.

(** Building a selector fails on naive or unrepresentable times only; its claim
    time is the one asked for, in UTC. *)
Theorem selector_claims (t : datetime) (version : option string) (as_of : option datetime) u ua :
  _utc t = Ok u -> (forall d, as_of = Some d -> _utc d = Ok ua) ->
  exists s, build_temporal_selector t version as_of = Ok s /\
    claim_effective_time s =
      match as_of with
      | Some _ => Some ua
      | None => if truthy_opt (if truthy_opt version then Some (remove_v (default "" version)) else None) then None else Some u
      end.
Proof.
  intros Hu Ha. unfold build_temporal_selector. rewrite Hu. cbn [res_bind].
  set (v := if truthy_opt version then Some _ else None).
  assert (truthy_opt v = true -> is_empty_str (default "" v) = false) as Hv.
  { destruct v as [x|]; cbn; [|done]. by destruct (is_empty_str x). }
  destruct as_of as [d|]; [rewrite (Ha d eq_refl); pose proof (exact_claim_refl _ _ (Ha d eq_refl)) as He|]; cbn [res_bind];
    destruct (truthy_opt v); cbn [validate_selector]; rewrite ?Hv, ?He by done; cbn [raise_if res_bind]; eauto.
Qed.

(** ** A concrete selection *)
Definition demo_chunk (id family hash : string) (plan : option string) (tokens : Z) (score : float) : RankedChunk :=
  mk_ranked (mk_chunk id "doc" "policy" "t" ("s" +:+ id) 0 "text" tokens hash "1" "active" 0 None family "" 80 plan None (Some demo_template)
               None None false) None None score None None None f0 f0.
Definition demo_pool : list RankedChunk :=
  [demo_chunk "a" "F1" "h1" None 300 (dec 1 10); demo_chunk "b" "F1" "h2" (Some "pro") 300 (dec 1 20);
   demo_chunk "c" "F2" "h3" None 900 (dec 1 5); demo_chunk "d" "F3" "h3" None 100 (dec 1 30)].
Definition demo_selection : selection := mk_selection (Some "pro") None 1400 4 1784073600000000 false false.
Lemma evidence_sound_witness :
  let r := select_evidence demo_selection demo_pool in
  map ranked_id (es_chunks r.1) = ["c"; "b"] /\ r.2 = [(0%nat, "less_specific_scope"); (3%nat, "duplicate_content_hash")] /\
  es_citations r.1 = map cite (es_chunks r.1).
Proof.
  split; [vm_compute; reflexivity|]. split; [vm_compute; reflexivity|].
  destruct (evidence_sound demo_selection demo_pool _ _ (surjective_pairing (select_evidence demo_selection demo_pool)))
    as (_ & _ & _ & H & _). exact H.
Defined.
Example fusion_run :
  let c id := mk_chunk id ("d" +:+ id) "policy" "t" "s" 0 "x" 1 id "1" "active" 0 None "F" "" 80 None None None None None false in
  map ranked_id (@reciprocal_rank_fusion {| fsum := fun l => fold_left fadd l f0 |} [c "a"; c "b"; c "x"] [c "y"; c "b"; c "a"] 60 (dec 15 100))
  = ["a"; "y"; "b"; "x"].
Proof. vm_compute. reflexivity. Qed.
