(* ===== verification/Chunking.v ===== *)
(** * Chunking of published documents

    rag/chunking.py: a Markdown document becomes chunks, each an exact byte
    range of the source with its locator.  Texts are lists of code points; the
    token counter of the embedding model is a parameter, described by the class
    [TokenCounter], of which the module's own [token_count] is an instance.

    [_bounded_pieces] loops until the text is used up and searches by
    bisection; both loops carry fuel, the length of the text, which is shown to
    be enough. *)
From Stdlib Require Import Ascii.
From S2P Require Import Prelude PyValue Sha256 CanonicalJson PyText Regex SourceLocators Retrieval.
Local Open Scope string_scope.
Local Open Scope list_scope.
Local Open Scope Z_scope.
Local Notation text := (list string).

(** ** Characters *)
Definition is_space (c : string) : bool := starts_space ws2 ws3 c.
Definition newline : string := String "010" "".
Definition latin (c : string) : bool := upper c || lower c || digit09 c || (c in? ["_"; "."; "/"; ":"; "-"]).
Definition cjk (c : string) : bool := (19968 <=? point_value c) && (point_value c <=? 40959).
(** [str.lstrip], [str.strip] *)
Definition lstrip (s : text) : text := drop_while is_space s.
Definition rstrip (s : text) : text := reverse (drop_while is_space (reverse s)).
Definition strip (s : text) : text := rstrip (lstrip s).

Section tokens.
Context `{UnicodeClasses}.

(** [len(_TOKEN.findall(text))] *)
Definition _TOKEN : pattern := [[Rep latin 1 None]; [One cjk]; [One (fun c => negb (is_space c))]].
Definition token_count (s : text) : Z := Z.of_nat (length (hits (segments _TOKEN O None s))).

(** ** Pieces under the embedding limit *)
Section pieces.
Context (counter : text -> Z) (prefix : text) (maximum : Z).

Definition fits (s : text) : bool := counter (prefix ++ s) <=? maximum.
(** The bisection of [_bounded_pieces]. *)
Fixpoint bisect (fuel : nat) (remaining : text) (low high fit : nat) : nat :=
  match fuel with
  | O => fit
  | S fuel' =>
      if Nat.leb low high then
        let middle := Nat.div2 (low + high) in
        if fits (take middle remaining) then bisect fuel' remaining (S middle) high middle
        else bisect fuel' remaining low (pred middle) fit
      else fit
  end.
(** [remaining.rfind(c, 0, fit)] for one character *)
Fixpoint last_index (c : string) (s : text) : option nat :=
  match s with
  | [] => None
  | x :: s' => match last_index c s' with Some i => Some (S i) | None => if x ==? c then Some O else None end
  end.
Definition rfind (c : string) (s : text) (fit : nat) : Z :=
  match last_index c (take fit s) with Some i => Z.of_nat i | None => -1 end.
(** How much of the text the next piece takes. *)
Definition cut (remaining : text) (fit : nat) : nat :=
  let boundary := Z.max (rfind newline remaining fit) (Z.max (rfind "。" remaining fit) (rfind " " remaining fit)) in
  if Z.of_nat (Nat.div2 fit) <=? boundary then Z.to_nat (boundary + 1) else fit.
Fixpoint piece_loop (fuel : nat) (remaining : text) : res (list text) :=
  match remaining with
  | [] => Ok []
  | _ :: _ =>
      match fuel with
      | O => Err (RuntimeError "out of fuel")
      | S fuel' =>
          let fit := bisect (length remaining) remaining 1 (length remaining) 0 in
          raise ValueError "chunk metadata alone exceeds embedding token limit" when Nat.eqb fit 0 ;;
          let n := cut remaining fit in
          let? rest := piece_loop fuel' (lstrip (drop n remaining)) in
          Ok (strip (take n remaining) :: rest)
      end
  end.
(** [_bounded_pieces] *)
Definition _bounded_pieces (content : text) : res (list text) :=
  if fits content then Ok [content] else
  let? pieces := piece_loop (length content) content in
  Ok (List.filter (fun p => negb (is_nil p)) pieces).

(** *** The bisection finds something that fits, and enough fuel is enough *)
Lemma bisect_fits fuel remaining low high fit :
  (1 <= low)%nat -> (high <= length remaining)%nat -> (fit <= length remaining)%nat ->
  fit = O \/ fits (take fit remaining) = true ->
  let n := bisect fuel remaining low high fit in
  (n <= length remaining)%nat /\ (n = O \/ fits (take n remaining) = true).
Proof.
  revert low high fit. induction fuel as [|fuel IH]; intros low high fit Hl Hh Hf Hfit; cbn [bisect]; [done|].
  destruct (Nat.leb_spec low high) as [L|L]; [|done].
  assert (low <= Nat.div2 (low + high) <= high)%nat as Hm.
  { rewrite Nat.div2_div. split; [apply Nat.div_le_lower_bound; lia|apply Nat.Div0.div_le_upper_bound; lia]. }
  destruct (fits (take (Nat.div2 (low + high)) remaining)) eqn:E; apply IH; try lia; auto.
Qed.
(** With the fuel of the caller the search always runs to its end. *)
Lemma bisect_fuel fuel remaining low high fit :
  (1 <= low)%nat -> (high + 1 - low <= fuel)%nat -> bisect fuel remaining low high fit = bisect (S fuel) remaining low high fit.
Proof.
  revert low high fit. induction fuel as [|fuel IH]; intros low high fit Hl Hf.
  - cbn [bisect]. by rewrite (proj2 (Nat.leb_gt _ _)) by lia.
  - cbn [bisect]. destruct (Nat.leb_spec low high) as [L|L]; [|done].
    assert (low <= Nat.div2 (low + high) <= high)%nat as Hm.
    { rewrite Nat.div2_div. split; [apply Nat.div_le_lower_bound; lia|apply Nat.Div0.div_le_upper_bound; lia]. }
    destruct (fits _); apply IH; lia.
Qed.

Lemma last_index_lt c s i : last_index c s = Some i -> (i < length s)%nat.
Proof.
  revert i. induction s as [|x s IH]; intros i; cbn; [done|]. destruct (last_index c s) as [k|].
  - intros E. injection E as <-. specialize (IH _ eq_refl). lia.
  - destruct (x ==? c); [|done]. intros E. injection E as <-. lia.
Qed.
Lemma rfind_lt c s fit : rfind c s fit < Z.of_nat fit \/ fit = O.
Proof.
  unfold rfind. destruct fit as [|fit]; [by right|left]. destruct (last_index c (take (S fit) s)) as [i|] eqn:E; [|lia].
  apply last_index_lt in E. rewrite length_take in E. lia.
Qed.
Lemma cut_bounds remaining fit : fit <> O -> (1 <= cut remaining fit <= fit)%nat.
Proof.
  intros Hf. unfold cut. destruct (rfind_lt newline remaining fit) as [H1|]; [|done].
  destruct (rfind_lt "。" remaining fit) as [H2|]; [|done]. destruct (rfind_lt " " remaining fit) as [H3|]; [|done].
  set (b := Z.max _ (Z.max _ _)). assert (b < Z.of_nat fit) as Hb by (unfold b; lia). clearbody b.
  destruct (Z.leb_spec (Z.of_nat (Nat.div2 fit)) b) as [L|L]; [|lia].
  assert (0 <= b) as Hb0 by (etrans; [apply Nat2Z.is_nonneg|exact L]). lia.
Qed.
Lemma drop_while_length {A} (f : A -> bool) l : (length (drop_while f l) <= length l)%nat.
Proof. induction l as [|x l IH]; cbn; [lia|]. destruct (f x); cbn; lia. Qed.

(** What one round does. *)
Lemma piece_loop_ind (P : text -> list text -> Prop) :
  P [] [] ->
  (forall remaining fit rest, remaining <> [] -> fit <> O -> (fit <= length remaining)%nat -> fits (take fit remaining) = true ->
     P (lstrip (drop (cut remaining fit) remaining)) rest ->
     P remaining (strip (take (cut remaining fit) remaining) :: rest)) ->
  forall fuel remaining out, piece_loop fuel remaining = Ok out -> P remaining out.
Proof.
  intros Hnil Hcons fuel. induction fuel as [|fuel IH]; intros remaining out.
  - destruct remaining; [|done]. intros E. by injection E as <-.
  - destruct remaining as [|c remaining]; [intros E; by injection E as <-|]. cbn [piece_loop].
    set (s := c :: remaining). intros E. apply raise_if_ok in E as [Hf%Nat.eqb_neq E].
    apply res_bind_ok in E as (rest & Hr & E). injection E as <-.
    destruct (bisect_fits (length s) s 1 (length s) 0) as [Hle Hfit]; [lia|lia|lia|by left|].
    destruct Hfit as [Hz|Hfit]; [by apply Hf in Hz|]. apply Hcons; [done|done|done|done|by apply IH].
Qed.
Lemma piece_loop_total fuel remaining :
  (length remaining <= fuel)%nat ->
  (exists out, piece_loop fuel remaining = Ok out) \/
  piece_loop fuel remaining = Err (ValueError "chunk metadata alone exceeds embedding token limit").
Proof.
  revert remaining. induction fuel as [|fuel IH]; intros remaining Hl; (destruct remaining as [|c remaining]; [left; by exists []|]);
    [cbn in Hl; lia|].
  cbn [piece_loop]. set (s := c :: remaining) in *. set (fit := bisect _ s 1 _ 0).
  destruct (Nat.eqb_spec fit 0) as [E|E]; [by right|]. cbn [raise_if].
  destruct (IH (lstrip (drop (cut s fit) s))) as [[out ->]| ->]; [| |by right].
  - unfold lstrip. pose proof (drop_while_length is_space (drop (cut s fit) s)) as Hd. rewrite length_drop in Hd.
    pose proof (cut_bounds s fit E). lia.
  - left. by eexists.
Qed.

(** *** Nothing visible is lost *)
Definition visible (s : text) : text := List.filter (fun c => negb (is_space c)) s.
Lemma visible_app a b : visible (a ++ b) = visible a ++ visible b.
Proof. apply List.filter_app. Qed.
Lemma visible_cons c s : visible (c :: s) = if is_space c then visible s else c :: visible s.
Proof. unfold visible. cbn [List.filter]. by destruct (is_space c). Qed.
Lemma visible_lstrip s : visible (lstrip s) = visible s.
Proof.
  unfold lstrip. induction s as [|c s IH]; [done|]. cbn. destruct (is_space c) eqn:E; cbn; rewrite ?E; [exact IH|done].
Qed.
Lemma visible_reverse s : visible (reverse s) = reverse (visible s).
Proof.
  induction s as [|c s IH]; [done|]. rewrite reverse_cons, visible_app, IH, !visible_cons. destruct (is_space c).
  - apply app_nil_r.
  - by rewrite reverse_cons.
Qed.
Lemma visible_strip s : visible (strip s) = visible s.
Proof.
  unfold strip, rstrip. rewrite visible_reverse. fold (lstrip (reverse (lstrip s))).
  by rewrite visible_lstrip, visible_reverse, reverse_involutive, visible_lstrip.
Qed.
Lemma visible_filter_nonempty ps : visible (concat (List.filter (fun p => negb (is_nil p)) ps)) = visible (concat ps).
Proof. induction ps as [|[|c p] ps IH]; [done|exact IH|]. cbn [List.filter is_nil negb concat]. by rewrite !visible_app, IH. Qed.
End pieces.

(** What a token counter promises its caller: it does not grow when a text is
    cut off or trimmed. *)
Class TokenCounter (counter : text -> Z) := {
  counter_take : forall p s n, counter (p ++ take n s) <= counter (p ++ s);
  counter_strip : forall p s, counter (p ++ strip s) <= counter (p ++ s);
}.

Lemma pieces_fit `{!TokenCounter counter} prefix maximum fuel remaining out :
  piece_loop counter prefix maximum fuel remaining = Ok out -> Forall (fun p => fits counter prefix maximum p = true) out.
Proof.
  revert fuel remaining out. apply (piece_loop_ind counter prefix maximum (fun _ out => Forall (fun p => fits counter prefix maximum p = true) out)).
  { constructor. }
  intros remaining fit rest _ Hf Hle Hfit IH. constructor; [|exact IH]. unfold fits in *. rewrite Z.leb_le in *.
  etrans; [apply counter_strip|]. etrans; [|exact Hfit].
  replace (take (cut remaining fit) remaining) with (take (cut remaining fit) (take fit remaining)); [apply counter_take|].
  rewrite take_take. f_equal. pose proof (cut_bounds remaining fit Hf). lia.
Qed.

(** Splitting a text under the embedding limit terminates, loses nothing
    and respects the limit.  For every token counter and text the loop ends,
    with the pieces or with the one documented error; the visible characters of
    the pieces, in order, are those of the text; no piece is empty unless the
    text itself fits; and for a counter that does not grow under cutting and
    trimming every piece, with its metadata prefix, is within the limit. *)
Theorem bounded_pieces_sound (counter : text -> Z) (prefix : text) (maximum : Z) (content : text) :
  (exists ps, _bounded_pieces counter prefix maximum content = Ok ps /\ visible (concat ps) = visible content /\
     (TokenCounter counter -> Forall (fun p => counter (prefix ++ p) <= maximum) ps) /\
     (fits counter prefix maximum content = false -> [] ∉ ps)) \/
  _bounded_pieces counter prefix maximum content = Err (ValueError "chunk metadata alone exceeds embedding token limit").
Proof.
  unfold _bounded_pieces. destruct (fits counter prefix maximum content) eqn:Ef.
  { left. exists [content]. cbn [concat]. rewrite app_nil_r. split_and!; [done|done| |done].
    intros _. constructor; [|constructor]. by apply Z.leb_le. }
  destruct (piece_loop_total counter prefix maximum (length content) content) as [[out Hl]| ->]; [lia| |by right].
  left. rewrite Hl. eexists. split; [reflexivity|]. split_and!.
  - rewrite visible_filter_nonempty. revert Hl. generalize (length content). revert content out Ef.
    enough (forall fuel remaining out, piece_loop counter prefix maximum fuel remaining = Ok out ->
              visible (concat out) = visible remaining) as He by eauto.
    apply (piece_loop_ind counter prefix maximum (fun remaining out => visible (concat out) = visible remaining)); [done|].
    intros remaining fit rest _ _ _ _ IH. cbn [concat]. rewrite visible_app, IH, visible_strip, visible_lstrip, <- visible_app.
    by rewrite take_drop.
  - intros Hc. pose proof (pieces_fit _ _ _ _ _ Hl) as Hf. rewrite Forall_forall in Hf |- *.
    intros p [Hp _]%list_elem_of_In%filter_In. apply list_elem_of_In in Hp. apply Z.leb_le. by apply Hf.
  - intros _ Hin. by apply list_elem_of_In, filter_In in Hin as [_ ?].
Qed.

(** ** The module's own counter *)

(** Where tokens start: at every visible character that does not continue a
    run of identifier characters. *)
Fixpoint token_starts (in_run : bool) (s : text) : nat :=
  match s with
  | [] => O
  | c :: s' =>
      ((if latin c then if in_run then 0 else 1 else if cjk c || negb (is_space c) then 1 else 0) + token_starts (latin c) s')%nat
  end.

Lemma latin_run_length r s :
  Forall (fun c => latin c = true) r -> satisfies latin (head s) = false -> run_length latin None (r ++ s) = length r.
Proof.
  intros Hr Hs. induction Hr as [|c r E _ IH]; cbn.
  - destruct s as [|c s]; [done|]. cbn in *. by rewrite Hs.
  - by rewrite E, IH.
Qed.
Lemma token_starts_run b r s :
  Forall (fun c => latin c = true) r -> r <> [] -> satisfies latin (head s) = false ->
  token_starts b (r ++ s) = ((if b then 0 else 1) + token_starts false s)%nat.
Proof.
  intros Hr Hn Hs. assert (forall b, token_starts b s = token_starts false s) as Hb.
  { intros b'. destruct s as [|c s]; [done|]. cbn in *. by rewrite Hs. }
  destruct Hr as [|c r E Hr]; [done|]. cbn. rewrite E. f_equal. clear Hn E.
  enough (token_starts true (r ++ s) = token_starts false s) by done.
  induction Hr as [|x r E _ IH]; cbn; [apply Hb|]. by rewrite E.
Qed.
Lemma latin_split s : exists r s', s = r ++ s' /\ Forall (fun c => latin c = true) r /\ satisfies latin (head s') = false.
Proof.
  induction s as [|c s (r & s' & -> & Hr & Hs)]; [exists [], []; by split_and!|]. destruct (latin c) eqn:E.
  - exists (c :: r), s'. split_and!; [done|by apply Forall_cons|done].
  - exists [], (c :: r ++ s'). by split_and!.
Qed.
Lemma token_match r s prev :
  Forall (fun c => latin c = true) r -> r <> [] -> satisfies latin (head s) = false ->
  match_here _TOKEN prev (r ++ s) = Some (length r).
Proof.
  intros Hr Hn Hs. unfold _TOKEN. cbn [match_here match_items]. rewrite latin_run_length by done.
  destruct r as [|c r]; [done|]. cbn. f_equal. lia.
Qed.
Lemma token_match_one c s prev :
  latin c = false -> match_here _TOKEN prev (c :: s) = if cjk c || negb (is_space c) then Some 1%nat else None.
Proof.
  intros E. unfold _TOKEN. cbn [match_here match_items run_length]. rewrite E. cbn. destruct (cjk c); [done|].
  by destruct (is_space c).
Qed.
Lemma hits_tokens s prev : length (hits (segments _TOKEN O prev s)) = token_starts false s.
Proof.
  remember (length s) as n eqn:En. revert s prev En. induction n as [n IH] using lt_wf_ind. intros s prev ->.
  destruct (latin_split s) as (r & s' & -> & Hr & Hs). destruct r as [|c r].
  - destruct s' as [|c s']; [done|]. cbn [app satisfies head] in *. cbn [token_starts]. rewrite Hs.
    pose proof (token_match_one c s' prev Hs) as Em. destruct (cjk c || negb (is_space c)).
    + assert (segments _TOKEN O prev (c :: s') = Hit [c] :: segments _TOKEN O (Some c) s') as ->
        by by apply (segments_hit _TOKEN prev [c] s').
      cbn. f_equal. eapply IH; [|done]. cbn. lia.
    + rewrite segments_miss by done. cbn. eapply IH; [|done]. cbn. lia.
  - rewrite segments_hit; [|done|by apply token_match]. rewrite token_starts_run by done. cbn. f_equal.
    eapply IH; [|done]. rewrite length_app. cbn. lia.
Qed.

Lemma token_starts_app b s t : (token_starts b s <= token_starts b (s ++ t))%nat.
Proof. revert b. induction s as [|c s IH]; intros b; cbn; [lia|]. specialize (IH (latin c)). lia. Qed.
Lemma token_starts_le s : (token_starts true s <= token_starts false s)%nat.
Proof. destruct s as [|c s]; cbn; [lia|]. destruct (latin c); lia. Qed.
Lemma latin_not_space c : latin c = true -> is_space c = false.
Proof.
  destruct c as [|a [|b c]]; [done| |].
  - destruct a as [[] [] [] [] [] [] [] []]; vm_compute; congruence.
  - unfold latin. cbn [upper lower digit09 ascii_between orb]. intros Hm%mem_true. exfalso.
    rewrite !elem_of_cons, elem_of_nil in Hm. by destruct Hm as [?|[?|[?|[?|[?|?]]]]].
Qed.
Lemma token_starts_lstrip b s : (token_starts b (lstrip s) <= token_starts b s)%nat.
Proof.
  revert b. induction s as [|c s IH]; intros b; [done|]. unfold lstrip. cbn [drop_while].
  destruct (is_space c) eqn:E; [|done]. fold (lstrip s). cbn [token_starts].
  destruct (latin c) eqn:El; [apply latin_not_space in El; congruence|]. specialize (IH b).
  destruct b; pose proof (token_starts_le s); lia.
Qed.
Lemma token_starts_prefix (f : text -> text) p s :
  (forall b, (token_starts b (f s) <= token_starts b s)%nat) -> forall b, (token_starts b (p ++ f s) <= token_starts b (p ++ s))%nat.
Proof. intros Hf. induction p as [|c p IH]; intros b; cbn; [apply Hf|]. specialize (IH (latin c)). lia. Qed.
Lemma rstrip_prefix s : exists w, s = rstrip s ++ w.
Proof.
  unfold rstrip. assert (forall l, exists w, l = w ++ drop_while is_space l) as Hd.
  { induction l as [|c l [w IH]]; [by exists []|]. cbn. destruct (is_space c); [|by exists []]. exists (c :: w). cbn. by f_equal. }
  destruct (Hd (reverse s)) as [w Hw]. exists (reverse w). rewrite <- reverse_app, <- Hw. by rewrite reverse_involutive.
Qed.

#[export] Instance token_count_counter : TokenCounter token_count.
Proof.
  split; unfold token_count; intros; rewrite !hits_tokens; apply Nat2Z.inj_le.
  - rewrite <- (take_drop n s) at 2. rewrite app_assoc. apply token_starts_app.
  - apply (token_starts_prefix strip). intros b. unfold strip. etrans; [|apply token_starts_lstrip].
    destruct (rstrip_prefix (lstrip s)) as [w Hw]. rewrite Hw at 2. apply token_starts_app.
Qed.

(** ** Sections *)

(** The line boundaries of [str.splitlines]. *)
Definition line_boundary (c : string) : bool :=
  match c with
  | String a "" => let n := nat_of_ascii a in (Nat.leb 10 n && Nat.leb n 13) || (Nat.leb 28 n && Nat.leb n 30)
  | _ => c in? [String "194" (String "133" ""); String "226" (String "128" (String "168" "")); String "226" (String "128" (String "169" ""))]
  end%nat.
Definition carriage_return : string := String "013" "".
(** [text.splitlines()]; [cur] is the line being read. *)
Fixpoint splitlines_from (cur : text) (s : text) : list text :=
  match s with
  | [] => if is_nil cur then [] else [cur]
  | c :: s' =>
      if line_boundary c then
        cur :: match s' with
               | d :: s'' => if (c ==? carriage_return) && (d ==? newline) then splitlines_from [] s'' else splitlines_from [] s'
               | [] => []
               end
      else splitlines_from (cur ++ [c]) s'
  end.
Definition splitlines (s : text) : list text := splitlines_from [] s.

(** [_HEADING.match(line)]: the level and the title.  A title of white space
    only keeps its last character. *)
Definition heading_of (line : text) : option (nat * text) :=
  let level := run_length (fun c => c ==? "#") None line in
  let rest := drop level line in
  if Nat.leb 1 level && Nat.leb level 6 && satisfies is_space (head rest) then
    match lstrip rest with
    | [] => if Nat.leb 2 (length rest) then (fun c => (level, [c])) <$> last rest else None
    | body => Some (level, rstrip body)
    end
  else None.

Record _Section := mk_section { sec_path : text; sec_body : text }.
Fixpoint join (sep : text) (l : list text) : text :=
  match l with
  | [] => []
  | [x] => x
  | x :: l' => x ++ sep ++ join sep l'
  end.
Definition flush_section (headings : list text) (body : list text) (result : list _Section) : list _Section :=
  let content := strip (join [newline] body) in
  if is_nil content then result else
  let path := join (code_points " > ") headings in
  result ++ [mk_section (if is_nil path then code_points "正文" else path) content].
Fixpoint sections_loop (lines : list text) (headings body : list text) (result : list _Section) : list _Section :=
  match lines with
  | [] => flush_section headings body result
  | line :: rest =>
      match heading_of line with
      | None => sections_loop rest headings (body ++ [line]) result
      | Some (level, title) =>
          sections_loop rest (take (level - 1) headings ++ [title]) [] (flush_section headings body result)
      end
  end.
(** [_sections] *)
Definition _sections (markdown : text) : list _Section := sections_loop (splitlines markdown) [] [] [].

(** ** Windows *)

(** [re.split(r"\n\s*\n", text)] *)
Definition _PARAGRAPH : pattern := [[One (fun c => c ==? newline); Rep is_space 0 None; One (fun c => c ==? newline)]].
Fixpoint split_at (cur : text) (l : list segment) : list text :=
  match l with
  | [] => [cur]
  | Lit c :: l' => split_at (cur ++ [c]) l'
  | Hit _ :: l' => cur :: split_at [] l'
  end.
Definition paragraphs (s : text) : list text :=
  List.filter (fun p => negb (is_nil p)) (map strip (split_at [] (segments _PARAGRAPH O None s))).

(** The overlap carried into the next window: [current] is read backwards. *)
Fixpoint overlap_tail (overlap : Z) (backwards tail : list text) (tail_size : Z) : list text * Z :=
  match backwards with
  | [] => (tail, tail_size)
  | prior :: rest =>
      let prior_size := token_count prior in
      if negb (is_nil tail) && (overlap <? tail_size + prior_size) then (tail, tail_size)
      else overlap_tail overlap rest (prior :: tail) (tail_size + prior_size)
  end.
(** The windows as lists of paragraphs. *)
Fixpoint window_loop (target overlap maximum : Z) (ps : list text) (current : list text) (current_tokens : Z)
    : list (list text) :=
  match ps with
  | [] => if is_nil current then [] else [current]
  | p :: rest =>
      let size := token_count p in
      let '(done, current, current_tokens) :=
        if negb (is_nil current) && (target <? current_tokens + size)
        then let '(tail, tail_size) := overlap_tail overlap (reverse current) [] 0 in ([current], tail, tail_size)
        else ([], current, current_tokens) in
      done ++ (if maximum <? size then [p] :: window_loop target overlap maximum rest [] 0
               else window_loop target overlap maximum rest (current ++ [p]) (current_tokens + size))
  end.
(** [_windows] *)
Definition _windows (s : text) (target overlap maximum : Z) : list text :=
  map (join [newline; newline]) (window_loop target overlap maximum (paragraphs s) [] 0).

(** ** Documents *)
Record DocumentMetadata := mk_metadata {
  md_document_id : string; md_title : string; md_document_type : string; md_version : string; md_status : string;
  md_effective_at : Z; md_authority_level : Z; md_applicable_plan : option string; md_applicable_region : option string;
}.
(** [embedding_text]: "passage: title, path, content" on separate lines. *)
Definition embedding_prefix (title path : text) : text := code_points "passage: " ++ title ++ [newline] ++ path ++ [newline].
Definition embedding_text (title path content : text) : text := embedding_prefix title path ++ content.
(** [f"{sequence:03d}"] *)
Definition pad3 (n : Z) : string := (if n <? 10 then "00" else if n <? 100 then "0" else "") +:+ str_of_Z n.

Section documents.
Context (token_counter : text -> Z) (metadata : DocumentMetadata) (canonical_bytes : string).

(** [bytes.find(content, cursor)], then from the start. *)
Definition locate (content : string) (cursor : nat) : option nat :=
  match String.index cursor content canonical_bytes with
  | Some i => Some i
  | None => String.index 0 content canonical_bytes
  end.
Definition make_chunk (path content : text) (sequence : Z) (cursor : nat) : res (ParsedChunk * nat) :=
  let content_bytes := concat_points content in
  let! start := locate content_bytes cursor else ValueError "chunk content is not an exact canonical source byte span" in
  let digest := sha256_hex content_bytes in
  let? locator := build_locator (V1 (mk_locator_v1 (md_document_id metadata) (md_version metadata) (mk_span "" 0 0 "" "")))
                    canonical_bytes (Z.of_nat start) (Z.of_nat start + byte_length content_bytes) in
  Ok (mk_chunk (md_document_id metadata +:+ ":c" +:+ pad3 sequence +:+ ":" +:+ String.substring 0 8 digest)
        (md_document_id metadata) (md_document_type metadata) (md_title metadata) (concat_points path) sequence content_bytes
        (token_counter (embedding_text (code_points (md_title metadata)) path content)) digest (md_version metadata)
        (md_status metadata) (md_effective_at metadata) None (md_document_id metadata)
        (applicability_scope_hash (md_applicable_plan metadata) (md_applicable_region metadata))
        (md_authority_level metadata) (md_applicable_plan metadata) (md_applicable_region metadata) (Some locator) None None
        false, S start).
Fixpoint chunk_contents (path : text) (contents : list text) (chunks : list ParsedChunk) (cursor : nat)
    : res (list ParsedChunk * nat) :=
  match contents with
  | [] => Ok (chunks, cursor)
  | content :: rest =>
      let? made := make_chunk path content (Z.of_nat (length chunks)) cursor in
      chunk_contents path rest (chunks ++ [made.1]) made.2
  end.
(** The pieces of all windows of a section. *)
Fixpoint section_pieces (path : text) (windows : list text) : res (list text) :=
  match windows with
  | [] => Ok []
  | raw :: rest =>
      let? pieces := _bounded_pieces token_counter (embedding_prefix (code_points (md_title metadata)) path) 512 raw in
      let? more := section_pieces path rest in
      Ok (pieces ++ more)
  end.
Fixpoint chunk_sections (target overlap maximum : Z) (sections : list _Section) (chunks : list ParsedChunk) (cursor : nat)
    : res (list ParsedChunk) :=
  match sections with
  | [] => Ok chunks
  | s :: rest =>
      let? contents := section_pieces (sec_path s) (_windows (sec_body s) target overlap maximum) in
      let? r := chunk_contents (sec_path s) contents chunks cursor in
      chunk_sections target overlap maximum rest r.1 r.2
  end.
End documents.
(** [chunk_markdown] *)
Definition chunk_markdown (token_counter : text -> Z) (metadata : DocumentMetadata) (markdown : string)
    (target_tokens overlap_tokens max_tokens : Z) : res (list ParsedChunk) :=
  chunk_sections token_counter metadata markdown target_tokens overlap_tokens max_tokens
    (_sections (code_points markdown)) [] O.

(** ** Every chunk is an exact range of its document *)
Lemma substring_slice s n m : String.substring n m s = String.string_of_list_ascii (take m (drop n (chars s))).
Proof.
  revert n m. induction s as [|a s IH]; intros n m; cbn.
  - destruct n, m; reflexivity.
  - destruct n as [|n]; [|apply IH]. destruct m as [|m]; [done|]. cbn. f_equal. apply (IH O m).
Qed.
(** What is kept of a chunk that was made. *)
Record exact_chunk (source : string) (n : Z) (c : ParsedChunk) : Prop := {
  ec_sequence : sequence c = n;
  ec_hash : content_hash c = sha256_hex (ch_content c);
  ec_locator : exists l, source_locator c = Some l /\ resolve_locator l source = Ok (ch_content c);
}.
Lemma make_chunk_exact counter metadata source path content n cursor c cursor' :
  make_chunk counter metadata source path content n cursor = Ok (c, cursor') -> exact_chunk source n c.
Proof.
  unfold make_chunk. set (bytes := concat_points content). intros Hm.
  destruct (locate source bytes cursor) as [start|] eqn:El; [|done].
  assert (String.substring start (String.length bytes) source = bytes) as Hs.
  { unfold locate in El. destruct (String.index cursor bytes source) as [i|] eqn:Ei.
    - injection El as <-. by apply String.index_correct1 in Ei.
    - by apply String.index_correct1 in El. }
  apply res_bind_ok in Hm as (l & Hb & Hm). injection Hm as <- _. split; [done|done|]. exists l. split; [done|].
  cbn [ch_content]. unfold build_locator in Hb. apply res_bind_ok in Hb as (sp & Hb & Hl). injection Hl as <-.
  pose proof Hb as (Esp & _)%build_ok. unfold resolve_locator. cbn [with_span locator_schema locator_fields locator_span l1_span with_span_v1].
  assert (byte_start sp = Z.of_nat start /\ byte_end sp = Z.of_nat start + byte_length bytes) as [E1 E2] by by rewrite Esp.
  rewrite <- E2, <- E1 in Hb. apply resolve_build in Hb. rewrite E1, E2 in Hb.
  etrans; [exact Hb|]. f_equal. unfold slice. rewrite <- Hs at 2. rewrite substring_slice. do 2 f_equal; unfold byte_length; [lia|]. f_equal. lia.
Qed.
Lemma chunk_contents_exact counter metadata source path contents chunks cursor chunks' cursor' :
  (forall i c, chunks !! i = Some c -> exact_chunk source (Z.of_nat i) c) ->
  chunk_contents counter metadata source path contents chunks cursor = Ok (chunks', cursor') ->
  forall i c, chunks' !! i = Some c -> exact_chunk source (Z.of_nat i) c.
Proof.
  revert chunks cursor. induction contents as [|content rest IH]; intros chunks cursor Hc; cbn [chunk_contents].
  - intros E. by injection E as <- <-.
  - intros E. apply res_bind_ok in E as ([c1 cur] & Hm & E). eapply IH; [|exact E]. intros i c. cbn [fst].
    rewrite lookup_app_Some. intros [Hi|[Hl Hi]]; [by apply Hc|]. apply list_lookup_singleton_Some in Hi as [Hz <-].
    replace i with (length chunks) by lia. by eapply make_chunk_exact.
Qed.

(** Every chunk of a published document is an exact range of it.  When
    [chunk_markdown] returns, the chunks are numbered by their position, each
    carries the digest of its content, and its locator resolves against the
    document to exactly the content of the chunk. *)
Theorem chunks_exact (counter : text -> Z) (metadata : DocumentMetadata) (markdown : string) target overlap maximum chunks :
  chunk_markdown counter metadata markdown target overlap maximum = Ok chunks ->
  forall i c, chunks !! i = Some c -> exact_chunk markdown (Z.of_nat i) c.
Proof.
  unfold chunk_markdown. generalize (_sections (code_points markdown)) as sections. intros sections.
  assert (forall i c, (@nil ParsedChunk) !! i = Some c -> exact_chunk markdown (Z.of_nat i) c) as H0 by done.
  revert H0. generalize (@nil ParsedChunk) as acc. generalize O as cursor.
  induction sections as [|s sections IH]; intros cursor acc Ha; cbn [chunk_sections].
  - intros E. by injection E as <-.
  - intros E. apply res_bind_ok in E as (contents & _ & E). apply res_bind_ok in E as ([acc' cur] & Hc & E).
    eapply IH; [|exact E]. by eapply chunk_contents_exact.
Qed.
End tokens.

Definition demo_metadata : DocumentMetadata := mk_metadata "policy" "Refunds" "policy" "1" "active" 0 90 None None.
Definition line (s : string) : string := s +:+ newline.
Definition demo_markdown : string :=
  line "# 退款" +:+ line "" +:+ line "Within 30 days." +:+ line "" +:+ line "No fee." +:+ line "## Keys" +:+ "Revoke in the console.".
Definition demo_chunks : list ParsedChunk :=
  match @chunk_markdown ascii_unicode (@token_count ascii_unicode) demo_metadata demo_markdown 325 50 450 with Ok l => l | Err _ => [] end.
Lemma chunks_exact_witness :
  map (fun c => (section_path c, ch_content c)) demo_chunks
  = [("退款", line "Within 30 days." +:+ newline +:+ "No fee."); ("退款 > Keys", "Revoke in the console.")] /\
  exists c, demo_chunks !! 1%nat = Some c /\ exact_chunk demo_markdown 1 c.
Proof.
  assert (@chunk_markdown ascii_unicode (@token_count ascii_unicode) demo_metadata demo_markdown 325 50 450 = Ok demo_chunks) as E
    by (vm_compute; reflexivity).
  split; [vm_compute; reflexivity|].
  destruct (demo_chunks !! 1%nat) as [c|] eqn:Ec; [|exfalso; vm_compute in Ec; discriminate].
  exists c. split; [reflexivity|].
  exact (@chunks_exact ascii_unicode _ _ _ _ _ _ _ E 1%nat c Ec).
Defined.
