(* ===== verification/Spans.v ===== *)
(** * The sentence of a chunk that supports a claim (rag/spans.py)

    A retrieved chunk is cited by a span: the sentence that carries the most
    specific words of the query, with at most two sentences that follow it.
    The span gets a locator of its own, cut out of the chunk's locator by byte
    offsets, although sentences are found by character positions.

    Main results: the locator of a supporting span resolves, against the
    document the chunk was cut from, to exactly the text of the span; the span
    starts at the first of the best scoring sentences, it may support a claim
    exactly when some sentence scores at all, and beyond that sentence it is at
    most eight hundred characters long. *)
From Stdlib Require Import Ascii.
From S2P Require Import Prelude PyValue Sha256 CanonicalJson PyText Regex PiiRedaction SourceLocators Retrieval Chunking PyRegex.
Local Open Scope string_scope.
Local Open Scope list_scope.
Local Open Scope Z_scope.
Local Notation cp := string.
Local Notation text := (list string).

Section spans.
Context `{PyRuntime} `{UnicodeClasses}.

(** ** Patterns *)
Definition sentence_end : list cp := ["。"; "！"; "？"; "!"; "?"].
Definition _BOUNDARY : node :=
  alt [cat [Star (Chr (fun c => negb (c in? newline :: sentence_end))) 1 None; opt (class sentence_end)];
       Star (Chr (fun c => negb (c ==? newline))) 1 None].
Definition _LATIN_TERM : node := Star (Chr latin) 2 None.
Definition _CJK_RUN : node := Star (Chr cjk) 1 None.
Definition separator (c : cp) : bool := c in? ["_"; "."; "/"; ":"; "-"].
Definition _IDENTIFIER_SEPARATOR : node := Star (Chr separator) 1 None.
Definition _HTTP_STATUS : node := cat [class ["1"; "2"; "3"; "4"; "5"]; Chr re_d; Chr re_d].
Definition _MAX_CONTEXT_SENTENCES : nat := 3.
Definition _MAX_CONTEXT_CHARACTERS : nat := 800.

(** [pattern.finditer(text)], [pattern.findall(text)], [pattern.fullmatch(text)] *)
Definition all_hits (n : node) (s : text) : list hit := finditer n s 0 (length s).
Definition part (s : text) (h : hit) : text := PyRegex.slice s (h_start h) (h_end h).
Definition findall (n : node) (s : text) : list text := map (part s) (all_hits n s).
Definition matches_fully (n : node) (s : text) : bool :=
  isSome (run_node n (mk_place None s 0 []) (fun q => if is_nil (p_rest q) then Some q else None)).

(** ** Terms of a query *)
Definition cjk_ngrams (run : text) : list string :=
  if Nat.ltb (length run) 2 then []
  else concat (map (fun width => map (fun index => concat_points (PyRegex.slice run index (index + width))) (seq 0 (length run - width + 1)))
                 (seq 2 (Nat.min 4 (length run) - 1))).
Definition lexical_query_terms (query : string) : list string :=
  let q := code_points query in
  fromkeys (map (fun t => str_lower (concat_points t)) (findall _LATIN_TERM q) ++ concat (map cjk_ngrams (findall _CJK_RUN q))).
Definition _query_anchor_terms (query : string) : list string :=
  fromkeys (concat (map (fun raw_term =>
    let term := casefold (concat_points raw_term) in
    let s := code_points term in
    (if matches_fully _HTTP_STATUS s then [term] else [])
    ++ (if search _IDENTIFIER_SEPARATOR term
        then term :: List.filter (fun c => 4 <=? py_len c) (split _IDENTIFIER_SEPARATOR term) else []))
    (findall _LATIN_TERM (code_points query)))).

(** ** Scores *)
Definition starts_with (prefix s : text) : bool := bool_decide (take (length prefix) s = prefix).
Definition _is_structured_line (value : text) : bool :=
  let stripped := lstrip value in
  existsb (fun prefix => starts_with (code_points prefix) stripped) ["|"; "- "; "* "; "> "; "```"]
  || isSome (match_at (cat [Star (Chr re_d) 1 None; class ["."; ")"]; Chr is_space]) None 0 stripped).
Definition folded (value : text) : string := casefold (concat_points value).
Definition document_frequency (sentences : list text) (term : string) : Z :=
  Z.of_nat (length (List.filter (fun s => str_contains term (folded s)) sentences)).
Definition sum_of (l : list Z) : Z := fold_right Z.add 0 l.
Definition _match_score (value : text) (terms : list string) (frequency : string -> Z) (sentence_count : Z) : Z :=
  sum_of (map (fun term =>
    if str_contains term (folded value)
    then py_len term * py_len term * (sentence_count + 1 - frequency term) * (if matches_fully _LATIN_TERM (code_points term) then 4 else 1)
    else 0) terms).
(** [re.escape(anchor)] under [re.IGNORECASE], not inside a longer word. *)
Definition anchor_pattern (anchor : string) : node := cat [UnlessAfter letter_or_digit_ic; txt anchor; Unless letter_or_digit_ic].
Definition _anchor_score (value : text) (anchors : list string) : Z :=
  sum_of (map (fun anchor => if search (anchor_pattern anchor) (folded value) then py_len anchor * py_len anchor else 0) anchors).

(** ** The window *)
Fixpoint extend_window (content : text) (start stop : nat) (candidates : list hit) : nat :=
  match candidates with
  | [] => stop
  | candidate :: rest =>
      if str_contains (newline +:+ newline) (concat_points (PyRegex.slice content stop (h_start candidate)))
         || _is_structured_line (part content candidate) then stop
      else if Nat.ltb _MAX_CONTEXT_CHARACTERS (h_end candidate - start) then stop
      else extend_window content start (h_end candidate) rest
  end.
Definition _bounded_context_window (content : text) (matches : list hit) (chosen_index : nat) (chosen : hit) : nat * nat :=
  (h_start chosen,
   if _is_structured_line (part content chosen) then h_end chosen
   else extend_window content (h_start chosen) (h_end chosen) (take (_MAX_CONTEXT_SENTENCES - 1) (drop (S chosen_index) matches))).

(** ** select_supporting_span *)
Record SupportingSpan := mk_supporting { ss_text : string; ss_locator : SourceLocator; ss_eligible : bool; ss_reason_code : string }.
Definition score : Type := Z * Z.
Definition score_ltb (a b : score) : bool := (a.1 <? b.1) || (a.1 =? b.1) && (a.2 <? b.2).
(** [max(ranked, key=...)]: the first of the best. *)
Fixpoint best_from (best : nat * score) (index : nat) (l : list score) : nat * score :=
  match l with
  | [] => best
  | s :: l => best_from (if score_ltb best.2 s then (index, s) else best) (S index) l
  end.
Definition scores (content : text) (query : string) (matches : list hit) : list score :=
  let terms := lexical_query_terms query in
  let anchors := _query_anchor_terms query in
  let sentences := map (part content) matches in
  map (fun s => (_anchor_score s anchors, _match_score s terms (document_frequency sentences) (Z.of_nat (length matches)))) sentences.
Definition lexical_choice (l : list score) : option nat :=
  match l with
  | [] => None
  | first :: rest =>
      if existsb (fun s => 0 <? s.1) l || existsb (fun s => 0 <? s.2) l then Some (best_from (O, first) 1 rest).1 else None
  end.
(** The chosen window, and whether a term of the query chose it. *)
Definition window_of (content : text) (query : string) : option (nat * nat * bool) :=
  let matches := all_hits _BOUNDARY content in
  let choice := lexical_choice (scores content query matches) in
  let chosen_index := default O choice in
  (fun chosen => (_bounded_context_window content matches chosen_index chosen, isSome choice)) <$> matches !! chosen_index.
Definition select_supporting_span (chunk : ParsedChunk) (query : string) : res SupportingSpan :=
  let! locator := source_locator chunk else ValueError "supporting_span_requires_chunk_locator" in
  let content := code_points (ch_content chunk) in
  let! chosen := window_of content query else ValueError "empty_chunk_cannot_support_claim" in
  let '(start, stop, lexical) := chosen in
  let raw_window := PyRegex.slice content start stop in
  let found := strip raw_window in
  let relative_character_start := (start + length raw_window - length (lstrip raw_window))%nat in
  let relative_byte_start := byte_length (concat_points (take relative_character_start content)) in
  let? l := subspan_locator locator (ch_content chunk) relative_byte_start (relative_byte_start + byte_length (concat_points found)) in
  Ok (mk_supporting (concat_points found) l lexical
        (if lexical then "lexical_support_span" else "background_only_no_unique_support")).
End spans.

(** ** Bytes and characters *)
Lemma concat_points_app (a b : text) : concat_points (a ++ b) = concat_points a +:+ concat_points b.
Proof.
  assert (forall x l, concat_points (x :: l) = x +:+ concat_points l) as Hc.
  { intros x l. unfold concat_points. destruct l; cbn; [by rewrite append_nil|done]. }
  induction a as [|x a IH]; [done|]. cbn [app]. rewrite !Hc, IH. symmetry. apply append_assoc.
Qed.
Lemma string_length_app a b : String.length (a +:+ b) = (String.length a + String.length b)%nat.
Proof. induction a as [|c a IH]; [done|]. rewrite append_cons. cbn [String.length]. by rewrite IH. Qed.
Lemma byte_slice_middle x y z :
  SourceLocators.slice (x +:+ y +:+ z) (byte_length x) (byte_length x + byte_length y) = y.
Proof.
  unfold SourceLocators.slice, byte_length. rewrite Z.add_simpl_l, !Nat2Z.id.
  assert (forall a b, chars (a +:+ b) = chars a ++ chars b) as Ha.
  { intros a b. unfold chars. induction a as [|c a IH]; [done|]. rewrite append_cons. cbn [String.list_ascii_of_string app]. by rewrite IH. }
  rewrite !Ha, <- !length_chars, drop_app_length, take_app_length. apply String.string_of_list_ascii_of_string.
Qed.
Lemma lstrip_suffix (s : text) : exists w, s = w ++ lstrip s.
Proof.
  unfold lstrip. induction s as [|c s [w IH]]; [by exists []|]. cbn. destruct (is_space c); [|by exists []]. exists (c :: w). cbn. by f_equal.
Qed.
(** The stripped window is cut out of the content at the character position the
    code computes. *)
Lemma strip_position (content : text) (start stop : nat) :
  let raw := PyRegex.slice content start stop in
  strip raw <> [] ->
  exists post, content = take (start + length raw - length (lstrip raw))%nat content ++ strip raw ++ post.
Proof.
  cbv zeta. set (raw := PyRegex.slice content start stop). intros Hne.
  destruct (lstrip_suffix raw) as [w Ew]. destruct (rstrip_prefix (lstrip raw)) as [v Ev]. fold (strip raw) in Ev.
  assert (content = take start content ++ w ++ strip raw ++ v ++ drop (stop - start) (drop start content)) as Ec.
  { rewrite <- (take_drop start content) at 1. f_equal. rewrite <- (take_drop (stop - start) (drop start content)) at 1.
    change (take (stop - start) (drop start content)) with raw. rewrite Ew at 1. rewrite Ev at 1. by rewrite <- !app_assoc. }
  assert (length raw > 0)%nat as Hraw.
  { destruct raw as [|c raw']; [by destruct Hne|cbn; lia]. }
  assert (length (take start content) = start) as El.
  { rewrite length_take. unfold raw, PyRegex.slice in Hraw. rewrite length_take, length_drop in Hraw. lia. }
  assert (length raw = length w + length (lstrip raw))%nat as Elr by (rewrite Ew at 1; by rewrite length_app).
  revert Ec El. generalize (take start content), (v ++ drop (stop - start) (drop start content)). intros pre post Ec El.
  exists post. clearbody raw. subst content. rewrite (app_assoc pre w). f_equal.
  symmetry. apply take_app_length'. rewrite length_app, El. lia.
Qed.

(** ** The best sentence *)
Lemma score_ltb_irrefl a : score_ltb a a = false.
Proof. unfold score_ltb. rewrite !Z.ltb_irrefl. by rewrite andb_false_r. Qed.
Lemma score_ltb_asym a b : score_ltb a b = true -> score_ltb b a = false.
Proof.
  unfold score_ltb. destruct a, b; cbn [fst snd]. rewrite !orb_true_iff, !andb_true_iff, orb_false_iff, andb_false_iff, !Z.ltb_lt, !Z.ltb_ge, !Z.eqb_eq, Z.eqb_neq. lia.
Qed.
Lemma score_lt_le a b c : score_ltb a b = true -> score_ltb c b = false -> score_ltb a c = true.
Proof.
  unfold score_ltb. destruct a, b, c; cbn [fst snd]. rewrite !orb_true_iff, !andb_true_iff, orb_false_iff, andb_false_iff, !Z.ltb_lt, !Z.ltb_ge, !Z.eqb_eq, Z.eqb_neq. lia.
Qed.
(** [best] is the first of the best among [seen]. *)
Definition first_best (seen : list score) (best : nat * score) : Prop :=
  seen !! best.1 = Some best.2 /\
  forall j t, seen !! j = Some t -> score_ltb best.2 t = false /\ ((j < best.1)%nat -> score_ltb t best.2 = true).
Lemma best_from_spec seen best l : first_best seen best -> first_best (seen ++ l) (best_from best (length seen) l).
Proof.
  revert seen best. induction l as [|s l IH]; intros seen best Hb; cbn [best_from]; [by rewrite app_nil_r|].
  replace (seen ++ s :: l) with ((seen ++ [s]) ++ l) by by rewrite <- app_assoc.
  replace (S (length seen)) with (length (seen ++ [s])) by (rewrite length_app; cbn; lia). apply IH. destruct Hb as [Hi Hall].
  destruct (score_ltb best.2 s) eqn:Es; cbn [fst snd].
  - split; [cbn; by rewrite lookup_app_r, Nat.sub_diag by lia|]. cbn. intros j t [Hj|[Hge Hj]]%lookup_app_Some.
    + destruct (Hall j t Hj) as [Hle _]. assert (score_ltb t s = true) as Hlt.
      { destruct (score_ltb t s) eqn:E; [done|]. rewrite (score_lt_le best.2 s t) in Hle by done. done. }
      split; [by apply score_ltb_asym|done].
    + apply list_lookup_singleton_Some in Hj as [Hz <-]. split; [apply score_ltb_irrefl|lia].
  - split; [by apply lookup_app_l_Some|]. intros j t [Hj|[Hge Hj]]%lookup_app_Some; [by apply Hall|].
    apply list_lookup_singleton_Some in Hj as [Hz <-]. split; [done|]. intros Hlt. apply lookup_lt_Some in Hi. exfalso. lia.
Qed.
Lemma lexical_choice_best l i : lexical_choice l = Some i -> exists s, first_best l (i, s).
Proof.
  destruct l as [|first rest]; [done|]. cbn [lexical_choice]. destruct (_ || _); [|done]. intros [= <-].
  pose proof (best_from_spec [first] (O, first) rest) as Hb. cbn [length app] in Hb.
  destruct (best_from (O, first) 1 rest) as [i s]. exists s. apply Hb. split; [done|].
  intros j t [Hz <-]%list_lookup_singleton_Some. split; [apply score_ltb_irrefl|cbn; lia].
Qed.
Lemma lexical_choice_some l : is_Some (lexical_choice l) <-> exists s, s ∈ l /\ (0 < s.1 \/ 0 < s.2).
Proof.
  destruct l as [|first rest]; [cbn; split; [by intros []|set_solver]|]. cbn [lexical_choice].
  assert (existsb (fun s : score => 0 <? s.1) (first :: rest) || existsb (fun s : score => 0 <? s.2) (first :: rest) = true <->
          exists s, s ∈ first :: rest /\ (0 < s.1 \/ 0 < s.2)) as Hiff.
  { rewrite orb_true_iff, !existsb_true_iff. setoid_rewrite Z.ltb_lt. naive_solver. }
  rewrite <- Hiff. destruct (_ || _); [by split; eauto|]. by split; [intros []|].
Qed.

Section theorems.
Context `{PyRuntime} `{UnicodeClasses}.

(** The window is the sentence itself, or spans at most the limit. *)
Lemma extend_window_bound content start stop candidates :
  let r := extend_window content start stop candidates in r = stop \/ (r - start <= _MAX_CONTEXT_CHARACTERS)%nat.
Proof.
  cbv zeta. revert stop. induction candidates as [|c l IH]; intros stop; cbn [extend_window]; [by left|]. destruct (_ || _); [by left|].
  destruct (Nat.ltb _ _) eqn:E; [by left|]. apply Nat.ltb_ge in E. destruct (IH (h_end c)) as [->|?]; by right.
Qed.
Lemma scores_lookup content query matches i h :
  matches !! i = Some h -> is_Some (scores content query matches !! i).
Proof. intros E. unfold scores. rewrite !list_lookup_fmap, E. eauto. Qed.
(** How the window was chosen. *)
Record chosen_window (content : text) (query : string) (start stop : nat) (lexical : bool) : Prop := {
  cw_sentence : exists i h, all_hits _BOUNDARY content !! i = Some h /\ start = h_start h /\
    (stop = h_end h \/ (stop - start <= _MAX_CONTEXT_CHARACTERS)%nat) /\
    (lexical = true -> exists s, first_best (scores content query (all_hits _BOUNDARY content)) (i, s)) /\
    (lexical = false -> i = O);
  cw_lexical : lexical = true <-> exists s, s ∈ scores content query (all_hits _BOUNDARY content) /\ (0 < s.1 \/ 0 < s.2);
}.
Lemma window_chosen content query start stop lexical :
  window_of content query = Some (start, stop, lexical) -> chosen_window content query start stop lexical.
Proof.
  unfold window_of. cbv zeta. set (choice := lexical_choice _). intros (h & Eh & E)%fmap_Some. unfold _bounded_context_window in E. injection E as -> -> ->.
  split.
  - exists (default O choice), h. split_and!; [done|done| |intros Hs|].
    + destruct (_is_structured_line _); [by left|]. apply extend_window_bound.
    + unfold choice in *. destruct (lexical_choice _) as [i|] eqn:El; [|done]. by apply lexical_choice_best.
    + by destruct choice.
  - rewrite <- lexical_choice_some. fold choice. apply isSome_true.
Qed.

(** The locator of the chunk is that of its content in [source]. *)
Definition chunk_located (chunk : ParsedChunk) (source : string) : Prop :=
  exists template l a b, build_locator template source a b = Ok l /\ source_locator chunk = Some l /\
    ch_content chunk = SourceLocators.slice source a b.
Lemma subspan_exists template l source a b r1 r2 :
  build_locator template source a b = Ok l -> 0 <= r1 -> r1 < r2 -> r2 <= b - a ->
  exists l', subspan_locator l (SourceLocators.slice source a b) r1 r2 = Ok l'.
Proof.
  unfold build_locator, subspan_locator. intros Hb Hr1 Hr Hr2. apply res_bind_ok in Hb as (s & Hb & Hl). injection Hl as <-.
  destruct (with_span_fields template s) as (-> & -> & -> & _ & ->). pose proof Hb as (Es & Ha & Hab & Hle & Hv)%build_ok.
  unfold subspan. rewrite Hv. rewrite raise_if_false by (rewrite neqb_false, Es; done).
  rewrite raise_if_false.
  - unfold make_span. cbn [negb]. rewrite raise_if_false by done.
    assert (SourceLocators.byte_start s = a) as -> by by rewrite Es.
    rewrite !raise_if_false by (rewrite ?Z.ltb_ge, ?Z.leb_gt; lia). cbn. eauto.
  - rewrite slice_length by lia. rewrite !orb_false_iff, !Z.ltb_ge, Z.leb_gt. lia.
Qed.
Lemma byte_length_pos (s : string) : s <> "" -> 0 < byte_length s.
Proof. unfold byte_length. destruct s; [done|]. cbn. lia. Qed.
Lemma byte_length_app (a b : string) : byte_length (a +:+ b) = byte_length a + byte_length b.
Proof. unfold byte_length. rewrite string_length_app. lia. Qed.

(** C36: a supporting span is chosen for every chunk with a locator and some text
    in the chosen window, and for no other; its locator resolves, in the
    document the chunk was cut from, to exactly the text of the span, which is
    a non-empty part of the chunk. *)
Theorem supporting_span_located (chunk : ParsedChunk) (source query : string) :
  chunk_located chunk source ->
  ((exists sp, select_supporting_span chunk query = Ok sp) <->
   exists start stop lexical, window_of (code_points (ch_content chunk)) query = Some (start, stop, lexical) /\
     concat_points (strip (PyRegex.slice (code_points (ch_content chunk)) start stop)) <> "") /\
  forall sp, select_supporting_span chunk query = Ok sp ->
    resolve_locator (ss_locator sp) source = Ok (ss_text sp) /\ ss_text sp <> "" /\
    exists pre post, ch_content chunk = pre +:+ ss_text sp +:+ post.
Proof.
  intros (template & l & a & b & Hb & Hl & Hc). set (content := code_points (ch_content chunk)) in *.
  assert (forall start stop, concat_points (strip (PyRegex.slice content start stop)) <> "" ->
            exists x z, ch_content chunk = x +:+ concat_points (strip (PyRegex.slice content start stop)) +:+ z /\
              x = concat_points (take (start + length (PyRegex.slice content start stop) - length (lstrip (PyRegex.slice content start stop)))%nat content)) as Hpos.
  { intros start stop Hne. destruct (strip_position content start stop) as [post Ep]; [by intros E; apply Hne; rewrite E|].
    eexists _, (concat_points post). split; [|reflexivity]. rewrite <- !concat_points_app, <- Ep. symmetry. apply concat_code_points. }
  unfold select_supporting_span. rewrite Hl. fold content. cbv beta iota zeta. split.
  - split.
    + intros [sp E]. destruct (window_of content query) as [[[start stop] lexical]|]; [|done]. exists start, stop, lexical. split; [done|].
      intros En. rewrite En in E. apply res_bind_ok in E as (l' & E & _). rewrite Hc in E.
      destruct (locator_resolves _ _ _ _ _ Hb) as (_ & Hsub & _). apply Hsub in E as (_ & _ & E & _). change (byte_length "") with 0 in E. lia.
    + intros (start & stop & lexical & -> & Hne). destruct (Hpos start stop Hne) as (x & z & Ex & <-).
      set (found := concat_points (strip (PyRegex.slice content start stop))) in *.
      destruct (subspan_exists template l source a b (byte_length x) (byte_length x + byte_length found) Hb) as [l' El'];
        [| | |rewrite Hc, El'; cbn [res_bind]; eauto].
      * unfold byte_length. lia.
      * pose proof (byte_length_pos _ Hne). lia.
      * pose proof Hb as Hb'. unfold build_locator in Hb'. apply res_bind_ok in Hb' as (s & (_ & ? & ? & ? & _)%build_ok & _).
        rewrite <- (slice_length source a b) by lia. rewrite <- Hc, Ex, !byte_length_app. assert (0 <= byte_length z) by (unfold byte_length; lia). lia.
  - intros sp E. destruct (window_of content query) as [[[start stop] lexical]|]; [|done]. apply res_bind_ok in E as (l' & E & Hsp). injection Hsp as <-.
    cbn [ss_text ss_locator]. rewrite Hc in E. destruct (locator_resolves _ _ _ _ _ Hb) as (_ & Hsub & _).
    apply Hsub in E as (Hr & H1 & H2 & H3).
    assert (concat_points (strip (PyRegex.slice content start stop)) <> "") as Hne.
    { intros En. rewrite En in H2. change (byte_length "") with 0 in H2. lia. }
    destruct (Hpos start stop Hne) as (x & z & Ex & Hx). rewrite <- Hx in *. rewrite Hr. split_and!; [|done|by exists x, z].
    assert (0 <= a) as Ha by (pose proof Hb as Hb'; unfold build_locator in Hb'; by apply res_bind_ok in Hb' as (s & (_ & ? & _)%build_ok & _)).
    rewrite <- slice_slice with (b := b) by lia. rewrite <- Hc, Ex. by rewrite byte_slice_middle.
Qed.

(** The sentence a span starts at. *)
Theorem supporting_span_chosen (chunk : ParsedChunk) (query : string) (sp : SupportingSpan) :
  select_supporting_span chunk query = Ok sp ->
  exists start stop, chosen_window (code_points (ch_content chunk)) query start stop (ss_eligible sp) /\
    ss_text sp = concat_points (strip (PyRegex.slice (code_points (ch_content chunk)) start stop)).
Proof.
  unfold select_supporting_span. destruct (source_locator chunk); [|done]. cbv beta iota zeta.
  destruct (window_of _ query) as [[[start stop] lexical]|] eqn:Ew; [|done]. intros E. apply res_bind_ok in E as (l' & _ & E). injection E as <-.
  exists start, stop. split; [by apply window_chosen|done].
Qed.
End theorems.

(** ** A concrete chunk *)
Module Demo.
#[local] Existing Instance ascii_runtime.
Definition classes : UnicodeClasses := {| unicode_word := cjk; unicode_decimal _ := false |}.
#[local] Existing Instance classes.
Definition body : string := "旧版本冲突需要核对。Requests over the limit return 429 concurrency_limit_exceeded. Retry later.".
Definition source : string := "# Errors" +:+ newline +:+ body.
Definition template : SourceLocator := V1 (mk_locator_v1 "api-errors" "1.0" (mk_span "" 0 0 "" "")).
Definition located : SourceLocator :=
  Eval vm_compute in match build_locator template source 9 (byte_length source) with Ok l => l | Err _ => template end.
Definition chunk_of (l : SourceLocator) : ParsedChunk :=
  mk_chunk "api-errors:c001" "api-errors" "product" "Errors" "Errors" 1 body 20 "" "1.0" "active" 0 None "api-errors" "" 3 None None
    (Some l) None None false.
Definition chunk : ParsedChunk := chunk_of located.
Definition query : string := "why do I get 429 concurrency_limit_exceeded".
Example chosen_text :
  match select_supporting_span chunk query with Ok sp => Some (ss_text sp, ss_eligible sp) | Err _ => None end =
  Some ("Requests over the limit return 429 concurrency_limit_exceeded. Retry later.", true).
Proof. vm_compute. reflexivity. Qed.
Example background_text :
  match select_supporting_span chunk "退款 refund" with Ok sp => Some (ss_text sp, ss_reason_code sp) | Err _ => None end =
  Some (body, "background_only_no_unique_support").
Proof. vm_compute. reflexivity. Qed.
Lemma chunk_in_source : chunk_located chunk source.
Proof.
  exists template, located, 9, (byte_length source). split; [vm_compute; reflexivity|]. split; [reflexivity|]. vm_compute. reflexivity.
Qed.
Lemma supporting_span_located_witness :
  chunk_located chunk source /\
  ((exists sp, select_supporting_span chunk query = Ok sp) <->
   exists start stop lexical, window_of (code_points (ch_content chunk)) query = Some (start, stop, lexical) /\
     concat_points (strip (PyRegex.slice (code_points (ch_content chunk)) start stop)) <> "") /\
  forall sp, select_supporting_span chunk query = Ok sp ->
    resolve_locator (ss_locator sp) source = Ok (ss_text sp) /\ ss_text sp <> "" /\
    exists pre post, ch_content chunk = pre +:+ ss_text sp +:+ post.
Proof. split; [exact chunk_in_source|]. exact (supporting_span_located chunk source query chunk_in_source). Defined.
End Demo.
