(* ===== verification/Store.v ===== *)
(** * The relational store

    The rows the runtime works on (db/entities), with the columns the modelled
    operations read or write, the tables as finite maps under their primary
    keys, and the session operations the services use on them.

    An operation is a function from a store to [res (A * store)]: an exception
    rolls the transaction back, so the caller keeps the old store.  Answers of
    [new_id] and of the clocks are arguments of the operations. *)
From S2P Require Import Prelude PyValue RefundPolicy.
Local Open Scope string_scope.
Local Open Scope list_scope.
Local Open Scope Z_scope.

(** Assignments to an ORM object, in program order. *)
Notation "x |> f" := (f x) (at level 50, left associativity, only parsing) : guard_scope.

(** ** Rows *)

(** db/entities/conversation.py: [SupportTicket]. *)
Record SupportTicket := mk_ticket {
  t_id : string; t_tenant_id : string; t_customer_id : string; t_status : string;
  t_lifecycle : string; t_automation_mode : string; t_title : option string; t_version : Z;
  t_next_event_sequence : Z; t_next_message_sequence : Z; t_next_dispatch_sequence : Z;
  t_final_response : option string; t_last_message_at : Z;
}.
Definition set_t_tenant_id (v : string) (r : SupportTicket) : SupportTicket :=
  mk_ticket (t_id r) v (t_customer_id r) (t_status r) (t_lifecycle r) (t_automation_mode r) (t_title r)
    (t_version r) (t_next_event_sequence r) (t_next_message_sequence r) (t_next_dispatch_sequence r)
    (t_final_response r) (t_last_message_at r).
Definition set_t_status (v : string) (r : SupportTicket) : SupportTicket :=
  mk_ticket (t_id r) (t_tenant_id r) (t_customer_id r) v (t_lifecycle r) (t_automation_mode r)
    (t_title r) (t_version r) (t_next_event_sequence r) (t_next_message_sequence r)
    (t_next_dispatch_sequence r) (t_final_response r) (t_last_message_at r).
Definition set_t_lifecycle (v : string) (r : SupportTicket) : SupportTicket :=
  mk_ticket (t_id r) (t_tenant_id r) (t_customer_id r) (t_status r) v (t_automation_mode r) (t_title r)
    (t_version r) (t_next_event_sequence r) (t_next_message_sequence r) (t_next_dispatch_sequence r)
    (t_final_response r) (t_last_message_at r).
Definition set_t_automation_mode (v : string) (r : SupportTicket) : SupportTicket :=
  mk_ticket (t_id r) (t_tenant_id r) (t_customer_id r) (t_status r) (t_lifecycle r) v (t_title r)
    (t_version r) (t_next_event_sequence r) (t_next_message_sequence r) (t_next_dispatch_sequence r)
    (t_final_response r) (t_last_message_at r).
Definition set_t_title (v : option string) (r : SupportTicket) : SupportTicket :=
  mk_ticket (t_id r) (t_tenant_id r) (t_customer_id r) (t_status r) (t_lifecycle r)
    (t_automation_mode r) v (t_version r) (t_next_event_sequence r) (t_next_message_sequence r)
    (t_next_dispatch_sequence r) (t_final_response r) (t_last_message_at r).
Definition set_t_version (v : Z) (r : SupportTicket) : SupportTicket :=
  mk_ticket (t_id r) (t_tenant_id r) (t_customer_id r) (t_status r) (t_lifecycle r)
    (t_automation_mode r) (t_title r) v (t_next_event_sequence r) (t_next_message_sequence r)
    (t_next_dispatch_sequence r) (t_final_response r) (t_last_message_at r).
Definition set_t_next_event_sequence (v : Z) (r : SupportTicket) : SupportTicket :=
  mk_ticket (t_id r) (t_tenant_id r) (t_customer_id r) (t_status r) (t_lifecycle r)
    (t_automation_mode r) (t_title r) (t_version r) v (t_next_message_sequence r)
    (t_next_dispatch_sequence r) (t_final_response r) (t_last_message_at r).
Definition set_t_next_message_sequence (v : Z) (r : SupportTicket) : SupportTicket :=
  mk_ticket (t_id r) (t_tenant_id r) (t_customer_id r) (t_status r) (t_lifecycle r)
    (t_automation_mode r) (t_title r) (t_version r) (t_next_event_sequence r) v
    (t_next_dispatch_sequence r) (t_final_response r) (t_last_message_at r).
Definition set_t_next_dispatch_sequence (v : Z) (r : SupportTicket) : SupportTicket :=
  mk_ticket (t_id r) (t_tenant_id r) (t_customer_id r) (t_status r) (t_lifecycle r)
    (t_automation_mode r) (t_title r) (t_version r) (t_next_event_sequence r)
    (t_next_message_sequence r) v (t_final_response r) (t_last_message_at r).
Definition set_t_final_response (v : option string) (r : SupportTicket) : SupportTicket :=
  mk_ticket (t_id r) (t_tenant_id r) (t_customer_id r) (t_status r) (t_lifecycle r)
    (t_automation_mode r) (t_title r) (t_version r) (t_next_event_sequence r)
    (t_next_message_sequence r) (t_next_dispatch_sequence r) v (t_last_message_at r).
Definition set_t_last_message_at (v : Z) (r : SupportTicket) : SupportTicket :=
  mk_ticket (t_id r) (t_tenant_id r) (t_customer_id r) (t_status r) (t_lifecycle r)
    (t_automation_mode r) (t_title r) (t_version r) (t_next_event_sequence r)
    (t_next_message_sequence r) (t_next_dispatch_sequence r) (t_final_response r) v.

(** db/entities/conversation.py: [TicketMessage]. *)
Record TicketMessage := mk_message {
  m_id : string; m_tenant_id : string; m_ticket_id : string; m_turn_id : option string;
  m_run_id : option string; m_approval_id : option string; m_conversation_sequence : option Z;
  m_message_kind : string; m_publication_key : option string; m_role : string; m_content : string;
  m_source_refs : pyval;
}.
Definition set_m_tenant_id (v : string) (r : TicketMessage) : TicketMessage :=
  mk_message (m_id r) v (m_ticket_id r) (m_turn_id r) (m_run_id r) (m_approval_id r)
    (m_conversation_sequence r) (m_message_kind r) (m_publication_key r) (m_role r) (m_content r)
    (m_source_refs r).
Definition set_m_turn_id (v : option string) (r : TicketMessage) : TicketMessage :=
  mk_message (m_id r) (m_tenant_id r) (m_ticket_id r) v (m_run_id r) (m_approval_id r)
    (m_conversation_sequence r) (m_message_kind r) (m_publication_key r) (m_role r) (m_content r)
    (m_source_refs r).
Definition set_m_run_id (v : option string) (r : TicketMessage) : TicketMessage :=
  mk_message (m_id r) (m_tenant_id r) (m_ticket_id r) (m_turn_id r) v (m_approval_id r)
    (m_conversation_sequence r) (m_message_kind r) (m_publication_key r) (m_role r) (m_content r)
    (m_source_refs r).
Definition set_m_conversation_sequence (v : option Z) (r : TicketMessage) : TicketMessage :=
  mk_message (m_id r) (m_tenant_id r) (m_ticket_id r) (m_turn_id r) (m_run_id r) (m_approval_id r) v
    (m_message_kind r) (m_publication_key r) (m_role r) (m_content r) (m_source_refs r).
Definition set_m_message_kind (v : string) (r : TicketMessage) : TicketMessage :=
  mk_message (m_id r) (m_tenant_id r) (m_ticket_id r) (m_turn_id r) (m_run_id r) (m_approval_id r)
    (m_conversation_sequence r) v (m_publication_key r) (m_role r) (m_content r) (m_source_refs r).
Definition set_m_source_refs (v : pyval) (r : TicketMessage) : TicketMessage :=
  mk_message (m_id r) (m_tenant_id r) (m_ticket_id r) (m_turn_id r) (m_run_id r) (m_approval_id r)
    (m_conversation_sequence r) (m_message_kind r) (m_publication_key r) (m_role r) (m_content r) v.

(** db/entities/conversation.py: [ConversationTurn]. *)
Record ConversationTurn := mk_turn {
  u_id : string; u_tenant_id : string; u_ticket_id : string; u_customer_message_id : string;
  u_run_id : option string; u_ordinal : Z; u_activity_state : string;
  u_result_state : option string; u_automation_mode : string; u_model : option string;
  u_provider_mode : option string; u_tool_call_mode : option string;
  u_context_version : option string; u_completed_at : option Z;
}.
Definition set_u_run_id (v : option string) (r : ConversationTurn) : ConversationTurn :=
  mk_turn (u_id r) (u_tenant_id r) (u_ticket_id r) (u_customer_message_id r) v (u_ordinal r)
    (u_activity_state r) (u_result_state r) (u_automation_mode r) (u_model r) (u_provider_mode r)
    (u_tool_call_mode r) (u_context_version r) (u_completed_at r).
Definition set_u_activity_state (v : string) (r : ConversationTurn) : ConversationTurn :=
  mk_turn (u_id r) (u_tenant_id r) (u_ticket_id r) (u_customer_message_id r) (u_run_id r) (u_ordinal r)
    v (u_result_state r) (u_automation_mode r) (u_model r) (u_provider_mode r) (u_tool_call_mode r)
    (u_context_version r) (u_completed_at r).
Definition set_u_result_state (v : option string) (r : ConversationTurn) : ConversationTurn :=
  mk_turn (u_id r) (u_tenant_id r) (u_ticket_id r) (u_customer_message_id r) (u_run_id r) (u_ordinal r)
    (u_activity_state r) v (u_automation_mode r) (u_model r) (u_provider_mode r) (u_tool_call_mode r)
    (u_context_version r) (u_completed_at r).
Definition set_u_model (v : option string) (r : ConversationTurn) : ConversationTurn :=
  mk_turn (u_id r) (u_tenant_id r) (u_ticket_id r) (u_customer_message_id r) (u_run_id r) (u_ordinal r)
    (u_activity_state r) (u_result_state r) (u_automation_mode r) v (u_provider_mode r)
    (u_tool_call_mode r) (u_context_version r) (u_completed_at r).
Definition set_u_provider_mode (v : option string) (r : ConversationTurn) : ConversationTurn :=
  mk_turn (u_id r) (u_tenant_id r) (u_ticket_id r) (u_customer_message_id r) (u_run_id r) (u_ordinal r)
    (u_activity_state r) (u_result_state r) (u_automation_mode r) (u_model r) v (u_tool_call_mode r)
    (u_context_version r) (u_completed_at r).
Definition set_u_tool_call_mode (v : option string) (r : ConversationTurn) : ConversationTurn :=
  mk_turn (u_id r) (u_tenant_id r) (u_ticket_id r) (u_customer_message_id r) (u_run_id r) (u_ordinal r)
    (u_activity_state r) (u_result_state r) (u_automation_mode r) (u_model r) (u_provider_mode r) v
    (u_context_version r) (u_completed_at r).
Definition set_u_context_version (v : option string) (r : ConversationTurn) : ConversationTurn :=
  mk_turn (u_id r) (u_tenant_id r) (u_ticket_id r) (u_customer_message_id r) (u_run_id r) (u_ordinal r)
    (u_activity_state r) (u_result_state r) (u_automation_mode r) (u_model r) (u_provider_mode r)
    (u_tool_call_mode r) v (u_completed_at r).
Definition set_u_completed_at (v : option Z) (r : ConversationTurn) : ConversationTurn :=
  mk_turn (u_id r) (u_tenant_id r) (u_ticket_id r) (u_customer_message_id r) (u_run_id r) (u_ordinal r)
    (u_activity_state r) (u_result_state r) (u_automation_mode r) (u_model r) (u_provider_mode r)
    (u_tool_call_mode r) (u_context_version r) v.

(** db/entities/agent.py: [AgentRun]. *)
Record AgentRun := mk_run {
  r_id : string; r_tenant_id : string; r_ticket_id : string; r_customer_id : string;
  r_message_id : string; r_turn_id : option string; r_status : string; r_status_version : Z;
  r_next_run_sequence : Z; r_active_job_id : option string; r_active_fencing_token : option Z;
  r_error_code : option string; r_completed_at : option Z; r_step_index : Z; r_tool_rounds : Z;
  r_tool_attempts : Z; r_llm_calls : Z; r_checkpoint_stage : string;
  r_checkpoint_id : option string; r_agent_finish_reason : option string; r_model : string;
  r_provider_mode : string; r_tool_call_mode : string; r_context_version : string;
  r_canonical_checkpoint_ns : option string; r_canonical_checkpoint_id : option string;
  r_canonical_checkpoint_hash : option string; r_canonical_checkpoint_version : Z;
}.
Definition set_r_tenant_id (v : string) (r : AgentRun) : AgentRun :=
  mk_run (r_id r) v (r_ticket_id r) (r_customer_id r) (r_message_id r) (r_turn_id r) (r_status r)
    (r_status_version r) (r_next_run_sequence r) (r_active_job_id r) (r_active_fencing_token r)
    (r_error_code r) (r_completed_at r) (r_step_index r) (r_tool_rounds r) (r_tool_attempts r)
    (r_llm_calls r) (r_checkpoint_stage r) (r_checkpoint_id r) (r_agent_finish_reason r) (r_model r)
    (r_provider_mode r) (r_tool_call_mode r) (r_context_version r) (r_canonical_checkpoint_ns r)
    (r_canonical_checkpoint_id r) (r_canonical_checkpoint_hash r) (r_canonical_checkpoint_version r).
Definition set_r_turn_id (v : option string) (r : AgentRun) : AgentRun :=
  mk_run (r_id r) (r_tenant_id r) (r_ticket_id r) (r_customer_id r) (r_message_id r) v (r_status r)
    (r_status_version r) (r_next_run_sequence r) (r_active_job_id r) (r_active_fencing_token r)
    (r_error_code r) (r_completed_at r) (r_step_index r) (r_tool_rounds r) (r_tool_attempts r)
    (r_llm_calls r) (r_checkpoint_stage r) (r_checkpoint_id r) (r_agent_finish_reason r) (r_model r)
    (r_provider_mode r) (r_tool_call_mode r) (r_context_version r) (r_canonical_checkpoint_ns r)
    (r_canonical_checkpoint_id r) (r_canonical_checkpoint_hash r) (r_canonical_checkpoint_version r).
Definition set_r_status (v : string) (r : AgentRun) : AgentRun :=
  mk_run (r_id r) (r_tenant_id r) (r_ticket_id r) (r_customer_id r) (r_message_id r) (r_turn_id r) v
    (r_status_version r) (r_next_run_sequence r) (r_active_job_id r) (r_active_fencing_token r)
    (r_error_code r) (r_completed_at r) (r_step_index r) (r_tool_rounds r) (r_tool_attempts r)
    (r_llm_calls r) (r_checkpoint_stage r) (r_checkpoint_id r) (r_agent_finish_reason r) (r_model r)
    (r_provider_mode r) (r_tool_call_mode r) (r_context_version r) (r_canonical_checkpoint_ns r)
    (r_canonical_checkpoint_id r) (r_canonical_checkpoint_hash r) (r_canonical_checkpoint_version r).
Definition set_r_status_version (v : Z) (r : AgentRun) : AgentRun :=
  mk_run (r_id r) (r_tenant_id r) (r_ticket_id r) (r_customer_id r) (r_message_id r) (r_turn_id r)
    (r_status r) v (r_next_run_sequence r) (r_active_job_id r) (r_active_fencing_token r)
    (r_error_code r) (r_completed_at r) (r_step_index r) (r_tool_rounds r) (r_tool_attempts r)
    (r_llm_calls r) (r_checkpoint_stage r) (r_checkpoint_id r) (r_agent_finish_reason r) (r_model r)
    (r_provider_mode r) (r_tool_call_mode r) (r_context_version r) (r_canonical_checkpoint_ns r)
    (r_canonical_checkpoint_id r) (r_canonical_checkpoint_hash r) (r_canonical_checkpoint_version r).
Definition set_r_next_run_sequence (v : Z) (r : AgentRun) : AgentRun :=
  mk_run (r_id r) (r_tenant_id r) (r_ticket_id r) (r_customer_id r) (r_message_id r) (r_turn_id r)
    (r_status r) (r_status_version r) v (r_active_job_id r) (r_active_fencing_token r) (r_error_code r)
    (r_completed_at r) (r_step_index r) (r_tool_rounds r) (r_tool_attempts r) (r_llm_calls r)
    (r_checkpoint_stage r) (r_checkpoint_id r) (r_agent_finish_reason r) (r_model r) (r_provider_mode r)
    (r_tool_call_mode r) (r_context_version r) (r_canonical_checkpoint_ns r)
    (r_canonical_checkpoint_id r) (r_canonical_checkpoint_hash r) (r_canonical_checkpoint_version r).
Definition set_r_active_job_id (v : option string) (r : AgentRun) : AgentRun :=
  mk_run (r_id r) (r_tenant_id r) (r_ticket_id r) (r_customer_id r) (r_message_id r) (r_turn_id r)
    (r_status r) (r_status_version r) (r_next_run_sequence r) v (r_active_fencing_token r)
    (r_error_code r) (r_completed_at r) (r_step_index r) (r_tool_rounds r) (r_tool_attempts r)
    (r_llm_calls r) (r_checkpoint_stage r) (r_checkpoint_id r) (r_agent_finish_reason r) (r_model r)
    (r_provider_mode r) (r_tool_call_mode r) (r_context_version r) (r_canonical_checkpoint_ns r)
    (r_canonical_checkpoint_id r) (r_canonical_checkpoint_hash r) (r_canonical_checkpoint_version r).
Definition set_r_active_fencing_token (v : option Z) (r : AgentRun) : AgentRun :=
  mk_run (r_id r) (r_tenant_id r) (r_ticket_id r) (r_customer_id r) (r_message_id r) (r_turn_id r)
    (r_status r) (r_status_version r) (r_next_run_sequence r) (r_active_job_id r) v (r_error_code r)
    (r_completed_at r) (r_step_index r) (r_tool_rounds r) (r_tool_attempts r) (r_llm_calls r)
    (r_checkpoint_stage r) (r_checkpoint_id r) (r_agent_finish_reason r) (r_model r) (r_provider_mode r)
    (r_tool_call_mode r) (r_context_version r) (r_canonical_checkpoint_ns r)
    (r_canonical_checkpoint_id r) (r_canonical_checkpoint_hash r) (r_canonical_checkpoint_version r).
Definition set_r_error_code (v : option string) (r : AgentRun) : AgentRun :=
  mk_run (r_id r) (r_tenant_id r) (r_ticket_id r) (r_customer_id r) (r_message_id r) (r_turn_id r)
    (r_status r) (r_status_version r) (r_next_run_sequence r) (r_active_job_id r)
    (r_active_fencing_token r) v (r_completed_at r) (r_step_index r) (r_tool_rounds r)
    (r_tool_attempts r) (r_llm_calls r) (r_checkpoint_stage r) (r_checkpoint_id r)
    (r_agent_finish_reason r) (r_model r) (r_provider_mode r) (r_tool_call_mode r) (r_context_version r)
    (r_canonical_checkpoint_ns r) (r_canonical_checkpoint_id r) (r_canonical_checkpoint_hash r)
    (r_canonical_checkpoint_version r).
Definition set_r_completed_at (v : option Z) (r : AgentRun) : AgentRun :=
  mk_run (r_id r) (r_tenant_id r) (r_ticket_id r) (r_customer_id r) (r_message_id r) (r_turn_id r)
    (r_status r) (r_status_version r) (r_next_run_sequence r) (r_active_job_id r)
    (r_active_fencing_token r) (r_error_code r) v (r_step_index r) (r_tool_rounds r) (r_tool_attempts r)
    (r_llm_calls r) (r_checkpoint_stage r) (r_checkpoint_id r) (r_agent_finish_reason r) (r_model r)
    (r_provider_mode r) (r_tool_call_mode r) (r_context_version r) (r_canonical_checkpoint_ns r)
    (r_canonical_checkpoint_id r) (r_canonical_checkpoint_hash r) (r_canonical_checkpoint_version r).
Definition set_r_step_index (v : Z) (r : AgentRun) : AgentRun :=
  mk_run (r_id r) (r_tenant_id r) (r_ticket_id r) (r_customer_id r) (r_message_id r) (r_turn_id r)
    (r_status r) (r_status_version r) (r_next_run_sequence r) (r_active_job_id r)
    (r_active_fencing_token r) (r_error_code r) (r_completed_at r) v (r_tool_rounds r)
    (r_tool_attempts r) (r_llm_calls r) (r_checkpoint_stage r) (r_checkpoint_id r)
    (r_agent_finish_reason r) (r_model r) (r_provider_mode r) (r_tool_call_mode r) (r_context_version r)
    (r_canonical_checkpoint_ns r) (r_canonical_checkpoint_id r) (r_canonical_checkpoint_hash r)
    (r_canonical_checkpoint_version r).
Definition set_r_tool_rounds (v : Z) (r : AgentRun) : AgentRun :=
  mk_run (r_id r) (r_tenant_id r) (r_ticket_id r) (r_customer_id r) (r_message_id r) (r_turn_id r)
    (r_status r) (r_status_version r) (r_next_run_sequence r) (r_active_job_id r)
    (r_active_fencing_token r) (r_error_code r) (r_completed_at r) (r_step_index r) v
    (r_tool_attempts r) (r_llm_calls r) (r_checkpoint_stage r) (r_checkpoint_id r)
    (r_agent_finish_reason r) (r_model r) (r_provider_mode r) (r_tool_call_mode r) (r_context_version r)
    (r_canonical_checkpoint_ns r) (r_canonical_checkpoint_id r) (r_canonical_checkpoint_hash r)
    (r_canonical_checkpoint_version r).
Definition set_r_tool_attempts (v : Z) (r : AgentRun) : AgentRun :=
  mk_run (r_id r) (r_tenant_id r) (r_ticket_id r) (r_customer_id r) (r_message_id r) (r_turn_id r)
    (r_status r) (r_status_version r) (r_next_run_sequence r) (r_active_job_id r)
    (r_active_fencing_token r) (r_error_code r) (r_completed_at r) (r_step_index r) (r_tool_rounds r) v
    (r_llm_calls r) (r_checkpoint_stage r) (r_checkpoint_id r) (r_agent_finish_reason r) (r_model r)
    (r_provider_mode r) (r_tool_call_mode r) (r_context_version r) (r_canonical_checkpoint_ns r)
    (r_canonical_checkpoint_id r) (r_canonical_checkpoint_hash r) (r_canonical_checkpoint_version r).
Definition set_r_llm_calls (v : Z) (r : AgentRun) : AgentRun :=
  mk_run (r_id r) (r_tenant_id r) (r_ticket_id r) (r_customer_id r) (r_message_id r) (r_turn_id r)
    (r_status r) (r_status_version r) (r_next_run_sequence r) (r_active_job_id r)
    (r_active_fencing_token r) (r_error_code r) (r_completed_at r) (r_step_index r) (r_tool_rounds r)
    (r_tool_attempts r) v (r_checkpoint_stage r) (r_checkpoint_id r) (r_agent_finish_reason r)
    (r_model r) (r_provider_mode r) (r_tool_call_mode r) (r_context_version r)
    (r_canonical_checkpoint_ns r) (r_canonical_checkpoint_id r) (r_canonical_checkpoint_hash r)
    (r_canonical_checkpoint_version r).
Definition set_r_checkpoint_stage (v : string) (r : AgentRun) : AgentRun :=
  mk_run (r_id r) (r_tenant_id r) (r_ticket_id r) (r_customer_id r) (r_message_id r) (r_turn_id r)
    (r_status r) (r_status_version r) (r_next_run_sequence r) (r_active_job_id r)
    (r_active_fencing_token r) (r_error_code r) (r_completed_at r) (r_step_index r) (r_tool_rounds r)
    (r_tool_attempts r) (r_llm_calls r) v (r_checkpoint_id r) (r_agent_finish_reason r) (r_model r)
    (r_provider_mode r) (r_tool_call_mode r) (r_context_version r) (r_canonical_checkpoint_ns r)
    (r_canonical_checkpoint_id r) (r_canonical_checkpoint_hash r) (r_canonical_checkpoint_version r).
Definition set_r_checkpoint_id (v : option string) (r : AgentRun) : AgentRun :=
  mk_run (r_id r) (r_tenant_id r) (r_ticket_id r) (r_customer_id r) (r_message_id r) (r_turn_id r)
    (r_status r) (r_status_version r) (r_next_run_sequence r) (r_active_job_id r)
    (r_active_fencing_token r) (r_error_code r) (r_completed_at r) (r_step_index r) (r_tool_rounds r)
    (r_tool_attempts r) (r_llm_calls r) (r_checkpoint_stage r) v (r_agent_finish_reason r) (r_model r)
    (r_provider_mode r) (r_tool_call_mode r) (r_context_version r) (r_canonical_checkpoint_ns r)
    (r_canonical_checkpoint_id r) (r_canonical_checkpoint_hash r) (r_canonical_checkpoint_version r).
Definition set_r_agent_finish_reason (v : option string) (r : AgentRun) : AgentRun :=
  mk_run (r_id r) (r_tenant_id r) (r_ticket_id r) (r_customer_id r) (r_message_id r) (r_turn_id r)
    (r_status r) (r_status_version r) (r_next_run_sequence r) (r_active_job_id r)
    (r_active_fencing_token r) (r_error_code r) (r_completed_at r) (r_step_index r) (r_tool_rounds r)
    (r_tool_attempts r) (r_llm_calls r) (r_checkpoint_stage r) (r_checkpoint_id r) v (r_model r)
    (r_provider_mode r) (r_tool_call_mode r) (r_context_version r) (r_canonical_checkpoint_ns r)
    (r_canonical_checkpoint_id r) (r_canonical_checkpoint_hash r) (r_canonical_checkpoint_version r).

(** db/entities/agent.py: [RuntimeJob]. *)
Record RuntimeJob := mk_job {
  j_id : string; j_tenant_id : string; j_ticket_id : string; j_run_id : string;
  j_dispatch_sequence : Z; j_approval_id : option string; j_kind : string; j_status : string;
  j_status_version : Z; j_attempt : Z; j_available_at : Z; j_created_at : Z;
  j_lease_owner : option string; j_lease_expires_at : option Z; j_heartbeat_at : option Z;
  j_fencing_token : Z; j_outcome : option string; j_last_error : option string;
}.
Definition set_j_status (v : string) (r : RuntimeJob) : RuntimeJob :=
  mk_job (j_id r) (j_tenant_id r) (j_ticket_id r) (j_run_id r) (j_dispatch_sequence r) (j_approval_id r)
    (j_kind r) v (j_status_version r) (j_attempt r) (j_available_at r) (j_created_at r)
    (j_lease_owner r) (j_lease_expires_at r) (j_heartbeat_at r) (j_fencing_token r) (j_outcome r)
    (j_last_error r).
Definition set_j_status_version (v : Z) (r : RuntimeJob) : RuntimeJob :=
  mk_job (j_id r) (j_tenant_id r) (j_ticket_id r) (j_run_id r) (j_dispatch_sequence r) (j_approval_id r)
    (j_kind r) (j_status r) v (j_attempt r) (j_available_at r) (j_created_at r) (j_lease_owner r)
    (j_lease_expires_at r) (j_heartbeat_at r) (j_fencing_token r) (j_outcome r) (j_last_error r).
Definition set_j_attempt (v : Z) (r : RuntimeJob) : RuntimeJob :=
  mk_job (j_id r) (j_tenant_id r) (j_ticket_id r) (j_run_id r) (j_dispatch_sequence r) (j_approval_id r)
    (j_kind r) (j_status r) (j_status_version r) v (j_available_at r) (j_created_at r) (j_lease_owner r)
    (j_lease_expires_at r) (j_heartbeat_at r) (j_fencing_token r) (j_outcome r) (j_last_error r).
Definition set_j_available_at (v : Z) (r : RuntimeJob) : RuntimeJob :=
  mk_job (j_id r) (j_tenant_id r) (j_ticket_id r) (j_run_id r) (j_dispatch_sequence r) (j_approval_id r)
    (j_kind r) (j_status r) (j_status_version r) (j_attempt r) v (j_created_at r) (j_lease_owner r)
    (j_lease_expires_at r) (j_heartbeat_at r) (j_fencing_token r) (j_outcome r) (j_last_error r).
Definition set_j_lease_owner (v : option string) (r : RuntimeJob) : RuntimeJob :=
  mk_job (j_id r) (j_tenant_id r) (j_ticket_id r) (j_run_id r) (j_dispatch_sequence r) (j_approval_id r)
    (j_kind r) (j_status r) (j_status_version r) (j_attempt r) (j_available_at r) (j_created_at r) v
    (j_lease_expires_at r) (j_heartbeat_at r) (j_fencing_token r) (j_outcome r) (j_last_error r).
Definition set_j_lease_expires_at (v : option Z) (r : RuntimeJob) : RuntimeJob :=
  mk_job (j_id r) (j_tenant_id r) (j_ticket_id r) (j_run_id r) (j_dispatch_sequence r) (j_approval_id r)
    (j_kind r) (j_status r) (j_status_version r) (j_attempt r) (j_available_at r) (j_created_at r)
    (j_lease_owner r) v (j_heartbeat_at r) (j_fencing_token r) (j_outcome r) (j_last_error r).
Definition set_j_heartbeat_at (v : option Z) (r : RuntimeJob) : RuntimeJob :=
  mk_job (j_id r) (j_tenant_id r) (j_ticket_id r) (j_run_id r) (j_dispatch_sequence r) (j_approval_id r)
    (j_kind r) (j_status r) (j_status_version r) (j_attempt r) (j_available_at r) (j_created_at r)
    (j_lease_owner r) (j_lease_expires_at r) v (j_fencing_token r) (j_outcome r) (j_last_error r).
Definition set_j_fencing_token (v : Z) (r : RuntimeJob) : RuntimeJob :=
  mk_job (j_id r) (j_tenant_id r) (j_ticket_id r) (j_run_id r) (j_dispatch_sequence r) (j_approval_id r)
    (j_kind r) (j_status r) (j_status_version r) (j_attempt r) (j_available_at r) (j_created_at r)
    (j_lease_owner r) (j_lease_expires_at r) (j_heartbeat_at r) v (j_outcome r) (j_last_error r).
Definition set_j_outcome (v : option string) (r : RuntimeJob) : RuntimeJob :=
  mk_job (j_id r) (j_tenant_id r) (j_ticket_id r) (j_run_id r) (j_dispatch_sequence r) (j_approval_id r)
    (j_kind r) (j_status r) (j_status_version r) (j_attempt r) (j_available_at r) (j_created_at r)
    (j_lease_owner r) (j_lease_expires_at r) (j_heartbeat_at r) (j_fencing_token r) v (j_last_error r).
Definition set_j_last_error (v : option string) (r : RuntimeJob) : RuntimeJob :=
  mk_job (j_id r) (j_tenant_id r) (j_ticket_id r) (j_run_id r) (j_dispatch_sequence r) (j_approval_id r)
    (j_kind r) (j_status r) (j_status_version r) (j_attempt r) (j_available_at r) (j_created_at r)
    (j_lease_owner r) (j_lease_expires_at r) (j_heartbeat_at r) (j_fencing_token r) (j_outcome r) v.

(** db/entities/agent.py: [CheckpointCommitMarker]. *)
Record CheckpointCommitMarker := mk_marker {
  k_id : string; k_job_id : string; k_status : string; k_status_version : Z; k_tenant_id : string;
  k_final_checkpoint_id : option string; k_final_checkpoint_hash : option string;
  k_final_checkpoint_version : option Z;
}.
Definition set_k_status (v : string) (r : CheckpointCommitMarker) : CheckpointCommitMarker :=
  mk_marker (k_id r) (k_job_id r) v (k_status_version r) (k_tenant_id r) (k_final_checkpoint_id r)
    (k_final_checkpoint_hash r) (k_final_checkpoint_version r).
Definition set_k_status_version (v : Z) (r : CheckpointCommitMarker) : CheckpointCommitMarker :=
  mk_marker (k_id r) (k_job_id r) (k_status r) v (k_tenant_id r) (k_final_checkpoint_id r)
    (k_final_checkpoint_hash r) (k_final_checkpoint_version r).

(** db/entities/agent.py: [AgentEvent]. *)
Record AgentEvent := mk_event {
  e_id : string; e_tenant_id : string; e_run_id : string; e_ticket_id : string;
  e_customer_id : string; e_ticket_sequence : Z; e_run_sequence : Z; e_step_index : Z;
  e_tool_round : Z; e_event_type : string; e_status : string; e_visibility : string;
  e_tool_call_id : option string; e_payload : pyval; e_payload_hash : string;
  e_previous_event_id : option string; e_parent_event_hash : string; e_event_hash : string;
  e_event_schema_version : string; e_canonicalization_version : string;
  e_event_hash_schema_version : string; e_correlation_id : string; e_causation_id : option string;
  e_idempotency_id : option string; e_job_id : option string; e_delivery_generation : option Z;
  e_fencing_token : option Z; e_created_at : datetime;
}.
Definition set_e_event_hash (v : string) (r : AgentEvent) : AgentEvent :=
  mk_event (e_id r) (e_tenant_id r) (e_run_id r) (e_ticket_id r) (e_customer_id r) (e_ticket_sequence r)
    (e_run_sequence r) (e_step_index r) (e_tool_round r) (e_event_type r) (e_status r) (e_visibility r)
    (e_tool_call_id r) (e_payload r) (e_payload_hash r) (e_previous_event_id r) (e_parent_event_hash r)
    v (e_event_schema_version r) (e_canonicalization_version r) (e_event_hash_schema_version r)
    (e_correlation_id r) (e_causation_id r) (e_idempotency_id r) (e_job_id r) (e_delivery_generation r)
    (e_fencing_token r) (e_created_at r).

(** db/entities/action.py: [ApprovalRequest]. *)
Record ApprovalRequest := mk_approval {
  a_id : string; a_tenant_id : string; a_ticket_id : string; a_customer_id : string;
  a_proposal_id : option string; a_run_id : option string; a_action_type : string;
  a_resource_type : string; a_resource_id : string; a_status : string; a_status_version : Z;
  a_decided_at : option Z; a_action_payload : pydict; a_action_hash : string;
  a_business_version : Z; a_idempotency_key : string; a_consumed_at : option Z;
  a_selected_revision_id : option string; a_selected_revision_number : option Z;
  a_marker_id : option string; a_checkpoint_id : option string;
  a_canonical_checkpoint_ns : option string; a_canonical_checkpoint_hash : option string;
  a_checkpoint_version : Z; a_expected_ticket_head_event_id : option string;
  a_expected_ticket_sequence : option Z; a_expected_ticket_event_hash : option string;
}.
Definition set_a_status (v : string) (r : ApprovalRequest) : ApprovalRequest :=
  mk_approval (a_id r) (a_tenant_id r) (a_ticket_id r) (a_customer_id r) (a_proposal_id r) (a_run_id r)
    (a_action_type r) (a_resource_type r) (a_resource_id r) v (a_status_version r) (a_decided_at r)
    (a_action_payload r) (a_action_hash r) (a_business_version r) (a_idempotency_key r)
    (a_consumed_at r) (a_selected_revision_id r) (a_selected_revision_number r) (a_marker_id r)
    (a_checkpoint_id r) (a_canonical_checkpoint_ns r) (a_canonical_checkpoint_hash r)
    (a_checkpoint_version r) (a_expected_ticket_head_event_id r) (a_expected_ticket_sequence r)
    (a_expected_ticket_event_hash r).
Definition set_a_status_version (v : Z) (r : ApprovalRequest) : ApprovalRequest :=
  mk_approval (a_id r) (a_tenant_id r) (a_ticket_id r) (a_customer_id r) (a_proposal_id r) (a_run_id r)
    (a_action_type r) (a_resource_type r) (a_resource_id r) (a_status r) v (a_decided_at r)
    (a_action_payload r) (a_action_hash r) (a_business_version r) (a_idempotency_key r)
    (a_consumed_at r) (a_selected_revision_id r) (a_selected_revision_number r) (a_marker_id r)
    (a_checkpoint_id r) (a_canonical_checkpoint_ns r) (a_canonical_checkpoint_hash r)
    (a_checkpoint_version r) (a_expected_ticket_head_event_id r) (a_expected_ticket_sequence r)
    (a_expected_ticket_event_hash r).
Definition set_a_decided_at (v : option Z) (r : ApprovalRequest) : ApprovalRequest :=
  mk_approval (a_id r) (a_tenant_id r) (a_ticket_id r) (a_customer_id r) (a_proposal_id r) (a_run_id r)
    (a_action_type r) (a_resource_type r) (a_resource_id r) (a_status r) (a_status_version r) v
    (a_action_payload r) (a_action_hash r) (a_business_version r) (a_idempotency_key r)
    (a_consumed_at r) (a_selected_revision_id r) (a_selected_revision_number r) (a_marker_id r)
    (a_checkpoint_id r) (a_canonical_checkpoint_ns r) (a_canonical_checkpoint_hash r)
    (a_checkpoint_version r) (a_expected_ticket_head_event_id r) (a_expected_ticket_sequence r)
    (a_expected_ticket_event_hash r).
Definition set_a_consumed_at (v : option Z) (r : ApprovalRequest) : ApprovalRequest :=
  mk_approval (a_id r) (a_tenant_id r) (a_ticket_id r) (a_customer_id r) (a_proposal_id r) (a_run_id r)
    (a_action_type r) (a_resource_type r) (a_resource_id r) (a_status r) (a_status_version r)
    (a_decided_at r) (a_action_payload r) (a_action_hash r) (a_business_version r) (a_idempotency_key r)
    v (a_selected_revision_id r) (a_selected_revision_number r) (a_marker_id r) (a_checkpoint_id r)
    (a_canonical_checkpoint_ns r) (a_canonical_checkpoint_hash r) (a_checkpoint_version r)
    (a_expected_ticket_head_event_id r) (a_expected_ticket_sequence r) (a_expected_ticket_event_hash r).
Definition set_a_selected_revision_id (v : option string) (r : ApprovalRequest) : ApprovalRequest :=
  mk_approval (a_id r) (a_tenant_id r) (a_ticket_id r) (a_customer_id r) (a_proposal_id r) (a_run_id r)
    (a_action_type r) (a_resource_type r) (a_resource_id r) (a_status r) (a_status_version r)
    (a_decided_at r) (a_action_payload r) (a_action_hash r) (a_business_version r) (a_idempotency_key r)
    (a_consumed_at r) v (a_selected_revision_number r) (a_marker_id r) (a_checkpoint_id r)
    (a_canonical_checkpoint_ns r) (a_canonical_checkpoint_hash r) (a_checkpoint_version r)
    (a_expected_ticket_head_event_id r) (a_expected_ticket_sequence r) (a_expected_ticket_event_hash r).
Definition set_a_selected_revision_number (v : option Z) (r : ApprovalRequest) : ApprovalRequest :=
  mk_approval (a_id r) (a_tenant_id r) (a_ticket_id r) (a_customer_id r) (a_proposal_id r) (a_run_id r)
    (a_action_type r) (a_resource_type r) (a_resource_id r) (a_status r) (a_status_version r)
    (a_decided_at r) (a_action_payload r) (a_action_hash r) (a_business_version r) (a_idempotency_key r)
    (a_consumed_at r) (a_selected_revision_id r) v (a_marker_id r) (a_checkpoint_id r)
    (a_canonical_checkpoint_ns r) (a_canonical_checkpoint_hash r) (a_checkpoint_version r)
    (a_expected_ticket_head_event_id r) (a_expected_ticket_sequence r) (a_expected_ticket_event_hash r).

(** db/entities/action.py: [ProposalRecord]. *)
Record ProposalRecord := mk_proposal {
  p_id : string; p_tenant_id : string; p_run_id : string; p_action_type : string;
  p_resource_id : string; p_resource_version : Z; p_status : string; p_status_version : Z;
  p_action_payload : pydict; p_action_hash : string; p_observation_binding : list pydict;
  p_refund_binding : RefundBinding;
}.
Definition set_p_status (v : string) (r : ProposalRecord) : ProposalRecord :=
  mk_proposal (p_id r) (p_tenant_id r) (p_run_id r) (p_action_type r) (p_resource_id r)
    (p_resource_version r) v (p_status_version r) (p_action_payload r) (p_action_hash r)
    (p_observation_binding r) (p_refund_binding r).
Definition set_p_status_version (v : Z) (r : ProposalRecord) : ProposalRecord :=
  mk_proposal (p_id r) (p_tenant_id r) (p_run_id r) (p_action_type r) (p_resource_id r)
    (p_resource_version r) (p_status r) v (p_action_payload r) (p_action_hash r)
    (p_observation_binding r) (p_refund_binding r).
Definition set_p_refund_binding (v : RefundBinding) (r : ProposalRecord) : ProposalRecord :=
  mk_proposal (p_id r) (p_tenant_id r) (p_run_id r) (p_action_type r) (p_resource_id r)
    (p_resource_version r) (p_status r) (p_status_version r) (p_action_payload r) (p_action_hash r)
    (p_observation_binding r) v.

(** db/entities/audit.py: [IdempotencyRequest]. *)
Record IdempotencyRequest := mk_idempotency {
  i_id : string; i_tenant_id : string; i_principal_id : string; i_route : string;
  i_idempotency_key : string; i_request_hash : string; i_resource_ids : pydict;
  i_response_snapshot : pydict; i_expires_at : option Z; i_completed_at : option Z;
  i_retention_class : string;
}.
Definition set_i_resource_ids (v : pydict) (r : IdempotencyRequest) : IdempotencyRequest :=
  mk_idempotency (i_id r) (i_tenant_id r) (i_principal_id r) (i_route r) (i_idempotency_key r)
    (i_request_hash r) v (i_response_snapshot r) (i_expires_at r) (i_completed_at r)
    (i_retention_class r).
Definition set_i_response_snapshot (v : pydict) (r : IdempotencyRequest) : IdempotencyRequest :=
  mk_idempotency (i_id r) (i_tenant_id r) (i_principal_id r) (i_route r) (i_idempotency_key r)
    (i_request_hash r) (i_resource_ids r) v (i_expires_at r) (i_completed_at r) (i_retention_class r).
Definition set_i_completed_at (v : option Z) (r : IdempotencyRequest) : IdempotencyRequest :=
  mk_idempotency (i_id r) (i_tenant_id r) (i_principal_id r) (i_route r) (i_idempotency_key r)
    (i_request_hash r) (i_resource_ids r) (i_response_snapshot r) (i_expires_at r) v
    (i_retention_class r).
Definition set_i_retention_class (v : string) (r : IdempotencyRequest) : IdempotencyRequest :=
  mk_idempotency (i_id r) (i_tenant_id r) (i_principal_id r) (i_route r) (i_idempotency_key r)
    (i_request_hash r) (i_resource_ids r) (i_response_snapshot r) (i_expires_at r) (i_completed_at r) v.

(** db/entities/audit.py: [OutboxEvent]. *)
Record OutboxEvent := mk_outbox {
  o_id : string; o_delivery_id : string; o_redis_message_id : option string; o_tenant_id : string;
  o_job_id : string; o_run_id : string; o_delivery_generation : Z; o_event_type : string;
  o_payload : pydict; o_available_at : Z; o_created_at : Z; o_published_at : option Z;
  o_last_delivery_at : option Z; o_publish_attempts : Z; o_superseded_at : option Z;
  o_superseded_by_delivery_id : option string; o_delivery_state_version : Z;
}.
Definition set_o_redis_message_id (v : option string) (r : OutboxEvent) : OutboxEvent :=
  mk_outbox (o_id r) (o_delivery_id r) v (o_tenant_id r) (o_job_id r) (o_run_id r)
    (o_delivery_generation r) (o_event_type r) (o_payload r) (o_available_at r) (o_created_at r)
    (o_published_at r) (o_last_delivery_at r) (o_publish_attempts r) (o_superseded_at r)
    (o_superseded_by_delivery_id r) (o_delivery_state_version r).
Definition set_o_available_at (v : Z) (r : OutboxEvent) : OutboxEvent :=
  mk_outbox (o_id r) (o_delivery_id r) (o_redis_message_id r) (o_tenant_id r) (o_job_id r) (o_run_id r)
    (o_delivery_generation r) (o_event_type r) (o_payload r) v (o_created_at r) (o_published_at r)
    (o_last_delivery_at r) (o_publish_attempts r) (o_superseded_at r) (o_superseded_by_delivery_id r)
    (o_delivery_state_version r).
Definition set_o_published_at (v : option Z) (r : OutboxEvent) : OutboxEvent :=
  mk_outbox (o_id r) (o_delivery_id r) (o_redis_message_id r) (o_tenant_id r) (o_job_id r) (o_run_id r)
    (o_delivery_generation r) (o_event_type r) (o_payload r) (o_available_at r) (o_created_at r) v
    (o_last_delivery_at r) (o_publish_attempts r) (o_superseded_at r) (o_superseded_by_delivery_id r)
    (o_delivery_state_version r).
Definition set_o_last_delivery_at (v : option Z) (r : OutboxEvent) : OutboxEvent :=
  mk_outbox (o_id r) (o_delivery_id r) (o_redis_message_id r) (o_tenant_id r) (o_job_id r) (o_run_id r)
    (o_delivery_generation r) (o_event_type r) (o_payload r) (o_available_at r) (o_created_at r)
    (o_published_at r) v (o_publish_attempts r) (o_superseded_at r) (o_superseded_by_delivery_id r)
    (o_delivery_state_version r).
Definition set_o_publish_attempts (v : Z) (r : OutboxEvent) : OutboxEvent :=
  mk_outbox (o_id r) (o_delivery_id r) (o_redis_message_id r) (o_tenant_id r) (o_job_id r) (o_run_id r)
    (o_delivery_generation r) (o_event_type r) (o_payload r) (o_available_at r) (o_created_at r)
    (o_published_at r) (o_last_delivery_at r) v (o_superseded_at r) (o_superseded_by_delivery_id r)
    (o_delivery_state_version r).
Definition set_o_superseded_at (v : option Z) (r : OutboxEvent) : OutboxEvent :=
  mk_outbox (o_id r) (o_delivery_id r) (o_redis_message_id r) (o_tenant_id r) (o_job_id r) (o_run_id r)
    (o_delivery_generation r) (o_event_type r) (o_payload r) (o_available_at r) (o_created_at r)
    (o_published_at r) (o_last_delivery_at r) (o_publish_attempts r) v (o_superseded_by_delivery_id r)
    (o_delivery_state_version r).
Definition set_o_superseded_by_delivery_id (v : option string) (r : OutboxEvent) : OutboxEvent :=
  mk_outbox (o_id r) (o_delivery_id r) (o_redis_message_id r) (o_tenant_id r) (o_job_id r) (o_run_id r)
    (o_delivery_generation r) (o_event_type r) (o_payload r) (o_available_at r) (o_created_at r)
    (o_published_at r) (o_last_delivery_at r) (o_publish_attempts r) (o_superseded_at r) v
    (o_delivery_state_version r).
Definition set_o_delivery_state_version (v : Z) (r : OutboxEvent) : OutboxEvent :=
  mk_outbox (o_id r) (o_delivery_id r) (o_redis_message_id r) (o_tenant_id r) (o_job_id r) (o_run_id r)
    (o_delivery_generation r) (o_event_type r) (o_payload r) (o_available_at r) (o_created_at r)
    (o_published_at r) (o_last_delivery_at r) (o_publish_attempts r) (o_superseded_at r)
    (o_superseded_by_delivery_id r) v.
(** A new row with the defaults of its columns; [now] is the database clock. *)
Definition new_outbox (id delivery_id tenant_id job_id run_id : string) (delivery_generation : Z) (event_type : string)
    (payload : pydict) (now : Z) : OutboxEvent :=
  mk_outbox id delivery_id None tenant_id job_id run_id delivery_generation event_type payload now now None None 0 None None 1.

(** db/entities/action.py: [HumanDecision]. *)
Record HumanDecision := mk_decision_row {
  hd_id : string; hd_tenant_id : string; hd_approval_id : string; hd_action_revision_id : option string;
  hd_actor_id : string; hd_decision : string; hd_reason : string; hd_action_hash : option string;
  hd_decision_hash : option string; hd_canonical_event_id : option string;
  hd_canonical_event_hash : option string; hd_audit_metadata : pydict; hd_created_at : Z;
}.

(** db/entities/action.py: [ApprovalActionRevision]. *)
Record ApprovalActionRevision := mk_revision {
  v_id : string; v_tenant_id : string; v_approval_id : string; v_proposal_id : string;
  v_snapshot_id : string; v_revision_number : Z; v_action_payload : pydict; v_action_hash : string;
  v_resource_version : Z; v_created_by_ref : string; v_revision_reason : string;
}.

(** db/entities/action.py: [BusinessAction]. *)
Record BusinessAction := mk_action {
  b_id : string; b_tenant_id : string; b_ticket_id : string; b_customer_id : string;
  b_action_type : string; b_resource_id : string; b_resource_version : Z; b_action_hash : string;
  b_approval_id : string; b_human_decision_id : option string; b_action_revision_id : option string;
  b_decision_hash : option string; b_effect_identity : string; b_canonical_event_id : option string;
  b_canonical_event_hash : option string; b_status : string; b_idempotency_key : string;
  b_result : pydict;
}.
Definition set_b_human_decision_id (v : option string) (r : BusinessAction) : BusinessAction :=
  mk_action (b_id r) (b_tenant_id r) (b_ticket_id r) (b_customer_id r) (b_action_type r)
    (b_resource_id r) (b_resource_version r) (b_action_hash r) (b_approval_id r) v
    (b_action_revision_id r) (b_decision_hash r) (b_effect_identity r) (b_canonical_event_id r)
    (b_canonical_event_hash r) (b_status r) (b_idempotency_key r) (b_result r).
Definition set_b_decision_hash (v : option string) (r : BusinessAction) : BusinessAction :=
  mk_action (b_id r) (b_tenant_id r) (b_ticket_id r) (b_customer_id r) (b_action_type r)
    (b_resource_id r) (b_resource_version r) (b_action_hash r) (b_approval_id r) (b_human_decision_id r)
    (b_action_revision_id r) v (b_effect_identity r) (b_canonical_event_id r) (b_canonical_event_hash r)
    (b_status r) (b_idempotency_key r) (b_result r).
Definition set_b_canonical_event_id (v : option string) (r : BusinessAction) : BusinessAction :=
  mk_action (b_id r) (b_tenant_id r) (b_ticket_id r) (b_customer_id r) (b_action_type r)
    (b_resource_id r) (b_resource_version r) (b_action_hash r) (b_approval_id r) (b_human_decision_id r)
    (b_action_revision_id r) (b_decision_hash r) (b_effect_identity r) v (b_canonical_event_hash r)
    (b_status r) (b_idempotency_key r) (b_result r).
Definition set_b_canonical_event_hash (v : option string) (r : BusinessAction) : BusinessAction :=
  mk_action (b_id r) (b_tenant_id r) (b_ticket_id r) (b_customer_id r) (b_action_type r)
    (b_resource_id r) (b_resource_version r) (b_action_hash r) (b_approval_id r) (b_human_decision_id r)
    (b_action_revision_id r) (b_decision_hash r) (b_effect_identity r) (b_canonical_event_id r) v
    (b_status r) (b_idempotency_key r) (b_result r).

(** db/entities/action.py: [ProposalWithdrawal]. *)
Record ProposalWithdrawal := mk_withdrawal {
  wd_id : string; wd_tenant_id : string; wd_ticket_id : string; wd_customer_id : string;
  wd_approval_id : string; wd_proposal_id : string; wd_actor_id : string; wd_reason : string;
  wd_idempotency_key : string; wd_created_at : Z;
}.

(** db/entities/evidence.py: [ApiKeyMetadata]. *)
Record ApiKeyMetadata := mk_key {
  ky_id : string; ky_tenant_id : string; ky_customer_id : string; ky_key_id : string;
  ky_fingerprint : string; ky_status : string; ky_version : Z;
}.
Definition set_ky_status (v : string) (r : ApiKeyMetadata) : ApiKeyMetadata :=
  mk_key (ky_id r) (ky_tenant_id r) (ky_customer_id r) (ky_key_id r) (ky_fingerprint r) v
    (ky_version r).
Definition set_ky_version (v : Z) (r : ApiKeyMetadata) : ApiKeyMetadata :=
  mk_key (ky_id r) (ky_tenant_id r) (ky_customer_id r) (ky_key_id r) (ky_fingerprint r) (ky_status r) v.

(** db/entities/evidence.py: [Subscription]. *)
Record Subscription := mk_subscription {
  sb_id : string; sb_tenant_id : string; sb_customer_id : string; sb_plan : string;
  sb_rpm_limit : Z; sb_concurrency_limit : Z; sb_version : Z;
}.
Definition set_sb_plan (v : string) (r : Subscription) : Subscription :=
  mk_subscription (sb_id r) (sb_tenant_id r) (sb_customer_id r) v (sb_rpm_limit r)
    (sb_concurrency_limit r) (sb_version r).
Definition set_sb_rpm_limit (v : Z) (r : Subscription) : Subscription :=
  mk_subscription (sb_id r) (sb_tenant_id r) (sb_customer_id r) (sb_plan r) v (sb_concurrency_limit r)
    (sb_version r).
Definition set_sb_concurrency_limit (v : Z) (r : Subscription) : Subscription :=
  mk_subscription (sb_id r) (sb_tenant_id r) (sb_customer_id r) (sb_plan r) (sb_rpm_limit r) v
    (sb_version r).
Definition set_sb_version (v : Z) (r : Subscription) : Subscription :=
  mk_subscription (sb_id r) (sb_tenant_id r) (sb_customer_id r) (sb_plan r) (sb_rpm_limit r)
    (sb_concurrency_limit r) v.

(** db/entities/evidence.py: [PlanCatalog]. *)
Record PlanCatalog := mk_plan {
  pc_id : string; pc_plan : string; pc_min_rpm : Z; pc_max_rpm : Z; pc_min_concurrency : Z;
  pc_max_concurrency : Z; pc_version : Z;
}.

(** db/entities/auth.py: [Membership]. *)
Record Membership := mk_membership {
  mb_id : string; mb_tenant_id : string; mb_user_id : string; mb_role : string; mb_status : string;
}.

(** db/entities/agent.py: [ToolObservation]. *)
Record ToolObservation := mk_observation {
  ob_id : string; ob_tenant_id : string; ob_run_id : string; ob_job_id : string;
  ob_invocation_id : string; ob_segment_id : string; ob_fencing_token : Z; ob_status : string;
  ob_attempt_index : Z; ob_content_hash : string; ob_payload : pydict;
}.

(** db/entities/agent.py: [ToolInvocation]. *)
Record ToolInvocation := mk_invocation {
  iv_id : string; iv_tenant_id : string; iv_run_id : string; iv_job_id : string;
  iv_turn_group_id : string; iv_segment_id : string; iv_fencing_token : Z;
  iv_provider_tool_call_id : string; iv_logical_invocation_id : string; iv_ordinal : Z;
  iv_tool_name : string; iv_arguments_hash : string; iv_requested_cost : Z; iv_lifecycle : string;
  iv_outcome : option string; iv_terminal_at : option Z;
}.
Definition set_iv_job_id (v : string) (r : ToolInvocation) : ToolInvocation :=
  mk_invocation (iv_id r) (iv_tenant_id r) (iv_run_id r) v (iv_turn_group_id r) (iv_segment_id r)
    (iv_fencing_token r) (iv_provider_tool_call_id r) (iv_logical_invocation_id r) (iv_ordinal r)
    (iv_tool_name r) (iv_arguments_hash r) (iv_requested_cost r) (iv_lifecycle r) (iv_outcome r)
    (iv_terminal_at r).
Definition set_iv_fencing_token (v : Z) (r : ToolInvocation) : ToolInvocation :=
  mk_invocation (iv_id r) (iv_tenant_id r) (iv_run_id r) (iv_job_id r) (iv_turn_group_id r)
    (iv_segment_id r) v (iv_provider_tool_call_id r) (iv_logical_invocation_id r) (iv_ordinal r)
    (iv_tool_name r) (iv_arguments_hash r) (iv_requested_cost r) (iv_lifecycle r) (iv_outcome r)
    (iv_terminal_at r).
Definition set_iv_lifecycle (v : string) (r : ToolInvocation) : ToolInvocation :=
  mk_invocation (iv_id r) (iv_tenant_id r) (iv_run_id r) (iv_job_id r) (iv_turn_group_id r)
    (iv_segment_id r) (iv_fencing_token r) (iv_provider_tool_call_id r) (iv_logical_invocation_id r)
    (iv_ordinal r) (iv_tool_name r) (iv_arguments_hash r) (iv_requested_cost r) v (iv_outcome r)
    (iv_terminal_at r).
Definition set_iv_outcome (v : option string) (r : ToolInvocation) : ToolInvocation :=
  mk_invocation (iv_id r) (iv_tenant_id r) (iv_run_id r) (iv_job_id r) (iv_turn_group_id r)
    (iv_segment_id r) (iv_fencing_token r) (iv_provider_tool_call_id r) (iv_logical_invocation_id r)
    (iv_ordinal r) (iv_tool_name r) (iv_arguments_hash r) (iv_requested_cost r) (iv_lifecycle r) v
    (iv_terminal_at r).
Definition set_iv_terminal_at (v : option Z) (r : ToolInvocation) : ToolInvocation :=
  mk_invocation (iv_id r) (iv_tenant_id r) (iv_run_id r) (iv_job_id r) (iv_turn_group_id r)
    (iv_segment_id r) (iv_fencing_token r) (iv_provider_tool_call_id r) (iv_logical_invocation_id r)
    (iv_ordinal r) (iv_tool_name r) (iv_arguments_hash r) (iv_requested_cost r) (iv_lifecycle r)
    (iv_outcome r) v.

(** db/entities/agent.py: [TurnGroup]. *)
Record TurnGroup := mk_group {
  tg_id : string; tg_tenant_id : string; tg_run_id : string; tg_job_id : string;
  tg_segment_id : string; tg_fencing_token : Z; tg_decision_ordinal : Z; tg_tool_round : Z;
  tg_expected_invocations : Z; tg_decision_hash : string; tg_context_hash : string;
  tg_tool_schema_hash : string; tg_status : string; tg_closed_at : option Z;
}.
Definition set_tg_job_id (v : string) (r : TurnGroup) : TurnGroup :=
  mk_group (tg_id r) (tg_tenant_id r) (tg_run_id r) v (tg_segment_id r) (tg_fencing_token r)
    (tg_decision_ordinal r) (tg_tool_round r) (tg_expected_invocations r) (tg_decision_hash r)
    (tg_context_hash r) (tg_tool_schema_hash r) (tg_status r) (tg_closed_at r).
Definition set_tg_fencing_token (v : Z) (r : TurnGroup) : TurnGroup :=
  mk_group (tg_id r) (tg_tenant_id r) (tg_run_id r) (tg_job_id r) (tg_segment_id r) v
    (tg_decision_ordinal r) (tg_tool_round r) (tg_expected_invocations r) (tg_decision_hash r)
    (tg_context_hash r) (tg_tool_schema_hash r) (tg_status r) (tg_closed_at r).
Definition set_tg_status (v : string) (r : TurnGroup) : TurnGroup :=
  mk_group (tg_id r) (tg_tenant_id r) (tg_run_id r) (tg_job_id r) (tg_segment_id r) (tg_fencing_token r)
    (tg_decision_ordinal r) (tg_tool_round r) (tg_expected_invocations r) (tg_decision_hash r)
    (tg_context_hash r) (tg_tool_schema_hash r) v (tg_closed_at r).
Definition set_tg_closed_at (v : option Z) (r : TurnGroup) : TurnGroup :=
  mk_group (tg_id r) (tg_tenant_id r) (tg_run_id r) (tg_job_id r) (tg_segment_id r) (tg_fencing_token r)
    (tg_decision_ordinal r) (tg_tool_round r) (tg_expected_invocations r) (tg_decision_hash r)
    (tg_context_hash r) (tg_tool_schema_hash r) (tg_status r) v.

(** db/entities/agent.py: [AgentCallAttempt]. *)
Record AgentCallAttempt := mk_attempt {
  ca_id : string; ca_tenant_id : string; ca_run_id : string; ca_job_id : string;
  ca_fencing_token : Z; ca_call_kind : string; ca_ordinal : Z;
  ca_logical_invocation_id : option string; ca_transport_ordinal : option Z; ca_status : string;
  ca_prompt_tokens : Z; ca_completion_tokens : Z; ca_latency_ms : option Z;
  ca_error_code : option string; ca_runtime_provenance : pydict;
}.
Definition set_ca_status (v : string) (r : AgentCallAttempt) : AgentCallAttempt :=
  mk_attempt (ca_id r) (ca_tenant_id r) (ca_run_id r) (ca_job_id r) (ca_fencing_token r)
    (ca_call_kind r) (ca_ordinal r) (ca_logical_invocation_id r) (ca_transport_ordinal r) v
    (ca_prompt_tokens r) (ca_completion_tokens r) (ca_latency_ms r) (ca_error_code r)
    (ca_runtime_provenance r).
Definition set_ca_prompt_tokens (v : Z) (r : AgentCallAttempt) : AgentCallAttempt :=
  mk_attempt (ca_id r) (ca_tenant_id r) (ca_run_id r) (ca_job_id r) (ca_fencing_token r)
    (ca_call_kind r) (ca_ordinal r) (ca_logical_invocation_id r) (ca_transport_ordinal r) (ca_status r)
    v (ca_completion_tokens r) (ca_latency_ms r) (ca_error_code r) (ca_runtime_provenance r).
Definition set_ca_completion_tokens (v : Z) (r : AgentCallAttempt) : AgentCallAttempt :=
  mk_attempt (ca_id r) (ca_tenant_id r) (ca_run_id r) (ca_job_id r) (ca_fencing_token r)
    (ca_call_kind r) (ca_ordinal r) (ca_logical_invocation_id r) (ca_transport_ordinal r) (ca_status r)
    (ca_prompt_tokens r) v (ca_latency_ms r) (ca_error_code r) (ca_runtime_provenance r).
Definition set_ca_latency_ms (v : option Z) (r : AgentCallAttempt) : AgentCallAttempt :=
  mk_attempt (ca_id r) (ca_tenant_id r) (ca_run_id r) (ca_job_id r) (ca_fencing_token r)
    (ca_call_kind r) (ca_ordinal r) (ca_logical_invocation_id r) (ca_transport_ordinal r) (ca_status r)
    (ca_prompt_tokens r) (ca_completion_tokens r) v (ca_error_code r) (ca_runtime_provenance r).
Definition set_ca_error_code (v : option string) (r : AgentCallAttempt) : AgentCallAttempt :=
  mk_attempt (ca_id r) (ca_tenant_id r) (ca_run_id r) (ca_job_id r) (ca_fencing_token r)
    (ca_call_kind r) (ca_ordinal r) (ca_logical_invocation_id r) (ca_transport_ordinal r) (ca_status r)
    (ca_prompt_tokens r) (ca_completion_tokens r) (ca_latency_ms r) v (ca_runtime_provenance r).
Definition set_ca_runtime_provenance (v : pydict) (r : AgentCallAttempt) : AgentCallAttempt :=
  mk_attempt (ca_id r) (ca_tenant_id r) (ca_run_id r) (ca_job_id r) (ca_fencing_token r)
    (ca_call_kind r) (ca_ordinal r) (ca_logical_invocation_id r) (ca_transport_ordinal r) (ca_status r)
    (ca_prompt_tokens r) (ca_completion_tokens r) (ca_latency_ms r) (ca_error_code r) v.

(** db/entities/agent.py: [ToolTransportAttempt]. *)
Record ToolTransportAttempt := mk_transport {
  tt_id : string; tt_tenant_id : string; tt_run_id : string; tt_job_id : string;
  tt_invocation_id : string; tt_agent_call_attempt_id : string; tt_fencing_token : Z;
  tt_transport_ordinal : Z; tt_status : string; tt_error_code : option string;
  tt_completed_at : option Z;
}.
Definition set_tt_status (v : string) (r : ToolTransportAttempt) : ToolTransportAttempt :=
  mk_transport (tt_id r) (tt_tenant_id r) (tt_run_id r) (tt_job_id r) (tt_invocation_id r)
    (tt_agent_call_attempt_id r) (tt_fencing_token r) (tt_transport_ordinal r) v (tt_error_code r)
    (tt_completed_at r).
Definition set_tt_error_code (v : option string) (r : ToolTransportAttempt) : ToolTransportAttempt :=
  mk_transport (tt_id r) (tt_tenant_id r) (tt_run_id r) (tt_job_id r) (tt_invocation_id r)
    (tt_agent_call_attempt_id r) (tt_fencing_token r) (tt_transport_ordinal r) (tt_status r) v
    (tt_completed_at r).
Definition set_tt_completed_at (v : option Z) (r : ToolTransportAttempt) : ToolTransportAttempt :=
  mk_transport (tt_id r) (tt_tenant_id r) (tt_run_id r) (tt_job_id r) (tt_invocation_id r)
    (tt_agent_call_attempt_id r) (tt_fencing_token r) (tt_transport_ordinal r) (tt_status r)
    (tt_error_code r) v.

(** db/entities/agent.py: [PolicyCapabilityInvocation]. *)
Record PolicyCapabilityInvocation := mk_capability {
  ci_id : string; ci_tenant_id : string; ci_run_id : string; ci_job_id : string;
  ci_segment_id : string; ci_fencing_token : Z; ci_capability_name : string; ci_sequence : Z;
  ci_causal_decision_hash : string; ci_observation_binding_hash : string;
  ci_effect_identity : string; ci_status : string; ci_error_code : option string;
  ci_completed_at : option Z;
}.
Definition set_ci_status (v : string) (r : PolicyCapabilityInvocation) : PolicyCapabilityInvocation :=
  mk_capability (ci_id r) (ci_tenant_id r) (ci_run_id r) (ci_job_id r) (ci_segment_id r)
    (ci_fencing_token r) (ci_capability_name r) (ci_sequence r) (ci_causal_decision_hash r)
    (ci_observation_binding_hash r) (ci_effect_identity r) v (ci_error_code r) (ci_completed_at r).
Definition set_ci_error_code (v : option string) (r : PolicyCapabilityInvocation) : PolicyCapabilityInvocation :=
  mk_capability (ci_id r) (ci_tenant_id r) (ci_run_id r) (ci_job_id r) (ci_segment_id r)
    (ci_fencing_token r) (ci_capability_name r) (ci_sequence r) (ci_causal_decision_hash r)
    (ci_observation_binding_hash r) (ci_effect_identity r) (ci_status r) v (ci_completed_at r).
Definition set_ci_completed_at (v : option Z) (r : PolicyCapabilityInvocation) : PolicyCapabilityInvocation :=
  mk_capability (ci_id r) (ci_tenant_id r) (ci_run_id r) (ci_job_id r) (ci_segment_id r)
    (ci_fencing_token r) (ci_capability_name r) (ci_sequence r) (ci_causal_decision_hash r)
    (ci_observation_binding_hash r) (ci_effect_identity r) (ci_status r) (ci_error_code r) v.

(** db/entities/agent.py: [PolicyCapabilityAttempt]. *)
Record PolicyCapabilityAttempt := mk_capability_attempt {
  cp_id : string; cp_tenant_id : string; cp_run_id : string; cp_job_id : string;
  cp_invocation_id : string; cp_fencing_token : Z; cp_ordinal : Z; cp_status : string;
  cp_error_code : option string; cp_completed_at : option Z;
}.
Definition set_cp_status (v : string) (r : PolicyCapabilityAttempt) : PolicyCapabilityAttempt :=
  mk_capability_attempt (cp_id r) (cp_tenant_id r) (cp_run_id r) (cp_job_id r) (cp_invocation_id r)
    (cp_fencing_token r) (cp_ordinal r) v (cp_error_code r) (cp_completed_at r).
Definition set_cp_error_code (v : option string) (r : PolicyCapabilityAttempt) : PolicyCapabilityAttempt :=
  mk_capability_attempt (cp_id r) (cp_tenant_id r) (cp_run_id r) (cp_job_id r) (cp_invocation_id r)
    (cp_fencing_token r) (cp_ordinal r) (cp_status r) v (cp_completed_at r).
Definition set_cp_completed_at (v : option Z) (r : PolicyCapabilityAttempt) : PolicyCapabilityAttempt :=
  mk_capability_attempt (cp_id r) (cp_tenant_id r) (cp_run_id r) (cp_job_id r) (cp_invocation_id r)
    (cp_fencing_token r) (cp_ordinal r) (cp_status r) (cp_error_code r) v.

(** db/entities/agent.py: [PolicyCapabilityResult]. *)
Record PolicyCapabilityResult := mk_capability_result {
  cr_id : string; cr_tenant_id : string; cr_run_id : string; cr_job_id : string;
  cr_invocation_id : string; cr_effect_identity : string; cr_status : string;
  cr_payload_hash : string; cr_payload : pydict; cr_reconciled_at : option Z;
}.

(** db/entities/audit.py: [AuditEvent]. *)
Record AuditEvent := mk_audit {
  au_id : string; au_tenant_id : string; au_ticket_id : string; au_customer_id : string;
  au_event_type : string; au_actor_type : string; au_actor_id : option string; au_payload : pydict;
  au_trace_id : option string; au_run_id : option string;
}.

(** db/entities/evidence.py: [Customer]. *)
Record Customer := mk_customer {
  cu_id : string; cu_tenant_id : string;
}.

(** ** Tables *)
(** [kill_switches] is keyed by (tenant, action type), [approver_scopes] holds
    (user, tenant) pairs. *)
Record store := mk_store {
  tickets : gmap string SupportTicket;
  messages : gmap string TicketMessage;
  turns : gmap string ConversationTurn;
  runs : gmap string AgentRun;
  jobs : gmap string RuntimeJob;
  markers : gmap string CheckpointCommitMarker;
  events : gmap string AgentEvent;
  approvals : gmap string ApprovalRequest;
  proposals : gmap string ProposalRecord;
  idempotency : gmap string IdempotencyRequest;
  outbox : gmap string OutboxEvent;
  decisions : gmap string HumanDecision;
  revisions : gmap string ApprovalActionRevision;
  actions : gmap string BusinessAction;
  withdrawals : gmap string ProposalWithdrawal;
  billing : gmap string BillingRecord;
  api_keys : gmap string ApiKeyMetadata;
  subscriptions : gmap string Subscription;
  plans : gmap string PlanCatalog;
  memberships : gmap string Membership;
  customers : gmap string Customer;
  observations : gmap string ToolObservation;
  invocations : gmap string ToolInvocation;
  turn_groups : gmap string TurnGroup;
  call_attempts : gmap string AgentCallAttempt;
  transports : gmap string ToolTransportAttempt;
  capabilities : gmap string PolicyCapabilityInvocation;
  capability_attempts : gmap string PolicyCapabilityAttempt;
  capability_results : gmap string PolicyCapabilityResult;
  audits : gmap string AuditEvent;
  kill_switches : gmap (string * string) bool;
  approver_scopes : gset (string * string);
}.
Definition empty_store : store :=
  mk_store ∅ ∅ ∅ ∅ ∅ ∅ ∅ ∅ ∅ ∅ ∅ ∅ ∅ ∅ ∅ ∅ ∅ ∅ ∅ ∅ ∅ ∅ ∅ ∅ ∅ ∅ ∅ ∅ ∅ ∅ ∅ ∅.

Definition set_tickets (v : gmap string SupportTicket) (s : store) : store :=
  mk_store v (messages s) (turns s) (runs s) (jobs s) (markers s) (events s) (approvals s) (proposals s)
    (idempotency s) (outbox s) (decisions s) (revisions s) (actions s) (withdrawals s) (billing s)
    (api_keys s) (subscriptions s) (plans s) (memberships s) (customers s) (observations s)
    (invocations s) (turn_groups s) (call_attempts s) (transports s) (capabilities s)
    (capability_attempts s) (capability_results s) (audits s) (kill_switches s) (approver_scopes s).
Definition set_messages (v : gmap string TicketMessage) (s : store) : store :=
  mk_store (tickets s) v (turns s) (runs s) (jobs s) (markers s) (events s) (approvals s) (proposals s)
    (idempotency s) (outbox s) (decisions s) (revisions s) (actions s) (withdrawals s) (billing s)
    (api_keys s) (subscriptions s) (plans s) (memberships s) (customers s) (observations s)
    (invocations s) (turn_groups s) (call_attempts s) (transports s) (capabilities s)
    (capability_attempts s) (capability_results s) (audits s) (kill_switches s) (approver_scopes s).
Definition set_turns (v : gmap string ConversationTurn) (s : store) : store :=
  mk_store (tickets s) (messages s) v (runs s) (jobs s) (markers s) (events s) (approvals s)
    (proposals s) (idempotency s) (outbox s) (decisions s) (revisions s) (actions s) (withdrawals s)
    (billing s) (api_keys s) (subscriptions s) (plans s) (memberships s) (customers s) (observations s)
    (invocations s) (turn_groups s) (call_attempts s) (transports s) (capabilities s)
    (capability_attempts s) (capability_results s) (audits s) (kill_switches s) (approver_scopes s).
Definition set_runs (v : gmap string AgentRun) (s : store) : store :=
  mk_store (tickets s) (messages s) (turns s) v (jobs s) (markers s) (events s) (approvals s)
    (proposals s) (idempotency s) (outbox s) (decisions s) (revisions s) (actions s) (withdrawals s)
    (billing s) (api_keys s) (subscriptions s) (plans s) (memberships s) (customers s) (observations s)
    (invocations s) (turn_groups s) (call_attempts s) (transports s) (capabilities s)
    (capability_attempts s) (capability_results s) (audits s) (kill_switches s) (approver_scopes s).
Definition set_jobs (v : gmap string RuntimeJob) (s : store) : store :=
  mk_store (tickets s) (messages s) (turns s) (runs s) v (markers s) (events s) (approvals s)
    (proposals s) (idempotency s) (outbox s) (decisions s) (revisions s) (actions s) (withdrawals s)
    (billing s) (api_keys s) (subscriptions s) (plans s) (memberships s) (customers s) (observations s)
    (invocations s) (turn_groups s) (call_attempts s) (transports s) (capabilities s)
    (capability_attempts s) (capability_results s) (audits s) (kill_switches s) (approver_scopes s).
Definition set_markers (v : gmap string CheckpointCommitMarker) (s : store) : store :=
  mk_store (tickets s) (messages s) (turns s) (runs s) (jobs s) v (events s) (approvals s) (proposals s)
    (idempotency s) (outbox s) (decisions s) (revisions s) (actions s) (withdrawals s) (billing s)
    (api_keys s) (subscriptions s) (plans s) (memberships s) (customers s) (observations s)
    (invocations s) (turn_groups s) (call_attempts s) (transports s) (capabilities s)
    (capability_attempts s) (capability_results s) (audits s) (kill_switches s) (approver_scopes s).
Definition set_events (v : gmap string AgentEvent) (s : store) : store :=
  mk_store (tickets s) (messages s) (turns s) (runs s) (jobs s) (markers s) v (approvals s)
    (proposals s) (idempotency s) (outbox s) (decisions s) (revisions s) (actions s) (withdrawals s)
    (billing s) (api_keys s) (subscriptions s) (plans s) (memberships s) (customers s) (observations s)
    (invocations s) (turn_groups s) (call_attempts s) (transports s) (capabilities s)
    (capability_attempts s) (capability_results s) (audits s) (kill_switches s) (approver_scopes s).
Definition set_approvals (v : gmap string ApprovalRequest) (s : store) : store :=
  mk_store (tickets s) (messages s) (turns s) (runs s) (jobs s) (markers s) (events s) v (proposals s)
    (idempotency s) (outbox s) (decisions s) (revisions s) (actions s) (withdrawals s) (billing s)
    (api_keys s) (subscriptions s) (plans s) (memberships s) (customers s) (observations s)
    (invocations s) (turn_groups s) (call_attempts s) (transports s) (capabilities s)
    (capability_attempts s) (capability_results s) (audits s) (kill_switches s) (approver_scopes s).
Definition set_proposals (v : gmap string ProposalRecord) (s : store) : store :=
  mk_store (tickets s) (messages s) (turns s) (runs s) (jobs s) (markers s) (events s) (approvals s) v
    (idempotency s) (outbox s) (decisions s) (revisions s) (actions s) (withdrawals s) (billing s)
    (api_keys s) (subscriptions s) (plans s) (memberships s) (customers s) (observations s)
    (invocations s) (turn_groups s) (call_attempts s) (transports s) (capabilities s)
    (capability_attempts s) (capability_results s) (audits s) (kill_switches s) (approver_scopes s).
Definition set_idempotency (v : gmap string IdempotencyRequest) (s : store) : store :=
  mk_store (tickets s) (messages s) (turns s) (runs s) (jobs s) (markers s) (events s) (approvals s)
    (proposals s) v (outbox s) (decisions s) (revisions s) (actions s) (withdrawals s) (billing s)
    (api_keys s) (subscriptions s) (plans s) (memberships s) (customers s) (observations s)
    (invocations s) (turn_groups s) (call_attempts s) (transports s) (capabilities s)
    (capability_attempts s) (capability_results s) (audits s) (kill_switches s) (approver_scopes s).
Definition set_outbox (v : gmap string OutboxEvent) (s : store) : store :=
  mk_store (tickets s) (messages s) (turns s) (runs s) (jobs s) (markers s) (events s) (approvals s)
    (proposals s) (idempotency s) v (decisions s) (revisions s) (actions s) (withdrawals s) (billing s)
    (api_keys s) (subscriptions s) (plans s) (memberships s) (customers s) (observations s)
    (invocations s) (turn_groups s) (call_attempts s) (transports s) (capabilities s)
    (capability_attempts s) (capability_results s) (audits s) (kill_switches s) (approver_scopes s).
Definition set_decisions (v : gmap string HumanDecision) (s : store) : store :=
  mk_store (tickets s) (messages s) (turns s) (runs s) (jobs s) (markers s) (events s) (approvals s)
    (proposals s) (idempotency s) (outbox s) v (revisions s) (actions s) (withdrawals s) (billing s)
    (api_keys s) (subscriptions s) (plans s) (memberships s) (customers s) (observations s)
    (invocations s) (turn_groups s) (call_attempts s) (transports s) (capabilities s)
    (capability_attempts s) (capability_results s) (audits s) (kill_switches s) (approver_scopes s).
Definition set_revisions (v : gmap string ApprovalActionRevision) (s : store) : store :=
  mk_store (tickets s) (messages s) (turns s) (runs s) (jobs s) (markers s) (events s) (approvals s)
    (proposals s) (idempotency s) (outbox s) (decisions s) v (actions s) (withdrawals s) (billing s)
    (api_keys s) (subscriptions s) (plans s) (memberships s) (customers s) (observations s)
    (invocations s) (turn_groups s) (call_attempts s) (transports s) (capabilities s)
    (capability_attempts s) (capability_results s) (audits s) (kill_switches s) (approver_scopes s).
Definition set_actions (v : gmap string BusinessAction) (s : store) : store :=
  mk_store (tickets s) (messages s) (turns s) (runs s) (jobs s) (markers s) (events s) (approvals s)
    (proposals s) (idempotency s) (outbox s) (decisions s) (revisions s) v (withdrawals s) (billing s)
    (api_keys s) (subscriptions s) (plans s) (memberships s) (customers s) (observations s)
    (invocations s) (turn_groups s) (call_attempts s) (transports s) (capabilities s)
    (capability_attempts s) (capability_results s) (audits s) (kill_switches s) (approver_scopes s).
Definition set_withdrawals (v : gmap string ProposalWithdrawal) (s : store) : store :=
  mk_store (tickets s) (messages s) (turns s) (runs s) (jobs s) (markers s) (events s) (approvals s)
    (proposals s) (idempotency s) (outbox s) (decisions s) (revisions s) (actions s) v (billing s)
    (api_keys s) (subscriptions s) (plans s) (memberships s) (customers s) (observations s)
    (invocations s) (turn_groups s) (call_attempts s) (transports s) (capabilities s)
    (capability_attempts s) (capability_results s) (audits s) (kill_switches s) (approver_scopes s).
Definition set_billing (v : gmap string BillingRecord) (s : store) : store :=
  mk_store (tickets s) (messages s) (turns s) (runs s) (jobs s) (markers s) (events s) (approvals s)
    (proposals s) (idempotency s) (outbox s) (decisions s) (revisions s) (actions s) (withdrawals s) v
    (api_keys s) (subscriptions s) (plans s) (memberships s) (customers s) (observations s)
    (invocations s) (turn_groups s) (call_attempts s) (transports s) (capabilities s)
    (capability_attempts s) (capability_results s) (audits s) (kill_switches s) (approver_scopes s).
Definition set_api_keys (v : gmap string ApiKeyMetadata) (s : store) : store :=
  mk_store (tickets s) (messages s) (turns s) (runs s) (jobs s) (markers s) (events s) (approvals s)
    (proposals s) (idempotency s) (outbox s) (decisions s) (revisions s) (actions s) (withdrawals s)
    (billing s) v (subscriptions s) (plans s) (memberships s) (customers s) (observations s)
    (invocations s) (turn_groups s) (call_attempts s) (transports s) (capabilities s)
    (capability_attempts s) (capability_results s) (audits s) (kill_switches s) (approver_scopes s).
Definition set_subscriptions (v : gmap string Subscription) (s : store) : store :=
  mk_store (tickets s) (messages s) (turns s) (runs s) (jobs s) (markers s) (events s) (approvals s)
    (proposals s) (idempotency s) (outbox s) (decisions s) (revisions s) (actions s) (withdrawals s)
    (billing s) (api_keys s) v (plans s) (memberships s) (customers s) (observations s) (invocations s)
    (turn_groups s) (call_attempts s) (transports s) (capabilities s) (capability_attempts s)
    (capability_results s) (audits s) (kill_switches s) (approver_scopes s).
Definition set_plans (v : gmap string PlanCatalog) (s : store) : store :=
  mk_store (tickets s) (messages s) (turns s) (runs s) (jobs s) (markers s) (events s) (approvals s)
    (proposals s) (idempotency s) (outbox s) (decisions s) (revisions s) (actions s) (withdrawals s)
    (billing s) (api_keys s) (subscriptions s) v (memberships s) (customers s) (observations s)
    (invocations s) (turn_groups s) (call_attempts s) (transports s) (capabilities s)
    (capability_attempts s) (capability_results s) (audits s) (kill_switches s) (approver_scopes s).
Definition set_memberships (v : gmap string Membership) (s : store) : store :=
  mk_store (tickets s) (messages s) (turns s) (runs s) (jobs s) (markers s) (events s) (approvals s)
    (proposals s) (idempotency s) (outbox s) (decisions s) (revisions s) (actions s) (withdrawals s)
    (billing s) (api_keys s) (subscriptions s) (plans s) v (customers s) (observations s)
    (invocations s) (turn_groups s) (call_attempts s) (transports s) (capabilities s)
    (capability_attempts s) (capability_results s) (audits s) (kill_switches s) (approver_scopes s).
Definition set_customers (v : gmap string Customer) (s : store) : store :=
  mk_store (tickets s) (messages s) (turns s) (runs s) (jobs s) (markers s) (events s) (approvals s)
    (proposals s) (idempotency s) (outbox s) (decisions s) (revisions s) (actions s) (withdrawals s)
    (billing s) (api_keys s) (subscriptions s) (plans s) (memberships s) v (observations s)
    (invocations s) (turn_groups s) (call_attempts s) (transports s) (capabilities s)
    (capability_attempts s) (capability_results s) (audits s) (kill_switches s) (approver_scopes s).
Definition set_observations (v : gmap string ToolObservation) (s : store) : store :=
  mk_store (tickets s) (messages s) (turns s) (runs s) (jobs s) (markers s) (events s) (approvals s)
    (proposals s) (idempotency s) (outbox s) (decisions s) (revisions s) (actions s) (withdrawals s)
    (billing s) (api_keys s) (subscriptions s) (plans s) (memberships s) (customers s) v (invocations s)
    (turn_groups s) (call_attempts s) (transports s) (capabilities s) (capability_attempts s)
    (capability_results s) (audits s) (kill_switches s) (approver_scopes s).
Definition set_invocations (v : gmap string ToolInvocation) (s : store) : store :=
  mk_store (tickets s) (messages s) (turns s) (runs s) (jobs s) (markers s) (events s) (approvals s)
    (proposals s) (idempotency s) (outbox s) (decisions s) (revisions s) (actions s) (withdrawals s)
    (billing s) (api_keys s) (subscriptions s) (plans s) (memberships s) (customers s) (observations s)
    v (turn_groups s) (call_attempts s) (transports s) (capabilities s) (capability_attempts s)
    (capability_results s) (audits s) (kill_switches s) (approver_scopes s).
Definition set_turn_groups (v : gmap string TurnGroup) (s : store) : store :=
  mk_store (tickets s) (messages s) (turns s) (runs s) (jobs s) (markers s) (events s) (approvals s)
    (proposals s) (idempotency s) (outbox s) (decisions s) (revisions s) (actions s) (withdrawals s)
    (billing s) (api_keys s) (subscriptions s) (plans s) (memberships s) (customers s) (observations s)
    (invocations s) v (call_attempts s) (transports s) (capabilities s) (capability_attempts s)
    (capability_results s) (audits s) (kill_switches s) (approver_scopes s).
Definition set_call_attempts (v : gmap string AgentCallAttempt) (s : store) : store :=
  mk_store (tickets s) (messages s) (turns s) (runs s) (jobs s) (markers s) (events s) (approvals s)
    (proposals s) (idempotency s) (outbox s) (decisions s) (revisions s) (actions s) (withdrawals s)
    (billing s) (api_keys s) (subscriptions s) (plans s) (memberships s) (customers s) (observations s)
    (invocations s) (turn_groups s) v (transports s) (capabilities s) (capability_attempts s)
    (capability_results s) (audits s) (kill_switches s) (approver_scopes s).
Definition set_transports (v : gmap string ToolTransportAttempt) (s : store) : store :=
  mk_store (tickets s) (messages s) (turns s) (runs s) (jobs s) (markers s) (events s) (approvals s)
    (proposals s) (idempotency s) (outbox s) (decisions s) (revisions s) (actions s) (withdrawals s)
    (billing s) (api_keys s) (subscriptions s) (plans s) (memberships s) (customers s) (observations s)
    (invocations s) (turn_groups s) (call_attempts s) v (capabilities s) (capability_attempts s)
    (capability_results s) (audits s) (kill_switches s) (approver_scopes s).
Definition set_capabilities (v : gmap string PolicyCapabilityInvocation) (s : store) : store :=
  mk_store (tickets s) (messages s) (turns s) (runs s) (jobs s) (markers s) (events s) (approvals s)
    (proposals s) (idempotency s) (outbox s) (decisions s) (revisions s) (actions s) (withdrawals s)
    (billing s) (api_keys s) (subscriptions s) (plans s) (memberships s) (customers s) (observations s)
    (invocations s) (turn_groups s) (call_attempts s) (transports s) v (capability_attempts s)
    (capability_results s) (audits s) (kill_switches s) (approver_scopes s).
Definition set_capability_attempts (v : gmap string PolicyCapabilityAttempt) (s : store) : store :=
  mk_store (tickets s) (messages s) (turns s) (runs s) (jobs s) (markers s) (events s) (approvals s)
    (proposals s) (idempotency s) (outbox s) (decisions s) (revisions s) (actions s) (withdrawals s)
    (billing s) (api_keys s) (subscriptions s) (plans s) (memberships s) (customers s) (observations s)
    (invocations s) (turn_groups s) (call_attempts s) (transports s) (capabilities s) v
    (capability_results s) (audits s) (kill_switches s) (approver_scopes s).
Definition set_capability_results (v : gmap string PolicyCapabilityResult) (s : store) : store :=
  mk_store (tickets s) (messages s) (turns s) (runs s) (jobs s) (markers s) (events s) (approvals s)
    (proposals s) (idempotency s) (outbox s) (decisions s) (revisions s) (actions s) (withdrawals s)
    (billing s) (api_keys s) (subscriptions s) (plans s) (memberships s) (customers s) (observations s)
    (invocations s) (turn_groups s) (call_attempts s) (transports s) (capabilities s)
    (capability_attempts s) v (audits s) (kill_switches s) (approver_scopes s).
Definition set_audits (v : gmap string AuditEvent) (s : store) : store :=
  mk_store (tickets s) (messages s) (turns s) (runs s) (jobs s) (markers s) (events s) (approvals s)
    (proposals s) (idempotency s) (outbox s) (decisions s) (revisions s) (actions s) (withdrawals s)
    (billing s) (api_keys s) (subscriptions s) (plans s) (memberships s) (customers s) (observations s)
    (invocations s) (turn_groups s) (call_attempts s) (transports s) (capabilities s)
    (capability_attempts s) (capability_results s) v (kill_switches s) (approver_scopes s).
Definition set_kill_switches (v : gmap (string * string) bool) (s : store) : store :=
  mk_store (tickets s) (messages s) (turns s) (runs s) (jobs s) (markers s) (events s) (approvals s)
    (proposals s) (idempotency s) (outbox s) (decisions s) (revisions s) (actions s) (withdrawals s)
    (billing s) (api_keys s) (subscriptions s) (plans s) (memberships s) (customers s) (observations s)
    (invocations s) (turn_groups s) (call_attempts s) (transports s) (capabilities s)
    (capability_attempts s) (capability_results s) (audits s) v (approver_scopes s).
Definition set_approver_scopes (v : gset (string * string)) (s : store) : store :=
  mk_store (tickets s) (messages s) (turns s) (runs s) (jobs s) (markers s) (events s) (approvals s)
    (proposals s) (idempotency s) (outbox s) (decisions s) (revisions s) (actions s) (withdrawals s)
    (billing s) (api_keys s) (subscriptions s) (plans s) (memberships s) (customers s) (observations s)
    (invocations s) (turn_groups s) (call_attempts s) (transports s) (capabilities s)
    (capability_attempts s) (capability_results s) (audits s) (kill_switches s) v.

Definition put_ticket (r : SupportTicket) (s : store) : store := set_tickets (<[t_id r := r]> (tickets s)) s.
Definition put_message (r : TicketMessage) (s : store) : store := set_messages (<[m_id r := r]> (messages s)) s.
Definition put_turn (r : ConversationTurn) (s : store) : store := set_turns (<[u_id r := r]> (turns s)) s.
Definition put_run (r : AgentRun) (s : store) : store := set_runs (<[r_id r := r]> (runs s)) s.
Definition put_job (r : RuntimeJob) (s : store) : store := set_jobs (<[j_id r := r]> (jobs s)) s.
Definition put_marker (r : CheckpointCommitMarker) (s : store) : store := set_markers (<[k_id r := r]> (markers s)) s.
Definition put_event (r : AgentEvent) (s : store) : store := set_events (<[e_id r := r]> (events s)) s.
Definition put_approval (r : ApprovalRequest) (s : store) : store := set_approvals (<[a_id r := r]> (approvals s)) s.
Definition put_proposal (r : ProposalRecord) (s : store) : store := set_proposals (<[p_id r := r]> (proposals s)) s.
Definition put_idempotency (r : IdempotencyRequest) (s : store) : store := set_idempotency (<[i_id r := r]> (idempotency s)) s.
Definition put_outbox (r : OutboxEvent) (s : store) : store := set_outbox (<[o_id r := r]> (outbox s)) s.
Definition put_decision (r : HumanDecision) (s : store) : store := set_decisions (<[hd_id r := r]> (decisions s)) s.
Definition put_revision (r : ApprovalActionRevision) (s : store) : store := set_revisions (<[v_id r := r]> (revisions s)) s.
Definition put_action (r : BusinessAction) (s : store) : store := set_actions (<[b_id r := r]> (actions s)) s.
Definition put_withdrawal (r : ProposalWithdrawal) (s : store) : store := set_withdrawals (<[wd_id r := r]> (withdrawals s)) s.
Definition put_billing (r : BillingRecord) (s : store) : store := set_billing (<[billing_record_id r := r]> (billing s)) s.
Definition put_api_key (r : ApiKeyMetadata) (s : store) : store := set_api_keys (<[ky_id r := r]> (api_keys s)) s.
Definition put_subscription (r : Subscription) (s : store) : store := set_subscriptions (<[sb_id r := r]> (subscriptions s)) s.
Definition put_audit (r : AuditEvent) (s : store) : store := set_audits (<[au_id r := r]> (audits s)) s.
Definition put_observation (r : ToolObservation) (s : store) : store := set_observations (<[ob_id r := r]> (observations s)) s.
Definition put_invocation (r : ToolInvocation) (s : store) : store := set_invocations (<[iv_id r := r]> (invocations s)) s.
Definition put_group (r : TurnGroup) (s : store) : store := set_turn_groups (<[tg_id r := r]> (turn_groups s)) s.
Definition put_attempt (r : AgentCallAttempt) (s : store) : store := set_call_attempts (<[ca_id r := r]> (call_attempts s)) s.
Definition put_transport (r : ToolTransportAttempt) (s : store) : store := set_transports (<[tt_id r := r]> (transports s)) s.
Definition put_capability (r : PolicyCapabilityInvocation) (s : store) : store := set_capabilities (<[ci_id r := r]> (capabilities s)) s.
Definition put_capability_attempt (r : PolicyCapabilityAttempt) (s : store) : store := set_capability_attempts (<[cp_id r := r]> (capability_attempts s)) s.
Definition put_capability_result (r : PolicyCapabilityResult) (s : store) : store := set_capability_results (<[cr_id r := r]> (capability_results s)) s.

(** [SELECT ... WHERE] over a table, in no particular order. *)
Definition rows {A} (t : gmap string A) : list A := map snd (map_to_list t).
Definition select_where {A} (f : A -> bool) (t : gmap string A) : list A := List.filter f (rows t).
(** [SELECT ... LIMIT 1 IS NOT NULL] *)
Definition exists_where {A} (f : A -> bool) (t : gmap string A) : bool := existsb f (rows t).
(** [SELECT ... WHERE id = :id AND f] *)
Definition get_where {A} (t : gmap string A) (id : string) (f : A -> bool) : option A :=
  match t !! id with Some r => if f r then Some r else None | None => None end.
(** [SELECT ... ORDER BY key LIMIT 1], by a total preorder. *)
Definition first_by {A} (leb : A -> A -> bool) (l : list A) : option A := head (isort leb l).
(** [INSERT]: a duplicate primary key is an [IntegrityError]. *)
Definition IntegrityError : exn := RuntimeError "IntegrityError".

(** [INSERT] into outbox_events: its delivery is new, and a job has one row per
    generation and one that is not superseded. *)
Definition outbox_clash (o x : OutboxEvent) : bool :=
  (o_delivery_id x ==? o_delivery_id o)
  || ((o_job_id x ==? o_job_id o)
      && ((o_delivery_generation x =? o_delivery_generation o)%Z || (isNone (o_superseded_at x) && isNone (o_superseded_at o)))).
Definition insert_outbox (s : store) (o : OutboxEvent) : res store :=
  raise IntegrityError when isSome (outbox s !! o_id o) || exists_where (outbox_clash o) (outbox s) ;;
  Ok (put_outbox o s).

Lemma elem_of_rows {A} (t : gmap string A) r : r ∈ rows t <-> exists i, t !! i = Some r.
Proof.
  unfold rows. rewrite list_elem_of_fmap. split.
  - intros ([i r'] & -> & H). exists i. by apply elem_of_map_to_list.
  - intros (i & H). exists (i, r). split; [done|]. by apply elem_of_map_to_list.
Qed.
Lemma exists_where_true {A} (f : A -> bool) (t : gmap string A) :
  exists_where f t = true <-> exists i r, t !! i = Some r /\ f r = true.
Proof. unfold exists_where. rewrite existsb_true_iff. setoid_rewrite elem_of_rows. naive_solver. Qed.
Lemma exists_where_false {A} (f : A -> bool) (t : gmap string A) :
  exists_where f t = false <-> forall i r, t !! i = Some r -> f r = false.
Proof. unfold exists_where. rewrite existsb_false_iff. setoid_rewrite elem_of_rows. naive_solver. Qed.
Lemma insert_outbox_ok s o s' :
  insert_outbox s o = Ok s' ->
  s' = put_outbox o s /\ outbox s !! o_id o = None /\ forall i x, outbox s !! i = Some x -> outbox_clash o x = false.
Proof.
  unfold insert_outbox. intros Hi. apply raise_if_ok in Hi as [Hg [= <-]]. apply orb_false_iff in Hg as [Hn Hc].
  rewrite exists_where_false in Hc. split_and!; [done|by apply isSome_false|done].
Qed.
Lemma select_where_elem {A} (f : A -> bool) (t : gmap string A) r :
  r ∈ select_where f t <-> (exists i, t !! i = Some r) /\ f r = true.
Proof. unfold select_where. by rewrite list_elem_of_In, filter_In, <- list_elem_of_In, elem_of_rows. Qed.
Lemma get_where_some {A} (t : gmap string A) id f r :
  get_where t id f = Some r <-> t !! id = Some r /\ f r = true.
Proof.
  unfold get_where. destruct (t !! id) as [x|]; [|by split; [|intros [? _]]].
  destruct (f x) eqn:E; (split; [|intros [? ?]]); congruence || (intros; simplify_eq; done).
Qed.

Lemma first_by_none {A} (leb : A -> A -> bool) l : first_by leb l = None <-> l = [].
Proof.
  unfold first_by. split; [|by intros ->]. intros E. apply (isort_nil_iff leb). by destruct (isort leb l).
Qed.
Lemma first_by_some {A} (leb : A -> A -> bool) l x :
  (forall x y, leb x y = false -> leb y x = true) ->
  (forall x y z, leb x y = true -> leb y z = true -> leb x z = true) ->
  first_by leb l = Some x -> x ∈ l /\ forall y, y ∈ l -> leb x y = true.
Proof.
  intros Ht Htr E. unfold first_by in E. pose proof (isort_sorted leb Ht Htr l) as Hs.
  pose proof (isort_perm leb l) as Hp. destruct (isort leb l) as [|z r]; [done|]. injection E as ->.
  split; [rewrite <- Hp; set_solver|]. intros y Hy. rewrite <- Hp in Hy.
  apply elem_of_cons in Hy as [->|Hy]; [destruct (leb x x) eqn:Er; [done|by apply Ht in Er as E'; congruence]|]. apply StronglySorted_inv in Hs as [_ Hf].
  rewrite Forall_forall in Hf. by apply Hf.
Qed.

(** A new row is one more row. *)
Lemma select_where_insert {A} (f : A -> bool) (t : gmap string A) i r :
  t !! i = None -> select_where f (<[i := r]> t) ≡ₚ (if f r then [r] else []) ++ select_where f t.
Proof.
  intros Hi. unfold select_where, rows. rewrite (map_to_list_insert t i r Hi). simpl. by destruct (f r).
Qed.

(** Every row sits under its primary key. *)
Record keyed (s : store) : Prop := {
  keyed_tickets : forall i r, tickets s !! i = Some r -> t_id r = i;
  keyed_messages : forall i r, messages s !! i = Some r -> m_id r = i;
  keyed_turns : forall i r, turns s !! i = Some r -> u_id r = i;
  keyed_runs : forall i r, runs s !! i = Some r -> r_id r = i;
  keyed_jobs : forall i r, jobs s !! i = Some r -> j_id r = i;
  keyed_events : forall i r, events s !! i = Some r -> e_id r = i;
  keyed_approvals : forall i r, approvals s !! i = Some r -> a_id r = i;
  keyed_proposals : forall i r, proposals s !! i = Some r -> p_id r = i;
  keyed_idempotency : forall i r, idempotency s !! i = Some r -> i_id r = i;
  keyed_decisions : forall i r, decisions s !! i = Some r -> hd_id r = i;
  keyed_revisions : forall i r, revisions s !! i = Some r -> v_id r = i;
  keyed_actions : forall i r, actions s !! i = Some r -> b_id r = i;
  keyed_billing : forall i r, billing s !! i = Some r -> billing_record_id r = i;
  keyed_api_keys : forall i r, api_keys s !! i = Some r -> ky_id r = i;
  keyed_subscriptions : forall i r, subscriptions s !! i = Some r -> sb_id r = i;
  keyed_observations : forall i r, observations s !! i = Some r -> ob_id r = i;
  keyed_invocations : forall i r, invocations s !! i = Some r -> iv_id r = i;
  keyed_turn_groups : forall i r, turn_groups s !! i = Some r -> tg_id r = i;
  keyed_call_attempts : forall i r, call_attempts s !! i = Some r -> ca_id r = i;
  keyed_transports : forall i r, transports s !! i = Some r -> tt_id r = i;
  keyed_capabilities : forall i r, capabilities s !! i = Some r -> ci_id r = i;
  keyed_capability_attempts : forall i r, capability_attempts s !! i = Some r -> cp_id r = i;
  keyed_capability_results : forall i r, capability_results s !! i = Some r -> cr_id r = i;
}.

Ltac keyed_put :=
  intros []; split; simpl; try done;
  intros ? ? [[<- <-]|[_ ?]]%lookup_insert_Some; (done || eauto).
Lemma keyed_put_ticket s r : keyed s -> keyed (put_ticket r s).
Proof. keyed_put. Qed.
Lemma keyed_put_message s r : keyed s -> keyed (put_message r s).
Proof. keyed_put. Qed.
Lemma keyed_put_turn s r : keyed s -> keyed (put_turn r s).
Proof. keyed_put. Qed.
Lemma keyed_put_run s r : keyed s -> keyed (put_run r s).
Proof. keyed_put. Qed.
Lemma keyed_put_job s r : keyed s -> keyed (put_job r s).
Proof. keyed_put. Qed.
Lemma keyed_put_event s r : keyed s -> keyed (put_event r s).
Proof. keyed_put. Qed.
Lemma keyed_put_marker s r : keyed s -> keyed (put_marker r s).
Proof. keyed_put. Qed.
Lemma keyed_put_proposal s r : keyed s -> keyed (put_proposal r s).
Proof. keyed_put. Qed.
Lemma keyed_put_outbox s r : keyed s -> keyed (put_outbox r s).
Proof. keyed_put. Qed.
Lemma keyed_put_idempotency s r : keyed s -> keyed (put_idempotency r s).
Proof. keyed_put. Qed.
Lemma keyed_put_approval s r : keyed s -> keyed (put_approval r s).
Proof. keyed_put. Qed.
Lemma keyed_put_decision s r : keyed s -> keyed (put_decision r s).
Proof. keyed_put. Qed.
Lemma keyed_put_revision s r : keyed s -> keyed (put_revision r s).
Proof. keyed_put. Qed.
Lemma keyed_put_action s r : keyed s -> keyed (put_action r s).
Proof. keyed_put. Qed.
Lemma keyed_put_withdrawal s r : keyed s -> keyed (put_withdrawal r s).
Proof. keyed_put. Qed.
Lemma keyed_put_billing s r : keyed s -> keyed (put_billing r s).
Proof. keyed_put. Qed.
Lemma keyed_put_api_key s r : keyed s -> keyed (put_api_key r s).
Proof. keyed_put. Qed.
Lemma keyed_put_subscription s r : keyed s -> keyed (put_subscription r s).
Proof. keyed_put. Qed.
Lemma keyed_put_audit s r : keyed s -> keyed (put_audit r s).
Proof. keyed_put. Qed.
Lemma keyed_put_observation s r : keyed s -> keyed (put_observation r s).
Proof. keyed_put. Qed.
Lemma keyed_put_invocation s r : keyed s -> keyed (put_invocation r s).
Proof. keyed_put. Qed.
Lemma keyed_put_group s r : keyed s -> keyed (put_group r s).
Proof. keyed_put. Qed.
Lemma keyed_put_attempt s r : keyed s -> keyed (put_attempt r s).
Proof. keyed_put. Qed.
Lemma keyed_put_transport s r : keyed s -> keyed (put_transport r s).
Proof. keyed_put. Qed.
Lemma keyed_put_capability s r : keyed s -> keyed (put_capability r s).
Proof. keyed_put. Qed.
Lemma keyed_put_capability_attempt s r : keyed s -> keyed (put_capability_attempt r s).
Proof. keyed_put. Qed.
Lemma keyed_put_capability_result s r : keyed s -> keyed (put_capability_result r s).
Proof. keyed_put. Qed.
Lemma keyed_empty : keyed empty_store.
Proof. split; simpl; intros ? ? H; by rewrite lookup_empty in H. Qed.
Create HintDb keyed.
#[export] Hint Resolve keyed_empty keyed_put_approval keyed_put_ticket keyed_put_message keyed_put_turn keyed_put_run keyed_put_job keyed_put_event
  keyed_put_decision keyed_put_revision keyed_put_action keyed_put_withdrawal keyed_put_billing keyed_put_api_key
  keyed_put_observation keyed_put_invocation keyed_put_group keyed_put_attempt keyed_put_transport keyed_put_capability keyed_put_capability_attempt keyed_put_capability_result
  keyed_put_subscription keyed_put_audit keyed_put_marker keyed_put_proposal keyed_put_outbox keyed_put_idempotency : keyed.
