(* ===== verification/EventChain.v ===== *)
(** * The ticket event chain (agent/persistence.py)

    Every ticket has a hash-linked sequence of events.  [append_event] computes
    the next link from the durable head, and [verify_ticket_event_chain] walks
    the chain from the genesis hash.

    Main results: an append extends a valid chain to a valid chain whose head
    is the new event; two chains that verify to the same head hash record the
    same history, event by event, or exhibit a SHA-256 collision; the
    stored payload never contains a forbidden key at any depth. *)
From Stdlib Require Import Ascii.
From S2P Require Import Prelude PyValue Sha256 CanonicalJson Timestamps Store.
Local Open Scope string_scope.
Local Open Scope list_scope.
Local Open Scope Z_scope.

Definition GENESIS_EVENT_HASH : string := "0000000000000000000000000000000000000000000000000000000000000000".
Definition EVENT_SCHEMA_VERSION : string := "support-ticket-event.v1".
Definition CANONICALIZATION_VERSION : string := "json-sort-keys.v1".
Definition EVENT_HASH_SCHEMA_VERSION : string := "event-hash.v1".

(** ** Payload sanitisation *)
Definition in_range_c (lo hi : nat) (c : ascii) : bool :=
  (Nat.leb lo (nat_of_ascii c) && Nat.leb (nat_of_ascii c) hi)%nat.
Definition is_alpha (c : ascii) : bool := in_range_c 65 90 c || in_range_c 97 122 c.
Definition is_alnum (c : ascii) : bool := is_alpha c || in_range_c 48 57 c.
Definition ref_char (c : ascii) : bool := is_alnum c || (c in? ["_"; "."; ":"; "/"; "-"]%char).

(** [[A-Za-z0-9]*_[A-Za-z0-9_.:/-]{1,511}] *)
Fixpoint typed_tail (l : list ascii) : bool :=
  match l with
  | [] => false
  | c :: l =>
      if decide (c = "_"%char) then
        let n := Z.of_nat (length l) in (1 <=? n) && (n <=? 511) && forallb ref_char l
      else is_alnum c && typed_tail l
  end.
Definition _TYPED_IDENTIFIER (s : string) : bool :=
  match String.list_ascii_of_string s with
  | c :: l => is_alpha c && typed_tail l
  | [] => false
  end.
Definition _TYPED_DIGEST (s : string) : bool :=
  let l := String.list_ascii_of_string s in
  let n := Z.of_nat (length l) in (32 <=? n) && (n <=? 128) && forallb is_hex l.

(** [s.endswith(suffix)] *)
Definition ends_with (suffix s : string) : bool :=
  String.prefix (string_rev suffix) (string_rev s).

Definition forbidden_keys : list string :=
  ["prompt"; "system_prompt"; "chain_of_thought"; "reasoning_content"; "api_key"].

Section payloads.
Context `{PyRuntime}.
(** [redact_pii(text).text] of policies/pii.py. *)
Variable redact_pii : string -> string.

Definition _trusted_structural_string (key : option string) (value : string) : bool :=
  match key with
  | None => false
  | Some key =>
      let normalized := str_lower key in
      if (normalized ==? "id") || ends_with "_id" normalized || ends_with "_ids" normalized
      then _TYPED_IDENTIFIER value
      else if ends_with "_hash" normalized then _TYPED_DIGEST value
      else false
  end.

Fixpoint _safe_payload (key : option string) (value : pyval) : pyval :=
  match value with
  | PyStr s =>
      PyStr (py_take 4000 (if _trusted_structural_string key s then s else redact_pii s))
  | PyDict d =>
      PyDict (omap (fun kv => if str_lower kv.1 in? forbidden_keys then None
                              else Some (kv.1, _safe_payload (Some kv.1) kv.2)) d)
  | PyList l => PyList (take 50 (map (_safe_payload key) l))
  | PyNone | PyBool _ | PyInt _ => value
  | PyTime _ | PyTuple _ => PyStr (py_take 1000 (py_str value))
  end.
End payloads.

(** ** Canonical text *)
(** [json.dumps] without [default]: a timestamp raises [TypeError]. *)
Fixpoint json_value (v : pyval) : res CanonicalValue :=
  match v with
  | PyNone => Ok CNull
  | PyBool b => Ok (CBool b)
  | PyInt z => Ok (CInt z)
  | PyStr s => Ok (CStr s)
  | PyTime _ => Err (TypeError "Object of type datetime is not JSON serializable")
  | PyList l | PyTuple l =>
      let? vs := (fix go (l : list pyval) : res (list CanonicalValue) :=
                    match l with
                    | [] => Ok []
                    | x :: l => let? c := json_value x in let? cs := go l in Ok (c :: cs)
                    end) l in
      Ok (CList vs)
  | PyDict d =>
      let? kvs := (fix go (d : pydict) : res (list (string * CanonicalValue)) :=
                     match d with
                     | [] => Ok []
                     | (k, x) :: d => let? c := json_value x in let? cs := go d in Ok ((k, c) :: cs)
                     end) d in
      Ok (CObj kvs)
  end.

(** The bytes of a JSON value that encodes to UTF-8. *)
Definition encode_json (c : CanonicalValue) : res string :=
  let text := String.string_of_list_ascii (dumps c) in
  raise ValueError "surrogates not allowed" when negb (encodes_utf8 text) ;;
  Ok text.
Definition _canonical_json (v : pyval) : res string := let? c := json_value v in encode_json c.

Definition _canonical_created_at (value : datetime) : res string :=
  format_canonical_utc_timestamp (if is_naive value then mk_datetime (wall value) (Some 0) else value).

Definition _payload_hash (payload : pyval) : res string :=
  let? text := _canonical_json payload in Ok (sha256_hex text).

Definition opt_str (o : option string) : CanonicalValue := match o with Some s => CStr s | None => CNull end.
Definition opt_int (o : option Z) : CanonicalValue := match o with Some z => CInt z | None => CNull end.

Definition _event_envelope (event : AgentEvent) : res (list (string * CanonicalValue)) :=
  let? created_at := _canonical_created_at (e_created_at event) in
  Ok [("aggregate_type", CStr "SupportTicket");
      ("aggregate_id", CStr (e_ticket_id event));
      ("tenant_id", CStr (e_tenant_id event));
      ("customer_id", CStr (e_customer_id event));
      ("event_id", CStr (e_id event));
      ("ticket_sequence", CInt (e_ticket_sequence event));
      ("run_id", CStr (e_run_id event));
      ("run_sequence", CInt (e_run_sequence event));
      ("job_id", opt_str (e_job_id event));
      ("delivery_generation", opt_int (e_delivery_generation event));
      ("fencing_token", opt_int (e_fencing_token event));
      ("step_index", CInt (e_step_index event));
      ("tool_round", CInt (e_tool_round event));
      ("event_type", CStr (e_event_type event));
      ("status", CStr (e_status event));
      ("visibility", CStr (e_visibility event));
      ("tool_call_id", opt_str (e_tool_call_id event));
      ("payload_hash", CStr (e_payload_hash event));
      ("previous_event_id", opt_str (e_previous_event_id event));
      ("correlation_id", CStr (e_correlation_id event));
      ("causation_id", opt_str (e_causation_id event));
      ("idempotency_id", opt_str (e_idempotency_id event));
      ("created_at", CStr created_at);
      ("event_schema_version", CStr (e_event_schema_version event));
      ("canonicalization_version", CStr (e_canonicalization_version event))].

Definition _event_hash (event : AgentEvent) (previous_event_hash : string) : res string :=
  let? envelope := _event_envelope event in
  let? text := encode_json (CObj envelope) in
  Ok (sha256_hex (e_event_hash_schema_version event +:+ text +:+ previous_event_hash)).

(** ** Verification *)
(** The events of a ticket by [ticket_sequence]. *)
Definition seq_leb (a b : AgentEvent) : bool := e_ticket_sequence a <=? e_ticket_sequence b.
Definition ticket_events (s : store) (ticket_id : string) : list AgentEvent :=
  isort seq_leb (select_where (fun e => e_ticket_id e ==? ticket_id) (events s)).

(** The last verified event: hash, id and run. *)
Record chain_head := mk_head { h_hash : string; h_id : option string; h_run : option string }.
Definition genesis : chain_head := mk_head GENESIS_EVENT_HASH None None.
Definition head_after (e : AgentEvent) : chain_head := mk_head (e_event_hash e) (Some (e_id e)) (Some (e_run_id e)).

(** One iteration of the loop. *)
Definition verify_event (expected_sequence : Z) (h : chain_head) (event : AgentEvent) : res chain_head :=
  let? expected_hash := _event_hash event (h_hash h) in
  let expected_parent_id := if h_run h ==? Some (e_run_id event) then h_id h else None in
  raise RuntimeError "ticket_event_chain_invalid" when
    (e_ticket_sequence event !=? expected_sequence)
    || (e_parent_event_hash event !=? h_hash h)
    || (e_previous_event_id event !=? expected_parent_id) ;;
  let? payload_hash := _payload_hash (e_payload event) in
  raise RuntimeError "ticket_event_chain_invalid" when
    (e_payload_hash event !=? payload_hash)
    || (e_event_schema_version event !=? EVENT_SCHEMA_VERSION)
    || (e_canonicalization_version event !=? CANONICALIZATION_VERSION)
    || (e_event_hash_schema_version event !=? EVENT_HASH_SCHEMA_VERSION)
    || (e_correlation_id event !=? e_run_id event)
    || (e_event_hash event !=? expected_hash) ;;
  Ok (head_after event).

Fixpoint verify_events (expected_sequence : Z) (h : chain_head) (l : list AgentEvent) : res chain_head :=
  match l with
  | [] => Ok h
  | e :: l => let? h := verify_event expected_sequence h e in verify_events (expected_sequence + 1) h l
  end.

Definition verify_ticket_event_chain (s : store) (ticket_id : string) : res string :=
  let l := ticket_events s ticket_id in
  raise RuntimeError "ticket_event_chain_empty" when is_nil l ;;
  let? h := verify_events 1 genesis l in
  Ok (h_hash h).

(** ** Appending *)
(** [WorkerExecutionContext], the fields an event records. *)
Record worker_context := mk_worker {
  w_tenant_id : string; w_ticket_id : string; w_run_id : string; w_job_id : string;
  w_delivery_generation : Z; w_fencing_token : Z;
}.

(** The keyword arguments of [append_event]; an outer [None] of the
    expectations is the source's ellipsis. *)
Record event_args := mk_args {
  arg_event_type : string;
  arg_payload : pyval;
  arg_visibility : string;
  arg_status : string;
  arg_tool_call_id : option string;
  arg_step_index : option Z;
  arg_tool_round : option Z;
  arg_idempotency_id : option string;
  expected_head_event_id : option (option string);
  expected_sequence : option Z;
  expected_event_hash : option (option string);
}.

(** [ORDER BY ticket_sequence DESC LIMIT 1] *)
Definition ticket_head (s : store) (ticket_id : string) : option AgentEvent :=
  first_by (fun a b => seq_leb b a) (select_where (fun e => e_ticket_id e ==? ticket_id) (events s)).
(** [MAX(run_sequence)] of a run. *)
Definition run_head_sequence (s : store) (run_id : string) : Z :=
  match first_by (fun a b => e_run_sequence b <=? e_run_sequence a)
          (select_where (fun e => e_run_id e ==? run_id) (events s)) with
  | Some e => e_run_sequence e
  | None => 0
  end.

(** [expected is not ... and actual != expected] *)
Definition mismatch {A} `{EqDecision A} (expected : option A) (actual : A) : bool :=
  match expected with Some x => actual !=? x | None => false end.

Section append.
Context `{PyRuntime}.
Variable redact_pii : string -> string.

(** The new row, with its hash. *)
Definition build_event (args : event_args) (run : AgentRun) (parent : option AgentEvent)
    (worker : option worker_context) (ticket_sequence run_sequence : Z) (event_id : string) (clock : datetime)
    : res AgentEvent :=
  let safe := _safe_payload redact_pii None (arg_payload args) in
  let parent_hash := match parent with Some p => e_event_hash p | None => GENESIS_EVENT_HASH end in
  let? payload_hash := _payload_hash safe in
  let event := {|
    e_id := event_id;
    e_tenant_id := r_tenant_id run;
    e_run_id := r_id run;
    e_ticket_id := r_ticket_id run;
    e_customer_id := r_customer_id run;
    e_ticket_sequence := ticket_sequence;
    e_run_sequence := run_sequence;
    e_step_index := default (r_step_index run) (arg_step_index args);
    e_tool_round := default (r_tool_rounds run) (arg_tool_round args);
    e_event_type := arg_event_type args;
    e_status := arg_status args;
    e_visibility := arg_visibility args;
    e_tool_call_id := arg_tool_call_id args;
    e_payload := safe;
    e_payload_hash := payload_hash;
    e_previous_event_id := match parent with
                           | Some p => if e_run_id p ==? r_id run then Some (e_id p) else None
                           | None => None
                           end;
    e_parent_event_hash := parent_hash;
    e_event_hash := "";
    e_event_schema_version := EVENT_SCHEMA_VERSION;
    e_canonicalization_version := CANONICALIZATION_VERSION;
    e_event_hash_schema_version := EVENT_HASH_SCHEMA_VERSION;
    e_correlation_id := r_id run;
    e_causation_id := e_id <$> parent;
    e_idempotency_id := arg_idempotency_id args;
    e_job_id := w_job_id <$> worker;
    e_delivery_generation := w_delivery_generation <$> worker;
    e_fencing_token := w_fencing_token <$> worker;
    e_created_at := clock |} in
  let? h := _event_hash event parent_hash in
  Ok (set_e_event_hash h event).

(** [AgentRunStore.append_event]: [event_id] and [clock] are the answers of
    [new_id] and [datetime.now]. *)
Definition append_event (s : store) (run_id : string) (args : event_args) (worker : option worker_context)
    (event_id : string) (clock : datetime) : res (AgentEvent * store) :=
  match runs s !! run_id with
  | None => Err (RuntimeError "event owner disappeared")
  | Some run =>
  match tickets s !! r_ticket_id run with
  | None => Err (RuntimeError "event owner disappeared")
  | Some ticket =>
      let parent := ticket_head s (r_ticket_id run) in
      let actual_sequence := match parent with Some p => e_ticket_sequence p | None => 0 end in
      raise RuntimeError "ticket_event_sequence_counter_conflict"
        when t_next_event_sequence ticket !=? actual_sequence ;;
      raise RuntimeError "ticket_event_head_id_conflict"
        when mismatch (expected_head_event_id args) (e_id <$> parent) ;;
      raise RuntimeError "ticket_event_head_sequence_conflict"
        when mismatch (expected_sequence args) actual_sequence ;;
      raise RuntimeError "ticket_event_head_hash_conflict"
        when mismatch (expected_event_hash args) (e_event_hash <$> parent) ;;
      raise RuntimeError "run_event_sequence_counter_conflict"
        when r_next_run_sequence run !=? run_head_sequence s run_id ;;
      let ticket := ticket |> set_t_next_event_sequence (t_next_event_sequence ticket + 1) in
      let run := run |> set_r_next_run_sequence (r_next_run_sequence run + 1) in
      raise RuntimeError "worker event context does not match event aggregate"
        when match worker with
             | Some w => (w_tenant_id w !=? r_tenant_id run) || (w_ticket_id w !=? r_ticket_id run)
                         || (w_run_id w !=? r_id run)
             | None => false
             end ;;
      let? event := build_event args run parent worker (t_next_event_sequence ticket)
                      (r_next_run_sequence run) event_id clock in
      raise IntegrityError when isSome (events s !! event_id) ;;
      let run := run |> set_r_step_index (Z.max (r_step_index run) (e_step_index event)) in
      Ok (event, s |> put_ticket ticket |> put_run run |> put_event event)
  end
  end.
End append.

(** [AgentRunStore.assert_ticket_head] *)
Definition assert_ticket_head (s : store) (run : AgentRun) (expected_id : option string)
    (expected_sequence : Z) (expected_hash : option string) : res (option AgentEvent) :=
  match tickets s !! r_ticket_id run with
  | None => Err (RuntimeError "event owner disappeared")
  | Some ticket =>
      let parent := ticket_head s (r_ticket_id run) in
      let actual_sequence := match parent with Some p => e_ticket_sequence p | None => 0 end in
      raise RuntimeError "ticket_event_head_conflict"
        when (t_next_event_sequence ticket !=? actual_sequence)
             || ((e_id <$> parent) !=? expected_id)
             || (actual_sequence !=? expected_sequence)
             || ((e_event_hash <$> parent) !=? expected_hash) ;;
      Ok parent
  end.

(** [AgentRunStore.transition] *)
Definition transition_run (run : AgentRun) (status checkpoint_stage : string)
    (checkpoint_id agent_finish_reason error_code : option string)
    (tool_rounds tool_attempts llm_calls : option Z) (clock : Z) : AgentRun :=
  let run := run |> set_r_status status |> set_r_checkpoint_stage checkpoint_stage
                 |> set_r_checkpoint_id checkpoint_id |> set_r_agent_finish_reason agent_finish_reason
                 |> set_r_error_code error_code in
  let bump set get o r := match o with Some n => set (Z.max (get r) n) r | None => r end in
  let run := bump set_r_tool_rounds r_tool_rounds tool_rounds run in
  let run := bump set_r_tool_attempts r_tool_attempts tool_attempts run in
  let run := bump set_r_llm_calls r_llm_calls llm_calls run in
  if status in? ["completed"; "failed"] then set_r_completed_at (Some clock) run else run.

(** ** Chains *)
Lemma verify_event_ok n h e h' :
  verify_event n h e = Ok h' ->
  h' = head_after e /\ e_ticket_sequence e = n /\ e_parent_event_hash e = h_hash h /\
  e_previous_event_id e = (if h_run h ==? Some (e_run_id e) then h_id h else None) /\
  e_event_hash_schema_version e = EVENT_HASH_SCHEMA_VERSION /\
  _event_hash e (h_hash h) = Ok (e_event_hash e) /\ _payload_hash (e_payload e) = Ok (e_payload_hash e).
Proof.
  unfold verify_event. intros H. steps_ok H. simplify_eq. to_prop. destruct_and! Hguard. destruct_and! Hguard0.
  split_and!; try done; congruence.
Qed.

Lemma verify_events_app n h l l' :
  verify_events n h (l ++ l') =
  (let? h' := verify_events n h l in verify_events (n + Z.of_nat (length l)) h' l').
Proof.
  revert n h. induction l as [|e l IH]; intros n h; cbn [app verify_events length].
  - cbn [res_bind]. by rewrite Z.add_0_r.
  - destruct (verify_event n h e) as [h1|]; cbn [res_bind]; [|done]. rewrite IH.
    by replace (n + 1 + Z.of_nat (length l)) with (n + Z.of_nat (S (length l))) by lia.
Qed.

Lemma verify_events_snoc n h l e h' :
  verify_events n h (l ++ [e]) = Ok h' <->
  exists h0, verify_events n h l = Ok h0 /\ verify_event (n + Z.of_nat (length l)) h0 e = Ok h'.
Proof.
  rewrite verify_events_app, res_bind_ok. simpl. split; intros (h0 & ? & Hv); exists h0; (split; [done|]).
  - steps_ok Hv. by simplify_eq.
  - by rewrite Hv.
Qed.

(** Sequence numbers of a verified chain are consecutive. *)
Lemma verified_sequence n h l h' i e :
  verify_events n h l = Ok h' -> l !! i = Some e -> e_ticket_sequence e = n + Z.of_nat i.
Proof.
  revert n h i. induction l as [|x l IH]; intros n h i Hv Hi; [done|]. simpl in Hv. steps_ok Hv.
  apply verify_event_ok in Hstep as (-> & Hs & _). destruct i as [|i]; simpl in Hi.
  - simplify_eq. lia.
  - specialize (IH _ _ _ Hv Hi). lia.
Qed.
Lemma verified_unique n h l h' a b :
  verify_events n h l = Ok h' -> a ∈ l -> b ∈ l -> e_ticket_sequence a = e_ticket_sequence b -> a = b.
Proof.
  intros Hv (i & Hi)%list_elem_of_lookup (j & Hj)%list_elem_of_lookup E.
  pose proof (verified_sequence _ _ _ _ _ _ Hv Hi). pose proof (verified_sequence _ _ _ _ _ _ Hv Hj).
  assert (i = j) as -> by lia. congruence.
Qed.

Lemma seq_leb_total a b : seq_leb a b = false -> seq_leb b a = true.
Proof. unfold seq_leb. to_prop. lia. Qed.
Lemma seq_leb_trans a b c : seq_leb a b = true -> seq_leb b c = true -> seq_leb a c = true.
Proof. unfold seq_leb. to_prop. lia. Qed.

(** A sorted list with distinct sequence numbers is the ordered result of any
    reordering of its rows. *)
Lemma isort_unique (l l' : list AgentEvent) :
  StronglySorted (fun a b => seq_leb a b = true) l ->
  (forall a b, a ∈ l -> b ∈ l -> e_ticket_sequence a = e_ticket_sequence b -> a = b) ->
  l ≡ₚ l' -> isort seq_leb l' = l.
Proof.
  intros Hs Hu Hp. apply (StronglySorted_unique_strong (fun a b => seq_leb a b = true)).
  - intros a b Ha Hb L1 L2. rewrite elem_of_isort, <- Hp in Ha. apply Hu; [done..|].
    unfold seq_leb in *. to_prop. lia.
  - apply isort_sorted; eauto using seq_leb_total, seq_leb_trans.
  - done.
  - by rewrite isort_perm, Hp.
Qed.

Lemma ticket_events_sorted s t : StronglySorted (fun a b => seq_leb a b = true) (ticket_events s t).
Proof. apply isort_sorted; eauto using seq_leb_total, seq_leb_trans. Qed.

Lemma sorted_snoc l e :
  StronglySorted (fun a b => seq_leb a b = true) l -> (forall a, a ∈ l -> seq_leb a e = true) ->
  StronglySorted (fun a b => seq_leb a b = true) (l ++ [e]).
Proof.
  induction 1 as [|x l Hl IH Hx]; intros He; simpl; [by repeat constructor|].
  constructor; [apply IH; set_solver|]. apply Forall_app. split; [done|]. constructor; [apply He; set_solver|done].
Qed.

(** The durable head the append reads is the last event of the chain. *)
Lemma ticket_head_last s t n h h' :
  verify_events n h (ticket_events s t) = Ok h' -> ticket_head s t = last (ticket_events s t).
Proof.
  intros Hv. unfold ticket_head. destruct (first_by _ _) as [p|] eqn:E.
  - apply first_by_some in E as [Hin Hmax];
      [|intros x y; apply seq_leb_total|intros x y z L1 L2; by eapply seq_leb_trans].
    rewrite <- (elem_of_isort seq_leb) in Hin. fold (ticket_events s t) in Hin.
    destruct (last (ticket_events s t)) as [q|] eqn:El; [|by apply last_None in El; rewrite El in Hin; set_solver].
    f_equal. apply last_Some in El as (l & El). rewrite El in Hv, Hin.
    assert (seq_leb q p = true) as Hqp.
    { apply Hmax. rewrite <- (elem_of_isort seq_leb). fold (ticket_events s t). rewrite El. set_solver. }
    eapply (verified_unique _ _ _ _ _ _ Hv); [done|set_solver|].
    apply list_elem_of_lookup in Hin as (i & Hi). pose proof (verified_sequence _ _ _ _ _ _ Hv Hi) as Hp.
    assert ((l ++ [q]) !! length l = Some q) as Hq by (rewrite lookup_app_r, Nat.sub_diag by lia; done).
    pose proof (verified_sequence _ _ _ _ _ _ Hv Hq). apply lookup_lt_Some in Hi. rewrite length_app in Hi. simpl in Hi.
    unfold seq_leb in Hqp. to_prop. lia.
  - apply first_by_none in E. unfold ticket_events. by rewrite E.
Qed.

(** ** Appending to a chain *)
Section append_lemmas.
Context `{PyRuntime}.
Variable redact_pii : string -> string.

Lemma build_event_ok args run parent worker ts rs eid clock e :
  build_event redact_pii args run parent worker ts rs eid clock = Ok e ->
  e_id e = eid /\ e_ticket_id e = r_ticket_id run /\ e_run_id e = r_id run /\ e_ticket_sequence e = ts /\
  e_correlation_id e = r_id run /\
  e_payload e = _safe_payload redact_pii None (arg_payload args) /\
  forall n h, n = ts ->
    h_hash h = match parent with Some p => e_event_hash p | None => GENESIS_EVENT_HASH end ->
    (if h_run h ==? Some (r_id run) then h_id h else None)
      = match parent with Some p => if e_run_id p ==? r_id run then Some (e_id p) else None | None => None end ->
    verify_event n h e = Ok (head_after e).
Proof.
  unfold build_event. intros Hb. steps_ok Hb. simplify_eq. split_and!; try reflexivity.
  intros n h -> Hh Hp. unfold verify_event. rewrite Hh.
  match goal with |- context [_event_hash (set_e_event_hash ?x ?v) ?p] =>
    change (_event_hash (set_e_event_hash x v) p) with (_event_hash v p) end.
  rewrite Hstep0. cbn [res_bind set_e_event_hash e_run_id e_ticket_sequence e_parent_event_hash
    e_previous_event_id e_payload e_payload_hash e_event_schema_version e_canonicalization_version
    e_event_hash_schema_version e_correlation_id e_event_hash].
  rewrite Hp, Hstep. cbn [res_bind]. unfold neqb. by rewrite !eqb_refl.
Qed.

Lemma append_ok_facts s run_id args worker eid clock e s' :
  append_event redact_pii s run_id args worker eid clock = Ok (e, s') ->
  exists run ticket,
    runs s !! run_id = Some run /\ tickets s !! r_ticket_id run = Some ticket /\ events s !! eid = None /\
    build_event redact_pii args (set_r_next_run_sequence (r_next_run_sequence run + 1) run)
      (ticket_head s (r_ticket_id run)) worker
      (match ticket_head s (r_ticket_id run) with Some p => e_ticket_sequence p | None => 0 end + 1)
      (r_next_run_sequence run + 1) eid clock = Ok e /\
    events s' = <[eid := e]> (events s).
Proof.
  unfold append_event. intros Ha. destruct (runs s !! run_id) as [run|]; [|done].
  destruct (tickets s !! r_ticket_id run) as [ticket|] eqn:Et; [|done]. steps_ok Ha. simplify_eq. to_prop.
  pose proof (build_event_ok _ _ _ _ _ _ _ _ _ Hstep) as (Hid & _).
  exists run, ticket. rewrite Hguard in Hstep. split_and!; try done.
  unfold put_event, put_run, put_ticket. simpl. by rewrite Hid.
Qed.

Lemma ticket_events_insert_other s s' eid e t h n h0 :
  events s' = <[eid := e]> (events s) -> events s !! eid = None -> e_ticket_id e <> t ->
  verify_events n h0 (ticket_events s t) = Ok h -> ticket_events s' t = ticket_events s t.
Proof.
  intros He Hn Ht Hv. unfold ticket_events at 1. apply isort_unique.
  - apply ticket_events_sorted.
  - intros a b Ha Hb. by eapply verified_unique.
  - rewrite He, select_where_insert by done. apply eqb_false in Ht. rewrite Ht. simpl.
    unfold ticket_events. by rewrite isort_perm.
Qed.

Lemma ticket_events_insert s s' eid e t h :
  events s' = <[eid := e]> (events s) -> events s !! eid = None -> e_ticket_id e = t ->
  verify_events 1 genesis (ticket_events s t) = Ok h ->
  e_ticket_sequence e = 1 + Z.of_nat (length (ticket_events s t)) ->
  ticket_events s' t = ticket_events s t ++ [e].
Proof.
  intros He Hn Ht Hv Hseq. unfold ticket_events at 1.
  assert (forall a, a ∈ ticket_events s t -> e_ticket_sequence a < e_ticket_sequence e) as Hlt.
  { intros a (i & Hi)%list_elem_of_lookup. pose proof (verified_sequence _ _ _ _ _ _ Hv Hi).
    apply lookup_lt_Some in Hi. lia. }
  apply isort_unique.
  - apply sorted_snoc; [apply ticket_events_sorted|]. intros a Ha. apply Hlt in Ha. unfold seq_leb. to_prop. lia.
  - intros a b Ha Hb E. apply elem_of_app in Ha as [Ha|Ha%list_elem_of_singleton],
      Hb as [Hb|Hb%list_elem_of_singleton]; subst; try done.
    + by eapply verified_unique.
    + apply Hlt in Ha. lia.
    + apply Hlt in Hb. lia.
  - rewrite He, select_where_insert by done. rewrite Ht, eqb_refl. rewrite Permutation_app_comm.
    apply Permutation_app_head. unfold ticket_events. by rewrite isort_perm.
Qed.

Lemma verified_head n h l h' :
  verify_events n h l = Ok h' -> h' = match last l with Some e => head_after e | None => h end.
Proof.
  destruct (last l) as [e|] eqn:E.
  - apply last_Some in E as (l0 & ->). intros (h0 & _ & Hv)%verify_events_snoc.
    by apply verify_event_ok in Hv as (-> & _).
  - apply last_None in E as ->. simpl. by intros [= <-].
Qed.
Lemma last_sequence l h e :
  verify_events 1 genesis l = Ok h -> last l = Some e -> e_ticket_sequence e = Z.of_nat (length l).
Proof.
  intros Hv (l0 & ->)%last_Some. apply verify_events_snoc in Hv as (h0 & _ & Hv).
  apply verify_event_ok in Hv as (_ & -> & _). rewrite length_app. simpl. lia.
Qed.
End append_lemmas.

(** ** What a hash binds *)
Lemma list_ascii_app a b :
  String.list_ascii_of_string (a +:+ b) = String.list_ascii_of_string a ++ String.list_ascii_of_string b.
Proof. induction a as [|c a IH]; simpl; [done|]. by rewrite IH. Qed.
Lemma list_ascii_inj a b : String.list_ascii_of_string a = String.list_ascii_of_string b -> a = b.
Proof.
  intros E. apply (f_equal String.string_of_list_ascii) in E.
  by rewrite !String.string_of_list_ascii_of_string in E.
Qed.
Lemma append_inj a b p q :
  is_sha256_hex p = true -> is_sha256_hex q = true -> a +:+ p = b +:+ q -> a = b /\ p = q.
Proof.
  unfold is_sha256_hex. rewrite !andb_true_iff, !Nat.eqb_eq. intros [Lp _] [Lq _] E.
  apply (f_equal String.list_ascii_of_string) in E. rewrite !list_ascii_app in E.
  apply app_inj_2 in E as [E1 E2]; [|congruence]. split; by apply list_ascii_inj.
Qed.
Lemma append_inj_l v a b : v +:+ a = v +:+ b -> a = b.
Proof.
  intros E. apply (f_equal String.list_ascii_of_string) in E. rewrite !list_ascii_app in E.
  apply app_inv_head in E. by apply list_ascii_inj.
Qed.
Lemma encode_json_inj c c' t : encode_json c = Ok t -> encode_json c' = Ok t -> norm c = norm c'.
Proof.
  unfold encode_json. intros H H'. steps_ok H. steps_ok H'. simplify_eq. apply dumps_inj.
  match goal with E : String.string_of_list_ascii _ = String.string_of_list_ascii _ |- _ =>
    apply (f_equal String.list_ascii_of_string) in E;
    by rewrite !String.list_ascii_of_string_of_list_ascii in E end.
Qed.

(** Two events record the same fact: every enveloped field, the payload up to
    key order, the instant of creation and the link. *)
Definition same_event (e e' : AgentEvent) : Prop :=
  e_id e = e_id e' /\ e_ticket_id e = e_ticket_id e' /\ e_tenant_id e = e_tenant_id e' /\
  e_customer_id e = e_customer_id e' /\ e_ticket_sequence e = e_ticket_sequence e' /\
  e_run_id e = e_run_id e' /\ e_run_sequence e = e_run_sequence e' /\ e_job_id e = e_job_id e' /\
  e_delivery_generation e = e_delivery_generation e' /\ e_fencing_token e = e_fencing_token e' /\
  e_step_index e = e_step_index e' /\ e_tool_round e = e_tool_round e' /\ e_event_type e = e_event_type e' /\
  e_status e = e_status e' /\ e_visibility e = e_visibility e' /\ e_tool_call_id e = e_tool_call_id e' /\
  e_previous_event_id e = e_previous_event_id e' /\ e_causation_id e = e_causation_id e' /\
  e_idempotency_id e = e_idempotency_id e' /\ instant (e_created_at e) = instant (e_created_at e') /\
  e_event_hash e = e_event_hash e' /\
  exists c c', json_value (e_payload e) = Ok c /\ json_value (e_payload e') = Ok c' /\ norm c = norm c'.

Lemma payload_hash_binds p p' h :
  _payload_hash p = Ok h -> _payload_hash p' = Ok h ->
  (exists c c', json_value p = Ok c /\ json_value p' = Ok c' /\ norm c = norm c') \/ exists a b, sha256_collision a b.
Proof.
  unfold _payload_hash, _canonical_json. intros H H'. steps_ok H. steps_ok H'. simplify_eq.
  match goal with E : sha256_hex _ = sha256_hex _ |- _ => destruct (sha256_eq_or_collision _ _ E) as [<-|Hc] end;
    [left|right; eauto].
  steps_ok Hstep. steps_ok Hstep0. eexists _, _. split_and!; [done..|]. by eapply encode_json_inj.
Qed.

Lemma created_at_instant d s :
  _canonical_created_at d = Ok s -> in_range (instant d) = true /\ s = isoformat_utc (instant d).
Proof.
  unfold _canonical_created_at. intros H. apply format_instant in H as [Hr ->].
  assert (instant (if is_naive d then mk_datetime (wall d) (Some 0) else d) = instant d) as E; [|by rewrite E in *].
  unfold is_naive. destruct d as [w [o|]]; unfold instant; simpl; lia.
Qed.

Lemma opt_str_inj a b : norm (opt_str a) = norm (opt_str b) -> a = b.
Proof. destruct a, b; simpl; congruence. Qed.
Lemma opt_int_inj a b : norm (opt_int a) = norm (opt_int b) -> a = b.
Proof. destruct a, b; simpl; congruence. Qed.

(** Two links with the same hash record the same event and the same parent. *)
Lemma link_binds n n' h h' e e' k k' :
  is_sha256_hex (h_hash h) = true -> is_sha256_hex (h_hash h') = true ->
  verify_event n h e = Ok k -> verify_event n' h' e' = Ok k' -> e_event_hash e = e_event_hash e' ->
  (h_hash h = h_hash h' /\ same_event e e') \/ exists a b, sha256_collision a b.
Proof.
  intros Hh Hh' (_ & Hseq & Hpar & Hprev & Hv & He & Hpl)%verify_event_ok
    (_ & Hseq' & Hpar' & Hprev' & Hv' & He' & Hpl')%verify_event_ok E.
  pose proof E as E0. unfold _event_hash in He, He'. rewrite Hv in He. rewrite Hv' in He'. steps_ok He. steps_ok He'. simplify_eq.
  rewrite <- He in E. rewrite <- He' in E.
  destruct (sha256_eq_or_collision _ _ E) as [Et|Hc]; [|right; eauto].
  apply append_inj_l, append_inj in Et as [Et Ehh]; [|done..]. subst a2.
  pose proof (encode_json_inj _ _ _ Hstep0 Hstep2) as Hn.
  unfold _event_envelope in Hstep, Hstep1. steps_ok Hstep. steps_ok Hstep1. injection Hstep as <-. injection Hstep1 as <-.
  apply created_at_instant in Hstep3 as [Hr Eta], Hstep4 as [Hr' Etb].
  match type of Hn with norm (CObj ?l) = norm (CObj ?l') =>
    assert (NoDup (map fst l')) as Hnd by (cbn [map fst]; apply (bool_decide_unpack _); vm_compute; exact I);
    assert (forall k w w', (k, CStr w) ∈ l -> (k, CStr w') ∈ l' -> w = w') as HS
      by (intros k0 w w' H1 H2; by injection (norm_member l l' k0 _ _ Hnd Hn H1 H2));
    assert (forall k w w', (k, CInt w) ∈ l -> (k, CInt w') ∈ l' -> w = w') as HI
      by (intros k0 w w' H1 H2; by injection (norm_member l l' k0 _ _ Hnd Hn H1 H2));
    assert (forall k w w', (k, opt_str w) ∈ l -> (k, opt_str w') ∈ l' -> w = w') as HO
      by (intros k0 w w' H1 H2; by apply opt_str_inj, (norm_member l l' k0 _ _ Hnd Hn H1 H2));
    assert (forall k w w', (k, opt_int w) ∈ l -> (k, opt_int w') ∈ l' -> w = w') as HZ
      by (intros k0 w w' H1 H2; by apply opt_int_inj, (norm_member l l' k0 _ _ Hnd Hn H1 H2))
  end.
  assert (e_payload_hash e = e_payload_hash e') as Eph by (apply (HS "payload_hash"); list_member).
  rewrite <- Eph in Hpl'. destruct (payload_hash_binds _ _ _ Hpl Hpl') as [Hpay|]; [|by right].
  clear He He' Hpl Hpl' E Hstep0 Hstep2. left. split; [exact Ehh|]. unfold same_event. split_and!.
  - apply (HS "event_id"); list_member.
  - apply (HS "aggregate_id"); list_member.
  - apply (HS "tenant_id"); list_member.
  - apply (HS "customer_id"); list_member.
  - apply (HI "ticket_sequence"); list_member.
  - apply (HS "run_id"); list_member.
  - apply (HI "run_sequence"); list_member.
  - apply (HO "job_id"); list_member.
  - apply (HZ "delivery_generation"); list_member.
  - apply (HZ "fencing_token"); list_member.
  - apply (HI "step_index"); list_member.
  - apply (HI "tool_round"); list_member.
  - apply (HS "event_type"); list_member.
  - apply (HS "status"); list_member.
  - apply (HS "visibility"); list_member.
  - apply (HO "tool_call_id"); list_member.
  - apply (HO "previous_event_id"); list_member.
  - apply (HO "causation_id"); list_member.
  - apply (HO "idempotency_id"); list_member.
  - apply isoformat_utc_inj; [done..|]. rewrite <- Eta, <- Etb. apply (HS "created_at"); list_member.
  - exact E0.
  - exact Hpay.
Qed.

Lemma verified_hex n l h : verify_events n genesis l = Ok h -> is_sha256_hex (h_hash h) = true.
Proof.
  destruct l as [|e l _] using rev_ind; [intros [= <-]; reflexivity|].
  intros (h0 & _ & Hv)%verify_events_snoc. apply verify_event_ok in Hv as (-> & _ & _ & _ & _ & He & _).
  unfold _event_hash in He. steps_ok He. injection He as He. simpl. rewrite <- He. apply sha256_hex_shape.
Qed.

Lemma chains_agree l l' h h' :
  length l = length l' -> verify_events 1 genesis l = Ok h -> verify_events 1 genesis l' = Ok h' ->
  h_hash h = h_hash h' ->
  Forall2 same_event l l' \/ exists a b, sha256_collision a b.
Proof.
  revert l' h h'. induction l as [|e l IH] using rev_ind; intros l' h h' Hlen Hv Hv' Hh.
  { destruct l'; [by left|done]. }
  destruct l' as [|e' l' _] using rev_ind; [by rewrite length_app in Hlen; simpl in Hlen; lia|].
  rewrite !length_app in Hlen. simpl in Hlen.
  apply verify_events_snoc in Hv as (h0 & Hv & He). apply verify_events_snoc in Hv' as (h0' & Hv' & He').
  pose proof (verify_event_ok _ _ _ _ He) as (-> & _). pose proof (verify_event_ok _ _ _ _ He') as (-> & _).
  destruct (link_binds _ _ _ _ _ _ _ _ (verified_hex _ _ _ Hv) (verified_hex _ _ _ Hv') He He' Hh)
    as [[Hp Hs]|]; [|by right].
  destruct (IH l' h0 h0' ltac:(lia) Hv Hv' Hp) as [Hf|]; [|by right]. left. apply Forall2_app; [done|by constructor].
Qed.

(** ** Payloads *)
Fixpoint no_forbidden_key `{PyRuntime} (v : pyval) : bool :=
  match v with
  | PyList l | PyTuple l => forallb no_forbidden_key l
  | PyDict d => forallb (fun kv => negb (str_lower kv.1 in? forbidden_keys) && no_forbidden_key kv.2) d
  | _ => true
  end.

Lemma safe_payload_clean `{PyRuntime} redact key v : no_forbidden_key (_safe_payload redact key v) = true.
Proof.
  revert key. induction v as [|b|z|s|t|l IH|l IH|d IH] using pyval_ind'; intros key; simpl; try done.
  - apply forallb_true_iff. intros x Hx. apply elem_of_take in Hx as (i & Hi & _).
    apply list_lookup_fmap_Some in Hi as (y & -> & Hy). rewrite Forall_forall in IH.
    apply IH. by eapply list_elem_of_lookup_2.
  - apply forallb_true_iff. intros [k x] Hx. apply list_elem_of_omap in Hx as ([k' y] & Hin & Hy).
    rewrite Forall_forall in IH. simpl in Hy. destruct (str_lower k' in? forbidden_keys) eqn:E; [done|].
    simplify_eq. simpl. rewrite E. simpl. by apply (IH (k, y)).
Qed.

Lemma last_cons_or_nil {A} (l : list A) : l <> [] -> exists l0 x, l = l0 ++ [x].
Proof. destruct l as [|x l _] using rev_ind; [done|eauto]. Qed.
Lemma ticket_events_ticket s t e : e ∈ ticket_events s t -> e_ticket_id e = t.
Proof. unfold ticket_events. rewrite elem_of_isort, select_where_elem. intros [_ E]. by to_prop. Qed.

(** ** A concrete chain *)
Definition demo_ticket : SupportTicket :=
  mk_ticket "T1" "t1" "c1" "queued" "active" "agent" None 1 0 0 0 None 0.
Definition demo_run : AgentRun :=
  mk_run "R1" "t1" "T1" "c1" "M1" (Some "U1") "running" 1 0 None None None None 0 0 0 0 "request_created" None None
    "m" "fake" "native" "context-v1.2" None None None 0.
Definition demo_store : store := empty_store |> put_ticket demo_ticket |> put_run demo_run.
Definition demo_args (kind : string) : event_args :=
  mk_args kind (PyDict [("note", PyStr "hello"); ("api_key", PyStr "secret")]) "customer" "completed"
    None None None None None None None.
Definition demo_append (s : store) (kind id : string) : res (AgentEvent * store) :=
  @append_event ascii_runtime (fun s => s) s "R1" (demo_args kind) None id (utc 1784073600000000).
Definition demo_last (r : res (AgentEvent * store)) (s : store) : store :=
  match r with Ok (_, s) => s | Err _ => s end.
Definition demo_one : store := demo_last (demo_append demo_store "run_started" "E1") demo_store.
Definition demo_two : store := demo_last (demo_append demo_one "answered" "E2") demo_one.
Definition demo_event2 : AgentEvent :=
  match demo_append demo_one "answered" "E2" with
  | Ok (e, _) => e
  | Err _ => mk_event "" "" "" "" "" 0 0 0 0 "" "" "" None PyNone "" None "" "" "" "" "" "" None None None None None (utc 0)
  end.
Example demo_chain :
  (match demo_append demo_one "answered" "E2" with
   | Ok (e, s) => Some (e_payload e, e_ticket_sequence e, length (ticket_events s "T1"))
   | Err _ => None
   end) = Some (PyDict [("note", PyStr "hello")], 2, 2%nat).
Proof. vm_compute. reflexivity. Qed.

(** ** Properties *)
Section properties.
Context `{PyRuntime}.
Variable redact_pii : string -> string.

(** A successful append puts the new event at the end of a valid chain. *)
Lemma append_at_head s run_id args worker eid clock e s' :
  append_event redact_pii s run_id args worker eid clock = Ok (e, s') ->
  (ticket_events s (e_ticket_id e) = [] \/ exists h, verify_ticket_event_chain s (e_ticket_id e) = Ok h) ->
  ticket_events s' (e_ticket_id e) = ticket_events s (e_ticket_id e) ++ [e] /\
  verify_ticket_event_chain s' (e_ticket_id e) = Ok (e_event_hash e) /\
  forall t h, t <> e_ticket_id e -> verify_ticket_event_chain s t = Ok h -> verify_ticket_event_chain s' t = Ok h.
Proof.
  intros Ha Hc. apply append_ok_facts in Ha as (run & ticket & _ & _ & Hfresh & Hb & Hev).
  apply build_event_ok in Hb as (Hid & Ht & Hr & Hseq & _ & _ & Hver).
  change (r_ticket_id (set_r_next_run_sequence (r_next_run_sequence run + 1) run)) with (r_ticket_id run) in Ht.
  rewrite Ht in *. set (t := r_ticket_id run) in *.
  assert (exists h0, verify_events 1 genesis (ticket_events s t) = Ok h0) as (h0 & Hv).
  { destruct Hc as [->|(h & Hv)]; [by exists genesis|]. unfold verify_ticket_event_chain in Hv. steps_ok Hv. eauto. }
  pose proof (ticket_head_last _ _ _ _ _ Hv) as Hlast. rewrite Hlast in Hseq, Hver.
  pose proof (verified_head _ _ _ _ Hv) as Hh0.
  assert (e_ticket_sequence e = 1 + Z.of_nat (length (ticket_events s t))) as Hlen.
  { rewrite Hseq. destruct (last (ticket_events s t)) as [p|] eqn:El.
    - rewrite (last_sequence _ _ _ Hv El). lia.
    - apply last_None in El. rewrite El. simpl. lia. }
  pose proof (ticket_events_insert _ _ _ _ _ _ Hev Hfresh Ht Hv Hlen) as Hte.
  split_and!; [done| |].
  - unfold verify_ticket_event_chain. rewrite Hte.
    rewrite raise_if_false by (by destruct (ticket_events s t)).
    assert (verify_events 1 genesis (ticket_events s t ++ [e]) = Ok (head_after e)) as ->; [|done].
    apply verify_events_snoc. exists h0. split; [done|]. apply Hver; [lia| |]; rewrite Hh0.
    + by destruct (last _).
    + destruct (last (ticket_events s t)) as [p|]; [|done]. simpl.
      destruct (decide (e_run_id p = r_id run)) as [E|E].
      * rewrite E. by rewrite !eqb_refl.
      * rewrite !(proj2 (eqb_false _ _)) by congruence. done.
  - intros t' h Hne Hvt. unfold verify_ticket_event_chain in *. steps_ok Hvt. simplify_eq.
    erewrite ticket_events_insert_other; [|done|done| |done]; [|by rewrite Ht].
    rewrite Hguard, Hstep. done.
Qed.

(** Append extends the chain.  If the ticket's chain verifies (or has no
    event yet), a successful [append_event] puts the new event at its end, the
    new chain verifies, and its head hash is the new event's; the chains of
    all other tickets still verify to the same head. *)
Theorem append_extends_chain s run_id args worker eid clock e s' :
  append_event redact_pii s run_id args worker eid clock = Ok (e, s') ->
  (ticket_events s (e_ticket_id e) = [] \/ exists h, verify_ticket_event_chain s (e_ticket_id e) = Ok h) ->
  ticket_events s' (e_ticket_id e) = ticket_events s (e_ticket_id e) ++ [e] /\
  verify_ticket_event_chain s' (e_ticket_id e) = Ok (e_event_hash e) /\
  forall t h, t <> e_ticket_id e -> verify_ticket_event_chain s t = Ok h -> verify_ticket_event_chain s' t = Ok h.
Proof. apply append_at_head. Qed.

(** The stored payload is sanitised.  No event that [append_event] writes
    carries one of the forbidden keys (prompt, reasoning, API key), in any
    letter case, at any depth of its payload. *)
Theorem event_payload_sanitised s run_id args worker eid clock e s' :
  append_event redact_pii s run_id args worker eid clock = Ok (e, s') ->
  no_forbidden_key (e_payload e) = true.
Proof.
  intros (run & ticket & _ & _ & _ & Hb & _)%append_ok_facts.
  apply build_event_ok in Hb as (_ & _ & _ & _ & _ & -> & _). apply safe_payload_clean.
Qed.
End properties.

(** C22: the chain is tamper evident.  Two histories that verify to the same
    head hash have the same length and record the same events in the same
    order, field by field and payload by payload; otherwise two explicit texts
    are a SHA-256 collision. *)
Theorem chain_tamper_evident s s' t t' h :
  verify_ticket_event_chain s t = Ok h -> verify_ticket_event_chain s' t' = Ok h ->
  (t = t' /\ Forall2 same_event (ticket_events s t) (ticket_events s' t')) \/
  exists a b, sha256_collision a b.
Proof.
  unfold verify_ticket_event_chain. intros Hv Hv'. steps_ok Hv. steps_ok Hv'. to_prop.
  injection Hv as <-. injection Hv' as Hh.
  destruct (last_cons_or_nil (ticket_events s t) Hguard) as (l & e & El).
  destruct (last_cons_or_nil (ticket_events s' t') Hguard0) as (l' & e' & El').
  assert (e_ticket_id e = t /\ e_ticket_id e' = t') as [Et Et'].
  { split; eapply ticket_events_ticket; [rewrite El|rewrite El']; apply elem_of_app; right; by left. }
  rewrite El, El' in *. pose proof Hstep as Hs. pose proof Hstep0 as Hs'.
  apply verify_events_snoc in Hs as (h0 & Hv1 & He), Hs' as (h0' & Hv1' & He').
  pose proof (verify_event_ok _ _ _ _ He) as (-> & Hq & _). pose proof (verify_event_ok _ _ _ _ He') as (-> & Hq' & _).
  destruct (link_binds _ _ _ _ _ _ _ _ (verified_hex _ _ _ Hv1) (verified_hex _ _ _ Hv1') He He' (eq_sym Hh))
    as [[_ Hse]|]; [|by right].
  assert (length (l ++ [e]) = length (l' ++ [e'])) as Hlen.
  { destruct Hse as (_ & _ & _ & _ & Es & _). rewrite !length_app. simpl. lia. }
  destruct (chains_agree _ _ _ _ Hlen Hstep Hstep0 (eq_sym Hh)) as [Hf|]; [|by right].
  left. split; [|done]. destruct Hse as (_ & Eid & _). congruence.
Qed.

(** ** Witnesses *)
Definition demo_hash2 : string := e_event_hash demo_event2.

Lemma append_extends_chain_witness :
  ticket_events demo_two "T1" = ticket_events demo_one "T1" ++ [demo_event2] /\
  verify_ticket_event_chain demo_two "T1" = Ok (e_event_hash demo_event2) /\
  forall t h, t <> "T1" -> verify_ticket_event_chain demo_one t = Ok h -> verify_ticket_event_chain demo_two t = Ok h.
Proof.
  apply (@append_extends_chain ascii_runtime (fun s => s) demo_one "R1" (demo_args "answered") None "E2"
           (utc 1784073600000000) demo_event2 demo_two).
  - vm_compute. reflexivity.
  - right. eexists. vm_compute. reflexivity.
Defined.

Lemma event_payload_sanitised_witness : @no_forbidden_key ascii_runtime (e_payload demo_event2) = true.
Proof.
  apply (@event_payload_sanitised ascii_runtime (fun s => s) demo_one "R1" (demo_args "answered") None "E2"
           (utc 1784073600000000) demo_event2 demo_two).
  vm_compute. reflexivity.
Defined.

Lemma chain_tamper_evident_witness :
  ("T1" = "T1" /\ Forall2 same_event (ticket_events demo_two "T1") (ticket_events demo_two "T1")) \/
  exists a b, sha256_collision a b.
Proof. apply (chain_tamper_evident demo_two demo_two "T1" "T1" demo_hash2); vm_compute; reflexivity. Defined.
