(* ===== verification/EventStream.v ===== *)
(** * The customer event stream (api/sse.py, contracts/event_channels.py)

    A customer follows a conversation through a text/event-stream response:
    the server polls the durable event chain from a cursor, sends the events
    the customer may see and moves the cursor; a client that lost the
    connection comes back with the id of the last event it received.

    The application dialect is modelled: one poll is one read of the store.
    The Redis wake-up only shortens the pause between polls and does not
    appear; a session is the list of the stores and clock values its polls
    observe.

    Main results: however the polls interleave with appends, and wherever
    connections are cut, the frames a client receives are exactly the events
    visible to the customer, each once and in order; the frames of a stream can
    be read back from its text; a public payload carries only listed,
    bounded fields. *)
From Stdlib Require Import Ascii DecimalString DecimalPos.
From S2P Require Import Prelude PyValue Sha256 CanonicalJson Timestamps Store EventChain.
Local Open Scope string_scope.
Local Open Scope list_scope.
Local Open Scope Z_scope.

(** ** Public payloads *)
Definition _PUBLIC_EVENT_STRING_FIELDS : list string := ["action_type"; "freshness_status"; "route"; "tool_name"].
Definition _PUBLIC_EVENT_OUTCOMES : list string :=
  ["answered"; "completed"; "executed"; "failed"; "needs_clarification"; "proposed"; "refused"; "rejected"; "resolved";
   "stopped"; "withdrawn"].
Definition _PUBLIC_PROJECTION_STATUSES : list string :=
  ["approved"; "executed"; "executing"; "failed"; "manual_takeover_legacy"; "pending"; "rejected"; "stale";
   "verification_pending"; "withdrawn"].

Section stream.
(** The iteration order of the set [_PUBLIC_EVENT_STRING_FIELDS], which the
    interpreter chooses. *)
Context (field_order : list string).

Definition string_field (d : pydict) (key : string) : list (string * CanonicalValue) :=
  match d.[key] with
  | PyStr item => if (0 <? py_len item) && (py_len item <=? 64) then [(key, CStr item)] else []
  | _ => []
  end.
Definition listed_field (d : pydict) (key : string) (allowed : list string) : list (string * CanonicalValue) :=
  match d.[key] with
  | PyStr item => if item in? allowed then [(key, CStr item)] else []
  | _ => []
  end.
(** [_safe_public_event_payload] *)
Definition _safe_public_event_payload (value : pyval) : list (string * CanonicalValue) :=
  match value with
  | PyDict d =>
      concat (map (string_field d) field_order)
      ++ listed_field d "outcome" _PUBLIC_EVENT_OUTCOMES
      ++ listed_field d "projection_status" _PUBLIC_PROJECTION_STATUSES
      ++ match d.["source_count"] with
         | PyInt n => if (0 <=? n) && (n <=? 100) then [("source_count", CInt n)] else []
         | _ => []
         end
  | _ => []
  end.

(** ** Frames *)

(** [datetime.isoformat()] *)
Definition offset_text (offset : Z) : list ascii :=
  let o := Z.abs offset / second in
  (if offset <? 0 then "-"%char else "+"%char) :: pad2 (o / 3600) ++ [":"%char] ++ pad2 (o / 60 mod 60)
  ++ (if o mod 60 =? 0 then [] else ":"%char :: pad2 (o mod 60)).
Definition isoformat_datetime (d : datetime) : string :=
  let us := wall d mod day in
  let seconds := us / second in
  String.string_of_list_ascii
    (isoformat_date (civil_from_days (wall d / day)) ++ ["T"%char]
     ++ pad2 (seconds / 3600) ++ [":"%char] ++ pad2 (seconds / 60 mod 60) ++ [":"%char] ++ pad2 (seconds mod 60)
     ++ (if us mod second =? 0 then [] else "."%char :: pad6 (us mod second))
     ++ match utcoffset d with Some o => offset_text o | None => [] end).

Definition event_json (e : AgentEvent) : CanonicalValue :=
  CObj [("ticket_sequence", CInt (e_ticket_sequence e)); ("run_id", CStr (e_run_id e));
        ("run_sequence", CInt (e_run_sequence e)); ("event_type", CStr (e_event_type e)); ("status", CStr (e_status e));
        ("payload", CObj (_safe_public_event_payload (e_payload e)));
        ("created_at", CStr (isoformat_datetime (e_created_at e)))].
Definition lf : ascii := "010"%char.
(** [encode_event]; [json.dumps] without sorting is [write]. *)
Definition encode_event (e : AgentEvent) : list ascii :=
  chars "id: " ++ chars (str_of_Z (e_ticket_sequence e)) ++ [lf]
  ++ chars "event: " ++ chars (e_event_type e) ++ [lf]
  ++ chars "data: " ++ write (event_json e) ++ [lf; lf].

(** ** Reading the chain *)
Definition visible (after : Z) (e : AgentEvent) : bool :=
  (after <? e_ticket_sequence e) && (e_visibility e ==? "customer").
(** [visible_events] *)
Definition visible_events (s : store) (customer_id : option string) (ticket_id : string) (after : Z) (limit : nat)
    : res (list AgentEvent) :=
  let! ticket := tickets s !! ticket_id else HTTPException 404 "Ticket not found" in
  raise HTTPException 404 "Ticket not found" when Some (t_customer_id ticket) !=? customer_id ;;
  Ok (take limit (List.filter (visible after) (ticket_events s ticket_id))).

(** What the generator yields. *)
Inductive emission : Type := Sent (e : AgentEvent) | Heartbeat.
Definition render (x : emission) : list ascii :=
  match x with Sent e => encode_event e | Heartbeat => chars ": heartbeat" ++ [lf; lf] end.
Definition page : nat := 256.
Definition last_sequence_of (l : list AgentEvent) (cursor : Z) : Z :=
  match last l with Some e => e_ticket_sequence e | None => cursor end.

(** One turn of the loop of [event_stream]: a poll at time [now]. *)
Definition poll (customer_id : option string) (ticket_id : string) (s : store) (now cursor heartbeat_at : Z)
    : res (list emission * Z * Z) :=
  let? events := visible_events s customer_id ticket_id cursor page in
  let beat := 15 * second <=? now - heartbeat_at in
  Ok (map Sent events ++ (if beat then [Heartbeat] else []), last_sequence_of events cursor,
      if beat then now else heartbeat_at).
(** The loop until the client disconnects. *)
Fixpoint event_stream (customer_id : option string) (ticket_id : string) (polls : list (store * Z)) (cursor heartbeat_at : Z)
    : res (list emission * Z) :=
  match polls with
  | [] => Ok ([], cursor)
  | (s, now) :: polls =>
      let? r := poll customer_id ticket_id s now cursor heartbeat_at in
      let '(frames, cursor, heartbeat_at) := r in
      let? rest := event_stream customer_id ticket_id polls cursor heartbeat_at in
      Ok (frames ++ rest.1, rest.2)
  end.

(** [stream_ticket_events]: the cursor of a connection and its first check. *)
Definition stream_cursor (last_event_id : option string) : res Z :=
  let text := default "" last_event_id in
  match parse_int (if is_empty_str text then "0" else text) with
  | Some n => Ok (Z.max 0 n)
  | None => Err (HTTPException 422 "invalid Last-Event-ID")
  end.
Definition stream_ticket_events (s : store) (customer_id : option string) (ticket_id : string) (last_event_id : option string)
    : res Z :=
  let? cursor := stream_cursor last_event_id in
  let? _ := visible_events s customer_id ticket_id cursor 1 in
  Ok cursor.
End stream.

(** [ticket_event_channel] *)
Definition ticket_event_channel (tenant_id ticket_id : string) : res string :=
  raise ValueError "ticket_event_channel_scope_required" when is_empty_str tenant_id || is_empty_str ticket_id ;;
  Ok ("supportguard:ticket-events:v2:" +:+ sha256_hex (tenant_id +:+ String "000" ticket_id)).

(** ** Delivery *)

(** A valid chain of a ticket, possibly empty. *)
Definition chain_ok (s : store) (t : string) : Prop :=
  ticket_events s t = [] \/ exists h, verify_ticket_event_chain s t = Ok h.
Lemma chain_sequence s t i e : chain_ok s t -> ticket_events s t !! i = Some e -> e_ticket_sequence e = 1 + Z.of_nat i.
Proof.
  intros [E|(h & Hv)] Hi; [by rewrite E in Hi|]. unfold verify_ticket_event_chain in Hv. steps_ok Hv.
  by eapply verified_sequence.
Qed.

(** What may happen to the store between two polls. *)
Inductive world_step `{PyRuntime} (redact : string -> string) (s : store) : store -> Prop :=
| step_append run_id args worker eid clock e s' :
    append_event redact s run_id args worker eid clock = Ok (e, s') -> world_step redact s s'
| step_other s' : events s' = events s -> world_step redact s s'.
Lemma world_step_chain `{PyRuntime} redact s s' t :
  world_step redact s s' -> chain_ok s t -> chain_ok s' t /\ ticket_events s t `prefix_of` ticket_events s' t.
Proof.
  intros [run_id args worker eid clock e s1 Ha|s1 He] Hc.
  - destruct (decide (t = e_ticket_id e)) as [->|Hne].
    + destruct (append_at_head _ _ _ _ _ _ _ _ _ Ha Hc) as (E & Hv & _). rewrite E. split; [right; eauto|by apply prefix_app_r].
    + apply append_ok_facts in Ha as (run & ticket & _ & _ & Hfresh & Hb & Hev).
      assert (ticket_events s1 t = ticket_events s t) as E.
      { assert (exists h, verify_events 1 genesis (ticket_events s t) = Ok h) as (h & Hv).
        { destruct Hc as [->|(h & Hv)]; [by exists genesis|]. unfold verify_ticket_event_chain in Hv. steps_ok Hv. eauto. }
        eapply ticket_events_insert_other; [done|done|congruence|done]. }
      unfold chain_ok, verify_ticket_event_chain in *. rewrite E. by split.
  - unfold chain_ok, verify_ticket_event_chain, ticket_events in *. rewrite He. by split.
Qed.
Definition evolves `{PyRuntime} (redact : string -> string) : store -> store -> Prop := rtc (world_step redact).
Lemma evolves_chain `{PyRuntime} redact s s' t :
  evolves redact s s' -> chain_ok s t -> chain_ok s' t /\ ticket_events s t `prefix_of` ticket_events s' t.
Proof.
  induction 1 as [s|s s1 s2 Hs _ IH]; intros Hc; [by split|]. destruct (world_step_chain _ _ _ _ Hs Hc) as [Hc1 Hp1].
  destruct (IH Hc1) as [Hc2 Hp2]. split; [done|]. by etrans.
Qed.
(** The stores a client's polls observe, each at or after the one before. *)
Inductive observed `{PyRuntime} (redact : string -> string) : store -> list store -> store -> Prop :=
| observed_none s : observed redact s [] s
| observed_next s s1 l s2 : evolves redact s s1 -> observed redact s1 l s2 -> observed redact s (s1 :: l) s2.
Lemma observed_app `{PyRuntime} redact s l1 s1 l2 s2 :
  observed redact s l1 s1 -> observed redact s1 l2 s2 -> observed redact s (l1 ++ l2) s2.
Proof. induction 1 as [s|s s' l s1 He _ IH]; intros H2; [done|]. cbn. econstructor; [exact He|auto]. Qed.

(** The events of a ticket a customer sees between two sequence numbers. *)
Definition window (s : store) (t : string) (lo hi : Z) : list AgentEvent :=
  List.filter (fun e => visible lo e && (e_ticket_sequence e <=? hi)) (ticket_events s t).

(** A chain is strictly increasing, so a page of it is a window. *)
Definition increasing (l : list AgentEvent) : Prop :=
  StronglySorted (fun a b => e_ticket_sequence a < e_ticket_sequence b) l.
Lemma chain_increasing s t : chain_ok s t -> increasing (ticket_events s t).
Proof.
  intros Hc. assert (forall i e, ticket_events s t !! i = Some e -> e_ticket_sequence e = 1 + Z.of_nat i) as Hl
    by (intros; by eapply chain_sequence). clear Hc. revert Hl. generalize (ticket_events s t). intros l.
  generalize 1. induction l as [|x l IH]; intros n Hl; constructor.
  - apply (IH (n + 1)). intros i e Hi. rewrite (Hl (S i) e Hi). lia.
  - apply Forall_forall. intros y (i & Hi)%list_elem_of_lookup. rewrite (Hl 0%nat x eq_refl), (Hl (S i) y Hi). lia.
Qed.
Lemma increasing_filter f l : increasing l -> increasing (List.filter f l).
Proof.
  induction 1 as [|x l _ IH Hx]; cbn; [constructor|]. destruct (f x); [|done]. constructor; [done|].
  rewrite Forall_forall in *. intros y [Hy _]%list_elem_of_In%filter_In. by apply Hx, list_elem_of_In.
Qed.
Lemma filter_filter {A} (f g : A -> bool) l : List.filter f (List.filter g l) = List.filter (fun x => g x && f x) l.
Proof. induction l as [|x l IH]; cbn; [done|]. destruct (g x); cbn; [destruct (f x)|]; by rewrite ?IH. Qed.
Lemma filter_ext_in' {A} (f g : A -> bool) l : (forall x, x ∈ l -> f x = g x) -> List.filter f l = List.filter g l.
Proof. intros Hfg. apply filter_ext_in. intros x Hx. apply Hfg. by apply list_elem_of_In. Qed.
Lemma filter_none {A} (f : A -> bool) l : (forall x, x ∈ l -> f x = false) -> List.filter f l = [].
Proof.
  intros Hf. induction l as [|x l IH]; cbn; [done|]. rewrite Hf by by left. apply IH. intros y Hy. apply Hf. by right.
Qed.
Lemma filter_all {A} (f : A -> bool) l : (forall x, x ∈ l -> f x = true) -> List.filter f l = l.
Proof.
  intros Hf. induction l as [|x l IH]; cbn; [done|]. rewrite Hf by by left. f_equal. apply IH. intros y Hy. apply Hf. by right.
Qed.
Lemma increasing_take l n cursor :
  increasing l -> (forall e, e ∈ l -> cursor < e_ticket_sequence e) ->
  take n l = List.filter (fun e => e_ticket_sequence e <=? last_sequence_of (take n l) cursor) l.
Proof.
  intros Hl Hc. set (f := fun e => _).
  enough (List.filter f (take n l ++ drop n l) = take n l) as E by by rewrite take_drop in E.
  rewrite List.filter_app. subst f. unfold last_sequence_of.
  assert (forall a b, a ∈ take n l -> b ∈ drop n l -> e_ticket_sequence a < e_ticket_sequence b) as Hab.
  { intros a b Ha Hb. rewrite <- (take_drop n l) in Hl. apply StronglySorted_app in Hl as (Hx & _). by apply Hx. }
  destruct (last (take n l)) as [e|] eqn:El.
  - apply last_Some in El as (l0 & E). rewrite (filter_all _ (take n l)), filter_none, app_nil_r; [done| |].
    + intros b Hb. apply Z.leb_gt. apply Hab; [|done]. rewrite E. apply elem_of_app. right. by left.
    + intros a Ha. apply Z.leb_le. rewrite E in Ha. apply elem_of_app in Ha as [Ha|Ha%list_elem_of_singleton]; [|subst; lia].
      assert (increasing (l0 ++ [e])) as Hi.
      { rewrite <- E. rewrite <- (take_drop n l) in Hl. by apply StronglySorted_app in Hl as (_ & ? & _). }
      enough (e_ticket_sequence a < e_ticket_sequence e) by lia. apply StronglySorted_app in Hi as (Hx & _). apply Hx; [done|by left].
  - apply last_None in El. rewrite El. cbn. rewrite filter_none; [done|]. intros b Hb. apply Z.leb_gt, Hc.
    rewrite <- (take_drop n l). apply elem_of_app. by right.
Qed.
Lemma last_sequence_above l cursor :
  (forall e, e ∈ l -> cursor < e_ticket_sequence e) -> cursor <= last_sequence_of l cursor.
Proof.
  intros Hl. unfold last_sequence_of. destruct (last l) as [e|] eqn:El; [|lia]. apply last_Some_elem_of in El. apply Hl in El. lia.
Qed.

(** *** Windows *)
Lemma window_grows s s' t lo hi :
  chain_ok s' t -> ticket_events s t `prefix_of` ticket_events s' t ->
  hi <= Z.of_nat (length (ticket_events s t)) \/ hi <= lo -> window s' t lo hi = window s t lo hi.
Proof.
  intros Hc [new E] Hhi. unfold window. rewrite E, List.filter_app, (filter_none _ new), app_nil_r; [done|].
  intros x (i & Hi)%list_elem_of_lookup.
  assert (ticket_events s' t !! (length (ticket_events s t) + i)%nat = Some x) as Hx by (rewrite E, lookup_app_r by lia; rewrite <- Hi; f_equal; lia).
  apply (chain_sequence _ _ _ _ Hc) in Hx. unfold visible. destruct Hhi.
  - apply andb_false_iff. right. apply Z.leb_gt. lia.
  - destruct (Z.ltb_spec lo (e_ticket_sequence x)); [|done]. cbn. apply andb_false_iff. right. apply Z.leb_gt. lia.
Qed.
Lemma window_split s t a b c : chain_ok s t -> a <= b -> b <= c -> window s t a b ++ window s t b c = window s t a c.
Proof.
  intros Hc Hab Hbc. unfold window. pose proof (chain_increasing _ _ Hc) as Hi. revert Hi. generalize (ticket_events s t) as l.
  induction 1 as [|x l _ IH Hx]; cbn [List.filter]; [done|]. rewrite Forall_forall in Hx. unfold visible in *.
  destruct (Z.leb_spec (e_ticket_sequence x) b) as [Hb|Hb].
  - assert (b <? e_ticket_sequence x = false) as -> by (apply Z.ltb_ge; lia).
    assert (e_ticket_sequence x <=? c = true) as -> by (apply Z.leb_le; lia). cbn [andb]. rewrite !andb_true_r.
    destruct ((a <? e_ticket_sequence x) && _); [cbn [app]; by rewrite IH|exact IH].
  - rewrite andb_false_r. rewrite (filter_none _ l).
    2:{ intros y Hy. specialize (Hx y Hy). cbn in Hx. apply andb_false_iff. right. apply Z.leb_gt. lia. }
    assert (a <? e_ticket_sequence x = true) as -> by (apply Z.ltb_lt; lia).
    assert (b <? e_ticket_sequence x = true) as -> by (apply Z.ltb_lt; lia). cbn [app].
    assert (forall y, y ∈ l -> (b <? e_ticket_sequence y) = (a <? e_ticket_sequence y)) as Hy.
    { intros y Hy. specialize (Hx y Hy). cbn in Hx. rewrite !(proj2 (Z.ltb_lt _ _)); [done|lia|lia]. }
    rewrite (filter_ext_in' _ (fun e => (a <? e_ticket_sequence e) && (e_visibility e ==? "customer") && (e_ticket_sequence e <=? c)) l); [done|].
    intros y Hin. by rewrite (Hy y Hin).
Qed.

Definition sent (l : list emission) : list AgentEvent := omap (fun x => match x with Sent e => Some e | Heartbeat => None end) l.
Lemma sent_app a b : sent (a ++ b) = sent a ++ sent b.
Proof. apply omap_app. Qed.
Lemma sent_map l : sent (map Sent l) = l.
Proof. induction l as [|x l IH]; [done|]. cbn. by f_equal. Qed.

(** One poll sends the window up to its last event. *)
Lemma visible_window s t cursor n :
  chain_ok s t ->
  let l := take n (List.filter (visible cursor) (ticket_events s t)) in
  l = window s t cursor (last_sequence_of l cursor) /\ cursor <= last_sequence_of l cursor /\
  (last_sequence_of l cursor <= Z.of_nat (length (ticket_events s t)) \/ last_sequence_of l cursor <= cursor) /\
  ((length l < n)%nat -> l = List.filter (visible cursor) (ticket_events s t)).
Proof.
  intros Hc l. set (all := List.filter (visible cursor) (ticket_events s t)) in l.
  assert (forall e, e ∈ all -> cursor < e_ticket_sequence e /\ e ∈ ticket_events s t) as Hall.
  { intros e [Hin Hv]%list_elem_of_In%filter_In. unfold visible in Hv. apply andb_true_iff in Hv as [Hv _].
    split; [by apply Z.ltb_lt|by apply list_elem_of_In]. }
  assert (forall e, e ∈ l -> e ∈ all) as Hsub by (intros e He; rewrite <- (take_drop n all); apply elem_of_app; by left).
  split_and!.
  - unfold l at 1. rewrite (increasing_take all n cursor); [|by apply increasing_filter, chain_increasing|by apply Hall].
    fold l. unfold all. rewrite filter_filter. done.
  - apply last_sequence_above. intros e He. by apply Hall, Hsub.
  - unfold last_sequence_of. destruct (last l) as [e|] eqn:El; [left|right; lia]. apply last_Some_elem_of, Hsub, Hall in El as [_ El].
    apply list_elem_of_lookup in El as (i & Hi). rewrite (chain_sequence _ _ _ _ Hc Hi). apply lookup_lt_Some in Hi. lia.
  - intros Hn. unfold l, all in *. rewrite length_take in Hn. apply take_ge. lia.
Qed.

Section delivery.
Context `{PyRuntime} (redact : string -> string).

Lemma stream_window customer t polls cursor beat frames cursor' s0 s1 :
  chain_ok s0 t -> observed redact s0 (map fst polls) s1 ->
  event_stream customer t polls cursor beat = Ok (frames, cursor') ->
  chain_ok s1 t /\ ticket_events s0 t `prefix_of` ticket_events s1 t /\ sent frames = window s1 t cursor cursor' /\
  cursor <= cursor' /\ (cursor' <= Z.of_nat (length (ticket_events s1 t)) \/ cursor' <= cursor).
Proof.
  revert cursor beat frames s0. induction polls as [|[s now] polls IH]; intros cursor beat frames s0 Hc Ho He; cbn in Ho, He.
  - injection He as <- <-. inversion Ho; subst. split_and!; [done|done| |lia|lia]. unfold window. rewrite filter_none; [done|].
    intros e _. unfold visible. destruct (Z.ltb_spec cursor (e_ticket_sequence e)); [|done]. cbn.
    rewrite (proj2 (Z.leb_gt _ _)) by lia. apply andb_false_r.
  - inversion Ho as [|? ? ? ? Hev Ho']; subst. destruct (evolves_chain _ _ _ _ Hev Hc) as [Hcs Hps].
    apply res_bind_ok in He as ([[fs c1] b1] & Hp & He). apply res_bind_ok in He as ([rest c2] & Hr & He). injection He as <- <-.
    destruct (IH _ _ _ _ Hcs Ho' Hr) as (Hc1 & Hp1 & Hw & Hle & Hb). cbn [fst snd] in *.
    unfold poll in Hp. apply res_bind_ok in Hp as (l & Hl & Hp). injection Hp as <- <- _.
    unfold visible_events in Hl. destruct (tickets s !! t); [|done]. apply raise_if_ok in Hl as [_ Hl]. injection Hl as Hl.
    destruct (visible_window s t cursor page Hcs) as (Hw1 & Hle1 & Hb1 & _). rewrite Hl in Hw1, Hle1, Hb1.
    pose proof (prefix_length _ _ Hp1) as Hlen. split_and!; [done|by etrans| |lia|lia].
    rewrite !sent_app, sent_map.
    assert (sent (if 15 * second <=? now - beat then [Heartbeat] else []) = []) as -> by by destruct (15 * second <=? now - beat).
    rewrite app_nil_r, Hw. rewrite <- (window_split s1 t cursor (last_sequence_of l cursor) c2 Hc1 Hle1 Hle). f_equal.
    by rewrite (window_grows s s1 t cursor _ Hc1 Hp1 Hb1).
Qed.

Lemma window_increasing s t a b : chain_ok s t -> increasing (window s t a b).
Proof. intros Hc. by apply increasing_filter, chain_increasing. Qed.
Lemma take_sent k (l : list emission) : exists n, sent (take k l) = take n (sent l).
Proof.
  revert k. induction l as [|x l IH]; intros [|k]; [by exists 0%nat..|]. destruct (IH k) as [n Hn]. cbn [take].
  unfold sent in *. destruct x as [e|]; [exists (S n)|exists n]; cbn in *; by rewrite Hn.
Qed.

(** C17: a customer misses nothing and sees nothing twice.  Whatever is
    appended to the conversation (and whatever else happens to the store)
    between polls, and wherever the first connection is cut, a client that
    reconnects with the id of the last event it received has, after both
    connections, received exactly the customer-visible events after its
    starting point up to the last one sent, each once and in the order of the
    chain; and as soon as a further poll finds nothing, it has all of them. *)
Theorem stream_resumes customer t polls1 polls2 cursor beat1 beat2 frames1 frames2 cursor1 cursor2 k s0 s1 s2 :
  chain_ok s0 t -> observed redact s0 (map fst polls1) s1 -> observed redact s1 (map fst polls2) s2 ->
  event_stream customer t polls1 cursor beat1 = Ok (frames1, cursor1) ->
  event_stream customer t polls2 (last_sequence_of (sent (take k frames1)) cursor) beat2 = Ok (frames2, cursor2) ->
  let received := sent (take k frames1) ++ sent frames2 in
  received = window s2 t cursor cursor2 /\ increasing received /\
  (visible_events s2 customer t cursor2 page = Ok [] -> received = List.filter (visible cursor) (ticket_events s2 t)).
Proof.
  intros Hc Ho1 Ho2 He1 He2 received.
  destruct (stream_window _ _ _ _ _ _ _ _ _ Hc Ho1 He1) as (Hc1 & Hp1 & Hw1 & Hle1 & Hb1).
  destruct (stream_window _ _ _ _ _ _ _ _ _ Hc1 Ho2 He2) as (Hc2 & Hp2 & Hw2 & Hle2 & Hb2).
  set (mid := last_sequence_of (sent (take k frames1)) cursor) in *.
  assert (sent (take k frames1) = window s1 t cursor mid /\ cursor <= mid /\ (mid <= Z.of_nat (length (ticket_events s1 t)) \/ mid <= cursor)) as (Hw & Hmid & Hbm).
  { destruct (take_sent k frames1) as [n Hn]. unfold mid. rewrite Hn, Hw1.
    assert (forall e, e ∈ window s1 t cursor cursor1 -> cursor < e_ticket_sequence e /\ e ∈ ticket_events s1 t) as Hall.
    { intros e [Hin Hv]%list_elem_of_In%filter_In. unfold visible in Hv. rewrite !andb_true_iff in Hv. destruct Hv as [[Hv _] _].
      split; [by apply Z.ltb_lt|by apply list_elem_of_In]. }
    assert (forall e, e ∈ take n (window s1 t cursor cursor1) -> e ∈ window s1 t cursor cursor1) as Hsub.
    { intros e He. rewrite <- (take_drop n (window _ _ _ _)). apply elem_of_app. by left. }
    split_and!.
    - etrans; [apply (increasing_take _ n cursor); [by apply window_increasing|by apply Hall]|].
      set (m := last_sequence_of (take n (window s1 t cursor cursor1)) cursor).
      assert (m <= cursor1) as Hm.
      { unfold m, last_sequence_of. destruct (last _) as [e|] eqn:El; [|done]. apply last_Some_elem_of, Hsub in El.
        apply list_elem_of_In, filter_In in El as [_ El]. apply andb_true_iff in El as [_ El%Z.leb_le]. done. }
      unfold window. rewrite filter_filter. apply filter_ext_in'. intros e _. cbn beta.
      destruct (Z.leb_spec (e_ticket_sequence e) m); [|by rewrite !andb_false_r].
      rewrite (proj2 (Z.leb_le (e_ticket_sequence e) cursor1)) by lia. by rewrite !andb_true_r.
    - apply last_sequence_above. intros e He. by apply Hall, Hsub.
    - unfold last_sequence_of. destruct (last _) as [e|] eqn:El; [left|right; reflexivity]. apply last_Some_elem_of, Hsub, Hall in El as [_ El].
      apply list_elem_of_lookup in El as (i & Hi). rewrite (chain_sequence _ _ _ _ Hc1 Hi). apply lookup_lt_Some in Hi. lia. }
  assert (received = window s2 t cursor cursor2) as Hrec.
  { unfold received. rewrite Hw2, Hw, <- (window_grows s1 s2 t cursor mid Hc2 Hp2 Hbm). apply window_split; done. }
  split_and!; [done|rewrite Hrec; by apply window_increasing|]. intros Hv. rewrite Hrec.
  unfold visible_events in Hv. destruct (tickets s2 !! t); [|done]. apply raise_if_ok in Hv as [_ Hv]. injection Hv as Hv.
  assert (List.filter (visible cursor2) (ticket_events s2 t) = []) as Hv'.
  { destruct (List.filter (visible cursor2) (ticket_events s2 t)) as [|x l]; [done|]. unfold page in Hv. discriminate Hv. }
  unfold window. apply filter_ext_in'. intros e He.
  destruct (visible cursor e) eqn:Ev; [|done]. cbn. apply Z.leb_le. destruct (Z.le_gt_cases (e_ticket_sequence e) cursor2) as [|Hgt]; [done|].
  exfalso. assert (e ∈ List.filter (visible cursor2) (ticket_events s2 t)) as Hin.
  { apply list_elem_of_In, filter_In. split; [by apply list_elem_of_In|]. unfold visible in *. apply andb_true_iff in Ev as [_ ->].
    rewrite (proj2 (Z.ltb_lt _ _)) by lia. done. }
  rewrite Hv' in Hin. by apply not_elem_of_nil in Hin.
Qed.
End delivery.

(** ** Reading a stream back *)
Definition cr : ascii := "013"%char.
Definition inline (c : ascii) : bool := negb (bool_decide (c = lf) || bool_decide (c = cr)).
(** The terminated lines of a text, ended by LF, CR or CRLF. *)
Fixpoint split_lines (cur s : list ascii) : list (list ascii) :=
  match s with
  | [] => []
  | c :: s' =>
      if bool_decide (c = lf) then rev cur :: split_lines [] s'
      else if bool_decide (c = cr)
      then rev cur :: match s' with
                      | d :: s'' => if bool_decide (d = lf) then split_lines [] s'' else split_lines [] s'
                      | [] => []
                      end
      else split_lines (c :: cur) s'
  end.
Fixpoint after_prefix (p l : list ascii) : option (list ascii) :=
  match p, l with
  | [], _ => Some l
  | a :: p, b :: l => if bool_decide (a = b) then after_prefix p l else None
  | _, _ => None
  end.
(** The events a client dispatches: the id persists, a blank line ends an
    event, lines with other prefixes are comments. *)
Fixpoint dispatch (lines : list (list ascii)) (id event : list ascii) (data : option (list ascii))
    : list (list ascii * list ascii * list ascii) :=
  match lines with
  | [] => []
  | [] :: rest =>
      match data with
      | Some d => (id, event, d) :: dispatch rest id [] None
      | None => dispatch rest id [] None
      end
  | line :: rest =>
      match after_prefix (chars "id: ") line, after_prefix (chars "event: ") line, after_prefix (chars "data: ") line with
      | Some v, _, _ => dispatch rest v event data
      | _, Some v, _ => dispatch rest id v data
      | _, _, Some v => dispatch rest id event (Some (match data with Some d => d ++ lf :: v | None => v end))
      | _, _, _ => dispatch rest id event data
      end
  end.
Definition read_stream (text : list ascii) : list (list ascii * list ascii * list ascii) :=
  dispatch (split_lines [] text) [] [] None.

Lemma split_line cur x rest : forallb inline x = true -> split_lines cur (x ++ lf :: rest) = (rev cur ++ x) :: split_lines [] rest.
Proof.
  revert cur. induction x as [|c x IH]; intros cur Hx; [cbn; by rewrite app_nil_r|].
  cbn [forallb] in Hx. apply andb_true_iff in Hx as [Hc Hx]. unfold inline in Hc. apply negb_true_iff, orb_false_iff in Hc as [Hl Hr].
  cbn [app split_lines]. rewrite Hl, Hr, IH by done. cbn [rev]. by rewrite <- app_assoc.
Qed.
Lemma escape_char_inline c : forallb inline (escape_char c) = true.
Proof. destruct c as [[] [] [] [] [] [] [] []]; vm_compute; reflexivity. Qed.
Lemma write_str_inline s : forallb inline (write_str s) = true.
Proof.
  unfold write_str. cbn [forallb]. rewrite forallb_app. cbn. rewrite andb_true_r.
  induction s as [|c s IH]; [done|]. cbn [escape]. by rewrite forallb_app, escape_char_inline.
Qed.
Lemma int_inline z : forallb inline (chars (str_of_Z z)) = true.
Proof.
  apply forallb_true_iff. intros c Hc. pose proof (int_chars z) as Hf. rewrite Forall_forall in Hf. apply Hf in Hc.
  destruct c as [[] [] [] [] [] [] [] []]; vm_compute in Hc |- *; congruence.
Qed.
Lemma elements_inline b l : forallb (forallb inline) l = true -> forallb inline (write_elements b l) = true.
Proof.
  revert b. induction l as [|x l IH]; intros b Hl; [done|]. cbn [forallb write_elements] in *. apply andb_true_iff in Hl as [Hx Hl].
  rewrite !forallb_app, Hx, (IH false Hl). by destruct b.
Qed.
Lemma members_inline b (l : list (string * list ascii)) :
  forallb (fun kv => forallb inline kv.2) l = true -> forallb inline (write_members b l) = true.
Proof.
  revert b. induction l as [|[k x] l IH]; intros b Hl; [done|]. cbn [forallb write_members snd] in *. apply andb_true_iff in Hl as [Hx Hl].
  rewrite !forallb_app, Hx, (IH false Hl), write_str_inline. by destruct b.
Qed.
Lemma forallb_map {A B} (f : B -> bool) (g : A -> B) l : forallb f (map g l) = forallb (fun x => f (g x)) l.
Proof. induction l as [|x l IH]; [done|]. cbn. by rewrite IH. Qed.
(** JSON text stays on one line. *)
Lemma write_inline v : forallb inline (write v) = true.
Proof.
  induction v as [|b|z|s|l IH|items IH] using CanonicalValue_ind'; cbn [write].
  - done.
  - by destruct b.
  - apply int_inline.
  - apply write_str_inline.
  - cbn [forallb]. rewrite elements_inline; [done|]. rewrite forallb_map. apply forallb_true_iff. by apply Forall_forall.
  - cbn [forallb]. rewrite members_inline; [done|]. rewrite forallb_map. apply forallb_true_iff. by apply Forall_forall.
Qed.

(** *** Sequence numbers as text *)
Lemma parse_digits_acc d acc :
  parse_digits (Z.pos acc) false (DecimalString.NilEmpty.string_of_uint d) = Some (Z.pos (Pos.of_uint_acc d acc)).
Proof.
  revert acc. induction d as [|d IH|d IH|d IH|d IH|d IH|d IH|d IH|d IH|d IH|d IH]; intros acc; [done|..].
  all: cbn [DecimalString.NilEmpty.string_of_uint parse_digits Pos.of_uint_acc].
  all: match goal with |- context [is_digit ?c] =>
         change (is_digit c) with true; let v := eval vm_compute in (digit_value c) in change (digit_value c) with v end.
  all: cbn iota; rewrite <- IH; f_equal; lia.
Qed.

Lemma parse_digits_zero d : parse_digits 0 false (DecimalString.NilEmpty.string_of_uint d) = Some (Z.of_N (Pos.of_uint d)).
Proof.
  induction d as [|d IH|d IH|d IH|d IH|d IH|d IH|d IH|d IH|d IH|d IH]; [done|..].
  all: cbn [DecimalString.NilEmpty.string_of_uint parse_digits Pos.of_uint].
  all: match goal with |- context [is_digit ?c] =>
         change (is_digit c) with true; let v := eval vm_compute in (10 * 0 + digit_value c) in change (10 * 0 + digit_value c) with v end.
  all: cbn iota; first [exact IH|apply parse_digits_acc].
Qed.
Lemma strip_digits c s :
  is_space c = false -> (forall d, d ∈ String.list_ascii_of_string (String c s) -> is_space d = false) -> strip (String c s) = String c s.
Proof.
  intros Hc Hs. unfold strip. cbn [lstrip]. rewrite Hc.
  destruct (string_rev (String c s)) as [|d r] eqn:Er.
  { apply (f_equal string_rev) in Er. rewrite string_rev_involutive in Er. done. }
  assert (is_space d = false) as Hd.
  { apply Hs. apply (f_equal string_rev) in Er. rewrite string_rev_involutive, string_rev_cons in Er. rewrite Er.
    rewrite list_ascii_app. apply elem_of_app. right. by left. }
  cbn [lstrip]. rewrite Hd, <- Er. apply string_rev_involutive.
Qed.
Lemma parse_int_number n : 0 <= n -> parse_int (str_of_Z n) = Some n /\ is_empty_str (str_of_Z n) = false.
Proof.
  intros Hn. pose proof (int_nonnil n) as Hnil. pose proof (int_chars n) as Hch. rewrite Forall_forall in Hch.
  assert (strip (str_of_Z n) = str_of_Z n /\ is_empty_str (str_of_Z n) = false) as [Hs Hne].
  { destruct (str_of_Z n) as [|c s] eqn:Es; [done|].
    assert (forall d, d ∈ chars (String c s) -> is_space d = false) as Hsp.
    { intros d Hd%Hch. destruct d as [[] [] [] [] [] [] [] []]; vm_compute in Hd |- *; congruence. }
    split; [|done]. apply strip_digits; [apply Hsp; by left|done]. }
  split; [|done]. unfold parse_int. rewrite Hs. clear Hs Hne Hnil Hch. unfold str_of_Z. destruct n as [|p|p]; [done| |lia].
  cbn [Z.to_int DecimalString.NilEmpty.string_of_int].
  assert (Some (Z.pos p) = parse_digits 0 false (DecimalString.NilEmpty.string_of_uint (Pos.to_uint p))) as ->.
  { by rewrite parse_digits_zero, DecimalPos.Unsigned.of_to. }
  pose proof (DecimalPos.Unsigned.to_uint_nonnil p) as Hd. by destruct (Pos.to_uint p).
Qed.
(** The number of an event, sent back as [Last-Event-ID], is its cursor. *)
Lemma stream_cursor_of_number n : 0 <= n -> stream_cursor (Some (str_of_Z n)) = Ok n.
Proof.
  intros Hn. destruct (parse_int_number n Hn) as [Hp He]. unfold stream_cursor. cbn [default from_option id]. rewrite He, Hp.
  f_equal. lia.
Qed.

Definition one_line (e : AgentEvent) : Prop := forallb inline (chars (e_event_type e)) = true.
Lemma read_event fields e rest id :
  one_line e ->
  dispatch (split_lines [] (encode_event fields e ++ rest)) id [] None =
  (chars (str_of_Z (e_ticket_sequence e)), chars (e_event_type e), write (event_json fields e))
  :: dispatch (split_lines [] rest) (chars (str_of_Z (e_ticket_sequence e))) [] None.
Proof.
  intros He. unfold encode_event. set (number := chars (str_of_Z (e_ticket_sequence e))). set (data := write (event_json fields e)).
  assert (forall p x, forallb inline p = true -> forallb inline x = true -> forallb inline (p ++ x) = true) as Happ
    by (intros p x Hp Hx; by rewrite forallb_app, Hp, Hx).
  set (type := chars (e_event_type e)) in *.
  replace ((chars "id: " ++ number ++ [lf] ++ chars "event: " ++ type ++ [lf] ++ chars "data: " ++ data ++ [lf; lf]) ++ rest)
    with ((chars "id: " ++ number) ++ lf :: (chars "event: " ++ type) ++ lf :: (chars "data: " ++ data) ++ lf :: [] ++ lf :: rest)
    by (repeat (progress (cbn [app]) || rewrite <- app_assoc); reflexivity).
  rewrite split_line by (apply Happ; [done|apply int_inline]). rewrite split_line by (apply Happ; [done|exact He]).
  rewrite split_line by (apply Happ; [done|apply write_inline]). rewrite (split_line [] []) by done. cbn [rev app].
  cbn [chars String.list_ascii_of_string app dispatch after_prefix]. rewrite !bool_decide_eq_true_2 by done.
  rewrite (bool_decide_eq_false_2 ("i"%char = "e"%char)), (bool_decide_eq_false_2 ("i"%char = "d"%char)),
    (bool_decide_eq_false_2 ("e"%char = "d"%char)) by done. done.
Qed.
Lemma read_heartbeat rest id :
  dispatch (split_lines [] (chars ": heartbeat" ++ [lf; lf] ++ rest)) id [] None = dispatch (split_lines [] rest) id [] None.
Proof. cbn [app]. rewrite split_line by done. change (lf :: rest) with ([] ++ lf :: rest). by rewrite split_line by done. Qed.

(** The stream a client reads is the stream the server sent.  For event
    types without a line break, reading the text of any sequence of frames
    back yields exactly the number, type and JSON of each event, in order,
    whatever the payloads contain, and skips the heartbeats; and a number sent
    back as [Last-Event-ID] is understood as the cursor after that event. *)
Theorem frames_roundtrip fields l :
  (forall e, e ∈ sent l -> one_line e /\ 0 <= e_ticket_sequence e) ->
  read_stream (concat (map (render fields) l)) =
    map (fun e => (chars (str_of_Z (e_ticket_sequence e)), chars (e_event_type e), write (event_json fields e))) (sent l) /\
  forall e, e ∈ sent l -> stream_cursor (Some (str_of_Z (e_ticket_sequence e))) = Ok (e_ticket_sequence e).
Proof.
  intros Hl. split; [|intros e He; by apply stream_cursor_of_number, Hl]. unfold read_stream. generalize (@nil ascii) at 2.
  induction l as [|[e|] l IH]; intros id; [done|..]; cbn [map concat render].
  - rewrite read_event by (apply Hl; by left). rewrite IH; [done|]. intros x Hx. apply Hl. by right.
  - rewrite <- app_assoc, read_heartbeat. apply IH. intros x Hx. by apply Hl.
Qed.

(** ** What leaves the boundary *)
Inductive public_field (d : pydict) : string -> CanonicalValue -> Prop :=
| public_string k s : k ∈ _PUBLIC_EVENT_STRING_FIELDS -> d.[k] = PyStr s -> 0 < py_len s <= 64 -> public_field d k (CStr s)
| public_outcome s : d.["outcome"] = PyStr s -> s ∈ _PUBLIC_EVENT_OUTCOMES -> public_field d "outcome" (CStr s)
| public_status s : d.["projection_status"] = PyStr s -> s ∈ _PUBLIC_PROJECTION_STATUSES -> public_field d "projection_status" (CStr s)
| public_count n : d.["source_count"] = PyInt n -> 0 <= n <= 100 -> public_field d "source_count" (CInt n).
Lemma listed_field_iff d key allowed k v :
  (k, v) ∈ listed_field d key allowed <-> k = key /\ exists s, d.[key] = PyStr s /\ s ∈ allowed /\ v = CStr s.
Proof.
  unfold listed_field. split.
  - destruct (d.[key]) as [| | |s| | | |]; try (by intros ?%not_elem_of_nil). destruct (mem s allowed) eqn:E; [|by intros ?%not_elem_of_nil].
    intros [= -> ->]%list_elem_of_singleton. rewrite mem_true in E. eauto.
  - intros (-> & s & -> & Hs & ->). rewrite (proj2 (mem_true _ _) Hs). by left.
Qed.
Lemma string_field_iff d key k v :
  (k, v) ∈ string_field d key <-> k = key /\ exists s, d.[key] = PyStr s /\ 0 < py_len s <= 64 /\ v = CStr s.
Proof.
  unfold string_field. split.
  - destruct (d.[key]) as [| | |s| | | |]; try (by intros ?%not_elem_of_nil).
    destruct ((0 <? py_len s) && (py_len s <=? 64)) eqn:E; [|by intros ?%not_elem_of_nil].
    intros [= -> ->]%list_elem_of_singleton. apply andb_true_iff in E as [E1%Z.ltb_lt E2%Z.leb_le]. eauto 6.
  - intros (-> & s & -> & Hs & ->). rewrite (proj2 (Z.ltb_lt _ _)), (proj2 (Z.leb_le _ _)) by lia. by left.
Qed.

(** An event exposes listed, bounded fields only.  Whatever the stored
    payload holds, the payload sent to the customer consists exactly of the
    four short string fields, the known outcome, the known projection status
    and the bounded source count it has, each with its stored value, and of
    nothing else, in whatever order the interpreter iterates the field set. *)
Theorem public_payload_exact fields value k v :
  fields ≡ₚ _PUBLIC_EVENT_STRING_FIELDS ->
  (k, v) ∈ _safe_public_event_payload fields value <-> exists d, value = PyDict d /\ public_field d k v.
Proof.
  intros Hf. unfold _safe_public_event_payload.
  destruct value as [| | | | | | |d]; try (split; [by intros ?%not_elem_of_nil|by intros (? & [=] & _)]).
  rewrite !elem_of_app, !listed_field_iff. split.
  - intros Hin. exists d. split; [done|]. destruct Hin as [Hin|[(-> & s & Hs & Ha & ->)|[(-> & s & Hs & Ha & ->)|Hin]]].
    + apply list_elem_of_In, in_concat in Hin as (x & Hx & Hin). apply in_map_iff in Hx as (key & <- & Hkey).
      apply list_elem_of_In, string_field_iff in Hin as (-> & s & Hs & Hlen & ->). constructor; [|done..].
      rewrite <- Hf. by apply list_elem_of_In.
    + by constructor.
    + by constructor.
    + destruct (d.["source_count"]) as [| |n| | | | |] eqn:E; try (by apply not_elem_of_nil in Hin).
      destruct ((0 <=? n) && (n <=? 100)) eqn:Eb; [|by apply not_elem_of_nil in Hin].
      apply list_elem_of_singleton in Hin as [= -> ->]. apply andb_true_iff in Eb as [E1%Z.leb_le E2%Z.leb_le]. by constructor.
  - intros (d' & [= <-] & Hp). destruct Hp as [k s Hk Hs Hlen|s Hs Ha|s Hs Ha|n Hn Hb].
    + left. apply list_elem_of_In, in_concat. exists (string_field d k). split.
      * apply in_map_iff. exists k. split; [done|]. apply list_elem_of_In. by rewrite Hf.
      * apply list_elem_of_In, string_field_iff. eauto 6.
    + right. left. eauto.
    + do 2 right. left. eauto.
    + do 3 right. rewrite Hn, (proj2 (Z.leb_le _ _)), (proj2 (Z.leb_le _ _)) by lia. by left.
Qed.

(** ** Concrete streams *)
Definition got_frames (r : res (list emission * Z)) : list emission := match r with Ok (l, _) => l | Err _ => [] end.
Definition watcher : option string := Some (t_customer_id demo_ticket).
Definition first_session : list (store * Z) := [(demo_one, 20 * second)].
Definition second_session : list (store * Z) := [(demo_two, 30 * second)].
Lemma demo_step_one : @world_step ascii_runtime (fun s => s) demo_store demo_one.
Proof.
  destruct (demo_append demo_store "run_started" "E1") as [[e s']|x] eqn:E; [|exfalso; vm_compute in E; discriminate].
  assert (demo_one = s') as -> by (unfold demo_one; by rewrite E).
  unfold demo_append in E. exact (@step_append ascii_runtime (fun s => s) demo_store "R1" (demo_args "run_started") None "E1" (utc 1784073600000000) e s' E).
Qed.
Lemma demo_step_two : @world_step ascii_runtime (fun s => s) demo_one demo_two.
Proof.
  destruct (demo_append demo_one "answered" "E2") as [[e s']|x] eqn:E; [|exfalso; vm_compute in E; discriminate].
  assert (demo_two = s') as -> by (unfold demo_two; rewrite E; reflexivity).
  unfold demo_append in E. exact (@step_append ascii_runtime (fun s => s) demo_one "R1" (demo_args "answered") None "E2" (utc 1784073600000000) e s' E).
Qed.
Definition first_frames : list emission := got_frames (event_stream watcher (t_id demo_ticket) first_session 0 0).
Definition second_frames : list emission := got_frames (event_stream watcher (t_id demo_ticket) second_session 1 0).
Lemma stream_resumes_witness :
  map e_ticket_sequence (sent (take 1 first_frames) ++ sent second_frames) = [1; 2] /\
  sent (take 1 first_frames) ++ sent second_frames = window demo_two (t_id demo_ticket) 0 2.
Proof.
  split; [vm_compute; reflexivity|].
  pose proof (rtc_once _ _ demo_step_one : @evolves ascii_runtime (fun s => s) demo_store demo_one) as H1.
  pose proof (rtc_once _ _ demo_step_two : @evolves ascii_runtime (fun s => s) demo_one demo_two) as H2.
  refine (proj1 (@stream_resumes ascii_runtime (fun s => s) watcher (t_id demo_ticket) first_session second_session 0 0 0
            first_frames second_frames 1 2 1 demo_store demo_one demo_two _ _ _ _ _)).
  - left. vm_compute. reflexivity.
  - exact (observed_next _ _ _ [] _ H1 (observed_none _ _)).
  - exact (observed_next _ _ _ [] _ H2 (observed_none _ _)).
  - vm_compute. reflexivity.
  - vm_compute. reflexivity.
Defined.
Lemma frames_roundtrip_witness :
  length (read_stream (concat (map (render _PUBLIC_EVENT_STRING_FIELDS) first_frames))) = 1%nat.
Proof.
  rewrite (proj1 (frames_roundtrip _PUBLIC_EVENT_STRING_FIELDS first_frames
    ltac:(intros e He; apply list_elem_of_In in He; vm_compute in He; destruct He as [<-|[]]; split; [reflexivity|discriminate]))).
  vm_compute. reflexivity.
Defined.
Lemma public_payload_exact_witness :
  ("route", CStr "refund") ∈ _safe_public_event_payload _PUBLIC_EVENT_STRING_FIELDS
    (PyDict [("route", PyStr "refund"); ("prompt", PyStr "internal")]).
Proof.
  apply (public_payload_exact _PUBLIC_EVENT_STRING_FIELDS _ _ _ (Permutation_refl _)).
  eexists. split; [reflexivity|]. apply public_string; [apply mem_true; reflexivity|reflexivity|split; reflexivity || discriminate].
Defined.
