(* ===== verification/Lifecycle.v ===== *)
(** * Turns, failures and the approval lifecycle

    services/turn_activation.py, services/conversation_activity.py,
    services/approval_lifecycle.py, contracts/public_failures.py and
    [AgentRunStore.create] of agent/persistence.py: promoting the next accepted
    turn of a ticket, the customer-safe text of a failure, and the approval
    state machine with its compare-and-swap.

    The operations are those of the application dialect; on PostgreSQL the
    same columns are assigned by triggers and SECURITY DEFINER capabilities. *)
From S2P Require Import Prelude PyValue ActionSpecs Store EventChain.
Local Open Scope string_scope.
Local Open Scope list_scope.
Local Open Scope Z_scope.

(** ** Public failures *)
Section public_failures.
Context `{PyRuntime}.

Definition classify_public_failure (value : pyval) : option string :=
  match value with
  | PyStr s =>
      if is_empty_str s then None else
      let normalized := str_lower s in
      if existsb (fun p => String.prefix p normalized) ["api_request"; "request_trace"; "api_gateway"; "request_id"]
      then Some "api_request"
      else if existsb (fun t => str_contains t normalized) ["provider"; "llm"; "model"; "upstream"]
      then Some "provider"
      else if existsb (fun t => str_contains t normalized) ["mcp"; "tool"; "capability"; "observation"]
      then Some "tool"
      else Some "runtime"
  | _ => None
  end.
End public_failures.

(** The phrase tables: a category outside the table is a [KeyError]. *)
Definition table_get (table : list (string * string)) (k : string) : res string :=
  match find_first (fun kv => kv.1 ==? k) table with
  | Some kv => Ok kv.2
  | None => Err (KeyError k)
  end.
Definition public_failure_unknown_phrase (category : string) : res string :=
  table_get
    [("api_request", "当前还无法把问题与具体 API 请求记录关联");
     ("provider", "当前还无法确认模型服务是否完成了本轮推理");
     ("tool", "当前还无法确认所需业务数据是否完整返回");
     ("runtime", "当前还无法确认自动流程完成到了哪一个可恢复步骤")] category.
Definition public_failure_next_step (category : string) : res string :=
  table_get
    [("api_request", "请重试；若仍失败，请补充 Request ID 和发生时间");
     ("provider", "请稍后重试；若仍失败，请保留发生时间和相关资源编号");
     ("tool", "请核对账单、API Key 或订阅编号后重试");
     ("runtime", "请稍后重试，或发送一条新消息重新开始本轮处理")] category.
Definition public_failure_reply (category : string) : res string :=
  let? unknown := public_failure_unknown_phrase category in
  let? step := public_failure_next_step category in
  Ok ("系统已检查本轮请求并尝试完成自动诊断。" +:+ "已确认本轮没有形成可验证的完整结果。" +:+ unknown +:+ "。" +:+
      "本轮没有执行新的高风险操作，相关申请仍以当前持久化状态为准。" +:+ step +:+ "。").

(** ** Conversation activity *)
Definition advance_conversation_activity (ticket : SupportTicket) (activity_at : Z) : SupportTicket :=
  if t_last_message_at ticket <? activity_at then set_t_last_message_at activity_at ticket else ticket.

(** ** The environment of a transaction *)
Record fresh_ids := mk_ids {
  f_run : string; f_event : string; f_job : string; f_outbox : string; f_delivery : string; f_message : string;
}.
(** Clocks, the worker context and the two functions of other modules a new
    run uses ([redact_pii], [runtime_provenance]). *)
Record env := mk_env {
  database_now : Z;
  clock : Z;
  worker : option worker_context;
  redact : string -> string;
  runtime_provenance : string -> string -> string -> string -> pydict;
}.

Definition CONTEXT_VERSION : string := "context-v1.2".

(** [INSERT] into runtime_jobs with its unique constraints. *)
Definition insert_job (s : store) (job : RuntimeJob) : res store :=
  raise IntegrityError when isSome (jobs s !! j_id job)
    || exists_where (fun j => (j_tenant_id j ==? j_tenant_id job) && (j_ticket_id j ==? j_ticket_id job)
                              && (j_dispatch_sequence j =? j_dispatch_sequence job)) (jobs s)
    || match j_approval_id job with
       | Some a => exists_where (fun j => j_approval_id j ==? Some a) (jobs s)
       | None => false
       end ;;
  Ok (put_job job s).

(** A freshly inserted job, with the column defaults. *)
Definition new_job (id tenant ticket run kind : string) (approval : option string) (sequence now : Z) : RuntimeJob :=
  mk_job id tenant ticket run sequence approval kind "queued" 1 0 now now None None None 0 None None.

(** [d[k]] *)
Definition subscript (d : pydict) (k : string) : res pyval :=
  match dget k d with Some v => Ok v | None => Err (KeyError k) end.

(** ** Runs and turns *)
Section activation.
Context `{PyRuntime}.

(** [AgentRunStore.create]; [f_run] stands for [run_id or new_id("run")]. *)
Definition create_run (s : store) (ev : env) (ids : fresh_ids) (ticket_id customer_id message_id model provider_mode
    tool_call_mode context_version : string) : res (string * store) :=
  match get_where (messages s) message_id (fun m => m_ticket_id m ==? ticket_id),
        get_where (tickets s) ticket_id (fun t => t_customer_id t ==? customer_id) with
  | Some message, Some ticket =>
      raise ValueError "Agent Run must bind an existing message from the same ticket"
        when m_tenant_id message !=? t_tenant_id ticket ;;
      match select_where (fun r => r_message_id r ==? message_id) (runs s) with
      | existing :: _ => Ok (r_id existing, s)
      | [] =>
          raise IntegrityError when isSome (runs s !! f_run ids) ;;
          let run := mk_run (f_run ids) (t_tenant_id ticket) ticket_id customer_id message_id None "running" 1 0
                       None None None None 0 0 0 0 "request_created" None None model provider_mode tool_call_mode
                       context_version None None None 0 in
          let s := put_run run s in
          let provenance := runtime_provenance ev model provider_mode tool_call_mode context_version in
          let? prompt_version := subscript provenance "prompt_version" in
          let? schema_version := subscript provenance "schema_version" in
          let? runtime_manifest_hash := subscript provenance "runtime_manifest_hash" in
          let? code_commit := subscript provenance "code_commit" in
          let args := mk_args "run_started"
                        (PyDict [("provider_mode", PyStr provider_mode); ("tool_call_mode", PyStr tool_call_mode);
                                 ("prompt_version", prompt_version); ("schema_version", schema_version);
                                 ("runtime_manifest_hash", runtime_manifest_hash); ("code_commit", code_commit)])
                        "customer" "completed" None None None None None None None in
          let? r := append_event (redact ev) s (f_run ids) args (worker ev) (f_event ids) (utc (clock ev)) in
          Ok (f_run ids, r.2)
      end
  | _, _ => Err (ValueError "Agent Run must bind an existing message from the same ticket")
  end.

(** The oldest accepted turn. *)
Definition turn_leb (a b : ConversationTurn) : bool :=
  (u_ordinal a <? u_ordinal b) || ((u_ordinal a =? u_ordinal b) && str_leb (u_id a) (u_id b)).
Definition next_turn (s : store) (ticket_id : string) : option ConversationTurn :=
  first_by turn_leb
    (select_where (fun u => (u_ticket_id u ==? ticket_id) && (u_activity_state u ==? "accepted")) (turns s)).
Definition has_active_turn (s : store) (ticket_id : string) : bool :=
  exists_where (fun u => (u_ticket_id u ==? ticket_id) && (u_activity_state u in? ["queued"; "running"])) (turns s).

(** [activate_next_turn]: the ids of the new run and job, or [None]. *)
Definition activate_next_turn (s : store) (ev : env) (ids : fresh_ids) (ticket_id trace_id : string)
    : res (option (string * string) * store) :=
  let! ticket := tickets s !! ticket_id else RuntimeError "ticket object is not persistent" in
  if has_active_turn s ticket_id || (t_automation_mode ticket !=? "agent") || (t_lifecycle ticket !=? "active")
  then Ok (None, s) else
  match next_turn s ticket_id with
  | None => Ok (None, s)
  | Some turn =>
      match u_model turn, u_provider_mode turn, u_tool_call_mode turn with
      | Some model, Some provider_mode, Some tool_call_mode =>
          raise RuntimeConflict "accepted_turn_runtime_identity_missing"
            when is_empty_str model || is_empty_str provider_mode || is_empty_str tool_call_mode ;;
          let context_version := if truthy_opt (u_context_version turn)
                                 then default "" (u_context_version turn) else CONTEXT_VERSION in
          let? created := create_run s ev ids ticket_id (t_customer_id ticket) (u_customer_message_id turn)
                            model provider_mode tool_call_mode context_version in
          let '(run_id, s) := created in
          let! run := runs s !! run_id else RuntimeError "run object is not persistent" in
          let s := put_run (run |> set_r_status "queued" |> set_r_turn_id (Some (u_id turn))) s in
          let! message := messages s !! u_customer_message_id turn
            else RuntimeConflict "accepted_turn_customer_message_missing" in
          let s := put_message (set_m_run_id (Some run_id) message) s in
          let s := put_turn (turn |> set_u_run_id (Some run_id) |> set_u_activity_state "queued") s in
          let! ticket := tickets s !! ticket_id else RuntimeError "ticket object is not persistent" in
          let sequence := t_next_dispatch_sequence ticket + 1 in
          let s := put_ticket (set_t_next_dispatch_sequence sequence ticket) s in
          let job := new_job (f_job ids) (t_tenant_id ticket) ticket_id run_id "agent_start" None sequence
                       (database_now ev) in
          let? s := insert_job s job in
          let? s := insert_outbox s (new_outbox (f_outbox ids) (f_delivery ids) (t_tenant_id ticket) (f_job ids) run_id 1
                                       "runtime_job_available" [("traceparent", PyStr trace_id)] (database_now ev)) in
          let ticket := ticket |> set_t_next_dispatch_sequence sequence |> set_t_status "queued"
                               |> set_t_version (t_version ticket + 1) in
          Ok (Some (run_id, f_job ids), put_ticket ticket s)
      | _, _, _ => Err (RuntimeConflict "accepted_turn_runtime_identity_missing")
      end
  end.
End activation.

(** ** Approvals *)
Definition ACTIVE_APPROVAL_STATUSES : list string := ["pending"; "approved"].
Definition TERMINAL_APPROVAL_STATUSES : list string :=
  ["executed"; "rejected"; "stale"; "withdrawn"; "failed"; "manual_takeover"].
Definition NEW_APPROVAL_STATUSES : list string :=
  ACTIVE_APPROVAL_STATUSES ++ List.filter (fun x => x !=? "manual_takeover") TERMINAL_APPROVAL_STATUSES.
(** [APPROVAL_TRANSITIONS.get(status, frozenset())] *)
Definition APPROVAL_TRANSITIONS (status : string) : list string :=
  if status ==? "pending" then ["approved"; "rejected"; "withdrawn"; "stale"; "failed"]
  else if status ==? "approved" then ["executed"; "stale"; "failed"]
  else [].

Record CanonicalApprovalIdentity := mk_identity {
  c_tenant_id : string; c_customer_id : string; c_action_type : string; c_resource_type : string;
  c_resource_id : string; c_resource_version : Z; c_origin_turn_id : string;
}.
Record ApprovalTransition := mk_transition { previous_status : string; new_status : string; changed : bool }.

Definition canonical_approval_identity_values (tenant_id customer_id action_type resource_id : string)
    (resource_version : Z) (run : AgentRun) : res CanonicalApprovalIdentity :=
  match get_action_spec_or_none action_type with
  | None => Err (RuntimeConflict "approval_canonical_identity_invalid")
  | Some action_spec =>
      raise RuntimeConflict "approval_canonical_identity_invalid" when
        (tenant_id !=? r_tenant_id run) || is_empty_str resource_id || (resource_version <? 1)
        || negb (truthy_opt (r_turn_id run)) ;;
      let? resource_type := resource_field action_spec in
      Ok (mk_identity tenant_id customer_id action_type resource_type resource_id resource_version
            (default "" (r_turn_id run)))
  end.
Definition canonical_approval_identity (proposal : ProposalRecord) (run : AgentRun) (customer_id : string)
    : res CanonicalApprovalIdentity :=
  raise RuntimeConflict "approval_canonical_identity_invalid" when
    (p_tenant_id proposal !=? r_tenant_id run) || (p_run_id proposal !=? r_id run) ;;
  canonical_approval_identity_values (p_tenant_id proposal) customer_id (p_action_type proposal)
    (p_resource_id proposal) (p_resource_version proposal) run.

(** The four probes of [converge_ticket] and the projection they give. *)
Definition active_turn (s : store) (t : SupportTicket) : bool :=
  exists_where (fun u => (u_tenant_id u ==? t_tenant_id t) && (u_ticket_id u ==? t_id t)
                         && (u_activity_state u in? ["queued"; "running"])) (turns s).
Definition active_job (s : store) (t : SupportTicket) : bool :=
  exists_where (fun j => (j_tenant_id j ==? t_tenant_id t) && (j_ticket_id j ==? t_id t)
                         && (j_status j in? ["queued"; "retry_wait"; "leased"])) (jobs s).
Definition verification_pending (s : store) (t : SupportTicket) : bool :=
  exists_where (fun a =>
    (a_tenant_id a ==? t_tenant_id t) && (a_ticket_id a ==? t_id t) && (a_status a ==? "approved")
    && exists_where (fun j => (j_tenant_id j ==? a_tenant_id a) && (j_ticket_id j ==? a_ticket_id a)
                              && (j_approval_id j ==? Some (a_id a)) && (j_status j ==? "succeeded")
                              && (j_outcome j ==? Some "verification_pending")) (jobs s)) (approvals s).
Definition active_approval (s : store) (t : SupportTicket) : bool :=
  exists_where (fun a => (a_tenant_id a ==? t_tenant_id t) && (a_ticket_id a ==? t_id t)
                         && (a_status a in? ACTIVE_APPROVAL_STATUSES)) (approvals s).
Definition projected_status (s : store) (t : SupportTicket) (default_status : string) : string :=
  if active_turn s t || active_job s t then "queued"
  else if verification_pending s t then "verification_pending"
  else if active_approval s t then "awaiting_approval"
  else default_status.

(** [ActionLifecycleService.converge_ticket] *)
Definition converge_ticket (s : store) (ticket_id default_status : string) : res (string * store) :=
  let! ticket := tickets s !! ticket_id else RuntimeError "ticket object is not persistent" in
  if (t_lifecycle ticket !=? "active") || (t_automation_mode ticket !=? "agent") then Ok (t_status ticket, s) else
  let status := projected_status s ticket default_status in
  let clear_response := status in? ["running"; "queued"; "awaiting_approval"; "verification_pending"] in
  if (t_status ticket !=? status) || (clear_response && isSome (t_final_response ticket)) then
    let ticket := set_t_status status ticket in
    let ticket := if clear_response then set_t_final_response None ticket else ticket in
    let ticket := set_t_version (t_version ticket + 1) ticket in
    Ok (status, put_ticket ticket s)
  else Ok (status, s).

(** [activate_next_turn_and_converge_ticket] *)
Definition activate_next_turn_and_converge_ticket `{PyRuntime} (s : store) (ev : env) (ids : fresh_ids)
    (ticket_id trace_id default_status : string) : res (string * store) :=
  let? r := activate_next_turn s ev ids ticket_id trace_id in
  converge_ticket r.2 ticket_id default_status.

(** [ActionLifecycleService.find_active]: the first row of the query. *)
Definition active_match (identity : CanonicalApprovalIdentity) (a : ApprovalRequest) : bool :=
  (a_tenant_id a ==? c_tenant_id identity) && (a_customer_id a ==? c_customer_id identity)
  && (a_action_type a ==? c_action_type identity) && (a_resource_type a ==? c_resource_type identity)
  && (a_resource_id a ==? c_resource_id identity) && (a_status a in? ACTIVE_APPROVAL_STATUSES).
Definition find_active (s : store) (identity : CanonicalApprovalIdentity) : option ApprovalRequest :=
  head (select_where (active_match identity) (approvals s)).

(** The versioned [UPDATE] of a flush ([version_id_col]): only the assigned
    columns are written, and only where the loaded version is still stored. *)
Definition flush_approval (s : store) (loaded : ApprovalRequest) (assign : ApprovalRequest -> ApprovalRequest)
    : res (ApprovalRequest * store) :=
  match approvals s !! a_id loaded with
  | None => Err (RuntimeConflict "approval_state_conflict")
  | Some row =>
      raise RuntimeConflict "approval_state_conflict" when a_status_version row !=? a_status_version loaded ;;
      let bump a := set_a_status_version (a_status_version loaded + 1) (assign a) in
      Ok (bump loaded, set_approvals (<[a_id loaded := bump row]> (approvals s)) s)
  end.

(** [ActionLifecycleService.transition]: [approval] is the object a session
    loaded earlier; the answer carries the object after the flush. *)
Definition transition (s : store) (approval : ApprovalRequest) (to_status expected_status : string)
    (expected_version : option Z) (decided_at : option Z) : res (ApprovalTransition * ApprovalRequest * store) :=
  let previous := a_status approval in
  if previous ==? to_status then Ok (mk_transition previous previous false, approval, s) else
  raise RuntimeConflict "approval_transition_invalid"
    when (to_status ==? "manual_takeover") || negb (to_status in? NEW_APPROVAL_STATUSES) ;;
  raise RuntimeConflict "approval_state_conflict"
    when (previous !=? expected_status)
         || match expected_version with Some v => a_status_version approval !=? v | None => false end ;;
  raise RuntimeConflict "approval_terminal_conflict" when previous in? TERMINAL_APPROVAL_STATUSES ;;
  raise RuntimeConflict "approval_transition_invalid" when negb (to_status in? APPROVAL_TRANSITIONS previous) ;;
  let assign a := let a := set_a_status to_status a in
                  match decided_at with Some d => set_a_decided_at (Some d) a | None => a end in
  let? r := flush_approval s approval assign in
  Ok (mk_transition previous to_status true, r.1, r.2).

(** ** Public failures are total and closed *)
Definition failure_categories : list string := ["api_request"; "provider"; "tool"; "runtime"].

Lemma classify_category `{PyRuntime} v c : classify_public_failure v = Some c -> c ∈ failure_categories.
Proof.
  unfold classify_public_failure. destruct v; try done. destruct (is_empty_str s); [done|].
  repeat case_match; intros; simplify_eq; list_member.
Qed.
Lemma category_reply c : c ∈ failure_categories -> exists text, public_failure_reply c = Ok text.
Proof. unfold failure_categories. rewrite !elem_of_cons. intros [->|[->|[->|[->|[]%elem_of_nil]]]]; eexists; vm_compute; done. Qed.

(** The customer-visible text of a failure is total and closed: whatever
    internal reason code a failing job carries, the category falls back to
    [runtime] when it cannot be classified, a reply is produced without a
    [KeyError], and that reply is one of the four fixed texts. *)
Theorem failure_reply_total `{PyRuntime} (reason : pyval) :
  exists text,
    public_failure_reply (default "runtime" (classify_public_failure reason)) = Ok text /\
    Ok text ∈ map public_failure_reply failure_categories.
Proof.
  assert (default "runtime" (classify_public_failure reason) ∈ failure_categories) as Hc.
  { destruct (classify_public_failure reason) eqn:E; [by eapply classify_category|]. simpl. list_member. }
  destruct (category_reply _ Hc) as [text Ht]. exists text. split; [done|]. rewrite <- Ht.
  apply list_elem_of_fmap. eauto.
Qed.

(** ** Ticket projection *)
Lemma projected_status_put_ticket s r t d : projected_status (put_ticket r s) t d = projected_status s t d.
Proof. done. Qed.
Lemma projected_status_key s t t' d :
  t_id t = t_id t' -> t_tenant_id t = t_tenant_id t' -> projected_status s t d = projected_status s t' d.
Proof.
  intros E1 E2. unfold projected_status, active_turn, active_job, verification_pending, active_approval.
  by rewrite E1, E2.
Qed.

(** What a convergence leaves behind. *)
Lemma converge_ticket_ok s tid d status s' :
  keyed s -> converge_ticket s tid d = Ok (status, s') ->
  exists t t', tickets s !! tid = Some t /\ tickets s' = <[tid := t']> (tickets s) /\
    t_id t' = t_id t /\ t_tenant_id t' = t_tenant_id t /\ t_lifecycle t' = t_lifecycle t /\
    t_automation_mode t' = t_automation_mode t /\ t_next_dispatch_sequence t' = t_next_dispatch_sequence t /\
    status = t_status t' /\
    (t' = t \/ t_version t' = t_version t + 1) /\
    (t_lifecycle t = "active" -> t_automation_mode t = "agent" ->
     t_status t' = projected_status s t d /\
     (t_status t' ∈ ["running"; "queued"; "awaiting_approval"; "verification_pending"] ->
      t_final_response t' = None)) /\
    s' = set_tickets (tickets s') s.
Proof.
  intros Hk. unfold converge_ticket. destruct (tickets s !! tid) as [t|] eqn:Et; [|done].
  pose proof (keyed_tickets _ Hk _ _ Et) as <-. intros Hc.
  destruct (_ || _) eqn:Eg; to_prop.
  - simplify_eq. exists t, t. rewrite insert_id by done. destruct s'; simpl.
    split_and!; try done; [by left|]. intros. destruct Eg; contradiction.
  - destruct Eg as [El Em].
    destruct ((t_status t !=? _) || _) eqn:Ech; simplify_eq; to_prop.
    + destruct (projected_status s t d in? _) eqn:Ep; exists t; eexists; (split; [done|]); (split; [reflexivity|]);
        simpl; split_and!; try done; try (by right); intros _ _; (split; [done|]); intros Hin; to_prop;
        first [done|contradiction].
    + exists t, t. rewrite insert_id by done. destruct s'; simpl. destruct Ech as [Es Ef].
      split_and!; try done; [by left|]. intros _ _. split; [done|]. rewrite <- Es in *.
      intros Hin. by destruct Ef.
Qed.

(** Convergence is a projection of the child rows.  For an active,
    agent-driven ticket the stored status becomes the one derived from the
    remaining turns, jobs and approvals, a non-final status carries no final
    response, no other table changes, and converging again changes nothing,
    not even the version. *)
Theorem converge_ticket_projection s tid d status s' t :
  keyed s -> tickets s !! tid = Some t -> t_lifecycle t = "active" -> t_automation_mode t = "agent" ->
  converge_ticket s tid d = Ok (status, s') ->
  status = projected_status s t d /\
  (exists t', tickets s' !! tid = Some t' /\ t_status t' = status /\
     (status ∈ ["running"; "queued"; "awaiting_approval"; "verification_pending"] -> t_final_response t' = None)) /\
  s' = set_tickets (tickets s') s /\
  converge_ticket s' tid d = Ok (status, s').
Proof.
  intros Hk Ht Hl Hm Hc.
  destruct (converge_ticket_ok _ _ _ _ _ Hk Hc) as
    (t0 & t' & E0 & Es & Ei & En & El & Em & _ & Est & _ & Hp & Hf). simplify_eq.
  destruct (Hp Hl Hm) as [Hst Hresp].
  assert (tickets s' !! tid = Some t') as Ht' by (rewrite Es; apply lookup_insert_eq).
  split; [done|]. split; [eauto|]. split; [done|].
  unfold converge_ticket. rewrite Ht', El, Em, Hl, Hm. simpl.
  assert (projected_status s' t' d = t_status t') as ->.
  { rewrite Hf, Hst. rewrite (projected_status_key _ t' t) by done. done. }
  unfold neqb. rewrite eqb_refl. simpl. destruct (t_status t' in? _) eqn:Ein; [|done].
  to_prop. rewrite (Hresp Ein). done.
Qed.

(** ** Approval transitions *)
Definition terminal_approval (status : string) : Prop := status ∈ TERMINAL_APPROVAL_STATUSES.

Lemma transitions_edges from to :
  to ∈ APPROVAL_TRANSITIONS from ->
  (from = "pending" /\ to ∈ ["approved"; "rejected"; "withdrawn"; "stale"; "failed"]) \/
  (from = "approved" /\ to ∈ ["executed"; "stale"; "failed"]).
Proof.
  unfold APPROVAL_TRANSITIONS. repeat case_match; to_prop; subst; [tauto..|]. by intros []%elem_of_nil.
Qed.
Lemma terminal_no_edge from to : to ∈ APPROVAL_TRANSITIONS from -> ~ terminal_approval from.
Proof.
  intros [[-> _]|[-> _]]%transitions_edges; unfold terminal_approval, TERMINAL_APPROVAL_STATUSES;
    rewrite !elem_of_cons, elem_of_nil; naive_solver.
Qed.
Lemma executed_edge from : "executed" ∈ APPROVAL_TRANSITIONS from -> from = "approved".
Proof. intros [[_ H]|[-> _]]%transitions_edges; [|done]. rewrite !elem_of_cons, elem_of_nil in H. naive_solver. Qed.
Lemma edge_new_status from to :
  to ∈ APPROVAL_TRANSITIONS from ->
  (to ==? "manual_takeover") || negb (to in? NEW_APPROVAL_STATUSES) = false /\ from <> to.
Proof.
  intros [[-> H]|[-> H]]%transitions_edges; rewrite !elem_of_cons, elem_of_nil in H;
    naive_solver (first [done | vm_compute; done]).
Qed.

(** The versioned write. *)
Lemma flush_approval_ok s a f a' s' :
  flush_approval s a f = Ok (a', s') ->
  exists row, approvals s !! a_id a = Some row /\ a_status_version row = a_status_version a /\
    a' = set_a_status_version (a_status_version a + 1) (f a) /\
    s' = set_approvals (<[a_id a := set_a_status_version (a_status_version a + 1) (f row)]> (approvals s)) s.
Proof.
  unfold flush_approval. destruct (approvals s !! a_id a) as [row|]; [|done]. intros H. steps_ok H. to_prop.
  simplify_eq. eauto.
Qed.

Definition decide_assign (to_status : string) (decided_at : option Z) (a : ApprovalRequest) : ApprovalRequest :=
  let a := set_a_status to_status a in
  match decided_at with Some d => set_a_decided_at (Some d) a | None => a end.

Lemma transition_ok s a to exp ver dec r a' s' :
  transition s a to exp ver dec = Ok (r, a', s') ->
  (changed r = false /\ a_status a = to /\ a' = a /\ s' = s) \/
  (changed r = true /\ previous_status r = a_status a /\ new_status r = to /\ a_status a = exp /\
   (forall v, ver = Some v -> a_status_version a = v) /\ to ∈ APPROVAL_TRANSITIONS (a_status a) /\
   flush_approval s a (decide_assign to dec) = Ok (a', s')).
Proof.
  unfold transition. destruct (a_status a ==? to) eqn:E; intros H.
  - to_prop. simplify_eq. left. done.
  - steps_ok H. simplify_eq. right. to_prop. destruct Hguard0 as [Hexp Hver]. simpl.
    split_and!; try done; [|by etransitivity; [exact Hstep|destruct a0]].
    intros v ->. by to_prop.
Qed.

Lemma transition_sound_lemma s a to exp ver dec :
  to ∈ APPROVAL_TRANSITIONS (a_status a) -> a_status a = exp ->
  (forall v, ver = Some v -> a_status_version a = v) ->
  transition s a to exp ver dec =
  (let? r := flush_approval s a (decide_assign to dec) in
   Ok (mk_transition (a_status a) to true, r.1, r.2)).
Proof.
  intros Hto <- Hv. unfold transition. destruct (edge_new_status _ _ Hto) as [Hn Hne].
  rewrite (proj2 (eqb_false _ _) Hne), (raise_if_false _ _ _ Hn).
  rewrite raise_if_false; [|unfold neqb; rewrite eqb_refl; simpl; destruct ver as [v|]; [|done];
    rewrite (Hv v eq_refl), eqb_refl; done].
  rewrite raise_if_false; [|apply mem_false; by eapply terminal_no_edge].
  rewrite raise_if_false; [done|]. by apply negb_false_iff, mem_true.
Qed.

(** A transition to another status is a compare-and-swap along the
    approval state machine.  It succeeds exactly when the edge exists, the
    caller's expectations hold for the object it loaded, and the stored row
    still has the version that was loaded; it then writes the new status,
    advances the version by one and touches no other approval or table. *)
Theorem transition_compare_and_swap s a row to exp ver dec :
  approvals s !! a_id a = Some row -> a_status a <> to ->
  ((exists out, transition s a to exp ver dec = Ok out) <->
   to ∈ APPROVAL_TRANSITIONS (a_status a) /\ a_status a = exp /\
   (forall v, ver = Some v -> a_status_version a = v) /\ a_status_version row = a_status_version a) /\
  (forall r a' s', transition s a to exp ver dec = Ok (r, a', s') ->
     exists row', s' = set_approvals (<[a_id a := row']> (approvals s)) s /\
       a_status row' = to /\ a_status a' = to /\
       a_status_version row' = a_status_version row + 1 /\ a_status_version a' = a_status_version row').
Proof.
  intros Hrow Hne. split; [split|].
  - intros [[[r a'] s'] H]. apply transition_ok in H as [(_ & ? & _)|(_ & _ & _ & Hexp & Hver & Hedge & Hf)]; [done|].
    apply flush_approval_ok in Hf as (row' & E & Hv & _). simplify_eq. done.
  - intros (Hedge & Hexp & Hver & Hv). rewrite transition_sound_lemma by done. unfold flush_approval.
    rewrite Hrow, Hv. unfold neqb. rewrite eqb_refl. simpl. eauto.
  - intros r a' s' H. apply transition_ok in H as [(_ & ? & _)|(_ & _ & _ & _ & _ & _ & Hf)]; [done|].
    apply flush_approval_ok in Hf as (row' & E & Hv & -> & ->). simplify_eq.
    eexists. split; [done|]. rewrite Hv. by destruct dec.
Qed.

(** ** Interleaved sessions

    A configuration is the store with the approval objects sessions have
    loaded.  Sessions interleave freely: a loaded object may be stale when its
    session acts on it. *)
Definition config : Type := store * list ApprovalRequest.

Inductive approval_step : config -> config -> Prop :=
| ap_insert s held a :
    approvals s !! a_id a = None -> a_status a = "pending" -> a_status_version a = 1 ->
    approval_step (s, held) (put_approval a s, a :: held)
| ap_load s held i a :
    approvals s !! i = Some a -> approval_step (s, held) (s, a :: held)
(** Another column is assigned and flushed. *)
| ap_touch s held a f a' s' :
    a ∈ held -> (forall x, a_id (f x) = a_id x /\ a_status (f x) = a_status x) ->
    flush_approval s a f = Ok (a', s') -> approval_step (s, held) (s', a' :: held)
| ap_transition s held a to exp ver dec r a' s' :
    a ∈ held -> transition s a to exp ver dec = Ok (r, a', s') -> approval_step (s, held) (s', a' :: held).

(** A loaded object never runs ahead of its row, and agrees with it while the
    versions agree. *)
Definition snapshot_of (row a : ApprovalRequest) : Prop :=
  a_status_version a <= a_status_version row /\
  (a_status_version a = a_status_version row -> a_status a = a_status row).
Record config_ok (c : config) : Prop := {
  ok_keyed : forall i row, approvals c.1 !! i = Some row -> a_id row = i;
  ok_held : forall a, a ∈ c.2 -> exists row, approvals c.1 !! a_id a = Some row /\ snapshot_of row a;
}.

(** One step moves one row, along an edge or not at all. *)
Definition row_moves (row row' : ApprovalRequest) : Prop :=
  a_id row' = a_id row /\ a_status_version row < a_status_version row' /\
  (a_status row' = a_status row \/ a_status row' ∈ APPROVAL_TRANSITIONS (a_status row)).

Lemma flush_preserves s held a f a' s' :
  config_ok (s, held) -> a ∈ held -> flush_approval s a f = Ok (a', s') ->
  (forall x, a_id (f x) = a_id x) -> (forall x y, a_status x = a_status y -> a_status (f x) = a_status (f y)) ->
  config_ok (s', a' :: held) /\
  exists row row', approvals s !! a_id a = Some row /\ a_status row = a_status a /\
    approvals s' = <[a_id a := row']> (approvals s) /\ a_id row' = a_id row /\ a_status row' = a_status (f row) /\
    a_status_version row' = a_status_version row + 1.
Proof.
  intros [Hk Hh] Ha Hf Hid Hst. apply flush_approval_ok in Hf as (row & E & Hv & -> & ->). simpl in *.
  destruct (Hh a Ha) as (row2 & E2 & Hle & Hagree). simplify_eq. specialize (Hagree (eq_sym Hv)).
  split; [|exists row; eexists; split_and!; [done|done|reflexivity|apply Hid|done|simpl; lia]].
  split; simpl.
  - intros i x [[<- <-]|[? Hx]]%lookup_insert_Some; [simpl; by rewrite Hid, (Hk _ _ E)|eauto].
  - intros b [->|Hb]%elem_of_cons.
    + exists (set_a_status_version (a_status_version a + 1) (f row)). simpl. rewrite Hid, lookup_insert_eq.
      split; [done|]. split; simpl; [lia|]. intros _. by apply Hst.
    + destruct (Hh b Hb) as (rb & Eb & Hle' & Ha'). destruct (decide (a_id b = a_id a)) as [Eq|Ne].
      * rewrite Eq in *. simplify_eq. eexists. rewrite lookup_insert_eq. split; [done|]. split; simpl; lia.
      * exists rb. rewrite lookup_insert_ne by done. done.
Qed.

Lemma approval_step_ok c c' :
  config_ok c -> approval_step c c' ->
  config_ok c' /\
  forall i row, approvals c.1 !! i = Some row ->
    exists row', approvals c'.1 !! i = Some row' /\ (row' = row \/ row_moves row row').
Proof.
  intros Hok Hs. destruct Hs as [s held a Hn Hp H1|s held i a Hl|s held a f a' s' Ha Hf Hfl|s held a to exp ver dec r a' s' Ha Ht].
  - destruct Hok as [Hk Hh]. simpl in *. split; [split; simpl|].
    + intros i x [[<- <-]|[? Hx]]%lookup_insert_Some; [done|eauto].
    + intros b [->|Hb]%elem_of_cons; [exists a; rewrite lookup_insert_eq; done|].
      destruct (Hh b Hb) as (rb & Eb & Hsn). exists rb. rewrite lookup_insert_ne by congruence. done.
    + intros i row Hi. exists row. rewrite lookup_insert_ne by congruence. eauto.
  - destruct Hok as [Hk Hh]. simpl in *. split; [split; simpl; [done|]|eauto].
    intros b [->|Hb]%elem_of_cons; [|eauto]. exists a. rewrite (Hk _ _ Hl) in *. done.
  - destruct (flush_preserves _ _ _ _ _ _ Hok Ha Hfl) as (Hok' & row & row' & E & Es & Em & Hi & Hst & Hv);
      [apply Hf|intros x y; by rewrite (proj2 (Hf x)), (proj2 (Hf y))|].
    split; [done|]. simpl. intros i r0 Hr0. rewrite Em. destruct (decide (i = a_id a)) as [->|Ne].
    + rewrite lookup_insert_eq. simplify_eq. eexists. split; [done|]. right.
      split_and!; [done|lia|left; rewrite Hst; apply Hf].
    + rewrite lookup_insert_ne by done. eauto.
  - apply transition_ok in Ht as [(_ & _ & -> & ->)|(_ & _ & _ & _ & _ & Hedge & Hfl)].
    { destruct Hok as [Hk Hh]. simpl in *. split; [split; simpl; [done|]|eauto]. intros b [->|Hb]%elem_of_cons; eauto. }
    destruct (flush_preserves _ _ _ _ _ _ Hok Ha Hfl) as (Hok' & row & row' & E & Es & Em & Hi & Hst & Hv);
      [by destruct dec|by destruct dec|].
    split; [done|]. simpl. intros i r0 Hr0. rewrite Em. destruct (decide (i = a_id a)) as [->|Ne].
    + rewrite lookup_insert_eq. simplify_eq. eexists. split; [done|]. right.
      split_and!; [done|lia|right]. rewrite Hst, Es. by destruct dec.
    + rewrite lookup_insert_ne by done. eauto.
Qed.

Definition status_in (c : config) (i status : string) : Prop :=
  exists row, approvals c.1 !! i = Some row /\ a_status row = status.
Definition reachable (c : config) : Prop := exists s0, approvals s0 = ∅ /\ rtc approval_step (s0, []) c.

Lemma steps_ok_config c c' : config_ok c -> rtc approval_step c c' -> config_ok c'.
Proof. intros Hok Hr. induction Hr as [|x y z Hs _ IH]; [done|]. by apply IH, (approval_step_ok x). Qed.
Lemma reachable_ok c : reachable c -> config_ok c.
Proof.
  intros (s0 & E & Hr). eapply steps_ok_config; [|done]. split; simpl.
  - intros i row. rewrite E. by rewrite lookup_empty.
  - by intros a []%elem_of_nil.
Qed.

Lemma terminal_kept c c' i row :
  config_ok c -> rtc approval_step c c' -> approvals c.1 !! i = Some row -> terminal_approval (a_status row) ->
  exists row', approvals c'.1 !! i = Some row' /\ a_status row' = a_status row.
Proof.
  intros Hok Hr. revert row. induction Hr as [|x y z Hs _ IH]; intros row Hi Ht; [eauto|].
  destruct (approval_step_ok _ _ Hok Hs) as [Hok' Hrow]. destruct (Hrow _ _ Hi) as (row' & Hi' & Hm).
  assert (a_status row' = a_status row) as E.
  { destruct Hm as [->|(_ & _ & [?|Hedge])]; [done..|]. by apply terminal_no_edge in Hedge. }
  destruct (IH Hok' row' Hi') as (row2 & ? & ?); [by rewrite E|]. exists row2. by rewrite <- E.
Qed.

(** Terminal approvals are absorbing under any interleaving of sessions:
    once a reachable configuration has an approval in a terminal status, every
    later configuration has it in that same status, stale sessions included. *)
Theorem terminal_approval_absorbing c c' i status :
  reachable c -> status_in c i status -> terminal_approval status -> rtc approval_step c c' ->
  status_in c' i status.
Proof.
  intros Hr (row & Hi & <-) Ht Hs. destruct (terminal_kept _ _ _ _ (reachable_ok _ Hr) Hs Hi Ht) as (row' & ? & ?).
  by exists row'.
Qed.

(** Execution goes through approval.  In any interleaving of sessions an
    approval that was pending and is now executed was approved in between, so
    no stale session can turn a pending, rejected or withdrawn approval into an
    executed one. *)
Theorem executed_only_through_approved c c' i :
  reachable c -> status_in c i "pending" -> rtc approval_step c c' -> status_in c' i "executed" ->
  exists m, rtc approval_step c m /\ rtc approval_step m c' /\ status_in m i "approved".
Proof.
  intros Hr%reachable_ok (row & Hi & Hp) Hs He.
  assert (a_status row = "pending" \/ a_status row = "approved" \/ terminal_approval (a_status row) /\ a_status row <> "executed")
    as Hc by tauto. clear Hp. revert row Hi Hc Hr He. induction Hs as [x|x y z Hs Hrest IH]; intros row Hi Hc Hok He.
  - destruct He as (row2 & Hi2 & E). simplify_eq. destruct Hc as [?|[?|[_ ?]]]; congruence.
  - destruct (decide (a_status row = "approved")) as [Ea|Na].
    { exists x. split; [done|]. split; [by eapply rtc_l|]. by exists row. }
    destruct (approval_step_ok _ _ Hok Hs) as [Hok' Hrow]. destruct (Hrow _ _ Hi) as (row' & Hi' & Hm).
    destruct (IH row' Hi') as (m & ? & ? & ?); [|done..|by exists m; eauto using rtc_l].
    destruct Hm as [->|(_ & _ & [E|Hedge])]; [done|by rewrite E|].
    apply transitions_edges in Hedge as [[_ Hin]|[? _]]; [|done]. unfold terminal_approval, TERMINAL_APPROVAL_STATUSES.
    rewrite !elem_of_cons, elem_of_nil in Hin. rewrite !elem_of_cons.
    destruct Hin as [->|[->|[->|[->|[->|[]]]]]]; naive_solver.
Qed.

(** ** Activation *)
(** The columns of a ticket the dispatch lane depends on. *)
Definition lane_fields (t : SupportTicket) : string * string * string * string * Z :=
  (t_id t, t_tenant_id t, t_lifecycle t, t_automation_mode t, t_next_dispatch_sequence t).
(** [s'] differs from [s] in runs, events and the other ticket columns only. *)
Record lane_frame (s s' : store) : Prop := {
  lf_jobs : jobs s' = jobs s;
  lf_turns : turns s' = turns s;
  lf_approvals : approvals s' = approvals s;
  lf_messages : messages s' = messages s;
  lf_outbox : outbox s' = outbox s;
  lf_tickets : lane_fields <$> tickets s' = lane_fields <$> tickets s;
}.
Lemma lane_frame_refl s : lane_frame s s.
Proof. by split. Qed.
Lemma lane_frame_trans s1 s2 s3 : lane_frame s1 s2 -> lane_frame s2 s3 -> lane_frame s1 s3.
Proof. intros [] []. split; congruence. Qed.

Lemma lane_fields_put (m : gmap string SupportTicket) i t t' :
  m !! i = Some t -> lane_fields t' = lane_fields t -> lane_fields <$> <[i := t']> m = lane_fields <$> m.
Proof. intros Hi E. rewrite fmap_insert, E. apply insert_id. by rewrite lookup_fmap, Hi. Qed.
Lemma lane_fields_lookup (m m' : gmap string SupportTicket) i t :
  lane_fields <$> m' = lane_fields <$> m -> m' !! i = Some t -> exists t0, m !! i = Some t0 /\ lane_fields t0 = lane_fields t.
Proof.
  intros E Hi. apply (f_equal (lookup i)) in E. rewrite !lookup_fmap, Hi in E. simpl in E.
  destruct (m !! i) as [t0|]; [|done]. exists t0. split; [done|]. simpl in E. congruence.
Qed.

Section activation_lemmas.
Context `{PyRuntime}.

Lemma append_event_frame (redact : string -> string) s rid args w eid clock e s' :
  keyed s -> append_event redact s rid args w eid clock = Ok (e, s') -> lane_frame s s' /\ keyed s'.
Proof.
  intros Hk Ha. pose proof Ha as Ha0. apply append_ok_facts in Ha0 as (run0 & t0 & Hr0 & Ht0 & Hn & Hb & He).
  apply build_event_ok in Hb as (Hid & _). unfold append_event in Ha. rewrite Hr0, Ht0 in Ha. steps_ok Ha. simplify_eq.
  pose proof (keyed_tickets _ Hk _ _ Ht0) as Et. pose proof (keyed_runs _ Hk _ _ Hr0) as Er. split.
  - split; simpl; try done. rewrite Et. by eapply lane_fields_put.
  - auto with keyed.
Qed.

Lemma put_run_frame s r : keyed s -> lane_frame s (put_run r s) /\ keyed (put_run r s).
Proof.
  intros Hk. split; [by split|auto with keyed].
Qed.

Lemma create_run_frame s ev ids tid cid mid m pm tm cv rid s' :
  keyed s -> create_run s ev ids tid cid mid m pm tm cv = Ok (rid, s') -> lane_frame s s' /\ keyed s'.
Proof.
  intros Hk Hc. unfold create_run in Hc.
  destruct (get_where (messages s) _ _) as [msg|]; [|done]. destruct (get_where (tickets s) _ _) as [t|]; [|done].
  steps_ok Hc. destruct (select_where _ _) as [|r l]; [|simplify_eq; split; [apply lane_frame_refl|done]].
  steps_ok Hc. match goal with a : AgentEvent * store |- _ => destruct a as [e s1] end. simplify_eq/=.
  edestruct (put_run_frame s) as [F1 K1]; [done|].
  destruct (append_event_frame _ _ _ _ _ _ _ _ _ K1 Hstep3) as [F2 K2]. split; [|done]. by eapply lane_frame_trans.
Qed.

Lemma insert_job_ok s job s' :
  insert_job s job = Ok s' ->
  s' = put_job job s /\ jobs s !! j_id job = None /\
  (forall i j, jobs s !! i = Some j -> j_tenant_id j = j_tenant_id job -> j_ticket_id j = j_ticket_id job ->
     j_dispatch_sequence j <> j_dispatch_sequence job).
Proof.
  unfold insert_job. intros Hi. steps_ok Hi. simplify_eq. to_prop. destruct Hguard as [[Hn Hu] _].
  split_and!; [done|done|]. intros i j Hj E1 E2 E3. rewrite exists_where_false in Hu. specialize (Hu _ _ Hj).
  rewrite E1, E2, E3, Z.eqb_refl, !eqb_refl in Hu. done.
Qed.

(** Everything an activation does to the lane. *)
Definition activation_outbox (ids : fresh_ids) (tid rid tr : string) (now : Z) (ticket : SupportTicket) : OutboxEvent :=
  new_outbox (f_outbox ids) (f_delivery ids) (t_tenant_id ticket) (f_job ids) rid 1 "runtime_job_available"
    [("traceparent", PyStr tr)] now.
Record activation (s s' : store) (ids : fresh_ids) (tid rid tr : string) (now : Z) (ticket : SupportTicket)
    (turn : ConversationTurn) : Prop := {
  act_ticket : tickets s !! tid = Some ticket;
  act_open : t_lifecycle ticket = "active" /\ t_automation_mode ticket = "agent";
  act_idle : has_active_turn s tid = false;
  act_turn : next_turn s tid = Some turn;
  act_turns : turns s' = <[u_id turn := turn |> set_u_run_id (Some rid) |> set_u_activity_state "queued"]> (turns s);
  act_fresh : jobs s !! f_job ids = None;
  act_jobs : jobs s' = <[f_job ids := new_job (f_job ids) (t_tenant_id ticket) tid rid "agent_start" None
                                        (t_next_dispatch_sequence ticket + 1) now]> (jobs s);
  act_lane : lane_fields <$> tickets s' =
             <[tid := (t_id ticket, t_tenant_id ticket, t_lifecycle ticket, t_automation_mode ticket,
                       t_next_dispatch_sequence ticket + 1)]> (lane_fields <$> tickets s);
  act_status : exists t', tickets s' !! tid = Some t' /\ t_status t' = "queued";
  act_approvals : approvals s' = approvals s;
  act_outbox : insert_outbox s (activation_outbox ids tid rid tr now ticket) =
                 Ok (put_outbox (activation_outbox ids tid rid tr now ticket) s) /\
               outbox s' = outbox (put_outbox (activation_outbox ids tid rid tr now ticket) s);
  act_keyed : keyed s';
}.

Lemma activate_ok s ev ids tid tr rid jid s' :
  keyed s -> activate_next_turn s ev ids tid tr = Ok (Some (rid, jid), s') ->
  jid = f_job ids /\ exists ticket turn, activation s s' ids tid rid tr (database_now ev) ticket turn.
Proof.
  intros Hk Ha. unfold activate_next_turn in Ha. destruct (tickets s !! tid) as [ticket|] eqn:Et; [|done].
  destruct (_ || _ || _) eqn:Eg; [done|]. rewrite !orb_false_iff in Eg. destruct Eg as [[Hact Hmode] Hlife].
  destruct (next_turn s tid) as [turn|] eqn:En; [|done].
  destruct (u_model turn) as [model|]; [|done]. destruct (u_provider_mode turn) as [pm|]; [|done].
  destruct (u_tool_call_mode turn) as [tm|]; [|done]. steps_ok Ha. destruct a as [rid0 s1].
  destruct (create_run_frame _ _ _ _ _ _ _ _ _ _ _ _ Hk Hstep) as [F K1]. clear Hstep.
  destruct (runs s1 !! rid0) as [run|] eqn:Er; [|done]. cbn [messages put_run set_runs] in Ha.
  destruct (messages s1 !! u_customer_message_id turn) as [msg|]; [|done].
  cbn [tickets put_turn set_turns put_message set_messages put_run set_runs] in Ha.
  destruct (tickets s1 !! tid) as [t1|] eqn:Et1; [|done]. steps_ok Ha. simplify_eq.
  apply insert_job_ok in Hstep as (-> & Hnone & _). cbn in Hnone. rewrite (lf_jobs _ _ F) in Hnone.
  apply insert_outbox_ok in Hstep0 as (-> & Hon & Hoc). cbn in Hon, Hoc. rewrite (lf_outbox _ _ F) in Hon, Hoc.
  destruct (lane_fields_lookup _ _ _ _ (lf_tickets _ _ F) Et1) as (t0 & E0 & El). rewrite Et in E0. injection E0 as <-.
  pose proof (keyed_tickets _ K1 _ _ Et1) as Eid. pose proof (keyed_tickets _ Hk _ _ Et) as Eid0.
  unfold lane_fields in El. injection El as Ei En' Ell Em Es.
  split; [done|]. exists ticket, turn. unfold neqb in *. to_prop.
  split; cbn; rewrite ?(lf_jobs _ _ F), ?(lf_turns _ _ F), ?(lf_approvals _ _ F); try done.
  - by rewrite Es, En'.
  - rewrite Eid, !insert_insert_eq, fmap_insert, (lf_tickets _ _ F). unfold lane_fields at 1. cbn.
    by rewrite Ei, En', Ell, Em, Es.
  - eexists. rewrite Eid, lookup_insert_eq. done.
  - unfold activation_outbox. rewrite <- En' in Hoc |- *. rewrite (lf_outbox _ _ F). split; [|done]. unfold insert_outbox. apply raise_if_false, orb_false_iff.
    split; [cbn; by rewrite Hon|by apply exists_where_false].
  - auto 12 with keyed.
Qed.
Lemma activate_none s ev ids tid tr s' : activate_next_turn s ev ids tid tr = Ok (None, s') -> s' = s.
Proof.
  unfold activate_next_turn. intros Ha. destruct (tickets s !! tid); [|done]. destruct (_ || _ || _); [by simplify_eq|].
  destruct (next_turn s tid) as [turn|]; [|by simplify_eq].
  destruct (u_model turn), (u_provider_mode turn), (u_tool_call_mode turn); try done. steps_ok Ha.
  destruct a as [rid0 st]. repeat (case_match; try done); steps_ok Ha; try done. all: by simplify_eq.
Qed.

Lemma turn_leb_total a b : turn_leb a b = false -> turn_leb b a = true.
Proof.
  unfold turn_leb. to_prop. intros [? [?|?]]; [left; lia|]. destruct (decide (u_ordinal a = u_ordinal b)); [|left; lia].
  right. split; [lia|]. by apply str_leb_total.
Qed.
Lemma turn_leb_trans a b c : turn_leb a b = true -> turn_leb b c = true -> turn_leb a c = true.
Proof.
  unfold turn_leb. to_prop. intros [?|[? ?]] [?|[? ?]]; try (left; lia). right. split; [lia|]. by eapply str_leb_trans.
Qed.
Lemma next_turn_oldest s tid turn :
  next_turn s tid = Some turn ->
  ((exists i, turns s !! i = Some turn) /\ u_ticket_id turn = tid /\ u_activity_state turn = "accepted") /\
  forall i u, turns s !! i = Some u -> u_ticket_id u = tid -> u_activity_state u = "accepted" -> turn_leb turn u = true.
Proof.
  unfold next_turn. intros Hn. apply first_by_some in Hn as [Hin Hmin];
    [|apply turn_leb_total|apply turn_leb_trans].
  apply select_where_elem in Hin as [Hin Hf]. to_prop. split; [naive_solver|].
  intros i u Hi E1 E2. apply Hmin, select_where_elem. split; [eauto|]. to_prop. done.
Qed.

(** At most one queued or running turn per ticket. *)
Definition active_state (u : ConversationTurn) : Prop := u_activity_state u ∈ ["queued"; "running"].
Definition turn_lane (s : store) : Prop :=
  forall i j u v, turns s !! i = Some u -> turns s !! j = Some v -> u_ticket_id u = u_ticket_id v ->
    active_state u -> active_state v -> i = j.
Lemma has_active_turn_false s tid :
  has_active_turn s tid = false -> forall i u, turns s !! i = Some u -> u_ticket_id u = tid -> ~ active_state u.
Proof.
  unfold has_active_turn. rewrite exists_where_false. intros Hf i u Hi <-. specialize (Hf _ _ Hi). to_prop.
  unfold active_state. naive_solver.
Qed.

(** Activation promotes accepted turns one at a time, in order.  A
    promotion happens only on an idle, active, agent-driven ticket; it takes
    the oldest accepted turn by (ordinal, id), queues exactly that turn under
    the new run, enqueues one [agent_start] job with the next dispatch number of
    the ticket, and keeps at most one queued or running turn per ticket. *)
Theorem activation_promotes_oldest s ev ids tid tr rid jid s' :
  keyed s -> turn_lane s -> activate_next_turn s ev ids tid tr = Ok (Some (rid, jid), s') ->
  turn_lane s' /\
  exists ticket turn job,
    tickets s !! tid = Some ticket /\ t_lifecycle ticket = "active" /\ t_automation_mode ticket = "agent" /\
    u_activity_state turn = "accepted" /\
    (forall i u, turns s !! i = Some u -> u_ticket_id u = tid -> ~ active_state u) /\
    (forall i u, turns s !! i = Some u -> u_ticket_id u = tid -> u_activity_state u = "accepted" -> turn_leb turn u = true) /\
    turns s' = <[u_id turn := turn |> set_u_run_id (Some rid) |> set_u_activity_state "queued"]> (turns s) /\
    jobs s' = <[jid := job]> (jobs s) /\ jobs s !! jid = None /\ j_run_id job = rid /\ j_status job = "queued" /\
    j_kind job = "agent_start" /\ j_dispatch_sequence job = t_next_dispatch_sequence ticket + 1.
Proof.
  intros Hk Hl Ha. destruct (activate_ok _ _ _ _ _ _ _ _ Hk Ha) as (-> & ticket & turn & [Ht [Hlf Hm] Hi Hn Hts Hf Hj _ _ _ _]).
  pose proof (has_active_turn_false _ _ Hi) as Hidle.
  destruct (next_turn_oldest _ _ _ Hn) as [((i0 & Hi0) & Htk & Hst) Hold]. split.
  - intros i j u v. rewrite Hts, !lookup_insert_Some.
    intros [[<- <-]|[_ Hu]] [[<- <-]|[_ Hv]] E Au Av; [done| | |by eapply Hl]; exfalso.
    + eapply (Hidle _ _ Hv); [|done]. rewrite <- E. done.
    + eapply (Hidle _ _ Hu); [|done]. rewrite E. done.
  - eexists ticket, turn, _. split_and!; try done.
Qed.
End activation_lemmas.

(** ** Witnesses *)
Definition demo_message : TicketMessage :=
  mk_message "M2" "t1" "T1" None None None (Some 1) "customer" None "user" "hi" (PyList []).
Definition demo_turn (id : string) (ordinal : Z) (state : string) : ConversationTurn :=
  mk_turn id "t1" "T1" "M2" None ordinal state None "agent" (Some "m") (Some "fake") (Some "native") None None.
Definition demo_approval (status : string) (version : Z) : ApprovalRequest :=
  mk_approval "A1" "t1" "T1" "c1" None (Some "R1") "refund" "billing_record_id" "B1" status version None
    [] "" 1 "k" None None None None None None None 0 None None None.
Definition demo_env : env :=
  mk_env 1784073600000000 1784073600000000 None (fun s => s)
    (fun _ _ _ _ => [("prompt_version", PyStr "p1"); ("schema_version", PyStr "s1");
                      ("runtime_manifest_hash", PyStr "h"); ("code_commit", PyStr "c")]).
Definition demo_ids : fresh_ids := mk_ids "R2" "E2" "J2" "O2" "D2" "M3".
Definition demo_lane : store :=
  empty_store |> put_ticket demo_ticket |> put_message demo_message
              |> put_turn (demo_turn "U2" 2 "accepted") |> put_turn (demo_turn "U1" 1 "completed").
Definition demo_activated : store :=
  match @activate_next_turn ascii_runtime demo_lane demo_env demo_ids "T1" "trace" with
  | Ok (_, s) => s
  | Err _ => demo_lane
  end.

Lemma activation_promotes_oldest_witness :
  @activate_next_turn ascii_runtime demo_lane demo_env demo_ids "T1" "trace" = Ok (Some ("R2", "J2"), demo_activated) /\
  turn_lane demo_activated.
Proof.
  assert (@activate_next_turn ascii_runtime demo_lane demo_env demo_ids "T1" "trace"
          = Ok (Some ("R2", "J2"), demo_activated)) as E by (vm_compute; reflexivity).
  split; [exact E|].
  refine (proj1 (@activation_promotes_oldest ascii_runtime demo_lane demo_env demo_ids "T1" "trace" "R2" "J2"
                   demo_activated _ _ E)).
  - unfold demo_lane. auto 10 with keyed.
  - intros i j u v Hu _ _ Au%mem_true _. exfalso. unfold demo_lane in Hu. simpl in Hu.
    rewrite !lookup_insert_Some, lookup_empty in Hu. destruct Hu as [[_ <-]|[_ [[_ <-]|[_ ?]]]]; [| |done];
      vm_compute in Au; discriminate Au.
Defined.

Definition demo_waiting : store :=
  empty_store |> put_ticket (set_t_final_response (Some "old") demo_ticket) |> put_approval (demo_approval "pending" 1).
Definition demo_converged : store :=
  match converge_ticket demo_waiting "T1" "completed" with Ok (_, s) => s | Err _ => demo_waiting end.
Lemma converge_ticket_projection_witness :
  converge_ticket demo_waiting "T1" "completed" = Ok ("awaiting_approval", demo_converged) /\
  converge_ticket demo_converged "T1" "completed" = Ok ("awaiting_approval", demo_converged).
Proof.
  assert (converge_ticket demo_waiting "T1" "completed" = Ok ("awaiting_approval", demo_converged)) as E
    by (vm_compute; reflexivity).
  split; [exact E|].
  eapply (converge_ticket_projection demo_waiting "T1" "completed" "awaiting_approval" demo_converged);
    [|vm_compute; reflexivity|reflexivity..|exact E].
  unfold demo_waiting. auto 10 with keyed.
Defined.

Lemma transition_compare_and_swap_witness :
  (exists out, transition demo_waiting (demo_approval "pending" 1) "approved" "pending" (Some 1) (Some 7) = Ok out) /\
  ~ (exists out, transition demo_waiting (demo_approval "pending" 0) "approved" "pending" None None = Ok out).
Proof.
  split.
  - apply (transition_compare_and_swap demo_waiting (demo_approval "pending" 1) (demo_approval "pending" 1)
             "approved" "pending" (Some 1) (Some 7)); [vm_compute; reflexivity|done|].
    split_and!; [vm_compute; list_member|done|naive_solver|done].
  - intros Hex. apply (transition_compare_and_swap demo_waiting (demo_approval "pending" 0) (demo_approval "pending" 1)
             "approved" "pending" None None) in Hex; [|vm_compute; reflexivity|done]. naive_solver.
Defined.

(** A session approves, a stale session fails to withdraw, a third executes. *)
Definition demo_c0 : config := (demo_waiting, [demo_approval "pending" 1]).
Definition demo_move (c : config) (version : Z) (from to : string) : config :=
  match transition c.1 (demo_approval from version) to from None None with
  | Ok (_, a, s) => (s, a :: c.2)
  | Err _ => c
  end.
Definition demo_c1 : config := demo_move demo_c0 1 "pending" "approved".
Definition demo_c2 : config := demo_move demo_c1 2 "approved" "executed".

Lemma demo_c0_reachable : reachable demo_c0.
Proof.
  exists (set_approvals ∅ demo_waiting). split; [done|]. eapply rtc_l; [|apply rtc_refl].
  exact (ap_insert (set_approvals ∅ demo_waiting) [] (demo_approval "pending" 1) eq_refl eq_refl eq_refl).
Qed.
Lemma demo_step1 : approval_step demo_c0 demo_c1.
Proof.
  eapply (ap_transition _ _ (demo_approval "pending" 1) "approved" "pending" None None);
    [list_member|vm_compute; reflexivity].
Qed.
Lemma demo_step2 : approval_step demo_c1 demo_c2.
Proof.
  eapply (ap_transition _ _ (demo_approval "approved" 2) "executed" "approved" None None);
    [vm_compute; list_member|vm_compute; reflexivity].
Qed.

Lemma executed_only_through_approved_witness :
  exists m, rtc approval_step demo_c0 m /\ rtc approval_step m demo_c2 /\ status_in m "A1" "approved".
Proof.
  apply (executed_only_through_approved demo_c0 demo_c2 "A1").
  - exact demo_c0_reachable.
  - eexists. split; [vm_compute; reflexivity|reflexivity].
  - eauto using rtc_l, rtc_refl, demo_step1, demo_step2.
  - eexists. split; [vm_compute; reflexivity|reflexivity].
Defined.

Lemma terminal_approval_absorbing_witness : status_in demo_c2 "A1" "executed".
Proof.
  apply (terminal_approval_absorbing demo_c2 demo_c2 "A1" "executed").
  - destruct demo_c0_reachable as (s0 & E & Hr). exists s0. split; [exact E|].
    etransitivity; [exact Hr|]. eauto using rtc_l, rtc_refl, demo_step1, demo_step2.
  - eexists. split; [vm_compute; reflexivity|reflexivity].
  - vm_compute. list_member.
  - apply rtc_refl.
Defined.
