(* ===== verification/RuntimeJobs.v ===== *)
(** * Durable jobs and their leases (services/runtime_jobs.py)

    A ticket is a FIFO lane of jobs.  A worker claims the head of a lane under
    a lease with a fencing token, renews it, and completes, retries or kills
    the job; killing a job publishes a safe reply and hands the lane on.
    Idempotent commands are accepted once.

    The operations are those of the application dialect; the PostgreSQL worker
    reaches the same rows through SECURITY DEFINER capabilities.  Attempts are
    non-negative, as the table's check constraint demands.

    Main results: at most one leased job per ticket and it is the oldest active
    one, under any interleaving of operations; a lease that was superseded is
    rejected for ever; two leases of a ticket that both pass the fence are the
    same lease; retries are bounded; a command is accepted once. *)
From Stdlib Require Import Ascii.
From S2P Require Import Prelude PyValue Sha256 CanonicalJson Timestamps Store EventChain Lifecycle.
Local Open Scope string_scope.
Local Open Scope list_scope.
Local Open Scope Z_scope.

(** ** Converging the aggregates of a dead job *)
Definition abort_marker (job_id : string) (m : CheckpointCommitMarker) : CheckpointCommitMarker :=
  if (k_job_id m ==? job_id) && (k_status m in? ["prepared"; "checkpoint_written"])
  then m |> set_k_status "aborted" |> set_k_status_version (k_status_version m + 1)
  else m.

Section dead.
Context `{PyRuntime}.

(** The failed turn of the run. *)
Definition fail_turn (s : store) (run : AgentRun) : store :=
  match r_turn_id run with
  | Some turn_id =>
      if is_empty_str turn_id then s else
      match turns s !! turn_id with
      | Some turn => put_turn (turn |> set_u_activity_state "failed" |> set_u_result_state (Some "failed")
                                    |> set_u_completed_at (r_completed_at run)) s
      | None => s
      end
  | None => s
  end.

(** The customer-visible reply, published once per job. *)
Definition failure_key (job : RuntimeJob) : string := "runtime-failure:" +:+ j_id job.
Definition publish_failure (s : store) (ev : env) (ids : fresh_ids) (job : RuntimeJob) (run : AgentRun)
    (ticket : SupportTicket) (failure_category : string) : res store :=
  if exists_where (fun m => (m_tenant_id m ==? j_tenant_id job) && (m_publication_key m ==? Some (failure_key job)))
       (messages s)
  then Ok (put_ticket ticket s) else
  let ticket := set_t_next_message_sequence (t_next_message_sequence ticket + 1) ticket in
  let? content := public_failure_reply failure_category in
  let message := mk_message (f_message ids) (j_tenant_id job) (t_id ticket) (r_turn_id run) (Some (r_id run))
                   (j_approval_id job) (Some (t_next_message_sequence ticket)) "assistant"
                   (Some (failure_key job)) "assistant" content
                   (PyList [PyDict [("kind", PyStr "runtime_failure");
                                    ("reason_code", PyStr "automatic_processing_failed");
                                    ("failure_category", PyStr failure_category)]]) in
  let ticket := advance_conversation_activity ticket (clock ev) in
  raise IntegrityError when isSome (messages s !! f_message ids)
    || exists_where (fun m => (m_ticket_id m ==? t_id ticket)
                              && (m_conversation_sequence m ==? Some (t_next_message_sequence ticket))) (messages s) ;;
  Ok (s |> put_message message |> put_ticket ticket).

(** The approval the job was resuming, and its proposal. *)
Definition fail_approval (s : store) (job : RuntimeJob) : res store :=
  match j_approval_id job with
  | Some approval_id =>
      if is_empty_str approval_id then Ok s else
      match approvals s !! approval_id with
      | Some approval =>
          if a_status approval in? ["executed"; "rejected"; "manual_takeover"; "failed"; "stale"; "withdrawn"]
          then Ok s else
          let? moved := transition s approval "failed" (a_status approval) (Some (a_status_version approval)) None in
          let '(_, approval, s) := moved in
          match a_proposal_id approval with
          | Some proposal_id =>
              match proposals s !! proposal_id with
              | Some proposal =>
                  Ok (if p_status proposal in? ["draft"; "bound"]
                      then put_proposal (proposal |> set_p_status "stale"
                                                  |> set_p_status_version (p_status_version proposal + 1)) s
                      else s)
              | None => Ok s
              end
          | None => Ok s
          end
      | None => Ok s
      end
  | None => Ok s
  end.

(** [converge_dead_aggregates]; job and run are persistent objects, named by
    their ids. *)
Definition converge_dead_aggregates (s : store) (ev : env) (ids : fresh_ids) (job : RuntimeJob) (run_id : string)
    (reason : string) : res store :=
  let failure_category := default "runtime" (classify_public_failure (PyStr reason)) in
  let! run := runs s !! run_id else RuntimeError "run object is not persistent" in
  let run := run |> set_r_status "failed" |> set_r_error_code (Some (py_take 128 reason))
                 |> set_r_active_job_id None |> set_r_active_fencing_token None
                 |> set_r_completed_at (Some (clock ev)) in
  let s := put_run run s in
  let s := fail_turn s run in
  let? s := match tickets s !! r_ticket_id run with
            | Some ticket =>
                if t_automation_mode ticket !=? "human_queue"
                then publish_failure s ev ids job run
                       (ticket |> set_t_status "failed" |> set_t_version (t_version ticket + 1)) failure_category
                else Ok s
            | None => Ok s
            end in
  let? s := fail_approval s job in
  let s := set_markers (abort_marker (j_id job) <$> markers s) s in
  match tickets s !! r_ticket_id run with
  | Some ticket =>
      if (t_automation_mode ticket ==? "agent") && (t_lifecycle ticket ==? "active") then
        let? r := activate_next_turn s ev ids (r_ticket_id run) (failure_key job) in
        let? c := converge_ticket r.2 (r_ticket_id run) "failed" in
        Ok c.2
      else Ok s
  | None => Ok s
  end.
End dead.

(** ** Idempotent commands *)
Definition canonical_request_hash (payload : pydict) : res string := _payload_hash (PyDict payload).

Record AcceptedCommand := mk_accepted { record : IdempotencyRequest; reused : bool }.

(** [re.fullmatch(r"POST /api/tickets/[^/]+/messages", route)] or the ticket route. *)
Definition low_risk_route (route : string) : bool :=
  (route ==? "POST /api/tickets")
  || match split_on "/" route with
     | [p; a; t; id; m] => (p ==? "POST ") && (a ==? "api") && (t ==? "tickets") && negb (is_empty_str id) && (m ==? "messages")
     | _ => false
     end.

(** The scope of [uq_idempotency_request_scope]. *)
Definition same_command (tenant_id principal_id route key : string) (i : IdempotencyRequest) : bool :=
  (i_tenant_id i ==? tenant_id) && (i_principal_id i ==? principal_id) && (i_route i ==? route)
  && (i_idempotency_key i ==? key).

(** [IdempotencyRepository.accept]; [id] is the answer of [new_id("idem")]. *)
Definition accept (s : store) (ev : env) (id tenant_id principal_id route key : string) (payload resource_ids
    response_snapshot : pydict) (expires_at : option Z) : res (AcceptedCommand * store) :=
  let? request_hash := canonical_request_hash payload in
  let retention_class := if low_risk_route route then "low_risk_non_action" else "protected_action" in
  let completed_at := if is_nil response_snapshot then None else Some (clock ev) in
  match head (select_where (same_command tenant_id principal_id route key) (idempotency s)) with
  | Some existing =>
      raise RuntimeConflict "idempotency_conflict" when i_request_hash existing !=? request_hash ;;
      Ok (mk_accepted existing true, s)
  | None =>
      raise IntegrityError when isSome (idempotency s !! id) ;;
      let record := mk_idempotency id tenant_id principal_id route key request_hash resource_ids response_snapshot
                      expires_at completed_at retention_class in
      Ok (mk_accepted record false, put_idempotency record s)
  end.

(** ** Leases and retries *)
Record JobLease := mk_lease {
  l_job_id : string; l_run_id : string; l_tenant_id : string; l_owner : string; l_fencing_token : Z;
  l_expires_at : Z; l_kind : string; l_approval_id : option string; l_attempt : Z; l_ticket_id : option string;
  l_dispatch_sequence : option Z;
}.
Record RetryDecision := mk_decision {
  d_terminal : bool; d_next_status : string; d_available_at : Z; d_reason : string; d_attempt : Z;
}.

Definition transition_runtime_job_status (job : RuntimeJob) (status : string) : RuntimeJob :=
  if j_status job ==? status then job
  else job |> set_j_status status |> set_j_status_version (j_status_version job + 1).

(** [int.from_bytes(digest[:2], "big") % 1001] of a SHA-256 digest. *)
Definition digest_prefix (text : string) : Z :=
  match String.list_ascii_of_string (sha256_hex text) with
  | a :: b :: c :: d :: _ => ((hex_value a * 16 + hex_value b) * 16 + hex_value c) * 16 + hex_value d
  | _ => 0
  end.
Definition jitter_ms (job_id : string) (attempt : Z) : Z :=
  digest_prefix (job_id +:+ ":" +:+ str_of_Z attempt) mod 1001.
(** [timedelta(seconds=min(30.0, float(2**attempt)) + jitter_ms / 1000)] in
    microseconds: a multiple of a millisecond below 32 s, which the float
    rounds to exactly.  A power beyond the float range is an [OverflowError]. *)
Definition backoff (job_id : string) (attempt : Z) : res Z :=
  raise OverflowError "int too large to convert to float" when 1024 <=? attempt ;;
  Ok (Z.min 30 (2 ^ attempt) * second + jitter_ms job_id attempt * 1000).
Definition retry_decision (job_id : string) (attempt created_at now max_attempts max_age_seconds : Z)
    : res RetryDecision :=
  let terminal := (max_attempts <=? attempt) || (max_age_seconds * second <=? now - created_at) in
  let? wait := backoff job_id attempt in
  Ok (mk_decision terminal (if terminal then "dead" else "retry_wait") (now + wait)
        (if terminal then "max_attempts_or_age" else "bounded_backoff") attempt).

(** [RuntimeJobRepository.create]: [f_job] stands for [job_id or new_id("job")]. *)
Definition create (s : store) (ev : env) (ids : fresh_ids) (tenant_id run_id kind : string)
    (approval_id ticket_id : option string) : res (RuntimeJob * store) :=
  raise RuntimeConflict "runtime_job_kind_approval_shape_invalid" when
    ((kind ==? "agent_start") && isSome approval_id)
    || ((kind ==? "approval_resume") && negb (truthy_opt approval_id))
    || negb (kind in? ["agent_start"; "approval_resume"]) ;;
  match get_where (runs s) run_id (fun r => r_tenant_id r ==? tenant_id) with
  | None => Err (RuntimeConflict "job_ticket_mismatch")
  | Some run =>
      let run_ticket_id := r_ticket_id run in
      raise RuntimeConflict "job_ticket_mismatch"
        when match ticket_id with Some t => t !=? run_ticket_id | None => false end ;;
      raise RuntimeConflict "runtime_job_approval_mismatch" when
        (kind ==? "approval_resume")
        && isNone (get_where (approvals s) (default "" approval_id) (fun a =>
             (a_tenant_id a ==? tenant_id) && (a_run_id a ==? Some run_id) && (a_ticket_id a ==? run_ticket_id))) ;;
      match get_where (tickets s) run_ticket_id (fun t => t_tenant_id t ==? tenant_id) with
      | None => Err (RuntimeConflict "ticket_not_found")
      | Some ticket =>
          let dispatch_sequence := t_next_dispatch_sequence ticket + 1 in
          let s := put_ticket (set_t_next_dispatch_sequence dispatch_sequence ticket) s in
          let job := new_job (f_job ids) tenant_id run_ticket_id run_id kind approval_id dispatch_sequence
                       (database_now ev) in
          let? s := insert_job s job in
          Ok (job, s)
      end
  end.

(** The active jobs of a lane, and the least dispatch number among them. *)
Definition lane_job (tenant_id ticket_id : string) (j : RuntimeJob) : bool :=
  (j_tenant_id j ==? tenant_id) && (j_ticket_id j ==? ticket_id).
Definition active_status (j : RuntimeJob) : bool := j_status j in? ["queued"; "retry_wait"; "leased"].
Definition head_sequence (s : store) (tenant_id ticket_id : string) : option Z :=
  first_by Z.leb (map j_dispatch_sequence
    (select_where (fun j => lane_job tenant_id ticket_id j && active_status j) (jobs s))).

Definition lease_of (job : RuntimeJob) (owner : string) (expires_at : Z) : JobLease :=
  mk_lease (j_id job) (j_run_id job) (j_tenant_id job) owner (j_fencing_token job) expires_at (j_kind job)
    (j_approval_id job) (j_attempt job) (Some (j_ticket_id job)) (Some (j_dispatch_sequence job)).

(** The claimed job, and the turn its run starts. *)
Definition lease_job (job : RuntimeJob) (owner : string) (now lease_seconds : Z) : RuntimeJob :=
  let job := transition_runtime_job_status job "leased" in
  job |> set_j_attempt (j_attempt job + 1) |> set_j_lease_owner (Some owner)
      |> set_j_heartbeat_at (Some now) |> set_j_lease_expires_at (Some (now + lease_seconds * second))
      |> set_j_fencing_token (j_fencing_token job + 1).
Definition start_turn (s : store) (run : AgentRun) (kind : string) : store :=
  if truthy_opt (r_turn_id run) then
    match turns s !! default "" (r_turn_id run) with
    | Some turn => if kind ==? "agent_start" then put_turn (set_u_activity_state "running" turn) s else s
    | None => s
    end
  else s.

(** [RuntimeJobRepository.claim] *)
Definition claim (s : store) (ev : env) (job_id owner : string) (lease_seconds : Z) : res (JobLease * store) :=
  let now := database_now ev in
  let! job := jobs s !! job_id else RuntimeConflict "job_not_claimable" in
  let tenant_id := j_tenant_id job in
  let ticket_id := j_ticket_id job in
  let! ticket := get_where (tickets s) ticket_id (fun t => t_tenant_id t ==? tenant_id)
    else RuntimeConflict "ticket_not_claimable" in
  raise RuntimeConflict "ticket_not_claimable"
    when (t_lifecycle ticket !=? "active") || (t_automation_mode ticket ==? "human_queue") ;;
  raise RuntimeConflict "job_not_claimable" when negb (j_status job in? ["queued"; "retry_wait"]) ;;
  raise RuntimeConflict "ticket_fifo_blocked"
    when head_sequence s tenant_id ticket_id !=? Some (j_dispatch_sequence job) ;;
  raise RuntimeConflict "ticket_lane_leased"
    when exists_where (fun j => lane_job tenant_id ticket_id j && (j_status j ==? "leased")) (jobs s) ;;
  raise RuntimeConflict "job_not_due" when now <? j_available_at job ;;
  let! run := get_where (runs s) (j_run_id job) (fun r => r_tenant_id r ==? tenant_id)
    else RuntimeConflict "run_not_claimable" in
  raise RuntimeConflict "run_not_claimable" when negb (r_status run in? ["queued"; "interrupted"; "running"]) ;;
  raise RuntimeConflict "approval_resume_not_claimable" when
    (j_kind job ==? "approval_resume")
    && match j_approval_id job with
       | Some approval_id =>
           match get_where (approvals s) approval_id (fun a =>
                   (a_tenant_id a ==? tenant_id) && (a_run_id a ==? Some (j_run_id job)) && (a_ticket_id a ==? ticket_id)) with
           | Some approval => a_status approval !=? "approved"
           | None => true
           end
       | None => true
       end ;;
  let job := lease_job job owner now lease_seconds in
  let run := run |> set_r_active_job_id (Some (j_id job)) |> set_r_active_fencing_token (Some (j_fencing_token job))
                 |> set_r_status "running" |> set_r_status_version (r_status_version run + 1) in
  let s := start_turn (s |> put_job job |> put_run run) run (j_kind job) in
  raise RuntimeConflict "job_ticket_mismatch" when r_ticket_id run !=? ticket_id ;;
  let s := if t_status ticket ==? "queued"
           then put_ticket (ticket |> set_t_status "running" |> set_t_version (t_version ticket + 1)) s else s in
  raise IntegrityError when exists_where (fun j => (j_tenant_id j ==? tenant_id) && (j_run_id j ==? j_run_id job)
                                                   && (j_status j ==? "leased") && (j_id j !=? j_id job)) (jobs s) ;;
  Ok (lease_of job owner (now + lease_seconds * second), s).

(** [RuntimeJobRepository.assert_fence] *)
Definition assert_fence (s : store) (ev : env) (lease : JobLease) : res RuntimeJob :=
  let stale := RuntimeConflict "stale_fencing_token" in
  let! ticket_id := (match l_ticket_id lease with
                     | Some t => Some t
                     | None => r_ticket_id <$> get_where (runs s) (l_run_id lease) (fun r => r_tenant_id r ==? l_tenant_id lease)
                     end) else stale in
  let! ticket := get_where (tickets s) ticket_id (fun t => t_tenant_id t ==? l_tenant_id lease) else stale in
  let! job := get_where (jobs s) (l_job_id lease) (fun j =>
                (j_tenant_id j ==? l_tenant_id lease) && (j_run_id j ==? l_run_id lease) && (j_ticket_id j ==? ticket_id))
    else stale in
  let! run := get_where (runs s) (l_run_id lease) (fun r => r_tenant_id r ==? j_tenant_id job) else stale in
  let! expires := j_lease_expires_at job else stale in
  raise stale when
    (j_status job !=? "leased") || (j_lease_owner job !=? Some (l_owner lease))
    || (j_fencing_token job !=? l_fencing_token lease) || (expires <=? database_now ev)
    || (r_active_job_id run !=? Some (l_job_id lease))
    || (r_active_fencing_token run !=? Some (l_fencing_token lease))
    || match l_dispatch_sequence lease with Some d => j_dispatch_sequence job !=? d | None => false end ;;
  Ok job.

(** [RuntimeJobRepository.heartbeat] *)
Definition heartbeat (s : store) (ev : env) (lease : JobLease) (lease_seconds : Z) : res store :=
  let? job := assert_fence s ev lease in
  let now := database_now ev in
  Ok (put_job (job |> set_j_heartbeat_at (Some now) |> set_j_lease_expires_at (Some (now + lease_seconds * second))) s).

(** [RuntimeJobRepository.refresh_lease] *)
Definition refresh_lease (s : store) (ev : env) (lease : JobLease) : res JobLease :=
  let? job := assert_fence s ev lease in
  let! current_expiry := j_lease_expires_at job else RuntimeConflict "stale_fencing_token" in
  Ok (lease_of job (l_owner lease) current_expiry).

Definition release (job : RuntimeJob) : RuntimeJob :=
  job |> set_j_lease_owner None |> set_j_lease_expires_at None |> set_j_heartbeat_at None.

(** [RuntimeJobRepository.finalize_control] *)
Definition finalize_control (s : store) (lease : JobLease) (status outcome : string) : res store :=
  let! job := jobs s !! l_job_id lease else RuntimeConflict "stale_fencing_token" in
  let job := transition_runtime_job_status job status in
  let job := job |> set_j_outcome (Some outcome)
                 |> set_j_last_error (if status ==? "dead" then Some (py_take 128 outcome) else None) in
  Ok (put_job (release job) s).

(** [RuntimeJobRepository.complete] *)
Definition complete (s : store) (ev : env) (lease : JobLease) (outcome : string) : res store :=
  let? job := assert_fence s ev lease in
  let! run := runs s !! l_run_id lease else RuntimeConflict "run_not_found" in
  let job := transition_runtime_job_status job "succeeded" |> set_j_outcome (Some outcome) in
  let run := run |> set_r_active_job_id None |> set_r_active_fencing_token None in
  let run := if outcome ==? "interrupted" then set_r_status "interrupted" run
             else if outcome in? ["completed"; "rejected"; "manual_takeover"]
             then run |> set_r_status "completed" |> set_r_completed_at (Some (clock ev))
             else run in
  let run := set_r_status_version (r_status_version run + 1) run in
  Ok (s |> put_job (release job) |> put_run run).

Section failing.
Context `{PyRuntime}.

(** [RuntimeJobRepository.fail] *)
Definition fail (s : store) (ev : env) (ids : fresh_ids) (lease : JobLease) (error_code : string)
    (max_attempts max_age_seconds : Z) : res (string * store) :=
  let? job := assert_fence s ev lease in
  let now := database_now ev in
  let! run := runs s !! l_run_id lease else RuntimeConflict "run_not_found" in
  let? decision := retry_decision (j_id job) (j_attempt job) (j_created_at job) now max_attempts max_age_seconds in
  let job := transition_runtime_job_status job (d_next_status decision)
             |> set_j_last_error (Some (py_take 128 error_code)) in
  let job := set_j_available_at (d_available_at decision) (release job) in
  let run := run |> set_r_active_job_id None |> set_r_active_fencing_token None
                 |> set_r_status (if d_terminal decision then "failed" else "queued")
                 |> set_r_error_code (if d_terminal decision then Some (py_take 128 error_code) else None)
                 |> set_r_status_version (r_status_version run + 1) in
  let s := s |> put_job job |> put_run run in
  let? s := if d_terminal decision then converge_dead_aggregates s ev ids job (l_run_id lease) error_code else Ok s in
  Ok (j_status job, s).

(** [RuntimeJobRepository.terminal_fail] *)
Definition terminal_fail (s : store) (ev : env) (ids : fresh_ids) (lease : JobLease) (error_code : string)
    : res (string * store) :=
  let? job := assert_fence s ev lease in
  let! run := runs s !! l_run_id lease else RuntimeConflict "run_not_found" in
  let job := release (transition_runtime_job_status job "dead" |> set_j_last_error (Some (py_take 128 error_code))) in
  let s := put_job job s in
  let? s := converge_dead_aggregates s ev ids job (l_run_id lease) error_code in
  let! run := runs s !! l_run_id lease else RuntimeConflict "run_not_found" in
  let s := put_run (set_r_status_version (r_status_version run + 1) run) s in
  Ok (j_status job, s).
End failing.

(** ** The reconciler's writes to a lane (services/runtime_maintenance.py) *)
Definition job_leb (a b : RuntimeJob) : bool :=
  (j_dispatch_sequence a <? j_dispatch_sequence b)
  || ((j_dispatch_sequence a =? j_dispatch_sequence b) && str_leb (j_id a) (j_id b)).
Definition head_job (s : store) (tenant_id ticket_id : string) : option RuntimeJob :=
  first_by job_leb (select_where (fun j => lane_job tenant_id ticket_id j && active_status j) (jobs s)).
(** An expired lease at the head of its lane becomes claimable again. *)
Definition requeue_expired (s : store) (now : Z) (job_id : string) : store :=
  match jobs s !! job_id with
  | Some job =>
      if (j_status job ==? "leased") && match j_lease_expires_at job with Some e => e <? now | None => false end
         && ((j_id <$> head_job s (j_tenant_id job) (j_ticket_id job)) ==? Some job_id)
      then put_job (release (transition_runtime_job_status job "queued")) s
      else s
  | None => s
  end.

(** ** Lanes *)
Definition lanes (s : store) : gmap string (string * string * string * string * Z) := lane_fields <$> tickets s.
Definition same_lane (a b : RuntimeJob) : Prop := j_tenant_id a = j_tenant_id b /\ j_ticket_id a = j_ticket_id b.
Definition leased (j : RuntimeJob) : Prop := j_status j = "leased".
Definition active (j : RuntimeJob) : Prop := active_status j = true.

(** The dispatch discipline of a job table under the ticket counters. *)
Record lane_inv (js : gmap string RuntimeJob) (ls : gmap string (string * string * string * string * Z)) : Prop := {
  li_head : forall i k a b, js !! i = Some a -> js !! k = Some b -> same_lane a b -> leased a -> active b ->
              j_dispatch_sequence a <= j_dispatch_sequence b;
  li_unique : forall i k a b, js !! i = Some a -> js !! k = Some b -> same_lane a b ->
              j_dispatch_sequence a = j_dispatch_sequence b -> i = k;
  li_counter : forall i a, js !! i = Some a -> exists id life mode c,
              ls !! j_ticket_id a = Some (id, j_tenant_id a, life, mode, c) /\ j_dispatch_sequence a <= c;
}.
Definition lane_ok (s : store) : Prop := keyed s /\ lane_inv (jobs s) (lanes s).

(** What one operation may do: move one job inside its lane, then enqueue at
    most one new job with the next number of some ticket. *)
Record job_moves (js : gmap string RuntimeJob) (j0 j' : RuntimeJob) : Prop := {
  jm_id : j_id j' = j_id j0;
  jm_lane : same_lane j' j0;
  jm_sequence : j_dispatch_sequence j' = j_dispatch_sequence j0;
  jm_run : j_run_id j' = j_run_id j0;
  jm_token : j_fencing_token j0 <= j_fencing_token j';
  jm_active : active j' -> active j0;
  jm_leased : leased j' -> leased j0 \/
     forall k b, js !! k = Some b -> same_lane j0 b -> active b -> j_dispatch_sequence j0 <= j_dispatch_sequence b;
}.
Inductive enqueues (js : gmap string RuntimeJob) (ls : gmap string (string * string * string * string * Z))
    : gmap string RuntimeJob -> gmap string (string * string * string * string * Z) -> Prop :=
| enq_none : enqueues js ls js ls
| enq_job tid id tn life mode c j :
    ls !! tid = Some (id, tn, life, mode, c) -> js !! j_id j = None -> j_status j = "queued" ->
    j_tenant_id j = tn -> j_ticket_id j = tid -> j_dispatch_sequence j = c + 1 ->
    enqueues js ls (<[j_id j := j]> js) (<[tid := (id, tn, life, mode, c + 1)]> ls).
(** Tickets stay, with their tenant and dispatch counter. *)
Definition lanes_grow (ls ls' : gmap string (string * string * string * string * Z)) : Prop :=
  forall tid id tn life mode c, ls !! tid = Some (id, tn, life, mode, c) ->
    exists id' life' mode', ls' !! tid = Some (id', tn, life', mode', c).
Inductive lane_effect (s s' : store) : Prop :=
| le_other : jobs s' = jobs s -> lanes_grow (lanes s) (lanes s') -> lane_effect s s'
| le_quiet : enqueues (jobs s) (lanes s) (jobs s') (lanes s') -> lane_effect s s'
| le_move i j0 j' : jobs s !! i = Some j0 -> job_moves (jobs s) j0 j' ->
    enqueues (<[i := j']> (jobs s)) (lanes s) (jobs s') (lanes s') -> lane_effect s s'.

Lemma queued_not_leased j : j_status j = "queued" -> ~ leased j.
Proof. unfold leased. congruence. Qed.
Lemma leased_active j : leased j -> active j.
Proof. unfold leased, active, active_status. intros ->. done. Qed.

Lemma move_inv js ls i j0 j' :
  lane_inv js ls -> js !! i = Some j0 -> job_moves js j0 j' -> lane_inv (<[i := j']> js) ls.
Proof.
  intros [Hh Hu Hc] Hi [_ [Et Ek] Es _ _ Ha Hl]. split.
  - intros x y a b. rewrite !lookup_insert_Some. unfold same_lane in *.
    intros [[<- <-]|[_ Hx]] [[<- <-]|[_ Hy]] [S1 S2] La Ab; [lia| | |eapply Hh; eauto].
    + rewrite Es. destruct (Hl La) as [L0|Hmin]; [eapply Hh|eapply Hmin]; eauto; split; congruence.
    + rewrite Es. eapply Hh; eauto. split; congruence.
  - intros x y a b. rewrite !lookup_insert_Some. unfold same_lane in *.
    intros [[<- <-]|[_ Hx]] [[<- <-]|[_ Hy]] [S1 S2] E; [done| | |eapply Hu; eauto]; eapply Hu; eauto;
      first [split; congruence|congruence].
  - intros x a. rewrite lookup_insert_Some. intros [[<- <-]|[_ Hx]]; [|eauto]. rewrite Et, Ek, Es. eauto.
Qed.
Lemma enqueue_inv js ls js' ls' : lane_inv js ls -> enqueues js ls js' ls' -> lane_inv js' ls'.
Proof.
  intros [Hh Hu Hc] [|tid id tn life mode c j Ht Hn Hq <- <- Es]; [done|].
  assert (forall k b, js !! k = Some b -> same_lane j b -> j_dispatch_sequence b < j_dispatch_sequence j) as Hlt.
  { intros k b Hb [E1 E2]. destruct (Hc _ _ Hb) as (? & ? & ? & ? & E & ?). rewrite <- E2, Ht in E. simplify_eq. lia. }
  split.
  - intros x y a b. rewrite !lookup_insert_Some. intros [[<- <-]|[_ Hx]] [[<- <-]|[_ Hy]] S La Ab; [lia| | |by eapply Hh].
    + by apply queued_not_leased in La.
    + apply Z.lt_le_incl, (Hlt _ _ Hx). by destruct S.
  - intros x y a b. rewrite !lookup_insert_Some. intros [[<- <-]|[_ Hx]] [[<- <-]|[_ Hy]] S E; [done| | |by eapply Hu].
    + specialize (Hlt _ _ Hy S). lia.
    + destruct S. specialize (Hlt _ _ Hx). unfold same_lane in Hlt. naive_solver lia.
  - intros x a. rewrite lookup_insert_Some. intros [[<- <-]|[_ Hx]].
    + exists id, life, mode, (c + 1). rewrite lookup_insert_eq. split; [done|lia].
    + destruct (Hc _ _ Hx) as (i' & l' & m' & c' & E & Hle). destruct (decide (j_ticket_id a = j_ticket_id j)) as [Eq|Ne].
      * rewrite Eq in *. rewrite Ht in E. simplify_eq. rewrite lookup_insert_eq. eexists i', l', m', (c' + 1). split; [f_equal; congruence|lia].
      * rewrite lookup_insert_ne by done. eauto 10.
Qed.
Lemma effect_inv s s' : lane_inv (jobs s) (lanes s) -> lane_effect s s' -> lane_inv (jobs s') (lanes s').
Proof.
  intros Hi [Ej Hg|He|i j0 j' Hj Hm He]; [|exact (enqueue_inv _ _ _ _ Hi He)|].
  { destruct Hi as [Hh Hu Hc]. rewrite Ej. split; [done..|]. intros i a Ha.
    destruct (Hc _ _ Ha) as (id & life & mode & c & E & Hle). destruct (Hg _ _ _ _ _ _ E) as (id' & life' & mode' & E').
    exists id', life', mode', c. done. }
  exact (enqueue_inv _ _ _ _ (move_inv _ _ _ _ _ Hi Hj Hm) He).
Qed.

(** No job disappears and no token goes back. *)
Definition tokens_grow (js js' : gmap string RuntimeJob) : Prop :=
  forall i j, js !! i = Some j -> exists j', js' !! i = Some j' /\ j_fencing_token j <= j_fencing_token j'.
Lemma enqueue_tokens js ls js' ls' : enqueues js ls js' ls' -> tokens_grow js js'.
Proof.
  intros [|tid id tn life mode c j _ Hn _ _ _ _] i x Hx; [by exists x|]. exists x.
  rewrite lookup_insert_ne by congruence. done.
Qed.
Lemma effect_tokens s s' : lane_effect s s' -> tokens_grow (jobs s) (jobs s').
Proof.
  intros [Ej _|He|i j0 j' Hj Hm He]; [rewrite Ej; intros k x Hx; by exists x|by eapply enqueue_tokens|]. intros k x Hx. apply enqueue_tokens in He.
  destruct (decide (k = i)) as [->|Ne].
  - destruct (He i j') as (y & Hy & Hle); [apply lookup_insert_eq|]. exists y. split; [done|].
    pose proof (jm_token _ _ _ Hm). simplify_eq. lia.
  - apply He. by rewrite lookup_insert_ne.
Qed.

(** ** Effects of the operations *)
(** Same jobs, same lanes, nothing announced. *)
Record quiet (s s' : store) : Prop := {
  q_jobs : jobs s' = jobs s;
  q_outbox : outbox s' = outbox s;
  q_lanes : lanes s' = lanes s;
  q_keyed : keyed s -> keyed s';
}.
Lemma quiet_refl s : quiet s s.
Proof. by split. Qed.
Lemma quiet_trans s1 s2 s3 : quiet s1 s2 -> quiet s2 s3 -> quiet s1 s3.
Proof. intros [J1 O1 L1 K1] [J2 O2 L2 K2]. split; [congruence..|auto]. Qed.
Lemma quiet_effect s s' : quiet s s' -> lane_effect s s'.
Proof. intros [E1 _ E2 _]. apply le_quiet. rewrite E1, E2. constructor. Qed.

Lemma quiet_put_ticket s t t' :
  tickets s !! t_id t' = Some t -> lane_fields t' = lane_fields t -> quiet s (put_ticket t' s).
Proof. intros Ht E. split; [done|done|by eapply lane_fields_put|auto with keyed]. Qed.

Lemma fence_ok s ev l job :
  assert_fence s ev l = Ok job ->
  jobs s !! l_job_id l = Some job /\ leased job /\ j_lease_owner job = Some (l_owner l) /\
  j_fencing_token job = l_fencing_token l /\ j_tenant_id job = l_tenant_id l /\ j_run_id job = l_run_id l /\
  (forall t, l_ticket_id l = Some t -> j_ticket_id job = t) /\
  (exists e, j_lease_expires_at job = Some e /\ database_now ev < e) /\
  (exists run, runs s !! l_run_id l = Some run /\ r_tenant_id run = j_tenant_id job /\
     r_active_job_id run = Some (l_job_id l) /\ r_active_fencing_token run = Some (l_fencing_token l)).
Proof.
  unfold assert_fence. intros Hf.
  destruct (match l_ticket_id l with Some t => Some t | None => _ end) as [tid|] eqn:Etid; [|done].
  destruct (get_where (tickets s) _ _) as [t|] eqn:Et; [|done].
  destruct (get_where (jobs s) _ _) as [j|] eqn:Ej; [|done].
  destruct (get_where (runs s) _ _) as [r|] eqn:Er in Hf; [|done].
  destruct (j_lease_expires_at j) as [e|] eqn:Ee; [|done]. steps_ok Hf. injection Hf as <-.
  apply get_where_some in Ej as [Ej Hj], Er as [Er Hr]. to_prop. destruct_and! Hguard. destruct_and! Hj. subst.
  split_and!; try done.
  - intros t0 Ht0. rewrite Ht0 in Etid. congruence.
  - eauto.
  - eauto 10.
Qed.

(** A transition out of [leased] that keeps identity, sequence and token. *)
Definition same_identity (j j' : RuntimeJob) : Prop :=
  j_id j' = j_id j /\ j_tenant_id j' = j_tenant_id j /\ j_ticket_id j' = j_ticket_id j /\
  j_dispatch_sequence j' = j_dispatch_sequence j /\ j_fencing_token j' = j_fencing_token j /\ j_run_id j' = j_run_id j.
Lemma leased_moves js j j' : leased j -> same_identity j j' -> job_moves js j j'.
Proof.
  intros Hl (E1 & E2 & E3 & E4 & E5 & E6). split; [done|done|done|done|lia| |by left]. intros _. by apply leased_active.
Qed.
Lemma inactive_moves js j j' : same_identity j j' -> active_status j' = false -> job_moves js j j'.
Proof.
  intros (E1 & E2 & E3 & E4 & E5 & E6) Ha. split; [done|done|done|done|lia|unfold active; congruence|].
  intros Hl%leased_active. unfold active in Hl. congruence.
Qed.
Lemma transition_identity j st : same_identity j (transition_runtime_job_status j st).
Proof. unfold transition_runtime_job_status. by case_match. Qed.
Lemma transition_status j st : j_status (transition_runtime_job_status j st) = st.
Proof. unfold transition_runtime_job_status. by case_match; to_prop. Qed.

Lemma put_moves s s' j j' :
  keyed s -> jobs s !! j_id j = Some j -> job_moves (jobs s) j j' ->
  jobs s' = <[j_id j' := j']> (jobs s) -> lanes s' = lanes s -> lane_effect s s'.
Proof.
  intros Hk Hj Hm E1 E2. eapply le_move; [exact Hj|exact Hm|]. rewrite E1, E2, (jm_id _ _ _ Hm). constructor.
Qed.

Section effects.
Context `{PyRuntime}.

Lemma fail_turn_quiet s run : quiet s (fail_turn s run).
Proof.
  unfold fail_turn. repeat case_match; try apply quiet_refl. split; [done..|auto with keyed].
Qed.
Lemma publish_quiet s ev ids job run t t0 cat s' :
  tickets s !! t_id t = Some t0 -> lane_fields t = lane_fields t0 ->
  publish_failure s ev ids job run t cat = Ok s' -> quiet s s'.
Proof.
  intros Ht El Hp. unfold publish_failure in Hp. case_match; [injection Hp as <-; by eapply quiet_put_ticket|].
  steps_ok Hp. injection Hp as <-.
  assert (forall m x, t_id x = t_id t -> lane_fields x = lane_fields t -> quiet s (put_ticket x (put_message m s))) as Hq.
  { intros m x Ei Ex. eapply quiet_trans with (put_message m s); [split; [done..|auto with keyed]|].
    eapply quiet_put_ticket; [rewrite Ei; exact Ht|congruence]. }
  apply Hq; unfold advance_conversation_activity; case_match; reflexivity.
Qed.
Lemma set_approvals_quiet s f :
  (keyed s -> forall i r, f !! i = Some r -> a_id r = i) -> quiet s (set_approvals f s).
Proof. intros Hf. split; [done..|]. intros Hk. specialize (Hf Hk). destruct Hk. by split. Qed.
Lemma transition_quiet s a to exp ver dec r a' s' : transition s a to exp ver dec = Ok (r, a', s') -> quiet s s'.
Proof.
  intros [(_ & _ & _ & ->)|(_ & _ & _ & _ & _ & _ & Hf)]%transition_ok; [apply quiet_refl|].
  apply flush_approval_ok in Hf as (row & E & _ & _ & ->). apply set_approvals_quiet. intros Hk i x.
  intros [[<- <-]|[_ Hx]]%lookup_insert_Some; [|by eapply keyed_approvals].
  pose proof (keyed_approvals _ Hk _ _ E). unfold decide_assign. by destruct dec.
Qed.
Lemma fail_approval_quiet s job s' : fail_approval s job = Ok s' -> quiet s s'.
Proof.
  unfold fail_approval. intros Hf. destruct (j_approval_id job) as [aid|]; [|simplify_eq; apply quiet_refl].
  destruct (is_empty_str aid); [simplify_eq; apply quiet_refl|].
  destruct (approvals s !! aid) as [a|]; [|simplify_eq; apply quiet_refl].
  destruct (_ in? _); [simplify_eq; apply quiet_refl|]. steps_ok Hf. destruct a0 as [[r a'] s1].
  apply transition_quiet in Hstep. eapply quiet_trans; [exact Hstep|]. clear Hstep.
  repeat case_match; simplify_eq; try apply quiet_refl. split; [done..|auto with keyed].
Qed.
Lemma converge_ticket_quiet s tid d st s' : keyed s -> converge_ticket s tid d = Ok (st, s') -> quiet s s'.
Proof.
  intros Hk Hc. destruct (converge_ticket_ok _ _ _ _ _ Hk Hc) as
    (t & t' & Et & Es & Ei & En & El & Em & Ed & _ & _ & _ & Hs').
  assert (s' = put_ticket t' s) as ->.
  { rewrite Hs', Es. unfold put_ticket. by rewrite Ei, (keyed_tickets _ Hk _ _ Et). }
  eapply quiet_put_ticket; [by rewrite Ei, (keyed_tickets _ Hk _ _ Et)|]. unfold lane_fields. congruence.
Qed.

Lemma activate_enqueues s ev ids tid tr r s' :
  keyed s -> activate_next_turn s ev ids tid tr = Ok (r, s') ->
  enqueues (jobs s) (lanes s) (jobs s') (lanes s') /\ keyed s'.
Proof.
  intros Hk Ha. destruct r as [[rid jid]|]; [|apply activate_none in Ha as ->; split; [constructor|done]].
  destruct (activate_ok _ _ _ _ _ _ _ _ Hk Ha) as (_ & t & u & [Ht _ _ _ _ Hf Hj Hl _ _ _ Hk']).
  split; [|done]. unfold lanes. rewrite Hj, Hl.
  eapply (enq_job _ _ tid _ _ _ _ _ (new_job _ _ _ _ _ _ _ _)); [|done..]. by rewrite lookup_fmap, Ht.
Qed.

(** A burial is quiet until the lane is handed on. *)
Lemma dead_steps s ev ids job rid reason s' :
  keyed s -> converge_dead_aggregates s ev ids job rid reason = Ok s' ->
  exists s4, quiet s s4 /\
    (s' = s4 \/ exists tid tr x s5 st, activate_next_turn s4 ev ids tid tr = Ok (x, s5) /\ converge_ticket s5 tid "failed" = Ok (st, s')).
Proof.
  intros Hk Hc. unfold converge_dead_aggregates in Hc. destruct (runs s !! rid) as [run0|]; [|done].
  set (run := _ |> set_r_completed_at _) in Hc. set (s1 := fail_turn (put_run run s) run) in Hc.
  assert (quiet s s1) as Q1.
  { eapply quiet_trans with (put_run run s); [split; [done..|auto with keyed]|apply fail_turn_quiet]. }
  clearbody run s1. steps_ok Hc. rename a into s2, a0 into s3.
  assert (quiet s1 s2) as Q2.
  { destruct (tickets s1 !! r_ticket_id run) as [t|] eqn:Et; [|simplify_eq; apply quiet_refl].
    destruct (_ !=? _); [|simplify_eq; apply quiet_refl].
    eapply (publish_quiet _ _ _ _ _ _ t); [| |exact Hstep]; simpl; [|reflexivity].
    by rewrite (keyed_tickets _ (q_keyed _ _ Q1 Hk) _ _ Et). }
  apply fail_approval_quiet in Hstep0 as Q3.
  set (s4 := set_markers _ s3) in Hc.
  assert (quiet s s4) as Q.
  { eapply quiet_trans; [exact Q1|]. eapply quiet_trans; [exact Q2|]. eapply quiet_trans; [exact Q3|].
    split; [done..|]. by intros []. }
  clearbody s4. exists s4. split; [exact Q|].
  destruct (tickets s4 !! r_ticket_id run) as [t|]; [|simplify_eq; by left].
  destruct (_ && _); [|simplify_eq; by left]. steps_ok Hc. destruct a as [x s5], a0 as [st s6]. simplify_eq/=. right. eauto 10.
Qed.
Lemma dead_enqueues s ev ids job rid reason s' :
  keyed s -> converge_dead_aggregates s ev ids job rid reason = Ok s' ->
  enqueues (jobs s) (lanes s) (jobs s') (lanes s') /\ keyed s'.
Proof.
  intros Hk Hc. destruct (dead_steps _ _ _ _ _ _ _ Hk Hc) as (s4 & Q & Hs). pose proof (q_keyed _ _ Q Hk) as K4.
  rewrite <- (q_jobs _ _ Q), <- (q_lanes _ _ Q). destruct Hs as [->|(tid & tr & x & s5 & st & Ha & Ht)]; [split; [constructor|done]|].
  destruct (activate_enqueues _ _ _ _ _ _ _ K4 Ha) as [He K5].
  pose proof (converge_ticket_quiet _ _ _ _ _ K5 Ht) as [E1 _ E2 K6]. rewrite E1, E2. auto.
Qed.

Lemma head_sequence_min s tn tk d :
  head_sequence s tn tk = Some d ->
  forall k b, jobs s !! k = Some b -> j_tenant_id b = tn -> j_ticket_id b = tk -> active b -> d <= j_dispatch_sequence b.
Proof.
  unfold head_sequence. intros Hh k b Hb E1 E2 Ha. apply first_by_some in Hh as [_ Hmin];
    [|intros x y; rewrite Z.leb_gt, Z.leb_le; lia|intros x y z; rewrite !Z.leb_le; lia].
  apply Z.leb_le, Hmin, list_elem_of_fmap. exists b. split; [done|]. apply select_where_elem. split; [eauto|].
  unfold lane_job. by rewrite E1, E2, !eqb_refl.
Qed.

(** What the claim writes into the job. *)
Record leased_from (job job' : RuntimeJob) (owner : string) (expires : Z) : Prop := {
  lj_status : leased job';
  lj_id : j_id job' = j_id job;
  lj_lane : same_lane job' job;
  lj_sequence : j_dispatch_sequence job' = j_dispatch_sequence job;
  lj_attempt : j_attempt job' = j_attempt job + 1;
  lj_token : j_fencing_token job' = j_fencing_token job + 1;
  lj_owner : j_lease_owner job' = Some owner;
  lj_expires : j_lease_expires_at job' = Some expires;
  lj_run : j_run_id job' = j_run_id job;
}.
Lemma lease_job_spec job owner now secs : leased_from job (lease_job job owner now secs) owner (now + secs * second).
Proof.
  unfold lease_job, transition_runtime_job_status. destruct (j_status job ==? "leased") eqn:E; split; try done.
  unfold leased. simpl. by to_prop.
Qed.
Lemma start_turn_quiet s run kind : quiet s (start_turn s run kind).
Proof. unfold start_turn. repeat case_match; try apply quiet_refl. split; [done..|auto with keyed]. Qed.
Lemma start_turn_runs s run kind : runs (start_turn s run kind) = runs s.
Proof. unfold start_turn. by repeat case_match. Qed.
Lemma start_turn_tickets s run kind : tickets (start_turn s run kind) = tickets s.
Proof. unfold start_turn. by repeat case_match. Qed.

(** What a successful claim found and what it leaves. *)
Record claimed (s s' : store) (ev : env) (jid owner : string) (secs : Z) (lease : JobLease) (job : RuntimeJob) : Prop := {
  cl_job : jobs s !! jid = Some job;
  cl_jobs : jobs s' = <[jid := lease_job job owner (database_now ev) secs]> (jobs s);
  cl_lanes : lanes s' = lanes s;
  cl_keyed : keyed s';
  cl_status : j_status job ∈ ["queued"; "retry_wait"];
  cl_due : j_available_at job <= database_now ev;
  cl_first : forall k b, jobs s !! k = Some b -> same_lane job b -> active b ->
               j_dispatch_sequence job <= j_dispatch_sequence b;
  cl_free : forall k b, jobs s !! k = Some b -> same_lane job b -> ~ leased b;
  cl_lease : lease = lease_of (lease_job job owner (database_now ev) secs) owner (database_now ev + secs * second);
  cl_run : exists run', runs s' !! j_run_id job = Some run' /\ r_tenant_id run' = j_tenant_id job /\
             r_active_job_id run' = Some jid /\ r_active_fencing_token run' = Some (j_fencing_token job + 1);
  cl_approved : j_kind job = "approval_resume" -> exists aid a, j_approval_id job = Some aid /\
             approvals s !! aid = Some a /\ a_status a = "approved";
  cl_ticket : exists t, tickets s' !! j_ticket_id job = Some t /\ t_tenant_id t = j_tenant_id job /\
             t_lifecycle t = "active" /\ t_automation_mode t <> "human_queue";
}.
Lemma claim_ok s ev jid owner secs lease s' :
  keyed s -> claim s ev jid owner secs = Ok (lease, s') -> exists job, claimed s s' ev jid owner secs lease job.
Proof.
  intros Hk Hc. unfold claim in Hc. destruct (jobs s !! jid) as [job|] eqn:Ej; [|done].
  destruct (get_where (tickets s) _ _) as [t|] eqn:Et; [|done]. steps_ok Hc.
  destruct (get_where (runs s) _ _) as [run|] eqn:Er in Hc; [|done]. steps_ok Hc.
  apply get_where_some in Et as [Et Ht], Er as [Er Hr]. pose proof (keyed_jobs _ Hk _ _ Ej) as Eid.
  pose proof (keyed_tickets _ Hk _ _ Et) as Etid. pose proof (keyed_runs _ Hk _ _ Er) as Erid.
  pose proof (lease_job_spec job owner (database_now ev) secs) as Hlj.
  set (job' := lease_job _ _ _ _) in *.
  set (run' := set_r_status_version _ _) in *.
  assert (r_id run' = r_id run /\ r_tenant_id run' = r_tenant_id run /\ r_active_job_id run' = Some (j_id job') /\
          r_active_fencing_token run' = Some (j_fencing_token job')) as (R1 & R2 & R3 & R4) by done.
  clearbody run'. set (s1 := start_turn _ _ _) in *.
  assert (quiet (put_run run' (put_job job' s)) s1) as [Q1 _ Q2 Q3] by apply start_turn_quiet.
  assert (runs s1 = <[r_id run' := run']> (runs s)) as Hruns by (etransitivity; [apply start_turn_runs|done]).
  assert (tickets s1 = tickets s) as Htk by (etransitivity; [apply start_turn_tickets|done]).
  clearbody s1. injection Hc as <- Es'.
  assert (jobs s' = jobs s1 /\ lanes s' = lanes s1 /\ runs s' = runs s1 /\ (keyed s1 -> keyed s') /\
          exists t', tickets s' !! j_ticket_id job = Some t' /\ lane_fields t' = lane_fields t) as (F1 & F2 & F3 & F4 & t' & F5 & F6).
  { destruct (t_status t ==? "queued"); subst s'.
    - split_and!; [done| |done|auto with keyed|].
      + eapply (lane_fields_put _ _ t); [|reflexivity]. simpl. by rewrite Htk, Etid.
      + eexists. simpl. rewrite Etid, lookup_insert_eq. done.
    - split_and!; [done..|]. exists t. by rewrite Htk. }
  exists job. clear Es' Hguard7. to_prop. destruct Hguard as [Hlife Hmode]. rewrite exists_where_false in Hguard2.
  injection F6 as G1 G2 G3 G4 G5.
  split.
  - exact Ej.
  - rewrite F1, Q1. cbn [jobs put_run put_job set_runs set_jobs]. rewrite (lj_id _ _ _ _ Hlj), Eid. reflexivity.
  - rewrite F2, Q2. reflexivity.
  - auto 10 with keyed.
  - exact Hguard0.
  - lia.
  - intros k b Hb [E1 E2]. by apply (head_sequence_min _ _ _ _ Hguard1 k).
  - intros k b Hb [E1 E2] Hl. specialize (Hguard2 _ _ Hb). unfold lane_job in Hguard2.
    by rewrite E1, E2, !eqb_refl, Hl in Hguard2.
  - reflexivity.
  - exists run'. rewrite F3, Hruns, R1, Erid, lookup_insert_eq. split_and!; [done|congruence| |].
    + by rewrite R3, (lj_id _ _ _ _ Hlj), Eid.
    + by rewrite R4, (lj_token _ _ _ _ Hlj).
  - intros Ek. destruct Hguard5 as [?|Ha]; [done|]. destruct (j_approval_id job) as [aid|]; [|done].
    destruct (get_where (approvals s) aid _) as [x|] eqn:Ex; [|done]. apply get_where_some in Ex as [Ex _].
    exists aid, x. by to_prop.
  - exists t'. split_and!; congruence.
Qed.

Lemma claim_effect s ev jid owner secs lease s' :
  keyed s -> claim s ev jid owner secs = Ok (lease, s') -> lane_effect s s' /\ keyed s'.
Proof.
  intros Hk Hc. destruct (claim_ok _ _ _ _ _ _ _ Hk Hc) as (job & C). split; [|exact (cl_keyed _ _ _ _ _ _ _ _ C)].
  pose proof (lease_job_spec job owner (database_now ev) secs) as L. set (job' := lease_job _ _ _ _) in L.
  assert (job_moves (jobs s) job job') as Hm.
  { split; [apply L|apply L|apply L|apply L| | |].
    - rewrite (lj_token _ _ _ _ L). lia.
    - intros _. unfold active, active_status. pose proof (cl_status _ _ _ _ _ _ _ _ C) as Hs. apply mem_true.
      rewrite !elem_of_cons, elem_of_nil in *. tauto.
    - intros _. right. exact (cl_first _ _ _ _ _ _ _ _ C). }
  apply (le_move _ _ jid job job'); [exact (cl_job _ _ _ _ _ _ _ _ C)|exact Hm|].
  rewrite (cl_jobs _ _ _ _ _ _ _ _ C), (cl_lanes _ _ _ _ _ _ _ _ C). constructor.
Qed.

(** The fenced job keeps its key. *)
Lemma fence_key s ev l job : keyed s -> assert_fence s ev l = Ok job -> j_id job = l_job_id l.
Proof. intros Hk (Hj & _)%fence_ok. by apply (keyed_jobs _ Hk). Qed.

(** A fenced operation that writes one job of the same identity. *)
Lemma fenced_put s s' ev l job job' :
  keyed s -> assert_fence s ev l = Ok job -> same_identity job job' ->
  enqueues (<[l_job_id l := job']> (jobs s)) (lanes s) (jobs s') (lanes s') -> lane_effect s s'.
Proof.
  intros Hk Hf Hid He. pose proof (fence_ok _ _ _ _ Hf) as (Hj & Hl & _).
  eapply (le_move _ _ _ job job'); [exact Hj| |exact He]. by apply leased_moves.
Qed.

Lemma heartbeat_effect s ev l secs s' :
  keyed s -> heartbeat s ev l secs = Ok s' -> lane_effect s s' /\ keyed s'.
Proof.
  intros Hk Hh. unfold heartbeat in Hh. steps_ok Hh. injection Hh as <-. split; [|auto with keyed].
  eapply fenced_put; [exact Hk|exact Hstep| |unfold put_job; cbn; rewrite (fence_key _ _ _ _ Hk Hstep); constructor]. done.
Qed.
Lemma release_identity j st e :
  same_identity j (release (transition_runtime_job_status j st |> set_j_last_error e)).
Proof. unfold transition_runtime_job_status. by destruct (j_status j ==? st). Qed.
Lemma complete_effect s ev l out s' :
  keyed s -> complete s ev l out = Ok s' -> lane_effect s s' /\ keyed s'.
Proof.
  intros Hk Hh. unfold complete in Hh. steps_ok Hh. destruct (runs s !! l_run_id l) as [run|]; [|done].
  injection Hh as <-. split; [|auto with keyed].
  eapply (fenced_put _ _ _ _ a (release (transition_runtime_job_status a "succeeded" |> set_j_outcome (Some out))));
    [exact Hk|exact Hstep|unfold transition_runtime_job_status; by destruct (j_status a ==? _)|].
  cbn [jobs put_run set_runs put_job set_jobs].
  replace (j_id (release _)) with (l_job_id l); [constructor|].
  rewrite <- (fence_key _ _ _ _ Hk Hstep). unfold transition_runtime_job_status. by destruct (j_status a ==? _).
Qed.
Lemma finalize_effect s l status out s' :
  keyed s -> status ∈ ["succeeded"; "dead"] -> finalize_control s l status out = Ok s' -> lane_effect s s' /\ keyed s'.
Proof.
  intros Hk Hst Hf. unfold finalize_control in Hf. destruct (jobs s !! l_job_id l) as [job|] eqn:Ej; [|done].
  injection Hf as <-. split; [|auto with keyed].
  set (job' := release _). assert (same_identity job job' /\ j_status job' = status) as [Hid Hs].
  { subst job'. unfold transition_runtime_job_status. destruct (j_status job ==? status) eqn:E; [|done].
    split; [done|]. simpl. exact (proj1 (eqb_true _ _) E). }
  clearbody job'. eapply (le_move _ _ (l_job_id l) job job'); [exact Ej| |].
  - apply inactive_moves; [done|]. unfold active_status. rewrite Hs.
    rewrite !elem_of_cons, elem_of_nil in Hst. by destruct Hst as [->|[->|[]]].
  - cbn. destruct Hid as (-> & _). rewrite (keyed_jobs _ Hk _ _ Ej). constructor.
Qed.
Lemma create_effect s ev ids tn rid kind ap tk job s' :
  keyed s -> create s ev ids tn rid kind ap tk = Ok (job, s') -> lane_effect s s' /\ keyed s'.
Proof.
  intros Hk Hc. unfold create in Hc. steps_ok Hc.
  destruct (get_where (runs s) _ _) as [run|]; [|done]. steps_ok Hc.
  destruct (get_where (tickets s) _ _) as [t|] eqn:Et; [|done]. steps_ok Hc. injection Hc as <- <-.
  apply get_where_some in Et as [Et Ht]. rewrite eqb_true in Ht.
  apply insert_job_ok in Hstep as (-> & Hn & _). split; [|auto with keyed].
  apply le_quiet. pose proof (keyed_tickets _ Hk _ _ Et) as Eid. unfold lanes.
  cbn [jobs put_job set_jobs put_ticket set_tickets tickets set_t_next_dispatch_sequence t_id].
  rewrite Eid, fmap_insert.
  replace (lane_fields _) with (t_id t, tn, t_lifecycle t, t_automation_mode t, t_next_dispatch_sequence t + 1)
    by (unfold lane_fields; cbn; by rewrite Ht, Eid).
  eapply (enq_job _ _ (r_ticket_id run) (t_id t) tn _ _ _ (new_job _ _ _ _ _ _ _ _)); try done.
  rewrite lookup_fmap, Et. cbn. unfold lane_fields. by rewrite Ht.
Qed.

Lemma retry_status job_id a c now m g d :
  retry_decision job_id a c now m g = Ok d -> d_next_status d = if d_terminal d then "dead" else "retry_wait".
Proof. unfold retry_decision. intros Hd. steps_ok Hd. by injection Hd as <-. Qed.

Lemma fail_effect s ev ids l code m g st s' :
  keyed s -> fail s ev ids l code m g = Ok (st, s') -> lane_effect s s' /\ keyed s'.
Proof.
  intros Hk Hf. unfold fail in Hf. steps_ok Hf. destruct (runs s !! l_run_id l) as [run|]; [|done]. steps_ok Hf.
  set (job' := set_j_available_at _ _) in *. injection Hf as _ <-.
  assert (same_identity a job') as Hid.
  { subst job'. unfold transition_runtime_job_status. by destruct (j_status a ==? _). }
  clearbody job'. set (s1 := put_run _ (put_job job' s)) in *.
  assert (jobs s1 = <[l_job_id l := job']> (jobs s)) as E1.
  { subst s1. cbn. rewrite (proj1 Hid), (fence_key _ _ _ _ Hk Hstep). reflexivity. }
  assert (lanes s1 = lanes s) as E2 by reflexivity.
  assert (keyed s1) as K1 by (subst s1; auto with keyed). clearbody s1.
  assert (enqueues (jobs s1) (lanes s1) (jobs a1) (lanes a1) /\ keyed a1) as [He K].
  { destruct (d_terminal a0); [by eapply dead_enqueues|]. injection Hstep1 as <-. split; [constructor|done]. }
  rewrite E1, E2 in He. split; [|exact K]. by eapply fenced_put.
Qed.
Lemma terminal_fail_effect s ev ids l code st s' :
  keyed s -> terminal_fail s ev ids l code = Ok (st, s') -> lane_effect s s' /\ keyed s'.
Proof.
  intros Hk Hf. unfold terminal_fail in Hf. steps_ok Hf. destruct (runs s !! l_run_id l) as [run|]; [|done]. steps_ok Hf.
  pose proof (release_identity a "dead" (Some (py_take 128 code))) as Hid. set (job' := release _) in *. clearbody job'.
  destruct (runs a0 !! l_run_id l) as [run'|]; [|done]. injection Hf as _ <-.
  destruct (dead_enqueues _ _ _ _ _ _ _ (keyed_put_job _ job' Hk) Hstep0) as [He K].
  cbn [jobs put_job set_jobs] in He. rewrite (proj1 Hid), (fence_key _ _ _ _ Hk Hstep) in He.
  split; [|auto with keyed]. by eapply fenced_put.
Qed.
Lemma requeue_effect s now jid : keyed s -> lane_effect s (requeue_expired s now jid) /\ keyed (requeue_expired s now jid).
Proof.
  intros Hk. unfold requeue_expired. destruct (jobs s !! jid) as [job|] eqn:Ej; [|split; [apply quiet_effect, quiet_refl|done]].
  destruct (_ && _ && _) eqn:Eg; [|split; [apply quiet_effect, quiet_refl|done]].
  split; [|auto with keyed]. rewrite !andb_true_iff in Eg. destruct Eg as [[Hl _] _]. rewrite eqb_true in Hl.
  assert (same_identity job (release (transition_runtime_job_status job "queued"))) as Hid.
  { unfold transition_runtime_job_status. by destruct (j_status job ==? _). }
  eapply (le_move _ _ jid job); [exact Ej|by apply leased_moves|].
  cbn [jobs put_job set_jobs]. rewrite (proj1 Hid), (keyed_jobs _ Hk _ _ Ej). constructor.
Qed.

(** ** Interleavings

    One committed transaction: a job operation with any arguments and clocks,
    the reconciler's requeue, or a write of another service (a new ticket, a
    hand-over to a human, a message) that leaves the job table and the dispatch
    counters alone. *)
Inductive runtime_step (s : store) : store -> Prop :=
| rs_create ev ids tn rid kind ap tk job s' :
    create s ev ids tn rid kind ap tk = Ok (job, s') -> runtime_step s s'
| rs_claim ev jid owner secs lease s' : claim s ev jid owner secs = Ok (lease, s') -> runtime_step s s'
| rs_heartbeat ev l secs s' : heartbeat s ev l secs = Ok s' -> runtime_step s s'
| rs_complete ev l out s' : complete s ev l out = Ok s' -> runtime_step s s'
| rs_fail ev ids l code m g st s' : fail s ev ids l code m g = Ok (st, s') -> runtime_step s s'
| rs_terminal_fail ev ids l code st s' : terminal_fail s ev ids l code = Ok (st, s') -> runtime_step s s'
| rs_finalize l status out s' :
    status ∈ ["succeeded"; "dead"] -> finalize_control s l status out = Ok s' -> runtime_step s s'
| rs_activate ev ids tid tr r s' : activate_next_turn s ev ids tid tr = Ok (r, s') -> runtime_step s s'
| rs_requeue now jid : runtime_step s (requeue_expired s now jid)
| rs_other s' : jobs s' = jobs s -> lanes_grow (lanes s) (lanes s') -> keyed s' -> runtime_step s s'.

Lemma step_effect s s' : keyed s -> runtime_step s s' -> lane_effect s s' /\ keyed s'.
Proof.
  intros Hk Hs. destruct Hs as [ev ids tn rid kind ap tk job s' E|ev jid owner secs lease s' E|ev l secs s' E|ev l out s' E|
    ev ids l code m g st s' E|ev ids l code st s' E|l status out s' Hin E|ev ids tid tr r s' E|now jid|s' E1 E2 K].
  - by eapply create_effect.
  - by eapply claim_effect.
  - by eapply heartbeat_effect.
  - by eapply complete_effect.
  - by eapply fail_effect.
  - by eapply terminal_fail_effect.
  - by eapply finalize_effect.
  - destruct (activate_enqueues _ _ _ _ _ _ _ Hk E) as [He K]. split; [by apply le_quiet|done].
  - by apply requeue_effect.
  - split; [by apply le_other|done].
Qed.
Lemma steps_lane s s' : lane_ok s -> rtc runtime_step s s' -> lane_ok s'.
Proof.
  intros Hl Hr. induction Hr as [|x y z Hs _ IH]; [done|]. apply IH. destruct Hl as [Hk Hi].
  destruct (step_effect _ _ Hk Hs) as [He K]. split; [done|by eapply effect_inv].
Qed.
Lemma steps_tokens s s' : keyed s -> rtc runtime_step s s' -> tokens_grow (jobs s) (jobs s').
Proof.
  intros Hk Hr. induction Hr as [|x y z Hs _ IH]; [intros i j Hj; by exists j|].
  destruct (step_effect _ _ Hk Hs) as [He K]. specialize (IH K). intros i j Hj.
  destruct (effect_tokens _ _ He i j Hj) as (j1 & Hj1 & L1). destruct (IH i j1 Hj1) as (j2 & Hj2 & L2).
  exists j2. split; [done|lia].
Qed.
Lemma steps_keyed s s' : keyed s -> rtc runtime_step s s' -> keyed s'.
Proof. intros Hk Hr. induction Hr as [|x y z Hs _ IH]; [done|]. apply IH. by apply (step_effect x y). Qed.

Lemma lane_single_leased s i k a b :
  lane_ok s -> jobs s !! i = Some a -> jobs s !! k = Some b -> same_lane a b -> leased a -> leased b -> i = k.
Proof.
  intros [_ [Hh Hu _]] Ha Hb Hs La Lb. eapply Hu; [done|done|done|]. apply Z.le_antisymm.
  - eapply Hh; [exact Ha|exact Hb|done|done|by apply leased_active].
  - eapply Hh; [exact Hb|exact Ha|by destruct Hs|done|by apply leased_active].
Qed.
End effects.

(** ** Properties *)
Section properties.
Context `{PyRuntime}.

Lemma empty_lane : lane_ok empty_store.
Proof. split; [apply keyed_empty|]. split; simpl; intros *; by rewrite ?lookup_empty. Qed.

(** C11: a ticket is a FIFO lane with one lease.  In every store reachable from
    the empty one by any interleaving of job creation, claims, heartbeats,
    completions, retries, terminal failures, turn activations, requeues and
    other services' writes, a ticket has at most one leased job, that job is
    the oldest active one of the ticket, and no two jobs of a ticket share a
    dispatch number. *)
Theorem lane_discipline s i k a b :
  rtc runtime_step empty_store s -> jobs s !! i = Some a -> jobs s !! k = Some b -> same_lane a b ->
  (leased a -> leased b -> i = k) /\
  (leased a -> active b -> j_dispatch_sequence a <= j_dispatch_sequence b) /\
  (j_dispatch_sequence a = j_dispatch_sequence b -> i = k).
Proof.
  intros Hr Ha Hb Hs. pose proof (steps_lane _ _ empty_lane Hr) as Hl. split_and!.
  - by eapply lane_single_leased.
  - destruct Hl as [_ [Hh _ _]]. by eapply Hh.
  - destruct Hl as [_ [_ Hu _]]. by eapply Hu.
Qed.

Lemma fence_error s ev l e : assert_fence s ev l = Err e -> e = RuntimeConflict "stale_fencing_token".
Proof.
  unfold assert_fence. intros Hf. repeat (case_match; try (by injection Hf as <-)).
  all: unfold raise_if in Hf; case_match; [by injection Hf as <-|done].
Qed.
Lemma fence_stale s ev l j :
  jobs s !! l_job_id l = Some j -> l_fencing_token l < j_fencing_token j ->
  assert_fence s ev l = Err (RuntimeConflict "stale_fencing_token").
Proof.
  intros Hj Hlt. destruct (assert_fence s ev l) as [job|e] eqn:E; [|by rewrite (fence_error _ _ _ _ E)].
  apply fence_ok in E as (Hj' & _ & _ & Ht & _). rewrite Hj in Hj'. injection Hj' as <-. lia.
Qed.

(** C12: a superseded lease never works again.  Once a job was claimed a second
    time, the first lease is rejected as stale by the fence in every later
    store, whatever the clocks and whatever happened in between; tokens of
    successive claims strictly increase. *)
Theorem superseded_lease_rejected s0 s1 s2 s3 s4 ev1 ev2 ev jid o1 o2 n1 n2 l1 l2 :
  keyed s0 -> claim s0 ev1 jid o1 n1 = Ok (l1, s1) -> rtc runtime_step s1 s2 ->
  claim s2 ev2 jid o2 n2 = Ok (l2, s3) -> rtc runtime_step s3 s4 ->
  l_fencing_token l1 < l_fencing_token l2 /\
  assert_fence s4 ev l1 = Err (RuntimeConflict "stale_fencing_token").
Proof.
  intros K0 C1 R1 C2 R2.
  destruct (claim_ok _ _ _ _ _ _ _ K0 C1) as (j1 & D1). pose proof (cl_keyed _ _ _ _ _ _ _ _ D1) as K1.
  pose proof (steps_keyed _ _ K1 R1) as K2. destruct (claim_ok _ _ _ _ _ _ _ K2 C2) as (j2 & D2).
  pose proof (cl_keyed _ _ _ _ _ _ _ _ D2) as K3.
  pose proof (lease_job_spec j1 o1 (database_now ev1) n1) as L1.
  pose proof (lease_job_spec j2 o2 (database_now ev2) n2) as L2.
  pose proof (cl_lease _ _ _ _ _ _ _ _ D1) as E1. pose proof (cl_lease _ _ _ _ _ _ _ _ D2) as E2.
  pose proof (cl_jobs _ _ _ _ _ _ _ _ D1) as J1. pose proof (cl_jobs _ _ _ _ _ _ _ _ D2) as J2.
  set (k1 := lease_job j1 _ _ _) in *. set (k2 := lease_job j2 _ _ _) in *. clearbody k1 k2.
  destruct (steps_tokens _ _ K1 R1 jid k1) as (x & Hx & Lx); [rewrite J1; apply lookup_insert_eq|].
  rewrite (cl_job _ _ _ _ _ _ _ _ D2) in Hx. injection Hx as <-.
  destruct (steps_tokens _ _ K3 R2 jid k2) as (y & Hy & Ly); [rewrite J2; apply lookup_insert_eq|].
  pose proof (lj_token _ _ _ _ L2). assert (l_fencing_token l1 < j_fencing_token k2) as Hlt by (rewrite E1; simpl; lia).
  split; [rewrite E2; simpl; lia|]. apply (fence_stale _ _ _ y); [|lia].
  assert (l_job_id l1 = jid) as ->; [|done].
  rewrite E1. simpl. rewrite (lj_id _ _ _ _ L1). exact (keyed_jobs _ K0 _ _ (cl_job _ _ _ _ _ _ _ _ D1)).
Qed.

(** The fence excludes.  In a reachable store, two leases on the same
    ticket that both pass the fence (at any two instants) hold the same job
    with the same owner and the same fencing token: no two workers can act on
    a ticket at once. *)
Theorem fence_mutual_exclusion s ev ev' l l' j j' :
  rtc runtime_step empty_store s -> assert_fence s ev l = Ok j -> assert_fence s ev' l' = Ok j' ->
  j_tenant_id j = j_tenant_id j' -> j_ticket_id j = j_ticket_id j' ->
  j = j' /\ l_job_id l = l_job_id l' /\ l_owner l = l_owner l' /\ l_fencing_token l = l_fencing_token l'.
Proof.
  intros Hr F F' E1 E2. apply fence_ok in F as (Hj & Lj & O & T & _), F' as (Hj' & Lj' & O' & T' & _).
  assert (l_job_id l = l_job_id l') as E.
  { eapply lane_single_leased; [by apply (steps_lane empty_store); [apply empty_lane|]|exact Hj|exact Hj'|by split|done|done]. }
  rewrite E, Hj' in Hj. injection Hj as <-. split_and!; congruence.
Qed.

(** A claim grants exactly the head of the lane.  The claimed job was
    queued or waiting for a retry, due, the oldest active job of its ticket,
    and the ticket had no lease; an [approval_resume] job is granted only for an
    approved approval; attempt and token advance by one; and the lease passes
    the fence of the resulting store at every instant before its expiry. *)
Theorem claim_grants_head s ev jid owner secs lease s' :
  keyed s -> claim s ev jid owner secs = Ok (lease, s') ->
  exists job job', jobs s !! jid = Some job /\ jobs s' !! jid = Some job' /\
    j_status job ∈ ["queued"; "retry_wait"] /\ j_available_at job <= database_now ev /\
    (forall k b, jobs s !! k = Some b -> same_lane job b -> active b ->
       j_dispatch_sequence job <= j_dispatch_sequence b) /\
    (forall k b, jobs s !! k = Some b -> same_lane job b -> ~ leased b) /\
    (j_kind job = "approval_resume" -> exists aid a, j_approval_id job = Some aid /\
       approvals s !! aid = Some a /\ a_status a = "approved") /\
    j_attempt job' = j_attempt job + 1 /\ j_fencing_token job' = j_fencing_token job + 1 /\
    forall ev', database_now ev' < l_expires_at lease -> assert_fence s' ev' lease = Ok job'.
Proof.
  intros Hk Hc. destruct (claim_ok _ _ _ _ _ _ _ Hk Hc) as (job & [C1 C2 _ _ C5 C6 C7 C8 C9 C10 C11 C12]).
  pose proof (lease_job_spec job owner (database_now ev) secs) as L. set (job' := lease_job _ _ _ _) in *. clearbody job'.
  pose proof (keyed_jobs _ Hk _ _ C1) as Eid. destruct L as [L1 L2 [L3 L4] L5 L6 L7 L8 L9 L10].
  exists job, job'. split_and!; try assumption; [rewrite C2; apply lookup_insert_eq|].
  intros ev' Hlt. destruct C10 as (run & R1 & R2 & R3 & R4). destruct C12 as (t & T1 & T2 & _).
  rewrite C9 in Hlt |- *. cbn in Hlt. unfold assert_fence, lease_of.
  cbn [l_ticket_id l_tenant_id l_job_id l_run_id l_owner l_fencing_token l_dispatch_sequence].
  rewrite L4, (proj2 (get_where_some _ _ _ t)) by (split; [exact T1|]; rewrite L3; by apply eqb_true).
  rewrite L2, Eid, (proj2 (get_where_some _ _ _ job')) by (split; [rewrite C2; apply lookup_insert_eq|]; by rewrite L4, !eqb_refl).
  rewrite L10, (proj2 (get_where_some _ _ _ run)) by (split; [exact R1|]; apply eqb_true; congruence).
  rewrite L9. apply raise_if_false. unfold leased in L1. rewrite L1, L8, L7, R3, R4. unfold neqb. rewrite !eqb_refl. simpl. rewrite !orb_false_r.
  apply Z.leb_gt. exact Hlt.
Qed.

Lemma jitter_bounds id a : 0 <= jitter_ms id a <= 1000.
Proof. unfold jitter_ms. pose proof (Z.mod_pos_bound (digest_prefix (id +:+ ":" +:+ str_of_Z a)) 1001 ltac:(lia)). lia. Qed.
Lemma backoff_bounds id a :
  0 <= a < 1024 -> exists w, backoff id a = Ok w /\
    Z.min 30 (2 ^ a) * second <= w <= (Z.min 30 (2 ^ a) + 1) * second /\ second <= w <= 31 * second.
Proof.
  intros Ha. unfold backoff. rewrite raise_if_false by (apply Z.leb_gt; lia). eexists. split; [reflexivity|].
  pose proof (jitter_bounds id a). assert (1 <= 2 ^ a) by (pose proof (Z.pow_pos_nonneg 2 a); lia).
  unfold second. lia.
Qed.

(** Retries are bounded and back off exponentially.  A decision exists for
    every attempt the table allows below the float range; it is terminal
    exactly when the attempts or the age of the job are exhausted; and the next
    availability lies between min(30, 2^attempt) and one second more after now,
    so never more than 31 seconds away. *)
Theorem retry_decision_bounded id a created now m g :
  0 <= a < 1024 ->
  exists d, retry_decision id a created now m g = Ok d /\
    (d_terminal d = true <-> m <= a \/ g * second <= now - created) /\
    d_next_status d = (if d_terminal d then "dead" else "retry_wait") /\
    now + Z.min 30 (2 ^ a) * second <= d_available_at d <= now + (Z.min 30 (2 ^ a) + 1) * second /\
    now < d_available_at d <= now + 31 * second.
Proof.
  intros Ha. destruct (backoff_bounds id a Ha) as (w & Ew & Hw & Hw'). unfold retry_decision. rewrite Ew.
  cbn [res_bind]. eexists. split; [reflexivity|]. cbn [d_terminal d_next_status d_available_at].
  split; [by rewrite orb_true_iff, !Z.leb_le|]. split; [done|]. unfold second in *. lia.
Qed.

Lemma enqueue_lookup js ls js' ls' i j : enqueues js ls js' ls' -> js !! i = Some j -> js' !! i = Some j.
Proof. intros [|tid id tn life mode c x _ Hn _ _ _ _] Hi; [done|]. by rewrite lookup_insert_ne by congruence. Qed.
Lemma not_leased_rejected s ev l j :
  jobs s !! l_job_id l = Some j -> ~ leased j -> assert_fence s ev l = Err (RuntimeConflict "stale_fencing_token").
Proof.
  intros Hj Hl. destruct (assert_fence s ev l) as [x|e] eqn:E; [|by rewrite (fence_error _ _ _ _ E)].
  apply fence_ok in E as (Hj' & Hx & _). rewrite Hj in Hj'. by injection Hj' as <-.
Qed.

(** A failed attempt is retried or buried, and its lease is over.  The
    stored job becomes [dead] exactly when the attempts or the age are
    exhausted and [retry_wait] otherwise, with owner and expiry cleared, the
    attempt count kept and the (truncated) error recorded; the lease it was
    failed under is rejected from then on, also when burying the job activated
    the next turn. *)
Theorem fail_retries_or_buries s ev ids l code m g st s' :
  keyed s -> fail s ev ids l code m g = Ok (st, s') ->
  exists job job', jobs s !! l_job_id l = Some job /\ jobs s' !! l_job_id l = Some job' /\ leased job /\
    j_status job' = st /\
    st = (if (m <=? j_attempt job) || (g * second <=? database_now ev - j_created_at job) then "dead" else "retry_wait") /\
    j_lease_owner job' = None /\ j_lease_expires_at job' = None /\ j_attempt job' = j_attempt job /\
    j_last_error job' = Some (py_take 128 code) /\
    forall ev', assert_fence s' ev' l = Err (RuntimeConflict "stale_fencing_token").
Proof.
  intros Hk Hf. unfold fail in Hf. steps_ok Hf. destruct (runs s !! l_run_id l) as [run|]; [|done]. steps_ok Hf.
  rename a into job, a0 into d. pose proof (fence_ok _ _ _ _ Hstep) as (Hj & Hl & _).
  assert (d_next_status d = if (m <=? j_attempt job) || (g * second <=? database_now ev - j_created_at job)
                            then "dead" else "retry_wait") as Hd.
  { unfold retry_decision in Hstep0. steps_ok Hstep0. by injection Hstep0 as <-. }
  set (job' := set_j_available_at _ _) in *.
  assert (j_status job' = d_next_status d /\ j_id job' = j_id job /\ j_lease_owner job' = None /\ j_lease_expires_at job' = None /\
          j_attempt job' = j_attempt job /\ j_last_error job' = Some (py_take 128 code)) as (S1 & S2 & S3 & S4 & S5 & S6).
  { subst job'. unfold transition_runtime_job_status. destruct (j_status job ==? _) eqn:E; [|done].
    split_and!; try done. exact (proj1 (eqb_true _ _) E). }
  clearbody job'. injection Hf as Est <-. set (s1 := put_run _ (put_job job' s)) in *.
  assert (jobs s1 !! l_job_id l = Some job') as J1.
  { subst s1. cbn. rewrite S2, (fence_key _ _ _ _ Hk Hstep). apply lookup_insert_eq. }
  assert (keyed s1) as K1 by (subst s1; auto with keyed). clearbody s1.
  assert (jobs a1 !! l_job_id l = Some job') as J2.
  { destruct (d_terminal d); [|by injection Hstep1 as <-]. destruct (dead_enqueues _ _ _ _ _ _ _ K1 Hstep1) as [He _].
    by eapply enqueue_lookup. }
  exists job, job'. split_and!; try assumption; [congruence|].
  intros ev'. apply (not_leased_rejected _ _ _ _ J2). unfold leased. rewrite S1, Hd. by case_match.
Qed.
End properties.

(** ** Commands are accepted once *)
(** The unique scope constraint. *)
Definition command_scope (i : IdempotencyRequest) : string * string * string * string :=
  (i_tenant_id i, i_principal_id i, i_route i, i_idempotency_key i).
Definition commands_unique (s : store) : Prop :=
  forall i k a b, idempotency s !! i = Some a -> idempotency s !! k = Some b -> command_scope a = command_scope b -> i = k.

Lemma same_command_iff tn pr rt key i : same_command tn pr rt key i = true <-> command_scope i = (tn, pr, rt, key).
Proof.
  unfold same_command, command_scope. rewrite !andb_true_iff, !eqb_true. split; [intros [[[-> ->] ->] ->]|intros E; injection E]; done.
Qed.
Lemma find_command s tn pr rt key i a :
  commands_unique s -> idempotency s !! i = Some a -> command_scope a = (tn, pr, rt, key) ->
  head (select_where (same_command tn pr rt key) (idempotency s)) = Some a.
Proof.
  intros Hu Hi Ha. assert (a ∈ select_where (same_command tn pr rt key) (idempotency s)) as Hin.
  { apply select_where_elem. split; [eauto|]. by apply same_command_iff. }
  destruct (select_where _ _) as [|b l] eqn:E; [by apply elem_of_nil in Hin|]. simpl. f_equal.
  assert (b ∈ select_where (same_command tn pr rt key) (idempotency s)) as Hb by (rewrite E; left).
  apply select_where_elem in Hb as [[k Hk] Hb]. apply same_command_iff in Hb.
  assert (i = k) as ->; [eapply Hu; [exact Hi|exact Hk|congruence]|]. congruence.
Qed.

Lemma accept_ok s ev id tn pr rt key payload rids snap exp c s' :
  accept s ev id tn pr rt key payload rids snap exp = Ok (c, s') ->
  command_scope (record c) = (tn, pr, rt, key) /\ canonical_request_hash payload = Ok (i_request_hash (record c)) /\
  ((reused c = true /\ s' = s /\ exists i, idempotency s !! i = Some (record c)) \/
   (reused c = false /\ i_id (record c) = id /\ idempotency s !! id = None /\ s' = put_idempotency (record c) s /\
    forall i a, idempotency s !! i = Some a -> command_scope a <> (tn, pr, rt, key))).
Proof.
  unfold accept. intros Ha. steps_ok Ha.
  destruct (head _) as [e|] eqn:Eh.
  - steps_ok Ha. injection Ha as <- <-. assert (e ∈ select_where (same_command tn pr rt key) (idempotency s)) as Hin.
    { destruct (select_where _ _); [done|]. injection Eh as ->. left. }
    apply select_where_elem in Hin as [Hi Hm]. apply same_command_iff in Hm. cbn [record reused].
    unfold neqb in Hguard. rewrite negb_false_iff, eqb_true in Hguard. rewrite Hguard.
    split; [done|]. split; [done|]. left. eauto.
  - steps_ok Ha. injection Ha as <- <-. split; [done|]. split; [done|]. right. split_and!; [done|done| |done|].
    + by apply isSome_false.
    + intros i x Hi Hsc. assert (x ∈ select_where (same_command tn pr rt key) (idempotency s)) as Hin.
      { apply select_where_elem. split; [eauto|]. by apply same_command_iff. }
      destruct (select_where _ _); [by apply elem_of_nil in Hin|done].
Qed.

(** C13: a command is accepted at most once per (tenant, principal, route, key).
    After an acceptance the scope constraint still holds; the same scope with a
    payload that hashes alike is answered with the very record accepted first
    and changes nothing; and any later acceptance in that scope returns that
    record, for a payload with the same JSON content up to key order, unless it
    exhibits a SHA-256 collision. *)
Theorem accept_once s ev id tn pr rt key payload rids snap exp c s1 :
  commands_unique s -> accept s ev id tn pr rt key payload rids snap exp = Ok (c, s1) ->
  commands_unique s1 /\
  (forall ev' id' payload' rids' snap' exp',
     canonical_request_hash payload' = canonical_request_hash payload ->
     accept s1 ev' id' tn pr rt key payload' rids' snap' exp' = Ok (mk_accepted (record c) true, s1)) /\
  (forall ev' id' payload' rids' snap' exp' c' s2,
     accept s1 ev' id' tn pr rt key payload' rids' snap' exp' = Ok (c', s2) ->
     record c' = record c /\ reused c' = true /\ s2 = s1 /\
     ((exists v v', json_value (PyDict payload) = Ok v /\ json_value (PyDict payload') = Ok v' /\ norm v = norm v') \/
      exists a b, sha256_collision a b)).
Proof.
  intros Hu Ha. apply accept_ok in Ha as (Hs & Hh & Hc).
  assert (commands_unique s1 /\ exists i, idempotency s1 !! i = Some (record c)) as [Hu1 [i Hi]].
  { destruct Hc as [(_ & -> & Hi)|(_ & Hid & Hn & -> & Hnone)]; [done|]. split.
    - intros x y a b. cbn. rewrite !lookup_insert_Some. intros [[<- <-]|[_ Hx]] [[<- <-]|[_ Hy]] E; [done| | |by eapply Hu];
        exfalso; [apply (Hnone _ _ Hy)|apply (Hnone _ _ Hx)]; congruence.
    - exists id. cbn. rewrite Hid. apply lookup_insert_eq. }
  pose proof (find_command _ _ _ _ _ _ _ Hu1 Hi Hs) as Hf. split; [done|]. split.
  - intros ev' id' payload' rids' snap' exp' E. unfold accept. rewrite E, Hh. cbn [res_bind]. rewrite Hf.
    rewrite raise_if_false by (unfold neqb; by rewrite eqb_refl). done.
  - intros ev' id' payload' rids' snap' exp' c' s2 Ha'. apply accept_ok in Ha' as (Hs' & Hh' & Hc').
    assert (record c' = record c /\ reused c' = true /\ s2 = s1) as (E1 & E2 & E3).
    { destruct Hc' as [(-> & -> & k & Hk)|(_ & _ & _ & _ & Hnone)]; [|by apply (Hnone _ _ Hi) in Hs].
      assert (i = k) as ->; [eapply Hu1; [exact Hi|exact Hk|congruence]|]. split_and!; congruence. }
    split_and!; [done..|]. rewrite E1 in Hh'. eapply payload_hash_binds; [exact Hh|exact Hh'].
Qed.

(** ** Witnesses *)
Definition at_time (t : Z) : env := mk_env t t None (fun s => s) (fun _ _ _ _ => []).
Definition job_ids (j : string) : fresh_ids := mk_ids "R9" "E9" j "O9" "D9" "M9".
Definition got {A} (r : res (A * store)) (s : store) : store := match r with Ok (_, s) => s | Err _ => s end.
Definition demo_create (s : store) (j : string) : res (RuntimeJob * store) :=
  create s (at_time 0) (job_ids j) "t1" "R1" "agent_start" None None.
Definition demo_j1 : store := got (demo_create demo_store "J1") demo_store.
Definition demo_j2 : store := got (demo_create demo_j1 "J2") demo_j1.
Definition demo_claimed : store := got (claim demo_j2 (at_time 1) "J1" "w1" 30) demo_j2.
Definition demo_requeued : store := requeue_expired demo_claimed 40000000 "J1".
Definition demo_reclaimed : store := got (claim demo_requeued (at_time 40000001) "J1" "w2" 30) demo_requeued.
Definition demo_lease (owner : string) (token expires attempt : Z) : JobLease :=
  mk_lease "J1" "R1" "t1" owner token expires "agent_start" None attempt (Some "T1") (Some 1).
Definition demo_job (s : store) (j : string) : RuntimeJob :=
  default (new_job "" "" "" "" "" None 0 0) (jobs s !! j).

Lemma demo_store_keyed : keyed demo_store.
Proof. unfold demo_store. auto with keyed. Qed.
Lemma demo_j2_reachable : rtc (@runtime_step ascii_runtime) empty_store demo_j2.
Proof.
  eapply rtc_l with demo_store; [apply rs_other; [done| |apply demo_store_keyed]|].
  { intros tid id tn life mode c E. vm_compute in E. discriminate E. }
  eapply rtc_l with demo_j1; [eapply (rs_create _ (at_time 0) (job_ids "J1") "t1" "R1" "agent_start" None None); vm_compute; reflexivity|].
  eapply rtc_l; [|apply rtc_refl].
  eapply (rs_create _ (at_time 0) (job_ids "J2") "t1" "R1" "agent_start" None None); vm_compute; reflexivity.
Qed.
Lemma demo_claimed_reachable : rtc (@runtime_step ascii_runtime) empty_store demo_claimed.
Proof.
  etransitivity; [apply demo_j2_reachable|]. eapply rtc_l; [|apply rtc_refl].
  eapply (rs_claim _ (at_time 1) "J1" "w1" 30); vm_compute; reflexivity.
Qed.
Lemma demo_j2_keyed : keyed demo_j2.
Proof. apply (@steps_keyed ascii_runtime empty_store); [apply keyed_empty|apply demo_j2_reachable]. Qed.

Lemma lane_discipline_witness :
  leased (demo_job demo_claimed "J1") /\ active (demo_job demo_claimed "J2") /\
  j_dispatch_sequence (demo_job demo_claimed "J1") <= j_dispatch_sequence (demo_job demo_claimed "J2").
Proof.
  split; [vm_compute; reflexivity|]. split; [vm_compute; reflexivity|].
  refine (proj1 (proj2 (@lane_discipline ascii_runtime demo_claimed "J1" "J2" _ _ demo_claimed_reachable _ _ _)) _ _);
    vm_compute; try reflexivity; split; reflexivity.
Defined.

Lemma superseded_lease_rejected_witness :
  1 < 2 /\ assert_fence demo_reclaimed (at_time 5) (demo_lease "w1" 1 30000001 1) = Err (RuntimeConflict "stale_fencing_token").
Proof.
  refine (@superseded_lease_rejected ascii_runtime demo_j2 demo_claimed demo_requeued demo_reclaimed demo_reclaimed
            (at_time 1) (at_time 40000001) (at_time 5) "J1" "w1" "w2" 30 30
            (demo_lease "w1" 1 30000001 1) (demo_lease "w2" 2 70000001 2) demo_j2_keyed _ _ _ _).
  - vm_compute. reflexivity.
  - eapply rtc_l; [apply (rs_requeue _ 40000000 "J1")|apply rtc_refl].
  - vm_compute. reflexivity.
  - apply rtc_refl.
Defined.

Lemma fence_mutual_exclusion_witness :
  demo_job demo_claimed "J1" = demo_job demo_claimed "J1" /\ "J1" = "J1" /\ "w1" = "w1" /\ 1 = 1.
Proof.
  refine (@fence_mutual_exclusion ascii_runtime demo_claimed (at_time 2) (at_time 3) (demo_lease "w1" 1 30000001 1)
            (demo_lease "w1" 1 30000001 1) _ _ demo_claimed_reachable _ _ eq_refl eq_refl); vm_compute; reflexivity.
Defined.

Lemma claim_grants_head_witness :
  exists job job', jobs demo_j2 !! "J1" = Some job /\ jobs demo_claimed !! "J1" = Some job' /\
    assert_fence demo_claimed (at_time 2) (demo_lease "w1" 1 30000001 1) = Ok job'.
Proof.
  destruct (@claim_grants_head demo_j2 (at_time 1) "J1" "w1" 30 (demo_lease "w1" 1 30000001 1) demo_claimed)
    as (job & job' & E1 & E2 & _ & _ & _ & _ & _ & _ & _ & Hf); [apply demo_j2_keyed|vm_compute; reflexivity|].
  exists job, job'. split; [exact E1|]. split; [exact E2|]. apply Hf. reflexivity.
Defined.

Lemma retry_decision_bounded_witness :
  exists d, retry_decision "J1" 3 0 1000000 5 3600 = Ok d /\ 1000000 < d_available_at d <= 1000000 + 31 * second.
Proof.
  destruct (retry_decision_bounded "J1" 3 0 1000000 5 3600) as (d & E & _ & _ & _ & Hb); [lia|].
  exists d. split; [exact E|exact Hb].
Defined.

Definition demo_failed : store :=
  got (@fail ascii_runtime demo_claimed (at_time 2) (job_ids "J3") (demo_lease "w1" 1 30000001 1) "tool_down" 1 3600) demo_claimed.
Lemma fail_retries_or_buries_witness :
  exists job', jobs demo_failed !! "J1" = Some job' /\ j_status job' = "dead" /\
    assert_fence demo_failed (at_time 3) (demo_lease "w1" 1 30000001 1) = Err (RuntimeConflict "stale_fencing_token").
Proof.
  destruct (@fail_retries_or_buries ascii_runtime demo_claimed (at_time 2) (job_ids "J3") (demo_lease "w1" 1 30000001 1)
              "tool_down" 1 3600 "dead" demo_failed) as (job & job' & _ & E & _ & Hs & _ & _ & _ & _ & _ & Hf).
  - apply (@steps_keyed ascii_runtime empty_store); [apply keyed_empty|apply demo_claimed_reachable].
  - vm_compute. reflexivity.
  - exists job'. split; [exact E|]. split; [exact Hs|apply Hf].
Defined.

Definition demo_accept (s : store) (payload : pydict) : res (AcceptedCommand * store) :=
  accept s (at_time 0) "I1" "t1" "u1" "POST /api/tickets" "k1" payload [] [] None.
Definition demo_payload : pydict := [("subject", PyStr "x"); ("n", PyInt 1)].
Definition demo_accepted : store := got (demo_accept empty_store demo_payload) empty_store.
Definition demo_command : AcceptedCommand :=
  match demo_accept empty_store demo_payload with
  | Ok (c, _) => c
  | Err _ => mk_accepted (mk_idempotency "" "" "" "" "" "" [] [] None None "") true
  end.
Lemma accept_once_witness :
  commands_unique demo_accepted /\
  accept demo_accepted (at_time 9) "I2" "t1" "u1" "POST /api/tickets" "k1" [("n", PyInt 1); ("subject", PyStr "x")] [] [] None
  = Ok (mk_accepted (record demo_command) true, demo_accepted).
Proof.
  destruct (accept_once empty_store (at_time 0) "I1" "t1" "u1" "POST /api/tickets" "k1" demo_payload [] [] None
              demo_command demo_accepted) as (Hu & Hr & _).
  - intros i k a b E. vm_compute in E. discriminate E.
  - vm_compute. reflexivity.
  - split; [exact Hu|]. apply Hr. vm_compute. reflexivity.
Defined.
