(* ===== verification/Delivery.v ===== *)
(** * Delivering jobs to workers (runtime/delivery.py, contracts/queue.py and the
      reconciler of services/runtime_maintenance.py)

    A job is announced by a row of the outbox.  The dispatcher copies due rows
    into a Redis stream; a worker reads an entry, records the delivery, claims
    the job, runs its handler and acknowledges; the reconciler requeues expired
    leases and writes the next generation of a lost delivery, up to five.

    Redis is a service: [RedisStream] states what the dispatcher relies on, and
    every worker operation takes the entry it read as an argument, so that what
    is proved of it holds for duplicated, reordered and forged entries.
    Pydantic's JSON of a message is the class [MessageCodec].  The operations
    are those of the application dialect.

    A claim that fails has not always left the session untouched:
    [interrupted_claim] is what [claim] has written when it raises
    [job_ticket_mismatch], and the worker commits it.

    Main results: whatever is delivered, lanes keep their discipline, a job has
    one current delivery and at most five generations; a published row
    decodes to its message; an entry that does not belong to its job changes nothing
    but the audit; a reconciliation leaves every due head of a lane with a way
    to a worker or buries it; a dispatched row leads its job to a lease. *)
From Stdlib Require Import Ascii.
From S2P Require Import Prelude PyValue PyText Sha256 ActionSpecs Store EventChain Lifecycle RuntimeJobs.
Local Open Scope string_scope.
Local Open Scope list_scope.
Local Open Scope Z_scope.

(** ** Messages (contracts/queue.py) *)
Record RuntimeJobMessage := mk_job_message {
  q_event_id : string; q_delivery_id : string; q_job_id : string; q_run_id : string; q_tenant_id : string;
  q_delivery_generation : Z; q_traceparent : option string;
}.
Definition valid_message (m : RuntimeJobMessage) : bool :=
  len_between 1 64 (q_event_id m) && len_between 1 64 (q_delivery_id m) && len_between 1 64 (q_job_id m)
  && len_between 1 64 (q_run_id m) && len_between 1 64 (q_tenant_id m)
  && (1 <=? q_delivery_generation m) && (q_delivery_generation m <=? 5)
  && match q_traceparent m with Some t => len_between 0 128 t | None => true end.

(** [model_dump_json], and [json.loads] followed by [model_validate]. *)
Class MessageCodec := {
  model_dump_json : RuntimeJobMessage -> string;
  model_validate_json : string -> res RuntimeJobMessage;
  decode_replace : string -> string;      (* [raw.decode(errors="replace")] *)
  validate_dump : forall m, valid_message m = true -> model_validate_json (model_dump_json m) = Ok m;
  validate_valid : forall t m, model_validate_json t = Ok m -> valid_message m = true;
}.
(** The stream as the dispatcher and the reconciler use it.  A call that raises
    may still have been executed. *)
Class RedisStream := {
  stream : Type;
  entry : stream -> string -> option string;             (* the payload of an entry *)
  xadd : stream -> string -> option string * stream;     (* [None]: the call raised *)
  xadd_new : forall st p i st', xadd st p = (Some i, st') -> entry st i = None /\ entry st' i = Some p;
  xadd_keeps : forall st p r st' i x, xadd st p = (r, st') -> entry st i = Some x -> entry st' i = Some x;
}.

Definition new_message (m : RuntimeJobMessage) : res RuntimeJobMessage :=
  raise ValidationError "RuntimeJobMessage" when negb (valid_message m) ;; Ok m.
(** A field of Pydantic type [str | None]. *)
Definition optional_str (v : pyval) : res (option string) :=
  match v with PyStr s => Ok (Some s) | PyNone => Ok None | _ => Err (ValidationError "traceparent") end.

(** ** Rows *)
Record InboxDelivery := mk_inbox {
  ib_id : string; ib_tenant_id : string; ib_job_id : string; ib_delivery_id : string; ib_redis_message_id : string;
  ib_consumer_group : string; ib_status : string; ib_outcome : option string; ib_created_at : Z;
}.
Definition set_ib_status (status : string) (outcome : option string) (r : InboxDelivery) : InboxDelivery :=
  mk_inbox (ib_id r) (ib_tenant_id r) (ib_job_id r) (ib_delivery_id r) (ib_redis_message_id r) (ib_consumer_group r) status outcome
    (ib_created_at r).
Record QueueDeliveryAudit := mk_queue_audit {
  qa_tenant_id : option string; qa_job_id : option string; qa_delivery_id : option string; qa_redis_message_id : string;
  qa_consumer_group : string; qa_outcome : string; qa_payload_hash : string; qa_details : pydict;
}.
(** The database: the store and the two tables of the queue. *)
Record queue := mk_queue { db : store; inbox : gmap string InboxDelivery; queue_audits : list QueueDeliveryAudit }.
Definition put_inbox (r : InboxDelivery) (q : queue) : queue := mk_queue (db q) (<[ib_id r := r]> (inbox q)) (queue_audits q).
Definition set_db (s : store) (q : queue) : queue := mk_queue s (inbox q) (queue_audits q).
Definition add_audit (a : QueueDeliveryAudit) (q : queue) : queue := mk_queue (db q) (inbox q) (queue_audits q ++ [a]).

Section delivery.
Context `{PyRuntime} `{MessageCodec} `{RedisStream}.

(** ** The dispatcher ([OutboxDispatcher.dispatch_once]) *)
Definition due_event (now : Z) (o : OutboxEvent) : bool := isNone (o_published_at o) && (o_available_at o <=? now).
Definition created_leb (a b : OutboxEvent) : bool := o_created_at a <=? o_created_at b.
(** The rows of a batch; [now] is the clock of the query, [at_ id] the clock
    when the row is taken. *)
Definition due_batch (s : store) (now : Z) (batch_size : nat) : list OutboxEvent :=
  take batch_size (isort created_leb (select_where (due_event now) (outbox s))).
Definition take_event (at_ : string -> Z) (s : store) (o : OutboxEvent) : store :=
  put_outbox (o |> set_o_publish_attempts (o_publish_attempts o + 1) |> set_o_available_at (at_ (o_id o) + 30 * second)) s.
Definition claim_outbox (s : store) (now : Z) (at_ : string -> Z) (batch_size : nat) : list string * store :=
  let events := due_batch s now batch_size in
  (map o_id events, fold_left (take_event at_) events s).

Definition event_message (o : OutboxEvent) : res RuntimeJobMessage :=
  let? traceparent := optional_str ((o_payload o).["traceparent"]) in
  new_message (mk_job_message (o_id o) (o_delivery_id o) (o_job_id o) (o_run_id o) (o_tenant_id o) (o_delivery_generation o) traceparent).
Definition mark_published (s : store) (event_id redis_message_id : string) (now : Z) : store * Z :=
  match outbox s !! event_id with
  | Some o =>
      if isNone (o_published_at o)
      then (put_outbox (o |> set_o_redis_message_id (Some redis_message_id) |> set_o_published_at (Some now)
                          |> set_o_last_delivery_at (Some now)) s, 1)
      else (s, 0)
  | None => (s, 0)
  end.
(** One row: load, [XADD], mark. *)
Definition publish_one (s : store) (st : stream) (event_id : string) (now : Z) : res (store * stream * Z) :=
  match outbox s !! event_id with
  | None => Ok (s, st, 0)
  | Some o =>
      if isSome (o_published_at o) then Ok (s, st, 0) else
      let? message := event_message o in
      let '(redis_message_id, st) := xadd st (model_dump_json message) in
      match redis_message_id with
      | None => Ok (s, st, 0)
      | Some redis_message_id => let '(s, n) := mark_published s event_id redis_message_id now in Ok (s, st, n)
      end
  end.
Fixpoint publish_all (s : store) (st : stream) (at_ : string -> Z) (ids : list string) : res (store * stream * Z) :=
  match ids with
  | [] => Ok (s, st, 0)
  | id :: ids =>
      let? r := publish_one s st id (at_ id) in
      let? r' := publish_all r.1.1 r.1.2 at_ ids in
      Ok (r'.1.1, r'.1.2, r.2 + r'.2)
  end.
Definition dispatch_once (s : store) (st : stream) (now : Z) (at_ : string -> Z) (batch_size : nat) : res (store * stream * Z) :=
  let '(claimed_ids, s) := claim_outbox s now at_ batch_size in publish_all s st at_ claimed_ids.

(** ** The worker ([RuntimeWorker]) *)
(** [_next_delivery_entry]: reclaimed and new entries are preferred in turn;
    both reads are lazy. *)
Definition _next_delivery_entry {E} (prefer_reclaim : bool) (reclaim_old read_new : option E) : option E * bool :=
  let first := if prefer_reclaim then reclaim_old else read_new in
  let second := if prefer_reclaim then read_new else reclaim_old in
  (match first with Some e => Some e | None => second end, negb prefer_reclaim).

Record _DeliveryEnvelope := mk_envelope { redis_id : string; payload_hash : string; message : RuntimeJobMessage }.
(** [RuntimeJobMessage.from_redis]; [payload] is the field of that name. *)
Definition from_redis (payload : option string) : res RuntimeJobMessage :=
  let! raw := payload else ValueError "missing runtime payload" in model_validate_json raw.
Definition exn_name (e : exn) : string :=
  match e with
  | ValueError _ => "ValueError" | TypeError _ => "TypeError" | KeyError _ => "KeyError" | OverflowError _ => "OverflowError"
  | RuntimeConflict _ => "RuntimeConflict" | RuntimeError _ => "RuntimeError" | AttributeError _ => "AttributeError"
  | CanonicalJsonError _ => "CanonicalJsonError" | ValidationError _ => "ValidationError"
  | ProjectionError _ => "ConversationActionStateProjectionError" | PipelineError _ _ => "ActionPipelineError"
  | DomainError _ _ => "DomainError" | StopIteration => "StopIteration" | DBAPIError _ => "DBAPIError"
  | HTTPException _ _ => "HTTPException" | ProviderLimitError _ => "ProviderLimitError"
  | ActionAssemblyError _ => "ActionAssemblyError" | SynthesisBindingError _ => "SynthesisBindingError"
  end.
(** [_decode_delivery]: an entry that is no message is audited; the caller
    acknowledges it. *)
Definition _decode_delivery (q : queue) (group id : string) (payload : option string) : option _DeliveryEnvelope * queue :=
  let hash := sha256_hex (decode_replace (default "" payload)) in
  match from_redis payload with
  | Ok m => (Some (mk_envelope id hash m), q)
  | Err e => (None, add_audit (mk_queue_audit None None None id group "poison_invalid_schema" hash [("error_type", PyStr (exn_name e))]) q)
  end.

Record _DeliveryAdmission := mk_admission_d { d_message : RuntimeJobMessage; d_lease : option JobLease; should_ack_terminal : bool }.

(** [record_delivery] *)
Definition of_delivery (group delivery_id : string) (r : InboxDelivery) : bool :=
  (ib_consumer_group r ==? group) && (ib_delivery_id r ==? delivery_id).
Definition record_delivery (q : queue) (inbox_id : string) (now : Z) (m : RuntimeJobMessage) (redis_message_id group : string)
  : res (InboxDelivery * bool * queue) :=
  match select_where (of_delivery group (q_delivery_id m)) (inbox q) with
  | existing :: _ => Ok (existing, true, q)
  | [] =>
      raise IntegrityError when isSome (inbox q !! inbox_id) ;;
      let delivery := mk_inbox inbox_id (q_tenant_id m) (q_job_id m) (q_delivery_id m) redis_message_id group "received" None now in
      Ok (delivery, false, put_inbox delivery q)
  end.

(** The session of a claim that raised after its writes. *)
Definition interrupted_claim (s : store) (ev : env) (job_id owner : string) (lease_seconds : Z) : store :=
  match jobs s !! job_id with
  | Some job0 =>
      match get_where (runs s) (j_run_id job0) (fun r => r_tenant_id r ==? j_tenant_id job0) with
      | Some run =>
          let job := lease_job job0 owner (database_now ev) lease_seconds in
          let run := run |> set_r_active_job_id (Some (j_id job)) |> set_r_active_fencing_token (Some (j_fencing_token job))
                         |> set_r_status "running" |> set_r_status_version (r_status_version run + 1) in
          start_turn (s |> put_job job |> put_run run) run (j_kind job)
      | None => s
      end
  | None => s
  end.
Definition mismatched (job : option RuntimeJob) (m : RuntimeJobMessage) : bool :=
  match job with
  | None => true
  | Some job => (j_tenant_id job !=? q_tenant_id m) || (j_run_id job !=? q_run_id m)
                || negb (j_kind job in? ["agent_start"; "approval_resume"])
  end.
Definition untrusted_audit (group : string) (e : _DeliveryEnvelope) (job : option RuntimeJob) : QueueDeliveryAudit :=
  let m := message e in
  let agrees f := match job with Some j => f j | None => false end in
  mk_queue_audit (j_tenant_id <$> job) (Some (q_job_id m)) (Some (q_delivery_id m)) (redis_id e) group "rejected_untrusted_envelope"
    (payload_hash e)
    [("job_exists", PyBool (isSome job)); ("tenant_match", PyBool (agrees (fun j => j_tenant_id j ==? q_tenant_id m)));
     ("run_match", PyBool (agrees (fun j => j_run_id j ==? q_run_id m)))].
(** [_accept_sqlite_delivery] *)
Definition _accept_sqlite_delivery (q : queue) (ev : env) (inbox_id group consumer : string) (lease_seconds : Z) (e : _DeliveryEnvelope)
  : res (_DeliveryAdmission * queue) :=
  let m := message e in
  let trusted_job := jobs (db q) !! q_job_id m in
  if mismatched trusted_job m then Ok (mk_admission_d m None true, add_audit (untrusted_audit group e trusted_job) q) else
  let? r := record_delivery q inbox_id (database_now ev) m (redis_id e) group in
  let '(delivery, reused, q) := r in
  if reused && (ib_status delivery ==? "acked") then Ok (mk_admission_d m None true, q) else
  match claim (db q) ev (q_job_id m) consumer lease_seconds with
  | Ok (lease, s) => Ok (mk_admission_d m (Some lease) false, put_inbox (set_ib_status "claimed" (ib_outcome delivery) delivery) (set_db s q))
  | Err (RuntimeConflict code) =>
      let q := if code ==? "job_ticket_mismatch" then set_db (interrupted_claim (db q) ev (q_job_id m) consumer lease_seconds) q else q in
      let terminal := match jobs (db q) !! q_job_id m with Some job => j_status job in? ["succeeded"; "dead"] | None => false end in
      Ok (mk_admission_d m None terminal,
          put_inbox (if terminal then set_ib_status "acked" (Some "already_terminal") delivery
                     else set_ib_status "rejected" (Some "not_claimable") delivery) q)
  | Err x => Err x
  end.

(** [_run_handler_with_heartbeat]: what the handler returned or raised, when it
    was done first, and otherwise how the heartbeat ended. *)
Definition _run_handler_with_heartbeat (handler : option (string + exn)) (heartbeat_error : option exn) : string * option exn :=
  match handler with
  | Some (inl outcome) => (outcome, None)
  | Some (inr e) => ("failed", Some e)
  | None => ("failed", Some (default (RuntimeConflict "heartbeat_stopped") heartbeat_error))
  end.

(** [_finish_sqlite_delivery] *)
Definition finish_job (s : store) (ev : env) (ids : fresh_ids) (lease : JobLease) (outcome : string) (failure : option exn)
  : res (string * store) :=
  let is_leased := match jobs s !! l_job_id lease with Some job => j_status job ==? "leased" | None => false end in
  match failure, is_leased with
  | Some (DomainError code _), true => terminal_fail s ev ids lease ("domain:" +:+ code)
  | Some e, true => fail s ev ids lease (exn_name e) 5 3600
  | _, _ => if (outcome !=? "interrupted") && is_leased then let? s := complete s ev lease outcome in Ok (outcome, s) else Ok (outcome, s)
  end.
Definition _finish_sqlite_delivery (q : queue) (ev : env) (ids : fresh_ids) (group : string) (m : RuntimeJobMessage) (lease : JobLease)
    (outcome : string) (failure : option exn) : res (string * option string * queue) :=
  let? r := finish_job (db q) ev ids lease outcome failure in
  let '(outcome, s) := r in
  match select_where (of_delivery group (q_delivery_id m)) (inbox q) with
  | [] => Err (RuntimeError "inbox delivery disappeared")
  | delivery :: _ =>
      Ok (outcome, r_ticket_id <$> (runs s !! q_run_id m), put_inbox (set_ib_status "acked" (Some outcome) delivery) (set_db s q))
  end.

(** What the worker tells the database's finish function, and what it accepts
    of its answer ([_postgresql_finish_outcome], [_validate_worker_finish_result]). *)
Inductive worker_failure :=
| FinalizerCommitUnknown (recovery_mode : string)
| FinalizerRestartRequired
| OtherFailure (e : exn).
Definition _postgresql_finish_outcome (outcome : string) (failure : option worker_failure) : string :=
  match failure with
  | None => outcome
  | Some (FinalizerCommitUnknown recovery_mode) => "finalizer_commit_unknown:" +:+ recovery_mode
  | Some FinalizerRestartRequired => "failed:pre_effect_finalizer_restart_required"
  | Some (OtherFailure (DomainError code _)) =>
      "domain_terminal:"
      +:+ (if code in? ["approval_binding_invalid"; "approval_snapshot_mismatch"; "approval_stale"] then "binding_stale" else "logical_degradation")
      +:+ ":" +:+ code
  | Some (OtherFailure e) => "failed:" +:+ exn_name e
  end.
Definition technical_failure (requested_outcome : string) : bool :=
  (requested_outcome ==? "failed")
  || existsb (fun p => String.prefix p requested_outcome) ["failed:"; "domain_terminal:"; "terminal_failed:"].
Definition finish_created_human_queue (finished : pydict) : bool :=
  let equals key text := match finished.[key] with PyStr s => s ==? text | _ => false end in
  equals "outcome" "manual_takeover" || equals "ticket_status" "manual_takeover" || equals "automation_mode" "human_queue".
Definition _validate_worker_finish_result (finished : pyval) (requested_outcome : string) : res pydict :=
  match finished with
  | PyDict finished =>
      raise RuntimeError "worker finish converted failure to manual_takeover"
        when technical_failure requested_outcome && finish_created_human_queue finished ;;
      raise RuntimeError "worker finish returned a partial Turn activation"
        when negb (is_none (finished.["activated_turn_id"]))
             && (is_none (finished.["activated_run_id"]) || is_none (finished.["activated_job_id"])) ;;
      Ok finished
  | _ => Err (RuntimeError "worker finish capability returned an invalid result")
  end.

(** ** The reconciler ([RuntimeReconciler.reconcile_once]) *)
Definition MAX_DELIVERY_GENERATION : Z := 5.
(** [redis] is [None] without a stream; a lookup in it may raise. *)
Record reconciler := mk_reconciler {
  rc_env : env; rc_now : Z; rc_grace_seconds : Z; rc_max_age : Z; rc_redis : option (string -> option bool); rc_ids : string -> fresh_ids;
}.
Section reconcile.
Context (rc : reconciler).
Definition reconcilable (j : RuntimeJob) : bool :=
  (j_status j ==? "queued")
  || ((j_status j ==? "retry_wait") && (j_available_at j <=? rc_now rc))
  || ((j_status j ==? "leased") && match j_lease_expires_at j with Some e => e <? rc_now rc | None => false end).
Definition reconcile_leb (a b : RuntimeJob) : bool :=
  if decide (j_tenant_id a = j_tenant_id b)
  then if decide (j_ticket_id a = j_ticket_id b) then job_leb a b else str_leb (j_ticket_id a) (j_ticket_id b)
  else str_leb (j_tenant_id a) (j_tenant_id b).
Definition _latest_delivery_still_exists (redis_message_id : option string) : bool :=
  match rc_redis rc, redis_message_id with
  | Some xrange, Some id => match xrange id with Some present => present | None => true end
  | _, _ => false
  end.
Definition inbox_newest (a b : InboxDelivery) : bool := ib_created_at b <=? ib_created_at a.
Definition _delivery_is_recoverable (q : queue) (event : OutboxEvent) (job_status : string) : bool :=
  let latest := first_by inbox_newest (select_where (fun r => ib_delivery_id r ==? o_delivery_id event) (inbox q)) in
  if match latest with Some r => ib_status r in? ["acked"; "rejected"] | None => false end then false else
  if job_status ==? "retry_wait" then false else _latest_delivery_still_exists (o_redis_message_id event).
Definition superseded_audit (event : OutboxEvent) (next_generation : Z) (r : option InboxDelivery) : QueueDeliveryAudit :=
  mk_queue_audit (Some (o_tenant_id event)) (Some (o_job_id event)) (Some (o_delivery_id event))
    (match r with Some r => ib_redis_message_id r | None => default ("outbox:" +:+ o_id event) (o_redis_message_id event) end)
    (match r with Some r => ib_consumer_group r | None => "reconciler" end) "superseded_lost_or_expired" (sha256_hex (o_delivery_id event))
    [("outbox_id", PyStr (o_id event)); ("previous_status", PyStr (match r with Some r => ib_status r | None => "missing" end));
     ("delivery_generation", PyInt (o_delivery_generation event)); ("next_generation", PyInt next_generation)].
Definition supersede_inbox (event : OutboxEvent) (next_generation : Z) (q : queue) (r : InboxDelivery) : queue :=
  add_audit (superseded_audit event next_generation (Some r)) (put_inbox (set_ib_status "rejected" (Some "superseded_by_redelivery") r) q).
Definition _supersede_delivery (q : queue) (event : OutboxEvent) (next_generation : Z) (next_outbox_id : string) : queue :=
  let event' := event |> set_o_superseded_at (Some (rc_now rc)) |> set_o_superseded_by_delivery_id (Some next_outbox_id)
                      |> set_o_delivery_state_version (o_delivery_state_version event + 1) in
  let q := set_db (put_outbox event' (db q)) q in
  match select_where (fun r => ib_delivery_id r ==? o_delivery_id event) (inbox q) with
  | [] => add_audit (superseded_audit event next_generation None) q
  | inboxes => fold_left (supersede_inbox event next_generation) inboxes q
  end.
Definition generation_geb (a b : OutboxEvent) : bool := o_delivery_generation b <=? o_delivery_generation a.
Definition latest_event (s : store) (job_id : string) : option OutboxEvent :=
  first_by generation_geb (select_where (fun o => o_job_id o ==? job_id) (outbox s)).
(** The latest delivery may still reach a worker. *)
Definition in_flight (q : queue) (latest : OutboxEvent) (job_status : string) : bool :=
  isNone (o_published_at latest)
  || match o_last_delivery_at latest with
     | Some delivered_at =>
         _delivery_is_recoverable q latest job_status || (rc_now rc - rc_grace_seconds rc * second <? delivered_at)
     | None => false
     end.
Definition bury (q : queue) (job : RuntimeJob) (reason : string) : res queue :=
  let job := release (transition_runtime_job_status job "dead" |> set_j_last_error (Some reason)) in
  let s := put_job job (db q) in
  match runs s !! j_run_id job with
  | Some _ => let? s := converge_dead_aggregates s (rc_env rc) (rc_ids rc (j_id job)) job (j_run_id job) reason in Ok (set_db s q)
  | None => Ok (set_db s q)
  end.
Definition redeliver (q : queue) (job : RuntimeJob) (latest : option OutboxEvent) (generation : Z) : res queue :=
  let ids := rc_ids rc (j_id job) in
  let q := match latest with Some event => _supersede_delivery q event generation (f_outbox ids) | None => q end in
  let? s := insert_outbox (db q) (new_outbox (f_outbox ids) (f_delivery ids) (j_tenant_id job) (j_id job) (j_run_id job) generation
                                    "runtime_job_available" [] (database_now (rc_env rc))) in
  Ok (set_db s q).
(** The body of the loop; the second component counts a repaired job. *)
Definition reconcile_job (q : queue) (job_id : string) : res (queue * Z) :=
  let! job := jobs (db q) !! job_id else RuntimeError "job object is not persistent" in
  if (j_id <$> head_job (db q) (j_tenant_id job) (j_ticket_id job)) !=? Some job_id then Ok (q, 0) else
  let job := if j_status job ==? "leased" then release (transition_runtime_job_status job "queued") else job in
  let q := set_db (put_job job (db q)) q in
  let latest := latest_event (db q) job_id in
  if match latest with Some event => in_flight q event (j_status job) | None => false end then Ok (q, 0) else
  let job := if j_status job ==? "retry_wait" then transition_runtime_job_status job "queued" else job in
  let q := set_db (put_job job (db q)) q in
  let generation := match latest with Some event => o_delivery_generation event + 1 | None => 1 end in
  if (MAX_DELIVERY_GENERATION <? generation) || (rc_max_age rc <=? rc_now rc - j_created_at job) then
    let? q := bury q job (if MAX_DELIVERY_GENERATION <? generation then "delivery_generation_exhausted" else "job_max_age_exhausted") in
    Ok (q, 0)
  else let? q := redeliver q job latest generation in Ok (q, 1).
Fixpoint reconcile_jobs (q : queue) (ids : list string) : res (queue * Z) :=
  match ids with
  | [] => Ok (q, 0)
  | id :: ids => let? r := reconcile_job q id in let? r' := reconcile_jobs r.1 ids in Ok (r'.1, r.2 + r'.2)
  end.
Definition reconcile_once (q : queue) : res (queue * Z) :=
  reconcile_jobs q (map j_id (isort reconcile_leb (select_where reconcilable (jobs (db q))))).
End reconcile.
End delivery.

(** ** What the other writers of the store do to the outbox *)

(** Jobs stay, with their tenant and run. *)
Definition jobs_keep (js js' : gmap string RuntimeJob) : Prop :=
  forall i j, js !! i = Some j -> exists j', js' !! i = Some j' /\ j_tenant_id j' = j_tenant_id j /\ j_run_id j' = j_run_id j.
Lemma jobs_keep_refl js : jobs_keep js js.
Proof. intros i j Hj. by exists j. Qed.
Lemma jobs_keep_trans a b c : jobs_keep a b -> jobs_keep b c -> jobs_keep a c.
Proof.
  intros H1 H2 i j Hj. destruct (H1 i j Hj) as (j1 & Hj1 & E1 & E2). destruct (H2 i j1 Hj1) as (j2 & Hj2 & E3 & E4).
  exists j2. split_and!; congruence.
Qed.
Lemma enqueue_keeps js ls js' ls' : enqueues js ls js' ls' -> jobs_keep js js'.
Proof.
  intros [|tid id tn life mode c j _ Hn _ _ _ _] i x Hx; [by exists x|]. exists x. rewrite lookup_insert_ne by congruence. done.
Qed.
Lemma put_job_keeps (s : store) j j' :
  jobs s !! j_id j' = Some j -> j_tenant_id j' = j_tenant_id j -> j_run_id j' = j_run_id j -> jobs_keep (jobs s) (jobs (put_job j' s)).
Proof.
  intros Hj E1 E2 i x Hx. cbn. destruct (decide (i = j_id j')) as [->|Hn].
  - exists j'. rewrite lookup_insert_eq. split_and!; congruence.
  - exists x. by rewrite lookup_insert_ne.
Qed.
Lemma effect_keeps s s' : lane_effect s s' -> jobs_keep (jobs s) (jobs s').
Proof.
  intros [Ej _|He|i j0 j' Hj [_ [Et _] _ Er _ _ _] He].
  - rewrite Ej. apply jobs_keep_refl.
  - by eapply enqueue_keeps.
  - eapply jobs_keep_trans; [|by eapply enqueue_keeps]. intros k x Hx. destruct (decide (k = i)) as [->|Hn].
    + exists j'. rewrite lookup_insert_eq. split_and!; congruence.
    + exists x. by rewrite lookup_insert_ne.
Qed.

(** The outbox keeps its rows; at most one job that did not exist is announced. *)
Record announces (s s' : store) (o : OutboxEvent) : Prop := {
  an_insert : insert_outbox s o = Ok (put_outbox o s);
  an_outbox : outbox s' = outbox (put_outbox o s);
  an_first : o_delivery_generation o = 1 /\ o_published_at o = None /\ o_superseded_at o = None;
  an_new : jobs s !! o_job_id o = None;
  an_job : exists j, jobs s' !! o_job_id o = Some j /\ j_tenant_id j = o_tenant_id o /\ j_run_id j = o_run_id o;
}.
Definition outbox_kept (s s' : store) : Prop := outbox s' = outbox s \/ exists o, announces s s' o.

Section writers.
Context `{PyRuntime}.

Lemma start_turn_outbox s run kind : outbox (start_turn s run kind) = outbox s.
Proof. apply (q_outbox _ _ (start_turn_quiet s run kind)). Qed.
Lemma claim_same_outbox s ev jid owner secs lease s' : claim s ev jid owner secs = Ok (lease, s') -> outbox s' = outbox s.
Proof.
  unfold claim. intros Hc. destruct (jobs s !! jid) as [job|]; [|done]. destruct (get_where (tickets s) _ _) as [t|]; [|done].
  steps_ok Hc. destruct (get_where (runs s) _ _) as [run|]; [|done]. steps_ok Hc. injection Hc as _ <-.
  destruct (_ ==? "queued"); cbn; by rewrite start_turn_outbox.
Qed.
Lemma complete_same_outbox s ev l out s' : complete s ev l out = Ok s' -> outbox s' = outbox s.
Proof. unfold complete. intros Hc. steps_ok Hc. destruct (runs s !! _); [|done]. by injection Hc as <-. Qed.
Lemma heartbeat_same_outbox s ev l secs s' : heartbeat s ev l secs = Ok s' -> outbox s' = outbox s.
Proof. unfold heartbeat. intros Hc. steps_ok Hc. by injection Hc as <-. Qed.
Lemma activate_kept s ev ids tid tr r s' :
  keyed s -> activate_next_turn s ev ids tid tr = Ok (r, s') -> outbox_kept s s'.
Proof.
  intros Hk Ha. destruct r as [[rid jid]|]; [|apply activate_none in Ha as ->; by left].
  destruct (activate_ok _ _ _ _ _ _ _ _ Hk Ha) as (_ & t & u & A). right. exists (activation_outbox ids tid rid tr (database_now ev) t).
  destruct (act_outbox _ _ _ _ _ _ _ _ _ A) as [Hi Ho]. split; [exact Hi|exact Ho|done|exact (act_fresh _ _ _ _ _ _ _ _ _ A)|].
  eexists. rewrite (act_jobs _ _ _ _ _ _ _ _ _ A). cbn. rewrite lookup_insert_eq. done.
Qed.
Lemma insert_outbox_frame s1 s2 o :
  outbox s1 = outbox s2 -> insert_outbox s1 o = Ok (put_outbox o s1) -> insert_outbox s2 o = Ok (put_outbox o s2).
Proof.
  intros E Hi. unfold insert_outbox in *. rewrite <- E. apply raise_if_ok in Hi as [-> _]. done.
Qed.
(** Quiet steps before and after do not matter. *)
Lemma kept_quiet_l s s1 s' : quiet s s1 -> outbox_kept s1 s' -> outbox_kept s s'.
Proof.
  intros [Hj Ho _ _] [E|(o & [Hi Hout Hf Hn Hx])]; [left; congruence|]. right. exists o. split; [|cbn; cbn in Hout; congruence|done|congruence|done].
  by apply (insert_outbox_frame s1).
Qed.
Lemma kept_quiet_r s s1 s' : outbox_kept s s1 -> quiet s1 s' -> outbox_kept s s'.
Proof.
  intros [E|(o & [Hi Hout Hf Hn Hx])] [Hj Ho _ _]; [left; congruence|]. right. exists o. split; [done|congruence|done|done|]. by rewrite Hj.
Qed.
Lemma dead_kept s ev ids job rid reason s' :
  keyed s -> converge_dead_aggregates s ev ids job rid reason = Ok s' -> outbox_kept s s'.
Proof.
  intros Hk Hc. destruct (dead_steps _ _ _ _ _ _ _ Hk Hc) as (s4 & Q & Hs). pose proof (q_keyed _ _ Q Hk) as K4.
  apply (kept_quiet_l _ s4); [done|]. destruct Hs as [->|(tid & tr & x & s5 & st & Ha & Ht)]; [by left|].
  eapply kept_quiet_r; [by eapply activate_kept|]. eapply converge_ticket_quiet; [|done]. by destruct (activate_enqueues _ _ _ _ _ _ _ K4 Ha).
Qed.
(** A write to the job's own row before the announcement. *)
Lemma kept_put s s1 s' :
  outbox s1 = outbox s -> (forall i, jobs s !! i = None -> jobs s1 !! i = None) -> (forall i, jobs s1 !! i = None -> jobs s !! i = None) ->
  outbox_kept s1 s' -> outbox_kept s s'.
Proof.
  intros Ho H1 H2 [E|(o & [Hi Hout Hf Hn Hx])]; [left; congruence|]. right. exists o. split; [|cbn; cbn in Hout; congruence|done|auto|done].
  by apply (insert_outbox_frame s1).
Qed.
Lemma fail_kept s ev ids l code m g st s' : keyed s -> fail s ev ids l code m g = Ok (st, s') -> outbox_kept s s'.
Proof.
  intros Hk Hf. unfold fail in Hf. steps_ok Hf. destruct (runs s !! l_run_id l) as [run|]; [|done]. steps_ok Hf.
  apply fence_ok in Hstep as Hfence. destruct Hfence as (Hj & _). pose proof (fence_key _ _ _ _ Hk Hstep) as Eid.
  set (job' := set_j_available_at _ _) in *. injection Hf as _ <-.
  assert (j_id job' = l_job_id l) as Ej. { subst job'. unfold transition_runtime_job_status. rewrite <- Eid. by destruct (j_status a ==? _). }
  clearbody job'. set (s1 := put_run _ (put_job job' s)) in *.
  apply (kept_put _ s1); [done|intros i Hi..|].
  - subst s1. cbn. rewrite Ej. rewrite lookup_insert_ne; [done|congruence].
  - subst s1. cbn in Hi. by apply lookup_insert_None in Hi as [Hi _].
  - destruct (d_terminal a0); [|injection Hstep1 as <-; by left]. eapply dead_kept; [|done]. subst s1. auto with keyed.
Qed.
Lemma terminal_fail_kept s ev ids l code st s' : keyed s -> terminal_fail s ev ids l code = Ok (st, s') -> outbox_kept s s'.
Proof.
  intros Hk Hf. unfold terminal_fail in Hf. steps_ok Hf. destruct (runs s !! l_run_id l) as [run|]; [|done]. steps_ok Hf.
  apply fence_ok in Hstep as Hfence. destruct Hfence as (Hj & _). pose proof (fence_key _ _ _ _ Hk Hstep) as Eid.
  pose proof (release_identity a "dead" (Some (py_take 128 code))) as (Ej & _). set (job' := release _) in *. clearbody job'.
  destruct (runs a0 !! l_run_id l) as [run'|]; [|done]. injection Hf as _ <-.
  eapply kept_quiet_r with a0; [|split; [done..|auto with keyed]].
  apply (kept_put _ (put_job job' s)); [done|intros i Hi..|by eapply dead_kept; [|done]; auto with keyed].
  - cbn. rewrite lookup_insert_ne; [done|congruence].
  - cbn in Hi. by apply lookup_insert_None in Hi as [Hi _].
Qed.
End writers.

(** ** Announced deliveries *)

(** Every row belongs to its job; the generations of a job run from one to at
    most five, and exactly the latest row is current. *)
Record outbox_inv (s : store) : Prop := {
  oi_key : forall i o, outbox s !! i = Some o -> o_id o = i;
  oi_job : forall i o, outbox s !! i = Some o ->
    exists j, jobs s !! o_job_id o = Some j /\ j_tenant_id j = o_tenant_id o /\ j_run_id j = o_run_id o;
  oi_bounds : forall i o, outbox s !! i = Some o -> 1 <= o_delivery_generation o <= MAX_DELIVERY_GENERATION;
  oi_unique : forall i k a b, outbox s !! i = Some a -> outbox s !! k = Some b -> o_job_id a = o_job_id b ->
    o_delivery_generation a = o_delivery_generation b -> i = k;
  oi_delivery : forall i k a b, outbox s !! i = Some a -> outbox s !! k = Some b -> o_delivery_id a = o_delivery_id b -> i = k;
  oi_current : forall i k a b, outbox s !! i = Some a -> outbox s !! k = Some b -> o_job_id a = o_job_id b ->
    o_superseded_at a = None -> o_delivery_generation b <= o_delivery_generation a;
  oi_superseded : forall i a, outbox s !! i = Some a -> o_superseded_at a <> None ->
    o_published_at a <> None /\
    exists k b, outbox s !! k = Some b /\ o_job_id b = o_job_id a /\ o_delivery_generation a < o_delivery_generation b;
}.
(** The columns that place a delivery; the others may change freely. *)
Definition placement (o : OutboxEvent) : string * string * string * string * string * Z :=
  (o_id o, o_delivery_id o, o_tenant_id o, o_job_id o, o_run_id o, o_delivery_generation o).

Lemma outbox_inv_jobs s s' : outbox s' = outbox s -> jobs_keep (jobs s) (jobs s') -> outbox_inv s -> outbox_inv s'.
Proof.
  intros Ho Hk [K J B U D C S]. split; rewrite ?Ho; [done| |done..]. intros i o Hi. destruct (J i o Hi) as (j & Hj & E1 & E2).
  destruct (Hk _ _ Hj) as (j' & Hj' & F1 & F2). exists j'. split_and!; congruence.
Qed.
Lemma clash_false o x :
  outbox_clash o x = false <->
  o_delivery_id x <> o_delivery_id o /\
  (o_job_id x = o_job_id o -> o_delivery_generation x <> o_delivery_generation o /\
                              ~ (o_superseded_at x = None /\ o_superseded_at o = None)).
Proof.
  unfold outbox_clash. rewrite orb_false_iff, eqb_false, andb_false_iff, eqb_false, orb_false_iff, Z.eqb_neq.
  apply and_iff_compat_l. destruct (decide (o_job_id x = o_job_id o)) as [E|E]; [|tauto].
  destruct (o_superseded_at x), (o_superseded_at o); cbn; intuition congruence.
Qed.
(** Inserting the next generation of a job whose rows are all superseded. *)
Lemma outbox_inv_insert s o j :
  outbox_inv s -> outbox s !! o_id o = None -> (forall i x, outbox s !! i = Some x -> outbox_clash o x = false) ->
  o_superseded_at o = None -> 1 <= o_delivery_generation o <= MAX_DELIVERY_GENERATION ->
  jobs s !! o_job_id o = Some j -> j_tenant_id j = o_tenant_id o -> j_run_id j = o_run_id o ->
  (forall i x, outbox s !! i = Some x -> o_job_id x = o_job_id o -> o_delivery_generation x < o_delivery_generation o) ->
  outbox_inv (put_outbox o s).
Proof.
  intros [K J B U D C S] Hn Hc Hs Hb Hj E1 E2 Hlt.
  assert (forall i a, outbox (put_outbox o s) !! i = Some a -> (i = o_id o /\ a = o) \/ (i <> o_id o /\ outbox s !! i = Some a)) as Hl.
  { intros i a. cbn. rewrite lookup_insert_Some. naive_solver. }
  split.
  - intros i a [[-> ->]|[_ Ha]]%Hl; [done|by apply K].
  - intros i a [[-> ->]|[_ Ha]]%Hl; [by exists j|]. by apply (J i a).
  - intros i a [[-> ->]|[_ Ha]]%Hl; [done|by eapply B].
  - intros i k a b [[-> ->]|[Hi Ha]]%Hl [[-> ->]|[Hk Hb']]%Hl Ej Eg; [done| | |by eapply U].
    + specialize (Hlt _ _ Hb' (eq_sym Ej)). lia.
    + specialize (Hlt _ _ Ha Ej). lia.
  - intros i k a b [[-> ->]|[Hi Ha]]%Hl [[-> ->]|[Hk Hb']]%Hl Ed; [done| | |by eapply D].
    + apply Hc, clash_false in Hb' as [Hne _]. congruence.
    + apply Hc, clash_false in Ha as [Hne _]. congruence.
  - intros i k a b [[-> ->]|[Hi Ha]]%Hl [[-> ->]|[Hk Hb']]%Hl Ej Es; [lia| | |by eapply C].
    + specialize (Hlt _ _ Hb' (eq_sym Ej)). lia.
    + apply Hc, clash_false in Ha as [_ Hcl]. destruct (Hcl Ej) as [_ []]. done.
  - intros i a [[-> ->]|[Hi Ha]]%Hl Es; [done|]. destruct (S _ _ Ha Es) as (Hp & k & b & Hb' & Ej & Hg).
    split; [done|]. exists k, b. split_and!; [|done..]. cbn. rewrite lookup_insert_ne; [done|]. intros <-. congruence.
Qed.
(** Updating a row in place; a row that becomes superseded has been published
    and is followed by a new one. *)
Lemma outbox_inv_update s a a' :
  outbox_inv s -> outbox s !! o_id a = Some a -> placement a' = placement a -> o_superseded_at a' = o_superseded_at a ->
  (o_published_at a <> None -> o_published_at a' <> None) -> outbox_inv (put_outbox a' s).
Proof.
  intros [K J B U D C S] Ha Hp Hsup Hpub. injection Hp as E1 E2 E3 E4 E5 E6.
  assert (forall i x', outbox (put_outbox a' s) !! i = Some x' ->
            exists x, outbox s !! i = Some x /\ placement x' = placement x /\ o_superseded_at x' = o_superseded_at x /\
                      (o_published_at x <> None -> o_published_at x' <> None)) as Hl.
  { intros i x'. cbn. rewrite lookup_insert_Some, E1. intros [[<- <-]|[_ Hx]]; [exists a|exists x']; split_and!; try done.
    unfold placement. congruence. }
  assert (forall i x, outbox s !! i = Some x -> exists x', outbox (put_outbox a' s) !! i = Some x' /\ placement x' = placement x) as Hl'.
  { intros i x Hx. cbn. rewrite E1. destruct (decide (i = o_id a)) as [->|Hn].
    - exists a'. rewrite lookup_insert_eq. split; [done|]. assert (x = a) as -> by congruence. unfold placement. congruence.
    - exists x. by rewrite lookup_insert_ne. }
  unfold placement in *. split.
  - intros i x' (x & Hx & [= P1 P2 P3 P4 P5 P6] & _)%Hl. rewrite P1. by apply K.
  - intros i x' (x & Hx & [= P1 P2 P3 P4 P5 P6] & _)%Hl. rewrite P3, P4, P5. by eapply J.
  - intros i x' (x & Hx & [= P1 P2 P3 P4 P5 P6] & _)%Hl. rewrite P6. by eapply B.
  - intros i k x' y' (x & Hx & [= P1 P2 P3 P4 P5 P6] & _)%Hl (y & Hy & [= Q1 Q2 Q3 Q4 Q5 Q6] & _)%Hl F1 F2. eapply U; [done..|congruence|congruence].
  - intros i k x' y' (x & Hx & [= P1 P2 P3 P4 P5 P6] & _)%Hl (y & Hy & [= Q1 Q2 Q3 Q4 Q5 Q6] & _)%Hl F1. eapply D; [done..|congruence].
  - intros i k x' y' (x & Hx & [= P1 P2 P3 P4 P5 P6] & Sx & _)%Hl (y & Hy & [= Q1 Q2 Q3 Q4 Q5 Q6] & _)%Hl F1 F2.
    rewrite P6, Q6. eapply C; [done..|congruence|congruence].
  - intros i x' (x & Hx & [= P1 P2 P3 P4 P5 P6] & Sx & Px)%Hl F. rewrite Sx in F. destruct (S _ _ Hx F) as (Hp & k & y & Hy & G1 & G2).
    split; [by apply Px|]. destruct (Hl' _ _ Hy) as (y' & Hy' & [= R1 R2 R3 R4 R5 R6]). exists k, y'. split_and!; [done|congruence|lia].
Qed.
Lemma kept_inv s s' : outbox_inv s -> jobs_keep (jobs s) (jobs s') -> outbox_kept s s' -> outbox_inv s'.
Proof.
  intros Hi Hk [E|(o & [Hins Ho (G & P & Sp) Hn (j & Hj & E1 & E2)])]; [by eapply outbox_inv_jobs|].
  apply insert_outbox_ok in Hins as (_ & Hnone & Hc).
  assert (outbox_inv (set_jobs (jobs s') s)) as Hi1 by (eapply outbox_inv_jobs; [..|exact Hi]; done).
  assert (forall i x, outbox s !! i = Some x -> o_job_id x <> o_job_id o) as Hno.
  { intros i x Hx Ex. destruct (oi_job _ Hi _ _ Hx) as (y & Hy & _). rewrite Ex in Hy. congruence. }
  eapply (outbox_inv_jobs (put_outbox o (set_jobs (jobs s') s))); [exact Ho|apply jobs_keep_refl|].
  eapply outbox_inv_insert; [done|done|done|done|rewrite G; unfold MAX_DELIVERY_GENERATION; lia|done..|].
  intros i x Hx Ex. destruct (Hno i x Hx Ex).
Qed.

(** ** Every operation keeps the contract of the queue *)
Record queue_ok (q : queue) : Prop := {
  qo_lane : lane_ok (db q);
  qo_outbox : outbox_inv (db q);
  qo_inbox : forall i r, inbox q !! i = Some r -> ib_id r = i;
}.
(** What one committed write does to the store. *)
Record store_effect (s s' : store) : Prop := {
  se_lane : lane_effect s s';
  se_keyed : keyed s';
  se_kept : outbox_kept s s';
}.
Lemma effect_ok q s' : queue_ok q -> store_effect (db q) s' -> queue_ok (set_db s' q).
Proof.
  intros [[Hk Hl] Ho Hi] [He Hk' Hkept]. split; [|cbn|exact Hi].
  - split; [done|by eapply effect_inv].
  - eapply kept_inv; [done|by apply effect_keeps|done].
Qed.
Lemma outbox_write_ok q s' :
  queue_ok q -> jobs s' = jobs (db q) -> lanes s' = lanes (db q) -> keyed s' -> outbox_inv s' -> queue_ok (set_db s' q).
Proof.
  intros [[Hk Hl] Ho Hi] Ej El Hk' Ho'. split; [|done|done]. split; [done|]. cbn. by rewrite Ej, El.
Qed.
Lemma put_inbox_ok q r : queue_ok q -> queue_ok (put_inbox r q).
Proof. intros [Hl Ho Hi]. split; [done..|]. intros i x. cbn. rewrite lookup_insert_Some. intros [[<- <-]|[_ Hx]]; [done|by apply Hi]. Qed.
Lemma add_audit_ok q a : queue_ok q -> queue_ok (add_audit a q).
Proof. intros [Hl Ho Hi]. by split. Qed.
Lemma set_db_same q : set_db (db q) q = q.
Proof. by destruct q. Qed.

Lemma rows_keys {A} (key : A -> string) (t : gmap string A) f :
  (forall i r, t !! i = Some r -> key r = i) -> NoDup (map key (select_where f t)).
Proof.
  intros Hk. unfold select_where, rows.
  assert (forall l, NoDup l.*1 -> (forall i r, (i, r) ∈ l -> key r = i) -> NoDup (map key (List.filter f (map snd l)))) as Hl;
    [|apply Hl; [apply NoDup_fst_map_to_list|intros i r Hin; apply Hk; by apply elem_of_map_to_list]].
  induction l as [|[i r] l IH]; cbn; [constructor|]. intros [Hn Hnd]%NoDup_cons Hkeys.
  assert (forall i r, (i, r) ∈ l -> key r = i) as Hkl by (intros; apply Hkeys; by right).
  destruct (f r); [|by apply IH]. cbn. constructor; [|by apply IH]. intros Hin. apply list_elem_of_fmap in Hin as (r' & E & Hr').
  rewrite list_elem_of_In, filter_In, <- list_elem_of_In in Hr'. destruct Hr' as [Hr' _]. apply list_elem_of_fmap in Hr' as ([i' x] & -> & Hix).
  cbn in E. rewrite (Hkeys i r), (Hkl i' x) in E by (done || by left). subst i'. destruct Hn. apply list_elem_of_fmap. by exists (i, x).
Qed.

Section operations.
Context `{PyRuntime} `{MessageCodec} `{RedisStream}.

Definition same_jobs (s s' : store) : Prop := jobs s' = jobs s /\ lanes s' = lanes s /\ (keyed s -> keyed s').
Lemma take_events_ok at_ events s :
  outbox_inv s -> NoDup (map o_id events) -> (forall o, o ∈ events -> outbox s !! o_id o = Some o) ->
  outbox_inv (fold_left (take_event at_) events s) /\ same_jobs s (fold_left (take_event at_) events s).
Proof.
  revert s. induction events as [|o l IH]; intros s Hi Hnd Hin; cbn; [by split|]. apply NoDup_cons in Hnd as [Hn Hnd].
  assert (outbox_inv (take_event at_ s o)) as Hi1.
  { apply (outbox_inv_update s o); [done|apply Hin; by left|done..]. }
  destruct (IH (take_event at_ s o) Hi1 Hnd) as [Hi2 (E1 & E2 & E3)].
  { intros x Hx. unfold take_event. cbn. rewrite lookup_insert_ne; [apply Hin; by right|]. intros E. destruct Hn. rewrite E.
    apply list_elem_of_fmap. eauto. }
  split; [done|]. split_and!; [by rewrite E1|by rewrite E2|]. intros Hk. apply E3. unfold take_event. auto with keyed.
Qed.
Lemma due_batch_rows s now n :
  outbox_inv s -> NoDup (map o_id (due_batch s now n)) /\ forall o, o ∈ due_batch s now n -> outbox s !! o_id o = Some o /\ due_event now o = true.
Proof.
  intros Hi. assert (forall o, o ∈ due_batch s now n -> o ∈ select_where (due_event now) (outbox s)) as Hsub.
  { intros o Ho. unfold due_batch in Ho. apply elem_of_take in Ho as (k & Ho & _). apply list_elem_of_lookup_2 in Ho. by rewrite elem_of_isort in Ho. }
  split.
  - unfold due_batch. rewrite <- firstn_map. eapply sublist_NoDup; [|apply sublist_take].
    rewrite (isort_perm created_leb). apply (rows_keys o_id), Hi.
  - intros o Ho%Hsub. apply select_where_elem in Ho as [(i & Hx) Hd]. by rewrite (oi_key _ Hi _ _ Hx).
Qed.
Lemma claim_outbox_ok q now at_ n : queue_ok q -> queue_ok (set_db (claim_outbox (db q) now at_ n).2 q).
Proof.
  intros Hq. destruct (due_batch_rows (db q) now n (qo_outbox _ Hq)) as [Hnd Hin].
  destruct (take_events_ok at_ (due_batch (db q) now n) (db q) (qo_outbox _ Hq) Hnd) as [Hi (E1 & E2 & E3)]; [by intros; apply Hin|].
  apply outbox_write_ok; [done..|apply E3, Hq|done].
Qed.
Lemma publish_one_ok q st id now s' st' n :
  queue_ok q -> publish_one (db q) st id now = Ok (s', st', n) -> queue_ok (set_db s' q).
Proof.
  intros Hq Hp. unfold publish_one in Hp. destruct (outbox (db q) !! id) as [o|] eqn:Eo; [|simplify_eq; by rewrite set_db_same].
  destruct (isSome (o_published_at o)); [simplify_eq; by rewrite set_db_same|]. steps_ok Hp. destruct (xadd st _) as [[rid|] st1];
    [|simplify_eq; by rewrite set_db_same]. unfold mark_published in Hp. rewrite Eo in Hp.
  destruct (isNone (o_published_at o)); simplify_eq; [|by rewrite set_db_same]. pose proof (oi_key _ (qo_outbox _ Hq) _ _ Eo) as Eid.
  apply outbox_write_ok; [done..|destruct Hq as [[Hk _] _ _]; auto with keyed|].
  apply (outbox_inv_update _ o); [apply Hq|by rewrite Eid|done..].
Qed.

Lemma interrupted_effect s ev jid owner secs :
  keyed s -> claim s ev jid owner secs = Err (RuntimeConflict "job_ticket_mismatch") ->
  store_effect s (interrupted_claim s ev jid owner secs).
Proof.
  intros Hk Hc. unfold claim in Hc. unfold interrupted_claim. destruct (jobs s !! jid) as [job|] eqn:Ej; [|done].
  destruct (get_where (tickets s) _ _) as [t|]; [|done].
  unfold raise_if in Hc. repeat (match type of Hc with (if ?b then _ else _) = _ => destruct b eqn:?; [discriminate|] end).
  destruct (get_where (runs s) _ _) as [run|]; [|done].
  set (job' := lease_job job owner (database_now ev) secs). set (run' := set_r_status_version _ _).
  destruct (start_turn_quiet (put_run run' (put_job job' s)) run' (j_kind job')) as [Q1 Q2 Q3 Q4].
  pose proof (lease_job_spec job owner (database_now ev) secs) as L. fold job' in L. unfold neqb in *. to_prop.
  split.
  - apply (le_move _ _ jid job job'); [done| |rewrite Q1, Q3; cbn [jobs put_run set_runs put_job set_jobs]; rewrite (lj_id _ _ _ _ L), (keyed_jobs _ Hk _ _ Ej); constructor].
    split; [apply L|apply L|apply L|apply L|rewrite (lj_token _ _ _ _ L); lia| |].
    + intros _. unfold active, active_status. apply mem_true. set_solver.
    + intros _. right. intros k b Hb [E1 E2] Hab. eapply head_sequence_min; [eassumption|done|congruence|congruence|done].
  - apply Q4. auto with keyed.
  - left. by rewrite Q2.
Qed.

Lemma claim_store_effect s ev jid owner secs lease s' :
  keyed s -> claim s ev jid owner secs = Ok (lease, s') -> store_effect s s'.
Proof.
  intros Hk Hc. destruct (claim_effect _ _ _ _ _ _ _ Hk Hc) as [He K]. split; [done..|left; by eapply claim_same_outbox].
Qed.
Lemma record_delivery_ok q id now m rid g d reused q' :
  queue_ok q -> record_delivery q id now m rid g = Ok (d, reused, q') -> queue_ok q' /\ db q' = db q /\ (reused = true -> q' = q).
Proof.
  intros Hq Hr. unfold record_delivery in Hr. destruct (select_where _ _) as [|x l]; [|simplify_eq; done]. steps_ok Hr. simplify_eq.
  split_and!; [by apply put_inbox_ok|done|done].
Qed.
Lemma admission_ok q ev id g consumer secs e adm q' :
  queue_ok q -> _accept_sqlite_delivery q ev id g consumer secs e = Ok (adm, q') -> queue_ok q'.
Proof.
  intros Hq Ha. unfold _accept_sqlite_delivery in Ha. destruct (mismatched _ _); [simplify_eq; by apply add_audit_ok|].
  apply res_bind_ok in Ha as ([[d reused] q1] & Hr & Ha). destruct (record_delivery_ok _ _ _ _ _ _ _ _ _ Hq Hr) as (Hq1 & _ & _).
  pose proof (qo_lane _ Hq1) as [Hk1 _]. destruct (reused && _); [by simplify_eq|].
  destruct (claim (db q1) ev _ _ _) as [[lease s]|[]] eqn:Ec; try done.
  - simplify_eq. apply put_inbox_ok, effect_ok; [done|by eapply claim_store_effect].
  - simplify_eq. apply put_inbox_ok. destruct (code ==? _) eqn:E; [|done]. rewrite eqb_true in E. subst.
    apply effect_ok; [done|]. by apply interrupted_effect.
Qed.
Lemma finish_job_effect s ev ids l out f r s' :
  keyed s -> finish_job s ev ids l out f = Ok (r, s') -> s' = s \/ store_effect s s'.
Proof.
  intros Hk Hf. unfold finish_job in Hf.
  assert (forall e code m g st s', fail s e ids l code m g = Ok (st, s') -> store_effect s s') as Hfail.
  { intros. edestruct fail_effect; [done..|]. split; [done..|by eapply fail_kept]. }
  assert (forall b : bool, (if b then let? s := complete s ev l out in Ok (out, s) else Ok (out, s)) = Ok (r, s') -> s' = s \/ store_effect s s') as Hcomp.
  { intros [|] Hc; [|simplify_eq; by left]. apply res_bind_ok in Hc as (s1 & Hc & [= _ <-]). right.
    edestruct complete_effect; [done..|]. split; [done..|left; by eapply complete_same_outbox]. }
  destruct (match jobs s !! _ with Some job => _ | None => _ end) eqn:El; [|by destruct f as [[]|]; apply Hcomp in Hf].
  destruct f as [[]|]; try (right; by eapply Hfail); [|by apply Hcomp in Hf].
  right. edestruct terminal_fail_effect; [done..|]. split; [done..|by eapply terminal_fail_kept].
Qed.
Lemma settle_ok q ev ids g m l out f r t q' :
  queue_ok q -> _finish_sqlite_delivery q ev ids g m l out f = Ok (r, t, q') -> queue_ok q'.
Proof.
  intros Hq Hf. unfold _finish_sqlite_delivery in Hf. apply res_bind_ok in Hf as ([o s] & Hj & Hf).
  destruct (select_where _ _) as [|d l']; [done|]. simplify_eq. apply put_inbox_ok.
  destruct (finish_job_effect _ _ _ _ _ _ _ _ (proj1 (qo_lane _ Hq)) Hj) as [->|He]; [by rewrite set_db_same|by apply effect_ok].
Qed.

(** *** The reconciler *)
Lemma put_job_effect s j j' :
  keyed s -> jobs s !! j_id j = Some j -> same_identity j j' -> (active j' -> active j) -> ~ leased j' -> store_effect s (put_job j' s).
Proof.
  intros Hk Hj (E1 & E2 & E3 & E4 & E5 & E6) Ha Hl. split; [|auto with keyed|by left].
  eapply put_moves; [done|exact Hj| |done|done]. split; [done|done|done|done|lia|done|]. intros ?. done.
Qed.
Lemma transition_moves j st : st = "queued" -> active j -> same_identity j (transition_runtime_job_status j st) /\
  (active (transition_runtime_job_status j st) -> active j) /\ ~ leased (transition_runtime_job_status j st).
Proof. intros -> Ha. split; [apply transition_identity|]. split; [done|]. unfold leased. by rewrite transition_status. Qed.
Lemma latest_event_spec s id o :
  latest_event s id = Some o ->
  (exists i, outbox s !! i = Some o) /\ o_job_id o = id /\
  forall i x, outbox s !! i = Some x -> o_job_id x = id -> o_delivery_generation x <= o_delivery_generation o.
Proof.
  unfold latest_event. intros Hf. apply first_by_some in Hf as [Hin Hmax];
    [|unfold generation_geb; intros x y; rewrite Z.leb_gt, Z.leb_le; lia|unfold generation_geb; intros x y z; rewrite !Z.leb_le; lia].
  apply select_where_elem in Hin as [Hin Hid]. rewrite eqb_true in Hid. split_and!; [done..|]. intros i x Hx Ex.
  apply Z.leb_le, (Hmax x), select_where_elem. split; [eauto|by apply eqb_true].
Qed.
Lemma latest_event_none s id : latest_event s id = None -> forall i x, outbox s !! i = Some x -> o_job_id x <> id.
Proof.
  unfold latest_event. rewrite first_by_none. intros E i x Hx Ex.
  assert (x ∈ select_where (fun o => o_job_id o ==? id) (outbox s)) as Hin by (apply select_where_elem; split; [eauto|by apply eqb_true]).
  rewrite E in Hin. by apply not_elem_of_nil in Hin.
Qed.
Definition inbox_keyed (q : queue) : Prop := forall i r, inbox q !! i = Some r -> ib_id r = i.
Lemma supersede_inbox_fold event g l q :
  inbox_keyed q -> inbox_keyed (fold_left (supersede_inbox event g) l q) /\ db (fold_left (supersede_inbox event g) l q) = db q.
Proof.
  revert q. induction l as [|r l IH]; intros q Hq; cbn; [done|]. destruct (IH (supersede_inbox event g q r)) as [H2 ->]; [|done].
  intros i x. cbn. rewrite lookup_insert_Some. intros [[<- <-]|[_ Hx]]; [done|by apply Hq].
Qed.
Definition superseded (rc : reconciler) (event : OutboxEvent) (next : string) : OutboxEvent :=
  event |> set_o_superseded_at (Some (rc_now rc)) |> set_o_superseded_by_delivery_id (Some next)
        |> set_o_delivery_state_version (o_delivery_state_version event + 1).
Lemma supersede_spec rc q event g next :
  inbox_keyed q -> inbox_keyed (_supersede_delivery rc q event g next) /\
  db (_supersede_delivery rc q event g next) = put_outbox (superseded rc event next) (db q).
Proof.
  intros Hq. unfold _supersede_delivery. fold (superseded rc event next). cbn [inbox set_db].
  destruct (select_where _ (inbox q)) as [|r l] eqn:E; [by split|].
  by destruct (supersede_inbox_fold event g (r :: l) (set_db (put_outbox (superseded rc event next) (db q)) q)).
Qed.
(** The latest row is superseded by the row of the next generation. *)
Lemma outbox_inv_redeliver s a a' o j :
  outbox_inv s -> outbox s !! o_id a = Some a -> placement a' = placement a -> o_published_at a <> None -> o_published_at a' <> None ->
  o_superseded_at a' <> None -> o_superseded_at o = None -> o_job_id o = o_job_id a ->
  o_delivery_generation o = o_delivery_generation a + 1 -> o_delivery_generation o <= MAX_DELIVERY_GENERATION ->
  (forall i x, outbox s !! i = Some x -> o_job_id x = o_job_id a -> o_delivery_generation x <= o_delivery_generation a) ->
  insert_outbox (put_outbox a' s) o = Ok (put_outbox o (put_outbox a' s)) ->
  jobs s !! o_job_id a = Some j -> j_tenant_id j = o_tenant_id o -> j_run_id j = o_run_id o ->
  outbox_inv (put_outbox o (put_outbox a' s)).
Proof.
  intros [K J B U D C S] Ha Hp Hpa Hpa' Hsup Hs0 Ej Eg Hmax Hlatest (_ & Hn & Hc)%insert_outbox_ok Hj F1 F2.
  injection Hp as E1 E2 E3 E4 E5 E6. cbn in Hn, Hc. rewrite E1 in Hn, Hc.
  assert (forall i x', outbox (put_outbox o (put_outbox a' s)) !! i = Some x' ->
     (i = o_id o /\ x' = o) \/ (i <> o_id o /\ exists x, outbox s !! i = Some x /\ placement x' = placement x /\ outbox_clash o x' = false /\
        (o_superseded_at x' <> None -> o_published_at x' <> None) /\ (o_superseded_at x' = None -> o_superseded_at x = None) /\
        (o_superseded_at x' <> None -> x' = x \/ o_job_id x = o_job_id a))) as Hl.
  { intros i x'. cbn. rewrite E1. intros [[<- <-]|[Hne Hx]]%lookup_insert_Some; [by left|right]. split; [done|].
    pose proof (Hc _ _ Hx) as Hcl. apply lookup_insert_Some in Hx as [[<- <-]|[Hne' Hx]].
    - exists a. split_and!; try done. + unfold placement. congruence. + by right.
    - exists x'. split_and!; try done; [|by left]. intros Hs. by destruct (S _ _ Hx Hs). }
  assert (forall i x, outbox s !! i = Some x -> exists x', outbox (put_outbox o (put_outbox a' s)) !! i = Some x' /\ placement x' = placement x) as Hl'.
  { intros i x Hx. cbn. rewrite E1. rewrite lookup_insert_ne.
    2:{ intros <-. rewrite lookup_insert_None in Hn. destruct Hn. congruence. }
    destruct (decide (i = o_id a)) as [->|Hne].
    - exists a'. rewrite lookup_insert_eq. split; [done|]. assert (x = a) as -> by congruence. unfold placement. congruence.
    - exists x. by rewrite lookup_insert_ne. }
  unfold placement in *. destruct (B _ _ Ha) as [Hb1 _]. split.
  - intros i x' [[-> ->]|(_ & x & Hx & [= P1 P2 P3 P4 P5 P6] & _)]%Hl; [done|]. rewrite P1. by apply K.
  - intros i x' [[-> ->]|(_ & x & Hx & [= P1 P2 P3 P4 P5 P6] & _)]%Hl; [exists j; rewrite Ej; done|]. rewrite P3, P4, P5. by eapply J.
  - intros i x' [[-> ->]|(_ & x & Hx & [= P1 P2 P3 P4 P5 P6] & _)]%Hl; [lia|]. rewrite P6. by eapply B.
  - intros i k x' y' [[-> ->]|(Hi & x & Hx & [= P1 P2 P3 P4 P5 P6] & _)]%Hl [[-> ->]|(Hk & y & Hy & [= Q1 Q2 Q3 Q4 Q5 Q6] & _)]%Hl G1 G2; [done|..].
    + specialize (Hlatest _ _ Hy). rewrite Q4 in G1. rewrite Q6 in G2. assert (o_job_id y = o_job_id a) as Hya by congruence. specialize (Hlatest Hya). lia.
    + specialize (Hlatest _ _ Hx). rewrite P4 in G1. rewrite P6 in G2. assert (o_job_id x = o_job_id a) as Hxa by congruence. specialize (Hlatest Hxa). lia.
    + eapply U; [done..|congruence|congruence].
  - intros i k x' y' [[-> ->]|(Hi & x & Hx & [= P1 P2 P3 P4 P5 P6] & Cx & _)]%Hl
      [[-> ->]|(Hk & y & Hy & [= Q1 Q2 Q3 Q4 Q5 Q6] & Cy & _)]%Hl G1; [done|..].
    + apply clash_false in Cy as [Cy _]. congruence.
    + apply clash_false in Cx as [Cx _]. congruence.
    + eapply D; [done..|congruence].
  - intros i k x' y' [[-> ->]|(Hi & x & Hx & [= P1 P2 P3 P4 P5 P6] & Cx & _ & Sx & _)]%Hl
      [[-> ->]|(Hk & y & Hy & [= Q1 Q2 Q3 Q4 Q5 Q6] & _)]%Hl G1 G2; [lia|..].
    + rewrite Q6. specialize (Hlatest _ _ Hy). rewrite Q4 in G1. assert (o_job_id y = o_job_id a) as Hya by congruence. specialize (Hlatest Hya). lia.
    + apply clash_false in Cx as [_ Cx]. destruct (Cx G1) as [_ []]. done.
    + rewrite P6, Q6. eapply C; [done..|congruence|by apply Sx].
  - intros i x' [[-> ->]|(Hi & x & Hx & [= P1 P2 P3 P4 P5 P6] & Cx & Px & Sx & Dx)]%Hl G; [done|]. split; [by apply Px|].
    destruct (Dx G) as [->|Hxa].
    + destruct (S _ _ Hx G) as (_ & k & y & Hy & G1 & G2). destruct (Hl' _ _ Hy) as (y' & Hy' & [= R1 R2 R3 R4 R5 R6]).
      exists k, y'. split_and!; [done|congruence|lia].
    + exists (o_id o), o. cbn. rewrite lookup_insert_eq. split_and!; [done|congruence|]. rewrite P6, Eg. specialize (Hlatest _ _ Hx Hxa). lia.
Qed.
Lemma redeliver_ok rc q job latest g q' :
  queue_ok q -> jobs (db q) !! j_id job = Some job -> latest = latest_event (db q) (j_id job) ->
  (forall o, latest = Some o -> o_published_at o <> None) ->
  g = match latest with Some o => o_delivery_generation o + 1 | None => 1 end -> g <= MAX_DELIVERY_GENERATION ->
  redeliver rc q job latest g = Ok q' -> queue_ok q'.
Proof.
  intros Hq Hj El Hpub Eg Hg Hr. unfold redeliver in Hr. apply res_bind_ok in Hr as (s & Hins & [= <-]).
  pose proof Hins as Hins'. apply insert_outbox_ok in Hins' as (-> & Hn & Hc). pose proof (qo_lane _ Hq) as [Hk Hl].
  set (o := new_outbox _ _ _ _ _ _ _ _ _) in *. destruct latest as [a|].
  - symmetry in El. apply latest_event_spec in El as ((i & Ha) & Eja & Hmax). pose proof (oi_key _ (qo_outbox _ Hq) _ _ Ha) as <-.
    destruct (supersede_spec rc q a g (f_outbox (rc_ids rc (j_id job))) (qo_inbox _ Hq)) as [Hi Edb].
    rewrite Edb in *. split; [|cbn|exact Hi].
    + split; [cbn; auto with keyed|exact Hl].
    + pose proof (Hpub a eq_refl) as Hp. subst g. apply (outbox_inv_redeliver (db q) a (superseded rc a (f_outbox (rc_ids rc (j_id job)))) o job);
        [apply Hq|done|done|done|done|done|done|by rewrite Eja|done|done| |exact Hins|by rewrite Eja|done|done].
      intros i x Hx Ex. eapply Hmax; [done|congruence].
  - split; [split; [cbn; auto with keyed|exact Hl]|cbn|apply Hq].
    eapply (outbox_inv_insert _ _ job); [apply Hq|done|done|done|subst o g; cbn; unfold MAX_DELIVERY_GENERATION; lia|done..|].
    intros i x Hx Ex. by destruct (latest_event_none _ _ (eq_sym El) _ _ Hx).
Qed.

Lemma bury_ok rc q job reason q' :
  queue_ok q -> jobs (db q) !! j_id job = Some job -> bury rc q job reason = Ok q' -> queue_ok q'.
Proof.
  intros Hq Hj Hb. unfold bury in Hb. set (job' := release _) in *. pose proof (qo_lane _ Hq) as [Hk _].
  assert (queue_ok (set_db (put_job job' (db q)) q)) as Hq1.
  { apply effect_ok; [done|]. pose proof (release_identity job "dead" (Some reason)) as Hid. fold job' in Hid.
    assert (j_status job' = "dead") as Es. { subst job'. cbn. apply transition_status. }
    eapply put_job_effect; [done|exact Hj|done|unfold active, active_status; by rewrite Es|unfold leased; congruence]. }
  destruct (runs _ !! _); [|by simplify_eq]. apply res_bind_ok in Hb as (s & Hc & [= <-]).
  pose proof (qo_lane _ Hq1) as [Hk1 _]. cbn in Hk1. destruct (dead_enqueues _ _ _ _ _ _ _ Hk1 Hc) as [He K].
  change (set_db s q) with (set_db s (set_db (put_job job' (db q)) q)). apply effect_ok; [done|]. split; [by apply le_quiet|done|].
  by eapply dead_kept.
Qed.
(** The job as the reconciler leaves it: no lease, and claimable once a retry
    is due. *)
Definition unleased (job : RuntimeJob) : RuntimeJob :=
  if j_status job ==? "leased" then release (transition_runtime_job_status job "queued") else job.
Definition requeued (job : RuntimeJob) : RuntimeJob :=
  if j_status job ==? "retry_wait" then transition_runtime_job_status job "queued" else job.
Lemma unleased_moves j :
  same_identity j (unleased j) /\ (active (unleased j) -> active j) /\ ~ leased (unleased j) /\ j_created_at (unleased j) = j_created_at j.
Proof.
  unfold unleased, leased. destruct (j_status j ==? "leased") eqn:E.
  - rewrite eqb_true in E. split_and!.
    + unfold transition_runtime_job_status. by destruct (j_status j ==? "queued").
    + intros _. by apply leased_active.
    + cbn. by rewrite transition_status.
    + cbn. unfold transition_runtime_job_status. by destruct (_ ==? _).
  - rewrite eqb_false in E. by split_and!.
Qed.
Lemma requeued_moves j :
  ~ leased j ->
  same_identity j (requeued j) /\ (active (requeued j) -> active j) /\ ~ leased (requeued j) /\ j_created_at (requeued j) = j_created_at j.
Proof.
  intros Hl. unfold requeued. destruct (j_status j ==? "retry_wait") eqn:E; [|by split_and!]. rewrite eqb_true in E. split_and!.
  - apply transition_identity.
  - intros _. unfold active, active_status. by rewrite E.
  - unfold leased. by rewrite transition_status.
  - unfold transition_runtime_job_status. by destruct (_ ==? _).
Qed.
(** The cases of one iteration: nothing to do, an unleased head whose delivery
    is under way, a burial, or a redelivery. *)
Definition put_db_job (j : RuntimeJob) (q : queue) : queue := set_db (put_job j (db q)) q.
Definition next_generation (latest : option OutboxEvent) : Z :=
  match latest with Some event => o_delivery_generation event + 1 | None => 1 end.
Definition expired (rc : reconciler) (job : RuntimeJob) (latest : option OutboxEvent) : bool :=
  (MAX_DELIVERY_GENERATION <? next_generation latest) || (rc_max_age rc <=? rc_now rc - j_created_at job).
Inductive iteration (rc : reconciler) (q : queue) (id : string) (job : RuntimeJob) : queue -> Z -> Prop :=
| it_behind : (j_id <$> head_job (db q) (j_tenant_id job) (j_ticket_id job)) <> Some id -> iteration rc q id job q 0
| it_under_way event :
    latest_event (db q) id = Some event -> in_flight rc (put_db_job (unleased job) q) event (j_status (unleased job)) = true ->
    iteration rc q id job (put_db_job (unleased job) q) 0
| it_buried reason q' :
    expired rc job (latest_event (db q) id) = true ->
    bury rc (put_db_job (requeued (unleased job)) (put_db_job (unleased job) q)) (requeued (unleased job)) reason = Ok q' ->
    iteration rc q id job q' 0
| it_redelivered q' :
    expired rc job (latest_event (db q) id) = false ->
    (forall event, latest_event (db q) id = Some event -> o_published_at event <> None) ->
    redeliver rc (put_db_job (requeued (unleased job)) (put_db_job (unleased job) q)) (requeued (unleased job)) (latest_event (db q) id)
      (next_generation (latest_event (db q) id)) = Ok q' ->
    iteration rc q id job q' 1.
Lemma reconcile_job_cases rc q id q' n :
  reconcile_job rc q id = Ok (q', n) -> exists job, jobs (db q) !! id = Some job /\ iteration rc q id job q' n.
Proof.
  unfold reconcile_job. intros Hr. destruct (jobs (db q) !! id) as [job|] eqn:Ej; [|done]. exists job. split; [done|].
  destruct (_ !=? _) eqn:Eh. { simplify_eq. apply it_behind. unfold neqb in Eh. to_prop. done. }
  fold (unleased job) in Hr. fold (requeued (unleased job)) in Hr. fold (put_db_job (unleased job) q) in Hr.
  fold (put_db_job (requeued (unleased job)) (put_db_job (unleased job) q)) in Hr.
  change (latest_event (db (put_db_job (unleased job) q)) id) with (latest_event (db q) id) in Hr.
  destruct (match latest_event (db q) id with Some event => _ | None => false end) eqn:Ef.
  { destruct (latest_event (db q) id) as [event|] eqn:El; [|done]. simplify_eq. by apply (it_under_way _ _ _ _ event). }
  fold (next_generation (latest_event (db q) id)) in Hr.
  assert (j_created_at (requeued (unleased job)) = j_created_at job) as Ec.
  { destruct (unleased_moves job) as (_ & _ & Hl & <-). by destruct (requeued_moves _ Hl) as (_ & _ & _ & <-). }
  rewrite Ec in Hr. fold (expired rc job (latest_event (db q) id)) in Hr. destruct (expired _ _ _) eqn:Ee.
  - apply res_bind_ok in Hr as (q1 & Hb & [= <- <-]). by eapply it_buried.
  - apply res_bind_ok in Hr as (q1 & Hb & [= <- <-]). apply it_redelivered; [done| |done].
    intros event El. rewrite El in Ef. unfold in_flight in Ef. apply orb_false_iff in Ef as [Ef _]. apply isNone_false in Ef. by destruct Ef as [? ->].
Qed.
Lemma put_db_job_ok q j j' :
  queue_ok q -> jobs (db q) !! j_id j = Some j -> same_identity j j' -> (active j' -> active j) -> ~ leased j' ->
  queue_ok (put_db_job j' q) /\ jobs (db (put_db_job j' q)) !! j_id j' = Some j'.
Proof.
  intros Hq Hj Hid Ha Hl. split; [|cbn; by rewrite lookup_insert_eq]. apply effect_ok; [done|].
  eapply put_job_effect; [apply Hq|exact Hj|done..].
Qed.
Lemma reconcile_job_ok rc q id q' n : queue_ok q -> reconcile_job rc q id = Ok (q', n) -> queue_ok q'.
Proof.
  intros Hq (job & Hj & Hit)%reconcile_job_cases. pose proof (keyed_jobs _ (proj1 (qo_lane _ Hq)) _ _ Hj) as Eid.
  destruct (unleased_moves job) as (Hid1 & Ha1 & Hl1 & Ec1). destruct (requeued_moves _ Hl1) as (Hid2 & Ha2 & Hl2 & Ec2).
  destruct (put_db_job_ok q job (unleased job) Hq) as [Hq1 Hj1]; [by rewrite Eid|done..|].
  destruct (put_db_job_ok (put_db_job (unleased job) q) (unleased job) (requeued (unleased job)) Hq1 Hj1) as [Hq2 Hj2]; [done..|].
  destruct Hit as [|event _ _|reason q' _ Hb|q' He Hp Hr]; [done|done|by eapply bury_ok|].
  assert (j_id (requeued (unleased job)) = id) as Eid2. { destruct Hid1 as (E1 & _), Hid2 as (E2 & _). congruence. }
  eapply redeliver_ok; [exact Hq2|exact Hj2| | | | |exact Hr]; [by rewrite Eid2|exact Hp|done|].
  unfold expired in He. apply orb_false_iff in He as [He _]. lia.
Qed.
Lemma reconcile_jobs_ok rc ids q q' n : queue_ok q -> reconcile_jobs rc q ids = Ok (q', n) -> queue_ok q'.
Proof.
  revert q n. induction ids as [|id ids IH]; intros q n Hq Hr; cbn in Hr; [by simplify_eq|].
  apply res_bind_ok in Hr as ([q1 n1] & Hj & Hr). apply res_bind_ok in Hr as ([q2 n2] & Hjs & [= <- _]).
  eapply IH; [|exact Hjs]. by eapply reconcile_job_ok.
Qed.

(** *** Iterations do not disturb each other *)
Lemma job_leb_total a b : job_leb a b = false -> job_leb b a = true.
Proof.
  unfold job_leb. to_prop. intros [? [?|?]]; [left; lia|]. destruct (decide (j_dispatch_sequence a = j_dispatch_sequence b)); [|left; lia].
  right. split; [lia|]. by apply str_leb_total.
Qed.
Lemma job_leb_trans a b c : job_leb a b = true -> job_leb b c = true -> job_leb a c = true.
Proof. unfold job_leb. to_prop. intros [?|[? ?]] [?|[? ?]]; try (left; lia). right. split; [lia|]. by eapply str_leb_trans. Qed.
(** The oldest active job of its lane. *)
Definition is_head (s : store) (id : string) (job : RuntimeJob) : Prop :=
  jobs s !! id = Some job /\ active job /\
  forall k b, jobs s !! k = Some b -> same_lane job b -> active b -> j_dispatch_sequence job <= j_dispatch_sequence b.
Lemma is_head_job s id job : lane_ok s -> is_head s id job -> j_id <$> head_job s (j_tenant_id job) (j_ticket_id job) = Some id.
Proof.
  intros [Hk Hl] (Hj & Ha & Hmin). unfold head_job.
  destruct (first_by job_leb _) as [x|] eqn:E.
  - apply first_by_some in E as [Hin Hx]; [|apply job_leb_total|apply job_leb_trans]. apply select_where_elem in Hin as [(k & Hx0) Hf].
    apply andb_true_iff in Hf as [Hlane Hax]. unfold lane_job in Hlane. rewrite andb_true_iff, !eqb_true in Hlane. destruct Hlane as [L1 L2].
    assert (job_leb x job = true) as Hle.
    { apply Hx, select_where_elem. split; [eauto|]. apply andb_true_iff. split; [|exact Ha]. unfold lane_job. by rewrite !eqb_refl. }
    assert (j_dispatch_sequence job <= j_dispatch_sequence x) as Hge by (eapply Hmin; [exact Hx0|by split|exact Hax]).
    unfold job_leb in Hle. rewrite orb_true_iff, Z.ltb_lt, andb_true_iff, Z.eqb_eq in Hle. destruct Hle as [?|[Es _]]; [lia|].
    assert (k = id) as -> by (eapply (li_unique _ _ Hl); [exact Hx0|exact Hj|by split|done]). cbn. by rewrite (keyed_jobs _ Hk _ _ Hx0).
  - rewrite first_by_none in E. assert (job ∈ select_where (fun j => lane_job (j_tenant_id job) (j_ticket_id job) j && active_status j) (jobs s)) as Hin.
    { apply select_where_elem. split; [eauto|]. apply andb_true_iff. split; [|exact Ha]. unfold lane_job. by rewrite !eqb_refl. }
    rewrite E in Hin. by apply not_elem_of_nil in Hin.
Qed.
Lemma head_put s id job j j' :
  is_head s id job -> jobs s !! j_id j = Some j -> same_identity j j' -> (active j' -> active j) -> j_id j <> id ->
  is_head (put_job j' s) id job.
Proof.
  intros (Hj & Ha & Hmin) Hx (E1 & E2 & E3 & E4 & _) Hact Hne. unfold is_head. cbn. rewrite E1, lookup_insert_ne by done. split_and!; [done..|].
  intros k b. rewrite lookup_insert_Some. intros [[<- <-]|[_ Hb]] [L1 L2] Hab; [|by eapply Hmin]. rewrite E4. eapply Hmin; [exact Hx| |by apply Hact].
  split; congruence.
Qed.
Lemma head_enqueue s s' id job :
  lane_ok s -> enqueues (jobs s) (lanes s) (jobs s') (lanes s') -> is_head s id job -> is_head s' id job.
Proof.
  intros [_ Hl] He (Hj & Ha & Hmin). unfold is_head. destruct He as [|tid i tn life mode c j Ht Hn Hq E1 E2 Es]; [done|].
  rewrite lookup_insert_ne by congruence. split_and!; [done..|]. intros k b. rewrite lookup_insert_Some.
  intros [[<- <-]|[_ Hb]] [L1 L2] Hab; [|by eapply Hmin]. destruct (li_counter _ _ Hl _ _ Hj) as (i' & l' & m' & c' & Ec & Hle).
  rewrite L2, E2, Ht in Ec. simplify_eq. lia.
Qed.

(** The rows that concern a job are the same. *)
Record untouched (id : string) (q q' : queue) : Prop := {
  un_job : jobs (db q') !! id = jobs (db q) !! id;
  un_outbox : forall i x, o_job_id x = id -> outbox (db q) !! i = Some x <-> outbox (db q') !! i = Some x;
  un_inbox : forall i r k o, outbox (db q) !! k = Some o -> o_job_id o = id -> ib_delivery_id r = o_delivery_id o ->
    inbox q !! i = Some r <-> inbox q' !! i = Some r;
}.
Lemma untouched_refl id q : untouched id q q.
Proof. by split. Qed.
Lemma untouched_trans id q1 q2 q3 : untouched id q1 q2 -> untouched id q2 q3 -> untouched id q1 q3.
Proof.
  intros [J1 O1 I1] [J2 O2 I2]. split; [congruence| |].
  - intros i x Ex. by rewrite (O1 i x Ex), (O2 i x Ex).
  - intros i r k o Ho Ej Ed. rewrite (I1 i r k o Ho Ej Ed). eapply I2; [|exact Ej|exact Ed]. by apply O1.
Qed.
Lemma put_untouched id q j : j_id j <> id -> untouched id q (put_db_job j q).
Proof. intros Hne. split; [|done..]. cbn. by rewrite lookup_insert_ne. Qed.
Lemma kept_untouched id q s' :
  is_Some (jobs (db q) !! id) -> outbox_inv (db q) -> jobs s' !! id = jobs (db q) !! id -> outbox_kept (db q) s' ->
  untouched id q (set_db s' q).
Proof.
  intros [job Hj] Hi Ej [Ho|(o & [Hins Ho _ Hn _])]; (split; [done| |done]); cbn.
  - by rewrite Ho.
  - intros i x Ex. rewrite Ho. cbn. apply insert_outbox_ok in Hins as (_ & Hnone & _). rewrite lookup_insert_Some. split.
    + intros Hx. right. split; [|done]. intros <-. congruence.
    + intros [[_ <-]|[_ Hx]]; [congruence|done].
Qed.
Lemma supersede_inbox_other event g l q i r :
  inbox_keyed q -> (forall x, x ∈ l -> inbox q !! ib_id x = Some x /\ ib_delivery_id x = o_delivery_id event) -> NoDup (map ib_id l) ->
  ib_delivery_id r <> o_delivery_id event ->
  inbox q !! i = Some r <-> inbox (fold_left (supersede_inbox event g) l q) !! i = Some r.
Proof.
  revert q. induction l as [|x l IH]; intros q Hk Hl Hnd Hr; cbn; [done|]. apply NoDup_cons in Hnd as [Hx Hnd].
  destruct (Hl x) as [Hx0 Ex]; [by left|]. rewrite <- IH; [| | |done|done].
  - cbn. rewrite lookup_insert_Some. split.
    + intros Hi. right. split; [|done]. intros <-. congruence.
    + intros [[_ <-]|[_ Hi]]; [|done]. cbn in Hr. congruence.
  - intros k y. cbn. rewrite lookup_insert_Some. intros [[<- <-]|[_ Hy]]; [done|by apply Hk].
  - intros y Hy. destruct (Hl y) as [Hy0 Ey]; [by right|]. split; [|done]. cbn. rewrite lookup_insert_ne; [done|].
    intros E. destruct Hx. rewrite E. apply list_elem_of_fmap. eauto.
Qed.

Lemma redeliver_spec rc q job latest g q' :
  inbox_keyed q -> redeliver rc q job latest g = Ok q' ->
  exists s1 qs o, db qs = s1 /\ q' = set_db (put_outbox o s1) qs /\ insert_outbox s1 o = Ok (put_outbox o s1) /\
    o = new_outbox (f_outbox (rc_ids rc (j_id job))) (f_delivery (rc_ids rc (j_id job))) (j_tenant_id job) (j_id job) (j_run_id job) g
          "runtime_job_available" [] (database_now (rc_env rc)) /\
    match latest with
    | Some a => s1 = put_outbox (superseded rc a (f_outbox (rc_ids rc (j_id job)))) (db q) /\
                forall i r, ib_delivery_id r <> o_delivery_id a -> inbox q !! i = Some r <-> inbox qs !! i = Some r
    | None => qs = q
    end.
Proof.
  intros Hk Hr. unfold redeliver in Hr. apply res_bind_ok in Hr as (s & Hins & [= <-]).
  pose proof Hins as Hins'. apply insert_outbox_ok in Hins' as (-> & _). eexists _, _, _.
  split; [reflexivity|]. split; [reflexivity|]. split; [exact Hins|]. split; [reflexivity|]. destruct latest as [a|]; [|done].
  destruct (supersede_spec rc q a g (f_outbox (rc_ids rc (j_id job))) Hk) as [_ ->]. split; [done|]. intros i r Hne.
  unfold _supersede_delivery. cbn [inbox set_db].
  pose proof (rows_keys ib_id (inbox q) (fun r => ib_delivery_id r ==? o_delivery_id a) Hk) as Hnd.
  assert (forall x, x ∈ select_where (fun r => ib_delivery_id r ==? o_delivery_id a) (inbox q) ->
            inbox q !! ib_id x = Some x /\ ib_delivery_id x = o_delivery_id a) as Hsel.
  { intros x [(k & Hx) E]%select_where_elem. rewrite eqb_true in E. by rewrite (Hk _ _ Hx). }
  destruct (select_where _ (inbox q)) as [|x l]; [done|].
  by apply (supersede_inbox_other a g (x :: l) (set_db (put_outbox (superseded rc a (f_outbox (rc_ids rc (j_id job)))) (db q)) q)).
Qed.
Lemma redeliver_untouched rc q job g q' id :
  queue_ok q -> j_id job <> id -> redeliver rc q job (latest_event (db q) (j_id job)) g = Ok q' ->
  untouched id q q' /\ jobs (db q') = jobs (db q) /\ lanes (db q') = lanes (db q).
Proof.
  intros Hq Hne Hr. destruct (redeliver_spec _ _ _ _ _ _ (qo_inbox _ Hq) Hr) as (s1 & qs & o & Es & -> & Hins & Eo & Hl).
  apply insert_outbox_ok in Hins as (_ & Hn & _). pose proof (qo_outbox _ Hq) as Hi.
  destruct (latest_event (db q) (j_id job)) as [a|] eqn:El.
  - destruct Hl as [-> Hin]. apply latest_event_spec in El as ((ka & Ha) & Eja & _). pose proof (oi_key _ Hi _ _ Ha) as <-.
    split; [|done]. split; [done| |].
    + intros i x Ex. cbn. rewrite lookup_insert_Some. split.
      * intros Hx. right. assert (i <> o_id a) as Hia by (intros ->; congruence).
        split; [|by rewrite lookup_insert_ne]. intros <-. cbn in Hn. rewrite lookup_insert_ne in Hn by done. congruence.
      * intros [[_ <-]|[_ Hx]]; [subst o; by cbn in Ex|]. apply lookup_insert_Some in Hx as [[_ <-]|[_ Hx]]; [|done]. cbn in Ex. congruence.
    + intros i r k x Hx Ex Ed. cbn. apply Hin. intros E. assert (k = o_id a) as -> by (eapply (oi_delivery _ Hi); [exact Hx|exact Ha|congruence]). congruence.
  - subst qs s1. split; [|done]. split; [done| |done]. intros i x Ex. cbn. rewrite lookup_insert_Some. split.
    + intros Hx. right. split; [|done]. intros <-. cbn in Hn. congruence.
    + intros [[_ <-]|[_ Hx]]; [subst o; by cbn in Ex|done].
Qed.
(** What a step that does not handle [id] keeps of it. *)
Definition spares (id : string) (q q' : queue) : Prop :=
  untouched id q q' /\ forall x, is_head (db q) id x -> is_head (db q') id x.
Lemma spares_trans id q1 q2 q3 : spares id q1 q2 -> spares id q2 q3 -> spares id q1 q3.
Proof. intros [U1 H1'] [U2 H2']. split; [by eapply untouched_trans|auto]. Qed.
Lemma put_spares id q j j' :
  jobs (db q) !! j_id j = Some j -> same_identity j j' -> (active j' -> active j) -> j_id j <> id -> spares id q (put_db_job j' q).
Proof.
  intros Hj Hid Ha Hne. split; [apply put_untouched; destruct Hid as (-> & _); done|]. intros x Hx. by eapply head_put.
Qed.
Lemma enqueues_lookup js ls js' ls' i x : enqueues js ls js' ls' -> js !! i = Some x -> js' !! i = Some x.
Proof. intros [|tid k tn life mode c j _ Hn _ _ _ _] Hx; [done|]. by rewrite lookup_insert_ne by congruence. Qed.
Lemma bury_spares rc q job reason q' id :
  queue_ok q -> jobs (db q) !! j_id job = Some job -> j_id job <> id -> is_Some (jobs (db q) !! id) -> bury rc q job reason = Ok q' ->
  spares id q q'.
Proof.
  intros Hq Hj Hne [x Hx] Hb. unfold bury in Hb. set (job' := release _) in *.
  pose proof (release_identity job "dead" (Some reason)) as Hid. fold job' in Hid.
  assert (j_status job' = "dead") as Es. { subst job'. cbn. apply transition_status. }
  assert (active job' -> active job) as Ha by (unfold active, active_status; by rewrite Es).
  destruct (put_db_job_ok q job job') as [Hq1 _]; [done..|unfold leased; congruence|].
  pose proof (put_spares id q job job' Hj Hid Ha Hne) as S1. fold (put_db_job job' q) in Hb.
  destruct (runs _ !! _); [|simplify_eq; done]. apply res_bind_ok in Hb as (s & Hc & [= <-]).
  pose proof (qo_lane _ Hq1) as Hl1. cbn in Hl1. destruct (dead_enqueues _ _ _ _ _ _ _ (proj1 Hl1) Hc) as [He K].
  eapply spares_trans; [exact S1|]. change (set_db s q) with (set_db s (put_db_job job' q)).
  assert (jobs (db (put_db_job job' q)) !! id = Some x) as Hx1 by (rewrite (un_job _ _ _ (proj1 S1)); done).
  split; [|intros y; by apply head_enqueue].
  apply kept_untouched; [eauto|apply Hq1| |eapply dead_kept; [apply Hl1|exact Hc]]. rewrite Hx1. by eapply enqueues_lookup.
Qed.
Lemma iteration_prepared q id job :
  queue_ok q -> jobs (db q) !! id = Some job ->
  let q2 := put_db_job (requeued (unleased job)) (put_db_job (unleased job) q) in
  queue_ok (put_db_job (unleased job) q) /\ queue_ok q2 /\ jobs (db q2) !! id = Some (requeued (unleased job)) /\
  j_id (unleased job) = id /\ j_id (requeued (unleased job)) = id /\
  forall k, k <> id -> spares k q (put_db_job (unleased job) q) /\ spares k q q2.
Proof.
  intros Hq Hj q2. pose proof (keyed_jobs _ (proj1 (qo_lane _ Hq)) _ _ Hj) as Eid. rewrite <- Eid in Hj.
  destruct (unleased_moves job) as (Hid1 & Ha1 & Hl1 & Ec1). destruct (requeued_moves _ Hl1) as (Hid2 & Ha2 & Hl2 & Ec2).
  destruct (put_db_job_ok q job (unleased job) Hq) as [Hq1 Hj1]; [done..|].
  destruct (put_db_job_ok (put_db_job (unleased job) q) (unleased job) (requeued (unleased job)) Hq1 Hj1) as [Hq2 Hj2]; [done..|].
  assert (j_id (unleased job) = id) as E1 by (destruct Hid1 as (E & _); congruence).
  assert (j_id (requeued (unleased job)) = id) as E2 by (destruct Hid2 as (E & _); congruence).
  rewrite E2 in Hj2. split_and!; [done..|]. intros k Hk.
  assert (spares k q (put_db_job (unleased job) q)) as S1 by (eapply put_spares; [exact Hj|done..|congruence]).
  split; [done|]. eapply spares_trans; [exact S1|]. eapply put_spares; [exact Hj1|done..|congruence].
Qed.
(** An iteration for another job. *)
Lemma iteration_spares rc q id' q' n id :
  queue_ok q -> reconcile_job rc q id' = Ok (q', n) -> id' <> id -> is_Some (jobs (db q) !! id) -> spares id q q'.
Proof.
  intros Hq (job & Hj & Hit)%reconcile_job_cases Hne Hx.
  destruct (iteration_prepared q id' job Hq Hj) as (Hq1 & Hq2 & Hj2 & Eid1 & Eid2 & Hsp).
  destruct (Hsp id) as [S1 S2]; [done|]. set (q2 := put_db_job (requeued _) _) in *. set (job2 := requeued _) in *.
  destruct Hit as [|event _ _|reason q' _ Hb|q' He Hp Hr]; [by split; [apply untouched_refl|]|done|..].
  - fold q2 job2 in Hb. eapply spares_trans; [exact S2|].
    eapply (bury_spares rc q2 job2); [done|by rewrite Eid2|congruence| |exact Hb]. by rewrite (un_job _ _ _ (proj1 S2)).
  - fold q2 job2 in Hr. rewrite <- Eid2 in Hr at 1. change (latest_event (db q)) with (latest_event (db q2)) in Hr.
    assert (j_id job2 <> id) as Hne2 by congruence.
    destruct (redeliver_untouched _ _ _ _ _ id Hq2 Hne2 Hr) as (U & Ej & El). eapply spares_trans; [exact S2|]. split; [done|].
    unfold is_head. by rewrite Ej.
Qed.
Lemma iterations_spare rc ids q q' n id :
  queue_ok q -> reconcile_jobs rc q ids = Ok (q', n) -> id ∉ ids -> is_Some (jobs (db q) !! id) -> spares id q q'.
Proof.
  revert q n. induction ids as [|i ids IH]; intros q n Hq Hr Hni Hx; cbn in Hr; [simplify_eq; by split; [apply untouched_refl|]|].
  apply res_bind_ok in Hr as ([q1 n1] & Hj & Hr). apply res_bind_ok in Hr as ([q2 n2] & Hjs & [= <- _]).
  rewrite not_elem_of_cons in Hni. destruct Hni as [Hne Hni].
  assert (spares id q q1) as S1 by (eapply iteration_spares; [done|exact Hj|congruence|done]).
  eapply spares_trans; [exact S1|]. eapply IH; [by eapply reconcile_job_ok|exact Hjs|done|]. by rewrite (un_job _ _ _ (proj1 S1)).
Qed.
Lemma reconcile_jobs_app rc l1 id l2 q q' n :
  reconcile_jobs rc q (l1 ++ id :: l2) = Ok (q', n) ->
  exists q1 q2 n1 n2 n3, reconcile_jobs rc q l1 = Ok (q1, n1) /\ reconcile_job rc q1 id = Ok (q2, n2) /\ reconcile_jobs rc q2 l2 = Ok (q', n3).
Proof.
  revert q n. induction l1 as [|i l1 IH]; intros q n Hr; cbn in Hr.
  - apply res_bind_ok in Hr as ([q1 n1] & Hj & Hr). apply res_bind_ok in Hr as ([q2 n2] & Hjs & [= <- _]). by exists q, q1, 0, n1, n2.
  - apply res_bind_ok in Hr as ([q1 n1] & Hj & Hr). apply res_bind_ok in Hr as ([q2 n2] & Hjs & [= <- _]).
    destruct (IH _ _ Hjs) as (a & b & na & nb & nc & H1' & H2' & H3'). exists a, b, (n1 + na), nb, nc. cbn. rewrite Hj. cbn in *. by rewrite H1'.
Qed.

(** *** What a reconciliation leaves *)
Lemma current_latest s i o :
  outbox_inv s -> outbox s !! i = Some o -> o_superseded_at o = None -> latest_event s (o_job_id o) = Some o.
Proof.
  intros Hi Ho Hs. destruct (latest_event s (o_job_id o)) as [a|] eqn:El.
  - apply latest_event_spec in El as ((k & Ha) & Ej & Hmax). assert (i = k) as ->; [|congruence].
    eapply (oi_unique _ Hi); [exact Ho|exact Ha|done|]. specialize (Hmax _ _ Ho eq_refl).
    pose proof (oi_current _ Hi _ _ _ _ Ho Ha (eq_sym Ej) Hs). lia.
  - by destruct (latest_event_none _ _ El _ _ Ho).
Qed.
Lemma latest_untouched id q q' : outbox_inv (db q) -> untouched id q q' -> latest_event (db q') id = latest_event (db q) id.
Proof.
  intros Hi U. destruct (latest_event (db q) id) as [a|] eqn:Ea, (latest_event (db q') id) as [b|] eqn:Eb; [| | |done].
  - apply latest_event_spec in Ea as ((i & Ha) & Eja & Ma), Eb as ((k & Hb) & Ejb & Mb).
    apply (un_outbox _ _ _ U) in Hb; [|done]. specialize (Ma _ _ Hb Ejb). apply (un_outbox _ _ _ U) in Ha as Ha'; [|done]. specialize (Mb _ _ Ha' Eja).
    assert (i = k) as -> by (eapply (oi_unique _ Hi); [exact Ha|exact Hb|congruence|lia]). congruence.
  - apply latest_event_spec in Ea as ((i & Ha) & Eja & _). apply (un_outbox _ _ _ U) in Ha; [|done]. by destruct (latest_event_none _ _ Eb _ _ Ha).
  - apply latest_event_spec in Eb as ((i & Hb) & Ejb & _). apply (un_outbox _ _ _ U) in Hb; [|done]. by destruct (latest_event_none _ _ Ea _ _ Hb).
Qed.
(** A delivery that may still reach a worker: not yet in the stream, delivered
    within the grace period, or in the stream and not yet settled. *)
Definition unsettled (q : queue) (delivery_id : string) : Prop :=
  (forall i r, inbox q !! i = Some r -> ib_delivery_id r <> delivery_id) \/
  exists i r, inbox q !! i = Some r /\ ib_delivery_id r = delivery_id /\ ib_status r <> "acked" /\ ib_status r <> "rejected".
Definition under_way (rc : reconciler) (q : queue) (event : OutboxEvent) (job_status : string) : Prop :=
  o_published_at event = None \/
  exists t, o_last_delivery_at event = Some t /\
    (rc_now rc - rc_grace_seconds rc * second < t \/
     (job_status <> "retry_wait" /\ _latest_delivery_still_exists rc (o_redis_message_id event) = true /\ unsettled q (o_delivery_id event))).
Lemma in_flight_under_way rc q event status : in_flight rc q event status = true -> under_way rc q event status.
Proof.
  unfold in_flight, under_way. rewrite orb_true_iff. intros [Hn|Hl]; [left; by apply isNone_true|right].
  destruct (o_last_delivery_at event) as [t|]; [|done]. exists t. split; [done|]. rewrite orb_true_iff, Z.ltb_lt in Hl.
  destruct Hl as [Hr|Hg]; [right|by left]. unfold _delivery_is_recoverable in Hr.
  destruct (match first_by _ _ with Some r => _ | None => _ end) eqn:Es; [done|].
  destruct (status ==? "retry_wait") eqn:Ew; [done|]. rewrite eqb_false in Ew. split_and!; [done..|].
  destruct (first_by inbox_newest _) as [r|] eqn:Ef.
  - apply first_by_some in Ef as [Hin _];
      [|unfold inbox_newest; intros x y; rewrite Z.leb_gt, Z.leb_le; lia|unfold inbox_newest; intros x y z; rewrite !Z.leb_le; lia].
    apply select_where_elem in Hin as [(i & Hi) Ed]. rewrite eqb_true in Ed. right. exists i, r.
    assert (ib_status r ∉ ["acked"; "rejected"]) as Hns by (intros Hin; apply mem_true in Hin; congruence). set_solver.
  - rewrite first_by_none in Ef. left. intros i r Hi Ed.
    assert (r ∈ select_where (fun r => ib_delivery_id r ==? o_delivery_id event) (inbox q)) as Hin
      by (apply select_where_elem; split; [eauto|by apply eqb_true]).
    rewrite Ef in Hin. by apply not_elem_of_nil in Hin.
Qed.
Lemma under_way_untouched rc id q q' event status k :
  untouched id q q' -> outbox (db q) !! k = Some event -> o_job_id event = id -> under_way rc q event status -> under_way rc q' event status.
Proof.
  intros U He Ej [Hn|(t & Et & [Hg|(Hs & Hx & Hu)])]; [by left|right; eauto..]. exists t. split; [done|]. right. split_and!; [done..|].
  destruct Hu as [Hno|(i & r & Hr & Ed & Hst)].
  - left. intros i r Hr Ed. by apply (un_inbox _ _ _ U i r k event He Ej Ed) in Hr as Hr0%Hno.
  - right. exists i, r. split; [|done]. by apply (un_inbox _ _ _ U i r k event He Ej Ed).
Qed.
(** What the reconciler guarantees of a due head of a lane. *)
Definition settled (rc : reconciler) (q q' : queue) (id : string) (job : RuntimeJob) : Prop :=
  exists job', jobs (db q') !! id = Some job' /\ ~ leased job' /\
    ((j_status job' = "dead" /\ expired rc job (latest_event (db q) id) = true) \/
     (active job' /\ exists event, latest_event (db q') id = Some event /\ under_way rc q' event (j_status job'))).
Lemma bury_dead rc q job reason q' :
  queue_ok q -> jobs (db q) !! j_id job = Some job -> bury rc q job reason = Ok q' ->
  exists job', jobs (db q') !! j_id job = Some job' /\ j_status job' = "dead".
Proof.
  intros Hq Hj Hb. unfold bury in Hb. set (job' := release _) in *. pose proof (release_identity job "dead" (Some reason)) as Hid. fold job' in Hid.
  assert (j_status job' = "dead") as Es. { subst job'. cbn. apply transition_status. }
  exists job'. split; [|done]. assert (jobs (put_job job' (db q)) !! j_id job = Some job') as Hj'.
  { cbn [jobs put_job set_jobs]. destruct Hid as (-> & _). by rewrite lookup_insert_eq. }
  destruct (runs _ !! _); [|by simplify_eq]. apply res_bind_ok in Hb as (s & Hc & [= <-]). cbn.
  edestruct dead_enqueues as [He _]; [|exact Hc|by eapply enqueues_lookup]. destruct Hq as [[Hk _] _ _]. auto with keyed.
Qed.
Lemma requeued_active job : active job -> active (unleased job) /\ active (requeued (unleased job)).
Proof.
  unfold active, active_status, requeued, unleased. intros Ha. destruct (j_status job ==? "leased"); cbn.
  - rewrite transition_status. split; [done|]. change ("queued" ==? "retry_wait") with false. cbn. by rewrite transition_status.
  - destruct (_ ==? "retry_wait"); [|done]. by rewrite transition_status.
Qed.
Lemma reconcile_job_settles rc q id q' n job :
  queue_ok q -> is_head (db q) id job -> reconcile_job rc q id = Ok (q', n) -> settled rc q q' id job.
Proof.
  intros Hq Hh (job0 & Hj & Hit)%reconcile_job_cases. pose proof Hh as (Hj0 & Ha & _). assert (job0 = job) as -> by congruence.
  destruct (iteration_prepared q id job Hq Hj) as (Hq1 & Hq2 & Hj2 & Eid1 & Eid2 & _). destruct (requeued_active job Ha) as [Ha1 Ha2].
  destruct (unleased_moves job) as (_ & _ & Hl1 & _). destruct (requeued_moves _ Hl1) as (_ & _ & Hl2 & _).
  set (q2 := put_db_job (requeued _) _) in *. set (job2 := requeued _) in *.
  destruct Hit as [Hbehind|event El Hf|reason q' He Hb|q' He Hp Hr]; unfold settled.
  - by destruct Hbehind; apply is_head_job; [apply Hq|].
  - exists (unleased job). cbn. rewrite Eid1, lookup_insert_eq. split_and!; [done..|right]. split; [done|]. exists event. split; [exact El|].
    by apply in_flight_under_way.
  - fold q2 job2 in Hb. destruct (bury_dead rc q2 job2 reason q' Hq2) as (j' & Hj' & Ed); [by rewrite Eid2|exact Hb|]. rewrite Eid2 in Hj'.
    exists j'. split_and!; [done|unfold leased; congruence|by left].
  - fold q2 job2 in Hr. pose proof Hr as Hq'. eapply redeliver_ok in Hq';
      [|exact Hq2|by rewrite Eid2|by rewrite Eid2|exact Hp|done|unfold expired in He; apply orb_false_iff in He as [He _]; lia].
    destruct (redeliver_spec _ _ _ _ _ _ (qo_inbox _ Hq2) Hr) as (s1 & qs & o & Es & -> & Hins & Eo & Hl).
    exists job2. split_and!; [|done|right; split; [done|]].
    + change (db (set_db (put_outbox o s1) qs)) with (put_outbox o s1). cbn. destruct (latest_event (db q) id); [destruct Hl as [-> _]|subst qs s1]; done.
    + exists o. replace id with (o_job_id o) by (by rewrite Eo). split; [|left; by rewrite Eo].
      eapply (current_latest _ (o_id o)); [apply Hq'|cbn; by rewrite lookup_insert_eq|by rewrite Eo].
Qed.

(** C15: after a reconciliation, every due job that heads its lane is free of
    its old lease and either has a latest delivery that may still reach a worker
    (unpublished, delivered within the grace period, or still in the stream and
    unsettled), or is dead because its generations or its age are exhausted. *)
Theorem reconcile_covers rc q q' n id job :
  queue_ok q -> is_head (db q) id job -> reconcilable rc job = true -> reconcile_once rc q = Ok (q', n) -> settled rc q q' id job.
Proof.
  intros Hq Hh Hrc Hr. pose proof Hh as (Hj & _ & _). unfold reconcile_once in Hr. set (l := map j_id _) in *.
  assert (id ∈ l) as Hin.
  { apply list_elem_of_fmap. exists job. split; [symmetry; by apply (keyed_jobs _ (proj1 (qo_lane _ Hq)))|]. rewrite elem_of_isort.
    apply select_where_elem. eauto. }
  assert (NoDup l) as Hnd.
  { subst l. rewrite (isort_perm reconcile_leb). apply rows_keys. intros i r. apply (keyed_jobs _ (proj1 (qo_lane _ Hq))). }
  clearbody l. apply list_elem_of_split in Hin as (l1 & l2 & ->). apply NoDup_app in Hnd as (_ & Hd1 & Hd2).
  apply NoDup_cons in Hd2 as [Hd2 _]. assert (id ∉ l1) as Hd1' by (intros Hx; apply (Hd1 _ Hx); by left).
  apply reconcile_jobs_app in Hr as (q1 & q2 & n1 & n2 & n3 & R1 & R2 & R3).
  destruct (iterations_spare _ _ _ _ _ id Hq R1) as [U1 Hh1]; [done|eauto|]. pose proof (reconcile_jobs_ok _ _ _ _ _ Hq R1) as Hq1.
  pose proof (reconcile_job_ok _ _ _ _ _ Hq1 R2) as Hq2.
  destruct (reconcile_job_settles rc q1 id q2 n2 job Hq1 (Hh1 _ Hh) R2) as (job' & Hj' & Hl & Hc).
  rewrite (latest_untouched id q q1 (qo_outbox _ Hq) U1) in Hc.
  destruct (iterations_spare _ _ _ _ _ id Hq2 R3) as [U2 _]; [done|eauto|].
  exists job'. rewrite (un_job _ _ _ U2). split_and!; [done..|]. destruct Hc as [Hc|(Ha & event & El & Hu)]; [by left|right].
  split; [done|]. exists event. rewrite (latest_untouched id q2 q' (qo_outbox _ Hq2) U2). split; [done|].
  apply latest_event_spec in El as ((k & Hk) & Ej & _). by eapply under_way_untouched.
Qed.

(** ** The system

    A committed transaction of the dispatcher, a worker, the reconciler or of
    another service, with any arguments and clocks (a transaction that enqueues
    a job may announce it in the same commit); the stream is whatever
    Redis makes of it in between, and a worker is handed any envelope. *)
Definition system : Type := queue * stream.
Inductive system_step : system -> system -> Prop :=
| sy_redis q st st' : system_step (q, st) (q, st')
| sy_claim q st now at_ n : system_step (q, st) (set_db (claim_outbox (db q) now at_ n).2 q, st)
| sy_publish q st id now s' st' n : publish_one (db q) st id now = Ok (s', st', n) -> system_step (q, st) (set_db s' q, st')
| sy_decode q st group id payload : system_step (q, st) ((_decode_delivery q group id payload).2, st)
| sy_accept q st ev inbox_id group consumer secs e adm q' :
    _accept_sqlite_delivery q ev inbox_id group consumer secs e = Ok (adm, q') -> system_step (q, st) (q', st)
| sy_heartbeat q st ev l secs s' : heartbeat (db q) ev l secs = Ok s' -> system_step (q, st) (set_db s' q, st)
| sy_finish q st ev ids group m l outcome failure r t q' :
    _finish_sqlite_delivery q ev ids group m l outcome failure = Ok (r, t, q') -> system_step (q, st) (q', st)
| sy_reconcile q st rc q' n : reconcile_once rc q = Ok (q', n) -> system_step (q, st) (q', st)
| sy_write q st s' : rtc runtime_step (db q) s' -> outbox_kept (db q) s' -> system_step (q, st) (set_db s' q, st).
Definition empty_queue : queue := mk_queue empty_store ∅ [].

Lemma empty_queue_ok : queue_ok empty_queue.
Proof.
  assert (forall A i (x : A), (∅ : gmap string A) !! i = Some x -> False) as He by (intros A i x Hx; by rewrite lookup_empty in Hx).
  split; [apply empty_lane|split|]; intros; exfalso;
    match goal with Hx : _ !! _ = Some _ |- _ => exact (He _ _ _ Hx) end.
Qed.
Lemma decode_ok q group id payload : queue_ok q -> queue_ok (_decode_delivery q group id payload).2.
Proof. intros Hq. unfold _decode_delivery. destruct (from_redis payload); [done|by apply add_audit_ok]. Qed.
Lemma steps_keep s s' : keyed s -> rtc runtime_step s s' -> jobs_keep (jobs s) (jobs s').
Proof.
  intros Hk Hr. induction Hr as [|x y z Hs _ IH]; [apply jobs_keep_refl|]. destruct (step_effect _ _ Hk Hs) as [He K].
  eapply jobs_keep_trans; [by apply effect_keeps|by apply IH].
Qed.
Lemma write_ok q s' : queue_ok q -> rtc runtime_step (db q) s' -> outbox_kept (db q) s' -> queue_ok (set_db s' q).
Proof.
  intros [Hl Ho Hi] Hr Hkept. split; [by eapply steps_lane| |exact Hi]. cbn. eapply kept_inv; [exact Ho| |exact Hkept].
  by apply steps_keep; [apply Hl|].
Qed.
Lemma system_step_ok x y : system_step x y -> queue_ok x.1 -> queue_ok y.1.
Proof.
  intros Hs. destruct Hs as [q st st'|q st now at_ n|q st id now s' st' n E|q st group id payload|q st ev iid g c secs e adm q' E|
    q st ev l secs s' E|q st ev ids g m l out f r t q' E|q st rc q' n E|q st s' E K]; cbn; intros Hq.
  - done.
  - by apply claim_outbox_ok.
  - by eapply publish_one_ok.
  - by apply decode_ok.
  - by eapply admission_ok.
  - apply effect_ok; [done|]. edestruct heartbeat_effect; [apply Hq|exact E|]. split; [done..|left; by eapply heartbeat_same_outbox].
  - by eapply settle_ok.
  - unfold reconcile_once in E. by eapply (reconcile_jobs_ok rc _ q).
  - by apply write_ok.
Qed.
Lemma system_ok x y : rtc system_step x y -> queue_ok x.1 -> queue_ok y.1.
Proof. induction 1 as [|x y z Hs _ IH]; [done|]. intros Hx. by eapply IH, system_step_ok. Qed.

(** C14: whatever is delivered, however often and in whatever order, a ticket
    has at most one leased job and it is the oldest active one; a job has at
    most one delivery that is not superseded, that one is its latest
    generation, and its generations are distinct, between one and five, and
    carry the tenant and the run of the job. *)
Theorem one_current_delivery st0 q st :
  rtc system_step (empty_queue, st0) (q, st) ->
  (forall i k a b, jobs (db q) !! i = Some a -> jobs (db q) !! k = Some b -> same_lane a b -> leased a ->
     (active b -> j_dispatch_sequence a <= j_dispatch_sequence b) /\ (leased b -> i = k)) /\
  (forall i a, outbox (db q) !! i = Some a ->
     1 <= o_delivery_generation a <= 5 /\
     (exists j, jobs (db q) !! o_job_id a = Some j /\ j_tenant_id j = o_tenant_id a /\ j_run_id j = o_run_id a) /\
     forall k b, outbox (db q) !! k = Some b -> o_job_id b = o_job_id a ->
       (o_delivery_generation b = o_delivery_generation a -> i = k) /\
       (o_superseded_at a = None -> o_delivery_generation b <= o_delivery_generation a) /\
       (o_superseded_at a = None -> o_superseded_at b = None -> i = k)).
Proof.
  intros Hr. apply system_ok in Hr as [Hl Ho _]; [|apply empty_queue_ok]. cbn in Hl, Ho. split.
  - intros i k a b Ha Hb Hs Hla. split; [intros Hab; by eapply (li_head _ _ (proj2 Hl))|intros Hlb; by eapply lane_single_leased].
  - intros i a Ha. split; [by eapply (oi_bounds _ Ho)|]. split; [by eapply (oi_job _ Ho)|]. intros k b Hb E. split_and!.
    + intros Eg. by eapply (oi_unique _ Ho).
    + intros Hs. by eapply (oi_current _ Ho).
    + intros Hsa Hsb. eapply (oi_unique _ Ho); [exact Ha|exact Hb|done|].
      pose proof (oi_current _ Ho _ _ _ _ Ha Hb (eq_sym E) Hsa). pose proof (oi_current _ Ho _ _ _ _ Hb Ha E Hsb). lia.
Qed.

(** *** An entry reaches only its own job *)
Lemma interrupted_jobs s ev jid owner secs i : keyed s -> i <> jid -> jobs (interrupted_claim s ev jid owner secs) !! i = jobs s !! i.
Proof.
  intros Hk Hne. unfold interrupted_claim. destruct (jobs s !! jid) as [job|] eqn:Ej; [|done]. destruct (get_where _ _ _) as [run|]; [|done].
  set (job' := lease_job _ _ _ _). set (run' := set_r_status_version _ _). rewrite (q_jobs _ _ (start_turn_quiet _ run' (j_kind job'))).
  pose proof (lease_job_spec job owner (database_now ev) secs) as L. fold job' in L. cbn [jobs put_run set_runs put_job set_jobs].
  rewrite (lj_id _ _ _ _ L), (keyed_jobs _ Hk _ _ Ej), lookup_insert_ne by done. done.
Qed.
Lemma mismatched_false jo m :
  mismatched jo m = false <-> exists job, jo = Some job /\ j_tenant_id job = q_tenant_id m /\ j_run_id job = q_run_id m /\
    j_kind job ∈ ["agent_start"; "approval_resume"].
Proof.
  unfold mismatched, neqb. destruct jo as [job|]; [|naive_solver]. rewrite !orb_false_iff, !negb_false_iff, !eqb_true, mem_true. naive_solver.
Qed.
Lemma of_delivery_elem (g : string) m (t : gmap string InboxDelivery) d :
  d ∈ select_where (of_delivery g (q_delivery_id m)) t ->
  (exists i, t !! i = Some d) /\ ib_consumer_group d = g /\ ib_delivery_id d = q_delivery_id m.
Proof. intros [Hd E]%select_where_elem. unfold of_delivery in E. rewrite andb_true_iff, !eqb_true in E. done. Qed.

(** C16: an entry of the stream can start its own job and nothing else.  One that
    names no job, or a job of another tenant, run or kind, changes neither the
    store nor the inbox; any other leaves the outbox and every other job as they
    are, and a lease it obtains is of the job, tenant and run it names,
    carries the job's next fencing token and is held by this consumer. *)
Theorem delivery_confined q ev inbox_id group consumer secs e adm q' :
  queue_ok q -> _accept_sqlite_delivery q ev inbox_id group consumer secs e = Ok (adm, q') ->
  (mismatched (jobs (db q) !! q_job_id (message e)) (message e) = true -> db q' = db q /\ inbox q' = inbox q /\ d_lease adm = None) /\
  outbox (db q') = outbox (db q) /\
  (forall i, i <> q_job_id (message e) -> jobs (db q') !! i = jobs (db q) !! i) /\
  forall lease, d_lease adm = Some lease ->
    l_job_id lease = q_job_id (message e) /\ l_tenant_id lease = q_tenant_id (message e) /\ l_run_id lease = q_run_id (message e) /\
    exists job job', jobs (db q) !! q_job_id (message e) = Some job /\ jobs (db q') !! q_job_id (message e) = Some job' /\
      l_fencing_token lease = j_fencing_token job + 1 /\ j_fencing_token job' = l_fencing_token lease /\ leased job' /\
      l_owner lease = consumer /\ should_ack_terminal adm = false.
Proof.
  intros Hq Ha. unfold _accept_sqlite_delivery in Ha. destruct (mismatched _ _) eqn:Em; [by simplify_eq|].
  apply mismatched_false in Em as (job & Hj & Et & Er & _).
  apply res_bind_ok in Ha as ([[d reused] q1] & Hr & Ha). destruct (record_delivery_ok _ _ _ _ _ _ _ _ _ Hq Hr) as (Hq1 & Edb & _).
  pose proof (proj1 (qo_lane _ Hq1)) as Hk1. split; [done|]. destruct (reused && _); [simplify_eq; by rewrite Edb|].
  destruct (claim (db q1) ev _ _ _) as [[lease s]|[]] eqn:Ec; try done; simplify_eq; cbn [db set_db put_inbox d_lease].
  - rewrite (claim_same_outbox _ _ _ _ _ _ _ Ec), Edb. split; [done|]. destruct (claim_ok _ _ _ _ _ _ _ Hk1 Ec) as (job0 & C).
    pose proof (cl_job _ _ _ _ _ _ _ _ C) as Hj0. rewrite Edb, Hj in Hj0. injection Hj0 as <-.
    pose proof (lease_job_spec job consumer (database_now ev) secs) as L.
    rewrite (cl_jobs _ _ _ _ _ _ _ _ C), Edb. split; [intros i Hne; by rewrite lookup_insert_ne|]. intros lease' [= <-].
    rewrite (cl_lease _ _ _ _ _ _ _ _ C). rewrite <- Edb in Hj. pose proof (keyed_jobs _ Hk1 _ _ Hj) as Eid.
    cbn [lease_of l_job_id l_tenant_id l_run_id l_fencing_token l_owner].
    destruct L as [L1 L2 [L3 L4] L5 L6 L7 L8 L9 L10]. split_and!; [congruence..|]. exists job. eexists. rewrite lookup_insert_eq.
    split_and!; try done. by rewrite <- Edb.
  - split; [|split; [|done]].
    + destruct (code ==? _) eqn:E; [|by rewrite Edb]. rewrite eqb_true in E. subst.
      unfold interrupted_claim. cbn. repeat case_match; cbn; rewrite ?start_turn_outbox; cbn; by rewrite Edb.
    + intros i Hne. destruct (code ==? _); cbn; [rewrite interrupted_jobs by done|]; by rewrite Edb.
Qed.

(** A failure the worker reports is never accepted as a hand-over to a human,
    except while it is unknown whether the finalizer committed. *)
Lemma failure_not_escalated finished f outcome r :
  (forall mode, f <> FinalizerCommitUnknown mode) ->
  _validate_worker_finish_result finished (_postgresql_finish_outcome outcome (Some f)) = Ok r ->
  finished = PyDict r /\ finish_created_human_queue r = false.
Proof.
  intros Hf Hv. unfold _validate_worker_finish_result in Hv. destruct finished; try done. steps_ok Hv. simplify_eq. split; [done|].
  assert (technical_failure (_postgresql_finish_outcome outcome (Some f)) = true) as Ht; [|by rewrite Ht in *].
  unfold technical_failure. apply orb_true_iff. right. destruct f as [mode| |[]]; [by destruct (Hf mode)|try (vm_compute; reflexivity)..].
  unfold _postgresql_finish_outcome. destruct (_ in? _); vm_compute; reflexivity.
Qed.

(** *** From the outbox to a worker *)
Lemma event_message_ok o m :
  event_message o = Ok m -> valid_message m = true /\ q_event_id m = o_id o /\ q_delivery_id m = o_delivery_id o /\ q_job_id m = o_job_id o /\
    q_run_id m = o_run_id o /\ q_tenant_id m = o_tenant_id o /\ q_delivery_generation m = o_delivery_generation o.
Proof.
  unfold event_message, new_message. intros Hm. apply res_bind_ok in Hm as (tr & _ & Hm). apply raise_if_ok in Hm as [Hv [= <-]].
  by apply negb_false_iff in Hv.
Qed.
(** A row that the dispatcher reports published is in the stream as an
    entry every worker decodes to the row's own message; and handing that entry
    to a worker at any later time, as long as its job was not rewritten and the
    delivery not acknowledged in the group, gives the worker the lease exactly
    when the job can be claimed then. *)
Theorem published_row_reaches_worker q st id now s' st' :
  queue_ok q -> publish_one (db q) st id now = Ok (s', st', 1) ->
  exists o rid payload e, outbox (db q) !! id = Some o /\ entry st rid = None /\ entry st' rid = Some payload /\
    (exists o', outbox s' !! id = Some o' /\ o_published_at o' = Some now /\ o_redis_message_id o' = Some rid /\ placement o' = placement o) /\
    q_job_id (message e) = o_job_id o /\ q_delivery_id (message e) = o_delivery_id o /\
    (forall q2 group, _decode_delivery q2 group rid (Some payload) = (Some e, q2)) /\
    forall q2 ev inbox_id group consumer secs lease s2 job,
      jobs_keep (jobs (db q)) (jobs (db q2)) -> jobs (db q2) !! o_job_id o = Some job -> j_kind job ∈ ["agent_start"; "approval_resume"] ->
      inbox q2 !! inbox_id = None ->
      (forall i r, inbox q2 !! i = Some r -> ib_consumer_group r = group -> ib_delivery_id r = o_delivery_id o -> ib_status r <> "acked") ->
      claim (db q2) ev (o_job_id o) consumer secs = Ok (lease, s2) ->
      exists q3, _accept_sqlite_delivery q2 ev inbox_id group consumer secs e = Ok (mk_admission_d (message e) (Some lease) false, q3) /\ db q3 = s2.
Proof.
  intros Hq Hp. unfold publish_one in Hp. destruct (outbox (db q) !! id) as [o|] eqn:Eo; [|simplify_eq].
  destruct (isSome (o_published_at o)) eqn:Es; [simplify_eq|]. apply res_bind_ok in Hp as (m & Hm & Hp).
  destruct (xadd st _) as [[rid|] st1] eqn:Ex; [|simplify_eq]. unfold mark_published in Hp. rewrite Eo in Hp.
  destruct (isNone (o_published_at o)) eqn:En; simplify_eq. destruct (xadd_new _ _ _ _ Ex) as [X1 X2].
  pose proof (oi_key _ (qo_outbox _ Hq) _ _ Eo) as <-. destruct (event_message_ok _ _ Hm) as (Hv & M1 & M2 & M3 & M4 & M5 & M6).
  exists o, rid, (model_dump_json m), (mk_envelope rid (sha256_hex (decode_replace (model_dump_json m))) m).
  split_and!; try done; [cbn; rewrite lookup_insert_eq; eexists; done|intros q2 group; unfold _decode_delivery, from_redis; cbn; by rewrite validate_dump|].
  intros q2 ev inbox_id group consumer secs lease s2 job Hkeep Hj Hkind Hfree Hnack Hc. cbn [message].
  destruct (oi_job _ (qo_outbox _ Hq) _ _ Eo) as (j0 & Hj0 & T0 & R0). destruct (Hkeep _ _ Hj0) as (j1 & Hj1 & T1 & R1).
  assert (j1 = job) as -> by congruence. unfold _accept_sqlite_delivery. cbn [message redis_id].
  assert (mismatched (jobs (db q2) !! q_job_id m) m = false) as ->.
  { apply mismatched_false. exists job. rewrite M3. split_and!; [done|congruence|congruence|done]. }
  unfold record_delivery. destruct (select_where _ (inbox q2)) as [|d l] eqn:Ed.
  - rewrite raise_if_false by (by rewrite Hfree). cbn [res_bind]. cbn [andb db put_inbox]. rewrite M3, Hc. by eexists.
  - cbn [res_bind]. destruct (of_delivery_elem group m (inbox q2) d) as ((i & Hi) & G1 & G2); [rewrite Ed; by left|].
    replace (ib_status d ==? "acked") with false by (symmetry; apply eqb_false; eapply Hnack; [done|done|congruence]).
    cbn [andb]. rewrite M3, Hc. by eexists.
Qed.
End operations.

(** ** Witnesses

    A codec that writes the bits of a message's number, and a stream that only
    grows and numbers its entries in unary. *)
Fixpoint bits_of (p : positive) : string :=
  match p with xH => "" | xO p => String "0"%char (bits_of p) | xI p => String "1"%char (bits_of p) end.
Fixpoint of_bits (s : string) : option positive :=
  match s with
  | EmptyString => Some xH
  | String c s => match of_bits s with Some p => Some (if decide (c = "0"%char) then xO p else xI p) | None => None end
  end.
Lemma of_bits_of p : of_bits (bits_of p) = Some p.
Proof. induction p as [p IH|p IH|]; cbn; [by rewrite IH..|done]. Qed.
#[export] Instance message_eq_dec : EqDecision RuntimeJobMessage.
Proof. solve_decision. Defined.
#[export] Instance message_countable : Countable RuntimeJobMessage.
Proof.
  refine (inj_countable'
    (fun m => (q_event_id m, q_delivery_id m, q_job_id m, q_run_id m, q_tenant_id m, q_delivery_generation m, q_traceparent m))
    (fun x => match x with (a, b, c, d, e, g, t) => mk_job_message a b c d e g t end) _). by intros [].
Defined.
Definition bit_validate (t : string) : res RuntimeJobMessage :=
  let! m := match of_bits t with Some p => decode p | None => None end else ValueError "json" in
  raise ValidationError "RuntimeJobMessage" when negb (valid_message m) ;; Ok m.
Lemma bit_validate_dump m : valid_message m = true -> bit_validate (bits_of (encode m)) = Ok m.
Proof. intros Hv. unfold bit_validate. by rewrite of_bits_of, decode_encode, raise_if_false by (by rewrite Hv). Qed.
Lemma bit_validate_valid t m : bit_validate t = Ok m -> valid_message m = true.
Proof.
  unfold bit_validate. destruct (match of_bits t with Some p => _ | None => _ end) as [x|]; [|done]. intros Hr.
  apply raise_if_ok in Hr as [Hv [= <-]]. by apply negb_false_iff in Hv.
Qed.
Definition bit_codec : MessageCodec :=
  {| model_dump_json m := bits_of (encode m); model_validate_json := bit_validate; decode_replace t := t;
     validate_dump := bit_validate_dump; validate_valid := bit_validate_valid |}.

Fixpoint unary (n : nat) : string := match n with O => "" | S n => String "1"%char (unary n) end.
Definition log_entry (st : list string) (i : string) : option string :=
  if decide (i = unary (String.length i)) then st !! String.length i else None.
Definition log_add (st : list string) (p : string) : option string * list string := (Some (unary (length st)), st ++ [p]).
Lemma unary_length n : String.length (unary n) = n.
Proof. induction n; cbn; congruence. Qed.
Lemma log_add_new st p i st' : log_add st p = (Some i, st') -> log_entry st i = None /\ log_entry st' i = Some p.
Proof.
  intros [= <- <-]. unfold log_entry. rewrite unary_length, !decide_True by done. split; [by apply lookup_ge_None|]. by rewrite lookup_app_r, Nat.sub_diag by done.
Qed.
Lemma log_add_keeps st p r st' i x : log_add st p = (r, st') -> log_entry st i = Some x -> log_entry st' i = Some x.
Proof. intros [= <- <-]. unfold log_entry. case_decide; [|done]. intros Hx. by apply lookup_app_l_Some. Qed.
Definition log_stream : RedisStream :=
  {| stream := list string; entry := log_entry; xadd := log_add; xadd_new := log_add_new; xadd_keeps := log_add_keeps |}.

(** The ticket of the runtime store with one job, announced. *)
Definition demo_row : OutboxEvent := new_outbox "O1" "D1" "t1" "J1" "R1" 1 "runtime_job_available" [] 0.
Definition demo_queue : queue := mk_queue (put_outbox demo_row demo_j1) ∅ [].
Definition demo_published : queue :=
  set_db (put_outbox (demo_row |> set_o_redis_message_id (Some "") |> set_o_published_at (Some 1) |> set_o_last_delivery_at (Some 1))
            (put_outbox demo_row demo_j1)) demo_queue.
Definition demo_entry : _DeliveryEnvelope :=
  mk_envelope "" (sha256_hex "x") (mk_job_message "O1" "D1" "J1" "R1" "t1" 1 None).
Definition demo_reconciler (now : Z) : reconciler :=
  mk_reconciler (at_time now) now 30 (3600 * second) (Some (fun _ => Some false)) (fun _ => mk_ids "R9" "E9" "J9" "O9" "D9" "M9").
Definition reconciled (rc : reconciler) (q : queue) : queue := match @reconcile_once ascii_runtime rc q with Ok (q, _) => q | Err _ => q end.
#[local] Notation demo_step := (@system_step ascii_runtime bit_codec log_stream).
Definition demo_log : list string := [bits_of (encode (message demo_entry))].

Lemma demo_queue_reachable : rtc demo_step (empty_queue, []) (demo_queue, []).
Proof.
  eapply rtc_l with (set_db demo_store empty_queue, []).
  { apply (@sy_write ascii_runtime bit_codec log_stream empty_queue [] demo_store); [|by left]. eapply rtc_l; [|apply rtc_refl]. apply rs_other; [done| |apply demo_store_keyed].
    intros tid id tn life mode c E. vm_compute in E. discriminate E. }
  eapply rtc_l; [|apply rtc_refl].
  apply (@sy_write ascii_runtime bit_codec log_stream (set_db demo_store empty_queue) [] (put_outbox demo_row demo_j1)).
  - eapply rtc_l with demo_j1; [eapply (rs_create _ (at_time 0) (job_ids "J1") "t1" "R1" "agent_start" None None); vm_compute; reflexivity|].
    eapply rtc_l; [|apply rtc_refl]. apply rs_other; [done|by intros tid id tn life mode c Hc; exists id, life, mode|].
    apply keyed_put_outbox. apply (@steps_keyed ascii_runtime demo_store); [apply demo_store_keyed|]. eapply rtc_l; [|apply rtc_refl].
    eapply (rs_create _ (at_time 0) (job_ids "J1") "t1" "R1" "agent_start" None None); vm_compute; reflexivity.
  - right. exists demo_row. split; [vm_compute; reflexivity|vm_compute; reflexivity|done|vm_compute; reflexivity|].
    eexists. split; [vm_compute; reflexivity|done].
Qed.
Lemma demo_publishes : @publish_one bit_codec log_stream (db demo_queue) [] "O1" 1 = Ok (db demo_published, demo_log, 1).
Proof. vm_compute. reflexivity. Qed.
Lemma demo_published_reachable : rtc demo_step (empty_queue, []) (demo_published, demo_log).
Proof.
  etransitivity; [apply demo_queue_reachable|]. eapply rtc_l; [|apply rtc_refl].
  apply (@sy_publish ascii_runtime bit_codec log_stream demo_queue [] "O1" 1 _ _ 1), demo_publishes.
Qed.
Lemma demo_queue_ok : queue_ok demo_queue.
Proof. exact (system_ok _ _ demo_queue_reachable empty_queue_ok). Qed.
Lemma demo_published_ok : queue_ok demo_published.
Proof. exact (system_ok _ _ demo_published_reachable empty_queue_ok). Qed.

(** Half a minute later the entry is gone from the stream. *)
Definition demo_redelivered : queue := reconciled (demo_reconciler 40000000) demo_published.
Definition demo_superseded : OutboxEvent := default demo_row (outbox (db demo_redelivered) !! "O1").
Lemma one_current_delivery_witness :
  outbox (db demo_redelivered) !! "O1" = Some demo_superseded /\ o_delivery_generation demo_superseded <= 2 /\ o_superseded_at demo_superseded <> None.
Proof.
  assert (outbox (db demo_redelivered) !! "O1" = Some demo_superseded) as Hb by (vm_compute; reflexivity).
  assert (rtc demo_step (empty_queue, []) (demo_redelivered, demo_log)) as Hr.
  { etransitivity; [apply demo_published_reachable|]. eapply rtc_l; [|apply rtc_refl].
    apply (@sy_reconcile ascii_runtime bit_codec log_stream demo_published demo_log (demo_reconciler 40000000) demo_redelivered 1).
    vm_compute. reflexivity. }
  destruct (@one_current_delivery ascii_runtime bit_codec log_stream [] demo_redelivered demo_log Hr) as [_ Ho].
  set (a := new_outbox "O9" "D9" "t1" "J1" "R1" 2 "runtime_job_available" [] 40000000).
  assert (outbox (db demo_redelivered) !! "O9" = Some a) as Ha by (vm_compute; reflexivity).
  destruct (Ho "O9" a Ha) as (_ & _ & Hk). destruct (Hk "O1" demo_superseded Hb) as (_ & H1 & H2); [vm_compute; reflexivity|].
  split; [exact Hb|]. split; [exact (H1 eq_refl)|]. intros Hs. discriminate (H2 eq_refl Hs).
Defined.
Lemma reconcile_covers_witness : settled (demo_reconciler 40000000) demo_published demo_redelivered "J1" (demo_job demo_j1 "J1").
Proof.
  apply (@reconcile_covers ascii_runtime (demo_reconciler 40000000) demo_published demo_redelivered 1 "J1" (demo_job demo_j1 "J1") demo_published_ok).
  - split; [vm_compute; reflexivity|]. split; [vm_compute; reflexivity|]. intros k b Hb _ _.
    assert (jobs (db demo_published) = <["J1" := demo_job demo_j1 "J1"]> ∅) as Ejs by (vm_compute; reflexivity).
    rewrite Ejs in Hb. apply lookup_insert_Some in Hb as [[_ <-]|[_ Hb]]; [vm_compute; discriminate|]. by rewrite lookup_empty in Hb.
  - vm_compute. reflexivity.
  - vm_compute. reflexivity.
Defined.
Definition demo_accepted_queue : queue :=
  match _accept_sqlite_delivery demo_published (at_time 2) "I1" "workers" "w1" 30 demo_entry with Ok (_, q) => q | Err _ => demo_published end.
Lemma delivery_confined_witness :
  outbox (db demo_accepted_queue) = outbox (db demo_published) /\
  exists job', jobs (db demo_accepted_queue) !! "J1" = Some job' /\ leased job' /\ j_fencing_token job' = 1.
Proof.
  destruct (delivery_confined demo_published (at_time 2) "I1" "workers" "w1" 30 demo_entry
              (mk_admission_d (message demo_entry) (Some (demo_lease "w1" 1 30000002 1)) false) demo_accepted_queue demo_published_ok)
    as (_ & Ho & _ & Hl); [vm_compute; reflexivity|].
  split; [exact Ho|]. destruct (Hl _ eq_refl) as (_ & _ & _ & job & job' & _ & Hj' & _ & Et & Hle & _). exists job'. by split_and!.
Defined.
Lemma published_row_reaches_worker_witness :
  exists rid payload, log_entry demo_log rid = Some payload /\
    exists e q3, (forall q2 g, @_decode_delivery bit_codec q2 g rid (Some payload) = (Some e, q2)) /\
      _accept_sqlite_delivery demo_published (at_time 2) "I1" "workers" "w1" 30 e =
        Ok (mk_admission_d (message e) (Some (demo_lease "w1" 1 30000002 1)) false, q3).
Proof.
  destruct (@published_row_reaches_worker bit_codec log_stream demo_queue [] "O1" 1 (db demo_published) demo_log demo_queue_ok demo_publishes)
    as (o & rid & payload & e & Ho & _ & He & _ & _ & _ & Hd & Ha).
  assert (o = demo_row) as -> by (vm_compute in Ho; injection Ho as <-; reflexivity).
  exists rid, payload. split; [exact He|]. exists e.
  destruct (Ha demo_published (at_time 2) "I1" "workers" "w1" 30 (demo_lease "w1" 1 30000002 1) (db demo_accepted_queue) (demo_job demo_j1 "J1"))
    as (q3 & Hq3 & _); [apply jobs_keep_refl|vm_compute; reflexivity|vm_compute; set_solver|reflexivity|..].
  - intros i r Hr. change (inbox demo_published) with (∅ : gmap string InboxDelivery) in Hr. by rewrite lookup_empty in Hr.
  - vm_compute. reflexivity.
  - by exists q3.
Defined.
