(* ===== verification/CallHistory.v ===== *)
(** * Histories of the call ledgers

    The operations of [CallLedger] as a step relation, with every other write of
    the system as a step that leaves the ledger tables alone and never lowers a
    run's counters.  Invariants by rule induction: the attempt budgets, the one
    final observation of an invocation, the completeness of a closed turn group,
    the agreement of a capability with its effect receipt. *)
From Stdlib Require Import Ascii.
From S2P Require Import Prelude PyValue Sha256 CanonicalJson Timestamps Store EventChain Lifecycle RuntimeJobs CallLedger.
Local Open Scope string_scope.
Local Open Scope list_scope.
Local Open Scope Z_scope.

(** ** Counting rows *)
Lemma select_where_update {A} (f : A -> bool) (t : gmap string A) i r0 r :
  t !! i = Some r0 -> f r = f r0 -> length (select_where f (<[i := r]> t)) = length (select_where f t).
Proof.
  intros Hi Hf. transitivity (length (select_where f (<[i := r0]> (delete i t)))); [|by rewrite insert_delete_id].
  rewrite <- (insert_delete_eq t i r), !select_where_insert by apply lookup_delete_eq. rewrite Hf. by destruct (f r0).
Qed.
Lemma select_where_fmap {A} (f : A -> bool) (g : A -> A) (t : gmap string A) :
  (forall r, f (g r) = f r) -> length (select_where f (g <$> t)) = length (select_where f t).
Proof.
  intros Hf. unfold select_where, rows. rewrite map_to_list_fmap. induction (map_to_list t) as [|[k x] l IH]; [done|].
  simpl. rewrite Hf. destruct (f x); simpl; [f_equal|]; exact IH.
Qed.

Lemma select_where_unique {A} (f : A -> bool) (t : gmap string A) :
  (forall i j x y, t !! i = Some x -> t !! j = Some y -> f x = true -> f y = true -> i = j) ->
  (length (select_where f t) <= 1)%nat.
Proof.
  intros Hu. unfold select_where, rows. set (l := map_to_list t).
  assert (List.filter f (map snd l) = map snd (List.filter (fun p => f p.2) l)) as ->.
  { induction l as [|[k x] l IH]; simpl; [done|]. destruct (f x); simpl; congruence. }
  rewrite length_map. assert (NoDup (List.filter (fun p => f p.2) l)) as Hnd.
  { apply NoDup_ListNoDup, List.NoDup_filter, NoDup_ListNoDup, NoDup_map_to_list. }
  assert (forall p, p ∈ List.filter (fun p => f p.2) l -> t !! p.1 = Some p.2 /\ f p.2 = true) as Hin.
  { intros [k x] [Hp Hf]%list_elem_of_In%List.filter_In. split; [|done]. by apply elem_of_map_to_list, list_elem_of_In. }
  destruct (List.filter _ l) as [|[i x] [|[j y] rest]]; [simpl; lia..|]. exfalso.
  destruct (Hin (i, x)) as [Hi Hx]; [left|]. destruct (Hin (j, y)) as [Hj Hy]; [right; left|].
  simpl in *. pose proof (Hu _ _ _ _ Hi Hj Hx Hy) as ->. simplify_eq. apply NoDup_cons in Hnd as [Hno _]. apply Hno. left.
Qed.

(** ** The three families of operations *)
Section steps.
Context `{PyRuntime, EnvelopeCodec}.

Inductive attempt_step (s : store) : store -> Prop :=
| as_reserve ev i t l q r s' : reserve_attempt s ev i t l q = Ok (r, s') -> attempt_step s s'
| as_round ev l n s' : reserve_tool_round s ev l = Ok (n, s') -> attempt_step s s'
| as_finish ev l r q s' : finish_attempt s ev l r q = Ok s' -> attempt_step s s'.
Inductive tool_step (s : store) : store -> Prop :=
| ts_open h ev t ids l seg n d m calls r s' : open_turn h s ev t ids l seg n d m calls = Ok (r, s') -> tool_step s s'
| ts_executing ev l i r s' : mark_executing s ev l i = Ok (r, s') -> tool_step s s'
| ts_terminalize ev o l i out e intent r s' : terminalize s ev o l i out e intent = Ok (r, s') -> tool_step s s'
| ts_close ev l t r s' : close_turn s ev l t = Ok (r, s') -> tool_step s s'
| ts_takeover ev l t r s' : takeover s ev l t = Ok (r, s') -> tool_step s s'
| ts_abort ev new l t tk reason r s' : abort_pending s ev new l t tk reason = Ok (r, s') -> tool_step s s'.
(** The Action server writes a succeeded receipt in the transaction of the effect. *)
Inductive capability_step (s : store) : store -> Prop :=
| cs_reserve ev i a l seg name d b r s' : reserve_capability s ev i a l seg name d b = Ok (r, s') -> capability_step s s'
| cs_finish ev i l rc st err p rec r s' : finish_capability s ev i l rc st err p rec = Ok (r, s') -> capability_step s s'
| cs_unknown ev i l c st p r s' : reconcile_unknown s ev i l c st p = Ok (r, s') -> capability_step s s'
| cs_effect ev i l c r s' : reconcile_unknown_effect s ev i l c = Ok (r, s') -> capability_step s s'
| cs_stale ev i l c r s' : reconcile_stale_active_effect s ev i l c = Ok (r, s') -> capability_step s s'
| cs_receipt r c s' :
    capabilities s !! cr_invocation_id r = Some c -> ci_status c ∈ ["reserved"; "executing"; "unknown"] ->
    cr_effect_identity r = ci_effect_identity c -> cr_status r = "succeeded" ->
    canonical_hash (cr_payload r) = Ok (cr_payload_hash r) ->
    insert_capability_result s r = Ok s' -> capability_step s s'.

(** The tables of each family. *)
Definition attempt_tables (s s' : store) : Prop := call_attempts s' = call_attempts s.
(** Counters start at zero or above and are never lowered. *)
Definition counters_grow (s s' : store) : Prop :=
  (forall i r, runs s !! i = Some r ->
     exists r', runs s' !! i = Some r' /\ r_llm_calls r <= r_llm_calls r' /\ r_tool_attempts r <= r_tool_attempts r') /\
  (forall i r', runs s' !! i = Some r' -> runs s !! i = None -> 0 <= r_llm_calls r' /\ 0 <= r_tool_attempts r').
Definition tool_tables (s s' : store) : Prop :=
  observations s' = observations s /\ invocations s' = invocations s /\ turn_groups s' = turn_groups s.
Definition capability_tables (s s' : store) : Prop :=
  capabilities s' = capabilities s /\ capability_results s' = capability_results s.
Record elsewhere (s s' : store) : Prop := {
  ew_attempts : attempt_tables s s'; ew_counters : counters_grow s s'; ew_tools : tool_tables s s';
  ew_capabilities : capability_tables s s'; ew_keyed : keyed s -> keyed s';
}.
Inductive call_step (s s' : store) : Prop :=
| step_attempt : attempt_step s s' -> call_step s s'
| step_tool : tool_step s s' -> call_step s s'
| step_capability : capability_step s s' -> call_step s s'
| step_elsewhere : elsewhere s s' -> call_step s s'.

Lemma counters_refl s : counters_grow s s.
Proof. split; [|congruence]. intros i r Hr. exists r. split; [done|lia]. Qed.
Lemma counters_same s s' : runs s' = runs s -> counters_grow s s'.
Proof. intros E. split; [|rewrite E; congruence]. intros i r Hr. exists r. rewrite E. split; [done|lia]. Qed.

(** ** What each attempt operation does *)
Lemma insert_attempt_ok s a s' :
  insert_attempt s a = Ok s' -> call_attempts s !! ca_id a = None /\ s' = put_attempt a s.
Proof. unfold insert_attempt. intros Ho. steps_ok Ho. to_prop. destruct_and!. by simplify_eq. Qed.
Lemma insert_transport_ok s t s' : insert_transport s t = Ok s' -> s' = put_transport t s.
Proof. unfold insert_transport. intros Ho. steps_ok Ho. by simplify_eq. Qed.

(** The counter a kind of attempt is charged to. *)
Definition charged (kinds : list string) (run run' : AgentRun) : Prop :=
  (kinds = llm_kinds /\ r_llm_calls run < MAX_LLM_CALLS /\ run' = set_r_llm_calls (r_llm_calls run + 1) run) \/
  (kinds = tool_kinds /\ r_tool_attempts run < MAX_TOOL_ATTEMPTS /\ run' = set_r_tool_attempts (r_tool_attempts run + 1) run).
Lemma charge_ok s l run q run' :
  charge_attempt s l run q = Ok run' -> exists kinds, at_kind q ∈ kinds /\ charged kinds run run'.
Proof.
  unfold charge_attempt. cbv zeta. intros Ho. destruct (mem _ llm_kinds) eqn:E1.
  - steps_ok Ho. exists llm_kinds. rewrite mem_true in E1. split; [done|]. left. to_prop. by simplify_eq.
  - destruct (mem _ tool_kinds) eqn:E2; [|done]. destruct (at_logical_invocation_id q); [|done].
    destruct (invocations s !! _); [|done]. steps_ok Ho. exists tool_kinds. rewrite mem_true in E2. split; [done|]. right.
    to_prop. by simplify_eq.
Qed.
Lemma check_repair_ok s l q u :
  check_repair s l q = Ok u -> at_kind q = "structure_repair" ->
  forall k a, call_attempts s !! k = Some a -> ca_run_id a = l_run_id l -> ca_call_kind a <> "structure_repair".
Proof.
  unfold check_repair. intros Ho Hk k a Ha Hr Hc. rewrite Hk, eqb_refl in Ho. destruct (call_attempts s !! default _ _); [|done].
  steps_ok Ho. rewrite exists_where_false in Hguard0. specialize (Hguard0 _ _ Ha). rewrite Hr, Hc, !eqb_refl in Hguard0. done.
Qed.
(** A reservation adds one started attempt and charges one counter. *)
Lemma reserve_ok s ev i t l q r s' :
  keyed s -> reserve_attempt s ev i t l q = Ok (r, s') ->
  exists run run' a kinds, runs s !! l_run_id l = Some run /\ r_id run' = l_run_id l /\ charged kinds run run' /\
    ca_id a = i /\ ca_run_id a = l_run_id l /\ ca_call_kind a ∈ kinds /\ call_attempts s !! i = None /\
    (ca_call_kind a = "structure_repair" -> forall k b, call_attempts s !! k = Some b -> ca_run_id b = l_run_id l ->
       ca_call_kind b <> "structure_repair") /\
    call_attempts s' = <[i := a]> (call_attempts s) /\ runs s' = <[l_run_id l := run']> (runs s) /\
    tool_tables s s' /\ capability_tables s s' /\ keyed s'.
Proof.
  unfold reserve_attempt. intros Hk Ho. steps_ok Ho. destruct (runs s !! l_run_id l) as [run|] eqn:Er; [|done].
  steps_ok Ho. apply insert_attempt_ok in Hstep2 as [Hn ->]. apply charge_ok in Hstep1 as (kinds & Hin & Hch).
  assert (r_id a1 = l_run_id l) as Hid.
  { pose proof (keyed_runs _ Hk _ _ Er) as <-. destruct Hch as [(_ & _ & ->)|(_ & _ & ->)]; done. }
  assert (exists s1, s' = s1 /\ call_attempts s1 = call_attempts (put_attempt (mk_attempt i (l_tenant_id l) (l_run_id l) (l_job_id l)
    (l_fencing_token l) (at_kind q) (max_or_zero (map ca_ordinal (select_where (fun a => (ca_run_id a ==? l_run_id l)
       && (ca_call_kind a ==? at_kind q)) (call_attempts s))) + 1) (at_logical_invocation_id q) (at_transport_ordinal q) "started" 0 0
       None None (attempt_provenance ev l run q)) (put_run a1 s)) /\ runs s1 = runs (put_run a1 s) /\ tool_tables s s1 /\
       capability_tables s s1 /\ keyed s1) as (s1 & -> & Ha & Hr & Ht & Hc & Hk').
  { eexists. split; [reflexivity|]. destruct (_ ==? "read_mcp").
    - destruct (at_logical_invocation_id q); [|done]. destruct (at_transport_ordinal q); [|done]. steps_ok Ho.
      apply insert_transport_ok in Hstep1 as ->. simplify_eq. split_and!; auto with keyed; by split_and!.
    - simplify_eq. split_and!; auto with keyed; by split_and!. }
  simpl in Ha, Hr. rewrite Hid in Hr. match type of Ha with _ = <[_ := ?x]> _ => exists run, a1, x, kinds end.
  split_and!; try done. simpl. intros Hkind. by eapply check_repair_ok.
Qed.
Lemma round_ok s ev l n s' :
  keyed s -> reserve_tool_round s ev l = Ok (n, s') ->
  exists run, runs s !! l_run_id l = Some run /\ n = r_tool_rounds run + 1 /\ n <= MAX_TOOL_ROUNDS /\
    s' = put_run (set_r_tool_rounds n run) s.
Proof.
  unfold reserve_tool_round. intros Hk Ho. steps_ok Ho. destruct (runs s !! _) as [run|] eqn:Er; [|done]. steps_ok Ho.
  to_prop. simplify_eq. exists run. split_and!; try done. lia.
Qed.
(** Finishing keeps the run and the kind of the attempt. *)
Lemma finish_ok s ev l r q s' :
  keyed s -> finish_attempt s ev l r q = Ok s' ->
  exists a a', call_attempts s !! ra_id r = Some a /\ ca_status a = "started" /\ ca_status a' = fa_status q /\
    ca_run_id a' = ca_run_id a /\ ca_call_kind a' = ca_call_kind a /\
    call_attempts s' = <[ra_id r := a']> (call_attempts s) /\ runs s' = runs s /\
    tool_tables s s' /\ capability_tables s s' /\ keyed s'.
Proof.
  unfold finish_attempt. intros Hk Ho. apply res_bind_ok in Ho as (job & _ & Ho).
  destruct (call_attempts s !! ra_id r) as [row|] eqn:Ea; [|done]. apply raise_if_ok in Ho as [Hguard Ho].
  apply raise_if_ok in Ho as [_ Ho]. apply res_bind_ok in Ho as (paths & _ & Ho). apply res_bind_ok in Ho as (prov & _ & Ho).
  apply res_bind_ok in Ho as (s1 & Hstep2 & Ho). apply res_bind_ok in Ho as (prov' & _ & Ho).
  assert (exists t, s1 = s \/ s1 = put_transport t s) as [t Ht].
  { unfold finish_transport in Hstep2. destruct (ra_transport_attempt_id r); [|simplify_eq; exists (mk_transport "" "" "" "" "" "" 0 0 "" None None); by left].
    destruct (transports s !! _); [|done]. steps_ok Hstep2. simplify_eq. eexists. by right. }
  pose proof (keyed_call_attempts _ Hk _ _ Ea) as Hid. rewrite neqb_false in Hguard.
  match type of Ho with Ok (put_attempt ?x _) = _ => exists row, x end. injection Ho as <-.
  split; [done|]. split; [done|]. destruct Ht as [->| ->]; simpl; rewrite ?Hid; split_and!; auto with keyed; by split_and!.
Qed.

(** ** Budgets *)
Definition attempts_of (s : store) (run : string) (kinds : list string) : Z :=
  Z.of_nat (length (select_where (fun a => (ca_run_id a ==? run) && (ca_call_kind a in? kinds)) (call_attempts s))).
Definition counter (s : store) (get : AgentRun -> Z) (run : string) : Z :=
  match runs s !! run with Some r => get r | None => 0 end.
(** Attempts are covered by the run's counters and by the limits. *)
Record within_budget (s : store) : Prop := {
  wb_keyed : keyed s;
  wb_llm_counter : forall i, attempts_of s i llm_kinds <= counter s r_llm_calls i;
  wb_tool_counter : forall i, attempts_of s i tool_kinds <= counter s r_tool_attempts i;
  wb_llm : forall i, attempts_of s i llm_kinds <= MAX_LLM_CALLS;
  wb_tool : forall i, attempts_of s i tool_kinds <= MAX_TOOL_ATTEMPTS;
  wb_repair : forall i, attempts_of s i ["structure_repair"] <= 1;
}.

Lemma attempts_insert s s' i a run kinds :
  call_attempts s !! i = None -> call_attempts s' = <[i := a]> (call_attempts s) ->
  attempts_of s' run kinds =
    attempts_of s run kinds + (if (ca_run_id a ==? run) && (ca_call_kind a in? kinds) then 1 else 0).
Proof.
  intros Hn E. unfold attempts_of. rewrite E, select_where_insert by done. rewrite length_app. destruct (_ && _); simpl; lia.
Qed.
Lemma attempts_update s s' i a a' run kinds :
  call_attempts s !! i = Some a -> call_attempts s' = <[i := a']> (call_attempts s) ->
  ca_run_id a' = ca_run_id a -> ca_call_kind a' = ca_call_kind a -> attempts_of s' run kinds = attempts_of s run kinds.
Proof. intros Ha E Er Ek. unfold attempts_of. rewrite E. f_equal. eapply select_where_update; [done|]. by rewrite Er, Ek. Qed.
Lemma counter_grows s s' (get : AgentRun -> Z) i :
  (forall r, runs s !! i = Some r -> exists r', runs s' !! i = Some r' /\ get r <= get r') ->
  (forall r', runs s' !! i = Some r' -> runs s !! i = None -> 0 <= get r') -> counter s get i <= counter s' get i.
Proof.
  intros Hg Hn. unfold counter. destruct (runs s !! i) as [r|]; [destruct (Hg r eq_refl) as (r' & -> & ?); lia|].
  destruct (runs s' !! i); [by apply Hn|lia].
Qed.
Lemma budget_quiet s s' :
  within_budget s -> keyed s' -> counters_grow s s' -> (forall i kinds, attempts_of s' i kinds = attempts_of s i kinds) ->
  within_budget s'.
Proof.
  intros [] Hk [Hg Hn] Ha. split; [done|..]; intros i; rewrite Ha; auto.
  - etransitivity; [apply wb_llm_counter0|]. apply counter_grows.
    + intros r Hr. destruct (Hg _ _ Hr) as (r' & ? & ? & _). eauto.
    + intros r' Hr' Hi. by destruct (Hn _ _ Hr' Hi).
  - etransitivity; [apply wb_tool_counter0|]. apply counter_grows.
    + intros r Hr. destruct (Hg _ _ Hr) as (r' & ? & _ & ?). eauto.
    + intros r' Hr' Hi. by destruct (Hn _ _ Hr' Hi).
Qed.
Lemma attempts_none s run kinds :
  (forall k a, call_attempts s !! k = Some a -> ca_run_id a = run -> ca_call_kind a ∉ kinds) -> attempts_of s run kinds = 0.
Proof.
  intros Hn. unfold attempts_of. destruct (select_where _ _) as [|a l] eqn:E; [done|].
  assert (a ∈ a :: l) as Ha by left. rewrite <- E in Ha. apply select_where_elem in Ha as [[k Ha] Hf]. to_prop. destruct Hf.
  by destruct (Hn _ _ Ha).
Qed.
(** A reservation is one attempt more, against one counter more. *)
Lemma budget_reserve s ev i t l q r s' : within_budget s -> reserve_attempt s ev i t l q = Ok (r, s') -> within_budget s'.
Proof.
  intros [Hk Hlc Htc Hl Ht Hr] Ho.
  destruct (reserve_ok _ _ _ _ _ _ _ _ Hk Ho) as (run & run' & a & kinds & Hrun & _ & Hch & _ & Har & Hin & Hn & Hrep & Ea & Er & _ & _ & Hk').
  assert (forall k f, attempts_of s' k f = attempts_of s k f + (if (ca_run_id a ==? k) && (ca_call_kind a in? f) then 1 else 0)) as Hcount
    by (intros; by eapply attempts_insert).
  assert (forall get k, k <> l_run_id l -> counter s' get k = counter s get k) as Hother
    by (intros get k Hne; unfold counter; by rewrite Er, lookup_insert_ne).
  assert (forall get, counter s' get (l_run_id l) = get run') as Hself by (intros; unfold counter; by rewrite Er, lookup_insert_eq).
  assert (forall get, counter s get (l_run_id l) = get run) as Hold by (intros; unfold counter; by rewrite Hrun).
  assert (kinds = llm_kinds \/ kinds = tool_kinds) as Hkinds by (destruct Hch as [(-> & _)|(-> & _)]; auto).
  assert (forall x, x ∈ llm_kinds -> x ∈ tool_kinds -> False) as Hdis.
  { intros x. unfold llm_kinds, tool_kinds. rewrite !elem_of_cons. set_solver by congruence. }
  assert (forall (x : string) (y : list string), x ∈ y -> (x in? y) = true) as Hmem by (intros; by apply mem_true).
  assert (forall (x : string) (y : list string), x ∉ y -> (x in? y) = false) as Hnmem by (intros; by apply mem_false).
  assert (forall k f, k <> l_run_id l -> attempts_of s' k f = attempts_of s k f) as Hfar.
  { intros k f Hne. rewrite Hcount, (proj2 (eqb_false (ca_run_id a) k)) by congruence. simpl. lia. }
  assert (forall f, attempts_of s' (l_run_id l) f = attempts_of s (l_run_id l) f + (if ca_call_kind a in? f then 1 else 0)) as Hnear
    by (intros f; by rewrite Hcount, Har, eqb_refl).
  split; [done|..]; intros k; (destruct (decide (k = l_run_id l)) as [->|Hne]; [rewrite Hnear|rewrite Hfar by done; rewrite ?Hother by done; auto]);
    rewrite ?Hself.
  - specialize (Hlc (l_run_id l)). rewrite Hold in Hlc. destruct Hch as [(-> & ? & ->)|(-> & ? & ->)].
    + rewrite Hmem by done. simpl. lia.
    + rewrite Hnmem by eauto. simpl. lia.
  - specialize (Htc (l_run_id l)). rewrite Hold in Htc. destruct Hch as [(-> & ? & ->)|(-> & ? & ->)].
    + rewrite Hnmem by eauto. simpl. lia.
    + rewrite Hmem by done. simpl. lia.
  - specialize (Hlc (l_run_id l)). rewrite Hold in Hlc. specialize (Hl (l_run_id l)).
    destruct Hch as [(-> & ? & _)|(-> & _ & _)]; [rewrite Hmem by done|rewrite Hnmem by eauto]; simpl; lia.
  - specialize (Htc (l_run_id l)). rewrite Hold in Htc. specialize (Ht (l_run_id l)).
    destruct Hch as [(-> & _ & _)|(-> & ? & _)]; [rewrite Hnmem by eauto|rewrite Hmem by done]; simpl; lia.
  - specialize (Hr (l_run_id l)). destruct (mem (ca_call_kind a) ["structure_repair"]) eqn:E; [|simpl; lia].
    rewrite mem_true, list_elem_of_singleton in E. rewrite attempts_none; [done|].
    intros j b Hb Hbr. rewrite list_elem_of_singleton. by eapply Hrep.
Qed.
Lemma budget_step s s' : within_budget s -> attempt_step s s' -> within_budget s'.
Proof.
  intros Hb Hs. pose proof (wb_keyed _ Hb) as Hk. destruct Hs as [ev i t l q r s' Ho|ev l n s' Ho|ev l r q s' Ho].
  - by eapply budget_reserve.
  - destruct (round_ok _ _ _ _ _ Hk Ho) as (run & Hr & _ & _ & ->). pose proof (keyed_runs _ Hk _ _ Hr) as Hid.
    apply (budget_quiet s); [done|auto with keyed| |done]. split; simpl; rewrite Hid.
    + intros j x Hx. destruct (decide (j = l_run_id l)) as [->|]; [|rewrite lookup_insert_ne by done; exists x; split; [done|lia]].
      rewrite lookup_insert_eq. simplify_eq. eexists. split; [done|]. simpl. lia.
    + intros j x [[<- <-]|[_ ?]]%lookup_insert_Some; congruence.
  - destruct (finish_ok _ _ _ _ _ _ Hk Ho) as (a & a' & Ha & _ & _ & Er & Ek & E & Eruns & _ & _ & Hk').
    apply (budget_quiet s); [done|done|by apply counters_same|]. intros. by eapply attempts_update.
Qed.

(** ** What each tool operation does *)
(** The tables outside the tool family. *)
Definition other_tables (s s' : store) : Prop :=
  runs s' = runs s /\ (forall i kinds, attempts_of s' i kinds = attempts_of s i kinds) /\ capability_tables s s'.
Lemma other_refl s : other_tables s s.
Proof. by split_and!. Qed.
Lemma other_trans s1 s2 s3 : other_tables s1 s2 -> other_tables s2 s3 -> other_tables s1 s3.
Proof.
  intros (E1 & A1 & C1 & D1) (E2 & A2 & C2 & D2). split_and!; [congruence|intros; by rewrite A2, A1|split; congruence].
Qed.
Definition group_size (s : store) (g : string) : Z :=
  Z.of_nat (length (select_where (fun i => iv_turn_group_id i ==? g) (invocations s))).

Lemma insert_group_ok s g s' : insert_group s g = Ok s' -> turn_groups s !! tg_id g = None /\ s' = put_group g s.
Proof. unfold insert_group. intros Ho. steps_ok Ho. to_prop. destruct_and!. by simplify_eq. Qed.
Lemma insert_invocation_ok s i s' : insert_invocation s i = Ok s' -> invocations s !! iv_id i = None /\ s' = put_invocation i s.
Proof. unfold insert_invocation. intros Ho. steps_ok Ho. to_prop. destruct_and!. by simplify_eq. Qed.
Lemma insert_observation_ok s o s' :
  insert_observation s o = Ok s' ->
  observations s !! ob_id o = None /\ (forall k x, observations s !! k = Some x -> ob_invocation_id x <> ob_invocation_id o) /\
  1 <= ob_attempt_index o /\ s' = put_observation o s.
Proof.
  unfold insert_observation. intros Ho. steps_ok Ho. rewrite !orb_false_iff, exists_where_false, isSome_false, Z.ltb_ge in Hguard.
  destruct Hguard as [[Hn Hu] Hi]. simplify_eq. split_and!; try done. intros k x Hx. specialize (Hu _ _ Hx). by rewrite eqb_false in Hu.
Qed.
Lemma insert_invocations_ok l : forall s s', keyed s -> insert_invocations s l = Ok s' ->
  keyed s' /\ other_tables s s' /\ observations s' = observations s /\ turn_groups s' = turn_groups s /\
  (forall k i, invocations s !! k = Some i -> invocations s' !! k = Some i) /\
  (forall k i, invocations s' !! k = Some i -> invocations s !! k = Some i \/ i ∈ l) /\
  (forall g, (forall i, i ∈ l -> iv_turn_group_id i <> g) -> group_size s' g = group_size s g).
Proof.
  induction l as [|i l IH]; simpl; intros s s' Hk Ho; [simplify_eq; split_and!; eauto; by split_and!|].
  steps_ok Ho. apply insert_invocation_ok in Hstep as [Hn ->].
  destruct (IH _ _ (keyed_put_invocation s i Hk) Ho) as (Hk' & Ho' & Eo & Eg & Hkeep & Hnew & Hsize).
  simpl in *. split_and!; try done.
  - intros k x Hx. apply Hkeep. rewrite lookup_insert_ne; [done|]. intros <-. congruence.
  - intros k x Hx. destruct (Hnew _ _ Hx) as [[[<- <-]|[_ ?]]%lookup_insert_Some|?]; [right; left|by left|right; by right].
  - intros g Hg. rewrite Hsize by (intros; apply Hg; by right). unfold group_size. simpl.
    rewrite select_where_insert by done. by rewrite (proj2 (eqb_false _ _) (Hg i (list_elem_of_here _ _))).
Qed.

(** Opening adds an open group with fresh, received invocations. *)
Lemma open_turn_ok h s ev t ids l seg n d m calls r s' :
  keyed s -> open_turn h s ev t ids l seg n d m calls = Ok (r, s') ->
  exists g rows, turn_groups s !! t = None /\ tg_id g = t /\ tg_status g = "open" /\
    (forall i, i ∈ rows -> iv_turn_group_id i = t /\ iv_lifecycle i = "received") /\
    insert_invocations (put_group g s) rows = Ok s'.
Proof.
  unfold open_turn. intros Hk Ho. steps_ok Ho. apply insert_group_ok in Hstep2 as [Hn ->]. simpl in Hn.
  match type of Hstep4 with insert_invocations (put_group ?g _) ?rows = _ => exists g, rows end. simplify_eq.
  split_and!; try done. intros i Hi. destruct (map_res_elem _ _ _ _ Hstep3 Hi) as (c & _ & Hc).
  unfold invocation_of in Hc. destruct (ids _). steps_ok Hc. by simplify_eq.
Qed.
Lemma executing_ok s ev l k r s' :
  keyed s -> mark_executing s ev l k = Ok (r, s') ->
  exists i, invocations s !! k = Some i /\ iv_lifecycle i <> "terminal" /\ iv_fencing_token i = l_fencing_token l /\
    s' = set_invocations (<[k := set_iv_lifecycle "executing" i]> (invocations s)) s.
Proof.
  unfold mark_executing. intros Hk Ho. steps_ok Ho. destruct (invocations s !! k) as [i|] eqn:Ei; [|done]. steps_ok Ho.
  simplify_eq. exists i. rewrite orb_false_iff, neqb_false, negb_false_iff, mem_true in Hguard. destruct Hguard as [Hf Hl].
  split_and!; try done.
  - intros E. rewrite E in Hl. apply mem_true in Hl. vm_compute in Hl. done.
  - unfold put_invocation. simpl. by rewrite (keyed_invocations _ Hk _ _ Ei).
Qed.
(** A terminalisation returns the recorded observation, or records one. *)
Lemma terminalize_ok s ev oid l k out e intent row s' :
  keyed s -> terminalize s ev oid l k out e intent = Ok (row, s') ->
  exists i payload, invocations s !! k = Some i /\ iv_fencing_token i = l_fencing_token l /\
    observation_payload e intent = Ok payload /\ canonical_hash payload = Ok (ob_content_hash row) /\ ob_invocation_id row = k /\
    ((s' = s /\ (exists j, observations s !! j = Some row) /\ iv_outcome i = Some out) \/
     (iv_lifecycle i <> "terminal" /\ observations s !! oid = None /\
      (forall j x, observations s !! j = Some x -> ob_invocation_id x <> k) /\ out ∈ invocation_outcomes /\
      row = mk_observation oid (l_tenant_id l) (l_run_id l) (l_job_id l) k (iv_segment_id i) (l_fencing_token l) (oe_status e)
              (oe_attempt_index e) (ob_content_hash row) payload /\ 1 <= oe_attempt_index e /\
      s' = set_invocations (<[k := terminal_invocation ev out i]> (invocations s)) (put_observation row s))).
Proof.
  unfold terminalize. intros Hk Ho. steps_ok Ho. destruct (invocations s !! k) as [i|] eqn:Ei; [|done]. steps_ok Ho.
  pose proof (keyed_invocations _ Hk _ _ Ei) as Hid. rewrite neqb_false in Hguard.
  destruct (head _) as [x|] eqn:Ex.
  - steps_ok Ho. injection Ho as <- <-. assert (x ∈ select_where (fun o => ob_invocation_id o ==? iv_id i) (observations s)) as Hx.
    { destruct (select_where _ _); [done|]. injection Ex as ->. left. }
    apply select_where_elem in Hx as [Hx Hxi]. to_prop. destruct Hguard0 as [<- Hout]. exists i, a0. rewrite Hid in Hxi. split_and!; try done.
    left. by split_and!.
  - steps_ok Ho. injection Ho as <- <-. apply insert_observation_ok in Hstep2 as (Hn & Hu & Hi & ->). simpl in *. rewrite Hid in *.
    rewrite eqb_false in Hguard0. rewrite negb_false_iff, mem_true in Hguard1. exists i, a0. split_and!; try done. right.
    split_and!; try done. unfold put_invocation. simpl. by rewrite Hid.
Qed.

(** The outer join: a row per invocation when observations are unique, and as
    many observations as rows only when every invocation has one. *)
Lemma joined_counts (sel : ToolInvocation -> list ToolObservation) (L : list ToolInvocation) :
  let joined := flat_map (fun i => match sel i with [] => [None] | rows => map Some rows end) L in
  (length (List.filter isSome joined) <= length joined)%nat /\
  (length (List.filter isSome joined) = length joined -> forall i, i ∈ L -> sel i <> []) /\
  ((forall i, i ∈ L -> (length (sel i) <= 1)%nat) -> length joined = length L).
Proof.
  assert (forall A (l : list A), List.filter isSome (map Some l) = map Some l) as Hsome
    by (intros A l; induction l; simpl; congruence).
  cbv zeta. induction L as [|i L (IH1 & IH2 & IH3)]; simpl in *; [split_and!; [done|set_solver|done]|].
  rewrite List.filter_app, !length_app. destruct (sel i) as [|o rows] eqn:E; simpl.
  - split_and!; [lia|lia|]. intros Hu. rewrite IH3; [lia|]. intros. apply Hu. by right.
  - rewrite Hsome, !length_map. split_and!.
    + lia.
    + intros Hl j [->|Hj]%elem_of_cons; [by rewrite E|]. apply IH2; [lia|done].
    + intros Hu. rewrite IH3 by (intros; apply Hu; by right). specialize (Hu i (list_elem_of_here _ _)). rewrite E in Hu.
      simpl in Hu. lia.
Qed.

(** ** The contract of the tool ledger *)
Definition settled_group (g : TurnGroup) : Prop := tg_status g ∈ ["closed"; "aborted"].
Record recorded (s : store) : Prop := {
  rd_keyed : keyed s;
  rd_once : forall j k o x, observations s !! j = Some o -> observations s !! k = Some x ->
    ob_invocation_id o = ob_invocation_id x -> j = k;
  rd_terminal : forall j o, observations s !! j = Some o ->
    exists i, invocations s !! ob_invocation_id o = Some i /\ iv_lifecycle i = "terminal";
  rd_observed : forall k i, invocations s !! k = Some i -> iv_lifecycle i = "terminal" ->
    exists j o, observations s !! j = Some o /\ ob_invocation_id o = k;
  rd_digest : forall j o, observations s !! j = Some o ->
    canonical_hash (ob_payload o) = Ok (ob_content_hash o) /\ 1 <= ob_attempt_index o;
  rd_group : forall k i, invocations s !! k = Some i -> is_Some (turn_groups s !! iv_turn_group_id i);
  rd_settled : forall k g i j, turn_groups s !! k = Some g -> settled_group g -> invocations s !! j = Some i ->
    iv_turn_group_id i = k -> iv_lifecycle i = "terminal";
  rd_closed : forall k g, turn_groups s !! k = Some g -> tg_status g = "closed" -> group_size s k = tg_expected_invocations g;
}.
(** What no step takes back: observations, and the invocations they settle. *)
Record preserved (s s' : store) : Prop := {
  pv_observations : forall k o, observations s !! k = Some o -> observations s' !! k = Some o;
  pv_terminal : forall k i, invocations s !! k = Some i -> iv_lifecycle i = "terminal" -> invocations s' !! k = Some i;
}.
Lemma preserved_refl s : preserved s s.
Proof. by split. Qed.
Lemma preserved_trans s1 s2 s3 : preserved s1 s2 -> preserved s2 s3 -> preserved s1 s3.
Proof. intros [] []. split; eauto. Qed.

(** A write to one invocation that keeps its group and stays short of terminal. *)
Lemma recorded_move s k i i' :
  recorded s -> invocations s !! k = Some i -> iv_lifecycle i <> "terminal" -> iv_lifecycle i' <> "terminal" ->
  iv_id i' = iv_id i -> iv_turn_group_id i' = iv_turn_group_id i ->
  recorded (set_invocations (<[k := i']> (invocations s)) s) /\ preserved s (set_invocations (<[k := i']> (invocations s)) s).
Proof.
  intros [Hk Honce Hterm Hobs Hdig Hgrp Hset Hcl] Hi Hn Hn' Eid Eg.
  assert (forall j x, invocations s !! j = Some x -> iv_lifecycle x = "terminal" -> <[k := i']> (invocations s) !! j = Some x) as Hkeep.
  { intros j x Hx Ht. rewrite lookup_insert_ne; [done|]. intros <-. congruence. }
  split; [|by split]. split; simpl; try done.
  - replace (set_invocations _ s) with (put_invocation i' s); [auto with keyed|]. unfold put_invocation.
    by rewrite Eid, (keyed_invocations _ Hk _ _ Hi).
  - intros j o Ho. destruct (Hterm _ _ Ho) as (x & Hx & Ht). eauto.
  - intros j x [[<- <-]|[_ Hx]]%lookup_insert_Some Ht; [done|eauto].
  - intros j x [[<- <-]|[_ Hx]]%lookup_insert_Some; [rewrite Eg|]; eauto.
  - intros j g x y Hg Hs [[<- <-]|[_ Hx]]%lookup_insert_Some E; [|eauto]. destruct Hn. eapply Hset; eauto. congruence.
  - intros j g Hg Hs. rewrite <- (Hcl _ _ Hg Hs). unfold group_size. simpl. f_equal.
    eapply select_where_update; [done|]. by rewrite Eg.
Qed.
Lemma recorded_open s g rows s' :
  recorded s -> turn_groups s !! tg_id g = None -> tg_status g = "open" ->
  (forall i, i ∈ rows -> iv_turn_group_id i = tg_id g /\ iv_lifecycle i = "received") ->
  insert_invocations (put_group g s) rows = Ok s' -> recorded s' /\ preserved s s'.
Proof.
  intros [Hk Honce Hterm Hobs Hdig Hgrp Hset Hcl] Hn Hst Hrows Ho.
  destruct (insert_invocations_ok _ _ _ (keyed_put_group s g Hk) Ho) as (Hk' & _ & Eo & Eg & Hkeep & Hnew & Hsize). simpl in *.
  assert (forall i, i ∈ rows -> iv_lifecycle i <> "terminal") as Hfresh by (intros i Hi; destruct (Hrows _ Hi) as [_ ->]; done).
  split; [|split; [by rewrite Eo|auto]]. split; rewrite ?Eo, ?Eg; try done.
  - intros j o Hj. destruct (Hterm _ _ Hj) as (x & Hx & Ht). eauto.
  - intros k i Hi Ht. destruct (Hnew _ _ Hi) as [?|?]; [eauto|]. by destruct (Hfresh i).
  - intros k i Hi. destruct (Hnew _ _ Hi) as [Hold|Hin].
    + destruct (decide (tg_id g = iv_turn_group_id i)) as [<-|]; [rewrite lookup_insert_eq|rewrite lookup_insert_ne by done]; eauto.
    + destruct (Hrows _ Hin) as [-> _]. rewrite lookup_insert_eq. eauto.
  - intros k x i j [[<- <-]|[Hne Hx]]%lookup_insert_Some Hs Hi E.
    + unfold settled_group in Hs. rewrite Hst in Hs. apply mem_true in Hs. vm_compute in Hs. done.
    + destruct (Hnew _ _ Hi) as [?|Hin]; [eauto|]. destruct (Hrows _ Hin) as [E' _]. congruence.
  - intros k x [[<- <-]|[Hne Hx]]%lookup_insert_Some Hs; [congruence|].
    rewrite Hsize; [by apply Hcl|]. intros i Hi. destruct (Hrows _ Hi) as [-> _]. done.
Qed.
(** A new observation settles its invocation. *)
Lemma recorded_observation s ev k i out row :
  recorded s -> invocations s !! k = Some i -> iv_lifecycle i <> "terminal" -> observations s !! ob_id row = None ->
  (forall j x, observations s !! j = Some x -> ob_invocation_id x <> k) -> ob_invocation_id row = k ->
  canonical_hash (ob_payload row) = Ok (ob_content_hash row) -> 1 <= ob_attempt_index row ->
  let s' := set_invocations (<[k := terminal_invocation ev out i]> (invocations s)) (put_observation row s) in
  recorded s' /\ preserved s s'.
Proof.
  intros [Hk Honce Hterm Hobs Hdig Hgrp Hset Hcl] Hi Hn Hfresh Hu Hrow Hhash Hidx s'.
  assert (forall j x, invocations s !! j = Some x -> iv_lifecycle x = "terminal" -> invocations s' !! j = Some x) as Hkeep.
  { intros j x Hx Ht. subst s'. simpl. rewrite lookup_insert_ne; [done|]. intros <-. congruence. }
  assert (forall j x, observations s !! j = Some x -> observations s' !! j = Some x) as Hold.
  { intros j x Hx. subst s'. simpl. rewrite lookup_insert_ne; [done|]. intros <-. congruence. }
  split; [|by split]. split; simpl; try done.
  - subst s'. replace (set_invocations _ _) with (put_invocation (terminal_invocation ev out i) (put_observation row s));
      [auto with keyed|]. unfold put_invocation. simpl. by rewrite (keyed_invocations _ Hk _ _ Hi).
  - intros j j' o x [[<- <-]|[_ Ho]]%lookup_insert_Some [[<- <-]|[_ Hx]]%lookup_insert_Some E; try done; [| |eauto];
      rewrite Hrow in E; by edestruct Hu.
  - intros j o [[<- <-]|[_ Ho]]%lookup_insert_Some.
    + rewrite Hrow, lookup_insert_eq. by eexists.
    + destruct (Hterm _ _ Ho) as (x & Hx & Ht). eauto.
  - intros j x [[<- <-]|[_ Hx]]%lookup_insert_Some Ht.
    + exists (ob_id row), row. by rewrite lookup_insert_eq.
    + destruct (Hobs _ _ Hx Ht) as (y & o & Ho & E). exists y, o. split; [by apply Hold|done].
  - intros j o [[<- <-]|[_ Ho]]%lookup_insert_Some; [done|eauto].
  - intros j x [[<- <-]|[_ Hx]]%lookup_insert_Some; [exact (Hgrp _ _ Hi)|eauto].
  - intros j g x y Hg Hs [[<- <-]|[_ Hx]]%lookup_insert_Some E; [done|eauto].
  - intros j g Hg Hs. rewrite <- (Hcl _ _ Hg Hs). unfold group_size. simpl. f_equal.
    eapply select_where_update; [done|]. done.
Qed.
Lemma terminalize_recorded s ev oid l k out e intent row s' :
  recorded s -> terminalize s ev oid l k out e intent = Ok (row, s') ->
  recorded s' /\ preserved s s' /\ other_tables s s' /\ turn_groups s' = turn_groups s /\ exists i, invocations s' !! k = Some i /\
    iv_lifecycle i = "terminal" /\ (forall j x, invocations s' !! j = Some x -> j <> k -> invocations s !! j = Some x) /\
    forall g, (exists i0, invocations s !! k = Some i0 /\ iv_turn_group_id i0 = g) -> iv_turn_group_id i = g.
Proof.
  intros Hr Ho. destruct (terminalize_ok _ _ _ _ _ _ _ _ _ _ (rd_keyed _ Hr) Ho) as (i & payload & Hi & _ & Hp & Hh & Hrow & Hcase).
  destruct Hcase as [(-> & (j & Hj) & _)|(Hn & Hf & Hu & _ & Erow & Hidx & ->)].
  - destruct (rd_terminal _ Hr _ _ Hj) as (x & Hx & Ht). rewrite Hrow in Hx. split_and!; try done.
    exists x. split_and!; try done. intros g (i0 & Hi0 & <-). congruence.
  - assert (ob_id row = oid /\ ob_payload row = payload /\ ob_attempt_index row = oe_attempt_index e) as (E1 & E2 & E3)
      by (rewrite Erow; done).
    destruct (recorded_observation s ev k i out row) as [Hr' Hp']; try done; [by rewrite E1|by rewrite E2|by rewrite E3|].
    split_and!; try done. exists (terminal_invocation ev out i). simpl. rewrite lookup_insert_eq. split_and!; try done.
    + intros j x [[<- _]|[_ ?]]%lookup_insert_Some ?; done.
    + intros g (i0 & Hi0 & <-). by simplify_eq.
Qed.
(** Closing or aborting a group whose invocations are all terminal. *)
Lemma recorded_settle s k g st at_ :
  recorded s -> turn_groups s !! k = Some g ->
  (forall j i, invocations s !! j = Some i -> iv_turn_group_id i = k -> iv_lifecycle i = "terminal") ->
  (st = "closed" -> group_size s k = tg_expected_invocations g) ->
  let s' := put_group (g |> set_tg_status st |> set_tg_closed_at at_) s in recorded s' /\ preserved s s'.
Proof.
  intros [Hk Honce Hterm Hobs Hdig Hgrp Hset Hcl] Hg Hall Hsize s'. split; [|by split]. subst s'.
  pose proof (keyed_turn_groups _ Hk _ _ Hg) as Hid. split; simpl; try done; [auto with keyed|..]; rewrite Hid.
  - intros j i Hi. destruct (decide (k = iv_turn_group_id i)) as [<-|]; [rewrite lookup_insert_eq|rewrite lookup_insert_ne by done]; eauto.
  - intros j x i y [[<- <-]|[_ Hx]]%lookup_insert_Some Hs Hi E; eauto.
  - intros j x [[<- <-]|[_ Hx]]%lookup_insert_Some Hs; [by apply Hsize|by apply Hcl].
Qed.
Lemma close_turn_ok s ev l t r s' :
  recorded s -> close_turn s ev l t = Ok (r, s') ->
  exists g, turn_groups s !! t = Some g /\ s' = put_group (g |> set_tg_status "closed" |> set_tg_closed_at (Some (clock ev))) s /\
    group_size s t = tg_expected_invocations g /\
    (forall j i, invocations s !! j = Some i -> iv_turn_group_id i = t -> iv_lifecycle i = "terminal").
Proof.
  unfold close_turn. intros Hr Ho. steps_ok Ho. destruct (turn_groups s !! t) as [g|] eqn:Eg; [|done]. steps_ok Ho.
  pose proof (keyed_turn_groups _ (rd_keyed _ Hr) _ _ Eg) as Hid. rewrite neqb_false in Hguard0. injection Ho as <- <-. exists g.
  rewrite Hid in Hguard0. unfold turn_counts in Hguard0. cbv zeta in Hguard0.
  set (L := select_where (fun i => iv_turn_group_id i ==? t) (invocations s)) in *.
  set (sel := fun i => select_where (fun o => ob_invocation_id o ==? iv_id i) (observations s)) in *.
  destruct (joined_counts sel L) as (_ & Hall & Hlen). injection Hguard0 as E1 E2.
  assert (forall j i, invocations s !! j = Some i -> iv_turn_group_id i = t -> i ∈ L) as Hin.
  { intros j i Hi E. apply select_where_elem. split; [eauto|]. by apply eqb_true. }
  split_and!; try done.
  - unfold group_size. fold L. rewrite <- E1. f_equal. symmetry. apply Hlen. intros i _. subst sel. cbv beta.
    apply select_where_unique. intros j k x y Hx Hy Ex Ey. rewrite eqb_true in Ex, Ey.
    apply (rd_once _ Hr j k x y Hx Hy). congruence.
  - intros j i Hi E. assert (sel i <> []) as Hne by (apply Hall; [apply Nat2Z.inj; etransitivity; [exact E2|symmetry; exact E1]|eauto]). subst sel. cbv beta in Hne.
    destruct (select_where (fun o => ob_invocation_id o ==? iv_id i) (observations s)) as [|o rest] eqn:Eo; [done|]. assert (o ∈ o :: rest) as Ho by left. rewrite <- Eo in Ho.
    apply select_where_elem in Ho as [[y Ho] Hoi]. rewrite eqb_true in Hoi. destruct (rd_terminal _ Hr _ _ Ho) as (x & Hx & Ht).
    rewrite Hoi, (keyed_invocations _ (rd_keyed _ Hr) _ _ Hi) in Hx. congruence.
Qed.
Lemma taken_invocation_facts l i :
  iv_id (taken_invocation l i) = iv_id i /\ iv_turn_group_id (taken_invocation l i) = iv_turn_group_id i /\
  (iv_lifecycle i <> "terminal" -> iv_lifecycle (taken_invocation l i) <> "terminal") /\
  iv_fencing_token (taken_invocation l i) = l_fencing_token l.
Proof. unfold taken_invocation. simpl. destruct (_ ==? _); by split_and!. Qed.
(** A takeover moves the fence of a live group and of its pending invocations. *)
Lemma takeover_ok s ev l t g' pend s' :
  keyed s -> takeover s ev l t = Ok (g', pend, s') ->
  exists g, turn_groups s !! t = Some g /\ tg_status g ∈ ["open"; "completing"] /\ tg_fencing_token g < l_fencing_token l /\
    tg_run_id g = l_run_id l /\ tg_job_id g = l_job_id l /\
    g' = (g |> set_tg_fencing_token (l_fencing_token l) |> set_tg_job_id (l_job_id l)) /\
    (forall k, k ∈ pend <-> exists i, invocations s !! k = Some i /\ iv_turn_group_id i = t /\ iv_lifecycle i <> "terminal") /\
    turn_groups s' = <[t := g']> (turn_groups s) /\ observations s' = observations s /\
    invocations s' = (fun i => if (iv_turn_group_id i ==? t) && pending i then taken_invocation l i else i) <$> invocations s /\
    keyed s' /\ other_tables s s' /\ tickets s' = tickets s /\ jobs s' = jobs s.
Proof.
  unfold takeover. intros Hk Ho. apply res_bind_ok in Ho as (job & _ & Ho). destruct (turn_groups s !! t) as [g|] eqn:Eg; [|done].
  pose proof (keyed_turn_groups _ Hk _ _ Eg) as Hid. apply raise_if_ok in Ho as [Hsc Ho]. apply raise_if_ok in Ho as [Hst Ho].
  apply raise_if_ok in Ho as [Hf Ho]. cbv zeta in Ho. injection Ho as <- <- <-. exists g. rewrite Hid in *. to_prop.
  destruct Hsc. split_and!; try done.
  - intros k. rewrite list_elem_of_fmap. split.
    + intros (i & -> & Hi). apply list_elem_of_In, List.filter_In in Hi as [Hi Hp]. apply list_elem_of_In in Hi.
      unfold turn_invocations in Hi. rewrite elem_of_isort in Hi. apply select_where_elem in Hi as [[j Hj] Hg]. rewrite eqb_true in Hg.
      unfold pending in Hp. rewrite neqb_true in Hp. rewrite (keyed_invocations _ Hk _ _ Hj). eauto.
    + intros (i & Hi & Hg & Hp). exists i. rewrite (keyed_invocations _ Hk _ _ Hi). split; [done|]. apply list_elem_of_In, List.filter_In.
      split; [|by apply neqb_true]. apply list_elem_of_In. unfold turn_invocations. rewrite elem_of_isort. apply select_where_elem.
      split; [eauto|]. by apply eqb_true.
  - simpl. by rewrite Hid.
  - apply keyed_put_group. destruct Hk. split; simpl; try done;
      intros ? ? (x & <- & Hx)%lookup_fmap_Some; destruct (_ && _); simpl; eauto.
    rewrite (proj1 (taken_invocation_facts l x)). eauto.
  - split_and!; try done. intros i kinds. unfold attempts_of. simpl. f_equal. apply select_where_fmap.
    intros a. match goal with |- context [if ?b then taken_attempt _ _ _ else _] => by destruct b end.
Qed.
Lemma recorded_takeover s ev l t g' pend s' :
  recorded s -> takeover s ev l t = Ok (g', pend, s') -> recorded s' /\ preserved s s'.
Proof.
  intros [Hk Honce Hterm Hobs Hdig Hgrp Hset Hcl] Ho.
  destruct (takeover_ok _ _ _ _ _ _ _ Hk Ho) as (g & Eg & Hst & _ & _ & _ & -> & _ & Et & Eo & Ei & Hk' & _).
  assert (forall k i, invocations s !! k = Some i -> iv_lifecycle i = "terminal" -> invocations s' !! k = Some i) as Hkeep.
  { intros k i Hi Ht. rewrite Ei, lookup_fmap, Hi. simpl. unfold pending. rewrite (proj2 (neqb_false _ _) Ht), andb_false_r. done. }
  assert (forall k i, invocations s' !! k = Some i -> exists x, invocations s !! k = Some x /\ iv_turn_group_id i = iv_turn_group_id x /\
            ((iv_lifecycle i = "terminal" \/ iv_turn_group_id i <> t) -> i = x)) as Hback.
  { intros k i. rewrite Ei. intros (x & <- & Hx)%lookup_fmap_Some. exists x.
    destruct (taken_invocation_facts l x) as (_ & Egr & Hlive & _). destruct (_ && pending x) eqn:E; [|by split_and!].
    apply andb_true_iff in E as [Eg' Ep]. unfold pending in Ep. rewrite eqb_true in Eg'. rewrite neqb_true in Ep.
    split_and!; try done. rewrite Egr. intros [Hl|?]; [by destruct (Hlive Ep)|done]. }
  assert (~ settled_group g /\ tg_status g <> "closed") as [Hlive Hnc].
  { unfold settled_group. rewrite !elem_of_cons in *. split; [|intros E; rewrite E in Hst]; set_solver by congruence. }
  split; [|split; [by rewrite Eo|done]]. split; rewrite ?Eo; try done.
  - intros j o Hj. destruct (Hterm _ _ Hj) as (x & Hx & Ht). eauto.
  - intros k i Hi Ht. destruct (Hback _ _ Hi) as (x & Hx & _ & E). rewrite (E (or_introl Ht)) in Ht. eauto.
  - intros k i Hi. destruct (Hback _ _ Hi) as (x & Hx & -> & _). rewrite Et.
    destruct (decide (t = iv_turn_group_id x)) as [<-|]; [rewrite lookup_insert_eq|rewrite lookup_insert_ne by done]; eauto.
  - intros k y i j. rewrite Et. intros [[<- <-]|[Hne Hy]]%lookup_insert_Some Hs Hi E; [done|].
    destruct (Hback _ _ Hi) as (x & Hx & Egr & Ex). rewrite Ex in * by (right; congruence). eapply Hset; eauto.
  - intros k y. rewrite Et. intros [[<- <-]|[Hne Hy]]%lookup_insert_Some Hs; [done|]. rewrite <- (Hcl _ _ Hy Hs).
    unfold group_size. rewrite Ei. f_equal. apply select_where_fmap. intros i. destruct (_ && _); [|done].
    by rewrite (proj1 (proj2 (taken_invocation_facts l i))).
Qed.
(** The abort of every pending invocation of a list. *)
Lemma abort_all_recorded ev new l tk reason L : forall s s',
  recorded s -> (forall i, i ∈ L -> iv_lifecycle i = "terminal" -> invocations s !! iv_id i = Some i) ->
  abort_all s ev new l tk reason L = Ok s' ->
  recorded s' /\ preserved s s' /\ other_tables s s' /\ turn_groups s' = turn_groups s /\
  (forall k i, invocations s' !! k = Some i -> exists x, invocations s !! k = Some x /\ iv_turn_group_id i = iv_turn_group_id x) /\
  (forall i, i ∈ L -> exists x, invocations s' !! iv_id i = Some x /\ iv_lifecycle x = "terminal").
Proof.
  induction L as [|i L IH]; simpl; intros s s' Hr HL Ho.
  - simplify_eq. split_and!; try done; [eauto|set_solver].
  - apply res_bind_ok in Ho as (s1 & H1 & Ho).
    assert (recorded s1 /\ preserved s s1 /\ other_tables s s1 /\ turn_groups s1 = turn_groups s /\
      (forall k x, invocations s1 !! k = Some x -> exists y, invocations s !! k = Some y /\ iv_turn_group_id x = iv_turn_group_id y) /\
      exists x, invocations s1 !! iv_id i = Some x /\ iv_lifecycle x = "terminal") as (Hr1 & Hp1 & Ho1 & Hg1 & Hb1 & y & Hy & Hyt).
    { destruct (pending i) eqn:Ep.
      - steps_ok H1. destruct a as [row s2]. simpl in H1. injection H1 as ->.
        destruct (terminalize_recorded _ _ _ _ _ _ _ _ _ _ Hr Hstep) as (? & ? & ? & ? & x & Hx & Ht & Hoth & Hgr).
        destruct (terminalize_ok _ _ _ _ _ _ _ _ _ _ (rd_keyed _ Hr) Hstep) as (i0 & _ & Hi0 & _).
        split_and!; try done; [|eauto]. intros k y Hy. destruct (decide (k = iv_id i)) as [->|Hne]; [|eauto].
        exists i0. split; [done|]. simplify_eq. apply Hgr. eauto.
      - injection H1 as ->. unfold pending in Ep. rewrite neqb_false in Ep. split_and!; try done; [eauto|].
        exists i. split; [|done]. apply HL; [left|done]. }
    destruct (IH s1 s' Hr1) as (Hr2 & Hp2 & Ho2 & Hg2 & Hb2 & Hi2); [|done|].
    { intros x Hx Ht. apply (pv_terminal _ _ Hp1); [|done]. apply HL; [by right|done]. }
    split_and!; try done.
    + by eapply preserved_trans.
    + by eapply other_trans.
    + congruence.
    + intros k x Hx. destruct (Hb2 _ _ Hx) as (z & Hz & ->). eauto.
    + intros x [->|Hx]%elem_of_cons; [|eauto]. exists y. split; [by apply (pv_terminal _ _ Hp2)|done].
Qed.
Lemma abort_recorded s ev new l t tk reason g' s' :
  recorded s -> abort_pending s ev new l t tk reason = Ok (g', s') -> recorded s' /\ preserved s s' /\ other_tables s s'.
Proof.
  unfold abort_pending. intros Hr Ho. apply res_bind_ok in Ho as (job & _ & Ho). destruct (turn_groups s !! t) as [g|] eqn:Eg; [|done].
  apply raise_if_ok in Ho as [_ Ho]. apply res_bind_ok in Ho as (s1 & H1 & Ho). injection Ho as <- <-.
  rewrite (keyed_turn_groups _ (rd_keyed _ Hr) _ _ Eg) in H1.
  assert (forall i, i ∈ turn_invocations s t <-> (exists k, invocations s !! k = Some i) /\ iv_turn_group_id i = t) as HL.
  { intros i. unfold turn_invocations. by rewrite elem_of_isort, select_where_elem, eqb_true. }
  destruct (abort_all_recorded ev new l tk reason (turn_invocations s t) s s1 Hr) as (Hr1 & Hp1 & Ho1 & Hg1 & Hb1 & Hi1); [|done|].
  { intros i [[k Hk] _]%HL _. by rewrite (keyed_invocations _ (rd_keyed _ Hr) _ _ Hk). }
  destruct (recorded_settle s1 t g "aborted" (Some (clock ev))) as [Hr2 Hp2]; try done; [by rewrite Hg1| |].
  - intros j i Hi Ei. destruct (Hb1 _ _ Hi) as (x & Hx & Egx).
    destruct (Hi1 x) as (y & Hy & Ht); [apply HL; split; [eauto|congruence]|].
    rewrite (keyed_invocations _ (rd_keyed _ Hr) _ _ Hx) in Hy. congruence.
  - split_and!; [done|by eapply preserved_trans|]. eapply other_trans; [done|]. by split_and!.
Qed.
(** Every tool operation keeps the contract, the observations and the rest. *)
Lemma recorded_tool s s' : recorded s -> tool_step s s' -> recorded s' /\ preserved s s' /\ other_tables s s'.
Proof.
  intros Hr Hs. pose proof (rd_keyed _ Hr) as Hk.
  destruct Hs as [h ev t ids l seg n d m calls r s' Ho|ev l i r s' Ho|ev o l i out e intent r s' Ho|ev l t r s' Ho
    |ev l t [g' pend] s' Ho|ev new l t tk reason g' s' Ho].
  - destruct (open_turn_ok _ _ _ _ _ _ _ _ _ _ _ _ _ Hk Ho) as (g & rows & Hn & Hid & Hst & Hrows & Hins). rewrite <- Hid in Hn, Hrows.
    destruct (recorded_open _ _ _ _ Hr Hn Hst Hrows Hins). split_and!; try done.
    by destruct (insert_invocations_ok _ _ _ (keyed_put_group s g Hk) Hins) as (_ & ? & _).
  - destruct (executing_ok _ _ _ _ _ _ Hk Ho) as (x & Hx & Hn & _ & ->).
    destruct (recorded_move s i x (set_iv_lifecycle "executing" x)) as [? ?]; done || by split_and!.
  - destruct (terminalize_recorded _ _ _ _ _ _ _ _ _ _ Hr Ho) as (? & ? & ? & _). by split_and!.
  - destruct (close_turn_ok _ _ _ _ _ _ Hr Ho) as (g & Hg & -> & Hsize & Hall).
    destruct (recorded_settle s t g "closed" (Some (clock ev))) as [? ?]; done || by split_and!.
  - destruct (recorded_takeover _ _ _ _ _ _ _ Hr Ho). split_and!; try done.
    by destruct (takeover_ok _ _ _ _ _ _ _ Hk Ho) as (g & _ & _ & _ & _ & _ & _ & _ & _ & _ & _ & _ & ? & _).
  - by eapply abort_recorded.
Qed.
Lemma recorded_frame s s' : recorded s -> keyed s' -> tool_tables s s' -> recorded s' /\ preserved s s'.
Proof.
  intros [] Hk (Eo & Ei & Eg). split; [|split; rewrite ?Eo, ?Ei; done]. split; unfold group_size in *; rewrite ?Eo, ?Ei, ?Eg; done.
Qed.

(** ** The contract of the capability ledger *)
Definition final_statuses : list string := ["succeeded"; "failed"; "denied"].
Definition settled (c : PolicyCapabilityInvocation) : Prop := ci_status c ∈ final_statuses.
Record receipted (s : store) : Prop := {
  rt_keyed : keyed s;
  rt_once : forall j k r x, capability_results s !! j = Some r -> capability_results s !! k = Some x ->
    cr_invocation_id r = cr_invocation_id x -> j = k;
  rt_bound : forall j r, capability_results s !! j = Some r ->
    exists c, capabilities s !! cr_invocation_id r = Some c /\ cr_effect_identity r = ci_effect_identity c /\
      (settled c -> ci_status c = cr_status r);
  rt_settled : forall k c, capabilities s !! k = Some c -> settled c ->
    exists j r, capability_results s !! j = Some r /\ cr_invocation_id r = k;
  rt_final : forall j r, capability_results s !! j = Some r ->
    cr_status r ∈ final_statuses /\ canonical_hash (cr_payload r) = Ok (cr_payload_hash r);
}.
Record kept_receipts (s s' : store) : Prop := {
  kr_results : forall j r, capability_results s !! j = Some r -> capability_results s' !! j = Some r;
  kr_settled : forall k c, capabilities s !! k = Some c -> settled c -> capabilities s' !! k = Some c;
}.
(** What the capability family leaves alone. *)
Definition capability_frame (s s' : store) : Prop :=
  runs s' = runs s /\ call_attempts s' = call_attempts s /\ tool_tables s s'.
Lemma capability_frame_refl s : capability_frame s s.
Proof. by split_and!. Qed.

Lemma insert_result_ok s r s' :
  insert_capability_result s r = Ok s' ->
  capability_results s !! cr_id r = None /\ (forall j x, capability_results s !! j = Some x -> cr_invocation_id x <> cr_invocation_id r) /\
  s' = put_capability_result r s.
Proof.
  unfold insert_capability_result. intros Ho. steps_ok Ho. rewrite !orb_false_iff, !exists_where_false, isSome_false in Hguard.
  destruct Hguard as [[[Hn Hu] _] _]. simplify_eq. split_and!; try done. intros j x Hx. specialize (Hu _ _ Hx). by rewrite eqb_false in Hu.
Qed.
(** An unsettled row takes the status of its result, recorded before or now;
    without a result it only becomes unknown. *)
Inductive settles (s : store) (k : string) (c : PolicyCapabilityInvocation) (status : string) : store -> Prop :=
| settles_existing j r s' : capability_results s !! j = Some r -> cr_invocation_id r = k -> status = cr_status r ->
    capability_results s' = capability_results s -> settles s k c status s'
| settles_new r s' : capability_results s !! cr_id r = None ->
    (forall j x, capability_results s !! j = Some x -> cr_invocation_id x <> k) -> cr_invocation_id r = k ->
    cr_effect_identity r = ci_effect_identity c -> status = cr_status r -> status ∈ final_statuses ->
    canonical_hash (cr_payload r) = Ok (cr_payload_hash r) ->
    capability_results s' = <[cr_id r := r]> (capability_results s) -> settles s k c status s'
| settles_unknown s' : status = "unknown" -> capability_results s' = capability_results s -> settles s k c status s'.
Lemma unsettled_statuses c : ci_status c ∈ ["reserved"; "executing"; "unknown"] -> ~ settled c.
Proof. unfold settled, final_statuses. rewrite !elem_of_cons. intros Hs Hf. set_solver by congruence. Qed.
Lemma receipted_settles s s' ev k c status err :
  receipted s -> keyed s' -> capabilities s !! k = Some c -> ~ settled c -> settles s k c status s' ->
  capabilities s' = <[k := end_capability ev status err c]> (capabilities s) -> receipted s' /\ kept_receipts s s'.
Proof.
  intros [Hk Honce Hbound Hset Hfin] Hk' Hc Hn Hs E.
  assert (forall j x, capabilities s !! j = Some x -> settled x -> capabilities s' !! j = Some x) as Hkeep.
  { intros j x Hx Hsx. rewrite E, lookup_insert_ne; [done|]. intros <-. congruence. }
  assert (forall j r, capability_results s !! j = Some r -> cr_invocation_id r <> k ->
    exists x, capabilities s' !! cr_invocation_id r = Some x /\ cr_effect_identity r = ci_effect_identity x /\
      (settled x -> ci_status x = cr_status r)) as Hfar.
  { intros j r Hr Hne. destruct (Hbound _ _ Hr) as (x & Hx & Hid & Hst). exists x. by rewrite E, lookup_insert_ne. }
  assert (capabilities s' !! k = Some (end_capability ev status err c)) as Hself by (rewrite E; apply lookup_insert_eq).
  destruct Hs as [j r s' Hr Hrk -> Er|r s' Hfr Hu Hrk Hid -> Hf Hh Er|s' -> Er]; rewrite ?Er in *.
  - split; [|split; rewrite ?Er; done]. split; rewrite ?Er; try done.
    + intros y x Hx. destruct (decide (cr_invocation_id x = k)) as [Ek|]; [|eauto]. assert (y = j) by (symmetry; apply (Honce j y r x Hr Hx); congruence).
      simplify_eq. destruct (Hbound _ _ Hr) as (z & Hz & Hid & _). exists (end_capability ev (cr_status r) err c). rewrite Hself.
      split_and!; try done. simpl. congruence.
    + intros y x. rewrite E. intros [[<- <-]|[_ Hx]]%lookup_insert_Some Hsx; eauto.
  - assert (forall y x, capability_results s !! y = Some x -> <[cr_id r := r]> (capability_results s) !! y = Some x) as Hold.
    { intros y x Hx. rewrite lookup_insert_ne; [done|]. intros <-. congruence. }
    split; [|split; rewrite ?Er; done]. split; rewrite ?Er; try done.
    + intros y z x w [[<- <-]|[_ Hx]]%lookup_insert_Some [[<- <-]|[_ Hw]]%lookup_insert_Some Exw; try done; [| |eauto];
        exfalso; rewrite Hrk in Exw; by edestruct Hu.
    + intros y x [[<- <-]|[_ Hx]]%lookup_insert_Some; [|eauto]. rewrite Hrk, Hself. by eexists.
    + intros y x. rewrite E. intros [[<- <-]|[_ Hx]]%lookup_insert_Some Hsx.
      * exists (cr_id r), r. by rewrite lookup_insert_eq.
      * destruct (Hset _ _ Hx Hsx) as (z & w & Hw & Ew). eauto.
    + intros y x [[<- <-]|[_ Hx]]%lookup_insert_Some; [done|eauto].
  - split; [|split; rewrite ?Er; done]. split; rewrite ?Er; try done.
    + intros y x Hx. destruct (decide (cr_invocation_id x = k)) as [Ek|]; [|eauto]. destruct (Hbound _ _ Hx) as (z & Hz & Hid & _).
      rewrite Ek in *. rewrite Hself. eexists. split_and!; [done|simpl; congruence|]. intros Hsx. exfalso.
      unfold settled, final_statuses in Hsx. simpl in Hsx. rewrite !elem_of_cons in Hsx. set_solver by congruence.
    + intros y x. rewrite E. intros [[<- <-]|[_ Hx]]%lookup_insert_Some Hsx; [|eauto]. exfalso.
      unfold settled, final_statuses in Hsx. simpl in Hsx. rewrite !elem_of_cons in Hsx. set_solver by congruence.
Qed.
Lemma reserve_capability_ok s ev i a l seg name d b r s' :
  keyed s -> reserve_capability s ev i a l seg name d b = Ok (r, s') ->
  exists c, ci_status c = "reserved" /\ capabilities s !! i = None /\ capabilities s' = <[i := c]> (capabilities s) /\
    capability_results s' = capability_results s /\ keyed s' /\ capability_frame s s' /\
    (forall k x, capabilities s !! k = Some x -> ci_tenant_id x = ci_tenant_id c -> ci_effect_identity x <> ci_effect_identity c).
Proof.
  unfold reserve_capability. intros Hk Ho. steps_ok Ho. unfold insert_capability in Hstep3. steps_ok Hstep3.
  unfold insert_capability_attempt in Hstep4. steps_ok Hstep4. simplify_eq.
  rewrite exists_where_false in Hguard1. rewrite !orb_false_iff, isSome_false in Hguard2. destruct Hguard2 as [[Hn _] _]. simpl in Hn.
  eexists. split_and!; [| |reflexivity|..]; try done; [auto with keyed|]. simpl. intros k x Hx Et Ei.
  specialize (Hguard1 _ _ Hx). by rewrite Et, Ei, !eqb_refl in Hguard1.
Qed.
Lemma receipted_reserve s s' i c :
  receipted s -> keyed s' -> ci_status c = "reserved" -> capabilities s !! i = None ->
  capabilities s' = <[i := c]> (capabilities s) -> capability_results s' = capability_results s -> receipted s' /\ kept_receipts s s'.
Proof.
  intros [Hk Honce Hbound Hset Hfin] Hk' Hst Hn E Er.
  assert (forall j x, capabilities s !! j = Some x -> capabilities s' !! j = Some x) as Hkeep.
  { intros j x Hx. rewrite E, lookup_insert_ne; [done|]. intros <-. congruence. }
  split; [|split; rewrite ?Er; auto]. split; rewrite ?Er; try done.
  - intros j r Hr. destruct (Hbound _ _ Hr) as (x & Hx & ?). eauto.
  - intros k x. rewrite E. intros [[<- <-]|[_ Hx]]%lookup_insert_Some Hsx; [|eauto]. exfalso.
    eapply unsettled_statuses; [|exact Hsx]. rewrite Hst. list_member.
Qed.
Lemma receipted_receipt s r c s' :
  receipted s -> capabilities s !! cr_invocation_id r = Some c -> ~ settled c -> cr_effect_identity r = ci_effect_identity c ->
  cr_status r ∈ final_statuses -> canonical_hash (cr_payload r) = Ok (cr_payload_hash r) -> insert_capability_result s r = Ok s' ->
  receipted s' /\ kept_receipts s s' /\ capability_frame s s'.
Proof.
  intros [Hk Honce Hbound Hset Hfin] Hc Hns Hid Hf Hh Ho. apply insert_result_ok in Ho as (Hfr & Hu & ->). simpl.
  assert (forall y x, capability_results s !! y = Some x -> <[cr_id r := r]> (capability_results s) !! y = Some x) as Hold.
  { intros y x Hx. rewrite lookup_insert_ne; [done|]. intros <-. congruence. }
  split; [|split; [by split|by split_and!]]. split; simpl; try done; [auto with keyed|..].
  - intros y z x w [[<- <-]|[_ Hx]]%lookup_insert_Some [[<- <-]|[_ Hw]]%lookup_insert_Some Exw; try done; [| |eauto];
      exfalso; by edestruct Hu.
  - intros y x [[<- <-]|[_ Hx]]%lookup_insert_Some; [|eauto]. exists c. split_and!; done.
  - intros k x Hx Hsx. destruct (Hset _ _ Hx Hsx) as (y & w & Hw & E). eauto.
  - intros y x [[<- <-]|[_ Hx]]%lookup_insert_Some; [done|eauto].
Qed.
Lemma result_of_some s k r :
  result_of s k = Some r -> (exists j, capability_results s !! j = Some r) /\ cr_invocation_id r = k.
Proof.
  unfold result_of. intros E. assert (r ∈ select_where (fun r => cr_invocation_id r ==? k) (capability_results s)) as Hr.
  { destruct (select_where _ _); [done|]. injection E as ->. left. }
  apply select_where_elem in Hr as [Hr Hk]. by rewrite eqb_true in Hk.
Qed.
Lemma result_of_none s k : result_of s k = None -> forall j x, capability_results s !! j = Some x -> cr_invocation_id x <> k.
Proof.
  unfold result_of. intros E j x Hx Ek. destruct (select_where _ _) as [|y l] eqn:Es; [|done].
  assert (x ∈ select_where (fun r => cr_invocation_id r ==? k) (capability_results s)) as Hin
    by (apply select_where_elem; split; [eauto|by apply eqb_true]). rewrite Es in Hin. set_solver.
Qed.
(** Finishing and reconciling settle an active row, or leave it unknown. *)
Lemma finish_capability_settles s ev i l rc st err p rec r s' :
  keyed s -> finish_capability s ev i l rc st err p rec = Ok (r, s') ->
  exists c status err', capabilities s !! rc_id rc = Some c /\ ~ settled c /\ settles s (rc_id rc) c status s' /\
    capabilities s' = <[rc_id rc := end_capability ev status err' c]> (capabilities s) /\ keyed s' /\ capability_frame s s'.
Proof.
  unfold finish_capability. intros Hk Ho. apply res_bind_ok in Ho as (job & _ & Ho).
  destruct (capabilities s !! rc_id rc) as [c|] eqn:Ec; [|done]. apply raise_if_ok in Ho as [Hact Ho]. apply raise_if_ok in Ho as [Hst Ho].
  destruct (capability_attempts s !! _) as [a|]; [|done]. apply raise_if_ok in Ho as [_ Ho]. apply res_bind_ok in Ho as (h & Hh & Ho).
  pose proof (keyed_capabilities _ Hk _ _ Ec) as Hid. rewrite orb_false_iff, !negb_false_iff, mem_true in Hact. destruct Hact as [Hact _].
  rewrite negb_false_iff, mem_true in Hst.
  assert (~ settled c) as Hn by (apply unsettled_statuses; rewrite !elem_of_cons in *; set_solver).
  destruct (result_of s _) as [x|] eqn:Ex.
  - apply raise_if_ok in Ho as [_ Ho]. apply raise_if_ok in Ho as [_ Ho]. injection Ho as <- <-.
    destruct (result_of_some _ _ _ Ex) as [[j Hj] Hk']. exists c, (cr_status x), None. simpl. rewrite Hid. split_and!; auto with keyed.
    + by apply (settles_existing s (rc_id rc) c (cr_status x) j x).
    + by split_and!.
  - destruct (st ==? "unknown") eqn:Eu.
    + injection Ho as <- <-. rewrite eqb_true in Eu. subst st. exists c, "unknown", err. simpl. rewrite Hid.
      split_and!; auto with keyed; [by apply settles_unknown|by split_and!].
    + apply res_bind_ok in Ho as (s1 & Hins & Ho). injection Ho as <- <-. apply insert_result_ok in Hins as (Hfr & Hu & ->).
      match type of Hfr with _ !! cr_id ?x = None => set (res := x) in * end.
      exists c, st, err. simpl in Hu. rewrite Hid in Hu. rewrite eqb_false in Eu. split_and!; auto with keyed.
      * apply (settles_new s (rc_id rc) c st res); try done. unfold final_statuses. rewrite !elem_of_cons in *. set_solver.
      * simpl. by rewrite Hid.
      * by split_and!.
Qed.
Lemma converge_keyed s ev c st : keyed s -> keyed (converge_capability s ev c st).
Proof.
  intros Hk. apply keyed_put_capability. destruct Hk. split; simpl; try done.
  intros ? ? (x & <- & Hx)%lookup_fmap_Some; destruct (_ ==? _); simpl; eauto.
Qed.
Lemma receipt_of_some s c r :
  receipt_of s c = Some r -> (exists j, capability_results s !! j = Some r) /\ cr_invocation_id r = ci_id c.
Proof.
  unfold receipt_of. intros E.
  assert (r ∈ select_where (fun r => (cr_invocation_id r ==? ci_id c) && (cr_effect_identity r ==? ci_effect_identity c)) (capability_results s)) as Hr.
  { destruct (select_where _ _); [done|]. injection E as ->. left. }
  apply select_where_elem in Hr as [Hr [Hk _]%andb_true_iff]. by rewrite eqb_true in Hk.
Qed.
(** What a reconciliation returns is the result the row agrees with. *)
Definition reconciles (s s' : store) (ev : env) (k : string) (r : PolicyCapabilityResult) : Prop :=
  exists c, capabilities s !! k = Some c /\ ~ settled c /\ settles s k c (cr_status r) s' /\
    capabilities s' = <[k := end_capability ev (cr_status r) None c]> (capabilities s) /\ keyed s' /\ capability_frame s s' /\
    cr_invocation_id r = k /\ (exists j, capability_results s' !! j = Some r).
Lemma reconcile_unknown_ok s ev i l k st p r s' :
  keyed s -> reconcile_unknown s ev i l k st p = Ok (r, s') -> reconciles s s' ev k r /\ cr_status r = st.
Proof.
  unfold reconcile_unknown. intros Hk Ho. apply res_bind_ok in Ho as (job & _ & Ho). apply raise_if_ok in Ho as [Hst Ho].
  destruct (capabilities s !! k) as [c|] eqn:Ec; [|done]. apply raise_if_ok in Ho as [Hu Ho]. apply res_bind_ok in Ho as (h & Hh & Ho).
  pose proof (keyed_capabilities _ Hk _ _ Ec) as Hid. rewrite !orb_false_iff, !neqb_false in Hu. destruct Hu as [_ Hu].
  rewrite negb_false_iff, mem_true in Hst.
  assert (~ settled c) as Hn by (apply unsettled_statuses; rewrite Hu; list_member). rewrite Hid in Ho.
  destruct (result_of s k) as [x|] eqn:Ex.
  - apply raise_if_ok in Ho as [Hsame Ho]. injection Ho as <- <-. rewrite orb_false_iff, !neqb_false in Hsame. destruct Hsame as [<- _].
    destruct (result_of_some _ _ _ Ex) as [[j Hj] Hk']. split; [|done]. exists c. split_and!; try done; [| |by apply converge_keyed|eauto].
    + by apply (settles_existing s k c (cr_status x) j x).
    + simpl. by rewrite Hid.
  - apply res_bind_ok in Ho as (s1 & Hins & Ho). injection Ho as <- <-. apply insert_result_ok in Hins as (Hfr & Hno & ->).
    match type of Hfr with _ !! cr_id ?x = None => set (res := x) in * end. simpl in Hno. split; [|done]. exists c.
    split_and!; try done; [| |by apply converge_keyed, keyed_put_capability_result|exists (cr_id res); apply lookup_insert_eq].
    + by apply (settles_new s k c st res).
    + simpl. by rewrite Hid.
Qed.
Lemma reconcile_effect_ok s ev i l k r s' :
  keyed s -> reconcile_unknown_effect s ev i l k = Ok (r, s') ->
  reconciles s s' ev k r /\ forall x, result_of s k = Some x -> cr_status r = cr_status x.
Proof.
  unfold reconcile_unknown_effect. intros Hk Ho. apply res_bind_ok in Ho as (job & _ & Ho).
  destruct (capabilities s !! k) as [c|] eqn:Ec; [|done]. apply raise_if_ok in Ho as [_ Ho].
  rewrite (keyed_capabilities _ Hk _ _ Ec) in Ho.
  assert (exists st p, reconcile_unknown s ev i l k st p = Ok (r, s')) as (st & p & Hr) by (destruct (receipt_of s c); eauto).
  destruct (reconcile_unknown_ok _ _ _ _ _ _ _ _ _ Hk Hr) as [Hrec <-]. split; [done|]. intros x Hx.
  unfold reconcile_unknown in Hr. steps_ok Hr. rewrite Ec in Hr. steps_ok Hr. rewrite (keyed_capabilities _ Hk _ _ Ec), Hx in Hr.
  steps_ok Hr. by injection Hr as <- _.
Qed.
Lemma reconcile_stale_ok s ev i l k r s' :
  keyed s -> reconcile_stale_active_effect s ev i l k = Ok (r, s') -> reconciles s s' ev k r.
Proof.
  unfold reconcile_stale_active_effect. intros Hk Ho. apply res_bind_ok in Ho as (job & _ & Ho).
  destruct (capabilities s !! k) as [c|] eqn:Ec; [|done]. apply raise_if_ok in Ho as [Hst Ho].
  pose proof (keyed_capabilities _ Hk _ _ Ec) as Hid. rewrite !orb_false_iff, negb_false_iff, mem_true in Hst. destruct Hst as [_ Hst].
  apply unsettled_statuses in Hst. destruct (receipt_of s c) as [x|] eqn:Ex.
  - injection Ho as <- <-. destruct (receipt_of_some _ _ _ Ex) as [[j Hj] Hk']. rewrite Hid in Hk'. exists c.
    split_and!; try done; [| |by apply converge_keyed|eauto].
    + by apply (settles_existing s k c (cr_status x) j x).
    + simpl. by rewrite Hid.
  - apply res_bind_ok in Ho as (h & Hh & Ho). apply res_bind_ok in Ho as (s1 & Hins & Ho). injection Ho as <- <-.
    apply insert_result_ok in Hins as (Hfr & Hno & ->). match type of Hfr with _ !! cr_id ?x = None => set (res := x) in * end.
    simpl in Hno. rewrite Hid in Hno. exists c.
    split_and!; try done; [| |by apply converge_keyed, keyed_put_capability_result|exists (cr_id res); apply lookup_insert_eq].
    + apply (settles_new s k c "failed" res); try done. unfold final_statuses. list_member.
    + simpl. by rewrite Hid.
Qed.
Lemma receipted_step s s' : receipted s -> capability_step s s' -> receipted s' /\ kept_receipts s s' /\ capability_frame s s'.
Proof.
  intros Hr Hs. pose proof (rt_keyed _ Hr) as Hk.
  assert (forall ev k r s', reconciles s s' ev k r -> receipted s' /\ kept_receipts s s' /\ capability_frame s s') as Hrec.
  { intros ev k r s0 (c & Hc & Hn & Hset & E & Hk' & Hf & _). destruct (receipted_settles _ _ _ _ _ _ _ Hr Hk' Hc Hn Hset E). by split_and!. }
  destruct Hs as [ev i a l seg name d b r s' Ho|ev i l rc st err p rec r s' Ho|ev i l c st p r s' Ho|ev i l c r s' Ho|ev i l c r s' Ho
    |r c s' Hc Hst Hid Hrs Hh Ho].
  - destruct (reserve_capability_ok _ _ _ _ _ _ _ _ _ _ _ Hk Ho) as (c & Hst & Hn & E & Er & Hk' & Hf & _).
    destruct (receipted_reserve _ _ _ _ Hr Hk' Hst Hn E Er). by split_and!.
  - destruct (finish_capability_settles _ _ _ _ _ _ _ _ _ _ _ Hk Ho) as (c & status & err' & Hc & Hn & Hset & E & Hk' & Hf).
    destruct (receipted_settles _ _ _ _ _ _ _ Hr Hk' Hc Hn Hset E). by split_and!.
  - eapply Hrec. by eapply reconcile_unknown_ok.
  - eapply Hrec. by eapply reconcile_effect_ok.
  - eapply Hrec. by eapply reconcile_stale_ok.
  - eapply receipted_receipt; try done; [by apply unsettled_statuses|]. rewrite Hrs. unfold final_statuses. list_member.
Qed.

(** ** All three ledgers *)
Record ledgers (s : store) : Prop := { lg_budget : within_budget s; lg_recorded : recorded s; lg_receipted : receipted s }.
Record no_loss (s s' : store) : Prop := { nl_recorded : preserved s s'; nl_receipts : kept_receipts s s' }.
Lemma no_loss_refl s : no_loss s s.
Proof. split; by split. Qed.
Lemma no_loss_trans s1 s2 s3 : no_loss s1 s2 -> no_loss s2 s3 -> no_loss s1 s3.
Proof. intros [P1 [K1 K2]] [P2 [K3 K4]]. split; [by eapply preserved_trans|]. split; eauto. Qed.

Lemma receipted_frame s s' : receipted s -> keyed s' -> capability_tables s s' -> receipted s' /\ kept_receipts s s'.
Proof. intros [] Hk (Ec & Er). split; [|split; rewrite ?Ec, ?Er; done]. split; rewrite ?Ec, ?Er; done. Qed.
Lemma attempt_frames s s' : keyed s -> attempt_step s s' -> keyed s' /\ tool_tables s s' /\ capability_tables s s'.
Proof.
  intros Hk Hs. destruct Hs as [ev i t l q r s' Ho|ev l n s' Ho|ev l r q s' Ho].
  - destruct (reserve_ok _ _ _ _ _ _ _ _ Hk Ho) as (? & ? & ? & ? & _ & _ & _ & _ & _ & _ & _ & _ & _ & _ & ? & ? & ?). done.
  - destruct (round_ok _ _ _ _ _ Hk Ho) as (run & _ & _ & _ & ->). split_and!; auto with keyed; by split_and!.
  - destruct (finish_ok _ _ _ _ _ _ Hk Ho) as (? & ? & _ & _ & _ & _ & _ & _ & _ & ? & ? & ?). done.
Qed.
Lemma ledgers_step s s' : ledgers s -> call_step s s' -> ledgers s' /\ no_loss s s'.
Proof.
  intros [Hb Hr Hc] Hs. pose proof (wb_keyed _ Hb) as Hk. destruct Hs as [Hs|Hs|Hs|[Ha Hg Ht Hcap Hk']].
  - destruct (attempt_frames _ _ Hk Hs) as (Hk' & Ht & Hcap). destruct (recorded_frame _ _ Hr Hk' Ht), (receipted_frame _ _ Hc Hk' Hcap).
    split; split; try done. by eapply budget_step.
  - destruct (recorded_tool _ _ Hr Hs) as (Hr' & Hp & Eruns & Hn & Hcap). pose proof (rd_keyed _ Hr') as Hk'.
    destruct (receipted_frame _ _ Hc Hk' Hcap). split; split; try done. apply (budget_quiet s); [done|done|by apply counters_same|done].
  - destruct (receipted_step _ _ Hc Hs) as (Hc' & Hkr & Eruns & Ea & Ht). pose proof (rt_keyed _ Hc') as Hk'.
    destruct (recorded_frame _ _ Hr Hk' Ht). split; split; try done. apply (budget_quiet s); [done|done|by apply counters_same|].
    intros. unfold attempts_of. by rewrite Ea.
  - specialize (Hk' Hk). destruct (recorded_frame _ _ Hr Hk' Ht), (receipted_frame _ _ Hc Hk' Hcap). split; split; try done.
    apply (budget_quiet s); [done|done|done|]. intros. unfold attempts_of. unfold attempt_tables in Ha. by rewrite Ha.
Qed.
Lemma ledgers_steps s s' : ledgers s -> rtc call_step s s' -> ledgers s' /\ no_loss s s'.
Proof.
  intros Hl Hs. induction Hs as [s|s1 s2 s3 Hs _ IH]; [split; [done|apply no_loss_refl]|].
  destruct (ledgers_step _ _ Hl Hs) as [Hl' Hn]. destruct (IH Hl') as [Hl'' Hn']. split; [done|by eapply no_loss_trans].
Qed.
Lemma ledgers_empty : ledgers empty_store.
Proof.
  split.
  - split; [apply keyed_empty|..]; intros i; unfold counter; simpl; rewrite ?lookup_empty; vm_compute; congruence.
  - split; [apply keyed_empty|..]; simpl; intros *; rewrite ?lookup_empty; done.
  - split; [apply keyed_empty|..]; simpl; intros *; rewrite ?lookup_empty; done.
Qed.
Lemma reachable_ledgers s : rtc call_step empty_store s -> ledgers s.
Proof. intros Hs. by destruct (ledgers_steps _ _ ledgers_empty Hs). Qed.

(** ** Replay after a takeover *)
Lemma ddel_absent k d : dget k d = None -> ddel k d = d.
Proof.
  unfold ddel. induction d as [|[k' v] d IH]; simpl; [done|]. case_decide; [done|]. intros E.
  rewrite (proj2 (neqb_true k' k)) by congruence. by rewrite IH.
Qed.
Lemma ddel_dset k v d : dget k d = None -> ddel k (dset k v d) = d.
Proof.
  unfold ddel. induction d as [|[k' w] d IH]; simpl; [by rewrite (proj2 (neqb_false k k)) by done|]. case_decide; [done|]. intros E. simpl.
  rewrite (proj2 (neqb_true k' k)) by congruence. by rewrite IH.
Qed.
Lemma payload_validates e intent payload :
  observation_payload e intent = Ok payload -> model_validate (ddel "trusted_retrieval_intent" payload) = Ok e.
Proof.
  unfold observation_payload. pose proof (model_dump_no_intent e) as Hn. destruct intent as [i|]; intros Ho.
  - steps_ok Ho. simplify_eq. rewrite ddel_dset by done. apply model_validate_dump.
  - simplify_eq. rewrite ddel_absent by done. apply model_validate_dump.
Qed.
Lemma head_unique {A} (f : A -> bool) (t : gmap string A) k x :
  t !! k = Some x -> f x = true -> (forall j y, t !! j = Some y -> f y = true -> y = x) -> head (select_where f t) = Some x.
Proof.
  intros Hx Hf Hu. assert (x ∈ select_where f t) as Hin by (apply select_where_elem; eauto).
  destruct (select_where f t) as [|y l] eqn:E; [set_solver|]. simpl. f_equal.
  assert (y ∈ select_where f t) as Hy by (rewrite E; left). apply select_where_elem in Hy as [[j Hj] Hfy]. eauto.
Qed.
(** A fence reads tickets, jobs and runs only. *)
Lemma fence_frame s s' ev l : tickets s' = tickets s -> jobs s' = jobs s -> runs s' = runs s -> assert_fence s' ev l = assert_fence s ev l.
Proof. intros Et Ej Er. unfold assert_fence. by rewrite Et, Ej, Er. Qed.
(** The replay of a terminal invocation under its group's fence. *)
Lemma replay_terminal_ok s ev l job t g k i row e :
  recorded s -> assert_fence s ev l = Ok job -> turn_groups s !! t = Some g -> invocations s !! k = Some i ->
  iv_turn_group_id i = t -> tg_tenant_id g = l_tenant_id l -> tg_run_id g = l_run_id l -> tg_job_id g = l_job_id l ->
  tg_fencing_token g = l_fencing_token l -> iv_tenant_id i = l_tenant_id l -> iv_run_id i = l_run_id l -> iv_job_id i = l_job_id l ->
  iv_lifecycle i = "terminal" -> (exists j, observations s !! j = Some row) -> ob_invocation_id row = k ->
  ob_tenant_id row = l_tenant_id l -> ob_run_id row = l_run_id l -> ob_job_id row = l_job_id l ->
  model_validate (ddel "trusted_retrieval_intent" (ob_payload row)) = Ok e -> oe_run_id e = l_run_id l ->
  oe_tool_call_id e = iv_provider_tool_call_id i -> oe_tool_name e = iv_tool_name i ->
  replay_terminal_observation s ev l k t (iv_provider_tool_call_id i) (iv_tool_name i) (iv_arguments_hash i) = Ok (Some (row, e)).
Proof.
  intros Hr Hf Hg Hi Et Gt Gr Gj Gf It Ir Ij Hterm [j Hj] Hk Ot Or Oj Hv Er Ec En. unfold replay_terminal_observation.
  rewrite Hf. simpl. rewrite Hg, Hi, (keyed_turn_groups _ (rd_keyed _ Hr) _ _ Hg), (keyed_invocations _ (rd_keyed _ Hr) _ _ Hi).
  rewrite Et, Gt, Gr, Gj, Gf, It, Ir, Ij, Hterm.
  assert (forall x : string, (x !=? x) = false) as Hrefl by (intros; by apply neqb_false).
  assert (forall x : Z, (x !=? x) = false) as Hreflz by (intros; by apply neqb_false). rewrite !Hrefl, Hreflz. simpl.
  rewrite (head_unique _ _ j row); [|done| |].
  - rewrite Hv. destruct (rd_digest _ Hr _ _ Hj) as [-> _]. simpl. rewrite Er, Ec, En, !Hrefl. done.
  - by rewrite Hk, Ot, Or, Oj, !eqb_refl.
  - intros y x Hx Hfx. to_prop. destruct_and!. pose proof (rd_once _ Hr y j x row Hx Hj) as E. rewrite E in Hx by congruence. congruence.
Qed.

(** ** Properties *)
(** C8: the budgets hold.  In every store a history of the ledgers can reach, a
    run has at most six recorded model calls (repairs included), at most six
    tool attempts and at most one structure repair, whatever else the system
    writes in between and however often workers are replaced. *)
Theorem budgets_hold s run :
  rtc call_step empty_store s ->
  attempts_of s run llm_kinds <= MAX_LLM_CALLS /\ attempts_of s run tool_kinds <= MAX_TOOL_ATTEMPTS /\
  attempts_of s run ["structure_repair"] <= 1.
Proof. intros Hs. destruct (lg_budget _ (reachable_ledgers _ Hs)). done. Qed.

(** C9: an observation is final.  A recorded observation keeps its row through
    every later history, its invocation stays terminal and unchanged, and no
    other observation of that invocation is ever recorded. *)
Theorem observation_final s s' k o :
  rtc call_step empty_store s -> rtc call_step s s' -> observations s !! k = Some o ->
  observations s' !! k = Some o /\ canonical_hash (ob_payload o) = Ok (ob_content_hash o) /\
  (exists i, invocations s !! ob_invocation_id o = Some i /\ invocations s' !! ob_invocation_id o = Some i /\ iv_lifecycle i = "terminal") /\
  (forall j x, observations s' !! j = Some x -> ob_invocation_id x = ob_invocation_id o -> x = o).
Proof.
  intros Hs Hs' Ho. pose proof (reachable_ledgers _ Hs) as Hl. destruct (ledgers_steps _ _ Hl Hs') as [Hl' [[Hobs Hterm] _]].
  destruct Hl as [_ Hr _], Hl' as [_ Hr' _]. destruct (rd_terminal _ Hr _ _ Ho) as (i & Hi & Ht). split_and!; eauto.
  - by destruct (rd_digest _ Hr _ _ Ho).
  - intros j x Hx E. pose proof (Hobs _ _ Ho) as Ho'. pose proof (rd_once _ Hr' j k x o Hx Ho' E) as ->. congruence.
Qed.

(** A closed turn group is complete.  In every reachable store a closed group
    has exactly the invocations it announced, and each of them is terminal and
    has exactly one observation. *)
Theorem closed_turn_complete s t g :
  rtc call_step empty_store s -> turn_groups s !! t = Some g -> tg_status g = "closed" ->
  group_size s t = tg_expected_invocations g /\
  forall k i, invocations s !! k = Some i -> iv_turn_group_id i = t ->
    iv_lifecycle i = "terminal" /\
    exists j o, observations s !! j = Some o /\ ob_invocation_id o = k /\
      forall j' x, observations s !! j' = Some x -> ob_invocation_id x = k -> j' = j.
Proof.
  intros Hs Hg Hc. destruct (lg_recorded _ (reachable_ledgers _ Hs)) as [Hk Honce Hterm Hobs _ _ Hset Hcl]. split; [by apply Hcl|].
  intros k i Hi E. assert (iv_lifecycle i = "terminal") as Ht.
  { eapply Hset; eauto. unfold settled_group. rewrite Hc. list_member. }
  split; [done|]. destruct (Hobs _ _ Hi Ht) as (j & o & Ho & Eo). exists j, o. split_and!; try done.
  intros j' x Hx Ex. apply (Honce j' j x o Hx Ho). congruence.
Qed.

(** A capability settles once, as its receipt says.  A recorded result is
    never changed or removed; a settled capability has one, with its effect
    identity and its status, and never changes again; and a capability that
    settles later takes the status of a result recorded before. *)
Theorem capability_settles_once s s' k c :
  rtc call_step empty_store s -> rtc call_step s s' -> capabilities s !! k = Some c ->
  (settled c -> capabilities s' !! k = Some c /\
     exists j r, capability_results s' !! j = Some r /\ cr_invocation_id r = k /\ cr_status r = ci_status c /\
       cr_effect_identity r = ci_effect_identity c) /\
  (forall j r, capability_results s !! j = Some r -> cr_invocation_id r = k ->
     capability_results s' !! j = Some r /\
     forall c', capabilities s' !! k = Some c' -> settled c' -> ci_status c' = cr_status r).
Proof.
  intros Hs Hs' Hc. pose proof (reachable_ledgers _ Hs) as Hl. destruct (ledgers_steps _ _ Hl Hs') as [Hl' [_ [Hres Hset]]].
  destruct Hl as [_ _ [_ _ Hb Hst _]], Hl' as [_ _ [_ _ Hb' _ _]]. split.
  - intros Hsc. split; [by apply Hset|]. destruct (Hst _ _ Hc Hsc) as (j & r & Hr & Er). destruct (Hb _ _ Hr) as (x & Hx & Hid & Hx').
    rewrite Er in Hx. simplify_eq. exists j, r. split_and!; auto. symmetry. auto.
  - intros j r Hr Er. split; [by apply Hres|]. intros c' Hc' Hsc'. destruct (Hb' _ _ (Hres _ _ Hr)) as (x & Hx & _ & Hx').
    rewrite Er in Hx. simplify_eq. auto.
Qed.

(** A lost answer is replayed, not executed again.  When a worker records an
    observation and is lost before anyone hears of it, then after any history a
    replacement that takes the turn group over finds the invocation settled: it
    is not among the pending ones, and the replay returns the stored row and the
    very envelope the first worker recorded. *)
Theorem lost_answer_replayed s ev oid l k out e intent row s1 s2 ev2 l2 t g' pend s3 i :
  ledgers s -> terminalize s ev oid l k out e intent = Ok (row, s1) -> invocations s !! k = Some i ->
  iv_lifecycle i <> "terminal" -> iv_turn_group_id i = t ->
  rtc call_step s1 s2 -> takeover s2 ev2 l2 t = Ok (g', pend, s3) ->
  l_tenant_id l = l_tenant_id l2 -> l_run_id l = l_run_id l2 -> l_job_id l = l_job_id l2 ->
  tg_tenant_id g' = l_tenant_id l2 -> iv_tenant_id i = l_tenant_id l2 -> iv_run_id i = l_run_id l2 -> iv_job_id i = l_job_id l2 ->
  oe_run_id e = l_run_id l -> oe_tool_call_id e = iv_provider_tool_call_id i -> oe_tool_name e = iv_tool_name i ->
  k ∉ pend /\
  replay_terminal_observation s3 ev2 l2 k t (iv_provider_tool_call_id i) (iv_tool_name i) (iv_arguments_hash i) = Ok (Some (row, e)).
Proof.
  intros Hl Ho Hi Hn Et Hs Htk El Er Ej Gt It Ir Ij Oer Oec Oen.
  destruct (terminalize_ok _ _ _ _ _ _ _ _ _ _ (rd_keyed _ (lg_recorded _ Hl)) Ho) as (x & payload & Hx & _ & Hp & _ & Hk & Hcase).
  rewrite Hi in Hx. injection Hx as <-. destruct Hcase as [(-> & (j & Hj) & _)|(_ & _ & _ & _ & Erow & _ & Es1)].
  { destruct (rd_terminal _ (lg_recorded _ Hl) _ _ Hj) as (y & Hy & Ht). congruence. }
  assert (call_step s s1) as Hstep by (apply step_tool; by eapply ts_terminalize).
  destruct (ledgers_step _ _ Hl Hstep) as [Hl1 _]. destruct (ledgers_steps _ _ Hl1 Hs) as [Hl2 [[Hobs2 Hterm2] _]].
  destruct (ledgers_step s2 s3 Hl2) as [Hl3 [[Hobs3 Hterm3] _]]; [apply step_tool; by eapply ts_takeover|].
  destruct (takeover_ok _ _ _ _ _ _ _ (rd_keyed _ (lg_recorded _ Hl2)) Htk)
    as (g & Hg & _ & _ & Gr & Gj & Eg & Hpend & Egs & _ & _ & _ & (Eruns & _) & Etk & Ejobs).
  assert (invocations s1 !! k = Some (terminal_invocation ev out i)) as Hi1 by (rewrite Es1; apply lookup_insert_eq).
  assert (observations s1 !! oid = Some row) as Ho1 by (rewrite Es1; simpl; rewrite Erow; apply lookup_insert_eq).
  pose proof (Hterm2 _ _ Hi1 eq_refl) as Hi2. pose proof (Hterm3 _ _ Hi2 eq_refl) as Hi3. split.
  - rewrite Hpend. intros (y & Hy & _ & Hny). rewrite Hi2 in Hy. by simplify_eq.
  - assert (exists job, assert_fence s2 ev2 l2 = Ok job) as [job Hf] by (unfold takeover in Htk; apply res_bind_ok in Htk as (job & ? & _); eauto).
    apply (replay_terminal_ok s3 ev2 l2 job _ g' k (terminal_invocation ev out i) row e); try done.
    all: first [by destruct Hl3|by rewrite (fence_frame s2 s3)|rewrite Egs; apply lookup_insert_eq|by rewrite Eg|by exists oid; eauto
               |by rewrite Erow; eapply payload_validates|by rewrite Erow|congruence].
Qed.

(** A receipt resolves an unknown call.  When the outcome of a capability is
    unknown and its effect receipt exists, the holder of the job's lease always
    settles it, with the receipt's own status, and nothing is sent again. *)
Theorem receipt_resolves s ev i l job k c r :
  ledgers s -> assert_fence s ev l = Ok job -> capabilities s !! k = Some c -> ci_status c = "unknown" ->
  ci_run_id c = l_run_id l -> ci_job_id c = l_job_id l -> (exists j, capability_results s !! j = Some r) -> cr_invocation_id r = k ->
  exists s', reconcile_unknown_effect s ev i l k = Ok (r, s') /\
    capability_results s' = capability_results s /\
    exists c', capabilities s' !! k = Some c' /\ ci_status c' = cr_status r /\ settled c'.
Proof.
  intros [_ _ Hr] Hf Hc Hu Erun Ejob [j Hj] Hk. destruct Hr as [Hkd Honce Hb _ Hfin].
  destruct (Hb _ _ Hj) as (x & Hx & Hid & _). rewrite Hk in Hx. simplify_eq. destruct (Hfin _ _ Hj) as [Hst Hh].
  pose proof (keyed_capabilities _ Hkd _ _ Hc) as Eid.
  assert (forall f, f r = true -> (forall y, f y = true -> cr_invocation_id y = cr_invocation_id r) ->
            head (select_where f (capability_results s)) = Some r) as Hhead.
  { intros f Hfr Hfk. apply (head_unique _ _ j); [done..|]. intros y w Hw Hfw. pose proof (Honce y j w r Hw Hj (Hfk _ Hfw)) as ->. congruence. }
  assert (result_of s (cr_invocation_id r) = Some r) as Hres by (apply Hhead; [apply eqb_refl|intros y Hy; by rewrite eqb_true in Hy]).
  assert (receipt_of s c = Some r) as Hrec.
  { apply Hhead; [cbv beta; by rewrite Eid, Hid, !eqb_refl|]. intros y Hy. to_prop. destruct Hy as [Hy _]. congruence. }
  assert (forall a : string, (a !=? a) = false) as Hrefl by (intros; by apply neqb_false).
  eexists. split; [|split].
  - unfold reconcile_unknown_effect. rewrite Hf. simpl. rewrite Hc, Hu, Hrefl, Hrec. simpl. rewrite Eid. unfold reconcile_unknown.
    rewrite Hf. simpl. rewrite (proj2 (mem_true _ _) Hst). simpl. rewrite Hc, Hu, Erun, Ejob, !Hrefl. simpl. rewrite Hh. simpl.
    rewrite Eid, Hres. rewrite !Hrefl. simpl. reflexivity.
  - done.
  - eexists. simpl. rewrite Eid, lookup_insert_eq. split_and!; done.
Qed.
End steps.
