(* ===== verification/CallScenario.v ===== *)
(** * A concrete history of the call ledgers

    One leased job opens a turn with one tool call, records its observation and
    is lost; a replacement takes the turn over, replays the answer and closes
    the group.  A policy capability is reserved, its answer is lost, the effect
    receipt is found and the call is settled.  The runs are evaluated in the
    kernel and instantiate the theorems of [CallHistory]. *)
From Stdlib Require Import Ascii.
From S2P Require Import Prelude PyValue Sha256 CanonicalJson Timestamps Store EventChain Lifecycle RuntimeJobs CallLedger CallHistory.
Local Open Scope string_scope.
Local Open Scope list_scope.
Local Open Scope Z_scope.
#[local] Existing Instance ascii_runtime.

(** ** A codec of envelopes *)
Definition time_value (t : datetime) : pyval :=
  PyList [PyInt (wall t); match utcoffset t with Some o => PyInt o | None => PyNone end].
Definition read_time (v : pyval) : option datetime :=
  match v with
  | PyList [PyInt w; PyInt o] => Some (mk_datetime w (Some o))
  | PyList [PyInt w; PyNone] => Some (mk_datetime w None)
  | _ => None
  end.
Definition read_str (v : pyval) : option string := match v with PyStr s => Some s | _ => None end.
Definition read_opt {A} (f : pyval -> option A) (v : pyval) : option (option A) :=
  match v with PyNone => Some None | _ => Some <$> f v end.
Definition read_int (v : pyval) : option Z := match v with PyInt z => Some z | _ => None end.
Definition read_bool (v : pyval) : option bool := match v with PyBool b => Some b | _ => None end.
Definition read_list (v : pyval) : option (list pyval) := match v with PyList l => Some l | _ => None end.
Definition read_dict (v : pyval) : option pydict := match v with PyDict d => Some d | _ => None end.
Definition plain_dump (o : ObservationEnvelope) : pydict :=
  [("tool_name", PyStr (oe_tool_name o)); ("tool_call_id", PyStr (oe_tool_call_id o)); ("ticket_id", PyStr (oe_ticket_id o));
   ("run_id", PyStr (oe_run_id o)); ("tenant_id", opt_value (oe_tenant_id o)); ("customer_id", opt_value (oe_customer_id o));
   ("scope_hash", opt_value (oe_scope_hash o)); ("attempt_index", PyInt (oe_attempt_index o)); ("status", PyStr (oe_status o));
   ("retryable", PyBool (oe_retryable o)); ("error_code", opt_value (oe_error_code o));
   ("safe_error_summary", opt_value (oe_safe_error_summary o)); ("observed_at", time_value (oe_observed_at o));
   ("freshness_class", PyStr (oe_freshness_class o)); ("freshness_status", PyStr (oe_freshness_status o));
   ("fresh_until", match oe_fresh_until o with Some t => time_value t | None => PyNone end);
   ("duration_ms", PyInt (oe_duration_ms o)); ("source_refs", PyList (oe_source_refs o));
   ("resource_version", opt_value (oe_resource_version o)); ("data", PyDict (oe_data o))].
Definition plain_read (d : pydict) : option ObservationEnvelope :=
  tool ← read_str (d.["tool_name"]); call ← read_str (d.["tool_call_id"]); ticket ← read_str (d.["ticket_id"]);
  run ← read_str (d.["run_id"]); tenant ← read_opt read_str (d.["tenant_id"]); customer ← read_opt read_str (d.["customer_id"]);
  scope ← read_opt read_str (d.["scope_hash"]); idx ← read_int (d.["attempt_index"]); status ← read_str (d.["status"]);
  retry ← read_bool (d.["retryable"]); err ← read_opt read_str (d.["error_code"]);
  summary ← read_opt read_str (d.["safe_error_summary"]); at_ ← read_time (d.["observed_at"]);
  fc ← read_str (d.["freshness_class"]); fs ← read_str (d.["freshness_status"]); fu ← read_opt read_time (d.["fresh_until"]);
  ms ← read_int (d.["duration_ms"]); refs ← read_list (d.["source_refs"]); rv ← read_opt read_str (d.["resource_version"]);
  data ← read_dict (d.["data"]);
  Some (mk_envelope tool call ticket run tenant customer scope idx status retry err summary at_ fc fs fu ms refs rv data).
Definition plain_validate (d : pydict) : res ObservationEnvelope :=
  match plain_read d with Some o => Ok o | None => Err (ValidationError "observation") end.
Lemma plain_validate_dump o : plain_validate (plain_dump o) = Ok o.
Proof.
  destruct o as [tool call ticket run tenant customer scope idx status retry err summary [w off] fc fs fu ms refs rv data].
  destruct tenant, customer, scope, err, summary, off, rv, fu as [[w' [off'|]]|]; reflexivity.
Qed.
#[local] Instance plain_codec : EnvelopeCodec := {|
  model_dump := plain_dump; model_validate := plain_validate; model_validate_dump := plain_validate_dump;
  model_dump_no_intent := fun o => eq_refl |}.

(** ** The history *)
Definition start : Z := 1784073600000000.
Definition at_time (t : Z) : env := mk_env t t None (fun s => s) (fun _ _ _ _ => []).
Definition got {A} (r : res (A * store)) (s : store) : store := match r with Ok (_, s') => s' | Err _ => s end.
Definition rows0 : store :=
  empty_store
  |> put_ticket (mk_ticket "T1" "t1" "c1" "processing" "active" "agent" None 1 0 1 1 None 0)
  |> put_run (mk_run "R1" "t1" "T1" "c1" "M1" (Some "U1") "running" 1 0 (Some "J1") (Some 1) None None 0 0 0 0 "running" None None
                "m" "fake" "native" "context-v1.2" None None None 0)
  |> put_job (mk_job "J1" "t1" "T1" "R1" 1 None "agent_run" "leased" 1 1 0 0 (Some "w1") (Some (start + 60 * second)) None 1 None None).
Definition lease1 : JobLease := mk_lease "J1" "R1" "t1" "w1" 1 (start + 60 * second) "agent_run" None 1 (Some "T1") (Some 1).
Definition lease2 : JobLease := mk_lease "J1" "R1" "t1" "w2" 2 (start + 90 * second) "agent_run" None 2 (Some "T1") (Some 1).

Definition round : store := got (reserve_tool_round rows0 (at_time start) lease1) rows0.
Definition call : InvocationSpec := mk_spec "call_1" "search_knowledge" [("query", PyStr "refund")] 1 None.
Definition registry : string := "0000000000000000000000000000000000000000000000000000000000000000".
Definition opened : store :=
  got (open_turn registry round (at_time start) "TG1" (fun _ => ("IV1", "L1")) lease1 "S1" 1 [] [] [call]) round.
Definition envelope : ObservationEnvelope :=
  mk_envelope "search_knowledge" "call_1" "T1" "R1" (Some "t1") (Some "c1") None 1 "ok" false None None (utc start)
    "versioned_knowledge" "fresh" None 12 [PyStr "doc-1"] None [("hits", PyInt 3)].
Definition answered_result : res (ToolObservation * store) :=
  terminalize opened (at_time (start + 1)) "OB1" lease1 "IV1" "succeeded" envelope (Some [("domain", PyStr "billing")]).
Definition answered : store := got answered_result opened.
(** The lease expires and another worker gets the job. *)
Definition handed_over : store :=
  answered
  |> put_run (mk_run "R1" "t1" "T1" "c1" "M1" (Some "U1") "running" 1 0 (Some "J1") (Some 2) None None 0 1 0 0 "running" None None
                "m" "fake" "native" "context-v1.2" None None None 0)
  |> put_job (mk_job "J1" "t1" "T1" "R1" 1 None "agent_run" "leased" 3 2 0 0 (Some "w2") (Some (start + 90 * second)) None 2 None None).
Definition taken_result : res (TurnGroup * list string * store) := takeover handed_over (at_time (start + 61 * second)) lease2 "TG1".
Definition taken : store := got taken_result handed_over.
Definition closed : store := got (close_turn taken (at_time (start + 62 * second)) lease2 "TG1") taken.
Definition thought : store :=
  got (reserve_attempt closed (at_time (start + 62 * second)) "CA1" "TT1" lease2 (mk_attempt_args "llm" None None None None)) closed.

Ltac by_run := vm_compute; reflexivity.
Lemma answered_ok : exists row, answered_result = Ok (row, answered).
Proof. eexists. by_run. Qed.
Definition moved_group : TurnGroup :=
  match taken_result with Ok (g, _, _) => g | Err _ => mk_group "" "" "" "" "" 0 0 0 0 "" "" "" "" None end.
Lemma taken_ok : taken_result = Ok (moved_group, [], taken).
Proof. by_run. Qed.

Lemma elsewhere_runs s s' r j :
  keyed s -> s' = put_job j (put_run r s) ->
  (forall x, runs s !! r_id r = Some x -> r_llm_calls x <= r_llm_calls r /\ r_tool_attempts x <= r_tool_attempts r) ->
  0 <= r_llm_calls r -> 0 <= r_tool_attempts r -> elsewhere s s'.
Proof.
  intros Hk -> Hr H1 H2. split; try done; [|auto with keyed]. split; simpl.
  - intros i x Hx. destruct (decide (r_id r = i)) as [<-|]; [|rewrite lookup_insert_ne by done; exists x; split; [done|lia]].
    rewrite lookup_insert_eq. exists r. split; [done|]. by apply Hr.
  - intros i x [[<- <-]|[_ ?]]%lookup_insert_Some; [done|congruence].
Qed.
Lemma rows0_step : call_step empty_store rows0.
Proof.
  apply step_elsewhere. split; try done; [|intros _; unfold rows0; auto with keyed]. split; simpl.
  - intros i r. by rewrite lookup_empty.
  - intros i r [[<- <-]|[_ H]]%lookup_insert_Some _; [done|]. by rewrite lookup_empty in H.
Qed.
Lemma opened_reachable : rtc call_step empty_store opened.
Proof.
  eapply rtc_l; [exact rows0_step|].
  eapply rtc_l; [apply step_attempt, (as_round rows0 (at_time start) lease1 1 round); by_run|].
  eapply rtc_l; [|apply rtc_refl]. apply step_tool.
  eapply (ts_open round registry (at_time start) "TG1" (fun _ => ("IV1", "L1")) lease1 "S1" 1 [] [] [call] _ opened). by_run.
Qed.
Lemma handed_steps : rtc call_step answered handed_over.
Proof.
  eapply rtc_l; [|apply rtc_refl]. apply step_elsewhere.
  eapply elsewhere_runs; [|reflexivity|..]; [|vm_compute; intros x [= <-]; done|done|done].
  destruct answered_ok as [row Ho]. unfold answered_result in Ho.
  assert (call_step opened answered) as Hs by (apply step_tool; eapply ts_terminalize; exact Ho).
  destruct (ledgers_step _ _ (reachable_ledgers _ opened_reachable) Hs) as [Hl _]. exact (wb_keyed _ (lg_budget _ Hl)).
Qed.
Lemma answered_reachable : rtc call_step empty_store answered.
Proof.
  destruct answered_ok as [row Ho]. unfold answered_result in Ho. eapply rtc_r; [exact opened_reachable|].
  apply step_tool. eapply ts_terminalize. exact Ho.
Qed.
Lemma closed_steps : rtc call_step answered closed.
Proof.
  transitivity handed_over; [exact handed_steps|]. pose proof taken_ok as Ht. unfold taken_result in Ht.
  eapply rtc_l; [apply step_tool; eapply ts_takeover; exact Ht|]. eapply rtc_l; [|apply rtc_refl]. apply step_tool.
  eapply (ts_close taken (at_time (start + 62 * second)) lease2 "TG1" _ closed). by_run.
Qed.
Lemma closed_reachable : rtc call_step empty_store closed.
Proof. transitivity answered; [exact answered_reachable|exact closed_steps]. Qed.
Lemma thought_reachable : rtc call_step empty_store thought.
Proof.
  eapply rtc_r; [exact closed_reachable|]. apply step_attempt.
  eapply (as_reserve closed (at_time (start + 62 * second)) "CA1" "TT1" lease2 (mk_attempt_args "llm" None None None None) _ thought). by_run.
Qed.

Lemma budgets_hold_witness :
  attempts_of thought "R1" llm_kinds = 1 /\ attempts_of thought "R1" llm_kinds <= MAX_LLM_CALLS.
Proof. split; [by_run|]. destruct (budgets_hold thought "R1" thought_reachable) as [Hle _]. exact Hle. Defined.

Definition stored : ToolObservation :=
  match answered_result with Ok (row, _) => row | Err _ => mk_observation "" "" "" "" "" "" 0 "" 0 "" [] end.
Lemma stored_ok : answered_result = Ok (stored, answered).
Proof. by_run. Qed.
Lemma stored_found : observations answered !! "OB1" = Some stored.
Proof. by_run. Qed.
Lemma observation_final_witness : observations closed !! "OB1" = Some stored.
Proof. destruct (observation_final answered closed "OB1" stored answered_reachable closed_steps stored_found) as [H _]. exact H. Defined.

Definition closed_group : TurnGroup :=
  match turn_groups closed !! "TG1" with Some g => g | None => mk_group "" "" "" "" "" 0 0 0 0 "" "" "" "" None end.
Lemma closed_turn_complete_witness : tg_expected_invocations closed_group = 1 /\ group_size closed "TG1" = 1.
Proof.
  split; [by_run|]. destruct (closed_turn_complete closed "TG1" closed_group closed_reachable) as [H _]; [by_run|by_run|].
  etransitivity; [exact H|by_run].
Defined.

Definition invocation0 : ToolInvocation :=
  match invocations opened !! "IV1" with
  | Some i => i
  | None => mk_invocation "" "" "" "" "" "" 0 "" "" 0 "" "" 0 "" None None
  end.
Lemma lost_answer_replayed_witness :
  replay_terminal_observation taken (at_time (start + 61 * second)) lease2 "IV1" "TG1" (iv_provider_tool_call_id invocation0)
    (iv_tool_name invocation0) (iv_arguments_hash invocation0) = Ok (Some (stored, envelope)).
Proof.
  destruct (lost_answer_replayed opened (at_time (start + 1)) "OB1" lease1 "IV1" "succeeded" envelope (Some [("domain", PyStr "billing")])
              stored answered handed_over (at_time (start + 61 * second)) lease2 "TG1" moved_group [] taken invocation0) as [_ H];
    [exact (reachable_ledgers _ opened_reachable)|exact stored_ok|by_run|vm_compute; discriminate|by_run|exact handed_steps|exact taken_ok|by_run..|exact H].
Defined.

(** ** A capability whose answer is lost *)
Definition binding : pyval := PyList [PyStr "OB1"].
Definition binding_digest : string := match canonical_json_hash (to_object binding) with Ok h => h | Err _ => "" end.
Definition causal : CausalDecisionV2 :=
  ProposalCausalDecisionV2 (mk_decision_base [("reason", PyStr "duplicate")] binding_digest "policy-1") "propose_refund" "refund" "B1" 2.
Example causal_valid : validate_causal_decision causal = Ok causal.
Proof. by_run. Qed.
Definition later : env := at_time (start + 63 * second).
Definition reserve_result : res (ReservedCapability * store) :=
  reserve_capability closed later "CI1" "CP1" lease2 "S1" "propose_refund" causal binding.
Definition reserved_store : store := got reserve_result closed.
Definition ticket_of_call : ReservedCapability :=
  match reserve_result with Ok (r, _) => r | Err _ => mk_reserved_capability "" "" 0 "" causal "" "" "" 0 end.
Definition unknown_store : store :=
  got (finish_capability reserved_store later "CR0" lease2 ticket_of_call "unknown" (Some "transport_lost") None false) reserved_store.
Definition receipt_payload : pydict := [("proposal_id", PyStr "P1")].
Definition receipt : PolicyCapabilityResult :=
  mk_capability_result "CR1" "t1" "R1" "J1" "CI1" (rc_effect_identity ticket_of_call) "succeeded"
    (match canonical_hash receipt_payload with Ok h => h | Err _ => "" end) receipt_payload None.
Definition receipt_store : store := put_capability_result receipt unknown_store.
Definition settled_store : store := got (reconcile_unknown_effect receipt_store later "CR2" lease2 "CI1") receipt_store.
Definition capability (s : store) : PolicyCapabilityInvocation :=
  match capabilities s !! "CI1" with
  | Some c => c
  | None => mk_capability "" "" "" "" "" 0 "" 0 "" "" "" "" None None
  end.

Lemma receipt_reachable : rtc call_step empty_store receipt_store.
Proof.
  eapply rtc_r; [eapply rtc_r; [eapply rtc_r; [exact closed_reachable|]|]|]; apply step_capability.
  - apply (cs_reserve closed later "CI1" "CP1" lease2 "S1" "propose_refund" causal binding ticket_of_call reserved_store). by_run.
  - apply (cs_finish reserved_store later "CR0" lease2 ticket_of_call "unknown" (Some "transport_lost") None false None unknown_store). by_run.
  - apply (cs_receipt unknown_store receipt (capability unknown_store)); [by_run| |by_run..]. vm_compute. list_member.
Qed.
Lemma receipt_resolves_witness :
  exists s', reconcile_unknown_effect receipt_store later "CR2" lease2 "CI1" = Ok (receipt, s') /\
    exists c', capabilities s' !! "CI1" = Some c' /\ ci_status c' = "succeeded".
Proof.
  assert (exists job, assert_fence receipt_store later lease2 = Ok job) as [job Hf] by (eexists; by_run).
  destruct (receipt_resolves receipt_store later "CR2" lease2 job "CI1" (capability receipt_store) receipt) as (s' & Ho & _ & c' & Hc & Hst & _);
    [exact (reachable_ledgers _ receipt_reachable)|exact Hf|by_run..|exists "CR1"; by_run|by_run|].
  exists s'. split; [exact Ho|]. exists c'. split; [exact Hc|exact Hst].
Defined.
Lemma settled_steps : rtc call_step receipt_store settled_store.
Proof.
  eapply rtc_l; [|apply rtc_refl]. apply step_capability.
  apply (cs_effect receipt_store later "CR2" lease2 "CI1" receipt settled_store). by_run.
Qed.
Lemma capability_settles_once_witness :
  capability_results settled_store !! "CR1" = Some receipt /\ ci_status (capability settled_store) = "succeeded".
Proof.
  destruct (capability_settles_once receipt_store settled_store "CI1" (capability receipt_store) receipt_reachable settled_steps) as [_ H];
    [by_run|]. destruct (H "CR1" receipt) as [H1 H2]; [by_run|by_run|]. split; [exact H1|].
  apply (H2 (capability settled_store)); [by_run|]. vm_compute. list_member.
Defined.
