(* ===== verification/Approvals.v ===== *)
(** * Approval commands

    services/approval_edits.py, services/approver_scope.py,
    services/kill_switches.py, services/approval_commands.py,
    services/proposal_withdrawals.py and services/conversation_lifecycle.py:
    what an approver may change, who may decide, and the two commands that
    close a pending approval (the approver's decision and the customer's
    withdrawal), each a single transaction with its idempotency record, its
    event, its follow-up job or reply, and the hand-over of the conversation.

    The operations are those of the application dialect.  A [command_ids] holds
    the answers of [new_id]; [clock] is [datetime.now(UTC)] and [database_now]
    the server default of [created_at]. *)
From Stdlib Require Import Ascii.
From S2P Require Import Prelude PyValue Sha256 CanonicalJson Timestamps RefundPolicy Store EventChain Lifecycle RuntimeJobs.
Local Open Scope string_scope.
Local Open Scope list_scope.
Local Open Scope Z_scope.

(** ** Edits (services/approval_edits.py) *)
Definition ApprovalEditNotAllowed : exn := ValueError "approval_edit_not_allowed".
Definition MAX_TARGET_CONCURRENCY : Z := 1000000.

Definition _required_text (value : pyval) : res string :=
  match value with
  | PyStr s => raise ApprovalEditNotAllowed when is_empty_str (str_strip s) ;; Ok (str_strip s)
  | _ => Err ApprovalEditNotAllowed
  end.
Definition _required_target_concurrency (value : pyval) : res Z :=
  match value with
  | PyInt z => raise ApprovalEditNotAllowed when negb ((1 <=? z) && (z <=? MAX_TARGET_CONCURRENCY)) ;; Ok z
  | _ => Err ApprovalEditNotAllowed
  end.

(** [set(d) == {k}] *)
Definition only_key (k : string) (d : pydict) : bool := dhas k d && forallb (fun kv => kv.1 ==? k) d.

Lemma only_key_other k n d : only_key k d = true -> k <> n -> dhas n d = false.
Proof.
  unfold only_key, dhas. rewrite andb_true_iff, forallb_true_iff. intros [_ Hall] Hne.
  rewrite isSome_false. induction d as [|[x v] d IH]; [done|]. simpl.
  assert (x = k) as -> by (apply eqb_true, (Hall (x, v)); by left).
  rewrite decide_False by congruence. apply IH. intros y Hy. apply Hall. by right.
Qed.

Definition apply_approval_edit (action_type : string) (base_payload edited_payload : pydict) : res pydict :=
  if action_type ==? "refund" then
    raise ApprovalEditNotAllowed when negb (only_key "refund_reason" edited_payload) ;;
    let? reason := _required_text edited_payload.["refund_reason"] in
    Ok (dset "refund_reason" (PyStr reason) base_payload)
  else if action_type ==? "entitlement_change" then
    raise ApprovalEditNotAllowed when negb (only_key "target_concurrency" edited_payload) ;;
    raise ApprovalEditNotAllowed when
      negb (py_eq base_payload.["change_type"] (PyStr "quota_change"))
      || match base_payload.["target"] with PyDict target => negb (only_key "concurrency_limit" target) | _ => true end ;;
    let? limit := _required_target_concurrency edited_payload.["target_concurrency"] in
    Ok (dset "target" (PyDict [("concurrency_limit", PyInt limit)]) base_payload)
  else Err ApprovalEditNotAllowed.

(** [ApprovalEditNotAllowed] is the only exception the body can raise. *)
Definition revision_matches_approval_edit (action_type : string) (base_payload revision_payload : pydict) : bool :=
  let matches edited :=
    match apply_approval_edit action_type base_payload edited with
    | Ok expected => py_eq (PyDict expected) (PyDict revision_payload)
    | Err _ => false
    end in
  if action_type ==? "refund" then matches [("refund_reason", revision_payload.["refund_reason"])]
  else if action_type ==? "entitlement_change" then
    match revision_payload.["target"] with
    | PyDict target => matches [("target_concurrency", target.["concurrency_limit"])]
    | _ => false
    end
  else false.

(** ** Who may decide, and what is switched off *)
Definition assert_active_approver_scope (s : store) (tenant_id actor_id : string) : res unit :=
  raise RuntimeConflict "approver_scope_invalid" when
    negb (exists_where (fun m => (mb_tenant_id m ==? tenant_id) && (mb_user_id m ==? actor_id)
                                 && (mb_role m ==? "support_approver") && (mb_status m ==? "active")) (memberships s))
    || negb (bool_decide ((actor_id, tenant_id) ∈ approver_scopes s)) ;;
  Ok tt.

Definition assert_mutation_enabled (s : store) (tenant_id action_type : string) : res unit :=
  match kill_switches s !! (tenant_id, action_type) with
  | Some true => Ok tt
  | _ => Err (RuntimeConflict ("mutation_disabled:" +:+ action_type))
  end.

(** ** Sessions *)
Record command_ids := mk_command_ids {
  g_idempotency : string; g_revision : string; g_decision : string; g_withdrawal : string; g_action : string;
  g_event : string; g_job : string; g_outbox : string; g_delivery : string; g_message : string; g_audit : string;
  g_turn : fresh_ids;
}.

(** The subclass [CanonicalEventHeadConflict] of [RuntimeError], by the messages
    [append_event] raises it with. *)
Definition is_head_conflict (e : exn) : bool :=
  match e with
  | RuntimeError m => m in? ["ticket_event_sequence_counter_conflict"; "ticket_event_head_id_conflict";
                             "ticket_event_head_sequence_conflict"; "ticket_event_head_hash_conflict";
                             "run_event_sequence_counter_conflict"]
  | _ => false
  end.
(** [try: ... except C as exc: raise e from exc] *)
Definition catch {A} (test : exn -> bool) (e : exn) (r : res A) : res A :=
  match r with Err x => if test x then Err e else Err x | Ok a => Ok a end.
Definition is_runtime_error (e : exn) : bool :=
  match e with RuntimeError _ | RuntimeConflict _ => true | _ => false end.

(** The versioned [UPDATE] of a changed proposal. *)
Definition stale_proposal (p : ProposalRecord) : ProposalRecord :=
  if p_status p ==? "stale" then p
  else p |> set_p_status "stale" |> set_p_status_version (p_status_version p + 1).

(** [INSERT]s with their unique constraints. *)
Definition insert_revision (s : store) (r : ApprovalActionRevision) : res store :=
  raise IntegrityError when isSome (revisions s !! v_id r)
    || exists_where (fun v => (v_approval_id v ==? v_approval_id r) && (v_revision_number v =? v_revision_number r))
         (revisions s) ;;
  Ok (put_revision r s).
Definition insert_decision (s : store) (d : HumanDecision) : res store :=
  raise IntegrityError when isSome (decisions s !! hd_id d)
    || exists_where (fun h => hd_approval_id h ==? hd_approval_id d) (decisions s) ;;
  Ok (put_decision d s).
Definition insert_withdrawal (s : store) (w : ProposalWithdrawal) : res store :=
  raise IntegrityError when isSome (withdrawals s !! wd_id w)
    || exists_where (fun x => wd_approval_id x ==? wd_approval_id w) (withdrawals s) ;;
  Ok (put_withdrawal w s).
Definition insert_audit (s : store) (a : AuditEvent) : res store :=
  raise IntegrityError when isSome (audits s !! au_id a) ;;
  Ok (put_audit a s).
Definition insert_message (s : store) (m : TicketMessage) : res store :=
  raise IntegrityError when isSome (messages s !! m_id m)
    || exists_where (fun x => (m_ticket_id x ==? m_ticket_id m)
                              && isSome (m_conversation_sequence m)
                              && (m_conversation_sequence x ==? m_conversation_sequence m)) (messages s)
    || exists_where (fun x => (m_tenant_id x ==? m_tenant_id m)
                              && isSome (m_publication_key m)
                              && (m_publication_key x ==? m_publication_key m)) (messages s) ;;
  Ok (put_message m s).

(** Assigned columns that no flush has written yet: the next versioned
    [UPDATE] of the approval writes them together with its own, so they are
    put in the row first, at the same version. *)
Definition pending_columns (s : store) (loaded : ApprovalRequest) (assign : ApprovalRequest -> ApprovalRequest)
    : ApprovalRequest * store :=
  (assign loaded,
   match approvals s !! a_id loaded with
   | Some row => set_approvals (<[a_id loaded := assign row]> (approvals s)) s
   | None => s
   end).

(** ** Decisions (services/approval_commands.py) *)
Record DecisionAccepted := mk_decision_accepted {
  da_approval_id : string; da_ticket_id : string; da_run_id : string; da_job_id : option string;
  da_decision : string; da_accepted_at : datetime; da_reused : bool;
}.
Definition opt_pystr (o : option string) : pyval := match o with Some s => PyStr s | None => PyNone end.
Definition da_status_url (d : DecisionAccepted) : pyval :=
  match da_job_id d with Some _ => PyStr ("/api/runs/" +:+ da_run_id d) | None => PyNone end.
(** The fields [response] and [_store_idempotent_response] share. *)
Definition da_fields (d : DecisionAccepted) (reused : bool) : res pydict :=
  let? accepted_at := format_canonical_utc_timestamp (da_accepted_at d) in
  Ok [("schema_version", PyStr "decision-accepted.v1"); ("approval_id", PyStr (da_approval_id d));
      ("ticket_id", PyStr (da_ticket_id d)); ("run_id", PyStr (da_run_id d)); ("job_id", opt_pystr (da_job_id d));
      ("decision", PyStr (da_decision d)); ("accepted_at", PyStr accepted_at);
      ("status", PyStr "decision_accepted"); ("status_url", da_status_url d);
      ("events_url", PyStr ("/api/tickets/" +:+ da_ticket_id d +:+ "/events/stream")); ("reused", PyBool reused)].
(** [DecisionAccepted.response]; a job id is never empty. *)
Definition da_response (d : DecisionAccepted) : res pydict := da_fields d (da_reused d).

Definition _store_idempotent_response (s : store) (record : IdempotencyRequest) (d : DecisionAccepted) : res store :=
  let? snapshot := da_fields d false in
  Ok (put_idempotency
        (record |> set_i_resource_ids ([("approval_id", PyStr (da_approval_id d)); ("ticket_id", PyStr (da_ticket_id d));
                                        ("run_id", PyStr (da_run_id d))]
                                       ++ match da_job_id d with Some j => [("job_id", PyStr j)] | None => [] end)
                |> set_i_response_snapshot snapshot
                |> set_i_completed_at (Some (instant (da_accepted_at d)))
                |> set_i_retention_class "protected_action") s).

Record decide_args := mk_decide {
  dc_tenant_id : string; dc_approval_id : string; dc_decision : string; dc_actor_id : string;
  dc_idempotency_key : string; dc_reason : string; dc_trace_id : string; dc_approver_note : option string;
  dc_edited_payload : option pydict;
}.
Definition dc_note (q : decide_args) : string := default "" (dc_approver_note q).
Definition dc_edited (q : decide_args) : pydict := default [] (dc_edited_payload q).

Record decision_binding := mk_decision_binding {
  db_run : AgentRun; db_ticket : SupportTicket; db_proposal : ProposalRecord; db_marker : CheckpointCommitMarker;
}.

(** [_validate_binding] *)
Definition checkpoint_bound (approval : ApprovalRequest) (run : AgentRun) (proposal : ProposalRecord)
    (marker : CheckpointCommitMarker) : bool :=
  (a_status approval ==? "pending") && (p_status proposal ==? "bound") && (k_status marker ==? "finalized")
  && (r_status run ==? "interrupted")
  && (r_canonical_checkpoint_ns run ==? a_canonical_checkpoint_ns approval)
  && (r_canonical_checkpoint_id run ==? a_checkpoint_id approval)
  && (r_canonical_checkpoint_hash run ==? a_canonical_checkpoint_hash approval)
  && (k_final_checkpoint_id marker ==? a_checkpoint_id approval)
  && (k_final_checkpoint_hash marker ==? a_canonical_checkpoint_hash approval)
  && (r_canonical_checkpoint_version run =? a_checkpoint_version approval)
  && (k_final_checkpoint_version marker ==? Some (a_checkpoint_version approval))
  && isSome (a_expected_ticket_sequence approval).
Definition _validate_binding (s : store) (approval : ApprovalRequest) : res decision_binding :=
  let conflict := RuntimeConflict "checkpoint_binding_conflict" in
  let tenant := a_tenant_id approval in
  raise conflict when negb (truthy_opt (a_run_id approval)) || negb (truthy_opt (a_proposal_id approval))
                      || negb (truthy_opt (a_marker_id approval)) ;;
  let! run := get_where (runs s) (default "" (a_run_id approval)) (fun r => r_tenant_id r ==? tenant) else conflict in
  let! ticket := get_where (tickets s) (a_ticket_id approval) (fun t => t_tenant_id t ==? tenant) else conflict in
  let! proposal := get_where (proposals s) (default "" (a_proposal_id approval)) (fun p => p_tenant_id p ==? tenant)
    else conflict in
  let! marker := get_where (markers s) (default "" (a_marker_id approval)) (fun k => k_tenant_id k ==? tenant)
    else conflict in
  raise conflict when negb (checkpoint_bound approval run proposal marker) ;;
  let? _ := catch is_runtime_error (RuntimeConflict "event_chain_conflict") (verify_ticket_event_chain s (t_id ticket)) in
  raise RuntimeConflict "approval_expected_head_conflict" when
    negb (exists_where (fun e => (e_ticket_id e ==? t_id ticket)
                                 && (Some (e_id e) ==? a_expected_ticket_head_event_id approval)
                                 && (Some (e_ticket_sequence e) ==? a_expected_ticket_sequence approval)
                                 && (Some (e_event_hash e) ==? a_expected_ticket_event_hash approval)) (events s)) ;;
  Ok (mk_decision_binding run ticket proposal marker).

(** The base revision of a pending approval. *)
Definition revision_bound (approval : ApprovalRequest) (proposal : ProposalRecord) (v : ApprovalActionRevision) : bool :=
  (v_approval_id v ==? a_id approval) && (Some (v_revision_number v) ==? a_selected_revision_number approval)
  && (v_revision_number v =? 0) && (p_action_type proposal ==? a_action_type approval)
  && py_eq (PyDict (v_action_payload v)) (PyDict (p_action_payload proposal))
  && (v_action_hash v ==? p_action_hash proposal) && (a_action_hash approval ==? p_action_hash proposal).

(** The revision a decision selects: the base, or the edited one.  For a
    refund the pair query flushes the selection before the transition does. *)
Definition select_revision (s : store) (ids : command_ids) (approval : ApprovalRequest) (proposal : ProposalRecord)
    (base : ApprovalActionRevision) (actor_id : string) (edited : pydict)
    : res (ApprovalActionRevision * ApprovalRequest * store) :=
  if is_nil edited then Ok (base, approval, s) else
  match apply_approval_edit (a_action_type approval) (v_action_payload base) edited with
  | Err _ => Err (RuntimeConflict "approval_edit_not_allowed")
  | Ok payload =>
      let? h := action_hash payload in
      let revision := mk_revision (g_revision ids) (a_tenant_id approval) (a_id approval) (p_id proposal)
                        (v_snapshot_id base) (v_revision_number base + 1) payload h (v_resource_version base)
                        actor_id "edit_and_approve" in
      let? s := insert_revision s revision in
      let assign a := a |> set_a_selected_revision_id (Some (v_id revision))
                        |> set_a_selected_revision_number (Some (v_revision_number revision)) in
      if a_action_type approval ==? "refund" then
        let? r := flush_approval s approval assign in Ok (revision, r.1, r.2)
      else let r := pending_columns s approval assign in Ok (revision, r.1, r.2)
  end.

(** The refund pair is evaluated again, under lock, and must still be the
    proposal's. *)
Definition recheck_refund (s : store) (ev : env) (approval : ApprovalRequest) (proposal : ProposalRecord) : res store :=
  if a_action_type approval ==? "refund" then
    let stale := RuntimeConflict "refund_pair_approval_stale" in
    let? found := lock_and_evaluate_billing_refund_pair (billing s) (billing s) (a_tenant_id approval)
                    (a_customer_id approval) (a_resource_id approval) (utc (clock ev)) in
    match found with
    | (Some _, Some found_pair) =>
        raise stale when negb (eligible found_pair) || negb (refund_pair_matches_proposal found_pair (p_refund_binding proposal)) ;;
        let? binding := bind_refund_pair_to_proposal found_pair in
        Ok (if binding_eqb binding (p_refund_binding proposal) then s
            else put_proposal (proposal |> set_p_refund_binding binding
                                        |> set_p_status_version (p_status_version proposal + 1)) s)
    | _ => Err stale
    end
  else Ok s.

Definition persisted_status (decision : string) : string := if decision ==? "reject" then "rejected" else "approved".

(** The decision digest and the accepted event. *)
Definition decision_digest (approval_id : string) (q : decide_args) (v : ApprovalActionRevision) : res string :=
  canonical_hash [("approval_id", PyStr approval_id); ("actor_id", PyStr (dc_actor_id q));
                  ("decision", PyStr (dc_decision q)); ("reason", PyStr (dc_reason q));
                  ("approver_note", PyStr (dc_note q)); ("action_hash", PyStr (v_action_hash v));
                  ("revision_id", PyStr (v_id v)); ("revision_number", PyInt (v_revision_number v))].

Section commands.
Context `{PyRuntime}.

Definition decision_event (s : store) (ev : env) (ids : command_ids) (q : decide_args) (approval_id run_id ticket_id : string)
    (v : ApprovalActionRevision) (decision_hash : string) : res (AgentEvent * store) :=
  let! current_head := ticket_head s ticket_id else RuntimeConflict "event_chain_conflict" in
  catch is_head_conflict (RuntimeConflict "approval_expected_head_conflict")
    (append_event (redact ev) s run_id
       (mk_args "human_decision_accepted"
          (PyDict [("approval_id", PyStr approval_id); ("human_decision_id", PyStr (g_decision ids));
                   ("decision", PyStr (dc_decision q)); ("decision_hash", PyStr decision_hash);
                   ("action_hash", PyStr (v_action_hash v)); ("revision_id", PyStr (v_id v));
                   ("revision_number", PyInt (v_revision_number v))])
          "approver" "completed" None None None (Some (dc_idempotency_key q)) (Some (Some (e_id current_head)))
          (Some (e_ticket_sequence current_head)) (Some (Some (e_event_hash current_head))))
       (worker ev) (g_event ids) (utc (clock ev))).

(** The resume job of an approving decision. *)
Definition enqueue_resume (s : store) (ev : env) (ids : command_ids) (approval : ApprovalRequest) (run_id : string) : res store :=
  let! ticket := tickets s !! a_ticket_id approval else RuntimeError "ticket object is not persistent" in
  let sequence := t_next_dispatch_sequence ticket + 1 in
  let s := put_ticket (set_t_next_dispatch_sequence sequence ticket) s in
  insert_job s (new_job (g_job ids) (a_tenant_id approval) (a_ticket_id approval) run_id "approval_resume"
                  (Some (a_id approval)) sequence (database_now ev)).
(** Its delivery: the run and the ticket are queued again. *)
Definition publish_resume (s : store) (ev : env) (ids : command_ids) (approval : ApprovalRequest) (run_id trace_id : string) : res store :=
  let? s := insert_outbox s (new_outbox (g_outbox ids) (g_delivery ids) (a_tenant_id approval) (g_job ids) run_id 1
                               "runtime_job_available" [("traceparent", PyStr trace_id)] (database_now ev)) in
  let! run := runs s !! run_id else RuntimeError "run object is not persistent" in
  let s := put_run (run |> set_r_status "queued" |> set_r_status_version (r_status_version run + 1)) s in
  let! ticket := tickets s !! a_ticket_id approval else RuntimeError "ticket object is not persistent" in
  Ok (put_ticket (ticket |> set_t_status "queued" |> set_t_version (t_version ticket + 1)) s).

(** A run that ends without an action, and its turn. *)
Definition complete_run (run : AgentRun) (reason : string) (now : Z) : AgentRun :=
  run |> set_r_status "completed" |> set_r_checkpoint_stage "completed" |> set_r_agent_finish_reason (Some reason)
      |> set_r_active_job_id None |> set_r_active_fencing_token None |> set_r_completed_at (Some now)
      |> set_r_status_version (r_status_version run + 1).
Definition complete_turn (s : store) (run : AgentRun) (result : string) (now : Z) : store :=
  if truthy_opt (r_turn_id run) then
    match turns s !! default "" (r_turn_id run) with
    | Some turn => put_turn (turn |> set_u_activity_state "completed" |> set_u_result_state (Some result)
                                  |> set_u_completed_at (Some now)) s
    | None => s
    end
  else s.

Definition REJECTED_RESPONSE : string :=
  "审批者已拒绝这项申请，因此没有执行任何业务操作。你仍可以在当前对话继续咨询。".
Definition rejected_key (approval_id : string) : string := "approval:" +:+ approval_id +:+ ":rejected".

(** [_converge_rejected_decision] *)
Definition _converge_rejected_decision (s : store) (ev : env) (ids : command_ids) (approval : ApprovalRequest)
    (proposal_id run_id trace_id : string) : res store :=
  let now := clock ev in
  let! proposal := proposals s !! proposal_id else RuntimeError "proposal object is not persistent" in
  let s := put_proposal (stale_proposal proposal) s in
  let! run := runs s !! run_id else RuntimeError "run object is not persistent" in
  let run := set_r_error_code None (complete_run run "rejected" now) in
  let s := complete_turn (put_run run s) run "rejected" now in
  let! ticket := tickets s !! a_ticket_id approval else RuntimeError "ticket object is not persistent" in
  let ticket := ticket |> set_t_status "rejected" |> set_t_final_response (Some REJECTED_RESPONSE)
                       |> set_t_version (t_version ticket + 1) in
  let published := exists_where (fun m => (m_tenant_id m ==? a_tenant_id approval)
                                          && (m_publication_key m ==? Some (rejected_key (a_id approval)))) (messages s) in
  let? s :=
    if published then Ok (put_ticket ticket s) else
    let ticket := advance_conversation_activity
                    (set_t_next_message_sequence (t_next_message_sequence ticket + 1) ticket) now in
    insert_message (put_ticket ticket s)
      (mk_message (g_message ids) (a_tenant_id approval) (t_id ticket) (r_turn_id run) (Some (r_id run))
         (Some (a_id approval)) (Some (t_next_message_sequence ticket)) "action_update"
         (Some (rejected_key (a_id approval))) "action" REJECTED_RESPONSE (PyList [])) in
  let? r := activate_next_turn s ev (g_turn ids) (a_ticket_id approval) (trace_id +:+ ":next-turn") in
  let? c := converge_ticket r.2 (a_ticket_id approval) "rejected" in
  Ok c.2.

(** The rows of an accepted decision, after the approval has moved. *)
Definition record_decision (s : store) (ev : env) (ids : command_ids) (q : decide_args) (approval : ApprovalRequest)
    (b : decision_binding) (v : ApprovalActionRevision) : res (option string * store) :=
  let run_id := r_id (db_run b) in
  let? decision_hash := decision_digest (a_id approval) q v in
  let approving := dc_decision q !=? "reject" in
  let? s := if approving then enqueue_resume s ev ids approval run_id else Ok s in
  let? event := decision_event s ev ids q (a_id approval) run_id (t_id (db_ticket b)) v decision_hash in
  let '(event, s) := event in
  let? s := insert_decision s
              (mk_decision_row (g_decision ids) (a_tenant_id approval) (a_id approval) (Some (v_id v)) (dc_actor_id q)
                 (dc_decision q) (dc_reason q) (Some (v_action_hash v)) (Some decision_hash) (Some (e_id event))
                 (Some (e_event_hash event)) [("approver_note", PyStr (dc_note q))] (database_now ev)) in
  let? s := if approving then publish_resume s ev ids approval run_id (dc_trace_id q)
            else _converge_rejected_decision s ev ids approval (p_id (db_proposal b)) run_id (dc_trace_id q) in
  let job_id := if approving then Some (g_job ids) else None in
  let? s := insert_audit s
              (mk_audit (g_audit ids) (a_tenant_id approval) (t_id (db_ticket b)) (a_customer_id approval)
                 "approval_decision_accepted" "approver" (Some (dc_actor_id q))
                 [("approval_id", PyStr (a_id approval)); ("decision", PyStr (dc_decision q));
                  ("proposal_id", PyStr (p_id (db_proposal b))); ("marker_id", PyStr (k_id (db_marker b)));
                  ("job_id", opt_pystr job_id); ("approver_note", PyStr (dc_note q))]
                 (Some (dc_trace_id q)) (Some run_id)) in
  Ok (job_id, s).

(** A decision on a still undecided approval. *)
Definition decide_pending (s : store) (ev : env) (ids : command_ids) (q : decide_args) (approval : ApprovalRequest)
    : res (option string * string * string * store) :=
  let? b := _validate_binding s approval in
  raise RuntimeConflict "invalid_approval_decision" when negb (dc_decision q in? ["approve"; "edit_and_approve"; "reject"]) ;;
  let unbound := RuntimeConflict "approval_revision_binding_conflict" in
  let! base := revisions s !! default "" (a_selected_revision_id approval) else unbound in
  raise unbound when negb (revision_bound approval (db_proposal b) base) ;;
  raise RuntimeConflict "approval_edit_not_allowed"
    when (dc_decision q ==? "edit_and_approve") !=? negb (is_nil (dc_edited q)) ;;
  let? selected := select_revision s ids approval (db_proposal b) base (dc_actor_id q) (dc_edited q) in
  let '(v, approval, s) := selected in
  let? s := if dc_decision q in? ["approve"; "edit_and_approve"]
            then recheck_refund s ev approval (db_proposal b) else Ok s in
  let? moved := transition s approval (persisted_status (dc_decision q)) "pending" (Some (a_status_version approval))
                  (Some (clock ev)) in
  let '(_, approval, s) := moved in
  let? r := record_decision s ev ids q approval b v in
  Ok (r.1, t_id (db_ticket b), r_id (db_run b), r.2).

(** A replayed command answers from its snapshot. *)
Definition replay_decision (snapshot : pydict) (ticket_id : string) : res DecisionAccepted :=
  let? approval_id := subscript snapshot "approval_id" in
  let? run_id := subscript snapshot "run_id" in
  let? decision := subscript snapshot "decision" in
  let? at_ := subscript snapshot "accepted_at" in
  let? accepted_at := parse_canonical_utc_timestamp at_ in
  Ok (mk_decision_accepted (py_str approval_id) ticket_id (py_str run_id)
        (match snapshot.["job_id"] with PyNone => None | j => Some (py_str j) end)
        (py_str decision) accepted_at true).

(** [ApprovalCommandCoordinator.decide] *)
Definition decide_payload (q : decide_args) : pydict :=
  [("decision", PyStr (dc_decision q)); ("reason", PyStr (dc_reason q));
   ("approver_note", opt_pystr (dc_approver_note q)); ("edited_payload", PyDict (dc_edited q))].
Definition decide_route (q : decide_args) : string := "POST /api/approvals/" +:+ dc_approval_id q +:+ "/decision".
Definition decide_approval (s : store) (ev : env) (ids : command_ids) (q : decide_args) : res (DecisionAccepted * store) :=
  raise RuntimeConflict "manual_takeover_public_unsupported" when dc_decision q ==? "manual_takeover" ;;
  let! approval := get_where (approvals s) (dc_approval_id q) (fun a => a_tenant_id a ==? dc_tenant_id q)
    else RuntimeConflict "approval_not_found" in
  let? _ := assert_active_approver_scope s (a_tenant_id approval) (dc_actor_id q) in
  let? accepted := accept s ev (g_idempotency ids) (a_tenant_id approval) (dc_actor_id q) (decide_route q)
                     (dc_idempotency_key q) (decide_payload q) [] [] None in
  let '(command, s) := accepted in
  let snapshot := i_response_snapshot (record command) in
  if reused command && negb (is_nil snapshot) then
    let? d := replay_decision snapshot (a_ticket_id approval) in Ok (d, s)
  else
  let existing_job := head (select_where (fun j => j_approval_id j ==? Some (a_id approval)) (jobs s)) in
  match head (select_where (fun h => hd_approval_id h ==? a_id approval) (decisions s)) with
  | Some existing =>
      raise RuntimeConflict "approval_decision_conflict" when
        (hd_decision existing !=? dc_decision q) || ((dc_decision q !=? "reject") && isNone existing_job) ;;
      let d := mk_decision_accepted (a_id approval) (a_ticket_id approval) (default "None" (a_run_id approval))
                 (if dc_decision q !=? "reject" then j_id <$> existing_job else None)
                 (dc_decision q) (utc (hd_created_at existing)) true in
      let? s := _store_idempotent_response s (record command) d in
      Ok (d, s)
  | None =>
      let? r := decide_pending s ev ids q approval in
      let '(job_id, ticket_id, run_id, s) := r in
      let d := mk_decision_accepted (a_id approval) ticket_id run_id job_id (dc_decision q)
                 (utc (database_now ev)) false in
      let? s := _store_idempotent_response s (record command) d in
      Ok (d, s)
  end.

(** [mark_binding_stale]: the second component is the [reused] flag. *)
Definition mark_binding_stale (s : store) (tenant_id approval_id : string) : res (pydict * store) :=
  let answer reused := [("schema_version", PyStr "checkpoint-binding-stale.v1"); ("approval_id", PyStr approval_id);
                        ("status", PyStr "stale"); ("reused", PyBool reused)] in
  match get_where (approvals s) approval_id (fun a => (a_tenant_id a ==? tenant_id) && (a_status a ==? "pending")) with
  | None => Ok (answer true, s)
  | Some approval =>
      let? moved := transition s approval "stale" "pending" (Some (a_status_version approval)) None in
      let '(_, approval, s) := moved in
      let s :=
        if truthy_opt (a_proposal_id approval) then
          match get_where (proposals s) (default "" (a_proposal_id approval)) (fun p => p_tenant_id p ==? tenant_id) with
          | Some proposal => if p_status proposal in? ["draft"; "bound"] then put_proposal (stale_proposal proposal) s else s
          | None => s
          end
        else s in
      Ok (answer false, s)
  end.

(** ** Withdrawals (services/proposal_withdrawals.py) *)
Record WithdrawalAccepted := mk_withdrawal_accepted {
  wa_approval_id : string; wa_ticket_id : string; wa_withdrawal_id : string; wa_accepted_at : datetime; wa_reused : bool;
}.
Definition wa_response (w : WithdrawalAccepted) : res pydict :=
  let? accepted_at := format_canonical_utc_timestamp (wa_accepted_at w) in
  Ok [("schema_version", PyStr "withdrawal-accepted.v1"); ("approval_id", PyStr (wa_approval_id w));
      ("ticket_id", PyStr (wa_ticket_id w)); ("withdrawal_id", PyStr (wa_withdrawal_id w));
      ("accepted_at", PyStr accepted_at); ("action_status", PyStr "withdrawn"); ("reused", PyBool (wa_reused w))].
(** [_store_response] *)
Definition store_withdrawal_response (s : store) (record : IdempotencyRequest) (w : WithdrawalAccepted) : res store :=
  let? response := wa_response w in
  Ok (put_idempotency
        (record |> set_i_resource_ids [("approval_id", PyStr (wa_approval_id w)); ("ticket_id", PyStr (wa_ticket_id w));
                                       ("withdrawal_id", PyStr (wa_withdrawal_id w))]
                |> set_i_response_snapshot (dmerge response [("reused", PyBool false)])
                |> set_i_completed_at (Some (instant (wa_accepted_at w)))
                |> set_i_retention_class "protected_action") s).

Record withdraw_args := mk_withdraw {
  wq_tenant_id : string; wq_customer_id : string; wq_principal_id : string; wq_approval_id : string;
  wq_idempotency_key : string; wq_reason : string; wq_trace_id : string;
}.
Definition WITHDRAWN_MESSAGE : string := "你已撤回该操作申请；系统未执行任何业务动作。".
Definition withdrawn_key (approval_id : string) : string := "action:" +:+ approval_id +:+ ":withdrawn:1".

(** The rows of an accepted withdrawal, after the approval has moved. *)
Definition record_withdrawal (s : store) (ev : env) (ids : command_ids) (q : withdraw_args) (approval : ApprovalRequest)
    (proposal_id ticket_id : string) : res store :=
  let now := clock ev in
  let! proposal := proposals s !! proposal_id else RuntimeError "proposal object is not persistent" in
  let s := put_proposal (stale_proposal proposal) s in
  let run := if truthy_opt (a_run_id approval) then runs s !! default "" (a_run_id approval) else None in
  let s := match run with
           | Some run => let run := complete_run run "withdrawn" now in complete_turn (put_run run s) run "withdrawn" now
           | None => s
           end in
  let! ticket := tickets s !! ticket_id else RuntimeError "ticket object is not persistent" in
  let ticket := ticket |> set_t_status "open" |> set_t_version (t_version ticket + 1)
                       |> set_t_next_message_sequence (t_next_message_sequence ticket + 1) in
  let s := put_ticket (advance_conversation_activity ticket now) s in
  let? s := insert_withdrawal s (mk_withdrawal (g_withdrawal ids) (wq_tenant_id q) ticket_id (wq_customer_id q)
                                   (a_id approval) proposal_id (wq_principal_id q) (wq_reason q)
                                   (wq_idempotency_key q) now) in
  let? s := insert_message s
              (mk_message (g_message ids) (wq_tenant_id q) ticket_id
                 (match run with Some r => r_turn_id r | None => None end) (r_id <$> run) (Some (a_id approval))
                 (Some (t_next_message_sequence ticket)) "action_update" (Some (withdrawn_key (a_id approval)))
                 "action" WITHDRAWN_MESSAGE (PyList [])) in
  insert_audit s
    (mk_audit (g_audit ids) (wq_tenant_id q) ticket_id (wq_customer_id q) "proposal_withdrawn" "customer"
       (Some (wq_principal_id q))
       [("approval_id", PyStr (a_id approval)); ("proposal_id", PyStr proposal_id);
        ("withdrawal_id", PyStr (g_withdrawal ids))]
       (Some (wq_trace_id q)) (a_run_id approval)).

(** [ProposalWithdrawalCoordinator.withdraw].  [loaded] is how the driver hands
    back a stored timestamp: SQLite drops its offset. *)
Definition withdraw_route (ticket_id approval_id : string) : string :=
  "POST /api/conversations/" +:+ ticket_id +:+ "/actions/" +:+ approval_id +:+ "/withdraw".
Definition withdraw (loaded : Z -> datetime) (s : store) (ev : env) (ids : command_ids) (q : withdraw_args)
    : res (WithdrawalAccepted * store) :=
  let missing := RuntimeConflict "approval_not_found" in
  let conflict := RuntimeConflict "proposal_withdrawal_conflict" in
  let! approval := get_where (approvals s) (wq_approval_id q) (fun a => a_tenant_id a ==? wq_tenant_id q) else missing in
  raise missing when a_customer_id approval !=? wq_customer_id q ;;
  let! ticket := get_where (tickets s) (a_ticket_id approval) (fun t =>
                   (t_tenant_id t ==? wq_tenant_id q) && (t_customer_id t ==? wq_customer_id q)) else missing in
  let? accepted := accept s ev (g_idempotency ids) (wq_tenant_id q) (wq_principal_id q)
                     (withdraw_route (t_id ticket) (a_id approval)) (wq_idempotency_key q)
                     [("reason", PyStr (wq_reason q))] [] [] None in
  let '(command, s) := accepted in
  let snapshot := i_response_snapshot (record command) in
  if reused command && negb (is_nil snapshot) then
    let? withdrawal_id := subscript snapshot "withdrawal_id" in
    let? at_ := subscript snapshot "accepted_at" in
    let? accepted_at := parse_canonical_utc_timestamp at_ in
    Ok (mk_withdrawal_accepted (a_id approval) (t_id ticket) (py_str withdrawal_id) accepted_at true, s)
  else
  match head (select_where (fun w => (wd_approval_id w ==? a_id approval) && (wd_tenant_id w ==? wq_tenant_id q))
                (withdrawals s)) with
  | Some existing =>
      let w := mk_withdrawal_accepted (a_id approval) (t_id ticket) (wd_id existing) (loaded (wd_created_at existing)) true in
      let? s := store_withdrawal_response s (record command) w in
      Ok (w, s)
  | None =>
      raise conflict when (a_status approval !=? "pending")
        || exists_where (fun h => hd_approval_id h ==? a_id approval) (decisions s)
        || negb (truthy_opt (a_proposal_id approval)) ;;
      let! proposal := get_where (proposals s) (default "" (a_proposal_id approval)) (fun p =>
                         (p_tenant_id p ==? wq_tenant_id q) && (p_status p ==? "bound")) else conflict in
      let? moved := transition s approval "withdrawn" "pending" (Some (a_status_version approval)) (Some (clock ev)) in
      let '(_, approval, s) := moved in
      let? s := record_withdrawal s ev ids q approval (p_id proposal) (t_id ticket) in
      let w := mk_withdrawal_accepted (a_id approval) (t_id ticket) (g_withdrawal ids) (utc (clock ev)) false in
      let? s := store_withdrawal_response s (record command) w in
      let? r := activate_next_turn s ev (g_turn ids) (t_id ticket) (wq_trace_id q +:+ ":next-turn") in
      let? c := converge_ticket r.2 (t_id ticket) "open" in
      Ok (w, c.2)
  end.

(** ** Archiving (services/conversation_lifecycle.py) *)
Record LifecycleAccepted := mk_lifecycle_accepted {
  la_conversation_id : string; la_lifecycle : string; la_accepted_at : datetime; la_reused : bool;
}.
Definition la_response (l : LifecycleAccepted) : res pydict :=
  let? accepted_at := format_canonical_utc_timestamp (la_accepted_at l) in
  Ok [("schema_version", PyStr "conversation-lifecycle.v1"); ("conversation_id", PyStr (la_conversation_id l));
      ("lifecycle", PyStr (la_lifecycle l)); ("accepted_at", PyStr accepted_at); ("reused", PyBool (la_reused l))].
(** [_store_response] *)
Definition store_lifecycle_response (s : store) (record : IdempotencyRequest) (l : LifecycleAccepted) : res store :=
  let? response := la_response l in
  Ok (put_idempotency
        (record |> set_i_resource_ids [("conversation_id", PyStr (la_conversation_id l))]
                |> set_i_response_snapshot (dmerge response [("reused", PyBool false)])
                |> set_i_completed_at (Some (instant (la_accepted_at l)))
                |> set_i_retention_class "low_risk_non_action") s).
Record lifecycle_args := mk_lifecycle {
  lq_tenant_id : string; lq_customer_id : string; lq_principal_id : string; lq_conversation_id : string;
  lq_lifecycle : string; lq_idempotency_key : string; lq_trace_id : string;
}.
Definition lifecycle_action (lifecycle : string) : string := if lifecycle ==? "active" then "restore" else "archive".
(** [ConversationLifecycleCoordinator.transition]; [updated_at] is the column the
    server maintains, read as UTC. *)
Definition transition_conversation (s : store) (ev : env) (ids : command_ids) (updated_at : Z) (q : lifecycle_args)
    : res (LifecycleAccepted * store) :=
  raise RuntimeConflict "conversation_lifecycle_invalid" when negb (lq_lifecycle q in? ["active"; "archived"]) ;;
  let! ticket := get_where (tickets s) (lq_conversation_id q) (fun t =>
                   (t_tenant_id t ==? lq_tenant_id q) && (t_customer_id t ==? lq_customer_id q))
    else RuntimeConflict "conversation_not_found" in
  let action := lifecycle_action (lq_lifecycle q) in
  let? accepted := accept s ev (g_idempotency ids) (lq_tenant_id q) (lq_principal_id q)
                     ("POST /api/conversations/" +:+ lq_conversation_id q +:+ "/" +:+ action) (lq_idempotency_key q)
                     [("lifecycle", PyStr (lq_lifecycle q))] [] [] None in
  let '(command, s) := accepted in
  let snapshot := i_response_snapshot (record command) in
  if reused command && negb (is_nil snapshot) then
    let? lifecycle := subscript snapshot "lifecycle" in
    let? at_ := subscript snapshot "accepted_at" in
    let? accepted_at := parse_canonical_utc_timestamp at_ in
    Ok (mk_lifecycle_accepted (lq_conversation_id q) (py_str lifecycle) accepted_at true, s)
  else
  let? moved :=
    if t_lifecycle ticket ==? lq_lifecycle q then Ok (updated_at, s) else
    let s := put_ticket (ticket |> set_t_lifecycle (lq_lifecycle q) |> set_t_version (t_version ticket + 1)) s in
    let? s := insert_audit s (mk_audit (g_audit ids) (lq_tenant_id q) (t_id ticket) (lq_customer_id q)
                                ("conversation_" +:+ action +:+ "d") "customer" (Some (lq_principal_id q))
                                [("lifecycle", PyStr (lq_lifecycle q))] (Some (lq_trace_id q)) None) in
    Ok (clock ev, s) in
  let l := mk_lifecycle_accepted (t_id ticket) (lq_lifecycle q) (utc moved.1) false in
  let? s := store_lifecycle_response moved.2 (record command) l in
  Ok (l, s).
End commands.

(** ** Edits change one field *)
Lemma required_text_ok v t : _required_text v = Ok t <-> exists r, v = PyStr r /\ t = str_strip r /\ str_strip r <> "".
Proof.
  unfold _required_text. destruct v; try (split; [done|by intros (? & ? & _)]). split.
  - intros Ho. steps_ok Ho. apply is_empty_str_false in Hguard. injection Ho as <-. eauto.
  - intros (r & [= ->] & -> & Hne). by rewrite raise_if_false by (by apply is_empty_str_false).
Qed.
Lemma required_concurrency_ok v n : _required_target_concurrency v = Ok n <-> v = PyInt n /\ 1 <= n <= MAX_TARGET_CONCURRENCY.
Proof.
  unfold _required_target_concurrency. destruct v; try (split; [done|by intros (? & _)]). split.
  - intros Ho. steps_ok Ho. rewrite negb_false_iff, andb_true_iff, !Z.leb_le in Hguard. by simplify_eq.
  - intros ([= ->] & Hn). rewrite raise_if_false; [done|]. rewrite negb_false_iff, andb_true_iff, !Z.leb_le. lia.
Qed.

(** The edit an approver may make of a payload, by action type. *)
Inductive admissible_edit (base edited : pydict) : string -> pydict -> Prop :=
| ed_refund r :
    only_key "refund_reason" edited = true -> edited.["refund_reason"] = PyStr r -> str_strip r <> "" ->
    admissible_edit base edited "refund" (dset "refund_reason" (PyStr (str_strip r)) base)
| ed_concurrency target n :
    only_key "target_concurrency" edited = true -> edited.["target_concurrency"] = PyInt n -> 1 <= n <= MAX_TARGET_CONCURRENCY ->
    base.["change_type"] = PyStr "quota_change" -> base.["target"] = PyDict target -> only_key "concurrency_limit" target = true ->
    admissible_edit base edited "entitlement_change" (dset "target" (PyDict [("concurrency_limit", PyInt n)]) base).

Lemma apply_edit_iff t base edited p : apply_approval_edit t base edited = Ok p <-> admissible_edit base edited t p.
Proof.
  unfold apply_approval_edit. split.
  - destruct (t ==? "refund") eqn:E1; [|destruct (t ==? "entitlement_change") eqn:E2; [|done]].
    + rewrite eqb_true in E1. subst t. intros Ho. steps_ok Ho. apply negb_false_iff in Hguard.
      apply required_text_ok in Hstep as (r & Er & -> & Hne). injection Ho as <-. by econstructor.
    + rewrite eqb_true in E2. subst t. intros Ho. steps_ok Ho. apply negb_false_iff in Hguard.
      apply required_concurrency_ok in Hstep as [Ea Hn]. injection Ho as <-. apply orb_false_iff in Hguard0 as [Hc Ht].
      apply negb_false_iff in Hc. rewrite py_eq_str in Hc. destruct (base.["target"]) as [| | | | | | |target] eqn:Et; try done.
      apply negb_false_iff in Ht. by eapply ed_concurrency.
  - intros [r Hk Er Hne|target n Hk Ea Hn Hc Ht Hk2].
    + rewrite eqb_refl, raise_if_false by (by rewrite Hk). rewrite (proj2 (required_text_ok (edited.["refund_reason"]) (str_strip r))); [done|eauto].
    + replace ("entitlement_change" ==? "refund") with false by reflexivity. rewrite eqb_refl, raise_if_false by (by rewrite Hk).
      rewrite raise_if_false by (by rewrite Hc, Ht, Hk2). by rewrite (proj2 (required_concurrency_ok (edited.["target_concurrency"]) n)).
Qed.

Definition edited_field (action_type : string) : string := if action_type ==? "refund" then "refund_reason" else "target".

(** An approver's edit changes one field.  An edit is accepted exactly when
    it is admissible for its action type (a refund's reason, a quota change's
    concurrency limit between 1 and 1,000,000), and the revised payload agrees
    with the base payload on every other key. *)
Theorem edit_changes_one_field t base edited p :
  (apply_approval_edit t base edited = Ok p <-> admissible_edit base edited t p) /\
  (apply_approval_edit t base edited = Ok p -> forall k, k <> edited_field t -> dget k p = dget k base).
Proof.
  split; [apply apply_edit_iff|]. intros [r _ _ _|target n _ _ _ _ _ _]%apply_edit_iff k Hk; rewrite dget_dset;
    rewrite decide_False; try done.
Qed.

Lemma dget_or_dset k v d : (dset k v d).[k] = v.
Proof. unfold dget_or. by rewrite dget_dset, decide_True. Qed.

(** An accepted edit is recognised at execution: the payload that
    [apply_approval_edit] produces passes [revision_matches_approval_edit]
    against the same base, so an edited and approved action is not mistaken for
    a tampered one. *)
Theorem edit_recognised t base edited p :
  py_wf (PyDict base) = true -> apply_approval_edit t base edited = Ok p -> revision_matches_approval_edit t base p = true.
Proof.
  intros Hw Ho. pose proof Ho as He%apply_edit_iff. unfold revision_matches_approval_edit. cbv zeta.
  destruct He as [r _ _ Hne|target n _ _ Hn Hc Ht Hk].
  - rewrite eqb_refl. rewrite dget_or_dset.
    rewrite (proj2 (apply_edit_iff "refund" base [("refund_reason", PyStr (str_strip r))] (dset "refund_reason" (PyStr (str_strip r)) base))).
    + apply py_eq_refl, dset_wf; done.
    + rewrite <- (str_strip_idemp r) at 2. apply ed_refund; [done|done|]. by rewrite str_strip_idemp.
  - replace ("entitlement_change" ==? "refund") with false by reflexivity. rewrite eqb_refl, dget_or_dset.
    change (dget_or "concurrency_limit" PyNone [("concurrency_limit", PyInt n)]) with (PyInt n).
    rewrite (proj2 (apply_edit_iff "entitlement_change" base [("target_concurrency", PyInt n)] (dset "target" (PyDict [("concurrency_limit", PyInt n)]) base))).
    + apply py_eq_refl, dset_wf; done.
    + by eapply ed_concurrency.
Qed.

Definition demo_base : pydict := [("billing_record_id", PyStr "B1"); ("amount", PyStr "12.50"); ("refund_reason", PyStr "dup")].
Lemma edit_recognised_witness :
  apply_approval_edit "refund" demo_base [("refund_reason", PyStr " duplicate charge ")]
    = Ok (dset "refund_reason" (PyStr "duplicate charge") demo_base) /\
  revision_matches_approval_edit "refund" demo_base (dset "refund_reason" (PyStr "duplicate charge") demo_base) = true.
Proof.
  split; [vm_compute; reflexivity|].
  apply (edit_recognised "refund" demo_base [("refund_reason", PyStr " duplicate charge ")]); vm_compute; reflexivity.
Defined.
Lemma edit_changes_one_field_witness :
  apply_approval_edit "refund" demo_base [("refund_reason", PyStr " duplicate charge ")]
    = Ok (dset "refund_reason" (PyStr "duplicate charge") demo_base) /\
  dget "amount" (dset "refund_reason" (PyStr "duplicate charge") demo_base) = dget "amount" demo_base.
Proof.
  split; [vm_compute; reflexivity|].
  apply (edit_changes_one_field "refund" demo_base [("refund_reason", PyStr " duplicate charge ")]); vm_compute; [reflexivity|done].
Defined.

(** ** A repeated withdrawal *)
Section repeated.
Context `{PyRuntime}.

(** C10: a withdrawal repeated under another idempotency key.  It is answered from
    the first withdrawal, as reused, exactly when the driver returns the stored
    [created_at] as an aware timestamp; a naive one, as SQLite returns it, ends
    the command with [ValueError], because this branch does not restore the
    time zone the way the decision command does. *)
Theorem repeated_withdrawal_needs_aware loaded s ev ids q a t command s1 w :
  get_where (approvals s) (wq_approval_id q) (fun a => a_tenant_id a ==? wq_tenant_id q) = Some a ->
  a_customer_id a = wq_customer_id q ->
  get_where (tickets s) (a_ticket_id a) (fun t => (t_tenant_id t ==? wq_tenant_id q) && (t_customer_id t ==? wq_customer_id q)) = Some t ->
  accept s ev (g_idempotency ids) (wq_tenant_id q) (wq_principal_id q) (withdraw_route (t_id t) (a_id a))
    (wq_idempotency_key q) [("reason", PyStr (wq_reason q))] [] [] None = Ok (command, s1) ->
  reused command = false ->
  head (select_where (fun x => (wd_approval_id x ==? a_id a) && (wd_tenant_id x ==? wq_tenant_id q)) (withdrawals s1)) = Some w ->
  (is_naive (loaded (wd_created_at w)) = true ->
   withdraw loaded s ev ids q = Err (ValueError "canonical_timestamp_requires_aware_datetime")) /\
  (is_naive (loaded (wd_created_at w)) = false -> in_range (instant (loaded (wd_created_at w))) = true ->
   exists s', withdraw loaded s ev ids q =
     Ok (mk_withdrawal_accepted (a_id a) (t_id t) (wd_id w) (loaded (wd_created_at w)) true, s')).
Proof.
  intros Ha Hc Ht Hi Hr Hw.
  assert (forall r, store_withdrawal_response s1 (record command)
             (mk_withdrawal_accepted (a_id a) (t_id t) (wd_id w) (loaded (wd_created_at w)) true) = r ->
           withdraw loaded s ev ids q =
             let? s2 := r in Ok (mk_withdrawal_accepted (a_id a) (t_id t) (wd_id w) (loaded (wd_created_at w)) true, s2)) as Hrun.
  { intros r <-. unfold withdraw. rewrite Ha. simpl. rewrite (proj2 (neqb_false _ _) Hc). simpl. rewrite Ht. simpl.
    rewrite Hi. cbn [res_bind]. rewrite Hr. cbn [andb]. by rewrite Hw. }
  split.
  - intros Hn. rewrite (Hrun (Err (ValueError "canonical_timestamp_requires_aware_datetime"))); [reflexivity|].
    unfold store_withdrawal_response, wa_response, format_canonical_utc_timestamp. simpl. by rewrite Hn.
  - intros Hn Hin. assert (exists s', store_withdrawal_response s1 (record command)
      (mk_withdrawal_accepted (a_id a) (t_id t) (wd_id w) (loaded (wd_created_at w)) true) = Ok s') as [s' E].
    { unfold store_withdrawal_response, wa_response, format_canonical_utc_timestamp. simpl. rewrite Hn, Hin. simpl. by eexists. }
    exists s'. by rewrite (Hrun _ E).
Qed.
End repeated.
