(* ===== verification/Commands.v ===== *)
(** * Customer commands

    services/commands.py and services/tickets.py: a new ticket or a further
    message is accepted once per idempotency key, redacted, numbered, given a
    turn and, when the agent owns the conversation, a run, a job and a delivery,
    all in one transaction.

    The operations are those of the application dialect.  [ingress_ids] holds
    the answers of [new_id]; the run, event, job, outbox and delivery ids are in
    its [fresh_ids]. *)
From Stdlib Require Import Ascii.
From S2P Require Import Prelude PyValue Sha256 CanonicalJson Timestamps PyText Regex PiiRedaction.
From S2P Require Import Store EventChain Lifecycle RuntimeJobs Approvals.
Local Open Scope string_scope.
Local Open Scope list_scope.
Local Open Scope Z_scope.

(** ** Accepted commands *)
Record CommandAccepted := mk_command {
  ac_ticket_id : string; ac_run_id : option string; ac_job_id : option string; ac_accepted_at : datetime;
  ac_reused : bool; ac_status : string;
}.
Record ingress_ids := mk_ingress_ids {
  n_idem : string; n_ticket : string; n_message : string; n_turn : string; n_audit : string; n_fresh : fresh_ids;
}.
(** The arguments a command carries; [cm_ticket_id] is used by
    [accept_message] only. *)
Record command := mk_command_request {
  cm_ticket_id : string; cm_customer_id : string; cm_principal_id : string; cm_idempotency_key : string;
  cm_message : string; cm_trace_id : string;
}.
(** [provider_identity or] the identity of deterministic fixtures. *)
Definition _provider_identity (accepted : option (string * string * string)) : string * string * string :=
  default ("deterministic-fake", "fake", "native_fixture") accepted.

Definition opt_str (o : option string) : pyval := match o with Some s => PyStr s | None => PyNone end.
Definition status_url (run_id : option string) : pyval :=
  match run_id with
  | Some r => if is_empty_str r then PyNone else PyStr ("/api/runs/" +:+ r)
  | None => PyNone
  end.
Definition events_url (ticket_id : string) : pyval := PyStr ("/api/tickets/" +:+ ticket_id +:+ "/events/stream").

(** [CommandAccepted.response] *)
Definition response (c : CommandAccepted) : res pydict :=
  let? accepted_at := format_canonical_utc_timestamp (ac_accepted_at c) in
  Ok [("schema_version", PyStr "command-accepted.v1"); ("ticket_id", PyStr (ac_ticket_id c));
      ("run_id", opt_str (ac_run_id c)); ("job_id", opt_str (ac_job_id c)); ("accepted_at", PyStr accepted_at);
      ("status_url", status_url (ac_run_id c)); ("events_url", events_url (ac_ticket_id c));
      ("status", PyStr (ac_status c)); ("reused", PyBool (ac_reused c))].

(** The snapshot stored with the idempotency record. *)
Definition command_snapshot (ticket_id : string) (run_id job_id : option string) (accepted_at status : string) : pydict :=
  [("schema_version", PyStr "command-accepted.v1"); ("ticket_id", PyStr ticket_id); ("run_id", opt_str run_id);
   ("job_id", opt_str job_id); ("accepted_at", PyStr accepted_at); ("status", PyStr status);
   ("status_url", match run_id with Some r => PyStr ("/api/runs/" +:+ r) | None => PyNone end);
   ("events_url", events_url ticket_id); ("reused", PyBool false)].

(** [_redaction_receipt] *)
Definition _redaction_receipt (result : RedactionResult) : pyval :=
  if redaction_count result =? 0 then PyList [] else
  PyList [PyDict [("kind", PyStr "ingress_redaction_receipt"); ("count", PyInt (redaction_count result));
                  ("rule_ids", PyList (map PyStr (applied_rule_ids result)));
                  ("secret_fingerprints", PyList (map PyStr (secret_fingerprints result)))]].

(** [datetime + timedelta(hours=24)] *)
Definition day_later (t : Z) : res Z :=
  let later := t + 24 * 3600 * second in
  raise OverflowError "date value out of range" when negb (in_range later) ;;
  Ok later.

(** [INSERT] into conversation_turns with its unique constraints. *)
Definition insert_turn (s : store) (u : ConversationTurn) : res store :=
  raise IntegrityError when isSome (turns s !! u_id u)
    || exists_where (fun x => (u_ticket_id x ==? u_ticket_id u) && (u_ordinal x =? u_ordinal u)) (turns s)
    || exists_where (fun x => u_customer_message_id x ==? u_customer_message_id u) (turns s)
    || exists_where (fun x => isSome (u_run_id u) && (u_run_id x ==? u_run_id u)) (turns s) ;;
  Ok (put_turn u s).

Section commands.
Context `{PyRuntime} `{UnicodeClasses}.

(** [_accepted_from_record] *)
Definition _accepted_from_record (r : IdempotencyRequest) : res CommandAccepted :=
  let snapshot := i_response_snapshot r in
  let present k := match dget k snapshot with Some v => if truthy v then Some (py_str v) else None | None => None end in
  let? ticket_id := subscript snapshot "ticket_id" in
  let? accepted := subscript snapshot "accepted_at" in
  let? accepted_at := parse_canonical_utc_timestamp accepted in
  Ok (mk_command (py_str ticket_id) (present "run_id") (present "job_id") accepted_at true
        (py_str (default (PyStr "queued") (dget "status" snapshot)))).

(** [_existing]: the replay of a known key, whatever the conversation's state. *)
Definition _existing (s : store) (ev : env) (id tenant_id principal_id route key : string) (payload : pydict)
    : res (option CommandAccepted * store) :=
  match head (select_where (same_command tenant_id principal_id route key) (idempotency s)) with
  | None => Ok (None, s)
  | Some _ =>
      let? accepted := accept s ev id tenant_id principal_id route key payload [] [] None in
      let? c := _accepted_from_record (record accepted.1) in
      Ok (Some c, accepted.2)
  end.

(** ** services/tickets.py *)

(** [TicketService.create] *)
Definition create_ticket (s : store) (ev : env) (customer_id message ticket_id message_id : string)
    : res (SupportTicket * TicketMessage * store) :=
  let! customer := customers s !! customer_id
    else DomainError "ticket_scope_violation" "Customer is out of scope" in
  let ticket := mk_ticket ticket_id (cu_tenant_id customer) customer_id "open" "active" "agent" None 1 0 0 0 None
                  (database_now ev) in
  raise IntegrityError when isSome (tickets s !! ticket_id) ;;
  let message_record := mk_message message_id (t_tenant_id ticket) ticket_id None None None None "customer" None "user"
                          message (PyList []) in
  let ticket := advance_conversation_activity ticket (clock ev) in
  let? s := insert_message (put_ticket ticket s) message_record in
  Ok (ticket, message_record, s).

(** [TicketService.append_message] *)
Definition append_message (s : store) (ev : env) (ticket_id customer_id message message_id : string)
    : res (TicketMessage * store) :=
  let! ticket := tickets s !! ticket_id else DomainError "ticket_not_found" "Ticket was not found" in
  raise DomainError "ticket_scope_violation" "Ticket is out of scope" when t_customer_id ticket !=? customer_id ;;
  raise DomainError "ticket_state_conflict" "Ticket cannot accept a message in its current state"
    when negb (t_status ticket in? ["open"; "needs_clarification"]) ;;
  let message_record := mk_message message_id (t_tenant_id ticket) ticket_id None None None None "customer" None "user"
                          message (PyList []) in
  let ticket := advance_conversation_activity ticket (clock ev) |> set_t_status "running"
                  |> set_t_version (t_version ticket + 1) in
  let? s := insert_message (put_ticket ticket s) message_record in
  Ok (message_record, s).

(** ** Scheduling an accepted turn: run, job, delivery and audit *)
Definition schedule_turn (s : store) (ev : env) (ids : ingress_ids) (identity : string * string * string)
    (q : command) (tenant_id ticket_id route : string) : res (string * string * store) :=
  let '(model, provider_mode, tool_call_mode) := identity in
  let? created := create_run s ev (n_fresh ids) ticket_id (cm_customer_id q) (n_message ids) model provider_mode
                    tool_call_mode CONTEXT_VERSION in
  let '(run_id, s) := created in
  let! run := runs s !! run_id else RuntimeError "run object is not persistent" in
  let s := put_run (run |> set_r_tenant_id tenant_id |> set_r_status "queued" |> set_r_turn_id (Some (n_turn ids))) s in
  let! turn := turns s !! n_turn ids else RuntimeError "turn object is not persistent" in
  let! message_record := messages s !! n_message ids else RuntimeError "message object is not persistent" in
  let s := put_turn (turn |> set_u_run_id (Some run_id) |> set_u_model (Some model)
                          |> set_u_provider_mode (Some provider_mode) |> set_u_tool_call_mode (Some tool_call_mode)
                          |> set_u_context_version (Some CONTEXT_VERSION)) s in
  let s := put_message (set_m_run_id (Some run_id) message_record) s in
  let? j := create s ev (n_fresh ids) tenant_id run_id "agent_start" None (Some ticket_id) in
  let '(job, s) := j in
  let? s := insert_outbox s (new_outbox (f_outbox (n_fresh ids)) (f_delivery (n_fresh ids)) tenant_id (j_id job) run_id 1
                               "runtime_job_available" [("traceparent", PyStr (cm_trace_id q))] (database_now ev)) in
  let? s := insert_audit s (mk_audit (n_audit ids) tenant_id ticket_id (cm_customer_id q) "command_accepted" "customer"
                              (Some (cm_principal_id q)) [("job_id", PyStr (j_id job)); ("route", PyStr route)]
                              (Some (cm_trace_id q)) (Some run_id)) in
  Ok (run_id, j_id job, s).

(** ** services/commands.py *)

(** The part of [accept_new_ticket] behind the idempotency record. *)
Definition open_conversation (s : store) (ev : env) (ids : ingress_ids) (provider : option (string * string * string))
    (q : command) (tenant_id : string) : res (CommandAccepted * store) :=
  let redaction := redact_pii (cm_message q) in
  let message := rd_text redaction in
  let? made := create_ticket s ev (cm_customer_id q) message (n_ticket ids) (n_message ids) in
  let '(ticket, message_record, s) := made in
  let s := put_ticket (ticket |> set_t_tenant_id tenant_id |> set_t_status "queued" |> set_t_lifecycle "active"
                              |> set_t_automation_mode "agent" |> set_t_title (Some (py_take 80 (String.concat " " (words message))))
                              |> set_t_next_message_sequence 1) s in
  let message_record := message_record |> set_m_tenant_id tenant_id |> set_m_source_refs (_redaction_receipt redaction)
                                       |> set_m_message_kind "customer" |> set_m_conversation_sequence (Some 1) in
  let '(model, provider_mode, tool_call_mode) := _provider_identity provider in
  let turn := mk_turn (n_turn ids) tenant_id (n_ticket ids) (n_message ids) None 1 "queued" None "agent" (Some model)
                (Some provider_mode) (Some tool_call_mode) (Some CONTEXT_VERSION) None in
  let? s := insert_turn s turn in
  let s := put_message (set_m_turn_id (Some (n_turn ids)) message_record) s in
  let? r := schedule_turn s ev ids (_provider_identity provider) q tenant_id (n_ticket ids) "POST /api/tickets" in
  let '(run_id, job_id, s) := r in
  Ok (mk_command (n_ticket ids) (Some run_id) (Some job_id) (utc (clock ev)) false "queued", s).

(** [accept_new_ticket] *)
Definition accept_new_ticket (s : store) (ev : env) (ids : ingress_ids) (provider : option (string * string * string))
    (q : command) : res (CommandAccepted * store) :=
  let message := rd_text (redact_pii (cm_message q)) in
  let! customer := customers s !! cm_customer_id q else RuntimeConflict "customer_not_found" in
  let tenant_id := cu_tenant_id customer in
  let run_id := f_run (n_fresh ids) in
  let job_id := f_job (n_fresh ids) in
  let accepted_at := clock ev in
  let? stamp := format_canonical_utc_timestamp (utc accepted_at) in
  let? expires_at := day_later accepted_at in
  let? accepted := accept s ev (n_idem ids) tenant_id (cm_principal_id q) "POST /api/tickets" (cm_idempotency_key q)
                     [("message", PyStr message)]
                     [("ticket_id", PyStr (n_ticket ids)); ("run_id", PyStr run_id); ("job_id", PyStr job_id)]
                     (command_snapshot (n_ticket ids) (Some run_id) (Some job_id) stamp "queued") (Some expires_at) in
  let '(accepted, s) := accepted in
  if reused accepted then let? c := _accepted_from_record (record accepted) in Ok (c, s) else
  open_conversation s ev ids provider q tenant_id.

(** The ticket after a further message: its title once a real question
    follows a greeting, the next number and the activity clock. *)
Definition next_message (ticket : SupportTicket) (message : string) (accepted_at : Z) : SupportTicket :=
  let title := default "" (t_title ticket) in
  let ticket := if is_standalone_greeting title && negb (is_standalone_greeting message)
                then set_t_title (Some (conversation_title message)) ticket else ticket in
  advance_conversation_activity
    (set_t_next_message_sequence (t_next_message_sequence ticket + 1) ticket) accepted_at.

(** The part of [accept_message] behind the idempotency record. *)
Definition enter_message (s : store) (ev : env) (ids : ingress_ids) (provider : option (string * string * string))
    (q : command) (ticket : SupportTicket) : res (CommandAccepted * store) :=
  let redaction := redact_pii (cm_message q) in
  let tenant_id := t_tenant_id ticket in
  let human_queue := t_automation_mode ticket ==? "human_queue" in
  let scheduled := t_automation_mode ticket ==? "agent" in
  let ticket := next_message ticket (rd_text redaction) (clock ev) in
  let message_record := mk_message (n_message ids) tenant_id (t_id ticket) None None None
                          (Some (t_next_message_sequence ticket)) "customer" None "user" (rd_text redaction)
                          (_redaction_receipt redaction) in
  let '(model, provider_mode, tool_call_mode) := _provider_identity provider in
  let turn := mk_turn (n_turn ids) tenant_id (t_id ticket) (n_message ids) None (t_next_message_sequence ticket)
                (if scheduled then "queued" else if human_queue then "completed" else "accepted")
                (if human_queue then Some "human_queue" else None) (t_automation_mode ticket) (Some model)
                (Some provider_mode) (Some tool_call_mode) (Some CONTEXT_VERSION) None in
  let? s := insert_message s message_record in
  let? s := insert_turn s turn in
  let s := put_message (set_m_turn_id (Some (n_turn ids)) message_record) s in
  let ticket := if scheduled then set_t_status "queued" ticket else ticket in
  let s := put_ticket (set_t_version (t_version ticket + 1) ticket) s in
  if scheduled then
    let? r := schedule_turn s ev ids (_provider_identity provider) q tenant_id (t_id ticket)
                ("POST /api/tickets/" +:+ cm_ticket_id q +:+ "/messages") in
    let '(run_id, job_id, s) := r in
    Ok (mk_command (t_id ticket) (Some run_id) (Some job_id) (utc (clock ev)) false "queued", s)
  else
    let? s := insert_audit s (mk_audit (n_audit ids) tenant_id (t_id ticket) (cm_customer_id q)
                                "conversation_message_accepted" "customer" (Some (cm_principal_id q))
                                [("turn_id", PyStr (n_turn ids)); ("automation_mode", PyStr (t_automation_mode ticket))]
                                (Some (cm_trace_id q)) None) in
    Ok (mk_command (t_id ticket) None None (utc (clock ev)) false "accepted", s).

(** [accept_message] *)
Definition accept_message (s : store) (ev : env) (ids : ingress_ids) (provider : option (string * string * string))
    (q : command) : res (CommandAccepted * store) :=
  let message := rd_text (redact_pii (cm_message q)) in
  let! ticket := tickets s !! cm_ticket_id q else RuntimeConflict "ticket_not_found" in
  raise RuntimeConflict "ticket_not_found" when t_customer_id ticket !=? cm_customer_id q ;;
  let route := "POST /api/tickets/" +:+ cm_ticket_id q +:+ "/messages" in
  let scheduled := t_automation_mode ticket ==? "agent" in
  let run_id := if scheduled then Some (f_run (n_fresh ids)) else None in
  let job_id := if scheduled then Some (f_job (n_fresh ids)) else None in
  let? stamp := format_canonical_utc_timestamp (utc (clock ev)) in
  let? expires_at := day_later (clock ev) in
  let? accepted := accept s ev (n_idem ids) (t_tenant_id ticket) (cm_principal_id q) route (cm_idempotency_key q)
                     [("message", PyStr message)]
                     (("ticket_id", PyStr (t_id ticket))
                      :: (if scheduled then [("run_id", PyStr (f_run (n_fresh ids))); ("job_id", PyStr (f_job (n_fresh ids)))] else []))
                     (command_snapshot (t_id ticket) run_id job_id stamp (if scheduled then "queued" else "accepted"))
                     (Some expires_at) in
  let '(accepted, s) := accepted in
  if reused accepted then let? c := _accepted_from_record (record accepted) in Ok (c, s) else
  raise RuntimeConflict "conversation_archived" when t_lifecycle ticket !=? "active" ;;
  enter_message s ev ids provider q ticket.
End commands.

(** ** Frames *)
Section frames.
Context `{PyRuntime} `{UnicodeClasses}.

(** What a conversation is numbered by. *)
Definition ticket_chat (t : SupportTicket) : string * string * string * Z :=
  (t_id t, t_tenant_id t, t_customer_id t, t_next_message_sequence t).
(** Runs, jobs, events and the other ticket columns may differ. *)
Record chat_frame (s s' : store) : Prop := {
  cf_messages : messages s' = messages s;
  cf_turns : turns s' = turns s;
  cf_idempotency : idempotency s' = idempotency s;
  cf_customers : customers s' = customers s;
  cf_tickets : ticket_chat <$> tickets s' = ticket_chat <$> tickets s;
}.
Lemma chat_frame_refl s : chat_frame s s.
Proof. by split. Qed.
Lemma chat_frame_trans s1 s2 s3 : chat_frame s1 s2 -> chat_frame s2 s3 -> chat_frame s1 s3.
Proof. intros [] []. split; congruence. Qed.
Lemma chat_put_ticket s t t' :
  tickets s !! t_id t' = Some t -> ticket_chat t' = ticket_chat t -> chat_frame s (put_ticket t' s).
Proof.
  intros Ht E. split; try done. cbn. rewrite fmap_insert, E. apply insert_id. by rewrite lookup_fmap, Ht.
Qed.
Lemma chat_append (redact : string -> string) s rid args w eid clock e s' :
  keyed s -> append_event redact s rid args w eid clock = Ok (e, s') ->
  chat_frame s s' /\ exists run run', runs s !! rid = Some run /\ runs s' = <[rid := run']> (runs s) /\
    r_id run' = r_id run /\ r_ticket_id run' = r_ticket_id run /\ r_message_id run' = r_message_id run.
Proof.
  intros Hk Ha. pose proof Ha as (run & t & Hr & Ht & _)%append_ok_facts. unfold append_event in Ha.
  rewrite Hr, Ht in Ha. steps_ok Ha. simplify_eq.
  pose proof (keyed_tickets _ Hk _ _ Ht) as Et. pose proof (keyed_runs _ Hk _ _ Hr) as Er. split.
  - split; try done. cbn. rewrite Et, fmap_insert. apply insert_id. by rewrite lookup_fmap, Ht.
  - exists run. cbn. rewrite Er. eexists. split_and!; [done|reflexivity|done..].
Qed.
Lemma create_run_fresh s ev ids tid cid mid m pm tm cv rid s' :
  keyed s -> (forall i r, runs s !! i = Some r -> r_message_id r <> mid) ->
  create_run s ev ids tid cid mid m pm tm cv = Ok (rid, s') ->
  rid = f_run ids /\ runs s !! rid = None /\ chat_frame s s' /\
  exists run, runs s' = <[rid := run]> (runs s) /\ r_ticket_id run = tid /\ r_message_id run = mid /\ r_id run = rid.
Proof.
  intros Hk Hno Hc. unfold create_run in Hc.
  destruct (get_where (messages s) _ _) as [msg|]; [|done]. destruct (get_where (tickets s) _ _) as [t|]; [|done].
  steps_ok Hc. destruct (select_where _ _) as [|r l] eqn:Er.
  2:{ assert (r ∈ select_where (fun r => r_message_id r ==? mid) (runs s)) as Hin by (rewrite Er; left).
      apply select_where_elem in Hin as [[i Hi] E]. rewrite eqb_true in E. by apply Hno in Hi. }
  steps_ok Hc. match goal with a : AgentEvent * store |- _ => destruct a as [e s1] end. simplify_eq/=.
  edestruct (put_run_frame s) as [_ K1]; [done|].
  destruct (chat_append _ _ _ _ _ _ _ _ _ K1 Hstep3) as [F (run & run' & Hrun & Hruns & E1 & E2 & E3)].
  cbn in Hrun. rewrite lookup_insert_eq in Hrun. injection Hrun as <-. cbn in Hruns. rewrite insert_insert_eq in Hruns.
  split_and!; [done|by apply isSome_false|by eapply chat_frame_trans; [|exact F]|]. exists run'. by split_and!.
Qed.
Lemma create_ok s ev ids tn rid kind ap tk job s' :
  keyed s -> create s ev ids tn rid kind ap tk = Ok (job, s') ->
  exists run t, runs s !! rid = Some run /\ tickets s !! r_ticket_id run = Some t /\ t_tenant_id t = tn /\
    job = new_job (f_job ids) tn (r_ticket_id run) rid kind ap (t_next_dispatch_sequence t + 1) (database_now ev) /\
    jobs s !! f_job ids = None /\
    s' = put_job job (put_ticket (set_t_next_dispatch_sequence (t_next_dispatch_sequence t + 1) t) s).
Proof.
  intros Hk Hc. unfold create in Hc. steps_ok Hc.
  destruct (get_where (runs s) _ _) as [run|] eqn:Er; [|done]. steps_ok Hc.
  destruct (get_where (tickets s) _ _) as [t|] eqn:Et; [|done]. steps_ok Hc. injection Hc as <- <-.
  apply get_where_some in Et as [Et Ht], Er as [Er _]. rewrite eqb_true in Ht.
  apply insert_job_ok in Hstep as (-> & Hn & _). exists run, t. by split_and!.
Qed.

(** Everything scheduling does to a conversation. *)
Record scheduling (s s' : store) (ids : ingress_ids) (tenant_id tid rid jid : string) (msg : TicketMessage)
    (turn : ConversationTurn) : Prop := {
  sc_run_id : rid = f_run (n_fresh ids);
  sc_job_id : jid = f_job (n_fresh ids);
  sc_message : messages s !! n_message ids = Some msg;
  sc_turn : turns s !! n_turn ids = Some turn;
  sc_messages : messages s' = <[m_id msg := set_m_run_id (Some rid) msg]> (messages s);
  sc_turns : exists turn', turns s' = <[u_id turn := turn']> (turns s) /\ u_run_id turn' = Some rid /\
    u_id turn' = u_id turn /\ u_ticket_id turn' = u_ticket_id turn /\ u_ordinal turn' = u_ordinal turn /\
    u_activity_state turn' = u_activity_state turn /\ u_customer_message_id turn' = u_customer_message_id turn;
  sc_jobs : exists job, jobs s' = <[jid := job]> (jobs s) /\ jobs s !! jid = None /\ j_status job = "queued" /\
    j_run_id job = rid /\ j_ticket_id job = tid /\ j_kind job = "agent_start";
  sc_runs : runs s !! rid = None /\ exists run, runs s' = <[rid := run]> (runs s) /\ r_message_id run = n_message ids /\
    r_turn_id run = Some (n_turn ids) /\ r_status run = "queued" /\ r_ticket_id run = tid;
  sc_idempotency : idempotency s' = idempotency s;
  sc_customers : customers s' = customers s;
  sc_tickets : ticket_chat <$> tickets s' = ticket_chat <$> tickets s;
  sc_outbox : exists o, insert_outbox s o = Ok (put_outbox o s) /\ outbox s' = outbox (put_outbox o s) /\
    o_job_id o = jid /\ o_run_id o = rid /\ o_tenant_id o = tenant_id /\ o_delivery_generation o = 1 /\ o_published_at o = None /\
    o_superseded_at o = None;
}.

Lemma lanes_grow_refl ls : lanes_grow ls ls.
Proof. intros tid id tn life mode c E. eauto. Qed.
Lemma quiet_step s s' : keyed s -> quiet s s' -> runtime_step s s'.
Proof. intros Hk [Hj _ Hl Hk']. apply rs_other; [done|rewrite Hl; apply lanes_grow_refl|auto]. Qed.
Lemma put_run_quiet s r : quiet s (put_run r s).
Proof. split; [done..|auto with keyed]. Qed.
Lemma put_turn_quiet s r : quiet s (put_turn r s).
Proof. split; [done..|auto with keyed]. Qed.
Lemma put_message_quiet s r : quiet s (put_message r s).
Proof. split; [done..|auto with keyed]. Qed.
Lemma insert_audit_ok s a s' : insert_audit s a = Ok s' -> s' = put_audit a s.
Proof. unfold insert_audit. intros Hi. steps_ok Hi. by injection Hi as <-. Qed.
Lemma insert_message_ok s m s' :
  insert_message s m = Ok s' -> s' = put_message m s /\ messages s !! m_id m = None.
Proof.
  unfold insert_message. intros Hi. steps_ok Hi. injection Hi as <-. split; [done|].
  apply orb_false_iff in Hguard as [[Hg _]%orb_false_iff _]. by apply isSome_false.
Qed.
Lemma insert_turn_ok s u s' : insert_turn s u = Ok s' -> s' = put_turn u s /\ turns s !! u_id u = None.
Proof.
  unfold insert_turn. intros Hi. steps_ok Hi. injection Hi as <-. split; [done|].
  apply orb_false_iff in Hguard as [[[Hg _]%orb_false_iff _]%orb_false_iff _]. by apply isSome_false.
Qed.

Lemma schedule_ok s ev ids identity q tn tid route rid jid s' :
  keyed s -> (forall i r, runs s !! i = Some r -> r_message_id r <> n_message ids) ->
  schedule_turn s ev ids identity q tn tid route = Ok (rid, jid, s') ->
  (exists msg turn, scheduling s s' ids tn tid rid jid msg turn) /\ keyed s' /\ rtc runtime_step s s'.
Proof.
  intros Hk Hno Hs. unfold schedule_turn in Hs. destruct identity as [[model pm] tm].
  apply res_bind_ok in Hs as ([r1 s1] & Hc & Hs).
  destruct (create_run_fresh _ _ _ _ _ _ _ _ _ _ _ _ Hk Hno Hc) as (-> & Hrn & [Fm Ft Fi Fc Fk] & run & Hruns & Er1 & Er2 & Er3).
  destruct (create_run_frame _ _ _ _ _ _ _ _ _ _ _ _ Hk Hc) as [F K1]. clear Hc.
  assert (quiet s s1) as Q1 by (split; [apply F..|done]).
  rewrite Hruns, lookup_insert_eq in Hs. cbn [turns put_run set_runs messages] in Hs. rewrite Ft, Fm in Hs.
  destruct (turns s !! n_turn ids) as [turn|] eqn:Et; [|done].
  destruct (messages s !! n_message ids) as [msg|] eqn:Em; [|done].
  pose proof (keyed_turns _ Hk _ _ Et) as Iu. pose proof (keyed_messages _ Hk _ _ Em) as Im.
  match type of Hs with context [create ?x] => set (s2 := x) in Hs end.
  assert (quiet s1 s2) as Q2.
  { eapply quiet_trans; [apply put_run_quiet|]. eapply quiet_trans; [apply put_turn_quiet|apply put_message_quiet]. }
  pose proof (q_keyed _ _ Q2 K1) as K2.
  apply res_bind_ok in Hs as ([job s3] & Hc & Hs).
  destruct (create_ok _ _ _ _ _ _ _ _ _ _ K2 Hc) as (run2 & t & Hr2 & Ht & Htn & Ej & Hjn & Es3).
  destruct (create_effect _ _ _ _ _ _ _ _ _ _ K2 Hc) as [_ K3].
  assert (r_ticket_id run2 = tid) as Etid.
  { subst s2. cbn in Hr2. rewrite Er3, Hruns, insert_insert_eq, lookup_insert_eq in Hr2. by injection Hr2 as <-. }
  apply res_bind_ok in Hs as (s4 & (-> & Hon & Hoc)%insert_outbox_ok & Hs).
  apply res_bind_ok in Hs as (s5 & ->%insert_audit_ok & Hs). injection Hs as <- <- <-.
  match goal with |- context [keyed ?x] => set (s6 := x) end.
  assert (keyed s6) as K6 by (subst s6; auto with keyed).
  assert (runtime_step s3 s6) as S6 by (apply rs_other; [done|apply lanes_grow_refl|exact K6]).
  split_and!; [|exact K6|].
  - exists msg, turn. subst s6 s3 job. split; try done.
    + cbn. by rewrite Im, Fm.
    + eexists. split_and!; [cbn; by rewrite Iu, Ft|done..].
    + eexists. split_and!; [cbn; by rewrite (q_jobs _ _ Q1)|cbn in Hjn; by rewrite (q_jobs _ _ Q1) in Hjn|done..].
    + split; [done|]. eexists. split_and!; [cbn; by rewrite Er3, Hruns, insert_insert_eq|done..].
    + cbn. rewrite (keyed_tickets _ K2 _ _ Ht), fmap_insert, <- Fk. apply insert_id.
      subst s2. cbn in Ht. by rewrite lookup_fmap, Ht.
    + cbn in Hon, Hoc. rewrite (q_outbox _ _ Q1) in Hon, Hoc.
      match type of Hoc with forall i x, _ -> outbox_clash ?o x = false => exists o end.
      split_and!; [|cbn; by rewrite (q_outbox _ _ Q1)|done..].
      unfold insert_outbox. apply raise_if_false, orb_false_iff. split; [cbn; by rewrite Hon|by apply exists_where_false].
  - eapply rtc_l; [by apply (quiet_step s s2); [|eapply quiet_trans]|].
    eapply rtc_l; [by eapply rs_create|]. by apply rtc_once.
Qed.
End frames.

(** ** Numbered conversations *)

(** The messages of a ticket are numbered without gaps from one to its counter
    and once each, turns below the counter and once each; turns and runs refer to
    stored messages (the foreign keys). *)
Record conversation_ok (s : store) : Prop := {
  co_keyed : keyed s;
  co_messages : forall i m n, messages s !! i = Some m -> m_conversation_sequence m = Some n ->
    exists t, tickets s !! m_ticket_id m = Some t /\ n <= t_next_message_sequence t;
  co_message_unique : forall i k a b n, messages s !! i = Some a -> messages s !! k = Some b ->
    m_ticket_id a = m_ticket_id b -> m_conversation_sequence a = Some n -> m_conversation_sequence b = Some n -> i = k;
  co_no_gap : forall i t n, tickets s !! i = Some t -> 1 <= n <= t_next_message_sequence t ->
    exists k m, messages s !! k = Some m /\ m_ticket_id m = i /\ m_conversation_sequence m = Some n;
  co_turns : forall i u, turns s !! i = Some u ->
    exists t, tickets s !! u_ticket_id u = Some t /\ u_ordinal u <= t_next_message_sequence t;
  co_turn_unique : forall i k a b, turns s !! i = Some a -> turns s !! k = Some b ->
    u_ticket_id a = u_ticket_id b -> u_ordinal a = u_ordinal b -> i = k;
  co_turn_message : forall i u, turns s !! i = Some u -> is_Some (messages s !! u_customer_message_id u);
  co_run_message : forall i r, runs s !! i = Some r -> is_Some (messages s !! r_message_id r);
}.

Section messages.
Context `{PyRuntime} `{UnicodeClasses}.

(** The turn state of a new message under each automation mode. *)
Definition accepted_state (mode : string) : string :=
  if mode ==? "agent" then "queued" else if mode ==? "human_queue" then "completed" else "accepted".

(** The effect of a message on its conversation, [t] being the ticket before. *)
Record message_entered (s s' : store) (ids : ingress_ids) (q : command) (c : CommandAccepted) (t : SupportTicket) : Prop := {
  me_fresh : messages s !! n_message ids = None /\ turns s !! n_turn ids = None;
  me_message : exists m, messages s' = <[n_message ids := m]> (messages s) /\ m_id m = n_message ids /\
    m_content m = rd_text (redact_pii (cm_message q)) /\ m_source_refs m = _redaction_receipt (redact_pii (cm_message q)) /\
    m_ticket_id m = t_id t /\ m_conversation_sequence m = Some (t_next_message_sequence t + 1) /\
    m_turn_id m = Some (n_turn ids) /\ m_run_id m = ac_run_id c /\ m_role m = "user";
  me_turn : exists u, turns s' = <[n_turn ids := u]> (turns s) /\ u_id u = n_turn ids /\ u_ticket_id u = t_id t /\
    u_ordinal u = t_next_message_sequence t + 1 /\ u_customer_message_id u = n_message ids /\ u_run_id u = ac_run_id c /\
    u_activity_state u = accepted_state (t_automation_mode t);
  me_schedule :
    if t_automation_mode t ==? "agent"
    then ac_run_id c = Some (f_run (n_fresh ids)) /\ ac_job_id c = Some (f_job (n_fresh ids)) /\ ac_status c = "queued" /\
         (exists run, runs s' = <[f_run (n_fresh ids) := run]> (runs s) /\ r_message_id run = n_message ids /\
            r_turn_id run = Some (n_turn ids) /\ r_status run = "queued") /\
         (exists job, jobs s' = <[f_job (n_fresh ids) := job]> (jobs s) /\ jobs s !! f_job (n_fresh ids) = None /\
            j_status job = "queued" /\ j_run_id job = f_run (n_fresh ids) /\ j_ticket_id job = t_id t)
    else ac_run_id c = None /\ ac_job_id c = None /\ ac_status c = "accepted" /\ runs s' = runs s /\ jobs s' = jobs s;
  me_tickets : ticket_chat <$> tickets s' =
    <[t_id t := (t_id t, t_tenant_id t, t_customer_id t, t_next_message_sequence t + 1)]> (ticket_chat <$> tickets s);
  me_idempotency : idempotency s' = idempotency s;
  me_reply : ac_ticket_id c = t_id t /\ ac_reused c = false;
}.

Lemma next_message_fields t message now :
  let t' := next_message t message now in
  t_next_message_sequence t' = t_next_message_sequence t + 1 /\ t_id t' = t_id t /\ t_customer_id t' = t_customer_id t /\
  t_automation_mode t' = t_automation_mode t /\ lane_fields t' = lane_fields t /\ t_tenant_id t' = t_tenant_id t.
Proof. unfold next_message, advance_conversation_activity. repeat case_match; split_and!; reflexivity. Qed.

Lemma enter_message_ok s ev ids provider q t c s' :
  keyed s -> (forall i r, runs s !! i = Some r -> is_Some (messages s !! r_message_id r)) ->
  tickets s !! t_id t = Some t -> enter_message s ev ids provider q t = Ok (c, s') ->
  message_entered s s' ids q c t /\ ac_accepted_at c = utc (clock ev) /\ keyed s' /\ rtc runtime_step s s'.
Proof.
  intros Hk Hrm Ht Ha. unfold enter_message in Ha.
  destruct (next_message_fields t (rd_text (redact_pii (cm_message q))) (clock ev)) as (En & Ei & Ec & Em & El & Etn).
  set (t' := next_message t _ _) in *. clearbody t'. destruct (_provider_identity provider) as [[model pm] tm] eqn:Ep.
  apply res_bind_ok in Ha as (s1 & [-> Hmn]%insert_message_ok & Ha). cbn [m_id] in Hmn.
  apply res_bind_ok in Ha as (s2 & [-> Hun]%insert_turn_ok & Ha). cbn [u_id turns put_message set_messages] in Hun.
  match type of Ha with context [put_ticket ?x ?y] => set (s3 := put_ticket x y) in Ha; set (tk := x) in * end.
  assert (ticket_chat tk = (t_id t, t_tenant_id t, t_customer_id t, t_next_message_sequence t + 1)
          /\ t_id tk = t_id t /\ lane_fields tk = lane_fields t) as (Etk & Eit & Elt).
  { subst tk. destruct (t_automation_mode t ==? "agent"); unfold ticket_chat; cbn; rewrite Ei, En, Ec, Etn;
      (split_and!; [done|done|exact El]). }
  clearbody tk.
  assert (quiet s s3) as Q3.
  { eapply quiet_trans; [apply put_message_quiet|]. eapply quiet_trans; [apply put_turn_quiet|].
    eapply quiet_trans; [apply put_message_quiet|]. by eapply quiet_put_ticket; [rewrite Eit; exact Ht|]. }
  pose proof (q_keyed _ _ Q3 Hk) as K3. pose proof (quiet_step _ _ Hk Q3) as S3.
  destruct (t_automation_mode t ==? "agent") eqn:Eg.
  - apply res_bind_ok in Ha as ([[rid jid] s4] & Hs & Ha). injection Ha as <- <-.
    assert (forall i r, runs s3 !! i = Some r -> r_message_id r <> n_message ids) as Hno.
    { intros i r Hr E. destruct (Hrm _ _ Hr) as [m Hm]. congruence. }
    destruct (schedule_ok _ _ _ _ _ _ _ _ _ _ _ K3 Hno Hs)
      as ((msg & turn & [-> -> Sm Su Sms Sts Sj [_ Sr] Si _ Sk]) & K4 & S4).
    subst s3. cbn in Sm, Su. rewrite lookup_insert_eq in Sm. rewrite lookup_insert_eq in Su. injection Sm as <-. injection Su as <-.
    split_and!; [|done|done|by eapply rtc_l].
    split; [done| | | | |exact Si|].
    + eexists. split_and!; [rewrite Sms; cbn; by rewrite !insert_insert_eq|cbn; rewrite ?Ei, ?En; done..].
    + destruct Sts as (u' & Ets & E1 & E2 & E3 & E4 & E5 & E6). exists u'. cbn in *. unfold accepted_state. rewrite Eg.
      rewrite insert_insert_eq in Ets. rewrite Ei in E3. rewrite En in E4. split_and!; congruence.
    + rewrite Eg. destruct Sj as (job & Ej & Ejn & E1 & E2 & E3 & _). destruct Sr as (run & Er & E4 & E5 & E6 & _).
      cbn in E3. rewrite Ei in E3. split_and!; try done; [by exists run|by exists job].
    + rewrite Sk. cbn. by rewrite fmap_insert, Etk, Eit.
    + split; [exact Ei|done].
  - apply res_bind_ok in Ha as (s4 & ->%insert_audit_ok & Ha). injection Ha as <- <-. subst s3.
    split_and!; [|done|auto with keyed|].
    2:{ eapply rtc_l; [exact S3|]. apply rtc_once, quiet_step; [done|]. split; [done..|auto with keyed]. }
    split; [done| | | | |done|split; [exact Ei|done]].
    + eexists. split_and!; [cbn; by rewrite insert_insert_eq|cbn; rewrite ?Ei, ?En; done..].
    + eexists. unfold accepted_state. rewrite Eg. split_and!; [reflexivity|cbn; rewrite ?Ei, ?En; done..].
    + by rewrite Eg.
    + cbn. by rewrite fmap_insert, Etk, Eit.
Qed.

(** A new conversation, seen as the first message of an empty ticket. *)
Definition new_ticket (ids : ingress_ids) (q : command) (tenant_id : string) : SupportTicket :=
  mk_ticket (n_ticket ids) tenant_id (cm_customer_id q) "queued" "active" "agent" None 1 0 0 0 None 0.
Lemma create_ticket_ok s ev cid message tid mid t m s' :
  create_ticket s ev cid message tid mid = Ok (t, m, s') ->
  exists cu, customers s !! cid = Some cu /\ tickets s !! tid = None /\ messages s !! mid = None /\ t_id t = tid /\
    t_customer_id t = cid /\ t_next_dispatch_sequence t = 0 /\ m_id m = mid /\ m_ticket_id m = tid /\ m_content m = message /\
    m_role m = "user" /\ m_run_id m = None /\ s' = put_message m (put_ticket t s).
Proof.
  unfold create_ticket. intros Hc. destruct (customers s !! cid) as [cu|] eqn:Ecu; [|done]. steps_ok Hc.
  apply insert_message_ok in Hstep as [-> Hmn]. injection Hc as <- <- <-. exists cu.
  apply isSome_false in Hguard. split_and!; try done; unfold advance_conversation_activity; case_match; reflexivity.
Qed.
Lemma fresh_ticket_step s s' i t :
  tickets s !! i = None -> jobs s' = jobs s -> tickets s' = <[i := t]> (tickets s) -> keyed s' -> runtime_step s s'.
Proof.
  intros Hn Hj Ht Hk. apply rs_other; [done| |done]. intros tid id tn life mode c E. unfold lanes in *.
  rewrite Ht, fmap_insert, lookup_insert_ne; [eauto|]. intros <-. by rewrite lookup_fmap, Hn in E.
Qed.

Lemma open_conversation_ok s ev ids provider q tn c s' :
  keyed s -> (forall i r, runs s !! i = Some r -> is_Some (messages s !! r_message_id r)) ->
  open_conversation s ev ids provider q tn = Ok (c, s') ->
  tickets s !! n_ticket ids = None /\ message_entered s s' ids q c (new_ticket ids q tn) /\
  ac_accepted_at c = utc (clock ev) /\ keyed s' /\ rtc runtime_step s s'.
Proof.
  intros Hk Hrm Ha. unfold open_conversation in Ha. apply res_bind_ok in Ha as ([[t m] s1] & Hc & Ha).
  apply create_ticket_ok in Hc as (cu & _ & Htn & Hmn & Et & Ec & Ed & Em & Emt & Emc & Emr & Emn & ->).
  destruct (_provider_identity provider) as [[model pm] tm].
  apply res_bind_ok in Ha as (s2 & [-> Hun]%insert_turn_ok & Ha). cbn [u_id turns put_message put_ticket set_messages set_tickets] in Hun.
  match type of Ha with context [schedule_turn ?x] => set (s3 := x) in Ha end.
  assert (keyed s3) as K3 by (unfold s3; auto 12 with keyed).
  assert (exists tk, tickets s3 = <[n_ticket ids := tk]> (tickets s) /\
    ticket_chat tk = (n_ticket ids, tn, cm_customer_id q, 1)) as (tk & Etk & Eck).
  { eexists. split; [unfold s3; cbn; rewrite Et, insert_insert_eq; reflexivity|]. unfold ticket_chat. cbn. by rewrite Et, Ec. }
  assert (runtime_step s s3) as S3 by (by eapply fresh_ticket_step).
  apply res_bind_ok in Ha as ([[rid jid] s4] & Hs & Ha). injection Ha as <- <-.
  assert (forall i r, runs s3 !! i = Some r -> r_message_id r <> n_message ids) as Hno.
  { intros i r Hr E. destruct (Hrm _ _ Hr) as [x Hx]. congruence. }
  destruct (schedule_ok _ _ _ _ _ _ _ _ _ _ _ K3 Hno Hs)
    as ((msg & turn & [-> -> Sm Su Sms Sts Sj [_ Sr] Si _ Sk]) & K4 & S4).
  split_and!; [done| |done|done|by eapply rtc_l].
  subst s3. cbn in Sm, Su. rewrite Em, lookup_insert_eq in Sm. rewrite lookup_insert_eq in Su. injection Sm as <-. injection Su as <-.
  split; [done| | | | |exact Si|done].
  - eexists. split_and!; [rewrite Sms; cbn; rewrite Em, !insert_insert_eq; reflexivity|cbn; rewrite ?Em, ?Emt, ?Emc, ?Emr; done..].
  - destruct Sts as (u' & Ets & E1 & E2 & E3 & E4 & E5 & E6). exists u'. cbn in *.
    rewrite insert_insert_eq in Ets. by split_and!.
  - destruct Sj as (job & Ej & Ejn & E1 & E2 & E3 & _). destruct Sr as (run & Er & E4 & E5 & E6 & _).
    cbn. split_and!; try done; [by exists run|by exists job].
  - rewrite Sk, Etk, fmap_insert, Eck. done.
Qed.

(** *** Preservation *)
Lemma chat_lookup (m m' : gmap string SupportTicket) i t x :
  ticket_chat <$> m' = <[i := x]> (ticket_chat <$> m) -> m !! i = Some t \/ m !! i = None ->
  (m !! i = Some t -> t_next_message_sequence t <= x.2) ->
  forall k a, m !! k = Some a -> exists a', m' !! k = Some a' /\ t_next_message_sequence a <= t_next_message_sequence a'.
Proof.
  intros E Ht Hx k a Ha. pose proof (f_equal (lookup k) E) as Ek. rewrite lookup_fmap in Ek.
  destruct (decide (i = k)) as [->|Hne].
  - rewrite lookup_insert_eq in Ek. destruct (m' !! k) as [a'|]; [|done]. injection Ek as Ek. exists a'. split; [done|].
    assert (a = t) as -> by (destruct Ht; congruence). specialize (Hx Ha). rewrite <- Ek in Hx. exact Hx.
  - rewrite lookup_insert_ne, lookup_fmap, Ha in Ek by done. destruct (m' !! k) as [a'|]; [|done].
    exists a'. split; [done|]. injection Ek as _ _ _ ->. lia.
Qed.

(** Entering a message keeps a store numbered, and its number is above every
    number of the conversation so far. *)
Lemma entered_keeps s s' ids q c t :
  conversation_ok s -> tickets s !! t_id t = Some t \/ tickets s !! t_id t = None ->
  (tickets s !! t_id t = None -> t_next_message_sequence t = 0) -> message_entered s s' ids q c t -> keyed s' ->
  conversation_ok s' /\
  (forall i m n, messages s !! i = Some m -> m_ticket_id m = t_id t -> m_conversation_sequence m = Some n ->
     n < t_next_message_sequence t + 1).
Proof.
  intros [Hk Hm Hmu Hgap Hu Huu Hum Hrm] Ht Hzero [[Fm Fu] (m & Em & _ & _ & _ & Emt & Ems & _) (u & Eu & _ & Eut & Euo & Eum & _) Es Etk _ _] K'.
  pose proof (chat_lookup _ _ _ t _ Etk Ht) as Hgrow. cbn [snd] in Hgrow. specialize (Hgrow ltac:(lia)).
  assert (exists t', tickets s' !! t_id t = Some t' /\ t_next_message_sequence t' = t_next_message_sequence t + 1) as (t' & Et' & En').
  { apply (f_equal (lookup (t_id t))) in Etk. rewrite lookup_insert_eq, lookup_fmap in Etk.
    destruct (tickets s' !! t_id t) as [t'|]; [|done]. injection Etk as _ _ _ E. by exists t'. }
  assert (forall k a n, tickets s !! k = Some a -> k = t_id t -> n <= t_next_message_sequence a -> n < t_next_message_sequence t + 1) as Hlt.
  { intros k a n Ha -> Hn. destruct Ht as [Ht|Ht]; [|congruence]. assert (a = t) as -> by congruence. lia. }
  split; [|intros i x n Hx E1 E2; destruct (Hm _ _ _ Hx E2) as (a & Ha & Hn); by eapply Hlt].
  split; [done| | | | | | |].
  - intros i x n. rewrite Em. intros [[<- <-]|[_ Hx]]%lookup_insert_Some E.
    + rewrite Emt. exists t'. split; [done|]. rewrite Ems in E. injection E as <-. lia.
    + destruct (Hm _ _ _ Hx E) as (a & Ha & Hn). destruct (Hgrow _ _ Ha) as (a' & Ha' & Hn'). exists a'. split; [done|lia].
  - intros i k a b n. rewrite Em. intros [[<- <-]|[_ Ha]]%lookup_insert_Some [[<- <-]|[_ Hb]]%lookup_insert_Some E Ea Eb;
      [done| | |by eapply Hmu]; exfalso; rewrite Ems in *; simplify_eq.
    + destruct (Hm _ _ _ Hb Eb) as (x & Hx & Hn). apply (Hlt _ _ _ Hx) in Hn; [lia|congruence].
    + destruct (Hm _ _ _ Ha Ea) as (x & Hx & Hn). apply (Hlt _ _ _ Hx) in Hn; [lia|congruence].
  - intros i x n Hx Hn. destruct (decide (i = t_id t /\ n = t_next_message_sequence t + 1)) as [[-> ->]|Hold].
    { exists (n_message ids), m. by rewrite Em, lookup_insert_eq. }
    assert (exists a, tickets s !! i = Some a /\ n <= t_next_message_sequence a) as (a & Ha & Hna).
    { destruct (decide (i = t_id t)) as [->|Hne].
      - assert (x = t') as -> by congruence. assert (n <= t_next_message_sequence t) by (destruct (decide (n = t_next_message_sequence t + 1)); [tauto|lia]).
        destruct Ht as [Ht|Ht]; [by exists t|]. specialize (Hzero Ht). lia.
      - apply (f_equal (lookup i)) in Etk. rewrite lookup_insert_ne, !lookup_fmap, Hx in Etk by done.
        destruct (tickets s !! i) as [a|]; [|done]. injection Etk as _ _ _ E. exists a. split; [done|lia]. }
    destruct (Hgap i a n Ha) as (k & y & Hy & Ey); [lia|]. exists k, y. split; [|done].
    rewrite Em, lookup_insert_ne; [done|]. intros <-. congruence.
  - intros i x. rewrite Eu. intros [[<- <-]|[_ Hx]]%lookup_insert_Some.
    + rewrite Eut. exists t'. split; [done|]. lia.
    + destruct (Hu _ _ Hx) as (a & Ha & Hn). destruct (Hgrow _ _ Ha) as (a' & Ha' & Hn'). exists a'. split; [done|lia].
  - intros i k a b. rewrite Eu. intros [[<- <-]|[_ Ha]]%lookup_insert_Some [[<- <-]|[_ Hb]]%lookup_insert_Some E Eo;
      [done| | |by eapply Huu]; exfalso.
    + destruct (Hu _ _ Hb) as (x & Hx & Hn). apply (Hlt _ _ _ Hx) in Hn; [lia|congruence].
    + destruct (Hu _ _ Ha) as (x & Hx & Hn). apply (Hlt _ _ _ Hx) in Hn; [lia|congruence].
  - intros i x. rewrite Eu, Em. intros [[<- <-]|[_ Hx]]%lookup_insert_Some.
    + rewrite Eum, lookup_insert_eq. eauto.
    + destruct (Hum _ _ Hx) as [y Hy]. destruct (decide (n_message ids = u_customer_message_id x)) as [->|];
        [rewrite lookup_insert_eq|rewrite lookup_insert_ne by done]; eauto.
  - intros i x Hx. rewrite Em. destruct (decide (r_message_id x = n_message ids)) as [->|Hne]; [rewrite lookup_insert_eq; eauto|].
    rewrite lookup_insert_ne by done. destruct (t_automation_mode t ==? "agent").
    + destruct Es as (_ & _ & _ & (run & Er & Erm & _) & _). rewrite Er in Hx.
      apply lookup_insert_Some in Hx as [[_ <-]|[_ Hx]]; [congruence|eauto].
    + destruct Es as (_ & _ & _ & Er & _). rewrite Er in Hx. eauto.
Qed.
Lemma conversation_put_idempotency s r : conversation_ok s -> conversation_ok (put_idempotency r s).
Proof. intros [Hk ??????]. split; try done. auto with keyed. Qed.

(** *** The idempotency record of a command *)

(** The record an accepted command leaves behind. *)
Record command_recorded (s s' : store) (tn route : string) (q : command) (c : CommandAccepted) (r : IdempotencyRequest) : Prop := {
  cr_idempotency : idempotency s' = <[i_id r := r]> (idempotency s);
  cr_new : idempotency s !! i_id r = None;
  cr_scope : command_scope r = (tn, cm_principal_id q, route, cm_idempotency_key q);
  cr_hash : canonical_request_hash [("message", PyStr (rd_text (redact_pii (cm_message q))))] = Ok (i_request_hash r);
  cr_snapshot : exists stamp, format_canonical_utc_timestamp (ac_accepted_at c) = Ok stamp /\
    i_response_snapshot r = command_snapshot (ac_ticket_id c) (ac_run_id c) (ac_job_id c) stamp (ac_status c);
}.
Lemma put_idempotency_quiet s r : quiet s (put_idempotency r s).
Proof. split; [done..|auto with keyed]. Qed.
Lemma accepted_from_record_reused r c : _accepted_from_record r = Ok c -> ac_reused c = true.
Proof. unfold _accepted_from_record. intros E. steps_ok E. by injection E as <-. Qed.
Lemma accept_fresh s ev id tn pr rt key payload rids snap exp c s' :
  accept s ev id tn pr rt key payload rids snap exp = Ok (c, s') -> reused c = false ->
  s' = put_idempotency (record c) s /\ idempotency s !! i_id (record c) = None /\
  command_scope (record c) = (tn, pr, rt, key) /\ canonical_request_hash payload = Ok (i_request_hash (record c)) /\
  i_response_snapshot (record c) = snap.
Proof.
  intros Ha Hr. pose proof Ha as (Hsc & Hh & [(Hbad & _)|(_ & Hid & Hn & Hs & _)])%accept_ok; [congruence|].
  split_and!; try done; [congruence|]. unfold accept in Ha. apply res_bind_ok in Ha as (h & _ & Ha).
  destruct (head _) as [e|]; steps_ok Ha; by injection Ha as <- <-.
Qed.

(** A known key is answered from its record; a new one runs [k] on top of it. *)
Lemma accept_split s ev id tn pr rt key payload rids snap exp (k : store -> res (CommandAccepted * store)) c s' :
  (let? accepted := accept s ev id tn pr rt key payload rids snap exp in
   let '(accepted, s) := accepted in
   if reused accepted then let? c := _accepted_from_record (record accepted) in Ok (c, s) else k s) = Ok (c, s') ->
  (ac_reused c = true /\ s' = s) \/
  exists r, k (put_idempotency r s) = Ok (c, s') /\ idempotency s !! i_id r = None /\
    command_scope r = (tn, pr, rt, key) /\ canonical_request_hash payload = Ok (i_request_hash r) /\ i_response_snapshot r = snap.
Proof.
  intros Ha. apply res_bind_ok in Ha as ([a s1] & Hacc & Ha). destruct (reused a) eqn:Er.
  - left. apply res_bind_ok in Ha as (c0 & Hc & Ha). injection Ha as <- <-. split; [by eapply accepted_from_record_reused|].
    apply accept_ok in Hacc as (_ & _ & [(_ & -> & _)|(Hbad & _)]); [done|congruence].
  - right. destruct (accept_fresh _ _ _ _ _ _ _ _ _ _ _ _ _ Hacc Er) as (-> & Hf). by exists (record a).
Qed.
(** The fresh branch, once the conversation was entered. *)
Lemma entered_recorded s s' ids q tn route t c r now stamp :
  message_entered (put_idempotency r s) s' ids q c t -> ac_accepted_at c = now ->
  idempotency s !! i_id r = None -> command_scope r = (tn, cm_principal_id q, route, cm_idempotency_key q) ->
  canonical_request_hash [("message", PyStr (rd_text (redact_pii (cm_message q))))] = Ok (i_request_hash r) ->
  format_canonical_utc_timestamp now = Ok stamp ->
  (let scheduled := t_automation_mode t ==? "agent" in
   i_response_snapshot r = command_snapshot (t_id t) (if scheduled then Some (f_run (n_fresh ids)) else None)
     (if scheduled then Some (f_job (n_fresh ids)) else None) stamp (if scheduled then "queued" else "accepted")) ->
  command_recorded s s' tn route q c r.
Proof.
  intros He Hat Hn Hsc Hh Hst Hsnap. split; [apply (me_idempotency _ _ _ _ _ _ He)|done..|]. exists stamp. rewrite Hat.
  split; [done|]. cbn zeta in Hsnap. rewrite Hsnap. destruct (me_reply _ _ _ _ _ _ He) as [-> _].
  pose proof (me_schedule _ _ _ _ _ _ He) as Hsch.
  destruct (t_automation_mode t ==? "agent"); destruct Hsch as (-> & -> & -> & _); done.
Qed.
Lemma record_then_steps s s' r : keyed s -> rtc runtime_step (put_idempotency r s) s' -> rtc runtime_step s s'.
Proof. intros Hk Hr. eapply rtc_l; [apply quiet_step; [done|apply put_idempotency_quiet]|exact Hr]. Qed.

Lemma accept_message_cases s ev ids provider q c s' :
  conversation_ok s -> accept_message s ev ids provider q = Ok (c, s') ->
  (ac_reused c = true /\ s' = s) \/
  (ac_reused c = false /\ exists t r, tickets s !! cm_ticket_id q = Some t /\ t_id t = cm_ticket_id q /\
     t_customer_id t = cm_customer_id q /\ t_lifecycle t = "active" /\ ac_accepted_at c = utc (clock ev) /\
     message_entered (put_idempotency r s) s' ids q c t /\ keyed s' /\ rtc runtime_step s s' /\
     command_recorded s s' (t_tenant_id t) ("POST /api/tickets/" +:+ cm_ticket_id q +:+ "/messages") q c r).
Proof.
  intros Hok Ha. pose proof (co_keyed _ Hok) as Hk. unfold accept_message in Ha.
  destruct (tickets s !! cm_ticket_id q) as [t|] eqn:Et; [|done]. pose proof (keyed_tickets _ Hk _ _ Et) as Eid.
  apply raise_if_ok in Ha as [Hcust Ha]. rewrite neqb_false in Hcust. apply res_bind_ok in Ha as (stamp & Hst & Ha).
  apply res_bind_ok in Ha as (expires & _ & Ha).
  apply (accept_split _ _ _ _ _ _ _ _ _ _ _
           (fun s => raise RuntimeConflict "conversation_archived" when t_lifecycle t !=? "active" ;;
                     enter_message s ev ids provider q t)) in Ha as [Ha|(r & Ha & Hn & Hsc & Hh & Hsnap)]; [by left|right].
  apply raise_if_ok in Ha as [Hact Ha]. rewrite neqb_false in Hact.
  pose proof (conversation_put_idempotency _ r Hok) as Hok1.
  assert (tickets (put_idempotency r s) !! t_id t = Some t) as Et1 by (cbn; by rewrite Eid).
  destruct (enter_message_ok _ _ _ _ _ _ _ _ (co_keyed _ Hok1) (co_run_message _ Hok1) Et1 Ha) as (He & Hat & K' & Hrt).
  split; [apply (me_reply _ _ _ _ _ _ He)|]. exists t, r. split_and!; try done; [by eapply record_then_steps|].
  by eapply entered_recorded.
Qed.
Lemma accept_new_ticket_cases s ev ids provider q c s' :
  conversation_ok s -> accept_new_ticket s ev ids provider q = Ok (c, s') ->
  (ac_reused c = true /\ s' = s) \/
  (ac_reused c = false /\ exists cu r, customers s !! cm_customer_id q = Some cu /\ tickets s !! n_ticket ids = None /\
     ac_accepted_at c = utc (clock ev) /\
     message_entered (put_idempotency r s) s' ids q c (new_ticket ids q (cu_tenant_id cu)) /\ keyed s' /\ rtc runtime_step s s' /\
     command_recorded s s' (cu_tenant_id cu) "POST /api/tickets" q c r).
Proof.
  intros Hok Ha. pose proof (co_keyed _ Hok) as Hk. unfold accept_new_ticket in Ha.
  destruct (customers s !! cm_customer_id q) as [cu|] eqn:Ecu; [|done].
  apply res_bind_ok in Ha as (stamp & Hst & Ha). apply res_bind_ok in Ha as (expires & _ & Ha).
  apply (accept_split _ _ _ _ _ _ _ _ _ _ _ (fun s => open_conversation s ev ids provider q (cu_tenant_id cu))) in Ha
    as [Ha|(r & Ha & Hn & Hsc & Hh & Hsnap)]; [by left|right].
  pose proof (conversation_put_idempotency _ r Hok) as Hok1.
  destruct (open_conversation_ok _ _ _ _ _ _ _ _ (co_keyed _ Hok1) (co_run_message _ Hok1) Ha) as (Htn & He & Hat & K' & Hrt).
  split; [apply (me_reply _ _ _ _ _ _ He)|]. exists cu, r. split_and!; try done; [by eapply record_then_steps|].
  by eapply entered_recorded.
Qed.

(** ** Theorems *)

(** One accepted command, with any identifiers, clocks and provider. *)
Inductive command_step (s : store) : store -> Prop :=
| cs_ticket ev ids provider q c s' : accept_new_ticket s ev ids provider q = Ok (c, s') -> command_step s s'
| cs_message ev ids provider q c s' : accept_message s ev ids provider q = Ok (c, s') -> command_step s s'.

Lemma entered_grows s s' ids q c t :
  message_entered s s' ids q c t -> messages s ⊆ messages s' /\ turns s ⊆ turns s'.
Proof.
  intros He. destruct (me_fresh _ _ _ _ _ _ He) as [Fm Fu]. destruct (me_message _ _ _ _ _ _ He) as (m & -> & _).
  destruct (me_turn _ _ _ _ _ _ He) as (u & -> & _). split; by apply insert_subseteq.
Qed.
Lemma command_step_keeps s s' :
  conversation_ok s -> command_step s s' ->
  conversation_ok s' /\ rtc runtime_step s s' /\ messages s ⊆ messages s' /\ turns s ⊆ turns s'.
Proof.
  intros Hok [ev ids provider q c s1 Ha|ev ids provider q c s1 Ha].
  - apply accept_new_ticket_cases in Ha as [[_ ->]|(_ & cu & r & _ & Htn & _ & He & K & Hr & _)]; [by split_and!|..|done].
    assert (tickets (put_idempotency r s) !! t_id (new_ticket ids q (cu_tenant_id cu)) = None) as Hnew by exact Htn.
    destruct (entered_keeps _ _ _ _ _ _ (conversation_put_idempotency _ r Hok) (or_intror Hnew) (fun _ => eq_refl) He K) as [Hok' _].
    by apply entered_grows in He as [??].
  - apply accept_message_cases in Ha as [[_ ->]|(_ & t & r & Ht & Eid & _ & _ & _ & He & K & Hr & _)]; [by split_and!|..|done].
    rewrite <- Eid in Ht. assert (tickets (put_idempotency r s) !! t_id t = Some t) as Hold by exact Ht.
    destruct (entered_keeps _ _ _ _ _ _ (conversation_put_idempotency _ r Hok) (or_introl Hold) ltac:(congruence) He K) as [Hok' _].
    by apply entered_grows in He as [??].
Qed.

(** C21: any sequence of accepted commands, new tickets and further messages
    with arbitrary identifiers and clocks, keeps every conversation numbered:
    the messages of a ticket carry the numbers from one to its counter, each
    exactly once, turns carry each number at most once, the history so far is kept unchanged, and the dispatch
    discipline of the job lanes still holds, since each command is a sequence
    of runtime steps. *)
Theorem commands_keep_conversations (s s' : store) :
  conversation_ok s -> lane_ok s -> rtc command_step s s' ->
  conversation_ok s' /\ lane_ok s' /\ messages s ⊆ messages s' /\ turns s ⊆ turns s'.
Proof.
  intros Hok Hl Hr. induction Hr as [|x y z Hs _ IH]; [by split_and!|].
  destruct (command_step_keeps _ _ Hok Hs) as (Hok' & Hrt & Hm & Hu).
  destruct (IH Hok' (steps_lane _ _ Hl Hrt)) as (? & ? & ? & ?). split_and!; [done|done|by etrans|by etrans].
Qed.

(** A message accepted for the first time belongs to the caller's active
    conversation.  It is stored redacted, with its redaction receipt, under the
    next number of the ticket, above all numbers given out before; one turn
    carries the same number; and exactly when the agent owns the conversation
    one run and one queued job are created for it, the ones the reply names. *)
Theorem accept_message_effect (s s' : store) ev ids provider q c :
  conversation_ok s -> accept_message s ev ids provider q = Ok (c, s') -> ac_reused c = false ->
  exists t r, tickets s !! cm_ticket_id q = Some t /\ t_customer_id t = cm_customer_id q /\ t_lifecycle t = "active" /\
    message_entered (put_idempotency r s) s' ids q c t /\
    (forall i m n, messages s !! i = Some m -> m_ticket_id m = cm_ticket_id q -> m_conversation_sequence m = Some n ->
       n < t_next_message_sequence t + 1).
Proof.
  intros Hok Ha Hr. apply accept_message_cases in Ha as [[Hbad _]|(_ & t & r & Ht & Eid & Hc & Hl & _ & He & K & _)];
    [congruence| |done].
  exists t, r. split_and!; [done..|]. rewrite <- Eid in Ht |- *.
  assert (tickets (put_idempotency r s) !! t_id t = Some t) as Hold by exact Ht.
  apply (entered_keeps _ _ _ _ _ _ (conversation_put_idempotency _ r Hok) (or_introl Hold) ltac:(congruence) He K).
Qed.

(** The reply to a repeated command. *)
Definition again (c : CommandAccepted) : CommandAccepted :=
  mk_command (ac_ticket_id c) (ac_run_id c) (ac_job_id c) (ac_accepted_at c) true (ac_status c).

Lemma replay_from_record s s' tn route q c r now :
  command_recorded s s' tn route q c r -> ac_accepted_at c = utc now -> in_range now = true ->
  ac_run_id c <> Some "" -> ac_job_id c <> Some "" -> _accepted_from_record r = Ok (again c).
Proof.
  intros [_ _ _ _ (stamp & Hst & Hsnap)] Hat Hin Hrun Hjob. unfold _accepted_from_record. rewrite Hsnap, Hat in *.
  assert (instant (utc now) = now) as Ei by (unfold utc, instant; simpl; lia).
  destruct (format_parse_roundtrip (utc now)) as (stamp' & Hst' & Hp); [done|by rewrite Ei|].
  rewrite Hst in Hst'. injection Hst' as <-. rewrite Ei in Hp.
  set (snap := command_snapshot _ _ _ _ _).
  change (subscript snap "ticket_id") with (@Ok pyval (PyStr (ac_ticket_id c))).
  change (subscript snap "accepted_at") with (@Ok pyval (PyStr stamp)).
  change (dget "run_id" snap) with (Some (opt_str (ac_run_id c))).
  change (dget "job_id" snap) with (Some (opt_str (ac_job_id c))).
  change (dget "status" snap) with (Some (PyStr (ac_status c))).
  cbn [res_bind]. rewrite Hp. cbn [res_bind default py_str]. unfold again. rewrite Hat. f_equal.
  assert (forall o, o <> Some "" -> (if truthy (opt_str o) then Some (py_str (opt_str o)) else None) = o) as Ho.
  { intros [[|a x]|] Ho; [done|done|done]. }
  by rewrite !Ho.
Qed.

(** A command is answered once and for all.  When a message was accepted
    under a key, the same request repeated later, in any store that still holds
    the idempotency record and the customer's ticket, whatever became of the
    conversation, its automation mode or its archive state, gets the first
    answer again, marked as reused, and changes nothing. *)
Theorem accept_message_replay (s s1 s2 : store) ev ids provider q c t2 ev' ids' provider' :
  conversation_ok s -> accept_message s ev ids provider q = Ok (c, s1) -> ac_reused c = false ->
  in_range (clock ev) = true -> f_run (n_fresh ids) <> "" -> f_job (n_fresh ids) <> "" ->
  commands_unique s2 -> idempotency s1 ⊆ idempotency s2 ->
  tickets s2 !! cm_ticket_id q = Some t2 -> t_customer_id t2 = cm_customer_id q ->
  t_tenant_id <$> tickets s !! cm_ticket_id q = Some (t_tenant_id t2) ->
  in_range (clock ev') = true -> in_range (clock ev' + 24 * 3600 * second) = true ->
  accept_message s2 ev' ids' provider' q = Ok (again c, s2).
Proof.
  intros Hok Ha Hf Hin Hrun Hjob Hu Hsub Ht2 Hc2 Htn Hin1 Hin2.
  apply accept_message_cases in Ha as [[Hbad _]|(_ & t & r & Ht & Eid & Hc & _ & Hat & He & _ & _ & Hrec)]; [congruence| |done].
  assert (_accepted_from_record r = Ok (again c)) as Hrep.
  { eapply replay_from_record; [exact Hrec|exact Hat|done|..];
      pose proof (me_schedule _ _ _ _ _ _ He) as Hsch; destruct (t_automation_mode t ==? "agent");
      destruct Hsch as (E1 & E2 & _); congruence. }
  destruct Hrec as [Hid Hnew Hsc Hh _]. rewrite Ht in Htn. injection Htn as Etn. rewrite Etn in Hsc.
  assert (idempotency s2 !! i_id r = Some r) as Hr2.
  { eapply lookup_weaken; [|exact Hsub]. rewrite Hid. apply lookup_insert_eq. }
  unfold accept_message. rewrite Ht2. rewrite raise_if_false by by rewrite neqb_false.
  unfold format_canonical_utc_timestamp. change (is_naive (utc (clock ev'))) with false.
  assert (instant (utc (clock ev')) = clock ev') as -> by (unfold utc, instant; simpl; lia).
  rewrite Hin1. cbn [negb raise_if res_bind]. unfold day_later. rewrite Hin2. cbn [negb raise_if res_bind].
  unfold accept at 1. rewrite Hh. cbn [res_bind]. rewrite (find_command _ _ _ _ _ _ _ Hu Hr2 Hsc).
  rewrite raise_if_false by (unfold neqb; by rewrite eqb_refl). cbn [res_bind reused record]. by rewrite Hrep.
Qed.
End messages.

(** ** A concrete conversation *)
Definition demo_customer : Customer := mk_customer "c1" "t1".
Definition desk : store := set_customers {[ "c1" := demo_customer ]} empty_store.
Definition desk_env (now : Z) : env :=
  mk_env now now None (fun s => s)
    (fun _ _ _ _ => [("prompt_version", PyStr "p1"); ("schema_version", PyStr "s1");
                      ("runtime_manifest_hash", PyStr "h"); ("code_commit", PyStr "c")]).
Definition first_ids : ingress_ids := mk_ingress_ids "I1" "T1" "M1" "U1" "A1" (mk_ids "R1" "E1" "J1" "O1" "D1" "").
Definition second_ids : ingress_ids := mk_ingress_ids "I2" "" "M2" "U2" "A2" (mk_ids "R2" "E2" "J2" "O2" "D2" "").
Definition greeting : command := mk_command_request "" "c1" "p1" "k1" "hello" "trace".
Definition question : command := mk_command_request "T1" "c1" "p1" "k2" "card 4111111111111111 charged twice" "trace".
Definition opened : store := got (@accept_new_ticket ascii_runtime ascii_unicode desk (desk_env 1784073600000000) first_ids None greeting) desk.
Definition asked : store := got (@accept_message ascii_runtime ascii_unicode opened (desk_env 1784073660000000) second_ids None question) opened.
Definition asked_reply : CommandAccepted :=
  mk_command "T1" (Some "R2") (Some "J2") (utc 1784073660000000) false "queued".

Lemma desk_numbered : conversation_ok desk.
Proof.
  split; try (cbn; intros *; rewrite lookup_empty; done).
  split; cbn; intros *; rewrite lookup_empty; done.
Qed.
Lemma desk_lanes : lane_ok desk.
Proof. split; [apply desk_numbered|]. split; simpl; intros *; by rewrite ?lookup_empty. Qed.
Lemma opened_run :
  @accept_new_ticket ascii_runtime ascii_unicode desk (desk_env 1784073600000000) first_ids None greeting
  = Ok (mk_command "T1" (Some "R1") (Some "J1") (utc 1784073600000000) false "queued", opened).
Proof. vm_compute. reflexivity. Qed.
Lemma asked_run :
  @accept_message ascii_runtime ascii_unicode opened (desk_env 1784073660000000) second_ids None question = Ok (asked_reply, asked).
Proof. vm_compute. reflexivity. Qed.
Lemma opened_numbered : conversation_ok opened.
Proof.
  apply (@command_step_keeps ascii_runtime ascii_unicode desk); [apply desk_numbered|].
  eapply cs_ticket. exact opened_run.
Qed.
Example asked_content :
  (fun m => (m_content m, m_conversation_sequence m, m_run_id m)) <$> messages asked !! "M2"
  = Some ("card [REDACTED_PAYMENT_NUMBER] charged twice", Some 2, Some "R2")
  /\ t_title <$> tickets asked !! "T1" = Some (Some "card [REDACTED_PAYMENT_NUMBER] charged twice").
Proof. split; vm_compute; reflexivity. Qed.

Lemma commands_keep_conversations_witness :
  rtc (@command_step ascii_runtime ascii_unicode) desk asked /\ conversation_ok asked /\ lane_ok asked.
Proof.
  assert (rtc (@command_step ascii_runtime ascii_unicode) desk asked) as Hr.
  { eapply rtc_l; [eapply cs_ticket; exact opened_run|]. eapply rtc_once, cs_message. exact asked_run. }
  split; [exact Hr|].
  destruct (@commands_keep_conversations ascii_runtime ascii_unicode desk asked desk_numbered desk_lanes Hr) as (H1 & H2 & _).
  split; [exact H1|exact H2].
Defined.
Lemma accept_message_effect_witness :
  @accept_message ascii_runtime ascii_unicode opened (desk_env 1784073660000000) second_ids None question = Ok (asked_reply, asked) /\
  exists t, tickets opened !! "T1" = Some t /\ t_lifecycle t = "active".
Proof.
  split; [exact asked_run|].
  destruct (@accept_message_effect ascii_runtime ascii_unicode opened asked (desk_env 1784073660000000) second_ids None question
              asked_reply opened_numbered asked_run eq_refl) as (t & r & Ht & _ & Hl & _).
  exists t. split; [exact Ht|exact Hl].
Defined.
Lemma commands_unique_by_list s :
  NoDup (map (fun x => command_scope x.2) (map_to_list (idempotency s))) -> commands_unique s.
Proof.
  intros Hnd i k a b Ha Hb E. apply elem_of_map_to_list in Ha, Hb.
  apply list_elem_of_lookup in Ha as [x Hx], Hb as [y Hy].
  assert (x = y) as ->; [|congruence]. eapply (NoDup_lookup _ x y (command_scope a)); [exact Hnd|..].
  - apply (list_lookup_fmap_Some_2 (fun x => command_scope x.2) _ x (i, a) Hx).
  - rewrite E. apply (list_lookup_fmap_Some_2 (fun x => command_scope x.2) _ y (k, b) Hy).
Qed.
Lemma accept_message_replay_witness :
  @accept_message ascii_runtime ascii_unicode asked (desk_env 1784073900000000)
    (mk_ingress_ids "I9" "" "M9" "U9" "A9" (mk_ids "R9" "E9" "J9" "O9" "D9" "")) None question
  = Ok (again asked_reply, asked).
Proof.
  assert (commands_unique asked) as Hu.
  { apply commands_unique_by_list, (bool_decide_unpack _). vm_compute. exact I. }
  destruct (tickets asked !! "T1") as [t2|] eqn:Et2; [|exfalso; vm_compute in Et2; discriminate].
  apply (@accept_message_replay ascii_runtime ascii_unicode opened asked asked (desk_env 1784073660000000) second_ids None question
           asked_reply t2 (desk_env 1784073900000000) _ None opened_numbered asked_run eq_refl eq_refl);
    [discriminate|discriminate|exact Hu|reflexivity|exact Et2|..]; vm_compute in Et2; injection Et2 as <-; reflexivity.
Defined.
