(* ===== verification/Effects.v ===== *)
(** * Business effects (services/actions.py)

    [RuntimeActionExecutor]: the only code that changes a business resource.
    Under a job's fence it re-reads the approval, the human decision and the
    selected revision, replays an effect that already exists, checks the scope
    of the approver and the observations the proposal was built on, and then
    refunds a charge, revokes a key or changes an entitlement, binding the new
    [BusinessAction] to the decision and to the ticket's event chain.

    The operations are those of the application dialect, the synchronous legacy
    refund included; on PostgreSQL one SECURITY DEFINER function does the same. *)
From Stdlib Require Import Ascii.
From S2P Require Import Prelude PyValue Sha256 CanonicalJson Timestamps Decimals RefundPolicy ActionSpecs Store.
From S2P Require Import EventChain Lifecycle RuntimeJobs Approvals.
Local Open Scope string_scope.
Local Open Scope list_scope.
Local Open Scope Z_scope.

Record ActionResult := mk_result {
  ar_business_action_id : option string; ar_action_type : string; ar_resource_id : string; ar_reused : bool;
  ar_status : string; ar_reason : option string;
}.
Definition succeeded (id action_type resource_id : string) (reused : bool) : ActionResult :=
  mk_result (Some id) action_type resource_id reused "succeeded" None.

(** ** Rows *)
Definition insert_action (s : store) (a : BusinessAction) : res store :=
  raise IntegrityError when isSome (actions s !! b_id a)
    || exists_where (fun b => (b_action_type b ==? b_action_type a) && (b_idempotency_key b ==? b_idempotency_key a)) (actions s)
    || exists_where (fun b => (b_tenant_id b ==? b_tenant_id a) && (b_action_type b ==? b_action_type a)
                              && (b_resource_id b ==? b_resource_id a) && (b_resource_version b =? b_resource_version a)) (actions s)
    || exists_where (fun b => (b_tenant_id b ==? b_tenant_id a) && (b_effect_identity b ==? b_effect_identity a)) (actions s) ;;
  Ok (put_action a s).
Definition refund_billing (r : BillingRecord) : BillingRecord :=
  mk_charge (billing_record_id r) (tenant_id r) (customer_id r) (amount r) (currency r) "refunded" (charged_at r)
    (service_period_start r) (service_period_end r) (version r + 1) (duplicate_of r).

(** ** Bindings *)
Section bindings.
Context `{PyRuntime}.

(** [action_resource_id] *)
Definition action_resource_id (action_type : string) (payload : pydict) : res string :=
  let missing := RuntimeConflict "approval_resource_missing" in
  let! spec := get_action_spec_or_none action_type else missing in
  let? field := resource_field spec in
  raise missing when negb (truthy payload.[field]) ;;
  Ok (py_str payload.[field]).

(** [_resource_id] *)
Definition _resource_id (approval : ApprovalRequest) (revision : ApprovalActionRevision) : res string :=
  let missing := RuntimeConflict "approval_resource_missing" in
  let! spec := get_action_spec_or_none (a_action_type approval) else missing in
  let? field := resource_field spec in
  raise missing when (a_resource_type approval !=? field) || is_empty_str (a_resource_id approval)
                     || (v_resource_version revision !=? a_business_version approval) ;;
  Ok (a_resource_id approval).

Definition _effect_identity (approval : ApprovalRequest) (revision : option ApprovalActionRevision) (resource_id : string)
    : res string :=
  canonical_hash [("tenant_id", PyStr (a_tenant_id approval)); ("action_type", PyStr (a_action_type approval));
                  ("resource_id", PyStr resource_id);
                  ("resource_version", PyInt (match revision with
                                              | Some v => v_resource_version v
                                              | None => a_business_version approval
                                              end))].

(** The three-table join that finds an observation in the ledger. *)
Definition ledger_row (s : store) (approval : ApprovalRequest) (item : pydict) (o : ToolObservation) : bool :=
  let same v k := py_eq (PyStr v) item.[k] in
  same (ob_id o) "observation_id" && same (ob_invocation_id o) "invocation_id"
  && same (ob_content_hash o) "observation_content_hash" && (ob_tenant_id o ==? a_tenant_id approval)
  && (Some (ob_run_id o) ==? a_run_id approval) && (ob_status o ==? "ok")
  && match invocations s !! ob_invocation_id o with
     | Some i =>
         same (iv_tool_name i) "tool_name" && (iv_lifecycle i ==? "terminal") && (iv_outcome i ==? Some "succeeded")
         && match turn_groups s !! iv_turn_group_id i with
            | Some g => same (tg_id g) "turn_group_id" && (tg_status g ==? "closed")
            | None => false
            end
     | None => false
     end.

(** [int(item.get(key, -1))] *)
Definition int_or_minus_one (d : pydict) (k : string) : res Z := py_int (dget_or k (PyInt (-1)) d).
(** [dict(value)] of a JSON object. *)
Definition py_dict_of (v : pyval) : res pydict :=
  match v with
  | PyDict d => Ok d
  | PyList [] | PyTuple [] | PyStr "" => Ok []
  | _ => Err (TypeError "dict() argument")
  end.

(** The business observation of a proposal, and its policy evidence. *)
Definition is_business (tool resource : string) (version : Z) (item : pydict) : res bool :=
  if py_eq item.["tool_name"] (PyStr tool) && py_eq item.["status"] (PyStr "ok")
     && py_eq item.["resource_id"] (PyStr resource)
  then let? n := int_or_minus_one item "resource_version" in Ok (n =? version)
  else Ok false.
Definition is_policy (item : pydict) : bool :=
  py_eq item.["tool_name"] (PyStr "search_knowledge") && py_eq item.["status"] (PyStr "ok") && truthy item.["source_refs"].

Definition check_observation (s : store) (approval : ApprovalRequest) (tool field resource : string) (version : Z)
    (item : pydict) : res unit :=
  let! row := head (select_where (ledger_row s approval item) (observations s))
    else RuntimeConflict "proposal_observation_ledger_conflict" in
  if py_eq item.["tool_name"] (PyStr tool) then
    let? data := py_dict_of (dget_or "data" (PyDict []) (ob_payload row)) in
    raise RuntimeConflict "proposal_business_observation_conflict" when py_str (dget_or field (PyStr "") data) !=? resource ;;
    let? n := int_or_minus_one data "version" in
    raise RuntimeConflict "proposal_business_observation_conflict" when n !=? version ;;
    Ok tt
  else
    raise RuntimeConflict "proposal_policy_evidence_conflict" when negb (truthy (ob_payload row).["source_refs"]) ;;
    Ok tt.

(** [validate_execution_binding] *)
Definition validate_execution_binding (s : store) (approval : ApprovalRequest) (revision : ApprovalActionRevision)
    : res ProposalRecord :=
  let unbound := RuntimeConflict "proposal_snapshot_binding_conflict" in
  let! proposal := proposals s !! default "" (a_proposal_id approval) else unbound in
  raise unbound when
    (p_tenant_id proposal !=? a_tenant_id approval) || (Some (p_run_id proposal) !=? a_run_id approval)
    || (p_action_type proposal !=? a_action_type approval)
    || (p_resource_version proposal !=? v_resource_version revision) ;;
  let? _ :=
    if v_revision_number revision =? 0 then
      raise unbound when negb (py_eq (PyDict (v_action_payload revision)) (PyDict (p_action_payload proposal)))
                         || (v_action_hash revision !=? p_action_hash proposal) ;;
      Ok tt
    else
      let altered := RuntimeConflict "proposal_revision_binding_conflict" in
      raise altered when (v_revision_number revision !=? 1)
        || negb (revision_matches_approval_edit (a_action_type approval) (p_action_payload proposal)
                   (v_action_payload revision)) ;;
      let? h := action_hash (v_action_payload revision) in
      raise altered when h !=? v_action_hash revision ;;
      Ok tt in
  let! spec := get_action_spec_or_none (a_action_type approval) else RuntimeConflict "unsupported_runtime_action" in
  let? expected_tool := primary_read_capability spec in
  let? field := resource_field spec in
  let expected_resource := py_str (dget_or field (PyStr "") (v_action_payload revision)) in
  let? business := filter_res (is_business expected_tool expected_resource (v_resource_version revision))
                     (p_observation_binding proposal) in
  let policy := List.filter is_policy (p_observation_binding proposal) in
  match business, last policy with
  | [b], Some p =>
      let check := check_observation s approval expected_tool field expected_resource (v_resource_version revision) in
      let? _ := check b in
      let? _ := check p in
      Ok proposal
  | _, _ => Err (RuntimeConflict "proposal_observation_binding_conflict")
  end.
End bindings.

(** ** Effects *)
Section effects.
Context `{PyRuntime}.

(** [_action]: the new row, not yet bound to the decision. *)
Definition _action (id : string) (approval : ApprovalRequest) (revision : ApprovalActionRevision) (resource_id : string)
    (result : pydict) : res BusinessAction :=
  let? effect_identity := _effect_identity approval (Some revision) resource_id in
  Ok (mk_action id (a_tenant_id approval) (a_ticket_id approval) (a_customer_id approval) (a_action_type approval)
        resource_id (v_resource_version revision) (v_action_hash revision) (a_id approval) None (Some (v_id revision))
        None effect_identity None None "succeeded"
        (if a_action_type approval ==? "refund" then a_idempotency_key approval
         else "effect:" +:+ a_tenant_id approval +:+ ":" +:+ a_action_type approval +:+ ":" +:+ resource_id +:+ ":"
              +:+ str_of_Z (v_resource_version revision))
        (dmerge [("approval_id", PyStr (a_id approval))] result)).

Definition reconciliation_event (s : store) (ev : env) (ids : command_ids) (approval : ApprovalRequest) (run_id reason : string)
    (decision : HumanDecision) : res (AgentEvent * store) :=
  catch is_head_conflict (RuntimeConflict "action_expected_head_conflict")
    (append_event (redact ev) s run_id
       (mk_args "runtime_action_reconciliation"
          (PyDict [("approval_id", PyStr (a_id approval)); ("status", PyStr "stale"); ("reason", PyStr reason)])
          "approver" "completed" None None None None (Some (hd_canonical_event_id decision)) None
          (Some (hd_canonical_event_hash decision)))
       (worker ev) (g_event ids) (utc (clock ev))).

Definition decision_of (s : store) (approval_id : string) : option HumanDecision :=
  head (select_where (fun h => hd_approval_id h ==? approval_id) (decisions s)).

(** [_mark_stale] *)
Definition _mark_stale (s : store) (ev : env) (ids : command_ids) (approval : ApprovalRequest) (resource_id reason : string)
    : res (ActionResult * store) :=
  let? moved := transition s approval "stale" (a_status approval) (Some (a_status_version approval)) None in
  let '(_, approval, s) := moved in
  let s := if truthy_opt (a_proposal_id approval) then
             match proposals s !! default "" (a_proposal_id approval) with
             | Some proposal => put_proposal (stale_proposal proposal) s
             | None => s
             end
           else s in
  let? s :=
    match runs s !! default "" (a_run_id approval) with
    | None => Ok s
    | Some run =>
        let unbound := RuntimeConflict "action_decision_event_binding_missing" in
        let! decision := decision_of s (a_id approval) else unbound in
        raise unbound when negb (truthy_opt (hd_canonical_event_id decision))
                           || negb (truthy_opt (hd_canonical_event_hash decision)) ;;
        let? e := reconciliation_event s ev ids approval (r_id run) reason decision in
        Ok e.2
    end in
  Ok (mk_result None (a_action_type approval) resource_id false "stale" (Some reason), s).

(** [_bind_stale_event] *)
Definition _bind_stale_event (s : store) (ev : env) (ids : command_ids) (approval : ApprovalRequest)
    (decision : HumanDecision) (reason : string) : res store :=
  raise RuntimeConflict "action_decision_event_binding_missing" when
    negb (truthy_opt (hd_canonical_event_id decision)) || negb (truthy_opt (hd_canonical_event_hash decision))
    || (a_status approval !=? "stale") ;;
  let! run := runs s !! default "" (a_run_id approval) else RuntimeConflict "action_run_missing" in
  let? e := reconciliation_event s ev ids approval (r_id run) reason decision in
  Ok e.2.

(** [_bind_action_event] *)
Definition _bind_action_event (s : store) (ev : env) (ids : command_ids) (approval : ApprovalRequest)
    (decision : HumanDecision) (action : BusinessAction) : res store :=
  raise RuntimeConflict "decision_hash_missing" when negb (truthy_opt (hd_decision_hash decision)) ;;
  let! run := runs s !! default "" (a_run_id approval) else RuntimeConflict "action_run_missing" in
  let action := action |> set_b_human_decision_id (Some (hd_id decision)) |> set_b_decision_hash (hd_decision_hash decision) in
  let? e := catch is_head_conflict (RuntimeConflict "action_expected_head_conflict")
    (append_event (redact ev) s (r_id run)
       (mk_args "runtime_action_committed"
          (PyDict [("approval_id", PyStr (a_id approval)); ("human_decision_id", PyStr (hd_id decision));
                   ("decision_hash", opt_pystr (hd_decision_hash decision)); ("business_action_id", PyStr (b_id action));
                   ("effect_identity", PyStr (b_effect_identity action)); ("action_hash", PyStr (b_action_hash action))])
          "approver" "completed" None None None None (Some (hd_canonical_event_id decision)) None
          (Some (hd_canonical_event_hash decision)))
       (worker ev) (g_event ids) (utc (clock ev))) in
  Ok (put_action (action |> set_b_canonical_event_id (Some (e_id e.1)) |> set_b_canonical_event_hash (Some (e_event_hash e.1)))
        e.2).

(** The pending refunds of the same charge become stale, one transition each. *)
Definition competing_refund (approval : ApprovalRequest) (billing_id : string) (a : ApprovalRequest) : bool :=
  (a_id a !=? a_id approval) && (a_tenant_id a ==? a_tenant_id approval) && (a_customer_id a ==? a_customer_id approval)
  && (a_status a ==? "pending") && (a_action_type a ==? "refund")
  && py_eq (a_action_payload a).["billing_record_id"] (PyStr billing_id).
Fixpoint stale_all (s : store) (siblings : list ApprovalRequest) : res store :=
  match siblings with
  | [] => Ok s
  | sibling :: siblings =>
      let? moved := transition s sibling "stale" "pending" (Some (a_status_version sibling)) None in
      stale_all moved.2 siblings
  end.
Definition _stale_competing_refund_approvals (s : store) (approval : ApprovalRequest) (billing_id : string) : res store :=
  stale_all s (select_where (competing_refund approval billing_id) (approvals s)).

Definition refund_audit (ids : command_ids) (approval : ApprovalRequest) (action_id trace_id : string) : AuditEvent :=
  mk_audit (g_audit ids) (a_tenant_id approval) (a_ticket_id approval) (a_customer_id approval) "refund_executed"
    "runtime" None [("approval_id", PyStr (a_id approval)); ("business_action_id", PyStr action_id)]
    (Some trace_id) (a_run_id approval).
Definition refund_result (b : BillingRecord) : pydict :=
  [("billing_record_id", PyStr (billing_record_id b)); ("amount", PyStr (decimal_str (amount b)));
   ("currency", PyStr (currency b))].
(** The charge is still the one the payload and the proposal describe. *)
Definition refund_snapshot_valid (approval : ApprovalRequest) (resource_version : Z) (payload : pydict)
    (proposal : option ProposalRecord) (b : BillingRecord) (found : option RefundPairEvaluation) : bool :=
  (customer_id b ==? a_customer_id approval) && py_eq (PyStr (a_customer_id approval)) payload.["customer_id"]
  && (status b ==? "charged") && (version b =? resource_version)
  && py_eq (PyInt resource_version) payload.["business_version"]
  && (decimal_str (amount b) ==? py_str payload.["amount"]) && py_eq (PyStr (currency b)) payload.["currency"]
  && match found, proposal with
     | Some e, Some p => refund_pair_matches_proposal e (p_refund_binding p)
     | _, _ => false
     end.

(** [_refund] *)
Definition _refund (s : store) (ev : env) (ids : command_ids) (approval : ApprovalRequest) (revision : ApprovalActionRevision)
    (resource_id trace_id : string) : res (ActionResult * store) :=
  let? found := lock_and_evaluate_billing_refund_pair (billing s) (billing s) (a_tenant_id approval)
                  (a_customer_id approval) resource_id (utc (clock ev)) in
  let proposal := proposals s !! default "" (a_proposal_id approval) in
  let stale := _mark_stale s ev ids approval resource_id "refund_snapshot_stale" in
  match found.1 with
  | None => stale
  | Some b =>
      if refund_snapshot_valid approval (v_resource_version revision) (v_action_payload revision) proposal b found.2 then
        let? action := _action (g_action ids) approval revision resource_id (refund_result b) in
        let? s := insert_action (put_billing (refund_billing b) s) action in
        let? s := _stale_competing_refund_approvals s approval (billing_record_id b) in
        let? s := insert_audit s (refund_audit ids approval (b_id action) trace_id) in
        Ok (succeeded (b_id action) (b_action_type action) resource_id false, s)
      else stale
  end.

(** [_revoke_key] *)
Definition _revoke_key (s : store) (ev : env) (ids : command_ids) (approval : ApprovalRequest)
    (revision : ApprovalActionRevision) (resource_id : string) : res (ActionResult * store) :=
  let stale := _mark_stale s ev ids approval resource_id "api_key_snapshot_stale" in
  match head (select_where (fun k => (ky_tenant_id k ==? a_tenant_id approval) && (ky_customer_id k ==? a_customer_id approval)
                                     && (ky_key_id k ==? resource_id)) (api_keys s)) with
  | None => stale
  | Some key =>
      if (ky_status key ==? "active") && (ky_version key =? v_resource_version revision)
         && py_eq (PyStr (ky_fingerprint key)) (v_action_payload revision).["fingerprint"] then
        let? action := _action (g_action ids) approval revision resource_id [("status", PyStr "revoked")] in
        let s := put_api_key (key |> set_ky_status "revoked" |> set_ky_version (ky_version key + 1)) s in
        let? s := insert_action s action in
        Ok (succeeded (b_id action) (b_action_type action) resource_id false, s)
      else stale
  end.

(** The quota bounds of the subscribed plan. *)
Definition within_catalog (catalog : option PlanCatalog) (target : pydict) : res bool :=
  match catalog with
  | None => Ok false
  | Some c =>
      let? rpm := if only_key "rpm_limit" target
                  then let? n := py_int target.["rpm_limit"] in Ok ((pc_min_rpm c <=? n) && (n <=? pc_max_rpm c))
                  else Ok false in
      if rpm then Ok true
      else if only_key "concurrency_limit" target
      then let? n := py_int target.["concurrency_limit"] in
           Ok ((pc_min_concurrency c <=? n) && (n <=? pc_max_concurrency c))
      else Ok false
  end.
(** Why an entitlement change may not happen any more. *)
Definition entitlement_refusal (s : store) (subscription : Subscription) (change_type : string) (target : pydict)
    : res (option string) :=
  if change_type ==? "quota_change" then
    let catalog := first_by (fun a b => pc_version b <=? pc_version a)
                     (select_where (fun c => pc_plan c ==? sb_plan subscription) (plans s)) in
    let? valid := within_catalog catalog target in
    Ok (if valid then None else Some "entitlement_policy_stale")
  else if change_type ==? "plan_change" then
    let target_plan := py_str (dget_or "plan" (PyStr "") target) in
    Ok (if is_empty_str target_plan || negb (exists_where (fun c => pc_plan c ==? target_plan) (plans s))
        then Some "entitlement_plan_stale" else None)
  else Ok (Some "entitlement_change_type_stale").
Definition apply_target (subscription : Subscription) (target : pydict) : res Subscription :=
  let sub := if dhas "plan" target then set_sb_plan (py_str target.["plan"]) subscription else subscription in
  let? sub := if dhas "rpm_limit" target then let? n := py_int target.["rpm_limit"] in Ok (set_sb_rpm_limit n sub) else Ok sub in
  let? sub := if dhas "concurrency_limit" target
              then let? n := py_int target.["concurrency_limit"] in Ok (set_sb_concurrency_limit n sub) else Ok sub in
  Ok sub.

(** [_change_entitlement] *)
Definition _change_entitlement (s : store) (ev : env) (ids : command_ids) (approval : ApprovalRequest)
    (revision : ApprovalActionRevision) (resource_id : string) : res (ActionResult * store) :=
  let stale := _mark_stale s ev ids approval resource_id in
  match get_where (subscriptions s) resource_id (fun x => (sb_tenant_id x ==? a_tenant_id approval)
                                                          && (sb_customer_id x ==? a_customer_id approval)) with
  | None => stale "entitlement_snapshot_stale"
  | Some sub =>
      if sb_version sub !=? v_resource_version revision then stale "entitlement_snapshot_stale" else
      let? target := py_dict_of (dget_or "target" (PyDict []) (v_action_payload revision)) in
      let change_type := py_str (dget_or "change_type" (PyStr "") (v_action_payload revision)) in
      let? refusal := entitlement_refusal s sub change_type target in
      match refusal with
      | Some reason => stale reason
      | None =>
          let before := [("plan", PyStr (sb_plan sub)); ("rpm_limit", PyInt (sb_rpm_limit sub));
                         ("concurrency_limit", PyInt (sb_concurrency_limit sub))] in
          let? changed := apply_target sub target in
          let? action := _action (g_action ids) approval revision resource_id
                           [("before", PyDict before); ("after", PyDict target)] in
          let? s := insert_action (put_subscription (set_sb_version (sb_version changed + 1) changed) s) action in
          Ok (succeeded (b_id action) (b_action_type action) resource_id false, s)
      end
  end.

(** [approval.consumed_at = now] after a transition is a flush of its own. *)
Definition consume (s : store) (approval : ApprovalRequest) (now : Z) : res (ApprovalRequest * store) :=
  flush_approval s approval (set_a_consumed_at (Some now)).

(** The proposals that compete for the resource. *)
Definition stale_competing (tenant action_type resource_id : string) (p : ProposalRecord) : ProposalRecord :=
  if (p_tenant_id p ==? tenant) && (p_action_type p ==? action_type) && (p_resource_id p ==? resource_id)
     && (p_status p in? ["draft"; "bound"])
  then stale_proposal p else p.

(** The effect that already exists must be this approval's own. *)
Definition effect_bound (approval : ApprovalRequest) (decision : HumanDecision) (action_hash : string)
    (action : BusinessAction) : bool :=
  (b_action_hash action ==? action_hash) && py_eq (b_result action).["approval_id"] (PyStr (a_id approval))
  && (b_approval_id action ==? a_id approval) && (b_human_decision_id action ==? Some (hd_id decision))
  && (b_decision_hash action ==? hd_decision_hash decision).
Definition event_bound (action : BusinessAction) : bool :=
  truthy_opt (b_canonical_event_id action) && truthy_opt (b_canonical_event_hash action).

(** The replay of [execute]. *)
Definition replay_effect (s : store) (ev : env) (approval : ApprovalRequest) (decision : HumanDecision)
    (revision : ApprovalActionRevision) (existing : BusinessAction) (resource_id : string) : res (ActionResult * store) :=
  let conflict := RuntimeConflict "action_effect_binding_conflict" in
  raise conflict when negb (effect_bound approval decision (v_action_hash revision) existing)
                      || (b_action_revision_id existing !=? Some (v_id revision)) ;;
  let? identity := _effect_identity approval (Some revision) resource_id in
  raise conflict when (b_effect_identity existing !=? identity) || negb (event_bound existing) ;;
  raise RuntimeConflict "approval_not_executable" when negb (a_status approval in? ["approved"; "executed"]) ;;
  let? s :=
    if a_status approval ==? "approved" then
      let? moved := transition s approval "executed" "approved" (Some (a_status_version approval)) None in
      let? r := consume moved.2 moved.1.2 (clock ev) in Ok r.2
    else Ok s in
  let s := if truthy_opt (a_proposal_id approval) then
             match proposals s !! default "" (a_proposal_id approval) with
             | Some proposal => put_proposal (stale_proposal proposal) s
             | None => s
             end
           else s in
  Ok (succeeded (b_id existing) (b_action_type existing) resource_id true, s).

Definition run_effect (s : store) (ev : env) (ids : command_ids) (approval : ApprovalRequest)
    (revision : ApprovalActionRevision) (resource_id trace_id : string) : res (ActionResult * store) :=
  if a_action_type approval ==? "refund" then _refund s ev ids approval revision resource_id trace_id
  else if a_action_type approval ==? "api_key_revocation" then _revoke_key s ev ids approval revision resource_id
  else if a_action_type approval ==? "entitlement_change" then _change_entitlement s ev ids approval revision resource_id
  else Err (RuntimeConflict "unsupported_runtime_action").

(** The first execution, once scope and binding have been checked. *)
Definition commit_effect (s : store) (ev : env) (ids : command_ids) (approval : ApprovalRequest) (decision : HumanDecision)
    (revision : ApprovalActionRevision) (resource_id trace_id : string) : res (ActionResult * store) :=
  let? _ := assert_mutation_enabled s (a_tenant_id approval) (a_action_type approval) in
  raise RuntimeConflict "approval_not_executable" when (a_status approval !=? "approved") || isSome (a_consumed_at approval) ;;
  let? h := action_hash (v_action_payload revision) in
  if h !=? v_action_hash revision then _mark_stale s ev ids approval resource_id "action_snapshot_stale" else
  let? r := run_effect s ev ids approval revision resource_id trace_id in
  let '(result, s) := r in
  if ar_status result ==? "stale" then Ok (result, s) else
  let! action := actions s !! default "" (ar_business_action_id result) else RuntimeConflict "business_action_missing" in
  let? s := _bind_action_event s ev ids approval decision action in
  let? moved := transition s approval "executed" "approved" (Some (a_status_version approval)) None in
  let? c := consume moved.2 moved.1.2 (clock ev) in
  let s := c.2 in
  Ok (result, set_proposals (stale_competing (a_tenant_id approval) (a_action_type approval) resource_id <$> proposals s) s).

(** [RuntimeActionExecutor.execute] *)
Definition decision_binds (decision : HumanDecision) (revision : ApprovalActionRevision) : bool :=
  (hd_action_revision_id decision ==? Some (v_id revision))
  && (hd_decision decision in? ["approve"; "edit_and_approve"])
  && (hd_action_hash decision ==? Some (v_action_hash revision)).
Definition effect_of (s : store) (approval : ApprovalRequest) (action_type resource_id : string) (resource_version : Z)
    : option BusinessAction :=
  head (select_where (fun b => (b_tenant_id b ==? a_tenant_id approval) && (b_action_type b ==? action_type)
                               && (b_resource_id b ==? resource_id) && (b_resource_version b =? resource_version)) (actions s)).
Definition execute (s : store) (ev : env) (ids : command_ids) (lease : JobLease) (approval_id : string)
    (trace_id : option string) : res (ActionResult * store) :=
  let? _ := assert_fence s ev lease in
  let missing := RuntimeConflict "approval_not_found" in
  let! approval := approvals s !! approval_id else missing in
  raise missing when a_run_id approval !=? Some (l_run_id lease) ;;
  let unbound := RuntimeConflict "action_decision_binding_conflict" in
  let! decision := decision_of s (a_id approval) else unbound in
  let! revision := revisions s !! default "" (a_selected_revision_id approval) else unbound in
  raise unbound when negb (decision_binds decision revision) ;;
  let? resource_id := _resource_id approval revision in
  match effect_of s approval (a_action_type approval) resource_id (v_resource_version revision) with
  | Some existing => replay_effect s ev approval decision revision existing resource_id
  | None =>
      let checked := let? _ := assert_active_approver_scope s (a_tenant_id approval) (hd_actor_id decision) in
                     validate_execution_binding s approval revision in
      match checked with
      | Err (RuntimeConflict _) => _mark_stale s ev ids approval resource_id "action_snapshot_stale"
      | Err e => Err e
      | Ok _ =>
          let trace := if truthy_opt trace_id then default "" trace_id else "runtime:" +:+ l_job_id lease in
          commit_effect s ev ids approval decision revision resource_id trace
      end
  end.

(** ** The synchronous refund of the legacy surface *)
Record _LegacyRefundBinding := mk_legacy {
  lg_approval : ApprovalRequest; lg_decision : HumanDecision; lg_revision : option ApprovalActionRevision;
  lg_payload : pydict; lg_payload_hash : string; lg_resource_version : Z; lg_resource_id : string;
}.
Definition _load_legacy_refund_binding (s : store) (approval_id idempotency_key : string) : res _LegacyRefundBinding :=
  let! approval := approvals s !! approval_id else DomainError "approval_not_found" "Approval was not found" in
  raise DomainError "idempotency_conflict" "Idempotency key mismatch" when a_idempotency_key approval !=? idempotency_key ;;
  raise DomainError "approval_state_conflict" "Approval is not executable"
    when negb (a_status approval in? ["approved"; "executed"]) ;;
  let revision := revisions s !! default "" (a_selected_revision_id approval) in
  let payload := match revision with Some v => v_action_payload v | None => a_action_payload approval end in
  let payload_hash := match revision with Some v => v_action_hash v | None => a_action_hash approval end in
  let resource_version := match revision with Some v => v_resource_version v | None => a_business_version approval end in
  let unbound := DomainError "approval_snapshot_mismatch" "Human decision does not bind the executable action" in
  let! decision := decision_of s (a_id approval) else unbound in
  raise unbound when negb (hd_decision decision in? ["approve"; "edit_and_approve"])
                     || (hd_action_hash decision !=? Some payload_hash) ;;
  Ok (mk_legacy approval decision revision payload payload_hash resource_version
        (py_str (dget_or "billing_record_id" (PyStr "") payload))).

Definition _load_legacy_refund_billing (s : store) (ev : env) (b : _LegacyRefundBinding) : res BillingRecord :=
  let approval := lg_approval b in
  let? found := lock_and_evaluate_billing_refund_pair (billing s) (billing s) (a_tenant_id approval)
                  (a_customer_id approval) (lg_resource_id b) (utc (clock ev)) in
  let! charge := found.1 else DomainError "billing_record_not_found" "Billing record was not found" in
  raise DomainError "approval_snapshot_mismatch" "Business facts changed after approval snapshot" when
    negb (refund_snapshot_valid approval (lg_resource_version b) (lg_payload b)
            (proposals s !! default "" (a_proposal_id approval)) charge found.2) ;;
  Ok charge.

(** [_stale_bound_proposals] *)
Definition _stale_bound_proposals (s : store) (approval : ApprovalRequest) (resource_id : string) : store :=
  set_proposals (stale_competing (a_tenant_id approval) "refund" resource_id <$> proposals s) s.

(** [_converge_legacy_refund] *)
Definition commit_run (run : AgentRun) (now : Z) : AgentRun :=
  if (r_status run !=? "completed") || (r_checkpoint_stage run !=? "action_committed") || isNone (r_completed_at run) then
    run |> set_r_status "completed" |> set_r_checkpoint_stage "action_committed" |> set_r_agent_finish_reason (Some "executed")
        |> set_r_error_code None |> set_r_active_job_id None |> set_r_active_fencing_token None
        |> set_r_completed_at (Some now) |> set_r_status_version (r_status_version run + 1)
  else run.
Definition answer_turn (s : store) (run : AgentRun) : store :=
  if truthy_opt (r_turn_id run) then
    match turns s !! default "" (r_turn_id run) with
    | Some turn => if u_activity_state turn ==? "completed" then s
                   else put_turn (turn |> set_u_activity_state "completed" |> set_u_result_state (Some "answered")
                                       |> set_u_completed_at (r_completed_at run)) s
    | None => s
    end
  else s.
Definition _converge_legacy_refund (s : store) (ev : env) (ids : command_ids) (approval : ApprovalRequest) (trace_id : string)
    : res store :=
  let unbound := DomainError "approval_binding_invalid" "Executed approval has no bound Ticket or Agent Run" in
  let! ticket := tickets s !! a_ticket_id approval else unbound in
  let! run := (if truthy_opt (a_run_id approval) then runs s !! default "" (a_run_id approval) else None) else unbound in
  let run := commit_run run (clock ev) in
  let s := answer_turn (put_run run s) run in
  let? r := activate_next_turn_and_converge_ticket s ev (g_turn ids) (t_id ticket) trace_id "resolved" in
  Ok r.2.

Definition _reuse_legacy_refund (s : store) (ev : env) (ids : command_ids) (b : _LegacyRefundBinding)
    (action : BusinessAction) (trace_id : string) : res (ActionResult * store) :=
  let approval := lg_approval b in
  let foreign := DomainError "approval_snapshot_mismatch" "Existing effect belongs to a different approval binding" in
  raise foreign when
    negb (effect_bound approval (lg_decision b) (lg_payload_hash b) action)
    || (b_idempotency_key action !=? a_idempotency_key approval)
    || match lg_revision b with Some v => b_action_revision_id action !=? Some (v_id v) | None => false end ;;
  let? identity := _effect_identity approval (lg_revision b) (lg_resource_id b) in
  raise foreign when (b_effect_identity action !=? identity) || negb (event_bound action) ;;
  let? moved := transition s approval "executed" "approved" (Some (a_status_version approval)) None in
  let '(_, approval, s) := moved in
  let? c := if isNone (a_consumed_at approval) then consume s approval (clock ev) else Ok (approval, s) in
  let s := _stale_bound_proposals c.2 approval (lg_resource_id b) in
  let? s := _converge_legacy_refund s ev ids approval trace_id in
  Ok (succeeded (b_id action) "refund" (lg_resource_id b) true, s).

Definition _commit_legacy_refund (s : store) (ev : env) (ids : command_ids) (b : _LegacyRefundBinding)
    (charge : BillingRecord) (trace_id : string) : res (ActionResult * store) :=
  let approval := lg_approval b in
  let decision := lg_decision b in
  let? identity := _effect_identity approval (lg_revision b) (billing_record_id charge) in
  let action := mk_action (g_action ids) (a_tenant_id approval) (a_ticket_id approval) (a_customer_id approval) "refund"
                  (billing_record_id charge) (lg_resource_version b) (lg_payload_hash b) (a_id approval)
                  (Some (hd_id decision)) (v_id <$> lg_revision b) (hd_decision_hash decision) identity None None
                  "succeeded" (a_idempotency_key approval)
                  (dmerge [("approval_id", PyStr (a_id approval))] (refund_result charge)) in
  let? s := insert_action s action in
  let? s := catch (fun e => match e with RuntimeConflict _ => true | _ => false end)
              (DomainError "approval_snapshot_mismatch" "Canonical action head changed before commit")
              (_bind_action_event s ev ids approval decision action) in
  let s := put_billing (refund_billing charge) s in
  let? moved := transition s approval "executed" "approved" (Some (a_status_version approval)) None in
  let '(_, approval, s) := moved in
  let? c := consume s approval (clock ev) in
  let? s := _stale_competing_refund_approvals c.2 approval (billing_record_id charge) in
  let s := _stale_bound_proposals s approval (billing_record_id charge) in
  let? s := _converge_legacy_refund s ev ids approval (trace_id +:+ ":effect-committed") in
  let? s := insert_audit s (refund_audit ids approval (b_id action) trace_id) in
  Ok (succeeded (b_id action) "refund" (billing_record_id charge) false, s).

(** [RuntimeActionExecutor.execute_legacy_refund] *)
Definition execute_legacy_refund (s : store) (ev : env) (ids : command_ids) (approval_id idempotency_key trace_id : string)
    : res (ActionResult * store) :=
  let? b := _load_legacy_refund_binding s approval_id idempotency_key in
  let approval := lg_approval b in
  match effect_of s approval "refund" (lg_resource_id b) (lg_resource_version b) with
  | Some existing => _reuse_legacy_refund s ev ids b existing (trace_id +:+ ":effect-replay")
  | None =>
      let? _ := catch (fun e => match e with RuntimeConflict _ => true | _ => false end)
                  (DomainError "approval_state_conflict" "Refund automation is disabled")
                  (assert_mutation_enabled s (a_tenant_id approval) "refund") in
      raise DomainError "approval_state_conflict" "Approval is not executable"
        when (a_status approval !=? "approved") || isSome (a_consumed_at approval) ;;
      let? h := action_hash (lg_payload b) in
      raise DomainError "approval_snapshot_mismatch" "Action hash changed" when h !=? lg_payload_hash b ;;
      let? charge := _load_legacy_refund_billing s ev b in
      _commit_legacy_refund s ev ids b charge trace_id
  end.
End effects.

(** ** Entitlement changes stay inside the catalog *)
Section quotas.
Context `{PyRuntime}.

(** An executed quota change stays inside the plan catalog: the new requests
    per minute or concurrency limit lies between the bounds of the newest
    catalog entry of the subscribed plan, and the other limit and the plan are
    unchanged. *)
Theorem quota_within_catalog s x y target :
  entitlement_refusal s x "quota_change" target = Ok None -> apply_target x target = Ok y ->
  sb_plan y = sb_plan x /\
  exists c, (exists i, plans s !! i = Some c) /\ pc_plan c = sb_plan x /\
    (forall i c', plans s !! i = Some c' -> pc_plan c' = sb_plan x -> pc_version c' <= pc_version c) /\
    ((pc_min_rpm c <= sb_rpm_limit y <= pc_max_rpm c /\ sb_concurrency_limit y = sb_concurrency_limit x) \/
     (pc_min_concurrency c <= sb_concurrency_limit y <= pc_max_concurrency c /\ sb_rpm_limit y = sb_rpm_limit x)).
Proof.
  intros Hr Ht. unfold entitlement_refusal in Hr. rewrite eqb_refl in Hr. steps_ok Hr. destruct a; [|done]. clear Hr.
  destruct (first_by _ _) as [c|] eqn:Ec; [|done]. apply first_by_some in Ec as [Hin Hmax]; [|intros; to_prop; lia..].
  apply select_where_elem in Hin as [Hin Hplan]. rewrite eqb_true in Hplan.
  assert (forall i c', plans s !! i = Some c' -> pc_plan c' = sb_plan x -> pc_version c' <= pc_version c) as Hnew.
  { intros i c' Hi Hp. apply Z.leb_le, Hmax, select_where_elem. split; [eauto|]. by apply eqb_true. }
  unfold within_catalog in Hstep. apply res_bind_ok in Hstep as (rpm & H1 & H2).
  assert (forall k n, only_key k target = true -> k <> n -> dhas n target = false) as Honly by (intros; by eapply only_key_other).
  unfold apply_target in Ht. destruct (only_key "rpm_limit" target) eqn:Er.
  - rewrite (Honly "rpm_limit" "plan"), (Honly "rpm_limit" "concurrency_limit") in Ht by done.
    assert (dhas "rpm_limit" target = true) as Hd by (unfold only_key in Er; by apply andb_true_iff in Er as [? _]).
    rewrite Hd in Ht. steps_ok H1. injection H1 as <-. rewrite Hstep in Ht. simpl in Ht. injection Ht as <-. split; [done|].
    exists c. split_and!; try done. left. simpl. destruct (_ && _) eqn:Eb; [rewrite andb_true_iff, !Z.leb_le in Eb; done|].
    destruct (only_key "concurrency_limit" target) eqn:E2; [|done]. by rewrite (Honly "concurrency_limit" "rpm_limit") in Hd by done.
  - injection H1 as <-. simpl in H2. destruct (only_key "concurrency_limit" target) eqn:E2; [|done].
    rewrite (Honly "concurrency_limit" "plan"), (Honly "concurrency_limit" "rpm_limit") in Ht by done.
    assert (dhas "concurrency_limit" target = true) as Hd by (unfold only_key in E2; by apply andb_true_iff in E2 as [? _]).
    rewrite Hd in Ht. steps_ok H2. injection H2 as Eb. rewrite andb_true_iff, !Z.leb_le in Eb. rewrite Hstep in Ht. simpl in Ht.
    injection Ht as <-. split; [done|]. exists c. split_and!; try done. right. done.
Qed.
End quotas.
