(* ===== verification/Governance.v ===== *)
(** * The approval ledger under every operation

    The composition of the components: approvals, human decisions and business
    actions, as the decision and withdrawal commands, the action executor, the
    job runtime, the reconciler and any other writer change them, in any order.

    [governed] is the contract: every business action is backed by an executed
    approval whose only human decision approves exactly that action; no
    approval gets two decisions or two effects; no resource version gets two
    effects; an approval is approved, executed or rejected only with the
    decision that says so; a pending or withdrawn one has none.  Each operation
    is shown to preserve it and the invariant holds in every reachable store. *)
From Stdlib Require Import Ascii.
From S2P Require Import Prelude PyValue Sha256 CanonicalJson Timestamps Decimals RefundPolicy ActionSpecs Store.
From S2P Require Import EventChain Lifecycle RuntimeJobs Approvals Effects.
Local Open Scope string_scope.
Local Open Scope list_scope.
Local Open Scope Z_scope.

(** ** Operations that do not touch the ledger *)
(** The business resources an effect changes. *)
Definition business (s : store) := (billing s, api_keys s, subscriptions s).
Record same_ledger (s s' : store) : Prop := {
  sl_approvals : approvals s' = approvals s;
  sl_decisions : decisions s' = decisions s;
  sl_actions : actions s' = actions s;
  sl_revisions : revisions s' = revisions s;
  sl_business : business s' = business s;
}.
Definition silent (s s' : store) : Prop := keyed s -> keyed s' /\ same_ledger s s'.

Lemma silent_refl s : silent s s.
Proof. intros Hk. by split. Qed.
Lemma silent_trans s1 s2 s3 : silent s1 s2 -> silent s2 s3 -> silent s1 s3.
Proof. intros H1 H2 Hk. destruct (H1 Hk) as [K1 []], (H2 K1) as [K2 []]. split; [done|]. split; congruence. Qed.
Ltac silent_put :=
  let Hk := fresh in intros Hs Hk; destruct (Hs Hk) as [? []]; split; [auto with keyed|split; assumption].
Lemma silent_put_ticket s s' r : silent s s' -> silent s (put_ticket r s').
Proof. silent_put. Qed.
Lemma silent_put_message s s' r : silent s s' -> silent s (put_message r s').
Proof. silent_put. Qed.
Lemma silent_put_turn s s' r : silent s s' -> silent s (put_turn r s').
Proof. silent_put. Qed.
Lemma silent_put_run s s' r : silent s s' -> silent s (put_run r s').
Proof. silent_put. Qed.
Lemma silent_put_job s s' r : silent s s' -> silent s (put_job r s').
Proof. silent_put. Qed.
Lemma silent_put_event s s' r : silent s s' -> silent s (put_event r s').
Proof. silent_put. Qed.
Lemma silent_put_proposal s s' r : silent s s' -> silent s (put_proposal r s').
Proof. silent_put. Qed.
Lemma silent_put_idempotency s s' r : silent s s' -> silent s (put_idempotency r s').
Proof. silent_put. Qed.
Lemma silent_put_outbox s s' r : silent s s' -> silent s (put_outbox r s').
Proof. silent_put. Qed.
Lemma silent_put_withdrawal s s' r : silent s s' -> silent s (put_withdrawal r s').
Proof. silent_put. Qed.
Lemma silent_put_audit s s' r : silent s s' -> silent s (put_audit r s').
Proof. silent_put. Qed.
Lemma silent_set_markers s s' m : silent s s' -> silent s (set_markers m s').
Proof. intros Hs Hk. destruct (Hs Hk) as [[] []]. split; split; assumption. Qed.
Lemma silent_map_proposals s s' f :
  (forall p, p_id (f p) = p_id p) -> silent s s' -> silent s (set_proposals (f <$> proposals s') s').
Proof.
  intros Hf Hs Hk. destruct (Hs Hk) as [[] []]. split; split; try assumption.
  simpl. intros i r Hr. rewrite lookup_fmap in Hr. destruct (proposals s' !! i) as [p|] eqn:E; [|done].
  injection Hr as <-. rewrite Hf. eauto.
Qed.
Create HintDb silent.
#[export] Hint Resolve silent_refl silent_put_ticket silent_put_message silent_put_turn silent_put_run silent_put_job
  silent_put_event silent_put_proposal silent_put_idempotency silent_put_outbox
  silent_put_withdrawal silent_put_audit
  silent_set_markers : silent.

(** Splits the successful paths of [H] and closes each with the hints. *)
Ltac silent_cases H := res_cases H; simplify_eq/=; eauto 20 with silent.

Lemma insert_job_silent s s0 j s' : insert_job s j = Ok s' -> silent s0 s -> silent s0 s'.
Proof. unfold insert_job. intros Ho Hs. silent_cases Ho. Qed.
Lemma insert_withdrawal_silent s s0 w s' : insert_withdrawal s w = Ok s' -> silent s0 s -> silent s0 s'.
Proof. unfold insert_withdrawal. intros Ho Hs. silent_cases Ho. Qed.
Lemma insert_outbox_silent s s0 o s' : insert_outbox s o = Ok s' -> silent s0 s -> silent s0 s'.
Proof. unfold insert_outbox. intros Ho Hs. silent_cases Ho. Qed.
Lemma insert_audit_silent s s0 a s' : insert_audit s a = Ok s' -> silent s0 s -> silent s0 s'.
Proof. unfold insert_audit. intros Ho Hs. silent_cases Ho. Qed.
Lemma insert_message_silent s s0 m s' : insert_message s m = Ok s' -> silent s0 s -> silent s0 s'.
Proof. unfold insert_message. intros Ho Hs. silent_cases Ho. Qed.
Lemma accept_silent s s0 ev id tn pr rt key p r sn ex c s' :
  accept s ev id tn pr rt key p r sn ex = Ok (c, s') -> silent s0 s -> silent s0 s'.
Proof. unfold accept. intros Ho Hs. silent_cases Ho. Qed.
Lemma converge_silent s s0 tid d st s' : converge_ticket s tid d = Ok (st, s') -> silent s0 s -> silent s0 s'.
Proof. unfold converge_ticket. intros Ho Hs. silent_cases Ho. Qed.
Lemma complete_turn_silent s s0 run r now : silent s0 s -> silent s0 (complete_turn s run r now).
Proof. unfold complete_turn. intros Hs. repeat case_match; eauto with silent. Qed.
Lemma answer_turn_silent s s0 run : silent s0 s -> silent s0 (answer_turn s run).
Proof. unfold answer_turn. intros Hs. repeat case_match; eauto with silent. Qed.
Lemma fail_turn_silent s s0 run : silent s0 s -> silent s0 (fail_turn s run).
Proof. unfold fail_turn. intros Hs. repeat case_match; eauto with silent. Qed.
Lemma start_turn_silent s s0 run k : silent s0 s -> silent s0 (start_turn s run k).
Proof. unfold start_turn. intros Hs. repeat case_match; eauto with silent. Qed.
#[export] Hint Resolve insert_job_silent insert_withdrawal_silent insert_outbox_silent
  insert_audit_silent insert_message_silent accept_silent converge_silent complete_turn_silent answer_turn_silent
  fail_turn_silent start_turn_silent : silent.

Lemma catch_ok {A} test e (r : res A) a : catch test e r = Ok a -> r = Ok a.
Proof. unfold catch. destruct r as [x|x]; [done|]. by destruct (test x). Qed.

Section silent_operations.
Context `{PyRuntime}.

Lemma append_silent f s s0 rid args w eid at_ e s' :
  append_event f s rid args w eid at_ = Ok (e, s') -> silent s0 s -> silent s0 s'.
Proof.
  unfold append_event. intros Ho Hs. destruct (runs s !! rid); [|done]. destruct (tickets s !! _); [|done].
  steps_ok Ho. simplify_eq. auto with silent.
Qed.
Lemma create_run_silent s s0 ev ids tid cid mid m pm tm cv rid s' :
  create_run s ev ids tid cid mid m pm tm cv = Ok (rid, s') -> silent s0 s -> silent s0 s'.
Proof.
  unfold create_run. intros Ho Hs. destruct (get_where (messages s) _ _); [|done]. destruct (get_where _ _ _); [|done].
  steps_ok Ho. destruct (select_where _ _); [|by simplify_eq]. steps_ok Ho.
  match goal with a : AgentEvent * store |- _ => destruct a as [e st] end. simplify_eq/=. eapply append_silent; eauto with silent.
Qed.
Lemma activate_silent s s0 ev ids tid tr r s' :
  activate_next_turn s ev ids tid tr = Ok (r, s') -> silent s0 s -> silent s0 s'.
Proof.
  unfold activate_next_turn. intros Ho Hs. destruct (tickets s !! tid); [|done]. destruct (_ || _ || _); [by simplify_eq|].
  destruct (next_turn s tid) as [u|]; [|by simplify_eq]. destruct (u_model u), (u_provider_mode u), (u_tool_call_mode u); try done.
  steps_ok Ho. destruct a as [rid st]. apply create_run_silent with (s0 := s0) in Hstep; [|done].
  destruct (runs st !! rid); [|done]. destruct (messages _ !! _); [|done]. destruct (tickets _ !! tid); [|done].
  steps_ok Ho. simplify_eq. eauto 12 with silent.
Qed.
Lemma publish_failure_silent s s0 ev ids job run t c s' :
  publish_failure s ev ids job run t c = Ok s' -> silent s0 s -> silent s0 s'.
Proof. unfold publish_failure. intros Ho Hs. silent_cases Ho. Qed.
Lemma activate_converge_silent s s0 ev ids tid tr d st s' :
  activate_next_turn_and_converge_ticket s ev ids tid tr d = Ok (st, s') -> silent s0 s -> silent s0 s'.
Proof.
  unfold activate_next_turn_and_converge_ticket. intros Ho Hs. steps_ok Ho. destruct a as [r s1].
  eapply converge_silent; [exact Ho|]. eapply activate_silent; eauto.
Qed.
Lemma store_decision_silent s s0 r d s' : _store_idempotent_response s r d = Ok s' -> silent s0 s -> silent s0 s'.
Proof. unfold _store_idempotent_response. intros Ho Hs. silent_cases Ho. Qed.
Lemma store_withdrawal_silent s s0 r d s' : store_withdrawal_response s r d = Ok s' -> silent s0 s -> silent s0 s'.
Proof. unfold store_withdrawal_response. intros Ho Hs. silent_cases Ho. Qed.
Lemma store_lifecycle_silent s s0 r d s' : store_lifecycle_response s r d = Ok s' -> silent s0 s -> silent s0 s'.
Proof. unfold store_lifecycle_response. intros Ho Hs. silent_cases Ho. Qed.
Lemma recheck_silent s s0 ev a p s' : recheck_refund s ev a p = Ok s' -> silent s0 s -> silent s0 s'.
Proof.
  unfold recheck_refund. intros Ho Hs. destruct (_ ==? _); [|by simplify_eq]. steps_ok Ho.
  destruct a0 as [[b|] [e|]]; try done. steps_ok Ho. simplify_eq. case_match; eauto with silent.
Qed.
Lemma enqueue_resume_silent s s0 ev ids a rid s' : enqueue_resume s ev ids a rid = Ok s' -> silent s0 s -> silent s0 s'.
Proof. unfold enqueue_resume. intros Ho Hs. silent_cases Ho. Qed.
Lemma publish_resume_silent s s0 ev ids a rid tr s' : publish_resume s ev ids a rid tr = Ok s' -> silent s0 s -> silent s0 s'.
Proof.
  unfold publish_resume. intros Ho Hs. steps_ok Ho. destruct (runs _ !! _); [|done]. destruct (tickets _ !! _); [|done].
  simplify_eq. eauto 8 with silent.
Qed.
Lemma decision_event_silent s s0 ev ids q aid rid tid v h e s' :
  decision_event s ev ids q aid rid tid v h = Ok (e, s') -> silent s0 s -> silent s0 s'.
Proof.
  unfold decision_event. intros Ho Hs. destruct (ticket_head s tid); [|done]. apply catch_ok in Ho. eapply append_silent; eauto.
Qed.
Lemma rejected_silent s s0 ev ids a pid rid tr s' :
  _converge_rejected_decision s ev ids a pid rid tr = Ok s' -> silent s0 s -> silent s0 s'.
Proof.
  unfold _converge_rejected_decision. intros Ho Hs. destruct (proposals s !! pid); [|done]. destruct (runs _ !! rid); [|done].
  destruct (tickets _ !! _); [|done]. steps_ok Ho. simplify_eq. destruct a2 as [r1 st1], a3 as [r2 st2].
  eapply converge_silent; [exact Hstep1|]. eapply activate_silent; [exact Hstep0|].
  destruct (exists_where _ _); [simplify_eq; eauto 12 with silent|].
  eapply insert_message_silent; [exact Hstep|]. eauto 12 with silent.
Qed.
Lemma record_withdrawal_silent s s0 ev ids q a pid tid s' :
  record_withdrawal s ev ids q a pid tid = Ok s' -> silent s0 s -> silent s0 s'.
Proof.
  unfold record_withdrawal. intros Ho Hs. destruct (proposals s !! pid) as [p|]; [|done].
  set (run := if truthy_opt _ then _ else _) in Ho. set (s1 := match run with Some _ => _ | None => _ end) in Ho.
  assert (silent s0 s1) as H1 by (unfold s1; destruct run; eauto 8 with silent). clearbody s1 run.
  destruct (tickets s1 !! tid); [|done]. steps_ok Ho. eauto 12 with silent.
Qed.
Lemma legacy_converge_silent s s0 ev ids a tr s' : _converge_legacy_refund s ev ids a tr = Ok s' -> silent s0 s -> silent s0 s'.
Proof.
  unfold _converge_legacy_refund. intros Ho Hs. destruct (tickets s !! _); [|done].
  destruct (if truthy_opt _ then _ else _); [|done]. steps_ok Ho. simplify_eq. destruct a1 as [st2 st1].
  eapply activate_converge_silent; [exact Hstep|]. eauto 8 with silent.
Qed.
Lemma reconciliation_silent s s0 ev ids a rid reason d e s' :
  reconciliation_event s ev ids a rid reason d = Ok (e, s') -> silent s0 s -> silent s0 s'.
Proof. unfold reconciliation_event. intros Ho%catch_ok Hs. eapply append_silent; eauto. Qed.
End silent_operations.
#[export] Hint Resolve append_silent activate_silent activate_converge_silent store_decision_silent store_withdrawal_silent
  store_lifecycle_silent recheck_silent enqueue_resume_silent publish_resume_silent decision_event_silent rejected_silent
  record_withdrawal_silent legacy_converge_silent reconciliation_silent publish_failure_silent : silent.

(** ** Writes to an approval that was just loaded *)
Definition moved_to (to : string) (dec : option Z) (a : ApprovalRequest) : ApprovalRequest :=
  set_a_status_version (a_status_version a + 1) (decide_assign to dec a).
Lemma moved_to_id to dec a : a_id (moved_to to dec a) = a_id a.
Proof. by destruct dec. Qed.
Lemma moved_to_status to dec a : a_status (moved_to to dec a) = to.
Proof. by destruct dec. Qed.

Lemma flush_loaded s a f a' s' :
  approvals s !! a_id a = Some a -> a_id (f a) = a_id a -> flush_approval s a f = Ok (a', s') ->
  a' = set_a_status_version (a_status_version a + 1) (f a) /\ s' = put_approval a' s.
Proof.
  intros Ha Hid Hf. apply flush_approval_ok in Hf as (row & E & _ & -> & ->). simplify_eq. split; [done|].
  unfold put_approval. simpl. by rewrite Hid.
Qed.
Lemma transition_loaded s a to exp ver dec r a' s' :
  approvals s !! a_id a = Some a -> a_status a <> to -> transition s a to exp ver dec = Ok (r, a', s') ->
  a' = moved_to to dec a /\ s' = put_approval a' s /\ a_status a = exp /\ to ∈ APPROVAL_TRANSITIONS (a_status a).
Proof.
  intros Ha Hne Ht. apply transition_ok in Ht as [(_ & ? & _)|(_ & _ & _ & Hexp & _ & Hedge & Hf)]; [done|].
  destruct (flush_loaded _ _ _ _ _ Ha (moved_to_id _ _ _) Hf) as [-> ->]. done.
Qed.

(** ** Operations that only close approvals *)
Definition closed_row (a a' : ApprovalRequest) : Prop :=
  a_id a' = a_id a /\ a_status a ∈ ACTIVE_APPROVAL_STATUSES /\ a_status a' ∈ ["stale"; "failed"].
Definition rows_closed (m m' : gmap string ApprovalRequest) : Prop :=
  forall i, m' !! i = m !! i \/ exists a a', m !! i = Some a /\ m' !! i = Some a' /\ closed_row a a'.
Record closes (s s' : store) : Prop := {
  cl_decisions : decisions s' = decisions s;
  cl_actions : actions s' = actions s;
  cl_revisions : revisions s' = revisions s;
  cl_business : business s' = business s;
  cl_approvals : rows_closed (approvals s) (approvals s');
}.
Definition closing (s s' : store) : Prop := keyed s -> keyed s' /\ closes s s'.

Lemma closes_refl s : closes s s.
Proof. split; try done. intros i. by left. Qed.
Lemma closed_inactive st : st ∈ ["stale"; "failed"] -> st ∉ ACTIVE_APPROVAL_STATUSES.
Proof. intros Hs Ha%mem_true. rewrite !elem_of_cons, elem_of_nil in Hs. destruct Hs as [->|[->|[]]]; vm_compute in Ha; done. Qed.
Lemma closes_trans s1 s2 s3 : closes s1 s2 -> closes s2 s3 -> closes s1 s3.
Proof.
  intros [D1 A1 R1 B1 P1] [D2 A2 R2 B2 P2]. split; [congruence..|]. intros i.
  destruct (P2 i) as [->|(a & a' & Ha & Ha' & Hc)]; [apply P1|].
  destruct (P1 i) as [E|(b & b' & Hb & Hb' & Hd)]; [right; exists a, a'; split_and!; [congruence|done|done]|].
  simplify_eq. destruct Hd as (_ & _ & Hst), Hc as (_ & Hact & _). by apply closed_inactive in Hst.
Qed.
Lemma silent_closing s s' : silent s s' -> closing s s'.
Proof.
  intros Hs Hk. destruct (Hs Hk) as [K []]. split; [done|]. split; [done..|]. intros i. left. congruence.
Qed.
Lemma closing_trans s1 s2 s3 : closing s1 s2 -> closing s2 s3 -> closing s1 s3.
Proof. intros H1 H2 Hk. destruct (H1 Hk) as [K1 C1], (H2 K1) as [K2 C2]. split; [done|]. by eapply closes_trans. Qed.
Lemma closing_put s a a' : approvals s !! a_id a = Some a -> closed_row a a' -> closing s (put_approval a' s).
Proof.
  intros Ha Hc Hk. split; [auto with keyed|]. split; [done..|]. intros i. simpl.
  pose proof Hc as (Eid & _). destruct (decide (i = a_id a)) as [->|Ne].
  - right. exists a, a'. rewrite Eid, lookup_insert_eq. done.
  - left. apply lookup_insert_ne. congruence.
Qed.

Lemma edge_active from to : to ∈ APPROVAL_TRANSITIONS from -> from ∈ ACTIVE_APPROVAL_STATUSES.
Proof. intros [[-> _]|[-> _]]%transitions_edges; list_member. Qed.
(** A transition of a loaded row to [stale] or [failed]. *)
Lemma transition_closing s a to exp ver dec r a' s' :
  approvals s !! a_id a = Some a -> to ∈ ["stale"; "failed"] -> transition s a to exp ver dec = Ok (r, a', s') ->
  closing s s' /\ a_id a' = a_id a /\ a_status a' = to /\
  (forall i, i <> a_id a -> approvals s' !! i = approvals s !! i).
Proof.
  intros Ha Hto Ht. destruct (decide (a_status a = to)) as [E|Hne].
  - apply transition_ok in Ht as [(_ & _ & -> & ->)|(_ & _ & _ & _ & _ & Hedge & _)].
    + split_and!; [apply silent_closing, silent_refl|done..].
    + apply edge_active in Hedge. rewrite E in Hedge. by apply closed_inactive in Hto.
  - destruct (transition_loaded _ _ _ _ _ _ _ _ _ Ha Hne Ht) as (-> & -> & _ & Hedge).
    rewrite moved_to_id, moved_to_status. split_and!; [|done..|].
    + apply closing_put with a; [done|]. split_and!; [apply moved_to_id|by eapply edge_active|by rewrite moved_to_status].
    + intros i Hi. unfold put_approval. rewrite moved_to_id. by apply lookup_insert_ne.
Qed.

Section closing_operations.
Context `{PyRuntime}.

Lemma fail_approval_closing s job s' : keyed s -> fail_approval s job = Ok s' -> closing s s'.
Proof.
  unfold fail_approval. intros Hk Ho.
  assert (closing s s) as Hrefl by apply silent_closing, silent_refl.
  destruct (j_approval_id job) as [aid|]; [|by simplify_eq]. destruct (is_empty_str aid); [by simplify_eq|].
  destruct (approvals s !! aid) as [a|] eqn:Ea; [|by simplify_eq]. pose proof (keyed_approvals _ Hk _ _ Ea) as <-.
  destruct (a_status a in? _); [by simplify_eq|]. steps_ok Ho. destruct a0 as [[r a'] s1].
  destruct (transition_closing s a "failed" _ _ _ _ _ _ Ea ltac:(list_member) Hstep) as (Hc & _).
  assert (silent s1 s') as Hs by (repeat case_match; simplify_eq; eauto with silent).
  eapply closing_trans; [exact Hc|by apply silent_closing].
Qed.
Lemma dead_closing s ev ids job rid reason s' :
  keyed s -> converge_dead_aggregates s ev ids job rid reason = Ok s' -> closing s s'.
Proof.
  unfold converge_dead_aggregates. intros Hk Ho. destruct (runs s !! rid) as [run|]; [|done].
  set (run' := run |> _ |> _ |> _ |> _ |> _) in Ho. clearbody run'.
  apply res_bind_ok in Ho as (s1 & H1 & Ho). apply res_bind_ok in Ho as (s2 & H2 & Ho).
  assert (silent s s1) as S1.
  { destruct (tickets _ !! _); [|simplify_eq; eauto 8 with silent]. destruct (neqb _ _); [|simplify_eq; eauto 8 with silent].
    eapply publish_failure_silent; [exact H1|]. eauto 8 with silent. }
  clear H1. destruct (S1 Hk) as [K1 _]. pose proof (fail_approval_closing _ _ _ K1 H2) as C2.
  eapply closing_trans; [by apply silent_closing|]. eapply closing_trans; [exact C2|]. apply silent_closing.
  destruct (tickets _ !! _); [|simplify_eq; eauto with silent]. destruct (_ && _); [|simplify_eq; eauto with silent].
  steps_ok Ho. simplify_eq. destruct a as [r st], a0 as [r2 st2].
  eapply converge_silent; [exact Hstep0|]. eapply activate_silent; [exact Hstep|]. eauto with silent.
Qed.

(** The operations of the job runtime and of the reconciler. *)
Inductive job_step (s : store) : store -> Prop :=
| js_create ev ids tn rid kind ap tk job s' : create s ev ids tn rid kind ap tk = Ok (job, s') -> job_step s s'
| js_claim ev jid owner secs lease s' : claim s ev jid owner secs = Ok (lease, s') -> job_step s s'
| js_heartbeat ev l secs s' : heartbeat s ev l secs = Ok s' -> job_step s s'
| js_complete ev l out s' : complete s ev l out = Ok s' -> job_step s s'
| js_fail ev ids l code m g st s' : fail s ev ids l code m g = Ok (st, s') -> job_step s s'
| js_terminal_fail ev ids l code st s' : terminal_fail s ev ids l code = Ok (st, s') -> job_step s s'
| js_finalize l status out s' : finalize_control s l status out = Ok s' -> job_step s s'
| js_activate ev ids tid tr r s' : activate_next_turn s ev ids tid tr = Ok (r, s') -> job_step s s'
| js_requeue now jid : job_step s (requeue_expired s now jid)
(** The reconciler that gives a job up, and segment recovery, converge the
    aggregates of a dead job without a lease. *)
| js_dead ev ids job rid reason s' : converge_dead_aggregates s ev ids job rid reason = Ok s' -> job_step s s'.

Lemma claim_silent s ev jid owner secs lease s' : claim s ev jid owner secs = Ok (lease, s') -> silent s s'.
Proof.
  unfold claim. intros Ho. destruct (jobs s !! jid); [|done]. destruct (get_where (tickets s) _ _); [|done].
  steps_ok Ho. destruct (get_where (runs s) _ _); [|done]. steps_ok Ho. simplify_eq. case_match; eauto 8 with silent.
Qed.
Lemma fail_closing s ev ids l code m g st s' :
  keyed s -> fail s ev ids l code m g = Ok (st, s') -> closing s s'.
Proof.
  unfold fail. intros Hk Ho. steps_ok Ho. destruct (runs s !! _) as [run|]; [|done]. steps_ok Ho. simplify_eq.
  destruct (d_terminal a0); [|simplify_eq; apply silent_closing; auto with silent].
  eapply closing_trans; [|eapply dead_closing; [|exact Hstep1]]; [apply silent_closing; auto with silent|auto with keyed].
Qed.
Lemma terminal_fail_closing s ev ids l code st s' :
  keyed s -> terminal_fail s ev ids l code = Ok (st, s') -> closing s s'.
Proof.
  unfold terminal_fail. intros Hk Ho. steps_ok Ho. destruct (runs s !! _) as [run|]; [|done]. steps_ok Ho.
  destruct (runs _ !! _); [|done]. simplify_eq.
  eapply closing_trans; [|eapply closing_trans; [eapply dead_closing; [|exact Hstep0]|]];
    [apply silent_closing; auto with silent|auto with keyed|apply silent_closing; auto with silent].
Qed.
Lemma job_step_closing s s' : keyed s -> job_step s s' -> closing s s'.
Proof.
  intros Hk Hs. destruct Hs as [ev ids tn rid kind ap tk job s' Ho|ev jid owner secs lease s' Ho|ev l secs s' Ho
    |ev l out s' Ho|ev ids l code m g st s' Ho|ev ids l code st s' Ho|l status out s' Ho|ev ids tid tr r s' Ho|now jid|ev ids job rid reason s' Ho];
    [| | | |by eapply fail_closing|by eapply terminal_fail_closing| | | |by eapply dead_closing]; apply silent_closing.
  - unfold create in Ho. steps_ok Ho. destruct (get_where (runs s) _ _); [|done]. steps_ok Ho.
    destruct (get_where (tickets s) _ _); [|done]. steps_ok Ho. simplify_eq. eauto with silent.
  - by eapply claim_silent.
  - unfold heartbeat in Ho. steps_ok Ho. simplify_eq. auto with silent.
  - unfold complete in Ho. steps_ok Ho. destruct (runs s !! _); [|done]. simplify_eq. auto with silent.
  - unfold finalize_control in Ho. destruct (jobs s !! _); [|done]. simplify_eq. auto with silent.
  - eauto with silent.
  - unfold requeue_expired. repeat case_match; auto with silent.
Qed.
End closing_operations.

(** ** The approval automaton

    The abstract specification of an approval is the transition table; a step of
    the whole system moves every approval along one edge or leaves it alone,
    and a new approval starts pending. *)
Definition phases (s : store) : gmap string string := a_status <$> approvals s.
Definition automaton_step (m m' : gmap string string) : Prop :=
  (forall i st, m !! i = Some st -> exists st', m' !! i = Some st' /\ (st' = st \/ st' ∈ APPROVAL_TRANSITIONS st)) /\
  (forall i st, m !! i = None -> m' !! i = Some st -> st = "pending").

Lemma automaton_rows (m m' : gmap string ApprovalRequest) :
  (forall i a, m !! i = Some a -> exists a', m' !! i = Some a' /\
     (a_status a' = a_status a \/ a_status a' ∈ APPROVAL_TRANSITIONS (a_status a))) ->
  (forall i a, m !! i = None -> m' !! i = Some a -> a_status a = "pending") ->
  automaton_step (a_status <$> m) (a_status <$> m').
Proof.
  intros Hold Hnew. split; intros i st; rewrite !lookup_fmap.
  - destruct (m !! i) as [a|] eqn:E; [|done]. intros [= <-]. destruct (Hold _ _ E) as (a' & -> & Ha'). eexists. split; [done|done].
  - destruct (m !! i) as [a|] eqn:E; [done|]. intros _. destruct (m' !! i) as [a'|] eqn:E'; [|done]. intros [= <-]. eauto.
Qed.
Lemma closed_edge st st' : st ∈ ACTIVE_APPROVAL_STATUSES -> st' ∈ ["stale"; "failed"] -> st' ∈ APPROVAL_TRANSITIONS st.
Proof.
  unfold ACTIVE_APPROVAL_STATUSES. intros H1 H2. rewrite !elem_of_cons, elem_of_nil in H1, H2.
  destruct H1 as [->|[->|[]]], H2 as [->|[->|[]]]; apply mem_true; vm_compute; reflexivity.
Qed.
Lemma rows_closed_automaton m m' : rows_closed m m' -> automaton_step (a_status <$> m) (a_status <$> m').
Proof.
  intros Hc. apply automaton_rows.
  - intros i a Ha. destruct (Hc i) as [->|(x & x' & Hx & Hx' & _ & Hact & Hcl)]; [eauto|]. simplify_eq.
    exists x'. split; [done|]. right. by apply closed_edge.
  - intros i a Hn Ha. destruct (Hc i) as [E|(x & x' & Hx & _)]; congruence.
Qed.
(** One row moves in a table of otherwise kept or closed rows. *)
Lemma automaton_insert m m' i a a' :
  rows_closed m m' -> m' !! i = Some a -> m !! i = Some a ->
  (a_status a' = a_status a \/ a_status a' ∈ APPROVAL_TRANSITIONS (a_status a)) ->
  automaton_step (a_status <$> m) (a_status <$> <[i := a']> m').
Proof.
  intros Hc Hi' Hi Hedge. apply automaton_rows.
  - intros j x Hx. destruct (base.decide (i = j)) as [<-|Ne].
    + simplify_eq. rewrite lookup_insert_eq. eauto.
    + rewrite lookup_insert_ne by done. destruct (Hc j) as [->|(y & y' & Hy & Hy' & _ & Hact & Hcl)]; [eauto|]. simplify_eq.
      exists y'. split; [done|]. right. by apply closed_edge.
  - intros j x Hn. destruct (base.decide (i = j)) as [<-|Ne]; [congruence|]. rewrite lookup_insert_ne by done.
    intros Hx. destruct (Hc j) as [E|(y & y' & Hy & _)]; congruence.
Qed.
Lemma rows_closed_refl m : rows_closed m m.
Proof. intros i. by left. Qed.
(** One row is executed, then others are closed. *)
Lemma automaton_executed m m1 m2 i a c :
  m !! i = Some a -> a_status a = "approved" -> m1 = <[i := c]> m -> a_status c = "executed" -> rows_closed m1 m2 ->
  automaton_step (a_status <$> m) (a_status <$> m2).
Proof.
  intros Hi Hst -> Hc Hcl. apply automaton_rows.
  - intros j x Hx. destruct (Hcl j) as [E|(y & y' & Hy & Hy' & _ & Hact & Hcl')].
    + rewrite E. destruct (base.decide (i = j)) as [<-|Ne]; [|rewrite lookup_insert_ne by done; eauto].
      rewrite lookup_insert_eq. simplify_eq. exists c. split; [done|]. right. rewrite Hst, Hc. vm_compute. list_member.
    + destruct (base.decide (i = j)) as [<-|Ne].
      * rewrite lookup_insert_eq in Hy. injection Hy as <-. rewrite Hc in Hact. exfalso. revert Hact.
        intros Hin%mem_true. vm_compute in Hin. discriminate Hin.
      * rewrite lookup_insert_ne in Hy by done. simplify_eq. exists y'. split; [done|]. right. by apply closed_edge.
  - intros j x Hn. destruct (base.decide (i = j)) as [<-|Ne]; [congruence|].
    destruct (Hcl j) as [E|(y & y' & Hy & _)]; [rewrite E, lookup_insert_ne by done; congruence|].
    rewrite lookup_insert_ne in Hy by done. congruence.
Qed.
Lemma closing_automaton s s' : keyed s -> closing s s' -> automaton_step (phases s) (phases s').
Proof. intros Hk Hc. destruct (Hc Hk) as [_ []]. by apply rows_closed_automaton. Qed.

(** ** The contract *)
Definition approving (d : HumanDecision) : Prop := hd_decision d ∈ ["approve"; "edit_and_approve"].
Definition decided (s : store) (approval_id : string) (P : HumanDecision -> Prop) : Prop :=
  exists k d, decisions s !! k = Some d /\ hd_approval_id d = approval_id /\ P d.
Definition resource_key (b : BusinessAction) : string * string * string * Z :=
  (b_tenant_id b, b_action_type b, b_resource_id b, b_resource_version b).

Record governed (s : store) : Prop := {
  gv_keyed : keyed s;
  gv_one_decision : forall i j d e, decisions s !! i = Some d -> decisions s !! j = Some e ->
    hd_approval_id d = hd_approval_id e -> i = j;
  gv_no_early_decision : forall k d, decisions s !! k = Some d ->
    exists a, approvals s !! hd_approval_id d = Some a /\ a_status a ∉ ["pending"; "withdrawn"];
  gv_approved : forall i a, approvals s !! i = Some a -> a_status a ∈ ["approved"; "executed"] -> decided s i approving;
  gv_rejected : forall i a, approvals s !! i = Some a -> a_status a = "rejected" ->
    decided s i (fun d => hd_decision d = "reject");
  gv_backed : forall k b, actions s !! k = Some b ->
    (exists a, approvals s !! b_approval_id b = Some a /\ a_status a = "executed") /\
    decided s (b_approval_id b) (fun d => approving d /\ hd_action_hash d = Some (b_action_hash b) /\
                                          b_human_decision_id b = Some (hd_id d));
  gv_resource_once : forall i j b c, actions s !! i = Some b -> actions s !! j = Some c ->
    resource_key b = resource_key c -> i = j;
  gv_approval_once : forall i j b c, actions s !! i = Some b -> actions s !! j = Some c ->
    b_approval_id b = b_approval_id c -> i = j;
}.

Lemma governed_empty : governed empty_store.
Proof. split; [apply keyed_empty|..]; intros *; simpl; rewrite ?lookup_empty; done. Qed.

Lemma decided_same s s' i P : decisions s' = decisions s -> decided s i P -> decided s' i P.
Proof. intros E (k & d & Hk & Hd). exists k, d. by rewrite E. Qed.

Lemma inactive_kept s s' i a :
  closes s s' -> approvals s !! i = Some a -> a_status a ∉ ACTIVE_APPROVAL_STATUSES -> approvals s' !! i = Some a.
Proof.
  intros [_ _ _ _ Hc] Ha Hn. destruct (Hc i) as [->|(a0 & a' & E & _ & _ & Hact & _)]; [done|]. by simplify_eq.
Qed.
Lemma closes_status s s' i a' st :
  closes s s' -> approvals s' !! i = Some a' -> a_status a' = st -> st ∉ ["stale"; "failed"] ->
  approvals s !! i = Some a'.
Proof.
  intros [_ _ _ _ Hc] Ha <- Hn. destruct (Hc i) as [<-|(a0 & a1 & _ & E & _ & _ & Hst)]; [done|]. by simplify_eq.
Qed.
Ltac not_listed := let Hx := fresh in intros Hx; apply mem_true in Hx; vm_compute in Hx; discriminate Hx.

Lemma governed_closing s s' : governed s -> closing s s' -> governed s'.
Proof.
  intros [Hk Hone Hno Hap Hrej Hb Hr Ho] Hc. destruct (Hc Hk) as [Hk' Hcl]. pose proof Hcl as [Ed Ea _ _ Hrows].
  assert (forall i P, decided s i P -> decided s' i P) as Hd by eauto using decided_same.
  split; rewrite ?Ed, ?Ea; try done.
  - intros k d Hkd. destruct (Hno _ _ Hkd) as (a & Ha & Hst). destruct (Hrows (hd_approval_id d)) as [->|(a0 & a' & E & E' & _ & _ & Hs')].
    + eauto.
    + exists a'. split; [done|]. rewrite !elem_of_cons, elem_of_nil in Hs'. destruct Hs' as [->|[->|[]]]; not_listed.
  - intros i a Ha Hst. apply Hd. eapply Hap; [|exact Hst]. eapply closes_status; [done..|].
    rewrite !elem_of_cons, elem_of_nil in Hst. destruct Hst as [->|[->|[]]]; not_listed.
  - intros i a Ha Hst. apply Hd. eapply Hrej; [|exact Hst]. eapply closes_status; [exact Hcl|exact Ha|exact Hst|]. not_listed.
  - intros k b Hkb. destruct (Hb _ _ Hkb) as [(a & Ha & Hst) Hdec]. split; [|by apply Hd].
    exists a. split; [|done]. eapply inactive_kept; [done..|]. rewrite Hst. not_listed.
Qed.

(** ** The three ways a ledger grows *)
Section growth.
Context (s s' : store) (i : string) (a a' : ApprovalRequest).
Context (Hg : governed s) (Hk' : keyed s') (Ha : approvals s !! i = Some a)
        (Happ : approvals s' = <[i := a']> (approvals s)).

(** An executed row is not the one that moves. *)
Lemma executed_kept j x :
  approvals s !! j = Some x -> a_status x = "executed" -> a_status a ∈ ACTIVE_APPROVAL_STATUSES ->
  approvals s' !! j = Some x.
Proof.
  intros Hx Hst Hact. rewrite Happ. destruct (base.decide (i = j)) as [<-|Ne]; [|by rewrite lookup_insert_ne].
  exfalso. simplify_eq. rewrite Hst in Hact. revert Hact. not_listed.
Qed.

Lemma governed_decision k d :
  a_status a = "pending" -> decisions s !! k = None -> decisions s' = <[k := d]> (decisions s) -> actions s' = actions s ->
  hd_approval_id d = i -> hd_decision d ∈ ["approve"; "edit_and_approve"; "reject"] ->
  a_status a' = persisted_status (hd_decision d) -> governed s'.
Proof.
  intros Hst Hn Hdec Hact Hd Hin Hst'. pose proof Hg as [_ Hone Hno Hap Hrej Hb Hr Ho].
  assert (forall j e, decisions s !! j = Some e -> hd_approval_id e <> i) as Hfresh.
  { intros j e He E. destruct (Hno _ _ He) as (x & Hx & Hnx). rewrite E in Hx. simplify_eq. rewrite Hst in Hnx. apply Hnx. list_member. }
  assert (forall j P, decided s j P -> decided s' j P) as Hold.
  { intros j P (x & e & He & Hp). exists x, e. rewrite Hdec, lookup_insert_ne; [done|congruence]. }
  assert (decided s' i (fun e => e = d)) as Hnew by (exists k, d; rewrite Hdec, lookup_insert_eq; done).
  assert (a_status a' = "approved" /\ approving d \/ a_status a' = "rejected" /\ hd_decision d = "reject") as Hcase.
  { rewrite Hst'. unfold approving. rewrite !elem_of_cons, elem_of_nil in *. destruct Hin as [E|[E|[E|[]]]]; rewrite E; auto. }
  split; rewrite ?Hact, ?Happ; try done.
  - intros x y e f. rewrite Hdec, !lookup_insert_Some. intros [[<- <-]|[_ He]] [[<- <-]|[_ Hf]] E; [done| | |by eapply Hone].
    + destruct (Hfresh _ _ Hf). congruence.
    + destruct (Hfresh _ _ He). congruence.
  - intros j e. rewrite Hdec, lookup_insert_Some. intros [[<- <-]|[_ He]].
    + exists a'. rewrite Hd, lookup_insert_eq. split; [done|]. destruct Hcase as [[-> _]|[-> _]]; not_listed.
    + destruct (Hno _ _ He) as (x & Hx & Hnx). exists x. split; [|done].
      rewrite lookup_insert_ne; [done|]. intros E. by destruct (Hfresh _ _ He).
  - intros j x [[<- <-]|[_ Hx]]%lookup_insert_Some Hin'; [|by eapply Hold, Hap].
    destruct Hnew as (y & e & He & Hi & ->). exists y, d. destruct Hcase as [[_ ?]|[E _]]; [done|].
    rewrite E in Hin'. revert Hin'. not_listed.
  - intros j x [[<- <-]|[_ Hx]]%lookup_insert_Some Hin'; [|by eapply Hold, Hrej].
    destruct Hnew as (y & e & He & Hi & ->). exists y, d. destruct Hcase as [[E _]|[_ ?]]; [|done]. congruence.
  - intros j b Hj. destruct (Hb _ _ Hj) as [(x & Hx & Hex) Hdx]. split; [|by apply Hold].
    exists x. split; [|done]. rewrite <- Happ. eapply executed_kept; [done..|]. rewrite Hst. list_member.
Qed.

(** A move that neither decides nor acts: to [withdrawn] from pending, or to
    [executed] from approved. *)
Lemma governed_move :
  decisions s' = decisions s -> actions s' = actions s ->
  (a_status a = "pending" /\ a_status a' = "withdrawn") \/ (a_status a = "approved" /\ a_status a' = "executed") ->
  governed s'.
Proof.
  intros Hdec Hact Hst. pose proof Hg as [_ Hone Hno Hap Hrej Hb Hr Ho].
  assert (forall j P, decided s j P -> decided s' j P) as Hold by eauto using decided_same.
  split; rewrite ?Hact, ?Hdec; try done; rewrite ?Happ.
  - intros j e He. destruct (Hno _ _ He) as (x & Hx & Hnx). destruct (base.decide (i = hd_approval_id e)) as [E|Ne].
    + rewrite <- E in *. rewrite Ha in Hx. injection Hx as <-. exists a'. rewrite lookup_insert_eq. split; [done|].
      destruct Hst as [[Hp _]|[_ ->]]; [|not_listed]. rewrite Hp in Hnx. destruct Hnx. list_member.
    + exists x. by rewrite lookup_insert_ne.
  - intros j x [[<- <-]|[_ Hx]]%lookup_insert_Some Hin; [|by eapply Hold, Hap]. apply Hold.
    destruct Hst as [[_ E]|[E _]]; [rewrite E in Hin; revert Hin; not_listed|]. eapply Hap; [exact Ha|]. rewrite E. list_member.
  - intros j x [[<- <-]|[_ Hx]]%lookup_insert_Some Hin; [|by eapply Hold, Hrej]. destruct Hst as [[_ E]|[_ E]]; congruence.
  - intros j b Hj. destruct (Hb _ _ Hj) as [(x & Hx & Hex) Hdx]. split; [|by apply Hold].
    exists x. split; [|done]. rewrite <- Happ. eapply executed_kept; [done..|].
    destruct Hst as [[-> _]|[-> _]]; list_member.
Qed.

(** Another column of the row is written. *)
Lemma governed_touch : decisions s' = decisions s -> actions s' = actions s -> a_status a' = a_status a -> governed s'.
Proof.
  intros Hdec Hact Hst. pose proof Hg as [_ Hone Hno Hap Hrej Hb Hr Ho].
  assert (forall j P, decided s j P -> decided s' j P) as Hold by eauto using decided_same.
  assert (forall j x', approvals s' !! j = Some x' -> exists x, approvals s !! j = Some x /\ a_status x = a_status x') as Hback.
  { intros j x'. rewrite Happ, lookup_insert_Some. intros [[<- <-]|[_ Hx]]; eauto. }
  assert (forall j x, approvals s !! j = Some x -> exists x', approvals s' !! j = Some x' /\ a_status x' = a_status x) as Hfwd.
  { intros j x Hx. rewrite Happ. destruct (base.decide (i = j)) as [<-|Ne]; [|rewrite lookup_insert_ne; eauto].
    rewrite lookup_insert_eq. simplify_eq. eauto. }
  split; rewrite ?Hact, ?Hdec; try done.
  - intros k d Hd. destruct (Hno _ _ Hd) as (x & Hx & Hn). destruct (Hfwd _ _ Hx) as (x' & ? & E). exists x'. by rewrite E.
  - intros j x' Hx' Hin. destruct (Hback _ _ Hx') as (x & Hx & E). eapply Hold, Hap; [done|]. by rewrite E.
  - intros j x' Hx' Hin. destruct (Hback _ _ Hx') as (x & Hx & E). eapply Hold, Hrej; [done|]. congruence.
  - intros k b Hk. destruct (Hb _ _ Hk) as [(x & Hx & Hex) Hdx]. split; [|by apply Hold].
    destruct (Hfwd _ _ Hx) as (x' & ? & E). exists x'. by rewrite E.
Qed.

(** An effect: the approval is executed and the action recorded. *)
Lemma governed_effect k b d j :
  a_status a = "approved" -> a_status a' = "executed" -> decisions s' = decisions s -> actions s !! k = None ->
  actions s' = <[k := b]> (actions s) -> b_approval_id b = i ->
  (forall x c, actions s !! x = Some c -> resource_key c <> resource_key b) ->
  decisions s !! j = Some d -> hd_approval_id d = i -> approving d -> hd_action_hash d = Some (b_action_hash b) ->
  b_human_decision_id b = Some (hd_id d) -> governed s'.
Proof.
  intros Hst Hst' Hdec Hn Hact Hbi Hfresh Hd Hdi Hdap Hdh Hbd. pose proof Hg as [_ Hone Hno Hap Hrej Hb Hr Ho].
  assert (forall j P, decided s j P -> decided s' j P) as Hold by eauto using decided_same.
  assert (forall x c, actions s !! x = Some c -> b_approval_id c <> i) as Hother.
  { intros x c Hc E. destruct (Hb _ _ Hc) as [(y & Hy & Hex) _]. rewrite E, Ha in Hy. simplify_eq. congruence. }
  split; rewrite ?Hdec; try done; rewrite ?Happ.
  - intros x e He. destruct (Hno _ _ He) as (y & Hy & Hny). destruct (base.decide (i = hd_approval_id e)) as [E|Ne].
    + rewrite <- E. exists a'. rewrite lookup_insert_eq, Hst'. split; [done|]. not_listed.
    + exists y. by rewrite lookup_insert_ne.
  - intros x y [[<- <-]|[_ Hy]]%lookup_insert_Some Hin; apply Hold; [|by eapply Hap].
    eapply Hap; [exact Ha|]. rewrite Hst. list_member.
  - intros x y [[<- <-]|[_ Hy]]%lookup_insert_Some Hin; [congruence|]. by eapply Hold, Hrej.
  - intros x c. rewrite Hact, lookup_insert_Some. intros [[<- <-]|[_ Hc]].
    + rewrite Hbi, lookup_insert_eq. split; [eauto|]. exists j, d. by rewrite Hdec.
    + destruct (Hb _ _ Hc) as [(y & Hy & Hex) Hdx]. split; [|by apply Hold].
      exists y. split; [|done]. by rewrite lookup_insert_ne by (intros E; by destruct (Hother _ _ Hc)).
  - intros x y c e. rewrite Hact, !lookup_insert_Some. intros [[<- <-]|[_ Hc]] [[<- <-]|[_ He]] E; [done| | |by eapply Hr].
    + destruct (Hfresh _ _ He). congruence.
    + destruct (Hfresh _ _ Hc). congruence.
  - intros x y c e. rewrite Hact, !lookup_insert_Some. intros [[<- <-]|[_ Hc]] [[<- <-]|[_ He]] E; [done| | |by eapply Ho].
    + destruct (Hother _ _ He). congruence.
    + destruct (Hother _ _ Hc). congruence.
Qed.
End growth.

(** ** Decisions *)
(** The columns a command never writes. *)
Definition request_key (a : ApprovalRequest) :=
  (a_id a, a_tenant_id a, a_ticket_id a, a_customer_id a, a_proposal_id a, a_run_id a, a_action_type a, a_resource_id a,
   a_business_version a).
Lemma request_key_id a b : request_key a = request_key b -> a_id a = a_id b.
Proof. unfold request_key. intros E. by injection E. Qed.

(** The revision a decision binds: the proposal's own payload, or the one
    admissible edit of it under its own digest. *)
Definition selects (ids : command_ids) (q : decide_args) (a : ApprovalRequest) (p : ProposalRecord)
    (base v : ApprovalActionRevision) : Prop :=
  (dc_decision q <> "edit_and_approve" /\ v = base) \/
  (dc_decision q = "edit_and_approve" /\ v_id v = g_revision ids /\ v_approval_id v = a_id a /\ v_revision_number v = 1 /\
   v_resource_version v = v_resource_version base /\
   apply_approval_edit (a_action_type a) (v_action_payload base) (dc_edited q) = Ok (v_action_payload v) /\
   action_hash (v_action_payload v) = Ok (v_action_hash v)).

Record selection (s s1 : store) (a a1 : ApprovalRequest) (v : ApprovalActionRevision) : Prop := {
  sn_keyed : keyed s1;
  sn_key : request_key a1 = request_key a;
  sn_status : a_status a1 = a_status a;
  sn_selected : default "" (a_selected_revision_id a1) = v_id v;
  sn_revision : revisions s1 !! v_id v = Some v;
  sn_approvals : approvals s1 = <[a_id a := a1]> (approvals s);
  sn_decisions : decisions s1 = decisions s;
  sn_actions : actions s1 = actions s;
  sn_billing : billing s1 = billing s;
}.
Lemma selection_loaded s s1 a a1 v : selection s s1 a a1 v -> approvals s1 !! a_id a1 = Some a1.
Proof. intros []. rewrite sn_approvals0, (request_key_id _ _ sn_key0). apply lookup_insert_eq. Qed.

Lemma select_revision_ok s ids a p base actor edited v a1 s1 :
  keyed s -> approvals s !! a_id a = Some a -> default "" (a_selected_revision_id a) = v_id base -> revisions s !! v_id base = Some base ->
  v_revision_number base = 0 ->
  select_revision s ids a p base actor edited = Ok (v, a1, s1) ->
  selection s s1 a a1 v /\
  (edited = [] /\ v = base \/
   edited <> [] /\ v_id v = g_revision ids /\ v_approval_id v = a_id a /\ v_revision_number v = 1 /\
   v_resource_version v = v_resource_version base /\
   apply_approval_edit (a_action_type a) (v_action_payload base) edited = Ok (v_action_payload v) /\
   action_hash (v_action_payload v) = Ok (v_action_hash v)).
Proof.
  intros Hk Ha Hsel Hrev Hzero Ho. unfold select_revision in Ho. destruct (is_nil edited) eqn:En.
  { apply is_nil_true in En. simplify_eq. split; [|by left]. split; try done. by rewrite insert_id. }
  apply is_nil_false in En. destruct (apply_approval_edit _ _ _) as [payload|] eqn:Ee; [|done].
  steps_ok Ho. unfold insert_revision in Hstep0. steps_ok Hstep0. simplify_eq.
  set (w := mk_revision _ _ _ _ _ _ _ _ _ _ _) in Ho. set (f := fun a : ApprovalRequest => _) in Ho.
  assert (a_id (f a) = a_id a) as Hid by done.
  assert (exists n, v = w /\ a1 = set_a_status_version n (f a) /\ s1 = put_approval a1 (put_revision w s)) as (n & -> & -> & ->).
  { destruct (_ ==? _).
    - steps_ok Ho. destruct a2 as [x y]. injection Ho as <- <- <-. apply (flush_loaded (put_revision w s)) in Hstep0 as [-> ->]; [|done..].
      eauto.
    - unfold pending_columns in Ho. change (approvals (put_revision w s)) with (approvals s) in Ho. rewrite Ha in Ho.
      injection Ho as <- <- <-. exists (a_status_version a). split_and!; done. }
  split.
  - split; try done; [auto with keyed|]. unfold put_revision. simpl. apply lookup_insert_eq.
  - right. unfold w. simpl. rewrite Hzero. done.
Qed.

Section deciding.
Context `{PyRuntime}.

(** What a recorded decision leaves in the ledger. *)
Lemma record_decision_ok s ev ids q a b v job s' :
  keyed s -> record_decision s ev ids q a b v = Ok (job, s') ->
  job = (if dc_decision q !=? "reject" then Some (g_job ids) else None) /\
  keyed s' /\ approvals s' = approvals s /\ actions s' = actions s /\ revisions s' = revisions s /\
  decisions s !! g_decision ids = None /\
  exists d, decisions s' = <[g_decision ids := d]> (decisions s) /\ hd_id d = g_decision ids /\
    hd_approval_id d = a_id a /\ hd_actor_id d = dc_actor_id q /\ hd_decision d = dc_decision q /\
    hd_action_revision_id d = Some (v_id v) /\ hd_action_hash d = Some (v_action_hash v) /\
    hd_decision_hash d <> None /\ hd_canonical_event_id d <> None /\ hd_created_at d = database_now ev.
Proof.
  intros Hk Ho. unfold record_decision in Ho.
  apply res_bind_ok in Ho as (h & _ & Ho). apply res_bind_ok in Ho as (s1 & H1 & Ho).
  apply res_bind_ok in Ho as ([e s2] & H2 & Ho). apply res_bind_ok in Ho as (s3 & H3 & Ho).
  apply res_bind_ok in Ho as (s4 & H4 & Ho). apply res_bind_ok in Ho as (s5 & H5 & Ho). injection Ho as <- <-.
  unfold insert_decision in H3. steps_ok H3. apply orb_false_iff in Hguard as [Hn _]. apply isSome_false in Hn.
  set (d := mk_decision_row _ _ _ _ _ _ _ _ _ _ _ _ _) in *. change (hd_id d) with (g_decision ids) in Hn. injection H3 as <-.
  assert (silent s s2) as S2.
  { eapply decision_event_silent; [exact H2|]. destruct (neqb _ _); [eauto with silent|]. injection H1 as <-. auto with silent. }
  destruct (S2 Hk) as [K2 [A2 D2 B2 R2 _]].
  assert (silent (put_decision d s2) s5) as S5.
  { eapply insert_audit_silent; [exact H5|]. destruct (neqb _ _); eauto with silent. }
  destruct S5 as [K5 [A5 D5 B5 R5 _]]; [auto with keyed|]. split; [done|].
  rewrite A5, B5, D5, R5. split_and!; [done|exact A2|exact B2|exact R2|by rewrite <- D2|].
  exists d. split_and!; try done. unfold put_decision. simpl. by rewrite D2.
Qed.

(** A decision on a pending approval. *)
Record pending_decision (s s' : store) (ev : env) (ids : command_ids) (q : decide_args) (a : ApprovalRequest) : Prop := {
  pd_status : a_status a = "pending";
  pd_decision : dc_decision q ∈ ["approve"; "edit_and_approve"; "reject"];
  pd_keyed : keyed s';
  pd_actions : actions s' = actions s;
  pd_fresh : decisions s !! g_decision ids = None;
  pd_rows : exists p base v a' d,
    proposals s !! default "" (a_proposal_id a) = Some p /\ revision_bound a p base = true /\ selects ids q a p base v /\
    (dc_decision q <> "reject" -> a_action_type a = "refund" ->
     exists c e, lock_and_evaluate_billing_refund_pair (billing s) (billing s) (a_tenant_id a) (a_customer_id a)
                 (a_resource_id a) (utc (clock ev)) = Ok (Some c, Some e) /\
                 eligible e = true /\ refund_pair_matches_proposal e (p_refund_binding p) = true) /\
    approvals s' = <[a_id a := a']> (approvals s) /\ request_key a' = request_key a /\
    a_status a' = persisted_status (dc_decision q) /\ a_decided_at a' = Some (clock ev) /\
    default "" (a_selected_revision_id a') = v_id v /\ revisions s' !! v_id v = Some v /\
    decisions s' = <[g_decision ids := d]> (decisions s) /\ hd_id d = g_decision ids /\ hd_approval_id d = a_id a /\
    hd_actor_id d = dc_actor_id q /\ hd_decision d = dc_decision q /\ hd_action_revision_id d = Some (v_id v) /\
    hd_action_hash d = Some (v_action_hash v);
}.

Lemma validate_binding_ok s a b :
  _validate_binding s a = Ok b ->
  a_status a = "pending" /\ runs s !! default "" (a_run_id a) = Some (db_run b) /\
  tickets s !! a_ticket_id a = Some (db_ticket b) /\ proposals s !! default "" (a_proposal_id a) = Some (db_proposal b) /\
  p_status (db_proposal b) = "bound" /\ r_status (db_run b) = "interrupted" /\
  (exists h, verify_ticket_event_chain s (t_id (db_ticket b)) = Ok h) /\ is_Some (a_run_id a).
Proof.
  unfold _validate_binding. intros Ho. steps_ok Ho. rewrite !orb_false_iff in Hguard. destruct Hguard as [[Hr _] _].
  destruct (get_where (runs s) _ _) as [run|] eqn:Er; [|done]. destruct (get_where (tickets s) _ _) as [t|] eqn:Et; [|done].
  destruct (get_where (proposals s) _ _) as [p|] eqn:Ep; [|done]. destruct (get_where (markers s) _ _) as [m|] eqn:Em; [|done].
  steps_ok Ho. injection Ho as <-. apply get_where_some in Er as [Er _], Et as [Et _], Ep as [Ep _].
  apply negb_false_iff in Hguard. unfold checkpoint_bound in Hguard. rewrite !andb_true_iff, !eqb_true in Hguard.
  apply catch_ok in Hstep. destruct (a_run_id a); [|done]. simpl. split_and!; try tauto; eauto.
Qed.

Lemma recheck_ok s ev a p s' :
  recheck_refund s ev a p = Ok s' -> a_action_type a = "refund" ->
  exists c e, lock_and_evaluate_billing_refund_pair (billing s) (billing s) (a_tenant_id a) (a_customer_id a)
                (a_resource_id a) (utc (clock ev)) = Ok (Some c, Some e) /\
              eligible e = true /\ refund_pair_matches_proposal e (p_refund_binding p) = true.
Proof.
  unfold recheck_refund. intros Ho Ht. rewrite (proj2 (eqb_true _ _) Ht) in Ho. steps_ok Ho.
  destruct a0 as [[c|] [e|]]; try done. steps_ok Ho. rewrite orb_false_iff, !negb_false_iff in Hguard.
  exists c, e. tauto.
Qed.

Lemma decide_pending_ok s ev ids q a job tid rid s' :
  keyed s -> approvals s !! a_id a = Some a -> decide_pending s ev ids q a = Ok (job, tid, rid, s') ->
  pending_decision s s' ev ids q a.
Proof.
  intros Hk Ha Ho. unfold decide_pending in Ho. apply res_bind_ok in Ho as (b & Hb & Ho).
  apply validate_binding_ok in Hb as (Hst & _ & _ & Hp & _). steps_ok Ho.
  apply negb_false_iff in Hguard. rewrite mem_true in Hguard.
  destruct (revisions s !! default "" (a_selected_revision_id a)) as [base|] eqn:Er; [|done]. steps_ok Ho.
  apply negb_false_iff in Hguard0. rewrite neqb_false in Hguard1. pose proof (keyed_revisions _ Hk _ _ Er) as Eid.
  assert (v_revision_number base = 0) as Hzero.
  { unfold revision_bound in Hguard0. rewrite !andb_true_iff, Z.eqb_eq in Hguard0. tauto. }
  destruct a0 as [[v a1] s1]. rewrite <- Eid in Er.
  destruct (select_revision_ok _ _ _ _ _ _ _ _ _ _ Hk Ha (eq_sym Eid) Er Hzero Hstep) as [Hsn Hsel].
  pose proof (selection_loaded _ _ _ _ _ Hsn) as Hload. destruct Hsn as [K1 Hkey Hst1 Hsel1 Hrev1 HA HD HB Hbill].
  apply res_bind_ok in Ho as (s2 & H2 & Ho). apply res_bind_ok in Ho as ([[r a2] s3] & H3 & Ho). steps_ok Ho.
  destruct a0 as [job' s4]. injection Ho as <- <- <- <-. simpl in Hstep0.
  assert (silent s1 s2) as S2.
  { destruct (_ in? _); [by eapply recheck_silent; [exact H2|apply silent_refl]|]. injection H2 as <-. apply silent_refl. }
  destruct (S2 K1) as [K2 [A2 D2 B2 R2 _]]. rewrite <- A2 in Hload.
  assert (a_status a1 <> persisted_status (dc_decision q)) as Hne.
  { rewrite Hst1, Hst. unfold persisted_status. destruct (dc_decision q ==? "reject"); discriminate. }
  destruct (transition_loaded _ _ _ _ _ _ _ _ _ Hload Hne H3) as (-> & -> & _ & _).
  set (a2 := moved_to _ _ a1) in *. assert (request_key a2 = request_key a) as Hkey2 by done.
  apply record_decision_ok in Hstep0 as (_ & K4 & A4 & B4 & R4 & Hn & d & D4 & Hd); [|auto with keyed].
  assert (a_id a2 = a_id a) as Eid2 by (by apply request_key_id).
  split; [done|done|done| | |].
  - rewrite B4. simpl. congruence.
  - simpl in Hn. by rewrite D2, HD in Hn.
  - exists (db_proposal b), base, v, a2, d. split_and!; try tauto.
    + unfold selects. destruct Hsel as [[En ->]|[En Hv]].
      * left. rewrite En in Hguard1. split; [|done]. intros E. by rewrite (proj2 (eqb_true _ _) E) in Hguard1.
      * right. split; [|done]. apply eqb_true. rewrite Hguard1. apply negb_true_iff. by apply is_nil_false.
    + intros Hnr Htype. rewrite (proj2 (mem_true _ _)) in H2; [|rewrite !elem_of_cons in *; tauto].
      apply recheck_ok in H2; [|unfold request_key in Hkey; injection Hkey; congruence].
      unfold request_key in Hkey. injection Hkey as E1 E2 E3 E4 E5 E6 E7 E8 E9. by rewrite Hbill, E2, E4, E8 in H2.
    + rewrite A4. change (approvals (put_approval a2 s2)) with (<[a_id a2 := a2]> (approvals s2)). rewrite Eid2, A2, HA. apply insert_insert_eq.
    + rewrite R4. simpl. by rewrite R2.
    + rewrite D4. simpl. by rewrite D2, HD.
    + destruct Hd as (_ & -> & _). done.
Qed.

Lemma accept_store s ev id tn pr rt key p r sn ex c s' :
  accept s ev id tn pr rt key p r sn ex = Ok (c, s') -> s' = s \/ exists i, s' = put_idempotency i s.
Proof. unfold accept. intros Ho. res_cases Ho; eauto. Qed.
Lemma pending_decision_record s s1 s2 s3 ev ids q a i :
  s1 = s \/ (exists r, s1 = put_idempotency r s) -> s3 = put_idempotency i s2 ->
  pending_decision s1 s2 ev ids q a -> pending_decision s s3 ev ids q a.
Proof.
  intros [->|[r ->]] -> []; split; try done; try (by apply keyed_put_idempotency).
Qed.

(** A decision command answers from the record of an earlier one, changing
    nothing in the ledger, or decides a pending approval for the first time. *)
Lemma decide_ok s ev ids q d s' :
  keyed s -> decide_approval s ev ids q = Ok (d, s') ->
  (da_reused d = true /\ silent s s') \/
  (da_reused d = false /\ assert_active_approver_scope s (dc_tenant_id q) (dc_actor_id q) = Ok tt /\
   exists a, approvals s !! dc_approval_id q = Some a /\ a_tenant_id a = dc_tenant_id q /\
     (forall k h, decisions s !! k = Some h -> hd_approval_id h <> a_id a) /\ pending_decision s s' ev ids q a).
Proof.
  intros Hk Ho. unfold decide_approval in Ho. steps_ok Ho.
  destruct (get_where (approvals s) _ _) as [a|] eqn:Ea; [|done]. apply get_where_some in Ea as [Ea Et]. rewrite eqb_true in Et.
  apply res_bind_ok in Ho as ([] & Hscope & Ho). apply res_bind_ok in Ho as ([c s1] & Hacc & Ho).
  assert (silent s s1) as S1 by (eapply accept_silent; [exact Hacc|apply silent_refl]). apply accept_store in Hacc.
  destruct (S1 Hk) as [K1 [A1 D1 _ _ _]]. pose proof (keyed_approvals _ Hk _ _ Ea) as Eid.
  destruct (reused c && _); [steps_ok Ho; left; unfold replay_decision in Hstep; steps_ok Hstep; by simplify_eq|].
  destruct (head _) as [h|] eqn:Eh.
  - steps_ok Ho. injection Ho as <- <-. left. split; [done|]. eapply store_decision_silent; [exact Hstep|done].
  - apply res_bind_ok in Ho as ([[[job tid] rid] s2] & Hp & Ho). steps_ok Ho. injection Ho as <- <-. right.
    assert (approvals s1 !! a_id a = Some a) as Ea1 by (rewrite A1, Eid; done).
    apply decide_pending_ok in Hp; [|done..]. split; [done|]. rewrite <- Et. split; [done|]. exists a. split_and!; [done..| |].
    + intros k h Hkh E. rewrite <- D1 in Hkh. destruct (select_where _ _) as [|y l] eqn:El; [|done].
      assert (h ∈ @nil HumanDecision) as []%elem_of_nil. rewrite <- El. apply select_where_elem. split; [eauto|]. by apply eqb_true.
    + unfold _store_idempotent_response in Hstep. steps_ok Hstep. injection Hstep as <-.
      eapply pending_decision_record; [exact Hacc|reflexivity|exact Hp].
Qed.

Lemma governed_decide s ev ids q d s' : governed s -> decide_approval s ev ids q = Ok (d, s') -> governed s'.
Proof.
  intros Hg Ho. destruct (decide_ok _ _ _ _ _ _ (gv_keyed _ Hg) Ho) as [[_ Hs]|(_ & _ & a & Ha & _ & _ & Hp)].
  - eapply governed_closing; [done|]. by apply silent_closing.
  - destruct Hp as [Hst Hin Hk' Hact Hn (p & base & v & a' & h & _ & _ & _ & _ & Happ & _ & Hst' & _ & _ & _ & Hdec & _ & Hi & _ & Hd & _)].
    pose proof (keyed_approvals _ (gv_keyed _ Hg) _ _ Ha) as Eid. rewrite Eid in *.
    eapply (governed_decision s s' (dc_approval_id q) a a'); try done; by rewrite Hd.
Qed.

(** ** Withdrawals *)
Lemma withdraw_ok loaded s ev ids q w s' :
  keyed s -> withdraw loaded s ev ids q = Ok (w, s') ->
  (wa_reused w = true /\ silent s s') \/
  (wa_reused w = false /\ keyed s' /\ decisions s' = decisions s /\ actions s' = actions s /\
   exists a a', approvals s !! wq_approval_id q = Some a /\ a_customer_id a = wq_customer_id q /\ a_status a = "pending" /\
     (forall k h, decisions s !! k = Some h -> hd_approval_id h <> a_id a) /\
     approvals s' = <[a_id a := a']> (approvals s) /\ request_key a' = request_key a /\ a_status a' = "withdrawn").
Proof.
  intros Hk Ho. unfold withdraw in Ho. destruct (get_where (approvals s) _ _) as [a|] eqn:Ea; [|done].
  apply get_where_some in Ea as [Ea _]. steps_ok Ho. rewrite neqb_false in Hguard.
  destruct (get_where (tickets s) _ _) as [t|]; [|done]. apply res_bind_ok in Ho as ([c s1] & Hacc & Ho).
  assert (silent s s1) as S1 by (eapply accept_silent; [exact Hacc|apply silent_refl]).
  destruct (S1 Hk) as [K1 [A1 D1 B1 _ _]]. pose proof (keyed_approvals _ Hk _ _ Ea) as Eid.
  destruct (reused c && _); [steps_ok Ho; left; by simplify_eq|]. destruct (head _) as [x|].
  { steps_ok Ho. injection Ho as <- <-. left. split; [done|]. eapply store_withdrawal_silent; [exact Hstep|done]. }
  steps_ok Ho. rewrite !orb_false_iff in Hguard0. destruct Hguard0 as [[Hst Hnd] _]. rewrite neqb_false in Hst.
  destruct (get_where (proposals s1) _ _) as [p|]; [|done]. apply res_bind_ok in Ho as ([[r a1] s2] & Ht & Ho).
  apply transition_loaded in Ht as (-> & -> & _); [|by rewrite A1, Eid|by rewrite Hst].
  set (a1 := moved_to _ _ a) in *. steps_ok Ho. destruct a4 as [st s6], a3 as [o s5]. injection Ho as <- <-. right.
  assert (silent (put_approval a1 s1) s6) as S2 by eauto 10 with silent.
  destruct S2 as [K6 [A6 D6 B6 _ _]]; [auto with keyed|]. split_and!; [done|done|by rewrite D6|by rewrite B6|].
  exists a, a1. split_and!; try done.
  - intros k h Hkh E. rewrite <- D1 in Hkh. rewrite exists_where_false in Hnd. specialize (Hnd _ _ Hkh).
    simpl in Hnd. rewrite E, eqb_refl in Hnd. done.
  - rewrite A6. change (approvals (put_approval a1 s1)) with (<[a_id a1 := a1]> (approvals s1)). by rewrite A1.
Qed.
Lemma governed_withdraw loaded s ev ids q w s' : governed s -> withdraw loaded s ev ids q = Ok (w, s') -> governed s'.
Proof.
  intros Hg Ho. destruct (withdraw_ok _ _ _ _ _ _ _ (gv_keyed _ Hg) Ho) as
    [[_ Hs]|(_ & Hk' & Hd & Hb & a & a' & Ha & _ & Hst & _ & Happ & _ & Hst')].
  - eapply governed_closing; [done|]. by apply silent_closing.
  - pose proof (keyed_approvals _ (gv_keyed _ Hg) _ _ Ha) as Eid. rewrite Eid in Happ.
    eapply (governed_move s s'); try done. by left.
Qed.

Lemma mark_stale_closing s tn aid r s' : keyed s -> mark_binding_stale s tn aid = Ok (r, s') -> closing s s'.
Proof.
  intros Hk Ho. unfold mark_binding_stale in Ho. destruct (get_where (approvals s) _ _) as [a|] eqn:Ea.
  - apply get_where_some in Ea as [Ea _]. rewrite <- (keyed_approvals _ Hk _ _ Ea) in Ea. steps_ok Ho. destruct a0 as [[t a1] s1].
    destruct (transition_closing s a "stale" _ _ _ _ _ _ Ea ltac:(list_member) Hstep) as (Hc & _).
    eapply closing_trans; [exact Hc|]. apply silent_closing. injection Ho as _ <-. repeat case_match; eauto with silent.
  - injection Ho as _ <-. apply silent_closing, silent_refl.
Qed.
Lemma conversation_silent s ev ids u q l s' : transition_conversation s ev ids u q = Ok (l, s') -> silent s s'.
Proof.
  unfold transition_conversation. intros Ho. steps_ok Ho. destruct (get_where (tickets s) _ _) as [t|]; [|done].
  apply res_bind_ok in Ho as ([c s1] & Hacc & Ho). assert (silent s s1) as S1 by (eapply accept_silent; [exact Hacc|apply silent_refl]).
  destruct (reused c && _); [steps_ok Ho; by simplify_eq|]. apply res_bind_ok in Ho as ([n s2] & H2 & Ho). steps_ok Ho. injection Ho as _ <-.
  eapply store_lifecycle_silent; [exact Hstep|]. simpl. destruct (eqb _ _); [by simplify_eq|]. steps_ok H2. injection H2 as _ <-.
  eapply insert_audit_silent; [exact Hstep0|]. auto with silent.
Qed.
End deciding.

(** ** Effects *)
Lemma select_where_ids {A} (key : A -> string) (f : A -> bool) (t : gmap string A) :
  (forall i r, t !! i = Some r -> key r = i) -> NoDup (map key (select_where f t)).
Proof.
  intros Hk. unfold select_where, rows.
  assert (NoDup (map key (map snd (map_to_list t)))) as Hnd.
  { rewrite List.map_map. replace (map (fun x : string * A => key x.2) (map_to_list t)) with (map fst (map_to_list t)).
    - apply NoDup_fst_map_to_list.
    - apply map_ext_in. intros [i r] Hin. apply list_elem_of_In, elem_of_map_to_list in Hin. simpl. symmetry. eauto. }
  induction (map snd (map_to_list t)) as [|x l IH]; simpl in *; [done|]. apply NoDup_cons in Hnd as [Hx Hnd].
  destruct (f x); simpl; [|auto]. constructor; [|auto]. intros Hin. apply Hx. apply list_elem_of_fmap in Hin as (y & -> & Hy).
  apply list_elem_of_fmap. exists y. split; [done|]. apply list_elem_of_In in Hy. apply filter_In in Hy as [Hy _].
  by apply list_elem_of_In.
Qed.

Lemma stale_all_ok s l s' :
  keyed s -> (forall x, x ∈ l -> approvals s !! a_id x = Some x) -> NoDup (map a_id l) -> stale_all s l = Ok s' ->
  closing s s' /\ forall i, i ∉ map a_id l -> approvals s' !! i = approvals s !! i.
Proof.
  revert s. induction l as [|x l IH]; intros s Hk Hl Hnd Ho; simpl in *.
  { injection Ho as <-. split; [apply silent_closing, silent_refl|done]. }
  apply NoDup_cons in Hnd as [Hx Hnd]. apply res_bind_ok in Ho as ([[r x'] s1] & Ht & Ho).
  destruct (transition_closing s x "stale" _ _ _ _ _ _ (Hl x ltac:(by left)) ltac:(list_member) Ht) as (Hc & _ & _ & Hkeep).
  destruct (Hc Hk) as [K1 _]. destruct (IH s1 K1) as [Hc' Hkeep']; [|done..|].
  - intros y Hy. rewrite Hkeep; [apply Hl; by right|]. intros E. apply Hx. rewrite <- E. apply list_elem_of_fmap. eauto.
  - split; [by eapply closing_trans|]. intros i Hi. rewrite Hkeep', Hkeep; [done| |]; set_solver.
Qed.
Lemma competing_ok s a bid s' :
  keyed s -> _stale_competing_refund_approvals s a bid = Ok s' ->
  closing s s' /\ approvals s' !! a_id a = approvals s !! a_id a.
Proof.
  intros Hk Ho. unfold _stale_competing_refund_approvals in Ho. apply stale_all_ok in Ho as [Hc Hkeep]; [| done | |].
  - split; [done|]. apply Hkeep. intros (y & E & Hy)%list_elem_of_fmap. apply select_where_elem in Hy as [_ Hy].
    unfold competing_refund in Hy. rewrite !andb_true_iff, neqb_true in Hy. intuition congruence.
  - intros x Hx. apply select_where_elem in Hx as [(i & Hi) _]. by rewrite (keyed_approvals _ Hk _ _ Hi).
  - apply select_where_ids. exact (keyed_approvals _ Hk).
Qed.

Lemma insert_action_ok s b s' :
  insert_action s b = Ok s' ->
  s' = put_action b s /\ actions s !! b_id b = None /\
  (forall x c, actions s !! x = Some c -> resource_key c <> resource_key b).
Proof.
  unfold insert_action. intros Ho. steps_ok Ho. injection Ho as <-. rewrite !orb_false_iff, isSome_false in Hguard.
  destruct Hguard as [[[Hn _] Hr] _]. split_and!; [done..|]. intros x c Hc E. rewrite exists_where_false in Hr.
  specialize (Hr _ _ Hc). cbv beta in Hr. unfold resource_key in E. injection E as E1 E2 E3 E4. by rewrite E1, E2, E3, E4, !eqb_refl, Z.eqb_refl in Hr.
Qed.

Section executing.
Context `{PyRuntime}.

Lemma executor_stale_ok s ev ids a rid reason r s' :
  keyed s -> approvals s !! a_id a = Some a -> _mark_stale s ev ids a rid reason = Ok (r, s') ->
  closing s s' /\ r = mk_result None (a_action_type a) rid false "stale" (Some reason) /\ a_status a <> "executed".
Proof.
  intros Hk Ha Ho. unfold _mark_stale in Ho. apply res_bind_ok in Ho as ([[t a1] s1] & Ht & Ho).
  assert (a_status a <> "executed") as Hnx.
  { apply transition_ok in Ht as [(_ & -> & _)|(_ & _ & _ & _ & _ & Hedge & _)]; [done|]. intros E.
    apply edge_active in Hedge. rewrite E in Hedge. revert Hedge. not_listed. }
  destruct (transition_closing s a "stale" _ _ _ _ _ _ Ha ltac:(list_member) Ht) as (Hc & _).
  assert (a_action_type a1 = a_action_type a) as Et.
  { apply transition_ok in Ht as [(_ & _ & -> & _)|(_ & _ & _ & _ & _ & _ & Hf)]; [done|].
    by apply flush_approval_ok in Hf as (? & _ & _ & -> & _). }
  set (s2 := if truthy_opt _ then _ else _) in Ho.
  assert (silent s1 s2) as S2 by (unfold s2; repeat case_match; auto with silent). clearbody s2.
  apply res_bind_ok in Ho as (s3 & H3 & Ho). injection Ho as <- <-. rewrite Et. split; [|done].
  eapply closing_trans; [exact Hc|]. apply silent_closing. destruct (runs s2 !! _); [|by simplify_eq].
  destruct (decision_of _ _); [|done]. steps_ok H3. injection H3 as <-. destruct a2 as [e s4].
  eapply reconciliation_silent; [exact Hstep|done].
Qed.

(** The one resource an effect changes: it belongs to the approval's tenant and
    customer, is at the approved version, and moves to the next one. *)
Inductive resource_change (s : store) (a : ApprovalRequest) (v : ApprovalActionRevision) (rid : string) :
    gmap string BillingRecord * gmap string ApiKeyMetadata * gmap string Subscription -> Prop :=
| rc_refund c e p :
    a_action_type a = "refund" -> billing s !! rid = Some c -> tenant_id c = a_tenant_id a -> customer_id c = a_customer_id a ->
    status c = "charged" -> version c = v_resource_version v ->
    proposals s !! default "" (a_proposal_id a) = Some p -> refund_pair_matches_proposal e (p_refund_binding p) = true ->
    resource_change s a v rid (<[rid := refund_billing c]> (billing s), api_keys s, subscriptions s)
| rc_key i k :
    a_action_type a = "api_key_revocation" -> api_keys s !! i = Some k -> ky_key_id k = rid -> ky_tenant_id k = a_tenant_id a ->
    ky_customer_id k = a_customer_id a -> ky_status k = "active" -> ky_version k = v_resource_version v ->
    resource_change s a v rid
      (billing s, <[i := k |> set_ky_status "revoked" |> set_ky_version (ky_version k + 1)]> (api_keys s), subscriptions s)
| rc_entitlement x y target :
    a_action_type a = "entitlement_change" -> subscriptions s !! rid = Some x -> sb_tenant_id x = a_tenant_id a ->
    sb_customer_id x = a_customer_id a -> sb_version x = v_resource_version v -> apply_target x target = Ok y ->
    entitlement_refusal s x (py_str (dget_or "change_type" (PyStr "") (v_action_payload v))) target = Ok None ->
    resource_change s a v rid (billing s, api_keys s, <[rid := set_sb_version (sb_version x + 1) y]> (subscriptions s)).

(** What a committed effect leaves before it is bound to its decision. *)
Record effected (s s' : store) (ids : command_ids) (a : ApprovalRequest) (v : ApprovalActionRevision) (rid : string)
    (b : BusinessAction) : Prop := {
  ef_keyed : keyed s';
  ef_decisions : decisions s' = decisions s;
  ef_revisions : revisions s' = revisions s;
  ef_rows : rows_closed (approvals s) (approvals s');
  ef_self : approvals s' !! a_id a = Some a;
  ef_fresh : actions s !! g_action ids = None;
  ef_actions : actions s' = <[g_action ids := b]> (actions s);
  ef_once : forall x c, actions s !! x = Some c -> resource_key c <> resource_key b;
  ef_id : b_id b = g_action ids;
  ef_approval : b_approval_id b = a_id a;
  ef_hash : b_action_hash b = v_action_hash v;
  ef_resource : resource_key b = (a_tenant_id a, a_action_type a, rid, v_resource_version v);
  ef_change : resource_change s a v rid (business s');
}.

Lemma action_ok id a v rid result b :
  _action id a v rid result = Ok b ->
  b_id b = id /\ b_approval_id b = a_id a /\ b_action_hash b = v_action_hash v /\
  resource_key b = (a_tenant_id a, a_action_type a, rid, v_resource_version v).
Proof. unfold _action. intros Ho. steps_ok Ho. injection Ho as <-. done. Qed.

(** A write to the resource, the insertion of the action, and a closing step. *)
Lemma effected_intro s s1 s2 s3 ids a v rid result b :
  keyed s1 -> approvals s1 = approvals s -> decisions s1 = decisions s -> actions s1 = actions s ->
  revisions s1 = revisions s -> resource_change s a v rid (business s1) ->
  approvals s !! a_id a = Some a -> _action (g_action ids) a v rid result = Ok b ->
  insert_action s1 b = Ok s2 -> closing s2 s3 -> approvals s3 !! a_id a = approvals s2 !! a_id a ->
  effected s s3 ids a v rid b.
Proof.
  intros K1 A1 D1 B1 R1 Hch Ha Hb Hi Hc Hself.
  apply action_ok in Hb as (Eb & Ea & Eh & Er). apply insert_action_ok in Hi as (-> & Hn & Hu).
  destruct Hc as [K3 [D3 B3 R3 Bu3 A3]]; [auto with keyed|]. change (business (put_action b s1)) with (business s1) in Bu3.
  rewrite <- Bu3 in Hch. simpl in *. rewrite ?Eb, ?B1, ?D1, ?A1, ?R1 in *. split; try done. congruence.
Qed.

Lemma refund_change s ev a v rid c e :
  keyed s -> a_action_type a = "refund" ->
  lock_and_evaluate_billing_refund_pair (billing s) (billing s) (a_tenant_id a) (a_customer_id a) rid (utc (clock ev)) = Ok (Some c, e) ->
  refund_snapshot_valid a (v_resource_version v) (v_action_payload v) (proposals s !! default "" (a_proposal_id a)) c e = true ->
  resource_change s a v rid (business (put_billing (refund_billing c) s)).
Proof.
  intros Hk Ht Hl Hv. apply lock_target in Hl; [|exact (keyed_billing _ Hk)]. apply select_billing_some in Hl as (Hc & Htn & Hcu).
  unfold refund_snapshot_valid in Hv. rewrite !andb_true_iff in Hv. destruct Hv as [[[[[[[_ _] Hst] Hver] _] _] _] Hm].
  rewrite eqb_true in Hst. apply Z.eqb_eq in Hver. destruct e as [e|]; [|done].
  destruct (proposals s !! _) as [p|] eqn:Ep; [|done].
  pose proof (rc_refund s a v rid c e p Ht Hc Htn Hcu Hst Hver Ep Hm) as Hr.
  unfold business, put_billing. simpl. by rewrite (keyed_billing _ Hk _ _ Hc).
Qed.
Lemma key_found (f : ApiKeyMetadata -> bool) (t : gmap string ApiKeyMetadata) k :
  head (select_where f t) = Some k -> (exists i, t !! i = Some k) /\ f k = true.
Proof.
  intros Hh. destruct (select_where f t) as [|x l] eqn:El; [done|]. injection Hh as ->.
  assert (k ∈ k :: l) as Hin by (by left). rewrite <- El in Hin. by apply select_where_elem.
Qed.
Lemma apply_target_identity x t y :
  apply_target x t = Ok y -> sb_id y = sb_id x /\ sb_version y = sb_version x.
Proof.
  unfold apply_target. intros Ho. steps_ok Ho. injection Ho as <-.
  destruct (dhas "rpm_limit" t); steps_ok Hstep; injection Hstep as <-;
    (destruct (dhas "concurrency_limit" t); steps_ok Hstep0; injection Hstep0 as <-); by destruct (dhas "plan" t).
Qed.

Lemma run_effect_ok s ev ids a v rid tr r s' :
  keyed s -> approvals s !! a_id a = Some a -> run_effect s ev ids a v rid tr = Ok (r, s') ->
  (ar_status r = "stale" /\ ar_business_action_id r = None /\ ar_reused r = false /\ closing s s') \/
  (exists b, r = succeeded (g_action ids) (a_action_type a) rid false /\ effected s s' ids a v rid b).
Proof.
  intros Hk Ha Ho. unfold run_effect in Ho.
  assert (forall reason r s', _mark_stale s ev ids a rid reason = Ok (r, s') ->
            ar_status r = "stale" /\ ar_business_action_id r = None /\ ar_reused r = false /\ closing s s') as Hstale.
  { intros reason r0 s0 (Hc & -> & _)%executor_stale_ok; done. }
  destruct (a_action_type a ==? "refund") eqn:Ty1; [|destruct (a_action_type a ==? "api_key_revocation") eqn:Ty2;
    [|destruct (a_action_type a ==? "entitlement_change") eqn:Ty3; [|done]]].
  - rewrite eqb_true in Ty1. unfold _refund in Ho. apply res_bind_ok in Ho as ([c e] & Hl & Ho). simpl in Ho.
    destruct c as [c|]; [|left; eauto]. destruct (refund_snapshot_valid _ _ _ _ _ _) eqn:Hv; [|left; eauto].
    steps_ok Ho. injection Ho as <- <-. right. pose proof (action_ok _ _ _ _ _ _ Hstep) as (Eb & _ & _ & Er).
    unfold resource_key in Er. injection Er as _ Et _ _. rewrite Eb, Et. exists a0. split; [done|].
    pose proof (insert_action_ok _ _ _ Hstep0) as (E1 & _). apply competing_ok in Hstep1 as [Hc Hself];
      [|subst a1; auto with keyed].
    assert (silent a2 a3) as S3 by eauto with silent.
    eapply (effected_intro s (put_billing (refund_billing c) s) a1 a3); [|done..| |done|exact Hstep|exact Hstep0| |]; [auto with keyed|by eapply refund_change| |].
    + eapply closing_trans; [exact Hc|by apply silent_closing].
    + rewrite <- Hself. unfold insert_audit in Hstep2. steps_ok Hstep2. by injection Hstep2 as <-.
  - rewrite eqb_true in Ty2. unfold _revoke_key in Ho. destruct (head _) as [k|] eqn:Ek; [|left; eauto].
    apply key_found in Ek as [[i Hi] Hf]. rewrite !andb_true_iff, !eqb_true in Hf. destruct Hf as [[Ht Hcu] Hid].
    destruct (_ && _ && _) eqn:Eg; [|left; eauto]. rewrite !andb_true_iff, eqb_true, Z.eqb_eq in Eg. destruct Eg as [[Hst Hver] _].
    steps_ok Ho. injection Ho as <- <-. right. pose proof (action_ok _ _ _ _ _ _ Hstep) as (Eb & _ & _ & Er).
    unfold resource_key in Er. injection Er as _ Et _ _. rewrite Eb, Et. exists a0. split; [done|].
    eapply (effected_intro s (put_api_key _ s) a1 a1); [|done..| |done|exact Hstep|exact Hstep0|apply silent_closing, silent_refl|done]; [auto with keyed|].
    pose proof (rc_key s a v rid i k Ty2 Hi Hid Ht Hcu Hst Hver) as Hr. unfold business, put_api_key. simpl.
    by rewrite (keyed_api_keys _ Hk _ _ Hi).
  - rewrite eqb_true in Ty3. unfold _change_entitlement in Ho. destruct (get_where _ _ _) as [sub|] eqn:Eg; [|left; eauto].
    apply get_where_some in Eg as [Hsub Hf]. rewrite andb_true_iff, !eqb_true in Hf. destruct Hf as [Ht Hcu].
    destruct (neqb _ _) eqn:Ever; [left; eauto|]. rewrite neqb_false in Ever.
    steps_ok Ho. destruct a1 as [reason|]; [left; eauto|]. steps_ok Ho. injection Ho as <- <-. right.
    pose proof (action_ok _ _ _ _ _ _ Hstep2) as (Eb & _ & _ & Er).
    unfold resource_key in Er. injection Er as _ Et _ _. rewrite Eb, Et. eexists. split; [done|].
    eapply (effected_intro s (put_subscription _ s)); [|done..| |done|exact Hstep2|exact Hstep3|apply silent_closing, silent_refl|done]; [auto with keyed|].
    destruct (apply_target_identity _ _ _ Hstep1) as [Ei Ev].
    pose proof (rc_entitlement s a v rid sub _ _ Ty3 Hsub Ht Hcu Ever Hstep1 Hstep0) as Hr.
    unfold business, put_subscription. simpl. rewrite Ev, Ei, (keyed_subscriptions _ Hk _ _ Hsub). exact Hr.
Qed.

(** The columns the binding of an action to its event keeps. *)
Definition action_key (b : BusinessAction) :=
  (b_id b, b_approval_id b, b_action_hash b, resource_key b, b_action_revision_id b, b_effect_identity b).
Definition event_backed (s : store) (b : BusinessAction) : Prop :=
  exists e, events s !! e_id e = Some e /\ b_canonical_event_id b = Some (e_id e) /\
    b_canonical_event_hash b = Some (e_event_hash e).
Lemma bind_event_ok s ev ids a d b s' :
  keyed s -> _bind_action_event s ev ids a d b = Ok s' ->
  exists b', keyed s' /\ approvals s' = approvals s /\ decisions s' = decisions s /\
    (revisions s' = revisions s /\ business s' = business s) /\ actions s' = <[b_id b := b']> (actions s) /\ action_key b' = action_key b /\
    b_human_decision_id b' = Some (hd_id d) /\ b_decision_hash b' = hd_decision_hash d /\ event_backed s' b'.
Proof.
  intros Hk Ho. unfold _bind_action_event in Ho. steps_ok Ho. destruct (runs s !! _) as [run|]; [|done].
  apply res_bind_ok in Ho as ([e s1] & He & Ho). injection Ho as <-. apply catch_ok in He.
  assert (silent s s1) as S1 by (eapply append_silent; [exact He|apply silent_refl]).
  destruct (S1 Hk) as [K1 [A1 D1 B1 R1 Bu1]]. apply append_ok_facts in He as (r0 & t0 & _ & _ & _ & Hb & Hev).
  apply build_event_ok in Hb as (Hid & _).
  eexists. split_and!; [apply keyed_put_action; exact K1|exact A1|exact D1|exact R1|exact Bu1|simpl; rewrite B1; reflexivity|done..|].
  exists e. split; [|done]. simpl. rewrite Hev, Hid. apply lookup_insert_eq.
Qed.

(** A first execution: the effect, its binding and the consumed approval.  The
    other approvals of [m] are as before or closed. *)
Record execution (s s' : store) (ids : command_ids) (a : ApprovalRequest) (d : HumanDecision) (v : ApprovalActionRevision)
    (rid : string) (b : BusinessAction) : Prop := {
  ex_keyed : keyed s';
  ex_decisions : decisions s' = decisions s;
  ex_revisions : revisions s' = revisions s;
  ex_rows : exists m a', rows_closed (approvals s) m /\ (forall i r, m !! i = Some r -> a_id r = i) /\ m !! a_id a = Some a /\
    approvals s' = <[a_id a := a']> m /\ request_key a' = request_key a /\ a_status a' = "executed" /\ is_Some (a_consumed_at a');
  ex_fresh : actions s !! g_action ids = None;
  ex_actions : actions s' = <[g_action ids := b]> (actions s);
  ex_once : forall x c, actions s !! x = Some c -> resource_key c <> resource_key b;
  ex_key : b_id b = g_action ids /\ b_approval_id b = a_id a /\ b_action_hash b = v_action_hash v /\
    resource_key b = (a_tenant_id a, a_action_type a, rid, v_resource_version v);
  ex_bound : b_human_decision_id b = Some (hd_id d) /\ b_decision_hash b = hd_decision_hash d /\ event_backed s' b;
  ex_change : resource_change s a v rid (business s');
}.

Lemma keyed_set_approvals s m : keyed s -> (forall i a, m !! i = Some a -> a_id a = i) -> keyed (set_approvals m s).
Proof. intros [] Hm. split; done. Qed.
Lemma consume_ok s a now a' s' :
  approvals s !! a_id a = Some a -> consume s a now = Ok (a', s') ->
  s' = put_approval a' s /\ a_id a' = a_id a /\ a_status a' = a_status a /\ a_consumed_at a' = Some now /\
  request_key a' = request_key a.
Proof. intros Ha Ho. unfold consume in Ho. apply flush_loaded in Ho as [-> ->]; done. Qed.

(** The approval moves to [executed] and is consumed. *)
Lemma execute_approval s a r a1 s1 now c s2 :
  approvals s !! a_id a = Some a -> a_status a = "approved" ->
  transition s a "executed" "approved" (Some (a_status_version a)) None = Ok (r, a1, s1) ->
  consume s1 a1 now = Ok (c, s2) ->
  s2 = put_approval c (put_approval a1 s) /\ a_id c = a_id a /\ a_id a1 = a_id a /\ a_status c = "executed" /\
  a_consumed_at c = Some now /\ request_key c = request_key a.
Proof.
  intros Ha Hst Ht Hc. apply transition_loaded in Ht as (-> & -> & _ & _); [|done|by rewrite Hst].
  apply consume_ok in Hc as (-> & Eid & Est & Ec & Ek); [|by unfold put_approval; simpl; rewrite lookup_insert_eq].
  rewrite Eid, Est, Ek, moved_to_id, moved_to_status. done.
Qed.

Lemma commit_effect_ok s ev ids a d v rid tr r s' :
  keyed s -> approvals s !! a_id a = Some a -> commit_effect s ev ids a d v rid tr = Ok (r, s') ->
  a_status a = "approved" /\ a_consumed_at a = None /\
  kill_switches s !! (a_tenant_id a, a_action_type a) = Some true /\
  ((ar_status r = "stale" /\ ar_business_action_id r = None /\ ar_reused r = false /\ closing s s') \/
   exists b, r = succeeded (g_action ids) (a_action_type a) rid false /\
     action_hash (v_action_payload v) = Ok (v_action_hash v) /\ execution s s' ids a d v rid b).
Proof.
  intros Hk Ha Ho. unfold commit_effect in Ho. apply res_bind_ok in Ho as (u & Hu & Ho). steps_ok Ho.
  apply orb_false_iff in Hguard as [Hst Hcons]. rewrite neqb_false in Hst. apply isSome_false in Hcons.
  split; [done|]. split; [done|]. split.
  { unfold assert_mutation_enabled in Hu. repeat case_match; done. }
  destruct (neqb a0 _) eqn:Eh; [left; by apply executor_stale_ok in Ho as (Hc & -> & _)|]. rewrite neqb_false in Eh. subst a0.
  apply res_bind_ok in Ho as ([r1 s1] & Hr & Ho).
  destruct (run_effect_ok _ _ _ _ _ _ _ _ _ Hk Ha Hr) as [(E1 & E2 & E3 & Hc)|(b & -> & Heff)].
  { rewrite (proj2 (eqb_true _ _) E1) in Ho. injection Ho as <- <-. left. done. }
  right. simpl in Ho. destruct Heff as [K1 D1 R1 Hrows Hself Hfresh Hact Honce Eid Eap Eha Ers Hch].
  assert (actions s1 !! g_action ids = Some b) as Hb by (rewrite Hact; apply lookup_insert_eq). rewrite Hb in Ho.
  apply res_bind_ok in Ho as (s2 & H2 & Ho).
  apply bind_event_ok in H2 as (b' & K2 & A2 & D2 & [R2 Bu2] & B2 & Ekey & Ehd & Ehh & Hev); [|done].
  apply res_bind_ok in Ho as ([[t a1] s3] & H3 & Ho). apply res_bind_ok in Ho as ([c s4] & H4 & Ho). simpl in Ho, H4.
  injection Ho as <- <-. pose proof Hself as Hself1. rewrite <- A2 in Hself.
  destruct (execute_approval _ _ _ _ _ _ _ _ Hself Hst H3 H4) as (-> & Ec & E1 & Hstc & Hcc & Hkc).
  unfold action_key in Ekey. injection Ekey as Kid Kap Kha Kt Kty Kr Kv _ _. exists b'. split; [done|]. split; [done|].
  set (f := stale_competing _ _ _). set (x := put_approval c (put_approval a1 s2)).
  destruct (silent_map_proposals x x f ltac:(intros p; unfold f, stale_competing, stale_proposal;
              repeat case_match; done) (silent_refl _)) as [K5 [A5 D5 B5 R5 Bu5]]; [unfold x; auto with keyed|].
  split; rewrite ?A5, ?B5, ?D5, ?R5, ?Bu5; try done.
  - simpl. congruence.
  - simpl. congruence.
  - exists (approvals s1), c. split_and!; [done|apply (keyed_approvals _ K1)|done| |done|done|by rewrite Hcc].
    unfold x, put_approval. simpl. by rewrite Ec, E1, A2, insert_insert_eq.
  - unfold x. simpl. by rewrite B2, Hact, Eid, insert_insert_eq.
  - intros y z Hz. unfold resource_key in *. rewrite Kt, Kty, Kr, Kv. by eapply Honce.
  - unfold resource_key in *. rewrite Kt, Kty, Kr, Kv. split_and!; congruence.
  - change (business x) with (business s2). by rewrite Bu2.
Qed.

(** An approval that becomes executed again finds its effect in place. *)
Record replayed (s s' : store) (a : ApprovalRequest) : Prop := {
  rp_keyed : keyed s';
  rp_decisions : decisions s' = decisions s;
  rp_actions : actions s' = actions s;
  rp_status : a_status a ∈ ["approved"; "executed"];
  rp_approvals : exists a', approvals s' = <[a_id a := a']> (approvals s) /\ a_status a' = "executed";
}.
Lemma replayed_silent s s1 s2 a : silent s1 s2 -> replayed s s1 a -> replayed s s2 a.
Proof.
  intros Hs [K D B St A]. destruct (Hs K) as [K2 [A2 D2 B2 _ _]]. split; [done|congruence..|done|]. by rewrite A2.
Qed.
Lemma replay_ok s ev a d v b rid r s' :
  keyed s -> approvals s !! a_id a = Some a -> replay_effect s ev a d v b rid = Ok (r, s') ->
  r = succeeded (b_id b) (b_action_type b) rid true /\ effect_bound a d (v_action_hash v) b = true /\ replayed s s' a.
Proof.
  intros Hk Ha Ho. unfold replay_effect in Ho. steps_ok Ho. apply orb_false_iff in Hguard as [Hb _].
  apply negb_false_iff in Hb, Hguard1. rewrite mem_true in Hguard1. injection Ho as <- <-. split; [done|]. split; [done|].
  eapply (replayed_silent s a1); [repeat case_match; auto with silent|].
  destruct (a_status a ==? "approved") eqn:Est.
  - rewrite eqb_true in Est. apply res_bind_ok in Hstep0 as ([[t x] y] & Ht & Hstep0). apply res_bind_ok in Hstep0 as ([c z] & Hc & [= <-]).
    destruct (execute_approval _ _ _ _ _ _ _ _ Ha Est Ht Hc) as (-> & Ec & E1 & Hst & _).
    split; [auto with keyed|done..|]. exists c. split; [|done].
    unfold put_approval. simpl. by rewrite Ec, E1, insert_insert_eq.
  - injection Hstep0 as <-. rewrite eqb_false in Est. split; [done..|]. exists a. rewrite insert_id by done. split; [done|].
    rewrite !elem_of_cons, elem_of_nil in Hguard1. tauto.
Qed.

Lemma decision_of_some s i d : decision_of s i = Some d -> (exists k, decisions s !! k = Some d) /\ hd_approval_id d = i.
Proof.
  unfold decision_of. intros Hh. destruct (select_where _ _) as [|x l] eqn:El; [done|]. injection Hh as ->.
  assert (d ∈ d :: l) as Hin by (by left). rewrite <- El in Hin. apply select_where_elem in Hin as [Hk Hd].
  split; [done|]. by apply eqb_true.
Qed.

(** The three outcomes of an execution. *)
Lemma execute_ok s ev ids l aid tr r s' :
  keyed s -> execute s ev ids l aid tr = Ok (r, s') ->
  (exists job, assert_fence s ev l = Ok job) /\
  exists a d v k, approvals s !! aid = Some a /\ a_run_id a = Some (l_run_id l) /\ decisions s !! k = Some d /\
    hd_approval_id d = a_id a /\ revisions s !! default "" (a_selected_revision_id a) = Some v /\
    decision_binds d v = true /\
    ((ar_status r = "stale" /\ ar_business_action_id r = None /\ ar_reused r = false /\ a_status a <> "executed" /\ closing s s') \/
     (exists b, r = succeeded (b_id b) (b_action_type b) (a_resource_id a) true /\ (exists x, actions s !! x = Some b) /\
                effect_bound a d (v_action_hash v) b = true /\ replayed s s' a) \/
     (exists b p, r = succeeded (g_action ids) (a_action_type a) (a_resource_id a) false /\
                a_status a = "approved" /\ a_consumed_at a = None /\
                kill_switches s !! (a_tenant_id a, a_action_type a) = Some true /\
                assert_active_approver_scope s (a_tenant_id a) (hd_actor_id d) = Ok tt /\
                validate_execution_binding s a v = Ok p /\ action_hash (v_action_payload v) = Ok (v_action_hash v) /\
                execution s s' ids a d v (a_resource_id a) b)).
Proof.
  intros Hk Ho. unfold execute in Ho. apply res_bind_ok in Ho as (job & Hf & Ho). split; [eauto|].
  destruct (approvals s !! aid) as [a|] eqn:Ea; [|done]. steps_ok Ho. rewrite neqb_false in Hguard.
  destruct (decision_of s (a_id a)) as [d|] eqn:Ed; [|done]. destruct (revisions s !! _) as [v|] eqn:Ev; [|done].
  steps_ok Ho. apply negb_false_iff in Hguard0. apply decision_of_some in Ed as [[k Hkd] Hda].
  assert (a0 = a_resource_id a) as ->.
  { unfold _resource_id in Hstep. destruct (get_action_spec_or_none _); [|done]. steps_ok Hstep. by injection Hstep as <-. }
  assert (approvals s !! a_id a = Some a) as Hload by (by rewrite (keyed_approvals _ Hk _ _ Ea)).
  exists a, d, v, k. split_and!; try done. destruct (effect_of s a _ _ _) as [b|] eqn:Eb.
  - right. left. apply replay_ok in Ho as (-> & Heb & Hr); [|done..]. exists b. split_and!; try done.
    unfold effect_of in Eb. destruct (select_where _ _) as [|x y] eqn:El; [done|]. injection Eb as ->.
    assert (b ∈ b :: y) as Hin by (by left). rewrite <- El in Hin. by apply select_where_elem in Hin as [? _].
  - destruct (res_bind _ _) as [p|e] eqn:Echeck.
    + apply res_bind_ok in Echeck as ([] & Hscope & Hval).
      apply commit_effect_ok in Ho as (Hst & Hcons & Hsw & [Hstale|(b & -> & Hh & Hex)]); [left; rewrite Hst; destruct Hstale as (? & ? & ? & ?); done| |done..].
      right. right. exists b, p. done.
    + left. destruct e; try done. by apply executor_stale_ok in Ho as (Hc & -> & ?).
Qed.

Lemma governed_replayed s s' a i : governed s -> approvals s !! i = Some a -> replayed s s' a -> governed s'.
Proof.
  intros Hg Ha [K D B Hin (a' & A & Hst')]. pose proof (keyed_approvals _ (gv_keyed _ Hg) _ _ Ha) as Eid. rewrite Eid in A.
  rewrite !elem_of_cons, elem_of_nil in Hin. destruct Hin as [Hst|[Hst|[]]].
  - eapply (governed_move s s'); try done. by right.
  - eapply (governed_touch s s'); try done. congruence.
Qed.
Lemma governed_execution s s' ids a d v rid b k :
  governed s -> a_status a = "approved" -> decisions s !! k = Some d -> hd_approval_id d = a_id a ->
  approving d -> hd_action_hash d = Some (v_action_hash v) -> execution s s' ids a d v rid b -> governed s'.
Proof.
  intros Hg Hst Hd Hda Hap Hdh [K D R (m & a' & Hcl & Km & Am & As & _ & Hst' & _) Hn B Hu (_ & Eb & Eh & Er) (Ehd & _ & _) _].
  assert (governed (set_approvals m s)) as Hm.
  { eapply governed_closing; [done|]. intros _. split; [apply keyed_set_approvals; [apply Hg|done]|]. by split. }
  eapply (governed_effect (set_approvals m s) s' (a_id a) a a' Hm K Am As (g_action ids) b d k); try done. by rewrite Eh.
Qed.
Lemma governed_execute s ev ids l aid tr r s' : governed s -> execute s ev ids l aid tr = Ok (r, s') -> governed s'.
Proof.
  intros Hg Ho. destruct (execute_ok _ _ _ _ _ _ _ _ (gv_keyed _ Hg) Ho) as (_ & a & d & v & k & Ha & _ & Hd & Hda & _ & Hbind & Hout).
  unfold decision_binds in Hbind. rewrite !andb_true_iff, mem_true, !eqb_true in Hbind. destruct Hbind as [[_ Hap] Hh].
  destruct Hout as [(_ & _ & _ & _ & Hc)|[(b & _ & _ & _ & Hr)|(b & p & _ & Hst & _ & _ & _ & _ & _ & Hex)]].
  - by eapply governed_closing.
  - by eapply governed_replayed.
  - by eapply governed_execution.
Qed.

(** *** The legacy refund *)
Lemma stale_bound_silent s s0 a rid : silent s0 s -> silent s0 (_stale_bound_proposals s a rid).
Proof.
  apply silent_map_proposals. intros p. unfold stale_competing, stale_proposal. repeat case_match; done.
Qed.
Lemma legacy_binding_ok s aid key b :
  _load_legacy_refund_binding s aid key = Ok b ->
  approvals s !! aid = Some (lg_approval b) /\ a_status (lg_approval b) ∈ ["approved"; "executed"] /\
  (exists k, decisions s !! k = Some (lg_decision b)) /\ hd_approval_id (lg_decision b) = a_id (lg_approval b) /\
  approving (lg_decision b) /\ hd_action_hash (lg_decision b) = Some (lg_payload_hash b).
Proof.
  unfold _load_legacy_refund_binding. intros Ho. destruct (approvals s !! aid) as [a|]; [|done]. steps_ok Ho.
  destruct (decision_of s (a_id a)) as [d|] eqn:Ed; [|done]. steps_ok Ho. injection Ho as <-. simpl.
  apply negb_false_iff in Hguard0. rewrite mem_true in Hguard0. apply orb_false_iff in Hguard1 as [Hap Hh].
  apply negb_false_iff in Hap. rewrite mem_true in Hap. rewrite neqb_false in Hh. apply decision_of_some in Ed as [Hk Hd]. done.
Qed.
Lemma legacy_reuse_replayed s ev ids b act tr r s' :
  keyed s -> approvals s !! a_id (lg_approval b) = Some (lg_approval b) ->
  a_status (lg_approval b) ∈ ["approved"; "executed"] ->
  _reuse_legacy_refund s ev ids b act tr = Ok (r, s') -> replayed s s' (lg_approval b).
Proof.
  intros Hk Ha Hin Ho. unfold _reuse_legacy_refund in Ho. steps_ok Ho. destruct a0 as [[t a1] s1].
  apply res_bind_ok in Ho as ([c s2] & Hc & Ho). simpl in Ho. steps_ok Ho. injection Ho as _ <-.
  eapply (replayed_silent s s2); [eapply legacy_converge_silent; [eassumption|]; apply stale_bound_silent, silent_refl|].
  clear Hstep Hstep1 Hguard Hguard0. set (x := lg_approval b) in *. clearbody x.
  assert (exists a1', a1 = a1' /\ s1 = put_approval a1 s /\ a_id a1 = a_id x /\ a_status a1 = "executed") as (_ & _ & -> & E1 & S1).
  { destruct (base.decide (a_status x = "executed")) as [He|Hne].
    - apply transition_ok in Hstep0 as [(_ & _ & -> & ->)|(_ & _ & _ & ? & _ & _ & _)]; [|congruence].
      exists x. split_and!; try done. unfold put_approval. rewrite insert_id by done. by destruct s.
    - apply transition_loaded in Hstep0 as (-> & -> & _ & _); [|done..]. eexists. split_and!; [done..|apply moved_to_id|apply moved_to_status]. }
  destruct (isNone _).
  - apply consume_ok in Hc as (-> & Eid & Est & _ & _); [|unfold put_approval; simpl; by rewrite lookup_insert_eq].
    split; [auto with keyed|done..|]. exists c. unfold put_approval. simpl. rewrite Eid, E1, insert_insert_eq. split; congruence.
  - injection Hc as <- <-. split; [auto with keyed|done..|]. exists a1. unfold put_approval. simpl. by rewrite E1.
Qed.

Lemma governed_legacy_commit s ev ids b charge tr r s' k :
  governed s -> approvals s !! a_id (lg_approval b) = Some (lg_approval b) -> a_status (lg_approval b) = "approved" ->
  decisions s !! k = Some (lg_decision b) -> hd_approval_id (lg_decision b) = a_id (lg_approval b) ->
  approving (lg_decision b) -> hd_action_hash (lg_decision b) = Some (lg_payload_hash b) ->
  _commit_legacy_refund s ev ids b charge tr = Ok (r, s') ->
  governed s' /\ automaton_step (phases s) (phases s') /\ ar_reused r = false /\
  exists act, actions s !! g_action ids = None /\ actions s' = <[g_action ids := act]> (actions s) /\
    b_approval_id act = a_id (lg_approval b) /\ b_action_hash act = lg_payload_hash b.
Proof.
  intros Hg Ha Hst Hd Hda Hap Hh Ho. pose proof (gv_keyed _ Hg) as Hk. unfold _commit_legacy_refund in Ho.
  apply res_bind_ok in Ho as (idn & _ & Ho). set (act := mk_action _ _ _ _ _ _ _ _ _ _ _ _ _ _ _ _ _ _) in Ho.
  apply res_bind_ok in Ho as (s1 & H1 & Ho). apply insert_action_ok in H1 as (-> & Hn & Hu).
  apply res_bind_ok in Ho as (s2 & H2 & Ho). apply catch_ok, bind_event_ok in H2 as (act' & K2 & A2 & D2 & [R2 Bu2] & B2 & Ekey & Ehd & _ & _);
    [|auto with keyed].
  apply res_bind_ok in Ho as ([[t a1] s3] & H3 & Ho). apply res_bind_ok in Ho as ([c s4] & H4 & Ho). simpl in Ho.
  set (x := lg_approval b) in *.
  assert (approvals (put_billing (refund_billing charge) s2) !! a_id x = Some x) as Hx by (by simpl; rewrite A2).
  destruct (execute_approval _ _ _ _ _ _ _ _ Hx Hst H3 H4) as (-> & Ec & E1 & Stc & _).
  apply res_bind_ok in Ho as (s5 & H5 & Ho). apply res_bind_ok in Ho as (s6 & H6 & Ho). apply res_bind_ok in Ho as (s7 & H7 & Ho).
  injection Ho as <- <-. set (m := put_approval c (put_approval a1 (put_billing (refund_billing charge) s2))) in *.
  assert (keyed m) as Km by (unfold m; auto with keyed).
  assert (actions m = <[g_action ids := act']> (actions s)) as Bm by (unfold m; simpl; rewrite B2; apply insert_insert_eq).
  unfold action_key in Ekey. injection Ekey as Kid Kap Kha Kt Kty Kr Kv _ _.
  assert (governed m) as Gm.
  { eapply (governed_effect s m (a_id x) x c Hg Km Ha) with (k := g_action ids) (b := act') (d := lg_decision b) (j := k); try done.
    - unfold m, put_approval. simpl. by rewrite Ec, E1, A2, insert_insert_eq.
    - intros y z Hz. unfold resource_key in *. rewrite Kt, Kty, Kr, Kv. by eapply Hu.
    - by rewrite Kha. }
  apply competing_ok in H5 as [C5 _]; [|done].
  assert (silent s5 s7) as S7.
  { eapply insert_audit_silent; [exact H7|]. eapply legacy_converge_silent; [exact H6|]. apply stale_bound_silent, silent_refl. }
  assert (closing m s7) as C7 by (eapply closing_trans; [exact C5|by apply silent_closing]).
  split; [by eapply governed_closing|]. destruct (C7 Km) as [_ Cl7]. pose proof Cl7 as [_ B7 _ _ A7]. split.
  { assert (approvals m = <[a_id x := c]> (approvals s)) as Am.
    { unfold m, put_approval. simpl. by rewrite Ec, E1, A2, insert_insert_eq. }
    eapply (automaton_executed _ (approvals m)); [exact Ha|done|exact Am|done|exact A7]. }
  split; [done|]. exists act'. split; [done|]. rewrite B7, Bm. split_and!; [done|by rewrite Kap|by rewrite Kha].
Qed.

Lemma governed_legacy s ev ids aid key tr r s' :
  governed s -> execute_legacy_refund s ev ids aid key tr = Ok (r, s') -> governed s'.
Proof.
  intros Hg Ho. unfold execute_legacy_refund in Ho. apply res_bind_ok in Ho as (b & Hb & Ho).
  apply legacy_binding_ok in Hb as (Ha & Hin & (k & Hd) & Hda & Hap & Hh).
  pose proof (keyed_approvals _ (gv_keyed _ Hg) _ _ Ha) as Eid. pose proof Ha as Ha'. rewrite <- Eid in Ha'.
  destruct (effect_of _ _ _ _ _) as [act|].
  - eapply governed_replayed; [done|exact Ha|]. eapply legacy_reuse_replayed; [apply Hg|done..].
  - apply res_bind_ok in Ho as (u & _ & Ho). steps_ok Ho. apply orb_false_iff in Hguard as [Hst _]. rewrite neqb_false in Hst.
    by eapply governed_legacy_commit.
Qed.
End executing.

(** ** The system *)
Section system.
Context `{PyRuntime}.

Inductive system_step (s : store) : store -> Prop :=
| sy_propose a : approvals s !! a_id a = None -> a_status a = "pending" -> system_step s (put_approval a s)
| sy_decide ev ids q d s' : decide_approval s ev ids q = Ok (d, s') -> system_step s s'
| sy_withdraw loaded ev ids q w s' : withdraw loaded s ev ids q = Ok (w, s') -> system_step s s'
| sy_binding_stale tn aid r s' : mark_binding_stale s tn aid = Ok (r, s') -> system_step s s'
| sy_conversation ev ids u q l s' : transition_conversation s ev ids u q = Ok (l, s') -> system_step s s'
| sy_execute ev ids l aid tr r s' : execute s ev ids l aid tr = Ok (r, s') -> system_step s s'
| sy_legacy ev ids aid key tr r s' : execute_legacy_refund s ev ids aid key tr = Ok (r, s') -> system_step s s'
| sy_job s' : job_step s s' -> system_step s s'
(** Any write to the other tables. *)
| sy_other s' : approvals s' = approvals s -> decisions s' = decisions s -> actions s' = actions s -> keyed s' ->
    system_step s s'.

Lemma governed_propose s a :
  governed s -> approvals s !! a_id a = None -> a_status a = "pending" -> governed (put_approval a s).
Proof.
  intros Hg Hn Hst. pose proof Hg as [Hk Hone Hno Hap Hrej Hb Hr Ho].
  assert (forall i x, approvals s !! i = Some x -> <[a_id a := a]> (approvals s) !! i = Some x) as Hkeep.
  { intros i x Hx. rewrite lookup_insert_ne; [done|]. intros <-. congruence. }
  split; simpl; try done; [auto with keyed|..].
  - intros k d Hd. destruct (Hno _ _ Hd) as (x & Hx & ?). eauto.
  - intros i x [[<- <-]|[_ Hx]]%lookup_insert_Some Hin; [rewrite Hst in Hin; revert Hin; not_listed|by eapply Hap].
  - intros i x [[<- <-]|[_ Hx]]%lookup_insert_Some Hin; [congruence|by eapply Hrej].
  - intros k b Hkb. destruct (Hb _ _ Hkb) as [(x & Hx & ?) Hd]. split; [eauto|done].
Qed.

Lemma governed_step s s' : governed s -> system_step s s' -> governed s'.
Proof.
  intros Hg Hs. pose proof (gv_keyed _ Hg) as Hk. destruct Hs as [a Hn Hst|ev ids q d s' Ho|loaded ev ids q w s' Ho
    |tn aid r s' Ho|ev ids u q l s' Ho|ev ids l aid tr r s' Ho|ev ids aid key tr r s' Ho|s' Ho|s' Ea Ed Eb K].
  - by apply governed_propose.
  - by eapply governed_decide.
  - by eapply governed_withdraw.
  - eapply governed_closing; [done|]. by eapply mark_stale_closing.
  - eapply governed_closing; [done|]. apply silent_closing. by eapply conversation_silent.
  - by eapply governed_execute.
  - by eapply governed_legacy.
  - eapply governed_closing; [done|]. by apply job_step_closing.
  - pose proof Hg as [_ Hone Hno Hap Hrej Hb Hr Ho].
    split; unfold decided in *; rewrite ?Ea, ?Ed, ?Eb; done.
Qed.
Lemma governed_steps s s' : governed s -> rtc system_step s s' -> governed s'.
Proof. intros Hg Hs. induction Hs; [done|]. eauto using governed_step. Qed.

(** Replays move one row to [executed]. *)
Lemma replayed_automaton s s' a :
  approvals s !! a_id a = Some a -> replayed s s' a -> automaton_step (phases s) (phases s').
Proof.
  intros Ha [_ _ _ Hin (a' & A & Hst)]. unfold phases. rewrite A. eapply automaton_insert; [apply rows_closed_refl|done..|].
  rewrite Hst. rewrite !elem_of_cons, elem_of_nil in Hin. destruct Hin as [->|[->|[]]]; [right; vm_compute; list_member|by left].
Qed.
Lemma step_automaton s s' : governed s -> system_step s s' -> automaton_step (phases s) (phases s').
Proof.
  intros Hg Hs. pose proof (gv_keyed _ Hg) as Hk. pose proof (keyed_approvals _ Hk) as Hka.
  destruct Hs as [a Hn Hst|ev ids q d s' Ho|loaded ev ids q w s' Ho
    |tn aid r s' Ho|ev ids u q l s' Ho|ev ids l aid tr r s' Ho|ev ids aid key tr r s' Ho|s' Ho|s' Ea Ed Eb K].
  - apply automaton_rows; simpl.
    + intros i x Hx. exists x. rewrite lookup_insert_ne by congruence. eauto.
    + intros i x Hi [[<- <-]|[_ Hx]]%lookup_insert_Some; congruence.
  - destruct (decide_ok _ _ _ _ _ _ Hk Ho) as [[_ Hs]|(_ & _ & a & Ha & _ & _ & Hp)].
    { by apply closing_automaton, silent_closing. }
    destruct Hp as [Hst Hin _ _ _ (p & base & v & a' & h & _ & _ & _ & _ & Happ & _ & Hst' & _)].
    unfold phases. rewrite Happ, (Hka _ _ Ha). eapply automaton_insert; [apply rows_closed_refl|done..|]. right.
    rewrite Hst, Hst'. unfold persisted_status. destruct (eqb _ _); vm_compute; list_member.
  - destruct (withdraw_ok _ _ _ _ _ _ _ Hk Ho) as [[_ Hs]|(_ & _ & _ & _ & a & a' & Ha & _ & Hst & _ & Happ & _ & Hst')].
    { by apply closing_automaton, silent_closing. }
    unfold phases. rewrite Happ, (Hka _ _ Ha). eapply automaton_insert; [apply rows_closed_refl|done..|]. right.
    rewrite Hst, Hst'. vm_compute. list_member.
  - apply closing_automaton; [done|]. by eapply mark_stale_closing.
  - apply closing_automaton; [done|]. apply silent_closing. by eapply conversation_silent.
  - destruct (execute_ok _ _ _ _ _ _ _ _ Hk Ho) as (_ & a & d & v & k & Ha & _ & _ & _ & _ & _ & Hout).
    rewrite <- (Hka _ _ Ha) in Ha.
    destruct Hout as [(_ & _ & _ & _ & Hc)|[(b & _ & _ & _ & Hr)|(b & p & _ & Hst & _ & _ & _ & _ & _ & Hex)]].
    + by apply closing_automaton.
    + by eapply replayed_automaton.
    + destruct Hex as [_ _ _ (m & a' & Hcl & _ & Hm & Happ & _ & Hst' & _) _ _ _ _ _ _].
      unfold phases. rewrite Happ. eapply automaton_insert; [done..|]. right. rewrite Hst, Hst'. vm_compute. list_member.
  - unfold execute_legacy_refund in Ho. apply res_bind_ok in Ho as (b & Hb & Ho).
    apply legacy_binding_ok in Hb as (Ha & Hin & (k & Hd) & Hda & Hap & Hh). rewrite <- (Hka _ _ Ha) in Ha.
    destruct (effect_of _ _ _ _ _) as [act|]; [eapply replayed_automaton; [done|by eapply legacy_reuse_replayed]|].
    apply res_bind_ok in Ho as (u & _ & Ho). steps_ok Ho. apply orb_false_iff in Hguard as [Hst _]. rewrite neqb_false in Hst.
    by eapply governed_legacy_commit.
  - by apply closing_automaton, job_step_closing.
  - unfold phases. rewrite Ea. apply rows_closed_automaton, rows_closed_refl.
Qed.

(** Actions are never changed or removed. *)
Lemma step_actions s s' x b : governed s -> system_step s s' -> actions s !! x = Some b -> actions s' !! x = Some b.
Proof.
  intros Hg Hs Hx. pose proof (gv_keyed _ Hg) as Hk. pose proof (keyed_approvals _ Hk) as Hka.
  assert (forall s', closing s s' -> actions s' !! x = Some b) as Hclose.
  { intros s0 Hc. destruct (Hc Hk) as [_ []]. congruence. }
  destruct Hs as [a Hn Hst|ev ids q d s' Ho|loaded ev ids q w s' Ho
    |tn aid r s' Ho|ev ids u q l s' Ho|ev ids l aid tr r s' Ho|ev ids aid key tr r s' Ho|s' Ho|s' Ea Ed Eb K].
  - done.
  - destruct (decide_ok _ _ _ _ _ _ Hk Ho) as [[_ Hs]|(_ & _ & a & _ & _ & _ & [])]; [by apply Hclose, silent_closing|congruence].
  - destruct (withdraw_ok _ _ _ _ _ _ _ Hk Ho) as [[_ Hs]|(_ & _ & _ & E & _)]; [by apply Hclose, silent_closing|congruence].
  - apply Hclose. by eapply mark_stale_closing.
  - apply Hclose, silent_closing. by eapply conversation_silent.
  - destruct (execute_ok _ _ _ _ _ _ _ _ Hk Ho) as (_ & a & d & v & k & _ & _ & _ & _ & _ & _ & Hout).
    destruct Hout as [(_ & _ & _ & _ & Hc)|[(c & _ & _ & _ & [])|(c & p & _ & _ & _ & _ & _ & _ & _ & [])]]; [by apply Hclose|congruence|].
    rewrite ex_actions0, lookup_insert_ne; [done|congruence].
  - unfold execute_legacy_refund in Ho. apply res_bind_ok in Ho as (c & Hb & Ho).
    apply legacy_binding_ok in Hb as (Ha & Hin & (k & Hd) & Hda & Hap & Hh). rewrite <- (Hka _ _ Ha) in Ha.
    destruct (effect_of _ _ _ _ _) as [act|]; [apply legacy_reuse_replayed in Ho as []; [congruence|done..]|].
    apply res_bind_ok in Ho as (u & _ & Ho). steps_ok Ho. apply orb_false_iff in Hguard as [Hst _]. rewrite neqb_false in Hst.
    eapply governed_legacy_commit in Ho as (_ & _ & _ & act & Hn & -> & _); [|done..]. rewrite lookup_insert_ne; [done|congruence].
  - by apply Hclose, job_step_closing.
  - congruence.
Qed.

(** Terminal phases last, actions last. *)
Lemma terminal_phase s s' i st :
  governed s -> rtc system_step s s' -> phases s !! i = Some st -> terminal_approval st -> phases s' !! i = Some st.
Proof.
  intros Hg Hs. induction Hs as [s|s s1 s2 H1 _ IH]; [done|]. intros Hi Ht. apply IH; [by eapply governed_step| |done].
  destruct (step_automaton _ _ Hg H1) as [Hold _]. destruct (Hold _ _ Hi) as (st' & -> & [->|Hedge]); [done|].
  by apply terminal_no_edge in Hedge.
Qed.
Lemma actions_last s s' x b :
  governed s -> rtc system_step s s' -> actions s !! x = Some b -> actions s' !! x = Some b.
Proof.
  intros Hg Hs. induction Hs as [s|s s1 s2 H1 _ IH]; [done|]. intros Hx.
  apply IH; [by eapply governed_step|by eapply step_actions].
Qed.
Lemma phase_row s i st : phases s !! i = Some st <-> exists a, approvals s !! i = Some a /\ a_status a = st.
Proof. unfold phases. rewrite lookup_fmap. destruct (approvals s !! i); simpl; naive_solver. Qed.

(** The distance of a status to the end of the automaton. *)
Definition rank (st : string) : nat := if st ==? "pending" then 2 else if st ==? "approved" then 1 else 0.
Lemma rank_le st : (rank st <= 2)%nat.
Proof. unfold rank. repeat case_match; lia. Qed.
Lemma rank_edge st st' : st' ∈ APPROVAL_TRANSITIONS st -> (rank st' < rank st)%nat.
Proof.
  intros [[-> Hin]|[-> Hin]]%transitions_edges; rewrite !elem_of_cons, elem_of_nil in Hin;
    repeat (destruct Hin as [->|Hin]; [vm_compute; lia|]); done.
Qed.
(** The stores of a history, and how often an observation of them changes. *)
Fixpoint chain (R : store -> store -> Prop) (s : store) (path : list store) : Prop :=
  match path with
  | [] => True
  | x :: path => R s x /\ chain R x path
  end.
Fixpoint changes (l : list (option string)) : nat :=
  match l with
  | x :: (y :: _) as l' => if base.decide (x = y) then changes l' else S (changes l')
  | _ => 0
  end.
Lemma changes_bounded s path i st :
  governed s -> chain system_step s path -> phases s !! i = Some st ->
  (changes (map (fun x => phases x !! i) (s :: path)) <= rank st)%nat.
Proof.
  revert s st. induction path as [|x path IH]; intros s st Hg Hc Hi; [simpl; lia|]. destruct Hc as [Hs Hc].
  destruct (step_automaton _ _ Hg Hs) as [Hold _]. destruct (Hold _ _ Hi) as (st' & Hi' & Hm).
  specialize (IH x st' (governed_step _ _ Hg Hs) Hc Hi'). cbn [map changes] in *. rewrite Hi, Hi' in *.
  destruct (base.decide (Some st = Some st')) as [E|Ne]; [by simplify_eq|].
  destruct Hm as [->|Hedge%rank_edge]; [done|lia].
Qed.

(** A successful execution leaves its action, under an executed approval. *)
Lemma execute_succeeded s ev ids l aid tr r s' :
  governed s -> execute s ev ids l aid tr = Ok (r, s') -> ar_status r = "succeeded" ->
  exists b, ar_business_action_id r = Some (b_id b) /\ actions s' !! b_id b = Some b /\ b_approval_id b = aid /\
    phases s' !! aid = Some "executed".
Proof.
  intros Hg Ho Hst. pose proof (gv_keyed _ Hg) as Hk. pose proof (governed_execute _ _ _ _ _ _ _ _ Hg Ho) as Hg'.
  destruct (execute_ok _ _ _ _ _ _ _ _ Hk Ho) as (_ & a & d & v & k & Ha & _ & _ & _ & _ & _ & Hout).
  pose proof (keyed_approvals _ Hk _ _ Ha) as Eid.
  destruct Hout as [(Hs & _)|[(b & -> & (x & Hx) & Heb & [_ _ Ea _ (a' & Happ & Hst')])|(b & p & -> & _ & _ & _ & _ & _ & _ & Hex)]].
  - congruence.
  - exists b. simpl. unfold effect_bound in Heb. rewrite !andb_true_iff, !eqb_true in Heb. destruct Heb as [[[_ Hba] _] _].
    rewrite (keyed_actions _ Hk _ _ Hx), Ea. split_and!; [done..|congruence|]. apply phase_row. exists a'.
    by rewrite Happ, Eid, lookup_insert_eq.
  - destruct Hex as [_ _ _ (m & a' & _ & _ & _ & Happ & _ & Hst' & _) _ Ea _ (Ei & Eb & _) _ _]. exists b. simpl.
    rewrite Ei, Ea, lookup_insert_eq. split_and!; [done..|congruence|]. apply phase_row. exists a'.
    by rewrite Happ, Eid, lookup_insert_eq.
Qed.
End system.

(** ** Properties *)
Section properties.
Context `{PyRuntime}.

(** C3: the ledger contract is an invariant of the whole system: every decision,
    withdrawal, execution, legacy refund, archival, job operation, reconciler
    step, new proposal and unrelated write preserves [governed]. *)
Theorem ledger_invariant s s' : governed s -> system_step s s' -> governed s'.
Proof. apply governed_step. Qed.

(** C1: no unauthorised effect.  In every store the system can reach from the
    empty one, a business action belongs to an executed approval that has
    exactly one human decision, that decision approves, it names the same
    action hash, and the action names that decision. *)
Theorem effect_authorised s k b :
  rtc system_step empty_store s -> actions s !! k = Some b ->
  exists a d, approvals s !! b_approval_id b = Some a /\ a_status a = "executed" /\
    (exists j, decisions s !! j = Some d) /\ hd_approval_id d = b_approval_id b /\
    hd_decision d ∈ ["approve"; "edit_and_approve"] /\ hd_action_hash d = Some (b_action_hash b) /\
    b_human_decision_id b = Some (hd_id d) /\
    forall j e, decisions s !! j = Some e -> hd_approval_id e = b_approval_id b -> e = d.
Proof.
  intros Hs Hb. pose proof (governed_steps _ _ governed_empty Hs) as Hg.
  destruct (gv_backed _ Hg _ _ Hb) as [(a & Ha & Hst) (j & d & Hj & Hd & Hap & Hh & Hid)].
  exists a, d. split_and!; try done; [eauto|]. intros x e Hx He.
  assert (x = j) as -> by (eapply gv_one_decision; [done..|congruence]). congruence.
Qed.

(** C2: effects happen at most once.  In every reachable store two business
    actions of the same tenant, action type, resource and resource version are
    the same row, and so are two actions of the same approval. *)
Theorem effects_at_most_once s i j b c :
  rtc system_step empty_store s -> actions s !! i = Some b -> actions s !! j = Some c ->
  resource_key b = resource_key c \/ b_approval_id b = b_approval_id c -> i = j /\ b = c.
Proof.
  intros Hs Hb Hc Hor. pose proof (governed_steps _ _ governed_empty Hs) as Hg.
  assert (i = j) as -> by (destruct Hor; [by eapply gv_resource_once|by eapply gv_approval_once]). split; [done|congruence].
Qed.

(** A closed approval never acts.  Once an approval is rejected, withdrawn,
    stale, failed or taken over, it keeps that status through every later
    history of the system and no business action ever names it. *)
Theorem closed_approval_never_acts s s' i a :
  governed s -> approvals s !! i = Some a -> terminal_approval (a_status a) -> a_status a <> "executed" ->
  rtc system_step s s' ->
  (exists a', approvals s' !! i = Some a' /\ a_status a' = a_status a) /\
  forall k b, actions s' !! k = Some b -> b_approval_id b <> i.
Proof.
  intros Hg Ha Ht Hne Hs.
  assert (exists a', approvals s' !! i = Some a' /\ a_status a' = a_status a) as (a' & Ha' & Hst).
  { apply phase_row. eapply terminal_phase; [done..| |done]. apply phase_row. eauto. }
  split; [eauto|]. intros k b Hb E. pose proof (governed_steps _ _ Hg Hs) as Hg'.
  destruct (gv_backed _ Hg' _ _ Hb) as [(x & Hx & Hex) _]. rewrite E in Hx. congruence.
Qed.

(** C5: execution is idempotent across any history.  After an execution of an
    approval has succeeded, whatever the system does in between, another
    execution of the same approval that returns at all returns the very same
    business action, flagged as reused, and adds no action. *)
Theorem execution_idempotent s ev ids l aid tr r s1 s2 ev2 ids2 l2 tr2 r2 s3 :
  governed s -> execute s ev ids l aid tr = Ok (r, s1) -> ar_status r = "succeeded" -> rtc system_step s1 s2 ->
  execute s2 ev2 ids2 l2 aid tr2 = Ok (r2, s3) ->
  ar_business_action_id r2 = ar_business_action_id r /\ ar_status r2 = "succeeded" /\ ar_reused r2 = true /\
  actions s3 = actions s2.
Proof.
  intros Hg Ho Hst Hs Ho2. pose proof (governed_execute _ _ _ _ _ _ _ _ Hg Ho) as Hg1. pose proof (governed_steps _ _ Hg1 Hs) as Hg2.
  destruct (execute_succeeded _ _ _ _ _ _ _ _ Hg Ho Hst) as (b & Hr & Hb & Hba & Hex).
  pose proof (actions_last _ _ _ _ Hg1 Hs Hb) as Hb2.
  assert (phases s2 !! aid = Some "executed") as Hph by (eapply terminal_phase; [exact Hg1|exact Hs|exact Hex|apply mem_true; reflexivity]).
  apply phase_row in Hph as (a2 & Ha2 & Hst2).
  destruct (execute_ok _ _ _ _ _ _ _ _ (gv_keyed _ Hg2) Ho2) as (_ & a & d & v & k & Ha & _ & _ & _ & _ & _ & Hout). simplify_eq.
  destruct Hout as [(_ & _ & _ & Hne & _)|[(c & -> & (x & Hx) & Heb & [])|(c & p & _ & Hap & _)]]; [done| |congruence].
  split_and!; try done. simpl. rewrite Hr. f_equal. unfold effect_bound in Heb. rewrite !andb_true_iff, !eqb_true in Heb.
  destruct Heb as [[[_ Hca] _] _]. rewrite (keyed_approvals _ (gv_keyed _ Hg2) _ _ Ha2) in Hca.
  assert (x = b_id b) as -> by (eapply gv_approval_once; [exact Hg2|exact Hx|exact Hb2|congruence]).
  by apply (keyed_actions _ (gv_keyed _ Hg2)).
Qed.

(** C6: the system refines the approval automaton.  Whatever component acts,
    each approval stays where it is or moves along one edge of
    [APPROVAL_TRANSITIONS], and an approval that appears is pending. *)
Theorem system_refines_automaton s s' : governed s -> system_step s s' -> automaton_step (phases s) (phases s').
Proof. apply step_automaton. Qed.

(** C7: approvals settle.  Along any history of the system the status of an
    approval changes at most twice, however many steps are taken. *)
Theorem approval_settles s path i :
  governed s -> chain system_step s path -> approvals s !! i <> None ->
  (changes (map (fun x => phases x !! i) (s :: path)) <= 2)%nat.
Proof.
  intros Hg Hc Hi. destruct (approvals s !! i) as [a|] eqn:Ea; [|done].
  assert (phases s !! i = Some (a_status a)) as Hp by (apply phase_row; eauto). clear Ea Hi.
  etransitivity; [by eapply changes_bounded|]. apply rank_le.
Qed.

(** What an accepted decision means.  A decision command either answers from
    the record of an earlier one and leaves approvals, decisions, actions,
    revisions and business resources alone, or it is the first decision of a
    pending approval of the caller's tenant by an approver whose membership and
    scope are active; then the approval moves to [approved] or [rejected] and
    exactly one decision row is added, for the selected revision: the proposal's
    own payload, or the one admissible edit under its own digest.  An approved
    refund still has the eligible pair its proposal was bound to. *)
Theorem decision_recorded s ev ids q d s' :
  keyed s -> decide_approval s ev ids q = Ok (d, s') ->
  (da_reused d = true /\ same_ledger s s') \/
  (da_reused d = false /\ assert_active_approver_scope s (dc_tenant_id q) (dc_actor_id q) = Ok tt /\
   exists a, approvals s !! dc_approval_id q = Some a /\ a_tenant_id a = dc_tenant_id q /\
     (forall k h, decisions s !! k = Some h -> hd_approval_id h <> a_id a) /\ pending_decision s s' ev ids q a).
Proof.
  intros Hk Ho. destruct (decide_ok _ _ _ _ _ _ Hk Ho) as [[Hr Hs]|Hp]; [|by right].
  left. split; [done|]. by apply Hs.
Qed.

(** A withdrawal closes a pending, undecided approval of the same customer,
    moves it to [withdrawn] and touches no decision, no action and no other
    approval; a repeated withdrawal changes nothing in the ledger. *)
Theorem withdrawal_recorded loaded s ev ids q w s' :
  keyed s -> withdraw loaded s ev ids q = Ok (w, s') ->
  (wa_reused w = true /\ same_ledger s s') \/
  (wa_reused w = false /\ decisions s' = decisions s /\ actions s' = actions s /\
   exists a a', approvals s !! wq_approval_id q = Some a /\ a_customer_id a = wq_customer_id q /\ a_status a = "pending" /\
     (forall k h, decisions s !! k = Some h -> hd_approval_id h <> a_id a) /\
     approvals s' = <[wq_approval_id q := a']> (approvals s) /\ a_status a' = "withdrawn").
Proof.
  intros Hk Ho. destruct (withdraw_ok _ _ _ _ _ _ _ Hk Ho) as [[Hr Hs]|(Hr & _ & Hd & Hb & a & a' & Ha & Hc & Hst & Hn & Happ & _ & Hst')].
  - left. split; [done|]. by apply Hs.
  - right. rewrite (keyed_approvals _ Hk _ _ Ha) in Happ. split_and!; [done..|]. exists a, a'.
    rewrite (keyed_approvals _ Hk _ _ Ha) in *. done.
Qed.

(** C4: what a new effect requires and does.  When [execute] reports a new
    business action, the lease passed its fence, the approval is approved and
    unconsumed, the decision approves the selected revision and its hash, the
    hash is the digest of the payload, the approver's scope is still active,
    the mutation switch is on, the observations of the proposal were found
    again; exactly one resource of the approval's tenant and customer moved
    from the approved version to the next, one action row was added and bound to
    the decision and to an event of the chain. *)
Theorem effect_requirements s ev ids l aid tr r s' :
  keyed s -> execute s ev ids l aid tr = Ok (r, s') -> ar_status r = "succeeded" -> ar_reused r = false ->
  (exists job, assert_fence s ev l = Ok job) /\
  exists a d v b p, approvals s !! aid = Some a /\ a_run_id a = Some (l_run_id l) /\ a_status a = "approved" /\
    a_consumed_at a = None /\ (exists k, decisions s !! k = Some d) /\ hd_approval_id d = aid /\ decision_binds d v = true /\
    revisions s !! default "" (a_selected_revision_id a) = Some v /\
    action_hash (v_action_payload v) = Ok (v_action_hash v) /\
    assert_active_approver_scope s (a_tenant_id a) (hd_actor_id d) = Ok tt /\
    kill_switches s !! (a_tenant_id a, a_action_type a) = Some true /\ validate_execution_binding s a v = Ok p /\
    actions s' = <[b_id b := b]> (actions s) /\ actions s !! b_id b = None /\ ar_business_action_id r = Some (b_id b) /\
    b_human_decision_id b = Some (hd_id d) /\ event_backed s' b /\
    resource_change s a v (a_resource_id a) (business s').
Proof.
  intros Hk Ho Hst Hr. destruct (execute_ok _ _ _ _ _ _ _ _ Hk Ho) as (Hf & a & d & v & k & Ha & Hrun & Hd & Hda & Hv & Hbind & Hout).
  split; [done|]. destruct Hout as [(Hs & _)|[(b & -> & _)|(b & p & -> & Has & Hc & Hsw & Hsc & Hval & Hh & Hex)]]; [congruence|done|].
  destruct Hex as [_ _ _ _ Hn Hact _ (Ei & _) (Ehd & _ & Hev) Hch]. rewrite <- Ei in Hn, Hact.
  exists a, d, v, b, p. rewrite (keyed_approvals _ Hk _ _ Ha) in Hda. split_and!; try done; [eauto|]. simpl. by rewrite Ei.
Qed.
End properties.
