(* ===== verification/Scenario.v ===== *)
(** * A concrete history of the system

    One customer, one pending request to revoke an API key: it is proposed,
    approved, picked up by a worker and executed; in the other branch the
    customer withdraws it.  The runs are evaluated in the kernel and instantiate
    the theorems on the approval ledger. *)
From Stdlib Require Import Ascii.
From S2P Require Import Prelude PyValue Sha256 CanonicalJson Timestamps Decimals RefundPolicy ActionSpecs Store.
From S2P Require Import EventChain Lifecycle RuntimeJobs Approvals Effects Governance.
Local Open Scope string_scope.
Local Open Scope list_scope.
Local Open Scope Z_scope.
#[local] Existing Instance ascii_runtime.

(** ** Before the proposal *)
Definition payload : pydict :=
  [("action_type", PyStr "api_key_revocation"); ("api_key_id", PyStr "key_1"); ("fingerprint", PyStr "fp");
   ("customer_id", PyStr "c1"); ("business_version", PyInt 3)].
Definition payload_hash : string := match action_hash payload with Ok h => h | Err _ => "" end.
Definition business_item : pydict :=
  [("tool_name", PyStr "query_api_key_metadata"); ("status", PyStr "ok"); ("resource_id", PyStr "key_1");
   ("resource_version", PyInt 3); ("observation_id", PyStr "OB1"); ("invocation_id", PyStr "IV1");
   ("observation_content_hash", PyStr "ch1"); ("turn_group_id", PyStr "TG1")].
Definition policy_item : pydict :=
  [("tool_name", PyStr "search_knowledge"); ("status", PyStr "ok"); ("source_refs", PyList [PyStr "doc"]);
   ("observation_id", PyStr "OB2"); ("invocation_id", PyStr "IV2"); ("observation_content_hash", PyStr "ch2");
   ("turn_group_id", PyStr "TG1")].
Definition proposal : ProposalRecord :=
  mk_proposal "P1" "t1" "R1" "api_key_revocation" "key_1" 3 "bound" 1 payload payload_hash [business_item; policy_item]
    (mk_binding None None None).
Definition revision0 : ApprovalActionRevision :=
  mk_revision "V0" "t1" "A1" "P1" "S1" 0 payload payload_hash 3 "agent" "initial".
Definition ticket : SupportTicket := mk_ticket "T1" "t1" "c1" "awaiting_approval" "active" "agent" None 4 0 1 0 None 0.
Definition run : AgentRun :=
  mk_run "R1" "t1" "T1" "c1" "M1" (Some "U1") "interrupted" 2 0 None None None None 0 0 0 0 "interrupted" None None
    "m" "fake" "native" "context-v1.2" (Some "ns") (Some "cp") (Some "cph") 5.
Definition turn : ConversationTurn :=
  mk_turn "U1" "t1" "T1" "M1" (Some "R1") 1 "running" None "agent" (Some "m") (Some "fake") (Some "native") None None.
Definition key : ApiKeyMetadata := mk_key "K1" "t1" "c1" "key_1" "fp" "active" 3.
Definition now : Z := 1784073600000000.
Definition scene_env (t : Z) : env := mk_env t t None (fun s => s) (fun _ _ _ _ => []).

Definition tables : store :=
  empty_store
  |> set_memberships {[ "MB1" := mk_membership "MB1" "t1" "approver" "support_approver" "active" ]}
  |> set_approver_scopes {[ ("approver", "t1") ]}
  |> set_kill_switches {[ ("t1", "api_key_revocation") := true ]}
  |> set_observations (<["OB1" := mk_observation "OB1" "t1" "R1" "J0" "IV1" "S0" 1 "ok" 1 "ch1"
                          [("data", PyDict [("api_key_id", PyStr "key_1"); ("version", PyInt 3)])]]>
                       {[ "OB2" := mk_observation "OB2" "t1" "R1" "J0" "IV2" "S0" 1 "ok" 1 "ch2" [("source_refs", PyList [PyStr "doc"])] ]})
  |> set_invocations (<["IV1" := mk_invocation "IV1" "t1" "R1" "J0" "TG1" "S0" 1 "call_1" "L1" 1 "query_api_key_metadata" "h1" 1
                                   "terminal" (Some "succeeded") (Some 0)]>
                      {[ "IV2" := mk_invocation "IV2" "t1" "R1" "J0" "TG1" "S0" 1 "call_2" "L2" 2 "search_knowledge" "h2" 1
                                    "terminal" (Some "succeeded") (Some 0) ]})
  |> set_turn_groups {[ "TG1" := mk_group "TG1" "t1" "R1" "J0" "S0" 1 1 1 2 "dh" "ch" "sh" "closed" (Some 0) ]}
  |> set_markers {[ "K1" := mk_marker "K1" "J0" "finalized" 3 "t1" (Some "cp") (Some "cph") (Some 5) ]}.
Definition rows0 : store :=
  tables |> put_ticket ticket |> put_run run |> put_turn turn |> put_api_key key |> put_proposal proposal |> put_revision revision0.
Definition opening : res (AgentEvent * store) :=
  append_event (fun s => s) rows0 "R1"
    (mk_args "run_interrupted" (PyDict []) "customer" "completed" None None None None None None None) None "E1" (utc now).
Definition first_event : AgentEvent :=
  match opening with
  | Ok (e, _) => e
  | Err _ => mk_event "" "" "" "" "" 0 0 0 0 "" "" "" None PyNone "" None "" "" "" "" "" "" None None None None None (utc 0)
  end.
Definition base_store : store := got opening rows0.
Definition approval : ApprovalRequest :=
  mk_approval "A1" "t1" "T1" "c1" (Some "P1") (Some "R1") "api_key_revocation" "api_key_id" "key_1" "pending" 1 None
    payload payload_hash 3 "idem-approval" None (Some "V0") (Some 0) (Some "K1") (Some "cp") (Some "ns") (Some "cph") 5
    (Some "E1") (Some 1) (Some (e_event_hash first_event)).
Definition proposed : store := put_approval approval base_store.

(** ** Approval and execution *)
Definition ids (n : string) : command_ids :=
  mk_command_ids ("idem" +:+ n) ("rev" +:+ n) ("dec" +:+ n) ("wd" +:+ n) ("act" +:+ n) ("ev" +:+ n) ("job" +:+ n)
    ("out" +:+ n) ("del" +:+ n) ("msg" +:+ n) ("aud" +:+ n)
    (mk_ids ("run" +:+ n) ("tev" +:+ n) ("tjob" +:+ n) ("tout" +:+ n) ("tdel" +:+ n) ("tmsg" +:+ n)).
Definition approve_args : decide_args :=
  mk_decide "t1" "A1" "approve" "approver" "req-1" "ok" "trace" None None.
Definition decided_result : res (DecisionAccepted * store) := decide_approval proposed (scene_env (now + 1)) (ids "1") approve_args.
Definition approved : store := got decided_result proposed.
Definition claimed_result : res (JobLease * store) := claim approved (scene_env (now + 2)) "job1" "w1" 30.
Definition claimed_store : store := got claimed_result approved.
Definition lease : JobLease :=
  mk_lease "job1" "R1" "t1" "w1" 1 (now + 2 + 30 * second) "approval_resume" (Some "A1") 1 (Some "T1") (Some 1).
Definition executed_result : res (ActionResult * store) :=
  execute claimed_store (scene_env (now + 3)) (ids "2") lease "A1" None.
Definition executed_store : store := got executed_result claimed_store.
Definition again_result : res (ActionResult * store) :=
  execute executed_store (scene_env (now + 4)) (ids "3") lease "A1" None.
Definition again_store : store := got again_result executed_store.

(** ** Withdrawal *)
Definition withdraw_with (idem : string) : withdraw_args := mk_withdraw "t1" "c1" "user1" "A1" idem "changed my mind" "trace".
Definition withdrawn_result : res (WithdrawalAccepted * store) :=
  withdraw utc proposed (scene_env (now + 1)) (ids "1") (withdraw_with "w-1").
Definition withdrawn_store : store := got withdrawn_result proposed.

(** A second withdrawal under another idempotency key is answered from the
    first, as long as the driver returns aware timestamps; SQLite does not, and
    the answer cannot be formatted. *)
Example withdraw_again_aware :
  match withdraw utc withdrawn_store (scene_env (now + 2)) (ids "2") (withdraw_with "w-2") with
  | Ok (w, _) => wa_reused w
  | Err _ => false
  end = true.
Proof. vm_compute. reflexivity. Qed.
Lemma repeated_withdrawal_needs_aware_witness :
  withdraw (fun t => mk_datetime t None) withdrawn_store (scene_env (now + 2)) (ids "2") (withdraw_with "w-2")
  = Err (ValueError "canonical_timestamp_requires_aware_datetime").
Proof.
  set (step := accept withdrawn_store (scene_env (now + 2)) "idem2" "t1" "user1" (withdraw_route "T1" "A1") "w-2"
                 [("reason", PyStr "changed my mind")] [] [] None).
  assert (exists a t c s1 w,
    get_where (approvals withdrawn_store) "A1" (fun a => a_tenant_id a ==? "t1") = Some a /\ a_customer_id a = "c1" /\
    get_where (tickets withdrawn_store) (a_ticket_id a) (fun t => (t_tenant_id t ==? "t1") && (t_customer_id t ==? "c1")) = Some t /\
    a_id a = "A1" /\ t_id t = "T1" /\ step = Ok (c, s1) /\ reused c = false /\
    head (select_where (fun x => (wd_approval_id x ==? a_id a) && (wd_tenant_id x ==? "t1")) (withdrawals s1)) = Some w)
    as (a & t & c & s1 & w & Ha & Hc & Ht & Hia & Hit & Hs & Hr & Hw).
  { do 5 eexists. vm_compute. repeat split; reflexivity. }
  apply (repeated_withdrawal_needs_aware (fun t => mk_datetime t None) withdrawn_store (scene_env (now + 2)) (ids "2")
           (withdraw_with "w-2") a t c s1 w Ha Hc Ht).
  - rewrite Hia, Hit. exact Hs.
  - exact Hr.
  - exact Hw.
  - reflexivity.
Defined.

(** ** The history *)
Lemma tables_keyed : keyed tables.
Proof.
  split; simpl; intros ? ? H; repeat (apply lookup_insert_Some in H as [[<- <-]|[_ H]]; [done|]);
    (by rewrite lookup_empty in H) || (by apply lookup_singleton_Some in H as [<- <-]).
Qed.
Lemma opening_ok : opening = Ok (first_event, base_store).
Proof. vm_compute. reflexivity. Qed.
Lemma base_silent : silent rows0 base_store.
Proof. eapply append_silent; [exact opening_ok|apply silent_refl]. Qed.
Lemma base_keyed : keyed base_store.
Proof.
  apply base_silent.
  exact (keyed_put_revision _ _ (keyed_put_proposal _ _ (keyed_put_api_key _ _ (keyed_put_turn _ _ (keyed_put_run _ _
           (keyed_put_ticket _ _ tables_keyed)))))).
Qed.
Definition decision_answer : DecisionAccepted :=
  mk_decision_accepted "A1" "T1" "R1" (Some "job1") "approve" (utc (now + 1)) false.
Lemma decided_ok : decide_approval proposed (scene_env (now + 1)) (ids "1") approve_args = Ok (decision_answer, approved).
Proof. vm_compute. reflexivity. Qed.
Lemma claimed_ok : claim approved (scene_env (now + 2)) "job1" "w1" 30 = Ok (lease, claimed_store).
Proof. vm_compute. reflexivity. Qed.
Definition first_result : ActionResult := succeeded "act2" "api_key_revocation" "key_1" false.
Definition second_result : ActionResult := succeeded "act2" "api_key_revocation" "key_1" true.
Lemma executed_ok :
  execute claimed_store (scene_env (now + 3)) (ids "2") lease "A1" None = Ok (first_result, executed_store).
Proof. vm_compute. reflexivity. Qed.
Lemma again_ok :
  execute executed_store (scene_env (now + 4)) (ids "3") lease "A1" None = Ok (second_result, again_store).
Proof. vm_compute. reflexivity. Qed.
Definition withdrawal_answer : WithdrawalAccepted := mk_withdrawal_accepted "A1" "T1" "wd1" (utc (now + 1)) false.
Lemma withdrawn_ok :
  withdraw utc proposed (scene_env (now + 1)) (ids "1") (withdraw_with "w-1") = Ok (withdrawal_answer, withdrawn_store).
Proof. vm_compute. reflexivity. Qed.

Lemma proposed_reachable : rtc system_step empty_store proposed.
Proof.
  eapply rtc_l; [apply (sy_other _ base_store); [reflexivity..|apply base_keyed]|].
  eapply rtc_l; [|apply rtc_refl]. apply sy_propose; reflexivity.
Qed.
Lemma approved_step : system_step proposed approved.
Proof. exact (sy_decide _ _ _ _ _ _ decided_ok). Qed.
Lemma claimed_step : system_step approved claimed_store.
Proof. apply sy_job. exact (js_claim _ _ _ _ _ _ _ claimed_ok). Qed.
Lemma executed_step : system_step claimed_store executed_store.
Proof. exact (sy_execute _ _ _ _ _ _ _ _ executed_ok). Qed.
Lemma withdrawn_step : system_step proposed withdrawn_store.
Proof. exact (sy_withdraw _ _ _ _ _ _ _ withdrawn_ok). Qed.
Lemma claimed_reachable : rtc system_step empty_store claimed_store.
Proof.
  etransitivity; [exact proposed_reachable|]. eapply rtc_l; [exact approved_step|]. eapply rtc_l; [exact claimed_step|]. apply rtc_refl.
Qed.
Lemma executed_reachable : rtc system_step empty_store executed_store.
Proof. etransitivity; [exact claimed_reachable|]. eapply rtc_l; [exact executed_step|apply rtc_refl]. Qed.
Lemma proposed_governed : governed proposed.
Proof. exact (governed_steps _ _ governed_empty proposed_reachable). Qed.
Lemma claimed_governed : governed claimed_store.
Proof. exact (governed_steps _ _ governed_empty claimed_reachable). Qed.
Definition first_action : BusinessAction :=
  match actions executed_store !! "act2" with
  | Some b => b
  | None => mk_action "" "" "" "" "" "" 0 "" "" None None None "" None None "" "" []
  end.
Lemma first_action_found : actions executed_store !! "act2" = Some first_action.
Proof. vm_compute. reflexivity. Qed.

(** ** Witnesses *)
Lemma ledger_invariant_witness : governed approved.
Proof. exact (ledger_invariant proposed approved proposed_governed approved_step). Defined.

Lemma effect_authorised_witness :
  exists a d, approvals executed_store !! b_approval_id first_action = Some a /\ a_status a = "executed" /\
    (exists j, decisions executed_store !! j = Some d) /\ hd_approval_id d = b_approval_id first_action /\
    hd_decision d ∈ ["approve"; "edit_and_approve"] /\ hd_action_hash d = Some (b_action_hash first_action) /\
    b_human_decision_id first_action = Some (hd_id d) /\
    forall j e, decisions executed_store !! j = Some e -> hd_approval_id e = b_approval_id first_action -> e = d.
Proof. exact (effect_authorised executed_store "act2" first_action executed_reachable first_action_found). Defined.

Lemma effects_at_most_once_witness : "act2" = "act2" /\ first_action = first_action.
Proof.
  exact (effects_at_most_once executed_store "act2" "act2" first_action first_action executed_reachable
           first_action_found first_action_found (or_introl eq_refl)).
Defined.

Definition withdrawn_row : ApprovalRequest := match approvals withdrawn_store !! "A1" with Some a => a | None => approval end.
Lemma closed_approval_never_acts_witness :
  (exists a', approvals withdrawn_store !! "A1" = Some a' /\ a_status a' = a_status withdrawn_row) /\
  forall k b, actions withdrawn_store !! k = Some b -> b_approval_id b <> "A1".
Proof.
  apply (closed_approval_never_acts withdrawn_store withdrawn_store "A1" withdrawn_row).
  - exact (governed_step _ _ proposed_governed withdrawn_step).
  - vm_compute. reflexivity.
  - apply mem_true. vm_compute. reflexivity.
  - intros E%eqb_true. vm_compute in E. discriminate E.
  - apply rtc_refl.
Defined.

Lemma execution_idempotent_witness :
  ar_business_action_id second_result = ar_business_action_id first_result /\ ar_status second_result = "succeeded" /\
  ar_reused second_result = true /\ actions again_store = actions executed_store.
Proof.
  exact (execution_idempotent claimed_store (scene_env (now + 3)) (ids "2") lease "A1" None first_result executed_store
           executed_store (scene_env (now + 4)) (ids "3") lease None second_result again_store claimed_governed
           executed_ok eq_refl (rtc_refl _ _) again_ok).
Defined.

Lemma system_refines_automaton_witness : automaton_step (phases proposed) (phases approved).
Proof. exact (system_refines_automaton proposed approved proposed_governed approved_step). Defined.

Lemma approval_settles_witness :
  changes (map (fun x => phases x !! "A1") [proposed; approved; claimed_store; executed_store]) = 2%nat /\
  (changes (map (fun x => phases x !! "A1") [proposed; approved; claimed_store; executed_store]) <= 2)%nat.
Proof.
  split; [vm_compute; reflexivity|].
  apply (approval_settles proposed [approved; claimed_store; executed_store] "A1").
  - exact proposed_governed.
  - split; [exact approved_step|]. split; [exact claimed_step|]. split; [exact executed_step|exact I].
  - vm_compute. discriminate.
Defined.

Lemma decision_recorded_witness :
  (da_reused decision_answer = true /\ same_ledger proposed approved) \/
  (da_reused decision_answer = false /\ assert_active_approver_scope proposed "t1" "approver" = Ok tt /\
   exists a, approvals proposed !! "A1" = Some a /\ a_tenant_id a = "t1" /\
     (forall k h, decisions proposed !! k = Some h -> hd_approval_id h <> a_id a) /\
     pending_decision proposed approved (scene_env (now + 1)) (ids "1") approve_args a).
Proof.
  apply (decision_recorded proposed (scene_env (now + 1)) (ids "1") approve_args decision_answer approved).
  - exact (gv_keyed _ proposed_governed).
  - exact decided_ok.
Defined.

Lemma withdrawal_recorded_witness :
  (wa_reused withdrawal_answer = true /\ same_ledger proposed withdrawn_store) \/
  (wa_reused withdrawal_answer = false /\ decisions withdrawn_store = decisions proposed /\
   actions withdrawn_store = actions proposed /\
   exists a a', approvals proposed !! "A1" = Some a /\ a_customer_id a = "c1" /\ a_status a = "pending" /\
     (forall k h, decisions proposed !! k = Some h -> hd_approval_id h <> a_id a) /\
     approvals withdrawn_store = <["A1" := a']> (approvals proposed) /\ a_status a' = "withdrawn").
Proof.
  apply (withdrawal_recorded utc proposed (scene_env (now + 1)) (ids "1") (withdraw_with "w-1") withdrawal_answer withdrawn_store).
  - exact (gv_keyed _ proposed_governed).
  - exact withdrawn_ok.
Defined.

Lemma effect_requirements_witness :
  exists a v, approvals claimed_store !! "A1" = Some a /\ resource_change claimed_store a v "key_1" (business executed_store).
Proof.
  destruct (effect_requirements claimed_store (scene_env (now + 3)) (ids "2") lease "A1" None first_result executed_store
              (gv_keyed _ claimed_governed) executed_ok eq_refl eq_refl) as
    (_ & a & d & v & b & p & Ha & _ & _ & _ & _ & _ & _ & _ & _ & _ & _ & _ & _ & _ & _ & _ & _ & Hch).
  exists a, v. split; [exact Ha|].
  assert (Some (a_resource_id a) = Some "key_1") as E.
  { transitivity (a_resource_id <$> approvals claimed_store !! "A1"); [rewrite Ha; reflexivity|vm_compute; reflexivity]. }
  injection E as <-. exact Hch.
Defined.

Definition sub : Subscription := mk_subscription "S1" "t1" "c1" "pro" 60 4 7.
Definition catalog : store := set_plans {[ "PC1" := mk_plan "PC1" "pro" 10 600 1 16 2 ]} empty_store.
Lemma quota_within_catalog_witness :
  entitlement_refusal catalog sub "quota_change" [("concurrency_limit", PyInt 8)] = Ok None /\
  exists c, pc_plan c = "pro" /\ (exists i, plans catalog !! i = Some c).
Proof.
  assert (entitlement_refusal catalog sub "quota_change" [("concurrency_limit", PyInt 8)] = Ok None) as E by (vm_compute; reflexivity).
  split; [exact E|].
  destruct (quota_within_catalog catalog sub (set_sb_concurrency_limit 8 sub) [("concurrency_limit", PyInt 8)] E) as (_ & c & Hin & Hp & _);
    [vm_compute; reflexivity|]. exists c. split; [exact Hp|exact Hin].
Defined.
